(* ===== verification/_CoqProject ===== *)
-Q . S2P
Prelude.v
PyVal.v
JsonCodec.v
Decimal.v
Values.v
PyDate.v
PyUuid.v
Digest.v
RulePack.v
Geometry.v
Graph.v
GraphSpec.v
Numeric.v
NumericValue.v
NumericSpec.v
NumericEvidence.v
Normalize.v
NormalizeSpec.v
NumericAnalysis.v
Claims.v
ClaimsSpec.v
Rules.v
RulesSpec.v
ScopeRules.v
Rescore.v
Citations.v
CitationsSpec.v
AuditChain.v
Reconcile.v
ReconcileSpec.v
Regulatory.v
Jobs.v
JobsSpec.v
Budget.v
BudgetSpec.v
ResponseCache.v
ResponseCacheSpec.v
Consensus.v
ConsensusSpec.v
SpendGuard.v
SpendGuardSpec.v
Authorization.v
AuthorizationSpec.v
Retention.v
RetentionSpec.v
RunGates.v
RulePacks.v
RulePacksSpec.v
Rows.v
RulePackStore.v
RulePackStoreSpec.v
SourceRefs.v
Packets.v
PacketsSpec.v
Retrieval.v
RetrievalSpec.v
ReviewStore.v
ReviewStoreSpec.v
Regex.v
ReportLevel.v
ReportLevelSpec.v
LocalIdentity.v
LocalIdentitySpec.v
Binding.v
BindingSpec.v
