(* ===== verification/Prelude.v ===== *)
(** * A verification library for ESG ProofOps.

    ESG ProofOps reads sustainability reports, finds the claims they make,
    tags the evidence for each claim with language models and grades it with a
    pinned rule pack. The code decides what may be published from untrusted
    parser and model output, so the library models its deciding core: the pure
    domain layer under [src/packages/proofops/domain], the application
    services around it under [.../application], and the durable stores whose
    transactions those services rely on under [.../adapters]. Paths below are
    relative to [src/packages/proofops] unless they start with [apps/] (then
    to [src]). Every definition that translates code names its lines in its
    doc comment.

    ** How a document becomes a decision, and where each step is modelled

    - Parsers report candidate blocks. [Geometry.v] (domain/documents.py,
      application/ingest/geometry.py) holds the page geometry, native texts
      and source references; [Graph.v], [GraphSpec.v]
      (application/ingest/graph_fusion.py) fuse the candidates of several
      parsers into the canonical graph.
    - [Claims.v], [ClaimsSpec.v] (application/claims.py,
      application/ingest/source_continuations.py) walk the graph and turn
      model replies into claims, everything else into exclusions.
    - [Citations.v], [CitationsSpec.v] (application/evidence/citations.py,
      span_citations.py, packet_guard.py) verify a reference against the
      graph and guard the packet a model may see. [SourceRefs.v]
      (application/ingest/source_continuations.py) collapses parser copies of
      a reference and matches the quote of a claim with what it cites.
    - [Retrieval.v], [RetrievalSpec.v] (application/evidence/retrieval.py)
      retrieve the evidence of a claim: table and section lineage, the index
      and search routes, rank fusion, whole bundles under a token budget.
      [Packets.v], [PacketsSpec.v] (the same file and
      application/tagging/tracks.py) freeze the packet and select its track.
    - [Binding.v], [BindingSpec.v] (application/evidence/binding.py) decide
      whether a reference is evidence for an element of a claim;
      [ReportLevel.v], [ReportLevelSpec.v] (report_level.py) the credit of a
      statement of the whole report; [LocalIdentity.v], [LocalIdentitySpec.v]
      (relation_attribution.py, application/tagging/k9_contract.py,
      k2_recovery.py, q1_contract.py, application/ingest/k5_context.py) the
      rules that read the literal text; [Regex.v] the regular expressions
      they use, with a matcher proved exact against their meaning.
    - [Normalize.v], [NormalizeSpec.v] (application/ingest/normalize.py) read
      tables into observations; [Numeric.v], [NumericValue.v],
      [NumericEvidence.v], [NumericSpec.v] (domain/numeric.py,
      domain/periods.py) compare a numeric claim with them, and
      [NumericAnalysis.v] (application/numeric_analysis.py) runs the
      comparison over the bindings of a run.
    - [Values.v] (domain/values.py) is the boundary around a tagger's reply;
      [Consensus.v], [ConsensusSpec.v] (application/tagging/consensus.py) turn
      three guarded replies into confirmed tags or reasons for a review.
    - [RulePack.v] (domain/rulepacks.py, domain/provenance.py) is the pinned
      pack; [Rules.v], [RulesSpec.v] (domain/rules/engine.py and its tracks
      and exceptions) grade the tags; [ScopeRules.v] (analysis_scope.py,
      cf6_scope.py, safe_harbor.py) holds the scoped profiles; [Rescore.v]
      (application/rescores.py) grades the same tags under another pack.
    - [RulePacks.v], [RulePacksSpec.v] (application/rulepacks.py) validate and
      activate packs and record delegated reviews; [RulePackStore.v],
      [RulePackStoreSpec.v] (adapters/local/rulepack_store.py) keep them.
      [PyUuid.v] reads UUID texts as [uuid.UUID] does.
    - [Reconcile.v], [ReconcileSpec.v] (domain/reconciliation) compare a
      claim with reported facts; [Regulatory.v] (domain/applicability.py,
      domain/regulatory.py) resolves industry topics and deferrals.
    - [RunGates.v] (application/mode_gate.py, tagging/tracks.py, coverage.py)
      guards which rules a run may use, its track classification and its
      progress counters.

    Around these steps stand the stores and their policies: [Jobs.v],
    [JobsSpec.v] (adapters/local/job_store.py, claim_store.py,
    application/ports/jobs.py) for leased jobs, actions and the outbox;
    [Budget.v], [BudgetSpec.v] (application/budget.py, adapters/aws/usage.py)
    and [SpendGuard.v], [SpendGuardSpec.v] (adapters/local/spend_guard.py) for
    tokens and money; [ReviewStore.v], [ReviewStoreSpec.v]
    (adapters/local/review_store.py) for the revisions of a reviewed claim
    and the source condition records; [ResponseCache.v], [ResponseCacheSpec.v]
    (adapters/cache/aws.py) for provider responses; [AuditChain.v]
    (domain/audit.py, adapters/local/audit_store.py) for the audit log;
    [Authorization.v], [AuthorizationSpec.v] (application/authorization.py,
    adapters/local/auth_store.py, apps/api/.../session.py) for sessions and
    tenants; [Retention.v], [RetentionSpec.v] (application/retention.py,
    apps/worker/.../deletion.py) for deletion.

    ** The shared base

    This file has the string, list, sorting and error-monad layer and the
    tactics ([open_run], [str_prop], [case_all]). [PyVal.v] is the Python
    value type with [json.dumps] and [json.loads], [JsonCodec.v] their round
    trip, [Decimal.v] the decimal arithmetic, [PyDate.v] the ISO dates,
    [Digest.v] SHA-256 and the class [Digest] the other files use, [Rows.v]
    the keyed rows of the SQL tables.

    ** How the code is represented

    - A call that may raise returns [result]: [Ok v] or [Raise e] with the
      exception's class. A transaction that raises is rolled back, so a store
      operation returns the new store only on success.
    - A frozen dataclass is a record and its [__post_init__] a function
      [mk_..] from the raw record to [result]; a type check that the record's
      field types make impossible to fail is not repeated.
    - A Python string is the list of its code points, a dict with string keys
      an association list in insertion order, a set a list of which only
      membership is used, an int a [Z], a float a binary64 [spec_float], a
      [Fraction] a rational, a [Decimal] sign, coefficient and exponent.
    - What a port promises is a class ([CacheClient], [SessionPort],
      [MembershipPort], [DeletionPort], [Digest], [Stages]), the in-memory or
      SQLite implementation its instance.
    - Concurrency is the interleaving of atomic operations: a temporal theorem
      quantifies over every later sequence of operations ([after],
      [after_ops], [..._reachable]).

    ** What the theorems show

    - Evidence is never invented: discovery covers every character of a
      document and cites only its text, and its citations pass the verifier,
      which accepts nothing the snapshot does not hold; a retrieved candidate
      holds only verified references, every block is a candidate, omitted or
      reported unprocessed, and a search result can order what is considered
      but not make it evidence; a reference is bound only when its sources
      are verified, its roles agree with the claim's and the element's scopes
      allow it; a model reply cannot
      affect another block; every table cell is accounted for; a decided
      numeric verdict is exactly what the printed roundings allow and rests on
      verified sources.
    - A grade is earned: three unanimous guarded replies, a grade that no
      unresolved fact could change, a range that is exact, a safe-harbor claim
      that is never graded, a rescore that never fills in an observation.
    - Rules are administered safely: validation is a declarative contract, a
      validated pack always freezes, a tenant's default pack is unique,
      approved and never rewritten, a delegated review stays attributable; the
      durable store simulates the registry, is append-only and replays a
      request idempotently.
    - The stores keep their promises: fencing tokens, final commits, final
      cancellations, optimistic revisions; budgets and spending caps in every
      reachable state; published review rows that no statement can change, one
      resolution per revision, heads that end a gap-free history; a write-once
      cache that refines its specification; a
      tamper-evident audit chain whose append the verifier accepts.
    - Tenants are isolated: [authorize] is characterised exactly, a
      non-member cannot tell whether a tenant exists, an ended session is
      powerless for ever, a tombstone is final and its replay purges what a
      restore brought back.
    - Codecs and boundaries: round trips of snapshots and of tagger output,
      boundaries that raise nothing but what they declare, order independence
      of fusion and consensus, termination of the reconciliation engine on
      every validated packet.

    ** Bounds and fuel

    Recursion that is not structural carries fuel that its caller sets from
    the input: the length of the text for scanners (each step consumes a
    character), the number of blocks or edges for graph walks (each round
    visits a new one, or pops an id that an edge pushed), the number of
    binary digits for decimal conversions.
    The theorems state results for every input, round trips and coverage
    among them, which would fail if the fuel ran out. Machine bounds that the
    code enforces are in the definitions: the 64-bit columns of SQLite, the
    4300 digit limit of [str(int)], the overflow of [float(int)]. The
    exponent limits of the decimal module are not modelled.

    ** Parameters

    NFC, case folding, [str.isalnum], [str.isdigit], the [\d] class, [repr]
    of a string, [uuid5], the HMAC, random ids, the search port, the token
    counter and the provider calls are arguments, used only through the
    hypotheses a theorem names. SHA-256 is an executable function behind
    [Digest]; no theorem assumes that it is injective.

    ** Not modelled

    PDF, OCR and layout code, which decides on the output of libraries that
    are not part of the repository; the transports of model providers; the
    FastAPI routers, the web client and the agent prompts; the opt-in
    assemblies over evidence packets; the services that replay
    review inputs; reports, exports, evaluation, scripts and deployment. *)
From stdpp Require Export base tactics list gmap.
From Stdlib Require Export ZArith NArith Bool Lia.
From Stdlib Require Strings.Byte.
From Stdlib Require Export Sorting.Sorted.

#[export] Set Default Proof Using "Type".

(* ------------------------------------------------------------------ *)
(** ** Python strings: sequences of Unicode code points *)
(* ------------------------------------------------------------------ *)

Abbreviation pystr := (list N).

(** Literals are written as ordinary string literals; the source file is
    UTF-8, so a literal decodes to the code points Python would see. *)
Inductive literal : Set :=
| LitNil
| LitCons (c : N) (s : literal).

(** [utf8_take k acc bs] reads [k] continuation bytes. *)
Fixpoint utf8_decode (fuel : nat) (bs : list N) : literal :=
  match fuel with
  | O => LitNil
  | S fuel =>
      match bs with
      | [] => LitNil
      | b :: r =>
          if (b <? 128)%N then LitCons b (utf8_decode fuel r)
          else if (b <? 224)%N then
            match r with
            | c1 :: r => LitCons ((b - 192) * 64 + (c1 - 128))%N (utf8_decode fuel r)
            | _ => LitNil
            end
          else if (b <? 240)%N then
            match r with
            | c1 :: c2 :: r =>
                LitCons ((b - 224) * 4096 + (c1 - 128) * 64 + (c2 - 128))%N
                  (utf8_decode fuel r)
            | _ => LitNil
            end
          else
            match r with
            | c1 :: c2 :: c3 :: r =>
                LitCons ((b - 240) * 262144 + (c1 - 128) * 4096 + (c2 - 128) * 64
                         + (c3 - 128))%N (utf8_decode fuel r)
            | _ => LitNil
            end
      end
  end.

Definition literal_parse (bs : list Byte.byte) : literal :=
  utf8_decode (length bs) (Byte.to_N <$> bs).

Definition utf8_bytes (c : N) : list N :=
  if (c <? 128)%N then [c]
  else if (c <? 2048)%N then [192 + c / 64; 128 + c mod 64]%N
  else if (c <? 65536)%N then [224 + c / 4096; 128 + c / 64 mod 64; 128 + c mod 64]%N
  else [240 + c / 262144; 128 + c / 4096 mod 64; 128 + c / 64 mod 64; 128 + c mod 64]%N.

Fixpoint literal_bytes (s : literal) : list N :=
  match s with
  | LitNil => []
  | LitCons c s => utf8_bytes c ++ literal_bytes s
  end.

Definition literal_print (s : literal) : option (list Byte.byte) :=
  mapM Byte.of_N (literal_bytes s).

Declare Scope py_scope.
Delimit Scope py_scope with py.
#[warnings="-via-type-mismatch"]
String Notation list literal_parse literal_print
  (via literal mapping [[nil] => LitNil, [cons] => LitCons]) : py_scope.
Open Scope py_scope.

(** Equality of strings as an executable boolean. *)
Fixpoint str_eqb (a b : pystr) : bool :=
  match a, b with
  | [], [] => true
  | x :: a, y :: b => (x =? y)%N && str_eqb a b
  | _, _ => false
  end.

Infix "=s?" := str_eqb (at level 70, no associativity) : py_scope.

Lemma str_eqb_eq (a b : pystr) : str_eqb a b = true ↔ a = b.
Proof.
  revert b; induction a as [|x a IH]; intros [|y b]; simpl; try (split; congruence).
  rewrite andb_true_iff, IH, N.eqb_eq. split; [intros [-> ->]; done | by intros [= -> ->]].
Qed.

Lemma str_eqb_spec (a b : pystr) : reflect (a = b) (str_eqb a b).
Proof. apply iff_reflect. symmetry. apply str_eqb_eq. Qed.

Lemma str_eqb_refl (a : pystr) : str_eqb a a = true.
Proof. by apply str_eqb_eq. Qed.

Lemma str_eqb_neq (a b : pystr) : str_eqb a b = false ↔ a ≠ b.
Proof. rewrite <- str_eqb_eq. by destruct (str_eqb a b). Qed.

(** [x in (..)] over strings. *)
Definition str_in (x : pystr) (l : list pystr) : bool := existsb (str_eqb x) l.

Lemma str_in_iff (x : pystr) (l : list pystr) : str_in x l = true ↔ x ∈ l.
Proof.
  unfold str_in. rewrite existsb_exists. split.
  - intros (y & Hy & ->%str_eqb_eq). by apply list_elem_of_In.
  - intros H. exists x. split; [by apply list_elem_of_In | apply str_eqb_refl].
Qed.

Lemma str_in_spec (x : pystr) (l : list pystr) : reflect (x ∈ l) (str_in x l).
Proof. apply iff_reflect. symmetry. apply str_in_iff. Qed.

Lemma str_in_false (x : pystr) (l : list pystr) : str_in x l = false ↔ x ∉ l.
Proof. rewrite <- str_in_iff. by destruct (str_in x l). Qed.

(** Code-point lexicographic order, the order [sorted], [min] and [max] use. *)
Fixpoint str_leb (a b : pystr) : bool :=
  match a, b with
  | [], _ => true
  | _ :: _, [] => false
  | x :: a, y :: b => if (x <? y)%N then true else if (x =? y)%N then str_leb a b else false
  end.

Lemma str_leb_refl (a : pystr) : str_leb a a = true.
Proof. induction a as [|x a IH]; [done|]. simpl. by rewrite N.ltb_irrefl, N.eqb_refl. Qed.

Lemma str_leb_total (a b : pystr) : str_leb a b = true ∨ str_leb b a = true.
Proof.
  revert b; induction a as [|x a IH]; intros [|y b]; simpl; auto.
  destruct (N.ltb_spec x y), (N.ltb_spec y x); auto; try lia.
  assert (x = y) as -> by lia. rewrite !N.eqb_refl. apply IH.
Qed.

Lemma str_leb_trans (a b c : pystr) :
  str_leb a b = true → str_leb b c = true → str_leb a c = true.
Proof.
  revert b c; induction a as [|x a IH]; intros [|y b] [|z c]; simpl; try done.
  destruct (N.ltb_spec x y), (N.eqb_spec x y), (N.ltb_spec y z), (N.eqb_spec y z);
    intros H1 H2; try done; subst;
    repeat match goal with |- context [(?p <? ?q)%N] => destruct (N.ltb_spec p q); try lia end;
    try done.
  rewrite N.eqb_refl. eauto.
Qed.

Lemma str_leb_antisym (a b : pystr) :
  str_leb a b = true → str_leb b a = true → a = b.
Proof.
  revert b; induction a as [|x a IH]; intros [|y b]; simpl; try done.
  destruct (N.ltb_spec x y), (N.eqb_spec x y), (N.ltb_spec y x), (N.eqb_spec y x);
    intros H1 H2; try done; try lia. subst. f_equal. eauto.
Qed.

(** ** String operations *)

(** [str.isspace] of one code point; [strip()] and the regex [\s] use it. *)
Definition is_space (c : N) : bool :=
  ((9 <=? c) && (c <=? 13) || (28 <=? c) && (c <=? 32) || (c =? 133) || (c =? 160)
   || (c =? 5760) || (8192 <=? c) && (c <=? 8202) || (c =? 8232) || (c =? 8233)
   || (c =? 8239) || (c =? 8287) || (c =? 12288))%N.

Definition is_digit (c : N) : bool := ((48 <=? c) && (c <=? 57))%N.

Fixpoint lstrip (s : pystr) : pystr :=
  match s with
  | c :: r => if is_space c then lstrip r else s
  | [] => []
  end.

Definition rstrip (s : pystr) : pystr := rev (lstrip (rev s)).
Definition strip (s : pystr) : pystr := rstrip (lstrip s).

(** [bool(s.strip())] *)
Definition nonblank (s : pystr) : bool := existsb (λ c, negb (is_space c)) s.

Definition nonempty (s : pystr) : bool := match s with [] => false | _ => true end.

(** [bool(l)] of a sequence. *)
Definition nonempty_list {A} (l : list A) : bool := match l with [] => false | _ => true end.

Lemma lstrip_nil_iff (s : pystr) : lstrip s = [] ↔ nonblank s = false.
Proof.
  induction s as [|c s IH]; [done|]. simpl.
  destruct (is_space c); simpl; [exact IH | done].
Qed.

Lemma nonblank_app (a b : pystr) : nonblank (a ++ b) = nonblank a || nonblank b.
Proof. apply existsb_app. Qed.

Lemma nonblank_rev (s : pystr) : nonblank (rev s) = nonblank s.
Proof.
  induction s as [|c s IH]; [done|]. simpl.
  rewrite nonblank_app, IH. simpl. rewrite orb_false_r. apply orb_comm.
Qed.

Lemma nonblank_lstrip (s : pystr) : nonblank (lstrip s) = nonblank s.
Proof.
  induction s as [|c s IH]; [done|]. simpl.
  destruct (is_space c) eqn:E; simpl; rewrite ?E; [exact IH | done].
Qed.

(** [nonblank] is the truth value of [s.strip()]. *)
Lemma strip_nil_iff (s : pystr) : strip s = [] ↔ nonblank s = false.
Proof.
  unfold strip, rstrip. rewrite <- (nonblank_lstrip s).
  set (t := lstrip s). rewrite <- (nonblank_rev t), <- lstrip_nil_iff.
  split; [|by intros ->]. intros H%(f_equal (@rev N)). by rewrite rev_involutive in H.
Qed.

Fixpoint starts_with (p s : pystr) : bool :=
  match p, s with
  | [], _ => true
  | x :: p, y :: s => (x =? y)%N && starts_with p s
  | _ :: _, [] => false
  end.

Fixpoint take_while {A} (p : A → bool) (l : list A) : list A :=
  match l with x :: r => if p x then x :: take_while p r else [] | [] => [] end.

(** [p in s] for strings. *)
Fixpoint contains (p s : pystr) : bool :=
  starts_with p s || match s with [] => false | _ :: r => contains p r end.

(** [sep.join(l)] *)
Fixpoint str_join (sep : pystr) (l : list pystr) : pystr :=
  match l with
  | [] => []
  | [x] => x
  | x :: r => x ++ sep ++ str_join sep r
  end.

(** [s[a:b]] for [0 <= a], [0 <= b]. *)
Definition slice (s : pystr) (a b : Z) : pystr :=
  take (Z.to_nat b - Z.to_nat a) (drop (Z.to_nat a) s).

Definition py_len {A} (l : list A) : Z := Z.of_nat (length l).

Lemma slice_length (s : pystr) (a b : Z) :
  (0 <= a <= b)%Z → (b <= py_len s)%Z → py_len (slice s a b) = (b - a)%Z.
Proof.
  unfold py_len, slice. intros [Ha Hab] Hb. rewrite length_take, length_drop. lia.
Qed.

(** The value of a run of ASCII digits, [int(s)] on such a string. *)
Definition digits_value (s : pystr) : N :=
  foldl (λ acc c, acc * 10 + (c - 48))%N 0%N s.

Definition all_digits (s : pystr) : bool := forallb is_digit s.

(* ------------------------------------------------------------------ *)
(** ** Sorting and deduplication *)
(* ------------------------------------------------------------------ *)

Section sorting.
Context {A : Type} (leb : A → A → bool).

Fixpoint insert_sorted (x : A) (l : list A) : list A :=
  match l with
  | [] => [x]
  | y :: r => if leb x y then x :: l else y :: insert_sorted x r
  end.

(** [sorted(l, key=..)]; stable, because an element is inserted before
    the equal ones that follow it in the source. *)
Definition isort (l : list A) : list A := foldr insert_sorted [] l.

Lemma insert_sorted_perm x l : insert_sorted x l ≡ₚ x :: l.
Proof.
  induction l as [|y l IH]; [done|]. simpl. destruct (leb x y); [done|].
  rewrite IH. apply Permutation_swap.
Qed.

Lemma isort_perm l : isort l ≡ₚ l.
Proof.
  induction l as [|x l IH]; [done|]. simpl. by rewrite insert_sorted_perm, IH.
Qed.

Lemma elem_of_isort x l : x ∈ isort l ↔ x ∈ l.
Proof. by rewrite isort_perm. Qed.

Context (leb_total : ∀ x y, leb x y = true ∨ leb y x = true).
Context (leb_trans : ∀ x y z, leb x y = true → leb y z = true → leb x z = true).

Lemma insert_sorted_sorted x l :
  StronglySorted (λ a b, leb a b = true) l →
  StronglySorted (λ a b, leb a b = true) (insert_sorted x l).
Proof using A leb leb_total leb_trans.
  induction 1 as [|y l Hl IH Hy]; simpl; [repeat constructor|].
  destruct (leb x y) eqn:E.
  - constructor; [by constructor|]. constructor; [done|].
    eapply Forall_impl; [exact Hy|]. intros z. simpl. eauto.
  - constructor; [done|]. rewrite insert_sorted_perm. constructor; [|done].
    destruct (leb_total x y); [congruence|done].
Qed.

Lemma isort_sorted l : StronglySorted (λ a b, leb a b = true) (isort l).
Proof using A leb leb_total leb_trans.
  induction l as [|x l IH]; simpl; [constructor|]. by apply insert_sorted_sorted.
Qed.

(** Sorting a sorted list changes nothing. *)
Lemma isort_id l : StronglySorted (λ a b, leb a b = true) l → isort l = l.
Proof using Type.
  induction 1 as [|y l Hl IH Hy]; [done|]. simpl. rewrite IH.
  destruct Hy as [|z l Hz _]; [done|]. simpl. by rewrite Hz.
Qed.
End sorting.

Definition str_sort : list pystr → list pystr := isort str_leb.

Lemma str_sort_sorted l : StronglySorted (λ a b, str_leb a b = true) (str_sort l).
Proof. apply isort_sorted; [apply str_leb_total | apply str_leb_trans]. Qed.

(** [sorted] is a function of the multiset when the order is antisymmetric on it. *)
Lemma StronglySorted_perm_unique {A} (leb : A → A → bool) (l k : list A) :
  (∀ x y, x ∈ l → y ∈ l → leb x y = true → leb y x = true → x = y) →
  StronglySorted (λ a b, leb a b = true) l →
  StronglySorted (λ a b, leb a b = true) k →
  l ≡ₚ k → l = k.
Proof.
  intros Hanti Hl. revert k Hanti. induction Hl as [|x l Hl IH Hx]; intros k Hanti Hk Hp.
  { by apply Permutation_nil in Hp as ->. }
  destruct Hk as [|y k Hk Hy]; [by apply Permutation_sym, Permutation_nil in Hp|].
  rewrite Forall_forall in Hx, Hy.
  assert (x = y) as <-.
  { assert (Hx' : x ∈ y :: k) by (rewrite <- Hp; left).
    assert (Hy' : y ∈ x :: l) by (rewrite Hp; left).
    pose proof Hy' as Hin.
    apply elem_of_cons in Hx' as [->|Hx']; [done|].
    apply elem_of_cons in Hy' as [->|Hy']; [done|].
    apply Hanti; [left|done|auto|auto]. }
  f_equal. apply IH; [|done|by eapply Permutation_cons_inv].
  intros u v Hu Hv. apply Hanti; by right.
Qed.

Lemma StronglySorted_perm_eq (l k : list pystr) :
  StronglySorted (λ a b, str_leb a b = true) l →
  StronglySorted (λ a b, str_leb a b = true) k →
  l ≡ₚ k → l = k.
Proof. apply StronglySorted_perm_unique. eauto using str_leb_antisym. Qed.

(** Tuples compare by their first differing components. *)
Definition lex_leb {A B} (eqb lebA : A → A → bool) (lebB : B → B → bool) (x y : A * B) : bool :=
  if eqb x.1 y.1 then lebB x.2 y.2 else lebA x.1 y.1.

Section lex.
Context {A B : Type} (eqb lebA : A → A → bool) (lebB : B → B → bool).
Context (eqb_spec : ∀ x y, eqb x y = true ↔ x = y).

Lemma lex_leb_total :
  (∀ x y, lebA x y = true ∨ lebA y x = true) → (∀ x y, lebB x y = true ∨ lebB y x = true) →
  ∀ x y, lex_leb eqb lebA lebB x y = true ∨ lex_leb eqb lebA lebB y x = true.
Proof using eqb_spec.
  intros HA HB x y. unfold lex_leb. destruct (eqb x.1 y.1) eqn:E.
  - apply eqb_spec in E as E'. rewrite E' in *. by rewrite E.
  - destruct (eqb y.1 x.1) eqn:E'; [|done].
    apply eqb_spec in E'. rewrite E' in E. exfalso.
    assert (eqb x.1 x.1 = true) by by apply eqb_spec. congruence.
Qed.

Lemma lex_leb_trans :
  (∀ x y, lebA x y = true → lebA y x = true → x = y) →
  (∀ x y z, lebA x y = true → lebA y z = true → lebA x z = true) →
  (∀ x y z, lebB x y = true → lebB y z = true → lebB x z = true) →
  ∀ x y z, lex_leb eqb lebA lebB x y = true → lex_leb eqb lebA lebB y z = true →
  lex_leb eqb lebA lebB x z = true.
Proof using eqb_spec.
  intros Hanti HA HB x y z. unfold lex_leb.
  destruct (eqb x.1 y.1) eqn:E1, (eqb y.1 z.1) eqn:E2.
  - apply eqb_spec in E1, E2. rewrite E1, E2.
    destruct (eqb z.1 z.1) eqn:E3; [eauto|]. assert (eqb z.1 z.1 = true) by by apply eqb_spec. congruence.
  - apply eqb_spec in E1. rewrite E1, E2. done.
  - apply eqb_spec in E2. rewrite <- E2, E1. done.
  - intros H1 H2. destruct (eqb x.1 z.1) eqn:E3; [|eauto].
    apply eqb_spec in E3. rewrite <- E3 in H2. pose proof (Hanti _ _ H1 H2) as Heq.
    assert (eqb x.1 y.1 = true) by by apply eqb_spec. congruence.
Qed.

Lemma lex_leb_antisym :
  (∀ x y, lebA x y = true → lebA y x = true → x = y) →
  (∀ x y, lebB x y = true → lebB y x = true → x = y) →
  ∀ x y, lex_leb eqb lebA lebB x y = true → lex_leb eqb lebA lebB y x = true → x = y.
Proof using eqb_spec.
  intros HA HB [a b] [a' b']. unfold lex_leb. cbn.
  destruct (eqb a a') eqn:E.
  - apply eqb_spec in E as ->. assert (eqb a' a' = true) as -> by by apply eqb_spec.
    intros. f_equal. auto.
  - destruct (eqb a' a) eqn:E'.
    + apply eqb_spec in E' as ->. assert (eqb a a = true) by by apply eqb_spec. congruence.
    + intros H1 H2. assert (a = a') as -> by auto.
      assert (eqb a' a' = true) by by apply eqb_spec. congruence.
Qed.
End lex.

(** ** Lists up to permutation *)

Lemma existsb_perm {A} (f : A → bool) l l' : l ≡ₚ l' → existsb f l = existsb f l'.
Proof.
  induction 1 as [|x l l' _ IH|x y l|l1 l2 l3 _ IH1 _ IH2]; cbn; [done|by rewrite IH| |congruence].
  by destruct (f x), (f y).
Qed.

Lemma elem_of_lfilter {A} (f : A → bool) l x : x ∈ List.filter f l ↔ x ∈ l ∧ f x = true.
Proof. by rewrite !list_elem_of_In, filter_In. Qed.

Lemma find_perm_unique {A} (p : A → bool) l k :
  (∀ x y, x ∈ l → y ∈ l → p x = true → p y = true → x = y) → l ≡ₚ k → find p l = find p k.
Proof.
  intros Huniq Hp. destruct (find p k) as [y|] eqn:Ey.
  - apply find_some in Ey as [Hy%list_elem_of_In Py].
    destruct (find p l) as [x|] eqn:Ex.
    + apply find_some in Ex as [Hx%list_elem_of_In Px]. f_equal. apply Huniq; auto. by rewrite Hp.
    + exfalso. rewrite <- Hp in Hy. apply list_elem_of_In in Hy.
      pose proof (find_none _ _ Ex _ Hy). congruence.
  - destruct (find p l) as [x|] eqn:Ex; [|done].
    apply find_some in Ex as [Hx%list_elem_of_In Px]. exfalso. rewrite Hp in Hx.
    apply list_elem_of_In in Hx. pose proof (find_none _ _ Ey _ Hx). congruence.
Qed.

Lemma filter_list_perm {A} (p : A → bool) l k : l ≡ₚ k → List.filter p l ≡ₚ List.filter p k.
Proof.
  induction 1 as [|x l k _ IH|x y l|l m k _ IH1 _ IH2]; cbn; [done| | |by rewrite IH1].
  - destruct (p x); by rewrite ?IH.
  - destruct (p x), (p y); try done. apply Permutation_swap.
Qed.

Lemma NoDup_fmap_unique {A B} (f : A → B) l x y :
  NoDup (f <$> l) → x ∈ l → y ∈ l → f x = f y → x = y.
Proof.
  induction l as [|z l IH]; cbn; [by intros _ ?%elem_of_nil|].
  intros [Hz Hl]%NoDup_cons [->|Hx]%elem_of_cons [->|Hy]%elem_of_cons Hf; auto.
  - exfalso. apply Hz. rewrite Hf. by apply list_elem_of_fmap_2.
  - exfalso. apply Hz. rewrite <- Hf. by apply list_elem_of_fmap_2.
Qed.

Lemma StronglySorted_fmap {A B} (f : A → B) (R : B → B → Prop) m :
  StronglySorted R (f <$> m) ↔ StronglySorted (λ x y, R (f x) (f y)) m.
Proof.
  induction m as [|x m IH]; cbn; [by split; constructor|].
  split; intros [Hm Hx]%StronglySorted_inv; constructor;
    try (by apply IH); by apply (Forall_fmap f (R (f x)) m).
Qed.

Lemma StronglySorted_weaken {A} (R S : A → A → Prop) m :
  (∀ x y, R x y → S x y) → StronglySorted R m → StronglySorted S m.
Proof.
  intros HRS. induction 1 as [|x m Hm IH Hx]; [constructor|].
  constructor; [done|]. eapply Forall_impl; [exact Hx|auto].
Qed.

Lemma StronglySorted_snoc {A} (R : A → A → Prop) m x :
  StronglySorted R m → Forall (λ y, R y x) m → StronglySorted R (m ++ [x]).
Proof.
  induction 1 as [|y m Hm IH Hy]; intros Hx; cbn; [repeat constructor|].
  apply Forall_cons in Hx as [Hyx Hx]. constructor; [auto|].
  apply Forall_app; split; [done|by repeat constructor].
Qed.

(** [dict.fromkeys]: first occurrences, in order. *)
Section dedup.
Context {A : Type} (eqb : A → A → bool).
Fixpoint dedup_from (seen l : list A) : list A :=
  match l with
  | [] => []
  | x :: r => if existsb (eqb x) seen then dedup_from seen r
              else x :: dedup_from (x :: seen) r
  end.
Definition dedup (l : list A) : list A := dedup_from [] l.

(** [len(set(l)) == len(l)] *)
Fixpoint all_distinct (l : list A) : bool :=
  match l with
  | [] => true
  | x :: r => negb (existsb (eqb x) r) && all_distinct r
  end.

Context (eqb_eq : ∀ x y, eqb x y = true ↔ x = y).

Lemma existsb_eqb_iff x l : existsb (eqb x) l = true ↔ x ∈ l.
Proof using A eqb eqb_eq.
  rewrite existsb_exists. split.
  - intros (y & Hy & ->%eqb_eq). by apply list_elem_of_In.
  - intros H. exists x. split; [by apply list_elem_of_In | by apply eqb_eq].
Qed.

Lemma elem_of_dedup_from x seen l : x ∈ dedup_from seen l ↔ x ∈ l ∧ x ∉ seen.
Proof using A eqb eqb_eq.
  revert seen; induction l as [|y l IH]; intros seen; simpl.
  { split; [|intros [? _]; done]. by intros ?%elem_of_nil. }
  destruct (existsb (eqb y) seen) eqn:E.
  - apply existsb_eqb_iff in E. rewrite IH, elem_of_cons.
    split; [tauto|]. intros [[->|?] ?]; tauto.
  - assert (y ∉ seen) by (rewrite <- existsb_eqb_iff; congruence).
    rewrite !elem_of_cons, IH, not_elem_of_cons. split.
    + intros [->|(?&?&?)]; tauto.
    + intros [[->|?] ?]; [tauto|]. destruct (eqb x y) eqn:Exy.
      * apply eqb_eq in Exy. tauto.
      * right. split; [done|]. split; [|done]. intros ->.
        assert (eqb y y = true) by by apply eqb_eq. congruence.
Qed.

Lemma elem_of_dedup x l : x ∈ dedup l ↔ x ∈ l.
Proof using A eqb eqb_eq.
  unfold dedup. rewrite elem_of_dedup_from.
  split; [tauto|]. intros ?. split; [done|]. apply not_elem_of_nil.
Qed.

Lemma dedup_from_NoDup seen l : NoDup (dedup_from seen l).
Proof using A eqb eqb_eq.
  revert seen; induction l as [|y l IH]; intros seen; simpl; [constructor|].
  destruct (existsb (eqb y) seen); [done|]. constructor; [|done].
  rewrite elem_of_dedup_from. intros [_ H]. apply H. left.
Qed.

Lemma dedup_NoDup l : NoDup (dedup l).
Proof using A eqb eqb_eq. apply dedup_from_NoDup. Qed.

Lemma all_distinct_iff l : all_distinct l = true ↔ NoDup l.
Proof using A eqb eqb_eq.
  induction l as [|x l IH]; simpl; [split; [constructor|done]|].
  rewrite andb_true_iff, negb_true_iff, IH, NoDup_cons, <- existsb_eqb_iff.
  destruct (existsb (eqb x) l); intuition congruence.
Qed.
End dedup.

Definition str_distinct : list pystr → bool := all_distinct str_eqb.
Definition str_dedup : list pystr → list pystr := dedup str_eqb.

(** [sorted(set(l))] *)
Definition str_set_sorted (l : list pystr) : list pystr := str_sort (str_dedup l).

(** Equality of string sets. *)
Definition set_eqb (a b : list pystr) : bool :=
  forallb (λ x, str_in x b) a && forallb (λ x, str_in x a) b.

Lemma set_eqb_iff a b : set_eqb a b = true ↔ ∀ x, x ∈ a ↔ x ∈ b.
Proof.
  unfold set_eqb. rewrite andb_true_iff, !forallb_forall.
  setoid_rewrite <- list_elem_of_In. setoid_rewrite str_in_iff. firstorder.
Qed.

Lemma str_distinct_iff l : str_distinct l = true ↔ NoDup l.
Proof. apply all_distinct_iff, str_eqb_eq. Qed.

Lemma elem_of_str_dedup x l : x ∈ str_dedup l ↔ x ∈ l.
Proof. apply elem_of_dedup, str_eqb_eq. Qed.

Lemma elem_of_str_set_sorted x l : x ∈ str_set_sorted l ↔ x ∈ l.
Proof. unfold str_set_sorted, str_sort. by rewrite elem_of_isort, elem_of_str_dedup. Qed.

(** Distinct keys name their items. *)
Lemma key_injective {A B} (key : A → B) (l : list A) x y : NoDup (key <$> l) → x ∈ l → y ∈ l →
  key x = key y → x = y.
Proof.
  induction l as [|z l IH]; [by intros _ ?%elem_of_nil|]. cbn. intros [Hz Hn]%NoDup_cons.
  intros [->|Hx]%elem_of_cons [->|Hy]%elem_of_cons E; auto; exfalso; apply Hz.
  - rewrite E. by apply list_elem_of_fmap_2.
  - rewrite <- E. by apply list_elem_of_fmap_2.
Qed.

(** [{key(x): x for x in l}]: the last item of each key. *)
Definition by_key {A} (key : A → pystr) (l : list A) (k : pystr) : option A :=
  find (λ x, key x =s? k) (rev l).

Lemma by_key_Some {A} (key : A → pystr) l k x : by_key key l k = Some x → x ∈ l ∧ key x = k.
Proof.
  unfold by_key. intros [Hin Hk]%find_some. split; [|by apply str_eqb_eq].
  rewrite <- in_rev in Hin. by apply list_elem_of_In.
Qed.

Lemma by_key_elem {A} (key : A → pystr) l x : NoDup (key <$> l) → x ∈ l → by_key key l (key x) = Some x.
Proof.
  intros Hd Hx. destruct (by_key key l (key x)) as [y|] eqn:E.
  - apply by_key_Some in E as [Hy Hk]. f_equal. by eapply key_injective.
  - unfold by_key in E. eapply find_none in E; [by rewrite str_eqb_refl in E|].
    rewrite <- in_rev. by apply list_elem_of_In.
Qed.

Lemma lfilter_keys {A B} (key : A → B) f (l : list A) : key <$> List.filter f l ⊆ key <$> l.
Proof.
  intros k (x & -> & Hx)%list_elem_of_fmap. apply list_elem_of_fmap_2.
  apply list_elem_of_In, filter_In in Hx as [Hx _]. by apply list_elem_of_In.
Qed.

Lemma lfilter_keys_NoDup {A B} (key : A → B) f (l : list A) :
  NoDup (key <$> l) → NoDup (key <$> List.filter f l).
Proof.
  induction l as [|x l IH]; cbn; [done|]. intros [Hx Hl]%NoDup_cons. destruct (f x); [|by apply IH].
  cbn. constructor; [|by apply IH]. contradict Hx. by eapply lfilter_keys.
Qed.

(* ------------------------------------------------------------------ *)
(** ** Exceptions and the error monad *)
(* ------------------------------------------------------------------ *)

(** The exception classes the modelled code raises or catches.  The text of
    a message is kept only where the code uses it as a stable reason code. *)
Inductive exn : Set :=
| DomainValidationError
| ValueError (code : pystr)
| KeyError
| IndexError
| TypeError
| AttributeError
| OverflowError
| LookupError
| StopIteration
| NotImplementedError
| AuditConflict
| AuditIntegrityError
| JobConflict
| LeaseLost
| BudgetExceeded
| BudgetConflict
| IntegrityError
| CacheCollisionError
| CacheCorruptionError
| CacheRevokedError
| AssertionError
| ZeroDivisionError
| OSError
| RuntimeError
| SessionExpiredError
| CapabilityDeniedError
| TenantNotFoundError
| RulePackNotFound
| IdempotencyConflict
| StaleRulePackRevision (current_revision : Z)
| ReviewRejected (code : pystr) (status : Z).

#[export] Instance exn_eq_dec : EqDecision exn.
Proof. solve_decision. Defined.

(** [except ValueError]: the subclasses of [ValueError] among [exn]
    ([domain/errors.py], [domain/audit.py], [application/ports/jobs.py],
    [application/budget.py], [adapters/cache/aws.py],
    [adapters/local/rulepack_store.py], [application/reviews.py]); [IntegrityError] is
    [sqlite3]'s and the authorization errors are their own family. *)
Definition is_value_error (e : exn) : bool :=
  match e with
  | DomainValidationError | ValueError _ | AuditConflict | AuditIntegrityError
  | JobConflict | LeaseLost | BudgetExceeded | BudgetConflict
  | CacheCollisionError | CacheCorruptionError | CacheRevokedError
  | IdempotencyConflict | StaleRulePackRevision _ | ReviewRejected _ _ => true
  | _ => false
  end.

Inductive result (A : Type) : Type :=
| Ok (a : A)
| Raise (e : exn).
Arguments Ok {A} a.
Arguments Raise {A} e.

#[export] Instance result_eq_dec {A} `{EqDecision A} : EqDecision (result A).
Proof. solve_decision. Defined.

#[export] Instance result_ret : MRet result := λ A a, Ok a.
#[export] Instance result_bind : MBind result :=
  λ A B f m, match m with Ok a => f a | Raise e => Raise e end.
#[export] Instance result_fmap : FMap result :=
  λ A B f m, match m with Ok a => Ok (f a) | Raise e => Raise e end.

(** [if not b: raise e] *)
Definition require (b : bool) (e : exn) : result unit := if b then Ok tt else Raise e.

(** [if b: raise e] *)
Definition reject (b : bool) (e : exn) : result unit := if b then Raise e else Ok tt.

(** [try: m except <caught>: handler] *)
Definition catch {A} (caught : exn → bool) (m : result A) (handler : exn → result A) : result A :=
  match m with
  | Ok a => Ok a
  | Raise e => if caught e then handler e else Raise e
  end.

Definition of_option {A} (e : exn) (o : option A) : result A :=
  match o with Some a => Ok a | None => Raise e end.

Definition is_ok {A} (m : result A) : bool := match m with Ok _ => true | Raise _ => false end.

(** A conditional on a test that may raise. *)
Definition if_result {A} (c : result bool) (yes no : result A) : result A :=
  c ≫= λ b : bool, if b then yes else no.

(** [all(..)] and [any(..)] of such tests: they stop at the first that decides. *)
Fixpoint all_result {A} (f : A → result bool) (l : list A) : result bool :=
  match l with
  | [] => Ok true
  | x :: r => if_result (f x) (all_result f r) (Ok false)
  end.

Fixpoint any_result {A} (f : A → result bool) (l : list A) : result bool :=
  match l with
  | [] => Ok false
  | x :: r => if_result (f x) (Ok true) (any_result f r)
  end.

(** [a and b] of such tests. *)
Definition and_result (a b : result bool) : result bool := if_result a b (Ok false).

(** Left-to-right comprehension whose body may raise. *)
Fixpoint map_result {A B} (f : A → result B) (l : list A) : result (list B) :=
  match l with
  | [] => Ok []
  | x :: r => y ← f x; ys ← map_result f r; Ok (y :: ys)
  end.

Fixpoint each {A} (f : A → result unit) (l : list A) : result unit :=
  match l with
  | [] => Ok tt
  | x :: r => _ ← f x; each f r
  end.

Fixpoint fold_result {A B} (f : B → A → result B) (b : B) (l : list A) : result B :=
  match l with
  | [] => Ok b
  | x :: r => b' ← f b x; fold_result f b' r
  end.

Lemma bind_Ok_inv {A B} (m : result A) (f : A → result B) b :
  (x ← m; f x) = Ok b ↔ ∃ a, m = Ok a ∧ f a = Ok b.
Proof. destruct m; simpl; naive_solver. Qed.

Lemma bind_Raise_inv {A B} (m : result A) (f : A → result B) e :
  (x ← m; f x) = Raise e ↔ m = Raise e ∨ ∃ a, m = Ok a ∧ f a = Raise e.
Proof. destruct m; simpl; naive_solver. Qed.

Lemma fmap_Ok_inv {A B} (m : result A) (f : A → B) b :
  f <$> m = Ok b ↔ ∃ a, m = Ok a ∧ f a = b.
Proof. destruct m; simpl; naive_solver. Qed.

Lemma require_Ok b e u : require b e = Ok u ↔ b = true.
Proof. destruct b, u; simpl; naive_solver. Qed.

Lemma reject_Ok b e u : reject b e = Ok u ↔ b = false.
Proof. destruct b, u; simpl; naive_solver. Qed.

Lemma require_Raise b e e' : require b e = Raise e' ↔ b = false ∧ e' = e.
Proof. destruct b; simpl; naive_solver. Qed.

Lemma reject_Raise b e e' : reject b e = Raise e' ↔ b = true ∧ e' = e.
Proof. destruct b; simpl; naive_solver. Qed.

Lemma of_option_Ok {A} e (o : option A) a : of_option e o = Ok a ↔ o = Some a.
Proof. destruct o; simpl; naive_solver. Qed.

Lemma map_result_Ok {A B} (f : A → result B) l ys :
  map_result f l = Ok ys ↔ Forall2 (λ x y, f x = Ok y) l ys.
Proof.
  revert ys; induction l as [|x l IH]; intros ys; simpl.
  - split; [intros [= <-]; constructor | by inversion 1].
  - rewrite bind_Ok_inv. split.
    + intros (y & Hy & (zs & Hzs & [= <-])%bind_Ok_inv). constructor; [done|]. by apply IH.
    + inversion 1 as [|? y ? zs Hy Hzs]; subst. exists y. split; [done|].
      apply bind_Ok_inv. exists zs. split; [by apply IH | done].
Qed.

Lemma map_result_length {A B} (f : A → result B) l ys :
  map_result f l = Ok ys → length ys = length l.
Proof. intros H%map_result_Ok. by symmetry; eapply Forall2_length. Qed.

Lemma map_result_ext {A B} (f g : A → result B) l :
  (∀ x, x ∈ l → f x = g x) → map_result f l = map_result g l.
Proof.
  induction l as [|x l IH]; intros H; [done|]. simpl.
  rewrite (H x) by left. rewrite IH; [done|]. intros y Hy. apply H. by right.
Qed.

Lemma map_result_all_ok {A B} (f : A → B) l : map_result (λ x, Ok (f x)) l = Ok (f <$> l).
Proof. induction l as [|x l IH]; [done|]. simpl. by rewrite IH. Qed.

Lemma each_Ok {A} (f : A → result unit) l u :
  each f l = Ok u ↔ ∀ x, x ∈ l → f x = Ok tt.
Proof.
  destruct u. induction l as [|x l IH]; simpl.
  - split; [|done]. intros _ x Hx. by apply elem_of_nil in Hx.
  - rewrite bind_Ok_inv. setoid_rewrite elem_of_cons. split.
    + intros ([] & Hx & Hl) y [->|Hy]; [done|]. by apply IH.
    + intros H. exists tt. split; [by apply H; left|]. apply IH. auto.
Qed.

(** Invariants of a loop that may raise. *)
Lemma fold_result_ind {A B} (P : B → Prop) (f : B → A → result B) l b r :
  P b → (∀ c x c', x ∈ l → P c → f c x = Ok c' → P c') → fold_result f b l = Ok r → P r.
Proof.
  revert b. induction l as [|x l IH]; intros b Hb Hstep; cbn [fold_result].
  - by intros [= <-].
  - intros (c & Hc & Hr)%bind_Ok_inv. eapply IH; [|..|exact Hr].
    + eapply Hstep; [left|done|done].
    + intros d y d' Hy. eapply Hstep. by right.
Qed.

(** Each step establishes its own fact and keeps the earlier ones. *)
Lemma fold_result_all {A B} (P : B → Prop) (Q : A → B → Prop) (f : B → A → result B) l b r :
  P b → (∀ c x c', x ∈ l → P c → f c x = Ok c' → P c' ∧ Q x c' ∧ ∀ y, Q y c → Q y c') →
  fold_result f b l = Ok r → P r ∧ ∀ x, x ∈ l → Q x r.
Proof.
  revert b. induction l as [|x l IH]; intros b Hb Hstep; cbn [fold_result].
  - intros [= <-]. split; [done|]. by intros x ?%elem_of_nil.
  - intros (c & Hc & Hr)%bind_Ok_inv. destruct (Hstep b x c) as (HP & HQ & Hkeep); [left|done|done|].
    destruct (IH c HP) as [HPr Hall]; [|done|].
    { intros d y d' Hy. apply Hstep. by right. }
    split; [done|]. intros y [->|Hy]%elem_of_cons; [|by apply Hall].
    apply (fold_result_ind (λ d, P d ∧ Q x d) f l c r); [done| |done].
    intros d z d' Hz [HPd HQd] Hd.
    destruct (Hstep d z d') as (? & _ & Hk); [by right|done|done|]. split; [done|by apply Hk].
Qed.

Lemma catch_Ok {A} c (m : result A) h a :
  catch c m h = Ok a ↔ m = Ok a ∨ ∃ e, m = Raise e ∧ c e = true ∧ h e = Ok a.
Proof.
  destruct m as [b|e]; simpl; [naive_solver|].
  destruct (c e) eqn:E; split.
  - intros H. right. eauto.
  - by intros [?|(? & [= <-] & _ & ?)].
  - done.
  - intros [?|(? & [= <-] & ? & _)]; congruence.
Qed.

Lemma if_result_Ok {A} c (yes no : result A) a :
  if_result c yes no = Ok a ↔ (c = Ok true ∧ yes = Ok a) ∨ (c = Ok false ∧ no = Ok a).
Proof. unfold if_result. destruct c as [[]|]; cbn; naive_solver. Qed.

Lemma and_result_true a b : and_result a b = Ok true ↔ a = Ok true ∧ b = Ok true.
Proof. unfold and_result. rewrite if_result_Ok. naive_solver. Qed.

Lemma all_result_true {A} (f : A → result bool) l :
  all_result f l = Ok true ↔ Forall (λ x, f x = Ok true) l.
Proof.
  induction l as [|x l IH]; cbn; [by split|]. rewrite if_result_Ok, IH, Forall_cons. naive_solver.
Qed.

Lemma any_result_true {A} (f : A → result bool) l :
  any_result f l = Ok true → ∃ x, x ∈ l ∧ f x = Ok true.
Proof.
  induction l as [|x l IH]; cbn; [done|]. rewrite if_result_Ok.
  intros [[Hx _]|[_ (y & Hy & Hf)%IH]]; [exists x|exists y]; split; try done; by constructor.
Qed.

Lemma any_result_false {A} (f : A → result bool) l :
  any_result f l = Ok false ↔ Forall (λ x, f x = Ok false) l.
Proof.
  induction l as [|x l IH]; cbn; [by split; [constructor|]|].
  rewrite if_result_Ok, IH, Forall_cons. naive_solver.
Qed.

(** [raises P m]: every exception [m] raises satisfies [P]. *)
Definition raises {A} (P : exn → Prop) (m : result A) : Prop :=
  match m with Ok _ => True | Raise e => P e end.

Lemma raises_bind {A B} (P : exn → Prop) (m : result A) (f : A → result B) :
  raises P m → (∀ a, m = Ok a → raises P (f a)) → raises P (x ← m; f x).
Proof. destruct m; simpl; auto. Qed.

Lemma raises_fmap {A B} (P : exn → Prop) (m : result A) (f : A → B) :
  raises P m → raises P (f <$> m).
Proof. by destruct m. Qed.

Lemma raises_require (P : exn → Prop) b e : P e → raises P (require b e).
Proof. by destruct b. Qed.

Lemma raises_reject (P : exn → Prop) b e : P e → raises P (reject b e).
Proof. by destruct b. Qed.

Lemma raises_of_option {A} (P : exn → Prop) e (o : option A) : P e → raises P (of_option e o).
Proof. by destruct o. Qed.

Lemma raises_Ok {A} (P : exn → Prop) (a : A) : raises P (Ok a).
Proof. done. Qed.

Lemma raises_Raise {A} (P : exn → Prop) e : P e → raises P (@Raise A e).
Proof. done. Qed.

Lemma raises_map_result {A B} (P : exn → Prop) (f : A → result B) l :
  (∀ x, x ∈ l → raises P (f x)) → raises P (map_result f l).
Proof.
  induction l as [|x l IH]; intros H; [done|]. cbn [map_result].
  apply raises_bind; [apply H; left|]. intros y _.
  apply raises_bind; [|done]. apply IH. intros z Hz. apply H. by right.
Qed.

Lemma raises_if_result {A} (P : exn → Prop) c (yes no : result A) :
  raises P c → raises P yes → raises P no → raises P (if_result c yes no).
Proof. unfold if_result. by destruct c as [[]|]. Qed.

Lemma raises_and_result (P : exn → Prop) a b : raises P a → raises P b → raises P (and_result a b).
Proof. intros. by apply raises_if_result. Qed.

Lemma raises_all_result {A} (P : exn → Prop) (f : A → result bool) l :
  (∀ x, raises P (f x)) → raises P (all_result f l).
Proof. intros Hf. induction l; cbn; [done|]. by apply raises_if_result. Qed.

Lemma raises_any_result {A} (P : exn → Prop) (f : A → result bool) l :
  (∀ x, raises P (f x)) → raises P (any_result f l).
Proof. intros Hf. induction l; cbn; [done|]. by apply raises_if_result. Qed.

Lemma raises_fold_result {A B} (P : exn → Prop) (f : B → A → result B) b l :
  (∀ b x, raises P (f b x)) → raises P (fold_result f b l).
Proof. intros Hf. revert b. induction l; intros b; cbn; [done|]. by apply raises_bind. Qed.

Lemma raises_elim {A} (P : exn → Prop) (m : result A) e : raises P m → m = Raise e → P e.
Proof. by intros H ->. Qed.

Create HintDb raises.
#[export] Hint Resolve raises_bind raises_require raises_reject raises_of_option raises_Ok
  raises_Raise raises_map_result : raises.

(** Rewriting rules that open a successful computation. *)
Create HintDb result.
#[export] Hint Rewrite @bind_Ok_inv @fmap_Ok_inv require_Ok reject_Ok @of_option_Ok
  negb_true_iff negb_false_iff andb_true_iff orb_false_iff : result.

(** [ok_inv H]: from [m = Ok v], the successful run of every step of [m]. *)
Ltac ok_inv H :=
  autorewrite with result in H; simpl in H;
  repeat match goal with
  | H : ∃ _, _ |- _ => destruct H
  | H : _ ∧ _ |- _ => destruct H
  | u : unit |- _ => destruct u
  | H : Ok _ = Ok _ |- _ => injection H as H
  | H : Raise _ = Ok _ |- _ => discriminate H
  | H : context [result_bind] |- _ => progress autorewrite with result in H
  | H : require _ _ = Ok _ |- _ => apply require_Ok in H
  | H : reject _ _ = Ok _ |- _ => apply reject_Ok in H
  | H : mbind _ _ = Ok _ |- _ => apply bind_Ok_inv in H
  | H : (_ && _) = true |- _ => apply andb_true_iff in H
  | H : (_ || _) = false |- _ => apply orb_false_iff in H
  | H : negb _ = true |- _ => apply negb_true_iff in H
  | H : negb _ = false |- _ => apply negb_false_iff in H
  end.

(** [open_run H]: the successful steps of the sequence [H : (x ← ..; ..) = Ok _]. *)
Ltac open_run H :=
  repeat match type of H with
  | mbind _ _ = Ok _ => apply bind_Ok_inv in H as (? & ? & H)
  end.

(** Turn boolean string tests in the context into (dis)equalities. *)
Ltac str_prop :=
  repeat match goal with
  | H : str_eqb _ _ = true |- _ => apply str_eqb_eq in H
  | H : str_eqb _ _ = false |- _ => apply str_eqb_neq in H
  | H : str_in _ _ = true |- _ => apply str_in_iff in H
  | H : str_in _ _ = false |- _ => apply str_in_false in H
  | H : (_ =? _)%Z = true |- _ => apply Z.eqb_eq in H
  | H : (_ =? _)%Z = false |- _ => apply Z.eqb_neq in H
  | H : (_ <? _)%Z = true |- _ => apply Z.ltb_lt in H
  | H : (_ <? _)%Z = false |- _ => apply Z.ltb_ge in H
  | H : (_ <=? _)%Z = true |- _ => apply Z.leb_le in H
  | H : (_ <=? _)%Z = false |- _ => apply Z.leb_gt in H
  end.

(** Case analysis on every [if]/[match] scrutinee of the goal. *)
Ltac case_all := repeat (case_match; simplify_eq/=; try done).
