(* ===== verification/PyVal.v ===== *)
(** * Python values and the JSON codec.

    The dynamically typed values that cross the trust boundaries of the
    program (parsed model output, rule-pack files, reconciliation packets),
    binary64 floats, and the part of [json] the program calls: [json.loads]
    and [json.dumps(sort_keys=True, separators=(",", ":"),
    ensure_ascii=True, allow_nan=False)].  Dictionaries are association
    lists in insertion order with string keys (JSON objects). *)
From S2P Require Import Prelude.
From Stdlib Require Export Floats.SpecFloat.

(* ------------------------------------------------------------------ *)
(** ** Decimal notation of integers *)
(* ------------------------------------------------------------------ *)

Fixpoint dec_digits (fuel : nat) (n : N) (acc : pystr) : pystr :=
  match fuel with
  | O => acc
  | S fuel =>
      let acc := (48 + n mod 10)%N :: acc in
      if (n / 10 =? 0)%N then acc else dec_digits fuel (n / 10) acc
  end.

(** [str(n)] for a natural number. *)
Definition N_dec (n : N) : pystr := dec_digits (S (N.to_nat (N.size n))) n [].

Definition Z_dec (z : Z) : pystr :=
  match z with Z.neg p => "-" ++ N_dec (N.pos p) | _ => N_dec (Z.to_N z) end.

(* ------------------------------------------------------------------ *)
(** ** Floats (IEEE binary64) *)
(* ------------------------------------------------------------------ *)
Module PyFloat.
Definition prec := 53%Z.
Definition emax := 1024%Z.

(** [float(z)] for an [int]. *)
Definition of_Z (z : Z) : result spec_float :=
  match binary_normalize prec emax z 0 false with
  | S754_infinity _ => Raise OverflowError
  | f => Ok f
  end.

Definition is_finite (f : spec_float) : bool :=
  match f with S754_zero _ | S754_finite _ _ _ => true | _ => false end.

Definition ltb (a b : spec_float) : bool := SFltb a b.
Definition eqb (a b : spec_float) : bool := SFeqb a b.

(** Correctly rounded [m * 10^e], as [float(text)] computes it. *)
Definition of_decimal (neg : bool) (m : N) (e : Z) : spec_float :=
  match m with
  | N0 => S754_zero neg
  | Npos p =>
      let mag := (py_len (N_dec m) + e)%Z in
      if (400 <? mag)%Z then S754_infinity neg
      else if (mag <? -400)%Z then S754_zero neg
      else if (0 <=? e)%Z then
        binary_normalize prec emax (cond_Zopp neg (Zpos p * 10 ^ e)) 0 neg
      else
        let '(q, e', loc) := SFdiv_core_binary prec emax (Zpos p) 0 (10 ^ (- e)) 0 in
        binary_round_aux prec emax neg q e' loc
  end.

Definition round_half_even (n d : Z) : Z :=
  let q := (n / d)%Z in
  let r := (2 * (n mod d))%Z in
  if (r <? d)%Z then q else if (d <? r)%Z then (q + 1)%Z
  else if Z.even q then q else (q + 1)%Z.

(** The decimal point position: [10^(k-1) <= n/d < 10^k]. *)
Fixpoint decimal_point (fuel : nat) (n d k : Z) : Z :=
  match fuel with
  | O => k
  | S fuel =>
      if (if (0 <=? k)%Z then (d * 10 ^ k <=? n)%Z else (d <=? n * 10 ^ (- k))%Z)
      then decimal_point fuel n d (k + 1)
      else if (if (0 <=? k - 1)%Z then (n <? d * 10 ^ (k - 1))%Z
               else (n * 10 ^ (1 - k) <? d)%Z)
      then decimal_point fuel n d (k - 1)
      else k
  end.

(** Shortest digits that read back as the same float, [repr]'s rule. *)
Fixpoint shortest (steps : nat) (n d k : Z) (digits : Z) (f : spec_float) : Z * Z :=
  let s := (digits - k)%Z in
  let m := if (0 <=? s)%Z then round_half_even (n * 10 ^ s) d
           else round_half_even n (d * 10 ^ (- s)) in
  match steps with
  | O => (m, digits)
  | S steps =>
      if eqb (of_decimal false (Z.to_N m) (- s)) f then (m, digits)
      else shortest steps n d k (digits + 1) f
  end.

Fixpoint strip_zeros (s : pystr) : pystr :=
  match s with 48%N :: r => strip_zeros r | _ => s end.

Definition zeros (n : Z) : pystr := replicate (Z.to_nat n) 48%N.

Definition layout (ds : pystr) (p : Z) : pystr :=
  if ((-4 <? p) && (p <=? 16))%Z then
    if (p <=? 0)%Z then "0." ++ zeros (- p) ++ ds
    else if (py_len ds <=? p)%Z then ds ++ zeros (p - py_len ds) ++ ".0"
    else take (Z.to_nat p) ds ++ "." ++ drop (Z.to_nat p) ds
  else
    let x := (p - 1)%Z in
    take 1 ds ++ (match drop 1 ds with [] => [] | r => "." ++ r end)
    ++ "e" ++ (if (x <? 0)%Z then "-" else "+")
    ++ (if (Z.abs x <? 10)%Z then "0" else []) ++ N_dec (Z.to_N (Z.abs x)).

(** [float.__repr__] *)
Definition repr (f : spec_float) : pystr :=
  match f with
  | S754_zero s => if s then "-0.0" else "0.0"
  | S754_infinity s => if s then "-inf" else "inf"
  | S754_nan => "nan"
  | S754_finite s m e =>
      let n := if (0 <=? e)%Z then (Zpos m * 2 ^ e)%Z else Zpos m in
      let d := if (0 <=? e)%Z then 1%Z else (2 ^ (- e))%Z in
      let k := decimal_point 5 n d ((Z.log2 n - Z.log2 d) * 30103 / 100000 + 1) in
      let '(m10, digits) := shortest 16 n d k 1 (S754_finite false m e) in
      let raw := N_dec (Z.to_N m10) in
      (if s then "-" else [])
      ++ layout (rev (strip_zeros (rev raw))) (k + (py_len raw - digits))
  end.
End PyFloat.

(* ------------------------------------------------------------------ *)
(** ** Values *)
(* ------------------------------------------------------------------ *)

Inductive pyval : Set :=
| PNone
| PBool (b : bool)
| PInt (z : Z)
| PFloat (f : spec_float)
| PStr (s : pystr)
| PList (l : list pyval)
| PTuple (l : list pyval)
| PDict (d : list (pystr * pyval)).

Abbreviation pydict := (list (pystr * pyval)).

(** [d.get(k)], first matching key. *)
Fixpoint dict_get {A} (k : pystr) (d : list (pystr * A)) : option A :=
  match d with
  | [] => None
  | (k', v) :: r => if str_eqb k k' then Some v else dict_get k r
  end.

(** [d[k] = v]: a key keeps the position of its first assignment. *)
Fixpoint dict_set {A} (k : pystr) (v : A) (d : list (pystr * A)) : list (pystr * A) :=
  match d with
  | [] => [(k, v)]
  | (k', v') :: r => if str_eqb k k' then (k', v) :: r else (k', v') :: dict_set k v r
  end.

(** [{k: v for k, v in pairs}] *)
Definition dict_of {A} (pairs : list (pystr * A)) : list (pystr * A) :=
  foldl (λ d '(k, v), dict_set k v d) [] pairs.

Definition dict_keys {A} (d : list (pystr * A)) : list pystr := d.*1.

Definition as_dict (e : exn) (v : pyval) : result pydict :=
  match v with PDict d => Ok d | _ => Raise e end.
Definition as_str (e : exn) (v : pyval) : result pystr :=
  match v with PStr s => Ok s | _ => Raise e end.

(** [v[k]]: [KeyError] on a missing key, [TypeError] off a mapping. *)
Definition getitem (k : pystr) (v : pyval) : result pyval :=
  d ← as_dict TypeError v; of_option KeyError (dict_get k d).

(** [bool(v)] *)
Definition truthy (v : pyval) : bool :=
  match v with
  | PNone => false
  | PBool b => b
  | PInt z => negb (z =? 0)%Z
  | PFloat (S754_zero _) => false
  | PFloat _ => true
  | PStr s => nonempty s
  | PList l | PTuple l => match l with [] => false | _ => true end
  | PDict d => match d with [] => false | _ => true end
  end.

Definition is_none (v : pyval) : bool := match v with PNone => true | _ => false end.

(** [v == "literal"] *)
Definition eq_str (v : pyval) (s : pystr) : bool :=
  match v with PStr t => str_eqb t s | _ => false end.

(** [v == b] for a boolean [b]; [bool] is a subclass of [int]. *)
Definition eq_bool (v : pyval) (b : bool) : bool :=
  match v with
  | PBool c => Bool.eqb c b
  | PInt z => (z =? Z.b2z b)%Z
  | PFloat f => match PyFloat.of_Z (Z.b2z b) with Ok g => PyFloat.eqb f g | _ => false end
  | _ => false
  end.

(** The number a value denotes: [bool] is a subclass of [int]. *)
Definition as_int (v : pyval) : option Z :=
  match v with PInt z => Some z | PBool b => Some (Z.b2z b) | _ => None end.

(** [int == float]: exact comparison. *)
Definition int_float_eqb (z : Z) (f : spec_float) : bool :=
  match f with
  | S754_zero _ => (z =? 0)%Z
  | S754_finite s m e =>
      if (0 <=? e)%Z then (z =? cond_Zopp s (Zpos m * 2 ^ e))%Z
      else (z * 2 ^ (- e) =? cond_Zopp s (Zpos m))%Z
  | _ => false
  end.

(** [a == b] *)
Fixpoint py_eq (a b : pyval) : bool :=
  let seq_eq := fix go (l : list pyval) (k : list pyval) : bool :=
    match l, k with
    | [], [] => true
    | x :: l, y :: k => py_eq x y && go l k
    | _, _ => false
    end in
  match a, b with
  | PNone, PNone => true
  | PStr s, PStr t => str_eqb s t
  | PFloat f, PFloat g => PyFloat.eqb f g
  | PFloat f, _ => match as_int b with Some z => int_float_eqb z f | None => false end
  | _, PFloat g => match as_int a with Some z => int_float_eqb z g | None => false end
  | PInt _, _ | PBool _, _ =>
      match as_int a, as_int b with Some x, Some y => (x =? y)%Z | _, _ => false end
  | PList l, PList k => seq_eq l k
  | PTuple l, PTuple k => seq_eq l k
  | PDict d, PDict e =>
      Nat.eqb (length d) (length e)
      && (fix go (d : pydict) : bool :=
            match d with
            | [] => true
            | (k, x) :: r => match dict_get k e with Some y => py_eq x y | None => false end && go r
            end) d
  | _, _ => false
  end.

Lemma dict_set_values {A} k (v : A) d x : x ∈ (dict_set k v d).*2 → x = v ∨ x ∈ d.*2.
Proof.
  induction d as [|[k' w] d IH]; cbn; [intros [->|Hn]%elem_of_cons; [by left|by apply elem_of_nil in Hn]|].
  destruct (str_eqb k k').
  - cbn. intros [->|Hx]%elem_of_cons; [by left|right; by right].
  - cbn. intros [->|Hx]%elem_of_cons; [right; left|]. destruct (IH Hx); [by left|right; by right].
Qed.

Lemma dict_of_values {A} (l : list (pystr * A)) x : x ∈ (dict_of l).*2 → x ∈ l.*2.
Proof.
  unfold dict_of. assert (Hg : ∀ d, x ∈ (foldl (λ d '(k, v), dict_set k v d) d l).*2 → x ∈ d.*2 ∨ x ∈ l.*2).
  { induction l as [|[k v] l IH]; intros d; cbn; [by left|]. intros [Hd|Hl]%IH.
    - apply dict_set_values in Hd as [->|Hd]; [right; left|by left].
    - right. by right. }
  intros [Hx|Hx]%Hg; [by apply elem_of_nil in Hx|done].
Qed.

Lemma dict_get_set_eq {A} k (v : A) d : dict_get k (dict_set k v d) = Some v.
Proof.
  induction d as [|[k' v'] d IH]; simpl; [by rewrite str_eqb_refl|].
  destruct (str_eqb k k') eqn:E; simpl; by rewrite E.
Qed.

Lemma dict_get_set_ne {A} k k' (v : A) d :
  k ≠ k' → dict_get k (dict_set k' v d) = dict_get k d.
Proof.
  intros Hne. induction d as [|[j w] d IH]; simpl.
  - by apply str_eqb_neq in Hne as ->.
  - destruct (str_eqb k' j) eqn:E; simpl.
    + apply str_eqb_eq in E as <-. by apply str_eqb_neq in Hne as ->.
    + by rewrite IH.
Qed.

Lemma dict_get_Some_in {A} k (v : A) d : dict_get k d = Some v → (k, v) ∈ d.
Proof.
  induction d as [|[j w] d IH]; simpl; [done|].
  destruct (str_eqb_spec k j) as [->|]; [intros [= ->]; left | right; auto].
Qed.

Lemma dict_get_is_Some {A} k (d : list (pystr * A)) :
  is_Some (dict_get k d) ↔ k ∈ dict_keys d.
Proof.
  unfold dict_keys. induction d as [|[j w] d IH]; simpl.
  { split; [by intros []|by intros ?%elem_of_nil]. }
  rewrite elem_of_cons, <- IH. destruct (str_eqb_spec k j) as [->|Hne].
  - split; [by left | by eexists].
  - split; [by right | by intros [?|?]].
Qed.

Lemma dict_get_NoDup {A} k (v : A) d :
  NoDup (dict_keys d) → (k, v) ∈ d → dict_get k d = Some v.
Proof.
  unfold dict_keys. induction d as [|[j w] d IH]; simpl; [by intros _ ?%elem_of_nil|].
  rewrite NoDup_cons. intros [Hj Hnd] [[= -> ->]|Hin]%elem_of_cons.
  - by rewrite str_eqb_refl.
  - destruct (str_eqb_spec k j) as [->|]; [|by apply IH].
    destruct Hj. apply list_elem_of_fmap. by exists (j, v).
Qed.

(** A dictionary built by a comprehension over its keys. *)
Lemma dict_get_map {A} (f : pystr → A) l k :
  dict_get k ((λ n, (n, f n)) <$> l) = if decide (k ∈ l) then Some (f k) else None.
Proof.
  induction l as [|x l IH]; [by rewrite decide_False by apply not_elem_of_nil|].
  cbn [fmap list_fmap dict_get] in *. destruct (str_eqb_spec k x) as [->|Hne].
  - by rewrite decide_True by left.
  - rewrite IH. destruct (decide (k ∈ l)) as [Hin|Hin].
    + by rewrite decide_True by by right.
    + rewrite decide_False; [done|]. by intros [?|?]%elem_of_cons.
Qed.

Lemma dict_get_None {A} k (d : list (pystr * A)) : dict_get k d = None ↔ k ∉ dict_keys d.
Proof. rewrite <- dict_get_is_Some, <- eq_None_not_Some. done. Qed.

(** [{**a, **b}] *)
Definition dict_union {A} (a b : list (pystr * A)) : list (pystr * A) :=
  foldl (λ d '(k, v), dict_set k v d) a b.

Lemma dict_get_union {A} k (a b : list (pystr * A)) :
  NoDup (dict_keys b) →
  dict_get k (dict_union a b) = match dict_get k b with Some v => Some v | None => dict_get k a end.
Proof.
  unfold dict_union. revert a. induction b as [|[j v] b IH]; intros a Hnd; [done|].
  cbn in Hnd. apply NoDup_cons in Hnd as [Hj Hnd]. cbn [foldl dict_get].
  rewrite IH by done. destruct (str_eqb_spec k j) as [->|Hne].
  - assert (dict_get j b = None) as -> by by apply dict_get_None.
    apply dict_get_set_eq.
  - by rewrite dict_get_set_ne.
Qed.

Lemma getitem_Ok k v w : getitem k v = Ok w ↔ ∃ d, v = PDict d ∧ dict_get k d = Some w.
Proof.
  unfold getitem. rewrite bind_Ok_inv. setoid_rewrite of_option_Ok.
  destruct v; simpl; naive_solver.
Qed.

(* ------------------------------------------------------------------ *)
(** ** json.dumps, in the canonical form the program pins *)
(* ------------------------------------------------------------------ *)

Definition hex_digit (n : N) : N := if (n <? 10)%N then (48 + n)%N else (87 + n)%N.

(** Lower-case four-digit [\uXXXX] escape. *)
Definition u_escape (c : N) : pystr :=
  [92; 117; hex_digit (c / 4096 mod 16); hex_digit (c / 256 mod 16);
   hex_digit (c / 16 mod 16); hex_digit (c mod 16)]%N.

(** [ensure_ascii=True] escaping of one code point. *)
Definition escape_char (c : N) : pystr :=
  if (c =? 34)%N then [92; 34]%N
  else if (c =? 92)%N then [92; 92]%N
  else if (c =? 10)%N then [92; 110]%N
  else if (c =? 13)%N then [92; 114]%N
  else if (c =? 9)%N then [92; 116]%N
  else if (c =? 12)%N then [92; 102]%N
  else if (c =? 8)%N then [92; 98]%N
  else if ((32 <=? c) && (c <=? 126))%N then [c]
  else if (c <? 65536)%N then u_escape c
  else let v := (c - 65536)%N in
       u_escape (55296 + v / 1024) ++ u_escape (56320 + v mod 1024).

Definition escape_str (s : pystr) : pystr := [34%N] ++ concat (escape_char <$> s) ++ [34%N].

(** CPython refuses decimal conversion of integers beyond 4300 digits. *)
Definition int_max_str_digits : Z := 4300.

Definition key_leb {A} (a b : pystr * A) : bool := str_leb a.1 b.1.

Fixpoint json_dumps (v : pyval) : result pystr :=
  match v with
  | PNone => Ok "null"
  | PBool b => Ok (if b then "true" else "false")
  | PInt z =>
      let s := Z_dec z in
      if (int_max_str_digits <? py_len (N_dec (Z.abs_N z)))%Z then Raise (ValueError [])
      else Ok s
  | PFloat f => if PyFloat.is_finite f then Ok (PyFloat.repr f) else Raise (ValueError [])
  | PStr s => Ok (escape_str s)
  | PList l | PTuple l =>
      items ← (fix go l := match l with
                           | [] => Ok []
                           | x :: r => s ← json_dumps x; ss ← go r; Ok (s :: ss)
                           end) l;
      Ok ([91%N] ++ str_join [44%N] items ++ [93%N])
  | PDict d =>
      items ← (fix go d := match d with
                           | [] => Ok []
                           | (k, x) :: r => s ← json_dumps x; ss ← go r; Ok ((k, s) :: ss)
                           end) d;
      Ok ([123%N]
          ++ str_join [44%N] ((λ '(k, s), escape_str k ++ [58%N] ++ s) <$> isort key_leb items)
          ++ [125%N])
  end.

(* ------------------------------------------------------------------ *)
(** ** json.loads *)
(* ------------------------------------------------------------------ *)

Definition is_json_ws (c : N) : bool :=
  ((c =? 32) || (c =? 9) || (c =? 10) || (c =? 13))%N.

Fixpoint skip_ws (s : pystr) : pystr :=
  match s with
  | c :: r => if is_json_ws c then skip_ws r else s
  | [] => []
  end.

Definition hex_value (c : N) : option N :=
  if is_digit c then Some (c - 48)%N
  else if ((97 <=? c) && (c <=? 102))%N then Some (c - 87)%N
  else if ((65 <=? c) && (c <=? 70))%N then Some (c - 55)%N
  else None.

Definition hex4 (s : pystr) : option (N * pystr) :=
  match s with
  | a :: b :: c :: d :: r =>
      a ← hex_value a; b ← hex_value b; c ← hex_value c; d ← hex_value d;
      Some ((a * 4096 + b * 256 + c * 16 + d)%N, r)
  | _ => None
  end.

(** The rest of [s] after the character [c], when [s] starts with it. *)
Definition eat (c : N) (s : pystr) : option pystr :=
  match s with x :: r => if (x =? c)%N then Some r else None | [] => None end.

Lemma eat_split c s r : eat c s = Some r → s = c :: r.
Proof. destruct s as [|x s]; cbn; [done|]. destruct (N.eqb_spec x c); [|done]. by intros [= <-]; subst. Qed.

Definition high_surrogate (u : N) : bool := ((55296 <=? u) && (u <=? 56319))%N.
Definition low_surrogate (u : N) : bool := ((56320 <=? u) && (u <=? 57343))%N.

(** The code point an [\u] escape denotes, joining a surrogate pair. *)
Definition scan_unicode (s : pystr) : option (N * pystr) :=
  '(u, r) ← hex4 s;
  if high_surrogate u then
    match eat 92 r ≫= eat 117 with
    | Some r' =>
        '(v, r'') ← hex4 r';
        if low_surrogate v
        then Some ((65536 + (u - 55296) * 1024 + (v - 56320))%N, r'')
        else Some (u, r)
    | None => Some (u, r)
    end
  else Some (u, r).

(** After the opening quote; the result is the text and what follows the
    closing quote. *)
Fixpoint scan_string (fuel : nat) (s : pystr) : option (pystr * pystr) :=
  match fuel with
  | O => None
  | S fuel =>
      match s with
      | [] => None
      | c :: r =>
          if (c =? 34)%N then Some ([], r)
          else if (c =? 92)%N then
            match r with
            | [] => None
            | e :: r =>
                '(x, r') ←
                  (if (e =? 34)%N then Some (34%N, r)
                   else if (e =? 92)%N then Some (92%N, r)
                   else if (e =? 47)%N then Some (47%N, r)
                   else if (e =? 98)%N then Some (8%N, r)
                   else if (e =? 102)%N then Some (12%N, r)
                   else if (e =? 110)%N then Some (10%N, r)
                   else if (e =? 114)%N then Some (13%N, r)
                   else if (e =? 116)%N then Some (9%N, r)
                   else if (e =? 117)%N then scan_unicode r
                   else None);
                '(t, rest) ← scan_string fuel r'; Some (x :: t, rest)
            end
          else if (c <? 32)%N then None
          else '(t, rest) ← scan_string fuel r; Some (c :: t, rest)
      end
  end.

Fixpoint span_digits (s : pystr) : pystr * pystr :=
  match s with
  | c :: r => if is_digit c then let '(d, r') := span_digits r in (c :: d, r') else ([], s)
  | [] => ([], [])
  end.

(** An optional sign character. *)
Definition scan_minus (s : pystr) : bool * pystr :=
  match eat 45 s with Some r => (true, r) | None => (false, s) end.

(** [(?:0|[1-9][0-9]...)] *)
Definition scan_int (s : pystr) : pystr * pystr :=
  match eat 48 s with Some r => ([48%N], r) | None => span_digits s end.

(** [(\.[0-9]+)?] *)
Definition scan_frac (s : pystr) : pystr * pystr :=
  match eat 46 s with
  | Some r => let '(f, r') := span_digits r in if nonempty f then (f, r') else ([], s)
  | None => ([], s)
  end.

(** [([eE][-+]?[0-9]+)?]: digits, sign, rest. *)
Definition scan_exp (s : pystr) : pystr * bool * pystr :=
  match eat 101 s, eat 69 s with
  | Some r, _ | None, Some r =>
      let '(neg, r) := match eat 43 r with Some r => (false, r) | None => scan_minus r end in
      let '(e, r') := span_digits r in
      if nonempty e then (e, neg, r') else ([], false, s)
  | None, None => ([], false, s)
  end.

Definition scan_number (s : pystr) : option (pyval * pystr) :=
  let '(neg, s) := scan_minus s in
  let '(ds, r) := scan_int s in
  let '(fs, r1) := scan_frac r in
  let '(es, eneg, r2) := scan_exp r1 in
  if negb (nonempty ds) then None
  else if nonempty fs || nonempty es then
    let e := Z.of_N (digits_value es) in
    let e := ((if eneg then - e else e) - py_len fs)%Z in
    Some (PFloat (PyFloat.of_decimal neg (digits_value (ds ++ fs)) e), r2)
  else if (int_max_str_digits <? py_len ds)%Z then None
  else let z := Z.of_N (digits_value ds) in Some (PInt (if neg then - z else z)%Z, r2).

Fixpoint scan_value (fuel : nat) (s : pystr) : option (pyval * pystr) :=
  match fuel with
  | O => None
  | S fuel =>
      match s with
      | [] => None
      | c :: r =>
          if (c =? 34)%N then
            '(t, rest) ← scan_string (S (length r)) r; Some (PStr t, rest)
          else if (c =? 123)%N then
            match eat 125 (skip_ws r) with
            | Some rest => Some (PDict [], rest)
            | None => '(ps, rest) ← scan_members fuel (skip_ws r);
                      Some (PDict (dict_of ps), rest)
            end
          else if (c =? 91)%N then
            match eat 93 (skip_ws r) with
            | Some rest => Some (PList [], rest)
            | None => '(vs, rest) ← scan_elements fuel (skip_ws r); Some (PList vs, rest)
            end
          else if starts_with "null" s then Some (PNone, drop 4 s)
          else if starts_with "true" s then Some (PBool true, drop 4 s)
          else if starts_with "false" s then Some (PBool false, drop 5 s)
          else if starts_with "NaN" s then Some (PFloat S754_nan, drop 3 s)
          else if starts_with "Infinity" s then Some (PFloat (S754_infinity false), drop 8 s)
          else if starts_with "-Infinity" s then Some (PFloat (S754_infinity true), drop 9 s)
          else scan_number s
      end
  end
with scan_elements (fuel : nat) (s : pystr) : option (list pyval * pystr) :=
  match fuel with
  | O => None
  | S fuel =>
      '(v, r) ← scan_value fuel s;
      match eat 93 (skip_ws r), eat 44 (skip_ws r) with
      | Some rest, _ => Some ([v], rest)
      | None, Some rest =>
          '(vs, rest) ← scan_elements fuel (skip_ws rest); Some (v :: vs, rest)
      | None, None => None
      end
  end
with scan_members (fuel : nat) (s : pystr) : option (pydict * pystr) :=
  match fuel with
  | O => None
  | S fuel =>
      r ← eat 34 s;
      '(k, r) ← scan_string (S (length r)) r;
      r ← eat 58 (skip_ws r);
      '(v, r) ← scan_value fuel (skip_ws r);
      match eat 125 (skip_ws r), eat 44 (skip_ws r) with
      | Some rest, _ => Some ([(k, v)], rest)
      | None, Some rest =>
          '(ps, rest) ← scan_members fuel (skip_ws rest); Some ((k, v) :: ps, rest)
      | None, None => None
      end
  end.

(** [json.loads(text)]; every syntax error is a [ValueError].  Each call
    consumes a character or descends once per character, so twice the
    length is enough fuel. *)
Definition json_loads (s : pystr) : result pyval :=
  match scan_value (S (S (2 * length s))) (skip_ws s) with
  | Some (v, rest) => match skip_ws rest with [] => Ok v | _ => Raise (ValueError []) end
  | None => Raise (ValueError [])
  end.

(* ------------------------------------------------------------------ *)
(** ** Dictionaries as sets of bindings *)
(* ------------------------------------------------------------------ *)

Lemma elem_of_dict_set_inv {A} k (v : A) d j w :
  (j, w) ∈ dict_set k v d → (j, w) = (k, v) ∨ (j, w) ∈ d.
Proof.
  induction d as [|[k' v'] d IH]; cbn [dict_set].
  - rewrite elem_of_cons. intros [?|?%elem_of_nil]; [by left|done].
  - destruct (str_eqb_spec k k') as [->|Hne]; rewrite !elem_of_cons; [naive_solver|].
    intros [?|?]; [tauto|]. destruct IH; tauto.
Qed.

Lemma elem_of_dict_set_keep {A} k (v : A) d j w :
  j ≠ k → (j, w) ∈ d → (j, w) ∈ dict_set k v d.
Proof.
  intros Hjk. induction d as [|[k' v'] d IH]; cbn [dict_set]; [by intros ?%elem_of_nil|].
  destruct (str_eqb_spec k k') as [->|Hne]; rewrite !elem_of_cons.
  - intros [[= -> ->]|?]; [done|by right].
  - intros [?|?]; [by left|right; auto].
Qed.

Lemma elem_of_dict_set_new {A} k (v : A) d : (k, v) ∈ dict_set k v d.
Proof. apply dict_get_Some_in, dict_get_set_eq. Qed.

Lemma dict_keys_set {A} k (v : A) d j : j ∈ dict_keys (dict_set k v d) ↔ j = k ∨ j ∈ dict_keys d.
Proof.
  rewrite <- !dict_get_is_Some. destruct (decide (j = k)) as [->|Hne].
  - rewrite dict_get_set_eq. split; [by left|by eexists].
  - rewrite dict_get_set_ne by done. tauto.
Qed.

Lemma dict_set_NoDup {A} k (v : A) d :
  NoDup (dict_keys d) → NoDup (dict_keys (dict_set k v d)).
Proof.
  induction d as [|[k' v'] d IH]; cbn [dict_set]; intros Hnd.
  { apply NoDup_singleton. }
  cbn in Hnd. apply NoDup_cons in Hnd as [Hk Hnd].
  destruct (str_eqb_spec k k') as [->|Hne]; cbn; apply NoDup_cons; split; try done; [|by apply IH].
  intros [->|Hin]%dict_keys_set; done.
Qed.

Lemma dict_of_spec {A} (ps : list (pystr * A)) :
  NoDup (dict_keys (dict_of ps)) ∧ ∀ j w, (j, w) ∈ dict_of ps → (j, w) ∈ ps.
Proof.
  unfold dict_of.
  assert (H : ∀ d, NoDup (dict_keys d) →
            NoDup (dict_keys (foldl (λ d '(k, v), dict_set k v d) d ps))
            ∧ ∀ j w, (j, w) ∈ foldl (λ d '(k, v), dict_set k v d) d ps → (j, w) ∈ d ∨ (j, w) ∈ ps).
  { induction ps as [|[k v] ps IH]; intros d Hd; cbn [foldl]; [split; [done|auto]|].
    destruct (IH _ (dict_set_NoDup k v d Hd)) as [H1 H2]. split; [done|].
    intros j w [[-> | ?]%elem_of_dict_set_inv|?]%H2; [right; left|by left|by right; right]. }
  destruct (H [] (NoDup_nil_2)) as [H1 H2]. split; [done|].
  intros j w [?%elem_of_nil|?]%H2; done.
Qed.
