(* ===== verification/JsonCodec.v ===== *)
(** * The JSON codec round trip.

    [json_loads] inverts [json_dumps] on values whose floats read back and whose strings are
    sequences of Unicode scalar values, up to the canonical form the encoder
    chooses (tuples become arrays, keys are sorted).  The rule-pack store
    relies on it: what is frozen is what is read back. *)
From S2P Require Import Prelude PyVal.

(* ------------------------------------------------------------------ *)
(** ** Induction over nested values *)
(* ------------------------------------------------------------------ *)
Section pyval_ind.
Context (P : pyval → Prop).
Context (HNone : P PNone) (HBool : ∀ b, P (PBool b)) (HInt : ∀ z, P (PInt z))
  (HFloat : ∀ f, P (PFloat f)) (HStr : ∀ s, P (PStr s))
  (HList : ∀ l, Forall P l → P (PList l))
  (HTuple : ∀ l, Forall P l → P (PTuple l))
  (HDict : ∀ d, Forall (λ kv, P kv.2) d → P (PDict d)).

Fixpoint pyval_nested_ind (v : pyval) : P v :=
  let list_ind := fix go (l : list pyval) : Forall P l :=
    match l with
    | [] => Forall_nil_2 _
    | x :: r => Forall_cons_2 _ _ _ (pyval_nested_ind x) (go r)
    end in
  match v with
  | PNone => HNone
  | PBool b => HBool b
  | PInt z => HInt z
  | PFloat f => HFloat f
  | PStr s => HStr s
  | PList l => HList l (list_ind l)
  | PTuple l => HTuple l (list_ind l)
  | PDict d => HDict d ((fix go (d : pydict) : Forall (λ kv, P kv.2) d :=
      match d with
      | [] => Forall_nil_2 _
      | kv :: r => Forall_cons_2 _ _ _ (pyval_nested_ind kv.2) (go r)
      end) d)
  end.
End pyval_ind.

(* ------------------------------------------------------------------ *)
(** ** Canonical form *)
(* ------------------------------------------------------------------ *)

(** A Unicode scalar value: no surrogate code points. *)
Definition scalar (c : N) : bool :=
  ((c <? 55296) || (57344 <=? c) && (c <? 1114112))%N.

Definition scalar_str (s : pystr) : bool := forallb scalar s.

#[export] Instance spec_float_eq_dec : EqDecision spec_float.
Proof. solve_decision. Defined.

(** The first character of a number. *)
Definition number_head (s : pystr) : bool :=
  match s with
  | c :: r => is_digit c || (c =? 45)%N && match r with d :: _ => is_digit d | [] => false end
  | [] => false
  end.

(** A finite float whose [repr] the number scanner reads back as that float. *)
Definition float_clean (f : spec_float) : bool :=
  PyFloat.is_finite f && number_head (PyFloat.repr f)
  && match scan_number (PyFloat.repr f) with
     | Some (PFloat g, []) => bool_decide (g = f)
     | _ => false
     end.

(** JSON values with distinct scalar keys and floats that read back. *)
Fixpoint json_clean (v : pyval) : bool :=
  match v with
  | PNone | PBool _ | PInt _ => true
  | PFloat f => float_clean f
  | PStr s => scalar_str s
  | PList l | PTuple l => forallb json_clean l
  | PDict d => str_distinct d.*1 && forallb (λ kv, scalar_str kv.1 && json_clean kv.2) d
  end.

Fixpoint canon (v : pyval) : pyval :=
  match v with
  | PList l | PTuple l => PList (map canon l)
  | PDict d => PDict (isort key_leb (map (λ kv, (kv.1, canon kv.2)) d))
  | v => v
  end.

Definition canon_member (kv : pystr * pyval) : pystr * pyval := (kv.1, canon kv.2).

(* ------------------------------------------------------------------ *)
(** ** Numbers *)
(* ------------------------------------------------------------------ *)

Lemma digits_value_app a b :
  digits_value (a ++ b) = foldl (λ acc c, acc * 10 + (c - 48))%N (digits_value a) b.
Proof. unfold digits_value. by rewrite foldl_app. Qed.

Lemma dec_digits_acc fuel n acc : dec_digits fuel n acc = dec_digits fuel n [] ++ acc.
Proof.
  revert n acc; induction fuel as [|fuel IH]; intros n acc; [done|]. cbn [dec_digits].
  destruct (n / 10 =? 0)%N; [done|].
  rewrite (IH _ (_ :: acc)), (IH _ [_]), <- app_assoc. done.
Qed.

Lemma dec_digits_spec fuel n :
  (n < 10 ^ N.of_nat fuel)%N → (0 < fuel)%nat →
  digits_value (dec_digits fuel n []) = n
  ∧ all_digits (dec_digits fuel n []) = true
  ∧ (∃ c r, dec_digits fuel n [] = c :: r ∧ (c = 48%N → n = 0%N ∧ r = [])).
Proof.
  revert n; induction fuel as [|fuel IH]; intros n Hn Hf; [lia|]. cbn [dec_digits].
  pose proof (N.mod_lt n 10 ltac:(done)) as Hmod.
  pose proof (N.div_mod n 10 ltac:(done)) as Hdm.
  remember (n / 10)%N as q eqn:Hq. remember (n mod 10)%N as m eqn:Hm. clear Hq Hm.
  assert (Hd : is_digit (48 + m) = true).
  { unfold is_digit. rewrite andb_true_iff, !N.leb_le. lia. }
  destruct (N.eqb_spec q 0) as [Hz|Hz].
  - unfold digits_value, all_digits. cbn [foldl forallb]. rewrite Hd.
    split_and!; [lia|done|]. eexists _, _. split; [done|]. intros Hc. split; [|done]. lia.
  - destruct fuel as [|fuel]; [cbn in Hn; lia|].
    destruct (IH q) as (Hv & Ha & (c & r & Hcr & Hc)); [|lia|].
    { rewrite (Nat2N.inj_succ (S fuel)), N.pow_succ_r' in Hn. lia. }
    rewrite dec_digits_acc. split_and!.
    + rewrite digits_value_app, Hv. cbn [foldl]. lia.
    + unfold all_digits in *. rewrite forallb_app, Ha. cbn [forallb]. by rewrite Hd.
    + rewrite Hcr. eexists _, _. split; [done|]. intros ->. destruct (Hc eq_refl). lia.
Qed.

Lemma N_dec_spec n :
  digits_value (N_dec n) = n ∧ all_digits (N_dec n) = true
  ∧ (∃ c r, N_dec n = c :: r ∧ (c = 48%N → n = 0%N ∧ r = [])).
Proof.
  apply dec_digits_spec; [|lia].
  rewrite Nat2N.inj_succ, N2Nat.id.
  apply N.lt_le_trans with (2 ^ N.size n)%N; [apply N.size_gt|].
  rewrite N.pow_succ_r'. transitivity (10 ^ N.size n)%N; [|lia].
  apply N.pow_le_mono_l. done.
Qed.

(** A number is read off a text up to the first character that is no digit. *)
Lemma digits_before c a b x y : is_digit c = false → all_digits a = true → all_digits b = true →
  a ++ c :: x = b ++ c :: y → a = b ∧ x = y.
Proof.
  intros Hc. revert b. induction a as [|d a IH]; intros [|d' b] Ha Hb E; cbn in *.
  - by injection E.
  - injection E as <- _. by rewrite Hc in Hb.
  - injection E as -> _. by rewrite Hc in Ha.
  - injection E as -> E. apply andb_true_iff in Ha as [_ Ha], Hb as [_ Hb].
    by destruct (IH b Ha Hb E) as [-> ->].
Qed.

Lemma Z_dec_nonneg z : (0 <= z)%Z →
  all_digits (Z_dec z) = true ∧ Z.of_N (digits_value (Z_dec z)) = z.
Proof.
  intros Hz. replace (Z_dec z) with (N_dec (Z.to_N z)) by by destruct z.
  destruct (N_dec_spec (Z.to_N z)) as (-> & -> & _). split; [done|lia].
Qed.

Lemma Z_dec_before c z z' x y : is_digit c = false → (0 <= z)%Z → (0 <= z')%Z →
  Z_dec z ++ c :: x = Z_dec z' ++ c :: y → z = z' ∧ x = y.
Proof.
  intros Hc [Hd Hv]%Z_dec_nonneg [Hd' Hv']%Z_dec_nonneg [E Hx]%digits_before; [|done..].
  split; [congruence|done].
Qed.

Lemma Z_dec_inj z z' : (0 <= z)%Z → (0 <= z')%Z → Z_dec z = Z_dec z' → z = z'.
Proof. intros [_ Hv]%Z_dec_nonneg [_ Hv']%Z_dec_nonneg E. congruence. Qed.

(** What may follow a value in an encoding. *)
Definition delim (s : pystr) : Prop :=
  match s with [] => True | c :: _ => c = 44%N ∨ c = 93%N ∨ c = 125%N end.

Lemma span_digits_all ds rest :
  all_digits ds = true →
  (match rest with [] => True | c :: _ => is_digit c = false end) →
  span_digits (ds ++ rest) = (ds, rest).
Proof.
  intros Ha Hr. induction ds as [|c ds IH]; simpl.
  - destruct rest as [|c rest]; [done|]. simpl. by rewrite Hr.
  - simpl in Ha. apply andb_true_iff in Ha as [-> Ha]. by rewrite IH.
Qed.

Lemma eat_ne c s : (match s with x :: _ => x ≠ c | [] => True end) → eat c s = None.
Proof. destruct s as [|x s]; [done|]. simpl. by intros ->%N.eqb_neq. Qed.

Lemma scan_frac_none r :
  (match r with c :: _ => c ≠ 46%N | [] => True end) → scan_frac r = ([], r).
Proof. intros H. unfold scan_frac. by rewrite (eat_ne 46). Qed.

Lemma scan_exp_none r :
  (match r with c :: _ => c ≠ 101%N ∧ c ≠ 69%N | [] => True end) → scan_exp r = ([], false, r).
Proof.
  intros H. unfold scan_exp. rewrite (eat_ne 101), (eat_ne 69); [done|..]; destruct r; naive_solver.
Qed.

Lemma scan_int_dec n rest :
  (match rest with [] => True | c :: _ => is_digit c = false end) →
  scan_int (N_dec n ++ rest) = (N_dec n, rest).
Proof.
  intros Hnd. destruct (N_dec_spec n) as (_ & Ha & (c & r & Hcr & Hc)).
  unfold scan_int. pose proof (span_digits_all _ _ Ha Hnd) as Hs. rewrite Hcr in *.
  cbn [app eat]. destruct (N.eqb_spec c 48) as [->|_]; [|exact Hs].
  by destruct (Hc eq_refl) as [_ ->].
Qed.

Lemma scan_number_dec (neg : bool) n rest :
  (py_len (N_dec n) <=? int_max_str_digits)%Z = true → delim rest →
  scan_number ((if neg then [45%N] else []) ++ N_dec n ++ rest)
  = Some (PInt (if neg then - Z.of_N n else Z.of_N n)%Z, rest).
Proof.
  intros Hlen%Z.leb_le Hrest. destruct (N_dec_spec n) as (Hv & Ha & (c & r & Hcr & _)).
  assert (Hminus : scan_minus ((if neg then [45%N] else []) ++ N_dec n ++ rest)
                   = (neg, N_dec n ++ rest)).
  { unfold scan_minus. destruct neg; [done|]. rewrite Hcr. cbn [app]. rewrite eat_ne; [done|].
    intros ->. by rewrite Hcr in Ha. }
  unfold scan_number. rewrite Hminus, scan_int_dec, scan_frac_none, scan_exp_none.
  - rewrite Hv, (proj2 (Z.ltb_ge _ _) Hlen). by rewrite Hcr.
  - destruct rest as [|d rest]; [done|]. by destruct Hrest as [->|[->| ->]].
  - destruct rest as [|d rest]; [done|]. by destruct Hrest as [->|[->| ->]].
  - destruct rest as [|d rest]; [done|]. by destruct Hrest as [->|[->| ->]].
Qed.

(** What follows a number does not change how it is scanned. *)
Lemma eat_app_rest c s rest :
  (match rest with [] => True | x :: _ => x ≠ c end) →
  eat c (s ++ rest) = option_map (λ r, r ++ rest) (eat c s).
Proof. intros Hr. destruct s as [|x s]; [by apply eat_ne|]. cbn. by destruct (x =? c)%N. Qed.

Lemma span_digits_app s rest :
  (match rest with [] => True | c :: _ => is_digit c = false end) →
  span_digits (s ++ rest) = ((span_digits s).1, (span_digits s).2 ++ rest).
Proof.
  intros Hr. induction s as [|c s IH]; cbn [app span_digits].
  - destruct rest as [|c rest]; [done|]. cbn. by rewrite Hr.
  - rewrite IH. destruct (is_digit c); [|done]. by destruct (span_digits s).
Qed.

Lemma delim_head rest : delim rest →
  (∀ c, c ∉ [44; 93; 125]%N → match rest with [] => True | x :: _ => x ≠ c end)
  ∧ match rest with [] => True | c :: _ => is_digit c = false end.
Proof.
  destruct rest as [|x rest]; [done|]. intros Hx. split.
  - intros c Hin <-. apply Hin. rewrite !elem_of_cons. cbn in Hx. tauto.
  - by destruct Hx as [->|[->| ->]].
Qed.

Lemma scan_number_app s v r rest :
  scan_number s = Some (v, r) → delim rest → scan_number (s ++ rest) = Some (v, r ++ rest).
Proof.
  intros Hs Hd. apply delim_head in Hd as [Hc Hdig].
  assert (Heat : ∀ c, c ∉ [44; 93; 125]%N → ∀ t, eat c (t ++ rest) = option_map (λ r, r ++ rest) (eat c t)).
  { intros c Hin t. apply eat_app_rest. by apply Hc. }
  assert (Hminus : ∀ t, scan_minus (t ++ rest) = ((scan_minus t).1, (scan_minus t).2 ++ rest)).
  { intros t. unfold scan_minus. rewrite Heat by set_solver. by destruct (eat 45 t). }
  assert (Hint : ∀ t, scan_int (t ++ rest) = ((scan_int t).1, (scan_int t).2 ++ rest)).
  { intros t. unfold scan_int. rewrite Heat by set_solver. destruct (eat 48 t); [done|].
    by apply span_digits_app. }
  assert (Hfrac : ∀ t, scan_frac (t ++ rest) = ((scan_frac t).1, (scan_frac t).2 ++ rest)).
  { intros t. unfold scan_frac. rewrite Heat by set_solver. destruct (eat 46 t) as [t'|]; [|done].
    cbn [option_map]. rewrite span_digits_app by done. destruct (span_digits t') as [d t'']. cbn [fst snd].
    by destruct (nonempty d). }
  assert (Hexp : ∀ t, scan_exp (t ++ rest) = ((scan_exp t).1, (scan_exp t).2 ++ rest)).
  { intros t. unfold scan_exp. rewrite !Heat by set_solver.
    assert (Hbody : ∀ t' : pystr,
        (let '(neg, r) := match option_map (λ r, r ++ rest) (eat 43 t') with
                          | Some r => (false, r) | None => scan_minus (t' ++ rest) end in
         let '(e, r') := span_digits r in if nonempty e then (e, neg, r') else ([], false, t ++ rest))
        = let p := (let '(neg, r) := match eat 43 t' with Some r => (false, r) | None => scan_minus t' end in
                    let '(e, r') := span_digits r in if nonempty e then (e, neg, r') else ([], false, t)) in
          (p.1, p.2 ++ rest)).
    { intros t'. rewrite Hminus. destruct (eat 43 t') as [u|]; cbn [option_map].
      - rewrite span_digits_app by done. destruct (span_digits u) as [d u']. cbn [fst snd].
        by destruct (nonempty d).
      - destruct (scan_minus t') as [b u]. cbn [fst snd]. rewrite span_digits_app by done.
        destruct (span_digits u) as [d u']. cbn [fst snd]. by destruct (nonempty d). }
    destruct (eat 101 t) as [u|], (eat 69 t) as [w|]; cbn [option_map]; rewrite ?Heat by set_solver;
      by rewrite ?Hbody. }
  unfold scan_number in *. rewrite Hminus. destruct (scan_minus s) as [neg s1]. cbn [fst snd].
  rewrite Hint. destruct (scan_int s1) as [ds s2]. cbn [fst snd].
  rewrite Hfrac. destruct (scan_frac s2) as [fs s3]. cbn [fst snd].
  rewrite Hexp. destruct (scan_exp s3) as [[es eneg] s4]. cbn [fst snd].
  destruct (negb (nonempty ds)); [done|]. destruct (nonempty fs || nonempty es); [by simplify_eq|].
  destruct (_ <? _)%Z; [done|]. by simplify_eq.
Qed.

Lemma scan_number_int z rest :
  (py_len (N_dec (Z.abs_N z)) <=? int_max_str_digits)%Z = true → delim rest →
  scan_number (Z_dec z ++ rest) = Some (PInt z, rest).
Proof.
  destruct z as [|p|p].
  - apply (scan_number_dec false 0%N).
  - apply (scan_number_dec false (N.pos p)).
  - apply (scan_number_dec true (N.pos p)).
Qed.

(* ------------------------------------------------------------------ *)
(** ** Strings *)
(* ------------------------------------------------------------------ *)

Lemma hex_value_digit n : (n < 16)%N → hex_value (hex_digit n) = Some n.
Proof.
  intros Hn. unfold hex_digit, hex_value, is_digit.
  destruct (N.ltb_spec n 10).
  - rewrite (proj2 (N.leb_le 48 _)), (proj2 (N.leb_le _ 57)) by lia. cbn. f_equal. lia.
  - rewrite (proj2 (N.leb_gt _ 57)), andb_false_r by lia.
    rewrite (proj2 (N.leb_le 97 _)), (proj2 (N.leb_le _ 102)) by lia. cbn. f_equal. lia.
Qed.

Lemma hex4_escape c r :
  (c < 65536)%N →
  hex4 (hex_digit (c / 4096 mod 16) :: hex_digit (c / 256 mod 16)
        :: hex_digit (c / 16 mod 16) :: hex_digit (c mod 16) :: r) = Some (c, r).
Proof.
  intros Hc. cbn [hex4]. rewrite !hex_value_digit by (apply N.mod_lt; done).
  cbn [mbind option_bind]. do 2 f_equal.
  change 4096%N with (16 * 16 * 16)%N. change 256%N with (16 * 16)%N.
  rewrite <- !N.Div0.div_div.
  pose proof (N.div_mod c 16 ltac:(done)) as H1.
  pose proof (N.div_mod (c / 16) 16 ltac:(done)) as H2.
  pose proof (N.div_mod (c / 16 / 16) 16 ltac:(done)) as H3.
  assert (H4 : (c / 16 / 16 / 16 < 16)%N).
  { rewrite !N.Div0.div_div. apply N.Div0.div_lt_upper_bound. lia. }
  rewrite (N.mod_small (c / 16 / 16 / 16)) by done.
  remember (c / 16 / 16 / 16)%N as a eqn:Ea. remember (c / 16 / 16 mod 16)%N as b eqn:Eb.
  remember (c / 16 / 16)%N as q1 eqn:Eq1. remember (c / 16 mod 16)%N as d eqn:Ed.
  remember (c / 16)%N as q2 eqn:Eq2. remember (c mod 16)%N as e eqn:Ee.
  clear Ea Eb Eq1 Ed Eq2 Ee. lia.
Qed.

Lemma scan_unicode_bmp c r :
  (c < 65536)%N → high_surrogate c = false →
  scan_unicode (hex_digit (c / 4096 mod 16) :: hex_digit (c / 256 mod 16)
        :: hex_digit (c / 16 mod 16) :: hex_digit (c mod 16) :: r) = Some (c, r).
Proof. intros Hc Hs. unfold scan_unicode. rewrite hex4_escape by done. cbn. by rewrite Hs. Qed.

Lemma scan_unicode_pair v r :
  (v < 1048576)%N →
  scan_unicode (drop 2 (u_escape (55296 + v / 1024)) ++ u_escape (56320 + v mod 1024) ++ r)
  = Some ((65536 + v)%N, r).
Proof.
  intros Hv. unfold scan_unicode, u_escape. cbn [app drop].
  assert (Hq : (v / 1024 < 1024)%N) by (apply N.Div0.div_lt_upper_bound; lia).
  pose proof (N.mod_lt v 1024 ltac:(done)) as Hm.
  pose proof (N.div_mod v 1024 ltac:(done)) as Hdm.
  remember (v / 1024)%N as q eqn:Eq. remember (v mod 1024)%N as m eqn:Em. clear Eq Em.
  rewrite hex4_escape by lia. cbn [mbind option_bind].
  assert (high_surrogate (55296 + q) = true) as ->
    by (unfold high_surrogate; rewrite andb_true_iff, !N.leb_le; lia).
  cbn [eat N.eqb Pos.eqb mbind option_bind]. rewrite hex4_escape by lia.
  cbn [mbind option_bind].
  assert (low_surrogate (56320 + m) = true) as ->
    by (unfold low_surrogate; rewrite andb_true_iff, !N.leb_le; lia).
  do 2 f_equal. lia.
Qed.

(** One step of the scanner undoes the escape of one code point. *)
Lemma scan_string_escape1 fuel c t :
  scalar c = true →
  scan_string (S fuel) (escape_char c ++ t)
  = '(s, rest) ← scan_string fuel t; Some (c :: s, rest).
Proof.
  intros Hs. unfold escape_char.
  repeat match goal with
  | |- context [(c =? ?k)%N] => destruct (N.eqb_spec c k) as [->|]; [done|]
  end.
  destruct ((32 <=? c) && (c <=? 126))%N eqn:Hp.
  { apply andb_true_iff in Hp as [Hlo%N.leb_le Hhi%N.leb_le]. cbn [app scan_string].
    rewrite (proj2 (N.eqb_neq c 34)), (proj2 (N.eqb_neq c 92)) by done.
    by rewrite (proj2 (N.ltb_ge c 32)) by done. }
  destruct (N.ltb_spec c 65536) as [Hlt|Hge].
  - unfold u_escape. cbn [app scan_string N.eqb Pos.eqb].
    rewrite scan_unicode_bmp; [done|done|]. unfold high_surrogate, scalar in *.
    apply orb_true_iff in Hs as [Hs%N.ltb_lt|[Hs%N.leb_le _]%andb_true_iff];
      apply andb_false_iff; rewrite !N.leb_gt; lia.
  - set (v := (c - 65536)%N).
    change (u_escape (55296 + v / 1024)) with
      ([92; 117]%N ++ drop 2 (u_escape (55296 + v / 1024))).
    rewrite <- !app_assoc. cbn [app scan_string N.eqb Pos.eqb].
    assert (Hv : (v < 1048576)%N).
    { unfold scalar in Hs. apply orb_true_iff in Hs
        as [Hs%N.ltb_lt|[_ Hs%N.ltb_lt]%andb_true_iff]; lia. }
    rewrite scan_unicode_pair by done. cbn [mbind option_bind].
    by replace (65536 + v)%N with c by lia.
Qed.

Lemma escape_char_length c : (1 <= length (escape_char c))%nat.
Proof. unfold escape_char. repeat case_match; simpl; lia. Qed.

Lemma scan_string_escape fuel s rest :
  scalar_str s = true → (length (concat (escape_char <$> s)) < fuel)%nat →
  scan_string fuel (concat (escape_char <$> s) ++ 34%N :: rest) = Some (s, rest).
Proof.
  unfold scalar_str. revert fuel. induction s as [|c s IH]; intros fuel Hs Hf.
  - destruct fuel; [simpl in Hf; lia|]. done.
  - simpl in Hs. apply andb_true_iff in Hs as [Hc Hs].
    cbn [fmap list_fmap concat] in *. rewrite <- app_assoc.
    rewrite length_app in Hf. pose proof (escape_char_length c).
    destruct fuel; [lia|]. rewrite scan_string_escape1 by done.
    fold (list_fmap N (list N) escape_char s) in *. rewrite IH; [done|done|].
    unfold fmap in *. lia.
Qed.

Lemma scan_string_escape_str s rest :
  scalar_str s = true →
  ∃ body, escape_str s ++ rest = 34%N :: body
          ∧ scan_string (S (length body)) body = Some (s, rest).
Proof.
  intros Hs. eexists. split.
  - unfold escape_str. rewrite <- !app_assoc. reflexivity.
  - apply scan_string_escape; [done|]. rewrite length_app. simpl. unfold fmap. lia.
Qed.

(* ------------------------------------------------------------------ *)
(** ** Containers *)
(* ------------------------------------------------------------------ *)

(** The encoder's loops over children, named. *)
Definition dump_list : list pyval → result (list pystr) := map_result json_dumps.

Definition dump_pairs : pydict → result (list (pystr * pystr)) :=
  map_result (λ '(k, x), s ← json_dumps x; Ok (k, s)).

Lemma json_dumps_list l :
  json_dumps (PList l) = items ← dump_list l; Ok ([91%N] ++ str_join [44%N] items ++ [93%N]).
Proof.
  cbn [json_dumps]. unfold dump_list. f_equal.
  induction l as [|x l IH]; [done|]. cbn [map_result]. by rewrite <- IH.
Qed.

Definition member_text (kv : pystr * pystr) : pystr := escape_str kv.1 ++ [58%N] ++ kv.2.

Lemma json_dumps_dict d :
  json_dumps (PDict d) =
  items ← dump_pairs d;
  Ok ([123%N] ++ str_join [44%N] (member_text <$> isort key_leb items) ++ [125%N]).
Proof.
  cbn [json_dumps].
  assert (Hloop : ∀ d : pydict, (fix go (d : pydict) : result (list (pystr * pystr)) :=
                         match d with
                           | [] => Ok []
                           | (k, x) :: r => s ← json_dumps x; ss ← go r; Ok ((k, s) :: ss)
                           end) d = dump_pairs d).
  { clear d. unfold dump_pairs. induction d as [|[k x] d IH]; [done|]. cbn [map_result]. rewrite <- IH.
    by destruct (json_dumps x). }
  rewrite Hloop. destruct (dump_pairs d) as [items|]; [|done]. cbn [mbind result_bind].
  do 4 f_equal. apply list_fmap_ext. by intros _ [k s] _.
Qed.

(** The first character of an encoding: never white space nor a closer. *)
Definition opener (s : pystr) : Prop :=
  match s with
  | [] => False
  | c :: _ => is_json_ws c = false ∧ c ≠ 93%N ∧ c ≠ 125%N
  end.

Lemma skip_ws_opener s : opener s → skip_ws s = s.
Proof. destruct s as [|c s]; [done|]. intros (H & _). simpl. by rewrite H. Qed.

Lemma skip_ws_delim s : delim s → skip_ws s = s.
Proof. destruct s as [|c s]; [done|]. by intros [->|[->| ->]]. Qed.

Lemma eat_opener_list s : opener s → eat 93 s = None.
Proof. destruct s; [done|]. intros (_ & H & _). by apply eat_ne. Qed.

Lemma eat_opener_dict s : opener s → eat 125 s = None.
Proof. destruct s; [done|]. intros (_ & _ & H). by apply eat_ne. Qed.

Lemma opener_app s t : opener s → opener (s ++ t).
Proof. by destruct s. Qed.

Lemma opener_N_dec n t : opener (N_dec n ++ t).
Proof.
  destruct (N_dec_spec n) as (_ & Ha & (c & r & Hcr & _)). rewrite Hcr in *.
  simpl in Ha. apply andb_true_iff in Ha as [Ha _].
  unfold is_digit in Ha. apply andb_true_iff in Ha as [H1%N.leb_le H2%N.leb_le].
  simpl. unfold is_json_ws. split_and!; [|lia|lia].
  rewrite !orb_false_iff, !N.eqb_neq. lia.
Qed.

Lemma opener_number s : number_head s = true → opener s.
Proof.
  destruct s as [|c s]; [done|]. cbn [number_head opener]. unfold is_json_ws, is_digit.
  intros Hc. assert (Hr : (48 <= c <= 57)%N ∨ c = 45%N).
  { apply orb_true_iff in Hc as [[?%N.leb_le ?%N.leb_le]%andb_true_iff|[?%N.eqb_eq _]%andb_true_iff]; [left; lia|by right]. }
  split_and!; [|lia|lia]. rewrite !orb_false_iff, !N.eqb_neq. lia.
Qed.

Lemma json_dumps_opener v s : json_clean v = true → json_dumps v = Ok s → opener s.
Proof.
  destruct v; intros Hcl; try done; try (intros [= <-]; by repeat split).
  - intros [= <-]. by destruct b.
  - cbn [json_dumps]. destruct (_ <? _)%Z; [done|]. intros [= <-].
    rewrite <- (app_nil_r (Z_dec z)).
    destruct z; [apply opener_N_dec | apply opener_N_dec | by repeat split].
  - cbn [json_clean] in Hcl. apply andb_true_iff in Hcl as [Hcl _].
    apply andb_true_iff in Hcl as [Hf Hh]. cbn [json_dumps]. rewrite Hf. intros [= <-].
    by apply opener_number.
  - rewrite json_dumps_list. intros (items & _ & [= <-])%bind_Ok_inv. by repeat split.
  - change (json_dumps (PTuple l)) with (json_dumps (PList l)).
    rewrite json_dumps_list. intros (items & _ & [= <-])%bind_Ok_inv. by repeat split.
  - rewrite json_dumps_dict. intros (items & _ & [= <-])%bind_Ok_inv. by repeat split.
Qed.

(** What the induction hypothesis gives for one child. *)
Definition reads_back (v : pyval) (s : pystr) : Prop :=
  opener s ∧
  ∀ fuel rest, (2 * length s + 1 <= fuel)%nat → delim rest →
    scan_value fuel (s ++ rest) = Some (canon v, rest).

Lemma scan_elements_join l items rest fuel :
  Forall2 reads_back l items → l ≠ [] →
  (2 * length (str_join [44%N] items) + 2 <= fuel)%nat →
  scan_elements fuel (str_join [44%N] items ++ 93%N :: rest) = Some (canon <$> l, rest).
Proof.
  intros H. revert fuel. induction H as [|v s l items [Ho Hv] Hl IH]; [done|].
  intros fuel _ Hf. destruct fuel as [|fuel]; [lia|]. cbn [scan_elements].
  destruct Hl as [|v' s' l items Hv' Hl].
  - cbn [str_join] in *. rewrite Hv; [done|lia|simpl; tauto].
  - cbn [str_join] in *. rewrite !length_app in Hf. rewrite <- !app_assoc.
    rewrite Hv; [|lia|simpl; tauto].
    cbn [app skip_ws is_json_ws N.eqb Pos.eqb orb eat mbind option_bind].
    rewrite skip_ws_opener by (destruct Hv' as [Ho' _], items; repeat apply opener_app; done).
    rewrite IH; [done|done|]. simpl length in *. lia.
Qed.

Definition member_reads_back (kv : pystr * pyval) (ks : pystr * pystr) : Prop :=
  kv.1 = ks.1 ∧ scalar_str kv.1 = true ∧ reads_back kv.2 ks.2.

Lemma scan_members_join d items rest fuel :
  Forall2 member_reads_back d items → d ≠ [] →
  (2 * length (str_join [44%N] (member_text <$> items)) + 2 <= fuel)%nat →
  scan_members fuel (str_join [44%N] (member_text <$> items) ++ 125%N :: rest)
  = Some (canon_member <$> d, rest).
Proof.
  intros H. revert fuel.
  induction H as [|[k v] [k' s] d items (Hk & Hks & Ho & Hv) Hl IH]; [done|].
  intros fuel _ Hf. simpl in Hk. subst k'. destruct fuel as [|fuel]; [lia|].
  cbn [scan_members]. cbn [fst snd] in *.
  destruct Hl as [|[k2 v'] [k2' s'] d items Hv' Hl].
  - cbn [str_join fmap list_fmap] in *. unfold member_text in *. cbn [fst snd] in *.
    rewrite !length_app in Hf. rewrite <- !app_assoc.
    destruct (scan_string_escape_str k ([58%N] ++ s ++ 125%N :: rest) Hks) as (body & -> & Hb).
    cbn [eat N.eqb Pos.eqb mbind option_bind]. rewrite Hb.
    cbn [mbind option_bind app skip_ws is_json_ws N.eqb Pos.eqb orb eat].
    rewrite skip_ws_opener by by apply opener_app.
    rewrite Hv; [done|lia|simpl; tauto].
  - set (tail := member_text <$> (k2', s') :: items) in *.
    change (str_join [44%N] (member_text <$> (k, s) :: (k2', s') :: items))
      with (member_text (k, s) ++ [44%N] ++ str_join [44%N] tail) in *.
    unfold member_text in Hf |- *. cbn [fst snd] in *.
    rewrite !length_app in Hf. rewrite <- !app_assoc.
    destruct (scan_string_escape_str k
      ([58%N] ++ s ++ [44%N] ++ str_join [44%N] tail ++ 125%N :: rest) Hks) as (body & -> & Hb).
    cbn [eat N.eqb Pos.eqb mbind option_bind]. rewrite Hb.
    cbn [mbind option_bind app skip_ws is_json_ws N.eqb Pos.eqb orb eat].
    rewrite skip_ws_opener by by apply opener_app.
    rewrite Hv; [|lia|simpl; tauto].
    cbn [mbind option_bind app skip_ws is_json_ws N.eqb Pos.eqb orb eat].
    assert (Hot : skip_ws (str_join [44%N] tail ++ 125%N :: rest)
                  = str_join [44%N] tail ++ 125%N :: rest).
    { apply skip_ws_opener, opener_app. subst tail. cbn. by destruct items. }
    rewrite Hot, IH; [done|done|]. simpl length in *. lia.
Qed.

(** Sorting by key does not look at the values. *)
Lemma insert_sorted_Forall2 {A B} (R : A → B → Prop) (la : A → A → bool) (lb : B → B → bool)
    x y l k :
  (∀ a b a' b', R a b → R a' b' → la a a' = lb b b') →
  R x y → Forall2 R l k → Forall2 R (insert_sorted la x l) (insert_sorted lb y k).
Proof.
  intros HR Hxy. induction 1 as [|a b l k Hab Hlk IH]; simpl; [by repeat constructor|].
  rewrite (HR _ _ _ _ Hxy Hab). destruct (lb y b); repeat constructor; done.
Qed.

Lemma isort_Forall2 {A B} (R : A → B → Prop) (la : A → A → bool) (lb : B → B → bool) l k :
  (∀ a b a' b', R a b → R a' b' → la a a' = lb b b') →
  Forall2 R l k → Forall2 R (isort la l) (isort lb k).
Proof.
  intros HR. induction 1 as [|a b l k Hab Hlk IH]; simpl; [constructor|].
  by apply insert_sorted_Forall2.
Qed.

(** Building a dictionary from distinct keys keeps the pairs as they are. *)
Lemma dict_set_fresh {A} k (v : A) d : k ∉ d.*1 → dict_set k v d = d ++ [(k, v)].
Proof.
  induction d as [|[j w] d IH]; [done|]. cbn. intros [Hne Hk]%not_elem_of_cons.
  apply str_eqb_neq in Hne as ->. by rewrite IH.
Qed.

Lemma dict_of_NoDup {A} (d : list (pystr * A)) : NoDup d.*1 → dict_of d = d.
Proof.
  intros Hnd. unfold dict_of.
  assert (H : ∀ acc, NoDup (acc ++ d).*1 →
            foldl (λ d '(k, v), dict_set k v d) acc d = acc ++ d); [|exact (H [] Hnd)].
  clear Hnd. induction d as [|[k v] d IH]; intros acc Hnd; simpl; [by rewrite app_nil_r|].
  rewrite fmap_app in Hnd. cbn in Hnd. rewrite dict_set_fresh.
  - rewrite IH, <- app_assoc; [done|]. by rewrite <- app_assoc, fmap_app.
  - apply NoDup_app in Hnd as (_ & Hnd & _). intros Hk. apply (Hnd k Hk). left.
Qed.

Lemma json_clean_dict d :
  json_clean (PDict d) = true ↔
  NoDup d.*1 ∧ Forall (λ kv, scalar_str kv.1 = true ∧ json_clean kv.2 = true) d.
Proof.
  cbn [json_clean]. rewrite andb_true_iff, str_distinct_iff, forallb_forall, Forall_forall.
  setoid_rewrite <- list_elem_of_In. by setoid_rewrite andb_true_iff.
Qed.

Lemma scan_list_reads_back l items :
  Forall2 reads_back l items → reads_back (PList l) ([91%N] ++ str_join [44%N] items ++ [93%N]).
Proof.
  intros H. split; [by repeat split|]. intros fuel rest Hf Hrest.
  rewrite !length_app in Hf. cbn [length] in Hf.
  destruct fuel as [|fuel]; [lia|]. rewrite <- !app_assoc.
  cbn [app scan_value N.eqb Pos.eqb]. destruct H as [|v s l items Hv H]; [done|].
  assert (Hne : opener (str_join [44%N] (s :: items))).
  { destruct Hv as [Ho _]. destruct items; cbn [str_join]; [done|]. by apply opener_app. }
  rewrite skip_ws_opener, eat_opener_list by by apply opener_app.
  rewrite (scan_elements_join (v :: l) (s :: items)); [done|by constructor|done|lia].
Qed.

Lemma scan_dict_reads_back d items :
  NoDup d.*1 → Forall2 member_reads_back d items →
  reads_back (PDict d)
    ([123%N] ++ str_join [44%N] (member_text <$> isort key_leb items) ++ [125%N]).
Proof.
  intros Hnd H. split; [by repeat split|]. intros fuel rest Hf Hrest.
  rewrite !length_app in Hf. cbn [length] in Hf.
  destruct fuel as [|fuel]; [lia|]. rewrite <- !app_assoc.
  cbn [app scan_value N.eqb Pos.eqb].
  assert (Hs : Forall2 member_reads_back (isort key_leb d) (isort key_leb items)).
  { apply isort_Forall2; [|done]. unfold key_leb. by intros ???? [-> _] [-> _]. }
  assert (Hcanon : canon (PDict d) = PDict (canon_member <$> isort key_leb d)).
  { cbn [canon]. f_equal. clear. change (map _ d) with (canon_member <$> d).
    assert (Hf : Forall2 (λ a b, a = canon_member b)
                   (isort key_leb (canon_member <$> d)) (isort key_leb d)).
    { apply isort_Forall2; [by intros ???? -> ->|]. apply Forall2_fmap_l.
      by induction d; constructor. }
    clear -Hf. induction Hf as [|?? l k -> _ IH]; [done|]. cbn. by rewrite IH. }
  rewrite Hcanon.
  assert (Hnd' : NoDup (canon_member <$> isort key_leb d).*1).
  { assert ((canon_member <$> isort key_leb d).*1 = (isort key_leb d).*1) as ->
      by by rewrite <- list_fmap_compose.
    by rewrite isort_perm. }
  set (ds := isort key_leb d) in *. set (its := isort key_leb items) in *. clearbody ds its.
  destruct Hs as [|kv ks ds its Hm Hs]; [done|].
  assert (Hne : opener (str_join [44%N] (member_text <$> ks :: its))).
  { cbn. by destruct its. }
  rewrite skip_ws_opener, eat_opener_dict by by apply opener_app.
  rewrite (scan_members_join (kv :: ds) (ks :: its)); [|by constructor|done|lia].
  cbn [mbind option_bind]. by rewrite dict_of_NoDup.
Qed.

(** The first character of a number selects the number scanner. *)
Lemma Z_dec_head z rest : number_head (Z_dec z ++ rest) = true.
Proof.
  assert (Hn : ∀ n, ∃ c r, N_dec n = c :: r ∧ is_digit c = true).
  { intros n. destruct (N_dec_spec n) as (_ & Ha & (c & r & Hcr & _)). rewrite Hcr in *.
    by apply andb_true_iff in Ha as [? _]; eauto. }
  destruct z as [|p|p]; [done| |].
  - change (number_head (N_dec (N.pos p) ++ rest) = true).
    destruct (Hn (N.pos p)) as (c & r & -> & Hc). cbn. by rewrite Hc.
  - change (number_head (45%N :: N_dec (N.pos p) ++ rest) = true).
    destruct (Hn (N.pos p)) as (c & r & -> & Hc). cbn. by rewrite Hc.
Qed.

Lemma scan_value_number fuel s :
  number_head s = true → scan_value (S fuel) s = scan_number s.
Proof.
  destruct s as [|c s]; [done|]. cbn [number_head]. intros [Hd|Hd]%orb_true_iff.
  - unfold is_digit in Hd. apply andb_true_iff in Hd as [Hlo%N.leb_le Hhi%N.leb_le].
    cbn [scan_value starts_with].
    by repeat match goal with
    | |- context [(c =? ?k)%N] => rewrite (proj2 (N.eqb_neq c k)) by lia
    | |- context [(?k =? c)%N] => rewrite (proj2 (N.eqb_neq k c)) by lia
    end.
  - apply andb_true_iff in Hd as [->%N.eqb_eq Hd]. destruct s as [|c s]; [done|].
    unfold is_digit in Hd. apply andb_true_iff in Hd as [Hlo%N.leb_le Hhi%N.leb_le].
    assert (Hi : starts_with "-Infinity" (45%N :: c :: s) = false).
    { change ((73 =? c)%N && starts_with "nfinity" s = false).
      by rewrite (proj2 (N.eqb_neq 73 c)) by lia. }
    cbn [scan_value]. by rewrite Hi.
Qed.

Lemma dump_list_reads_back l items :
  Forall (λ v, json_clean v = true → ∀ s, json_dumps v = Ok s → reads_back v s) l →
  json_clean (PList l) = true → dump_list l = Ok items → Forall2 reads_back l items.
Proof.
  intros IH Hc Hi%map_result_Ok. cbn [json_clean] in Hc. rewrite forallb_forall in Hc.
  induction Hi as [|v s l items Hv Hi IHl]; [constructor|].
  inversion_clear IH as [|?? H1 H2]. constructor.
  - apply H1; [|done]. apply Hc. by left.
  - apply IHl; [done|]. intros x Hx. apply Hc. by right.
Qed.

Lemma dump_pairs_reads_back d items :
  Forall (λ kv, json_clean kv.2 = true → ∀ s, json_dumps kv.2 = Ok s → reads_back kv.2 s) d →
  Forall (λ kv, scalar_str kv.1 = true ∧ json_clean kv.2 = true) d →
  dump_pairs d = Ok items → Forall2 member_reads_back d items.
Proof.
  intros IH Hc Hi%map_result_Ok.
  induction Hi as [|[k v] ks d items Hv Hi IHl]; [constructor|].
  inversion_clear IH as [|?? H1 H2]. inversion_clear Hc as [|?? [Hk Hc1] Hc2].
  apply bind_Ok_inv in Hv as (s & Hs & [= <-]). constructor; [|by apply IHl].
  split_and!; [done|done|]. by apply H1.
Qed.

Lemma json_dumps_reads_back v :
  json_clean v = true → ∀ s, json_dumps v = Ok s → reads_back v s.
Proof.
  induction v as [|b|z|f|t|l IH|l IH|d IH] using pyval_nested_ind; intros Hc s Hs.
  - injection Hs as <-. split; [by repeat split|]. intros [|fuel] rest ? ?; [lia|done].
  - injection Hs as <-. split; [by destruct b|].
    intros [|fuel] rest ? ?; [lia|]. by destruct b.
  - split; [by eapply json_dumps_opener|]. cbn [json_dumps] in Hs.
    destruct (_ <? _)%Z eqn:Hlen; [done|]. injection Hs as <-.
    intros [|fuel] rest Hf Hrest; [lia|].
    apply Z.ltb_ge, Z.leb_le in Hlen.
    rewrite scan_value_number by apply Z_dec_head. by apply scan_number_int.
  - split; [by eapply json_dumps_opener|]. cbn [json_clean] in Hc.
    apply andb_true_iff in Hc as [[Hf Hh]%andb_true_iff Hs']. cbn [json_dumps] in Hs. rewrite Hf in Hs.
    injection Hs as <-. intros [|fuel] rest Hfuel Hrest; [lia|].
    destruct (scan_number (PyFloat.repr f)) as [[v [|]]|] eqn:Hn; [|by destruct v|done].
    destruct v as [| | |g| | | |]; try done. apply bool_decide_eq_true in Hs' as ->.
    rewrite scan_value_number by (destruct (PyFloat.repr f) as [|c [|]]; cbn in *; [done| |done];
      apply orb_true_iff in Hh as [->|Hh]; [done|]; by rewrite andb_false_r in Hh).
    by apply (scan_number_app _ _ []).
  - injection Hs as <-. split; [by repeat split|]. intros [|fuel] rest ? ?; [lia|].
    destruct (scan_string_escape_str t rest Hc) as (body & -> & Hb).
    cbn [scan_value N.eqb Pos.eqb]. by rewrite Hb.
  - rewrite json_dumps_list in Hs. apply bind_Ok_inv in Hs as (items & Hi & [= <-]).
    apply scan_list_reads_back. by apply (dump_list_reads_back l items).
  - change (json_dumps (PTuple l)) with (json_dumps (PList l)) in Hs.
    rewrite json_dumps_list in Hs. apply bind_Ok_inv in Hs as (items & Hi & [= <-]).
    apply (scan_list_reads_back l). by apply (dump_list_reads_back l items).
  - rewrite json_dumps_dict in Hs. apply bind_Ok_inv in Hs as (items & Hi & [= <-]).
    apply json_clean_dict in Hc as [Hnd Hc].
    apply scan_dict_reads_back; [done|]. by apply dump_pairs_reads_back.
Qed.

(** [json.loads] reads an encoding back as its canonical form. *)
Lemma json_roundtrip v s :
  json_clean v = true → json_dumps v = Ok s → json_loads s = Ok (canon v).
Proof.
  intros Hc Hs. destruct (json_dumps_reads_back v Hc s Hs) as [Ho Hr].
  unfold json_loads. rewrite skip_ws_opener by done.
  rewrite <- (app_nil_r s) at 2. rewrite Hr; [done|lia|done].
Qed.

(* ------------------------------------------------------------------ *)
(** ** The canonical form is a fixed point *)
(* ------------------------------------------------------------------ *)

Lemma key_leb_total {A} (a b : pystr * A) : key_leb a b = true ∨ key_leb b a = true.
Proof. apply str_leb_total. Qed.

Lemma key_leb_trans {A} (a b c : pystr * A) :
  key_leb a b = true → key_leb b c = true → key_leb a c = true.
Proof. apply str_leb_trans. Qed.

Lemma isort_key_idem {A} (d : list (pystr * A)) :
  isort key_leb (isort key_leb d) = isort key_leb d.
Proof. apply isort_id, isort_sorted; [apply key_leb_total|apply key_leb_trans]. Qed.

Lemma insert_sorted_map {A B} (f : pystr * A → pystr * B) x l :
  (∀ y, (f y).1 = y.1) →
  insert_sorted key_leb (f x) (map f l) = map f (insert_sorted key_leb x l).
Proof.
  intros Hf. induction l as [|y l IH]; [done|]. simpl. unfold key_leb in *.
  rewrite !Hf. destruct (str_leb x.1 y.1); [done|]. simpl. by rewrite IH.
Qed.

(** Sorting by key commutes with a map that keeps the keys. *)
Lemma isort_map {A B} (f : pystr * A → pystr * B) l :
  (∀ y, (f y).1 = y.1) → isort key_leb (map f l) = map f (isort key_leb l).
Proof.
  intros Hf. induction l as [|x l IH]; [done|].
  change (insert_sorted key_leb (f x) (isort key_leb (map f l))
          = map f (insert_sorted key_leb x (isort key_leb l))).
  rewrite IH. by apply insert_sorted_map.
Qed.

Lemma canon_dict d : canon (PDict d) = PDict (canon_member <$> isort key_leb d).
Proof. cbn [canon]. f_equal. by apply isort_map. Qed.

Lemma isort_Forall {A} (P : pystr * A → Prop) l : Forall P l → Forall P (isort key_leb l).
Proof. by rewrite isort_perm. Qed.

Lemma isort_keys_NoDup {A} (l : list (pystr * A)) : NoDup l.*1 → NoDup (isort key_leb l).*1.
Proof. by rewrite isort_perm. Qed.

Lemma canon_idem v : canon (canon v) = canon v.
Proof.
  induction v as [| | | | |l IH|l IH|d IH] using pyval_nested_ind; try done.
  - cbn [canon]. f_equal. induction IH as [|x l Hx _ IH]; [done|]. cbn. by rewrite Hx, IH.
  - cbn [canon]. f_equal. induction IH as [|x l Hx _ IH]; [done|]. cbn. by rewrite Hx, IH.
  - rewrite !canon_dict. f_equal.
    change (canon_member <$> ?l) with (map canon_member l).
    rewrite isort_map, isort_key_idem by done. rewrite map_map.
    apply map_ext_in. intros kv Hkv%list_elem_of_In%elem_of_isort.
    rewrite Forall_forall in IH. unfold canon_member. simpl. by rewrite IH.
Qed.

Lemma json_clean_canon v : json_clean v = true → json_clean (canon v) = true.
Proof.
  induction v as [| | | | |l IH|l IH|d IH] using pyval_nested_ind; try done.
  1,2: cbn [canon json_clean]; rewrite !forallb_forall; intros Hc x;
    rewrite in_map_iff; intros (y & <- & Hy); rewrite Forall_forall in IH;
    apply IH; [by apply list_elem_of_In|by apply Hc].
  rewrite canon_dict. rewrite !json_clean_dict. intros [Hnd Hc]. split.
  - rewrite <- list_fmap_compose. by apply isort_keys_NoDup.
  - apply Forall_fmap, isort_Forall. rewrite Forall_forall in Hc, IH |- *.
    intros kv Hkv. destruct (Hc kv Hkv). split; [done|]. by apply IH.
Qed.

(** Encoding does not see the difference between a value and its canonical form. *)
Lemma json_dumps_canon v s : json_dumps v = Ok s → json_dumps (canon v) = Ok s.
Proof.
  revert s. assert (Hl : ∀ l items, Forall (λ v, ∀ s, json_dumps v = Ok s → json_dumps (canon v) = Ok s) l →
            dump_list l = Ok items → dump_list (map canon l) = Ok items).
  { intros l items IH Hi%map_result_Ok. apply map_result_Ok.
    induction Hi; [constructor|]. inversion_clear IH. constructor; auto. }
  induction v as [| | | | |l IH|l IH|d IH] using pyval_nested_ind; intros out; try done.
  - cbn [canon]. rewrite !json_dumps_list. intros (items & Hi & Heq)%bind_Ok_inv.
    apply bind_Ok_inv. exists items. split; [by apply Hl|done].
  - cbn [canon]. change (json_dumps (PTuple l)) with (json_dumps (PList l)).
    rewrite !json_dumps_list. intros (items & Hi & Heq)%bind_Ok_inv.
    apply bind_Ok_inv. exists items. split; [by apply Hl|done].
  - rewrite canon_dict, !json_dumps_dict. intros (items & Hi & [= <-])%bind_Ok_inv.
    apply bind_Ok_inv. exists (isort key_leb items). split; [|by rewrite isort_key_idem].
    unfold dump_pairs in *. apply map_result_Ok in Hi. apply map_result_Ok.
    set (R := λ (kv : pystr * pyval) (ks : pystr * pystr),
      kv.1 = ks.1 ∧ json_dumps (canon kv.2) = Ok ks.2).
    assert (HR : Forall2 R d items).
    { induction Hi as [|[k x] ks d items Hx Hi IHi]; [constructor|].
      inversion_clear IH. constructor; [|auto].
      apply bind_Ok_inv in Hx as (t & Ht & [= <-]). split; [done|auto]. }
    apply Forall2_fmap_l.
    eapply Forall2_impl; [apply isort_Forall2; [|exact HR]|].
    + unfold key_leb. by intros ???? [-> _] [-> _].
    + intros [k x] [k' t] [Hk Ht]. simpl in *. subst. by rewrite Ht.
Qed.

(** Equal encodings of clean values have equal canonical forms. *)
Lemma json_dumps_inj v w s :
  json_clean v = true → json_clean w = true →
  json_dumps v = Ok s → json_dumps w = Ok s → canon v = canon w.
Proof.
  intros Hv Hw Hsv%json_roundtrip Hsw%json_roundtrip; try done. congruence.
Qed.

Lemma json_roundtrip_canon v s :
  json_clean v = true → json_dumps v = Ok s →
  ∃ w, json_loads s = Ok w ∧ json_clean w = true ∧ canon w = w ∧ json_dumps w = Ok s.
Proof.
  intros Hc Hs. exists (canon v). split_and!.
  - by apply json_roundtrip.
  - by apply json_clean_canon.
  - apply canon_idem.
  - by apply json_dumps_canon.
Qed.

(* ------------------------------------------------------------------ *)
(** ** Dictionaries in canonical form *)
(* ------------------------------------------------------------------ *)

(** The members a JSON object is read back as. *)
Definition canon_dict_of (d : pydict) : pydict := canon_member <$> isort key_leb d.

Lemma canon_dict_keys d : (canon_dict_of d).*1 ≡ₚ d.*1.
Proof.
  unfold canon_dict_of. rewrite <- list_fmap_compose.
  replace (fst ∘ canon_member) with (@fst pystr pyval) by done. by rewrite isort_perm.
Qed.

Lemma dict_get_canon k d : NoDup d.*1 → dict_get k (canon_dict_of d) = canon <$> dict_get k d.
Proof.
  intros Hnd. assert (Hnd' : NoDup (canon_dict_of d).*1) by by rewrite canon_dict_keys.
  destruct (dict_get k d) as [v|] eqn:E; cbn [fmap option_fmap option_map].
  - apply dict_get_NoDup; [done|]. apply dict_get_Some_in in E. unfold canon_dict_of.
    apply list_elem_of_fmap. exists (k, v). split; [done|]. by rewrite isort_perm.
  - apply dict_get_None in E. apply dict_get_None. unfold dict_keys in *. by rewrite canon_dict_keys.
Qed.

Lemma canon_dict_clean d : json_clean (PDict d) = true → json_clean (PDict (canon_dict_of d)) = true.
Proof. intros Hd. unfold canon_dict_of. rewrite <- canon_dict. by apply json_clean_canon. Qed.

Lemma dict_set_clean k v d :
  scalar_str k = true → json_clean v = true → json_clean (PDict d) = true →
  json_clean (PDict (dict_set k v d)) = true.
Proof.
  rewrite !json_clean_dict. intros Hk Hv [Hnd Hd]. split.
  - by apply dict_set_NoDup.
  - rewrite Forall_forall in *. intros [j w] [[= -> ->]|Hin]%elem_of_dict_set_inv; [done|].
    by apply (Hd (j, w)).
Qed.

Lemma filter_keys_NoDup {A} (f : pystr * A → bool) l : NoDup l.*1 → NoDup (List.filter f l).*1.
Proof.
  induction l as [|[k v] l IH]; [done|]. cbn. intros [Hk Hnd]%NoDup_cons.
  destruct (f (k, v)); [|by apply IH]. cbn. apply NoDup_cons. split; [|by apply IH].
  intros ([j w] & -> & Hin)%list_elem_of_fmap. apply Hk. apply list_elem_of_fmap. exists (j, w).
  split; [done|]. apply list_elem_of_In in Hin. apply filter_In in Hin as [Hin _]. by apply list_elem_of_In.
Qed.

Lemma dict_del_clean k d :
  json_clean (PDict d) = true →
  json_clean (PDict (List.filter (λ kv : pystr * pyval, negb (kv.1 =s? k)) d)) = true.
Proof.
  rewrite !json_clean_dict. intros [Hnd Hd]. split.
  - by apply filter_keys_NoDup.
  - rewrite Forall_forall in *. intros x Hx%list_elem_of_In. apply filter_In in Hx as [Hx _].
    by apply Hd, list_elem_of_In.
Qed.

Lemma dict_get_del k j d :
  dict_get j (List.filter (λ kv : pystr * pyval, negb (kv.1 =s? k)) d)
  = if j =s? k then None else dict_get j d.
Proof.
  induction d as [|[i v] d IH]; cbn [List.filter dict_get]; [by destruct (j =s? k)|].
  cbn [fst]. destruct (str_eqb_spec i k) as [->|Hik]; cbn [negb].
  - rewrite IH. by destruct (str_eqb_spec j k).
  - cbn [dict_get]. rewrite IH. destruct (str_eqb_spec j i) as [->|]; [|done].
    by apply str_eqb_neq in Hik as ->.
Qed.

Lemma clean_get k v d : json_clean (PDict d) = true → dict_get k d = Some v → json_clean v = true.
Proof.
  rewrite json_clean_dict, Forall_forall. intros [_ Hd] Hk%dict_get_Some_in. by apply Hd in Hk as [_ ?].
Qed.

Lemma clean_NoDup d : json_clean (PDict d) = true → NoDup d.*1.
Proof. rewrite json_clean_dict. by intros [H _]. Qed.
