(* ===== verification/Decimal.v ===== *)
(** * Decimals.

    [decimal.Decimal] as the program uses it: a sign, a coefficient and an
    exponent; the constructor from a text, comparison, the arithmetic of a
    context with its rounding, and the fixed-point format; and the rational
    a decimal denotes.  The exponent limits of the module (999999 in a
    context, about 10^18 in the constructor) are outside the model. *)
From S2P Require Import Prelude PyVal JsonCodec.
From Stdlib Require Import QArith Qpower.
Open Scope nat_scope.
Open Scope py_scope.

(* ------------------------------------------------------------------ *)
(** ** The number type and its arithmetic *)
(* ------------------------------------------------------------------ *)

(** A finite [decimal.Decimal]: [(-1)^neg * coef * 10^exp]. *)
Record decimal : Set := { d_neg : bool; d_coef : N; d_exp : Z }.

Definition d_signed (d : decimal) : Z :=
  if d_neg d then (- Z.of_N (d_coef d))%Z else Z.of_N (d_coef d).

(** [a <= b], exact for any two decimals. *)
Definition d_leb (a b : decimal) : bool :=
  let e := Z.min (d_exp a) (d_exp b) in
  (d_signed a * 10 ^ (d_exp a - e) <=? d_signed b * 10 ^ (d_exp b - e))%Z.

Definition d_le_zero (a : decimal) : bool := (d_signed a <=? 0)%Z.

(** [len(value.as_tuple().digits)] *)
Definition d_digits (d : decimal) : Z := py_len (N_dec (d_coef d)).

(** A coefficient rounded half even to [prec] digits; a carry into one more
    digit moves the exponent. *)
Definition d_round (prec : Z) (neg : bool) (c : N) (e : Z) : decimal :=
  let excess := (py_len (N_dec c) - prec)%Z in
  if (excess <=? 0)%Z then {| d_neg := neg; d_coef := c; d_exp := e |}
  else
    let q := Z.to_N (PyFloat.round_half_even (Z.of_N c) (10 ^ excess)) in
    if (prec <? py_len (N_dec q))%Z
    then {| d_neg := neg; d_coef := (q / 10)%N; d_exp := (e + excess + 1)%Z |}
    else {| d_neg := neg; d_coef := q; d_exp := (e + excess)%Z |}.

(** The product in a context of [prec] digits. *)
Definition d_mul (prec : Z) (a b : decimal) : decimal :=
  d_round prec (xorb (d_neg a) (d_neg b)) (d_coef a * d_coef b) (d_exp a + d_exp b).

(** The sum in a context of [prec] digits. *)
Definition d_add (prec : Z) (a b : decimal) : decimal :=
  let e := Z.min (d_exp a) (d_exp b) in
  let z := (d_signed a * 10 ^ (d_exp a - e) + d_signed b * 10 ^ (d_exp b - e))%Z in
  d_round prec (z <? 0)%Z (Z.abs_N z) e.

Definition d_of_Z (z : Z) : decimal :=
  {| d_neg := (z <? 0)%Z; d_coef := Z.abs_N z; d_exp := 0 |}.

(** Drop at most [k] trailing zeros of a coefficient: an exact quotient takes
    the exponent nearest to the ideal one. *)
Fixpoint drop_zeros (k : nat) (c : N) (e : Z) : N * Z :=
  match k with
  | O => (c, e)
  | S k => if (c mod 10 =? 0)%N then drop_zeros k (c / 10)%N (e + 1)%Z else (c, e)
  end.

(** The quotient in a context of [prec] digits, for a divisor that is not
    zero: a sticky digit stands for an inexact remainder. *)
Definition d_div (prec : Z) (a b : decimal) : decimal :=
  let neg := xorb (d_neg a) (d_neg b) in
  let ideal := (d_exp a - d_exp b)%Z in
  if (d_coef a =? 0)%N then {| d_neg := neg; d_coef := 0; d_exp := ideal |}
  else
    let shift := (d_digits b - d_digits a + prec + 1)%Z in
    let n := (Z.of_N (d_coef a) * 10 ^ Z.max 0 shift)%Z in
    let d := (Z.of_N (d_coef b) * 10 ^ Z.max 0 (- shift))%Z in
    let q := Z.to_N (n / d) in
    if (n mod d =? 0)%Z then
      let '(c, e) := drop_zeros (Z.to_nat shift) q (ideal - shift) in d_round prec neg c e
    else
      d_round prec neg (if (q mod 5 =? 0)%N then q + 1 else q)%N (ideal - shift).

(** [format(value, "f")] *)
Definition d_format_f (d : decimal) : pystr :=
  let ds := N_dec (d_coef d) in
  (if d_neg d then "-" else [])
  ++ (if (0 <=? d_exp d)%Z then
        if (d_coef d =? 0)%N then ds else ds ++ PyFloat.zeros (d_exp d)
      else
        let k := Z.to_nat (- d_exp d) in
        let padded := replicate (S k - length ds) 48%N ++ ds in
        take (length padded - k) padded ++ "." ++ drop (length padded - k) padded).

(* ------------------------------------------------------------------ *)
(** ** Texts *)
(* ------------------------------------------------------------------ *)

(** The argument of [Decimal(value)] once converted: a NaN or infinity is
    kept apart. *)
Inductive number : Set := Finite (d : decimal) | NotFinite.

(** The zeros of the decimal digit blocks of Unicode 15.0 ([Nd]). *)
Definition DIGIT_ZEROS : list N :=
  [48; 1632; 1776; 1984; 2406; 2534; 2662; 2790; 2918; 3046; 3174; 3302; 3430; 3558; 3664; 3792;
   3872; 4160; 4240; 6112; 6160; 6470; 6608; 6784; 6800; 6992; 7088; 7232; 7248; 42528; 43216;
   43264; 43472; 43504; 43600; 44016; 65296; 66720; 68912; 69734; 69872; 69942; 70096; 70384;
   70736; 70864; 71248; 71360; 71472; 71904; 72016; 72784; 73040; 73120; 73552; 92768; 92864;
   93008; 120782; 120792; 120802; 120812; 120822; 123200; 123632; 124144; 125264; 130032]%N.

(** [Py_UNICODE_TODECIMAL] *)
Definition to_decimal (c : N) : option N :=
  option_map (λ z, (c - z)%N) (find (λ z, (z <=? c) && (c <=? z + 9))%N DIGIT_ZEROS).

(** How the constructor reads a text: white space stripped, underscores
    dropped, decimal digits of any script and inner spaces made ASCII. *)
Definition numeric_char (c : N) : option N :=
  if ((0 <? c) && (c <=? 127))%N then Some c
  else if is_space c then Some 32%N
  else d ← to_decimal c; Some (48 + d)%N.

Definition numeric_as_ascii (text : pystr) : option pystr :=
  mapM numeric_char (filter (λ c, c ≠ 95%N) (strip text)).

Definition ascii_lower (s : pystr) : pystr :=
  (λ c, if (65 <=? c) && (c <=? 90) then c + 32 else c)%N <$> s.

(** A special value: [inf], [infinity], or [nan] / [snan] with a payload. *)
Definition special_text (s : pystr) : bool :=
  let s := ascii_lower s in
  str_in s ["inf"; "infinity"]
  || existsb (λ p, starts_with p s && all_digits (drop (length p) s)) ["nan"; "snan"].

(** [Decimal(text)]; [None] is [InvalidOperation]. *)
Definition d_parse (text : pystr) : option number :=
  s ← numeric_as_ascii text;
  let '(neg, r) := match eat 43 s with Some r => (false, r) | None => scan_minus s end in
  if special_text r then Some NotFinite
  else
    let '(ds, r) := span_digits r in
    let '(fs, r) := match eat 46 r with Some r => span_digits r | None => ([], r) end in
    let '(es, eneg, r) := scan_exp r in
    let x := Z.of_N (digits_value es) in
    if nonempty (ds ++ fs) && negb (nonempty r)
    then Some (Finite {| d_neg := neg; d_coef := digits_value (ds ++ fs);
                         d_exp := (if eneg then - x else x) - py_len fs |})
    else None.

(** [Decimal(text)] on a text of digits with an optional sign and fraction. *)
Definition decimal_of (text : pystr) : decimal :=
  let '(neg, r) := scan_minus text in
  let '(ds, r) := span_digits r in
  let fs := match eat 46 r with Some r => (span_digits r).1 | None => [] end in
  {| d_neg := neg; d_coef := digits_value (ds ++ fs); d_exp := (- py_len fs)%Z |}.

(* ------------------------------------------------------------------ *)
(** ** The rational a decimal denotes *)
(* ------------------------------------------------------------------ *)

Lemma dec_digits_length fuel n acc (k : nat) :
  (n < 10 ^ N.of_nat k)%N → 1 <= k → length (dec_digits fuel n acc) <= length acc + k.
Proof.
  revert n acc k. induction fuel as [|fuel IH]; intros n acc k Hn Hk; cbn [dec_digits]; [lia|].
  destruct (N.eqb_spec (n / 10) 0) as [_|Hz]; [cbn [length]; lia|].
  destruct k as [|[|k]]; [lia| |].
  - exfalso. apply Hz, N.div_small. exact Hn.
  - pose proof (IH (n / 10)%N ((48 + n mod 10)%N :: acc) (S k)) as H. cbn [length] in H |- *.
    assert ((n / 10 < 10 ^ N.of_nat (S k))%N); [|lia].
    apply N.Div0.div_lt_upper_bound. rewrite Nat2N.inj_succ, N.pow_succ_r' in Hn. exact Hn.
Qed.

Lemma digits_value_bound s : all_digits s = true →
  (digits_value s < 10 ^ N.of_nat (length s))%N.
Proof.
  induction s as [|c s IH] using rev_ind; [done|]. unfold all_digits. rewrite forallb_app.
  intros [Hs Hc]%andb_true_iff. cbn [forallb] in Hc. rewrite andb_true_r in Hc.
  unfold is_digit in Hc. apply andb_true_iff in Hc as [H1%N.leb_le H2%N.leb_le].
  specialize (IH Hs). rewrite digits_value_app, length_app. cbn [foldl length].
  rewrite Nat.add_1_r, Nat2N.inj_succ, N.pow_succ_r'.
  generalize dependent (10 ^ N.of_nat (length s))%N. lia.
Qed.

Lemma N_dec_nonempty n : 1 <= length (N_dec n).
Proof. destruct (N_dec_spec n) as (_ & _ & (c & r & -> & _)). cbn. lia. Qed.

Lemma N_dec_length_mul a b : length (N_dec (a * b)) <= length (N_dec a) + length (N_dec b).
Proof.
  pose proof (N_dec_nonempty a).
  apply (dec_digits_length _ (a * b)%N [] (length (N_dec a) + length (N_dec b))); [|lia].
  destruct (N_dec_spec a) as (Ha & Da & _), (N_dec_spec b) as (Hb & Db & _).
  apply digits_value_bound in Da, Db. rewrite Ha in Da. rewrite Hb in Db.
  rewrite Nat2N.inj_add, N.pow_add_r. by apply N.mul_lt_mono.
Qed.

(** The rational a decimal denotes. *)
Definition d_value (d : decimal) : Q := (inject_Z (d_signed d) * inject_Z 10 ^ d_exp d)%Q.

Lemma ten_pow e k : (0 <= k)%Z → (inject_Z 10 ^ (e + k) == inject_Z 10 ^ e * inject_Z (10 ^ k))%Q.
Proof. intros Hk. rewrite Qpower_plus by done. by rewrite Zpower_Qpower. Qed.

Lemma d_value_scaled d m : (m <= d_exp d)%Z →
  (d_value d == inject_Z (d_signed d * 10 ^ (d_exp d - m)) * inject_Z 10 ^ m)%Q.
Proof.
  intros Hm. unfold d_value. replace (d_exp d) with (m + (d_exp d - m))%Z at 1 by lia.
  rewrite ten_pow by lia. rewrite inject_Z_mult. ring.
Qed.

Lemma d_leb_value a b : d_leb a b = true ↔ (d_value a <= d_value b)%Q.
Proof.
  unfold d_leb. set (m := Z.min (d_exp a) (d_exp b)). cbv zeta.
  rewrite (d_value_scaled a m), (d_value_scaled b m) by lia.
  rewrite Qmult_le_r by by apply Qpower_0_lt. rewrite <- Zle_Qle. apply Z.leb_le.
Qed.

Lemma d_mul_exact prec a b : (d_digits a + d_digits b <= prec)%Z →
  (d_value (d_mul prec a b) == d_value a * d_value b)%Q.
Proof.
  intros Hprec. pose proof (N_dec_length_mul (d_coef a) (d_coef b)) as Hlen.
  unfold d_mul, d_round. unfold d_digits, py_len in *. cbv zeta.
  destruct (Z.leb_spec (Z.of_nat (length (N_dec (d_coef a * d_coef b))) - prec) 0); [|lia].
  unfold d_value. cbn [d_exp].
  assert (d_signed {| d_neg := xorb (d_neg a) (d_neg b); d_coef := d_coef a * d_coef b;
                      d_exp := d_exp a + d_exp b |} = d_signed a * d_signed b)%Z as ->.
  { unfold d_signed. cbn. rewrite N2Z.inj_mul. destruct (d_neg a), (d_neg b); cbn; lia. }
  rewrite inject_Z_mult, Qpower_plus by done. ring.
Qed.

(* ------------------------------------------------------------------ *)
(** ** The fixed-point text reads back *)
(* ------------------------------------------------------------------ *)

(** The characters of a fixed-point text. *)
Definition fixed_char (c : N) : bool := is_digit c || (c =? 45)%N || (c =? 46)%N.

Lemma fixed_char_range c : fixed_char c = true → (45 <= c)%N ∧ (c <= 57)%N.
Proof.
  unfold fixed_char, is_digit. intros H.
  apply orb_true_iff in H as [H|H%N.eqb_eq]; [apply orb_true_iff in H as [H|H%N.eqb_eq]|]; [|lia..].
  apply andb_true_iff in H as [H1%N.leb_le H2%N.leb_le]. lia.
Qed.

Lemma fixed_char_space c : fixed_char c = true → is_space c = false.
Proof.
  intros [H1 H2]%fixed_char_range. unfold is_space.
  repeat match goal with
  | |- context [(?a <=? ?b)%N] => destruct (N.leb_spec a b); try lia
  | |- context [(?a =? ?b)%N] => destruct (N.eqb_spec a b); try lia
  end; done.
Qed.

Lemma lstrip_no_space s : forallb fixed_char s = true → lstrip s = s.
Proof.
  destruct s as [|c s]; [done|]. cbn. intros [Hc _]%andb_true_iff.
  by rewrite (fixed_char_space _ Hc).
Qed.

Lemma strip_fixed s : forallb fixed_char s = true → strip s = s.
Proof.
  intros Hs. unfold strip, rstrip. rewrite (lstrip_no_space s) by done.
  rewrite lstrip_no_space; [apply rev_involutive|].
  apply forallb_forall. intros c Hc%in_rev. revert c Hc. by apply forallb_forall.
Qed.

Lemma numeric_as_ascii_fixed s : forallb fixed_char s = true → numeric_as_ascii s = Some s.
Proof.
  intros Hs. unfold numeric_as_ascii. rewrite strip_fixed by done.
  induction s as [|c s IH]; [done|]. cbn in Hs. apply andb_true_iff in Hs as [Hc Hs].
  apply fixed_char_range in Hc as [H1 H2].
  rewrite filter_cons_True by lia. cbn [mapM]. rewrite IH by done.
  unfold numeric_char. destruct (N.ltb_spec 0 c); [|lia]. destruct (N.leb_spec c 127); [done|lia].
Qed.

Lemma special_text_digit c s : is_digit c = true → special_text (c :: s) = false.
Proof.
  unfold is_digit. intros [H1%N.leb_le H2%N.leb_le]%andb_true_iff.
  assert (Hc : c ∈ (N.of_nat <$> seq 48 10)).
  { apply list_elem_of_fmap. exists (N.to_nat c). split; [lia|]. apply elem_of_seq. lia. }
  cbn in Hc. rewrite !elem_of_cons, elem_of_nil in Hc.
  repeat destruct Hc as [->|Hc]; try done; reflexivity.
Qed.

Lemma digits_fixed s : all_digits s = true → forallb fixed_char s = true.
Proof.
  unfold all_digits. rewrite !forallb_forall. intros H c Hc. unfold fixed_char. by rewrite H.
Qed.

Lemma digits_value_zeros k s : digits_value (replicate k 48%N ++ s) = digits_value s.
Proof.
  induction k as [|k IH]; [done|]. cbn [replicate app].
  change (48%N :: replicate k 48%N ++ s) with ([48%N] ++ (replicate k 48%N ++ s)).
  by rewrite digits_value_app.
Qed.

Lemma all_digits_app a b : all_digits (a ++ b) = all_digits a && all_digits b.
Proof. apply forallb_app. Qed.

Lemma all_digits_replicate k : all_digits (replicate k 48%N) = true.
Proof. by induction k. Qed.

(** A sign, digits and a fraction read back as the decimal they spell. *)
Lemma d_parse_plain (neg : bool) ds fs :
  nonempty ds = true → all_digits ds = true → all_digits fs = true →
  d_parse ((if neg then "-" else []) ++ ds ++ (match fs with [] => [] | _ => "." ++ fs end))
  = Some (Finite {| d_neg := neg; d_coef := digits_value (ds ++ fs); d_exp := - py_len fs |}).
Proof.
  intros Hne Hds Hfs. unfold d_parse. set (tail := match fs with [] => [] | _ => "." ++ fs end).
  assert (Htail : forallb fixed_char tail = true).
  { unfold tail. apply digits_fixed in Hfs. by destruct fs. }
  rewrite numeric_as_ascii_fixed.
  2:{ rewrite !forallb_app, Htail, (digits_fixed ds Hds). by destruct neg. }
  destruct ds as [|c ds]; [done|].
  pose proof Hds as Hc. cbn [all_digits forallb] in Hc. apply andb_true_iff in Hc as [Hc _].
  assert (Hsign : match eat 43 ((if neg then "-" else []) ++ (c :: ds) ++ tail) with
                  | Some r => (false, r)
                  | None => scan_minus ((if neg then "-" else []) ++ (c :: ds) ++ tail)
                  end = (neg, (c :: ds) ++ tail)).
  { unfold is_digit in Hc. apply andb_true_iff in Hc as [H1%N.leb_le H2%N.leb_le].
    destruct neg; [done|]. cbn [app]. rewrite eat_ne by lia. unfold scan_minus.
    by rewrite eat_ne by lia. }
  cbn [mbind option_bind]. rewrite Hsign. cbn [app]. rewrite special_text_digit by done.
  change (c :: ds ++ tail) with ((c :: ds) ++ tail).
  rewrite span_digits_all; [|done|by unfold tail; destruct fs].
  unfold tail. destruct fs as [|f fs].
  - cbn [eat]. rewrite scan_exp_none by done. cbn. by rewrite !app_nil_r.
  - assert (He : eat 46 ("." ++ f :: fs) = Some (f :: fs)) by done. rewrite He.
    rewrite <- (app_nil_r (f :: fs)) at 1. rewrite span_digits_all by done.
    by rewrite scan_exp_none by done.
Qed.

(** [format(d, "f")] reads back as a decimal of the same value. *)
Lemma d_format_parse d : (d_exp d <= 0)%Z → d_parse (d_format_f d) = Some (Finite d).
Proof.
  intros He. unfold d_format_f.
  destruct (N_dec_spec (d_coef d)) as (Hv & Ha & (c & r & Hcr & _)).
  destruct (Z.leb_spec 0 (d_exp d)).
  - assert (Hz : d_exp d = 0%Z) by lia. rewrite Hz. change (PyFloat.zeros 0) with (@nil N).
    rewrite app_nil_r. assert (Hif : (if (d_coef d =? 0)%N then N_dec (d_coef d) else N_dec (d_coef d))
                                     = N_dec (d_coef d)) by by destruct (_ =? _)%N.
    rewrite Hif. pose proof (d_parse_plain (d_neg d) (N_dec (d_coef d)) []) as Hp.
    cbn [app] in Hp. rewrite app_nil_r in Hp. rewrite Hp; [|by rewrite Hcr|done|done].
    rewrite ?app_nil_r, Hv. destruct d as [n m e]. cbn in *. by subst.
  - set (k := Z.to_nat (- d_exp d)). set (padded := replicate (S k - length (N_dec (d_coef d))) 48%N ++ _).
    assert (Hlen : S k <= length padded).
    { unfold padded. rewrite length_app, length_replicate. lia. }
    assert (Hpad : all_digits padded = true).
    { unfold padded. by rewrite all_digits_app, all_digits_replicate, Ha. }
    assert (Hsplit : all_digits (take (length padded - k) padded) = true
                     ∧ all_digits (drop (length padded - k) padded) = true).
    { rewrite <- (take_drop (length padded - k) padded), all_digits_app in Hpad.
      by apply andb_true_iff in Hpad. }
    assert (Hfrac : length (drop (length padded - k) padded) = k) by (rewrite length_drop; lia).
    pose proof (d_parse_plain (d_neg d) (take (length padded - k) padded)
                  (drop (length padded - k) padded)) as Hp.
    assert (Hdot : match drop (length padded - k) padded with
                   | [] => []
                   | _ => "." ++ drop (length padded - k) padded
                   end = "." ++ drop (length padded - k) padded).
    { destruct (drop _ padded); [|done]. unfold k in Hfrac. cbn in Hfrac. lia. }
    rewrite Hdot in Hp. rewrite Hp; [|..|apply Hsplit|apply Hsplit].
    + rewrite take_drop. unfold padded at 1. rewrite digits_value_zeros, Hv. unfold py_len.
      rewrite Hfrac. do 2 f_equal. destruct d as [n m e]. cbn in *. f_equal. unfold k. lia.
    + destruct padded as [|x p]; [cbn in Hlen; lia|].
      destruct (length (x :: p) - k) eqn:E; [cbn in *; lia|done].
Qed.

(* ------------------------------------------------------------------ *)
(** ** Exact quotients *)
(* ------------------------------------------------------------------ *)

Lemma drop_zeros_spec k c e c' e' : drop_zeros k c e = (c', e') →
  ∃ i, i <= k ∧ c = (c' * 10 ^ N.of_nat i)%N ∧ e' = (e + Z.of_nat i)%Z
       ∧ (i = k ∨ (c' mod 10 ≠ 0)%N).
Proof.
  revert c e. induction k as [|k IH]; intros c e; cbn.
  { intros [= <- <-]. exists 0. rewrite N.mul_1_r. split_and!; [lia|done|lia|by left]. }
  destruct (N.eqb_spec (c mod 10) 0) as [Hm|Hm].
  - intros (i & Hi & Hc & He & Hlast)%IH. exists (S i).
    rewrite Nat2N.inj_succ, N.pow_succ_r'. split_and!; [lia| |lia|].
    + pose proof (N.div_mod c 10 ltac:(done)). rewrite Hm in *. lia.
    + destruct Hlast; [left; lia|by right].
  - intros [= <- <-]. exists 0. rewrite N.mul_1_r. split_and!; [lia|done|lia|by right].
Qed.

Lemma N_dec_length n k : (n < 10 ^ N.of_nat k)%N → 1 <= k → length (N_dec n) <= k.
Proof. intros Hn Hk. apply (dec_digits_length _ n [] k); [done|lia]. Qed.

Lemma N_dec_bound n : (n < 10 ^ N.of_nat (length (N_dec n)))%N.
Proof.
  destruct (N_dec_spec n) as (Hv & Ha & _). rewrite <- Hv at 1. by apply digits_value_bound.
Qed.

Lemma d_round_exact prec neg c e : (py_len (N_dec c) <= prec)%Z →
  d_round prec neg c e = {| d_neg := neg; d_coef := c; d_exp := e |}.
Proof. intros H. unfold d_round. cbv zeta. by destruct (Z.leb_spec (py_len (N_dec c) - prec) 0); [|lia]. Qed.

Lemma N_pow_split (a b : nat) : b <= a → (10 ^ N.of_nat a = 10 ^ N.of_nat (a - b) * 10 ^ N.of_nat b)%N.
Proof. intros H. rewrite <- N.pow_add_r. f_equal. lia. Qed.

Lemma N_ten_pow_pos (a : nat) : (0 < 10 ^ N.of_nat a)%N.
Proof. apply N.neq_0_lt_0, N.pow_nonzero. done. Qed.

(** A coefficient left by [drop_zeros] is at most [n * m] and denotes the same. *)
Lemma dropped_quotient (n m c : N) (s k i : nat) :
  k <= s → i <= s → (n * m * 10 ^ N.of_nat (s - k) = c * 10 ^ N.of_nat i)%N →
  (i = s ∨ c mod 10 ≠ 0)%N → s - k <= i ∧ (c <= n * m)%N.
Proof.
  intros Hk Hi Hq Hlast.
  assert (Hge : s - k <= i).
  { destruct (Nat.le_gt_cases (s - k) i) as [|Hlt]; [done|]. exfalso.
    destruct Hlast as [->|Hlast]; [lia|]. apply Hlast.
    assert (Hc : c = (n * m * 10 ^ N.of_nat (s - k - i))%N).
    { rewrite (N_pow_split (s - k) i) in Hq by lia. rewrite N.mul_assoc in Hq.
      apply N.mul_cancel_r in Hq; [done|]. pose proof (N_ten_pow_pos i). lia. }
    rewrite Hc. destruct (s - k - i) as [|t] eqn:Et; [lia|].
    rewrite Nat2N.inj_succ, N.pow_succ_r'. rewrite N.mul_assoc, (N.mul_comm _ 10), <- N.mul_assoc.
    rewrite N.mul_comm. apply N.Div0.mod_mul. }
  split; [done|].
  rewrite (N_pow_split i (s - k)) in Hq by done. rewrite N.mul_assoc in Hq.
  apply N.mul_cancel_r in Hq; [|pose proof (N_ten_pow_pos (s - k)); lia].
  rewrite Hq. pose proof (N_ten_pow_pos (i - (s - k))). nia.
Qed.

Lemma digits_of_Z z : d_digits (d_of_Z z) = py_len (N_dec (Z.abs_N z)).
Proof. done. Qed.

(** The quotient by a divisor of a power of ten, in a context with room for
    its digits, is exact. *)
Lemma d_div_exact prec (n d : Z) (m : N) (k : nat) :
  (n ≠ 0)%Z → (0 < d)%Z → (Z.abs_N d * m = 10 ^ N.of_nat k)%N →
  (Z.of_nat k <= py_len (N_dec (Z.abs_N d)) - py_len (N_dec (Z.abs_N n)) + prec + 1)%Z →
  (py_len (N_dec (Z.abs_N n)) + py_len (N_dec m) <= prec)%Z →
  ∃ (c : N) (j : nat), d_div prec (d_of_Z n) (d_of_Z d)
                       = {| d_neg := (n <? 0)%Z; d_coef := c; d_exp := - Z.of_nat j |}
                       ∧ (c * Z.abs_N d = Z.abs_N n * 10 ^ N.of_nat j)%N.
Proof.
  intros Hn Hd Hm Hshift Hprec. unfold d_div. rewrite !digits_of_Z. cbn [d_of_Z d_neg d_coef d_exp].
  destruct (Z.ltb_spec d 0) as [|_]; [lia|]. rewrite xorb_false_r.
  destruct (N.eqb_spec (Z.abs_N n) 0) as [|_]; [lia|].
  set (shift := (py_len (N_dec (Z.abs_N d)) - py_len (N_dec (Z.abs_N n)) + prec + 1)%Z) in *.
  set (s := Z.to_nat shift). assert (Hs : shift = Z.of_nat s) by lia. cbv zeta.
  rewrite (Z.max_r 0 shift), (Z.max_l 0 (- shift)) by lia. rewrite Z.mul_1_r.
  assert (Hpow : (10 ^ shift = Z.of_N (10 ^ N.of_nat (s - k) * (Z.abs_N d * m)))%Z).
  { rewrite Hm, <- N_pow_split by lia. rewrite N2Z.inj_pow, Hs. f_equal. lia. }
  assert (Hnum : (Z.of_N (Z.abs_N n) * 10 ^ shift
                  = Z.of_N (Z.abs_N n * m * 10 ^ N.of_nat (s - k)) * Z.of_N (Z.abs_N d))%Z).
  { rewrite Hpow, <- !N2Z.inj_mul. f_equal. lia. }
  assert (Hdz : Z.of_N (Z.abs_N d) ≠ 0%Z) by lia.
  rewrite Hnum, Z.mod_mul, Z.div_mul by done. cbn [Z.eqb]. rewrite N2Z.id.
  match goal with |- context [drop_zeros ?a ?b ?w] =>
    destruct (drop_zeros a b w) as [c e] eqn:E end.
  apply drop_zeros_spec in E as (i & Hi & Hq & -> & Hlast). fold s in Hi, Hlast.
  destruct (dropped_quotient _ _ _ s k i ltac:(lia) Hi Hq Hlast) as [Hge Hle].
  exists c, (s - i). rewrite d_round_exact.
  - split; [f_equal; lia|].
    assert (Hfull : (c * Z.abs_N d * 10 ^ N.of_nat i
                     = Z.abs_N n * 10 ^ N.of_nat (s - i) * 10 ^ N.of_nat i)%N).
    { rewrite <- (N.mul_assoc (Z.abs_N n)), <- N_pow_split by done.
      replace (c * Z.abs_N d * 10 ^ N.of_nat i)%N with (c * 10 ^ N.of_nat i * Z.abs_N d)%N by lia.
      rewrite <- Hq. rewrite (N_pow_split s k) by lia. rewrite <- Hm. lia. }
    apply N.mul_cancel_r in Hfull; [done|]. pose proof (N_ten_pow_pos i). lia.
  - unfold py_len in *.
    enough (length (N_dec c) <= length (N_dec (Z.abs_N n)) + length (N_dec m)) by lia.
    pose proof (N_dec_nonempty m). apply N_dec_length; [|lia].
    rewrite Nat2N.inj_add, N.pow_add_r. pose proof (N_dec_bound (Z.abs_N n)).
    pose proof (N_dec_bound m). eapply N.le_lt_trans; [exact Hle|]. by apply N.mul_lt_mono.
Qed.
