(* ===== verification/Values.v ===== *)
(** * Immutable domain values and the model-output boundary.

    [domain/values.py]: the canonical-form checks on identifiers, hashes and
    boxes, the [SourceRef], [LlmElement] and [LlmTags] value types with their
    [__post_init__] guards, and [llm_tags_from_dict], the parser of untrusted
    tagger output.  A payload is a [pyval] (parsed JSON); a constructed value
    is a record whose fields have the types the guards establish. *)
From S2P Require Import Prelude PyVal.

(* ------------------------------------------------------------------ *)
(** ** Enumerations *)
(* ------------------------------------------------------------------ *)

(** [domain/values.py:28 ElementState] *)
Inductive ElementState : Set := Present | Absent | Unknown | Conflict | NotApplicable.

(** [domain/values.py:29 Track] *)
Inductive Track : Set := Goal_ | Performance | Management.

(** [domain/values.py:30 LocationQuality] *)
Inductive LocationQuality : Set := Located | Unlocated | Unreadable.

(** [domain/values.py:31 VerificationState] *)
Inductive VerificationState : Set := Verified | Candidate | Rejected.

#[export] Instance element_state_eq_dec : EqDecision ElementState.
Proof. solve_decision. Defined.
#[export] Instance track_eq_dec : EqDecision Track.
Proof. solve_decision. Defined.
#[export] Instance location_quality_eq_dec : EqDecision LocationQuality.
Proof. solve_decision. Defined.
#[export] Instance verification_state_eq_dec : EqDecision VerificationState.
Proof. solve_decision. Defined.

(** A string enumeration: its members in source order with their spelling. *)
Definition enum_of {A} (e : exn) (members : list A) (spell : A → pystr) (v : pyval) : result A :=
  of_option e (find (λ a, eq_str v (spell a)) members).

(** [domain/values.py:33 ELEMENT_STATES] *)
Definition ELEMENT_STATES : list ElementState :=
  [Present; Absent; Unknown; Conflict; NotApplicable].
Definition state_str (s : ElementState) : pystr :=
  match s with
  | Present => "present" | Absent => "absent" | Unknown => "unknown"
  | Conflict => "conflict" | NotApplicable => "not_applicable"
  end.

(** [domain/values.py:34 TRACKS] *)
Definition TRACKS : list Track := [Goal_; Performance; Management].
Definition track_str (t : Track) : pystr :=
  match t with Goal_ => "goal" | Performance => "performance" | Management => "management" end.

Definition LOCATION_QUALITIES : list LocationQuality := [Located; Unlocated; Unreadable].
Definition location_str (q : LocationQuality) : pystr :=
  match q with
  | Located => "located" | Unlocated => "unlocated" | Unreadable => "unreadable"
  end.

Definition VERIFICATION_STATES : list VerificationState := [Verified; Candidate; Rejected].
Definition verification_str (s : VerificationState) : pystr :=
  match s with
  | Verified => "verified" | Candidate => "candidate" | Rejected => "rejected"
  end.

(** [domain/values.py:36-41 GRADE_LABEL_MAP] *)
Definition GRADE_LABEL_MAP : list (pystr * pystr) :=
  [("E0", "UNSUBSTANTIATED"); ("E1", "INCOMPLETE"); ("E2", "INCOMPLETE");
   ("E3", "SUBSTANTIATED")].

(** [domain/values.py:43-47 SAFE_HARBOR_CATEGORIES] *)
Definition SAFE_HARBOR_CATEGORIES : list pystr :=
  ["forward_looking"; "emissions_estimate"; "third_party_information"].

(** [domain/values.py:51 _FORBIDDEN_LLM_FIELDS] *)
Definition FORBIDDEN_LLM_FIELDS : list pystr :=
  ["evidence_grade"; "label"; "sublabel"; "decision_status"].

(** [domain/values.py:53-64 _ROOT_FIELDS] *)
Definition ROOT_FIELDS : list pystr :=
  ["claim_id"; "packet_sha256"; "replicate_id"; "track"; "safe_harbor_category";
   "elements"; "superlative_quote"; "warnings"].

(** [domain/values.py:65-74 _ELEMENT_FIELDS] *)
Definition ELEMENT_FIELDS : list pystr :=
  ["element_id"; "state"; "evidence_refs"; "normalized_value"; "credited_from";
   "reason_code"].

(** [domain/values.py:75-90 _SOURCE_FIELDS] *)
Definition SOURCE_FIELDS : list pystr :=
  ["source_id"; "document_version_id"; "parse_manifest_id"; "page_num";
   "printed_page_label"; "bbox"; "raw_text_sha256"; "quote"; "char_start";
   "char_end"; "location_quality"; "verification_state"].

(* ------------------------------------------------------------------ *)
(** ** Canonical-form checks *)
(* ------------------------------------------------------------------ *)

(** [str.lower] on ASCII; no other code point lower-cases to an ASCII
    hexadecimal digit or to a hyphen. *)
Definition lower_char (c : N) : N := if ((65 <=? c) && (c <=? 90))%N then (c + 32)%N else c.
Definition lower (s : pystr) : pystr := lower_char <$> s.

Definition is_hex (c : N) : bool := (is_digit c || (97 <=? c) && (c <=? 102))%N.

Fixpoint remove_prefix_all (fuel : nat) (p s : pystr) : pystr :=
  match fuel, s with
  | S fuel, c :: r =>
      if starts_with p s then remove_prefix_all fuel p (drop (length p) s)
      else c :: remove_prefix_all fuel p r
  | _, _ => s
  end.

(** [s.replace(p, "")] for a non-empty [p]. *)
Definition remove_all (p s : pystr) : pystr := remove_prefix_all (length s) p s.

Fixpoint lstrip_chars (cs s : pystr) : pystr :=
  match s with
  | c :: r => if existsb (N.eqb c) cs then lstrip_chars cs r else s
  | [] => []
  end.
Definition strip_chars (cs s : pystr) : pystr :=
  rev (lstrip_chars cs (rev (lstrip_chars cs s))).

(** [UUID(value)]: the 32 hexadecimal digits of the number it denotes.
    [int(hex, 16)] also reads a sign, underscores, blanks, [0x] and digits
    outside ASCII; the text then has a character that [str] of the result
    lacks, so [_require_uuid] refuses it with the error it gives here. *)
Definition uuid_hex (value : pystr) : option pystr :=
  let hex := remove_all "uuid:" (remove_all "urn:" value) in
  let hex := lower (remove_all "-" (strip_chars "{}" hex)) in
  if (py_len hex =? 32)%Z && forallb is_hex hex then Some hex else None.

(** [str(UUID)] *)
Definition uuid_str (hex : pystr) : pystr :=
  slice hex 0 8 ++ "-" ++ slice hex 8 12 ++ "-" ++ slice hex 12 16 ++ "-"
  ++ slice hex 16 20 ++ "-" ++ slice hex 20 32.

(** [domain/values.py:93-102 _require_uuid] *)
Definition require_uuid (value : pyval) : result pystr :=
  value ← as_str DomainValidationError value;
  parsed ← of_option DomainValidationError (uuid_hex value);
  _ ← require (uuid_str parsed =s? lower value) DomainValidationError;
  Ok value.

(** [domain/values.py:105-108 _require_strict_int] *)
Definition require_strict_int (value : pyval) : result Z :=
  match value with PInt z => Ok z | _ => Raise DomainValidationError end.

Definition is_sha256 (s : pystr) : bool := (py_len s =? 64)%Z && forallb is_hex s.

(** [domain/values.py:111-116 _require_sha256] *)
Definition require_sha256 (value : pyval) : result pystr :=
  s ← as_str DomainValidationError value;
  _ ← require (is_sha256 s) DomainValidationError;
  Ok s.

Record bbox : Set := BBox { bx0 : spec_float; by0 : spec_float; bx1 : spec_float; by1 : spec_float }.

Definition as_seq (e : exn) (v : pyval) : result (list pyval) :=
  match v with PList l | PTuple l => Ok l | _ => Raise e end.

(** [domain/values.py:125-131 _require_bbox] *)
Definition bbox_coord (coord : pyval) : result spec_float :=
  number ← match coord with
           | PInt z => PyFloat.of_Z z
           | PFloat f => Ok f
           | _ => Raise DomainValidationError
           end;
  _ ← require (PyFloat.is_finite number) DomainValidationError;
  Ok number.

(** [domain/values.py:122-135 _require_bbox] *)
Definition bbox_of_list (l : list pyval) : result (option bbox) :=
  _ ← require (py_len l =? 4)%Z DomainValidationError;
  coords ← map_result bbox_coord l;
  match coords with
  | [x0; y0; x1; y1] =>
      _ ← require (PyFloat.ltb x0 x1 && PyFloat.ltb y0 y1) DomainValidationError;
      Ok (Some (BBox x0 y0 x1 y1))
  | _ => Raise DomainValidationError
  end.

(** [domain/values.py:119-123 _require_bbox] *)
Definition require_bbox (value : pyval) : result (option bbox) :=
  match value with
  | PNone => Ok None
  | PList l | PTuple l => bbox_of_list l
  | _ => Raise DomainValidationError
  end.

(* ------------------------------------------------------------------ *)
(** ** Value types *)
(* ------------------------------------------------------------------ *)

(** [domain/values.py:138-153 SourceRef] *)
Record SourceRef : Set := {
  source_id : pystr;
  document_version_id : pystr;
  parse_manifest_id : pystr;
  page_num : Z;
  printed_page_label : option pystr;
  ref_bbox : option bbox;
  raw_text_sha256 : pystr;
  quote : pystr;
  char_start : Z;
  char_end : Z;
  location_quality : LocationQuality;
  verification_state : VerificationState }.

(** [domain/values.py:176-185 LlmElement] *)
Record LlmElement : Set := {
  element_id : pystr;
  state : ElementState;
  evidence_refs : list SourceRef;
  normalized_value : option pystr;
  credited_from : option pystr;
  reason_code : option pystr }.

(** [domain/values.py:203-214 LlmTags] *)
Record LlmTags : Set := {
  claim_id : pystr;
  packet_sha256 : pystr;
  replicate_id : Z;
  track : Track;
  safe_harbor_category : option pystr;
  elements : list LlmElement;
  superlative_quote : option pystr;
  warnings : list pystr }.

(** [isinstance(v, str) or v is None] *)
Definition opt_str (e : exn) (v : pyval) : result (option pystr) :=
  match v with PNone => Ok None | PStr s => Ok (Some s) | _ => Raise e end.

(** The constructor call [SourceRef(..)]: [__post_init__] on raw fields.
    [domain/values.py:155-173 SourceRef.__post_init__] *)
Definition mk_SourceRef (sid dvid pmid page : pyval) (printed : option pystr)
    (box sha q cs ce lq vs : pyval) : result SourceRef :=
  sid ← require_uuid sid;
  dvid ← require_uuid dvid;
  pmid ← require_uuid pmid;
  page ← require_strict_int page;
  _ ← reject (page <? 1)%Z DomainValidationError;
  cs ← require_strict_int cs;
  ce ← require_strict_int ce;
  _ ← reject ((cs <? 0)%Z || (ce <? cs)%Z) DomainValidationError;
  lq ← enum_of DomainValidationError LOCATION_QUALITIES location_str lq;
  vs ← enum_of DomainValidationError VERIFICATION_STATES verification_str vs;
  box ← require_bbox box;
  sha ← require_sha256 sha;
  q ← as_str DomainValidationError q;
  Ok {| source_id := sid; document_version_id := dvid; parse_manifest_id := pmid;
        page_num := page; printed_page_label := printed; ref_bbox := box;
        raw_text_sha256 := sha; quote := q; char_start := cs; char_end := ce;
        location_quality := lq; verification_state := vs |}.

(** [domain/values.py:187-200 LlmElement.__post_init__] *)
Definition mk_LlmElement (eid st : pyval) (refs : list SourceRef)
    (nv cf rc : option pystr) : result LlmElement :=
  eid ← as_str DomainValidationError eid;
  _ ← require (nonempty eid) DomainValidationError;
  st ← enum_of DomainValidationError ELEMENT_STATES state_str st;
  _ ← reject (bool_decide (st = Present) && (py_len refs =? 0)%Z) DomainValidationError;
  Ok {| element_id := eid; state := st; evidence_refs := refs; normalized_value := nv;
        credited_from := cf; reason_code := rc |}.

(** [domain/values.py:216-238 LlmTags.__post_init__] *)
Definition mk_LlmTags (cid sha rid tr : pyval) (cat : option pystr)
    (els : list LlmElement) (sq : option pystr) (ws : list pyval) : result LlmTags :=
  cid ← require_uuid cid;
  sha ← require_sha256 sha;
  rid ← require_strict_int rid;
  _ ← require (existsb (Z.eqb rid) [1; 2; 3]%Z) DomainValidationError;
  tr ← enum_of DomainValidationError TRACKS track_str tr;
  _ ← require (match cat with Some c => str_in c SAFE_HARBOR_CATEGORIES | None => true end)
        DomainValidationError;
  ws ← map_result (as_str DomainValidationError) ws;
  Ok {| claim_id := cid; packet_sha256 := sha; replicate_id := rid; track := tr;
        safe_harbor_category := cat; elements := els; superlative_quote := sq;
        warnings := ws |}.

(* ------------------------------------------------------------------ *)
(** ** Parsing untrusted tagger output *)
(* ------------------------------------------------------------------ *)

(** [domain/values.py:241-244 _reject_unknown] *)
Definition reject_unknown (data : pydict) (allowed : list pystr) : result unit :=
  require (forallb (λ k, str_in k allowed) (dict_keys data)) DomainValidationError.

(** [domain/values.py:247-250 _require_keys] *)
Definition require_keys (data : pydict) (required : list pystr) : result unit :=
  require (forallb (λ k, str_in k (dict_keys data)) required) DomainValidationError.

(** [_FORBIDDEN_LLM_FIELDS.intersection(data.keys())]
    [domain/values.py:280-284 _FORBIDDEN_LLM_FIELDS] *)
Definition reject_grading (data : pydict) : result unit :=
  reject (existsb (λ k, str_in k (dict_keys data)) FORBIDDEN_LLM_FIELDS) DomainValidationError.

(** [data[k]] *)
Definition field (data : pydict) (k : pystr) : result pyval :=
  of_option KeyError (dict_get k data).

(** [domain/values.py:253-274 _source_ref_from_dict] *)
Definition source_ref_from_dict (data : pyval) : result SourceRef :=
  data ← as_dict DomainValidationError data;
  _ ← reject_unknown data SOURCE_FIELDS;
  _ ← require_keys data SOURCE_FIELDS;
  printed ← field data "printed_page_label";
  printed ← opt_str DomainValidationError printed;
  sid ← field data "source_id";
  dvid ← field data "document_version_id";
  pmid ← field data "parse_manifest_id";
  page ← field data "page_num";
  box ← field data "bbox";
  sha ← field data "raw_text_sha256";
  q ← field data "quote";
  cs ← field data "char_start";
  ce ← field data "char_end";
  lq ← field data "location_quality";
  vs ← field data "verification_state";
  mk_SourceRef sid dvid pmid page printed box sha q cs ce lq vs.

(** [domain/values.py:277-303 _element_from_dict] *)
Definition element_from_dict (data : pyval) : result LlmElement :=
  data ← as_dict DomainValidationError data;
  _ ← reject_grading data;
  _ ← reject_unknown data ELEMENT_FIELDS;
  _ ← require_keys data ELEMENT_FIELDS;
  refs ← field data "evidence_refs";
  refs ← as_seq DomainValidationError refs;
  nv ← field data "normalized_value";
  nv ← opt_str DomainValidationError nv;
  cf ← field data "credited_from";
  cf ← opt_str DomainValidationError cf;
  rc ← field data "reason_code";
  rc ← opt_str DomainValidationError rc;
  _ ← match cf with Some c => _ ← require_uuid (PStr c); Ok tt | None => Ok tt end;
  eid ← field data "element_id";
  st ← field data "state";
  refs ← map_result source_ref_from_dict refs;
  mk_LlmElement eid st refs nv cf rc.

(** [domain/values.py:306-339 llm_tags_from_dict] *)
Definition llm_tags_from_dict (data : pyval) : result LlmTags :=
  data ← as_dict DomainValidationError data;
  _ ← reject_grading data;
  _ ← reject_unknown data ROOT_FIELDS;
  _ ← require_keys data ROOT_FIELDS;
  els ← field data "elements";
  els ← as_seq DomainValidationError els;
  ws ← field data "warnings";
  ws ← as_seq DomainValidationError ws;
  cat ← field data "safe_harbor_category";
  cat ← opt_str DomainValidationError cat;
  sq ← field data "superlative_quote";
  sq ← opt_str DomainValidationError sq;
  cid ← field data "claim_id";
  sha ← field data "packet_sha256";
  rid ← field data "replicate_id";
  tr ← field data "track";
  els ← map_result element_from_dict els;
  mk_LlmTags cid sha rid tr cat els sq ws.

(* ------------------------------------------------------------------ *)
(** ** What a constructed value guarantees *)
(* ------------------------------------------------------------------ *)

(** The canonical textual form of a UUID, in either case. *)
Definition uuid_shape (s : pystr) : bool :=
  (py_len s =? 36)%Z
  && forallb (λ '(i, c), if existsb (Nat.eqb i) [8; 13; 18; 23]%nat then (c =? 45)%N
                         else is_hex (lower_char c)) (imap pair s).

Definition bbox_wf (b : bbox) : bool :=
  forallb PyFloat.is_finite [bx0 b; by0 b; bx1 b; by1 b]
  && PyFloat.ltb (bx0 b) (bx1 b) && PyFloat.ltb (by0 b) (by1 b).

Definition source_ref_wf (r : SourceRef) : bool :=
  uuid_shape (source_id r) && uuid_shape (document_version_id r)
  && uuid_shape (parse_manifest_id r)
  && (1 <=? page_num r)%Z && (0 <=? char_start r)%Z && (char_start r <=? char_end r)%Z
  && match ref_bbox r with Some b => bbox_wf b | None => true end
  && is_sha256 (raw_text_sha256 r).

Definition element_wf (e : LlmElement) : bool :=
  nonempty (element_id e)
  && forallb source_ref_wf (evidence_refs e)
  && match state e with Present => negb (py_len (evidence_refs e) =? 0)%Z | _ => true end
  && match credited_from e with Some c => uuid_shape c | None => true end.

Definition llm_tags_wf (t : LlmTags) : bool :=
  uuid_shape (claim_id t) && is_sha256 (packet_sha256 t)
  && (1 <=? replicate_id t)%Z && (replicate_id t <=? 3)%Z
  && match safe_harbor_category t with
     | Some c => str_in c SAFE_HARBOR_CATEGORIES | None => true end
  && forallb element_wf (elements t).

(** Equality of two references as the frozen dataclass compares them. *)
Definition bbox_eqb (a b : option bbox) : bool :=
  match a, b with
  | None, None => true
  | Some a, Some b => PyFloat.eqb (bx0 a) (bx0 b) && PyFloat.eqb (by0 a) (by0 b)
                      && PyFloat.eqb (bx1 a) (bx1 b) && PyFloat.eqb (by1 a) (by1 b)
  | _, _ => false
  end.

Definition ref_eqb (a b : SourceRef) : bool :=
  (source_id a =s? source_id b)
  && (document_version_id a =s? document_version_id b)
  && (parse_manifest_id a =s? parse_manifest_id b) && (page_num a =? page_num b)%Z
  && bool_decide (printed_page_label a = printed_page_label b) && bbox_eqb (ref_bbox a) (ref_bbox b)
  && (raw_text_sha256 a =s? raw_text_sha256 b) && (quote a =s? quote b)
  && (char_start a =? char_start b)%Z && (char_end a =? char_end b)%Z
  && bool_decide (location_quality a = location_quality b)
  && bool_decide (verification_state a = verification_state b).

(** The JSON objects the parser is the inverse of. *)
Definition opt_val (o : option pystr) : pyval :=
  match o with Some s => PStr s | None => PNone end.

Definition bbox_val (b : option bbox) : pyval :=
  match b with
  | Some b => PList [PFloat (bx0 b); PFloat (by0 b); PFloat (bx1 b); PFloat (by1 b)]
  | None => PNone
  end.

Definition source_ref_val (r : SourceRef) : pyval :=
  PDict [("source_id", PStr (source_id r));
         ("document_version_id", PStr (document_version_id r));
         ("parse_manifest_id", PStr (parse_manifest_id r));
         ("page_num", PInt (page_num r));
         ("printed_page_label", opt_val (printed_page_label r));
         ("bbox", bbox_val (ref_bbox r));
         ("raw_text_sha256", PStr (raw_text_sha256 r));
         ("quote", PStr (quote r));
         ("char_start", PInt (char_start r));
         ("char_end", PInt (char_end r));
         ("location_quality", PStr (location_str (location_quality r)));
         ("verification_state", PStr (verification_str (verification_state r)))].

Definition element_val (e : LlmElement) : pyval :=
  PDict [("element_id", PStr (element_id e));
         ("state", PStr (state_str (state e)));
         ("evidence_refs", PList (source_ref_val <$> evidence_refs e));
         ("normalized_value", opt_val (normalized_value e));
         ("credited_from", opt_val (credited_from e));
         ("reason_code", opt_val (reason_code e))].

Definition llm_tags_val (t : LlmTags) : pyval :=
  PDict [("claim_id", PStr (claim_id t));
         ("packet_sha256", PStr (packet_sha256 t));
         ("replicate_id", PInt (replicate_id t));
         ("track", PStr (track_str (track t)));
         ("safe_harbor_category", opt_val (safe_harbor_category t));
         ("elements", PList (element_val <$> elements t));
         ("superlative_quote", opt_val (superlative_quote t));
         ("warnings", PList (PStr <$> warnings t))].

(* ------------------------------------------------------------------ *)
(** ** Lemmas on the checks *)
(* ------------------------------------------------------------------ *)

Lemma as_str_Ok e v s : as_str e v = Ok s ↔ v = PStr s.
Proof. destruct v; simpl; naive_solver. Qed.

Lemma as_dict_Ok e v d : as_dict e v = Ok d ↔ v = PDict d.
Proof. destruct v; simpl; naive_solver. Qed.

Lemma as_seq_Ok e v l : as_seq e v = Ok l ↔ v = PList l ∨ v = PTuple l.
Proof. destruct v; simpl; naive_solver. Qed.

Lemma opt_str_Ok e v o : opt_str e v = Ok o ↔ v = opt_val o.
Proof. destruct v, o; simpl; naive_solver. Qed.

Lemma require_strict_int_Ok v z : require_strict_int v = Ok z ↔ v = PInt z.
Proof. destruct v; simpl; naive_solver. Qed.

Lemma require_sha256_Ok v s : require_sha256 v = Ok s ↔ v = PStr s ∧ is_sha256 s = true.
Proof.
  unfold require_sha256. split.
  - by intros (t & ->%as_str_Ok & (u & Hu%require_Ok & [= <-])%bind_Ok_inv)%bind_Ok_inv.
  - intros [-> Hs]. simpl. by rewrite Hs.
Qed.

Lemma eq_str_iff v s : eq_str v s = true ↔ v = PStr s.
Proof. destruct v; simpl; try naive_solver. rewrite str_eqb_eq. naive_solver. Qed.

Lemma enum_of_Ok {A} e (members : list A) spell v a :
  enum_of e members spell v = Ok a → a ∈ members ∧ v = PStr (spell a).
Proof.
  unfold enum_of. rewrite of_option_Ok. intros [Hin Heq]%find_some.
  split; [by apply list_elem_of_In | by apply eq_str_iff].
Qed.

Lemma bbox_coord_Ok v f : bbox_coord v = Ok f → PyFloat.is_finite f = true.
Proof. unfold bbox_coord. intros H. ok_inv H. congruence. Qed.

Lemma bbox_of_list_Ok l o :
  bbox_of_list l = Ok o → ∃ b, o = Some b ∧ bbox_wf b = true.
Proof.
  unfold bbox_of_list. intros (_ & _ & H)%bind_Ok_inv.
  apply bind_Ok_inv in H as (cs & Hcs%map_result_Ok & H).
  assert (Hf : Forall (λ f, PyFloat.is_finite f = true) cs).
  { clear H. induction Hcs; constructor; [by eapply bbox_coord_Ok|done]. }
  destruct cs as [|x0 [|y0 [|x1 [|y1 [|]]]]]; try discriminate.
  apply bind_Ok_inv in H as (? & Hlt%require_Ok & [= <-]).
  eexists. split; [done|]. apply andb_true_iff in Hlt as [Hx Hy].
  unfold bbox_wf. simpl. by decompose_Forall_hyps; repeat match goal with
    | H : PyFloat.is_finite _ = true |- _ => rewrite H end; rewrite Hx, Hy.
Qed.

Lemma require_bbox_Ok v o :
  require_bbox v = Ok o → match o with Some b => bbox_wf b = true | None => v = PNone end.
Proof.
  destruct v; simpl; try discriminate; [by intros [= <-]|..];
    by intros (b & -> & Hb)%bbox_of_list_Ok.
Qed.

(** *** UUIDs *)

Lemma uuid_shape_inv s :
  uuid_shape s = true →
  ∃ a b c d e, s = a ++ "-" ++ b ++ "-" ++ c ++ "-" ++ d ++ "-" ++ e
    ∧ length a = 8%nat ∧ length b = 4%nat ∧ length c = 4%nat ∧ length d = 4%nat
    ∧ length e = 12%nat
    ∧ forallb is_hex (lower (a ++ b ++ c ++ d ++ e)) = true.
Proof.
  unfold uuid_shape, py_len. intros [Hl%Z.eqb_eq H]%andb_true_iff.
  do 37 (destruct s as [|? s]; [try (simpl in Hl; lia)|]); [|simpl in Hl; lia].
  simpl in H. repeat apply andb_true_iff in H as [? H].
  repeat match goal with H : (_ =? 45)%N = true |- _ => apply N.eqb_eq in H; subst end.
  do 5 eexists. split.
  - instantiate (5 := [_;_;_;_;_;_;_;_]). instantiate (4 := [_;_;_;_]).
    instantiate (3 := [_;_;_;_]). instantiate (2 := [_;_;_;_]). reflexivity.
  - split_and!; try done. simpl. repeat (apply andb_true_iff; split); done.
Qed.

Lemma remove_prefix_all_absent fuel x p s :
  x ∉ s → remove_prefix_all fuel (x :: p) s = s.
Proof.
  revert fuel. induction s as [|c s IH]; intros [|fuel] Hx; try done.
  apply not_elem_of_cons in Hx as [Hc Hx]. cbn [remove_prefix_all starts_with].
  rewrite (proj2 (N.eqb_neq x c)) by done. cbn [andb]. by rewrite IH.
Qed.

Lemma remove_prefix_all_char fuel x s :
  (length s <= fuel)%nat → remove_prefix_all fuel [x] s = filter (λ c, x ≠ c) s.
Proof.
  revert fuel. induction s as [|c s IH]; intros [|fuel] Hf; simpl in Hf; try done; try lia.
  cbn [remove_prefix_all starts_with length drop]. rewrite andb_true_r.
  destruct (N.eqb_spec x c) as [->|Hne].
  - rewrite filter_cons_False by tauto. rewrite drop_0. apply IH. lia.
  - rewrite filter_cons_True by done. by rewrite IH by lia.
Qed.

Lemma lstrip_chars_absent cs s :
  (∀ c, c ∈ s → c ∉ cs) → lstrip_chars cs s = s.
Proof.
  destruct s as [|c s]; [done|]. intros H. simpl.
  destruct (existsb (N.eqb c) cs) eqn:E; [|done].
  apply existsb_exists in E as (d & Hd & <-%N.eqb_eq).
  destruct (H c); [left | by apply list_elem_of_In].
Qed.

Lemma strip_chars_absent cs s :
  (∀ c, c ∈ s → c ∉ cs) → strip_chars cs s = s.
Proof.
  intros H. unfold strip_chars. rewrite (lstrip_chars_absent cs s) by done.
  rewrite lstrip_chars_absent; [apply rev_involutive|].
  intros c Hc. apply H. by apply list_elem_of_In, in_rev, list_elem_of_In.
Qed.

Definition uuid_char (c : N) : bool := (c =? 45)%N || is_hex (lower_char c).

Lemma uuid_char_range c :
  uuid_char c = true → c ≠ 117%N ∧ c ≠ 123%N ∧ c ≠ 125%N.
Proof.
  intros H. split_and!; intros ->; vm_compute in H; discriminate.
Qed.

Lemma lower_char_hyphen c : lower_char c = 45%N → c = 45%N.
Proof.
  unfold lower_char. destruct (_ && _) eqn:E; [|done].
  apply andb_true_iff in E as [?%N.leb_le ?%N.leb_le]. lia.
Qed.

Lemma is_hex_hyphen c : is_hex c = true → 45%N ≠ c.
Proof. by intros H <-. Qed.

Lemma uuid_hex_Some s h :
  uuid_hex s = Some h → length h = 32%nat ∧ forallb is_hex h = true.
Proof.
  unfold uuid_hex. destruct (_ && _) eqn:E; [|done]. intros [= <-].
  apply andb_true_iff in E as [E%Z.eqb_eq ?]. unfold py_len in E. split; [lia|done].
Qed.

Lemma uuid_shape_of_str s h :
  length h = 32%nat → forallb is_hex h = true → uuid_str h = lower s → uuid_shape s = true.
Proof.
  intros Hl Hh Hs.
  do 33 (destruct h as [|? h]; [try (simpl in Hl; lia)|]); [|simpl in Hl; lia].
  cbv in Hl. clear Hl. cbn in Hs. unfold lower in Hs.
  do 37 (destruct s as [|? s]; [try discriminate Hs|]); [|discriminate Hs].
  cbn [fmap list_fmap uuid_str slice take drop app Z.to_nat Pos.to_nat Nat.sub] in Hs.
  injection Hs. clear Hs. intros. subst.
  repeat match goal with H : 45%N = lower_char _ |- _ =>
    symmetry in H; apply lower_char_hyphen in H; subst end.
  cbn [forallb] in Hh. unfold uuid_shape. cbn -[is_hex lower_char].
  repeat (apply andb_true_iff in Hh as [? Hh]).
  repeat (apply andb_true_iff; split); done.
Qed.

Lemma uuid_hex_shape s :
  uuid_shape s = true → ∃ h, uuid_hex s = Some h ∧ uuid_str h = lower s.
Proof.
  intros H. pose proof (uuid_shape_inv s H) as (a & b & c & d & e & -> & ? & ? & ? & ? & ? & Hh).
  set (s := a ++ _) in *.
  assert (Hc : ∀ x, x ∈ s → uuid_char x = true).
  { assert (Hall : forallb uuid_char s = true).
    { unfold s. unfold lower in Hh. rewrite !fmap_app, !forallb_app in Hh. rewrite !forallb_app.
      repeat (apply andb_true_iff in Hh as [? Hh]).
      assert (Hx : ∀ l, forallb is_hex (lower_char <$> l) = true → forallb uuid_char l = true).
      { intros l. unfold uuid_char. induction l as [|y l IH]; [done|]. cbn.
        intros [-> ?]%andb_true_iff. rewrite orb_true_r. by apply IH. }
      by rewrite (Hx a), (Hx b), (Hx c), (Hx d), (Hx e) by done. }
    rewrite forallb_forall in Hall. intros x Hx. by apply Hall, list_elem_of_In. }
  assert (Hu : 117%N ∉ s) by (intros Hin; by destruct (uuid_char_range _ (Hc _ Hin))).
  assert (Hs : strip_chars "{}" s = s).
  { apply strip_chars_absent. intros x Hx%Hc%uuid_char_range.
    rewrite !elem_of_cons, elem_of_nil. tauto. }
  unfold uuid_hex, remove_all. rewrite !(remove_prefix_all_absent _ 117%N _ s) by done.
  rewrite Hs, remove_prefix_all_char by done.
  assert (Hf : filter (λ y, 45%N ≠ y) s = a ++ b ++ c ++ d ++ e).
  { unfold s. unfold lower in Hh. rewrite !fmap_app, !forallb_app in Hh.
    repeat (apply andb_true_iff in Hh as [? Hh]).
    assert (Hx : ∀ l, forallb is_hex (lower_char <$> l) = true → filter (λ y, 45%N ≠ y) l = l).
    { intros l. induction l as [|y l IH]; [done|].
      cbn [fmap list_fmap forallb]. intros [Hy ?]%andb_true_iff.
      rewrite filter_cons_True by (intros <-; vm_compute in Hy; discriminate).
      by rewrite IH. }
    rewrite !filter_app.
    by rewrite (Hx a), (Hx b), (Hx c), (Hx d), (Hx e) by done. }
  rewrite Hf, Hh, andb_true_r.
  assert (Hl : (py_len (lower (a ++ b ++ c ++ d ++ e)) =? 32)%Z = true).
  { unfold lower, py_len. rewrite length_fmap, !length_app. apply Z.eqb_eq. lia. }
  rewrite Hl. eexists. split; [done|]. unfold s. clear -H0 H1 H2 H3 H4.
  do 9 (destruct a as [|? a]; try done). do 5 (destruct b as [|? b]; try done).
  do 5 (destruct c as [|? c]; try done). do 5 (destruct d as [|? d]; try done).
  do 13 (destruct e as [|? e]; try done).
Qed.

(** [_require_uuid] accepts exactly the canonical spellings. *)
Lemma require_uuid_Ok v s : require_uuid v = Ok s ↔ v = PStr s ∧ uuid_shape s = true.
Proof.
  unfold require_uuid. split.
  - intros (t & ->%as_str_Ok & H)%bind_Ok_inv.
    apply bind_Ok_inv in H as (h & [Hl Hh]%of_option_Ok%uuid_hex_Some & H).
    apply bind_Ok_inv in H as (? & Heq%require_Ok%str_eqb_eq & [= <-]).
    split; [done|]. by eapply uuid_shape_of_str.
  - intros [-> Hs]. destruct (uuid_hex_shape s Hs) as (h & Hh & Heq). simpl.
    rewrite Hh. simpl. by rewrite Heq, str_eqb_refl.
Qed.

(* ------------------------------------------------------------------ *)
(** ** The constructors establish and need exactly their invariants *)
(* ------------------------------------------------------------------ *)


(** Split the conjunctions of a goal [.. && .. = true] the checks wrote. *)
Ltac split_andb :=
  repeat match goal with |- (_ && _) = true => apply andb_true_iff; split end.

Ltac check_facts :=
  repeat match goal with
  | H : require_uuid _ = Ok _ |- _ => apply require_uuid_Ok in H as [? H]
  | H : require_sha256 _ = Ok _ |- _ => apply require_sha256_Ok in H as [? H]
  | H : require_strict_int _ = Ok _ |- _ => apply require_strict_int_Ok in H
  | H : require _ _ = Ok _ |- _ => apply require_Ok in H
  | H : reject _ _ = Ok _ |- _ => apply reject_Ok in H
  | H : (_ || _) = false |- _ => apply orb_false_iff in H as [? H]
  | H : (_ && _) = true |- _ => apply andb_true_iff in H as [? H]
  end.

Lemma mk_SourceRef_wf a b c d e f g h i j k l r :
  mk_SourceRef a b c d e f g h i j k l = Ok r → source_ref_wf r = true.
Proof.
  unfold mk_SourceRef. intros H. open_run H. injection H as <-.
  match goal with H : require_bbox _ = Ok _ |- _ => apply require_bbox_Ok in H as Hb end.
  check_facts. str_prop. unfold source_ref_wf. simpl.
  split_andb; try done; try (apply Z.leb_le; lia).
  by match goal with |- match ?o with _ => _ end = true => destruct o end.
Qed.

(** An accepted reference holds the arguments it was made of. *)
Lemma mk_SourceRef_args a b c d e f g h i j k l r :
  mk_SourceRef a b c d e f g h i j k l = Ok r →
  (a = PStr (source_id r) ∧ b = PStr (document_version_id r) ∧ c = PStr (parse_manifest_id r))
  ∧ (d = PInt (page_num r) ∧ e = printed_page_label r ∧ require_bbox f = Ok (ref_bbox r))
  ∧ (g = PStr (raw_text_sha256 r) ∧ h = PStr (quote r))
  ∧ (i = PInt (char_start r) ∧ j = PInt (char_end r))
  ∧ k = PStr (location_str (location_quality r))
  ∧ l = PStr (verification_str (verification_state r)).
Proof.
  unfold mk_SourceRef. intros H. open_run H. injection H as <-. check_facts. cbn.
  repeat match goal with
  | H : enum_of _ _ _ _ = Ok _ |- _ => apply enum_of_Ok in H as [_ H]
  | H : as_str _ _ = Ok _ |- _ => apply as_str_Ok in H
  end. by subst.
Qed.

Lemma map_result_forallb {A B} (f : A → result B) (p : B → bool) l ys :
  (∀ x y, f x = Ok y → p y = true) → map_result f l = Ok ys → forallb p ys = true.
Proof.
  intros Hp H%map_result_Ok. induction H; [done|]. simpl. by erewrite Hp.
Qed.

Lemma source_ref_from_dict_wf v r :
  source_ref_from_dict v = Ok r → source_ref_wf r = true.
Proof. unfold source_ref_from_dict. intros H. open_run H. by eapply mk_SourceRef_wf. Qed.

Lemma element_from_dict_wf v e :
  element_from_dict v = Ok e → element_wf e = true.
Proof.
  unfold element_from_dict. intros H. open_run H.
  unfold mk_LlmElement in H. open_run H. injection H as <-. unfold element_wf. simpl.
  match goal with H : map_result _ _ = Ok _ |- _ =>
    apply (map_result_forallb _ source_ref_wf) in H; [|exact source_ref_from_dict_wf] end.
  check_facts. split_andb; try done.
  - match goal with |- context [match ?s with _ => _ end] => destruct s end; try done.
    match goal with H : bool_decide _ && _ = false |- _ =>
      rewrite bool_decide_eq_true_2 in H by done; simpl in H; by rewrite H end.
  - match goal with |- match ?o with _ => _ end = true => destruct o end; [|done].
    match goal with H : (_ ← require_uuid _; _) = _ |- _ => open_run H end.
    check_facts. congruence.
Qed.

Lemma llm_tags_from_dict_wf v t :
  llm_tags_from_dict v = Ok t → llm_tags_wf t = true.
Proof.
  unfold llm_tags_from_dict. intros H. open_run H.
  unfold mk_LlmTags in H. open_run H. injection H as <-. unfold llm_tags_wf. simpl.
  match goal with H : map_result element_from_dict _ = Ok _ |- _ =>
    apply (map_result_forallb _ element_wf) in H; [|exact element_from_dict_wf] end.
  check_facts.
  split_andb; try done.
  all: match goal with H : existsb (Z.eqb _) _ = true |- _ =>
    apply existsb_exists in H as (? & Hin & ->%Z.eqb_eq) end;
    simpl in Hin; apply Z.leb_le; intuition lia.
Qed.

(** The payload's keys are exactly the contract's, so none is a grade. *)
Lemma object_keys data allowed u u' :
  reject_unknown data allowed = Ok u → require_keys data allowed = Ok u' →
  ∀ k, k ∈ dict_keys data ↔ k ∈ allowed.
Proof.
  unfold reject_unknown, require_keys. intros H1%require_Ok H2%require_Ok k.
  rewrite forallb_forall in H1, H2.
  split; intros Hk%list_elem_of_In; [apply H1 in Hk | apply H2 in Hk]; by apply str_in_iff in Hk.
Qed.

Lemma grading_outside k : k ∈ FORBIDDEN_LLM_FIELDS → k ∉ ROOT_FIELDS ∧ k ∉ ELEMENT_FIELDS.
Proof.
  intros Hk. repeat (apply elem_of_cons in Hk as [->|Hk]); [..|by apply elem_of_nil in Hk];
    split; by apply str_in_false.
Qed.

(* ------------------------------------------------------------------ *)
(** ** Every well-formed value is accepted back *)
(* ------------------------------------------------------------------ *)

Lemma enum_of_spell {A} e (members : list A) spell a :
  (∀ x y, spell x = spell y → x = y) → a ∈ members →
  enum_of e members spell (PStr (spell a)) = Ok a.
Proof.
  intros Hinj Hin. unfold enum_of. apply of_option_Ok.
  induction members as [|b l IH]; [by apply elem_of_nil in Hin|]. simpl.
  destruct (str_eqb_spec (spell a) (spell b)) as [->%Hinj|Hne]; [done|].
  apply elem_of_cons in Hin as [->|]; [done|auto].
Qed.

Lemma state_str_inj x y : state_str x = state_str y → x = y.
Proof. by destruct x, y. Qed.
Lemma track_str_inj x y : track_str x = track_str y → x = y.
Proof. by destruct x, y. Qed.
Lemma location_str_inj x y : location_str x = location_str y → x = y.
Proof. by destruct x, y. Qed.
Lemma verification_str_inj x y : verification_str x = verification_str y → x = y.
Proof. by destruct x, y. Qed.

Lemma enum_state s e : enum_of e ELEMENT_STATES state_str (PStr (state_str s)) = Ok s.
Proof. by destruct s. Qed.
Lemma enum_track t e : enum_of e TRACKS track_str (PStr (track_str t)) = Ok t.
Proof. by destruct t. Qed.
Lemma enum_location q e :
  enum_of e LOCATION_QUALITIES location_str (PStr (location_str q)) = Ok q.
Proof. by destruct q. Qed.
Lemma enum_verification s e :
  enum_of e VERIFICATION_STATES verification_str (PStr (verification_str s)) = Ok s.
Proof. by destruct s. Qed.

Lemma opt_str_val e o : opt_str e (opt_val o) = Ok o.
Proof. by destruct o. Qed.

Lemma require_uuid_str s : uuid_shape s = true → require_uuid (PStr s) = Ok s.
Proof. intros H. by apply require_uuid_Ok. Qed.

Lemma require_sha256_str s : is_sha256 s = true → require_sha256 (PStr s) = Ok s.
Proof. intros H. by apply require_sha256_Ok. Qed.

Lemma bbox_coord_float f : PyFloat.is_finite f = true → bbox_coord (PFloat f) = Ok f.
Proof. unfold bbox_coord. simpl. by intros ->. Qed.

Lemma require_bbox_val b :
  match b with Some b => bbox_wf b | None => true end = true → require_bbox (bbox_val b) = Ok b.
Proof.
  destruct b as [[x0 y0 x1 y1]|]; [|done]. unfold bbox_wf. cbn [forallb bx0 by0 bx1 by1].
  intros [[[? [? [? [? _]%andb_true_iff]%andb_true_iff]%andb_true_iff]%andb_true_iff Hx]%andb_true_iff Hy]%andb_true_iff.
  simpl. unfold bbox_of_list. simpl. rewrite !bbox_coord_float by done. simpl.
  by rewrite Hx, Hy.
Qed.

Lemma source_ref_roundtrip r :
  source_ref_wf r = true → source_ref_from_dict (source_ref_val r) = Ok r.
Proof.
  unfold source_ref_wf. intros H. check_facts.
  repeat match goal with H : _ && _ = true |- _ => apply andb_true_iff in H as [? H] end.
  str_prop. unfold source_ref_from_dict, source_ref_val. simpl.
  rewrite opt_str_val. simpl. unfold mk_SourceRef.
  rewrite !require_uuid_str by done. simpl.
  rewrite enum_location, enum_verification.
  rewrite (proj2 (Z.ltb_ge (page_num r) 1)) by lia.
  rewrite (proj2 (Z.ltb_ge (char_start r) 0)) by lia.
  rewrite (proj2 (Z.ltb_ge (char_end r) (char_start r))) by lia. simpl.
  rewrite require_bbox_val, require_sha256_str by done. simpl. by destruct r.
Qed.

Lemma map_result_roundtrip {A B} (f : A → result B) (g : B → A) p l :
  (∀ y, p y = true → f (g y) = Ok y) → forallb p l = true → map_result f (g <$> l) = Ok l.
Proof.
  intros Hf. induction l as [|y l IH]; [done|].
  rewrite fmap_cons. cbn [map_result forallb].
  intros [Hy Hl]%andb_true_iff. by rewrite Hf, IH.
Qed.

Lemma element_roundtrip e :
  element_wf e = true → element_from_dict (element_val e) = Ok e.
Proof.
  unfold element_wf. intros H. check_facts.
  repeat match goal with H : _ && _ = true |- _ => apply andb_true_iff in H as [? H] end.
  unfold element_from_dict, element_val. simpl. rewrite !opt_str_val. simpl.
  assert (Hcf : (match credited_from e with
                 | Some c => _ ← require_uuid (PStr c); Ok tt
                 | None => Ok tt end) = Ok tt).
  { destruct (credited_from e); [|done]. by rewrite require_uuid_str. }
  rewrite Hcf. simpl.
  rewrite (map_result_roundtrip _ source_ref_val source_ref_wf) by
    (done || apply source_ref_roundtrip).
  simpl. unfold mk_LlmElement. simpl. rewrite enum_state.
  match goal with H : nonempty _ = true |- _ => rewrite H end. simpl.
  destruct e as [? []]; simpl in *; try done.
  match goal with H : negb _ = true |- _ => apply negb_true_iff in H; by rewrite H end.
Qed.

(* ------------------------------------------------------------------ *)
(** ** The exceptions of the boundary *)
(* ------------------------------------------------------------------ *)

(** What escapes the parser: the domain error, or the [OverflowError] of
    [float(coord)] on an integer beyond the binary64 range. *)
Definition boundary_error (e : exn) : Prop := e = DomainValidationError ∨ e = OverflowError.

Lemma boundary_dve : boundary_error DomainValidationError.
Proof. by left. Qed.
Lemma boundary_overflow : boundary_error OverflowError.
Proof. by right. Qed.

Lemma raises_as_dict v : raises boundary_error (as_dict DomainValidationError v).
Proof. destruct v; try done; apply boundary_dve. Qed.
Lemma raises_as_str v : raises boundary_error (as_str DomainValidationError v).
Proof. destruct v; try done; apply boundary_dve. Qed.
Lemma raises_as_seq v : raises boundary_error (as_seq DomainValidationError v).
Proof. destruct v; try done; apply boundary_dve. Qed.
Lemma raises_opt_str v : raises boundary_error (opt_str DomainValidationError v).
Proof. destruct v; try done; apply boundary_dve. Qed.
Lemma raises_strict_int v : raises boundary_error (require_strict_int v).
Proof. destruct v; try done; apply boundary_dve. Qed.
#[local] Hint Resolve boundary_dve boundary_overflow raises_as_dict raises_as_str raises_as_seq
  raises_opt_str raises_strict_int : raises.

Lemma raises_uuid v : raises boundary_error (require_uuid v).
Proof. unfold require_uuid. auto 10 with raises. Qed.
Lemma raises_sha256 v : raises boundary_error (require_sha256 v).
Proof. unfold require_sha256. auto 10 with raises. Qed.
Lemma raises_enum {A} (l : list A) f v :
  raises boundary_error (enum_of DomainValidationError l f v).
Proof. unfold enum_of. auto with raises. Qed.

Lemma raises_bbox v : raises boundary_error (require_bbox v).
Proof.
  assert (Hc : ∀ c, raises boundary_error (bbox_coord c)).
  { intros c. unfold bbox_coord. apply raises_bind; [|auto 10 with raises].
    destruct c; try apply boundary_dve; try done.
    unfold PyFloat.of_Z. destruct (binary_normalize _ _ _ _ _); try done. apply boundary_overflow. }
  assert (Hl : ∀ l, raises boundary_error (bbox_of_list l)).
  { intros l. unfold bbox_of_list. apply raises_bind; [auto with raises|]. intros _ _.
    apply raises_bind; [auto with raises|]. intros cs _.
    destruct cs as [|? [|? [|? [|? [|]]]]]; auto 10 with raises. }
  destruct v; try apply boundary_dve; try done; apply Hl.
Qed.
#[local] Hint Resolve raises_uuid raises_sha256 raises_enum raises_bbox : raises.

(** A field the key check requires can be read. *)
Lemma raises_field data ks k u :
  require_keys data ks = Ok u → str_in k ks = true → raises boundary_error (field data k).
Proof.
  unfold require_keys, field. rewrite require_Ok, forallb_forall.
  intros H Hk%str_in_iff%list_elem_of_In%H%str_in_iff%dict_get_is_Some.
  by destruct Hk as [v ->].
Qed.

Lemma raises_require_keys data ks : raises boundary_error (require_keys data ks).
Proof. apply raises_require, boundary_dve. Qed.
Lemma raises_reject_unknown data ks : raises boundary_error (reject_unknown data ks).
Proof. apply raises_require, boundary_dve. Qed.
Lemma raises_reject_grading data : raises boundary_error (reject_grading data).
Proof. apply raises_reject, boundary_dve. Qed.
#[local] Hint Resolve raises_require_keys raises_reject_unknown raises_reject_grading : raises.

Ltac raises_step :=
  match goal with
  | |- raises _ (mbind _ _) => apply raises_bind; [|intros ? ?]
  | |- raises _ (field ?d _) =>
      match goal with H : require_keys d _ = Ok _ |- _ => by eapply (raises_field _ _ _ _ H) end
  | |- raises _ (match ?o with _ => _ end) => destruct o
  | |- _ => by auto 10 with raises
  end.

Lemma raises_source_ref v : raises boundary_error (source_ref_from_dict v).
Proof. unfold source_ref_from_dict, mk_SourceRef. repeat raises_step. Qed.
#[local] Hint Resolve raises_source_ref : raises.

Lemma raises_element v : raises boundary_error (element_from_dict v).
Proof.
  unfold element_from_dict, mk_LlmElement. repeat raises_step.
Qed.
#[local] Hint Resolve raises_element : raises.

Lemma raises_llm_tags v : raises boundary_error (llm_tags_from_dict v).
Proof.
  unfold llm_tags_from_dict, mk_LlmTags. repeat raises_step.
Qed.

(* ------------------------------------------------------------------ *)
(** ** Properties *)
(* ------------------------------------------------------------------ *)

(** Whatever untrusted payload [llm_tags_from_dict] accepts, the resulting
    tags satisfy every guard of the three value types (canonical UUIDs and
    hashes, ordered finite boxes, a source for every [present] element), the
    payload's fields are exactly the contract's at the root and at every
    element, and in particular no grade, label or decision field occurs. *)
Theorem llm_tags_boundary v t :
  llm_tags_from_dict v = Ok t →
  llm_tags_wf t = true
  ∧ ∃ d l, v = PDict d
    ∧ (∀ k, k ∈ dict_keys d ↔ k ∈ ROOT_FIELDS)
    ∧ (dict_get "elements" d = Some (PList l) ∨ dict_get "elements" d = Some (PTuple l))
    ∧ Forall2 (λ e el, ∃ de, e = PDict de
                 ∧ (∀ k, k ∈ dict_keys de ↔ k ∈ ELEMENT_FIELDS)
                 ∧ dict_get "element_id" de = Some (PStr (element_id el))
                 ∧ dict_get "state" de = Some (PStr (state_str (state el)))
                 ∧ ∀ k, k ∈ FORBIDDEN_LLM_FIELDS → k ∉ dict_keys de) l (elements t)
    ∧ ∀ k, k ∈ FORBIDDEN_LLM_FIELDS → k ∉ dict_keys d.
Proof.
  intros H. split; [by eapply llm_tags_from_dict_wf|].
  unfold llm_tags_from_dict in H. open_run H.
  match goal with H : as_dict _ _ = Ok ?d |- _ => apply as_dict_Ok in H as ->; exists d end.
  match goal with H : map_result element_from_dict ?l = Ok _ |- _ =>
    exists l; apply map_result_Ok in H; rename H into Hels end.
  match goal with H1 : reject_unknown _ _ = Ok _, H2 : require_keys _ _ = Ok _ |- _ =>
    pose proof (object_keys _ _ _ _ H1 H2) as Hk end.
  split_and!; [done|done| | |].
  - match goal with H : as_seq _ _ = Ok ?l |- context [PList ?l] =>
      apply as_seq_Ok in H as [-> | ->] end;
    match goal with H : field _ "elements" = Ok _ |- _ => apply of_option_Ok in H end; tauto.
  - unfold mk_LlmTags in H. open_run H. injection H as <-. simpl. clear Hk.
    eapply Forall2_impl; [exact Hels|]. intros e el He.
    unfold element_from_dict in He. open_run He.
    match goal with H : as_dict _ e = Ok ?d |- _ => apply as_dict_Ok in H as ->; exists d end.
    match goal with H1 : reject_unknown _ ELEMENT_FIELDS = Ok _, H2 : require_keys _ _ = Ok _ |- _ =>
      pose proof (object_keys _ _ _ _ H1 H2) as Hk end.
    unfold mk_LlmElement in He. open_run He. injection He as <-. simpl.
    repeat match goal with
    | H : field _ _ = Ok _ |- _ => apply of_option_Ok in H
    | H : as_str _ _ = Ok _ |- _ => apply as_str_Ok in H as ->
    | H : enum_of _ _ _ _ = Ok _ |- _ => apply enum_of_Ok in H as [? ->]
    end.
    split_and!; try done. intros k Hf Hin%Hk. by destruct (grading_outside k Hf).
  - intros k Hf Hin%Hk. by destruct (grading_outside k Hf).
Qed.

(** C40: the boundary refuses nothing it should accept: the JSON object of
    every well-formed value is parsed back to that very value. *)
Theorem llm_tags_roundtrip t :
  llm_tags_wf t = true → llm_tags_from_dict (llm_tags_val t) = Ok t.
Proof.
  unfold llm_tags_wf. intros H. check_facts.
  repeat match goal with H : _ && _ = true |- _ => apply andb_true_iff in H as [? H] end.
  unfold llm_tags_from_dict, llm_tags_val. simpl. rewrite !opt_str_val. simpl.
  rewrite (map_result_roundtrip _ element_val element_wf) by (done || apply element_roundtrip).
  simpl. unfold mk_LlmTags. rewrite require_uuid_str, require_sha256_str, enum_track by done.
  simpl. assert (Hr : existsb (Z.eqb (replicate_id t)) [1; 2; 3]%Z = true).
  { str_prop. assert (replicate_id t = 1 ∨ replicate_id t = 2 ∨ replicate_id t = 3)%Z
      as [->|[-> | ->]] by lia; done. }
  simpl in Hr. rewrite Hr. simpl.
  replace (match safe_harbor_category t with Some c => _ | None => true end) with true.
  simpl. rewrite (map_result_roundtrip _ PStr (λ _, true)); [by destruct t|done|].
  by apply forallb_forall.
Qed.

(** A well-formed value: one present element with one located source. *)
Definition sample_ref : SourceRef :=
  {| source_id := "0f8fad5b-d9cb-469f-a165-70867728950e";
     document_version_id := "7c9e6679-7425-40de-944b-e07fc1f90ae7";
     parse_manifest_id := "7C9E6679-7425-40DE-944B-E07FC1F90AE8";
     page_num := 12; printed_page_label := Some "12"; ref_bbox := None;
     raw_text_sha256 := "0123456789abcdef0123456789abcdef0123456789abcdef0123456789abcdef";
     quote := "2030년까지 50% 감축"; char_start := 0; char_end := 15;
     location_quality := Located; verification_state := Verified |}.

Definition sample_tags : LlmTags :=
  {| claim_id := "0f8fad5b-d9cb-469f-a165-70867728950e";
     packet_sha256 := "0123456789abcdef0123456789abcdef0123456789abcdef0123456789abcdef";
     replicate_id := 1; track := Goal_; safe_harbor_category := Some "forward_looking";
     elements := [{| element_id := "target_year"; state := Present;
                     evidence_refs := [sample_ref]; normalized_value := Some "2030";
                     credited_from := None; reason_code := None |}];
     superlative_quote := None; warnings := ["w1"] |}.

Lemma llm_tags_roundtrip_witness :
  llm_tags_from_dict (llm_tags_val sample_tags) = Ok sample_tags.
Proof. apply llm_tags_roundtrip. vm_compute. reflexivity. Defined.

Lemma llm_tags_boundary_witness :
  ∃ d, llm_tags_val sample_tags = PDict d ∧ ∀ k, k ∈ FORBIDDEN_LLM_FIELDS → k ∉ dict_keys d.
Proof.
  destruct (llm_tags_boundary (llm_tags_val sample_tags) sample_tags) as (_ & d & l & H).
  - vm_compute. reflexivity.
  - exists d. split; [apply H|apply H].
Defined.

(** A payload whose only defect is an integer coordinate beyond the floats. *)
Definition sample_overflow : pyval :=
  match element_val {| element_id := "e"; state := Absent; evidence_refs := [];
                       normalized_value := None; credited_from := None; reason_code := None |},
        source_ref_val sample_ref, llm_tags_val sample_tags with
  | PDict el, PDict ref, PDict root =>
      let box := PList [PInt 0; PInt 0; PInt (2 ^ 1024); PInt 1] in
      PDict (dict_set "elements"
        (PList [PDict (dict_set "evidence_refs" (PList [PDict (dict_set "bbox" box ref)]) el)])
        root)
  | _, _, _ => PNone
  end.

(** A refusal is the domain error, except that a box coordinate given as
    an integer of 2^1024 or more escapes as [OverflowError]. *)
Theorem llm_tags_refusals :
  (∀ v e, llm_tags_from_dict v = Raise e → e = DomainValidationError ∨ e = OverflowError)
  ∧ llm_tags_from_dict sample_overflow = Raise OverflowError.
Proof.
  split; [|vm_compute; reflexivity].
  intros v e H. exact (raises_elim _ _ _ (raises_llm_tags v) H).
Qed.
