(* ===== verification/PyDate.v ===== *)
(** * Dates.

    [date.fromisoformat] (the ISO calendar and week forms CPython accepts)
    with a date represented by its proleptic Gregorian ordinal, so that [<=]
    on dates is [<=] on [Z]; and what the program asks of
    [datetime.fromisoformat]: whether a text is an instant and its offset is
    present and zero.  Both follow CPython 3.12's scanner, its tolerance of
    missing separators and of trailing digits included. *)
From S2P Require Import Prelude PyVal.

Local Open Scope Z_scope.

Definition is_leap (y : Z) : bool :=
  (y mod 4 =? 0) && (negb (y mod 100 =? 0) || (y mod 400 =? 0)).

Definition days_in_month (y m : Z) : Z :=
  if m =? 2 then (if is_leap y then 29 else 28)
  else if existsb (Z.eqb m) [4; 6; 9; 11] then 30 else 31.

Definition days_before_year (y : Z) : Z :=
  let y := y - 1 in y * 365 + y / 4 - y / 100 + y / 400.

Definition days_before_month (y m : Z) : Z :=
  foldl Z.add 0 (days_in_month y <$> (Z.of_nat <$> seq 1 (Z.to_nat (m - 1)))).

Definition ymd_to_ord (y m d : Z) : Z := days_before_year y + days_before_month y m + d.

(** Monday is 0. *)
Definition weekday_of_ord (n : Z) : Z := (n + 6) mod 7.

Definition max_ordinal : Z := 3652059.

(** The Monday of ISO week 1. *)
Definition iso_week1_monday (y : Z) : Z :=
  let first_day := ymd_to_ord y 1 1 in
  let first_weekday := weekday_of_ord first_day in
  let monday := first_day - first_weekday in
  if 3 <? first_weekday then monday + 7 else monday.

(** [k] ASCII digits and what follows. *)
Definition parse_digits (k : nat) (s : pystr) : option (Z * pystr) :=
  let ds := take k s in
  if (Nat.eqb (length ds) k && all_digits ds)%bool
  then Some (Z.of_N (digits_value ds), drop k s) else None.

(** [[0-9]{4}-[0-9]{2}-[0-9]{2}] and what follows. *)
Definition eat_date (s : pystr) : option (pystr * pystr) :=
  '(_, r) ← parse_digits 4 s; r ← eat 45 r; '(_, r) ← parse_digits 2 r; r ← eat 45 r;
  '(_, r) ← parse_digits 2 r; Some (take 10 s, r).

Definition calendar_date (y m d : Z) : option Z :=
  if (1 <=? y) && (y <=? 9999) && (1 <=? m) && (m <=? 12) && (1 <=? d)
     && (d <=? days_in_month y m)
  then Some (ymd_to_ord y m d) else None.

Definition week_date (y w d : Z) : option Z :=
  let first := weekday_of_ord (ymd_to_ord y 1 1) in
  let long := (first =? 3) || (first =? 2) && is_leap y in
  if (1 <=? y) && (y <=? 9999) && (1 <=? w) && ((w <=? 52) || (w =? 53) && long)
     && (1 <=? d) && (d <=? 7)
  then let n := iso_week1_monday y + (w - 1) * 7 + d - 1 in
       if (1 <=? n) && (n <=? max_ordinal) then Some n else None
  else None.

(** [date.fromisoformat(s)]; [None] is a [ValueError]. *)
Definition date_fromisoformat (s : pystr) : option Z :=
  if negb (existsb (Z.eqb (py_len s)) [7; 8; 10]) then None
  else
    '(y, r) ← parse_digits 4 s;
    let sep := starts_with "-" r in
    let r := if sep then drop 1 r else r in
    match eat 87 r with
    | Some r =>
        '(w, r) ← parse_digits 2 r;
        match r with
        | [] => week_date y w 1
        | _ => r ← (if sep then eat 45 r else Some r);
               '(d, _) ← parse_digits 1 r; week_date y w d
        end
    | None =>
        '(m, r) ← parse_digits 2 r;
        r ← (if sep then eat 45 r else Some r);
        '(d, r) ← parse_digits 2 r;
        match r with [] => calendar_date y m d | _ => None end
    end.

Example date_samples :
  date_fromisoformat "2026-09-25" = Some 739884
  ∧ date_fromisoformat "20260925" = Some 739884
  ∧ date_fromisoformat "2026-W39-5" = Some 739884
  ∧ date_fromisoformat "2026-02-29" = None ∧ date_fromisoformat "2024-02-29" = Some 738945
  ∧ date_fromisoformat "9999-12-31" = Some max_ordinal.
Proof. vm_compute. repeat split. Qed.

(* ------------------------------------------------------------------ *)
(** ** datetime.fromisoformat *)
(* ------------------------------------------------------------------ *)

(** Where the date part ends. *)
Definition date_separator (s : pystr) : nat :=
  let at_ i := nth i s 0%N in
  let n := length s in
  if Nat.eqb n 7 then 7%nat
  else if (at_ 4%nat =? 45)%N then
    if (at_ 5%nat =? 87)%N then
      if ((8 <? n)%nat && (at_ 8%nat =? 45)%N)%bool then
        if ((10 <? n)%nat && is_digit (at_ 10%nat))%bool then 8%nat else 10%nat
      else 8%nat
    else 10%nat
  else if (at_ 4%nat =? 87)%N then
    let idx := (7 + length (take_while is_digit (drop 7 s)))%nat in
    if (idx <? 9)%nat then idx else if Nat.even idx then 7%nat else 8%nat
  else 8%nat.

(** Hours, minutes, seconds, microseconds of [seg]; the boolean says that
    text remains, [more] that some follows [seg]. *)
Definition hms : Type := (list Z * Z * bool)%type.

Definition fraction (comps : list Z) (seg : pystr) (more : bool) : option hms :=
  let k := Nat.min 6 (length seg) in
  if Nat.eqb k 0 then None
  else
    '(v, r) ← parse_digits k seg;
    let us := v * 10 ^ (6 - Z.of_nat k) in
    Some (comps, us, (nonempty (drop (length (take_while is_digit r)) r) || more)%bool).

Fixpoint scan_hms (steps : nat) (first has_sep : bool) (comps : list Z) (seg : pystr)
    (more : bool) : option hms :=
  match steps with
  | O => fraction comps seg more
  | S steps =>
      '(v, r) ← parse_digits 2 seg;
      let comps := comps ++ [v] in
      match r with
      | [] => Some (comps, 0, more)
      | c :: r' =>
          let has_sep := if first then (c =? 58)%N else has_sep in
          match r' with
          | [] => Some (comps, 0, true)
          | _ =>
              if (has_sep && (c =? 58)%N)%bool then scan_hms steps false has_sep comps r' more
              else if ((c =? 46)%N || (c =? 44)%N)%bool then fraction comps r' more
              else if negb has_sep then scan_hms steps false has_sep comps r more
              else None
          end
      end
  end.

Definition parse_hms (seg : pystr) (more : bool) : option hms := scan_hms 3 true true [] seg more.

Definition comp (l : list Z) (i : nat) : Z := nth i l 0.

Definition is_offset_char (c : N) : bool := ((c =? 43) || (c =? 45) || (c =? 90))%N.

(** The time part: [Some (comps, offset)] with the offset in seconds. *)
Definition parse_time (t : pystr) : option (list Z * option Z) :=
  let seg := take_while (λ c, negb (is_offset_char c)) t in
  let rest := drop (length seg) t in
  '(comps, _, extra) ← parse_hms seg (nonempty rest);
  match rest with
  | [] => if (extra : bool) then None else Some (comps, None)
  | c :: tz =>
      if (c =? 90)%N then match tz with [] => Some (comps, Some 0) | _ => None end
      else
        '(o, _, extra) ← parse_hms tz false;
        if (extra : bool) then None
        else let secs := comp o 0 * 3600 + comp o 1 * 60 + comp o 2 in
             Some (comps, Some (if (c =? 45)%N then - secs else secs))
  end.

Definition time_in_range (comps : list Z) : bool :=
  (comp comps 0 <=? 23) && (comp comps 1 <=? 59) && (comp comps 2 <=? 59).

(** [datetime.fromisoformat(s)]: [None] is a [ValueError], [Some None] a naive
    instant, [Some (Some z)] one whose offset is [z] seconds. *)
Definition instant_offset (s : pystr) : option (option Z) :=
  if (length s <? 7)%nat then None
  else
    let n := date_separator s in
    _ ← date_fromisoformat (take n s);
    match drop n s with
    | [] => Some None
    | _ :: t =>
        '(comps, offset) ← parse_time t;
        if negb (time_in_range comps) then None
        else match offset with
             | None => Some None
             | Some z => if (-86400 <? z) && (z <? 86400) then Some (Some z) else None
             end
    end.

(** An instant whose offset is present and zero. *)
Definition instant_is_utc (s : pystr) : option bool :=
  (λ o, match o with Some z => z =? 0 | None => false end) <$> instant_offset s.

(** A text that ends in ["Z"] and names a UTC instant. *)
Definition utc_text (s : pystr) : bool :=
  match rev s with
  | c :: r => (c =? 90)%N && bool_decide (instant_is_utc (rev r ++ "+00:00") = Some true)
  | [] => false
  end.
