(* ===== verification/PyUuid.v ===== *)
(** * UUID texts.

    [uuid.UUID(text)] as CPython 3.12 reads it: the optional [urn:] and
    [uuid:] marks, braces and hyphens are dropped, 32 characters must remain
    and [int(.., 16)] must read them.  [int] tolerates surrounding space, a
    sign, an [0x] prefix, single underscores and the decimal digits of every
    script, so more texts are UUIDs than the canonical form of [Values]. *)
From S2P Require Import Prelude PyVal.

Local Open Scope N_scope.

(** [s.replace(p, "")] of a non-empty [p]: leftmost occurrences first, none
    overlapping.  [skip] characters of an occurrence are still to be dropped. *)
Fixpoint remove_from (p : pystr) (skip : nat) (s : pystr) : pystr :=
  match s with
  | [] => []
  | c :: r =>
      match skip with
      | S k => remove_from p k r
      | O => if starts_with p s then remove_from p (pred (length p)) r
             else c :: remove_from p 0 r
      end
  end.

Definition remove_all (p s : pystr) : pystr := remove_from p 0 s.

(** [s.strip("{}")] *)
Fixpoint lstrip_braces (s : pystr) : pystr :=
  match s with
  | c :: r => if (c =? 123) || (c =? 125) then lstrip_braces r else s
  | [] => []
  end.

Definition strip_braces (s : pystr) : pystr := rev (lstrip_braces (rev (lstrip_braces s))).

(** The zeros of the decimal digit runs outside ASCII (Unicode 15.0). *)
Definition digit_zeros : list N :=
  [1632; 1776; 1984; 2406; 2534; 2662; 2790; 2918; 3046; 3174; 3302; 3430; 3558; 3664; 3792;
   3872; 4160; 4240; 6112; 6160; 6470; 6608; 6784; 6800; 6992; 7088; 7232; 7248; 42528; 43216;
   43264; 43472; 43504; 43600; 44016; 65296; 66720; 68912; 69734; 69872; 69942; 70096; 70384;
   70736; 70864; 71248; 71360; 71472; 71904; 72016; 72784; 73040; 73120; 73552; 92768; 92864;
   93008; 120782; 120792; 120802; 120812; 120822; 123200; 123632; 124144; 125264; 130032].

(** A decimal digit as ASCII, another space as a space; ["?"] is no digit. *)
Definition to_ascii (c : N) : N :=
  if c <? 127 then c
  else if is_space c then 32
  else match find (λ z, (z <=? c) && (c <? z + 10)) digit_zeros with
       | Some z => 48 + (c - z)
       | None => 63
       end.

Definition is_ascii_space (c : N) : bool := ((9 <=? c) && (c <=? 13)) || (c =? 32).

Definition is_hex_any (c : N) : bool :=
  is_digit c || ((97 <=? c) && (c <=? 102)) || ((65 <=? c) && (c <=? 70)).

(** Digits with single underscores between them, then space; [last] tells
    that the previous character was a digit. *)
Fixpoint hex_digits (last : bool) (s : pystr) : bool :=
  match s with
  | [] => last
  | c :: r =>
      if is_hex_any c then hex_digits true r
      else if (c =? 95) && last then hex_digits false r
      else last && forallb is_ascii_space s
  end.

Fixpoint skip_space (s : pystr) : pystr :=
  match s with c :: r => if is_ascii_space c then skip_space r else s | [] => [] end.

Definition skip_sign (s : pystr) : pystr :=
  match s with c :: r => if (c =? 43) || (c =? 45) then r else s | [] => [] end.

(** After ["0x"] one underscore is allowed. *)
Definition skip_prefix (s : pystr) : pystr :=
  match s with
  | z :: x :: r =>
      if (z =? 48) && ((x =? 120) || (x =? 88)) then
        match r with u :: r' => if u =? 95 then r' else r | [] => [] end
      else s
  | _ => s
  end.

(** [int(s, 16)] is a number. *)
Definition reads_base16 (s : pystr) : bool :=
  let t := skip_prefix (skip_sign (skip_space (to_ascii <$> s))) in
  nonempty t && hex_digits false t.

(** [UUID(s)] does not raise. *)
Definition uuid_text (s : pystr) : bool :=
  let hex := remove_all "-" (strip_braces (remove_all "uuid:" (remove_all "urn:" s))) in
  (length hex =? 32)%nat && reads_base16 hex.
