(* ===== verification/Digest.v ===== *)
(** * SHA-256.

    [hashlib.sha256(data).hexdigest()] on a byte string (FIPS 180-4), and the
    interface the rest of the development is proved against: a function from
    byte strings to 64 lower-case hexadecimal digits.  No theorem assumes that
    the function is injective; a statement about two equal digests gives the
    two hashed texts, so a reader sees which collision would break it. *)
From S2P Require Import Prelude PyVal Values.

(** What a digest promises to the code that compares and stores it. *)
Class Digest := {
  sha256_hex : list N → pystr;
  sha256_hex_shape : ∀ data, is_sha256 (sha256_hex data) = true }.

Section words.
Local Open Scope N_scope.

Definition w32 : N := 4294967296.
Definition add32 (a b : N) : N := (a + b) mod w32.
Definition rotr (n x : N) : N := N.lor (N.shiftr x n) (N.shiftl x (32 - n) mod w32).
Definition ch (x y z : N) : N := N.lxor (N.land x y) (N.land (N.lxor x (w32 - 1)) z).
Definition maj (x y z : N) : N := N.lxor (N.land x y) (N.lxor (N.land x z) (N.land y z)).
Definition big_sigma0 (x : N) : N := N.lxor (rotr 2 x) (N.lxor (rotr 13 x) (rotr 22 x)).
Definition big_sigma1 (x : N) : N := N.lxor (rotr 6 x) (N.lxor (rotr 11 x) (rotr 25 x)).
Definition small_sigma0 (x : N) : N := N.lxor (rotr 7 x) (N.lxor (rotr 18 x) (N.shiftr x 3)).
Definition small_sigma1 (x : N) : N := N.lxor (rotr 17 x) (N.lxor (rotr 19 x) (N.shiftr x 10)).

(** The largest [r] below [2^36] with [r ^ k <= n], bit by bit. *)
Definition integer_root (k n : N) : N :=
  foldl (λ r i, let c := r + 2 ^ i in if c ^ k <=? n then c else r) 0
    (N.of_nat <$> rev (seq 0 36)).

Definition is_prime (p : nat) : bool :=
  forallb (λ d, negb (Nat.modulo p d =? 0)%nat) (seq 2 (p - 2)).

Definition first_primes (k : nat) : list N :=
  N.of_nat <$> take k (List.filter is_prime (seq 2 310)).

(** The first 32 bits of the fractional parts of the cube roots of the
    first 64 primes, and of the square roots of the first 8. *)
Definition round_constants : list N :=
  Eval vm_compute in (λ p, integer_root 3 (p * 2 ^ 96) mod 2 ^ 32) <$> first_primes 64.

Definition initial_hash : list N :=
  Eval vm_compute in (λ p, integer_root 2 (p * 2 ^ 64) mod 2 ^ 32) <$> first_primes 8.

(** Big-endian words of a byte string. *)
Fixpoint words_of (bs : list N) : list N :=
  match bs with
  | a :: b :: c :: d :: r => (a * 16777216 + b * 65536 + c * 256 + d) :: words_of r
  | _ => []
  end.

(** The message schedule, most recent word first. *)
Fixpoint extend (n : nat) (rev_w : list N) : list N :=
  match n with
  | O => rev_w
  | S n =>
      let at_ i := nth i rev_w 0 in
      let w := add32 (add32 (small_sigma1 (at_ 1%nat)) (at_ 6%nat))
                     (add32 (small_sigma0 (at_ 14%nat)) (at_ 15%nat)) in
      extend n (w :: rev_w)
  end.

Fixpoint rounds (ks ws : list N) (a b c d e f g h : N) : list N :=
  match ks, ws with
  | k :: ks, w :: ws =>
      let t1 := add32 (add32 h (add32 (big_sigma1 e) (ch e f g))) (add32 k w) in
      let t2 := add32 (big_sigma0 a) (maj a b c) in
      rounds ks ws (add32 t1 t2) a b c (add32 d t1) e f g
  | _, _ => [a; b; c; d; e; f; g; h]
  end.

Definition compress (hash : list N) (block : list N) : list N :=
  let ws := rev (extend 48 (rev (words_of block))) in
  match hash with
  | [a; b; c; d; e; f; g; h] => zip_with add32 hash (rounds round_constants ws a b c d e f g h)
  | _ => hash
  end.

Fixpoint be_bytes (k : nat) (n : N) : list N :=
  match k with O => [] | S k => be_bytes k (n / 256) ++ [n mod 256] end.

(** Padding to a multiple of 64 bytes with the bit length at the end. *)
Definition pad (bs : list N) : list N :=
  let len := length bs in
  let zeros := Nat.modulo (119 - Nat.modulo len 64) 64 in
  bs ++ [128] ++ replicate zeros 0 ++ be_bytes 8 (8 * N.of_nat len).

Fixpoint fold_blocks (n : nat) (hash bs : list N) : list N :=
  match n with
  | O => hash
  | S n => fold_blocks n (compress hash (take 64 bs)) (drop 64 bs)
  end.

Definition sha256_words (bs : list N) : list N :=
  let p := pad bs in fold_blocks (Nat.div (length p) 64) initial_hash p.

Definition hex_word (w : N) : pystr :=
  concat ((λ b, [hex_digit (b / 16 mod 16); hex_digit (b mod 16)]) <$> be_bytes 4 w).

Definition sha256_digest (bs : list N) : pystr := concat (hex_word <$> sha256_words bs).
End words.

Example sha256_abc :
  sha256_digest "abc" = "ba7816bf8f01cfea414140de5dae2223b00361a396177a9cb410ff61f20015ad".
Proof. vm_compute. reflexivity. Qed.

Lemma rounds_length ks ws a b c d e f g h : length (rounds ks ws a b c d e f g h) = 8%nat.
Proof.
  revert ws a b c d e f g h. induction ks as [|k ks IH]; intros ws *; [done|].
  destruct ws; [done|]. apply IH.
Qed.

Lemma compress_length hash block : length hash = 8%nat → length (compress hash block) = 8%nat.
Proof.
  unfold compress. intros H. do 9 (destruct hash as [|? hash]; try done).
  by rewrite length_zip_with, rounds_length.
Qed.

Lemma fold_blocks_length n hash bs :
  length hash = 8%nat → length (fold_blocks n hash bs) = 8%nat.
Proof.
  revert hash bs. induction n as [|n IH]; intros hash bs H; [done|].
  apply IH. by apply compress_length.
Qed.

Lemma is_hex_digit n : (n < 16)%N → is_hex (hex_digit n) = true.
Proof.
  intros Hn. unfold hex_digit, is_hex, is_digit.
  destruct (N.ltb_spec n 10); apply orb_true_iff; [left|right];
    apply andb_true_iff; split; apply N.leb_le; lia.
Qed.

Lemma hex_word_shape w : length (hex_word w) = 8%nat ∧ forallb is_hex (hex_word w) = true.
Proof.
  unfold hex_word. cbn [be_bytes app fmap list_fmap concat length]. split; [done|].
  cbn [forallb]. by rewrite !is_hex_digit by (apply N.mod_lt; lia).
Qed.

Lemma sha256_digest_shape bs : is_sha256 (sha256_digest bs) = true.
Proof.
  unfold sha256_digest, is_sha256, py_len.
  assert (Hl : length (sha256_words bs) = 8%nat) by by apply fold_blocks_length.
  assert (H : ∀ ws, length (concat (hex_word <$> ws)) = (8 * length ws)%nat
                    ∧ forallb is_hex (concat (hex_word <$> ws)) = true).
  { induction ws as [|w ws [IHl IHh]]; [done|]. rewrite fmap_cons. cbn [concat length].
    destruct (hex_word_shape w) as [Hw1 Hw2].
    rewrite length_app, forallb_app, Hw1, Hw2, IHl. split; [lia|exact IHh]. }
  destruct (H (sha256_words bs)) as [H1 ->]. rewrite H1, Hl. done.
Qed.

Definition Sha256 : Digest :=
  {| sha256_hex := sha256_digest; sha256_hex_shape := sha256_digest_shape |}.

(** A polynomial checksum of the same shape: a second model of the interface,
    cheap enough to evaluate concrete runs of the programs that hash. *)
Definition checksum (data : list N) : N :=
  foldl (λ h b, (h * 257 + b + 1) mod 4294967296)%N 7%N data.

Definition checksum_digest (data : list N) : pystr :=
  concat ((λ b, [hex_digit (b / 16 mod 16); hex_digit (b mod 16)]%N) <$> be_bytes 32 (checksum data)).

Lemma be_bytes_length k n : length (be_bytes k n) = k.
Proof. revert n. induction k as [|k IH]; intros n; [done|]. cbn. rewrite length_app, IH. simpl. lia. Qed.

Lemma checksum_digest_shape data : is_sha256 (checksum_digest data) = true.
Proof.
  unfold checksum_digest, is_sha256, py_len.
  assert (H : ∀ bs, length (concat ((λ b, [hex_digit (b / 16 mod 16); hex_digit (b mod 16)]%N) <$> bs))
                      = (2 * length bs)%nat
                    ∧ forallb is_hex (concat
                        ((λ b, [hex_digit (b / 16 mod 16); hex_digit (b mod 16)]%N) <$> bs)) = true).
  { induction bs as [|b bs [IHl IHh]]; [done|]. rewrite fmap_cons. cbn [concat app length forallb].
    rewrite IHl, IHh, !is_hex_digit by (apply N.mod_lt; lia). split; [lia|done]. }
  destruct (H (be_bytes 32 (checksum data))) as [H1 ->]. rewrite H1, be_bytes_length. done.
Qed.

Definition Checksum : Digest :=
  {| sha256_hex := checksum_digest; sha256_hex_shape := checksum_digest_shape |}.
