(* ===== verification/RulePack.v ===== *)
(** * Rule-pack snapshots and provenance hashes.

    [domain/rulepacks.py]: the canonical encoding, the semantic content hash
    and the self-verifying [RulePackSnapshot]; [domain/provenance.py]: the
    hashes that identify a model request and a decision.  A validated pack
    has string metadata, so [str(..)] of its fields is the field. *)
From S2P Require Import Prelude PyVal JsonCodec Values Digest.

(* ------------------------------------------------------------------ *)
(** ** Canonical encoding and hashes *)
(* ------------------------------------------------------------------ *)

(** [except (TypeError, ValueError)] *)
Definition type_or_value_error (e : exn) : bool :=
  is_value_error e || bool_decide (e = TypeError).

(** [domain/rulepacks.py:34-47 canonical_json] *)
Definition canonical_json (value : pyval) : result pystr :=
  catch type_or_value_error (json_dumps value) (λ _, Raise DomainValidationError).

(** [domain/rulepacks.py:25-31 MANIFEST_HASH_FIELDS] *)
Definition MANIFEST_HASH_FIELDS : list pystr :=
  ["version"; "ontology_version"; "source_document_sha256"; "mode"; "effective_date"].

(** [pack.get(k)] as a value: [None] when the key is missing. *)
Definition get_or_none (d : pydict) (k : pystr) : pyval := default PNone (dict_get k d).

(** What [pack_content_hash] reads of a pack mapping: the five identity
    fields, the file set and the unresolved gap ids. *)
Record Manifest : Set := {
  m_version : pystr; m_ontology_version : pystr; m_source_document_sha256 : pystr;
  m_mode : pystr; m_effective_date : pystr;
  m_files : list pystr; m_unresolved_gap_ids : list pystr }.

(** [domain/rulepacks.py:55-57 pack_content_hash] *)
Definition manifest_val (m : Manifest) : pyval :=
  PDict [("version", PStr (m_version m));
         ("ontology_version", PStr (m_ontology_version m));
         ("source_document_sha256", PStr (m_source_document_sha256 m));
         ("mode", PStr (m_mode m));
         ("effective_date", PStr (m_effective_date m));
         ("files", PList (PStr <$> str_sort (m_files m)));
         ("unresolved_gap_ids", PList (PStr <$> str_sort (m_unresolved_gap_ids m)))].

(** [json.loads(canonical_json(value))] *)
Definition reencode (value : pyval) : result pyval :=
  text ← canonical_json value; json_loads text.

(** [for path in sorted(files_content.keys())] *)
Definition sorted_items {A} (d : list (pystr * A)) : list (pystr * A) := isort key_leb d.

(** [domain/rulepacks.py:58-64 pack_content_hash] *)
Definition envelope_of (manifest : pyval) (files_content : pydict) : result pyval :=
  manifest ← reencode manifest;
  files ← map_result (λ '(path, value), v ← reencode value; Ok (path, v))
            (sorted_items files_content);
  Ok (PDict [("manifest", manifest); ("files", PDict files)]).

(** [domain/rulepacks.py:50-65 pack_content_hash] *)
Definition pack_envelope (m : Manifest) (files_content : pydict) : result pyval :=
  envelope_of (manifest_val m) files_content.

Section hashes.
Context `{Digest}.

(** [hashlib.sha256(text.encode("ascii")).hexdigest()]; the canonical
    encoding is ASCII, so its bytes are its code points.
    [domain/provenance.py:15-17 canonical_hash] *)
Definition canonical_hash (value : pyval) : result pystr :=
  text ← canonical_json value; Ok (sha256_hex text).

(** [domain/rulepacks.py:50-65 pack_content_hash] *)
Definition pack_content_hash (m : Manifest) (files_content : pydict) : result pystr :=
  envelope ← pack_envelope m files_content; canonical_hash envelope.

(* ------------------------------------------------------------------ *)
(** ** Snapshots *)
(* ------------------------------------------------------------------ *)

(** [domain/rulepacks.py:68-90 RulePackSnapshot] *)
Record RulePackSnapshot : Set := {
  rule_pack_id : pystr;
  tenant_id : pystr;
  version : pystr;
  effective_date : pystr;
  mode : pystr;
  status : pystr;
  ontology_version : pystr;
  source_document_sha256 : pystr;
  sha256 : pystr;
  files : list pystr;
  unresolved_gap_ids : list pystr;
  approved_by : option pystr;
  approved_at : option pystr;
  content : list (pystr * pystr) }.

(** [domain/rulepacks.py:107-118 RulePackSnapshot.__post_init__] *)
Definition snapshot_manifest (s : RulePackSnapshot) : Manifest :=
  {| m_version := version s; m_ontology_version := ontology_version s;
     m_source_document_sha256 := source_document_sha256 s; m_mode := mode s;
     m_effective_date := effective_date s; m_files := files s;
     m_unresolved_gap_ids := unresolved_gap_ids s |}.

(** [domain/rulepacks.py:106 RulePackSnapshot.__post_init__] *)
Definition rebuilt_content (s : RulePackSnapshot) : result pydict :=
  pairs ← map_result (λ '(path, payload), v ← json_loads payload; Ok (path, v)) (content s);
  Ok (dict_of pairs).

(** The constructor: the checks of [__post_init__] on a record of the fields.
    [domain/rulepacks.py:92-123 RulePackSnapshot.__post_init__] *)
Definition mk_snapshot (s : RulePackSnapshot) : result RulePackSnapshot :=
  let paths := (content s).*1 in
  _ ← require (bool_decide (str_sort paths = str_sort (files s))) DomainValidationError;
  rebuilt ← rebuilt_content s;
  digest ← pack_content_hash (snapshot_manifest s) rebuilt;
  _ ← require (digest =s? sha256 s) DomainValidationError;
  Ok s.

(** [domain/rulepacks.py:125-133 RulePackSnapshot.file_content] *)
Definition file_content (s : RulePackSnapshot) (path : pystr) : result pydict :=
  payload ← of_option KeyError (dict_get path (content s));
  parsed ← json_loads payload;
  as_dict DomainValidationError parsed.

(** [domain/rulepacks.py:136-164 snapshot_from_validated]: [pack] carries the
    validated metadata, its [content] field is what this function computes. *)
Definition snapshot_from_validated (pack : RulePackSnapshot) (files_content : pydict)
    : result RulePackSnapshot :=
  frozen ← map_result (λ '(path, value), text ← canonical_json value; Ok (path, text))
             (sorted_items files_content);
  mk_snapshot
    {| rule_pack_id := rule_pack_id pack; tenant_id := tenant_id pack;
       version := version pack; effective_date := effective_date pack; mode := mode pack;
       status := status pack; ontology_version := ontology_version pack;
       source_document_sha256 := source_document_sha256 pack; sha256 := sha256 pack;
       files := files pack; unresolved_gap_ids := unresolved_gap_ids pack;
       approved_by := approved_by pack; approved_at := approved_at pack;
       content := frozen |}.

(* ------------------------------------------------------------------ *)
(** ** Provenance *)
(* ------------------------------------------------------------------ *)

(** [domain/provenance.py:20-23 _required_text] *)
Definition required_text (value : pyval) : result pystr :=
  s ← as_str DomainValidationError value;
  _ ← require (nonempty s) DomainValidationError;
  Ok s.

(** [float(temperature)] is finite.
    [domain/provenance.py:44-47 request_signature] *)
Definition require_finite (value : pyval) : result unit :=
  number ← match value with
           | PInt z => PyFloat.of_Z z
           | PFloat f => Ok f
           | _ => Raise DomainValidationError
           end;
  require (PyFloat.is_finite number) DomainValidationError.

(** [domain/provenance.py:59-61 request_signature] *)
Definition require_positive (value : pyval) : result Z :=
  z ← require_strict_int value;
  _ ← reject (z <? 1)%Z DomainValidationError;
  Ok z.

(** [domain/provenance.py:26-77 request_signature] *)
Definition request_signature (temperature model_id model_profile prompt_sha256 schema_sha256
    packet_sha256 tools max_tokens replicate_id extraction_epoch : pyval) : result pystr :=
  _ ← require_finite temperature;
  _ ← required_text model_id;
  _ ← required_text model_profile;
  _ ← require_sha256 prompt_sha256;
  _ ← require_sha256 schema_sha256;
  _ ← require_sha256 packet_sha256;
  tool_list ← as_seq DomainValidationError tools;
  _ ← require (forallb (λ t, match t with PDict _ => true | _ => false end) tool_list)
        DomainValidationError;
  _ ← require_positive max_tokens;
  rid ← require_positive replicate_id;
  _ ← require_positive extraction_epoch;
  _ ← require (existsb (Z.eqb rid) [1; 2; 3]%Z) DomainValidationError;
  canonical_hash
    (PDict [("temperature", temperature); ("model_id", model_id);
            ("model_profile", model_profile); ("prompt_sha256", prompt_sha256);
            ("schema_sha256", schema_sha256); ("packet_sha256", packet_sha256);
            ("tools", PList tool_list); ("max_tokens", max_tokens);
            ("replicate_id", replicate_id); ("extraction_epoch", extraction_epoch)]).

(** [domain/provenance.py:80-91 provenance_hash] *)
Definition provenance_hash (semantic_hash actor_id occurred_at : pyval) : result pystr :=
  _ ← require_sha256 semantic_hash;
  _ ← required_text actor_id;
  _ ← required_text occurred_at;
  canonical_hash
    (PDict [("semantic_hash", semantic_hash); ("actor_id", actor_id);
            ("occurred_at", occurred_at)]).
End hashes.

(* ------------------------------------------------------------------ *)
(** ** Lemmas *)
(* ------------------------------------------------------------------ *)

Lemma canonical_json_Ok v t : canonical_json v = Ok t ↔ json_dumps v = Ok t.
Proof.
  unfold canonical_json. rewrite catch_Ok. split; [|by left].
  by intros [?|(? & _ & _ & ?)].
Qed.

Lemma json_dumps_raises v : raises (λ e, is_value_error e = true) (json_dumps v).
Proof.
  induction v as [| |z|f| |l IH|l IH|d IH] using pyval_nested_ind; try done.
  - cbn [json_dumps]. by destruct (_ <? _)%Z.
  - cbn [json_dumps]. by destruct (PyFloat.is_finite f).
  - rewrite json_dumps_list. apply raises_bind; [|done].
    apply raises_map_result. by apply Forall_forall.
  - change (json_dumps (PTuple l)) with (json_dumps (PList l)). rewrite json_dumps_list.
    apply raises_bind; [|done]. apply raises_map_result. by apply Forall_forall.
  - rewrite json_dumps_dict. apply raises_bind; [|done].
    apply raises_map_result. intros [k x] Hx. rewrite Forall_forall in IH.
    apply raises_bind; [apply (IH (k, x)); done|done].
Qed.

(** The encoder's only failure is the domain error. *)
Lemma canonical_json_raises v : raises (λ e, e = DomainValidationError) (canonical_json v).
Proof.
  unfold canonical_json. pose proof (json_dumps_raises v) as H.
  destruct (json_dumps v) as [t|e]; [done|]. simpl in *. unfold type_or_value_error. by rewrite H.
Qed.

Lemma reencode_clean v t :
  json_clean v = true → canonical_json v = Ok t → reencode v = Ok (canon v).
Proof.
  intros Hc Ht. unfold reencode. rewrite Ht. apply canonical_json_Ok in Ht.
  by apply json_roundtrip.
Qed.

Lemma reencode_Ok_clean v w : json_clean v = true → reencode v = Ok w → w = canon v.
Proof.
  intros Hc H. unfold reencode in H. apply bind_Ok_inv in H as (t & Ht & Hl).
  apply canonical_json_Ok in Ht. rewrite (json_roundtrip v t) in Hl by done. congruence.
Qed.

Lemma reencode_canon v : json_clean v = true → is_ok (reencode v) = true →
  reencode (canon v) = Ok (canon v).
Proof.
  intros Hc Hr. destruct (reencode v) as [w|] eqn:E; [|done].
  unfold reencode in E. apply bind_Ok_inv in E as (t & Ht & _).
  apply canonical_json_Ok in Ht.
  rewrite (reencode_clean (canon v) t), canon_idem; [done|by apply json_clean_canon|].
  by apply canonical_json_Ok, json_dumps_canon.
Qed.

Lemma is_sha256_scalar s : is_sha256 s = true → scalar_str s = true.
Proof.
  unfold is_sha256, scalar_str. intros [_ Hh]%andb_true_iff. rewrite forallb_forall in *.
  intros c Hc. specialize (Hh c Hc). unfold is_hex, is_digit in Hh. unfold scalar.
  rewrite !orb_true_iff, !andb_true_iff, ?N.leb_le, ?N.ltb_lt in *. lia.
Qed.

Definition clean_files (fc : pydict) : Prop :=
  Forall (λ kv, scalar_str kv.1 = true ∧ json_clean kv.2 = true) fc.

(** The parsed envelope in closed form. *)
Lemma pack_envelope_Ok m fc env :
  json_clean (manifest_val m) = true → clean_files fc → pack_envelope m fc = Ok env →
  env = PDict [("manifest", canon (manifest_val m));
               ("files", PDict (canon_member <$> sorted_items fc))].
Proof.
  intros Hm Hf H. unfold pack_envelope, envelope_of in H. open_run H. injection H as <-.
  match goal with H : reencode _ = Ok _ |- _ => apply reencode_Ok_clean in H as ->; [|done] end.
  match goal with H : map_result _ _ = Ok ?fs |- _ =>
    enough (fs = canon_member <$> sorted_items fc) as -> by done; apply map_result_Ok in H;
    rename H into Hr end.
  assert (Hs : clean_files (sorted_items fc)) by by apply isort_Forall.
  unfold clean_files in Hs. induction Hr as [|[k v] kv l fs Hkv Hr IH]; [done|].
  inversion_clear Hs as [|?? [_ Hv] ?]. apply bind_Ok_inv in Hkv as (w & Hw & [= <-]).
  apply reencode_Ok_clean in Hw as ->; [|done]. cbn. by rewrite IH.
Qed.

(** Re-encoding canonical files succeeds and gives the same envelope. *)
Lemma pack_envelope_canon m fc env :
  clean_files fc → pack_envelope m fc = Ok env →
  pack_envelope m (canon_member <$> sorted_items fc) = Ok env.
Proof.
  intros Hf H. unfold pack_envelope, envelope_of in *. open_run H. injection H as <-.
  match goal with H : reencode (manifest_val m) = _ |- _ => rewrite H end. simpl.
  assert (Hs : sorted_items (canon_member <$> sorted_items fc) = canon_member <$> sorted_items fc).
  { unfold sorted_items. change (canon_member <$> ?l) with (map canon_member l).
    by rewrite isort_map, isort_key_idem. }
  rewrite Hs. clear Hs.
  match goal with H : map_result _ _ = Ok ?fs |- _ =>
    enough (map_result (λ '(path, value), v ← reencode value; Ok (path, v))
              (canon_member <$> sorted_items fc) = Ok fs) as -> by done;
    apply map_result_Ok in H; apply map_result_Ok; rename H into Hr end.
  assert (Hs : clean_files (sorted_items fc)) by by apply isort_Forall.
  unfold clean_files in Hs. induction Hr as [|[k v] kv l fs Hkv Hr IH]; [constructor|].
  inversion_clear Hs as [|?? [_ Hv] ?]. apply bind_Ok_inv in Hkv as (w & Hw & [= <-]).
  cbn. constructor; [|by apply IH]. unfold canon_member. cbn [fst snd] in *.
  rewrite reencode_canon; [|done|by rewrite Hw].
  apply reencode_Ok_clean in Hw as ->; [|done]. done.
Qed.

Section properties.
Context `{Digest}.

Lemma loads_frozen l fl :
  clean_files l →
  map_result (λ '(path, value), text ← canonical_json value; Ok (path, text)) l = Ok fl →
  map_result (λ '(path, payload), v ← json_loads payload; Ok (path, v)) fl
  = Ok (canon_member <$> l) ∧ fl.*1 = l.*1.
Proof.
  intros Hc Hm%map_result_Ok. rewrite map_result_Ok. unfold clean_files in Hc.
  induction Hm as [|[k v] kt l fl Hkt Hm IH]; [split; [constructor|done]|].
  inversion_clear Hc as [|?? [_ Hv] Hc']. destruct (IH Hc') as [IH1 IH2].
  apply bind_Ok_inv in Hkt as (t & Ht%canonical_json_Ok & [= <-]). split.
  - rewrite fmap_cons. constructor; [|done].
    unfold canon_member. cbn [fst snd] in *. by rewrite (json_roundtrip v t).
  - cbn. by rewrite IH2.
Qed.

(** Freezing succeeds whenever the content hash could be computed. *)
Lemma freeze_ok m fc env :
  pack_envelope m fc = Ok env →
  is_ok (map_result (λ '(path, value), text ← canonical_json value; Ok (path, text))
           (sorted_items fc)) = true.
Proof.
  unfold pack_envelope, envelope_of. intros H1. open_run H1. clear H1 H0.
  match goal with H : map_result _ _ = Ok ?fs |- _ => apply map_result_Ok in H; rename H into Hr end.
  induction Hr as [|[k v] kv l fs Hkv Hr IH]; [done|]. cbn [map_result].
  apply bind_Ok_inv in Hkv as (w & Hw & _). unfold reencode in Hw.
  apply bind_Ok_inv in Hw as (t & -> & _). cbn [mbind result_bind].
  by destruct (map_result _ l).
Qed.

Lemma canonical_hash_fun v h1 h2 :
  canonical_hash v = Ok h1 → canonical_hash v = Ok h2 → h1 = h2.
Proof. congruence. Qed.

(** A lookup in the frozen content follows the lookup in the source mapping. *)
Lemma frozen_lookup fc fl path v :
  NoDup fc.*1 → clean_files (sorted_items fc) →
  map_result (λ '(path, value), text ← canonical_json value; Ok (path, text)) (sorted_items fc)
    = Ok fl →
  dict_get path fc = Some v →
  ∃ t, dict_get path fl = Some t ∧ json_loads t = Ok (canon v).
Proof.
  intros Hnd Hcs Hfl Hv%dict_get_Some_in.
  assert (Hin : (path, v) ∈ sorted_items fc) by (unfold sorted_items; by rewrite isort_perm).
  destruct (loads_frozen _ _ Hcs Hfl) as [_ Hkeys].
  assert (Hnds : NoDup fl.*1) by (rewrite Hkeys; by apply isort_keys_NoDup).
  apply map_result_Ok in Hfl. apply list_elem_of_lookup in Hin as [i Hi].
  destruct (Forall2_lookup_l _ _ _ _ _ Hfl Hi) as ([p t] & Hlk & Hpt).
  apply bind_Ok_inv in Hpt as (t' & Ht'%canonical_json_Ok & [= <- <-]).
  exists t'. split.
  - apply dict_get_NoDup; [done|]. by eapply list_elem_of_lookup_2.
  - apply json_roundtrip; [|done]. unfold clean_files in Hcs.
    rewrite Forall_lookup in Hcs. by apply (Hcs i (path, v)).
Qed.

(** Freezing a validated pack whose recorded hash is its content hash
    succeeds, and every mapping file is then read back unchanged up to the
    canonical order of its keys; an unknown path is a [KeyError]. *)
Theorem snapshot_reads_back pack fc :
  NoDup fc.*1 → clean_files fc →
  str_sort (files pack) = str_sort fc.*1 →
  pack_content_hash (snapshot_manifest pack) fc = Ok (sha256 pack) →
  ∃ s, snapshot_from_validated pack fc = Ok s
    ∧ sha256 s = sha256 pack
    ∧ (∀ path d, dict_get path fc = Some (PDict d) →
         file_content s path = Ok (canon_member <$> sorted_items d))
    ∧ (∀ path, path ∉ fc.*1 → file_content s path = Raise KeyError).
Proof.
  intros Hnd Hc Hfiles Hh. unfold pack_content_hash in Hh.
  apply bind_Ok_inv in Hh as (env & Henv & Hh).
  assert (Hcs : clean_files (sorted_items fc)) by by apply isort_Forall.
  pose proof (freeze_ok _ _ _ Henv) as Hok.
  unfold snapshot_from_validated.
  destruct (map_result (λ '(path, value), _) (sorted_items fc)) as [fl|] eqn:Hfl; [|done].
  destruct (loads_frozen _ _ Hcs Hfl) as [Hloads Hkeys].
  assert (Hnds : NoDup (sorted_items fc).*1) by by apply isort_keys_NoDup.
  cbn [mbind result_bind]. unfold mk_snapshot. cbn [content files sha256].
  rewrite bool_decide_eq_true_2.
  2:{ rewrite Hkeys, Hfiles. apply StronglySorted_perm_eq; try apply str_sort_sorted.
      unfold str_sort. rewrite !isort_perm. unfold sorted_items. by rewrite isort_perm. }
  cbn [require mbind result_bind]. unfold rebuilt_content. cbn [content]. rewrite Hloads.
  cbn [mbind result_bind]. rewrite dict_of_NoDup.
  2:{ by rewrite <- list_fmap_compose. }
  unfold snapshot_manifest in *. cbn in *. unfold pack_content_hash.
  rewrite (pack_envelope_canon _ _ _ Hc Henv). cbn [mbind result_bind]. rewrite Hh.
  cbn [mbind result_bind]. rewrite str_eqb_refl. cbn [require mbind result_bind].
  eexists. split; [done|]. split; [done|].
  unfold file_content. cbn [content]. split.
  - intros path d Hd. destruct (frozen_lookup _ _ _ _ Hnd Hcs Hfl Hd) as (t & -> & Hl). simpl. rewrite Hl.
    by rewrite canon_dict.
  - intros path Hp. destruct (dict_get path fl) eqn:E; [|done].
    exfalso. apply Hp. apply dict_get_Some_in in E.
    assert (Hin : path ∈ fl.*1) by (apply list_elem_of_fmap; by exists (path, l)).
    rewrite Hkeys in Hin. unfold sorted_items in Hin. by rewrite isort_perm in Hin.
Qed.
(** The text a snapshot's hash is computed from. *)
Definition snapshot_text (s : RulePackSnapshot) : result pystr :=
  rebuilt ← rebuilt_content s;
  env ← pack_envelope (snapshot_manifest s) rebuilt;
  canonical_json env.

Lemma mk_snapshot_text s s' :
  mk_snapshot s = Ok s' → ∃ t, snapshot_text s = Ok t ∧ sha256_hex t = sha256 s.
Proof.
  unfold mk_snapshot, snapshot_text. intros Hs. open_run Hs.
  match goal with H : rebuilt_content _ = Ok _ |- _ => rewrite H end. cbn [mbind result_bind].
  match goal with H : pack_content_hash _ _ = Ok _ |- _ => unfold pack_content_hash in H; open_run H end.
  match goal with H : pack_envelope _ _ = Ok _ |- _ => rewrite H end. cbn [mbind result_bind].
  match goal with H : canonical_hash _ = Ok _ |- _ =>
    unfold canonical_hash in H; open_run H; injection H as <- end.
  match goal with H : require _ _ = Ok _ |- context [sha256 s] =>
    apply require_Ok, str_eqb_eq in H end. eauto.
Qed.

Definition envelope_val (m : Manifest) (fc : pydict) : pyval :=
  PDict [("manifest", canon (manifest_val m));
         ("files", PDict (canon_member <$> sorted_items fc))].

Lemma envelope_clean m fc :
  json_clean (manifest_val m) = true → clean_files fc → NoDup fc.*1 →
  json_clean (envelope_val m fc) = true.
Proof.
  intros Hm Hf Hnd. apply json_clean_dict. split.
  { apply str_distinct_iff. vm_compute. reflexivity. }
  constructor; [split; [done|by apply json_clean_canon]|].
  constructor; [split; [done|]|constructor].
  cbn [snd]. unfold sorted_items. rewrite <- canon_dict. by apply json_clean_canon, json_clean_dict.
Qed.

Lemma map_canon_strs (l : list pystr) : map canon (PStr <$> l) = PStr <$> l.
Proof. induction l as [|x l IH]; [done|]. cbn. f_equal. exact IH. Qed.

Lemma canon_manifest m :
  canon (manifest_val m) =
  PDict [("effective_date", PStr (m_effective_date m));
         ("files", PList (PStr <$> str_sort (m_files m)));
         ("mode", PStr (m_mode m));
         ("ontology_version", PStr (m_ontology_version m));
         ("source_document_sha256", PStr (m_source_document_sha256 m));
         ("unresolved_gap_ids", PList (PStr <$> str_sort (m_unresolved_gap_ids m)));
         ("version", PStr (m_version m))].
Proof.
  rewrite <- (map_canon_strs (str_sort (m_files m))),
    <- (map_canon_strs (str_sort (m_unresolved_gap_ids m))). reflexivity.
Qed.

Lemma PStr_map_inj (l k : list pystr) : PStr <$> l = PStr <$> k → l = k.
Proof. apply list_fmap_eq_inj. by intros ?? [= ->]. Qed.

(** Equal canonical envelopes come from equal metadata and equal files. *)
Lemma envelope_inj m1 m2 f1 f2 :
  canon (envelope_val m1 f1) = canon (envelope_val m2 f2) →
  manifest_val m1 = manifest_val m2 ∧ canon (PDict f1) = canon (PDict f2).
Proof.
  assert (He : ∀ m fc, canon (envelope_val m fc)
                = PDict [("files", canon (canon (PDict fc)));
                         ("manifest", canon (canon (manifest_val m)))]).
  { intros m fc. rewrite (canon_dict fc). reflexivity. }
  rewrite !He, !canon_idem. clear He. intros Heq.
  assert (canon (PDict f1) = canon (PDict f2)
          ∧ canon (manifest_val m1) = canon (manifest_val m2)) as [Hf Hm].
  { revert Heq. generalize (canon (PDict f1)) (canon (PDict f2))
      (canon (manifest_val m1)) (canon (manifest_val m2)). by intros ???? [= -> ->]. }
  split; [|exact Hf]. rewrite !canon_manifest in Hm.
  injection Hm as Hed Hfs Hmo Hon Hso Hga Hve.
  apply PStr_map_inj in Hfs, Hga. unfold manifest_val. by rewrite Hed, Hfs, Hmo, Hon, Hso, Hga, Hve.
Qed.

(** The recorded hash binds the pack: two accepted snapshots with the
    same [sha256] agree on every hashed metadata field, on the file set and
    on the content of every file -- unless the two encodings are an explicit
    SHA-256 collision. *)
Theorem snapshot_sha_binds s1 s2 s1' s2' r1 r2 :
  mk_snapshot s1 = Ok s1' → mk_snapshot s2 = Ok s2' →
  rebuilt_content s1 = Ok r1 → rebuilt_content s2 = Ok r2 →
  json_clean (manifest_val (snapshot_manifest s1)) = true → clean_files r1 → NoDup r1.*1 →
  json_clean (manifest_val (snapshot_manifest s2)) = true → clean_files r2 → NoDup r2.*1 →
  sha256 s1 = sha256 s2 →
  (∃ t1 t2, snapshot_text s1 = Ok t1 ∧ snapshot_text s2 = Ok t2
            ∧ t1 ≠ t2 ∧ sha256_hex t1 = sha256_hex t2)
  ∨ (manifest_val (snapshot_manifest s1) = manifest_val (snapshot_manifest s2)
     ∧ canon (PDict r1) = canon (PDict r2)).
Proof.
  intros H1 H2 Hr1 Hr2 Hm1 Hc1 Hn1 Hm2 Hc2 Hn2 Hsha.
  destruct (mk_snapshot_text _ _ H1) as (t1 & Ht1 & Hh1).
  destruct (mk_snapshot_text _ _ H2) as (t2 & Ht2 & Hh2).
  destruct (decide (t1 = t2)) as [<-|Hne].
  2:{ left. exists t1, t2. split_and!; [done|done|done|congruence]. }
  right. unfold snapshot_text in Ht1, Ht2. rewrite Hr1 in Ht1. rewrite Hr2 in Ht2.
  cbn [mbind result_bind] in Ht1, Ht2. open_run Ht1. open_run Ht2.
  match goal with H : pack_envelope _ r1 = Ok _ |- _ => apply pack_envelope_Ok in H as -> end; try done.
  match goal with H : pack_envelope _ r2 = Ok _ |- _ => apply pack_envelope_Ok in H as -> end; try done.
  apply canonical_json_Ok in Ht1, Ht2.
  apply (envelope_inj _ _ r1 r2).
  exact (json_dumps_inj _ _ _ (envelope_clean _ _ Hm1 Hc1 Hn1)
    (envelope_clean _ _ Hm2 Hc2 Hn2) Ht1 Ht2).
Qed.
End properties.

(** A small pack: one rule file with unsorted keys. *)
Definition sample_files : pydict :=
  [("rubric/goal.yaml", PDict [("version", PStr "v1"); ("branches", PList [PInt 1])])].

Definition sample_pack_fields (sha : pystr) : RulePackSnapshot :=
  {| rule_pack_id := "rp"; tenant_id := "0f8fad5b-d9cb-469f-a165-70867728950e";
     version := "v1"; effective_date := "2026-01-01"; mode := "disclosure"; status := "active";
     ontology_version := "o1"; source_document_sha256 := "s"; sha256 := sha;
     files := ["rubric/goal.yaml"]; unresolved_gap_ids := []; approved_by := Some "u";
     approved_at := Some "t"; content := [] |}.

Definition sample_pack : RulePackSnapshot :=
  sample_pack_fields
    (match pack_content_hash (H := Checksum) (snapshot_manifest (sample_pack_fields [])) sample_files with
     | Ok h => h | Raise _ => [] end).

Lemma snapshot_reads_back_witness :
  ∃ s, snapshot_from_validated (H := Checksum) sample_pack sample_files = Ok s
    ∧ file_content s "rubric/goal.yaml"
      = Ok [("branches", PList [PInt 1]); ("version", PStr "v1")].
Proof.
  destruct (snapshot_reads_back (H := Checksum) sample_pack sample_files) as (s & Hs & _ & Hf & _).
  - apply NoDup_singleton.
  - repeat constructor.
  - reflexivity.
  - vm_compute. reflexivity.
  - exists s. split; [exact Hs|].
    rewrite (Hf "rubric/goal.yaml" [("version", PStr "v1"); ("branches", PList [PInt 1])]);
      reflexivity.
Defined.

Definition sample_snapshot : RulePackSnapshot :=
  match snapshot_from_validated (H := Checksum) sample_pack sample_files with
  | Ok s => s | Raise _ => sample_pack end.

Definition sample_rebuilt : pydict :=
  [("rubric/goal.yaml", PDict [("branches", PList [PInt 1]); ("version", PStr "v1")])].

Lemma snapshot_sha_binds_witness :
  rebuilt_content sample_snapshot = Ok sample_rebuilt
  ∧ canon (PDict sample_rebuilt) = canon (PDict sample_rebuilt).
Proof.
  assert (Hr : rebuilt_content sample_snapshot = Ok sample_rebuilt) by (vm_compute; reflexivity).
  assert (Hs : mk_snapshot (H := Checksum) sample_snapshot = Ok sample_snapshot)
    by (vm_compute; reflexivity).
  assert (Hm : json_clean (manifest_val (snapshot_manifest sample_snapshot)) = true)
    by (vm_compute; reflexivity).
  assert (Hc : clean_files sample_rebuilt) by (repeat constructor).
  assert (Hn : NoDup sample_rebuilt.*1) by apply NoDup_singleton.
  split; [exact Hr|].
  destruct (snapshot_sha_binds (H := Checksum) _ _ _ _ _ _ Hs Hs Hr Hr Hm Hc Hn Hm Hc Hn eq_refl)
    as [(t1 & t2 & Ht1 & Ht2 & Hne & _)|[_ H]].
  - destruct Hne. rewrite Ht1 in Ht2. by injection Ht2.
  - exact H.
Defined.

(** Two contents under one path: the last is hashed, the first is served. *)
Definition duplicate_pack (first : pystr) (sha : pystr) : RulePackSnapshot :=
  {| rule_pack_id := "rp"; tenant_id := "t"; version := "v1"; effective_date := "d";
     mode := "disclosure"; status := "active"; ontology_version := "o1";
     source_document_sha256 := "s"; sha256 := sha; files := ["p"; "p"];
     unresolved_gap_ids := []; approved_by := None; approved_at := None;
     content := [("p", first); ("p", "{}")] |}.

(** The guard against tampered content does not cover a path listed
    twice: whatever the digest, two accepted snapshots with the same hash
    serve different content, since the hash is taken over the last payload of
    the path and [file_content] returns the first. *)
Theorem snapshot_duplicate_path_unbound `{Digest} :
  ∃ s1 s2, mk_snapshot s1 = Ok s1 ∧ mk_snapshot s2 = Ok s2 ∧ sha256 s1 = sha256 s2
    ∧ file_content s1 "p" ≠ file_content s2 "p".
Proof.
  set (sha := match pack_content_hash (snapshot_manifest (duplicate_pack [] [])) [("p", PDict [])]
              with Ok h => h | Raise _ => [] end).
  exists (duplicate_pack "{}" sha), (duplicate_pack "[]" sha).
  assert (Hmk : ∀ first, first = "{}" ∨ first = "[]" →
            mk_snapshot (duplicate_pack first sha) = Ok (duplicate_pack first sha)).
  { intros first [-> | ->]; unfold mk_snapshot;
      (replace (rebuilt_content _) with (Ok [("p", PDict [])]) by (vm_compute; reflexivity));
      rewrite bool_decide_eq_true_2 by reflexivity; cbn [require mbind result_bind];
      subst sha;
      unfold pack_content_hash; replace (pack_envelope _ _) with
        (pack_envelope (snapshot_manifest (duplicate_pack [] [])) [("p", PDict [])]) by reflexivity;
      destruct (_ ← pack_envelope _ _; _) as [h|e] eqn:E; try (vm_compute in E; discriminate E);
      cbn [mbind result_bind]; by rewrite str_eqb_refl. }
  split_and!; [by apply Hmk; left|by apply Hmk; right|done|].
  vm_compute. discriminate.
Qed.
