(* ===== verification/Geometry.v ===== *)
(** * Page geometry and native sources.

    [domain/documents.py]: the displayed page ([PageGeometry]) with its
    native-to-canonical affine, and one parser's text at one location
    ([NativeSource]); [application/ingest/geometry.py]: the projection of a
    native box, the mapping of offsets in normalised text back to the raw
    text, and the [SourceRef] made of both.  Coordinates are binary64 floats;
    an integer dimension is read as its float, as every use of it does.
    [unicodedata.normalize("NFC", _)] is the argument [nfc]. *)
From S2P Require Import Prelude PyVal Values Digest.

(* ------------------------------------------------------------------ *)
(** ** Float operations *)
(* ------------------------------------------------------------------ *)

Definition f_add : spec_float → spec_float → spec_float := SFadd PyFloat.prec PyFloat.emax.
Definition f_sub : spec_float → spec_float → spec_float := SFsub PyFloat.prec PyFloat.emax.
Definition f_mul : spec_float → spec_float → spec_float := SFmul PyFloat.prec PyFloat.emax.
Definition f_div : spec_float → spec_float → spec_float := SFdiv PyFloat.prec PyFloat.emax.
Definition f_neg : spec_float → spec_float := SFopp.
Definition f_abs : spec_float → spec_float := SFabs.
Definition f_leb : spec_float → spec_float → bool := SFleb.

Definition f_zero : spec_float := S754_zero false.
Definition f_one : spec_float := PyFloat.of_decimal false 1 0.
Definition f_minus_one : spec_float := PyFloat.of_decimal true 1 0.
(** [1e-6] *)
Definition f_tolerance : spec_float := PyFloat.of_decimal false 1 (-6).

(** [min(values)] and [max(values)] keep the first of equal values. *)
Definition f_min (x : spec_float) (l : list spec_float) : spec_float :=
  foldl (λ m y, if PyFloat.ltb y m then y else m) x l.
Definition f_max (x : spec_float) (l : list spec_float) : spec_float :=
  foldl (λ m y, if PyFloat.ltb m y then y else m) x l.

(* ------------------------------------------------------------------ *)
(** ** Page geometry *)
(* ------------------------------------------------------------------ *)

(** The same checks as on a source reference's box.
    [domain/documents.py:41-59 _require_finite_bbox] *)
Definition require_finite_bbox (value : pyval) : result (option bbox) := require_bbox value.

(** [domain/documents.py:62-76 PageGeometry] *)
Record PageGeometry : Set := {
  width_pt : spec_float; height_pt : spec_float; rotation : Z; crop_box : bbox }.

(** [domain/documents.py:79-83 PageGeometry.__post_init__] *)
Definition require_dimension (value : pyval) : result spec_float :=
  number ← bbox_coord value;
  _ ← require (PyFloat.ltb f_zero number) DomainValidationError;
  Ok number.

Definition ROTATIONS : list Z := [0; 90; 180; 270]%Z.

(** [domain/documents.py:84-85 PageGeometry.__post_init__] *)
Definition require_rotation (value : pyval) : result Z :=
  _ ← reject (match value with PBool _ => true | _ => false end) DomainValidationError;
  of_option DomainValidationError (find (λ r, py_eq value (PInt r)) ROTATIONS).

Definition crop_width (g : PageGeometry) : spec_float := f_sub (bx1 (crop_box g)) (bx0 (crop_box g)).
Definition crop_height (g : PageGeometry) : spec_float := f_sub (by1 (crop_box g)) (by0 (crop_box g)).

(** [a in (0, 180)] of a rotation. *)
Definition upright (g : PageGeometry) : bool := ((rotation g =? 0) || (rotation g =? 180))%Z.

(** [domain/documents.py:97-112 PageGeometry.__post_init__] *)
Definition extents_consistent (g : PageGeometry) : bool :=
  let w := if upright g then crop_width g else crop_height g in
  let h := if upright g then crop_height g else crop_width g in
  negb (PyFloat.ltb f_tolerance (f_abs (f_sub (width_pt g) w))
        || PyFloat.ltb f_tolerance (f_abs (f_sub (height_pt g) h))).

(** [domain/documents.py:78-112 PageGeometry.__post_init__] *)
Definition mk_PageGeometry (width height rot crop : pyval) : result PageGeometry :=
  w ← require_dimension width;
  h ← require_dimension height;
  r ← require_rotation rot;
  crop ← require_finite_bbox crop;
  crop ← of_option AssertionError crop;
  let g := {| width_pt := w; height_pt := h; rotation := r; crop_box := crop |} in
  _ ← require (extents_consistent g) DomainValidationError;
  Ok g.

(** [(a, b, c, d, e, f)]: [x' = a*x + c*y + e], [y' = b*x + d*y + f].
    [application/ingest/geometry.py:30 Affine] *)
Record affine : Set := Affine {
  af_a : spec_float; af_b : spec_float; af_c : spec_float;
  af_d : spec_float; af_e : spec_float; af_f : spec_float }.

(** [domain/documents.py:154-168 _compose_affine] *)
Definition compose_affine (o i : affine) : affine :=
  let dot a x c y := f_add (f_mul a x) (f_mul c y) in
  {| af_a := dot (af_a o) (af_a i) (af_c o) (af_b i);
     af_b := dot (af_b o) (af_a i) (af_d o) (af_b i);
     af_c := dot (af_a o) (af_c i) (af_c o) (af_d i);
     af_d := dot (af_b o) (af_c i) (af_d o) (af_d i);
     af_e := f_add (dot (af_a o) (af_e i) (af_c o) (af_f i)) (af_e o);
     af_f := f_add (dot (af_b o) (af_e i) (af_d o) (af_f i)) (af_f o) |}.

(** [domain/documents.py:134-143 PageGeometry.to_canonical_affine] *)
Definition rotate_affine (g : PageGeometry) : affine :=
  if (rotation g =? 0)%Z then Affine f_one f_zero f_zero f_one f_zero f_zero
  else if (rotation g =? 90)%Z then Affine f_zero f_minus_one f_one f_zero f_zero (crop_width g)
  else if (rotation g =? 180)%Z then
    Affine f_minus_one f_zero f_zero f_minus_one (crop_width g) (crop_height g)
  else Affine f_zero f_one f_minus_one f_zero (crop_height g) f_zero.

(** [domain/documents.py:114-151 PageGeometry.to_canonical_affine] *)
Definition to_canonical_affine (g : PageGeometry) : affine :=
  let translate := Affine f_one f_zero f_zero f_one
                     (f_neg (bx0 (crop_box g))) (f_neg (by0 (crop_box g))) in
  let flip := Affine f_one f_zero f_zero f_minus_one f_zero (height_pt g) in
  compose_affine flip (compose_affine (rotate_affine g) translate).

(* ------------------------------------------------------------------ *)
(** ** Native sources *)
(* ------------------------------------------------------------------ *)

(** [domain/documents.py:171-190 NativeSource] *)
Record NativeSource : Set := {
  ns_document_version_id : pystr;
  ns_parse_manifest_id : pystr;
  ns_parser_run_id : pystr;
  ns_native_id : pystr;
  physical_page : Z;
  ns_label : option pystr;
  native_bbox : option bbox;
  native_coordinate_system : pystr;
  raw_text : pystr;
  ns_char_start : Z;
  ns_char_end : Z }.

(** [domain/documents.py:38 SUPPORTED_NATIVE_COORDINATE_SYSTEMS] *)
Definition SUPPORTED_NATIVE_COORDINATE_SYSTEMS : list pystr := ["pdf_bottom_left_points"].

(** [domain/documents.py:192-225 NativeSource.__post_init__] *)
Definition mk_NativeSource (version manifest run native_id page label box system text
    cstart cend : pyval) : result NativeSource :=
  version ← require_uuid version;
  manifest ← require_uuid manifest;
  run ← require_uuid run;
  native_id ← as_str DomainValidationError native_id;
  _ ← require (nonempty native_id) DomainValidationError;
  page ← require_strict_int page;
  _ ← reject (page <? 1)%Z DomainValidationError;
  label ← opt_str DomainValidationError label;
  box ← require_finite_bbox box;
  _ ← match system with PList _ | PDict _ => Raise TypeError | _ => Ok tt end;
  system ← as_str DomainValidationError system;
  _ ← require (str_in system SUPPORTED_NATIVE_COORDINATE_SYSTEMS) DomainValidationError;
  text ← as_str DomainValidationError text;
  cstart ← require_strict_int cstart;
  cend ← require_strict_int cend;
  _ ← reject ((cstart <? 0)%Z || (cend <? cstart)%Z) DomainValidationError;
  _ ← reject (py_len text <? cend)%Z DomainValidationError;
  Ok {| ns_document_version_id := version; ns_parse_manifest_id := manifest;
        ns_parser_run_id := run; ns_native_id := native_id; physical_page := page;
        ns_label := label; native_bbox := box; native_coordinate_system := system;
        raw_text := text; ns_char_start := cstart; ns_char_end := cend |}.

(** [domain/documents.py:227-230 NativeSource.page_index] *)
Definition page_index (s : NativeSource) : Z := (physical_page s - 1)%Z.

(* ------------------------------------------------------------------ *)
(** ** Canonical boxes *)
(* ------------------------------------------------------------------ *)

(** [application/ingest/geometry.py:33-36 affine_apply] *)
Definition affine_apply (m : affine) (x y : spec_float) : spec_float * spec_float :=
  (f_add (f_add (f_mul (af_a m) x) (f_mul (af_c m) y)) (af_e m),
   f_add (f_add (f_mul (af_b m) x) (f_mul (af_d m) y)) (af_f m)).

(** [1e-12] *)
Definition f_singular : spec_float := PyFloat.of_decimal false 1 (-12).

(** [application/ingest/geometry.py:39-56 invert_affine] *)
Definition invert_affine (m : affine) : result affine :=
  let det := f_sub (f_mul (af_a m) (af_d m)) (f_mul (af_b m) (af_c m)) in
  _ ← reject (PyFloat.ltb (f_abs det) f_singular) DomainValidationError;
  let ia := f_div (af_d m) det in
  let ib := f_div (f_neg (af_b m)) det in
  let ic := f_div (f_neg (af_c m)) det in
  let id := f_div (af_a m) det in
  Ok (Affine ia ib ic id
        (f_neg (f_add (f_mul ia (af_e m)) (f_mul ic (af_f m))))
        (f_neg (f_add (f_mul ib (af_e m)) (f_mul id (af_f m))))).

(** [application/ingest/geometry.py:59-61 _bbox_corners] *)
Definition bbox_corners (b : bbox) : list (spec_float * spec_float) :=
  [(bx0 b, by0 b); (bx1 b, by0 b); (bx1 b, by1 b); (bx0 b, by1 b)].

(** The least box around a list of points. *)
Definition enclosing (points : list (spec_float * spec_float)) : bbox :=
  match points with
  | [] => BBox f_zero f_zero f_zero f_zero
  | p :: r => BBox (f_min p.1 r.*1) (f_min p.2 r.*2) (f_max p.1 r.*1) (f_max p.2 r.*2)
  end.

(** [application/ingest/geometry.py:64-75 project_native_bbox] *)
Definition project_native_bbox (native : option bbox) (g : PageGeometry) : option bbox :=
  (λ b, enclosing ((λ p, affine_apply (to_canonical_affine g) p.1 p.2) <$> bbox_corners b))
    <$> native.

(** [application/ingest/geometry.py:98-112 canonical_bbox_from_native] *)
Definition within_page (b : bbox) (g : PageGeometry) : bool :=
  negb (PyFloat.ltb (bx0 b) (f_neg f_tolerance) || PyFloat.ltb (by0 b) (f_neg f_tolerance)
        || PyFloat.ltb (f_add (width_pt g) f_tolerance) (bx1 b)
        || PyFloat.ltb (f_add (height_pt g) f_tolerance) (by1 b)).

(** [application/ingest/geometry.py:78-113 canonical_bbox_from_native] *)
Definition canonical_bbox_from_native (native : option bbox) (g : PageGeometry)
    : result (option bbox) :=
  match project_native_bbox native g with
  | None => Ok None
  | Some b =>
      _ ← require (PyFloat.ltb (bx0 b) (bx1 b) && PyFloat.ltb (by0 b) (by1 b))
            DomainValidationError;
      _ ← require (within_page b g) DomainValidationError;
      Ok (Some b)
  end.

(* ------------------------------------------------------------------ *)
(** ** Source references *)
(* ------------------------------------------------------------------ *)

(** [text.encode("utf-8")] refuses lone surrogates with [UnicodeEncodeError],
    a [ValueError]. *)
Definition encode_utf8 (text : pystr) : result (list N) :=
  if existsb (λ c, (55296 <=? c) && (c <=? 57343))%N text
  then Raise (ValueError "UnicodeEncodeError")
  else Ok (concat (utf8_bytes <$> text)).

Section canonical.
Context `{Digest} (nfc : pystr → pystr).

(** [application/ingest/geometry.py:116-117 _sha256_hex] *)
Definition text_sha256 (text : pystr) : result pystr := bytes ← encode_utf8 text; Ok (sha256_hex bytes).

(** The raw index a normalised offset splits at.
    [application/ingest/geometry.py:146-153 _find_raw_boundary] *)
Definition is_boundary (text prefix suffix : pystr) (i : Z) : bool :=
  (nfc (slice text 0 i) =s? prefix) && (nfc (drop (Z.to_nat i) text) =s? suffix).

(** [application/ingest/geometry.py:120-154 _find_raw_boundary] *)
Definition find_raw_boundary (text normalized : pystr) (offset : Z) : result Z :=
  of_option DomainValidationError
    (find (is_boundary text (slice normalized 0 offset) (drop (Z.to_nat offset) normalized))
       (Z.of_nat <$> seq 0 (S (length text)))).

(** [application/ingest/geometry.py:157-178 _map_normalized_offsets_to_raw] *)
Definition map_normalized_offsets_to_raw (text : pystr) (nstart nend : Z) : result (Z * Z) :=
  let normalized := nfc text in
  _ ← reject ((nstart <? 0) || (py_len normalized <? nend))%Z DomainValidationError;
  _ ← reject (nend <? nstart)%Z DomainValidationError;
  rstart ← find_raw_boundary text normalized nstart;
  rend ← find_raw_boundary text normalized nend;
  Ok (rstart, rend).

(** The raw offsets a caller's (possibly normalised) span stands for.
    [application/ingest/geometry.py:211-234 canonicalize_source_ref] *)
Definition raw_span (source : NativeSource) (nstart nend : option Z) : result (Z * Z) :=
  match nstart, nend with
  | None, None => Ok (ns_char_start source, ns_char_end source)
  | Some a, Some b =>
      '(cs, ce) ← map_normalized_offsets_to_raw (raw_text source) a b;
      _ ← require (nfc (slice (raw_text source) cs ce) =s? slice (nfc (raw_text source)) a b)
            DomainValidationError;
      Ok (cs, ce)
  | _, _ => Raise DomainValidationError
  end.

(** [fresh] is the [uuid4()] of a reference without an id.
    [application/ingest/geometry.py:181-252 canonicalize_source_ref] *)
Definition canonicalize_source_ref (source : NativeSource) (g : PageGeometry) (fresh : pystr)
    (source_id : option pystr) (nstart nend : option Z) (verification : pyval)
    : result SourceRef :=
  '(cs, ce) ← raw_span source nstart nend;
  box ← canonical_bbox_from_native (native_bbox source) g;
  digest ← text_sha256 (raw_text source);
  mk_SourceRef (PStr (default fresh source_id)) (PStr (ns_document_version_id source))
    (PStr (ns_parse_manifest_id source)) (PInt (physical_page source)) (ns_label source)
    (bbox_val box) (PStr digest) (PStr (slice (raw_text source) cs ce)) (PInt cs) (PInt ce)
    (PStr (if box then "located" else "unlocated")) verification.
End canonical.

(* ------------------------------------------------------------------ *)
(** ** What a reference cites *)
(* ------------------------------------------------------------------ *)

Lemma slice_in_bounds (s : pystr) (a b : Z) : (0 <= a <= b)%Z → (b <= py_len s)%Z →
  s = take (Z.to_nat a) s ++ slice s a b ++ drop (Z.to_nat b) s.
Proof.
  intros [Ha Hab] Hb. unfold slice, py_len in *.
  rewrite <- (take_drop (Z.to_nat a) s) at 1. f_equal.
  rewrite <- (take_drop (Z.to_nat b - Z.to_nat a) (drop (Z.to_nat a) s)) at 1. f_equal.
  rewrite drop_drop. f_equal. lia.
Qed.

Section cites.
Context `{Digest} (nfc : pystr → pystr).

Lemma find_raw_boundary_Ok text normalized offset i :
  find_raw_boundary nfc text normalized offset = Ok i →
  (0 <= i <= py_len text)%Z
  ∧ nfc (take (Z.to_nat i) text) = take (Z.to_nat offset) normalized
  ∧ nfc (drop (Z.to_nat i) text) = drop (Z.to_nat offset) normalized.
Proof.
  intros Hf%of_option_Ok. apply find_some in Hf as [Hin Hb].
  apply list_elem_of_In, list_elem_of_fmap in Hin as (n & -> & Hn%elem_of_seq).
  unfold is_boundary, slice in Hb. rewrite !Nat.sub_0_r, !drop_0 in Hb.
  apply andb_true_iff in Hb as [H1%str_eqb_eq H2%str_eqb_eq].
  split; [unfold py_len; lia|done].
Qed.

(** The offsets are those the caller normalised, on both sides of both ends. *)
Definition offsets_agree (text : pystr) (nstart nend : Z) (cs ce : Z) : Prop :=
  nfc (take (Z.to_nat cs) text) = take (Z.to_nat nstart) (nfc text)
  ∧ nfc (drop (Z.to_nat ce) text) = drop (Z.to_nat nend) (nfc text)
  ∧ nfc (slice text cs ce) = slice (nfc text) nstart nend.

Lemma raw_span_agrees source a b cs ce :
  raw_span nfc source (Some a) (Some b) = Ok (cs, ce) →
  (0 <= cs <= py_len (raw_text source))%Z ∧ (0 <= ce <= py_len (raw_text source))%Z
  ∧ offsets_agree (raw_text source) a b cs ce.
Proof.
  intros Hr. cbn in Hr. apply bind_Ok_inv in Hr as ((s & e) & Hm & Hr).
  apply bind_Ok_inv in Hr as (u & Hq%require_Ok%str_eqb_eq & [= <- <-]).
  unfold map_normalized_offsets_to_raw in Hm. open_run Hm. injection Hm as <- <-.
  repeat match goal with H : find_raw_boundary _ _ _ _ = Ok _ |- _ =>
    apply find_raw_boundary_Ok in H as (? & ? & ?) end.
  done.
Qed.

Lemma canonical_bbox_Ok native g b :
  canonical_bbox_from_native native g = Ok (Some b) →
  project_native_bbox native g = Some b
  ∧ PyFloat.ltb (bx0 b) (bx1 b) = true ∧ PyFloat.ltb (by0 b) (by1 b) = true
  ∧ within_page b g = true.
Proof.
  unfold canonical_bbox_from_native. destruct (project_native_bbox native g) as [b'|]; [|done].
  intros H0. open_run H0. injection H0 as <-.
  repeat match goal with H : require _ _ = Ok _ |- _ => apply require_Ok in H end.
  match goal with H : _ && _ = true |- _ => by apply andb_true_iff in H as [? ?] end.
Qed.

(** Everything a reference says is read off the raw source. *)
Record cites (source : NativeSource) (g : PageGeometry) (nstart nend : option Z)
    (r : SourceRef) : Prop := {
  cites_page : page_num r = physical_page source ∧ printed_page_label r = ns_label source;
  cites_hash : text_sha256 (raw_text source) = Ok (raw_text_sha256 r);
  cites_quote : quote r = slice (raw_text source) (char_start r) (char_end r);
  cites_offsets :
    match nstart, nend with
    | Some a, Some b => offsets_agree (raw_text source) a b (char_start r) (char_end r)
    | _, _ => char_start r = ns_char_start source ∧ char_end r = ns_char_end source
    end;
  cites_box :
    match ref_bbox r with
    | Some b => location_quality r = Located
                ∧ project_native_bbox (native_bbox source) g = Some b
                ∧ PyFloat.ltb (bx0 b) (bx1 b) = true ∧ PyFloat.ltb (by0 b) (by1 b) = true
                ∧ within_page b g = true
    | None => location_quality r = Unlocated ∧ native_bbox source = None
    end }.

Lemma require_bbox_same box box' : require_bbox (bbox_val box) = Ok box' → box' = box.
Proof.
  destruct box as [[a b c d]|]; cbn; intros Hb; [|congruence].
  unfold bbox_of_list, bbox_coord in Hb. cbn in Hb. unfold require in Hb.
  repeat match type of Hb with context [PyFloat.is_finite ?x] =>
    destruct (PyFloat.is_finite x); cbn in Hb; [|done] end.
  destruct (PyFloat.ltb a c && PyFloat.ltb b d); cbn in Hb; [|done]. injection Hb as <-. done.
Qed.

(** The fields of an accepted reference. *)
Lemma source_ref_fields source g fresh sid nstart nend verification r :
  canonicalize_source_ref nfc source g fresh sid nstart nend verification = Ok r →
  source_id r = default fresh sid ∧ document_version_id r = ns_document_version_id source
  ∧ parse_manifest_id r = ns_parse_manifest_id source
  ∧ page_num r = physical_page source ∧ printed_page_label r = ns_label source
  ∧ text_sha256 (raw_text source) = Ok (raw_text_sha256 r)
  ∧ raw_span nfc source nstart nend = Ok (char_start r, char_end r)
  ∧ quote r = slice (raw_text source) (char_start r) (char_end r)
  ∧ canonical_bbox_from_native (native_bbox source) g = Ok (ref_bbox r)
  ∧ location_str (location_quality r) = (if ref_bbox r then "located" else "unlocated")
  ∧ verification = PStr (verification_str (verification_state r)).
Proof.
  unfold canonicalize_source_ref. intros Hr.
  apply bind_Ok_inv in Hr as ((cs & ce) & Hspan & Hr). open_run Hr.
  apply mk_SourceRef_args in Hr as ((Hi & Hv & Hm) & (Hp & Hl & Hb) & (Hh & Hq) & (Hs & He) & Hloc & Hver).
  apply require_bbox_same in Hb as Hbox.
  injection Hi as Hi. injection Hv as Hv. injection Hm as Hm.
  injection Hp as Hp. injection Hh as Hh. injection Hq as Hq. injection Hs as Hs.
  injection He as He. injection Hloc as Hloc. subst. split_and!; congruence.
Qed.

(** A source reference never cites more or other than its source. Whatever span a caller
    names, an accepted reference carries the source's page and label, the hash of its raw text and
    the raw text between its offsets; offsets given in the normalised text were mapped to the raw
    indices whose two sides normalise to the two sides of the caller's; and a box is the
    projection of the native one, ordered and on the page, a missing box stays missing. *)
Theorem reference_cites_source source g fresh sid nstart nend verification r :
  canonicalize_source_ref nfc source g fresh sid nstart nend verification = Ok r →
  cites source g nstart nend r.
Proof.
  intros (_ & _ & _ & Hp & Hl & Hh & Hspan & Hq & Hbox & Hloc & _)%source_ref_fields.
  split; [done|done|done| |].
  - destruct nstart as [a|], nend as [b|]; try (cbn in Hspan; split; congruence).
    by apply raw_span_agrees in Hspan as (_ & _ & ?).
  - destruct (ref_bbox r) as [b|];
      (split; [by destruct (location_quality r)|]); [by apply canonical_bbox_Ok|].
    revert Hbox. unfold canonical_bbox_from_native. destruct (native_bbox source) as [b|]; [|done].
    destruct (project_native_bbox (Some b) g) as [b'|] eqn:E; [|discriminate E].
    intros Hn. open_run Hn. discriminate Hn.
Qed.
End cites.

(* ------------------------------------------------------------------ *)
(** ** A concrete page *)
(* ------------------------------------------------------------------ *)

(** One rule of canonical composition: [e] and a combining acute accent. *)
Fixpoint nfc_sample (s : pystr) : pystr :=
  match s with
  | 101%N :: 769%N :: r => 233%N :: nfc_sample r
  | c :: r => c :: nfc_sample r
  | [] => []
  end.

Definition int_box (a b c d : Z) : pyval := PList [PInt a; PInt b; PInt c; PInt d].

Definition sample_geometry : result PageGeometry :=
  mk_PageGeometry (PInt 200) (PInt 100) (PInt 90) (int_box 10 20 110 220).

Definition sample_source : result NativeSource :=
  mk_NativeSource (PStr "7c9e6679-7425-40de-944b-e07fc1f90ae7")
    (PStr "7c9e6679-7425-40de-944b-e07fc1f90ae8") (PStr "7c9e6679-7425-40de-944b-e07fc1f90ae9")
    (PStr "b1") (PInt 3) (PStr "iii") (int_box 20 30 60 40) (PStr "pdf_bottom_left_points")
    (PStr ([99; 97; 102; 101; 769; 32; 49; 50; 37]%N)) (PInt 0) (PInt 3).

Definition sample_citation `{Digest} : result (PageGeometry * NativeSource * SourceRef) :=
  g ← sample_geometry; s ← sample_source;
  r ← canonicalize_source_ref nfc_sample s g "0f8fad5b-d9cb-469f-a165-70867728950e" None
        (Some 3%Z) (Some 4%Z) (PStr "candidate");
  Ok (g, s, r).

(** The span "é" of the normalised "café 12%" cites its two raw code points. *)
Lemma reference_cites_source_witness :
  ∃ g s r, @sample_citation Checksum = Ok (g, s, r)
           ∧ @cites Checksum nfc_sample s g (Some 3%Z) (Some 4%Z) r.
Proof.
  destruct (@sample_citation Checksum) as [[[g s] r]|e] eqn:E; [|vm_compute in E; discriminate E].
  exists g, s, r. split; [done|]. unfold sample_citation in E.
  apply bind_Ok_inv in E as (g' & _ & E). apply bind_Ok_inv in E as (s' & _ & E).
  apply bind_Ok_inv in E as (r' & E & [= -> -> ->]).
  exact (@reference_cites_source Checksum nfc_sample s g _ None (Some 3%Z) (Some 4%Z) _ r E).
Defined.
