(* ===== verification/Graph.v ===== *)
(** * The document graph and the fusion of parser candidates.

    [application/ingest/graph_fusion.py]: the candidates each parser reports
    (with their constructor guards), the canonical graph, and
    [fuse_candidates], which groups the candidates of several parsers by
    place, keeps a disagreement as a conflict and never picks a winner from
    it.  Functions of the Unicode database and of SHA-1 the fusion calls are
    the arguments [nfc], [str_repr] and [uuid5]. *)
From S2P Require Import Prelude PyVal Values Digest Geometry.
Open Scope py_scope.

(* ------------------------------------------------------------------ *)
(** ** Candidates *)
(* ------------------------------------------------------------------ *)

(** [application/ingest/graph_fusion.py:30-42 KINDS] *)
Definition KINDS : list pystr :=
  ["paragraph"; "heading"; "table"; "table_row"; "table_cell"; "caption"; "footnote"; "figure";
   "unknown"].

(** [application/ingest/graph_fusion.py:43-53 RELATIONS] *)
Definition RELATIONS : list pystr :=
  ["derived_from"; "table_parent"; "caption_of"; "footnote_of"; "same_statement";
   "section_parent"; "alias_of"].

(** [application/ingest/graph_fusion.py:264-277 CandidateBlock] *)
Record CandidateBlock : Set := {
  cb_kind : pystr;
  cb_source : NativeSource;
  cb_geometry : PageGeometry;
  cb_context : list pystr;
  cb_parser_bbox : option bbox;
  cb_parser_system : pystr;
  cb_to_canonical : option affine;
  cb_table_native_id : option pystr;
  cb_row : option Z;
  cb_column : option Z;
  cb_row_span : option Z;
  cb_column_span : option Z }.

(** [math.isclose(a, b, abs_tol=1e-6)] *)
Definition isclose (a b : spec_float) : bool :=
  let infinite f := match f with S754_infinity _ => true | _ => false end in
  let rel := PyFloat.of_decimal false 1 (-9) in
  PyFloat.eqb a b
  || (negb (infinite a || infinite b)
      && (let diff := f_abs (f_sub b a) in
          f_leb diff (f_abs (f_mul rel b)) || f_leb diff (f_abs (f_mul rel a))
          || f_leb diff f_tolerance)).

(** [application/ingest/graph_fusion.py:287-294 CandidateBlock.__post_init__] *)
Definition parser_affine (matrix : option (list pyval)) : result (option affine) :=
  match matrix with
  | None => Ok None
  | Some l =>
      _ ← require (py_len l =? 6)%Z (ValueError "invalid parser affine");
      l ← map_result (λ v, catch (λ e, bool_decide (e = DomainValidationError)) (bbox_coord v)
                             (λ _, Raise (ValueError "invalid parser affine"))) l;
      match l with
      | [a; b; c; d; e; f] => _ ← invert_affine (Affine a b c d e f); Ok (Some (Affine a b c d e f))
      | _ => Raise (ValueError "invalid parser affine")
      end
  end.

(** [application/ingest/graph_fusion.py:300-313 CandidateBlock.__post_init__] *)
Definition parser_geometry_agrees (box : bbox) (m : affine) (expected : bbox) : bool :=
  let corners := [affine_apply m (bx0 box) (by0 box); affine_apply m (bx0 box) (by1 box);
                  affine_apply m (bx1 box) (by0 box); affine_apply m (bx1 box) (by1 box)] in
  let actual := enclosing corners in
  isclose (bx0 actual) (bx0 expected) && isclose (by0 actual) (by0 expected)
  && isclose (bx1 actual) (bx1 expected) && isclose (by1 actual) (by1 expected).

(** [application/ingest/graph_fusion.py:279-313 CandidateBlock.__post_init__] *)
Definition mk_CandidateBlock (kind : pystr) (source : NativeSource) (g : PageGeometry)
    (context : list pyval) (pbox : pyval) (system : pyval) (matrix : option (list pyval))
    (table_native_id : option pystr) (row column row_span column_span : option Z)
    : result CandidateBlock :=
  _ ← require (str_in kind KINDS) (ValueError "invalid candidate kind/context");
  context ← map_result (as_str (ValueError "invalid candidate kind/context")) context;
  let expected := project_native_bbox (native_bbox source) g in
  box ← require_finite_bbox pbox;
  m ← parser_affine matrix;
  system ← as_str (ValueError "parser coordinate system required") system;
  _ ← require (nonempty system) (ValueError "parser coordinate system required");
  _ ← match box, m, expected with
      | None, _, _ => Ok tt
      | Some b, Some m, Some e =>
          require (parser_geometry_agrees b m e)
            (ValueError "parser geometry disagrees with canonical geometry")
      | Some _, _, _ => Raise (ValueError "parser geometry requires a canonical mapping")
      end;
  Ok {| cb_kind := kind; cb_source := source; cb_geometry := g; cb_context := context;
        cb_parser_bbox := box; cb_parser_system := system; cb_to_canonical := m;
        cb_table_native_id := table_native_id; cb_row := row; cb_column := column;
        cb_row_span := row_span; cb_column_span := column_span |}.

(** [application/ingest/graph_fusion.py:315-320 CandidateBlock.bbox] *)
Definition cb_bbox (b : CandidateBlock) : option bbox :=
  match canonical_bbox_from_native (native_bbox (cb_source b)) (cb_geometry b) with
  | Ok o => o
  | Raise _ => None
  end.

(** [application/ingest/graph_fusion.py:322-324 CandidateBlock.has_invalid_geometry] *)
Definition has_invalid_geometry (b : CandidateBlock) : bool :=
  bool_decide (is_Some (native_bbox (cb_source b))) && negb (bool_decide (is_Some (cb_bbox b))).

(** [application/ingest/graph_fusion.py:327-335 CandidateEdge] *)
Record CandidateEdge : Set := {
  ce_source : pystr; ce_target : pystr; ce_relation : pystr }.

(** [application/ingest/graph_fusion.py:333-335 CandidateEdge.__post_init__] *)
Definition mk_CandidateEdge (e : CandidateEdge) : result CandidateEdge :=
  _ ← require (str_in (ce_relation e) RELATIONS) (ValueError "invalid edge relation"); Ok e.

(** [application/ingest/graph_fusion.py:338-351 CandidateBatch] *)
Record CandidateBatch : Set := {
  bt_tenant_id : pystr;
  bt_document_version_id : pystr;
  bt_parse_manifest_id : pystr;
  bt_source_sha256 : pystr;
  bt_parser_run_id : pystr;
  bt_parser_name : pystr;
  bt_parser_version : pystr;
  bt_parser_family : pystr;
  bt_config_hash : pystr;
  bt_blocks : list CandidateBlock;
  bt_edges : list CandidateEdge;
  bt_synthetic : bool }.

(** [application/ingest/graph_fusion.py:367-374 CandidateBatch.__post_init__] *)
Definition own_block (b : CandidateBatch) (c : CandidateBlock) : bool :=
  (ns_document_version_id (cb_source c) =s? bt_document_version_id b)
  && (ns_parse_manifest_id (cb_source c) =s? bt_parse_manifest_id b)
  && (ns_parser_run_id (cb_source c) =s? bt_parser_run_id b).

(** [source.source_native_id] *)
Definition native_id (c : CandidateBlock) : pystr := ns_native_id (cb_source c).

(** [application/ingest/graph_fusion.py:366-376 CandidateBatch.__post_init__] *)
Fixpoint check_batch_blocks (b : CandidateBatch) (seen : list pystr) (l : list CandidateBlock)
    : result unit :=
  match l with
  | [] => Ok tt
  | c :: r =>
      _ ← require (own_block b c) (ValueError "candidate provenance identity mismatch");
      _ ← reject (str_in (native_id c) seen) (ValueError "duplicate native source identifier");
      check_batch_blocks b (native_id c :: seen) r
  end.

(** [application/ingest/graph_fusion.py:353-376 CandidateBatch.__post_init__] *)
Definition mk_CandidateBatch (b : CandidateBatch) : result CandidateBatch :=
  _ ← require_uuid (PStr (bt_tenant_id b));
  _ ← require_uuid (PStr (bt_document_version_id b));
  _ ← require_uuid (PStr (bt_parse_manifest_id b));
  _ ← require_uuid (PStr (bt_parser_run_id b));
  _ ← require (is_sha256 (bt_source_sha256 b)) (ValueError "invalid SHA-256");
  _ ← require (is_sha256 (bt_config_hash b)) (ValueError "invalid SHA-256");
  _ ← require (nonempty (bt_parser_name b) && nonempty (bt_parser_version b)
               && nonempty (bt_parser_family b)) (ValueError "parser identity required");
  _ ← check_batch_blocks b [] (bt_blocks b);
  Ok b.

(* ------------------------------------------------------------------ *)
(** ** The canonical graph *)
(* ------------------------------------------------------------------ *)

(** [application/ingest/graph_fusion.py:379-383 CanonicalEdge] *)
Record CanonicalEdge : Set := { ed_source : pystr; ed_target : pystr; ed_relation : pystr }.

#[export] Instance canonical_edge_eq_dec : EqDecision CanonicalEdge.
Proof. solve_decision. Defined.

(** [application/ingest/graph_fusion.py:386-393 QualityIssue] *)
Record QualityIssue : Set := {
  qi_issue_id : pystr; qi_kind : pystr; qi_page_num : Z; qi_source_ids : list pystr;
  qi_state : pystr; qi_reason : pystr }.

(** [application/ingest/graph_fusion.py:399-406 CanonicalBlock] *)
Record CanonicalBlock : Set := {
  kb_source_id : pystr;
  kb_kind : pystr;
  kb_candidates : list CandidateBlock;
  kb_families : list pystr;
  kb_quality : pystr;
  kb_winner : option Z }.

(** A canonical block has at least one candidate.
    [application/ingest/graph_fusion.py:412-414 CanonicalBlock.page_num] *)
Definition page_of_block (b : CanonicalBlock) : Z :=
  match kb_candidates b with c :: _ => physical_page (cb_source c) | [] => 0%Z end.

(** [self.candidates[self.winner]], with Python's negative indices. *)
Definition winner_of (b : CanonicalBlock) (w : Z) : option CandidateBlock :=
  let i := if (w <? 0)%Z then (w + py_len (kb_candidates b))%Z else w in
  if (i <? 0)%Z then None else kb_candidates b !! Z.to_nat i.

(** [application/ingest/graph_fusion.py:420-422 CanonicalBlock.raw_text] *)
Definition block_raw_text (b : CanonicalBlock) : result pystr :=
  match kb_winner b with
  | None => Ok []
  | Some w => c ← of_option IndexError (winner_of b w); Ok (raw_text (cb_source c))
  end.

(** [application/ingest/graph_fusion.py:475-485 CanonicalDocumentGraph] *)
Record CanonicalDocumentGraph : Set := {
  gr_tenant_id : pystr;
  gr_document_version_id : pystr;
  gr_parse_manifest_id : pystr;
  gr_source_sha256 : pystr;
  gr_blocks : list CanonicalBlock;
  gr_edges : list CanonicalEdge;
  gr_issues : list QualityIssue;
  gr_candidates : list CandidateBatch;
  gr_validation_profile : pystr }.

(* ------------------------------------------------------------------ *)
(** ** Equality of candidates and blocks, as frozen dataclasses compare *)
(* ------------------------------------------------------------------ *)

Definition geometry_eqb (a b : PageGeometry) : bool :=
  PyFloat.eqb (width_pt a) (width_pt b) && PyFloat.eqb (height_pt a) (height_pt b)
  && (rotation a =? rotation b)%Z && bbox_eqb (Some (crop_box a)) (Some (crop_box b)).

Definition source_eqb (a b : NativeSource) : bool :=
  (ns_document_version_id a =s? ns_document_version_id b)
  && (ns_parse_manifest_id a =s? ns_parse_manifest_id b)
  && (ns_parser_run_id a =s? ns_parser_run_id b) && (ns_native_id a =s? ns_native_id b)
  && (physical_page a =? physical_page b)%Z && bool_decide (ns_label a = ns_label b)
  && bbox_eqb (native_bbox a) (native_bbox b)
  && (native_coordinate_system a =s? native_coordinate_system b) && (raw_text a =s? raw_text b)
  && (ns_char_start a =? ns_char_start b)%Z && (ns_char_end a =? ns_char_end b)%Z.

Definition affine_eqb (a b : option affine) : bool :=
  match a, b with
  | None, None => true
  | Some a, Some b =>
      PyFloat.eqb (af_a a) (af_a b) && PyFloat.eqb (af_b a) (af_b b)
      && PyFloat.eqb (af_c a) (af_c b) && PyFloat.eqb (af_d a) (af_d b)
      && PyFloat.eqb (af_e a) (af_e b) && PyFloat.eqb (af_f a) (af_f b)
  | _, _ => false
  end.

Definition candidate_eqb (a b : CandidateBlock) : bool :=
  (cb_kind a =s? cb_kind b) && source_eqb (cb_source a) (cb_source b)
  && geometry_eqb (cb_geometry a) (cb_geometry b) && bool_decide (cb_context a = cb_context b)
  && bbox_eqb (cb_parser_bbox a) (cb_parser_bbox b)
  && (cb_parser_system a =s? cb_parser_system b)
  && affine_eqb (cb_to_canonical a) (cb_to_canonical b)
  && bool_decide (cb_table_native_id a = cb_table_native_id b)
  && bool_decide (cb_row a = cb_row b) && bool_decide (cb_column a = cb_column b)
  && bool_decide (cb_row_span a = cb_row_span b)
  && bool_decide (cb_column_span a = cb_column_span b).

Fixpoint candidates_eqb (a b : list CandidateBlock) : bool :=
  match a, b with
  | [], [] => true
  | x :: a, y :: b => candidate_eqb x y && candidates_eqb a b
  | _, _ => false
  end.

Definition block_eqb (a b : CanonicalBlock) : bool :=
  (kb_source_id a =s? kb_source_id b) && (kb_kind a =s? kb_kind b)
  && candidates_eqb (kb_candidates a) (kb_candidates b)
  && bool_decide (kb_families a = kb_families b) && (kb_quality a =s? kb_quality b)
  && bool_decide (kb_winner a = kb_winner b).

(* ------------------------------------------------------------------ *)
(** ** Fusion *)
(* ------------------------------------------------------------------ *)

(** [application/ingest/graph_fusion.py:511-519 _matches] *)
Definition scoped_context (version : Z) (b : CandidateBlock) : list pystr :=
  List.filter (λ e, (version <? 5)%Z
                    || negb (existsb (λ p, starts_with p e)
                               ["mixed_parser_name="; "mixed_parser_version="])) (cb_context b).

(** [application/ingest/graph_fusion.py:520-533 _matches] *)
Definition fusion_context (version : Z) (left b : CandidateBlock) : list pystr :=
  let context := scoped_context version b in
  if (2 <=? version)%Z && (cb_kind left =s? "table_cell")
  then List.filter (λ e, negb (existsb (λ p, starts_with p e) ["row number="; "column number="]))
         context
  else context.

(** [max(0, x)] *)
Definition positive_part (x : spec_float) : spec_float := if PyFloat.ltb f_zero x then x else f_zero.

Definition pick (less : spec_float → spec_float → bool) (a b : spec_float) : spec_float :=
  if less b a then b else a.

(** [application/ingest/graph_fusion.py:537-542 _matches] *)
Definition overlap (a b : bbox) : result bool :=
  let lo x y := pick PyFloat.ltb x y in
  let hi x y := pick (λ u v, PyFloat.ltb v u) x y in
  let intersection :=
    f_mul (positive_part (f_sub (lo (bx1 a) (bx1 b)) (hi (bx0 a) (bx0 b))))
          (positive_part (f_sub (lo (by1 a) (by1 b)) (hi (by0 a) (by0 b)))) in
  let area c := f_mul (f_sub (bx1 c) (bx0 c)) (f_sub (by1 c) (by0 c)) in
  let union := f_sub (f_add (area a) (area b)) intersection in
  _ ← reject (PyFloat.eqb union f_zero) ZeroDivisionError;
  Ok (f_leb (PyFloat.of_decimal false 8 (-1)) (f_div intersection union)).

(** [application/ingest/graph_fusion.py:499-542 _matches] *)
Definition matches (version : Z) (left right : CandidateBlock) : result bool :=
  if negb (cb_kind left =s? cb_kind right)
     || negb (physical_page (cb_source left) =? physical_page (cb_source right))%Z
  then Ok false
  else
    match cb_bbox left, cb_bbox right with
    | Some a, Some b =>
        if bool_decide (fusion_context version left left = fusion_context version left right)
        then overlap a b else Ok false
    | _, _ => Ok false
    end.

(** One candidate of one batch. *)
Definition entry : Set := CandidateBatch * CandidateBlock.

(** [(batch.parser_run_id, block.source.source_native_id)] *)
Definition entry_key (e : entry) : pystr * pystr := (bt_parser_run_id e.1, native_id e.2).

(** Every candidate of every batch, in order. *)
Definition entries_of (l : list CandidateBatch) : list entry := l ≫= λ b, pair b <$> bt_blocks b.

(** The last entry under a key: [dict] comprehensions keep the last value. *)
Definition lookup_entry (l : list entry) (key : pystr * pystr) : option entry :=
  find (λ e, bool_decide (entry_key e = key)) (rev l).

(** [application/ingest/graph_fusion.py:577-582 fuse_candidates] *)
Definition table_lookup (l : list CandidateBatch) (run : pystr) (id : option pystr)
    : option CandidateBlock :=
  id ← (id : option pystr);
  snd <$> lookup_entry (List.filter (λ e, cb_kind e.2 =s? "table") (entries_of l)) (run, id).

(** [application/ingest/graph_fusion.py:584-591 compatible_tables] *)
Definition compatible_tables (l : list CandidateBatch) (version : Z) (left right : entry)
    : result bool :=
  if (version <? 4)%Z || (cb_kind left.2 =s? "table") then Ok true
  else if bool_decide (cb_table_native_id left.2 = None)
          && bool_decide (cb_table_native_id right.2 = None) then Ok true
  else
    match table_lookup l (bt_parser_run_id left.1) (cb_table_native_id left.2),
          table_lookup l (bt_parser_run_id right.1) (cb_table_native_id right.2) with
    | Some a, Some b => matches version a b
    | _, _ => Ok false
    end.

Definition joins (l : list CandidateBatch) (version : Z) (new item : entry) : result bool :=
  and_result (matches version item.2 new.2) (compatible_tables l version item new).

(** A group with the place and kind of its bucket. *)
Record group : Set := { g_page : Z; g_kind : pystr; g_members : list entry }.

Definition in_bucket (e : entry) (g : group) : bool :=
  (g_page g =? physical_page (cb_source e.2))%Z && (g_kind g =s? cb_kind e.2).

(** A bucket lists its groups in the order of their creation, so the first
    matching group of the bucket is the first matching one of all groups.
    [application/ingest/graph_fusion.py:599-623 fuse_candidates] *)
Fixpoint place (l : list CandidateBatch) (version : Z) (e : entry) (groups : list group)
    : result (list group) :=
  match groups with
  | [] => Ok [{| g_page := physical_page (cb_source e.2); g_kind := cb_kind e.2;
                 g_members := [e] |}]
  | g :: r =>
      if_result (if in_bucket e g then all_result (joins l version e) (g_members g) else Ok false)
        (Ok ({| g_page := g_page g; g_kind := g_kind g; g_members := g_members g ++ [e] |} :: r))
        (r' ← place l version e r; Ok (g :: r'))
  end.

(** [sorted(candidates, key=lambda batch: (batch.parser_name, batch.parser_run_id))] *)
Definition batch_leb (a b : CandidateBatch) : bool :=
  lex_leb str_eqb str_leb str_leb (bt_parser_name a, bt_parser_run_id a)
    (bt_parser_name b, bt_parser_run_id b).

(** [sorted(batch.blocks, key=..)] *)
Definition native_leb (a b : CandidateBlock) : bool :=
  lex_leb Z.eqb Z.leb str_leb (physical_page (cb_source a), native_id a)
    (physical_page (cb_source b), native_id b).

Definition block_leb (a b : CanonicalBlock) : bool :=
  lex_leb Z.eqb Z.leb str_leb (page_of_block a, kb_source_id a) (page_of_block b, kb_source_id b).

Definition edge_leb (a b : CanonicalEdge) : bool :=
  lex_leb (λ x y, bool_decide (x = y)) (lex_leb str_eqb str_leb str_leb) str_leb
    ((ed_source a, ed_target a), ed_relation a) ((ed_source b, ed_target b), ed_relation b).

(** The loop's order of the candidates.
    [application/ingest/graph_fusion.py:599-603 fuse_candidates] *)
Definition ordered_entries (ordered : list CandidateBatch) : list entry :=
  ordered ≫= λ b, pair b <$> isort native_leb (bt_blocks b).

(** [application/ingest/graph_fusion.py:592-623 fuse_candidates] *)
Definition group_entries (l ordered : list CandidateBatch) (version : Z) : result (list group) :=
  fold_result (λ (groups : list group) (e : entry), place l version e groups) []
    (ordered_entries ordered).

Section fusion.
Context (nfc str_repr : pystr → pystr) (uuid5 : pystr → pystr → pystr).

(** [repr] of a tuple of pairs of strings. *)
Definition keys_repr (keys : list (pystr * pystr)) : pystr :=
  "(" ++ str_join ", " ((λ k, "(" ++ str_repr k.1 ++ ", " ++ str_repr k.2 ++ ")") <$> keys)
  ++ (if (py_len keys =? 1)%Z then ",)" else ")").

(** [application/ingest/graph_fusion.py:628 fuse_candidates] *)
Definition group_id (manifest tenant : pystr) (g : group) : pystr :=
  uuid5 manifest (tenant ++ ":" ++ keys_repr (entry_key <$> g_members g)).

(** [application/ingest/graph_fusion.py:629 fuse_candidates] *)
Definition conflict (g : group) : bool :=
  (1 <? py_len (str_dedup ((λ e, nfc (raw_text (cb_source e.2))) <$> g_members g)))%Z.

Definition unlocated (g : group) : bool :=
  match g_members g with e :: _ => negb (bool_decide (is_Some (cb_bbox e.2))) | [] => false end.

(** [application/ingest/graph_fusion.py:625-641 fuse_candidates] *)
Definition canonical_block (manifest tenant : pystr) (g : group) : CanonicalBlock :=
  {| kb_source_id := group_id manifest tenant g;
     kb_kind := match g_members g with e :: _ => cb_kind e.2 | [] => [] end;
     kb_candidates := (g_members g).*2;
     kb_families := str_set_sorted ((λ e, bt_parser_family e.1) <$> g_members g);
     kb_quality := if conflict g then "conflicted" else if unlocated g then "unlocated"
                   else "unverified";
     kb_winner := if conflict g then None else Some 0%Z |}.

(** [application/ingest/graph_fusion.py:643-665 fuse_candidates] *)
Definition issue_of (b : CanonicalBlock) (g : group) : option QualityIssue :=
  if str_in (kb_quality b) ["conflicted"; "unlocated"] then
    let invalid := existsb has_invalid_geometry (kb_candidates b) in
    let conflicted := conflict g in
    Some {| qi_issue_id := uuid5 (kb_source_id b) (kb_quality b);
            qi_kind := if invalid then "source_geometry_invalid"
                       else if conflicted then "parse_conflict" else "source_unlocated";
            qi_page_num := page_of_block b;
            qi_source_ids := [kb_source_id b];
            qi_state := if invalid then "unreadable" else "open";
            qi_reason :=
              if invalid then
                "Parser geometry is outside page bounds; original coordinates retained."
              else if conflicted then "Candidate content disagrees; no winner selected."
              else "Parser did not provide source geometry." |}
  else None.

(** [aliases]: the identifier of the group an entry fell into.
    [application/ingest/graph_fusion.py:642 fuse_candidates] *)
Definition alias (manifest tenant : pystr) (groups : list group) (key : pystr * pystr)
    : option pystr :=
  g ← find (λ g, bool_decide (key ∈ entry_key <$> g_members g)) (rev groups);
  Some (group_id manifest tenant g).

(** [application/ingest/graph_fusion.py:666-672 fuse_candidates] *)
Definition fuse_edge (manifest tenant : pystr) (groups : list group) (run : pystr)
    (e : CandidateEdge) : result CanonicalEdge :=
  let find_key id := of_option (ValueError "dangling native edge")
                       (alias manifest tenant groups (run, id)) in
  origin ← find_key (ce_source e);
  target ← find_key (ce_target e);
  Ok {| ed_source := origin; ed_target := target; ed_relation := ce_relation e |}.

(** [application/ingest/graph_fusion.py:562-575 fuse_candidates] *)
Fixpoint check_batches (tenant version manifest sha : pystr) (seen : list pystr)
    (l : list CandidateBatch) : result unit :=
  match l with
  | [] => Ok tt
  | b :: r =>
      _ ← require ((bt_tenant_id b =s? tenant) && (bt_document_version_id b =s? version)
                   && (bt_parse_manifest_id b =s? manifest) && (bt_source_sha256 b =s? sha))
            (ValueError "tenant/version/source/manifest mismatch");
      _ ← reject (str_in (bt_parser_run_id b) seen) (ValueError "duplicate parser run");
      check_batches tenant version manifest sha (bt_parser_run_id b :: seen) r
  end.

(** [application/ingest/graph_fusion.py:545-680 fuse_candidates] *)
Definition fuse_candidates (candidates : list CandidateBatch) (tenant : pystr) (version : Z)
    (mixed_parser : bool) : result CanonicalDocumentGraph :=
  first ← of_option (ValueError "no parser candidates; parser failure is not an empty successful graph")
            (head candidates);
  _ ← require (existsb (Z.eqb version) [1; 2; 3; 4; 5]%Z) (ValueError "unsupported fusion version");
  _ ← reject ((version =? 5)%Z && negb mixed_parser)
        (ValueError "unsupported fusion version without mixed profile");
  _ ← reject ((version <? 3)%Z
              && existsb (λ b, existsb has_invalid_geometry (bt_blocks b)) candidates)
        (ValueError "legacy fusion does not admit invalid geometry");
  let manifest := bt_parse_manifest_id first in
  _ ← check_batches tenant (bt_document_version_id first) manifest (bt_source_sha256 first) []
        candidates;
  let ordered := isort batch_leb candidates in
  groups ← group_entries candidates ordered version;
  let blocks := canonical_block manifest tenant <$> groups in
  let issues := omap (λ g, issue_of (canonical_block manifest tenant g) g) groups in
  edges ← map_result (λ be, fuse_edge manifest tenant groups (bt_parser_run_id be.1) be.2)
            (ordered ≫= λ b, pair b <$> bt_edges b);
  Ok {| gr_tenant_id := tenant;
        gr_document_version_id := bt_document_version_id first;
        gr_parse_manifest_id := manifest;
        gr_source_sha256 := bt_source_sha256 first;
        gr_blocks := isort block_leb blocks;
        gr_edges := isort edge_leb (remove_dups edges);
        gr_issues := isort (λ a b, str_leb (qi_issue_id a) (qi_issue_id b)) issues;
        gr_candidates := ordered;
        gr_validation_profile := "fast_preview" |}.
End fusion.
