(* ===== verification/GraphSpec.v ===== *)
(** * What the fusion of parser candidates guarantees.

    Every candidate ends in exactly one block, a block holds candidates of
    one kind on one page that overlap pairwise, a winner exists only without
    a disagreement, an edge joins blocks of the graph; and the graph does not
    depend on the order in which the parsers' batches are given. *)
From S2P Require Import Prelude PyVal Values Digest Geometry Graph.
Open Scope py_scope.

(* ------------------------------------------------------------------ *)
(** ** Grouping *)
(* ------------------------------------------------------------------ *)

Section grouping.
Context (l : list CandidateBatch) (version : Z).

(** The entries of a group, the later against the earlier ones. *)
Definition group_ok (g : group) : Prop :=
  g_members g ≠ []
  ∧ Forall (λ e, in_bucket e g = true) (g_members g)
  ∧ StronglySorted (λ x y, joins l version y x = Ok true) (g_members g).

Definition members_of (groups : list group) : list entry := groups ≫= g_members.

Lemma place_ok e groups groups' :
  place l version e groups = Ok groups' → Forall group_ok groups →
  Forall group_ok groups' ∧ members_of groups' ≡ₚ e :: members_of groups.
Proof.
  unfold members_of. revert groups'. induction groups as [|g r IH]; intros groups'; cbn.
  - intros [= <-] _. split; [|done]. constructor; [|done]. split; [done|].
    split; [|repeat constructor]. constructor; [|done]. unfold in_bucket. cbn.
    by rewrite Z.eqb_refl, str_eqb_refl.
  - intros [[Hj [= <-]]|[_ H]]%if_result_Ok Hg; apply Forall_cons in Hg as [Hg Hr].
    + destruct (in_bucket e g) eqn:Hb; [|done]. apply all_result_true in Hj.
      destruct Hg as (Hne & Hin & Hs). split.
      * constructor; [|done]. split; [by destruct (g_members g)|]. cbn.
        split; [|by apply StronglySorted_snoc]. apply Forall_app. split; [done|]. by constructor.
      * cbn. rewrite <- app_assoc. symmetry. apply Permutation_middle.
    + apply bind_Ok_inv in H as (r' & H & [= <-]). apply IH in H as [Hok Hp]; [|done].
      split; [by constructor|]. cbn. rewrite Hp. symmetry. apply Permutation_middle.
Qed.

Lemma group_entries_ok ordered groups :
  group_entries l ordered version = Ok groups →
  Forall group_ok groups ∧ members_of groups ≡ₚ ordered_entries ordered.
Proof.
  unfold group_entries. generalize (ordered_entries ordered) as es.
  enough (Hgen : ∀ es acc, Forall group_ok acc →
    fold_result (λ (groups : list group) (e : entry), place l version e groups) acc es = Ok groups →
    Forall group_ok groups ∧ members_of groups ≡ₚ members_of acc ++ es).
  { intros es H. by apply (Hgen es []) in H. }
  induction es as [|e es IH]; intros acc Hacc H; cbn in H.
  - injection H as <-. by rewrite app_nil_r.
  - apply bind_Ok_inv in H as (acc' & Hp & H). apply place_ok in Hp as [Hok Hp]; [|done].
    apply IH in H as [Hg Hm]; [|done]. split; [done|]. rewrite Hm, Hp. cbn.
    apply Permutation_middle.
Qed.
End grouping.

(* ------------------------------------------------------------------ *)
(** ** What a fused graph is made of *)
(* ------------------------------------------------------------------ *)

Section made_of.
Context (nfc str_repr : pystr → pystr) (uuid5 : pystr → pystr → pystr).

(** The normalised texts of the candidates agree. *)
Definition one_text (cs : list CandidateBlock) : Prop :=
  ∀ c c', c ∈ cs → c' ∈ cs → nfc (raw_text (cb_source c)) = nfc (raw_text (cb_source c')).

(** A block of a fused graph: one kind, one page, pairwise overlapping
    candidates; a winner exactly when their texts agree; and an open or
    unreadable issue on it when it has no winner or no place. *)
Record fused_block (version : Z) (issues : list QualityIssue) (b : CanonicalBlock) : Prop := {
  fb_nonempty : kb_candidates b ≠ [];
  fb_uniform : Forall (λ c, cb_kind c = kb_kind b ∧ physical_page (cb_source c) = page_of_block b)
                 (kb_candidates b);
  fb_overlap : StronglySorted (λ x y, matches version x y = Ok true) (kb_candidates b);
  fb_winner : (kb_winner b = Some 0%Z ∧ one_text (kb_candidates b))
              ∨ (kb_winner b = None ∧ ¬ one_text (kb_candidates b));
  fb_quality : kb_quality b ≠ "verified";
  fb_issue : (kb_winner b = None ∨ ∃ c, head (kb_candidates b) = Some c ∧ cb_bbox c = None) →
             ∃ i, i ∈ issues ∧ qi_source_ids i = [kb_source_id b]
                  ∧ (qi_state i = "open" ∨ qi_state i = "unreadable") }.

(** The block a native identifier of a batch ended in. *)
Definition resolves (l : list CandidateBatch) (blocks : list CanonicalBlock)
    (b : CandidateBatch) (id sid : pystr) : Prop :=
  ∃ kb c b', kb ∈ blocks ∧ kb_source_id kb = sid ∧ c ∈ kb_candidates kb
  ∧ b' ∈ l ∧ c ∈ bt_blocks b' ∧ bt_parser_run_id b' = bt_parser_run_id b ∧ native_id c = id.

Record fusion_of (l : list CandidateBatch) (version : Z) (g : CanonicalDocumentGraph) : Prop := {
  fo_partition : gr_blocks g ≫= kb_candidates ≡ₚ l ≫= bt_blocks;
  fo_blocks : Forall (fused_block version (gr_issues g)) (gr_blocks g);
  fo_edges : Forall (λ ed, ∃ b e, b ∈ l ∧ e ∈ bt_edges b ∧ ce_relation e = ed_relation ed
                     ∧ resolves l (gr_blocks g) b (ce_source e) (ed_source ed)
                     ∧ resolves l (gr_blocks g) b (ce_target e) (ed_target ed)) (gr_edges g);
  fo_edges_kept : ∀ b e, b ∈ l → e ∈ bt_edges b →
    ∃ ed, ed ∈ gr_edges g ∧ ed_relation ed = ce_relation e
          ∧ resolves l (gr_blocks g) b (ce_source e) (ed_source ed)
          ∧ resolves l (gr_blocks g) b (ce_target e) (ed_target ed) }.

Lemma in_bucket_iff e g : in_bucket e g = true ↔
  g_page g = physical_page (cb_source e.2) ∧ g_kind g = cb_kind e.2.
Proof. unfold in_bucket. by rewrite andb_true_iff, Z.eqb_eq, str_eqb_eq. Qed.

Lemma dedup_many l : (1 <? py_len (str_dedup l))%Z = false ↔ ∀ x y, x ∈ l → y ∈ l → x = y.
Proof.
  rewrite Z.ltb_ge. unfold py_len. split.
  - intros Hlen x y Hx%elem_of_str_dedup Hy%elem_of_str_dedup.
    destruct (str_dedup l) as [|a [|b r]]; cbn in Hlen; [by apply elem_of_nil in Hx| |lia].
    apply list_elem_of_singleton in Hx, Hy. congruence.
  - intros Heq. pose proof (dedup_NoDup str_eqb str_eqb_eq l) as Hnd.
    change (dedup str_eqb l) with (str_dedup l) in Hnd.
    destruct (str_dedup l) as [|a [|b r]] eqn:E; cbn; [lia|lia|].
    exfalso. assert (a = b) as ->.
    { apply Heq; apply elem_of_str_dedup; rewrite E; [left|right; left]. }
    apply NoDup_cons in Hnd as [Hn _]. apply Hn. left.
Qed.

Lemma conflict_false g : conflict nfc g = false ↔ one_text (g_members g).*2.
Proof.
  unfold conflict. rewrite dedup_many. unfold one_text. split.
  - intros H c c' Hc Hc'.
    apply list_elem_of_fmap in Hc as (e & -> & He), Hc' as (e' & -> & He').
    apply H; apply list_elem_of_fmap; eauto.
  - intros H x y Hx Hy. apply list_elem_of_fmap in Hx as (e & -> & He), Hy as (e' & -> & He').
    by apply H; apply list_elem_of_fmap_2.
Qed.

(** The issue list holds the issue of every group that calls for one. *)
Lemma issues_in manifest tenant groups g i :
  g ∈ groups → issue_of nfc uuid5 (canonical_block nfc str_repr uuid5 manifest tenant g) g = Some i →
  i ∈ isort (λ a b, str_leb (qi_issue_id a) (qi_issue_id b))
        (omap (λ g, issue_of nfc uuid5 (canonical_block nfc str_repr uuid5 manifest tenant g) g) groups).
Proof. intros Hg Hi. apply elem_of_isort, list_elem_of_omap. eauto. Qed.

Lemma canonical_block_fused l version manifest tenant issues g :
  group_ok l version g →
  (∀ i, issue_of nfc uuid5 (canonical_block nfc str_repr uuid5 manifest tenant g) g = Some i → i ∈ issues) →
  fused_block version issues (canonical_block nfc str_repr uuid5 manifest tenant g).
Proof.
  intros (Hne & Hin & Hs) Hissues.
  set (b := canonical_block nfc str_repr uuid5 manifest tenant g) in *.
  destruct (g_members g) as [|e0 r] eqn:Em; [done|]. clear Hne.
  assert (Hc : kb_candidates b = e0.2 :: r.*2) by (cbn; by rewrite Em).
  split.
  - by rewrite Hc.
  - change (kb_kind b) with (match g_members g with e :: _ => cb_kind e.2 | [] => [] end).
    unfold page_of_block. rewrite Hc, Em. change (e0.2 :: r.*2) with ((e0 :: r).*2).
    apply Forall_fmap. rewrite Forall_forall in Hin.
    assert (H0 : in_bucket e0 g = true) by (apply Hin; left). apply in_bucket_iff in H0 as [Hp Hk].
    apply Forall_forall. intros e He. cbn. apply Hin, in_bucket_iff in He as [Hp' Hk'].
    split; congruence.
  - rewrite Hc. change (e0.2 :: r.*2) with ((e0 :: r).*2). apply StronglySorted_fmap.
    eapply StronglySorted_weaken; [|exact Hs]. intros x y. unfold joins.
    by intros [? _]%and_result_true.
  - change (kb_winner b) with (if conflict nfc g then None else Some 0%Z).
    change (kb_candidates b) with (g_members g).*2.
    destruct (conflict nfc g) eqn:Ec; [right|left]; split; try done.
    + rewrite <- conflict_false. congruence.
    + by apply conflict_false.
  - cbn. by destruct (conflict nfc g); [|destruct (unlocated g)].
  - intros Hwhy.
    assert (Hq : str_in (kb_quality b) ["conflicted"; "unlocated"] = true).
    { change (kb_quality b) with (if conflict nfc g then ("conflicted" : pystr)
        else if unlocated g then ("unlocated" : pystr) else ("unverified" : pystr)).
      change (kb_winner b) with (if conflict nfc g then None else Some 0%Z) in Hwhy.
      destruct (conflict nfc g); [done|]. destruct Hwhy as [|(c & Hh & Hb)]; [done|].
      rewrite Hc in Hh. injection Hh as <-. unfold unlocated. rewrite Em.
      destruct (cb_bbox e0.2); [done|]. by rewrite bool_decide_eq_false_2 by by intros [? ?]. }
    unfold issue_of in Hissues. rewrite Hq in Hissues.
    eexists. split; [by apply Hissues|]. cbn. split; [done|]. destruct (existsb _ _); auto.
Qed.

Lemma alias_Some manifest tenant groups key sid :
  alias str_repr uuid5 manifest tenant groups key = Some sid →
  ∃ g e, g ∈ groups ∧ e ∈ g_members g ∧ entry_key e = key
         ∧ sid = group_id str_repr uuid5 manifest tenant g.
Proof.
  unfold alias. intros Ha. apply bind_Some in Ha as (g & Hf & [= <-]).
  apply find_some in Hf as [Hin Hk]. apply in_rev, list_elem_of_In in Hin.
  apply bool_decide_eq_true in Hk. apply list_elem_of_fmap in Hk as (e & -> & He). eauto 10.
Qed.
End made_of.

(* ------------------------------------------------------------------ *)
(** ** Fusion keeps every candidate *)
(* ------------------------------------------------------------------ *)

Section keeps.
Context (nfc str_repr : pystr → pystr) (uuid5 : pystr → pystr → pystr).

Lemma entries_snd (f : CandidateBatch → list CandidateBlock) l :
  ((l ≫= λ b, pair b <$> f b) : list entry).*2 = l ≫= f.
Proof.
  induction l as [|b l IH]; cbn; [done|]. rewrite fmap_app, IH. f_equal.
  induction (f b) as [|c r IHr]; cbn; congruence.
Qed.

Lemma bind_perm_ext {A B} (f g : A → list B) l :
  (∀ x, f x ≡ₚ g x) → l ≫= f ≡ₚ l ≫= g.
Proof. intros H. induction l as [|x l IH]; cbn; [done|]. by rewrite H, IH. Qed.

Lemma ordered_entries_perm l : (ordered_entries (isort batch_leb l)).*2 ≡ₚ l ≫= bt_blocks.
Proof.
  unfold ordered_entries. rewrite entries_snd.
  rewrite (bind_perm_ext _ bt_blocks) by (intros; apply isort_perm). by rewrite isort_perm.
Qed.

Lemma ordered_entries_elem l e :
  e ∈ ordered_entries (isort batch_leb l) → e.1 ∈ l ∧ e.2 ∈ bt_blocks e.1.
Proof.
  intros (b & He & Hb)%list_elem_of_bind. apply list_elem_of_fmap in He as (c & -> & Hc).
  cbn. apply elem_of_isort in Hb, Hc. done.
Qed.

Lemma resolves_of l version manifest tenant groups b id sid :
  members_of groups ≡ₚ ordered_entries (isort batch_leb l) →
  Forall (group_ok l version) groups →
  alias str_repr uuid5 manifest tenant groups (bt_parser_run_id b, id) = Some sid →
  resolves l (isort block_leb (canonical_block nfc str_repr uuid5 manifest tenant <$> groups)) b id sid.
Proof.
  intros Hp Hok Ha. apply alias_Some in Ha as (g & e & Hg & He & [= Hrun Hid] & ->).
  assert (Hin : e ∈ members_of groups) by (apply list_elem_of_bind; eauto).
  rewrite Hp in Hin. apply ordered_entries_elem in Hin as [Hb Hc].
  exists (canonical_block nfc str_repr uuid5 manifest tenant g), e.2, e.1.
  split; [apply elem_of_isort, list_elem_of_fmap; eauto|]. split; [done|].
  split; [cbn; apply list_elem_of_fmap; eauto|]. done.
Qed.

(** Fusion loses nothing and decides nothing it should not. The blocks of a fused graph
    partition the candidates of all batches; each block holds candidates of one kind on one page,
    any two of which overlap, has a winner exactly when their normalised texts agree, and carries
    an open or unreadable issue when it has no winner or no place; every edge joins blocks of the
    graph and stands for a native edge between candidates of one batch, and every native edge is
    kept. *)
Theorem fusion_partition l tenant version mixed g :
  fuse_candidates nfc str_repr uuid5 l tenant version mixed = Ok g →
  fusion_of nfc l version g.
Proof.
  unfold fuse_candidates. intros H. open_run H.
  match goal with H : of_option _ (head l) = Ok ?b |- _ => rename b into first end.
  match goal with H : group_entries _ _ _ = Ok ?gs |- _ =>
    rename gs into groups; apply group_entries_ok in H as [Hok Hp] end.
  match goal with H : map_result _ _ = Ok ?es |- _ =>
    rename es into edges; rename H into Hedges end.
  injection H as <-. apply map_result_Ok in Hedges.
  assert (Hedge : ∀ b e ed, fuse_edge str_repr uuid5 (bt_parse_manifest_id first) tenant groups
                              (bt_parser_run_id b) e = Ok ed →
    ed_relation ed = ce_relation e
    ∧ resolves l (isort block_leb (canonical_block nfc str_repr uuid5 (bt_parse_manifest_id first)
                                    tenant <$> groups)) b (ce_source e) (ed_source ed)
    ∧ resolves l (isort block_leb (canonical_block nfc str_repr uuid5 (bt_parse_manifest_id first)
                                    tenant <$> groups)) b (ce_target e) (ed_target ed)).
  { intros b e ed He. unfold fuse_edge in He. apply bind_Ok_inv in He as (o & Ho%of_option_Ok & He).
    apply bind_Ok_inv in He as (t & Ht%of_option_Ok & [= <-]). cbn.
    split; [done|]. split; by eapply resolves_of. }
  split; cbn [gr_blocks gr_edges gr_issues].
  - rewrite isort_perm, <- ordered_entries_perm, <- Hp. clear.
    induction groups as [|g r IH]; cbn; [done|]. by rewrite IH, fmap_app.
  - apply Forall_forall. intros b Hb%elem_of_isort.
    apply list_elem_of_fmap in Hb as (g & -> & Hg). rewrite Forall_forall in Hok.
    eapply canonical_block_fused; [by apply Hok|]. intros i Hi. by eapply issues_in.
  - apply Forall_forall. intros ed Hed%elem_of_isort. rewrite elem_of_remove_dups in Hed.
    apply list_elem_of_lookup in Hed as [n Hn].
    eapply Forall2_lookup_r in Hedges as ([b e] & Hbe & He); [|exact Hn]. cbn in He.
    apply list_elem_of_lookup_2, list_elem_of_bind in Hbe as (b' & Hbe & Hb').
    apply list_elem_of_fmap in Hbe as (e' & [= -> ->] & He'). rewrite elem_of_isort in Hb'.
    destruct (Hedge _ _ _ He) as (Hr & Hs & Ht). exists b', e'. eauto 10.
  - intros b e Hb He.
    assert (Hbe : (b, e) ∈ isort batch_leb l ≫= λ b, pair b <$> bt_edges b).
    { apply list_elem_of_bind. exists b. rewrite elem_of_isort.
      split; [apply list_elem_of_fmap; eauto|done]. }
    apply list_elem_of_lookup in Hbe as [n Hn].
    eapply Forall2_lookup_l in Hedges as (ed & Hed & Hf); [|exact Hn]. cbn in Hf.
    destruct (Hedge _ _ _ Hf) as (Hr & Hs & Ht). exists ed.
    rewrite elem_of_isort, elem_of_remove_dups. apply list_elem_of_lookup_2 in Hed. eauto.
Qed.
End keeps.

(* ------------------------------------------------------------------ *)
(** ** The order of the batches is irrelevant *)
(* ------------------------------------------------------------------ *)

Lemma check_batches_Ok tenant version manifest sha seen l u :
  check_batches tenant version manifest sha seen l = Ok u ↔
  Forall (λ b, bt_tenant_id b = tenant ∧ bt_document_version_id b = version
               ∧ bt_parse_manifest_id b = manifest ∧ bt_source_sha256 b = sha) l
  ∧ NoDup (bt_parser_run_id <$> l) ∧ Forall (λ b, bt_parser_run_id b ∉ seen) l.
Proof.
  destruct u. revert seen. induction l as [|b l IH]; intros seen; cbn.
  { split; [repeat split; constructor|done]. }
  rewrite !Forall_cons, NoDup_cons, list_elem_of_fmap. split.
  - intros H. apply bind_Ok_inv in H as (? & Hid%require_Ok & H).
    apply bind_Ok_inv in H as (? & Hn%reject_Ok%str_in_false & H).
    apply IH in H as (Hall & Hnd & Hseen). rewrite !andb_true_iff, !str_eqb_eq in Hid.
    rewrite Forall_forall in Hseen. split; [naive_solver|]. split; [split; [|done]|split; [done|]].
    + intros (b' & Hr & Hb'). apply (Hseen _ Hb'). rewrite Hr. left.
    + apply Forall_forall. intros b' Hb'. specialize (Hseen _ Hb'). set_solver.
  - intros (((H1 & H2 & H3 & H4) & Hall) & (Hn & Hnd) & Hns & Hseen).
    rewrite H1, H2, H3, H4, !str_eqb_refl. cbn.
    apply str_in_false in Hns. rewrite Hns. cbn. apply IH. split; [done|]. split; [done|].
    apply Forall_forall. rewrite Forall_forall in Hseen. intros b' Hb'.
    rewrite not_elem_of_cons. split; [|auto]. intros Hr. apply Hn. eauto.
Qed.

(** Batches as their constructor leaves them. *)
Definition batch_valid (b : CandidateBatch) : Prop := mk_CandidateBatch b = Ok b.

Lemma check_batch_blocks_NoDup b seen l u :
  check_batch_blocks b seen l = Ok u → NoDup (native_id <$> l) ∧ Forall (λ c, native_id c ∉ seen) l.
Proof.
  revert seen. induction l as [|c l IH]; intros seen; cbn; [repeat constructor|].
  intros H. open_run H. apply IH in H as [Hnd Hseen].
  match goal with H : reject _ _ = Ok _ |- _ => apply reject_Ok, str_in_false in H as Hc end.
  rewrite Forall_forall in Hseen. split.
  - constructor; [|done]. intros (c' & Hc' & Hin)%list_elem_of_fmap.
    apply (Hseen _ Hin). rewrite <- Hc'. left.
  - constructor; [done|]. apply Forall_forall. intros c' Hin. specialize (Hseen _ Hin). set_solver.
Qed.

Lemma batch_valid_ids b : batch_valid b → NoDup (native_id <$> bt_blocks b).
Proof.
  unfold batch_valid, mk_CandidateBatch. intros H. open_run H.
  match goal with H : check_batch_blocks _ _ _ = Ok _ |- _ => by apply check_batch_blocks_NoDup in H as [? _] end.
Qed.

Section order.
Context (l k : list CandidateBatch) (Hperm : l ≡ₚ k).
Context (Hruns : NoDup (bt_parser_run_id <$> l)) (Hvalid : Forall batch_valid l).
#[local] Set Default Proof Using "All".

Lemma entries_key_unique x y :
  x ∈ entries_of l → y ∈ entries_of l → entry_key x = entry_key y → x = y.
Proof.
  unfold entries_of, entry_key. intros (b & Hx & Hb)%list_elem_of_bind (b' & Hy & Hb')%list_elem_of_bind.
  apply list_elem_of_fmap in Hx as (c & -> & Hc), Hy as (c' & -> & Hc'). cbn. intros [= Hr Hid].
  assert (b = b') as <- by by eapply NoDup_fmap_unique.
  rewrite Forall_forall in Hvalid. f_equal.
  eapply NoDup_fmap_unique; [by apply batch_valid_ids, Hvalid|done|done|done].
Qed.

Lemma lookup_entry_perm p key :
  lookup_entry (List.filter p (entries_of l)) key = lookup_entry (List.filter p (entries_of k)) key.
Proof.
  unfold lookup_entry. apply find_perm_unique.
  - intros x y Hx Hy Hkx%bool_decide_eq_true Hky%bool_decide_eq_true.
    apply list_elem_of_In, in_rev, filter_In in Hx as [Hx%list_elem_of_In _].
    apply list_elem_of_In, in_rev, filter_In in Hy as [Hy%list_elem_of_In _].
    apply entries_key_unique; [done|done|]. by rewrite Hkx, Hky.
  - rewrite <- !Permutation_rev. apply filter_list_perm. unfold entries_of. by rewrite Hperm.
Qed.

Lemma table_lookup_perm run id : table_lookup l run id = table_lookup k run id.
Proof. unfold table_lookup. destruct id; cbn; [|done]. by rewrite lookup_entry_perm. Qed.

Lemma joins_perm version new item : joins l version new item = joins k version new item.
Proof. unfold joins, compatible_tables. by rewrite !table_lookup_perm. Qed.

Lemma place_perm version e groups : place l version e groups = place k version e groups.
Proof.
  induction groups as [|g r IH]; cbn; [done|]. rewrite IH. unfold if_result. f_equal.
  destruct (in_bucket e g); [|done].
  induction (g_members g) as [|x m IHm]; cbn; [done|]. by rewrite joins_perm, IHm.
Qed.

Lemma ordered_perm : isort batch_leb l = isort batch_leb k.
Proof.
  pose proof str_eqb_eq as Heq.
  assert (Hst : ∀ m, StronglySorted (λ a b, batch_leb a b = true) (isort batch_leb m)).
  { intros m. apply isort_sorted; intros; unfold batch_leb in *.
    - apply (lex_leb_total str_eqb str_leb str_leb); auto using str_leb_total.
    - eapply (lex_leb_trans str_eqb str_leb str_leb); eauto using str_leb_antisym, str_leb_trans. }
  apply (StronglySorted_perm_unique batch_leb); [|done|done|by rewrite !isort_perm].
  intros x y Hx%elem_of_isort Hy%elem_of_isort H1 H2.
  apply (NoDup_fmap_unique bt_parser_run_id l); [done|done|done|].
  eapply (lex_leb_antisym str_eqb str_leb str_leb) in H1; eauto using str_leb_antisym.
  congruence.
Qed.

Lemma group_entries_perm ordered version :
  group_entries l ordered version = group_entries k ordered version.
Proof.
  unfold group_entries. generalize (@nil group) as acc.
  induction (ordered_entries ordered) as [|e es IH]; intros acc; cbn; [done|].
  rewrite place_perm. destruct (place k version e acc); cbn; auto.
Qed.
End order.

Section irrelevant.
Context (nfc str_repr : pystr → pystr) (uuid5 : pystr → pystr → pystr).

(** C35: the order in which the parsers' batches are given is irrelevant: any permutation of them
    is fused to the same graph, with the same blocks in the same order, the same identifiers,
    edges and issues. *)
Theorem fusion_order_irrelevant l k tenant version mixed g :
  Forall batch_valid l → l ≡ₚ k →
  fuse_candidates nfc str_repr uuid5 l tenant version mixed = Ok g →
  fuse_candidates nfc str_repr uuid5 k tenant version mixed = Ok g.
Proof.
  intros Hvalid Hp. unfold fuse_candidates. intros H.
  apply bind_Ok_inv in H as (b0 & Hf%of_option_Ok & H).
  apply bind_Ok_inv in H as (u1 & H1 & H). apply bind_Ok_inv in H as (u2 & H2 & H).
  apply bind_Ok_inv in H as (u3 & H3 & H). apply bind_Ok_inv in H as (u4 & H4 & H).
  apply check_batches_Ok in H4 as (Hid & Hruns & _).
  assert (Hfirst : b0 ∈ l) by (destruct l; [done|injection Hf as <-; left]).
  destruct (head k) as [b1|] eqn:Hf'.
  2:{ destruct k; [|done]. by apply Permutation_sym, Permutation_nil in Hp as ->. }
  assert (Hfirst' : b1 ∈ l) by (rewrite Hp; destruct k; [done|injection Hf' as <-; left]).
  pose proof Hid as Hid'. rewrite Forall_forall in Hid.
  destruct (Hid _ Hfirst) as (T1 & V1 & M1 & S1), (Hid _ Hfirst') as (T2 & V2 & M2 & S2).
  cbn [of_option mbind result_bind]. rewrite H1. cbn [mbind result_bind]. rewrite H2.
  cbn [mbind result_bind]. rewrite <- (existsb_perm _ _ _ Hp), H3. cbn [mbind result_bind].
  assert (check_batches tenant (bt_document_version_id b1) (bt_parse_manifest_id b1)
                 (bt_source_sha256 b1) [] k = Ok tt) as ->.
  { apply check_batches_Ok. rewrite V2, M2, S2.
    split; [by rewrite <- Hp|]. split; [by rewrite <- Hp|].
    apply Forall_forall. intros ? _. apply not_elem_of_nil. }
  cbn [mbind result_bind]. rewrite <- (ordered_perm l k Hp Hruns Hvalid).
  rewrite <- (group_entries_perm l k Hp Hruns Hvalid), V2, M2, S2. exact H.
Qed.
End irrelevant.

(* ------------------------------------------------------------------ *)
(** ** Two parsers on one page *)
(* ------------------------------------------------------------------ *)

Definition fl (n : N) : spec_float := PyFloat.of_decimal false n 0.

Definition sample_page : PageGeometry :=
  {| width_pt := fl 100; height_pt := fl 100; rotation := 0;
     crop_box := BBox f_zero f_zero (fl 100) (fl 100) |}.

Definition version_id : pystr := "7c9e6679-7425-40de-944b-e07fc1f90ae7".
Definition manifest_id : pystr := "7c9e6679-7425-40de-944b-e07fc1f90ae8".
Definition tenant_uuid : pystr := "7c9e6679-7425-40de-944b-e07fc1f90ae9".
Definition run_a : pystr := "7c9e6679-7425-40de-944b-e07fc1f90aea".
Definition run_b : pystr := "7c9e6679-7425-40de-944b-e07fc1f90aeb".

(** A candidate in the box [x, y, x + 40, y + 10]. *)
Definition sample_block (run id kind text : pystr) (x y : N) : CandidateBlock :=
  {| cb_kind := kind;
     cb_source := {| ns_document_version_id := version_id; ns_parse_manifest_id := manifest_id;
                     ns_parser_run_id := run; ns_native_id := id; physical_page := 1;
                     ns_label := None;
                     native_bbox := Some (BBox (fl x) (fl y) (fl (x + 40)) (fl (y + 10)));
                     native_coordinate_system := "pdf_bottom_left_points"; raw_text := text;
                     ns_char_start := 0; ns_char_end := py_len text |};
     cb_geometry := sample_page; cb_context := []; cb_parser_bbox := None;
     cb_parser_system := "pdf_bottom_left_points"; cb_to_canonical := None;
     cb_table_native_id := None; cb_row := None; cb_column := None; cb_row_span := None;
     cb_column_span := None |}.

Definition sample_batch (run name : pystr) (blocks : list CandidateBlock)
    (edges : list CandidateEdge) : CandidateBatch :=
  {| bt_tenant_id := tenant_uuid; bt_document_version_id := version_id;
     bt_parse_manifest_id := manifest_id;
     bt_source_sha256 := "0123456789abcdef0123456789abcdef0123456789abcdef0123456789abcdef";
     bt_parser_run_id := run; bt_parser_name := name; bt_parser_version := "1";
     bt_parser_family := name;
     bt_config_hash := "0123456789abcdef0123456789abcdef0123456789abcdef0123456789abcdef";
     bt_blocks := blocks; bt_edges := edges; bt_synthetic := true |}.

(** The parsers agree on "é", spelled in two ways, and disagree on a number;
    one of them also sees a footnote of the number. *)
Definition sample_batches : list CandidateBatch :=
  [ sample_batch run_b "ocr"
      [ sample_block run_b "p1" "paragraph" ([101; 769]%N) 11 10;
        sample_block run_b "p2" "paragraph" "13" 10 50 ] [];
    sample_batch run_a "native"
      [ sample_block run_a "n2" "paragraph" "12" 10 50;
        sample_block run_a "n1" "paragraph" "é" 10 10;
        sample_block run_a "n3" "footnote" "Scope 1" 10 80 ]
      [ {| ce_source := "n3"; ce_target := "n2"; ce_relation := "footnote_of" |} ] ].

Definition sample_repr (s : pystr) : pystr := "'" ++ s ++ "'".
Definition sample_uuid5 (ns name : pystr) : pystr := ns ++ "/" ++ name.

Definition sample_fusion (l : list CandidateBatch) : result CanonicalDocumentGraph :=
  fuse_candidates nfc_sample sample_repr sample_uuid5 l tenant_uuid 3 false.

Lemma sample_fusion_ok : is_ok (sample_fusion sample_batches) = true.
Proof. vm_compute. reflexivity. Qed.

(** Three blocks, one winner lost to the disagreement, one edge, one issue. *)
Lemma fusion_partition_witness :
  ∃ g, sample_fusion sample_batches = Ok g ∧ fusion_of nfc_sample sample_batches 3 g.
Proof.
  pose proof sample_fusion_ok as H. destruct (sample_fusion sample_batches) as [g|e] eqn:E; [|discriminate H].
  exists g. split; [done|].
  exact (fusion_partition nfc_sample sample_repr sample_uuid5 sample_batches tenant_uuid 3%Z false
           g E).
Defined.

Lemma sample_batches_valid : Forall batch_valid sample_batches.
Proof. repeat constructor. Qed.

Lemma fusion_order_irrelevant_witness :
  ∃ g, sample_fusion (rev sample_batches) = Ok g.
Proof.
  pose proof sample_fusion_ok as H. destruct (sample_fusion sample_batches) as [g|e] eqn:E; [|discriminate H].
  exists g.
  exact (fusion_order_irrelevant nfc_sample sample_repr sample_uuid5 sample_batches
           (rev sample_batches) tenant_uuid 3%Z false g sample_batches_valid (Permutation_rev sample_batches) E).
Defined.
