(* ===== verification/Numeric.v ===== *)
(** * Numeric consistency of a claim with the tables it cites.

    [domain/numeric.py] over the canonical graph, with the period syntax of
    [domain/periods.py]: accepted bindings, the verification of every cited
    span, the holds of notes and open issues along the table lineage, the
    interval a printed number stands for, and the verdict of a comparison,
    sum or rate.  A [Fraction] is a rational up to [==]; its numerator and
    denominator are those of [Qred].  A Python set is a list: only membership
    and emptiness are used of it. *)
From S2P Require Import Prelude PyVal JsonCodec Decimal Values PyDate Digest RulePack Geometry Graph.
From Stdlib Require Import QArith Qreduction.
Open Scope nat_scope.
Open Scope py_scope.

(* ------------------------------------------------------------------ *)
(** ** Literals *)
(* ------------------------------------------------------------------ *)

(** A numeral: its sign, integer digits without separators and fraction. *)
Record numeral : Set := { nu_neg : bool; nu_int : pystr; nu_frac : pystr }.

(** [(?:,[0-9]{3})] repeated, greedily. *)
Fixpoint scan_groups (fuel : nat) (s : pystr) : pystr * pystr :=
  match fuel with
  | O => ([], s)
  | S fuel =>
      match eat 44 s with
      | Some r =>
          if (length (take 3 r) =? 3)%nat && all_digits (take 3 r) then
            let '(ds, r') := scan_groups fuel (drop 3 r) in (take 3 r ++ ds, r')
          else ([], s)
      | None => ([], s)
      end
  end.

(** [[+-]?(?:[0-9]{1,3}(?:,[0-9]{3})+|[0-9]+)(?:\.[0-9]+)?] at the start of [s].
    [domain/numeric.py:26 _NUMBER] *)
Definition scan_numeral (s : pystr) : option (numeral * pystr) :=
  let '(neg, r) := match eat 43 s with Some r => (false, r) | None => scan_minus s end in
  let '(ds, r) := span_digits r in
  if negb (nonempty ds) then None
  else
    let '(gs, r) := if (length ds <=? 3)%nat then scan_groups (length r) r else ([], r) in
    let '(fs, r) := scan_frac r in
    Some ({| nu_neg := neg; nu_int := ds ++ gs; nu_frac := fs |}, r).

(** [_NUMBER.fullmatch(raw.strip())]: the numeral and the unit after it.
    [domain/numeric.py:26 _NUMBER] *)
Definition NUMBER (raw : pystr) : option (numeral * option pystr) :=
  '(n, r) ← scan_numeral (strip raw);
  match r with
  | [] => Some (n, None)
  | c :: _ =>
      if is_space c && negb (existsb (N.eqb 10) (lstrip r)) then Some (n, Some (lstrip r)) else None
  end.

(** [(?i:...)] of a literal letter also matches its Unicode case variants. *)
Definition ignore_case (c : N) : N :=
  if ((c =? 304) || (c =? 305))%N then 105%N else lower_char c.

(** [domain/numeric.py:29-36 unit_note_literal] *)
Definition NOTE_UNITS : list pystr :=
  ["tCO2e"; "tCO₂e"; "kgCO2e"; "t"; "kg"; "g"; "GJ"; "TJ"; "MJ"; "kWh"; "MWh"; "GWh"; "m3"; "m³";
   "㎥"; "L"; "%"; "%p"; "톤"; "원"; "백만원"; "억원"; "개"; "명"; "건"; "대"].

(** [domain/numeric.py:29-36 unit_note_literal] *)
Definition unit_note_literal (text : pystr) : option pystr :=
  let t := strip text in
  r ← (if starts_with "단위" t then Some (drop 2 t)
       else if starts_with "unit" (ignore_case <$> t) then Some (drop 4 t) else None);
  r ← eat 58 (lstrip r);
  let r := lstrip r in
  if str_in (if starts_with "천 " r then drop 2 r else r) NOTE_UNITS then Some r else None.

(** [domain/numeric.py:39-42 scope_note_literal] *)
Definition scope_note_literal (text : pystr) : option pystr :=
  let t := strip text in
  let t := if starts_with "Scope:" t then lstrip (drop 6 t) else t in
  if str_in t ["Scope 1"; "Scope 2"; "Scope 3"] then Some t else None.

(* ------------------------------------------------------------------ *)
(** ** Periods *)
(* ------------------------------------------------------------------ *)

(** An optional [FY], a year, an optional mark and quarter, in any case: the year.
    [domain/periods.py:12 is_supported_period] *)
Definition fiscal_period (t : pystr) : option Z :=
  let t := if starts_with "fy" (lower t) then lstrip (drop 2 t) else t in
  '(y, r) ← parse_digits 4 t;
  let r := match eat 45380 r with Some r => r | None => r end in
  match r with
  | [] => Some y
  | c :: _ =>
      let q := lower (lstrip r) in
      if is_space c && str_in q ["q1"; "q2"; "q3"; "q4"] then Some y else None
  end.

(** [[-–—~]] *)
Definition range_dash (c : N) : bool := ((c =? 45) || (c =? 8211) || (c =? 8212) || (c =? 126))%N.

(** [domain/periods.py:14 is_supported_period] *)
Definition year_range (t : pystr) : option (Z * Z) :=
  let year_mark r := match eat 45380 r with Some r => r | None => r end in
  '(a, r) ← parse_digits 4 t;
  match lstrip (year_mark r) with
  | c :: r =>
      if range_dash c then
        '(b, r) ← parse_digits 4 (lstrip r);
        if nonempty (year_mark r) then None else Some (a, b)
      else None
  | [] => None
  end.

(** The separator of two dates with the blanks around it: what follows.
    [domain/periods.py:17 is_supported_period] *)
Definition date_range_separator (s : pystr) : option pystr :=
  let blanks := take_while is_space s in
  let r := lstrip s in
  if starts_with "to" r then Some (lstrip (drop 2 r))
  else
    match r with
    | 45%N :: r' =>
        if bool_decide (last blanks = Some 32%N) && starts_with " " r' then Some (lstrip r') else None
    | c :: r' => if ((c =? 126) || (c =? 8211) || (c =? 8212))%N then Some (lstrip r') else None
    | [] => None
    end.

(** [domain/periods.py:16-20 is_supported_period] *)
Definition date_range (t : pystr) : option (pystr * option pystr) :=
  '(a, r) ← eat_date t;
  match r with
  | [] => Some (a, None)
  | _ => r ← date_range_separator r; '(b, r) ← eat_date r;
         if nonempty r then None else Some (a, Some b)
  end.

(** [domain/periods.py:7-26 is_supported_period] *)
Definition is_supported_period (value : option pystr) : bool :=
  match value with
  | None => false
  | Some v =>
      let t := strip v in
      match fiscal_period t with
      | Some y => (0 <? y)%Z
      | None =>
          match year_range t with
          | Some (a, b) => ((0 <? a) && (a <=? b))%Z
          | None =>
              match date_range t with
              | Some (a, b) =>
                  match date_fromisoformat a, date_fromisoformat (default a b) with
                  | Some s, Some e => (s <=? e)%Z
                  | _, _ => false
                  end
              | None => false
              end
          end
      end
  end.

(* ------------------------------------------------------------------ *)
(** ** Records *)
(* ------------------------------------------------------------------ *)

(** [domain/numeric.py:23 CheckKind] *)
Inductive CheckKind : Set := Comparison | Sum | Reduction | Growth | ProductReduction.

#[export] Instance check_kind_eq_dec : EqDecision CheckKind.
Proof. solve_decision. Defined.

Definition kind_str (k : CheckKind) : pystr :=
  match k with
  | Comparison => "comparison" | Sum => "sum" | Reduction => "reduction" | Growth => "growth"
  | ProductReduction => "product_reduction"
  end.

(** [domain/numeric.py:24 CheckStatus] *)
Inductive CheckStatus : Set := Consistent | Inconsistent | NotComparable | NotComputable.

#[export] Instance check_status_eq_dec : EqDecision CheckStatus.
Proof. solve_decision. Defined.

(** [domain/numeric.py:95-103 NumericClaim] *)
Record NumericClaim : Set := {
  nc_claim_id : pystr; nc_tenant_id : pystr; nc_document_version_id : pystr;
  nc_parse_manifest_id : pystr; nc_source_sha256 : pystr; nc_quote : pystr;
  nc_source_quality : pystr; nc_source_refs : list SourceRef }.

(** [domain/numeric.py:106-131 NumericObservation] *)
Record NumericObservation : Set := {
  ob_id : pystr; ob_table_id : pystr; ob_row : Z; ob_column : Z; ob_tenant_id : pystr;
  ob_document_version_id : pystr; ob_parse_manifest_id : pystr; ob_source_sha256 : pystr;
  ob_metric_raw : pystr; ob_scope : option pystr; ob_subject : option pystr;
  ob_reporting_period : pystr; ob_scope2_basis : option pystr;
  ob_organizational_boundary : option pystr; ob_unit_raw : option pystr;
  ob_unit_canonical : option pystr; ob_scale_multiplier : pystr; ob_denominator : option pystr;
  ob_value_raw : pystr; ob_value_decimal : option pystr; ob_value_state : pystr;
  ob_quality : pystr; ob_source_refs : list SourceRef; ob_source_blocks : list CanonicalBlock;
  ob_parent_relations : list (pystr * pystr * pystr) }.

(** [domain/numeric.py:134-153 AggregationRelation] *)
Record AggregationRelation : Set := {
  ag_target_claim_id : pystr; ag_observation_ids : list pystr; ag_binding_sha256 : pystr;
  ag_source_refs : list SourceRef; ag_relation : pystr; ag_acceptance_state : pystr }.

(** The fields have the types the constructor checks.
    [domain/numeric.py:156-170 NumericCondition] *)
Record NumericCondition : Set := {
  co_source_ref : SourceRef; co_observation_ids : list pystr; co_binding_sha256 : pystr;
  co_relation : pystr; co_acceptance_state : pystr; co_reviewed_by : pystr }.

(** [domain/numeric.py:173-205 ClaimBinding] *)
Record ClaimBinding : Set := {
  bi_claim_id : pystr; bi_tenant_id : pystr; bi_document_version_id : pystr; bi_kind : CheckKind;
  bi_observation_ids : list pystr; bi_reported_value : option pystr; bi_metric_raw : pystr;
  bi_scope : option pystr; bi_subject : option pystr; bi_scope2_basis : option pystr;
  bi_organizational_boundary : option pystr; bi_unit : option pystr; bi_denominator : option pystr;
  bi_source_refs : list SourceRef; bi_parse_manifest_id : option pystr;
  bi_reporting_period : option pystr; bi_quantity_kind : option pystr;
  bi_baseline_period : option pystr; bi_reported_value_ref : option SourceRef;
  bi_binding_accepted : bool; bi_aggregation : option AggregationRelation;
  bi_baseline_subject : option pystr; bi_subject_ref : option SourceRef;
  bi_baseline_subject_ref : option SourceRef; bi_product_comparison_accepted : bool;
  bi_conditions : list NumericCondition }.

(** The observations a kind of check needs; [None] for any number.
    [domain/numeric.py:219-224 ClaimBinding.__post_init__] *)
Definition arity (k : CheckKind) : option Z :=
  match k with
  | Comparison => Some 1%Z
  | Sum => None
  | Reduction | Growth | ProductReduction => Some 2%Z
  end.

(** [domain/numeric.py:207-236 ClaimBinding.__post_init__] *)
Definition mk_ClaimBinding (b : ClaimBinding) : result ClaimBinding :=
  _ ← require (nonempty (bi_claim_id b) && nonempty (bi_tenant_id b)
               && nonempty (bi_document_version_id b) && nonempty_list (bi_observation_ids b)
               && str_distinct (bi_observation_ids b)) (ValueError "invalid numeric claim binding");
  _ ← require (match arity (bi_kind b) with
               | Some n => (py_len (bi_observation_ids b) =? n)%Z
               | None => true end) (ValueError "requires baseline and current observations");
  _ ← require (nonempty_list (bi_source_refs b)) (ValueError "numeric binding requires source_refs");
  _ ← require (forallb (λ r, document_version_id r =s? bi_document_version_id b)
                 (bi_source_refs b)) (ValueError "numeric binding source version mismatch");
  _ ← reject (nonempty_list (bi_conditions b)
              && negb (bool_decide (bi_kind b ∈ [Growth; ProductReduction])))
        (ValueError "numeric conditions require a supported rate binding");
  Ok b.

(** [domain/numeric.py:239-249 CheckResult] *)
Record CheckResult : Set := {
  cr_claim_id : pystr; cr_kind : CheckKind; cr_status : CheckStatus;
  cr_reported_value : option pystr; cr_computed_value : option pystr;
  cr_observation_ids : list pystr; cr_source_refs : list SourceRef;
  cr_reason : option pystr; cr_exact_ratio : option (pystr * pystr) }.

(** ** [asdict] of a binding *)

Definition strs_val (l : list pystr) : pyval := PTuple (PStr <$> l).
Definition refs_val (l : list SourceRef) : pyval := PTuple (source_ref_val <$> l).
Definition opt_ref_val (o : option SourceRef) : pyval :=
  match o with Some r => source_ref_val r | None => PNone end.

(** [domain/numeric.py:134-153 AggregationRelation] *)
Definition aggregation_val (a : AggregationRelation) : pyval :=
  PDict [("target_claim_id", PStr (ag_target_claim_id a));
         ("observation_ids", strs_val (ag_observation_ids a));
         ("binding_sha256", PStr (ag_binding_sha256 a));
         ("source_refs", refs_val (ag_source_refs a));
         ("relation", PStr (ag_relation a));
         ("acceptance_state", PStr (ag_acceptance_state a))].

(** [domain/numeric.py:156-170 NumericCondition] *)
Definition condition_val (c : NumericCondition) : pyval :=
  PDict [("source_ref", source_ref_val (co_source_ref c));
         ("observation_ids", strs_val (co_observation_ids c));
         ("binding_sha256", PStr (co_binding_sha256 c));
         ("relation", PStr (co_relation c));
         ("acceptance_state", PStr (co_acceptance_state c));
         ("reviewed_by", PStr (co_reviewed_by c))].

(** The fields a binding had before the product comparison was added. *)
Definition legacy_fields (b : ClaimBinding) (aggregation : pyval) : pydict :=
  [("claim_id", PStr (bi_claim_id b)); ("tenant_id", PStr (bi_tenant_id b));
   ("document_version_id", PStr (bi_document_version_id b)); ("kind", PStr (kind_str (bi_kind b)));
   ("observation_ids", strs_val (bi_observation_ids b));
   ("reported_value", opt_val (bi_reported_value b)); ("metric_raw", PStr (bi_metric_raw b));
   ("scope", opt_val (bi_scope b)); ("subject", opt_val (bi_subject b));
   ("scope2_basis", opt_val (bi_scope2_basis b));
   ("organizational_boundary", opt_val (bi_organizational_boundary b));
   ("unit", opt_val (bi_unit b)); ("denominator", opt_val (bi_denominator b));
   ("source_refs", refs_val (bi_source_refs b));
   ("parse_manifest_id", opt_val (bi_parse_manifest_id b));
   ("reporting_period", opt_val (bi_reporting_period b));
   ("quantity_kind", opt_val (bi_quantity_kind b));
   ("baseline_period", opt_val (bi_baseline_period b));
   ("reported_value_ref", opt_ref_val (bi_reported_value_ref b));
   ("binding_accepted", PBool (bi_binding_accepted b)); ("aggregation", aggregation)].

Definition product_fields (b : ClaimBinding) : pydict :=
  [("baseline_subject", opt_val (bi_baseline_subject b));
   ("subject_ref", opt_ref_val (bi_subject_ref b));
   ("baseline_subject_ref", opt_ref_val (bi_baseline_subject_ref b));
   ("product_comparison_accepted", PBool (bi_product_comparison_accepted b))].

Definition conditions_field (b : ClaimBinding) : pydict :=
  [("conditions", PTuple (condition_val <$> bi_conditions b))].

(* ------------------------------------------------------------------ *)
(** ** Numbers and the intervals they stand for *)
(* ------------------------------------------------------------------ *)

Definition interval : Set := Q * Q.

(** [domain/numeric.py:263-270 _decimal] *)
Definition decimal_value (value : option pystr) : option decimal :=
  v ← (value : option pystr);
  match d_parse v with Some (Finite d) => Some d | _ => None end.

(** [Fraction(Decimal(text))] of a numeral's text. *)
Definition numeral_value (n : numeral) : Q :=
  d_value {| d_neg := nu_neg n; d_coef := digits_value (nu_int n ++ nu_frac n);
             d_exp := - py_len (nu_frac n) |}.

(** [domain/numeric.py:273-280 _display] *)
Definition display (raw : pystr) (scale : Q) : option (Q * interval) :=
  '(n, _) ← NUMBER raw;
  let value := (numeral_value n * scale)%Q in
  let half_step := (1 / inject_Z (2 * 10 ^ py_len (nu_frac n)) * scale)%Q in
  Some (value, ((value - half_step)%Q, (value + half_step)%Q)).

(** [str(n)] is limited to 4300 digits. *)
Definition int_str (z : Z) : result pystr :=
  let s := Z_dec z in
  _ ← reject (int_max_str_digits <? py_len (N_dec (Z.abs_N z)))%Z
        (ValueError "Exceeds the limit (4300 digits) for integer string conversion");
  Ok s.

(** [while denominator % factor == 0: denominator //= factor], for a positive
    denominator: it has at most [log2] factors.
    [domain/numeric.py:285-287 _exact_decimal] *)
Fixpoint strip_factor (fuel : nat) (f d : Z) : Z :=
  match fuel with
  | O => d
  | S fuel => if (d mod f =? 0)%Z then strip_factor fuel f (d / f) else d
  end.

Definition strip_all (f d : Z) : Z := strip_factor (S (Z.to_nat (Z.log2 d))) f d.

(** [domain/numeric.py:283-293 _exact_decimal] *)
Definition exact_decimal (value : Q) : result (option pystr) :=
  let v := Qred value in
  let n := Qnum v in
  let d := Zpos (Qden v) in
  if negb (strip_all 5 (strip_all 2 d) =? 1)%Z then Ok None
  else
    ns ← int_str (Z.abs n);
    ds ← int_str d;
    let precision := (py_len ns + py_len ds * 4 + 1)%Z in
    Ok (Some (d_format_f (d_div precision (d_of_Z n) (d_of_Z d)))).

(** [a / b] of two fractions. *)
Definition q_div (a b : Q) : result Q :=
  _ ← reject (Qeq_bool b 0) ZeroDivisionError; Ok (a / b)%Q.

Definition q_min (a b : Q) : Q := if Qle_bool a b then a else b.
Definition q_max (a b : Q) : Q := if Qle_bool b a then a else b.

(* ------------------------------------------------------------------ *)
(** ** Verified spans *)
(* ------------------------------------------------------------------ *)

(** [domain/numeric.py:296-304 _identity] *)
Definition identity : Set := pystr * pystr * pystr * pystr.
Definition graph_identity (g : CanonicalDocumentGraph) : identity :=
  (gr_tenant_id g, gr_document_version_id g, gr_parse_manifest_id g, gr_source_sha256 g).
Definition claim_identity (c : NumericClaim) : identity :=
  (nc_tenant_id c, nc_document_version_id c, nc_parse_manifest_id c, nc_source_sha256 c).
Definition observation_identity (o : NumericObservation) : identity :=
  (ob_tenant_id o, ob_document_version_id o, ob_parse_manifest_id o, ob_source_sha256 o).
Definition batch_identity (b : CandidateBatch) : identity :=
  (bt_tenant_id b, bt_document_version_id b, bt_parse_manifest_id b, bt_source_sha256 b).

(** [blocks.get(source_id)] of [{b.source_id: b for b in original.blocks}]. *)
Definition block_by_id (g : CanonicalDocumentGraph) (id : pystr) : option CanonicalBlock :=
  find (λ b, kb_source_id b =s? id) (rev (gr_blocks g)).

(** The selected candidate: [type(winner) is int] and [0 <= winner < len(candidates)]. *)
Definition selected (b : CanonicalBlock) : option CandidateBlock :=
  w ← kb_winner b; if (w <? 0)%Z then None else kb_candidates b !! Z.to_nat w.

Definition span_inside (inner outer : SourceRef) : bool :=
  (source_id inner =s? source_id outer)
  && ((char_start outer <=? char_start inner) && (char_start inner <? char_end inner)
      && (char_end inner <=? char_end outer))%Z.

Section verification.
Context `{Digest}.

(** What the pinned snapshot says of a reference, before its text is hashed.
    [domain/numeric.py:309-316 _verified] *)
Definition ref_located (r : SourceRef) (g : CanonicalDocumentGraph) : bool :=
  bool_decide (verification_state r = Verified) && bool_decide (location_quality r = Located)
  && bool_decide (is_Some (ref_bbox r))
  && (document_version_id r =s? gr_document_version_id g)
  && (parse_manifest_id r =s? gr_parse_manifest_id g).

(** [domain/numeric.py:328-341 _verified] *)
Definition candidate_pinned (r : SourceRef) (c : CandidateBlock) (g : CanonicalDocumentGraph)
    : bool :=
  let s := cb_source c in
  existsb (λ b, bool_decide (batch_identity b = graph_identity g)
                && (bt_parser_run_id b =s? ns_parser_run_id s)
                && existsb (candidate_eqb c) (bt_blocks b)) (gr_candidates g)
  && (ns_document_version_id s =s? gr_document_version_id g)
  && (ns_parse_manifest_id s =s? gr_parse_manifest_id g)
  && (physical_page s =? page_num r)%Z && bool_decide (ns_label s = printed_page_label r)
  && bbox_eqb (cb_bbox c) (ref_bbox r).

(** [domain/numeric.py:307-346 _verified] *)
Definition verified (ref : option SourceRef) (g : CanonicalDocumentGraph) : result bool :=
  match ref with
  | None => Ok false
  | Some r =>
      if negb (ref_located r g) || negb (str_distinct (kb_source_id <$> gr_blocks g)) then Ok false
      else
        match (b ← block_by_id g (source_id r);
               if kb_quality b =s? "verified" then selected b else None) with
        | None => Ok false
        | Some c =>
            let raw := raw_text (cb_source c) in
            if negb (candidate_pinned r c g) then Ok false
            else
              digest ← text_sha256 raw;
              Ok ((digest =s? raw_text_sha256 r)
                  && ((0 <=? char_start r) && (char_start r <? char_end r)
                      && (char_end r <=? py_len raw))%Z
                  && (slice raw (char_start r) (char_end r) =s? quote r)
                  && nonblank (quote r))
        end
  end.

(** [re.finditer] of a numeral with an optional exponent: the spans.
    [domain/numeric.py:379-385 _whole_number] *)
Fixpoint number_spans (fuel : nat) (pos : Z) (s : pystr) : list (Z * Z) :=
  match fuel with
  | O => []
  | S fuel =>
      match s with
      | [] => []
      | _ :: r =>
          match scan_numeral s with
          | Some (_, t) =>
              let rest := (scan_exp t).2 in
              let e := (pos + (py_len s - py_len rest))%Z in
              (pos, e) :: number_spans fuel e rest
          | None => number_spans fuel (pos + 1) r
          end
      end
  end.

(** Called on a verified reference, whose block has a selected candidate.
    [domain/numeric.py:375-385 _whole_number] *)
Definition whole_number (number : SourceRef) (g : CanonicalDocumentGraph) : bool :=
  match (b ← find (λ b, kb_source_id b =s? source_id number) (gr_blocks g); selected b) with
  | Some c =>
      let raw := raw_text (cb_source c) in
      bool_decide ((char_start number, char_end number) ∈ number_spans (S (length raw)) 0 raw)
  | None => false
  end.

Fixpoint refs_eqb (a b : list SourceRef) : bool :=
  match a, b with
  | [], [] => true
  | x :: a, y :: b => ref_eqb x y && refs_eqb a b
  | _, _ => false
  end.

(** [domain/numeric.py:349-372 _claim_verified] *)
Definition claim_verified (b : ClaimBinding) (claim : option NumericClaim)
    (g : CanonicalDocumentGraph) : result bool :=
  let number := bi_reported_value_ref b in
  match bi_binding_accepted b, claim with
  | true, Some c =>
      if negb (bool_decide (claim_identity c = graph_identity g)
               && bool_decide (bi_parse_manifest_id b = Some (gr_parse_manifest_id g))
               && (nc_source_quality c =s? "verified")
               && refs_eqb (bi_source_refs b) (nc_source_refs c)
               && nonempty_list (nc_source_refs c)) then Ok false
      else
        and_result (all_result (λ r, verified (Some r) g) (nc_source_refs c))
          (if negb (nc_quote c =s? str_join " " (quote <$> nc_source_refs c)) then Ok false
           else
             and_result (verified number g)
               (Ok (match number with
                    | Some n =>
                        bool_decide (bi_reported_value b = Some (quote n))
                        && existsb (λ r, span_inside n r && whole_number n g) (nc_source_refs c)
                    | None => false
                    end)))
  | _, _ => Ok false
  end.
End verification.

(* ------------------------------------------------------------------ *)
(** ** Lineage *)
(* ------------------------------------------------------------------ *)

(** The worklist of the lineage walks: pop an id, add and push the ids next to
    it that were not seen.  The last pushed is popped first. *)
Fixpoint closure (fuel : nat) (next : pystr → list pystr) (seen pending : list pystr)
    : list pystr :=
  match fuel with
  | O => seen
  | S fuel =>
      match pending with
      | [] => seen
      | x :: rest =>
          let new := str_dedup (List.filter (λ y, negb (str_in y seen)) (next x)) in
          closure fuel next (seen ++ new) (rev new ++ rest)
      end
  end.

Definition is_edge (relation : pystr) (e : CanonicalEdge) : bool := ed_relation e =s? relation.

(** Every id enters the worklist once: at the start or as an edge's end. *)
Definition walk (g : CanonicalDocumentGraph) (next : pystr → list pystr) (start : list pystr)
    : list pystr :=
  closure (S (length start + length (gr_edges g))) next start (rev start).

(** [parents.get(child, ())]: the ends of the child's [table_parent] edges. *)
Definition parents (g : CanonicalDocumentGraph) (child : pystr) : list pystr :=
  ed_target <$> List.filter (λ e, is_edge "table_parent" e && (ed_source e =s? child)) (gr_edges g).

(** [domain/numeric.py:474-490 unresolved_source_issue_ids] *)
Definition unresolved_source_issue_ids (g : CanonicalDocumentGraph) (ids : list pystr)
    : list pystr :=
  let related := walk g (parents g) (str_dedup ids) in
  qi_issue_id <$> List.filter
    (λ i, str_in (qi_state i) ["open"; "unreadable"]
          && existsb (λ s, str_in s related) (qi_source_ids i)) (gr_issues g).

Definition kind_in (kinds : list pystr) (b : CanonicalBlock) : bool := str_in (kb_kind b) kinds.

Definition ids_of_kind (g : CanonicalDocumentGraph) (kinds : list pystr) : list pystr :=
  kb_source_id <$> List.filter (kind_in kinds) (gr_blocks g).

(** The children of an owner among the detected cells and rows.
    [domain/numeric.py:501-508 unassigned_note_ids] *)
Definition known_children (g : CanonicalDocumentGraph) (owner : pystr) : list pystr :=
  ed_source <$> List.filter
    (λ e, is_edge "table_parent" e && (ed_target e =s? owner)
          && str_in (ed_source e) (ids_of_kind g ["table_cell"; "table_row"])) (gr_edges g).

(** The tables and everything detected below them.
    [domain/numeric.py:500-514 unassigned_note_ids] *)
Definition owned_ids (g : CanonicalDocumentGraph) : list pystr :=
  walk g (known_children g) (str_dedup (ids_of_kind g ["table"])).

(** The notes an edge ties to one of the targets. *)
Definition notes_of (g : CanonicalDocumentGraph) (targets : list pystr) : list pystr :=
  ed_source <$> List.filter (λ e, is_edge "footnote_of" e && str_in (ed_target e) targets)
    (gr_edges g).

(** [domain/numeric.py:493-533 unassigned_note_ids] *)
Definition unassigned_note_ids (g : CanonicalDocumentGraph) (id : pystr) : list pystr :=
  match block_by_id g id with
  | None => []
  | Some block =>
      if negb (kind_in ["table"; "table_row"; "table_cell"; "footnote"] block) then []
      else
        let owned := owned_ids g in
        let assigned := notes_of g owned in
        if kb_kind block =s? "footnote" then if str_in id assigned then [] else [id]
        else
          let related := walk g (λ c, List.filter (λ p, str_in p owned) (parents g c)) [id] in
          let pages := omap (block_by_id g) related ≫= kb_candidates in
          let pages := (λ c, physical_page (cb_source c)) <$> pages in
          kb_source_id <$> List.filter
            (λ b, (kb_kind b =s? "footnote") && negb (str_in (kb_source_id b) assigned)
                  && existsb (λ c, existsb (Z.eqb (physical_page (cb_source c))) pages)
                       (kb_candidates b)) (gr_blocks g)
  end.

(** A cell's row and the columns it spans. *)
Record cell_place : Set := { cp_id : pystr; cp_row : Z; cp_start : Z; cp_end : Z }.

(** [domain/numeric.py:449-460 column_note_targets] *)
Definition placed_cells (g : CanonicalDocumentGraph) (table : pystr) : list cell_place :=
  let children := ed_source <$> List.filter
                    (λ e, is_edge "table_parent" e && (ed_target e =s? table)) (gr_edges g) in
  b ← List.filter (λ b, str_in (kb_source_id b) children) (gr_blocks g);
  omap (λ c, r ← cb_row c; k ← cb_column c;
             let span := match cb_column_span c with
                         | Some s => if (s =? 0)%Z then 1%Z else s
                         | None => 1%Z end in
             Some {| cp_id := kb_source_id b; cp_row := r; cp_start := k; cp_end := (k + span)%Z |})
    (kb_candidates b).

(** [domain/numeric.py:447-471 column_note_targets] *)
Definition column_note_targets (g : CanonicalDocumentGraph) (table : pystr)
    (targets : list pystr) : list pystr :=
  let positioned := placed_cells g table in
  match positioned with
  | [] => []
  | p :: r =>
      let first_row := foldl Z.min (cp_row p) (cp_row <$> r) in
      let columns := List.filter (λ c, str_in (cp_id c) targets) positioned in
      cp_id <$> List.filter
        (λ c, (cp_row c =? first_row)%Z
              && existsb (λ k, (cp_start c <? cp_end k) && (cp_start k <? cp_end c))%Z columns)
        positioned
  end.

(** [domain/numeric.py:536-554 _note_targets] *)
Definition note_targets (o : NumericObservation) (g : CanonicalDocumentGraph) : list pystr :=
  let targets := walk g (parents g) (str_dedup (ob_parent_relations o).*1.*1) in
  if negb (str_in (ob_table_id o) targets) then []
  else
    let notes := ids_of_kind g ["footnote"] in
    let targets := targets ++ List.filter (λ t, negb (str_in t notes))
                                ((ob_parent_relations o).*1.*2) in
    targets ++ column_note_targets g (ob_table_id o) targets.

(* ------------------------------------------------------------------ *)
(** ** The number of an observation *)
(* ------------------------------------------------------------------ *)

Definition dimension (o : NumericObservation) : list (pystr * option pystr) :=
  [("metric_raw", Some (ob_metric_raw o)); ("scope", ob_scope o); ("subject", ob_subject o);
   ("scope2_basis", ob_scope2_basis o);
   ("organizational_boundary", ob_organizational_boundary o)].

(** The fields whose association with a source is checked.
    [domain/numeric.py:430 _observation_display] *)
Definition sourced_fields (o : NumericObservation) : list (pystr * option pystr) :=
  dimension o ++ [("reporting_period", Some (ob_reporting_period o));
                  ("denominator", ob_denominator o)].

Definition refs_on (o : NumericObservation) (target : pystr) : list SourceRef :=
  List.filter (λ r, source_id r =s? target) (ob_source_refs o).

(** [domain/numeric.py:430-442 _observation_display] *)
Definition field_sourced (o : NumericObservation) (note_ids scope_notes : list pystr)
    (field : pystr * option pystr) : bool :=
  match field.2 with
  | None => true
  | Some expected =>
      existsb
        (λ '(_, target, name),
          (name =s? field.1) && nonempty_list (refs_on o target)
          && (if (field.1 =s? "scope") && str_in target note_ids
              then str_in target scope_notes
                   && existsb (λ r, bool_decide (scope_note_literal (quote r) = Some expected))
                        (refs_on o target)
              else existsb (λ r, strip (quote r) =s? expected) (refs_on o target)))
        (ob_parent_relations o)
  end.

(** [domain/numeric.py:404-405 _observation_display] *)
Definition scaled_unit (unit : option pystr) : pystr * option pystr :=
  match unit with
  | Some u => if starts_with "천 " u then ("1000", Some (strip (drop 2 u))) else ("1", unit)
  | None => ("1", None)
  end.

(** [domain/numeric.py:411-416 _observation_display] *)
Definition unit_bound (o : NumericObservation) : bool :=
  match ob_unit_raw o with
  | None => false
  | Some u =>
      existsb (λ '(_, target, name),
                (name =s? "unit_raw") && existsb (λ r, strip (quote r) =s? u) (refs_on o target))
        (ob_parent_relations o)
      || existsb (λ r, bool_decide (unit_note_literal (quote r) = Some u)) (ob_source_refs o)
  end
  || match NUMBER (ob_value_raw o) with
     | Some (_, unit) => bool_decide (unit = ob_unit_raw o)
     | None => false
     end.

(** The printed number and the normaliser's agree.
    [domain/numeric.py:418-421 _observation_display] *)
Definition parsed_display (o : NumericObservation) (scale : pystr) : option (Q * interval) :=
  '(v, i) ← display (ob_value_raw o) (if scale =s? "1000" then inject_Z 1000 else 1%Q);
  d ← decimal_value (ob_value_decimal o);
  if Qeq_bool v (d_value d) then Some (v, i) else None.

Section observations.
Context `{Digest}.

(** [domain/numeric.py:388-444 _observation_display] *)
Definition observation_display (o : NumericObservation) (g : CanonicalDocumentGraph)
    : result (option (Q * interval)) :=
  if negb (bool_decide (observation_identity o = graph_identity g)
           && (ob_quality o =s? "verified") && (ob_value_state o =s? "value")
           && nonempty_list (ob_source_refs o)) then Ok None
  else
    if_result (all_result (λ r, verified (Some r) g) (ob_source_refs o))
      (let '(scale, canonical) := scaled_unit (ob_unit_raw o) in
       if negb (nonempty_list (ob_source_blocks o)
                && forallb (λ b, existsb (block_eqb b) (gr_blocks g)) (ob_source_blocks o)
                && existsb (λ r, quote r =s? ob_value_raw o) (ob_source_refs o))
          || negb ((ob_scale_multiplier o =s? scale)
                   && bool_decide (ob_unit_canonical o = canonical))
          || negb (unit_bound o)
       then Ok None
       else
         match parsed_display o scale with
         | None => Ok None
         | Some shown =>
             let note_ids := ids_of_kind g ["footnote"] in
             let scope_notes := List.filter (λ n, str_in n note_ids)
                                  (notes_of g (note_targets o g)) in
             if forallb (field_sourced o note_ids scope_notes) (sourced_fields o)
             then Ok (Some shown) else Ok None
         end)
      (Ok None).

(* ------------------------------------------------------------------ *)
(** ** Holds of the notes *)
(* ------------------------------------------------------------------ *)

(** What is held back, and why: note ids and reasons. *)
Definition holds : Set := list pystr * list pystr.

Definition hold (h : holds) (ids : list pystr) (reason : pystr) : holds :=
  (h.1 ++ ids, h.2 ++ [reason]).

(** [domain/numeric.py:603-618 _footnote_holds] *)
Definition root_holds (o : NumericObservation) (g : CanonicalDocumentGraph) (h : holds)
    (root : CanonicalBlock) : result holds :=
  let unassigned := unassigned_note_ids g (kb_source_id root) in
  let h := match unassigned with
           | [] => h
           | _ => hold h unassigned "footnote_owner_unresolved"
           end in
  match selected root with
  | None => Ok (hold h [] "observation_root_unresolved")
  | Some c =>
      if_result
        (if negb (bool_decide ((cb_row c, cb_column c) = (Some (ob_row o), Some (ob_column o))))
         then Ok false
         else any_result (λ r, if (source_id r =s? kb_source_id root)
                                  && (quote r =s? ob_value_raw o)
                               then verified (Some r) g else Ok false) (ob_source_refs o))
        (Ok h) (Ok (hold h [] "observation_source_unverified"))
  end.

(** [domain/numeric.py:635-652 _footnote_holds] *)
Definition note_holds (o : NumericObservation) (g : CanonicalDocumentGraph)
    (accepted : list pystr) (h : holds) (note : CanonicalBlock) : result holds :=
  let id := kb_source_id note in
  match selected note with
  | None => Ok (hold h [id] "footnote_source_unverified")
  | Some c =>
      let raw := raw_text (cb_source c) in
      let unit_ok := match unit_note_literal raw with
                     | Some u => bool_decide (ob_unit_raw o = Some u) | None => false end in
      let scope_ok := match scope_note_literal raw with
                      | Some s => bool_decide (ob_scope o = Some s) | None => false end in
      let h := if str_in id accepted || unit_ok || scope_ok then h
               else hold h [id] "footnote_condition_unsupported_or_mismatched" in
      if_result
        (any_result (λ r, if (source_id r =s? id) && (quote r =s? raw)
                          then verified (Some r) g else Ok false) (ob_source_refs o))
        (Ok h) (Ok (hold h [id] "footnote_source_unverified"))
  end.

(** [{b.source_id: b for b in selected_notes}]: the last block of each id. *)
Fixpoint distinct_blocks (l : list CanonicalBlock) : list CanonicalBlock :=
  match l with
  | [] => []
  | b :: r => if existsb (λ c, kb_source_id c =s? kb_source_id b) r
              then distinct_blocks r else b :: distinct_blocks r
  end.

(** [domain/numeric.py:590-653 _footnote_holds] *)
Definition footnote_holds (o : NumericObservation) (g : CanonicalDocumentGraph)
    (accepted : list pystr) : result holds :=
  let root_ids := str_dedup (ob_parent_relations o).*1.*1 in
  let roots := List.filter (λ b, str_in (kb_source_id b) root_ids) (ob_source_blocks o) in
  let h : holds := ([], []) in
  let h := if (py_len root_ids =? 1)%Z && (py_len roots =? 1)%Z then h
           else hold h [] "observation_root_unresolved" in
  h ← fold_result (λ (h : holds) (b : CanonicalBlock), root_holds o g h b) h roots;
  let targets := note_targets o g in
  let h := if str_in (ob_table_id o) targets then h
           else hold h [] "observation_table_lineage_unresolved" in
  let required := notes_of g targets in
  let selected_notes := List.filter (λ b, str_in (kb_source_id b) required) (gr_blocks g) in
  let notes := distinct_blocks selected_notes in
  let h := if (py_len notes =? py_len selected_notes)%Z then h
           else hold h required "footnote_source_ambiguous" in
  let missing := List.filter (λ n, negb (str_in n (kb_source_id <$> notes))) required in
  let h := match missing with [] => h | _ => hold h missing "footnote_source_missing" end in
  fold_result (λ (h : holds) (b : CanonicalBlock), note_holds o g accepted h b) h notes.

(** [domain/numeric.py:584-587 _unresolved_footnotes] *)
Definition unresolved_footnotes (o : NumericObservation) (g : CanonicalDocumentGraph)
    (accepted : list pystr) : result bool :=
  h ← footnote_holds o g accepted; Ok (nonempty_list h.2).

(** [domain/numeric.py:576-581 observation_source_holds] *)
Record source_holds : Set := {
  sh_observation_id : pystr; sh_issue_ids : list pystr; sh_note_ids : list pystr;
  sh_reasons : list pystr }.

(** [domain/numeric.py:557-581 observation_source_holds] *)
Definition observation_source_holds (o : NumericObservation) (g : CanonicalDocumentGraph)
    (accepted : list pystr) : result source_holds :=
  _ ← require (bool_decide (observation_identity o = graph_identity g))
        (ValueError "observation snapshot mismatch");
  let ids := (source_id <$> ob_source_refs o) ++ [ob_table_id o]
             ++ (ob_parent_relations o).*1.*1 in
  let issues := unresolved_source_issue_ids g ids in
  h ← footnote_holds o g accepted;
  let reasons := match issues with [] => h.2 | _ => h.2 ++ ["source_issue_unresolved" : pystr] end in
  Ok {| sh_observation_id := ob_id o; sh_issue_ids := str_set_sorted issues;
        sh_note_ids := str_set_sorted h.1; sh_reasons := str_set_sorted reasons |}.
End observations.

(* ------------------------------------------------------------------ *)
(** ** Accepted relations *)
(* ------------------------------------------------------------------ *)

Section accepted.
Context `{Digest}.

(** [domain/numeric.py:656-659 condition_binding_hash] *)
Definition condition_binding_hash (b : ClaimBinding) : result pystr :=
  let aggregation := match bi_aggregation b with Some a => aggregation_val a | None => PNone end in
  canonical_hash (PDict (legacy_fields b aggregation ++ product_fields b)).

Definition footnote_edge (g : CanonicalDocumentGraph) (id : pystr) (o : NumericObservation) : bool :=
  existsb (λ e, (ed_source e =s? id) && is_edge "footnote_of" e
                && str_in (ed_target e) (note_targets o g)) (gr_edges g).

(** [domain/numeric.py:671-696 validated_condition_ids] *)
Definition condition_valid (b : ClaimBinding) (g : CanonicalDocumentGraph) (digest : pystr)
    (items : list NumericObservation) (c : NumericCondition) : result bool :=
  let ref := co_source_ref c in
  if negb ((co_acceptance_state c =s? "accepted")
           && (co_relation c =s? "same_basis_for_selected_observations")
           && nonblank (co_reviewed_by c)
           && bool_decide (co_observation_ids c = bi_observation_ids b)
           && (co_binding_sha256 c =s? digest)) then Ok false
  else
    and_result (verified (Some ref) g)
      (Ok (match block_by_id g (source_id ref) with
           | Some block =>
               (kb_kind block =s? "footnote")
               && match selected block with
                  | Some cand => quote ref =s? raw_text (cb_source cand)
                  | None => false
                  end
               && forallb (footnote_edge g (source_id ref)) items
           | None => false
           end)).

(** [domain/numeric.py:662-698 validated_condition_ids] *)
Definition validated_condition_ids (b : ClaimBinding) (g : CanonicalDocumentGraph)
    (items : list NumericObservation) : result (list pystr) :=
  if negb (bi_binding_accepted b && bool_decide (bi_kind b ∈ [Growth; ProductReduction])) then Ok []
  else if negb (bool_decide (ob_id <$> items = bi_observation_ids b) && nonempty_list items)
  then Ok []
  else
    digest ← condition_binding_hash b;
    ids ← map_result
            (λ c, if_result (condition_valid b g digest items c)
                    (Ok [source_id (co_source_ref c)]) (Ok [])) (bi_conditions b);
    Ok (concat ids).

(** [domain/numeric.py:701-728 _matches_binding] *)
Definition matches_binding (o : NumericObservation) (b : ClaimBinding) (period : option pystr)
    (subject_override : option pystr) : bool :=
  let given t := match t with Some s => nonempty s | None => false end in
  given period && given (bi_unit b) && nonempty (bi_metric_raw b)
  && (bool_decide (bi_quantity_kind b = Some ("absolute" : pystr))
        && bool_decide (bi_denominator b = None)
      || bool_decide (bi_quantity_kind b = Some ("intensity" : pystr)) && given (bi_denominator b))
  && bool_decide (Some (ob_reporting_period o) = period)
  && bool_decide (ob_metric_raw o = bi_metric_raw b)
  && bool_decide (ob_scope o = bi_scope b)
  && bool_decide (ob_subject o = match subject_override with Some s => Some s
                                 | None => bi_subject b end)
  && bool_decide (ob_scope2_basis o = bi_scope2_basis b)
  && bool_decide (ob_organizational_boundary o = bi_organizational_boundary b)
  && bool_decide (ob_unit_canonical o = bi_unit b)
  && bool_decide (ob_denominator o = bi_denominator b)
  && negb (match bi_unit b with Some u => existsb (N.eqb 47) u | None => false end
           && negb (given (bi_denominator b))).

Definition span_in_claim (claim : NumericClaim) (span : SourceRef) : bool :=
  existsb (span_inside span) (nc_source_refs claim).

(** [domain/numeric.py:731-762 _product_subjects_verified] *)
Definition product_subjects_verified (b : ClaimBinding) (claim : option NumericClaim)
    (g : CanonicalDocumentGraph) : result bool :=
  match bi_product_comparison_accepted b, claim, bi_subject b, bi_baseline_subject b,
        bi_subject_ref b, bi_baseline_subject_ref b with
  | true, Some c, Some s, Some s0, Some current, Some baseline =>
      if negb (nonempty s && nonempty s0 && negb (s =s? s0)
               && (quote current =s? s) && (quote baseline =s? s0)) then Ok false
      else
        and_result (verified (Some current) g)
          (and_result (verified (Some baseline) g)
             (Ok (span_in_claim c current && span_in_claim c baseline)))
  | _, _, _, _, _, _ => Ok false
  end.

(** Old immutable bindings keep the hash of their old fields.
    [domain/numeric.py:769-788 _aggregation_verified] *)
Definition aggregation_hashes (b : ClaimBinding) : result (list pystr) :=
  h ← canonical_hash (PDict (legacy_fields b PNone ++ product_fields b ++ conditions_field b));
  if bool_decide (bi_baseline_subject b = None) && negb (bool_decide (is_Some (bi_subject_ref b)))
     && negb (bool_decide (is_Some (bi_baseline_subject_ref b)))
     && negb (bi_product_comparison_accepted b) && negb (nonempty_list (bi_conditions b))
  then old ← canonical_hash (PDict (legacy_fields b PNone)); Ok [h; old]
  else Ok [h].

Definition roots_of (o : NumericObservation) : list pystr :=
  str_set_sorted (ob_parent_relations o).*1.*1.

(** [domain/numeric.py:765-802 _aggregation_verified] *)
Definition aggregation_verified (b : ClaimBinding) (g : CanonicalDocumentGraph)
    (items : list NumericObservation) : result bool :=
  hashes ← aggregation_hashes b;
  let roots := roots_of <$> items in
  match bi_aggregation b with
  | Some a =>
      if negb (forallb (λ r, py_len r =? 1)%Z roots && bool_decide (NoDup roots)
               && (ag_acceptance_state a =s? "accepted")
               && (ag_relation a =s? "disjoint_complete_components")
               && (ag_target_claim_id a =s? bi_claim_id b)
               && bool_decide (ag_observation_ids a = bi_observation_ids b)
               && str_in (ag_binding_sha256 a) hashes && nonempty_list (ag_source_refs a))
      then Ok false
      else all_result (λ r, verified (Some r) g) (ag_source_refs a)
  | None => Ok false
  end.
End accepted.

(* ------------------------------------------------------------------ *)
(** ** The verdict *)
(* ------------------------------------------------------------------ *)

(** [domain/numeric.py:805-828 _result] *)
Definition mk_result (b : ClaimBinding) (status : CheckStatus) (computed reason : option pystr)
    (items : list NumericObservation) (ratio : option (pystr * pystr)) : CheckResult :=
  {| cr_claim_id := bi_claim_id b; cr_kind := bi_kind b; cr_status := status;
     cr_reported_value := bi_reported_value b; cr_computed_value := computed;
     cr_observation_ids := bi_observation_ids b;
     cr_source_refs := dedup ref_eqb
       (bi_source_refs b ++ (items ≫= ob_source_refs)
        ++ match bi_aggregation b with Some a => ag_source_refs a | None => [] end);
     cr_reason := reason; cr_exact_ratio := ratio |}.

Definition undecided (b : ClaimBinding) (status : CheckStatus) (reason : pystr)
    (items : list NumericObservation) : CheckResult :=
  mk_result b status None (Some reason) items None.

(** The four corners, each computed like the value.
    [domain/numeric.py:948-952 check_numeric_consistency] *)
Definition corners (f : Q → Q → result Q) (base current : interval) : result (list Q) :=
  map_result (λ bc, f bc.1 bc.2)
    [(base.1, current.1); (base.1, current.2); (base.2, current.1); (base.2, current.2)].

Definition growth_rate (b c : Q) : result Q := q ← q_div c b; Ok ((q - 1) * 100)%Q.
Definition reduction_rate (b c : Q) : result Q := q ← q_div c b; Ok ((1 - q) * 100)%Q.
Definition reduction_value (b c : Q) : result Q := q ← q_div (b - c) b; Ok (q * 100)%Q.

Definition span_of (l : list Q) : interval :=
  match l with
  | [] => (0%Q, 0%Q)
  | x :: r => (foldl q_min x r, foldl q_max x r)
  end.

(** The computed value and its interval, when the displayed numbers allow one.
    [domain/numeric.py:926-953 check_numeric_consistency] *)
Inductive computation : Set :=
| Computed (value : Q) (bounds : interval)
| Unresolved (status : CheckStatus) (reason : pystr).

(** [domain/numeric.py:940-953 check_numeric_consistency] *)
Definition rate (k : CheckKind) (numbers : list (Q * interval)) : result computation :=
  match numbers with
  | [(baseline, base_bounds); (current, current_bounds)] =>
      if Qle_bool base_bounds.1 0 && Qle_bool 0 base_bounds.2
      then Ok (Unresolved NotComputable "zero_baseline_interval")
      else
        value ← (if bool_decide (k = Growth) then growth_rate else reduction_value) baseline current;
        cs ← corners (if bool_decide (k = Growth) then growth_rate else reduction_rate)
               base_bounds current_bounds;
        Ok (Computed value (span_of cs))
  | _ => Raise (ValueError "not enough values to unpack")
  end.

Definition q_sum (l : list Q) : Q := foldl Qplus 0%Q l.

(** [domain/numeric.py:955-959 check_numeric_consistency] *)
Definition compare_displays (shown : interval) (reported : interval) : CheckStatus :=
  if Qle_bool shown.1 reported.2 && Qle_bool reported.1 shown.2 then Consistent else Inconsistent.

Section check.
Context `{Digest}.

(** [domain/numeric.py:926-953 check_numeric_consistency] *)
Definition compute (b : ClaimBinding) (g : CanonicalDocumentGraph)
    (items : list NumericObservation) (numbers : list (Q * interval)) : result computation :=
  match bi_kind b with
  | Comparison =>
      match numbers with
      | (v, i) :: _ => Ok (Computed v i)
      | [] => Raise IndexError
      end
  | Sum =>
      if_result (aggregation_verified b g items)
        (Ok (Computed (q_sum numbers.*1) (q_sum numbers.*2.*1, q_sum numbers.*2.*2)))
        (Ok (Unresolved NotComparable "aggregation_relation_unresolved"))
  | k => rate k numbers
  end.

(** [domain/numeric.py:954-971 check_numeric_consistency] *)
Definition verdict (b : ClaimBinding) (items : list NumericObservation) (reported value : Q * interval)
    : result CheckResult :=
  decimal ← exact_decimal value.1;
  let status := compare_displays value.2 reported.2 in
  match decimal with
  | Some d => Ok (mk_result b status (Some d) None items None)
  | None =>
      let v := Qred value.1 in
      n ← int_str (Qnum v);
      d ← int_str (Zpos (Qden v));
      Ok (mk_result b status None (Some ("non_terminating_decimal" : pystr)) items (Some (n, d)))
  end.

(** The period and subject each observation must have.
    [domain/numeric.py:889-910 check_numeric_consistency] *)
Definition expected_periods (b : ClaimBinding) : list (option pystr) :=
  if bool_decide (bi_kind b ∈ [Reduction; Growth])
  then [bi_baseline_period b; bi_reporting_period b]
  else replicate (length (bi_observation_ids b)) (bi_reporting_period b).

Definition expected_subjects (b : ClaimBinding) : list (option pystr) :=
  if bool_decide (bi_kind b = ProductReduction) then [bi_baseline_subject b; bi_subject b]
  else replicate (length (bi_observation_ids b)) None.

(** [domain/numeric.py:900-905 check_numeric_consistency] *)
Definition period_ok (b : ClaimBinding) : bool :=
  match bi_kind b with
  | Reduction | Growth => negb (bool_decide (bi_baseline_period b = bi_reporting_period b))
  | ProductReduction => bool_decide (bi_baseline_period b = bi_reporting_period b)
  | _ => true
  end.

(** [domain/numeric.py:914-917 check_numeric_consistency] *)
Definition dimensions_ok (b : ClaimBinding) (items : list NumericObservation) : bool :=
  forallb (λ '(o, (p, s)), matches_binding o b p s)
    (combine items (combine (expected_periods b) (expected_subjects b))).

(** [domain/numeric.py:885-971 check_numeric_consistency] *)
Definition check_displays (b : ClaimBinding) (claim : option NumericClaim)
    (g : CanonicalDocumentGraph) (items : list NumericObservation)
    (shown : list (option (Q * interval))) : result CheckResult :=
  match mapM id shown, display (default [] (bi_reported_value b)) 1%Q with
  | Some numbers, Some reported =>
      if negb (forallb is_supported_period (expected_periods b)) then
        Ok (undecided b NotComparable "reporting_period_unresolved" [])
      else
        product_ok ← (if bool_decide (bi_kind b = ProductReduction)
                      then product_subjects_verified b claim g else Ok true);
        if negb (period_ok b) || negb product_ok || negb (dimensions_ok b items) then
          Ok (undecided b NotComparable
                (if negb product_ok then "product_comparison_unaccepted" else "dimension_mismatch")
                [])
        else
          c ← compute b g items numbers;
          match c with
          | Unresolved status reason => Ok (undecided b status reason [])
          | Computed value bounds => verdict b items reported (value, bounds)
          end
  | _, _ => Ok (undecided b NotComputable "value_missing_or_unresolved" [])
  end.

(** [domain/numeric.py:854-971 check_numeric_consistency] *)
Definition check_binding (observations : list NumericObservation) (claims : list NumericClaim)
    (original : option CanonicalDocumentGraph) (b : ClaimBinding) : result CheckResult :=
  let items := omap (λ i, find (λ o, ob_id o =s? i) observations) (bi_observation_ids b) in
  let claim := find (λ c, nc_claim_id c =s? bi_claim_id b) claims in
  _ ← require (forallb (λ o, ob_document_version_id o =s? bi_document_version_id b) items)
        (ValueError "binding document version mismatch");
  if negb (py_len items =? py_len (bi_observation_ids b))%Z then
    Ok (undecided b NotComputable "observation_missing" [])
  else
    match original with
    | None => Ok (undecided b NotComputable "claim_source_unresolved" [])
    | Some g =>
        if_result (claim_verified b claim g)
          (let ids := (source_id <$> bi_source_refs b)
                      ++ (items ≫= λ o, source_id <$> ob_source_refs o)
                      ++ (ob_table_id <$> items) in
           if nonempty_list (unresolved_source_issue_ids g ids) then
             Ok (undecided b NotComputable "source_issue_unresolved" items)
           else
             accepted ← validated_condition_ids b g items;
             if_result (any_result (λ o, unresolved_footnotes o g accepted) items)
               (Ok (undecided b NotComputable "footnote_conditions_unresolved" items))
               (shown ← map_result (λ o, observation_display o g) items;
                check_displays b claim g items shown))
          (Ok (undecided b NotComputable "claim_source_unresolved" []))
    end.

(** [domain/numeric.py:831-972 check_numeric_consistency] *)
Definition check_numeric_consistency (observations : list NumericObservation)
    (bindings : list ClaimBinding) (tenant : pystr) (claims : list NumericClaim)
    (original : option CanonicalDocumentGraph) : result (list CheckResult) :=
  _ ← require (str_distinct (ob_id <$> observations) && str_distinct (nc_claim_id <$> claims))
        (ValueError "duplicate observation or claim");
  _ ← require (forallb (λ o, ob_tenant_id o =s? tenant) observations
               && forallb (λ b, bi_tenant_id b =s? tenant) bindings
               && forallb (λ c, nc_tenant_id c =s? tenant) claims
               && match original with Some g => gr_tenant_id g =s? tenant | None => true end)
        (ValueError "numeric tenant mismatch");
  _ ← require (str_distinct (bi_claim_id <$> bindings)) (ValueError "duplicate claim binding");
  map_result (check_binding observations claims original) bindings.
End check.
