(* ===== verification/NumericValue.v ===== *)
(** * The numbers of the numeric check.

    Interval arithmetic of printed numbers and the decimals they are shown as:
    the span of the four corners of a rate is exactly the set of rates of the
    numbers in the box, the comparison of two intervals is whether they meet,
    and [exact_decimal] shows a fraction exactly or not at all. *)
From S2P Require Import Prelude PyVal JsonCodec Decimal Values PyDate Digest RulePack Geometry Graph GraphSpec Numeric.
From Stdlib Require Import QArith Qreduction Qpower Lqa.
From Stdlib Require Qcanon.
Open Scope nat_scope.
Open Scope py_scope.

(* ------------------------------------------------------------------ *)
(** ** Intervals *)
(* ------------------------------------------------------------------ *)

Definition within (x : Q) (i : interval) : Prop := (i.1 <= x /\ x <= i.2)%Q.

(** Not empty. *)
Definition proper (i : interval) : Prop := (i.1 <= i.2)%Q.

Lemma q_min_le (a b q : Q) : (q_min a b <= q)%Q ↔ (a <= q)%Q ∨ (b <= q)%Q.
Proof.
  unfold q_min. destruct (Qle_bool a b) eqn:E.
  - apply Qle_bool_iff in E. split; [auto|intros [?|?]; lra].
  - assert (~ (a <= b)%Q) by (rewrite <- Qle_bool_iff; congruence). split; [auto|intros [?|?]; lra].
Qed.

Lemma q_max_ge (a b q : Q) : (q <= q_max a b)%Q ↔ (q <= a)%Q ∨ (q <= b)%Q.
Proof.
  unfold q_max. destruct (Qle_bool b a) eqn:E.
  - apply Qle_bool_iff in E. split; [auto|intros [?|?]; lra].
  - assert (~ (b <= a)%Q) by (rewrite <- Qle_bool_iff; congruence). split; [auto|intros [?|?]; lra].
Qed.

Lemma span_of_within (x : Q) l q :
  within q (span_of (x :: l)) ↔ (∃ y, y ∈ x :: l ∧ (y <= q)%Q) ∧ (∃ y, y ∈ x :: l ∧ (q <= y)%Q).
Proof.
  assert (Hmin : ∀ l x, (foldl q_min x l <= q)%Q ↔ ∃ y, y ∈ x :: l ∧ (y <= q)%Q).
  { induction l0 as [|z l0 IH]; intros x0; cbn.
    - split; [intros; exists x0; split; [left|done]|]. by intros (y & ->%list_elem_of_singleton & ?).
    - rewrite IH. split.
      + intros (y & [->|Hy]%elem_of_cons & Hq).
        * apply q_min_le in Hq as [?|?]; [exists x0|exists z]; split; set_solver.
        * exists y. split; [set_solver|done].
      + intros (y & [->|[->|Hy]%elem_of_cons]%elem_of_cons & Hq).
        * exists (q_min x0 z). split; [left|apply q_min_le; auto].
        * exists (q_min x0 z). split; [left|apply q_min_le; auto].
        * exists y. split; [by right|done]. }
  assert (Hmax : ∀ l x, (q <= foldl q_max x l)%Q ↔ ∃ y, y ∈ x :: l ∧ (q <= y)%Q).
  { induction l0 as [|z l0 IH]; intros x0; cbn.
    - split; [intros; exists x0; split; [left|done]|]. by intros (y & ->%list_elem_of_singleton & ?).
    - rewrite IH. split.
      + intros (y & [->|Hy]%elem_of_cons & Hq).
        * apply q_max_ge in Hq as [?|?]; [exists x0|exists z]; split; set_solver.
        * exists y. split; [set_solver|done].
      + intros (y & [->|[->|Hy]%elem_of_cons]%elem_of_cons & Hq).
        * exists (q_max x0 z). split; [left|apply q_max_ge; auto].
        * exists (q_max x0 z). split; [left|apply q_max_ge; auto].
        * exists y. split; [by right|done]. }
  unfold within. cbn [span_of fst snd]. by rewrite Hmin, Hmax.
Qed.

(** Two intervals meet exactly when the comparison says so. *)
Lemma compare_displays_meet (i j : interval) : proper i → proper j →
  compare_displays i j = Consistent ↔ ∃ y, within y i ∧ within y j.
Proof.
  unfold compare_displays, proper, within. intros Hi Hj. split.
  - destruct (_ && _) eqn:E; [|done]. intros _.
    apply andb_true_iff in E as [H1%Qle_bool_iff H2%Qle_bool_iff].
    destruct (Qlt_le_dec i.1 j.1); [exists j.1|exists i.1]; lra.
  - intros (y & [H1 H2] & [H3 H4]).
    assert (Qle_bool i.1 j.2 = true) as -> by (apply Qle_bool_iff; lra).
    assert (Qle_bool j.1 i.2 = true) as -> by (apply Qle_bool_iff; lra). done.
Qed.

(* ------------------------------------------------------------------ *)
(** ** The range of a rate *)
(* ------------------------------------------------------------------ *)

(** An affine function of the ratio. *)
Definition affine_rate (k t b c : Q) : Q := (k * (c / b) + t)%Q.

Lemma affine_rate_sign k t b c q : ~ (b == 0)%Q →
  ((affine_rate k t b c - q) * b == k * c + (t - q) * b)%Q.
Proof. intros Hb. unfold affine_rate. field. exact Hb. Qed.

Lemma rate_le_iff k t b c q : (0 < b)%Q →
  (affine_rate k t b c <= q)%Q ↔ (k * c + (t - q) * b <= 0)%Q.
Proof.
  intros Hb. pose proof (affine_rate_sign k t b c q) as Hs.
  assert (~ (b == 0)%Q) as Hn by lra. specialize (Hs Hn). split; intros H; nra.
Qed.

Lemma rate_ge_iff k t b c q : (0 < b)%Q →
  (q <= affine_rate k t b c)%Q ↔ (0 <= k * c + (t - q) * b)%Q.
Proof.
  intros Hb. pose proof (affine_rate_sign k t b c q) as Hs.
  assert (~ (b == 0)%Q) as Hn by lra. specialize (Hs Hn). split; intros H; nra.
Qed.

Lemma affine_rate_opp k t b c : ~ (b == 0)%Q → (affine_rate k t (- b) (- c) == affine_rate k t b c)%Q.
Proof. intros Hb. unfold affine_rate. field. lra. Qed.

(** A linear function changes sign somewhere on the segment between two points. *)
Lemma zero_on_segment (g h : Q) : (g <= 0)%Q → (0 <= h)%Q →
  ∃ u, (0 <= u)%Q ∧ (u <= 1)%Q ∧ (u * g + (1 - u) * h == 0)%Q.
Proof.
  intros Hg Hh. destruct (Qlt_le_dec g h) as [Hlt|Hle].
  - exists (h / (h - g))%Q. assert (Hd : (0 < h - g)%Q) by lra. repeat split.
    + apply Qle_shift_div_l; [done|lra].
    + apply Qle_shift_div_r; [done|lra].
    + field. lra.
  - exists 0%Q. repeat split; [lra|lra|]. assert (h == 0)%Q by lra. nra.
Qed.

Lemma between (x y u lo hi : Q) : (lo <= x)%Q → (x <= hi)%Q → (lo <= y)%Q → (y <= hi)%Q →
  (0 <= u)%Q → (u <= 1)%Q → (lo <= u * x + (1 - u) * y)%Q ∧ (u * x + (1 - u) * y <= hi)%Q.
Proof. intros. split; nra. Qed.

Definition corner_list (k t : Q) (base current : interval) : list Q :=
  [affine_rate k t base.1 current.1; affine_rate k t base.1 current.2;
   affine_rate k t base.2 current.1; affine_rate k t base.2 current.2].

Lemma corner_list_elem k t base current y : y ∈ corner_list k t base current ↔
  ∃ b c, (b = base.1 ∨ b = base.2) ∧ (c = current.1 ∨ c = current.2) ∧ y = affine_rate k t b c.
Proof.
  unfold corner_list. rewrite !elem_of_cons, elem_of_nil. split.
  - intros [->|[->|[->|[->|[]]]]]; eauto 10.
  - intros (b & c & [->| ->] & [->| ->] & ->); auto.
Qed.

Lemma rate_range_pos k t base current q :
  (0 < base.1)%Q → proper base → proper current →
  within q (span_of (corner_list k t base current))
  ↔ ∃ b c, within b base ∧ within c current ∧ (q == affine_rate k t b c)%Q.
Proof.
  unfold proper. intros Hpos Hb Hc. unfold corner_list at 1. rewrite span_of_within.
  change (affine_rate k t base.1 current.1 :: _) with (corner_list k t base current).
  setoid_rewrite corner_list_elem. split.
  - intros ((y & (b & c & Hbc & Hcc & ->) & Hle) & (y' & (b' & c' & Hbc' & Hcc' & ->) & Hge)).
    assert (Hb0 : (0 < b)%Q) by (destruct Hbc as [->| ->]; lra).
    assert (Hb0' : (0 < b')%Q) by (destruct Hbc' as [->| ->]; lra).
    apply rate_le_iff in Hle; [|done]. apply rate_ge_iff in Hge; [|done].
    destruct (zero_on_segment _ _ Hle Hge) as (u & Hu0 & Hu1 & Hz).
    exists (u * b + (1 - u) * b')%Q, (u * c + (1 - u) * c')%Q.
    assert (Hwb : within (u * b + (1 - u) * b')%Q base).
    { apply between; try done; destruct Hbc as [->| ->], Hbc' as [->| ->]; lra. }
    split; [done|]. split.
    { apply between; try done; destruct Hcc as [->| ->], Hcc' as [->| ->]; lra. }
    destruct Hwb as [Hw1 Hw2].
    assert (Hw : (0 < u * b + (1 - u) * b')%Q) by lra.
    assert (Hg : (k * (u * c + (1 - u) * c') + (t - q) * (u * b + (1 - u) * b')
                  == u * (k * c + (t - q) * b) + (1 - u) * (k * c' + (t - q) * b'))%Q) by ring.
    apply Qle_antisym; [apply rate_ge_iff|apply rate_le_iff]; try done; lra.
  - intros (b & c & [Hb1 Hb2] & [Hc1 Hc2] & Hq).
    assert (Hb0 : (0 < b)%Q) by lra.
    assert (Hle : (affine_rate k t b c <= q)%Q) by lra.
    assert (Hge : (q <= affine_rate k t b c)%Q) by lra.
    apply rate_le_iff in Hle; [|done]. apply rate_ge_iff in Hge; [|done].
    split.
    + set (b' := if Qlt_le_dec 0 (t - q) then base.1 else base.2).
      set (c' := if Qlt_le_dec 0 k then current.1 else current.2).
      exists (affine_rate k t b' c'). split.
      * exists b', c'. unfold b', c'. repeat destruct (Qlt_le_dec _ _); auto.
      * apply rate_le_iff; [unfold b'; destruct (Qlt_le_dec _ _); lra|].
        unfold b', c'. repeat destruct (Qlt_le_dec _ _); nra.
    + set (b' := if Qlt_le_dec 0 (t - q) then base.2 else base.1).
      set (c' := if Qlt_le_dec 0 k then current.2 else current.1).
      exists (affine_rate k t b' c'). split.
      * exists b', c'. unfold b', c'. repeat destruct (Qlt_le_dec _ _); auto.
      * apply rate_ge_iff; [unfold b'; destruct (Qlt_le_dec _ _); lra|].
        unfold b', c'. repeat destruct (Qlt_le_dec _ _); nra.
Qed.

Definition mirror (i : interval) : interval := ((- i.2)%Q, (- i.1)%Q).

Lemma within_mirror x i : within x i ↔ within (- x)%Q (mirror i).
Proof. unfold within, mirror. cbn. split; intros [? ?]; lra. Qed.

(** The corners of the mirrored box are the same numbers. *)
Lemma corner_list_mirror k t base current (P : Q → Prop) : (base.2 < 0)%Q → proper base →
  (∀ x y, (x == y)%Q → P x → P y) →
  (∃ y, y ∈ corner_list k t base current ∧ P y)
  ↔ ∃ y, y ∈ corner_list k t (mirror base) (mirror current) ∧ P y.
Proof.
  unfold proper. intros Hneg Hb HP.
  assert (Heq : ∀ b c, (b < 0)%Q → (affine_rate k t (- b) (- c) == affine_rate k t b c)%Q).
  { intros b c Hlt. apply affine_rate_opp. lra. }
  split; intros (y & (b & c & Hbc & Hcc & ->)%corner_list_elem & Hy).
  - exists (affine_rate k t (- b) (- c)). split.
    + apply corner_list_elem. exists (- b)%Q, (- c)%Q. unfold mirror. cbn.
      destruct Hbc as [->| ->], Hcc as [->| ->]; auto.
    + eapply HP; [|exact Hy]. symmetry. apply Heq. destruct Hbc as [->| ->]; lra.
  - unfold mirror in Hbc, Hcc. cbn in Hbc, Hcc.
    assert (Hb' : ∃ b', (b' = base.1 ∨ b' = base.2) ∧ b = (- b')%Q) by (destruct Hbc; eauto).
    assert (Hc' : ∃ c', (c' = current.1 ∨ c' = current.2) ∧ c = (- c')%Q) by (destruct Hcc; eauto).
    destruct Hb' as (b' & Hb' & ->), Hc' as (c' & Hc' & ->).
    exists (affine_rate k t b' c'). split; [apply corner_list_elem; eauto 10|].
    eapply HP; [|exact Hy]. apply Heq. destruct Hb' as [->| ->]; lra.
Qed.

(** The interval of a rate holds exactly the rates of the numbers in the box. *)
Lemma rate_range k t base current q :
  (0 < base.1)%Q ∨ (base.2 < 0)%Q → proper base → proper current →
  within q (span_of (corner_list k t base current))
  ↔ ∃ b c, within b base ∧ within c current ∧ (q == affine_rate k t b c)%Q.
Proof.
  intros [Hpos|Hneg] Hb Hc; [by apply rate_range_pos|].
  assert (Hm : within q (span_of (corner_list k t base current))
               ↔ within q (span_of (corner_list k t (mirror base) (mirror current)))).
  { unfold corner_list at 1 2. rewrite !span_of_within.
    change (affine_rate k t base.1 current.1 :: _) with (corner_list k t base current).
    change (affine_rate k t (mirror base).1 (mirror current).1 :: _)
      with (corner_list k t (mirror base) (mirror current)).
    rewrite <- !corner_list_mirror; try done; intros x y Hxy; lra. }
  rewrite Hm, rate_range_pos; [|unfold mirror, proper in *; cbn; lra..].
  assert (Hsign : ∀ b, within b base → (b < 0)%Q) by (intros b [_ Hb2]; unfold proper in Hb; lra).
  split.
  - intros (b & c & Hwb & Hwc & Hq). exists (- b)%Q, (- c)%Q.
    assert (Hb' : within (- b)%Q base).
    { destruct Hwb as [H1 H2]. unfold mirror in H1, H2. cbn in H1, H2. split; lra. }
    split; [done|]. split.
    + destruct Hwc as [H1 H2]. unfold mirror in H1, H2. cbn in H1, H2. split; lra.
    + rewrite Hq. symmetry. apply affine_rate_opp. specialize (Hsign _ Hb'). lra.
  - intros (b & c & Hwb & Hwc & Hq). exists (- b)%Q, (- c)%Q.
    split; [by apply (within_mirror b base)|]. split; [by apply (within_mirror c current)|].
    rewrite Hq. symmetry. apply affine_rate_opp. specialize (Hsign _ Hwb). lra.
Qed.

(* ------------------------------------------------------------------ *)
(** ** The exact decimal *)
(* ------------------------------------------------------------------ *)

Section factors.
Local Open Scope Z_scope.

Lemma strip_factor_spec fuel f d : 2 <= f → 0 < d →
  ∃ k, 0 <= k ∧ d = strip_factor fuel f d * f ^ k ∧ 0 < strip_factor fuel f d.
Proof.
  intros Hf. revert d. induction fuel as [|fuel IH]; intros d Hd; cbn.
  { exists 0. rewrite Z.pow_0_r. lia. }
  destruct (Z.eqb_spec (d mod f) 0) as [Hm|Hm].
  - assert (Hq : d = f * (d / f)) by (pose proof (Z.div_mod d f ltac:(lia)); lia).
    assert (0 < d / f) by nia. destruct (IH (d / f)) as (k & Hk & He & Hp); [done|].
    exists (k + 1). rewrite Z.pow_add_r, Z.pow_1_r by lia. split; [lia|]. split; [|done].
    rewrite Hq at 1. rewrite He at 1. ring.
  - exists 0. rewrite Z.pow_0_r. lia.
Qed.

Lemma strip_factor_done fuel f d : 2 <= f → 0 < d → d < 2 ^ Z.of_nat fuel →
  strip_factor fuel f d mod f ≠ 0.
Proof.
  intros Hf. revert d. induction fuel as [|fuel IH]; intros d Hd Hlt; cbn.
  { change (2 ^ Z.of_nat 0) with 1 in Hlt. lia. }
  destruct (Z.eqb_spec (d mod f) 0) as [Hm|Hm]; [|done].
  assert (Hq : d = f * (d / f)) by (pose proof (Z.div_mod d f ltac:(lia)); lia).
  rewrite Nat2Z.inj_succ, Z.pow_succ_r in Hlt by lia. apply IH; nia.
Qed.

Lemma strip_all_spec f d : 2 <= f → 0 < d →
  (∃ k, 0 <= k ∧ d = strip_all f d * f ^ k) ∧ 0 < strip_all f d ∧ strip_all f d mod f ≠ 0.
Proof.
  intros Hf Hd. unfold strip_all.
  destruct (strip_factor_spec (S (Z.to_nat (Z.log2 d))) f d Hf Hd) as (k & Hk & He & Hp).
  split; [eauto|]. split; [done|]. apply strip_factor_done; try done.
  rewrite Nat2Z.inj_succ, Z2Nat.id by apply Z.log2_nonneg. by apply Z.log2_spec.
Qed.

Lemma gauss_pow d f k x : Z.gcd d f = 1 → 0 <= k → (d | f ^ k * x) → (d | x).
Proof.
  intros Hg Hk. revert x. pattern k. apply natlike_ind; [| |done].
  - intros x. by rewrite Z.pow_0_r, Z.mul_1_l.
  - intros j Hj IH x. rewrite Z.pow_succ_r by done. rewrite <- Z.mul_assoc. intros H.
    apply IH. by apply (Z.gauss d f).
Qed.

Lemma small_coprime d f : f = 2 ∨ f = 5 → d mod f ≠ 0 → Z.gcd d f = 1.
Proof.
  intros Hf Hm. assert (f ≠ 0) by lia.
  rewrite Z.gcd_comm, <- Z.gcd_mod by done.
  pose proof (Z.mod_pos_bound d f ltac:(lia)).
  destruct Hf as [->| ->].
  - assert (d mod 2 = 1) as -> by lia. done.
  - assert (d mod 5 = 1 ∨ d mod 5 = 2 ∨ d mod 5 = 3 ∨ d mod 5 = 4) as [->|[->|[->| ->]]] by lia; done.
Qed.

(** The two loops leave 1 exactly on the divisors of the powers of ten. *)
Lemma strip_all_terminates d : 0 < d →
  strip_all 5 (strip_all 2 d) = 1 ↔ ∃ k, 0 <= k ∧ (d | 10 ^ k).
Proof.
  intros Hd. destruct (strip_all_spec 2 d) as ((a & Ha & Hda) & Hp2 & Hm2); [lia|done|].
  destruct (strip_all_spec 5 (strip_all 2 d)) as ((b & Hb & Hdb) & Hp5 & Hm5); [lia|done|].
  split.
  - intros H1. rewrite H1, Z.mul_1_l in Hdb. rewrite Hdb in Hda.
    exists (a + b). split; [lia|]. exists (2 ^ b * 5 ^ a).
    change 10 with (2 * 5). rewrite Z.pow_mul_l, !Z.pow_add_r by lia. rewrite Hda. ring.
  - intros (k & Hk & Hdiv).
    assert (H5 : (strip_all 5 (strip_all 2 d) | 10 ^ k)).
    { etrans; [|exact Hdiv]. exists (5 ^ b * 2 ^ a). rewrite Hda at 1. rewrite Hdb at 1. ring. }
    change 10 with (2 * 5) in H5. rewrite Z.pow_mul_l in H5.
    assert (Hodd : Z.gcd (strip_all 5 (strip_all 2 d)) 2 = 1).
    { apply small_coprime; [by left|]. intros H0. apply Hm2. rewrite Hdb.
      by rewrite Z.mul_comm, <- Z.mul_mod_idemp_r, H0, Z.mul_0_r by done. }
    apply gauss_pow in H5; [|done|done].
    rewrite <- (Z.mul_1_r (5 ^ k)) in H5.
    apply gauss_pow in H5; [|by apply small_coprime; [right|]|done].
    apply Z.divide_1_r_nonneg in H5; lia.
Qed.
End factors.


(** ** The decimal shown is the exact value *)

Lemma qred_coprime (v : Q) : Z.gcd (Qnum (Qred v)) (Zpos (Qden (Qred v))) = 1%Z.
Proof. apply Qcanon.Qred_identity2, Qcanon.Qred_involutive. Qed.

(** A decimal is an integer over a power of ten. *)
Lemma d_value_fraction d (n : Z) (p : positive) : (d_value d == n # p)%Q →
  ∃ s k, (0 <= k)%Z ∧ (n * 10 ^ k = s * Zpos p)%Z.
Proof.
  intros Hv. exists (d_signed d * 10 ^ Z.max 0 (d_exp d))%Z, (Z.max 0 (- d_exp d)).
  split; [lia|]. revert Hv. unfold d_value. set (e := d_exp d).
  destruct (Z.le_gt_cases 0 e) as [He|He].
  - rewrite (Z.max_r 0 e), (Z.max_l 0 (- e)) by lia.
    rewrite <- Zpower_Qpower by done. unfold Qeq. cbn. lia.
  - rewrite (Z.max_l 0 e), (Z.max_r 0 (- e)) by lia. intros Hv.
    assert (Hp : (inject_Z 10 ^ e * inject_Z (10 ^ (- e)) == 1)%Q).
    { rewrite Zpower_Qpower by lia. rewrite <- Qpower_plus by done.
      replace (e + - e)%Z with 0%Z by lia. reflexivity. }
    assert (Hs : (inject_Z (d_signed d) == (n # p) * inject_Z (10 ^ (- e)))%Q).
    { rewrite <- Hv, <- Qmult_assoc, Hp. ring. }
    revert Hs. unfold Qeq. cbn. lia.
Qed.

Lemma terminating_bounds d L : (0 < d)%Z → (d < 10 ^ Z.of_nat L)%Z →
  strip_all 5 (strip_all 2 d) = 1%Z →
  ∃ (m : N) (k : nat), (Z.abs_N d * m = 10 ^ N.of_nat k)%N ∧ k <= 4 * L
                       ∧ (m < 10 ^ N.of_nat (3 * L))%N.
Proof.
  intros Hd HL H1. destruct (strip_all_spec 2 d) as ((a & Ha & Hda) & Hp2 & _); [lia|done|].
  destruct (strip_all_spec 5 (strip_all 2 d)) as ((b & Hb & Hdb) & _); [lia|done|].
  rewrite H1, Z.mul_1_l in Hdb. rewrite Hdb in Hda.
  set (k := Z.max a b). set (m := (2 ^ (k - a) * 5 ^ (k - b))%Z).
  assert (Hm : (0 < m)%Z) by (unfold m; nia).
  assert (Hprod : (d * m = 10 ^ k)%Z).
  { unfold m. rewrite Hda. change 10%Z with (2 * 5)%Z. rewrite Z.pow_mul_l.
    replace (2 ^ k)%Z with (2 ^ a * 2 ^ (k - a))%Z by (rewrite <- Z.pow_add_r by lia; f_equal; lia).
    replace (5 ^ k)%Z with (5 ^ b * 5 ^ (k - b))%Z by (rewrite <- Z.pow_add_r by lia; f_equal; lia).
    ring. }
  assert (H2a : (2 ^ a <= d)%Z) by (pose proof (Z.pow_pos_nonneg 5 b); nia).
  assert (H5b : (5 ^ b <= d)%Z) by (pose proof (Z.pow_pos_nonneg 2 a); nia).
  assert (H2k : (2 ^ k <= d)%Z).
  { unfold k. destruct (Z.max_spec a b) as [[_ ->]|[_ ->]]; [|done].
    etrans; [|exact H5b]. apply Z.pow_le_mono_l. lia. }
  assert (Hmd : (m <= d ^ 3)%Z).
  { unfold m, k. destruct (Z.max_spec a b) as [[Hab ->]|[Hab ->]].
    - replace (b - b)%Z with 0%Z by lia. rewrite Z.pow_0_r, Z.mul_1_r.
      transitivity (2 ^ b)%Z; [apply Z.pow_le_mono_r; lia|].
      transitivity (5 ^ b)%Z; [apply Z.pow_le_mono_l; lia|]. nia.
    - replace (a - a)%Z with 0%Z by lia. rewrite Z.pow_0_r, Z.mul_1_l.
      transitivity (5 ^ a)%Z; [apply Z.pow_le_mono_r; lia|].
      transitivity ((2 ^ 3) ^ a)%Z; [apply Z.pow_le_mono_l; lia|].
      rewrite <- Z.pow_mul_r, Z.mul_comm, Z.pow_mul_r by lia.
      apply Z.pow_le_mono_l. pose proof (Z.pow_pos_nonneg 2 a). lia. }
  exists (Z.to_N m), (Z.to_nat k). split_and!.
  - apply N2Z.inj. rewrite N2Z.inj_mul, N2Z.inj_pow, N2Z.inj_abs_N, Z2N.id by lia.
    rewrite (Z.abs_eq d), Hprod by lia. f_equal. lia.
  - enough (k < 4 * Z.of_nat L)%Z by lia. apply (Z.pow_lt_mono_r_iff 2); [lia|lia|].
    eapply Z.le_lt_trans; [exact H2k|]. eapply Z.lt_le_trans; [exact HL|].
    rewrite Z.pow_mul_r by lia. apply Z.pow_le_mono_l. lia.
  - apply N2Z.inj_lt. rewrite N2Z.inj_pow, Z2N.id by lia. eapply Z.le_lt_trans; [exact Hmd|].
    replace (Z.of_N (N.of_nat (3 * L))) with (Z.of_nat L * 3)%Z by lia.
    rewrite Z.pow_mul_r by lia. apply Z.pow_lt_mono_l; lia.
Qed.

Lemma int_str_digits z s : int_str z = Ok s → s = Z_dec z
  ∧ (py_len (N_dec (Z.abs_N z)) <= int_max_str_digits)%Z.
Proof.
  unfold int_str. destruct (Z.ltb_spec int_max_str_digits (py_len (N_dec (Z.abs_N z)))); [done|].
  cbn. by intros [= <-].
Qed.

Lemma int_str_refusal z e : int_str z = Raise e →
  (∃ m, e = ValueError m) ∧ (int_max_str_digits < py_len (N_dec (Z.abs_N z)))%Z.
Proof.
  unfold int_str. destruct (Z.ltb_spec int_max_str_digits (py_len (N_dec (Z.abs_N z)))); [|done].
  cbn. intros [= <-]. eauto.
Qed.

Lemma d_value_quotient (neg : bool) (c : N) (j : nat) (n : Z) (p : positive) :
  neg = (n <? 0)%Z → (c * N.pos p = Z.abs_N n * 10 ^ N.of_nat j)%N →
  (d_value {| d_neg := neg; d_coef := c; d_exp := - Z.of_nat j |} == n # p)%Q.
Proof.
  intros -> Hc. unfold d_value, d_signed. cbn [d_neg d_coef d_exp].
  assert (Hp : (inject_Z 10 ^ (- Z.of_nat j) * inject_Z (10 ^ Z.of_nat j) == 1)%Q).
  { rewrite Zpower_Qpower by lia. rewrite <- Qpower_plus by done.
    replace (- Z.of_nat j + Z.of_nat j)%Z with 0%Z by lia. reflexivity. }
  apply (f_equal Z.of_N) in Hc. rewrite !N2Z.inj_mul, N2Z.inj_pow, nat_N_Z in Hc.
  assert (Hs : ∀ s, (s * Zpos p = n * 10 ^ Z.of_nat j)%Z →
                    (inject_Z s * inject_Z 10 ^ (- Z.of_nat j) == n # p)%Q).
  { intros s Hs. assert (He : (inject_Z s == (n # p) * inject_Z (10 ^ Z.of_nat j))%Q).
    { unfold Qeq. cbn. lia. }
    rewrite He, <- Qmult_assoc, (Qmult_comm (inject_Z (10 ^ _))), Hp. ring. }
  apply Hs. rewrite N2Z.inj_abs_N in Hc. change (Z.of_N 10) with 10%Z in Hc.
  destruct (Z.ltb_spec n 0) as [Hn|Hn].
  - rewrite Z.abs_neq in Hc by lia. lia.
  - rewrite Z.abs_eq in Hc by lia. lia.
Qed.

(** The quotient in a context of the chosen precision. *)
Lemma exact_quotient (n : Z) (p : positive) :
  strip_all 5 (strip_all 2 (Zpos p)) = 1%Z → (n = 0%Z → p = 1%positive) →
  let prec := (py_len (N_dec (Z.abs_N n)) + py_len (N_dec (N.pos p)) * 4 + 1)%Z in
  ∃ d, d_div prec (d_of_Z n) (d_of_Z (Zpos p)) = d ∧ (d_exp d <= 0)%Z ∧ (d_value d == n # p)%Q.
Proof.
  intros H1 Hzero prec. destruct (Z.eq_dec n 0) as [->|Hn].
  { rewrite (Hzero eq_refl) in *. unfold prec. eexists. split; [reflexivity|]. by vm_compute. }
  set (L := length (N_dec (N.pos p))).
  assert (HL : (Zpos p < 10 ^ Z.of_nat L)%Z).
  { pose proof (N_dec_bound (N.pos p)) as Hb. apply N2Z.inj_lt in Hb.
    by rewrite N2Z.inj_pow, nat_N_Z in Hb. }
  destruct (terminating_bounds (Zpos p) L ltac:(done) HL H1) as (m & k & Hm & Hk & Hm3).
  assert (Hlen : length (N_dec m) <= 3 * L).
  { apply N_dec_length; [done|]. pose proof (N_dec_nonempty (N.pos p)). lia. }
  destruct (d_div_exact prec n (Zpos p) m k) as (c & j & Hd & Hc); [done|done|done|..].
  - unfold prec, py_len. cbn [Z.abs_N]. lia.
  - unfold prec, py_len. lia.
  - exists (d_div prec (d_of_Z n) (d_of_Z (Zpos p))). rewrite Hd. split; [done|].
    split; [cbn; lia|]. by apply d_value_quotient.
Qed.

(** The decimal the check displays is exact. When the computed fraction is
    a finite decimal, the text shown parses back to a decimal whose value is
    that very fraction, whatever its size; when no text is shown, no decimal
    has that value; and the only failure is the [ValueError] of a numerator or
    denominator of more than 4300 digits. *)
Theorem exact_decimal_exact (v : Q) :
  match exact_decimal v with
  | Ok (Some s) => ∃ d, d_parse s = Some (Finite d) ∧ (d_value d == v)%Q
  | Ok None => ∀ d, ~ (d_value d == v)%Q
  | Raise e => (∃ m, e = ValueError m)
      ∧ ((int_max_str_digits < py_len (N_dec (Z.abs_N (Qnum (Qred v)))))%Z
         ∨ (int_max_str_digits < py_len (N_dec (N.pos (Qden (Qred v)))))%Z)
  end.
Proof.
  unfold exact_decimal. pose proof (qred_coprime v) as Hg. pose proof (Qred_correct v) as Hv.
  destruct (Qred v) as [n p]. cbn [Qnum Qden] in *. cbv zeta.
  destruct (Z.eqb_spec (strip_all 5 (strip_all 2 (Zpos p))) 1) as [H1|H1]; cbn [negb].
  - destruct (int_str (Z.abs n)) as [ns|e] eqn:En; cbn [mbind result_bind].
    + destruct (int_str (Zpos p)) as [ds|e] eqn:Ed; cbn [mbind result_bind].
      * apply int_str_digits in En as [-> _], Ed as [-> _].
        destruct (exact_quotient n p H1) as (d & Hd & He & Hval).
        { intros ->. rewrite Z.gcd_0_l in Hg. by injection Hg as ->. }
        replace (Z_dec (Z.abs n)) with (N_dec (Z.abs_N n)) by (by destruct n).
        change (Z_dec (Zpos p)) with (N_dec (N.pos p)). rewrite Hd. exists d.
        split; [by apply d_format_parse|]. by rewrite Hval.
      * apply int_str_refusal in Ed as [Hm Hlen]. auto.
    + apply int_str_refusal in En as [Hm Hlen]. replace (Z.abs_N (Z.abs n)) with (Z.abs_N n) in Hlen by lia.
      auto.
  - intros d Hd. apply H1, strip_all_terminates; [done|].
    rewrite <- Hv in Hd. apply d_value_fraction in Hd as (s & k & Hk & Heq).
    exists k. split; [done|]. apply (Z.gauss _ n); [|by rewrite Z.gcd_comm].
    exists s. exact Heq.
Qed.
