(* ===== verification/NumericSpec.v ===== *)
(** * The verdict of the numeric check.

    Everything a decided verdict passed on the way ([evidence]), the figure a
    claim stands for, and the theorem that a decided verdict answers exactly
    whether numbers inside the printed roundings give the claimed figure. *)
From S2P Require Import Prelude PyVal JsonCodec Decimal Values PyDate Digest RulePack Geometry Graph GraphSpec Numeric NumericValue.
From Stdlib Require Import QArith Lqa.
Open Scope nat_scope.
Open Scope py_scope.

(* ------------------------------------------------------------------ *)
(** ** What a decided verdict rests on *)
(* ------------------------------------------------------------------ *)

Definition decided (r : CheckResult) : Prop := cr_status r = Consistent ∨ cr_status r = Inconsistent.

(** The sources a binding is checked against. *)
Definition cited_ids (b : ClaimBinding) (items : list NumericObservation) : list pystr :=
  (source_id <$> bi_source_refs b) ++ (items ≫= λ o, source_id <$> ob_source_refs o)
  ++ (ob_table_id <$> items).

Section evidence.
Context `{Digest}.

Record evidence (b : ClaimBinding) (c : NumericClaim) (g : CanonicalDocumentGraph)
    (items : list NumericObservation) (numbers : list (Q * interval)) (reported : Q * interval)
    : Prop := {
  ev_claim : claim_verified b (Some c) g = Ok true;
  ev_issues : unresolved_source_issue_ids g (cited_ids b items) = [];
  ev_notes : ∃ accepted, validated_condition_ids b g items = Ok accepted
                         ∧ Forall (λ o, unresolved_footnotes o g accepted = Ok false) items;
  ev_numbers : Forall2 (λ o n, observation_display o g = Ok (Some n)) items numbers;
  ev_reported : display (default [] (bi_reported_value b)) 1 = Some reported;
  ev_periods : forallb is_supported_period (expected_periods b) = true;
  ev_distinct : period_ok b = true;
  ev_product : bi_kind b = ProductReduction → product_subjects_verified b (Some c) g = Ok true;
  ev_dimensions : dimensions_ok b items = true }.

Lemma compute_status b g items numbers status reason :
  compute b g items numbers = Ok (Unresolved status reason) →
  status = NotComparable ∨ status = NotComputable.
Proof.
  unfold compute, rate. intros Hc. destruct (bi_kind b).
  - by destruct numbers as [|[]].
  - apply if_result_Ok in Hc as [[_ [=]]|[_ [= <- _]]]; auto.
  - repeat (case_match; simplify_eq/=; auto); ok_inv Hc; discriminate.
  - repeat (case_match; simplify_eq/=; auto); ok_inv Hc; discriminate.
  - repeat (case_match; simplify_eq/=; auto); ok_inv Hc; discriminate.
Qed.

Lemma check_displays_decided b claim g items shown r :
  check_displays b claim g items shown = Ok r → decided r →
  ∃ numbers reported v i,
    mapM id shown = Some numbers
    ∧ display (default [] (bi_reported_value b)) 1 = Some reported
    ∧ forallb is_supported_period (expected_periods b) = true ∧ period_ok b = true
    ∧ (bi_kind b = ProductReduction → product_subjects_verified b claim g = Ok true)
    ∧ dimensions_ok b items = true
    ∧ compute b g items numbers = Ok (Computed v i) ∧ verdict b items reported (v, i) = Ok r.
Proof.
  unfold check_displays. intros Hr Hd.
  destruct (mapM id shown) as [numbers|]; [|simplify_eq; by destruct Hd].
  destruct (display _ 1) as [reported|]; [|simplify_eq; by destruct Hd].
  destruct (forallb is_supported_period _) eqn:Hper; cbn [negb] in Hr; [|simplify_eq; by destruct Hd].
  apply bind_Ok_inv in Hr as (prod & Hprod & Hr).
  destruct (period_ok b) eqn:Hok; cbn [negb orb] in Hr; [|simplify_eq; by destruct Hd].
  destruct prod; cbn [negb orb] in Hr; [|simplify_eq; by destruct Hd].
  destruct (dimensions_ok b items) eqn:Hdim; cbn [negb] in Hr; [|simplify_eq; by destruct Hd].
  apply bind_Ok_inv in Hr as (comp & Hcomp & Hr). destruct comp as [v i|status reason].
  - exists numbers, reported, v, i. split_and!; try done. intros Hk.
    by rewrite bool_decide_true in Hprod.
  - apply compute_status in Hcomp. simplify_eq. unfold decided, undecided in Hd. cbn in Hd.
    naive_solver.
Qed.

Lemma check_binding_decided observations claims original b r :
  check_binding observations claims original b = Ok r → decided r →
  ∃ c g numbers reported v i,
    let items := omap (λ i, find (λ o, ob_id o =s? i) observations) (bi_observation_ids b) in
    original = Some g ∧ find (λ c, nc_claim_id c =s? bi_claim_id b) claims = Some c
    ∧ length items = length (bi_observation_ids b)
    ∧ evidence b c g items numbers reported
    ∧ compute b g items numbers = Ok (Computed v i) ∧ verdict b items reported (v, i) = Ok r.
Proof.
  unfold check_binding. intros Hr Hd. cbv zeta in Hr |- *.
  set (items := omap _ (bi_observation_ids b)) in *.
  apply bind_Ok_inv in Hr as (? & _ & Hr).
  destruct (Z.eqb_spec (py_len items) (py_len (bi_observation_ids b))) as [Hlen|];
    cbn [negb] in Hr; [|simplify_eq; by destruct Hd].
  destruct original as [g|]; [|simplify_eq; by destruct Hd].
  apply if_result_Ok in Hr as [[Hclaim Hr]|[_ Hr]]; [|simplify_eq; by destruct Hd].
  fold (cited_ids b items) in Hr.
  destruct (unresolved_source_issue_ids g (cited_ids b items)) eqn:Hissues; cbn [nonempty_list] in Hr;
    [|simplify_eq; by destruct Hd].
  apply bind_Ok_inv in Hr as (accepted & Hacc & Hr).
  apply if_result_Ok in Hr as [[_ Hr]|[Hnotes Hr]]; [simplify_eq; by destruct Hd|].
  apply bind_Ok_inv in Hr as (shown & Hshown & Hr).
  apply check_displays_decided in Hr as (numbers & reported & v & i & Hm & Hrep & Hp & Ho & Hprod & Hdim & Hc & Hv);
    [|done].
  destruct (find _ claims) as [c|] eqn:Hfind.
  2: { unfold claim_verified in Hclaim. by destruct (bi_binding_accepted b). }
  exists c, g, numbers, reported, v, i. split_and!; try done; [unfold py_len in Hlen; lia|].
  split; try done.
  - exists accepted. split; [done|]. by apply any_result_false.
  - apply map_result_Ok in Hshown. apply mapM_Some in Hm.
    clear -Hshown Hm. revert numbers Hm. induction Hshown; inversion 1; subst; constructor; auto.
    unfold id in *. congruence.
Qed.
End evidence.

(* ------------------------------------------------------------------ *)
(** ** The figures a claim can mean *)
(* ------------------------------------------------------------------ *)

(** The figure of a claim for given numbers. *)
Definition figure (k : CheckKind) (xs : list Q) : Q :=
  match k, xs with
  | Comparison, x :: _ => x
  | Sum, _ => q_sum xs
  | Growth, [b; c] => ((c / b - 1) * 100)%Q
  | (Reduction | ProductReduction), [b; c] => ((1 - c / b) * 100)%Q
  | _, _ => 0%Q
  end.

Lemma q_sum_cons x l : (q_sum (x :: l) == x + q_sum l)%Q.
Proof.
  unfold q_sum. cbn. assert (H : ∀ l a, (foldl Qplus a l == a + foldl Qplus 0%Q l)%Q).
  { induction l0 as [|y l0 IH]; intros a; cbn; [ring|]. rewrite IH, (IH (0 + y)%Q). ring. }
  rewrite H. ring.
Qed.

Lemma q_sum_proper ivs : Forall proper ivs → (q_sum ivs.*1 <= q_sum ivs.*2)%Q.
Proof.
  induction 1 as [|i ivs Hi _ IH]; [done|]. rewrite !fmap_cons, !q_sum_cons.
  unfold proper in Hi. lra.
Qed.

Lemma sum_range ivs y : Forall proper ivs →
  within y (q_sum ivs.*1, q_sum ivs.*2) ↔ ∃ xs, Forall2 within xs ivs ∧ (y == q_sum xs)%Q.
Proof.
  intros His. revert y. induction His as [|i ivs Hi His IH]; intros y.
  - unfold within. cbn. split; [intros [? ?]; exists []; split; [done|unfold q_sum; cbn; lra]|].
    intros (xs & ->%Forall2_nil_inv_r & Hy). unfold q_sum in Hy. cbn in *. lra.
  - pose proof (q_sum_proper ivs His) as Hp. unfold proper in Hi. split.
    + intros [Hlo Hhi]. cbn [fst snd] in Hlo, Hhi. rewrite !fmap_cons, q_sum_cons in Hlo, Hhi.
      set (x := if Qlt_le_dec (y - q_sum ivs.*2) i.1 then i.1 else (y - q_sum ivs.*2)%Q).
      assert (Hx : within x i ∧ within (y - x) (q_sum ivs.*1, q_sum ivs.*2)).
      { unfold within, x. cbn [fst snd]. destruct (Qlt_le_dec _ _); repeat split; lra. }
      destruct Hx as [Hx (xs & Hxs & Hy)%IH]. exists (x :: xs). split; [by constructor|].
      rewrite q_sum_cons, <- Hy. ring.
    + intros (xs & Hxs & Hy). apply Forall2_cons_inv_r in Hxs as (x & xs' & Hx & Hxs & ->).
      assert (Hw : within (q_sum xs') (q_sum ivs.*1, q_sum ivs.*2)) by (apply IH; exists xs'; done).
      rewrite q_sum_cons in Hy. unfold within in *. cbn [fst snd] in *.
      rewrite !fmap_cons, !q_sum_cons. lra.
Qed.

(** Equal numbers span the same interval. *)
Lemma span_of_equiv x l x' l' q : Forall2 Qeq (x :: l) (x' :: l') →
  within q (span_of (x :: l)) ↔ within q (span_of (x' :: l')).
Proof.
  intros Heq. rewrite !span_of_within.
  assert (Hto : ∀ (R : Q → Prop), (∀ a b, (a == b)%Q → R a ↔ R b) →
                (∃ y, y ∈ x :: l ∧ R y) ↔ ∃ y, y ∈ x' :: l' ∧ R y).
  { intros R HR. split; intros (y & Hy & Hr).
    - apply list_elem_of_lookup in Hy as [i Hi].
      destruct (Forall2_lookup_l _ _ _ _ _ Heq Hi) as (z & Hz & Hyz).
      exists z. split; [by eapply list_elem_of_lookup_2|]. by apply (HR y).
    - apply list_elem_of_lookup in Hy as [i Hi].
      destruct (Forall2_lookup_r _ _ _ _ _ Heq Hi) as (z & Hz & Hyz).
      exists z. split; [by eapply list_elem_of_lookup_2|]. by apply (HR z y). }
  rewrite (Hto (λ y, (y <= q)%Q)), (Hto (λ y, (q <= y)%Q)); [done|..]; intros a b Hab; lra.
Qed.

Lemma q_div_Ok a b q : q_div a b = Ok q → ~ (b == 0)%Q ∧ q = (a / b)%Q.
Proof.
  unfold q_div. intros H. ok_inv H. split; [|done]. intros Hb%Qeq_bool_iff. congruence.
Qed.

Lemma corners_Ok f k t base current cs : corners f base current = Ok cs →
  (∀ b c q, f b c = Ok q → (q == affine_rate k t b c)%Q) →
  Forall2 Qeq cs (corner_list k t base current).
Proof.
  unfold corners. intros Hcs%map_result_Ok Hf. unfold corner_list.
  repeat match goal with
  | H : Forall2 _ (_ :: _) _ |- _ => apply Forall2_cons_inv_l in H as (? & ? & ? & H & ->)
  | H : Forall2 _ [] _ |- _ => apply Forall2_nil_inv_l in H as ->
  end. cbn [fst snd] in *.
  repeat constructor; by apply Hf.
Qed.

Definition rate_slope (k : CheckKind) : Q := if bool_decide (k = Growth) then 100%Q else (-100)%Q.

Lemma rate_corner k b c q :
  (if bool_decide (k = Growth) then growth_rate else reduction_rate) b c = Ok q →
  (q == affine_rate (rate_slope k) (- rate_slope k) b c)%Q.
Proof.
  unfold rate_slope, growth_rate, reduction_rate, affine_rate.
  destruct (bool_decide _); intros (x & [Hb ->]%q_div_Ok & [= <-])%bind_Ok_inv; field; done.
Qed.

Lemma rate_centre k b c q :
  (if bool_decide (k = Growth) then growth_rate else reduction_value) b c = Ok q →
  ~ (b == 0)%Q ∧ (q == affine_rate (rate_slope k) (- rate_slope k) b c)%Q.
Proof.
  unfold rate_slope, growth_rate, reduction_value, affine_rate.
  destruct (bool_decide _); intros (x & [Hb ->]%q_div_Ok & [= <-])%bind_Ok_inv;
    (split; [done|field; done]).
Qed.

Lemma figure_rate k b c : k = Reduction ∨ k = Growth ∨ k = ProductReduction → ~ (b == 0)%Q →
  (figure k [b; c] == affine_rate (rate_slope k) (- rate_slope k) b c)%Q.
Proof.
  intros Hk Hb. unfold affine_rate, rate_slope.
  destruct Hk as [->|[->| ->]]; cbn [figure]; [rewrite bool_decide_false by done
    |rewrite bool_decide_true by done|rewrite bool_decide_false by done]; field; done.
Qed.

Lemma rate_computed k baseline base_bounds current current_bounds v i :
  k = Reduction ∨ k = Growth ∨ k = ProductReduction →
  proper base_bounds → proper current_bounds →
  rate k [(baseline, base_bounds); (current, current_bounds)] = Ok (Computed v i) →
  (v == figure k [baseline; current])%Q
  ∧ ∀ y, within y i ↔ ∃ b c, within b base_bounds ∧ within c current_bounds
                             ∧ (y == figure k [b; c])%Q.
Proof.
  intros Hk Hb Hc. unfold rate.
  destruct (_ && _) eqn:Hzero; [done|].
  assert (Hsign : (0 < base_bounds.1)%Q ∨ (base_bounds.2 < 0)%Q).
  { destruct (Qlt_le_dec 0 base_bounds.1); [by left|].
    destruct (Qlt_le_dec base_bounds.2 0); [by right|].
    apply andb_false_iff in Hzero as [H|H]; exfalso;
      apply not_true_iff_false in H; apply H; by apply Qle_bool_iff. }
  assert (Hnz : ∀ b, within b base_bounds → ~ (b == 0)%Q).
  { unfold within, proper in *. intros b [? ?] Hb0. destruct Hsign; lra. }
  intros (x & Hx & (cs & Hcs & [= <- <-])%bind_Ok_inv)%bind_Ok_inv.
  apply rate_centre in Hx as [Hbase Hx]. split; [by rewrite Hx, figure_rate|].
  intros y. apply (corners_Ok _ (rate_slope k) (- rate_slope k)) in Hcs; [|by apply rate_corner].
  destruct cs as [|c0 cs]; [by apply Forall2_nil_inv_l in Hcs|].
  unfold corner_list in Hcs. rewrite (span_of_equiv _ _ _ _ y Hcs).
  change (affine_rate _ _ base_bounds.1 current_bounds.1 :: _)
    with (corner_list (rate_slope k) (- rate_slope k) base_bounds current_bounds).
  rewrite rate_range by done.
  split; intros (b & c & Hwb & Hwc & Hy); exists b, c; (split; [done|split; [done|]]);
    rewrite Hy, figure_rate; try done; by apply Hnz.
Qed.

Section range.
Context `{Digest}.

(** The value is the figure of the printed numbers, and the interval holds
    exactly the figures of the numbers inside the printed roundings. *)
Lemma compute_range b g items numbers v i :
  Forall (λ n, proper n.2) numbers → match arity (bi_kind b) with
                                      | Some n => py_len numbers = n
                                      | None => True end →
  compute b g items numbers = Ok (Computed v i) →
  (v == figure (bi_kind b) numbers.*1)%Q
  ∧ ∀ y, within y i ↔ ∃ xs, Forall2 within xs numbers.*2 ∧ (y == figure (bi_kind b) xs)%Q.
Proof.
  intros Hp Ha. unfold compute, py_len in *.
  assert (Hrate : ∀ k, k = Reduction ∨ k = Growth ∨ k = ProductReduction → Z.of_nat (length numbers) = 2%Z →
    rate k numbers = Ok (Computed v i) → (v == figure k numbers.*1)%Q
    ∧ ∀ y, within y i ↔ ∃ xs, Forall2 within xs numbers.*2 ∧ (y == figure k xs)%Q).
  { intros k Hk Hlen Hr. destruct numbers as [|[x1 b1] [|[x2 b2] [|]]]; try (cbn in Hlen; lia).
    apply Forall_cons in Hp as [Hp1 Hp]. apply Forall_cons in Hp as [Hp2 _].
    apply rate_computed in Hr as [Hv Hr]; [|done..]. split; [done|]. intros y. rewrite Hr. split.
    - intros (b' & c' & Hb & Hc & Hy). exists [b'; c']. split; [by repeat apply Forall2_cons_2|done].
    - intros (xs & Hxs & Hy). cbn in Hxs.
      apply Forall2_cons_inv_r in Hxs as (b' & xs' & Hb & Hxs & ->).
      apply Forall2_cons_inv_r in Hxs as (c' & xs'' & Hc & Hxs & ->).
      apply Forall2_nil_inv_r in Hxs as ->. eauto. }
  destruct (bi_kind b); cbn [arity] in Ha; try (intros Hr; apply Hrate; [tauto|done|done]).
  - destruct numbers as [|[x j] [|]]; try (cbn in Ha; lia). intros [= <- <-].
    split; [reflexivity|]. intros y. split.
    + intros Hy. exists [y]. split; [by repeat apply Forall2_cons_2|reflexivity].
    + intros (xs & Hxs & Hy). cbn in Hxs.
      apply Forall2_cons_inv_r in Hxs as (x' & xs' & Hx & Hxs & ->).
      unfold within in *. cbn [figure] in Hy. lra.
  - intros Hr. apply if_result_Ok in Hr as [[_ Hr]|[_ [=]]].
    injection Hr as <- <-. split; [reflexivity|]. intros y. cbn [figure]. apply sum_range.
    by apply Forall_fmap.
Qed.
End range.

Lemma compare_displays_decided i j : compare_displays i j = Consistent ∨ compare_displays i j = Inconsistent.
Proof. unfold compare_displays. destruct (_ && _); auto. Qed.

Lemma display_centre raw scale v i : (0 < scale)%Q → display raw scale = Some (v, i) → within v i.
Proof.
  unfold display. intros Hs Hd. destruct (NUMBER raw) as [[n u]|]; [|done]. cbn in Hd.
  injection Hd as <- <-. set (p := (10 ^ py_len (nu_frac n))%Z).
  assert (Hp : (0 < 2 * p)%Z) by (assert (0 < p)%Z by (apply Z.pow_pos_nonneg; unfold py_len; lia); lia).
  assert (Hh : (0 <= 1 / inject_Z (2 * p) * scale)%Q).
  { apply Qmult_le_0_compat; [|lra]. apply Qle_shift_div_l; [by rewrite <- (Zlt_Qlt 0)|lra]. }
  unfold within. cbn [fst snd]. change (match (10 ^ py_len (nu_frac n))%Z with
    | 0%Z => 0%Z | Z.pos y' => Z.pos y'~0 | Z.neg y' => Z.neg y'~0 end) with (2 * p)%Z. lra.
Qed.

Lemma within_proper v i : within v i → proper i.
Proof. unfold within, proper. lra. Qed.

Section verdicts.
Context `{Digest}.

Lemma observation_display_within o g n :
  observation_display o g = Ok (Some n) → within n.1 n.2.
Proof.
  unfold observation_display. destruct (negb _); [done|].
  intros Hr. apply if_result_Ok in Hr as [[_ Hr]|[_ [=]]].
  destruct (scaled_unit (ob_unit_raw o)) as [scale canonical].
  destruct (_ || _ : bool); [done|].
  destruct (parsed_display o scale) as [shown|] eqn:Hp; [|done].
  destruct (forallb _ _); [|done]. injection Hr as ->.
  unfold parsed_display in Hp.
  destruct (display (ob_value_raw o) _) as [[v i]|] eqn:Hd; [|done]. cbn in Hp.
  destruct (decimal_value (ob_value_decimal o)) as [d|]; [|done]. cbn in Hp.
  destruct (Qeq_bool v (d_value d)); [|done]. injection Hp as <-.
  eapply display_centre; [|exact Hd]. by destruct (scale =s? _).
Qed.

Lemma verdict_Ok b items reported v i r : verdict b items reported (v, i) = Ok r →
  cr_status r = compare_displays i reported.2 ∧ exact_decimal v = Ok (cr_computed_value r).
Proof.
  unfold verdict. cbn [fst snd]. intros Hr. apply bind_Ok_inv in Hr as (d & Hd & Hr).
  destruct d as [d|]; [by injection Hr as <-|].
  apply bind_Ok_inv in Hr as (n & _ & Hr). apply bind_Ok_inv in Hr as (p & _ & Hr).
  by injection Hr as <-.
Qed.

Lemma mk_ClaimBinding_arity b b' : mk_ClaimBinding b = Ok b' →
  match arity (bi_kind b) with
  | Some n => py_len (bi_observation_ids b) = n
  | None => True end.
Proof.
  unfold mk_ClaimBinding. intros Hb. open_run Hb.
  repeat match goal with H : require _ _ = Ok _ |- _ => apply require_Ok in H end.
  destruct (arity (bi_kind b)); [by str_prop|done].
Qed.

Lemma evidence_proper b c g items numbers reported : evidence b c g items numbers reported →
  length numbers = length items ∧ Forall (λ n, within n.1 n.2) numbers ∧ within reported.1 reported.2.
Proof.
  intros [_ _ _ Hnum Hrep _ _ _ _]. split_and!.
  - symmetry. by eapply Forall2_length.
  - clear -Hnum. induction Hnum; constructor; [by eapply observation_display_within|done].
  - destruct reported as [v i]. by apply display_centre in Hrep.
Qed.

(** C30: a decided verdict is the exact answer to the question the claim poses.
    It rests on the evidence the check demands, and it is [consistent] exactly
    when there are numbers inside the printed roundings of the cited cells
    whose comparison, sum, growth or reduction lies inside the printed
    rounding of the claimed figure; the value shown is that of the printed
    numbers themselves. *)
Theorem verdict_exact observations claims original b r :
  mk_ClaimBinding b = Ok b → check_binding observations claims original b = Ok r → decided r →
  ∃ c g items numbers reported,
    items = omap (λ i, find (λ o, ob_id o =s? i) observations) (bi_observation_ids b)
    ∧ evidence b c g items numbers reported
    ∧ (cr_status r = Consistent
       ↔ ∃ xs, Forall2 within xs numbers.*2 ∧ within (figure (bi_kind b) xs) reported.2)
    ∧ ∃ v, (v == figure (bi_kind b) numbers.*1)%Q ∧ exact_decimal v = Ok (cr_computed_value r).
Proof.
  intros Hb Hr Hd. apply check_binding_decided in Hr; [|done].
  destruct Hr as (c & g & numbers & reported & v & i & _ & _ & Hlen & Hev & Hc & Hv).
  eexists c, g, _, numbers, reported. split; [done|]. split; [exact Hev|].
  apply evidence_proper in Hev as (Hln & Hw & Hrep). apply mk_ClaimBinding_arity in Hb.
  apply compute_range in Hc as [Hval Hrange].
  2: { eapply Forall_impl; [exact Hw|]. intros n Hn. by apply within_proper in Hn. }
  2: { destruct (arity (bi_kind b)); [|done]. unfold py_len in *. lia. }
  apply verdict_Ok in Hv as [Hst Hdec]. split; [|by exists v].
  assert (Hi : within v i).
  { apply Hrange. exists numbers.*1. split; [|done].
    clear -Hw. induction Hw; constructor; done. }
  rewrite Hst, compare_displays_meet by (by eapply within_proper). split.
  - intros (y & Hy & Hyr). apply Hrange in Hy as (xs & Hxs & Heq). exists xs. split; [done|].
    unfold within in *. by rewrite <- Heq.
  - intros (xs & Hxs & Hfig). exists (figure (bi_kind b) xs). split; [|done].
    apply Hrange. exists xs. done.
Qed.
End verdicts.

(* ------------------------------------------------------------------ *)
(** ** A growth rate over two cells of one table *)
(* ------------------------------------------------------------------ *)

Section sample.
#[local] Existing Instance Checksum.

Definition sample_id (n : N) : pystr := "7c9e6679-7425-40de-944b-e07fc1f90b0" ++ N_dec n.

(** A verified block of one candidate, on one page with one box. *)
Definition cell_block (n : N) (kind text : pystr) (row column : option Z) : CanonicalBlock :=
  let c := sample_block run_a (sample_id n) kind text 10 10 in
  {| kb_source_id := sample_id n; kb_kind := kind;
     kb_candidates := [{| cb_kind := cb_kind c; cb_source := cb_source c;
       cb_geometry := cb_geometry c; cb_context := cb_context c; cb_parser_bbox := cb_parser_bbox c;
       cb_parser_system := cb_parser_system c; cb_to_canonical := cb_to_canonical c;
       cb_table_native_id := cb_table_native_id c; cb_row := row; cb_column := column;
       cb_row_span := None; cb_column_span := None |}];
     kb_families := ["native"]; kb_quality := "verified"; kb_winner := Some 0%Z |}.

Definition TEXT : pystr := "CO2 change -50 %".
Definition BASE : pystr := "CO2 2022 200 t".
Definition CURRENT : pystr := "CO2 2023 100 t".

Definition sample_blocks : list CanonicalBlock :=
  [cell_block 1 "paragraph" TEXT None None; cell_block 2 "table" "t" None None;
   cell_block 3 "table_cell" BASE (Some 1%Z) (Some 1%Z);
   cell_block 4 "table_cell" CURRENT (Some 1%Z) (Some 2%Z)].

Definition sample_sha : pystr := "0123456789abcdef0123456789abcdef0123456789abcdef0123456789abcdef".

Definition sample_graph : CanonicalDocumentGraph :=
  {| gr_tenant_id := tenant_uuid; gr_document_version_id := version_id;
     gr_parse_manifest_id := manifest_id; gr_source_sha256 := sample_sha;
     gr_blocks := sample_blocks;
     gr_edges := [{| ed_source := sample_id 3; ed_target := sample_id 2; ed_relation := "table_parent" |};
                  {| ed_source := sample_id 4; ed_target := sample_id 2; ed_relation := "table_parent" |}];
     gr_issues := []; gr_candidates := [sample_batch run_a "native" (sample_blocks ≫= kb_candidates) []];
     gr_validation_profile := "fast_preview" |}.

(** The span [a, b) of the text of block [n]. *)
Definition span (n : N) (text : pystr) (a b : Z) : SourceRef :=
  {| source_id := sample_id n; document_version_id := version_id;
     parse_manifest_id := manifest_id; page_num := 1; printed_page_label := None;
     ref_bbox := cb_bbox (sample_block run_a (sample_id n) "paragraph" text 10 10);
     raw_text_sha256 := default [] (match text_sha256 text with Ok s => Some s | _ => None end);
     quote := slice text a b; char_start := a; char_end := b; location_quality := Located;
     verification_state := Verified |}.

Definition sample_observation (n : N) (text period value : pystr) (column : Z) : NumericObservation :=
  {| ob_id := N_dec n; ob_table_id := sample_id 2; ob_row := 1; ob_column := column;
     ob_tenant_id := tenant_uuid; ob_document_version_id := version_id;
     ob_parse_manifest_id := manifest_id; ob_source_sha256 := sample_sha;
     ob_metric_raw := "CO2"; ob_scope := None; ob_subject := None; ob_reporting_period := period;
     ob_scope2_basis := None; ob_organizational_boundary := None; ob_unit_raw := Some ("t" : pystr);
     ob_unit_canonical := Some ("t" : pystr); ob_scale_multiplier := "1"; ob_denominator := None;
     ob_value_raw := value ++ " t"; ob_value_decimal := Some value; ob_value_state := "value";
     ob_quality := "verified";
     ob_source_refs := [span n text 0 3; span n text 4 8; span n text 9 14];
     ob_source_blocks := List.filter (λ b, kb_source_id b =s? sample_id n) sample_blocks;
     ob_parent_relations := [(sample_id n, sample_id n, "metric_raw" : pystr);
                             (sample_id n, sample_id n, "reporting_period" : pystr)] |}.

Definition sample_observations : list NumericObservation :=
  [sample_observation 3 BASE "2022" "200" 1; sample_observation 4 CURRENT "2023" "100" 2].

Definition sample_claim : NumericClaim :=
  {| nc_claim_id := "c"; nc_tenant_id := tenant_uuid; nc_document_version_id := version_id;
     nc_parse_manifest_id := manifest_id; nc_source_sha256 := sample_sha; nc_quote := TEXT;
     nc_source_quality := "verified"; nc_source_refs := [span 1 TEXT 0 16] |}.

Definition sample_binding : ClaimBinding :=
  {| bi_claim_id := "c"; bi_tenant_id := tenant_uuid; bi_document_version_id := version_id;
     bi_kind := Growth; bi_observation_ids := ["3"; "4"]; bi_reported_value := Some ("-50" : pystr);
     bi_metric_raw := "CO2"; bi_scope := None; bi_subject := None; bi_scope2_basis := None;
     bi_organizational_boundary := None; bi_unit := Some ("t" : pystr); bi_denominator := None;
     bi_source_refs := [span 1 TEXT 0 16]; bi_parse_manifest_id := Some manifest_id;
     bi_reporting_period := Some ("2023" : pystr); bi_quantity_kind := Some ("absolute" : pystr);
     bi_baseline_period := Some ("2022" : pystr); bi_reported_value_ref := Some (span 1 TEXT 11 14);
     bi_binding_accepted := true; bi_aggregation := None; bi_baseline_subject := None;
     bi_subject_ref := None; bi_baseline_subject_ref := None;
     bi_product_comparison_accepted := false; bi_conditions := [] |}.

Definition sample_check : result CheckResult :=
  check_binding sample_observations [sample_claim] (Some sample_graph) sample_binding.

Lemma sample_check_ok : match sample_check with
                        | Ok r => bool_decide (cr_status r = Consistent) | Raise _ => false end = true.
Proof. vm_compute. reflexivity. Qed.
End sample.

(** The growth of the two cells is exactly the claimed -50 percent. *)
Lemma verdict_exact_witness :
  ∃ r c g items numbers reported,
    @sample_check = Ok r ∧ cr_status r = Consistent
    ∧ @evidence Checksum sample_binding c g items numbers reported
    ∧ ∃ xs, Forall2 within xs numbers.*2 ∧ within (figure Growth xs) reported.2.
Proof.
  pose proof sample_check_ok as H. destruct sample_check as [r|e] eqn:E; [|discriminate H].
  apply bool_decide_eq_true in H.
  destruct (@verdict_exact Checksum sample_observations [sample_claim] (Some sample_graph)
              sample_binding r eq_refl E (or_introl H)) as (c & g & items & numbers & reported & _ & Hev & Hiff & _).
  exists r, c, g, items, numbers, reported. split; [done|]. split; [done|]. split; [exact Hev|].
  exact (proj1 Hiff H).
Defined.
