(* ===== verification/NumericEvidence.v ===== *)
(** * The evidence behind the numeric check.

    The lineage walks reach exactly the ancestors, verified references are
    pinned to the snapshot, notes and open issues hold a verdict back, and
    accepted bindings are answered or refused with a [ValueError]. *)
From S2P Require Import Prelude PyVal JsonCodec Decimal Values PyDate Digest RulePack Geometry Graph GraphSpec Numeric NumericValue NumericSpec.
From Stdlib Require Import QArith Lqa.
Open Scope nat_scope.
Open Scope py_scope.

(* ------------------------------------------------------------------ *)
(** ** The lineage walks *)
(* ------------------------------------------------------------------ *)

Lemma elem_of_rev_iff {A} (x : A) l : x ∈ rev l ↔ x ∈ l.
Proof. rewrite !list_elem_of_In. symmetry. apply in_rev. Qed.

Section lineage.
Context (next : pystr → list pystr).
Let step (a b : pystr) : Prop := b ∈ next a.
#[local] Set Default Proof Using "All".

(** What of [T] was not seen. *)
Definition unseen (T seen : list pystr) : list pystr :=
  List.filter (λ y, negb (str_in y seen)) (remove_dups T).

Lemma elem_of_unseen T seen y : y ∈ unseen T seen ↔ y ∈ T ∧ y ∉ seen.
Proof.
  unfold unseen. by rewrite elem_of_lfilter, elem_of_remove_dups, negb_true_iff, str_in_false.
Qed.

Lemma unseen_shrinks T seen new : NoDup new → (∀ y, y ∈ new → y ∈ T ∧ y ∉ seen) →
  length new + length (unseen T (seen ++ new)) <= length (unseen T seen).
Proof.
  intros Hnd Hnew. rewrite <- length_app. apply submseteq_length, NoDup_submseteq.
  - apply NoDup_app. split; [done|]. split.
    + intros y Hy [_ Hn]%elem_of_unseen. apply Hn, elem_of_app. by right.
    + apply NoDup_ListNoDup, List.NoDup_filter, NoDup_ListNoDup, NoDup_remove_dups.
  - intros y [Hy|[Hy Hn]%elem_of_unseen]%elem_of_app; apply elem_of_unseen; [by apply Hnew|].
    split; [done|]. intros Hs. apply Hn, elem_of_app. by left.
Qed.

(** The worklist ends with exactly what is reachable: the fuel covers one pop
    per id that can ever be pushed. *)
Lemma closure_reachable T fuel seen pending :
  (∀ x y, y ∈ next x → y ∈ T) → (∀ x, x ∈ pending → x ∈ seen) →
  (∀ x y, x ∈ seen → x ∉ pending → y ∈ next x → y ∈ seen) →
  length pending + length (unseen T seen) < fuel →
  ∀ z, z ∈ closure fuel next seen pending ↔ ∃ s, s ∈ seen ∧ rtc step s z.
Proof.
  intros HT. revert seen pending. induction fuel as [|fuel IH]; intros seen pending Hsub Hclosed Hfuel z.
  { lia. }
  destruct pending as [|x rest]; cbn [closure].
  - split; [intros Hz; exists z; split; [done|constructor]|]. intros (s & Hs & Hr).
    revert Hs. induction Hr as [|a b c Hab _ IHr]; [done|]. intros Ha. apply IHr.
    apply (Hclosed a); [done|apply not_elem_of_nil|exact Hab].
  - set (new := str_dedup _).
    assert (Hnew : ∀ y, y ∈ new ↔ y ∈ next x ∧ y ∉ seen).
    { intros y. unfold new.
      by rewrite elem_of_str_dedup, elem_of_lfilter, negb_true_iff, str_in_false. }
    assert (Hx : x ∈ seen) by (apply Hsub; left).
    rewrite IH.
    + split.
      * intros (s & [Hs|Hs%Hnew]%elem_of_app & Hr); [by exists s|].
        exists x. split; [done|]. eapply rtc_l; [|exact Hr]. apply Hs.
      * intros (s & Hs & Hr). exists s. split; [|done]. apply elem_of_app. by left.
    + intros y [Hy|Hy]%elem_of_app; apply elem_of_app; [right; by rewrite elem_of_rev_iff in Hy|left].
      apply Hsub. by right.
    + intros a b Ha Hnp Hb. apply elem_of_app. destruct (decide (b ∈ seen)) as [|Hns]; [by left|].
      right. apply Hnew. split; [|done]. destruct (decide (a = x)) as [->|Hax]; [done|]. exfalso.
      apply elem_of_app in Ha as [Ha|Ha].
      * apply Hns, (Hclosed a); [done| |done]. intros [->|Hr]%elem_of_cons; [done|].
        apply Hnp, elem_of_app. by right.
      * apply Hnp, elem_of_app. left. by apply elem_of_rev_iff.
    + pose proof (unseen_shrinks T seen new). rewrite length_app, length_rev. cbn in Hfuel.
      assert (NoDup new) by (apply dedup_NoDup, str_eqb_eq). 
      assert (∀ y, y ∈ new → y ∈ T ∧ y ∉ seen) by (intros y [Hy1 Hy2]%Hnew; split; [by eapply HT|done]).
      specialize (H ltac:(done) ltac:(done)). lia.
Qed.

Lemma walk_reachable g T start : (∀ x y, y ∈ next x → y ∈ T) → length T <= length (gr_edges g) →
  ∀ z, z ∈ walk g next start ↔ ∃ s, s ∈ start ∧ rtc step s z.
Proof.
  intros HT Hlen z. unfold walk. rewrite (closure_reachable T).
  - done.
  - done.
  - intros x. by rewrite elem_of_rev_iff.
  - intros x y Hx Hn. exfalso. apply Hn. by apply elem_of_rev_iff.
  - rewrite length_rev. enough (length (unseen T start) <= length T) by lia.
    unfold unseen. etrans; [apply filter_length_le|].
    apply submseteq_length, NoDup_submseteq; [apply NoDup_remove_dups|].
    intros y. by rewrite elem_of_remove_dups.
Qed.
End lineage.

(** The table above an id. *)
Definition table_parent (g : CanonicalDocumentGraph) (a b : pystr) : Prop :=
  ∃ e, e ∈ gr_edges g ∧ ed_relation e = "table_parent" ∧ ed_source e = a ∧ ed_target e = b.

Lemma parents_spec g a b : b ∈ parents g a ↔ table_parent g a b.
Proof.
  unfold parents, table_parent. rewrite list_elem_of_fmap. unfold is_edge. split.
  - intros (e & -> & [He [Hr%str_eqb_eq Hs%str_eqb_eq]%andb_true_iff]%elem_of_lfilter). eauto.
  - intros (e & He & Hr & Hs & <-). exists e. split; [done|]. apply elem_of_lfilter.
    split; [done|]. rewrite Hr, Hs, !str_eqb_refl. done.
Qed.

Lemma ancestors_walk g start z :
  z ∈ walk g (parents g) start ↔ ∃ s, s ∈ start ∧ rtc (table_parent g) s z.
Proof.
  rewrite (walk_reachable (parents g) g (ed_target <$> gr_edges g)).
  - assert (Hstep : ∀ a b, rtc (λ a b, b ∈ parents g a) a b ↔ rtc (table_parent g) a b).
    { intros a b. split; induction 1; econstructor; try done; by apply parents_spec. }
    by setoid_rewrite Hstep.
  - intros x y (e & He & _ & _ & <-)%parents_spec. apply list_elem_of_fmap. eauto.
  - by rewrite length_fmap.
Qed.

(** An issue cannot be hidden by citing below it. The issues reported for
    a set of ids are exactly the open or unreadable ones that name an id
    reachable from the set along [table_parent] edges; cycles in the edges do
    no harm. *)
Theorem issues_follow_lineage g ids x :
  x ∈ unresolved_source_issue_ids g ids
  ↔ ∃ i s root, i ∈ gr_issues g ∧ qi_issue_id i = x
      ∧ (qi_state i = "open" ∨ qi_state i = "unreadable")
      ∧ s ∈ qi_source_ids i ∧ root ∈ ids ∧ rtc (table_parent g) root s.
Proof.
  unfold unresolved_source_issue_ids. rewrite list_elem_of_fmap.
  setoid_rewrite elem_of_lfilter. setoid_rewrite andb_true_iff. setoid_rewrite str_in_iff.
  assert (Hex : ∀ i, existsb (λ s, str_in s (walk g (parents g) (str_dedup ids))) (qi_source_ids i) = true
                     ↔ ∃ s root, s ∈ qi_source_ids i ∧ root ∈ ids ∧ rtc (table_parent g) root s).
  { intros i. rewrite existsb_exists. setoid_rewrite str_in_iff. setoid_rewrite ancestors_walk.
    setoid_rewrite elem_of_str_dedup. setoid_rewrite <- list_elem_of_In. naive_solver. }
  setoid_rewrite Hex.
  assert (Hst : ∀ t : pystr, t ∈ ["open"; "unreadable"] ↔ t = "open" ∨ t = "unreadable").
  { intros t. rewrite !elem_of_cons, elem_of_nil. tauto. }
  setoid_rewrite Hst. naive_solver.
Qed.

(* ------------------------------------------------------------------ *)
(** ** Pinned spans *)
(* ------------------------------------------------------------------ *)

Section pinned.
Context `{Digest}.

(** What a verified reference says of the snapshot: one verified block has its
    id, the block's chosen candidate was delivered by a parser run of this
    very snapshot, and its text hashes to the reference's hash and holds the
    quote at the cited offsets, on the cited page. *)
Record pinned (g : CanonicalDocumentGraph) (r : SourceRef) : Prop := {
  pin_state : verification_state r = Verified;
  pin_located : location_quality r = Located ∧ is_Some (ref_bbox r);
  pin_unique : NoDup (kb_source_id <$> gr_blocks g);
  pin_block : ∃ b c bt, b ∈ gr_blocks g ∧ kb_source_id b = source_id r ∧ kb_quality b = "verified"
                   ∧ selected b = Some c
                   ∧ (bt ∈ gr_candidates g ∧ batch_identity bt = graph_identity g
                      ∧ bt_parser_run_id bt = ns_parser_run_id (cb_source c)
                      ∧ existsb (candidate_eqb c) (bt_blocks bt) = true)
                   ∧ physical_page (cb_source c) = page_num r
                   ∧ text_sha256 (raw_text (cb_source c)) = Ok (raw_text_sha256 r)
                   ∧ (0 <= char_start r < char_end r)%Z
                   ∧ (char_end r <= py_len (raw_text (cb_source c)))%Z
                   ∧ quote r = slice (raw_text (cb_source c)) (char_start r) (char_end r)
                   ∧ nonblank (quote r) = true }.

Lemma block_by_id_elem g id b : block_by_id g id = Some b → b ∈ gr_blocks g ∧ kb_source_id b = id.
Proof.
  unfold block_by_id. intros Hf. apply find_some in Hf as [Hin%in_rev Hid%str_eqb_eq].
  split; [by apply list_elem_of_In|done].
Qed.

Lemma verified_pinned g r : verified (Some r) g = Ok true → pinned g r.
Proof.
  unfold verified. destruct (ref_located r g) eqn:Hloc; [|done]. cbn [negb orb].
  destruct (str_distinct (kb_source_id <$> gr_blocks g)) eqn:Hd; [|done]. cbn [negb].
  destruct (block_by_id g (source_id r)) as [b|] eqn:Hb; [|done]. cbn.
  destruct (kb_quality b =s? "verified") eqn:Hq; [|done].
  destruct (selected b) as [c|] eqn:Hs; [|done].
  destruct (candidate_pinned r c g) eqn:Hp; [|done]. cbn [negb].
  intros (digest & Hdig & Hr)%bind_Ok_inv. injection Hr as Hr.
  rewrite !andb_true_iff in Hr. destruct Hr as [[[Hsha [[H0 H1] H2]] Hquote] Hblank].
  unfold ref_located in Hloc. rewrite !andb_true_iff, !bool_decide_eq_true in Hloc.
  unfold candidate_pinned in Hp. rewrite !andb_true_iff in Hp.
  destruct Hp as [[[[[Hbatch _] _] Hpage] _] _].
  apply existsb_exists in Hbatch as (bt & Hbt%list_elem_of_In & Hbt').
  rewrite !andb_true_iff, bool_decide_eq_true in Hbt'. destruct Hbt' as [[Hident Hrun] Hcand].
  apply block_by_id_elem in Hb as [Hin Hid]. str_prop. subst digest.
  split; [tauto|tauto|by apply str_distinct_iff|]. exists b, c, bt.
  split_and!; try done; lia.
Qed.
End pinned.

(* ------------------------------------------------------------------ *)
(** ** Notes *)
(* ------------------------------------------------------------------ *)

Lemma fold_no_reasons (f : holds → CanonicalBlock → result holds) (Q : CanonicalBlock → Prop) :
  (∀ h b h', f h b = Ok h' → h'.2 = [] → h.2 = [] ∧ Q b) →
  ∀ l h h', fold_result f h l = Ok h' → h'.2 = [] → h.2 = [] ∧ Forall Q l.
Proof.
  intros Hf. induction l as [|b l IH]; cbn; intros h h' Hr Hh; [by injection Hr as ->|].
  apply bind_Ok_inv in Hr as (h1 & H1 & Hr). destruct (IH _ _ Hr Hh) as [Hh1 Hl].
  destruct (Hf _ _ _ H1 Hh1) as [Hh0 Hb]. split; [done|by constructor].
Qed.

Lemma hold_reason h ids reason : (hold h ids reason).2 ≠ [].
Proof. unfold hold. cbn. by destruct h.2. Qed.

Lemma elem_of_distinct_blocks l id : id ∈ kb_source_id <$> l → ∃ b, b ∈ distinct_blocks l ∧ kb_source_id b = id.
Proof.
  induction l as [|b l IH]; [by intros ?%elem_of_nil|]. rewrite fmap_cons.
  cbn [distinct_blocks]. destruct (existsb _ l) eqn:E.
  - intros [->|Hid]%elem_of_cons; [|by apply IH]. apply IH.
    apply existsb_exists in E as (c & Hc%list_elem_of_In & Heq%str_eqb_eq).
    apply list_elem_of_fmap. eauto.
  - intros [->|Hid]%elem_of_cons; [exists b; split; [left|done]|].
    destruct (IH Hid) as (c & Hc & <-). exists c. split; [by right|done].
Qed.

Lemma distinct_blocks_subset l b : b ∈ distinct_blocks l → b ∈ l.
Proof.
  induction l as [|c l IH]; cbn; [done|]. destruct (existsb _ l); [by right; apply IH|].
  intros [->|H]%elem_of_cons; [left|right; by apply IH].
Qed.

Section notes.
Context `{Digest}.

(** The note is quoted whole by a pinned reference of the observation, and it
    was accepted for the binding or says no more than the observation's unit
    or scope. *)
Definition reckoned (o : NumericObservation) (g : CanonicalDocumentGraph) (accepted : list pystr)
    (note : CanonicalBlock) : Prop :=
  ∃ c r, selected note = Some c ∧ r ∈ ob_source_refs o ∧ source_id r = kb_source_id note
         ∧ quote r = raw_text (cb_source c) ∧ pinned g r
         ∧ (kb_source_id note ∈ accepted
            ∨ (unit_note_literal (raw_text (cb_source c)) = ob_unit_raw o ∧ is_Some (ob_unit_raw o))
            ∨ (scope_note_literal (raw_text (cb_source c)) = ob_scope o ∧ is_Some (ob_scope o))).

Lemma note_holds_none o g accepted h note h' :
  note_holds o g accepted h note = Ok h' → h'.2 = [] → h.2 = [] ∧ reckoned o g accepted note.
Proof.
  unfold note_holds. destruct (selected note) as [c|] eqn:Hs.
  2: { intros [= <-] Hh. by apply hold_reason in Hh. }
  set (ok := str_in _ accepted || _ || _). cbv zeta. intros Hr Hh.
  apply if_result_Ok in Hr as [[Hany Hr]|[_ Hr]]; injection Hr as <-; [|by apply hold_reason in Hh].
  destruct ok eqn:Hok; [|by apply hold_reason in Hh]. split; [done|].
  apply any_result_true in Hany as (r & Hr & Hv).
  destruct (_ && _) eqn:E; [|done]. apply andb_true_iff in E as [Hid Hq]. str_prop.
  exists c, r. split_and!; try done; [by apply verified_pinned|].
  unfold ok in Hok. rewrite !orb_true_iff in Hok. destruct Hok as [[Ha|Hu]|Hs'].
  - left. by apply str_in_iff.
  - right. left. destruct (unit_note_literal _); [|done]. apply bool_decide_eq_true in Hu. by rewrite Hu.
  - right. right. destruct (scope_note_literal _); [|done]. apply bool_decide_eq_true in Hs'. by rewrite Hs'.
Qed.

Lemma root_holds_none o g h root h' : root_holds o g h root = Ok h' → h'.2 = [] → h.2 = [] ∧ True.
Proof.
  unfold root_holds. set (h1 := match unassigned_note_ids _ _ with [] => h | _ => _ end).
  assert (H1 : h1.2 = [] → h.2 = []).
  { unfold h1. destruct (unassigned_note_ids _ _); [done|]. by intros Hh%hold_reason. }
  cbv zeta. destruct (selected root).
  2: { intros [= <-] Hh. by apply hold_reason in Hh. }
  intros Hr Hh. apply if_result_Ok in Hr as [[_ Hr]|[_ Hr]]; injection Hr as <-; [auto|].
  by apply hold_reason in Hh.
Qed.

(** Without a reason to hold, every note of the lineage is reckoned with. *)
Lemma footnotes_reckoned o g accepted e root :
  unresolved_footnotes o g accepted = Ok false →
  e ∈ gr_edges g → ed_relation e = "footnote_of" →
  root ∈ (ob_parent_relations o).*1.*1 → rtc (table_parent g) root (ed_target e) →
  ∃ note, note ∈ gr_blocks g ∧ kb_source_id note = ed_source e ∧ reckoned o g accepted note.
Proof.
  intros Hu He Hrel Hroot Hreach. unfold unresolved_footnotes in Hu.
  apply bind_Ok_inv in Hu as (h & Hh & Hno). injection Hno as Hno.
  assert (Hnil : h.2 = []) by (by destruct h.2). clear Hno.
  unfold footnote_holds in Hh. cbv zeta in Hh.
  apply bind_Ok_inv in Hh as (h0 & _ & Hh).
  apply (fold_no_reasons _ (reckoned o g accepted)) in Hh; [|by apply note_holds_none|done].
  destruct Hh as [Hh Hall].
  set (missing := List.filter _ _) in Hh.
  destruct missing eqn:Hmissing; [|by apply hold_reason in Hh].
  destruct (_ =? _)%Z in Hh; [|by apply hold_reason in Hh].
  destruct (str_in (ob_table_id o) (note_targets o g)) eqn:Htable; [|by apply hold_reason in Hh].
  assert (Htarget : ed_target e ∈ note_targets o g).
  { revert Htable. unfold note_targets. cbv zeta. destruct (negb _) eqn:Et; [done|]. intros _.
    rewrite !elem_of_app. left. left. apply ancestors_walk. exists root.
    by rewrite elem_of_str_dedup. }
  assert (Hreq : ed_source e ∈ notes_of g (note_targets o g)).
  { unfold notes_of. apply list_elem_of_fmap. exists e. split; [done|]. apply elem_of_lfilter.
    split; [done|]. unfold is_edge. rewrite Hrel, str_eqb_refl. by apply str_in_iff. }
  set (notes := distinct_blocks _) in Hall, missing.
  assert (Hin : ed_source e ∈ kb_source_id <$> notes).
  { destruct (str_in (ed_source e) (kb_source_id <$> notes)) eqn:E; [by apply str_in_iff|]. exfalso.
    assert (Hm : ed_source e ∈ missing) by (apply elem_of_lfilter; rewrite E; done).
    rewrite Hmissing in Hm. by apply elem_of_nil in Hm. }
  apply list_elem_of_fmap in Hin as (note & Heq & Hnote). exists note.
  rewrite Forall_forall in Hall. split; [|split; [done|by apply Hall]].
  apply distinct_blocks_subset, elem_of_lfilter in Hnote. apply Hnote.
Qed.
End notes.

(* ------------------------------------------------------------------ *)
(** ** No verdict without evidence *)
(* ------------------------------------------------------------------ *)

Lemma omap_full {A B} (f : A → option B) l : length (omap f l) = length l →
  Forall2 (λ a b, f a = Some b) l (omap f l).
Proof.
  induction l as [|a l IH]; cbn; [constructor|]. destruct (f a) as [b|] eqn:E.
  - cbn. intros [= Hl]. constructor; [done|by apply IH].
  - intros Hl. assert (Hle : ∀ l, length (omap f l) <= length l); [|specialize (Hle l); lia].
    induction l0 as [|x l0 IH0]; cbn; [lia|]. destruct (f x); cbn; lia.
Qed.

Section needs.
Context `{Digest}.

(** The observation belongs to the snapshot and its sources are pinned. *)
Record observed (g : CanonicalDocumentGraph) (o : NumericObservation) : Prop := {
  obs_identity : observation_identity o = graph_identity g;
  obs_quality : ob_quality o = "verified" ∧ ob_value_state o = "value";
  obs_pinned : ob_source_refs o ≠ [] ∧ Forall (pinned g) (ob_source_refs o) }.

Lemma all_pinned g l : all_result (λ r, verified (Some r) g) l = Ok true → Forall (pinned g) l.
Proof. intros Hl%all_result_true. eapply Forall_impl; [exact Hl|]. by apply verified_pinned. Qed.

Lemma observation_display_observed o g n : observation_display o g = Ok (Some n) → observed g o.
Proof.
  unfold observation_display. destruct (negb _) eqn:E; [done|]. intros Hr.
  apply if_result_Ok in Hr as [[Hall _]|[_ [=]]].
  apply negb_false_iff in E. rewrite !andb_true_iff, bool_decide_eq_true in E.
  destruct E as [[[Hid Hq] Hv] Hne]. str_prop.
  split; [done|done|]. split; [by destruct (ob_source_refs o)|by apply all_pinned].
Qed.

(** The claim is the snapshot's, its references are pinned, and the reported
    value is a whole numeral inside one of them. *)
Record claimed (b : ClaimBinding) (c : NumericClaim) (g : CanonicalDocumentGraph) : Prop := {
  cl_accepted : bi_binding_accepted b = true;
  cl_identity : claim_identity c = graph_identity g ∧ nc_source_quality c = "verified";
  cl_refs : nc_source_refs c ≠ [] ∧ Forall (pinned g) (nc_source_refs c)
            ∧ nc_quote c = str_join " " (quote <$> nc_source_refs c);
  cl_number : ∃ n r, bi_reported_value_ref b = Some n ∧ pinned g n
                ∧ bi_reported_value b = Some (quote n) ∧ whole_number n g = true
                ∧ r ∈ nc_source_refs c ∧ source_id n = source_id r
                ∧ (char_start r <= char_start n < char_end n)%Z ∧ (char_end n <= char_end r)%Z }.

Lemma claim_verified_claimed b c g : claim_verified b (Some c) g = Ok true → claimed b c g.
Proof.
  unfold claim_verified. destruct (bi_binding_accepted b) eqn:Hacc; [|done].
  destruct (negb _) eqn:E; [done|]. apply negb_false_iff in E.
  rewrite !andb_true_iff, bool_decide_eq_true in E. destruct E as [[[[Hid _] Hq] _] Hne].
  intros [Hall Hr]%and_result_true. destruct (negb _) eqn:E; [done|]. apply negb_false_iff in E.
  apply and_result_true in Hr as [Hn Hr]. destruct (bi_reported_value_ref b) as [n|] eqn:Href; [|done].
  injection Hr as Hr. rewrite andb_true_iff, bool_decide_eq_true, existsb_exists in Hr.
  destruct Hr as (Hval & r & Hin%list_elem_of_In & [Hspan Hwhole]%andb_true_iff). str_prop.
  split; [done|done| |].
  - split; [by destruct (nc_source_refs c)|]. split; [by apply all_pinned|done].
  - exists n, r. unfold span_inside in Hspan. rewrite !andb_true_iff in Hspan.
    destruct Hspan as [Hsid [[H1 H2] H3]]. str_prop.
    split_and!; try done; [by apply verified_pinned|lia..].
Qed.

(** The sum's members were accepted as its distinct components. *)
Lemma sum_needs_aggregation b g items numbers v i :
  bi_kind b = Sum → compute b g items numbers = Ok (Computed v i) →
  ∃ a, bi_aggregation b = Some a ∧ ag_acceptance_state a = "accepted"
       ∧ ag_relation a = "disjoint_complete_components" ∧ ag_target_claim_id a = bi_claim_id b
       ∧ ag_observation_ids a = bi_observation_ids b ∧ NoDup (roots_of <$> items)
       ∧ Forall (pinned g) (ag_source_refs a).
Proof.
  intros Hk. unfold compute. rewrite Hk. intros Hr.
  apply if_result_Ok in Hr as [[Hagg _]|[_ [=]]]. unfold aggregation_verified in Hagg.
  apply bind_Ok_inv in Hagg as (hashes & _ & Hagg).
  destruct (bi_aggregation b) as [a|]; [|done]. destruct (negb _) eqn:E; [done|].
  apply negb_false_iff in E. rewrite !andb_true_iff, !bool_decide_eq_true in E.
  destruct E as [[[[[[[_ Hroots] Hs] Hr] Ht] Ho] _] _]. str_prop.
  exists a. split_and!; try done. by apply all_pinned.
Qed.

(** C31: a verdict is never given without its evidence. When the check decides
    a claim, the claim and its reported number are pinned spans of the
    snapshot under an accepted binding; the bound observations are all there,
    in order, and all their sources are pinned; no open or unreadable issue
    touches a cited source or anything above it in a table; every note tied
    to a cell's lineage is itself cited whole and was accepted or only repeats
    the unit or scope; the dimensions agree with the binding; and a sum has an
    accepted relation over distinct cells. *)
Theorem verdict_needs_evidence observations claims original b r :
  check_binding observations claims original b = Ok r → decided r →
  ∃ c g items accepted,
    original = Some g ∧ claimed b c g
    ∧ Forall2 (λ i o, ob_id o = i ∧ o ∈ observations ∧ observed g o) (bi_observation_ids b) items
    ∧ (∀ i s x, i ∈ gr_issues g → qi_state i = "open" ∨ qi_state i = "unreadable" →
         s ∈ qi_source_ids i → x ∈ cited_ids b items → ¬ rtc (table_parent g) x s)
    ∧ (∀ o e root, o ∈ items → e ∈ gr_edges g → ed_relation e = "footnote_of" →
         root ∈ (ob_parent_relations o).*1.*1 → rtc (table_parent g) root (ed_target e) →
         ∃ note, note ∈ gr_blocks g ∧ kb_source_id note = ed_source e ∧ reckoned o g accepted note)
    ∧ validated_condition_ids b g items = Ok accepted
    ∧ dimensions_ok b items = true
    ∧ (bi_kind b = Sum → ∃ a, bi_aggregation b = Some a ∧ ag_acceptance_state a = "accepted"
         ∧ ag_relation a = "disjoint_complete_components" ∧ ag_target_claim_id a = bi_claim_id b
         ∧ ag_observation_ids a = bi_observation_ids b ∧ NoDup (roots_of <$> items)
         ∧ Forall (pinned g) (ag_source_refs a)).
Proof.
  intros Hr Hd. apply check_binding_decided in Hr; [|done].
  destruct Hr as (c & g & numbers & reported & v & i & Horig & _ & Hlen & Hev & Hc & _).
  set (items := omap _ _) in *. destruct Hev as [Hclaim Hissues (accepted & Hacc & Hnotes) Hnum _ _ _ _ Hdim].
  exists c, g, items, accepted. split; [done|]. split; [by apply claim_verified_claimed|].
  split_and!; try done.
  - apply omap_full in Hlen. fold items in Hlen.
    assert (Hobs : Forall (observed g) items).
    { clear -Hnum. induction Hnum; constructor; [by eapply observation_display_observed|done]. }
    clear -Hlen Hobs. revert Hobs. induction Hlen as [|j o l l' Hj _ IH]; [constructor|].
    intros [Ho Hl]%Forall_cons. constructor; [|by apply IH].
    apply find_some in Hj as [Hin%list_elem_of_In Hid%str_eqb_eq]. done.
  - intros issue s x Hi Hstate Hs Hx Hreach.
    assert (Hin : qi_issue_id issue ∈ unresolved_source_issue_ids g (cited_ids b items)).
    { unfold unresolved_source_issue_ids. apply list_elem_of_fmap. exists issue. split; [done|].
      apply elem_of_lfilter. split; [done|]. apply andb_true_iff. split.
      - apply str_in_iff. destruct Hstate as [->| ->]; [left|right; left].
      - apply existsb_exists. exists s. split; [by apply list_elem_of_In|].
        apply str_in_iff, ancestors_walk. exists x. by rewrite elem_of_str_dedup. }
    rewrite Hissues in Hin. by apply elem_of_nil in Hin.
  - intros o e root Ho. rewrite Forall_forall in Hnotes. by apply footnotes_reckoned, Hnotes.
  - intros Hk. by apply (sum_needs_aggregation b g items numbers v i).
Qed.
End needs.

(** The claimed growth of the sample has all of it. *)
Lemma verdict_needs_evidence_witness :
  ∃ r c g, @sample_check = Ok r ∧ decided r ∧ @claimed Checksum sample_binding c g.
Proof.
  pose proof sample_check_ok as H. destruct sample_check as [r|e] eqn:E; [|discriminate H].
  apply bool_decide_eq_true in H.
  destruct (@verdict_needs_evidence Checksum sample_observations [sample_claim] (Some sample_graph)
              sample_binding r E (or_introl H)) as (c & g & items & accepted & _ & Hcl & _).
  exists r, c, g. split; [done|]. split; [exact (or_introl H)|exact Hcl].
Defined.

(* ------------------------------------------------------------------ *)
(** ** Totality *)
(* ------------------------------------------------------------------ *)

Notation refuses m := (raises (λ e, is_value_error e = true) m).

Section total.
Context `{Digest}.

Lemma text_sha256_raises t : refuses (text_sha256 t).
Proof. unfold text_sha256, encode_utf8. by destruct (existsb _ _). Qed.

Lemma canonical_hash_raises v : refuses (canonical_hash v).
Proof.
  unfold canonical_hash. apply raises_bind; [|done].
  pose proof (canonical_json_raises v) as Hj. unfold raises in *.
  destruct (canonical_json v); [done|]. by rewrite Hj.
Qed.

Lemma verified_raises r g : refuses (verified r g).
Proof.
  unfold verified. destruct r as [r|]; [|done]. destruct (_ || _); [done|].
  destruct (b ← _; _) as [c|]; [|done]. destruct (negb _); [done|].
  apply raises_bind; [apply text_sha256_raises|done].
Qed.

Lemma claim_verified_raises b c g : refuses (claim_verified b c g).
Proof.
  unfold claim_verified. destruct (bi_binding_accepted b), c as [c|]; try done.
  destruct (negb _); [done|]. apply raises_and_result.
  - apply raises_all_result. intros r. apply verified_raises.
  - destruct (negb _); [done|]. apply raises_and_result; [apply verified_raises|done].
Qed.

Lemma unresolved_footnotes_raises o g accepted : refuses (unresolved_footnotes o g accepted).
Proof.
  unfold unresolved_footnotes. apply raises_bind; [|done]. unfold footnote_holds. cbv zeta.
  assert (Hany : ∀ (p : SourceRef → bool) l,
            refuses (any_result (λ r, if p r then verified (Some r) g else Ok false) l)).
  { intros p l. apply raises_any_result. intros r. destruct (p r); [apply verified_raises|done]. }
  apply raises_bind.
  - apply raises_fold_result. intros h root. unfold root_holds. cbv zeta.
    destruct (selected root); [|done]. apply raises_if_result; [|done..].
    destruct (negb _); [done|]. apply (Hany (λ r, _ && _)).
  - intros h _. apply raises_fold_result. intros h' note. unfold note_holds. cbv zeta.
    destruct (selected note); [|done]. apply raises_if_result; [|done..]. apply (Hany (λ r, _ && _)).
Qed.

Lemma validated_condition_ids_raises b g items : refuses (validated_condition_ids b g items).
Proof.
  unfold validated_condition_ids. destruct (negb _); [done|]. destruct (negb _); [done|].
  apply raises_bind; [apply canonical_hash_raises|]. intros digest _.
  apply raises_bind; [|done]. apply raises_map_result. intros c _.
  apply raises_if_result; [|done..]. unfold condition_valid. cbv zeta. destruct (negb _); [done|].
  apply raises_and_result; [apply verified_raises|done].
Qed.

Lemma observation_display_raises o g : refuses (observation_display o g).
Proof.
  unfold observation_display. destruct (negb _); [done|]. apply raises_if_result; [..|done].
  - apply raises_all_result. intros r. apply verified_raises.
  - destruct (scaled_unit _). repeat case_match; done.
Qed.

Lemma aggregation_verified_raises b g items : refuses (aggregation_verified b g items).
Proof.
  unfold aggregation_verified. apply raises_bind.
  - unfold aggregation_hashes. apply raises_bind; [apply canonical_hash_raises|]. intros h _.
    destruct (_ && _); [|done]. apply raises_bind; [apply canonical_hash_raises|done].
  - intros hashes _. cbv zeta. destruct (bi_aggregation b); [|done]. destruct (negb _); [done|].
    apply raises_all_result. intros r. apply verified_raises.
Qed.

Lemma product_subjects_verified_raises b c g : refuses (product_subjects_verified b c g).
Proof.
  unfold product_subjects_verified. repeat case_match; try done.
  repeat (apply raises_and_result; [apply verified_raises|]). done.
Qed.

Lemma exact_decimal_raises v : refuses (exact_decimal v).
Proof.
  assert (Hs : ∀ z, refuses (int_str z)) by (intros z; unfold int_str; by destruct (_ <? _)%Z).
  unfold exact_decimal. cbv zeta. destruct (negb _); [done|].
  apply raises_bind; [apply Hs|]. intros ns _. apply raises_bind; [apply Hs|done].
Qed.

Lemma verdict_raises b items reported value : refuses (verdict b items reported value).
Proof.
  unfold verdict. apply raises_bind; [apply exact_decimal_raises|]. intros d _. cbv zeta.
  destruct d; [done|].
  assert (Hs : ∀ z, refuses (int_str z)) by (intros z; unfold int_str; by destruct (_ <? _)%Z).
  apply raises_bind; [apply Hs|]. intros ns _. apply raises_bind; [apply Hs|done].
Qed.

Lemma q_div_fine a b : ~ (b == 0)%Q → q_div a b = Ok (a / b)%Q.
Proof.
  intros Hb. unfold q_div. destruct (Qeq_bool b 0) eqn:E; [|done]. by apply Qeq_bool_iff in E.
Qed.

(** A base interval without zero leaves no division by zero. *)
Lemma rate_raises k numbers : Forall (λ n, within n.1 n.2) numbers → refuses (rate k numbers).
Proof.
  intros Hw. unfold rate. destruct numbers as [|[x1 b1] [|[x2 b2] [|]]]; try done.
  destruct (_ && _) eqn:Hzero; [done|]. apply Forall_cons in Hw as [[Hlo Hhi] _]. cbn in Hlo, Hhi.
  assert (Hnz : ∀ b, (b1.1 <= b)%Q → (b <= b1.2)%Q → ~ (b == 0)%Q).
  { intros b H1 H2 Hb. apply andb_false_iff in Hzero as [Hz|Hz]; apply not_true_iff_false in Hz;
      apply Hz, Qle_bool_iff; lra. }
  assert (Hf : ∀ b c, ~ (b == 0)%Q →
            refuses ((if bool_decide (k = Growth) then growth_rate else reduction_value) b c)
            ∧ refuses ((if bool_decide (k = Growth) then growth_rate else reduction_rate) b c)).
  { intros b c Hb. unfold growth_rate, reduction_value, reduction_rate.
    destruct (bool_decide _); rewrite ?q_div_fine by done; done. }
  apply raises_bind; [by apply Hf, Hnz|]. intros v _.
  apply raises_bind; [|done]. unfold corners. apply raises_map_result. intros [b c] Hbc.
  apply Hf, Hnz; cbn; repeat (apply elem_of_cons in Hbc as [[= -> ->]|Hbc]; [lra|]);
    by apply elem_of_nil in Hbc.
Qed.

Lemma compute_raises b g items numbers :
  Forall (λ n, within n.1 n.2) numbers →
  match arity (bi_kind b) with Some n => py_len numbers = n | None => True end →
  refuses (compute b g items numbers).
Proof.
  intros Hw Ha. unfold compute.
  destruct (bi_kind b); cbn [arity] in Ha; try (by apply rate_raises).
  - destruct numbers as [|[v i]]; [by unfold py_len in Ha|done].
  - apply raises_if_result; [apply aggregation_verified_raises|done..].
Qed.
End total.

Section answers.
Context `{Digest}.

Lemma check_displays_raises b c g items shown :
  mk_ClaimBinding b = Ok b → length shown = length (bi_observation_ids b) →
  Forall2 (λ o n, observation_display o g = Ok n) items shown →
  refuses (check_displays b c g items shown).
Proof.
  intros Hb Hlen Hshown. unfold check_displays.
  destruct (mapM id shown) as [numbers|] eqn:Hm; [|done].
  destruct (display _ 1); [|done]. destruct (negb _); [done|].
  apply raises_bind; [destruct (bool_decide _); [apply product_subjects_verified_raises|done]|].
  intros prod _. destruct (_ || _); [done|]. apply mapM_Some in Hm.
  apply raises_bind.
  - apply compute_raises.
    + clear -Hm Hshown. revert numbers Hm. induction Hshown; inversion 1; subst; constructor; auto.
      unfold id in *. subst. by eapply observation_display_within.
    + apply mk_ClaimBinding_arity in Hb. destruct (arity _); [|done]. unfold py_len in *.
      apply Forall2_length in Hm. lia.
  - intros [v i|status reason] _; [apply verdict_raises|done].
Qed.

Lemma check_binding_raises observations claims original b :
  mk_ClaimBinding b = Ok b → refuses (check_binding observations claims original b).
Proof.
  intros Hb. unfold check_binding. cbv zeta. apply raises_bind; [by apply raises_require|]. intros _ _.
  destruct (negb _) eqn:Hlen; [done|]. destruct original as [g|]; [|done].
  apply negb_false_iff, Z.eqb_eq in Hlen.
  apply raises_if_result; [apply claim_verified_raises| |done].
  destruct (nonempty_list _); [done|].
  apply raises_bind; [apply validated_condition_ids_raises|]. intros accepted _.
  apply raises_if_result; [|done|].
  - apply raises_any_result. intros o. apply unresolved_footnotes_raises.
  - apply raises_bind.
    + apply raises_map_result. intros o _. apply observation_display_raises.
    + intros shown Hshown%map_result_Ok. apply check_displays_raises; [done| |done].
      apply Forall2_length in Hshown. unfold py_len in Hlen. lia.
Qed.

(** Whatever is decided, the result answers the binding it was asked about. *)
Lemma check_binding_answers observations claims original b r :
  check_binding observations claims original b = Ok r →
  cr_claim_id r = bi_claim_id b ∧ cr_kind r = bi_kind b
  ∧ cr_observation_ids r = bi_observation_ids b ∧ cr_reported_value r = bi_reported_value b.
Proof.
  assert (Hres : ∀ s c m items q, let r := mk_result b s c m items q in
            cr_claim_id r = bi_claim_id b ∧ cr_kind r = bi_kind b
            ∧ cr_observation_ids r = bi_observation_ids b ∧ cr_reported_value r = bi_reported_value b)
    by done.
  unfold check_binding. cbv zeta. intros Hr. apply bind_Ok_inv in Hr as (_ & _ & Hr).
  destruct (negb _); [injection Hr as <-; apply Hres|].
  destruct original as [g|]; [|injection Hr as <-; apply Hres].
  apply if_result_Ok in Hr as [[_ Hr]|[_ Hr]]; [|injection Hr as <-; apply Hres].
  destruct (nonempty_list _); [injection Hr as <-; apply Hres|].
  apply bind_Ok_inv in Hr as (accepted & _ & Hr).
  apply if_result_Ok in Hr as [[_ Hr]|[_ Hr]]; [injection Hr as <-; apply Hres|].
  apply bind_Ok_inv in Hr as (shown & _ & Hr). unfold check_displays in Hr.
  destruct (mapM id shown); [|injection Hr as <-; apply Hres].
  destruct (display _ 1); [|injection Hr as <-; apply Hres].
  destruct (negb _); [injection Hr as <-; apply Hres|].
  apply bind_Ok_inv in Hr as (prod & _ & Hr).
  destruct (_ || _); [injection Hr as <-; apply Hres|].
  apply bind_Ok_inv in Hr as ([v i|status reason] & _ & Hr); [|injection Hr as <-; apply Hres].
  unfold verdict in Hr. apply bind_Ok_inv in Hr as ([d|] & _ & Hr); [injection Hr as <-; apply Hres|].
  apply bind_Ok_inv in Hr as (num & _ & Hr). apply bind_Ok_inv in Hr as (den & _ & Hr).
  injection Hr as <-. apply Hres.
Qed.

(** C36: the check is total on accepted bindings. It raises nothing but a
    [ValueError], in particular no division by zero and no index error for any
    printed numbers; and when it returns, it returns one result per binding,
    in their order, each about its own claim, kind and observations. *)
Theorem numeric_check_total observations bindings tenant claims original :
  Forall (λ b, mk_ClaimBinding b = Ok b) bindings →
  match check_numeric_consistency observations bindings tenant claims original with
  | Ok rs => Forall2 (λ b r, cr_claim_id r = bi_claim_id b ∧ cr_kind r = bi_kind b
                             ∧ cr_observation_ids r = bi_observation_ids b
                             ∧ cr_reported_value r = bi_reported_value b) bindings rs
  | Raise e => is_value_error e = true
  end.
Proof.
  intros Hb. destruct (check_numeric_consistency _ _ _ _ _) as [rs|e] eqn:E.
  - unfold check_numeric_consistency in E. open_run E. apply map_result_Ok in E.
    eapply Forall2_impl; [exact E|]. intros b r. apply check_binding_answers.
  - apply (raises_elim (λ e, is_value_error e = true)) in E; [done|]. unfold check_numeric_consistency.
    do 3 (apply raises_bind; [by apply raises_require|intros _ _]).
    apply raises_map_result. intros b Hin. rewrite Forall_forall in Hb. by apply check_binding_raises, Hb.
Qed.
End answers.

Lemma sample_bindings_ok : Forall (λ b, mk_ClaimBinding b = Ok b) [sample_binding].
Proof. constructor; [reflexivity|constructor]. Qed.

Lemma numeric_check_total_witness :
  ∃ r, @check_numeric_consistency Checksum sample_observations [sample_binding] tenant_uuid
         [sample_claim] (Some sample_graph) = Ok [r] ∧ cr_claim_id r = bi_claim_id sample_binding.
Proof.
  pose proof (@numeric_check_total Checksum sample_observations [sample_binding] tenant_uuid
                [sample_claim] (Some sample_graph) sample_bindings_ok) as Ht.
  destruct (@check_numeric_consistency Checksum sample_observations [sample_binding] tenant_uuid
              [sample_claim] (Some sample_graph)) as [rs|e] eqn:E; [|vm_compute in E; discriminate E].
  apply Forall2_cons_inv_l in Ht as (r & rs' & [Hid _] & Hnil & ->).
  apply Forall2_nil_inv_l in Hnil as ->. exists r. split; [reflexivity|exact Hid].
Defined.
