(* ===== verification/Normalize.v ===== *)
(** * Normalisation of tables into observations.

    [application/ingest/normalize.py] over the canonical graph: the admission
    of the graph, the value of a printed number with its unit, one observation
    with its holds, the layout of a table (header, titles, years, bases), the
    observations of every value cell, and explicit role bindings.  The NFC
    form and [uuid5] are arguments.  Blocks are admitted with distinct ids, so
    a Python set or dict of blocks is keyed by their ids; the grid of a table
    is a finite map from positions to cells. *)
From S2P Require Import Prelude PyVal JsonCodec Decimal Values PyDate Digest RulePack Geometry Graph Numeric.
From stdpp Require Import gmap.
Open Scope nat_scope.
Open Scope py_scope.

(* ------------------------------------------------------------------ *)
(** ** Labels *)
(* ------------------------------------------------------------------ *)

(** [str.lower()], as far as it yields ASCII letters: besides the capitals only
    the Kelvin sign does. *)
Definition fold_lower (c : N) : N := if (c =? 8490)%N then 107%N else lower_char c.
Definition label_text (raw : pystr) : pystr := fold_lower <$> strip raw.

(** [application/ingest/normalize.py:25-38 _HEADERS] *)
Definition HEADERS : list (pystr * list pystr) :=
  [("metric_raw", ["지표"; "metric"; "항목"]); ("scope", ["scope"]);
   ("subject", ["사업장"; "조직"; "기업"; "entity"; "subject"]);
   ("reporting_period", ["연도"; "기간"; "year"; "period"]);
   ("scope2_basis", ["산정방식"; "시장/위치기반"; "measurement basis"; "scope2 basis"]);
   ("organizational_boundary", ["조직경계"; "organizational boundary"]);
   ("unit_raw", ["단위"; "unit"]); ("value_raw", ["값"; "수치"; "value"]);
   ("denominator", ["분모"; "denominator"]); ("baseline_period", ["기준연도"; "baseline year"]);
   ("category", ["카테고리"; "category"]); ("method", ["산정방법"; "method"])].

(** [_FIELD.get(label)].
    [application/ingest/normalize.py:39 _FIELD] *)
Definition field_of (label : pystr) : option pystr :=
  fst <$> find (λ f, str_in label f.2) HEADERS.

(** [[12][0-9]{3}년?] of the whole text.
    [application/ingest/normalize.py:40 _YEAR] *)
Definition year_label (text : pystr) : bool :=
  match parse_digits 4 text with
  | Some (y, r) =>
      ((1000 <=? y) && (y <=? 2999))%Z
      && negb (nonempty (match eat 45380 r with Some r => r | None => r end))
  | None => false
  end.

(** [application/ingest/normalize.py:406 normalize_tables] *)
Definition BASIS_VALUES : list pystr := ["시장기반"; "위치기반"; "market-based"; "location-based"].

(* ------------------------------------------------------------------ *)
(** ** Records *)
(* ------------------------------------------------------------------ *)

(** The fields of [domain/numeric.py]'s protocol and the rest.
    [application/ingest/normalize.py:44-76 Observation] *)
Record Observation : Set := {
  no_core : NumericObservation;
  no_baseline_period : option pystr; no_category : option pystr; no_method : option pystr;
  no_footnotes : list pystr; no_metric_id : option pystr; no_assurance_ref : option pystr }.

(** [application/ingest/normalize.py:78-94 Observation.to_dict] *)
Definition observation_to_dict (n : Observation) : pydict :=
  let o := no_core n in
  [("observation_id", PStr (ob_id o)); ("metric", PStr (ob_metric_raw o));
   ("scope", opt_val (ob_scope o)); ("entity", opt_val (ob_subject o));
   ("period", PStr (ob_reporting_period o)); ("value", opt_val (ob_value_decimal o));
   ("unit", opt_val (ob_unit_canonical o)); ("measurement_basis", opt_val (ob_scope2_basis o));
   ("value_state", PStr (ob_value_state o));
   ("evidence_refs", PList (source_ref_val <$> ob_source_refs o))].

(** [application/ingest/normalize.py:97-101 NormalizationResult] *)
Record NormalizationResult : Set := {
  nr_observations : list Observation; nr_conflicts : list QualityIssue;
  nr_graph : CanonicalDocumentGraph }.

(** ** [asdict] of a canonical block *)

Definition page_geometry_val (g : PageGeometry) : pyval :=
  PDict [("width_pt", PFloat (width_pt g)); ("height_pt", PFloat (height_pt g));
         ("rotation", PInt (rotation g)); ("crop_box", bbox_val (Some (crop_box g)))].

Definition native_source_val (s : NativeSource) : pyval :=
  PDict [("document_version_id", PStr (ns_document_version_id s));
         ("parse_manifest_id", PStr (ns_parse_manifest_id s));
         ("parser_run_id", PStr (ns_parser_run_id s));
         ("source_native_id", PStr (ns_native_id s)); ("physical_page", PInt (physical_page s));
         ("printed_page_label", opt_val (ns_label s)); ("native_bbox", bbox_val (native_bbox s));
         ("native_coordinate_system", PStr (native_coordinate_system s));
         ("raw_text", PStr (raw_text s)); ("char_start", PInt (ns_char_start s));
         ("char_end", PInt (ns_char_end s))].

Definition opt_int (o : option Z) : pyval := match o with Some z => PInt z | None => PNone end.

Definition candidate_val (c : CandidateBlock) : pyval :=
  PDict [("kind", PStr (cb_kind c)); ("source", native_source_val (cb_source c));
         ("geometry", page_geometry_val (cb_geometry c)); ("context", strs_val (cb_context c));
         ("parser_bbox", bbox_val (cb_parser_bbox c));
         ("parser_coordinate_system", PStr (cb_parser_system c));
         ("parser_to_canonical",
          match cb_to_canonical c with
          | Some m => PTuple (PFloat <$> [af_a m; af_b m; af_c m; af_d m; af_e m; af_f m])
          | None => PNone
          end);
         ("table_native_id", opt_val (cb_table_native_id c)); ("row_number", opt_int (cb_row c));
         ("column_number", opt_int (cb_column c)); ("row_span", opt_int (cb_row_span c));
         ("column_span", opt_int (cb_column_span c))].

Definition block_val (b : CanonicalBlock) : pyval :=
  PDict [("source_id", PStr (kb_source_id b)); ("kind", PStr (kb_kind b));
         ("candidates", PTuple (candidate_val <$> kb_candidates b));
         ("independent_families", strs_val (kb_families b)); ("quality", PStr (kb_quality b));
         ("winner", opt_int (kb_winner b))].

(* ------------------------------------------------------------------ *)
(** ** Admission of a graph *)
(* ------------------------------------------------------------------ *)

(** [application/ingest/normalize.py:134-140 _validate] *)
Definition QUALITIES : list pystr :=
  ["verified"; "unverified"; "conflicted"; "unreadable"; "unlocated"].

(** [originals.get((run, native))]: the last candidate of the batches with the key.
    [application/ingest/normalize.py:119-129 _validate] *)
Definition original_of (g : CanonicalDocumentGraph) (run native : pystr) : option CandidateBlock :=
  find (λ c, ns_native_id (cb_source c) =s? native)
    (rev (gr_candidates g ≫= λ b, if bt_parser_run_id b =s? run then bt_blocks b else [])).

(** [application/ingest/normalize.py:133-151 _validate] *)
Definition validate_block (g : CanonicalDocumentGraph) (b : CanonicalBlock) : result unit :=
  _ ← require (nonempty_list (kb_candidates b) && str_in (kb_quality b) QUALITIES)
        (ValueError "invalid source quality or missing provenance");
  _ ← require (match kb_winner b with
               | Some w => ((0 <=? w) && (w <? py_len (kb_candidates b)))%Z
               | None => true end) (ValueError "invalid selected candidate");
  require (forallb (λ c, match original_of g (ns_parser_run_id (cb_source c))
                                  (ns_native_id (cb_source c)) with
                         | Some o => candidate_eqb o c
                         | None => false end) (kb_candidates b))
    (ValueError "source candidate not in immutable graph provenance").

(** [application/ingest/normalize.py:115-153 _validate] *)
Definition validate (g : CanonicalDocumentGraph) (tenant : pystr) : result unit :=
  _ ← require ((gr_tenant_id g =s? tenant) && nonempty_list (gr_candidates g))
        (ValueError "tenant mismatch or missing source candidates");
  _ ← require (forallb (λ b, bool_decide (batch_identity b =
                 (tenant, gr_document_version_id g, gr_parse_manifest_id g, gr_source_sha256 g)))
                 (gr_candidates g)) (ValueError "candidate tenant/version/hash mismatch");
  let ids := kb_source_id <$> gr_blocks g in
  _ ← require (str_distinct ids) (ValueError "duplicate canonical source");
  _ ← each (validate_block g) (gr_blocks g);
  require (forallb (λ e, str_in (ed_source e) ids && str_in (ed_target e) ids) (gr_edges g))
    (ValueError "dangling graph relation").

(** [block.raw_text] of an admitted block: its winner is one of its candidates. *)
Definition text_of (b : CanonicalBlock) : pystr :=
  match block_raw_text b with Ok t => t | Raise _ => [] end.

(* ------------------------------------------------------------------ *)
(** ** A value *)
(* ------------------------------------------------------------------ *)

(** [Decimal(match[1].replace(",", ""))] *)
Definition numeral_decimal (n : numeral) : decimal :=
  {| d_neg := nu_neg n; d_coef := digits_value (nu_int n ++ nu_frac n);
     d_exp := - py_len (nu_frac n) |}.

(** [len(match[1])], separators included. *)
Definition numeral_length (raw : pystr) : Z :=
  match scan_numeral (strip raw) with
  | Some (_, r) => (py_len (strip raw) - py_len r)%Z
  | None => 0%Z
  end.

(** The unit a number is read in: the printed one must agree with the bound one.
    [application/ingest/normalize.py:157-161 _value] *)
Definition printed_unit (raw : pystr) : option pystr :=
  match NUMBER raw with Some (_, Some u) => Some (strip u) | _ => None end.

(** Parsed value, canonical unit, multiplier and state.
    [application/ingest/normalize.py:156-174 _value] *)
Definition read_value (raw : pystr) (unit : option pystr)
    : option pystr * option pystr * pystr * pystr :=
  let printed := printed_unit raw in
  let given := match unit with Some u => nonempty u | None => false end in
  if bool_decide (is_Some printed) && given && negb (bool_decide (unit = printed))
  then (None, unit, "1" : pystr, "conflict" : pystr)
  else
    let unit := match printed with Some u => Some u | None => unit end in
    let '(multiplier, canonical) := scaled_unit unit in
    if str_in (strip raw) [""; "-"; "N/A"; "n/A"; "N/a"; "n/a"]
    then (None, canonical, multiplier, "missing" : pystr)
    else
      match NUMBER raw with
      | None => (None, canonical, multiplier, "unreadable" : pystr)
      | Some (n, _) =>
          let scale := if multiplier =s? "1000" then 1000%Z else 1%Z in
          let value := d_mul (numeral_length raw + 4) (numeral_decimal n) (d_of_Z scale) in
          (Some (d_format_f value), canonical, multiplier, "value" : pystr)
      end.

(* ------------------------------------------------------------------ *)
(** ** An observation *)
(* ------------------------------------------------------------------ *)

(** Roles and the cells bound to them. *)
Notation bindings := (list (pystr * CanonicalBlock)).

(** [(?:단위|unit)\s*:] at the start, in any case.
    [application/ingest/normalize.py:200 _observation] *)
Definition is_unit_note (text : pystr) : bool :=
  let t := strip text in
  match (if starts_with "단위" t then Some (drop 2 t)
         else if starts_with "unit" (ignore_case <$> t) then Some (drop 4 t) else None) with
  | Some r => bool_decide (is_Some (eat 58 (lstrip r)))
  | None => false
  end.

(** [Scope(?:\s|:)] at the start.
    [application/ingest/normalize.py:213 _observation] *)
Definition is_scope_note (text : pystr) : bool :=
  let t := strip text in
  starts_with "Scope" t && match drop 5 t with c :: _ => is_space c || (c =? 58)%N | [] => false end.

Definition block_id_leb (a b : CanonicalBlock) : bool := str_leb (kb_source_id a) (kb_source_id b).

(** [{block.source_id: block ..}] in the order of its keys.
    [application/ingest/normalize.py:190-193 _observation] *)
Definition blocks_by_id (l : list CanonicalBlock) : list CanonicalBlock :=
  omap (λ id, find (λ b, kb_source_id b =s? id) (rev l)) (str_set_sorted (kb_source_id <$> l)).

(** [block.raw_text.strip() or None] of a role.
    [application/ingest/normalize.py:194 _observation] *)
Definition role_text (bs : bindings) (role : pystr) : option pystr :=
  b ← dict_get role bs; let t := strip (text_of b) in if nonempty t then Some t else None.

(** The notes an edge ties to the cells of the observation.
    [application/ingest/normalize.py:179-189 _observation] *)
Definition observation_notes (g : CanonicalDocumentGraph) (table value_cell : CanonicalBlock)
    (bs : bindings) : list CanonicalBlock :=
  let targets := kb_source_id table :: kb_source_id value_cell :: (kb_source_id <$> bs.*2) in
  let targets := targets ++ column_note_targets g (kb_source_id table) targets in
  let note_ids := notes_of g targets in
  isort block_id_leb (List.filter (λ b, str_in (kb_source_id b) note_ids) (gr_blocks g)).

(** The literals of the unit notes; [None] is a note of unknown syntax.
    [application/ingest/normalize.py:197-205 _observation] *)
Definition unit_literals (notes : list CanonicalBlock) : list (option pystr) :=
  (λ b, unit_note_literal (text_of b)) <$> List.filter (λ b, is_unit_note (text_of b)) notes.

(** [application/ingest/normalize.py:210-214 _observation] *)
Definition scope_literals (notes : list CanonicalBlock) : list (pystr * option pystr) :=
  (λ b, (kb_source_id b, scope_note_literal (text_of b)))
    <$> List.filter (λ b, is_scope_note (text_of b)) notes.

(** A role's own text, or the only literal of the notes; and whether they conflict.
    [application/ingest/normalize.py:204-218 _observation] *)
Definition noted (own : option pystr) (literals : list (option pystr)) : option pystr * bool :=
  let found := str_dedup (omap id literals) in
  let all := str_dedup (found ++ match own with Some u => [u] | None => [] end) in
  (match own, found with None, [u] => Some u | _, _ => own end, (1 <? py_len all)%Z).

(** [application/ingest/normalize.py:222-246 _observation] *)
Definition resolve_state (blocks : list CanonicalBlock) (conflict unresolved : bool)
    (parsed : option pystr) (state : pystr) : pystr * option pystr * pystr :=
  if conflict || existsb (λ b, (kb_quality b =s? "conflicted")
                               || negb (bool_decide (is_Some (kb_winner b)))) blocks
  then ("conflict" : pystr, None, "conflicted" : pystr)
  else if existsb (λ b, str_in (kb_quality b) ["unreadable"; "unlocated"]
                        || existsb has_invalid_geometry (kb_candidates b)) blocks
  then ("unreadable" : pystr, None,
        if existsb (λ b, kb_quality b =s? "unreadable") blocks then "unreadable" : pystr
        else "unlocated" : pystr)
  else if unresolved || (state =s? "unreadable")
  then ("unreadable" : pystr, None, "unreadable" : pystr)
  else (state, parsed, if state =s? "conflict" then "conflicted" : pystr else "unverified" : pystr).

Definition relation : Set := pystr * pystr * pystr.
Definition relation_leb : relation → relation → bool :=
  lex_leb (λ a b, bool_decide (a = b)) (lex_leb str_eqb str_leb str_leb) str_leb.

(** [application/ingest/normalize.py:253-262 _observation] *)
Definition cell_relations (value_cell : CanonicalBlock) (bs : bindings)
    (scope_notes : list (pystr * option pystr)) (scope : option pystr) : list relation :=
  let id := kb_source_id value_cell in
  isort relation_leb (remove_dups
    (((λ '(name, b), (id, kb_source_id b, name)) <$> bs)
     ++ ((λ n, (id, n.1, "scope" : pystr))
           <$> List.filter (λ n, bool_decide (is_Some n.2) && bool_decide (n.2 = scope)) scope_notes))).

Section observe.
Context `{Digest} (nfc : pystr → pystr) (uuid5 : pystr → pystr → pystr).

(** [application/ingest/normalize.py:247-252 _observation] *)
Definition block_refs (blocks : list CanonicalBlock) : result (list SourceRef) :=
  map_result (λ bc, canonicalize_source_ref nfc (cb_source bc.2) (cb_geometry bc.2) []
                      (Some bc.1) None None (PStr "candidate"))
    (blocks ≫= λ b, pair (kb_source_id b)
                      <$> List.filter (λ c, negb (has_invalid_geometry c)) (kb_candidates b)).

(** [application/ingest/normalize.py:263-273 _observation] *)
Definition observation_signature (g : CanonicalDocumentGraph) (table : CanonicalBlock)
    (row column : Z) (blocks : list CanonicalBlock) : result pystr :=
  canonical_hash (PDict
    [("tenant", PStr (gr_tenant_id g)); ("source", PStr (gr_source_sha256 g));
     ("table", PStr (kb_source_id table)); ("row", PInt row); ("column", PInt column);
     ("blocks", PList (block_val <$> blocks)); ("version", PStr "4")]).

(** [application/ingest/normalize.py:177-304 _observation] *)
Definition observe (g : CanonicalDocumentGraph) (table : CanonicalBlock) (row column : Z)
    (value_cell : CanonicalBlock) (bs : bindings) (headers : list CanonicalBlock)
    : result Observation :=
  let footnotes := observation_notes g table value_cell bs in
  let blocks := blocks_by_id (value_cell :: bs.*2 ++ headers ++ footnotes) in
  let field := role_text bs in
  let raw := text_of value_cell in
  let units := unit_literals footnotes in
  let '(unit, unit_conflict) := noted (field "unit_raw") units in
  let scope_notes := scope_literals footnotes in
  let '(scope, scope_conflict) := noted (field "scope") scope_notes.*2 in
  let '(parsed, canonical, multiplier, state) := read_value raw unit in
  let unit := match unit with None => printed_unit raw | _ => unit end in
  let unresolved := existsb (λ u, bool_decide (u = None)) (units ++ scope_notes.*2)
                    || bool_decide (field "metric_raw" = None)
                    || bool_decide (field "reporting_period" = None) in
  let '(state, parsed, quality) :=
    resolve_state blocks (unit_conflict || scope_conflict) unresolved parsed state in
  refs ← block_refs blocks;
  signature ← observation_signature g table row column blocks;
  Ok {| no_core :=
          {| ob_id := uuid5 (gr_parse_manifest_id g) signature; ob_table_id := kb_source_id table;
             ob_row := row; ob_column := column; ob_tenant_id := gr_tenant_id g;
             ob_document_version_id := gr_document_version_id g;
             ob_parse_manifest_id := gr_parse_manifest_id g;
             ob_source_sha256 := gr_source_sha256 g;
             ob_metric_raw := default [] (field "metric_raw"); ob_scope := scope;
             ob_subject := field "subject";
             ob_reporting_period := default [] (field "reporting_period");
             ob_scope2_basis := field "scope2_basis";
             ob_organizational_boundary := field "organizational_boundary";
             ob_unit_raw := unit; ob_unit_canonical := canonical;
             ob_scale_multiplier := multiplier; ob_denominator := field "denominator";
             ob_value_raw := raw; ob_value_decimal := parsed; ob_value_state := state;
             ob_quality := quality; ob_source_refs := refs; ob_source_blocks := blocks;
             ob_parent_relations := cell_relations value_cell bs scope_notes scope |};
        no_baseline_period := field "baseline_period"; no_category := field "category";
        no_method := field "method"; no_footnotes := text_of <$> footnotes;
        no_metric_id := None; no_assurance_ref := None |}.
End observe.

(* ------------------------------------------------------------------ *)
(** ** The layout of a table *)
(* ------------------------------------------------------------------ *)

(** [span or 1] *)
Definition span_or_1 (o : option Z) : Z :=
  match o with Some s => if (s =? 0)%Z then 1%Z else s | None => 1%Z end.

Notation grid := (gmap (Z * Z) CanonicalBlock).

(** What a cell is placed by: its first candidate's row, column and spans. *)
Record placement : Set := { pl_row : Z; pl_column : Z; pl_rows : Z; pl_columns : Z }.

(** An admitted cell has candidates, and a placed one has a row and a column. *)
Definition place_of (b : CanonicalBlock) : placement :=
  match kb_candidates b with
  | c :: _ => {| pl_row := default 0%Z (cb_row c); pl_column := default 0%Z (cb_column c);
                 pl_rows := span_or_1 (cb_row_span c); pl_columns := span_or_1 (cb_column_span c) |}
  | [] => {| pl_row := 0; pl_column := 0; pl_rows := 1; pl_columns := 1 |}
  end.

(** The positions [start, start + count). *)
Definition z_range (start count : Z) : list Z :=
  (λ n, (start + Z.of_nat n)%Z) <$> seq 0 (Z.to_nat count).

Definition covered (b : CanonicalBlock) : list (Z * Z) :=
  let p := place_of b in
  r ← z_range (pl_row p) (pl_rows p); pair r <$> z_range (pl_column p) (pl_columns p).

(** [application/ingest/normalize.py:360-369 normalize_tables] *)
Definition fill (cells : list CanonicalBlock) : grid * bool :=
  foldl (λ (s : grid * bool) (cp : CanonicalBlock * (Z * Z)),
          (<[cp.2 := cp.1]> s.1,
           s.2 || match s.1 !! cp.2 with Some b => negb (block_eqb b cp.1) | None => false end))
    (∅, false) (cells ≫= λ c, pair c <$> covered c).

Definition grid_rows (m : grid) : list Z := isort Z.leb (remove_dups ((map_to_list m).*1.*1)).
Definition grid_columns (m : grid) : list Z := isort Z.leb (remove_dups ((map_to_list m).*1.*2)).

(** [{col: cell for (row, col), cell in grid.items() if row == r}] *)
Definition band (m : grid) (r : Z) : list (Z * CanonicalBlock) :=
  omap (λ k, pair k <$> m !! (r, k)) (grid_columns m).

(** A lone cell over the whole width that starts in this row.
    [application/ingest/normalize.py:381-392 normalize_tables] *)
Definition title_at (m : grid) (r : Z) : option CanonicalBlock :=
  match dedup block_eqb (band m r).*2 with
  | [t] =>
      let p := place_of t in
      if bool_decide ((band m r).*1 = grid_columns m)
         && bool_decide (head (grid_columns m) = Some (pl_column p))
         && (pl_columns p =? py_len (grid_columns m))%Z && (pl_row p =? r)%Z
      then Some t else None
  | _ => None
  end.

(** The loop over leading titles: the header row and the titles above it.
    Every turn moves on to a later row of the grid.
    [application/ingest/normalize.py:380-401 normalize_tables] *)
Fixpoint skip_titles (fuel : nat) (m : grid) (first r : Z) (titles : list CanonicalBlock)
    : Z * list CanonicalBlock :=
  match fuel with
  | O => (r, titles)
  | S fuel =>
      match title_at m r with
      | None => (r, titles)
      | Some t =>
          let next := (r + pl_rows (place_of t))%Z in
          if bool_decide (next ∈ grid_rows m) then skip_titles fuel m first next (titles ++ [t])
          else (first, [])
      end
  end.

(** What the headers of a table assign to its columns. *)
Record layout : Type := {
  la_grid : grid; la_overlap : bool; la_header_row : Z; la_header_rows : list Z;
  la_headers : list (Z * CanonicalBlock); la_titles : list CanonicalBlock;
  la_basis : list (Z * CanonicalBlock); la_fields : list (Z * pystr); la_years : list Z;
  la_metrics : list Z }.

Definition in_values (l : list CanonicalBlock) (b : CanonicalBlock) : bool := existsb (block_eqb b) l.

(** The row of measurement bases under the header, when it holds nothing else.
    [application/ingest/normalize.py:404-416 normalize_tables] *)
Definition basis_row (headers next : list (Z * CanonicalBlock)) : option (list (Z * CanonicalBlock)) :=
  let is_basis (b : CanonicalBlock) := str_in (label_text (text_of b)) BASIS_VALUES in
  if existsb is_basis next.*2 && forallb (λ b, in_values headers.*2 b || is_basis b) next.*2
  then Some (List.filter (λ kb, is_basis kb.2) next) else None.

(** [application/ingest/normalize.py:370-432 normalize_tables] *)
Definition layout_of (cells : list CanonicalBlock) : option layout :=
  let '(m, overlap) := fill cells in
  first ← head (grid_rows m);
  let '(header, titles) :=
    if overlap then (first, []) else skip_titles (S (length (grid_rows m))) m first first [] in
  let headers := band m header in
  let basis := basis_row headers (band m (header + 1)) in
  let title_rows := titles ≫= λ t, z_range (pl_row (place_of t)) (pl_rows (place_of t)) in
  let fields := omap (λ kb, pair kb.1 <$> field_of (label_text (text_of kb.2))) headers in
  let names := fields.*2 in
  Some {| la_grid := m; la_overlap := overlap; la_header_row := header;
          la_header_rows := header :: title_rows ++ (if basis then [(header + 1)%Z] else []);
          la_headers := headers; la_titles := titles; la_basis := default [] basis;
          la_fields := fields;
          la_years := (List.filter (λ kb, year_label (strip (text_of kb.2))) headers).*1;
          la_metrics :=
            if str_in "reporting_period" names && negb (str_in "metric_raw" names)
               && negb (str_in "value_raw" names)
            then List.filter (λ k, negb (existsb (Z.eqb k) fields.*1)) headers.*1 else [] |}.

(** [application/ingest/normalize.py:423-432 normalize_tables] *)
Definition value_columns (l : layout) : list Z :=
  isort Z.leb (remove_dups ((List.filter (λ f, f.2 =s? "value_raw") (la_fields l)).*1
                            ++ la_years l ++ la_metrics l)).

Definition column_in (k : Z) (l : list Z) : bool := existsb (Z.eqb k) l.

Definition at_column (k : Z) (l : list (Z * CanonicalBlock)) : option CanonicalBlock :=
  snd <$> find (λ kb, Z.eqb k kb.1) l.

(** Value columns under one header cell, one of them without a basis of its own.
    [application/ingest/normalize.py:434-440 normalize_tables] *)
Definition shared_owner (l : layout) : bool :=
  let owner k := kb_source_id <$> at_column k (la_headers l) in
  existsb (λ k, negb (column_in k (la_basis l).*1)
                && existsb (λ j, negb (j =? k)%Z && bool_decide (owner j = owner k))
                     (value_columns l)) (value_columns l).

(** A second level of headers under a tall header cell.
    [application/ingest/normalize.py:441-450 normalize_tables] *)
Definition second_level (l : layout) : bool :=
  let ends := (λ b, (pl_row (place_of b) + pl_rows (place_of b))%Z) <$> (la_headers l).*2 in
  let header_end := foldl Z.max (la_header_row l) ends in
  existsb (λ '((r, k), b),
            (la_header_row l <? r)%Z && (r <? header_end)%Z
            && negb (column_in r (la_header_rows l)) && column_in k (value_columns l)
            && negb (in_values (la_headers l).*2 b)) (map_to_list (la_grid l)).

(** [application/ingest/normalize.py:451-458 normalize_tables] *)
Definition ambiguous (l : layout) : bool :=
  let names := (la_fields l).*2 in
  la_overlap l || shared_owner l || second_level l || negb (str_distinct names)
  || negb (nonempty_list (value_columns l))
  || (negb (str_in "metric_raw" names) && negb (nonempty_list (la_metrics l)))
  || (negb (str_in "reporting_period" names) && negb (nonempty_list (la_years l))).

(** The roles of a value cell.
    [application/ingest/normalize.py:464-479 normalize_tables] *)
Definition cell_bindings (l : layout) (r k : Z) : bindings :=
  let bound := omap (λ f, if f.2 =s? "value_raw" then None
                          else pair f.2 <$> la_grid l !! (r, f.1)) (la_fields l) in
  let put (name : pystr) (o : option CanonicalBlock) (bs : bindings) :=
    match o with Some b => dict_set name b bs | None => bs end in
  let bound := put "reporting_period"
                 (if column_in k (la_years l) then at_column k (la_headers l) else None) bound in
  let bound := put "metric_raw"
                 (if column_in k (la_metrics l) then at_column k (la_headers l) else None) bound in
  put "scope2_basis" (at_column k (la_basis l)) bound.

(* ------------------------------------------------------------------ *)
(** ** All tables of a graph *)
(* ------------------------------------------------------------------ *)

(** Table id, row, column and spans, as one candidate places the cell. *)
Definition location : Set := option pystr * option Z * option Z * Z * Z.

(** [aliases.get((run, native))]: the last block with such a candidate.
    [application/ingest/normalize.py:311-315 normalize_tables] *)
Definition alias_of (g : CanonicalDocumentGraph) (run : pystr) (native : option pystr)
    : option pystr :=
  native ← native;
  kb_source_id <$> find (λ b, existsb (λ c, (ns_parser_run_id (cb_source c) =s? run)
                                            && (ns_native_id (cb_source c) =s? native))
                                (kb_candidates b)) (rev (gr_blocks g)).

(** [application/ingest/normalize.py:321-332 normalize_tables] *)
Definition locations (g : CanonicalDocumentGraph) (b : CanonicalBlock) : list location :=
  remove_dups
    ((λ c, (alias_of g (ns_parser_run_id (cb_source c)) (cb_table_native_id c), cb_row c,
            cb_column c, default 1%Z (cb_row_span c), default 1%Z (cb_column_span c)))
       <$> kb_candidates b).

Definition table_block (g : CanonicalDocumentGraph) (id : pystr) : option CanonicalBlock :=
  b ← block_by_id g id; if kb_kind b =s? "table" then Some b else None.

(** [application/ingest/normalize.py:336-343 normalize_tables] *)
Definition cell_table (g : CanonicalDocumentGraph) (l : location) : option pystr :=
  let '(table, row, column, rs, cs) := l in
  table ← table; row ← row; column ← column;
  if bool_decide (is_Some (table_block g table)) && ((0 <=? row) && (0 <=? column))%Z
     && ((1 <=? rs) && (rs <=? 1000))%Z && ((1 <=? cs) && (cs <=? 1000))%Z
  then Some table else None.

(** [application/ingest/normalize.py:352-355 normalize_tables] *)
Definition expansion (cells : list CanonicalBlock) : Z :=
  foldr Z.add 0%Z ((λ b, (pl_rows (place_of b) * pl_columns (place_of b))%Z) <$> cells).

Section tables.
Context `{Digest} (nfc : pystr → pystr) (uuid5 : pystr → pystr → pystr).

(** [application/ingest/normalize.py:104-112 _issue] *)
Definition open_issue (b : CanonicalBlock) (kind reason : pystr) : QualityIssue :=
  {| qi_issue_id := uuid5 (kb_source_id b) kind; qi_kind := kind; qi_page_num := page_of_block b;
     qi_source_ids := [kb_source_id b]; qi_state := "open"; qi_reason := reason |}.

(** A cell's table, or the issue it is left with.
    [application/ingest/normalize.py:318-348 normalize_tables] *)
Definition assign_cell (g : CanonicalDocumentGraph) (b : CanonicalBlock) : pystr + QualityIssue :=
  match locations g b with
  | [l] =>
      match cell_table g l with
      | Some t => inl t
      | None => inr (open_issue b "table_layout_unresolved" "Missing/invalid cell alignment.")
      end
  | _ => inr (open_issue b "parse_conflict" "Parser table alignment disagrees.")
  end.

Definition table_cells (g : CanonicalDocumentGraph) : list CanonicalBlock :=
  List.filter (kind_in ["table_cell"]) (gr_blocks g).

(** The cells of a table, in the order of the graph. *)
Definition cells_of (g : CanonicalDocumentGraph) (table : pystr) : list CanonicalBlock :=
  List.filter (λ b, match assign_cell g b with inl t => t =s? table | inr _ => false end)
    (table_cells g).

(** The value of an observation is unresolved. *)
Definition unsettled (n : Observation) : bool :=
  str_in (ob_value_state (no_core n)) ["conflict"; "unreadable"].

(** [application/ingest/normalize.py:490-499 normalize_tables] *)
Definition observation_issues (value_cell : CanonicalBlock) (n : Observation)
    : list QualityIssue :=
  if unsettled n
  then [open_issue value_cell
          (if ob_value_state (no_core n) =s? "conflict" then "parse_conflict"
           else "table_value_unreadable") "Value or binding unresolved."]
  else [].

Definition findings : Set := list Observation * list QualityIssue.
Definition join (a b : findings) : findings := (a.1 ++ b.1, a.2 ++ b.2).

(** One value position of a data row.
    [application/ingest/normalize.py:469-499 normalize_tables] *)
Definition observe_cell (g : CanonicalDocumentGraph) (table : CanonicalBlock) (l : layout)
    (rk : Z * Z) : result findings :=
  match la_grid l !! rk with
  | None => Ok ([], [open_issue table "table_layout_unresolved" "Missing value cell."])
  | Some cell =>
      n ← observe nfc uuid5 g table rk.1 rk.2 cell (cell_bindings l rk.1 rk.2)
            ((la_headers l).*2 ++ la_titles l);
      Ok ([n], observation_issues cell n)
  end.

Definition data_rows (l : layout) : list Z :=
  List.filter (λ r, negb (column_in r (la_header_rows l))) (grid_rows (la_grid l)).

(** [application/ingest/normalize.py:463-469 normalize_tables] *)
Definition value_positions (l : layout) : list (Z * Z) :=
  r ← data_rows l; pair r <$> value_columns l.

(** [application/ingest/normalize.py:350-499 normalize_tables] *)
Definition normalize_table (g : CanonicalDocumentGraph) (table : CanonicalBlock)
    (cells : list CanonicalBlock) : result findings :=
  if (100000 <? expansion cells)%Z
  then Ok ([], [open_issue table "table_layout_unresolved" "Cell expansion limit exceeded."])
  else
    match layout_of cells with
    | Some l =>
        if ambiguous l
        then Ok ([], [open_issue table "table_layout_unresolved" "Ambiguous table headers/spans."])
        else
          fs ← map_result (observe_cell g table l) (value_positions l);
          Ok (fs.*1 ≫= id, fs.*2 ≫= id)
    | None => Raise (ValueError "min() arg is an empty sequence")
    end.

(** [application/ingest/normalize.py:307-500 normalize_tables] *)
Definition normalize_tables (g : CanonicalDocumentGraph) (tenant : pystr)
    : result NormalizationResult :=
  _ ← validate g tenant;
  let assigned := assign_cell g <$> table_cells g in
  let misplaced := omap (λ a, match a with inr i => Some i | inl _ => None end) assigned in
  let tables := str_set_sorted (omap (λ a, match a with inl t => Some t | inr _ => None end) assigned) in
  fs ← map_result (λ t, match table_block g t with
                        | Some b => normalize_table g b (cells_of g t)
                        | None => Raise KeyError
                        end) tables;
  Ok {| nr_observations := fs.*1 ≫= id;
        nr_conflicts := gr_issues g ++ misplaced ++ (fs.*2 ≫= id); nr_graph := g |}.
End tables.

(* ------------------------------------------------------------------ *)
(** ** Explicit role bindings *)
(* ------------------------------------------------------------------ *)

(** Roles and the ids of the cells assigned to them. *)
Definition assignment : Set := list (pystr * pystr).

(** The parsers' names of a table.
    [application/ingest/normalize.py:522-525 normalize_table_bindings] *)
Definition native_keys (table : CanonicalBlock) : list (pystr * pystr) :=
  (λ c, (ns_parser_run_id (cb_source c), ns_native_id (cb_source c))) <$> kb_candidates table.

Definition in_table (keys : list (pystr * pystr)) (c : CandidateBlock) : bool :=
  match cb_table_native_id c with
  | Some t => bool_decide ((ns_parser_run_id (cb_source c), t) ∈ keys)
  | None => false
  end.

(** [application/ingest/normalize.py:532-542 normalize_table_bindings] *)
Definition candidate_place (keys : list (pystr * pystr)) (c : CandidateBlock) : result placement :=
  _ ← require (in_table keys c) (ValueError "binding crosses tables");
  let rs := default 1%Z (cb_row_span c) in
  let cs := default 1%Z (cb_column_span c) in
  match cb_row c, cb_column c with
  | Some r, Some k =>
      _ ← require ((0 <=? r) && (0 <=? k))%Z (ValueError "binding requires explicit cell alignment");
      _ ← require ((1 <=? rs) && (rs <=? 1000) && ((1 <=? cs) && (cs <=? 1000)))%Z
            (ValueError "binding requires valid spans");
      Ok {| pl_row := r; pl_column := k; pl_rows := rs; pl_columns := cs |}
  | _, _ => Raise (ValueError "binding requires explicit cell alignment")
  end.

#[export] Instance placement_eq_dec : EqDecision placement.
Proof. solve_decision. Defined.

(** [application/ingest/normalize.py:527-545 normalize_table_bindings] *)
Definition cell_location (g : CanonicalDocumentGraph) (keys : list (pystr * pystr)) (id : pystr)
    : result (CanonicalBlock * placement) :=
  match (b ← block_by_id g id; if kb_kind b =s? "table_cell" then Some b else None) with
  | None => Raise (ValueError "binding requires an original table cell")
  | Some b =>
      ps ← map_result (candidate_place keys) (kb_candidates b);
      match remove_dups ps with
      | [p] => Ok (b, p)
      | _ => Raise (ValueError "binding cell alignment disagrees")
      end
  end.

(** [application/ingest/normalize.py:549-557 normalize_table_bindings] *)
Definition located_cells (g : CanonicalDocumentGraph) (keys : list (pystr * pystr))
    : result (list (CanonicalBlock * placement)) :=
  map_result (λ b, cell_location g keys (kb_source_id b))
    (List.filter (λ b, existsb (in_table keys) (kb_candidates b)) (table_cells g)).

(** The rows of [p] are among those of [q]. *)
Definition same_row (p q : placement) : bool :=
  ((pl_row q <=? pl_row p) && (pl_row p + pl_rows p <=? pl_row q + pl_rows q))%Z.

(** [q] is above [p] and spans its columns.
    [application/ingest/normalize.py:578-583 normalize_table_bindings] *)
Definition header_above (p q : placement) : bool :=
  ((pl_row q + pl_rows q <=? pl_row p) && (pl_column q <=? pl_column p)
   && (pl_column p + pl_columns p <=? pl_column q + pl_columns q))%Z.

(** A text between the header [q] and the value [p].
    [application/ingest/normalize.py:584-590 normalize_table_bindings] *)
Definition intervening (p q : placement) (other : CanonicalBlock * placement) : bool :=
  let o := other.2 in
  ((pl_row q + pl_rows q <=? pl_row o) && (pl_row o <? pl_row p)
   && (pl_column o <? pl_column p + pl_columns p) && (pl_column p <? pl_column o + pl_columns o))%Z
  && negb (str_in (read_value (text_of other.1) None).2 ["value"; "missing"]).

(** One role of an assignment.
    [application/ingest/normalize.py:575-595 normalize_table_bindings] *)
Definition bind_role (g : CanonicalDocumentGraph) (keys : list (pystr * pystr))
    (cells : list (CanonicalBlock * placement)) (p : placement) (bound : bindings)
    (role : pystr * pystr) : result bindings :=
  '(b, q) ← cell_location g keys role.2;
  let year_header := (role.1 =s? "reporting_period") && header_above p q in
  _ ← reject (year_header && existsb (intervening p q) cells)
        (ValueError "year header binding omits an intervening table level");
  _ ← require (same_row p q || year_header) (ValueError "binding crosses value row/column");
  Ok (if role.1 =s? "value_raw" then bound else dict_set role.1 b bound).

(** [application/ingest/normalize.py:563-569 normalize_table_bindings] *)
Definition valid_assignment (a : assignment) : bool :=
  forallb (λ r, str_in r.1 HEADERS.*1) a
  && forallb (λ n, str_in n a.*1) ["metric_raw"; "reporting_period"; "value_raw"].

Section bound.
Context `{Digest} (nfc : pystr → pystr) (uuid5 : pystr → pystr → pystr).

Definition rename (n : Observation) (id : pystr) : Observation :=
  let o := no_core n in
  {| no_core :=
       {| ob_id := id; ob_table_id := ob_table_id o; ob_row := ob_row o; ob_column := ob_column o;
          ob_tenant_id := ob_tenant_id o; ob_document_version_id := ob_document_version_id o;
          ob_parse_manifest_id := ob_parse_manifest_id o; ob_source_sha256 := ob_source_sha256 o;
          ob_metric_raw := ob_metric_raw o; ob_scope := ob_scope o; ob_subject := ob_subject o;
          ob_reporting_period := ob_reporting_period o; ob_scope2_basis := ob_scope2_basis o;
          ob_organizational_boundary := ob_organizational_boundary o;
          ob_unit_raw := ob_unit_raw o; ob_unit_canonical := ob_unit_canonical o;
          ob_scale_multiplier := ob_scale_multiplier o; ob_denominator := ob_denominator o;
          ob_value_raw := ob_value_raw o; ob_value_decimal := ob_value_decimal o;
          ob_value_state := ob_value_state o; ob_quality := ob_quality o;
          ob_source_refs := ob_source_refs o; ob_source_blocks := ob_source_blocks o;
          ob_parent_relations := ob_parent_relations o |};
     no_baseline_period := no_baseline_period n; no_category := no_category n;
     no_method := no_method n; no_footnotes := no_footnotes n; no_metric_id := no_metric_id n;
     no_assurance_ref := no_assurance_ref n |}.

(** [application/ingest/normalize.py:562-606 normalize_table_bindings] *)
Definition observe_assignment (g : CanonicalDocumentGraph) (table : CanonicalBlock)
    (keys : list (pystr * pystr)) (cells : list (CanonicalBlock * placement)) (seen : list pystr)
    (a : assignment) : result (pystr * findings) :=
  _ ← require (valid_assignment a) (ValueError "invalid table role assignment");
  value_id ← of_option KeyError (dict_get "value_raw" a);
  '(value, p) ← cell_location g keys value_id;
  _ ← reject (str_in (kb_source_id value) seen) (ValueError "duplicate value binding");
  bound ← fold_result (bind_role g keys cells p) [] a;
  n ← observe nfc uuid5 g table (pl_row p) (pl_column p) value bound [];
  signature ← canonical_hash (PDict [("table_bindings_v1", PDict ((λ r, (r.1, PStr r.2)) <$> a))]);
  let n := rename n (uuid5 (ob_id (no_core n)) signature) in
  Ok (kb_source_id value,
      ([n], if unsettled n
            then [open_issue uuid5 value "table_value_unreadable" "Value or binding unresolved."]
            else [])).

(** [application/ingest/normalize.py:503-607 normalize_table_bindings] *)
Definition normalize_table_bindings (g : CanonicalDocumentGraph) (table_id : pystr)
    (assignments : list assignment) (tenant : pystr) : result NormalizationResult :=
  _ ← validate g tenant;
  table ← of_option (ValueError "unknown table") (table_block g table_id);
  let keys := native_keys table in
  cells ← located_cells g keys;
  '(_, fs) ← fold_result
    (λ (s : list pystr * findings) (a : assignment),
       '(id, f) ← observe_assignment g table keys cells s.1 a; Ok (s.1 ++ [id], join s.2 f))
    ([], ([], gr_issues g)) assignments;
  Ok {| nr_observations := fs.1; nr_conflicts := fs.2; nr_graph := g |}.
End bound.
