(* ===== verification/NormalizeSpec.v ===== *)
(** * What normalisation promises to the numeric check.

    The decimal of an observation is exactly the printed number in its scale;
    an observation with a value, once its references are verified, passes
    every structural test of the numeric check; and a run of the normaliser
    accounts for every table cell, never verifies anything and never gives a
    value to a cell that conflicts. *)
From S2P Require Import Prelude PyVal JsonCodec Decimal Values PyDate Digest RulePack Geometry Graph GraphSpec Numeric NumericValue NumericSpec NumericEvidence Normalize.
From stdpp Require Import gmap.
From Stdlib Require Import QArith Lqa.
Open Scope nat_scope.
Open Scope py_scope.

(* ------------------------------------------------------------------ *)
(** ** Numerals *)
(* ------------------------------------------------------------------ *)

Lemma span_digits_split s d r : span_digits s = (d, r) → s = d ++ r ∧ all_digits d = true.
Proof.
  revert d r. induction s as [|c s IH]; cbn; intros d r; [by intros [= <- <-]|].
  destruct (is_digit c) eqn:Hc; [|by intros [= <- <-]].
  destruct (span_digits s) as [d' r']. destruct (IH _ _ eq_refl) as [-> Hd].
  intros [= <- <-]. split; [done|]. cbn. by rewrite Hc.
Qed.

(** [pre] was consumed; it holds at least the [k] digits read from it. *)
Definition consumed (s r : pystr) (k : nat) : Prop := ∃ pre, s = pre ++ r ∧ k <= length pre.

Lemma consumed_refl s : consumed s s 0.
Proof. by exists []. Qed.

Lemma consumed_trans s r t j k : consumed s r j → consumed r t k → consumed s t (j + k).
Proof.
  intros (p & -> & Hp) (q & -> & Hq). exists (p ++ q). rewrite length_app, (assoc_L (++)).
  split; [done|lia].
Qed.

Lemma consumed_cons c s r k : consumed s r k → consumed (c :: s) r k.
Proof. intros (p & -> & Hp). exists (c :: p). cbn. split; [done|lia]. Qed.

Lemma span_digits_consumed s d r : span_digits s = (d, r) → consumed s r (length d) ∧ all_digits d = true.
Proof. intros [-> Hd]%span_digits_split. split; [by exists d|done]. Qed.

Lemma scan_groups_consumed fuel s g r : scan_groups fuel s = (g, r) →
  consumed s r (length g) ∧ all_digits g = true.
Proof.
  revert s g r. induction fuel as [|fuel IH]; cbn; intros s g r.
  { intros [= <- <-]. split; [apply consumed_refl|done]. }
  destruct (eat 44 s) as [t|] eqn:He; [|by intros [= <- <-]; split; [apply consumed_refl|]].
  apply eat_split in He as ->. destruct (_ && _) eqn:E; [|by intros [= <- <-]; split; [apply consumed_refl|]].
  apply andb_true_iff in E as [Hl Hd].
  destruct (scan_groups fuel (drop 3 t)) as [ds r'] eqn:Hs. apply IH in Hs as [Hc Ha].
  intros [= <- <-]. split.
  - apply consumed_cons. rewrite length_app. eapply consumed_trans; [|exact Hc].
    exists (take 3 t). by rewrite take_drop.
  - by rewrite all_digits_app, Hd.
Qed.

Lemma scan_frac_consumed s f r : scan_frac s = (f, r) → consumed s r (length f) ∧ all_digits f = true.
Proof.
  unfold scan_frac. destruct (eat 46 s) as [t|] eqn:He; [|by intros [= <- <-]; split; [apply consumed_refl|]].
  apply eat_split in He as ->. destruct (span_digits t) as [d r'] eqn:Hd.
  apply span_digits_consumed in Hd as [Hc Ha].
  destruct (nonempty d); intros [= <- <-]; split; try done; [by apply consumed_cons|].
  apply consumed_refl.
Qed.

Lemma scan_numeral_consumed s n r : scan_numeral s = Some (n, r) →
  consumed s r (length (nu_int n ++ nu_frac n)) ∧ all_digits (nu_int n ++ nu_frac n) = true
  ∧ 1 <= length (nu_int n).
Proof.
  unfold scan_numeral. intros H.
  destruct (match eat 43 s with Some r => (false, r) | None => scan_minus s end) as [neg s0] eqn:Es.
  assert (H0 : consumed s s0 0).
  { destruct (eat 43 s) as [t|] eqn:He.
    - injection Es as <- <-. apply eat_split in He as ->. exists [43%N]; split; [done|cbn; lia].
    - unfold scan_minus in Es. destruct (eat 45 s) as [t|] eqn:Hm; injection Es as <- <-.
      + apply eat_split in Hm as ->. exists [45%N]; split; [done|cbn; lia].
      + apply consumed_refl. }
  destruct (span_digits s0) as [ds r1] eqn:Hd. apply span_digits_consumed in Hd as [H1 Ha].
  destruct ds as [|d ds]; [done|]. cbn [nonempty negb] in H.
  destruct (if (length (d :: ds) <=? 3)%nat then _ else _) as [gs r2] eqn:Hg.
  assert (H2 : consumed r1 r2 (length gs) ∧ all_digits gs = true).
  { destruct (length (d :: ds) <=? 3)%nat.
    - by apply scan_groups_consumed in Hg.
    - injection Hg as <- <-. split; [apply consumed_refl|done]. }
  destruct H2 as [H2 Hga]. destruct (scan_frac r2) as [fs r3] eqn:Hf.
  apply scan_frac_consumed in Hf as [H3 Hfa]. injection H as <- <-. cbn [nu_int nu_frac].
  change (d :: ds ++ gs) with ((d :: ds) ++ gs).
  rewrite !length_app, !all_digits_app, Ha, Hga, Hfa. split_and!; [|done|cbn; lia].
  change (length (d :: ds) + length gs + length fs) with (0 + length (d :: ds) + length gs + length fs).
  eauto using consumed_trans.
Qed.

Lemma NUMBER_scan raw n u : NUMBER raw = Some (n, u) → ∃ r, scan_numeral (strip raw) = Some (n, r).
Proof.
  unfold NUMBER. destruct (scan_numeral (strip raw)) as [[n' r]|]; [|done]. cbn.
  destruct r as [|c r]; [intros [= <- <-]; eauto|]. destruct (_ && _); [|done].
  intros [= <- <-]. eauto.
Qed.

Lemma numeral_digits raw n u : NUMBER raw = Some (n, u) →
  (d_digits (numeral_decimal n) <= numeral_length raw)%Z ∧ d_exp (numeral_decimal n) = (- py_len (nu_frac n))%Z.
Proof.
  intros (r & Hs)%NUMBER_scan. split; [|done]. unfold numeral_length. rewrite Hs.
  apply scan_numeral_consumed in Hs as ((pre & Hraw & Hlen) & Ha & H1). rewrite Hraw.
  unfold d_digits, py_len. cbn [numeral_decimal d_coef]. rewrite !length_app in *.
  pose proof (digits_value_bound _ Ha) as Hb.
  pose proof (N_dec_length _ (length (nu_int n ++ nu_frac n)) Hb). rewrite length_app in *. lia.
Qed.

(** The text of a value denotes the printed number in its scale. *)
Lemma read_value_exact raw unit s canonical multiplier state :
  read_value raw unit = (Some s, canonical, multiplier, state) →
  ∃ n u d, NUMBER raw = Some (n, u) ∧ d_parse s = Some (Finite d)
           ∧ (d_value d == numeral_value n
                * (if multiplier =s? "1000" then inject_Z 1000 else 1))%Q.
Proof.
  unfold read_value. destruct (_ && _); [done|].
  destruct (scaled_unit _) as [mult canon]. destruct (str_in _ _); [done|].
  destruct (NUMBER raw) as [[n u]|] eqn:Hn; [|done]. intros [= <- _ <- _].
  pose proof (numeral_digits _ _ _ Hn) as [Hd He].
  set (scale := if mult =s? "1000" then 1000%Z else 1%Z).
  exists n, u, (d_mul (numeral_length raw + 4) (numeral_decimal n) (d_of_Z scale)).
  assert (Hs : (d_digits (d_of_Z scale) <= 4)%Z).
  { unfold scale. destruct (mult =s? "1000"); vm_compute; congruence. }
  split; [done|]. split.
  - apply d_format_parse. unfold d_mul. rewrite d_round_exact.
    + cbn [d_exp]. rewrite He. cbn. unfold py_len. lia.
    + pose proof (N_dec_length_mul (d_coef (numeral_decimal n)) (d_coef (d_of_Z scale))).
      unfold d_digits, py_len in *. lia.
  - rewrite d_mul_exact by lia. apply Qmult_comp; [reflexivity|].
    unfold scale. destruct (mult =s? "1000"); reflexivity.
Qed.

(* ------------------------------------------------------------------ *)
(** ** Blanks *)
(* ------------------------------------------------------------------ *)

Lemma lstrip_suffix s : ∃ p, s = p ++ lstrip s.
Proof.
  induction s as [|c s [p Hp]]; cbn; [by exists []|]. destruct (is_space c); [|by exists []].
  exists (c :: p). by rewrite Hp at 1.
Qed.

Lemma lstrip_idem s : lstrip (lstrip s) = lstrip s.
Proof. induction s as [|c s IH]; cbn; [done|]. destruct (is_space c) eqn:E; [done|]. cbn. by rewrite E. Qed.

Lemma rstrip_idem s : rstrip (rstrip s) = rstrip s.
Proof. unfold rstrip. by rewrite rev_involutive, lstrip_idem. Qed.

Lemma rstrip_suffix s p t : rstrip s = s → s = p ++ t → rstrip t = t.
Proof.
  unfold rstrip. intros Hs ->. destruct (rev t) as [|c r] eqn:Et.
  { apply (f_equal (@rev N)) in Et. rewrite rev_involutive in Et. by subst. }
  apply (f_equal (@rev N)) in Hs. rewrite rev_involutive, rev_app_distr, Et in Hs.
  cbn [app lstrip] in *. destruct (is_space c) eqn:Ec.
  - exfalso. apply (f_equal length) in Hs. cbn in Hs.
    destruct (lstrip_suffix (r ++ rev p)) as [q Hq]. apply (f_equal length) in Hq.
    rewrite (length_app q) in Hq. lia.
  - by rewrite <- Et, rev_involutive.
Qed.

Lemma printed_unit_stripped raw n u : NUMBER raw = Some (n, u) → u = printed_unit raw.
Proof.
  intros Hn. unfold printed_unit. rewrite Hn. destruct u as [u|]; [|done]. f_equal.
  unfold NUMBER in Hn. destruct (scan_numeral (strip raw)) as [[n' r]|] eqn:Hs; [|done].
  apply scan_numeral_consumed in Hs as ((pre & Hraw & _) & _).
  cbn in Hn. destruct r as [|c r]; [done|]. destruct (_ && _); [|done].
  assert (Hu : u = lstrip (c :: r)) by (symmetry; by injection Hn). clear Hn. rewrite Hu. unfold strip.
  rewrite lstrip_idem.
  destruct (lstrip_suffix (c :: r)) as [q Hq]. symmetry.
  apply (rstrip_suffix (strip raw) (pre ++ q)); [apply rstrip_idem|].
  rewrite Hraw. rewrite Hq at 1. by rewrite <- (assoc_L (++)).
Qed.

(* ------------------------------------------------------------------ *)
(** ** Admitted graphs *)
(* ------------------------------------------------------------------ *)

Section admitted.
Context (g : CanonicalDocumentGraph) (tenant : pystr) (Hvalid : validate g tenant = Ok tt).
#[local] Set Default Proof Using "All".

Lemma admitted_facts :
  NoDup (kb_source_id <$> gr_blocks g)
  ∧ Forall (λ b, validate_block g b = Ok tt) (gr_blocks g).
Proof.
  pose proof Hvalid as H. unfold validate in H. open_run H.
  repeat match goal with H : require _ _ = Ok _ |- _ => apply require_Ok in H end.
  split; [by apply str_distinct_iff|].
  apply Forall_forall. by eapply each_Ok.
Qed.

Lemma same_id x y : x ∈ gr_blocks g → y ∈ gr_blocks g → kb_source_id x = kb_source_id y → x = y.
Proof. intros. by eapply NoDup_fmap_unique; [apply admitted_facts|..]. Qed.

Lemma block_by_id_self b : b ∈ gr_blocks g → block_by_id g (kb_source_id b) = Some b.
Proof.
  intros Hb. destruct (block_by_id g (kb_source_id b)) as [b'|] eqn:E.
  - apply block_by_id_elem in E as [Hin Hid]. f_equal. by apply same_id.
  - unfold block_by_id in E. eapply find_none in E; [|apply in_rev; rewrite rev_involutive; by apply list_elem_of_In].
    by rewrite str_eqb_refl in E.
Qed.

Lemma admitted_block b : b ∈ gr_blocks g → validate_block g b = Ok tt.
Proof. intros Hb. destruct admitted_facts as [_ H]. rewrite Forall_forall in H. by apply H. Qed.

(** The text of a block with a winner is that of one of its candidates. *)
Lemma winner_text b : b ∈ gr_blocks g → is_Some (kb_winner b) →
  ∃ c, c ∈ kb_candidates b ∧ text_of b = raw_text (cb_source c).
Proof.
  intros Hb%admitted_block [w Hw]. unfold validate_block in Hb. rewrite Hw in Hb. open_run Hb.
  repeat match goal with H : require _ _ = Ok _ |- _ => apply require_Ok in H end.
  match goal with H : (0 <=? w)%Z && _ = true |- _ => apply andb_true_iff in H as [H0 H1] end.
  str_prop. unfold text_of, block_raw_text, winner_of. rewrite Hw.
  destruct (Z.ltb_spec w 0) as [|_]; [lia|].
  destruct (kb_candidates b !! Z.to_nat w) as [c|] eqn:Hc.
  - destruct (Z.ltb_spec w 0) as [|_]; [lia|]. cbn. exists c. split; [by eapply list_elem_of_lookup_2|done].
  - apply lookup_ge_None in Hc. unfold py_len in *. lia.
Qed.

Lemma has_candidate b : b ∈ gr_blocks g → ∃ c, c ∈ kb_candidates b.
Proof.
  intros Hb%admitted_block. unfold validate_block in Hb. open_run Hb.
  repeat match goal with H : require _ _ = Ok _ |- _ => apply require_Ok in H end.
  destruct (kb_candidates b) as [|c l]; [done|]. exists c. left.
Qed.
End admitted.

(* ------------------------------------------------------------------ *)
(** ** Equality of blocks is reflexive on admitted graphs *)
(* ------------------------------------------------------------------ *)

Lemma SFeqb_refl_r a b : SFeqb a b = true → SFeqb b b = true.
Proof.
  unfold SFeqb. destruct b as [[]|[]| |[] m e]; cbn; try done.
  - destruct a as [[]|[]| |[] ? ?]; done.
  - rewrite Z.compare_refl, Pos.compare_cont_refl. done.
  - rewrite Z.compare_refl, Pos.compare_cont_refl. done.
Qed.

Lemma bbox_eqb_refl_r a b : bbox_eqb a b = true → bbox_eqb b b = true.
Proof.
  destruct a as [a|], b as [b|]; cbn; try done. rewrite !andb_true_iff.
  intros [[[? ?] ?] ?]. split_and!; by eapply SFeqb_refl_r.
Qed.

Lemma candidate_eqb_refl_r a b : candidate_eqb a b = true → candidate_eqb b b = true.
Proof.
  unfold candidate_eqb, source_eqb, geometry_eqb. rewrite !andb_true_iff. intros H. destruct_and! H.
  assert (Haff : affine_eqb (cb_to_canonical b) (cb_to_canonical b) = true).
  { match goal with H : affine_eqb _ _ = true |- _ => revert H end.
    destruct (cb_to_canonical a), (cb_to_canonical b); cbn; try done. rewrite !andb_true_iff.
    intros [[[[[? ?] ?] ?] ?] ?]. split_and!; by eapply SFeqb_refl_r. }
  split_and!; try apply str_eqb_refl; try apply Z.eqb_refl; try (by apply bool_decide_eq_true); try done;
    first [by eapply bbox_eqb_refl_r | by eapply SFeqb_refl_r].
Qed.

Lemma block_eqb_refl g tenant b : validate g tenant = Ok tt → b ∈ gr_blocks g → block_eqb b b = true.
Proof.
  intros Hv Hb. pose proof (admitted_block g tenant Hv b Hb) as H. unfold validate_block in H.
  open_run H. apply require_Ok in H. rewrite forallb_forall in H.
  unfold block_eqb. rewrite !str_eqb_refl, !bool_decide_true by done. cbn. rewrite !andb_true_r.
  assert (Hc : ∀ c, c ∈ kb_candidates b → candidate_eqb c c = true).
  { intros c Hc%list_elem_of_In. specialize (H c Hc). destruct (original_of _ _ _) as [o|]; [|done].
    by eapply candidate_eqb_refl_r. }
  clear -Hc. induction (kb_candidates b) as [|c l IH]; [done|]. cbn. rewrite Hc by left. cbn.
  apply IH. intros d Hd. apply Hc. by right.
Qed.

(* ------------------------------------------------------------------ *)
(** ** Used blocks and their references *)
(* ------------------------------------------------------------------ *)

Lemma find_id_some l id b : find (λ b, kb_source_id b =s? id) (rev l) = Some b →
  b ∈ l ∧ kb_source_id b = id.
Proof.
  intros Hf. apply find_some in Hf as [Hin%in_rev Hid%str_eqb_eq].
  by split; [apply list_elem_of_In|].
Qed.

Lemma blocks_by_id_subset l b : b ∈ blocks_by_id l → b ∈ l.
Proof.
  unfold blocks_by_id. intros (id & _ & Hf)%list_elem_of_omap. by apply find_id_some in Hf as [? _].
Qed.

Lemma elem_of_blocks_by_id l b :
  (∀ x y, x ∈ l → y ∈ l → kb_source_id x = kb_source_id y → x = y) → b ∈ l → b ∈ blocks_by_id l.
Proof.
  intros Hu Hb. unfold blocks_by_id. apply list_elem_of_omap. exists (kb_source_id b). split.
  - apply elem_of_str_set_sorted, list_elem_of_fmap. eauto.
  - destruct (find _ (rev l)) as [b'|] eqn:E.
    + apply find_id_some in E as [Hin Hid]. f_equal. by apply Hu.
    + eapply find_none in E; [|apply in_rev; rewrite rev_involutive; by apply list_elem_of_In].
      by rewrite str_eqb_refl in E.
Qed.

(** A parser's text fills its source. *)
Definition whole (c : CandidateBlock) : Prop :=
  ns_char_start (cb_source c) = 0%Z ∧ ns_char_end (cb_source c) = py_len (raw_text (cb_source c)).

Lemma slice_whole s : slice s 0 (py_len s) = s.
Proof. unfold slice, py_len. rewrite Nat2Z.id. cbn. rewrite Nat.sub_0_r. apply firstn_all. Qed.

Section refs.
Context `{Digest} (nfc : pystr → pystr).

Lemma block_refs_Ok blocks refs b c : block_refs nfc blocks = Ok refs →
  b ∈ blocks → c ∈ kb_candidates b → has_invalid_geometry c = false → whole c →
  ∃ r, r ∈ refs ∧ source_id r = kb_source_id b ∧ quote r = raw_text (cb_source c).
Proof.
  unfold block_refs. intros Hr%map_result_Ok Hb Hc Hg [Hs He].
  assert (Hin : (kb_source_id b, c) ∈ blocks ≫= λ b, pair (kb_source_id b)
                  <$> List.filter (λ c, negb (has_invalid_geometry c)) (kb_candidates b)).
  { apply list_elem_of_bind. exists b. split; [|done]. apply list_elem_of_fmap. exists c.
    split; [done|]. apply elem_of_lfilter. by rewrite Hg. }
  apply list_elem_of_lookup in Hin as [i Hi].
  destruct (Forall2_lookup_l _ _ _ _ _ Hr Hi) as (r & Hri & Hcan).
  exists r. split; [by eapply list_elem_of_lookup_2|].
  unfold canonicalize_source_ref in Hcan. cbn [raw_span fst snd] in Hcan.
  apply bind_Ok_inv in Hcan as ([cs ce] & [= <- <-] & Hcan). open_run Hcan.
  apply mk_SourceRef_args in Hcan as ([Hid _] & _ & [_ Hq] & _).
  injection Hid as Hid. injection Hq as Hq. split; [done|].
  by rewrite <- Hq, Hs, He, slice_whole.
Qed.
End refs.

Lemma column_note_targets_mono g t A B x : (∀ y, y ∈ A → y ∈ B) →
  x ∈ column_note_targets g t A → x ∈ column_note_targets g t B.
Proof.
  intros Hsub. unfold column_note_targets. destruct (placed_cells g t) as [|p r]; [done|]. cbv zeta.
  intros (c & -> & [Hc Ht]%elem_of_lfilter)%list_elem_of_fmap. apply list_elem_of_fmap.
  exists c. split; [done|]. apply elem_of_lfilter. split; [done|].
  apply andb_true_iff in Ht as [Hrow Hk]. rewrite Hrow, andb_true_l.
  apply existsb_exists in Hk as (k & [Hk Ha]%list_elem_of_In%elem_of_lfilter & Hov).
  apply existsb_exists. exists k. split; [|done]. apply list_elem_of_In, elem_of_lfilter.
  split; [done|]. apply str_in_iff, Hsub. by apply str_in_iff.
Qed.

Lemma notes_of_mono g A B x : (∀ y, y ∈ A → y ∈ B) → x ∈ notes_of g A → x ∈ notes_of g B.
Proof.
  intros Hsub. unfold notes_of. intros (e & -> & [He Ht]%elem_of_lfilter)%list_elem_of_fmap.
  apply list_elem_of_fmap. exists e. split; [done|]. apply elem_of_lfilter. split; [done|].
  apply andb_true_iff in Ht as [Hr Ha]. rewrite Hr. by apply str_in_iff, Hsub, str_in_iff.
Qed.

(* ------------------------------------------------------------------ *)
(** ** A settled value *)
(* ------------------------------------------------------------------ *)

Lemma noted_settled own literals res : noted own literals = (res, false) →
  res = own ∨ (own = None ∧ ∃ u, res = Some u ∧ Some u ∈ literals).
Proof.
  unfold noted. cbv zeta. intros H.
  assert (Hfst : match own, str_dedup (omap id literals) with None, [u] => Some u | _, _ => own end = res)
    by congruence. clear H.
  destruct own as [u|]; [by left|]. destruct (str_dedup (omap id literals)) as [|u [|]] eqn:E; try (by left).
  right. split; [done|]. exists u. split; [done|].
  assert (Hu : u ∈ str_dedup (omap id literals)) by (rewrite E; left).
  apply elem_of_str_dedup, list_elem_of_omap in Hu as (o & Ho & Hid). unfold id in Hid. by subst.
Qed.

Lemma unit_note_literal_nonempty t u : unit_note_literal t = Some u → nonempty u = true.
Proof.
  unfold unit_note_literal. cbv zeta. intros H.
  destruct (if starts_with "단위" (strip t) then _ else _) as [r|]; [|done]. cbn [mbind option_bind] in H.
  destruct (eat 58 (lstrip r)) as [r'|]; [|done]. cbn [mbind option_bind] in H.
  destruct (lstrip r') as [|c l]; [vm_compute in H; discriminate|].
  destruct (str_in _ _); [by injection H as <-|discriminate].
Qed.

Lemma role_text_spec bs role u : role_text bs role = Some u →
  nonempty u = true ∧ ∃ b, (role, b) ∈ bs ∧ u = strip (text_of b).
Proof.
  unfold role_text. destruct (dict_get role bs) as [b|] eqn:Hb; [|done]. cbn.
  destruct (nonempty (strip (text_of b))) eqn:Hn; [|done]. intros [= <-]. split; [done|].
  exists b. split; [|done]. revert Hb. clear. induction bs as [|[k c] bs IH]; cbn; [done|].
  destruct (str_eqb_spec role k) as [->|]; [intros [= ->]; left|]. intros H. right. by apply IH.
Qed.

Lemma read_value_settled raw unit parsed canonical multiplier :
  (∀ u, unit = Some u → nonempty u = true) →
  read_value raw unit = (parsed, canonical, multiplier, "value" : pystr) →
  is_Some parsed
  ∧ scaled_unit (match unit with None => printed_unit raw | _ => unit end) = (multiplier, canonical).
Proof.
  intros Hne. unfold read_value. destruct (_ && _ && negb _) eqn:Hconf; [done|].
  assert (Hsame : match printed_unit raw with Some u => Some u | None => unit end
                  = match unit with None => printed_unit raw | _ => unit end).
  { destruct (printed_unit raw) as [p|], unit as [u|]; try done.
    rewrite (Hne u eq_refl) in Hconf. rewrite bool_decide_true in Hconf by done.
    cbn in Hconf. apply negb_false_iff, bool_decide_eq_true in Hconf. by symmetry. }
  cbv zeta. rewrite Hsame. destruct (scaled_unit _) as [m c].
  destruct (str_in _ _); [done|]. destruct (NUMBER raw) as [[num u]|]; [|done].
  intros [= <- <- <-]. done.
Qed.

Lemma resolve_state_value blocks conflict unresolved parsed state parsed' quality :
  resolve_state blocks conflict unresolved parsed state = ("value" : pystr, parsed', quality) →
  conflict = false ∧ unresolved = false ∧ parsed' = parsed ∧ state = "value"
  ∧ ∀ b, b ∈ blocks → is_Some (kb_winner b) ∧ ∀ c, c ∈ kb_candidates b → has_invalid_geometry c = false.
Proof.
  unfold resolve_state. destruct (conflict || _) eqn:H1; [done|].
  destruct (existsb (λ b, str_in (kb_quality b) ["unreadable"; "unlocated"]
                          || existsb has_invalid_geometry (kb_candidates b)) blocks) eqn:H2; [done|].
  destruct (unresolved || _) eqn:H3; [done|]. intros H.
  apply orb_false_iff in H1 as [Hc Hw], H3 as [Hu _]. injection H as -> -> _.
  split_and!; try done. intros b Hb%list_elem_of_In. split.
  - destruct (kb_winner b) eqn:E; [done|]. exfalso. apply not_true_iff_false in Hw. apply Hw.
    apply existsb_exists. exists b. rewrite E. split; [done|]. apply orb_true_iff. by right.
  - intros c Hcin%list_elem_of_In. apply not_true_iff_false. intros Hg.
    apply not_true_iff_false in H2. apply H2. apply existsb_exists. exists b. split; [done|].
    apply orb_true_iff. right. apply existsb_exists. eauto.
Qed.

Lemma scope_literals_elem notes u : Some u ∈ (scope_literals notes).*2 →
  ∃ b, b ∈ notes ∧ scope_note_literal (text_of b) = Some u ∧ (kb_source_id b, Some u) ∈ scope_literals notes.
Proof.
  unfold scope_literals.
  intros ([i o] & Ho & (b & Hb & [Hin Hs]%elem_of_lfilter)%list_elem_of_fmap)%list_elem_of_fmap.
  cbn in Ho. subst o. injection Hb as -> Hb. exists b. split_and!; try done.
  apply list_elem_of_fmap. exists b. rewrite Hb. split; [done|]. by apply elem_of_lfilter.
Qed.

Lemma unit_literals_elem notes u : Some u ∈ unit_literals notes →
  ∃ b, b ∈ notes ∧ unit_note_literal (text_of b) = Some u.
Proof.
  unfold unit_literals. intros (b & Hb & [Hin _]%elem_of_lfilter)%list_elem_of_fmap. eauto.
Qed.

(* ------------------------------------------------------------------ *)
(** ** Attested observations *)
(* ------------------------------------------------------------------ *)

Definition attest_ref (r : SourceRef) : SourceRef :=
  {| source_id := source_id r; document_version_id := document_version_id r;
     parse_manifest_id := parse_manifest_id r; page_num := page_num r;
     printed_page_label := printed_page_label r; ref_bbox := ref_bbox r;
     raw_text_sha256 := raw_text_sha256 r; quote := quote r; char_start := char_start r;
     char_end := char_end r; location_quality := location_quality r;
     verification_state := Verified |}.

(** The observation with its references and itself declared verified. *)
Definition attest (o : NumericObservation) : NumericObservation :=
  {| ob_id := ob_id o; ob_table_id := ob_table_id o; ob_row := ob_row o; ob_column := ob_column o;
     ob_tenant_id := ob_tenant_id o; ob_document_version_id := ob_document_version_id o;
     ob_parse_manifest_id := ob_parse_manifest_id o; ob_source_sha256 := ob_source_sha256 o;
     ob_metric_raw := ob_metric_raw o; ob_scope := ob_scope o; ob_subject := ob_subject o;
     ob_reporting_period := ob_reporting_period o; ob_scope2_basis := ob_scope2_basis o;
     ob_organizational_boundary := ob_organizational_boundary o; ob_unit_raw := ob_unit_raw o;
     ob_unit_canonical := ob_unit_canonical o; ob_scale_multiplier := ob_scale_multiplier o;
     ob_denominator := ob_denominator o; ob_value_raw := ob_value_raw o;
     ob_value_decimal := ob_value_decimal o; ob_value_state := ob_value_state o;
     ob_quality := "verified"; ob_source_refs := attest_ref <$> ob_source_refs o;
     ob_source_blocks := ob_source_blocks o; ob_parent_relations := ob_parent_relations o |}.

Lemma elem_of_cell_relations cell bs notes scope s t name :
  (s, t, name) ∈ cell_relations cell bs notes scope ↔
  s = kb_source_id cell
  ∧ ((∃ b, (name, b) ∈ bs ∧ t = kb_source_id b)
     ∨ (name = "scope" ∧ is_Some scope ∧ (t, scope) ∈ notes)).
Proof.
  unfold cell_relations. rewrite elem_of_isort, elem_of_remove_dups, elem_of_app, !list_elem_of_fmap.
  split.
  - intros [([n b] & [= -> -> ->] & Hb)|([i o] & [= -> -> ->] & [Hn Ho]%elem_of_lfilter)].
    + eauto.
    + apply andb_true_iff in Ho as [Hs%bool_decide_eq_true Ho%bool_decide_eq_true]. cbn in *. subst o.
      eauto.
  - intros [-> [(b & Hb & ->)|(-> & Hs & Hn)]]; [left; by exists (name, b)|right].
    exists (t, scope). split; [done|]. apply elem_of_lfilter. cbn.
    by rewrite !bool_decide_true.
Qed.

(** The attested references on a block whose text one of them quotes. *)
Lemma quoted_on o id text (r : SourceRef) (p : pystr → bool) :
  r ∈ ob_source_refs o → source_id r = id → quote r = text → p text = true →
  nonempty_list (refs_on (attest o) id) = true
  ∧ existsb (λ r, p (quote r)) (refs_on (attest o) id) = true.
Proof.
  intros Hr Hid Hq Hp. assert (Hin : attest_ref r ∈ refs_on (attest o) id).
  { unfold refs_on. apply elem_of_lfilter. split.
    - cbn. apply list_elem_of_fmap. eauto.
    - cbn. by rewrite Hid, str_eqb_refl. }
  split; [destruct (refs_on _ _); [by apply elem_of_nil in Hin|done]|].
  apply existsb_exists. exists (attest_ref r). split; [by apply list_elem_of_In|]. cbn. by rewrite Hq.
Qed.

(** A field whose role is bound to a quoted cell is sourced. *)
Lemma role_sourced o cell bs notes scope note_ids scope_notes name b (r : SourceRef) :
  ob_parent_relations o = cell_relations cell bs notes scope →
  (name, b) ∈ bs → r ∈ ob_source_refs o → source_id r = kb_source_id b → quote r = text_of b →
  kb_source_id b ∉ note_ids →
  field_sourced (attest o) note_ids scope_notes (name, Some (strip (text_of b))) = true.
Proof.
  intros Hrel Hb Hr Hid Hq Hnote. unfold field_sourced. cbn [snd fst].
  apply existsb_exists. exists (kb_source_id cell, kb_source_id b, name). split.
  - apply list_elem_of_In. cbn. rewrite Hrel. apply elem_of_cell_relations. eauto.
  - destruct (quoted_on o _ _ r (λ t, strip t =s? strip (text_of b)) Hr Hid Hq (str_eqb_refl _)) as [H1 H2].
    apply str_in_false in Hnote. by rewrite str_eqb_refl, H1, Hnote, andb_false_r, H2.
Qed.

(** A scope read from a note is sourced by the note. *)
Lemma scope_sourced o cell bs notes u note_ids scope_notes id text (r : SourceRef) :
  ob_parent_relations o = cell_relations cell bs notes (Some u) → (id, Some u) ∈ notes →
  r ∈ ob_source_refs o → source_id r = id → quote r = text →
  scope_note_literal text = Some u → id ∈ note_ids → id ∈ scope_notes →
  field_sourced (attest o) note_ids scope_notes ("scope", Some u) = true.
Proof.
  intros Hrel Hn Hr Hid Hq Hlit Hnote Hscope. unfold field_sourced. cbn [snd fst].
  apply existsb_exists. exists (kb_source_id cell, id, "scope" : pystr). split.
  - apply list_elem_of_In. cbn. rewrite Hrel. apply elem_of_cell_relations. eauto 10.
  - destruct (quoted_on o _ _ r (λ t, bool_decide (scope_note_literal t = Some u)) Hr Hid Hq) as [H1 H2].
    { by apply bool_decide_eq_true. }
    apply str_in_iff in Hnote, Hscope. by rewrite !str_eqb_refl, H1, Hnote, Hscope, H2.
Qed.

(** Only footnotes are tied to a cell as its notes. *)
Definition notes_are_footnotes (g : CanonicalDocumentGraph) : Prop :=
  ∀ e b, e ∈ gr_edges g → ed_relation e = "footnote_of" → b ∈ gr_blocks g →
    kb_source_id b = ed_source e → kb_kind b = "footnote".

Section displayed.
Context `{Digest} (nfc : pystr → pystr) (uuid5 : pystr → pystr → pystr).
Context (g : CanonicalDocumentGraph) (tenant : pystr) (Hvalid : validate g tenant = Ok tt)
  (Hwhole : ∀ b c, b ∈ gr_blocks g → c ∈ kb_candidates b → whole c) (Hfoot : notes_are_footnotes g).
#[local] Set Default Proof Using "Hvalid Hwhole Hfoot".

Lemma footnote_id b : b ∈ gr_blocks g →
  kb_source_id b ∈ ids_of_kind g ["footnote"] ↔ kb_kind b = "footnote".
Proof.
  intros Hb. unfold ids_of_kind. rewrite list_elem_of_fmap. setoid_rewrite elem_of_lfilter.
  unfold kind_in. setoid_rewrite str_in_iff. setoid_rewrite list_elem_of_singleton. split.
  - intros (b' & Hid & Hb' & Hk). by rewrite (same_id g tenant Hvalid b b').
  - eauto.
Qed.

Lemma observation_notes_spec table cell bs b :
  let T := kb_source_id table :: kb_source_id cell :: (kb_source_id <$> bs.*2) in
  b ∈ observation_notes g table cell bs ↔
  b ∈ gr_blocks g ∧ kb_source_id b ∈ notes_of g (T ++ column_note_targets g (kb_source_id table) T).
Proof. unfold observation_notes. cbv zeta. by rewrite elem_of_isort, elem_of_lfilter, str_in_iff. Qed.

Lemma note_is_footnote table cell bs b : b ∈ observation_notes g table cell bs →
  kb_kind b = "footnote".
Proof.
  intros [Hb Hn]%observation_notes_spec. unfold notes_of in Hn.
  apply list_elem_of_fmap in Hn as (e & Hid & [He [Hr%str_eqb_eq _]%andb_true_iff]%elem_of_lfilter).
  by eapply Hfoot.
Qed.

(** The check finds every target of the normaliser's notes. *)
Lemma targets_reached o table cell bs notes scope role b0 x :
  ob_parent_relations o = cell_relations cell bs notes scope → (role, b0) ∈ bs →
  ob_table_id o = kb_source_id table → rtc (table_parent g) (kb_source_id cell) (kb_source_id table) →
  (∀ b, b ∈ bs.*2 → b ∈ gr_blocks g ∧ kb_kind b ≠ "footnote") →
  let T := kb_source_id table :: kb_source_id cell :: (kb_source_id <$> bs.*2) in
  x ∈ T ++ column_note_targets g (kb_source_id table) T → x ∈ note_targets (attest o) g.
Proof.
  intros Hrel Hb0 Htable Hreach Hbs T Hx. unfold note_targets. cbn [attest ob_parent_relations ob_table_id].
  cbv zeta. rewrite Hrel, Htable. set (rel := cell_relations cell bs notes scope).
  set (W := walk _ _ _).
  assert (Hroot : kb_source_id cell ∈ rel.*1.*1).
  { apply list_elem_of_fmap. exists (kb_source_id cell, kb_source_id b0). split; [done|].
    apply list_elem_of_fmap. exists (kb_source_id cell, kb_source_id b0, role). split; [done|].
    apply elem_of_cell_relations. eauto. }
  assert (HW : ∀ y, rtc (table_parent g) (kb_source_id cell) y → y ∈ W).
  { intros y Hy. apply ancestors_walk. exists (kb_source_id cell). by rewrite elem_of_str_dedup. }
  assert (str_in (kb_source_id table) W = true) as -> by (by apply str_in_iff, HW). cbn [negb].
  set (V := W ++ _).
  assert (HT : ∀ y, y ∈ T → y ∈ V).
  { unfold T, V. intros y [->|[->|Hy]%elem_of_cons]%elem_of_cons; apply elem_of_app.
    - left. by apply HW.
    - left. by apply HW, rtc_refl.
    - right. apply list_elem_of_fmap in Hy as (b & -> & Hb). apply elem_of_lfilter.
      pose proof Hb as Hb'. apply list_elem_of_fmap in Hb' as ([name b'] & -> & Hname). cbn in *. split.
      + apply list_elem_of_fmap. exists (kb_source_id cell, kb_source_id b'). split; [done|].
        apply list_elem_of_fmap. exists (kb_source_id cell, kb_source_id b', name). split; [done|].
        apply elem_of_cell_relations. eauto.
      + apply negb_true_iff, str_in_false. destruct (Hbs _ Hb) as [Hin Hk].
        by rewrite (footnote_id _ Hin). }
  apply elem_of_app. apply elem_of_app in Hx as [Hx|Hx]; [left; by apply HT|right].
  by eapply column_note_targets_mono.
Qed.

(** What an observation with a value was made from. *)
Record settled (table : CanonicalBlock) (cell : CanonicalBlock) (bs : bindings)
    (blocks : list CanonicalBlock) (unit scope : option pystr) (o : NumericObservation) : Prop := {
  se_identity : observation_identity o = graph_identity g;
  se_table : ob_table_id o = kb_source_id table;
  se_raw : ob_value_raw o = text_of cell;
  se_fields : Some (ob_metric_raw o) = role_text bs "metric_raw"
    ∧ Some (ob_reporting_period o) = role_text bs "reporting_period"
    ∧ ob_subject o = role_text bs "subject" ∧ ob_scope2_basis o = role_text bs "scope2_basis"
    ∧ ob_organizational_boundary o = role_text bs "organizational_boundary"
    ∧ ob_denominator o = role_text bs "denominator" ∧ ob_scope o = scope;
  se_unit : noted (role_text bs "unit_raw") (unit_literals (observation_notes g table cell bs)) = (unit, false);
  se_scope : noted (role_text bs "scope")
               (scope_literals (observation_notes g table cell bs)).*2 = (scope, false);
  se_unit_raw : ob_unit_raw o = match unit with None => printed_unit (text_of cell) | _ => unit end;
  se_value : read_value (text_of cell) unit
             = (ob_value_decimal o, ob_unit_canonical o, ob_scale_multiplier o, "value" : pystr);
  se_blocks : ∀ b, b ∈ blocks → is_Some (kb_winner b)
                 ∧ ∀ c, c ∈ kb_candidates b → has_invalid_geometry c = false;
  se_source : ob_source_blocks o = blocks ∧ block_refs nfc blocks = Ok (ob_source_refs o);
  se_relations : ob_parent_relations o
                 = cell_relations cell bs (scope_literals (observation_notes g table cell bs)) scope }.

Lemma observe_settled table row col cell bs headers n :
  observe nfc uuid5 g table row col cell bs headers = Ok n →
  ob_value_state (no_core n) = "value" →
  ∃ unit scope, settled table cell bs
    (blocks_by_id (cell :: bs.*2 ++ headers ++ observation_notes g table cell bs)) unit scope (no_core n).
Proof using Type.
  unfold observe. cbv zeta.
  destruct (noted (role_text bs "unit_raw") _) as [unit uc] eqn:Hunit.
  destruct (noted (role_text bs "scope") _) as [scope sc] eqn:Hscope.
  destruct (read_value _ _) as [[[parsed canonical] mult] st] eqn:Hrv.
  destruct (resolve_state _ _ _ _ _) as [[st' parsed'] quality] eqn:Hres.
  intros (refs & Hrefs & (sig & _ & Hn)%bind_Ok_inv)%bind_Ok_inv Hstate. injection Hn as <-.
  cbn in Hstate. subst st'. apply resolve_state_value in Hres as (Hconf & Hunres & -> & -> & Hblocks).
  apply orb_false_iff in Hconf as [-> ->]. rewrite !orb_false_iff in Hunres.
  destruct Hunres as [[_ Hm%bool_decide_eq_false] Hp%bool_decide_eq_false].
  exists unit, scope. split; cbn; try done. split_and!; try done.
  - by destruct (role_text bs "metric_raw").
  - by destruct (role_text bs "reporting_period").
Qed.

(** Every used block is quoted whole. *)
Lemma settled_quoted table cell bs headers unit scope o b :
  let blocks := blocks_by_id (cell :: bs.*2 ++ headers ++ observation_notes g table cell bs) in
  settled table cell bs blocks unit scope o →
  (∀ b, b ∈ cell :: bs.*2 ++ headers → b ∈ gr_blocks g) →
  b ∈ cell :: bs.*2 ++ headers ++ observation_notes g table cell bs →
  b ∈ blocks ∧ b ∈ gr_blocks g
  ∧ ∃ r, r ∈ ob_source_refs o ∧ source_id r = kb_source_id b ∧ quote r = text_of b.
Proof.
  intros blocks Hs Hin Hb.
  assert (Hg : ∀ b, b ∈ cell :: bs.*2 ++ headers ++ observation_notes g table cell bs → b ∈ gr_blocks g).
  { intros b' Hb'. apply elem_of_cons in Hb' as [->|Hb']; [apply Hin; left|].
    rewrite !elem_of_app in Hb'. destruct Hb' as [Hb'|[Hb'|Hb'%observation_notes_spec]]; [..|apply Hb'];
      apply Hin; right; apply elem_of_app; auto. }
  assert (Hblock : b ∈ blocks).
  { apply elem_of_blocks_by_id; [|done]. intros x y Hx%Hg Hy%Hg. by apply (same_id g tenant). }
  split; [done|]. split; [by apply Hg|].
  destruct (se_blocks _ _ _ _ _ _ _ Hs b Hblock) as [Hw Hgeo].
  destruct (winner_text g tenant Hvalid b (Hg _ Hb) Hw) as (c & Hc & ->).
  eapply block_refs_Ok; [apply Hs|done|done|by apply Hgeo|]. eapply Hwhole; [|exact Hc]. by apply Hg.
Qed.

(** The unit of a settled value is bound. *)
Lemma settled_unit table cell bs headers unit scope o :
  let blocks := blocks_by_id (cell :: bs.*2 ++ headers ++ observation_notes g table cell bs) in
  settled table cell bs blocks unit scope o →
  (∀ b, b ∈ cell :: bs.*2 ++ headers → b ∈ gr_blocks g) →
  unit_bound (attest o) = true ∧ (∀ u, unit = Some u → nonempty u = true).
Proof.
  intros blocks Hs Hin. pose proof (se_unit_raw _ _ _ _ _ _ _ Hs) as Hraw.
  assert (Hprinted : ∀ v, unit = Some v →
    (existsb (λ '(_, target, name), (name =s? "unit_raw")
        && existsb (λ r, strip (quote r) =s? v) (refs_on (attest o) target)) (ob_parent_relations o)
     || existsb (λ r, bool_decide (unit_note_literal (quote r) = Some v)) (attest_ref <$> ob_source_refs o)) = true
    ∧ nonempty v = true).
  { intros v ->. destruct (noted_settled _ _ _ (se_unit _ _ _ _ _ _ _ Hs)) as [Hown|(_ & v' & [= <-] & Hnote)].
    - symmetry in Hown. apply role_text_spec in Hown as (Hne & b & Hb & ->). split; [|done].
      apply orb_true_iff. left. apply existsb_exists.
      exists (kb_source_id cell, kb_source_id b, "unit_raw" : pystr). split.
      + apply list_elem_of_In. rewrite (se_relations _ _ _ _ _ _ _ Hs). apply elem_of_cell_relations. eauto.
      + destruct (settled_quoted table cell bs headers _ scope o b Hs Hin) as (_ & _ & r & Hr & Hid & Hq).
        { right. apply elem_of_app. left. apply list_elem_of_fmap. by exists ("unit_raw" : pystr, b). }
        destruct (quoted_on o _ _ r (λ t, strip t =s? strip (text_of b)) Hr Hid Hq (str_eqb_refl _)) as [_ ->].
        done.
    - apply unit_literals_elem in Hnote as (b & Hb & Hlit). split; [|by eapply unit_note_literal_nonempty].
      apply orb_true_iff. right.
      destruct (settled_quoted table cell bs headers _ scope o b Hs Hin) as (_ & _ & r & Hr & Hid & Hq).
      { right. rewrite !elem_of_app. auto. }
      apply existsb_exists. exists (attest_ref r). split.
      + apply list_elem_of_In, list_elem_of_fmap. eauto.
      + cbn. rewrite Hq. by apply bool_decide_eq_true. }
  split; [|intros u Hu; by apply Hprinted]. unfold unit_bound. cbn [attest ob_unit_raw ob_source_refs ob_parent_relations ob_value_raw].
  rewrite Hraw, (se_raw _ _ _ _ _ _ _ Hs). destruct unit as [u|].
  - destruct (Hprinted u eq_refl) as [-> _]. done.
  - apply orb_true_iff. right.
    pose proof (se_value _ _ _ _ _ _ _ Hs) as Hv.
    destruct (ob_value_decimal o) as [d|]; [|by apply read_value_settled in Hv as [[? ?] _]].
    apply read_value_exact in Hv as (num & u & _ & Hnum & _). rewrite Hnum.
    apply bool_decide_eq_true. by eapply printed_unit_stripped.
Qed.

(** Every stated field of a settled value is sourced. *)
Lemma settled_fields table cell bs headers unit scope o :
  let blocks := blocks_by_id (cell :: bs.*2 ++ headers ++ observation_notes g table cell bs) in
  settled table cell bs blocks unit scope o →
  (∀ b, b ∈ cell :: bs.*2 ++ headers → b ∈ gr_blocks g) →
  (∀ b, b ∈ bs.*2 → kb_kind b ≠ "footnote") →
  rtc (table_parent g) (kb_source_id cell) (kb_source_id table) →
  let note_ids := ids_of_kind g ["footnote"] in
  let scope_notes := List.filter (λ n, str_in n note_ids) (notes_of g (note_targets (attest o) g)) in
  forallb (field_sourced (attest o) note_ids scope_notes) (sourced_fields (attest o)) = true.
Proof.
  intros blocks Hs Hin Hkinds Hreach note_ids scope_notes.
  assert (Hbs : ∀ b, b ∈ bs.*2 → b ∈ gr_blocks g ∧ kb_kind b ≠ "footnote").
  { intros b Hb. split; [|by apply Hkinds]. apply Hin. right. apply elem_of_app. by left. }
  assert (Hrole : ∀ name v, v = role_text bs name →
                    field_sourced (attest o) note_ids scope_notes (name, v) = true).
  { intros name [u|] Hv; [|done]. symmetry in Hv. apply role_text_spec in Hv as (_ & b & Hb & ->).
    assert (Hb2 : b ∈ bs.*2) by (apply list_elem_of_fmap; by exists (name, b)).
    destruct (settled_quoted table cell bs headers _ scope o b Hs Hin) as (_ & Hg & r & Hr & Hid & Hq).
    { right. apply elem_of_app. by left. }
    eapply role_sourced; [apply Hs|done..|]. unfold note_ids. rewrite footnote_id by done. by apply Hbs. }
  destruct (se_fields _ _ _ _ _ _ _ Hs) as (Hm & Hp & Hsub & Hbasis & Hbound & Hden & Hsc).
  assert (Hscope : field_sourced (attest o) note_ids scope_notes ("scope" : pystr, scope) = true).
  { destruct (noted_settled _ _ _ (se_scope _ _ _ _ _ _ _ Hs)) as [->|(_ & u & -> & Hu)]; [by apply Hrole|].
    apply scope_literals_elem in Hu as (b & Hb & Hlit & Hel).
    destruct (settled_quoted table cell bs headers _ (Some u) o b Hs Hin) as (_ & Hg & r & Hr & Hid & Hq).
    { right. rewrite !elem_of_app. auto. }
    pose proof (note_is_footnote _ _ _ _ Hb) as Hk. apply observation_notes_spec in Hb as [_ Hb].
    apply (footnote_id _ Hg) in Hk.
    eapply (scope_sourced o cell bs); [apply Hs|done..|]. unfold scope_notes. apply elem_of_lfilter.
    split; [|by apply str_in_iff]. eapply notes_of_mono; [|exact Hb]. intros y Hy.
    symmetry in Hm. destruct (role_text_spec _ _ _ Hm) as (_ & b0 & Hb0 & _).
    eapply targets_reached; [apply Hs|exact Hb0|apply Hs|done|done|done]. }
  unfold sourced_fields, dimension. cbn [attest ob_metric_raw ob_scope ob_subject ob_scope2_basis
    ob_organizational_boundary ob_reporting_period ob_denominator app forallb].
  rewrite Hsc, Hscope. rewrite !Hrole by done. done.
Qed.

(** The printed number in the observation's scale. *)
Lemma settled_display table cell bs blocks unit scope o :
  settled table cell bs blocks unit scope o → (∀ u, unit = Some u → nonempty u = true) →
  scaled_unit (ob_unit_raw o) = (ob_scale_multiplier o, ob_unit_canonical o)
  ∧ ∃ shown, parsed_display (attest o) (ob_scale_multiplier o) = Some shown
      ∧ display (ob_value_raw o)
          (if ob_scale_multiplier o =s? "1000" then inject_Z 1000 else 1%Q) = Some shown.
Proof using Type.
  intros Hs Hne. pose proof (se_value _ _ _ _ _ _ _ Hs) as Hv.
  pose proof (read_value_settled _ _ _ _ _ Hne Hv) as [[d Hd] Hunit].
  rewrite (se_unit_raw _ _ _ _ _ _ _ Hs). split; [done|].
  rewrite Hd in Hv. apply read_value_exact in Hv as (num & u & dec & Hnum & Hparse & Hval).
  unfold parsed_display. cbn [attest ob_value_raw ob_value_decimal]. rewrite (se_raw _ _ _ _ _ _ _ Hs).
  set (scale := if _ =s? _ then _ else _) in *. unfold display. rewrite Hnum. cbn.
  rewrite Hd. unfold decimal_value. cbn. rewrite Hparse. cbn.
  assert (Qeq_bool (numeral_value num * scale) (d_value dec) = true) as ->.
  { apply Qeq_bool_iff. by rewrite Hval. }
  eauto.
Qed.

Lemma observe_displayed table row col cell bs headers n :
  (∀ b, b ∈ cell :: bs.*2 ++ headers → b ∈ gr_blocks g) →
  (∀ b, b ∈ bs.*2 → kb_kind b ≠ "footnote") →
  observe nfc uuid5 g table row col cell bs headers = Ok n → ob_value_state (no_core n) = "value" →
  rtc (table_parent g) (kb_source_id cell) (kb_source_id table) →
  Forall (λ r, verified (Some r) g = Ok true) (ob_source_refs (attest (no_core n))) →
  ∃ shown, display (ob_value_raw (no_core n))
             (if ob_scale_multiplier (no_core n) =s? "1000" then inject_Z 1000 else 1%Q) = Some shown
           ∧ observation_display (attest (no_core n)) g = Ok (Some shown).
Proof.
  intros Hin Hkinds Ho Hstate Hreach Hver. set (o := no_core n) in *.
  destruct (observe_settled _ _ _ _ _ _ _ Ho Hstate) as (unit & scope & Hs). fold o in Hs.
  destruct (settled_unit _ _ _ _ _ _ _ Hs Hin) as [Hunit Hne].
  destruct (settled_display _ _ _ _ _ _ _ Hs Hne) as (Hscale & shown & Hparsed & Hdisplay).
  exists shown. split; [done|].
  destruct (settled_quoted _ _ _ _ _ _ _ cell Hs Hin) as (Hblock & _ & r & Hr & Hid & Hq); [left|].
  pose proof (settled_fields _ _ _ _ _ _ _ Hs Hin Hkinds Hreach) as Hfields. cbv zeta in Hfields.
  unfold observation_display.
  assert (bool_decide (observation_identity (attest o) = graph_identity g) = true) as ->.
  { apply bool_decide_eq_true. apply Hs. }
  change (ob_quality (attest o) =s? "verified") with true.
  assert (ob_value_state (attest o) =s? "value" = true) as -> by (apply str_eqb_eq, Hstate).
  assert (nonempty_list (ob_source_refs (attest o)) = true) as ->.
  { cbn. destruct (ob_source_refs o); [by apply elem_of_nil in Hr|done]. }
  cbn [andb negb]. rewrite (proj2 (all_result_true _ _) Hver). cbn [if_result mbind result_bind].
  change (ob_unit_raw (attest o)) with (ob_unit_raw o). rewrite Hscale.
  assert (nonempty_list (ob_source_blocks (attest o))
          && forallb (λ b, existsb (block_eqb b) (gr_blocks g)) (ob_source_blocks (attest o))
          && existsb (λ r, quote r =s? ob_value_raw (attest o)) (ob_source_refs (attest o)) = true) as ->.
  { cbn [attest ob_source_blocks ob_source_refs ob_value_raw].
    destruct (se_source _ _ _ _ _ _ _ Hs) as [-> _]. rewrite !andb_true_iff. split_and!.
    - destruct (blocks_by_id _); [by apply elem_of_nil in Hblock|done].
    - apply forallb_forall. intros b Hb%list_elem_of_In. apply existsb_exists. exists b.
      assert (Hg : b ∈ gr_blocks g).
      { apply blocks_by_id_subset in Hb. by eapply settled_quoted. }
      split; [by apply list_elem_of_In|by eapply block_eqb_refl].
    - apply existsb_exists. exists (attest_ref r). split; [apply list_elem_of_In, list_elem_of_fmap; eauto|].
      cbn. rewrite Hq, (se_raw _ _ _ _ _ _ _ Hs). apply str_eqb_refl. }
  change (ob_scale_multiplier (attest o)) with (ob_scale_multiplier o).
  change (ob_unit_canonical (attest o)) with (ob_unit_canonical o).
  rewrite str_eqb_refl, bool_decide_true, Hunit by done. cbn [andb negb orb].
  by rewrite Hparsed, Hfields.
Qed.
End displayed.

(* ------------------------------------------------------------------ *)
(** ** The cells of a layout *)
(* ------------------------------------------------------------------ *)

Lemma dedup_subset {A} (eqb : A → A → bool) l x : x ∈ dedup eqb l → x ∈ l.
Proof.
  unfold dedup. generalize (@nil A). induction l as [|y l IH]; intros seen; cbn; [done|].
  destruct (existsb _ _).
  - intros Hx. right. by eapply IH.
  - intros [->|Hx]%elem_of_cons; [left|right]. by eapply IH.
Qed.

Definition fill_step (s : grid * bool) (cp : CanonicalBlock * (Z * Z)) : grid * bool :=
  (<[cp.2 := cp.1]> s.1,
   s.2 || match s.1 !! cp.2 with Some b => negb (block_eqb b cp.1) | None => false end).

Definition placed (cells : list CanonicalBlock) : list (CanonicalBlock * (Z * Z)) :=
  cells ≫= λ c, pair c <$> covered c.

Lemma placed_elem cells b k : (b, k) ∈ placed cells ↔ b ∈ cells ∧ k ∈ covered b.
Proof.
  unfold placed. rewrite list_elem_of_bind. setoid_rewrite list_elem_of_fmap. split.
  - intros (c & (k' & [= -> ->] & Hk) & Hc). done.
  - intros [Hb Hk]. exists b. split; [eauto|done].
Qed.

Lemma fill_fold_from L s k b : (foldl fill_step s L).1 !! k = Some b → s.1 !! k = Some b ∨ (b, k) ∈ L.
Proof.
  revert s. induction L as [|[c p] L IH]; cbn; intros s Hk; [by left|].
  apply IH in Hk as [Hk|Hk]; [|right; by right]. cbn in Hk.
  destruct (decide (p = k)) as [->|Hne].
  - rewrite lookup_insert_eq in Hk. injection Hk as ->. right. left.
  - rewrite lookup_insert_ne in Hk by done. by left.
Qed.

Lemma block_eqb_id a b : block_eqb a b = true → kb_source_id a = kb_source_id b.
Proof. unfold block_eqb. rewrite !andb_true_iff. intros H. destruct_and! H. by str_prop. Qed.

Lemma fill_fold_kept L s k b : (foldl fill_step s L).2 = false →
  s.1 !! k = Some b ∨ (b, k) ∈ L →
  s.2 = false ∧ ∃ b', (foldl fill_step s L).1 !! k = Some b' ∧ kb_source_id b' = kb_source_id b.
Proof.
  revert s b. induction L as [|[c p] L IH]; cbn; intros s b Hf Hb.
  { destruct Hb as [Hb|Hb]; [eauto|by apply elem_of_nil in Hb]. }
  assert (Hdone : ∀ x, (fill_step s (c, p)).1 !! k = Some x ∨ (x, k) ∈ L →
            s.2 = false ∧ (match s.1 !! p with Some b => negb (block_eqb b c) | None => false end) = false
            ∧ ∃ b', (foldl fill_step (fill_step s (c, p)) L).1 !! k = Some b' ∧ kb_source_id b' = kb_source_id x).
  { intros x Hx. apply IH in Hx as [Ho Hx]; [|done]. cbn in Ho. apply orb_false_iff in Ho as [? ?]. done. }
  cbn [fill_step fst snd] in Hdone.
  destruct Hb as [Hb|[[= -> ->]|Hb]%elem_of_cons].
  - destruct (decide (p = k)) as [->|Hne].
    + destruct (Hdone c) as (H1 & H2 & b' & H3 & H4); [left; apply lookup_insert_eq|].
      rewrite Hb in H2. apply negb_false_iff, block_eqb_id in H2. split; [done|]. exists b'. by rewrite H2.
    + destruct (Hdone b) as (H1 & _ & H3); [left; by rewrite lookup_insert_ne|done].
  - destruct (Hdone c) as (H1 & _ & H3); [left; apply lookup_insert_eq|done].
  - destruct (Hdone b) as (H1 & _ & H3); [by right|done].
Qed.

Lemma fill_from cells k b : (fill cells).1 !! k = Some b → b ∈ cells ∧ k ∈ covered b.
Proof. intros [H|H]%(fill_fold_from (placed cells) (∅, false)); [done|by apply placed_elem]. Qed.

Lemma band_elem m r k b : (k, b) ∈ band m r → m !! (r, k) = Some b.
Proof.
  unfold band. intros (j & _ & Hj)%list_elem_of_omap.
  destruct (m !! (r, j)) eqn:E; [|done]. by injection Hj as -> ->.
Qed.

Lemma title_at_elem m r t : title_at m r = Some t → ∃ k, m !! (r, k) = Some t.
Proof.
  unfold title_at. destruct (dedup block_eqb (band m r).*2) as [|t' [|]] eqn:E; try done.
  cbv zeta. destruct (_ && _); [|done]. intros [= ->].
  assert (Ht : t ∈ (band m r).*2) by (eapply dedup_subset; rewrite E; left).
  apply list_elem_of_fmap in Ht as ([k b] & -> & Hk%band_elem). eauto.
Qed.

Lemma skip_titles_elem fuel m first r titles h ts t :
  skip_titles fuel m first r titles = (h, ts) → t ∈ ts → t ∈ titles ∨ ∃ k, m !! k = Some t.
Proof.
  revert r titles. induction fuel as [|fuel IH]; cbn; intros r titles; [intros [= _ <-]; auto|].
  destruct (title_at m r) as [t'|] eqn:Et; [|intros [= _ <-]; auto].
  destruct (bool_decide _); [|intros [= _ <-] Ht; by apply elem_of_nil in Ht].
  intros Hs Ht. destruct (IH _ _ Hs Ht) as [Hin|Hin]; [|auto].
  apply elem_of_app in Hin as [Hin| ->%list_elem_of_singleton]; [auto|].
  apply title_at_elem in Et as [k Hk]. eauto.
Qed.

(** Everything a layout mentions is a cell of the table. *)
Record within_cells (cells : list CanonicalBlock) (l : layout) : Prop := {
  wc_grid : ∀ k b, la_grid l !! k = Some b → b ∈ cells ∧ k ∈ covered b;
  wc_headers : ∀ k b, (k, b) ∈ la_headers l → b ∈ cells;
  wc_basis : ∀ k b, (k, b) ∈ la_basis l → b ∈ cells;
  wc_titles : ∀ b, b ∈ la_titles l → b ∈ cells }.

Lemma layout_within cells l : layout_of cells = Some l → within_cells cells l.
Proof.
  unfold layout_of. destruct (fill cells) as [m o] eqn:Ef.
  assert (Hm : ∀ k b, m !! k = Some b → b ∈ cells ∧ k ∈ covered b).
  { intros k b Hk. apply fill_from. by rewrite Ef. }
  destruct (head (grid_rows m)) as [r0|]; [|done]. cbn [mbind option_bind].
  destruct (if o then _ else _) as [h ts] eqn:Et. intros [= <-]. split; cbn [la_grid la_headers la_basis la_titles].
  - done.
  - intros k b Hk%band_elem. by eapply Hm.
  - intros k b Hk. unfold basis_row in Hk. destruct (_ && _); cbn in Hk; [|by apply elem_of_nil in Hk].
    apply elem_of_lfilter in Hk as [Hk%band_elem _]. by eapply Hm.
  - intros b Hb. destruct o; [injection Et as _ <-; by apply elem_of_nil in Hb|].
    eapply skip_titles_elem in Et as [Hn|[k Hk]]; [by apply elem_of_nil in Hn|by eapply Hm|done].
Qed.

Lemma at_column_elem k l b : at_column k l = Some b → (k, b) ∈ l.
Proof.
  unfold at_column. destruct (find _ l) as [[j c]|] eqn:E; [|done]. cbn. intros [= ->].
  apply find_some in E as [Hin Hj%Z.eqb_eq]. cbn in Hj. subst. by apply list_elem_of_In.
Qed.

Lemma cell_bindings_within cells l r k b : within_cells cells l → b ∈ (cell_bindings l r k).*2 → b ∈ cells.
Proof.
  intros [Hg Hh Hb _]. unfold cell_bindings. cbv zeta.
  assert (Hput : ∀ name (o : option CanonicalBlock) bs,
    (∀ x, o = Some x → x ∈ cells) → (∀ x, x ∈ bs.*2 → x ∈ cells) →
    ∀ x, x ∈ (match o with Some b => dict_set name b bs | None => bs end).*2 → x ∈ cells).
  { intros name o bs Ho Hbs x. destruct o as [y|]; [|apply Hbs].
    intros [->|Hx]%dict_set_values; [by apply Ho|by apply Hbs]. }
  apply Hput; [intros x Hx%at_column_elem; by eapply Hb|].
  apply Hput.
  { destruct (column_in _ _); [|done]. intros x Hx%at_column_elem. by eapply Hh. }
  apply Hput.
  { destruct (column_in _ _); [|done]. intros x Hx%at_column_elem. by eapply Hh. }
  intros x Hx. apply list_elem_of_fmap in Hx as ([name y] & -> & ([j f] & _ & Hy)%list_elem_of_omap).
  cbn in Hy. destruct (f =s? "value_raw"); [done|].
  destruct (la_grid l !! (r, j)) as [c|] eqn:E; [|done]. injection Hy as _ <-. by eapply Hg.
Qed.

(* ------------------------------------------------------------------ *)
(** ** A whole run *)
(* ------------------------------------------------------------------ *)

Section run.
Context `{Digest} (nfc : pystr → pystr) (uuid5 : pystr → pystr → pystr).

Lemma table_block_elem g t b : table_block g t = Some b →
  b ∈ gr_blocks g ∧ kb_source_id b = t ∧ kb_kind b = "table".
Proof.
  unfold table_block. destruct (block_by_id g t) as [b'|] eqn:E; [|done]. cbn.
  destruct (kb_kind b' =s? "table") eqn:Hk; [|done]. intros [= ->].
  apply block_by_id_elem in E as [? ?]. by str_prop.
Qed.

Lemma cells_of_elem g t b : b ∈ cells_of uuid5 g t ↔
  b ∈ gr_blocks g ∧ kb_kind b = "table_cell" ∧ assign_cell uuid5 g b = inl t.
Proof.
  unfold cells_of, table_cells. rewrite !elem_of_lfilter. unfold kind_in. rewrite str_in_iff, list_elem_of_singleton.
  destruct (assign_cell uuid5 g b) as [t'|i].
  - rewrite str_eqb_eq. split; [intros [[? ?] ->]; done|intros (? & ? & [= ->]); done].
  - split; [intros [_ [=]]|intros (_ & _ & [=])].
Qed.

(** Where an observation of a run comes from. *)
Record origin (g : CanonicalDocumentGraph) (n : Observation) (table cell : CanonicalBlock)
    (l : layout) (r k : Z) : Prop := {
  or_table : table ∈ gr_blocks g ∧ kb_kind table = "table";
  or_layout : layout_of (cells_of uuid5 g (kb_source_id table)) = Some l ∧ ambiguous l = false;
  or_position : (r, k) ∈ value_positions l;
  or_cell : la_grid l !! (r, k) = Some cell;
  or_observed : observe nfc uuid5 g table r k cell (cell_bindings l r k)
                  ((la_headers l).*2 ++ la_titles l) = Ok n }.

Lemma observe_cell_Ok g table l rk f : observe_cell nfc uuid5 g table l rk = Ok f →
  match la_grid l !! rk with
  | None => f = ([], [open_issue uuid5 table "table_layout_unresolved" "Missing value cell."])
  | Some cell => ∃ n, observe nfc uuid5 g table rk.1 rk.2 cell (cell_bindings l rk.1 rk.2)
                        ((la_headers l).*2 ++ la_titles l) = Ok n
                      ∧ f = ([n], observation_issues uuid5 cell n)
  end.
Proof.
  unfold observe_cell. destruct (la_grid l !! rk); [|by intros [= <-]].
  intros (n & Hn & [= <-])%bind_Ok_inv. eauto.
Qed.

(** The tables of a run and what each gave. *)
Lemma normalize_tables_Ok g tenant res : normalize_tables nfc uuid5 g tenant = Ok res →
  validate g tenant = Ok tt
  ∧ (∀ i, i ∈ gr_issues g → i ∈ nr_conflicts res)
  ∧ (∀ b, b ∈ table_cells g → match assign_cell uuid5 g b with
       | inr i => i ∈ nr_conflicts res
       | inl t => ∃ table f, table_block g t = Some table
                    ∧ normalize_table nfc uuid5 g table (cells_of uuid5 g t) = Ok f
                    ∧ (∀ n, n ∈ f.1 → n ∈ nr_observations res) ∧ (∀ i, i ∈ f.2 → i ∈ nr_conflicts res)
       end)
  ∧ (∀ n, n ∈ nr_observations res → ∃ table f, table ∈ gr_blocks g ∧ kb_kind table = "table"
       ∧ normalize_table nfc uuid5 g table (cells_of uuid5 g (kb_source_id table)) = Ok f
       ∧ n ∈ f.1 ∧ (∀ i, i ∈ f.2 → i ∈ nr_conflicts res)).
Proof.
  unfold normalize_tables. cbv zeta. intros ([] & Hv & Hrun)%bind_Ok_inv.
  set (assigned := assign_cell uuid5 g <$> table_cells g) in *.
  set (tables := str_set_sorted _) in *. 
  set (misplaced := omap (λ a, match a with inr i => Some i | inl _ => None end) assigned) in *.
  apply bind_Ok_inv in Hrun as (fs & Hfs%map_result_Ok & Hres). injection Hres as <-. cbn [nr_conflicts nr_observations].
  assert (Hin : ∀ f, f ∈ fs → ∀ i, i ∈ f.2 → i ∈ gr_issues g ++ misplaced ++ (fs.*2 ≫= id)).
  { intros f Hf i Hi. rewrite !elem_of_app. right. right. apply list_elem_of_bind.
    exists f.2. split; [done|]. apply list_elem_of_fmap. eauto. }
  split_and!; [done|intros i Hi; apply elem_of_app; by left| |].
  - intros b Hb. assert (Ha : assign_cell uuid5 g b ∈ assigned) by (apply list_elem_of_fmap; eauto).
    destruct (assign_cell uuid5 g b) as [t|i].
    + assert (Ht : t ∈ tables).
      { apply elem_of_str_set_sorted, list_elem_of_omap. by exists (inl t). }
      apply list_elem_of_lookup in Ht as [j Hj].
      destruct (Forall2_lookup_l _ _ _ _ _ Hfs Hj) as (f & Hf & Hn).
      apply list_elem_of_lookup_2 in Hf. destruct (table_block g t) as [table|] eqn:Etab; [|done].
      exists table, f. split_and!; try done; [|by apply Hin].
      intros n Hn'. apply list_elem_of_bind. exists f.1. split; [done|]. apply list_elem_of_fmap. eauto.
    + rewrite !elem_of_app. right. left. apply list_elem_of_omap. by exists (inr i).
  - intros n Hn. apply list_elem_of_bind in Hn as (ns & Hn & (f & -> & Hf)%list_elem_of_fmap).
    pose proof Hf as Hf'. apply list_elem_of_lookup in Hf as [j Hj].
    destruct (Forall2_lookup_r _ _ _ _ _ Hfs Hj) as (t & _ & Ht).
    destruct (table_block g t) as [table|] eqn:Etab; [|done].
    apply table_block_elem in Etab as (Htin & <- & Hk). exists table, f. split_and!; try done. by apply Hin.
Qed.

(** The observations of a table, with the issues of the unsettled ones. *)
Lemma normalize_table_Ok g table f :
  normalize_table nfc uuid5 g table (cells_of uuid5 g (kb_source_id table)) = Ok f →
  (∃ i, i ∈ f.2 ∧ qi_state i = "open" ∧ kb_source_id table ∈ qi_source_ids i) ∧ f.1 = []
  ∨ ∃ l, layout_of (cells_of uuid5 g (kb_source_id table)) = Some l ∧ ambiguous l = false
      ∧ (∀ n, n ∈ f.1 → ∃ r k cell, (r, k) ∈ value_positions l ∧ la_grid l !! (r, k) = Some cell
           ∧ observe nfc uuid5 g table r k cell (cell_bindings l r k)
               ((la_headers l).*2 ++ la_titles l) = Ok n
           ∧ (∀ i, i ∈ observation_issues uuid5 cell n → i ∈ f.2))
      ∧ (∀ r k, (r, k) ∈ value_positions l → match la_grid l !! (r, k) with
           | None => ∃ i, i ∈ f.2 ∧ qi_state i = "open" ∧ kb_source_id table ∈ qi_source_ids i
           | Some cell => ∃ n, n ∈ f.1 ∧ observe nfc uuid5 g table r k cell (cell_bindings l r k)
               ((la_headers l).*2 ++ la_titles l) = Ok n
           end).
Proof.
  unfold normalize_table. destruct (_ <? _)%Z.
  { intros [= <-]. left. split; [|done]. eexists. split; [left|]. split; [done|left]. }
  destruct (layout_of _) as [l|]; [|done]. destruct (ambiguous l) eqn:Ha.
  { intros [= <-]. left. split; [|done]. eexists. split; [left|]. split; [done|left]. }
  intros (fs & Hfs%map_result_Ok & Hf)%bind_Ok_inv. injection Hf as <-. right. exists l. cbn [fst snd].
  assert (Hsub : ∀ f, f ∈ fs → (∀ n, n ∈ f.1 → n ∈ fs.*1 ≫= id) ∧ (∀ i, i ∈ f.2 → i ∈ fs.*2 ≫= id)).
  { intros f Hf. split; intros x Hx; apply list_elem_of_bind; eexists; (split; [exact Hx|]);
      apply list_elem_of_fmap; eauto. }
  split_and!; [done|done| |].
  - intros n Hn. apply list_elem_of_bind in Hn as (ns & Hn & (f & -> & Hf)%list_elem_of_fmap).
    destruct (Hsub f Hf) as [_ Hiss]. apply list_elem_of_lookup in Hf as [j Hj].
    destruct (Forall2_lookup_r _ _ _ _ _ Hfs Hj) as ([r k] & Hrk & Hobs%observe_cell_Ok).
    exists r, k. destruct (la_grid l !! (r, k)) as [cell|] eqn:Eg.
    + destruct Hobs as (n' & Hn' & ->). apply list_elem_of_singleton in Hn as ->.
      exists cell. split_and!; try done. by eapply list_elem_of_lookup_2.
    + subst f. by apply elem_of_nil in Hn.
  - intros r k Hrk. apply list_elem_of_lookup in Hrk as [j Hj].
    destruct (Forall2_lookup_l _ _ _ _ _ Hfs Hj) as (f & Hf%list_elem_of_lookup_2 & Hobs%observe_cell_Ok).
    destruct (Hsub f Hf) as [Hn Hi]. destruct (la_grid l !! (r, k)) as [cell|].
    + destruct Hobs as (n & Hobs & ->). exists n. split; [apply Hn; left|done].
    + subst f. eexists. split; [apply Hi; left|]. split; [done|left].
Qed.

Lemma observation_origin g tenant res n :
  normalize_tables nfc uuid5 g tenant = Ok res → n ∈ nr_observations res →
  ∃ table cell l r k, origin g n table cell l r k
    ∧ ∀ i, i ∈ observation_issues uuid5 cell n → i ∈ nr_conflicts res.
Proof.
  intros (_ & _ & _ & Hobs)%normalize_tables_Ok Hn.
  destruct (Hobs n Hn) as (table & f & Hin & Hk & Hf & Hnf & Hi).
  destruct (normalize_table_Ok _ _ _ Hf) as [[_ Hnil]|(l & Hl & Ha & Hall & _)].
  { rewrite Hnil in Hnf. by apply elem_of_nil in Hnf. }
  destruct (Hall n Hnf) as (r & k & cell & Hpos & Hcell & Ho & Hiss).
  exists table, cell, l, r, k. split; [by split|]. auto.
Qed.
End run.

Section normalized.
Context `{Digest} (nfc : pystr → pystr) (uuid5 : pystr → pystr → pystr).

Lemma origin_blocks g n table cell l r k : origin nfc uuid5 g n table cell l r k →
  cell ∈ cells_of uuid5 g (kb_source_id table)
  ∧ (∀ b, b ∈ cell :: (cell_bindings l r k).*2 ++ (la_headers l).*2 ++ la_titles l →
          b ∈ gr_blocks g ∧ kb_kind b = "table_cell").
Proof.
  intros [_ [Hl _] _ Hcell _]. apply layout_within in Hl as Hw.
  pose proof (wc_grid _ _ Hw _ _ Hcell) as [Hin _]. split; [done|]. intros b Hb.
  assert (Hc : b ∈ cells_of uuid5 g (kb_source_id table)); [|by apply cells_of_elem in Hc as (? & ? & _)].
  apply elem_of_cons in Hb as [->|Hb]; [done|]. rewrite !elem_of_app in Hb.
  destruct Hb as [Hb|[Hb|Hb]]; [by eapply cell_bindings_within| |by eapply wc_titles].
  apply list_elem_of_fmap in Hb as ([j c] & -> & Hb). by eapply wc_headers.
Qed.

(** C32: normalisation and the numeric check agree. Over parser text that fills
    its sources and notes that are footnotes, take any observation with a
    value of a normalised graph: once its references verify against the graph
    and its cell is below its table, the check displays it, and what it
    displays is the printed number in the observation's own scale. No unit,
    scale, note, period or decimal the normaliser produced is refused. *)
Theorem normalized_observation_displayed g tenant res n :
  normalize_tables nfc uuid5 g tenant = Ok res → n ∈ nr_observations res →
  (∀ b c, b ∈ gr_blocks g → c ∈ kb_candidates b → whole c) → notes_are_footnotes g →
  ob_value_state (no_core n) = "value" →
  (∀ root, root ∈ (ob_parent_relations (no_core n)).*1.*1 →
           rtc (table_parent g) root (ob_table_id (no_core n))) →
  Forall (λ r, verified (Some r) g = Ok true) (ob_source_refs (attest (no_core n))) →
  ∃ shown, display (ob_value_raw (no_core n))
             (if ob_scale_multiplier (no_core n) =s? "1000" then inject_Z 1000 else 1%Q) = Some shown
           ∧ observation_display (attest (no_core n)) g = Ok (Some shown).
Proof.
  intros Hres Hn Hwhole Hfoot Hstate Hlineage Hver.
  pose proof (normalize_tables_Ok _ _ _ _ _ Hres) as (Hvalid & _).
  destruct (observation_origin _ _ _ _ _ _ Hres Hn) as (table & cell & l & r & k & Hor & _).
  pose proof (origin_blocks _ _ _ _ _ _ _ Hor) as [_ Hblocks].
  destruct Hor as [_ _ _ _ Ho].
  refine (observe_displayed nfc uuid5 g tenant Hvalid Hwhole Hfoot table r k cell _ _ n _ _ Ho Hstate _ Hver).
  - intros b Hb. by apply Hblocks.
  - intros b Hb. destruct (Hblocks b) as [_ ->]; [|done]. right. apply elem_of_app. by left.
  - destruct (observe_settled nfc uuid5 g table r k cell _ _ n Ho Hstate) as (unit & scope & Hs).
    destruct Hs as [_ Htable _ (Hm & _) _ _ _ _ _ _ Hrel].
    rewrite <- Htable. apply Hlineage. rewrite Hrel. symmetry in Hm.
    apply role_text_spec in Hm as (_ & b & Hb & _).
    apply list_elem_of_fmap. exists (kb_source_id cell, kb_source_id b). split; [done|].
    apply list_elem_of_fmap. exists (kb_source_id cell, kb_source_id b, "metric_raw" : pystr). split; [done|].
    apply elem_of_cell_relations. eauto.
Qed.

(** What an observation may claim. *)
Record modest (o : NumericObservation) : Prop := {
  mo_quality : ob_quality o ∈ (["unverified"; "conflicted"; "unreadable"; "unlocated"] : list pystr);
  mo_state : ob_value_state o ∈ (["value"; "missing"; "conflict"; "unreadable"] : list pystr);
  mo_decimal : is_Some (ob_value_decimal o) ↔ ob_value_state o = "value" }.

Lemma observe_modest g table row col cell bs headers n :
  observe nfc uuid5 g table row col cell bs headers = Ok n → modest (no_core n).
Proof.
  unfold observe. cbv zeta. destruct (noted (role_text bs "unit_raw") _) as [unit uc].
  destruct (noted (role_text bs "scope") _) as [scope sc].
  destruct (read_value _ _) as [[[parsed canonical] mult] st] eqn:Hrv.
  destruct (resolve_state _ _ _ _ _) as [[st' parsed'] quality] eqn:Hres.
  intros (refs & _ & (sig & _ & Hn)%bind_Ok_inv)%bind_Ok_inv. injection Hn as <-.
  assert (Hst : (parsed = None ∧ (st = "conflict" ∨ st = "missing" ∨ st = "unreadable"))
                ∨ (is_Some parsed ∧ st = "value")).
  { revert Hrv. unfold read_value. destruct (_ && _ && _); [intros [= <- _ _ <-]; auto|].
    destruct (scaled_unit _). destruct (str_in _ _); [intros [= <- _ _ <-]; auto|].
    destruct (NUMBER _) as [[? ?]|]; intros [= <- _ _ <-]; eauto. }
  assert (Hin : ∀ (x : pystr) l, str_in x l = true → x ∈ l) by (intros; by apply str_in_iff).
  assert (Hno : ∀ s, s ≠ ("value" : pystr) → is_Some (@None pystr) ↔ s = "value").
  { intros s Hs. split; [by intros [? [=]]|done]. }
  revert Hres. unfold resolve_state.
  destruct (_ || _ : bool); [intros [= <- <- <-]; split; cbn; auto|].
  destruct (existsb (λ b, str_in (kb_quality b) ["unreadable"; "unlocated"]
                          || existsb has_invalid_geometry (kb_candidates b)) _).
  { intros [= <- <- <-]; split; cbn; auto. destruct (existsb _ _); auto. }
  destruct (_ || _ : bool); [intros [= <- <- <-]; split; cbn; auto|].
  intros [= <- <- <-]. destruct Hst as [[-> [->|[->| ->]]]|[Hp ->]]; split; cbn; auto; done.
Qed.

Lemma observe_place g table row col cell bs headers n :
  observe nfc uuid5 g table row col cell bs headers = Ok n →
  ob_table_id (no_core n) = kb_source_id table ∧ ob_row (no_core n) = row
  ∧ ob_column (no_core n) = col ∧ ob_value_raw (no_core n) = text_of cell.
Proof.
  unfold observe. cbv zeta. destruct (noted (role_text bs "unit_raw") _) as [unit uc].
  destruct (noted (role_text bs "scope") _) as [scope sc]. destruct (read_value _ _) as [[[? ?] ?] ?].
  destruct (resolve_state _ _ _ _ _) as [[? ?] ?].
  intros (refs & _ & (sig & _ & Hn)%bind_Ok_inv)%bind_Ok_inv. by injection Hn as <-.
Qed.

(** Without overlaps the grid holds every cell at every position it covers. *)
Lemma layout_kept g tenant t l b rk : validate g tenant = Ok tt →
  layout_of (cells_of uuid5 g t) = Some l → ambiguous l = false →
  b ∈ cells_of uuid5 g t → rk ∈ covered b → la_grid l !! rk = Some b.
Proof.
  intros Hv Hl Ha Hb Hcov.
  assert (Hover : la_overlap l = false ∧ (fill (cells_of uuid5 g t)) = (la_grid l, la_overlap l)).
  { split; [unfold ambiguous in Ha; cbv zeta in Ha; by destruct (la_overlap l)|].
    unfold layout_of in Hl. destruct (fill _) as [m o]. destruct (head (grid_rows m)); [|done].
    cbn [mbind option_bind] in Hl. destruct (if o then _ else _). by injection Hl as <-. }
  destruct Hover as [Hover Hfill].
  destruct (fill_fold_kept (placed (cells_of uuid5 g t)) (∅, false) rk b) as (_ & b' & Hb' & Hid).
  - change (foldl fill_step (∅, false) (placed (cells_of uuid5 g t))) with (fill (cells_of uuid5 g t)).
    by rewrite Hfill.
  - right. by apply placed_elem.
  - change (foldl fill_step (∅, false) (placed (cells_of uuid5 g t))) with (fill (cells_of uuid5 g t)) in Hb'.
    pose proof (fill_from _ _ _ Hb') as [Hin _]. rewrite Hfill in Hb'. cbn in Hb'. rewrite Hb'. f_equal.
    apply cells_of_elem in Hin as [Hin _], Hb as [Hb _]. by apply (same_id g tenant).
Qed.

(** A run of the normaliser accounts for the document. The graph's issues
    are kept; no observation is verified, and one has a decimal exactly when
    its state is [value]; a conflicting or unreadable one leaves an open issue
    on its cell; and every table cell is either named by an open issue, or its
    table is, or each value position it covers has an observation of its very
    text at that row and column. *)
Theorem normalize_accounts g tenant res :
  normalize_tables nfc uuid5 g tenant = Ok res →
  (∀ i, i ∈ gr_issues g → i ∈ nr_conflicts res)
  ∧ (∀ n, n ∈ nr_observations res → modest (no_core n)
       ∧ (unsettled n = true → ∃ i cell, i ∈ nr_conflicts res ∧ qi_state i = "open"
            ∧ cell ∈ gr_blocks g ∧ kb_source_id cell ∈ qi_source_ids i ∧ ob_value_raw (no_core n) = text_of cell))
  ∧ (∀ b, b ∈ gr_blocks g → kb_kind b = "table_cell" →
       (∃ i, i ∈ nr_conflicts res ∧ qi_state i = "open" ∧ kb_source_id b ∈ qi_source_ids i)
       ∨ ∃ t, assign_cell uuid5 g b = inl t
         ∧ ((∃ i, i ∈ nr_conflicts res ∧ qi_state i = "open" ∧ t ∈ qi_source_ids i)
            ∨ ∃ l, layout_of (cells_of uuid5 g t) = Some l ∧ ambiguous l = false
                ∧ ∀ r k, (r, k) ∈ covered b → (r, k) ∈ value_positions l →
                    ∃ n, n ∈ nr_observations res ∧ ob_table_id (no_core n) = t
                      ∧ ob_row (no_core n) = r ∧ ob_column (no_core n) = k
                      ∧ ob_value_raw (no_core n) = text_of b)).
Proof.
  intros Hres. pose proof (normalize_tables_Ok _ _ _ _ _ Hres) as (Hvalid & Hkept & Hcells & _).
  split; [done|]. split.
  - intros n Hn. destruct (observation_origin _ _ _ _ _ _ Hres Hn) as (table & cell & l & r & k & Hor & Hiss).
    pose proof (origin_blocks _ _ _ _ _ _ _ Hor) as [_ Hblocks]. destruct Hor as [_ _ _ _ Ho].
    split; [by eapply observe_modest|]. intros Hu. unfold observation_issues in Hiss. rewrite Hu in Hiss.
    eexists _, cell. split; [apply Hiss; left|]. split; [done|]. split; [apply Hblocks; left|].
    split; [left|]. by eapply observe_place in Ho as (_ & _ & _ & ?).
  - intros b Hb Hk. assert (Hcell : b ∈ table_cells g).
    { unfold table_cells. apply elem_of_lfilter. split; [done|]. unfold kind_in. rewrite Hk. done. }
    specialize (Hcells b Hcell). destruct (assign_cell uuid5 g b) as [t|i] eqn:Ha.
    + right. exists t. split; [done|]. destruct Hcells as (table & f & Htab & Hf & Hobs & Hi).
      apply table_block_elem in Htab as (_ & <- & _).
      destruct (normalize_table_Ok _ _ _ _ _ Hf) as [[(i & Hin & Ho & Hid) _]|(l & Hl & Hamb & _ & Hpos)].
      { left. exists i. auto. }
      right. exists l. split; [done|]. split; [done|]. intros r k Hcov Hrk.
      specialize (Hpos r k Hrk). assert (Hg : la_grid l !! (r, k) = Some b).
        { eapply (layout_kept g tenant); try done. by apply cells_of_elem. }
        rewrite Hg in Hpos. destruct Hpos as (n & Hn & Ho). exists n. split; [by apply Hobs|].
        by eapply observe_place.
    + left. exists i. split; [done|]. unfold assign_cell in Ha.
      destruct (locations g b) as [|lo [|]]; [| |]; try (injection Ha as <-; split; [done|left]).
      destruct (cell_table g lo); [done|]. injection Ha as <-. split; [done|left].
Qed.
End normalized.

(* ------------------------------------------------------------------ *)
(** ** A table with a note *)
(* ------------------------------------------------------------------ *)

Section emissions.
#[local] Existing Instance Checksum.

(** Block [n] of the page, in table "t" when it has a place. *)
Definition page_block (n : N) (kind text : pystr) (place : option (Z * Z)) : CanonicalBlock :=
  let c := sample_block run_a (sample_id n) kind text 10 10 in
  {| kb_source_id := sample_id n; kb_kind := kind;
     kb_candidates := [{| cb_kind := kind; cb_source := cb_source c; cb_geometry := cb_geometry c;
       cb_context := []; cb_parser_bbox := None; cb_parser_system := cb_parser_system c;
       cb_to_canonical := None; cb_table_native_id := (λ _, sample_id 1) <$> place;
       cb_row := fst <$> place; cb_column := snd <$> place; cb_row_span := None;
       cb_column_span := None |}];
     kb_families := ["native"]; kb_quality := "verified"; kb_winner := Some 0%Z |}.

(** "metric | unit | 2023" over "CO2 | 천 t | 1,234.5", with a note of the scope. *)
Definition emissions_blocks : list CanonicalBlock :=
  [page_block 1 "table" "t" None;
   page_block 2 "table_cell" "metric" (Some (0, 0)%Z); page_block 3 "table_cell" "Unit" (Some (0, 1)%Z);
   page_block 4 "table_cell" "2023년" (Some (0, 2)%Z); page_block 5 "table_cell" "CO2" (Some (1, 0)%Z);
   page_block 6 "table_cell" "천 t" (Some (1, 1)%Z); page_block 7 "table_cell" "1,234.5" (Some (1, 2)%Z);
   page_block 8 "footnote" "Scope: Scope 1" None].

Definition emissions_graph : CanonicalDocumentGraph :=
  {| gr_tenant_id := tenant_uuid; gr_document_version_id := version_id;
     gr_parse_manifest_id := manifest_id; gr_source_sha256 := sample_sha;
     gr_blocks := emissions_blocks;
     gr_edges := ((λ n, {| ed_source := sample_id n; ed_target := sample_id 1;
                           ed_relation := "table_parent" |}) <$> [2; 3; 4; 5; 6; 7]%N)
                 ++ [{| ed_source := sample_id 8; ed_target := sample_id 7; ed_relation := "footnote_of" |}];
     gr_issues := []; gr_candidates := [sample_batch run_a "native" (emissions_blocks ≫= kb_candidates) []];
     gr_validation_profile := "fast_preview" |}.

Abbreviation emissions_run := (normalize_tables nfc_sample sample_uuid5 emissions_graph tenant_uuid).

(** The facts of the run, as booleans. *)
Definition emissions_facts (res : NormalizationResult) : bool :=
  match nr_observations res with
  | [n] =>
      let o := no_core n in
      (ob_value_state o =s? "value") && bool_decide (ob_scope o = Some ("Scope 1" : pystr))
      && bool_decide (ob_value_decimal o = Some ("1234500.0" : pystr))
      && (ob_table_id o =s? sample_id 1)
      && forallb (λ r, r =s? sample_id 7) (ob_parent_relations o).*1.*1
      && forallb (λ r, bool_decide (verified (Some r) emissions_graph = Ok true))
           (ob_source_refs (attest o))
  | _ => false
  end.

Lemma emissions_run_ok : match emissions_run with Ok res => emissions_facts res | Raise _ => false end = true.
Proof. vm_compute. reflexivity. Qed.

Lemma emissions_whole b c : b ∈ gr_blocks emissions_graph → c ∈ kb_candidates b → whole c.
Proof.
  assert (H : Forall (λ b, Forall whole (kb_candidates b)) emissions_blocks) by (repeat constructor).
  rewrite Forall_forall in H. intros Hb Hc. specialize (H b Hb). rewrite Forall_forall in H. by apply H.
Qed.

Lemma emissions_notes : notes_are_footnotes emissions_graph.
Proof.
  assert (H : forallb (λ e, negb (ed_relation e =s? "footnote_of")
                || forallb (λ b, negb (kb_source_id b =s? ed_source e) || (kb_kind b =s? "footnote"))
                     emissions_blocks) (gr_edges emissions_graph) = true) by (vm_compute; reflexivity).
  intros e b He%list_elem_of_In Hrel Hb%list_elem_of_In Hid. rewrite forallb_forall in H. specialize (H e He).
  rewrite Hrel, str_eqb_refl in H. cbn [negb orb] in H. rewrite forallb_forall in H. specialize (H b Hb).
  rewrite Hid, str_eqb_refl in H. by apply str_eqb_eq.
Qed.

(** The cell of the value is below its table. *)
Lemma emissions_lineage : rtc (table_parent emissions_graph) (sample_id 7) (sample_id 1).
Proof.
  apply rtc_once. exists {| ed_source := sample_id 7; ed_target := sample_id 1; ed_relation := "table_parent" |}.
  split; [|done]. cbn. do 5 right. left.
Qed.

Lemma normalized_observation_displayed_witness :
  ∃ res n shown, emissions_run = Ok res ∧ n ∈ nr_observations res
    ∧ display (ob_value_raw (no_core n))
        (if ob_scale_multiplier (no_core n) =s? "1000" then inject_Z 1000 else 1%Q) = Some shown
    ∧ observation_display (attest (no_core n)) emissions_graph = Ok (Some shown).
Proof.
  pose proof emissions_run_ok as Hrun. destruct emissions_run as [res|] eqn:E; [|discriminate Hrun].
  unfold emissions_facts in Hrun. destruct (nr_observations res) as [|n [|]] eqn:Eo; [discriminate Hrun| |discriminate Hrun].
  cbv zeta in Hrun. rewrite !andb_true_iff in Hrun. destruct Hrun as (((((Hst & _) & _) & Ht) & Hroot) & Hrefs).
  assert (Hn : n ∈ nr_observations res) by (rewrite Eo; left); clear Eo.
  apply str_eqb_eq in Hst, Ht. rewrite forallb_forall in Hroot, Hrefs.
  destruct (@normalized_observation_displayed Checksum nfc_sample sample_uuid5 emissions_graph tenant_uuid res n
              E Hn emissions_whole emissions_notes Hst) as (shown & Hd & Ho).
  - intros root Hin%list_elem_of_In. apply Hroot, str_eqb_eq in Hin. rewrite Hin, Ht. exact emissions_lineage.
  - apply Forall_forall. intros r Hr%list_elem_of_In. apply Hrefs, bool_decide_eq_true in Hr. exact Hr.
  - exists res, n, shown. split; [exact eq_refl|]. split; [exact Hn|]. split; [exact Hd|exact Ho].
Defined.

Lemma normalize_accounts_witness :
  ∃ res, emissions_run = Ok res ∧ ∀ n, n ∈ nr_observations res → modest (no_core n).
Proof.
  pose proof emissions_run_ok as Hrun. destruct emissions_run as [res|] eqn:E; [|discriminate Hrun].
  exists res. split; [exact eq_refl|]. intros n Hn.
  destruct (@normalize_accounts Checksum nfc_sample sample_uuid5 emissions_graph tenant_uuid res E) as (_ & Hall & _).
  exact (proj1 (Hall n Hn)).
Defined.
End emissions.
