(* ===== verification/NumericAnalysis.v ===== *)
(** * The numeric analysis of a frozen run.

    [application/numeric_analysis.py]: the identity guards around the pure
    check, the partition of the bindings into accepted and rejected, and one
    outcome for every claim, with the source holds of the observations used.
    The proposal of bindings for review is not modelled.

    The theorem says what a report contains, exactly; in particular a finding
    needs an accepted binding, and the outcome of a binding does not depend on
    the other bindings. *)
From S2P Require Import Prelude PyVal JsonCodec Decimal Values PyDate Digest RulePack Geometry Graph Numeric GraphSpec NumericValue NumericSpec NumericEvidence.
Open Scope py_scope.

Definition BINDING_ABSENT : pystr := "binding_absent".
Definition BINDING_NOT_ACCEPTED : pystr := "binding_not_accepted".

(** [CheckStatus] values are strings; an outcome adds one of its own.
    [application/numeric_analysis.py:39-52 NumericCheckOutcome] *)
Record NumericCheckOutcome : Set := {
  oc_claim_id : pystr; oc_status : pystr; oc_reason : option pystr;
  oc_result : option CheckResult; oc_holds : list source_holds }.

(** [application/numeric_analysis.py:55-61 NumericAnalysisReport] *)
Record NumericAnalysisReport : Set := {
  rp_tenant_id : pystr; rp_document_version_id : pystr; rp_parse_manifest_id : pystr;
  rp_source_sha256 : pystr; rp_outcomes : list NumericCheckOutcome }.

Definition status_str (s : CheckStatus) : pystr :=
  match s with
  | Consistent => "consistent" | Inconsistent => "inconsistent"
  | NotComparable => "not_comparable" | NotComputable => "not_computable"
  end.

(** [application/numeric_analysis.py:36 _DECIDED] *)
Definition decided (s : CheckStatus) : bool :=
  str_in (status_str s) ["consistent"; "inconsistent"].

Definition finding (o : NumericCheckOutcome) : bool :=
  match oc_result o with Some c => decided (cr_status c) | None => false end.

(** [application/numeric_analysis.py:63-70 has_findings] *)
Definition has_findings (r : NumericAnalysisReport) : bool := existsb finding (rp_outcomes r).

(** [application/numeric_analysis.py:115-121 analyze_numeric_consistency] *)
Definition check_binding_scope (tenant : pystr) (g : CanonicalDocumentGraph) (b : ClaimBinding)
    : result unit :=
  _ ← require (bi_tenant_id b =s? tenant) (ValueError "binding tenant mismatch");
  _ ← require (bi_document_version_id b =s? gr_document_version_id g)
        (ValueError "binding document version mismatch");
  require (match bi_parse_manifest_id b with
           | None => true | Some m => m =s? gr_parse_manifest_id g end)
    (ValueError "binding manifest mismatch").

(** A claim without an accepted binding. *)
Definition review_outcome (claim_id reason : pystr) : NumericCheckOutcome :=
  {| oc_claim_id := claim_id; oc_status := "needs_review"; oc_reason := Some reason;
     oc_result := None; oc_holds := [] |}.

Section analysis.
Context `{Digest}.

(** [application/numeric_analysis.py:146-167 analyze_numeric_consistency] *)
Definition checked_outcome (observations : list NumericObservation) (g : CanonicalDocumentGraph)
    (accepted : list ClaimBinding) (r : CheckResult) : result NumericCheckOutcome :=
  b ← of_option KeyError (by_key bi_claim_id accepted (cr_claim_id r));
  let items := omap (by_key ob_id observations) (bi_observation_ids b) in
  notes ← validated_condition_ids b g items;
  hs ← map_result (λ o, observation_source_holds o g notes) items;
  Ok {| oc_claim_id := cr_claim_id r; oc_status := status_str (cr_status r);
        oc_reason := cr_reason r; oc_result := Some r; oc_holds := hs |}.

(** [application/numeric_analysis.py:85-199 analyze_numeric_consistency] *)
Definition analyze_numeric_consistency (tenant : pystr) (g : CanonicalDocumentGraph)
    (observations : list NumericObservation) (bindings : list ClaimBinding)
    (claims : list NumericClaim) : result NumericAnalysisReport :=
  _ ← require (gr_tenant_id g =s? tenant) (ValueError "numeric analysis tenant mismatch");
  _ ← require (forallb (λ o, bool_decide (observation_identity o = graph_identity g)) observations)
        (ValueError "observation snapshot mismatch");
  _ ← require (str_distinct (bi_claim_id <$> bindings)) (ValueError "duplicate claim binding");
  _ ← map_result (check_binding_scope tenant g) bindings;
  _ ← require (forallb (λ c, bool_decide (claim_identity c = graph_identity g)) claims)
        (ValueError "claim snapshot mismatch");
  let accepted := List.filter bi_binding_accepted bindings in
  let rejected := List.filter (λ b, negb (bi_binding_accepted b)) bindings in
  results ← check_numeric_consistency observations accepted tenant claims (Some g);
  outcomes ← map_result (checked_outcome observations g accepted) results;
  let surfaced := List.filter (λ b, negb (str_in (bi_claim_id b) (cr_claim_id <$> results))) rejected in
  let unbound := List.filter (λ c, negb (str_in (nc_claim_id c) (bi_claim_id <$> bindings))) claims in
  Ok {| rp_tenant_id := gr_tenant_id g; rp_document_version_id := gr_document_version_id g;
        rp_parse_manifest_id := gr_parse_manifest_id g; rp_source_sha256 := gr_source_sha256 g;
        rp_outcomes := outcomes
          ++ ((λ b, review_outcome (bi_claim_id b) BINDING_NOT_ACCEPTED) <$> surfaced)
          ++ ((λ c, review_outcome (nc_claim_id c) BINDING_ABSENT) <$> unbound) |}.

(** What the analysis is about: every input is in scope and named once. *)
Record in_scope (tenant : pystr) (g : CanonicalDocumentGraph) (bindings : list ClaimBinding)
    (claims : list NumericClaim) : Prop := {
  is_tenant : gr_tenant_id g = tenant;
  is_bindings : NoDup (bi_claim_id <$> bindings);
  is_claims : NoDup (nc_claim_id <$> claims) }.

Definition accepted_in (bindings : list ClaimBinding) := List.filter bi_binding_accepted bindings.
Definition rejected_in (bindings : list ClaimBinding) :=
  List.filter (λ b, negb (bi_binding_accepted b)) bindings.

(** Accepted and rejected bindings never share a claim. *)
Lemma accepted_rejected bindings id : NoDup (bi_claim_id <$> bindings) →
  id ∈ bi_claim_id <$> accepted_in bindings → id ∉ bi_claim_id <$> rejected_in bindings.
Proof.
  intros Hd (a & -> & [Ha Hacc]%elem_of_lfilter)%list_elem_of_fmap (r & He & [Hr Hrej]%elem_of_lfilter)%list_elem_of_fmap.
  assert (a = r) by (by eapply key_injective). subst. by rewrite Hacc in Hrej.
Qed.

(** What the analysis says of one accepted binding: the check's answer, with
    the source holds of the observations it cites. *)
Definition answers (observations : list NumericObservation) (claims : list NumericClaim)
    (g : CanonicalDocumentGraph) (b : ClaimBinding) (o : NumericCheckOutcome) : Prop :=
  ∃ r notes, check_binding observations claims (Some g) b = Ok r
    ∧ oc_claim_id o = bi_claim_id b ∧ oc_result o = Some r
    ∧ oc_status o = status_str (cr_status r) ∧ oc_reason o = cr_reason r
    ∧ let items := omap (by_key ob_id observations) (bi_observation_ids b) in
      validated_condition_ids b g items = Ok notes
      ∧ Forall2 (λ i h, observation_source_holds i g notes = Ok h) items (oc_holds o).

Lemma checked_outcome_answers observations claims g accepted b r o : NoDup (bi_claim_id <$> accepted) →
  b ∈ accepted → check_binding observations claims (Some g) b = Ok r →
  checked_outcome observations g accepted r = Ok o → answers observations claims g b o.
Proof.
  intros Hd Hb Hr. pose proof (check_binding_answers _ _ _ _ _ Hr) as (Hid & _).
  unfold checked_outcome. rewrite Hid, (by_key_elem bi_claim_id accepted b Hd Hb). cbn [of_option].
  intros (b' & [= <-] & Ho)%bind_Ok_inv. cbv zeta in Ho. apply bind_Ok_inv in Ho as (notes & Hn & Ho).
  apply bind_Ok_inv in Ho as (hs & Hhs%map_result_Ok & [= <-]). exists r, notes. cbv zeta. by split_and!.
Qed.

(** Every accepted binding is answered, in order. *)
Lemma outcomes_answer observations claims g accepted results outcomes : NoDup (bi_claim_id <$> accepted) →
  Forall2 (λ b r, check_binding observations claims (Some g) b = Ok r) accepted results →
  Forall2 (λ r o, checked_outcome observations g accepted r = Ok o) results outcomes →
  Forall2 (answers observations claims g) accepted outcomes.
Proof.
  intros Hd Hr Ho. apply Forall2_same_length_lookup. split.
  { apply Forall2_length in Hr, Ho. congruence. }
  intros k b o Hb Hko. destruct (Forall2_lookup_l _ _ _ _ _ Hr Hb) as (r & Hkr & Hcheck).
  destruct (Forall2_lookup_l _ _ _ _ _ Ho Hkr) as (o' & Ho' & Hout).
  assert (o' = o) as -> by congruence. apply list_elem_of_lookup_2 in Hb.
  by eapply checked_outcome_answers.
Qed.

Lemma answers_ids observations claims g accepted outcomes :
  Forall2 (answers observations claims g) accepted outcomes →
  oc_claim_id <$> outcomes = bi_claim_id <$> accepted.
Proof.
  induction 1 as [|b o bs os (r & notes & _ & Hid & _) _ IH]; [done|]. cbn. by rewrite Hid, IH.
Qed.

Definition unbound (bindings : list ClaimBinding) (claims : list NumericClaim) :=
  List.filter (λ c, negb (str_in (nc_claim_id c) (bi_claim_id <$> bindings))) claims.

Lemma unbound_not_bound bindings claims id :
  id ∈ nc_claim_id <$> unbound bindings claims → id ∉ bi_claim_id <$> bindings.
Proof.
  intros (c & -> & [_ Hc%negb_true_iff]%elem_of_lfilter)%list_elem_of_fmap. by apply str_in_false.
Qed.

(** A report, spelled out. *)
Lemma analyze_Ok tenant g observations bindings claims rep :
  analyze_numeric_consistency tenant g observations bindings claims = Ok rep →
  in_scope tenant g bindings claims
  ∧ ∃ outcomes, Forall2 (answers observations claims g) (accepted_in bindings) outcomes
      ∧ rep = {| rp_tenant_id := gr_tenant_id g; rp_document_version_id := gr_document_version_id g;
                 rp_parse_manifest_id := gr_parse_manifest_id g; rp_source_sha256 := gr_source_sha256 g;
                 rp_outcomes := outcomes
                   ++ ((λ b, review_outcome (bi_claim_id b) BINDING_NOT_ACCEPTED) <$> rejected_in bindings)
                   ++ ((λ c, review_outcome (nc_claim_id c) BINDING_ABSENT) <$> unbound bindings claims) |}.
Proof.
  unfold analyze_numeric_consistency. cbv zeta. intros E. apply bind_Ok_inv in E as (_ & Ht%require_Ok & E).
  apply bind_Ok_inv in E as (_ & _ & E). apply bind_Ok_inv in E as (_ & Hd%require_Ok & E).
  apply bind_Ok_inv in E as (_ & _ & E). apply bind_Ok_inv in E as (_ & _ & E).
  apply bind_Ok_inv in E as (results & Hr & E). apply bind_Ok_inv in E as (outcomes & Ho & E). injection E as <-.
  apply str_eqb_eq in Ht. apply str_distinct_iff in Hd.
  unfold check_numeric_consistency in Hr. apply bind_Ok_inv in Hr as (_ & [_ Hc]%require_Ok%andb_true_iff & Hr).
  apply str_distinct_iff in Hc. apply bind_Ok_inv in Hr as (_ & _ & Hr). apply bind_Ok_inv in Hr as (_ & _ & Hr).
  apply map_result_Ok in Hr, Ho. fold (accepted_in bindings) (rejected_in bindings) in *.
  assert (Ha : Forall2 (answers observations claims g) (accepted_in bindings) outcomes).
  { eapply outcomes_answer; [by apply lfilter_keys_NoDup|done|done]. }
  split; [by split|]. exists outcomes. split; [done|]. do 4 f_equal.
  assert (Hids : cr_claim_id <$> results = bi_claim_id <$> accepted_in bindings).
  { clear -Hr. induction Hr as [|b r bs rs Hb _ IH]; [done|]. cbn. rewrite IH. f_equal.
    by eapply check_binding_answers. }
  rewrite Hids. transitivity (List.filter (λ _ : ClaimBinding, true) (rejected_in bindings)).
  - apply filter_ext_in. intros b Hb%list_elem_of_In. apply negb_true_iff, str_in_false.
    intros Hin. eapply accepted_rejected; [exact Hd|exact Hin|]. by apply list_elem_of_fmap_2.
  - induction (rejected_in bindings) as [|b l IH]; [done|]. cbn. by rewrite IH.
Qed.

(** The claims of a report. *)
Definition report_ids (bindings : list ClaimBinding) (claims : list NumericClaim) : list pystr :=
  (bi_claim_id <$> accepted_in bindings) ++ (bi_claim_id <$> rejected_in bindings)
  ++ (nc_claim_id <$> unbound bindings claims).

Lemma report_ids_NoDup bindings claims : NoDup (bi_claim_id <$> bindings) →
  NoDup (nc_claim_id <$> claims) → NoDup (report_ids bindings claims).
Proof.
  intros Hb Hc. unfold report_ids. rewrite !NoDup_app. split_and!; try by apply lfilter_keys_NoDup.
  - intros id Ha. rewrite elem_of_app. intros [Hr|Hu]; [by eapply accepted_rejected|].
    apply lfilter_keys in Ha. by apply unbound_not_bound in Hu.
  - intros id Hr Hu. apply lfilter_keys in Hr. by apply unbound_not_bound in Hu.
Qed.

Lemma elem_of_report_ids bindings claims id :
  id ∈ report_ids bindings claims ↔ id ∈ bi_claim_id <$> bindings ∨ id ∈ nc_claim_id <$> claims.
Proof.
  unfold report_ids. rewrite !elem_of_app. split.
  - intros [Hid|[Hid|Hid]]; [left|left|right]; by eapply lfilter_keys.
  - destruct (decide (id ∈ bi_claim_id <$> bindings)) as [Hin|Hout].
    + intros _. apply list_elem_of_fmap in Hin as (b & -> & Hb).
      destruct (bi_binding_accepted b) eqn:E; [left|right; left]; apply list_elem_of_fmap_2, elem_of_lfilter;
        by rewrite E.
    + intros [Hid|(c & -> & Hc)%list_elem_of_fmap]; [done|]. right; right.
      apply list_elem_of_fmap_2, elem_of_lfilter. split; [done|]. by apply negb_true_iff, str_in_false.
Qed.

Lemma decided_iff s : decided s = true ↔ s = Consistent ∨ s = Inconsistent.
Proof. destruct s; vm_compute; intuition congruence. Qed.

Lemma report_findings observations claims g accepted outcomes t :
  Forall2 (answers observations claims g) accepted outcomes → Forall (λ o, oc_result o = None) t →
  existsb finding (outcomes ++ t) = true ↔
  ∃ b r, b ∈ accepted ∧ check_binding observations claims (Some g) b = Ok r
         ∧ (cr_status r = Consistent ∨ cr_status r = Inconsistent).
Proof.
  intros Ho Ht. setoid_rewrite <- decided_iff. rewrite existsb_exists. setoid_rewrite <- list_elem_of_In. split.
  - intros (o & [Hin|Hin]%elem_of_app & Hf).
    + apply list_elem_of_lookup in Hin as [k Hk].
      destruct (Forall2_lookup_r _ _ _ _ _ Ho Hk) as (b & Hb%list_elem_of_lookup_2 & r & notes & Hr & _ & Hres & _).
      unfold finding in Hf. rewrite Hres in Hf. eauto.
    + rewrite Forall_forall in Ht. unfold finding in Hf. by rewrite (Ht o Hin) in Hf.
  - intros (b & r & [k Hk]%list_elem_of_lookup & Hr & Hd).
    destruct (Forall2_lookup_l _ _ _ _ _ Ho Hk) as (o & Hko%list_elem_of_lookup_2 & r' & notes & Hr' & _ & Hres & _).
    exists o. split; [apply elem_of_app; by left|]. unfold finding. rewrite Hres. congruence.
Qed.

(** A report is exact. It is about the tenant's snapshot and has one outcome
    for every claim that is discovered or bound, and no other. An outcome with
    a result is the check's own answer to the accepted binding of that claim,
    whatever the other bindings are, with the source holds of what it cites;
    every other claim needs review, for a binding that was not accepted or for
    none. So there is a finding exactly when the check decides an accepted
    binding. *)
Theorem analysis_exact tenant g observations bindings claims rep :
  analyze_numeric_consistency tenant g observations bindings claims = Ok rep →
  gr_tenant_id g = tenant
  ∧ (rp_tenant_id rep, rp_document_version_id rep, rp_parse_manifest_id rep, rp_source_sha256 rep)
    = graph_identity g
  ∧ NoDup (oc_claim_id <$> rp_outcomes rep)
  ∧ (∀ id, id ∈ oc_claim_id <$> rp_outcomes rep
           ↔ id ∈ bi_claim_id <$> bindings ∨ id ∈ nc_claim_id <$> claims)
  ∧ (∀ b, b ∈ bindings → bi_binding_accepted b = true →
       ∃ o, o ∈ rp_outcomes rep ∧ answers observations claims g b o)
  ∧ (∀ o, o ∈ rp_outcomes rep → oc_result o = None →
       oc_status o = "needs_review"
       ∧ ((∃ b, b ∈ bindings ∧ bi_binding_accepted b = false ∧ bi_claim_id b = oc_claim_id o
                ∧ oc_reason o = Some BINDING_NOT_ACCEPTED)
          ∨ oc_claim_id o ∉ bi_claim_id <$> bindings ∧ oc_reason o = Some BINDING_ABSENT))
  ∧ (has_findings rep = true ↔ ∃ b r, b ∈ bindings ∧ bi_binding_accepted b = true
       ∧ check_binding observations claims (Some g) b = Ok r
       ∧ (cr_status r = Consistent ∨ cr_status r = Inconsistent)).
Proof.
  intros ([Ht Hb Hc] & outcomes & Ho & ->)%analyze_Ok. cbn [rp_outcomes]. split; [done|]. split; [done|].
  pose proof (answers_ids _ _ _ _ _ Ho) as Hids. unfold review_outcome.
  rewrite !fmap_app, Hids, <- !list_fmap_compose. fold (report_ids bindings claims).
  split; [by apply report_ids_NoDup|]. split; [apply elem_of_report_ids|]. split; [|split].
  - intros b Hin Ha. assert (Hacc : b ∈ accepted_in bindings) by by apply elem_of_lfilter.
    apply list_elem_of_lookup in Hacc as [k Hk]. destruct (Forall2_lookup_l _ _ _ _ _ Ho Hk) as (o & Hko & Hans).
    exists o. split; [|done]. apply elem_of_app. left. by eapply list_elem_of_lookup_2.
  - intros o [Hin|[Hin|Hin]%elem_of_app]%elem_of_app Hres.
    + apply list_elem_of_lookup in Hin as [k Hk].
      destruct (Forall2_lookup_r _ _ _ _ _ Ho Hk) as (b & _ & r & notes & _ & _ & Hr & _). congruence.
    + apply list_elem_of_fmap in Hin as (b & -> & [Hin Hrej%negb_true_iff]%elem_of_lfilter).
      split; [done|]. left. by exists b.
    + apply list_elem_of_fmap in Hin as (c & -> & Hin). split; [done|]. right. split; [|done].
      eapply unbound_not_bound, (list_elem_of_fmap_2 nc_claim_id), Hin.
  - unfold has_findings. cbn [rp_outcomes]. rewrite (report_findings _ _ _ _ _ _ Ho).
    + unfold accepted_in. setoid_rewrite elem_of_lfilter. naive_solver.
    + apply Forall_app. by split; apply Forall_fmap, Forall_true.
Qed.

End analysis.

(* ------------------------------------------------------------------ *)
(** ** A bound, a rejected and an unbound claim *)
(* ------------------------------------------------------------------ *)

Section sample.
#[local] Existing Instance Checksum.

Definition rejected_binding : ClaimBinding :=
  {| bi_claim_id := "e"; bi_tenant_id := bi_tenant_id sample_binding;
     bi_document_version_id := bi_document_version_id sample_binding; bi_kind := Comparison;
     bi_observation_ids := ["3"]; bi_reported_value := Some ("1" : pystr); bi_metric_raw := "CO2";
     bi_scope := None; bi_subject := None; bi_scope2_basis := None;
     bi_organizational_boundary := None; bi_unit := Some ("t" : pystr); bi_denominator := None;
     bi_source_refs := bi_source_refs sample_binding; bi_parse_manifest_id := Some manifest_id;
     bi_reporting_period := Some ("2023" : pystr); bi_quantity_kind := None; bi_baseline_period := None;
     bi_reported_value_ref := None; bi_binding_accepted := false; bi_aggregation := None;
     bi_baseline_subject := None; bi_subject_ref := None; bi_baseline_subject_ref := None;
     bi_product_comparison_accepted := false; bi_conditions := [] |}.

Definition unbound_claim : NumericClaim :=
  {| nc_claim_id := "d"; nc_tenant_id := tenant_uuid; nc_document_version_id := version_id;
     nc_parse_manifest_id := manifest_id; nc_source_sha256 := sample_sha; nc_quote := TEXT;
     nc_source_quality := "verified"; nc_source_refs := [span 1 TEXT 0 16] |}.

Abbreviation sample_report :=
  (analyze_numeric_consistency tenant_uuid sample_graph sample_observations
    [rejected_binding; sample_binding] [unbound_claim; sample_claim]).

Lemma sample_report_ok :
  match sample_report with
  | Ok r => has_findings r && bool_decide (oc_claim_id <$> rp_outcomes r = (["c"; "e"; "d"] : list pystr))
  | Raise _ => false
  end = true.
Proof. vm_compute. reflexivity. Qed.

Lemma analysis_exact_witness :
  ∃ rep, sample_report = Ok rep ∧ oc_claim_id <$> rp_outcomes rep = ["c"; "e"; "d"]
    ∧ ∃ b r, b ∈ [rejected_binding; sample_binding] ∧ bi_binding_accepted b = true
        ∧ @check_binding Checksum sample_observations [unbound_claim; sample_claim] (Some sample_graph) b = Ok r
        ∧ (cr_status r = Consistent ∨ cr_status r = Inconsistent).
Proof.
  pose proof sample_report_ok as H. destruct sample_report as [rep|e] eqn:E; [|discriminate H].
  apply andb_true_iff in H as [Hf Hids%bool_decide_eq_true].
  destruct (@analysis_exact Checksum tenant_uuid sample_graph sample_observations
              [rejected_binding; sample_binding] [unbound_claim; sample_claim] rep E)
    as (_ & _ & _ & _ & _ & _ & Hfind).
  exists rep. split; [done|]. split; [exact Hids|]. exact (proj1 Hfind Hf).
Defined.
End sample.
