(* ===== verification/Claims.v ===== *)
(** * Discovery of atomic claims.

    [application/claims.py]: the strict boundary around the model's extraction
    of spans, and the walk over every in-scope block of the graph that turns
    spans into claims and keeps everything else as an explicit exclusion; with
    [continuations] and [fragment_refs] of
    [application/ingest/source_continuations.py].

    The extractor is an argument that answers a packet; each packet is sent at
    most once, since it names its source. The Unicode database's [isalnum] and
    [\d], NFC and [uuid5] are arguments too. *)
From S2P Require Import Prelude PyVal JsonCodec Decimal Values PyDate Digest RulePack Geometry Graph.
Open Scope py_scope.

(* ------------------------------------------------------------------ *)
(** ** Records *)
(* ------------------------------------------------------------------ *)

(** [application/claims.py:20-26 ClaimScope] *)
Record ClaimScope : Set := {
  sc_tenant_id : pystr; sc_document_version_id : pystr; sc_parse_manifest_id : pystr;
  sc_mode : pystr; sc_selected_pages : list Z }.

Fixpoint increasing (l : list Z) : bool :=
  match l with a :: ((b :: _) as r) => (a <? b)%Z && increasing r | _ => true end.

(** [tuple(sorted(set(pages))) != pages]: the pages strictly increase.
    [application/claims.py:28-40 ClaimScope.__post_init__] *)
Definition mk_ClaimScope (tenant version manifest mode : pystr) (pages : list Z) : result ClaimScope :=
  tenant ← require_uuid (PStr tenant);
  version ← require_uuid (PStr version);
  manifest ← require_uuid (PStr manifest);
  _ ← require (str_in mode ["full"; "declared_subset"] && forallb (λ p, (1 <=? p)%Z) pages
               && increasing pages && negb ((mode =s? "full") && nonempty_list pages)
               && negb ((mode =s? "declared_subset") && negb (nonempty_list pages)))
        (ValueError "invalid full/declared_subset scope");
  Ok {| sc_tenant_id := tenant; sc_document_version_id := version; sc_parse_manifest_id := manifest;
        sc_mode := mode; sc_selected_pages := pages |}.

(** [application/claims.py:43-50 ExtractionProfile] *)
Record ExtractionProfile : Set := {
  pf_model_sha256 : pystr; pf_prompt_sha256 : pystr; pf_rule_sha256 : pystr; pf_synthetic : bool;
  pf_replicate_id : Z; pf_extraction_epoch : Z }.

(** [application/claims.py:52-62 ExtractionProfile.__post_init__] *)
Definition mk_ExtractionProfile (p : ExtractionProfile) : result ExtractionProfile :=
  _ ← require_sha256 (PStr (pf_model_sha256 p));
  _ ← require_sha256 (PStr (pf_prompt_sha256 p));
  _ ← require_sha256 (PStr (pf_rule_sha256 p));
  _ ← require ((1 <=? pf_replicate_id p)%Z && (pf_replicate_id p <=? 3)%Z && (1 <=? pf_extraction_epoch p)%Z)
        (ValueError "invalid extraction profile");
  Ok p.

(** [application/claims.py:96-103 ExtractionSpan] *)
Record ExtractionSpan : Set := {
  sp_char_start : Z; sp_char_end : Z; sp_quote : pystr; sp_kind : pystr; sp_reason : option pystr;
  sp_topic_ids : list pystr }.

(** [application/claims.py:184-191 ExtractionReceipt] *)
Record ExtractionReceipt : Set := {
  rc_source_id : pystr; rc_packet_sha256 : pystr; rc_response_sha256 : option pystr;
  rc_raw_response_json : option pystr; rc_profile : ExtractionProfile; rc_status : pystr }.

(** [application/claims.py:194-206 Claim] *)
Record Claim : Set := {
  cl_claim_id : pystr; cl_tenant_id : pystr; cl_document_version_id : pystr;
  cl_parse_manifest_id : pystr; cl_source_sha256 : pystr; cl_quote : pystr;
  cl_source_refs : list SourceRef; cl_source_quality : pystr; cl_topic_ids : list pystr;
  cl_receipt : ExtractionReceipt; cl_revision : Z }.

(** [application/claims.py:221-227 ClaimExclusion] *)
Record ClaimExclusion : Set := {
  ex_source_id : pystr; ex_page_num : Z; ex_reason : pystr; ex_state : pystr;
  ex_source_ref : option SourceRef }.

(** [application/claims.py:230-239 ClaimDiscovery] *)
Record ClaimDiscovery : Set := {
  di_scope : ClaimScope; di_source_sha256 : pystr; di_claims : list Claim;
  di_exclusions : list ClaimExclusion; di_processed_source_ids : list pystr;
  di_receipts : list ExtractionReceipt; di_synthetic : bool; di_quality_issues : list QualityIssue }.

(* ------------------------------------------------------------------ *)
(** ** The extractor *)
(* ------------------------------------------------------------------ *)

(** What [extract] does: answers, rejects its own output with a code, loses its
    transport ([TimeoutError], [ConnectionError]) or raises anything else.
    [application/claims.py:89-93 ClaimExtractorPort] *)
Inductive extraction : Set :=
| Replied (payload : pyval)
| OutputError (failure_code : pyval)
| TransportError
| Crashed (e : exn).

Definition code_char (c : N) : bool :=
  ((65 <=? c) && (c <=? 90) || (48 <=? c) && (c <=? 57) || (c =? 95))%N.

(** [(?:MODEL|EXTRACTION|UPSTAGE|UPSTREAM|TABLE|DISPLAY)_[A-Z0-9_]{1,72}]
    [application/claims.py:72-80 ExtractionOutputError.__init__] *)
Definition failure_code (v : pyval) : option pystr :=
  match v with
  | PStr s =>
      if existsb (λ p, starts_with p s
                       && (let rest := drop (length p) s in
                           (1 <=? length rest)%nat && (length rest <=? 72)%nat && forallb code_char rest))
           ["MODEL_"; "EXTRACTION_"; "UPSTAGE_"; "UPSTREAM_"; "TABLE_"; "DISPLAY_"]
      then Some s else None
  | _ => None
  end.

Section claims.
Context `{Digest} (nfc : pystr → pystr) (uuid5 : pystr → pystr → pystr).
Context (isalnum digit : N → bool).

(* ------------------------------------------------------------------ *)
(** ** The spans of a reply *)
(* ------------------------------------------------------------------ *)

Definition ascii_alpha (c : N) : bool :=
  ((65 <=? c) && (c <=? 90) || (97 <=? c) && (c <=? 122))%N.

Definition char_at (text : pystr) (i : Z) : option N :=
  if (i <? 0)%Z then None else text !! Z.to_nat i.

Definition holds_at (p : N → bool) (text : pystr) (i : Z) : bool :=
  match char_at text i with Some c => p c | None => false end.

(** One character of the scan: the open quotations, last first, and the
    ranges of unmatched closings.
    [application/claims.py:111-124 _unclosed_quotation_ranges] *)
Definition quotation_step (text : pystr) (opening closing : N) (acc : list Z * list (Z * Z)) (i : Z)
    : list Z * list (Z * Z) :=
  match char_at text i with
  | None => acc
  | Some c =>
      if (c =? 8217)%N && (0 <? i)%Z && (i <? py_len text - 1)%Z
         && holds_at ascii_alpha text (i - 1) && holds_at ascii_alpha text (i + 1) then acc
      else if (c =? opening)%N then (i :: acc.1, acc.2)
      else if (c =? closing)%N then
        match acc.1 with
        | _ :: stack => (stack, acc.2)
        | [] => ([], acc.2 ++ [(0, i + 1)%Z])
        end
      else acc
  end.

(** [application/claims.py:106-126 _unclosed_quotation_ranges] *)
Definition unclosed_quotation_ranges (text : pystr) : list (Z * Z) :=
  ([(8216, 8217); (8220, 8221)]%N : list (N * N)) ≫= λ q,
    let '(stack, ranges) := foldl (quotation_step text q.1 q.2) ([], []) (Z.of_nat <$> seq 0 (length text)) in
    ranges ++ ((λ i, (i, py_len text)) <$> rev stack).

Fixpoint span_run (s : pystr) : nat :=
  match s with c :: r => if digit c then S (span_run r) else 0 | [] => 0 end%nat.

(** [(?:[,.]\d+)*], greedily: the length it takes. *)
Fixpoint number_groups (fuel : nat) (s : pystr) : nat :=
  match fuel, s with
  | S fuel, c :: r =>
      if (c =? 44)%N || (c =? 46)%N then
        match span_run r with
        | O => 0
        | n => S n + number_groups fuel (drop n r)
        end
      else 0
  | _, _ => 0
  end%nat.

(** [[+−-]?\d+(?:[,.]\d+)*%?] at the start of [s]: its length. *)
Definition number_match (s : pystr) : option nat :=
  let sign := match s with c :: _ => if (c =? 43)%N || (c =? 8722)%N || (c =? 45)%N then 1 else 0 | [] => 0 end%nat in
  let r := drop sign s in
  match span_run r with
  | O => None
  | n =>
      let r := drop n r in
      let g := number_groups (length r) r in
      let percent := match drop g r with c :: _ => if (c =? 37)%N then 1 else 0 | [] => 0 end%nat in
      Some (sign + n + g + percent)%nat
  end.

(** [re.finditer]: the spans of the matches, from position [pos]. *)
Fixpoint numbers_from (fuel : nat) (pos : Z) (s : pystr) : list (Z * Z) :=
  match fuel, s with
  | S fuel, _ :: r =>
      match number_match s with
      | Some n => (pos, pos + Z.of_nat n)%Z :: numbers_from fuel (pos + Z.of_nat n) (drop n s)
      | None => numbers_from fuel (pos + 1) r
      end
  | _, _ => []
  end.

(** [application/claims.py:160-163 validate_extraction_response] *)
Definition numbers_of (text : pystr) : list (Z * Z) := numbers_from (S (length text)) 0 text.

(** [application/claims.py:157-165 validate_extraction_response] *)
Definition cuts_token (text : pystr) (start end_ : Z) : bool :=
  (0 <? start)%Z && holds_at isalnum text (start - 1) && holds_at isalnum text start
  || (end_ <? py_len text)%Z && holds_at isalnum text (end_ - 1) && holds_at isalnum text end_
  || existsb (λ n : Z * Z, (n.1 <? start)%Z && (start <? n.2)%Z || (n.1 <? end_)%Z && (end_ <? n.2)%Z)
       (numbers_of text).

Definition span_fields : list pystr := ["char_start"; "char_end"; "quote"; "kind"; "reason"; "topic_ids"].

Definition set_of_keys (d : pydict) (names : list pystr) : bool :=
  forallb (λ k, str_in k names) d.*1 && forallb (λ n, str_in n d.*1) names.

Definition topic (v : pyval) : option pystr :=
  match v with PStr s => if nonblank s then Some s else None | _ => None end.

(** [application/claims.py:144-177 validate_extraction_response] *)
Definition validate_span (text : pystr) (unclosed : list (Z * Z)) (item : pyval) : result ExtractionSpan :=
  d ← as_dict (ValueError "invalid extraction fields; grades and labels are prohibited") item;
  _ ← require (set_of_keys d span_fields)
        (ValueError "invalid extraction fields; grades and labels are prohibited");
  let get k := default PNone (dict_get k d) in
  '(start, end_) ← of_option (ValueError "extraction quote/offset does not match source")
      match get "char_start", get "char_end" with PInt a, PInt b => Some (a, b) | _, _ => None end;
  _ ← require ((0 <=? start)%Z && (start <? end_)%Z && (end_ <=? py_len text)%Z
               && eq_str (get "quote") (slice text start end_) && nonblank (slice text start end_))
        (ValueError "extraction quote/offset does not match source");
  let claim := eq_str (get "kind") "claim" in
  _ ← reject (claim && existsb (λ r : Z * Z, (start <? r.2)%Z && (r.1 <? end_)%Z) unclosed)
        (ValueError "claim overlaps an unclosed source quotation");
  _ ← reject (claim && cuts_token text start end_) (ValueError "claim quote cuts a token boundary");
  kind ← as_str (ValueError "invalid extraction kind/reason/topics") (get "kind");
  _ ← require (str_in kind ["claim"; "excluded"; "unknown"])
        (ValueError "invalid extraction kind/reason/topics");
  reason ← of_option (ValueError "invalid extraction kind/reason/topics")
      (if claim then if is_none (get "reason") then Some None else None
       else Some <$> topic (get "reason"));
  topics ← of_option (ValueError "invalid extraction kind/reason/topics")
      match get "topic_ids" with PList l => mapM topic l | _ => None end;
  Ok {| sp_char_start := start; sp_char_end := end_; sp_quote := slice text start end_;
        sp_kind := kind; sp_reason := reason; sp_topic_ids := topics |}.

Fixpoint overlapping (l : list ExtractionSpan) : bool :=
  match l with
  | a :: ((b :: _) as r) => (sp_char_start b <? sp_char_end a)%Z || overlapping r
  | _ => false
  end.

Definition span_leb (a b : ExtractionSpan) : bool := (sp_char_start a <=? sp_char_start b)%Z.

(** [application/claims.py:129-181 validate_extraction_response] *)
Definition validate_extraction_response (payload : pyval) (text : pystr) (reject_unclosed : bool)
    : result (list ExtractionSpan) :=
  d ← as_dict (ValueError "extraction response must contain only spans") payload;
  _ ← require (set_of_keys d ["spans"]) (ValueError "extraction response must contain only spans");
  items ← match default PNone (dict_get "spans" d) with
          | PList l => Ok l | _ => Raise (ValueError "spans must be an array") end;
  let unclosed := if reject_unclosed then unclosed_quotation_ranges text else [] in
  spans ← map_result (validate_span text unclosed) items;
  let spans := isort span_leb spans in
  _ ← reject (overlapping spans) (ValueError "overlapping extraction spans");
  Ok spans.

(* ------------------------------------------------------------------ *)
(** ** Blocks and their fragments *)
(* ------------------------------------------------------------------ *)

(** [application/ingest/graph_fusion.py:424-426 CanonicalBlock.normalized_text] *)
Definition normalized_text (b : CanonicalBlock) : result pystr := t ← block_raw_text b; Ok (nfc t).

(** [application/ingest/graph_fusion.py:428-440 CanonicalBlock.source_ref] *)
Definition block_source_ref (b : CanonicalBlock) (nstart nend : option Z) : result SourceRef :=
  w ← of_option (ValueError "conflicted candidate has no selected source") (kb_winner b);
  c ← of_option IndexError (winner_of b w);
  canonicalize_source_ref nfc (cb_source c) (cb_geometry c) [] (Some (kb_source_id b)) nstart nend
    (PStr "candidate").

(** [candidates[0].bbox] *)
Definition block_bbox (b : CanonicalBlock) : option bbox := c ← head (kb_candidates b); cb_bbox c.

(** [application/ingest/source_continuations.py:6 JOIN_CONTEXT] *)
Definition JOIN_CONTEXT : pystr := "source_recovery_join=ps1-v1".

Definition settled_quality (b : CanonicalBlock) : bool := str_in (kb_quality b) ["verified"; "unverified"].

Definition chosen (b : CanonicalBlock) : bool := bool_decide (is_Some (kb_winner b)).

(** [blocks = {b.source_id: b for b in graph.blocks}]: the last of an id. *)
Definition last_block (g : CanonicalDocumentGraph) (id : pystr) : option CanonicalBlock :=
  by_key kb_source_id (gr_blocks g) id.

(** [application/ingest/source_continuations.py:22-28 continuations] *)
Definition valid_part (b p : CanonicalBlock) : bool :=
  (kb_kind p =s? "paragraph") && chosen p && bool_decide (is_Some (block_bbox p)) && settled_quality p
  && (page_of_block p =? page_of_block b)%Z.

Definition part_leb (a b : CanonicalBlock) : bool :=
  match block_bbox a, block_bbox b with
  | Some x, Some y => lex_leb PyFloat.eqb f_leb f_leb (by0 x, bx0 x) (by0 y, bx0 y)
  | _, _ => false
  end.

(** The parts a joined paragraph was derived from; [None] for any other block.
    [application/ingest/source_continuations.py:12-34 continuations] *)
Definition continuation_parts (g : CanonicalDocumentGraph) (b : CanonicalBlock)
    : result (option (list CanonicalBlock)) :=
  match kb_winner b with
  | None => Ok None
  | Some w =>
      if negb (settled_quality b) then Ok None
      else
        c ← of_option IndexError (winner_of b w);
        if negb (str_in JOIN_CONTEXT (cb_context c)) then Ok None
        else
          parts ← map_result (λ e, of_option KeyError (last_block g (ed_target e)))
                    (List.filter (λ e, (ed_source e =s? kb_source_id b) && (ed_relation e =s? "derived_from"))
                       (gr_edges g));
          _ ← require (forallb (valid_part b) parts) (ValueError "SOURCE_CONTINUATION_INVALID");
          let parts := isort part_leb parts in
          texts ← map_result block_raw_text parts;
          raw ← block_raw_text b;
          _ ← require ((2 <=? py_len parts)%Z && (str_join [10%N] texts =s? raw))
                (ValueError "SOURCE_CONTINUATION_INVALID");
          Ok (Some parts)
  end.

(** [application/ingest/source_continuations.py:9-35 continuations] *)
Definition continuations (g : CanonicalDocumentGraph) : result (list (pystr * list CanonicalBlock)) :=
  mbind (M := result) (λ parts : list (option (list CanonicalBlock)),
    Ok (dict_of (omap (λ bp : CanonicalBlock * option (list CanonicalBlock), pair (kb_source_id bp.1) <$> bp.2)
                   (zip (gr_blocks g) parts)))) (map_result (continuation_parts g) (gr_blocks g)).

(** [application/ingest/source_continuations.py:38-50 fragment_refs] *)
Fixpoint fragment_refs (parts : list CanonicalBlock) (cursor start end_ : Z) : result (list SourceRef) :=
  match parts with
  | [] => Ok []
  | p :: parts =>
      text ← normalized_text p;
      let a := Z.max 0 (start - cursor) in
      let b := Z.min (py_len text) (end_ - cursor) in
      ref ← (if (a <? b)%Z then r ← block_source_ref p (Some a) (Some b); Ok [r] else Ok []);
      rest ← fragment_refs parts (cursor + py_len text + 1) start end_;
      Ok (ref ++ rest)
  end.

(* ------------------------------------------------------------------ *)
(** ** Discovery *)
(* ------------------------------------------------------------------ *)

Definition profile_val (p : ExtractionProfile) : pyval :=
  PDict [("model_sha256", PStr (pf_model_sha256 p)); ("prompt_sha256", PStr (pf_prompt_sha256 p));
         ("rule_sha256", PStr (pf_rule_sha256 p)); ("synthetic", PBool (pf_synthetic p));
         ("replicate_id", PInt (pf_replicate_id p)); ("extraction_epoch", PInt (pf_extraction_epoch p))].

Definition receipt_val (r : ExtractionReceipt) : pyval :=
  PDict [("source_id", PStr (rc_source_id r)); ("packet_sha256", PStr (rc_packet_sha256 r));
         ("response_sha256", opt_val (rc_response_sha256 r));
         ("raw_response_json", opt_val (rc_raw_response_json r)); ("profile", profile_val (rc_profile r));
         ("status", PStr (rc_status r))].

(** [application/claims.py:309-321 discover_atomic_claims] *)
Definition packet_of (s : ClaimScope) (sha : pystr) (p : ExtractionProfile) (b : CanonicalBlock)
    (text : pystr) : pyval :=
  PDict [("tenant_id", PStr (sc_tenant_id s)); ("document_version_id", PStr (sc_document_version_id s));
         ("parse_manifest_id", PStr (sc_parse_manifest_id s)); ("source_sha256", PStr sha);
         ("extraction_profile", profile_val p);
         ("untrusted_document_data",
          PDict [("source_id", PStr (kb_source_id b)); ("page_num", PInt (page_of_block b));
                 ("kind", PStr (kb_kind b)); ("text", PStr text)])].

(** What one block adds: claims, exclusions, whether it was processed, and the
    receipt of its call. *)
Record found : Set := {
  fo_claims : list Claim; fo_exclusions : list ClaimExclusion; fo_processed : list pystr;
  fo_receipts : list ExtractionReceipt }.

Definition excluded (b : CanonicalBlock) (reason state : pystr) (ref : option SourceRef) : ClaimExclusion :=
  {| ex_source_id := kb_source_id b; ex_page_num := page_of_block b; ex_reason := reason;
     ex_state := state; ex_source_ref := ref |}.

Definition only_excluded (e : ClaimExclusion) : found :=
  {| fo_claims := []; fo_exclusions := [e]; fo_processed := []; fo_receipts := [] |}.

(** [application/claims.py:325-353 discover_atomic_claims] *)
Definition failed_block (b : CanonicalBlock) (p : ExtractionProfile) (packet_hash reason : pystr)
    : result found :=
  ref ← block_source_ref b None None;
  Ok {| fo_claims := []; fo_exclusions := [excluded b reason "unknown" (Some ref)]; fo_processed := [];
        fo_receipts := [{| rc_source_id := kb_source_id b; rc_packet_sha256 := packet_hash;
                           rc_response_sha256 := None; rc_raw_response_json := None;
                           rc_profile := p; rc_status := "failed" |}] |}.

(** [application/claims.py:398-434 discover_atomic_claims] *)
Definition span_outcome (s : ClaimScope) (sha : pystr) (b : CanonicalBlock)
    (parts : list CanonicalBlock) (receipt : ExtractionReceipt) (span : ExtractionSpan)
    : result (list Claim * list ClaimExclusion) :=
  ref ← block_source_ref b (Some (sp_char_start span)) (Some (sp_char_end span));
  if sp_kind span =s? "claim" then
    more ← fragment_refs parts 0 (sp_char_start span) (sp_char_end span);
    h ← canonical_hash (PDict [("tenant_id", PStr (sc_tenant_id s)); ("source_sha256", PStr sha);
                               ("source", source_ref_val ref); ("receipt", receipt_val receipt)]);
    Ok ([{| cl_claim_id := uuid5 (sc_parse_manifest_id s) h; cl_tenant_id := sc_tenant_id s;
            cl_document_version_id := sc_document_version_id s;
            cl_parse_manifest_id := sc_parse_manifest_id s; cl_source_sha256 := sha;
            cl_quote := quote ref; cl_source_refs := ref :: more; cl_source_quality := kb_quality b;
            cl_topic_ids := sp_topic_ids span; cl_receipt := receipt; cl_revision := 1 |}], [])
  else
    let reason := match sp_reason span with Some (_ :: _ as r) => r | _ => "unclassified" end in
    Ok ([], [excluded b reason (sp_kind span) (Some ref)]).

(** The text before a span that no span covers.
    [application/claims.py:384-395 discover_atomic_claims] *)
Definition gap_outcome (b : CanonicalBlock) (text : pystr) (cursor upto : Z)
    : result (list ClaimExclusion) :=
  if nonblank (slice text cursor upto) then
    ref ← block_source_ref b (Some cursor) (Some upto);
    Ok [excluded b "unprocessed_span" "unknown" (Some ref)]
  else Ok [].

(** [application/claims.py:382-435 discover_atomic_claims] *)
Fixpoint walk_spans (s : ClaimScope) (sha : pystr) (b : CanonicalBlock) (text : pystr)
    (parts : list CanonicalBlock) (receipt : ExtractionReceipt) (cursor : Z)
    (spans : list ExtractionSpan) : result (list Claim * list ClaimExclusion) :=
  match spans with
  | [] => gap ← gap_outcome b text cursor (py_len text); Ok ([], gap)
  | span :: spans =>
      gap ← gap_outcome b text cursor (sp_char_start span);
      here ← span_outcome s sha b parts receipt span;
      rest ← walk_spans s sha b text parts receipt (sp_char_end span) spans;
      Ok (here.1 ++ rest.1, gap ++ here.2 ++ rest.2)
  end.

(** [application/claims.py:354-435 discover_atomic_claims] *)
Definition replied_block (s : ClaimScope) (sha : pystr) (p : ExtractionProfile) (b : CanonicalBlock)
    (text : pystr) (parts : list CanonicalBlock) (packet_hash : pystr) (payload : pyval) : result found :=
  match validate_extraction_response payload text false with
  | Raise e =>
      if is_value_error e || bool_decide (e = TypeError) || bool_decide (e = KeyError)
      then failed_block b p packet_hash "MODEL_SPAN_OR_SCHEMA_INVALID" else Raise e
  | Ok spans =>
      h ← canonical_hash payload;
      json ← canonical_json payload;
      let receipt := {| rc_source_id := kb_source_id b; rc_packet_sha256 := packet_hash;
                        rc_response_sha256 := Some h; rc_raw_response_json := Some json;
                        rc_profile := p; rc_status := "processed" |} in
      r ← walk_spans s sha b text parts receipt 0 spans;
      Ok {| fo_claims := r.1; fo_exclusions := r.2; fo_processed := [kb_source_id b];
            fo_receipts := [receipt] |}
  end.

(** [application/claims.py:276-435 discover_atomic_claims] *)
Definition discover_block (s : ClaimScope) (sha : pystr) (p : ExtractionProfile)
    (extract : pyval → extraction) (joined : list (pystr * list CanonicalBlock)) (b : CanonicalBlock)
    : result found :=
  let fragments := joined.*2 ≫= fmap kb_source_id in
  if (sc_mode s =s? "declared_subset")
     && negb (existsb (Z.eqb (page_of_block b)) (sc_selected_pages s)) then
    Ok (only_excluded (excluded b "outside_declared_subset" "excluded" None))
  else if str_in (kb_source_id b) fragments then
    ref ← block_source_ref b None None;
    Ok (only_excluded (excluded b "source_continuation_fragment" "excluded" (Some ref)))
  else if negb (settled_quality b) || negb (chosen b) then
    let state := if kb_quality b =s? "conflicted" then "conflict"
                 else if kb_quality b =s? "unreadable" then "unreadable" else "unknown" in
    Ok (only_excluded (excluded b (kb_quality b) state None))
  else
    text ← normalized_text b;
    if negb (nonblank text) then
      ref ← block_source_ref b None None;
      Ok (only_excluded (excluded b "empty_source" "unknown" (Some ref)))
    else
      let packet := packet_of s sha p b text in
      h ← canonical_hash packet;
      match extract packet with
      | Crashed e => Raise e
      | TransportError => failed_block b p h "extraction_failed"
      | OutputError code => failed_block b p h (default "extraction_failed" (failure_code code))
      | Replied payload =>
          replied_block s sha p b text (default [] (dict_get (kb_source_id b) joined)) h payload
      end.

(** [application/claims.py:258-267 discover_atomic_claims] *)
Fixpoint check_blocks (version manifest : pystr) (seen : list pystr) (l : list CanonicalBlock) : result unit :=
  match l with
  | [] => Ok tt
  | b :: l =>
      id ← require_uuid (PStr (kb_source_id b));
      _ ← require (nonempty_list (kb_candidates b) && negb (str_in id seen))
            (ValueError "empty/duplicate canonical source");
      _ ← require (forallb (λ c, (ns_document_version_id (cb_source c) =s? version)
                                 && (ns_parse_manifest_id (cb_source c) =s? manifest)) (kb_candidates b))
            (ValueError "source identity mismatch");
      check_blocks version manifest (id :: seen) l
  end.

(** [application/claims.py:250-267 discover_atomic_claims] *)
Definition check_graph (g : CanonicalDocumentGraph) (s : ClaimScope) : result unit :=
  let same t v m := (t =s? sc_tenant_id s) && (v =s? sc_document_version_id s)
                    && (m =s? sc_parse_manifest_id s) in
  _ ← require (same (gr_tenant_id g) (gr_document_version_id g) (gr_parse_manifest_id g))
        (ValueError "graph identity mismatch");
  _ ← require_sha256 (PStr (gr_source_sha256 g));
  _ ← each (λ c, _ ← require (same (bt_tenant_id c) (bt_document_version_id c) (bt_parse_manifest_id c))
                       (ValueError "candidate identity mismatch");
                 require (bt_source_sha256 c =s? gr_source_sha256 g)
                   (ValueError "candidate artifact identity mismatch")) (gr_candidates g);
  check_blocks (sc_document_version_id s) (sc_parse_manifest_id s) [] (gr_blocks g).

(** [application/claims.py:242-445 discover_atomic_claims] *)
Definition discover_atomic_claims (g : CanonicalDocumentGraph) (s : ClaimScope) (p : ExtractionProfile)
    (extract : pyval → extraction) : result ClaimDiscovery :=
  _ ← check_graph g s;
  joined ← continuations g;
  fs ← map_result (discover_block s (gr_source_sha256 g) p extract joined) (isort block_leb (gr_blocks g));
  Ok {| di_scope := s; di_source_sha256 := gr_source_sha256 g; di_claims := fs ≫= fo_claims;
        di_exclusions := fs ≫= fo_exclusions; di_processed_source_ids := fs ≫= fo_processed;
        di_receipts := fs ≫= fo_receipts;
        di_synthetic := pf_synthetic p || existsb bt_synthetic (gr_candidates g);
        di_quality_issues := gr_issues g |}.
End claims.
