(* ===== verification/ClaimsSpec.v ===== *)
(** * What discovery promises.

    The boundary around the model's spans as a property of every reply; that a
    discovery leaves nothing of the document unaccounted for; that every claim
    cites its own source; and that a reply can only affect its own block. *)
From S2P Require Import Prelude PyVal JsonCodec Decimal Values PyDate Digest RulePack Geometry Graph Claims GraphSpec NumericSpec.
Open Scope py_scope.

(* ------------------------------------------------------------------ *)
(** ** The spans of a reply *)
(* ------------------------------------------------------------------ *)

Section boundary.
Context (isalnum digit : N → bool).

Definition topics_named (s : ExtractionSpan) : Prop := ∀ t, t ∈ sp_topic_ids s → nonblank t = true.

(** A span that stands where it says, with what it may say. *)
Record well_placed (text : pystr) (s : ExtractionSpan) : Prop := {
  wp_bounds : (0 <= sp_char_start s < sp_char_end s)%Z ∧ (sp_char_end s <= py_len text)%Z;
  wp_quote : sp_quote s = slice text (sp_char_start s) (sp_char_end s) ∧ nonblank (sp_quote s) = true;
  wp_kind : sp_kind s ∈ (["claim"; "excluded"; "unknown"] : list pystr);
  wp_reason : match sp_reason s with
              | None => sp_kind s = "claim" | Some r => sp_kind s ≠ "claim" ∧ nonblank r = true end;
  wp_token : sp_kind s = "claim" → cuts_token isalnum digit text (sp_char_start s) (sp_char_end s) = false;
  wp_topics : topics_named s }.

Lemma topic_Some v t : topic v = Some t → v = PStr t ∧ nonblank t = true.
Proof. destruct v; try done. cbn. destruct (nonblank s) eqn:E; [|done]. by intros [= ->]. Qed.

Lemma topics_nonblank l ts : mapM topic l = Some ts → ∀ t, t ∈ ts → nonblank t = true.
Proof.
  intros Hm%mapM_Some t Ht. apply list_elem_of_lookup in Ht as [i Hi].
  destruct (Forall2_lookup_r _ _ _ _ _ Hm Hi) as (v & _ & Hv). by apply topic_Some in Hv as [_ ?].
Qed.

Lemma validate_span_Ok text unclosed item s :
  validate_span isalnum digit text unclosed item = Ok s →
  well_placed text s ∧ ∃ d, item = PDict d ∧ set_of_keys d span_fields = true.
Proof.
  unfold validate_span. intros (d & Hd & Hr)%bind_Ok_inv. destruct item; try discriminate Hd. injection Hd as ->.
  apply bind_Ok_inv in Hr as (_ & Hkeys%require_Ok & Hr). cbv zeta in Hr.
  apply bind_Ok_inv in Hr as ([a b] & Hab%of_option_Ok & Hr).
  apply bind_Ok_inv in Hr as (_ & Hq%require_Ok & Hr). apply bind_Ok_inv in Hr as (_ & _ & Hr).
  apply bind_Ok_inv in Hr as (_ & Hcut%reject_Ok & Hr). apply bind_Ok_inv in Hr as (kind & Hkind & Hr).
  apply bind_Ok_inv in Hr as (_ & Hin%require_Ok%str_in_iff & Hr).
  apply bind_Ok_inv in Hr as (reason & Hreason%of_option_Ok & Hr).
  apply bind_Ok_inv in Hr as (topics & Ht%of_option_Ok & [= <-]). split; [|eauto].
  rewrite !andb_true_iff in Hq. destruct Hq as ((((H1 & H2) & H3) & _) & Hnb). apply as_str_Ok in Hkind.
  rewrite Hkind in *. cbn [eq_str] in *. str_prop. split; cbn; [lia|done|done| | |].
  - destruct (str_eqb kind "claim") eqn:Ek; str_prop.
    + destruct (is_none _); [by injection Hreason as <-|done].
    + destruct (topic _) as [r|] eqn:Er; [|done]. injection Hreason as <-. by apply topic_Some in Er as [_ ?].
  - intros ->. by rewrite str_eqb_refl in Hcut.
  - destruct (default PNone (dict_get "topic_ids" d)); try done. intros t. by eapply topics_nonblank.
Qed.

Lemma validate_span_raises text unclosed item :
  raises (λ e, is_value_error e = true) (validate_span isalnum digit text unclosed item).
Proof.
  unfold validate_span. apply raises_bind; [by destruct item|]. intros d _.
  apply raises_bind; [by apply raises_require|]. intros _ _. cbv zeta.
  apply raises_bind; [by apply raises_of_option|]. intros [a b] _.
  repeat (apply raises_bind; [first [by apply raises_require|by apply raises_reject|by apply raises_of_option
    |by destruct (default PNone (dict_get "kind" d))]|intros ? _]). done.
Qed.

(** The spans in order, apart. *)
Definition apart (a b : ExtractionSpan) : Prop := (sp_char_end a <= sp_char_start b)%Z.

Lemma not_overlapping text l : Forall (well_placed text) l → overlapping l = false → StronglySorted apart l.
Proof.
  induction l as [|a l IH]; [constructor|]. intros [Ha Hl]%Forall_cons Hov.
  assert (Htail : overlapping l = false) by (destruct l; [done|]; cbn in Hov; by apply orb_false_iff in Hov as [_ ?]).
  constructor; [by apply IH|]. specialize (IH Hl Htail). destruct l as [|b l]; [constructor|].
  assert (Hab : apart a b) by (cbn in Hov; apply orb_false_iff in Hov as [Hov _]; str_prop; unfold apart; lia).
  constructor; [done|]. apply StronglySorted_inv in IH as [_ Hb]. apply Forall_cons in Hl as [Hwb _].
  destruct (wp_bounds _ _ Hwb). eapply Forall_impl; [exact Hb|]. unfold apart in *. intros c. lia.
Qed.

Lemma extraction_boundary_facts payload text unclosed :
  match validate_extraction_response isalnum digit payload text unclosed with
  | Ok spans => StronglySorted apart spans ∧ Forall (well_placed text) spans
  | Raise _ => True
  end.
Proof.
  destruct (validate_extraction_response _ _ _ _ _) as [spans|] eqn:E; [|done].
  unfold validate_extraction_response in E. apply bind_Ok_inv in E as (d & _ & E).
  apply bind_Ok_inv in E as (_ & _ & E). apply bind_Ok_inv in E as (items & _ & E). cbv zeta in E.
  apply bind_Ok_inv in E as (raw & Hraw%map_result_Ok & E). apply bind_Ok_inv in E as (_ & Hov%reject_Ok & [= <-]).
  assert (Hw : Forall (well_placed text) (isort span_leb raw)).
  { rewrite Forall_forall. intros s Hs%elem_of_isort. apply list_elem_of_lookup in Hs as [k Hk].
    destruct (Forall2_lookup_r _ _ _ _ _ Hraw Hk) as (i & _ & Hs). by apply validate_span_Ok in Hs as [? _]. }
  split; [by eapply not_overlapping|done].
Qed.

(** C26: whatever a model replies, the boundary answers. It raises nothing but a
    [ValueError], or returns one span for every item of a reply that has
    exactly the [spans] and items that have exactly the six fields, so no
    grade or label gets in. The spans are in order and do not overlap, each
    within the text with its very quote, not blank; a claim carries no reason
    and cuts no word or number, anything else carries one. *)
Theorem extraction_boundary payload text unclosed :
  match validate_extraction_response isalnum digit payload text unclosed with
  | Raise e => is_value_error e = true
  | Ok spans =>
      StronglySorted apart spans ∧ Forall (well_placed text) spans
      ∧ ∃ d items, payload = PDict d ∧ set_of_keys d ["spans"] = true ∧ dict_get "spans" d = Some (PList items)
          ∧ length spans = length items
          ∧ Forall (λ i, ∃ f, i = PDict f ∧ set_of_keys f span_fields = true) items
  end.
Proof.
  pose proof (extraction_boundary_facts payload text unclosed) as Hfacts.
  destruct (validate_extraction_response _ _ _ _ _) as [spans|e] eqn:E.
  - unfold validate_extraction_response in E. apply bind_Ok_inv in E as (d & Hd & E).
    destruct payload; try discriminate Hd. injection Hd as ->.
    apply bind_Ok_inv in E as (_ & Hkeys%require_Ok & E). apply bind_Ok_inv in E as (items & Hi & E). cbv zeta in E.
    apply bind_Ok_inv in E as (raw & Hraw%map_result_Ok & E). apply bind_Ok_inv in E as (_ & Hov%reject_Ok & [= <-]).
    destruct Hfacts as [Hs Hw].
    split; [done|]. split; [done|]. exists d, items.
    destruct (dict_get "spans" d) as [v|] eqn:Es; [|done]. destruct v; try discriminate Hi. injection Hi as ->.
    split_and!; try done.
    + rewrite (Permutation_length (isort_perm _ _)). symmetry. by eapply Forall2_length.
    + rewrite Forall_forall. intros i [k Hk]%list_elem_of_lookup.
      destruct (Forall2_lookup_l _ _ _ _ _ Hraw Hk) as (s & _ & Hsp). by apply validate_span_Ok in Hsp as [_ ?].
  - apply (raises_elim (λ e, is_value_error e = true)) in E; [done|]. unfold validate_extraction_response.
    apply raises_bind; [by destruct payload|]. intros d _. apply raises_bind; [by apply raises_require|]. intros _ _.
    apply raises_bind; [by destruct (default PNone (dict_get "spans" d))|]. intros items _. cbv zeta.
    apply raises_bind; [apply raises_map_result; intros; apply validate_span_raises|]. intros raw _.
    apply raises_bind; [by apply raises_reject|done].
Qed.
End boundary.

(* ------------------------------------------------------------------ *)
(** ** One block *)
(* ------------------------------------------------------------------ *)

Section discovery.
Context `{Digest} (nfc : pystr → pystr) (uuid5 : pystr → pystr → pystr) (isalnum digit : N → bool).

Lemma nonblank_slice (text : pystr) (a e : Z) i c : text !! i = Some c → is_space c = false →
  (0 <= a <= Z.of_nat i)%Z → (Z.of_nat i < e)%Z → nonblank (slice text a e) = true.
Proof.
  intros Hi Hc Ha He. unfold nonblank. rewrite existsb_exists. exists c. split; [|by rewrite Hc].
  apply list_elem_of_In, list_elem_of_lookup. exists (i - Z.to_nat a)%nat. unfold slice.
  rewrite lookup_take_lt by lia. rewrite lookup_drop. rewrite <- Hi. f_equal. lia.
Qed.

(** Position [i] of the block's normalised text is in a span that a claim or
    an exclusion of the block cites. *)
Definition covered (b : CanonicalBlock) (cl : list Claim) (ex : list ClaimExclusion) (i : nat) : Prop :=
  ∃ a e ref, (a <= Z.of_nat i < e)%Z ∧ block_source_ref nfc b (Some a) (Some e) = Ok ref
    ∧ ((∃ c, c ∈ cl ∧ head (cl_source_refs c) = Some ref)
       ∨ ∃ x, x ∈ ex ∧ ex_source_id x = kb_source_id b ∧ ex_source_ref x = Some ref).

Lemma covered_mono b cl cl' ex ex' i : cl ⊆ cl' → ex ⊆ ex' → covered b cl ex i → covered b cl' ex' i.
Proof.
  intros Hc He (a & e & ref & Hi & Hr & [(c & Hin & Hh)|(x & Hin & Hx)]); exists a, e, ref; (split; [done|]);
    (split; [done|]); [left|right]; eauto.
Qed.

Lemma gap_covers b text cursor upto gap i c : gap_outcome nfc b text cursor upto = Ok gap →
  (0 <= cursor <= Z.of_nat i)%Z → (Z.of_nat i < upto)%Z → text !! i = Some c → is_space c = false →
  covered b [] gap i.
Proof.
  unfold gap_outcome. intros Hg H1 H2 Hi Hc. rewrite (nonblank_slice text cursor upto i c) in Hg by done.
  apply bind_Ok_inv in Hg as (ref & Hr & [= <-]). exists cursor, upto, ref. split; [lia|]. split; [done|].
  right. eexists. split; [left|done].
Qed.

(** What a span gives: a claim of it or an exclusion of it. *)
Lemma span_outcome_Ok s sha b parts receipt span out : span_outcome nfc uuid5 s sha b parts receipt span = Ok out →
  ∃ ref, block_source_ref nfc b (Some (sp_char_start span)) (Some (sp_char_end span)) = Ok ref
    ∧ ((sp_kind span = "claim" ∧ out.2 = [] ∧ ∃ more c,
          fragment_refs nfc parts 0 (sp_char_start span) (sp_char_end span) = Ok more ∧ out.1 = [c]
          ∧ cl_source_refs c = ref :: more ∧ cl_quote c = quote ref ∧ cl_receipt c = receipt
          ∧ (cl_tenant_id c, cl_document_version_id c, cl_parse_manifest_id c, cl_source_sha256 c)
            = (sc_tenant_id s, sc_document_version_id s, sc_parse_manifest_id s, sha)
          ∧ cl_source_quality c = kb_quality b)
       ∨ out.1 = [] ∧ ∃ x, out.2 = [x] ∧ ex_source_id x = kb_source_id b ∧ ex_source_ref x = Some ref).
Proof.
  unfold span_outcome. intros (ref & Hr & Ho)%bind_Ok_inv. exists ref. split; [done|].
  destruct (sp_kind span =s? "claim") eqn:Ek; str_prop.
  - apply bind_Ok_inv in Ho as (more & Hm & Ho). apply bind_Ok_inv in Ho as (h & _ & [= <-]). left.
    split; [done|]. split; [done|]. eexists more, _. split_and!; done.
  - injection Ho as <-. right. split; [done|]. eexists. done.
Qed.

Lemma walk_covers s sha b text parts receipt spans cursor out :
  walk_spans nfc uuid5 s sha b text parts receipt cursor spans = Ok out →
  StronglySorted apart spans → Forall (well_placed isalnum digit text) spans →
  Forall (λ sp, (cursor <= sp_char_start sp)%Z) spans → (0 <= cursor)%Z →
  ∀ i c, text !! i = Some c → is_space c = false → (cursor <= Z.of_nat i)%Z → covered b out.1 out.2 i.
Proof.
  revert cursor out. induction spans as [|sp spans IH]; intros cursor out Hw Hs Hf Hge H0 i c Hi Hc Hcur;
    cbn [walk_spans] in Hw; apply bind_Ok_inv in Hw as (gap & Hg & Hw).
  - injection Hw as <-. apply lookup_lt_Some in Hi as Hlt.
    eapply covered_mono; [done|done|]. eapply gap_covers; try done. unfold py_len. lia.
  - apply bind_Ok_inv in Hw as (here & Hh & Hw). apply bind_Ok_inv in Hw as (rest & Hrest & [= <-]). cbn [fst snd].
    apply Forall_cons in Hf as [Hsp Hf]. apply Forall_cons in Hge as [Hle _].
    apply StronglySorted_inv in Hs as [Hs Hap]. destruct (wp_bounds _ _ _ _ Hsp) as [Hb1 Hb2].
    destruct (Z.lt_ge_cases (Z.of_nat i) (sp_char_start sp)) as [Hlt|Hge].
    { eapply covered_mono; [apply list_subseteq_nil| |by eapply gap_covers]. set_solver. }
    destruct (Z.lt_ge_cases (Z.of_nat i) (sp_char_end sp)) as [Hlt|Hge'].
    + destruct (span_outcome_Ok _ _ _ _ _ _ _ Hh) as (ref & Hr & Ho).
      exists (sp_char_start sp), (sp_char_end sp), ref. split; [lia|]. split; [done|].
      destruct Ho as [(_ & _ & more & cl & _ & Hcl & Hrefs & _)|(_ & x & Hx & Hid & Href)].
      * left. exists cl. rewrite Hcl, Hrefs. split; [left|done].
      * right. exists x. split; [|done]. rewrite Hx. set_solver.
    + apply (covered_mono b rest.1 _ rest.2); [set_solver|set_solver|].
      refine (IH (sp_char_end sp) rest Hrest Hs Hf _ _ i c Hi Hc Hge'); [exact Hap|lia].
Qed.

(** Claims and exclusions of a block are its own. *)
Record own (s : ClaimScope) (sha : pystr) (b : CanonicalBlock) (parts : list CanonicalBlock) (c : Claim) : Prop := {
  ow_refs : ∃ a e ref more, block_source_ref nfc b (Some a) (Some e) = Ok ref
              ∧ fragment_refs nfc parts 0 a e = Ok more ∧ cl_source_refs c = ref :: more
              ∧ cl_quote c = quote ref;
  ow_receipt : rc_source_id (cl_receipt c) = kb_source_id b ∧ rc_status (cl_receipt c) = "processed";
  ow_identity : (cl_tenant_id c, cl_document_version_id c, cl_parse_manifest_id c, cl_source_sha256 c)
                = (sc_tenant_id s, sc_document_version_id s, sc_parse_manifest_id s, sha);
  ow_quality : cl_source_quality c = kb_quality b }.

Lemma walk_own s sha b text parts receipt spans cursor out :
  rc_source_id receipt = kb_source_id b → rc_status receipt = "processed" →
  walk_spans nfc uuid5 s sha b text parts receipt cursor spans = Ok out →
  Forall (own s sha b parts) out.1 ∧ Forall (λ x, ex_source_id x = kb_source_id b) out.2.
Proof.
  intros Hid Hst. revert cursor out. induction spans as [|sp spans IH]; intros cursor out Hw;
    cbn [walk_spans] in Hw; apply bind_Ok_inv in Hw as (gap & Hg & Hw).
  all: assert (Hgap : Forall (λ x, ex_source_id x = kb_source_id b) gap)
    by (unfold gap_outcome in Hg; destruct (nonblank _);
        [apply bind_Ok_inv in Hg as (ref & _ & [= <-]); by constructor|injection Hg as <-; constructor]).
  - injection Hw as <-. split; [constructor|done].
  - apply bind_Ok_inv in Hw as (here & Hh & Hw). apply bind_Ok_inv in Hw as (rest & Hrest & [= <-]). cbn [fst snd].
    destruct (IH _ _ Hrest) as [Hc Hx]. destruct (span_outcome_Ok _ _ _ _ _ _ _ Hh) as (ref & Hr & Ho).
    rewrite !Forall_app. destruct Ho as [(_ & -> & more & cl & Hm & -> & Hrefs & Hq & Hrec & Hident & Hqual)
                                        |(-> & x & -> & Hxid & _)].
    + split; [|by split_and!]. split; [|done]. constructor; [|constructor].
      split; [|by rewrite Hrec|done|done]. by exists (sp_char_start sp), (sp_char_end sp), ref, more.
    + split; [by split|]. split; [done|]. split; [by constructor|done].
Qed.

(** The pages a discovery is about. *)
Definition page_in_scope (s : ClaimScope) (b : CanonicalBlock) : Prop :=
  sc_mode s = "declared_subset" → page_of_block b ∈ sc_selected_pages s.

Definition own_receipt (b : CanonicalBlock) (status : pystr) (r : ExtractionReceipt) : Prop :=
  rc_source_id r = kb_source_id b ∧ rc_status r = status.

(** A block set aside whole. *)
Record set_aside (b : CanonicalBlock) (f : found) : Prop := {
  sa_empty : fo_claims f = [] ∧ fo_processed f = [];
  sa_exclusion : ∃ x, fo_exclusions f = [x] ∧ ex_source_id x = kb_source_id b ∧ ex_page_num x = page_of_block b;
  sa_receipts : Forall (own_receipt b "failed") (fo_receipts f) }.

(** A block the extractor read. *)
Record read_whole (s : ClaimScope) (sha : pystr) (parts : list CanonicalBlock) (b : CanonicalBlock)
    (f : found) : Prop := {
  rw_processed : fo_processed f = [kb_source_id b];
  rw_eligible : settled_quality b = true ∧ is_Some (kb_winner b) ∧ page_in_scope s b;
  rw_receipts : ∃ r, fo_receipts f = [r] ∧ own_receipt b "processed" r;
  rw_own : Forall (own s sha b parts) (fo_claims f)
           ∧ Forall (λ x, ex_source_id x = kb_source_id b) (fo_exclusions f);
  rw_covers : ∃ text, normalized_text nfc b = Ok text
    ∧ ∀ i c, text !! i = Some c → is_space c = false → covered b (fo_claims f) (fo_exclusions f) i }.

Lemma failed_block_aside b p h reason f : failed_block nfc b p h reason = Ok f → set_aside b f.
Proof.
  unfold failed_block. intros (ref & _ & [= <-])%bind_Ok_inv. split; [done|by eexists|]. by constructor.
Qed.

Lemma replied_block_Ok s sha p b text parts h payload f :
  normalized_text nfc b = Ok text → settled_quality b = true → is_Some (kb_winner b) → page_in_scope s b →
  replied_block nfc uuid5 isalnum digit s sha p b text parts h payload = Ok f →
  set_aside b f ∨ read_whole s sha parts b f.
Proof.
  intros Ht Hq Hw Hp. unfold replied_block.
  pose proof (extraction_boundary_facts isalnum digit payload text false) as Hspans.
  destruct (validate_extraction_response _ _ _ _ _) as [spans|e].
  - intros (d & _ & Hr)%bind_Ok_inv. apply bind_Ok_inv in Hr as (json & _ & Hr). cbv zeta in Hr.
    apply bind_Ok_inv in Hr as (out & Hwalk & [= <-]). right. destruct Hspans as [Hs Hwell].
    assert (Hown : Forall (own s sha b parts) out.1 ∧ Forall (λ x, ex_source_id x = kb_source_id b) out.2)
      by (eapply walk_own, Hwalk; done).
    split; cbn [fo_claims fo_exclusions fo_processed fo_receipts]; [done|done|by eexists|done|].
    exists text. split; [done|]. intros i c Hi Hc. eapply walk_covers; try done; [|lia].
    eapply Forall_impl; [exact Hwell|]. intros sp Hsp. by destruct (wp_bounds _ _ _ _ Hsp) as [[? _] _].
  - destruct (_ || _ : bool); [|done]. intros Hf%failed_block_aside. by left.
Qed.

Lemma discover_block_Ok s sha p extract joined b f :
  discover_block nfc uuid5 isalnum digit s sha p extract joined b = Ok f →
  set_aside b f ∨ read_whole s sha (default [] (dict_get (kb_source_id b) joined)) b f.
Proof.
  unfold discover_block. cbv zeta.
  assert (Haside : ∀ x, ex_source_id x = kb_source_id b → ex_page_num x = page_of_block b →
                        set_aside b (only_excluded x)).
  { intros x H1 H2. split; [done|by exists x|constructor]. }
  destruct ((sc_mode s =s? "declared_subset") && _) eqn:Hscope; [intros [= <-]; left; by apply Haside|].
  destruct (str_in (kb_source_id b) _); [intros (ref & _ & [= <-])%bind_Ok_inv; left; by apply Haside|].
  destruct (_ || _ : bool) eqn:Hq; [intros [= <-]; left; by apply Haside|].
  intros (text & Ht & Hr)%bind_Ok_inv. destruct (negb (nonblank text)).
  { apply bind_Ok_inv in Hr as (ref & _ & [= <-]). left. by apply Haside. }
  apply bind_Ok_inv in Hr as (h & _ & Hr). apply orb_false_iff in Hq as [Hq Hc].
  apply negb_false_iff in Hq, Hc. apply bool_decide_eq_true in Hc.
  destruct (extract _) as [payload|code| |e].
  - apply (replied_block_Ok s sha p b text _ h payload); try done. intros Hm.
    rewrite Hm, str_eqb_refl in Hscope. cbn in Hscope. apply negb_false_iff, existsb_exists in Hscope as (x & Hx & E).
    apply list_elem_of_In in Hx. by apply Z.eqb_eq in E as ->.
  - left. by eapply failed_block_aside.
  - left. by eapply failed_block_aside.
  - done.
Qed.

(* ------------------------------------------------------------------ *)
(** ** A whole discovery *)
(* ------------------------------------------------------------------ *)

Lemma continuation_parts_blocks g b parts : continuation_parts g b = Ok (Some parts) →
  ∀ q, q ∈ parts → q ∈ gr_blocks g.
Proof.
  unfold continuation_parts. destruct (kb_winner b); [|done]. destruct (negb (settled_quality b)); [done|].
  intros (c & _ & Hr)%bind_Ok_inv. destruct (negb _); [done|].
  apply bind_Ok_inv in Hr as (found & Hf%map_result_Ok & Hr). apply bind_Ok_inv in Hr as (_ & _ & Hr).
  cbv zeta in Hr. apply bind_Ok_inv in Hr as (texts & _ & Hr). apply bind_Ok_inv in Hr as (raw & _ & Hr).
  apply bind_Ok_inv in Hr as (_ & _ & [= <-]). intros q Hq. rewrite elem_of_isort in Hq.
  apply list_elem_of_lookup in Hq as [k Hk].
  destruct (Forall2_lookup_r _ _ _ _ _ Hf Hk) as (e & _ & He%of_option_Ok). by apply by_key_Some in He as [? _].
Qed.

Lemma continuations_blocks g joined id : continuations g = Ok joined →
  ∀ q, q ∈ default [] (dict_get id joined) → q ∈ gr_blocks g.
Proof.
  unfold continuations. intros (ps & Hps%map_result_Ok & [= <-])%bind_Ok_inv q Hq.
  destruct (dict_get id _) as [parts|] eqn:E; [|by apply elem_of_nil in Hq]. cbn in Hq.
  apply dict_get_Some_in in E. assert (Hv : parts ∈ (dict_of (omap
    (λ bp : CanonicalBlock * option (list CanonicalBlock), pair (kb_source_id bp.1) <$> bp.2)
    (zip (gr_blocks g) ps))).*2) by (apply list_elem_of_fmap; by exists (id, parts)).
  apply dict_of_values, list_elem_of_fmap in Hv as ([i v] & -> & Hv). cbn in Hq.
  apply list_elem_of_omap in Hv as ([b o] & Hin & Ho). cbn in Ho. destruct o as [l|]; [|done].
  injection Ho as _ <-. apply list_elem_of_lookup in Hin as [k Hk]. apply lookup_zip_Some in Hk as [Hb Ho].
  destruct (Forall2_lookup_l _ _ _ _ _ Hps Hb) as (o' & Ho' & Hpart). cbn in *.
  assert (o' = Some l) as -> by congruence. by eapply continuation_parts_blocks.
Qed.

Lemma check_blocks_ids v m seen l u : check_blocks v m seen l = Ok u →
  NoDup (kb_source_id <$> l) ∧ (∀ b, b ∈ l → kb_source_id b ∉ seen)
  ∧ ∀ b c, b ∈ l → c ∈ kb_candidates b → ns_document_version_id (cb_source c) = v
      ∧ ns_parse_manifest_id (cb_source c) = m.
Proof.
  revert seen. induction l as [|b l IH]; intros seen Hc.
  { split; [constructor|]. split; [by intros b ?%elem_of_nil|by intros b c ?%elem_of_nil]. }
  cbn [check_blocks] in Hc. apply bind_Ok_inv in Hc as (id & Hid%require_uuid_Ok & Hc).
  apply bind_Ok_inv in Hc as (_ & [_ Hs%negb_true_iff]%require_Ok%andb_true_iff & Hc).
  apply bind_Ok_inv in Hc as (_ & Hsrc%require_Ok & Hc). destruct Hid as [[= <-] _].
  destruct (IH _ Hc) as (Hd & Hn & Hall). str_prop. split_and!.
  - rewrite fmap_cons. constructor; [|done]. intros (b' & E & Hb')%list_elem_of_fmap.
    apply (Hn b' Hb'). rewrite <- E. left.
  - intros b' [->|Hb']%elem_of_cons; [done|]. intros Hin. apply (Hn b' Hb'). by right.
  - intros b' c [->|Hb']%elem_of_cons Hcand; [|by eapply Hall].
    rewrite forallb_forall in Hsrc. apply list_elem_of_In, Hsrc, andb_true_iff in Hcand as [H1 H2]. by str_prop.
Qed.

(** A discovery, block by block. *)
Lemma discover_Ok g s p extract d : discover_atomic_claims nfc uuid5 isalnum digit g s p extract = Ok d →
  (gr_tenant_id g, gr_document_version_id g, gr_parse_manifest_id g)
  = (sc_tenant_id s, sc_document_version_id s, sc_parse_manifest_id s)
  ∧ (∃ u, check_blocks (sc_document_version_id s) (sc_parse_manifest_id s) [] (gr_blocks g) = Ok u)
  ∧ ∃ joined fs, continuations g = Ok joined
      ∧ Forall2 (λ b f, discover_block nfc uuid5 isalnum digit s (gr_source_sha256 g) p extract joined b = Ok f)
          (isort block_leb (gr_blocks g)) fs
      ∧ di_claims d = fs ≫= fo_claims ∧ di_exclusions d = fs ≫= fo_exclusions
      ∧ di_processed_source_ids d = fs ≫= fo_processed ∧ di_receipts d = fs ≫= fo_receipts
      ∧ di_source_sha256 d = gr_source_sha256 g ∧ di_scope d = s ∧ di_quality_issues d = gr_issues g.
Proof.
  unfold discover_atomic_claims. intros (u & Hg & Hr)%bind_Ok_inv.
  apply bind_Ok_inv in Hr as (joined & Hj & Hr). apply bind_Ok_inv in Hr as (fs & Hfs%map_result_Ok & [= <-]).
  unfold check_graph in Hg. cbv zeta in Hg. apply bind_Ok_inv in Hg as (_ & Hid%require_Ok & Hg).
  rewrite !andb_true_iff in Hid. destruct Hid as [[H1 H2] H3]. str_prop.
  apply bind_Ok_inv in Hg as (_ & _ & Hg). apply bind_Ok_inv in Hg as (_ & _ & Hg).
  split; [congruence|]. split; [eauto|]. exists joined, fs. split_and!; done.
Qed.

Lemma discovered g s p extract d b : discover_atomic_claims nfc uuid5 isalnum digit g s p extract = Ok d →
  b ∈ gr_blocks g → ∃ joined f, continuations g = Ok joined
    ∧ discover_block nfc uuid5 isalnum digit s (gr_source_sha256 g) p extract joined b = Ok f
    ∧ fo_claims f ⊆ di_claims d ∧ fo_exclusions f ⊆ di_exclusions d
    ∧ fo_processed f ⊆ di_processed_source_ids d ∧ fo_receipts f ⊆ di_receipts d.
Proof.
  intros (_ & _ & joined & fs & Hj & Hfs & -> & -> & -> & -> & _)%discover_Ok Hb.
  rewrite <- (elem_of_isort block_leb) in Hb. apply list_elem_of_lookup in Hb as [k Hk].
  destruct (Forall2_lookup_l _ _ _ _ _ Hfs Hk) as (f & Hf%list_elem_of_lookup_2 & Hblock).
  exists joined, f. split; [done|]. split; [done|].
  split_and!; intros x Hx; apply list_elem_of_bind; eauto.
Qed.

(** Who found what. *)
Lemma found_by {A} (part : found → list A) s sha p extract joined blocks fs (x : A) :
  Forall2 (λ b f, discover_block nfc uuid5 isalnum digit s sha p extract joined b = Ok f)
    (isort block_leb blocks) fs →
  x ∈ fs ≫= part → ∃ b f, b ∈ blocks ∧ x ∈ part f
    ∧ discover_block nfc uuid5 isalnum digit s sha p extract joined b = Ok f.
Proof.
  intros Hfs (f & Hx & [k Hk]%list_elem_of_lookup)%list_elem_of_bind.
  destruct (Forall2_lookup_r _ _ _ _ _ Hfs Hk) as (b & Hb%list_elem_of_lookup_2 & Hf).
  exists b, f. rewrite elem_of_isort in Hb. auto.
Qed.

Lemma claim_found_by g s p extract d c : discover_atomic_claims nfc uuid5 isalnum digit g s p extract = Ok d →
  c ∈ di_claims d → ∃ joined b f, continuations g = Ok joined ∧ b ∈ gr_blocks g ∧ c ∈ fo_claims f
    ∧ discover_block nfc uuid5 isalnum digit s (gr_source_sha256 g) p extract joined b = Ok f
    ∧ read_whole s (gr_source_sha256 g) (default [] (dict_get (kb_source_id b) joined)) b f
    ∧ own s (gr_source_sha256 g) b (default [] (dict_get (kb_source_id b) joined)) c.
Proof.
  intros (_ & _ & joined & fs & Hj & Hfs & -> & _)%discover_Ok Hc.
  destruct (found_by fo_claims _ _ _ _ _ _ _ _ Hfs Hc) as (b & f & Hb & Hin & Hf).
  exists joined, b, f. do 4 (split; [done|]). destruct (discover_block_Ok _ _ _ _ _ _ _ Hf) as [Ha|Hr].
  - destruct (sa_empty _ _ Ha) as [E _]. rewrite E in Hin. by apply elem_of_nil in Hin.
  - split; [done|]. destruct (rw_own _ _ _ _ _ Hr) as [Ho _]. rewrite Forall_forall in Ho. by apply Ho.
Qed.

(** C23: A discovery leaves nothing out. Every block of the graph is either set
    aside whole, by an exclusion that names it and its page and without any
    claim, or processed, with the receipt of its reply, and then every
    character of its text that is not white space lies in a span that a claim
    or an exclusion of that very block cites. The graph's issues are kept. *)
Theorem discovery_covers g s p extract d :
  discover_atomic_claims nfc uuid5 isalnum digit g s p extract = Ok d →
  di_quality_issues d = gr_issues g
  ∧ ∀ b, b ∈ gr_blocks g →
      kb_source_id b ∉ di_processed_source_ids d
      ∧ (∃ x, x ∈ di_exclusions d ∧ ex_source_id x = kb_source_id b ∧ ex_page_num x = page_of_block b)
      ∧ (∀ c, c ∈ di_claims d → rc_source_id (cl_receipt c) ≠ kb_source_id b)
    ∨ kb_source_id b ∈ di_processed_source_ids d
      ∧ (∃ r, r ∈ di_receipts d ∧ own_receipt b "processed" r)
      ∧ ∃ text, normalized_text nfc b = Ok text
          ∧ ∀ i c, text !! i = Some c → is_space c = false → covered b (di_claims d) (di_exclusions d) i.
Proof.
  intros Hd. pose proof (discover_Ok _ _ _ _ _ Hd) as (_ & [u Hids] & joined & fs & Hj & Hfs & _ & _ & Hproc & _ & _ & _ & Hq).
  apply check_blocks_ids in Hids as (Hids & _ & _). split; [done|]. intros b Hb.
  destruct (discovered _ _ _ _ _ _ Hd Hb) as (joined' & f & Hj' & Hf & Hc & Hx & Hp & Hr).
  assert (joined' = joined) as -> by congruence.
  destruct (discover_block_Ok _ _ _ _ _ _ _ Hf) as [Ha|Hw].
  - left. destruct (sa_empty _ _ Ha) as [Ec Ep]. destruct (sa_exclusion _ _ Ha) as (x & Ex & Hxid & Hxp).
    assert (Hsame : ∀ b' f', b' ∈ gr_blocks g → kb_source_id b' = kb_source_id b →
      discover_block nfc uuid5 isalnum digit s (gr_source_sha256 g) p extract joined b' = Ok f' → f' = f).
    { intros b' f' Hb' Hid Hf'. rewrite (key_injective kb_source_id _ _ _ Hids Hb' Hb Hid) in Hf'. congruence. }
    split_and!.
    + rewrite Hproc. intros Hin. destruct (found_by fo_processed _ _ _ _ _ _ _ _ Hfs Hin) as (b' & f' & Hb' & Hin' & Hf').
      destruct (discover_block_Ok _ _ _ _ _ _ _ Hf') as [Ha'|Hw'].
      * destruct (sa_empty _ _ Ha') as [_ E]. rewrite E in Hin'. by apply elem_of_nil in Hin'.
      * pose proof (rw_processed _ _ _ _ _ Hw') as E. rewrite E in Hin'. apply list_elem_of_singleton in Hin'.
        rewrite (Hsame b' f' Hb' (eq_sym Hin') Hf') in E. congruence.
    + exists x. split; [|done]. apply Hx. rewrite Ex. left.
    + intros c Hin Hid. destruct (claim_found_by _ _ _ _ _ _ Hd Hin) as (j & b' & f' & Hj'' & Hb' & Hcf & Hf' & _ & Ho).
      assert (j = joined) as -> by congruence. destruct (ow_receipt _ _ _ _ _ Ho) as [Hrid _].
      rewrite (Hsame b' f' Hb' (eq_trans (eq_sym Hrid) Hid) Hf'), Ec in Hcf. by apply elem_of_nil in Hcf.
  - right. split; [|split].
    + apply Hp. rewrite (rw_processed _ _ _ _ _ Hw). left.
    + destruct (rw_receipts _ _ _ _ _ Hw) as (r & E & Hown). exists r. split; [|done]. apply Hr. rewrite E. left.
    + destruct (rw_covers _ _ _ _ _ Hw) as (text & Ht & Hcov). exists text. split; [done|].
      intros i c Hi Hcs. eapply covered_mono; [exact Hc|exact Hx|]. by eapply Hcov.
Qed.

(** A reference to a block is to its winning source. *)
Lemma block_source_ref_Ok b na ne ref : block_source_ref nfc b na ne = Ok ref →
  ∃ w cand, kb_winner b = Some w ∧ winner_of b w = Some cand ∧ cand ∈ kb_candidates b
    ∧ source_id ref = kb_source_id b ∧ verification_state ref = Candidate
    ∧ document_version_id ref = ns_document_version_id (cb_source cand)
    ∧ parse_manifest_id ref = ns_parse_manifest_id (cb_source cand)
    ∧ quote ref = slice (raw_text (cb_source cand)) (char_start ref) (char_end ref)
    ∧ text_sha256 (raw_text (cb_source cand)) = Ok (raw_text_sha256 ref)
    ∧ (∀ a e, na = Some a → ne = Some e →
         nfc (quote ref) = slice (nfc (raw_text (cb_source cand))) a e).
Proof.
  unfold block_source_ref. intros (w & Hw%of_option_Ok & Hr)%bind_Ok_inv.
  apply bind_Ok_inv in Hr as (cand & Hc%of_option_Ok & Hr).
  apply source_ref_fields in Hr as (Hid & Hv & Hm & _ & _ & Hh & Hspan & Hq & _ & _ & Hver).
  exists w, cand. split_and!; try done.
  - unfold winner_of in Hc. cbv zeta in Hc. destruct (_ <? 0)%Z in Hc; [done|]. by eapply list_elem_of_lookup_2.
  - by destruct (verification_state ref).
  - intros a e -> ->. apply raw_span_agrees in Hspan as (_ & _ & _ & _ & Hagree). by rewrite Hq.
Qed.

Lemma fragment_refs_from parts cursor a e more : fragment_refs nfc parts cursor a e = Ok more →
  ∀ r, r ∈ more → ∃ q na ne, q ∈ parts ∧ block_source_ref nfc q na ne = Ok r.
Proof.
  revert cursor more. induction parts as [|q parts IH]; intros cursor more; cbn [fragment_refs].
  { intros [= <-] r Hr. by apply elem_of_nil in Hr. }
  intros (text & _ & Hf)%bind_Ok_inv. cbv zeta in Hf. apply bind_Ok_inv in Hf as (ref & Href & Hf).
  apply bind_Ok_inv in Hf as (rest & Hrest & [= <-]). intros r [Hr|Hr]%elem_of_app.
  - destruct (_ <? _)%Z in Href; [|injection Href as <-; by apply elem_of_nil in Hr].
    apply bind_Ok_inv in Href as (r' & Hr' & [= <-]). apply list_elem_of_singleton in Hr as ->.
    eexists q, _, _. split; [left|exact Hr'].
  - destruct (IH _ _ Hrest r Hr) as (q' & na & ne & Hq & Hb). exists q', na, ne. split; [by right|done].
Qed.

(** Every claim cites its own source and nothing more than its source. It
    carries the scope's identity; its first reference is a candidate, never
    marked verified, at an eligible block of the graph on a page in scope, by
    that block's winning source: the quote is the raw text between the
    offsets, whose hash is recorded, and normalises to a span of the text the
    model was shown; any further references quote blocks the claim's block
    was derived from. *)
Theorem claims_cite_sources g s p extract d c :
  discover_atomic_claims nfc uuid5 isalnum digit g s p extract = Ok d → c ∈ di_claims d →
  (cl_tenant_id c, cl_document_version_id c, cl_parse_manifest_id c, cl_source_sha256 c)
  = (gr_tenant_id g, gr_document_version_id g, gr_parse_manifest_id g, gr_source_sha256 g)
  ∧ ∃ b w cand ref more a e,
      b ∈ gr_blocks g ∧ settled_quality b = true ∧ page_in_scope s b
      ∧ kb_winner b = Some w ∧ winner_of b w = Some cand
      ∧ cl_source_refs c = ref :: more ∧ cl_quote c = quote ref
      ∧ source_id ref = kb_source_id b ∧ verification_state ref = Candidate
      ∧ (document_version_id ref, parse_manifest_id ref) = (cl_document_version_id c, cl_parse_manifest_id c)
      ∧ quote ref = slice (raw_text (cb_source cand)) (char_start ref) (char_end ref)
      ∧ text_sha256 (raw_text (cb_source cand)) = Ok (raw_text_sha256 ref)
      ∧ nfc (quote ref) = slice (nfc (raw_text (cb_source cand))) a e
      ∧ ∀ r, r ∈ more → ∃ q, q ∈ gr_blocks g ∧ source_id r = kb_source_id q ∧ verification_state r = Candidate.
Proof.
  intros Hd Hc. destruct (claim_found_by _ _ _ _ _ _ Hd Hc) as (joined & b & f & Hj & Hb & _ & _ & Hw & Ho).
  destruct (discover_Ok _ _ _ _ _ Hd) as (Hident & [u Hids] & _). apply check_blocks_ids in Hids as (_ & _ & Hsrc).
  destruct Ho as [(a & e & ref & more & Hr & Hm & Hrefs & Hq) _ Hid _]. injection Hident as H1 H2 H3.
  destruct (rw_eligible _ _ _ _ _ Hw) as (Hset & _ & Hpage).
  destruct (block_source_ref_Ok _ _ _ _ Hr) as (w & cand & Hwin & Hcand & Hin & Hsid & Hver & Hv & Hman & Hquote & Hh & Hn).
  destruct (Hsrc b cand Hb Hin) as [Hv' Hm']. split; [congruence|].
  exists b, w, cand, ref, more, a, e. injection Hid as Hid1 Hid2 Hid3 Hid4. split_and!; try done; try congruence.
  - by apply Hn.
  - intros r Hin'. destruct (fragment_refs_from _ _ _ _ _ Hm r Hin') as (q & na & ne & Hq' & Hb').
    exists q. destruct (block_source_ref_Ok _ _ _ _ Hb') as (_ & _ & _ & _ & _ & ? & ? & _).
    split; [by eapply continuations_blocks|done].
Qed.

Lemma fmap_id_filter {A} (part : found → list A) (key : A → pystr) (id : pystr) fs1 fs2 :
  Forall2 (λ f1 f2, List.filter (λ x, negb (key x =s? id)) (part f1)
                    = List.filter (λ x, negb (key x =s? id)) (part f2)) fs1 fs2 →
  List.filter (λ x, negb (key x =s? id)) (fs1 ≫= part) = List.filter (λ x, negb (key x =s? id)) (fs2 ≫= part).
Proof.
  induction 1 as [|f1 f2 fs1 fs2 Hf _ IH]; [done|]. cbn. rewrite !List.filter_app. by rewrite Hf, IH.
Qed.

(** The claims, exclusions and receipts of other sources. *)
Definition others (id : pystr) (d : ClaimDiscovery) : list Claim * list ClaimExclusion * list ExtractionReceipt :=
  (List.filter (λ c, negb (rc_source_id (cl_receipt c) =s? id)) (di_claims d),
   List.filter (λ x, negb (ex_source_id x =s? id)) (di_exclusions d),
   List.filter (λ r, negb (rc_source_id r =s? id)) (di_receipts d)).

Lemma lfilter_none {A} (key : A → pystr) id l : Forall (λ x, key x = id) l →
  List.filter (λ x, negb (key x =s? id)) l = [].
Proof. induction 1 as [|x l Hx _ IH]; [done|]. cbn. by rewrite Hx, str_eqb_refl. Qed.

Lemma block_keys s sha p extract joined b f :
  discover_block nfc uuid5 isalnum digit s sha p extract joined b = Ok f →
  Forall (λ c, rc_source_id (cl_receipt c) = kb_source_id b) (fo_claims f)
  ∧ Forall (λ x, ex_source_id x = kb_source_id b) (fo_exclusions f)
  ∧ Forall (λ r, rc_source_id r = kb_source_id b) (fo_receipts f).
Proof.
  intros [Ha|Hw]%discover_block_Ok.
  - destruct (sa_empty _ _ Ha) as [-> _]. destruct (sa_exclusion _ _ Ha) as (x & -> & Hx & _).
    split; [constructor|]. split; [by constructor|]. eapply Forall_impl; [apply (sa_receipts _ _ Ha)|]. by intros r [? _].
  - destruct (rw_own _ _ _ _ _ Hw) as [Hc Hx]. destruct (rw_receipts _ _ _ _ _ Hw) as (r & -> & Hr & _).
    split; [|split; [done|by constructor]]. eapply Forall_impl; [exact Hc|]. intros c Ho. by destruct (ow_receipt _ _ _ _ _ Ho).
Qed.

(** A reply affects its own block only. Two extractors that answer alike
    every packet about another source, whatever each does with the packets of
    source [id] (claims, refusals, malformed output, lost transport), lead to
    the same claims, exclusions and receipts for every other source. *)
Theorem replies_isolated g s p extract1 extract2 id d1 d2 :
  (∀ b text, kb_source_id b ≠ id →
     extract1 (packet_of s (gr_source_sha256 g) p b text) = extract2 (packet_of s (gr_source_sha256 g) p b text)) →
  discover_atomic_claims nfc uuid5 isalnum digit g s p extract1 = Ok d1 →
  discover_atomic_claims nfc uuid5 isalnum digit g s p extract2 = Ok d2 →
  others id d1 = others id d2.
Proof.
  intros Hsame (_ & _ & joined & fs1 & Hj & Hfs1 & Hc1 & Hx1 & _ & Hr1 & _)%discover_Ok
    (_ & _ & joined' & fs2 & Hj' & Hfs2 & Hc2 & Hx2 & _ & Hr2 & _)%discover_Ok.
  assert (joined' = joined) as -> by congruence.
  assert (Hagree : Forall2 (λ f1 f2,
     (List.filter (λ c, negb (rc_source_id (cl_receipt c) =s? id)) (fo_claims f1)
      = List.filter (λ c, negb (rc_source_id (cl_receipt c) =s? id)) (fo_claims f2))
     ∧ (List.filter (λ x, negb (ex_source_id x =s? id)) (fo_exclusions f1)
        = List.filter (λ x, negb (ex_source_id x =s? id)) (fo_exclusions f2))
     ∧ (List.filter (λ r, negb (rc_source_id r =s? id)) (fo_receipts f1)
        = List.filter (λ r, negb (rc_source_id r =s? id)) (fo_receipts f2))) fs1 fs2).
  { apply Forall2_same_length_lookup. split; [apply Forall2_length in Hfs1, Hfs2; congruence|].
    intros k f1 f2 Hk1 Hk2. destruct (Forall2_lookup_r _ _ _ _ _ Hfs1 Hk1) as (b & Hb & Hf1).
    destruct (Forall2_lookup_l _ _ _ _ _ Hfs2 Hb) as (f2' & Hk2' & Hf2). assert (f2' = f2) as -> by congruence.
    destruct (decide (kb_source_id b = id)) as [Hid|Hid].
    - destruct (block_keys _ _ _ _ _ _ _ Hf1) as (A1 & B1 & C1). destruct (block_keys _ _ _ _ _ _ _ Hf2) as (A2 & B2 & C2).
      rewrite Hid in *. rewrite (lfilter_none _ _ _ A1), (lfilter_none _ _ _ B1), (lfilter_none _ _ _ C1).
      by rewrite (lfilter_none _ _ _ A2), (lfilter_none _ _ _ B2), (lfilter_none _ _ _ C2).
    - assert (f1 = f2) as ->; [|done]. revert Hf1 Hf2. unfold discover_block. cbv zeta.
      destruct (_ && _); [congruence|]. destruct (str_in _ _); [congruence|]. destruct (_ || _ : bool); [congruence|].
      destruct (normalized_text nfc b) as [text|]; [|done]. cbn [mbind result_bind].
      destruct (negb _); [congruence|]. destruct (canonical_hash _) as [h|]; [|done]. cbn [mbind result_bind].
      rewrite (Hsame b text Hid). congruence. }
  unfold others. rewrite Hc1, Hc2, Hx1, Hx2, Hr1, Hr2.
  rewrite (fmap_id_filter fo_claims (λ c, rc_source_id (cl_receipt c)) id fs1 fs2)
    by (eapply Forall2_impl; [exact Hagree|]; naive_solver).
  rewrite (fmap_id_filter fo_exclusions ex_source_id id fs1 fs2)
    by (eapply Forall2_impl; [exact Hagree|]; naive_solver).
  by rewrite (fmap_id_filter fo_receipts rc_source_id id fs1 fs2)
    by (eapply Forall2_impl; [exact Hagree|]; naive_solver).
Qed.
End discovery.

(* ------------------------------------------------------------------ *)
(** ** One reply and one lost call *)
(* ------------------------------------------------------------------ *)

Section sample.
#[local] Existing Instance Checksum.

Definition ascii_alnum (c : N) : bool :=
  ((48 <=? c) && (c <=? 57) || (65 <=? c) && (c <=? 90) || (97 <=? c) && (c <=? 122))%N.
Definition ascii_digit (c : N) : bool := ((48 <=? c) && (c <=? 57))%N.

Definition sample_scope : ClaimScope :=
  {| sc_tenant_id := tenant_uuid; sc_document_version_id := version_id;
     sc_parse_manifest_id := manifest_id; sc_mode := "full"; sc_selected_pages := [] |}.

Definition sample_profile : ExtractionProfile :=
  {| pf_model_sha256 := sample_sha; pf_prompt_sha256 := sample_sha; pf_rule_sha256 := sample_sha;
     pf_synthetic := true; pf_replicate_id := 1; pf_extraction_epoch := 1 |}.

(** "CO2 change" of "CO2 change -50 %" as a claim. *)
Definition sample_reply : pyval :=
  PDict [("spans", PList [PDict [("char_start", PInt 0); ("char_end", PInt 10); ("quote", PStr "CO2 change");
     ("kind", PStr "claim"); ("reason", PNone); ("topic_ids", PList [PStr "climate"])]])].

Definition source_of (packet : pyval) : option pystr :=
  match packet with
  | PDict d => match dict_get "untrusted_document_data" d with
               | Some (PDict e) => match dict_get "source_id" e with Some (PStr s) => Some s | _ => None end
               | _ => None
               end
  | _ => None
  end.

(** The paragraph is answered; the rest is [other]. *)
Definition sample_extractor (other : extraction) (packet : pyval) : extraction :=
  if bool_decide (source_of packet = Some (sample_id 1)) then Replied sample_reply else other.

Abbreviation sample_discovery other :=
  (discover_atomic_claims nfc_sample sample_uuid5 ascii_alnum ascii_digit sample_graph sample_scope
     sample_profile (sample_extractor other)).

Lemma sample_discovery_ok :
  match sample_discovery TransportError with
  | Ok d => (length (di_claims d) =? 1)%nat && (length (di_exclusions d) =? 4)%nat
            && bool_decide (cl_quote <$> di_claims d = (["CO2 change"] : list pystr))
  | Raise _ => false
  end = true.
Proof. vm_compute. reflexivity. Qed.

Lemma discovery_covers_witness :
  ∃ d, sample_discovery TransportError = Ok d ∧ length (di_claims d) = 1%nat
    ∧ di_quality_issues d = gr_issues sample_graph.
Proof.
  pose proof sample_discovery_ok as Hf. destruct (sample_discovery TransportError) as [d|e] eqn:E; [|discriminate Hf].
  rewrite !andb_true_iff in Hf. destruct Hf as [[Hl%Nat.eqb_eq _] _].
  destruct (@discovery_covers Checksum nfc_sample sample_uuid5 ascii_alnum ascii_digit sample_graph sample_scope
              sample_profile (sample_extractor TransportError) d E) as [Hq _].
  exists d. split; [exact eq_refl|]. split; [exact Hl|exact Hq].
Defined.

Lemma claims_cite_sources_witness :
  ∃ d c, sample_discovery TransportError = Ok d ∧ c ∈ di_claims d ∧ cl_quote c = "CO2 change"
    ∧ cl_tenant_id c = tenant_uuid.
Proof.
  pose proof sample_discovery_ok as Hf. destruct (sample_discovery TransportError) as [d|e] eqn:E; [|discriminate Hf].
  rewrite !andb_true_iff in Hf. destruct Hf as [_ Hq%bool_decide_eq_true].
  destruct (di_claims d) as [|c l] eqn:Ec; [discriminate Hq|]. injection Hq as Hq _.
  assert (Hin : c ∈ di_claims d) by (rewrite Ec; left).
  destruct (@claims_cite_sources Checksum nfc_sample sample_uuid5 ascii_alnum ascii_digit sample_graph sample_scope
              sample_profile (sample_extractor TransportError) d c E Hin) as [Hid _].
  exists d, c. split; [exact eq_refl|]. split; [exact Hin|]. split; [exact Hq|]. injection Hid as Ht _ _ _. exact Ht.
Defined.

(** The cells' calls lost, or answered with nonsense. *)
Definition cell_extractor (other : extraction) (packet : pyval) : extraction :=
  if bool_decide (source_of packet = Some (sample_id 3)) then other else sample_extractor TransportError packet.

Abbreviation cell_discovery other :=
  (discover_atomic_claims nfc_sample sample_uuid5 ascii_alnum ascii_digit sample_graph sample_scope
     sample_profile (cell_extractor other)).

Lemma cell_discoveries_ok :
  match cell_discovery TransportError, cell_discovery (Replied PNone) with
  | Ok d1, Ok d2 => (length (di_claims d1) =? 1)%nat
                    && negb (bool_decide (ex_reason <$> di_exclusions d1 = ex_reason <$> di_exclusions d2))
  | _, _ => false
  end = true.
Proof. vm_compute. reflexivity. Qed.

Lemma replies_isolated_witness :
  ∃ d1 d2, cell_discovery TransportError = Ok d1 ∧ cell_discovery (Replied PNone) = Ok d2
    ∧ ex_reason <$> di_exclusions d1 ≠ ex_reason <$> di_exclusions d2
    ∧ others (sample_id 3) d1 = others (sample_id 3) d2.
Proof.
  pose proof cell_discoveries_ok as Hf. destruct (cell_discovery TransportError) as [d1|e] eqn:E1; [|discriminate Hf].
  destruct (cell_discovery (Replied PNone)) as [d2|e] eqn:E2; [|discriminate Hf].
  apply andb_true_iff in Hf as [_ Hne%negb_true_iff%bool_decide_eq_false].
  exists d1, d2. split; [exact eq_refl|]. split; [exact eq_refl|]. split; [exact Hne|].
  refine (@replies_isolated Checksum nfc_sample sample_uuid5 ascii_alnum ascii_digit sample_graph sample_scope
            sample_profile (cell_extractor TransportError) (cell_extractor (Replied PNone)) (sample_id 3) d1 d2 _ E1 E2).
  intros b text Hb. unfold cell_extractor.
  assert (Hs : source_of (packet_of sample_scope (gr_source_sha256 sample_graph) sample_profile b text)
               = Some (kb_source_id b)) by reflexivity.
  rewrite Hs, bool_decide_eq_false_2; [reflexivity|]. intros [= E]. exact (Hb E).
Defined.

(** A rule of canonical ordering: a dot below sorts before a dot above. *)
Fixpoint nfc_marks (s : pystr) : pystr :=
  match s with
  | 775%N :: 803%N :: r => 803%N :: 775%N :: nfc_marks r
  | c :: r => c :: nfc_marks r
  | [] => []
  end.

(** "q" with the two dots in the other order, in a paragraph of its own. *)
Definition marked_text : pystr := [113; 775; 803; 32; 120]%N.

Definition marked_graph : CanonicalDocumentGraph :=
  {| gr_tenant_id := tenant_uuid; gr_document_version_id := version_id;
     gr_parse_manifest_id := manifest_id; gr_source_sha256 := sample_sha;
     gr_blocks := [cell_block 1 "paragraph" marked_text None None]; gr_edges := []; gr_issues := [];
     gr_candidates := [];
     gr_validation_profile := "fast_preview" |}.

Definition marked_reply : pyval :=
  PDict [("spans", PList [PDict [("char_start", PInt 0); ("char_end", PInt 2);
     ("quote", PStr [113; 803]%N); ("kind", PStr "excluded"); ("reason", PStr "symbol");
     ("topic_ids", PList [])]])].

(** A span that ends between two marks NFC reorders passes the boundary and
    has no raw offset: the reference raises, and the discovery with it. *)
Lemma span_between_marks_aborts :
  validate_extraction_response ascii_alnum ascii_digit marked_reply (nfc_marks marked_text) false
  = Ok [{| sp_char_start := 0; sp_char_end := 2; sp_quote := [113; 803]%N; sp_kind := "excluded";
           sp_reason := Some ("symbol" : pystr); sp_topic_ids := [] |}]
  ∧ discover_atomic_claims nfc_marks sample_uuid5 ascii_alnum ascii_digit marked_graph sample_scope
      sample_profile (λ _, Replied marked_reply) = Raise DomainValidationError.
Proof. split; vm_compute; reflexivity. Qed.
End sample.
