(* ===== verification/Rules.v ===== *)
(** * The pinned-pack rules engine.

    [domain/rules/engine.py], [exceptions.py], [goal.py], [performance.py],
    [management.py] and [qt1_baseline.py]: confirmed facts, the trust boundary
    on evaluation inputs, the source exceptions, the explicit ladder selector
    and the evaluator that turns confirmed tags into a [Decision].  A rule
    pack is read as the parsed JSON it stores; a missing key is a [KeyError]
    where the code would raise one. *)
From S2P Require Import Prelude PyVal JsonCodec Values Digest RulePack.

(* ------------------------------------------------------------------ *)
(** ** Primitive-to-rubric mappings *)
(* ------------------------------------------------------------------ *)

(** [domain/rules/goal.py:3-12 ELEMENTS] *)
Definition GOAL_ELEMENTS : list (pystr * list pystr) :=
  [("G1", ["target_year"]); ("G2", ["target_metric"]);
   ("G3", ["baseline_year"; "baseline_value"]); ("G4", ["scope"; "org_boundary"]);
   ("G5", ["current_progress"]); ("G6", ["transition_plan"]); ("G7", ["offset_plan"]);
   ("G8", ["science_based_verification"])].

(** [domain/rules/performance.py:3-10 ELEMENTS] *)
Definition PERFORMANCE_ELEMENTS : list (pystr * list pystr) :=
  [("P1", ["quantitative_or_qualified_ordinal"; "unit_or_qualified_ordinal"]);
   ("P2", ["comparison_baseline"]); ("P3", ["method"; "calculation_boundary"]);
   ("P4", ["assurance_covered"]); ("P5", ["absolute_intensity"]);
   ("P6", ["numerical_check"])].

(** [domain/rules/management.py:3-10 ELEMENTS] *)
Definition MANAGEMENT_ELEMENTS : list (pystr * list pystr) :=
  [("M1", ["named_means_or_concrete_state"]); ("M2", ["org_boundary"]);
   ("M3", ["external_verification"]); ("M4", ["concrete_implementation_detail"]);
   ("M5", ["responsible_organization"]); ("M6", ["compensation_link"])].

(** [domain/rules/engine.py:38-42 MAPPINGS] *)
Definition MAPPINGS (t : Track) : list (pystr * list pystr) :=
  match t with
  | Goal_ => GOAL_ELEMENTS
  | Performance => PERFORMANCE_ELEMENTS
  | Management => MANAGEMENT_ELEMENTS
  end.

(** [performance.ELEMENTS["P1"]] *)
Definition P1_NAMES : list pystr :=
  ["quantitative_or_qualified_ordinal"; "unit_or_qualified_ordinal"].

(** [domain/rules/engine.py:34 ENGINE_VERSION] *)
Definition ENGINE_VERSION : pystr := "explicit-ladders-exceptions-3".
(** [domain/rules/engine.py:37 ADDITIONAL_REPORT_ONLY] *)
Definition ADDITIONAL_REPORT_ONLY : pystr := "report_without_grade_effect".
(** [domain/rules/qt1_baseline.py:3-5 ENGINE_VERSION] *)
Definition QT1_SOURCE_SCOPE : pystr := "qt1_maintenance_baseline_v1".
Definition QT1_FACTS : list pystr := ["target_metric"; "baseline_year"; "baseline_value"].
Definition QT1_ENGINE_VERSION : pystr := "qt1-maintenance-baseline-dec93-v1".

(* ------------------------------------------------------------------ *)
(** ** Confirmed inputs *)
(* ------------------------------------------------------------------ *)

(** [ElementState | Literal["absent_in_scope"]] *)
Inductive FactState : Set := Stated (s : ElementState) | AbsentInScope.

#[export] Instance fact_state_eq_dec : EqDecision FactState.
Proof. solve_decision. Defined.

Definition fact_state_str (s : FactState) : pystr :=
  match s with Stated s => state_str s | AbsentInScope => "absent_in_scope" end.

(** [domain/rules/engine.py:45-55 ConfirmedFact] *)
Record ConfirmedFact : Set := {
  f_name : pystr;
  f_state : FactState;
  f_evidence_refs : list SourceRef;
  f_source_tenant_id : option pystr;
  f_citation_verified : bool;
  f_binding_accepted : bool;
  f_search_coverage_verified : bool;
  f_source_scope : pystr;
  f_normalized_value : option pystr }.

(** [bool(s)] of an optional string. *)
Definition opt_truthy (o : option pystr) : bool :=
  match o with Some s => nonempty s | None => false end.

(** The constructor on fields of the declared types.
    [domain/rules/engine.py:57-80 ConfirmedFact.__post_init__] *)
Definition mk_ConfirmedFact (f : ConfirmedFact) : result ConfirmedFact :=
  _ ← require (nonempty (f_name f)) DomainValidationError;
  _ ← reject (bool_decide (f_state f = Stated Present)
              && negb (negb (py_len (f_evidence_refs f) =? 0)%Z && f_citation_verified f
                       && f_binding_accepted f && opt_truthy (f_source_tenant_id f)))
        DomainValidationError;
  _ ← reject (bool_decide (f_state f = Stated Absent) && negb (f_search_coverage_verified f))
        DomainValidationError;
  Ok f.

(** [domain/rules/engine.py:83-98 ConfirmedTags] *)
Record ConfirmedTags : Set := {
  t_tenant_id : pystr;
  t_document_version_id : pystr;
  t_claim_id : pystr;
  t_track : Track;
  t_facts : list ConfirmedFact;
  t_tag_revision : Z;
  t_packet_sha256 : pystr;
  t_model_sha256 : pystr;
  t_prompt_sha256 : pystr;
  t_replicate_hashes : list pystr;
  t_ontology_version : pystr;
  t_safe_harbor_category : option pystr;
  t_superlative_quote : option pystr;
  t_product_variant : bool }.

Definition check_uuid (s : pystr) : result pystr := require_uuid (PStr s).
Definition check_sha256 (s : pystr) : result pystr := require_sha256 (PStr s).

(** [sorted(facts, key=lambda f: f.name)] *)
Definition sort_facts : list ConfirmedFact → list ConfirmedFact :=
  isort (λ a b, str_leb (f_name a) (f_name b)).

Definition set_facts (t : ConfirmedTags) (facts : list ConfirmedFact) : ConfirmedTags :=
  {| t_tenant_id := t_tenant_id t; t_document_version_id := t_document_version_id t;
     t_claim_id := t_claim_id t; t_track := t_track t; t_facts := facts;
     t_tag_revision := t_tag_revision t; t_packet_sha256 := t_packet_sha256 t;
     t_model_sha256 := t_model_sha256 t; t_prompt_sha256 := t_prompt_sha256 t;
     t_replicate_hashes := t_replicate_hashes t; t_ontology_version := t_ontology_version t;
     t_safe_harbor_category := t_safe_harbor_category t;
     t_superlative_quote := t_superlative_quote t; t_product_variant := t_product_variant t |}.

(** [domain/rules/engine.py:100-129 ConfirmedTags.__post_init__] *)
Definition mk_ConfirmedTags (t : ConfirmedTags) : result ConfirmedTags :=
  _ ← check_uuid (t_tenant_id t);
  _ ← check_uuid (t_document_version_id t);
  _ ← check_uuid (t_claim_id t);
  _ ← check_sha256 (t_packet_sha256 t);
  _ ← check_sha256 (t_model_sha256 t);
  _ ← check_sha256 (t_prompt_sha256 t);
  _ ← require (match t_safe_harbor_category t with
               | Some c => str_in c SAFE_HARBOR_CATEGORIES | None => true end)
        DomainValidationError;
  _ ← reject (t_tag_revision t <? 1)%Z DomainValidationError;
  _ ← require (str_distinct (f_name <$> t_facts t)) DomainValidationError;
  _ ← require (py_len (t_replicate_hashes t) =? 3)%Z DomainValidationError;
  _ ← map_result check_sha256 (t_replicate_hashes t);
  Ok (set_facts t (sort_facts (t_facts t))).

(** [domain/rules/engine.py:132-144 RuleContext] *)
Record RuleContext : Set := {
  c_tenant_id : pystr;
  c_document_version_id : pystr;
  c_claim_id : pystr;
  c_packet_sha256 : pystr;
  c_decision_revision : Z;
  c_mode : pystr;
  c_local_synthetic : bool;
  c_company_id : option pystr;
  c_reporting_period : option pystr;
  c_industry : option pystr;
  c_regulatory_axis : pystr }.

(** [domain/rules/engine.py:146-153 RuleContext.__post_init__] *)
Definition mk_RuleContext (c : RuleContext) : result RuleContext :=
  _ ← check_uuid (c_tenant_id c);
  _ ← check_uuid (c_document_version_id c);
  _ ← check_uuid (c_claim_id c);
  _ ← check_sha256 (c_packet_sha256 c);
  _ ← reject (c_decision_revision c <? 1)%Z DomainValidationError;
  Ok c.

(** [domain/rules/engine.py:156-180 Decision] *)
Record Decision : Set := {
  d_decision_revision : Z;
  d_tag_revision : Z;
  d_decision_status : pystr;
  d_evidence_grade : option pystr;
  d_label : option pystr;
  d_sublabel : option pystr;
  d_review_status : pystr;
  d_missing_elements : list pystr;
  d_rule_ids : list pystr;
  d_rule_pack_sha256 : pystr;
  d_semantic_hash : pystr;
  d_gap_ids : list pystr;
  d_unresolved_elements : list pystr;
  d_excluded_elements : list pystr;
  d_ladder_candidate : option pystr;
  d_basis_refs : list pystr;
  d_input_tags_sha256 : pystr;
  d_local_synthetic : bool;
  d_grade_floor : option pystr;
  d_grade_ceiling : option pystr;
  d_grade_open_elements : list pystr }.

Definition strs_val (l : list pystr) : pyval := PList (PStr <$> l).
Definition strs_tuple (l : list pystr) : pyval := PTuple (PStr <$> l).

(** [domain/rules/engine.py:182-210 Decision.to_api_dict] *)
Definition decision_to_api_dict (d : Decision) : pydict :=
  let grade_range :=
    match d_grade_floor d with
    | Some _ => PDict [("floor", opt_val (d_grade_floor d));
                       ("ceiling", opt_val (d_grade_ceiling d));
                       ("open_elements", strs_val (d_grade_open_elements d))]
    | None => PNone
    end in
  [("decision_revision", PInt (d_decision_revision d));
   ("tag_revision", PInt (d_tag_revision d));
   ("decision_status", PStr (d_decision_status d));
   ("evidence_grade", opt_val (d_evidence_grade d));
   ("label", opt_val (d_label d));
   ("sublabel", opt_val (d_sublabel d));
   ("review_status", PStr (d_review_status d));
   ("missing_elements", strs_val (d_missing_elements d));
   ("rule_ids", strs_val (d_rule_ids d));
   ("rule_pack_sha256", PStr (d_rule_pack_sha256 d));
   ("semantic_hash", PStr (d_semantic_hash d));
   ("gap_ids", strs_val (d_gap_ids d));
   ("grade_range", grade_range)].

(** [domain/rules/qt1_baseline.py:8-9 approved_fact] *)
Definition approved_fact (t : Track) (f : ConfirmedFact) : bool :=
  bool_decide (t = Goal_) && str_in (f_name f) QT1_FACTS
  && (f_source_scope f =s? QT1_SOURCE_SCOPE).

(* ------------------------------------------------------------------ *)
(** ** Reading pack content *)
(* ------------------------------------------------------------------ *)

(** Iteration over a parsed value. *)
Definition py_iter (v : pyval) : result (list pyval) :=
  match v with
  | PList l | PTuple l => Ok l
  | PDict d => Ok (PStr <$> dict_keys d)
  | PStr s => Ok ((λ c, PStr [c]) <$> s)
  | _ => Raise TypeError
  end.

(** [s in v] for a string [s]. *)
Definition str_in_val (s : pystr) (v : pyval) : result bool :=
  match v with
  | PList l | PTuple l => Ok (existsb (λ x, eq_str x s) l)
  | PDict d => Ok (str_in s (dict_keys d))
  | PStr t => Ok (contains s t)
  | _ => Raise TypeError
  end.

(** [{e["id"]: e for e in pack.file_content("rubric/elements.yaml")["elements"]}];
    ids are strings in every pack the loader accepts.
    [domain/rules/engine.py:255 _validate_inputs] *)
Definition element_definitions (pack : RulePackSnapshot) : result pydict :=
  file ← file_content pack "rubric/elements.yaml";
  els ← of_option KeyError (dict_get "elements" file);
  els ← py_iter els;
  pairs ← map_result (λ e, i ← getitem "id" e; i ← as_str TypeError i; Ok (i, e)) els;
  Ok (dict_of pairs).

(** [domain/rules/engine.py:256-258 _validate_inputs] *)
Definition allowed_scopes (elements : list (pystr * list pystr)) (definitions : pydict)
    : result pydict :=
  groups ← map_result (λ '(e, names),
             map_result (λ name, d ← of_option KeyError (dict_get e definitions);
                                 scopes ← getitem "source_scopes" d; Ok (name, scopes)) names)
             elements;
  Ok (dict_of (concat groups)).

Definition find_fact (name : pystr) (facts : list ConfirmedFact) : option ConfirmedFact :=
  find (λ f, f_name f =s? name) facts.

(** [domain/rules/engine.py:266-272 _validate_inputs] *)
Definition ref_unusable (document_version_id : pystr) (ref : SourceRef) : bool :=
  negb (Values.document_version_id ref =s? document_version_id)
  || negb (bool_decide (verification_state ref = Verified))
  || negb (bool_decide (location_quality ref = Located))
  || negb (nonblank (quote ref))
  || (char_end ref <=? char_start ref)%Z.

(** [domain/rules/engine.py:260-285 _validate_inputs] *)
Definition validate_fact (tags : ConfirmedTags) (allowed : pydict) (fact : ConfirmedFact)
    : result unit :=
  if bool_decide (f_state fact = Stated Present) then
    _ ← require (match f_source_tenant_id fact with
                 | Some s => s =s? t_tenant_id tags | None => false end)
          DomainValidationError;
    _ ← reject (existsb (ref_unusable (t_document_version_id tags)) (f_evidence_refs fact))
          DomainValidationError;
    let scopes := default (strs_val ["local_claim"; "same_table"])
                    (dict_get (f_name fact) allowed) in
    let scopes := if f_name fact =s? "external_verification"
                  then strs_val ["local_claim"; "global_bound"] else scopes in
    inside ← str_in_val (f_source_scope fact) scopes;
    _ ← reject ((negb inside || (f_source_scope fact =s? "explicit_link"))
                && negb (approved_fact (t_track tags) fact)) DomainValidationError;
    reject ((f_name fact =s? "assurance_covered")
            && negb (bool_decide (f_normalized_value fact = Some "covered")))
      DomainValidationError
  else Ok tt.

(** [domain/rules/engine.py:234-285 _validate_inputs] *)
Definition validate_inputs (tags : ConfirmedTags) (context : RuleContext)
    (pack : RulePackSnapshot) : result unit :=
  _ ← require ((t_tenant_id tags =s? c_tenant_id context)
               && (t_document_version_id tags =s? c_document_version_id context)
               && (t_claim_id tags =s? c_claim_id context)
               && (t_packet_sha256 tags =s? c_packet_sha256 context)) DomainValidationError;
  _ ← reject (negb (RulePack.tenant_id pack =s? c_tenant_id context)
              || negb (t_ontology_version tags =s? ontology_version pack))
        DomainValidationError;
  _ ← reject (negb (c_mode context =s? "disclosure") || negb (mode pack =s? c_mode context))
        DomainValidationError;
  _ ← require (c_regulatory_axis context =s? "advisory_unverified") DomainValidationError;
  _ ← require (str_in (status pack) ["draft"; "validated"; "active"]) DomainValidationError;
  _ ← reject (negb (c_local_synthetic context)
              && negb ((status pack =s? "active") && opt_truthy (approved_by pack)
                       && opt_truthy (approved_at pack))) DomainValidationError;
  definitions ← element_definitions pack;
  allowed ← allowed_scopes (MAPPINGS (t_track tags)) definitions;
  each (validate_fact tags allowed) (t_facts tags).

(* ------------------------------------------------------------------ *)
(** ** Source exceptions *)
(* ------------------------------------------------------------------ *)

(** [domain/rules/exceptions.py:22-29 ExceptionEffect] *)
Record ExceptionEffect : Set := {
  e_override_grade : option pystr;
  e_cap_grade : option pystr;
  e_gap_ids : list pystr;
  e_unresolved_elements : list pystr;
  e_rule_ids : list pystr;
  e_ordinal_state : option ElementState }.

Definition no_effect : ExceptionEffect :=
  {| e_override_grade := None; e_cap_grade := None; e_gap_ids := [];
     e_unresolved_elements := []; e_rule_ids := []; e_ordinal_state := None |}.

(** [state(name)]: the scoped absence is read as absence only on request.
    [domain/rules/exceptions.py:41-43 apply_source_exceptions.state] *)
Definition read_state (analysis_scope : bool) (facts : list ConfirmedFact) (name : pystr)
    : FactState :=
  let value := match find_fact name facts with
               | Some f => f_state f | None => Stated Unknown end in
  if analysis_scope && bool_decide (value = AbsentInScope) then Stated Absent else value.

Definition is_state (s : ElementState) (x : FactState) : bool := bool_decide (x = Stated s).

(** [domain/rules/exceptions.py:54-70 apply_source_exceptions]: the superlative
    branch; [inl] is the early return of the override. *)
Definition superlative_check (tags : ConfirmedTags) (st : pystr → FactState)
    : ExceptionEffect + list pystr :=
  let quote := default [] (t_superlative_quote tags) in
  let attested :=
    match find_fact "has_superlative" (t_facts tags) with
    | Some f => is_state Present (f_state f) && nonempty quote && nonblank quote
                && existsb (λ ref, contains quote (Values.quote ref)) (f_evidence_refs f)
    | None => false
    end in
  let operands := ["comparison_basis"; "external_verification"] in
  if negb attested then inr ["has_superlative"]
  else if forallb (λ n, is_state Absent (st n)) operands then
    inl {| e_override_grade := Some "E0"; e_cap_grade := None; e_gap_ids := [];
           e_unresolved_elements := []; e_rule_ids := ["SUPERLATIVE_E0"];
           e_ordinal_state := None |}
  else if existsb (λ n, is_state Present (st n)) operands then inr []
  else inr (filter (λ n, is_state Absent (st n) = false) operands).

(** [domain/rules/exceptions.py:72-92 apply_source_exceptions] *)
Definition ordinal_check (tags : ConfirmedTags) (st : pystr → FactState)
    : result (option ElementState) :=
  match find_fact "categorical_ordinal" (t_facts tags) with
  | Some _ =>
      if bool_decide (t_track tags = Performance) then
        let names := ["categorical_ordinal"; "certification_provider"] in
        _ ← each (λ name,
              let value := match find_fact name (t_facts tags) with
                           | Some f => default [] (f_normalized_value f) | None => [] end in
              reject (is_state Present (st name) && negb (nonblank value))
                DomainValidationError) names;
        let states := st <$> names in
        Ok (Some (if forallb (is_state Present) states then Present
                  else if existsb (is_state Absent) states then Absent
                  else if existsb (is_state Conflict) states then Conflict
                  else Unknown))
      else Ok None
  | None => Ok None
  end.

(** [domain/rules/exceptions.py:94-108 apply_source_exceptions]: cap, gaps,
    unresolved facts and rules of the product-variant branch. *)
Definition product_check (tags : ConfirmedTags) (pack : RulePackSnapshot)
    (st : pystr → FactState) : result (option pystr * list pystr * list pystr * list pystr) :=
  if negb (t_product_variant tags) then Ok (None, [], [], [])
  else if negb (bool_decide (t_track tags = Management)) then Ok (None, ["GAP-007"], [], [])
  else
    file ← file_content pack "rubric/management.yaml";
    product ← of_option KeyError (dict_get "product_variant" file);
    direct ← getitem "e2_plus_requires" product;
    direct ← as_str TypeError direct;
    if is_state Absent (st direct) then
      cap ← getitem "specific_names_only_cap" product;
      cap ← as_str TypeError cap;
      Ok (Some cap, [], [], ["PRODUCT_NAMES_CAP"])
    else if is_state Present (st direct) then
      gap ← getitem "generic_boundary_interaction" product;
      gap ← as_str TypeError gap;
      Ok (None, [gap], [], [])
    else Ok (None, [], [direct], []).

(** [domain/rules/exceptions.py:32-115 apply_source_exceptions] *)
Definition apply_source_exceptions (tags : ConfirmedTags) (context : RuleContext)
    (pack : RulePackSnapshot) (analysis_scope : bool) : result ExceptionEffect :=
  _ ← validate_inputs tags context pack;
  let st := read_state analysis_scope (t_facts tags) in
  file ← file_content pack "rubric/exceptions.yaml";
  special ← of_option KeyError (dict_get "superlative" file);
  let has_superlative :=
    opt_truthy (t_superlative_quote tags)
    || match find_fact "has_superlative" (t_facts tags) with
       | Some _ => negb (is_state Absent (st "has_superlative"))
       | None => false
       end in
  if opt_truthy (t_safe_harbor_category tags) then
    gap_ids ← (if has_superlative then
                 g ← getitem "with_safe_harbor" special;
                 g ← as_str TypeError g; Ok ["GAP-001"; g]
               else Ok ["GAP-001"]);
    Ok {| e_override_grade := None; e_cap_grade := None; e_gap_ids := gap_ids;
          e_unresolved_elements := []; e_rule_ids := []; e_ordinal_state := None |}
  else
    enabled ← (if has_superlative then v ← getitem "enabled" special; Ok (truthy v)
               else Ok false);
    match (if enabled : bool then superlative_check tags st else inr []) with
    | inl effect => Ok effect
    | inr unresolved =>
        ordinal ← ordinal_check tags st;
        '(cap, gaps, open_facts, rules) ← product_check tags pack st;
        Ok {| e_override_grade := None; e_cap_grade := cap; e_gap_ids := gaps;
              e_unresolved_elements := unresolved ++ open_facts;
              e_rule_ids := (if (ordinal : option ElementState) then ["CATEGORICAL_ORDINAL"] else []) ++ rules;
              e_ordinal_state := ordinal |}
    end.

(* ------------------------------------------------------------------ *)
(** ** The ladder *)
(* ------------------------------------------------------------------ *)

(** One entry of [rubric["branches"]]: [when] is optional, [require_all]
    defaults to the empty list, [cap] is a truth value. *)
Record branch : Set := {
  b_id : pystr;
  b_grade : pystr;
  b_cap : bool;
  b_when : option pydict;
  b_require_all : list pystr }.

(** The fields of a branch the selector reads.
    [domain/rules/engine.py:225-230 _select] *)
Definition branch_of (v : pyval) : result branch :=
  d ← as_dict TypeError v;
  i ← of_option KeyError (dict_get "id" d);
  i ← as_str TypeError i;
  g ← of_option KeyError (dict_get "grade" d);
  g ← as_str TypeError g;
  w ← match dict_get "when" d with
      | Some w => w ← as_dict TypeError w; Ok (Some w)
      | None => Ok None
      end;
  r ← py_iter (default (PList []) (dict_get "require_all" d));
  r ← map_result (as_str TypeError) r;
  Ok {| b_id := i; b_grade := g; b_cap := truthy (get_or_none d "cap"); b_when := w;
        b_require_all := r |}.

(** [branch.get("when", {name: True for name in require_all})] *)
Definition conditions (b : branch) : pydict :=
  match b_when b with
  | Some w => w
  | None => dict_of ((λ n, (n, PBool true)) <$> b_require_all b)
  end.

(** [all(facts[name] == value for name, value in conditions.items())] *)
Fixpoint holds_all (facts : list (pystr * bool)) (conds : pydict) : result bool :=
  match conds with
  | [] => Ok true
  | (name, value) :: r =>
      x ← of_option KeyError (dict_get name facts);
      if eq_bool value x then holds_all facts r else Ok false
  end.

(** [max(matches)] on (grade, id) pairs: lexicographic, last of the equals. *)
Definition pair_leb (a b : pystr * pystr) : bool :=
  if a.1 =s? b.1 then str_leb a.2 b.2 else str_leb a.1 b.1.

Definition max_match (matches : list (pystr * pystr)) : option pystr * pystr :=
  match matches with
  | [] => (None, [])
  | m :: r => let best := foldl (λ a b, if pair_leb a b then b else a) m r in
              (Some best.1, best.2)
  end.

(** [domain/rules/engine.py:224-231 _select] *)
Fixpoint select_loop (branches : list branch) (facts : list (pystr * bool))
    (matches : list (pystr * pystr)) : result (option pystr * pystr) :=
  match branches with
  | [] => Ok (max_match matches)
  | b :: r =>
      ok ← holds_all facts (conditions b);
      if (ok : bool) then
        if b_cap b then Ok (Some (b_grade b), b_id b)
        else select_loop r facts (matches ++ [(b_grade b, b_id b)])
      else select_loop r facts matches
  end.

(** [domain/rules/engine.py:217-231 _select] *)
Definition select (branches : list branch) (facts : list (pystr * bool))
    : result (option pystr * pystr) :=
  let applies := default false (dict_get "target_metric" facts)
                 && default false (dict_get "transition_plan" facts) in
  select_loop branches (dict_set "exception_applies" applies facts) [].

(** [product((False, True), repeat=n)] *)
Fixpoint assignments (n : nat) : list (list bool) :=
  match n with
  | O => [[]]
  | S n => ((λ l, false :: l) <$> assignments n) ++ ((λ l, true :: l) <$> assignments n)
  end.

(** The primitive facts the branches test, as a sorted set.
    [domain/rules/engine.py:349-356 _evaluate] *)
Definition ladder_names (t : Track) (branches : list branch) : list pystr :=
  let tested := branches ≫= λ b, dict_keys (default [] (b_when b)) ++ b_require_all b in
  let names := filter (λ n, n ≠ "exception_applies") (str_set_sorted tested) in
  str_set_sorted (match t with
                  | Goal_ => ["target_metric"; "transition_plan"] ++ names
                  | _ => names
                  end).

(** [domain/rules/engine.py:357-359 _evaluate] *)
Definition known_facts (st : pystr → FactState) (names : list pystr) : list (pystr * bool) :=
  (λ n, (n, is_state Present (st n))) <$>
    filter (λ n, is_state Present (st n) || is_state Absent (st n) = true) names.

(** [domain/rules/engine.py:360 _evaluate] *)
Definition unknown_names (st : pystr → FactState) (names : list pystr) : list pystr :=
  filter (λ n, is_state Present (st n) || is_state Absent (st n) = false) names.

(** [domain/rules/engine.py:364-367 _evaluate] *)
Definition ladder_outcomes (branches : list branch) (known : list (pystr * bool))
    (unknown : list pystr) : result (list (option pystr * pystr)) :=
  map_result (λ values, select branches (dict_union known (zip unknown values)))
    (assignments (length unknown)).

Definition grade_eqb (a b : option pystr) : bool := bool_decide (a = b).

(** [{grade for grade, _ in outcomes}] *)
Definition grade_set (outcomes : list (option pystr * pystr)) : list (option pystr) :=
  dedup grade_eqb outcomes.*1.

(** [next(iter(grades)) if len(grades) == 1 else None] *)
Definition unique_grade (grades : list (option pystr)) : option pystr :=
  match grades with [g] => g | _ => None end.

Definition str_min (a b : pystr) : pystr := if str_leb a b then a else b.
Definition str_max (a b : pystr) : pystr := if str_leb a b then b else a.

(** [domain/rules/engine.py:370-371 _evaluate] *)
Definition apply_cap (cap : option pystr) (grades : list (option pystr)) : list (option pystr) :=
  match cap with
  | Some c =>
      if nonempty c then
        dedup grade_eqb ((λ g, match g with
                               | Some g => if nonempty g then Some (str_min g c) else None
                               | None => None end) <$> grades)
      else grades
  | None => grades
  end.

(* ------------------------------------------------------------------ *)
(** ** [asdict] of the hashed values *)
(* ------------------------------------------------------------------ *)

Definition ref_asdict (r : SourceRef) : pyval :=
  match source_ref_val r with
  | PDict d => PDict (dict_set "bbox" (match ref_bbox r with
                 | Some b => PTuple [PFloat (bx0 b); PFloat (by0 b); PFloat (bx1 b); PFloat (by1 b)]
                 | None => PNone end) d)
  | v => v
  end.

(** [asdict(fact)] of [domain/rules/engine.py:45-55 ConfirmedFact] *)
Definition fact_asdict (f : ConfirmedFact) : pyval :=
  PDict [("name", PStr (f_name f)); ("state", PStr (fact_state_str (f_state f)));
         ("evidence_refs", PTuple (ref_asdict <$> f_evidence_refs f));
         ("source_tenant_id", opt_val (f_source_tenant_id f));
         ("citation_verified", PBool (f_citation_verified f));
         ("binding_accepted", PBool (f_binding_accepted f));
         ("search_coverage_verified", PBool (f_search_coverage_verified f));
         ("source_scope", PStr (f_source_scope f));
         ("normalized_value", opt_val (f_normalized_value f))].

(** [asdict(tags)] of [domain/rules/engine.py:83-98 ConfirmedTags] *)
Definition tags_asdict (t : ConfirmedTags) : pyval :=
  PDict [("tenant_id", PStr (t_tenant_id t));
         ("document_version_id", PStr (t_document_version_id t));
         ("claim_id", PStr (t_claim_id t)); ("track", PStr (track_str (t_track t)));
         ("facts", PTuple (fact_asdict <$> t_facts t));
         ("tag_revision", PInt (t_tag_revision t));
         ("packet_sha256", PStr (t_packet_sha256 t));
         ("model_sha256", PStr (t_model_sha256 t));
         ("prompt_sha256", PStr (t_prompt_sha256 t));
         ("replicate_hashes", strs_tuple (t_replicate_hashes t));
         ("ontology_version", PStr (t_ontology_version t));
         ("safe_harbor_category", opt_val (t_safe_harbor_category t));
         ("superlative_quote", opt_val (t_superlative_quote t));
         ("product_variant", PBool (t_product_variant t))].

(** [asdict(context)] of [domain/rules/engine.py:132-144 RuleContext] *)
Definition context_asdict (c : RuleContext) : pyval :=
  PDict [("tenant_id", PStr (c_tenant_id c));
         ("document_version_id", PStr (c_document_version_id c));
         ("claim_id", PStr (c_claim_id c)); ("packet_sha256", PStr (c_packet_sha256 c));
         ("decision_revision", PInt (c_decision_revision c)); ("mode", PStr (c_mode c));
         ("local_synthetic", PBool (c_local_synthetic c));
         ("company_id", opt_val (c_company_id c));
         ("reporting_period", opt_val (c_reporting_period c));
         ("industry", opt_val (c_industry c));
         ("regulatory_axis", PStr (c_regulatory_axis c))].

(** [asdict(decision)] of [domain/rules/engine.py:156-180 Decision] *)
Definition decision_asdict (d : Decision) : pydict :=
  [("decision_revision", PInt (d_decision_revision d));
   ("tag_revision", PInt (d_tag_revision d));
   ("decision_status", PStr (d_decision_status d));
   ("evidence_grade", opt_val (d_evidence_grade d)); ("label", opt_val (d_label d));
   ("sublabel", opt_val (d_sublabel d)); ("review_status", PStr (d_review_status d));
   ("missing_elements", strs_tuple (d_missing_elements d));
   ("rule_ids", strs_tuple (d_rule_ids d));
   ("rule_pack_sha256", PStr (d_rule_pack_sha256 d));
   ("semantic_hash", PStr (d_semantic_hash d)); ("gap_ids", strs_tuple (d_gap_ids d));
   ("unresolved_elements", strs_tuple (d_unresolved_elements d));
   ("excluded_elements", strs_tuple (d_excluded_elements d));
   ("ladder_candidate", opt_val (d_ladder_candidate d));
   ("basis_refs", strs_tuple (d_basis_refs d));
   ("input_tags_sha256", PStr (d_input_tags_sha256 d));
   ("local_synthetic", PBool (d_local_synthetic d));
   ("grade_floor", opt_val (d_grade_floor d));
   ("grade_ceiling", opt_val (d_grade_ceiling d));
   ("grade_open_elements", strs_tuple (d_grade_open_elements d))].

(* ------------------------------------------------------------------ *)
(** ** The evaluator *)
(* ------------------------------------------------------------------ *)

(** [state(name)] of the evaluator: the derived ordinal state replaces the
    two P1 primitives. [domain/rules/engine.py:303-308 _evaluate.state] *)
Definition eval_state (analysis_scope : bool) (effect : ExceptionEffect)
    (facts : list ConfirmedFact) (name : pystr) : FactState :=
  match e_ordinal_state effect with
  | Some s => if str_in name P1_NAMES then Stated s
              else read_state analysis_scope facts name
  | None => read_state analysis_scope facts name
  end.

Inductive element_class : Set := Excluded | Unresolved | Missing | Satisfied.

#[export] Instance element_class_eq_dec : EqDecision element_class.
Proof. solve_decision. Defined.

(** [domain/rules/engine.py:315-325 _evaluate] *)
Definition classify (st : pystr → FactState) (trigger : option pystr) (names : list pystr)
    : element_class :=
  let trigger_is s := match trigger with Some t => is_state s (st t) | None => false end in
  if trigger_is Absent then Excluded
  else if (bool_decide (is_Some trigger) && negb (trigger_is Present))
          || existsb (λ n, negb (is_state Present (st n) || is_state Absent (st n))) names
  then Unresolved
  else if existsb (λ n, is_state Absent (st n)) names then Missing
  else Satisfied.

(** One rubric element: its name, its basis text and its class.
    [domain/rules/engine.py:312-325 _evaluate] *)
Definition element_row (st : pystr → FactState) (definitions : pydict)
    (row : pystr * list pystr) : result (pystr * pystr * element_class) :=
  let '(element, names) := row in
  definition ← of_option KeyError (dict_get element definitions);
  basis ← getitem "basis" definition;
  basis ← as_dict TypeError basis;
  text ← canonical_json (PDict (dict_union [("element_id", PStr element)] basis));
  d ← as_dict TypeError definition;
  let trigger := get_or_none d "trigger" in
  trigger ← (if truthy trigger then t ← as_str TypeError trigger; Ok (Some t) else Ok None);
  Ok (element, text, classify st trigger names).

Definition of_class (c : element_class) (rows : list (pystr * pystr * element_class))
    : list pystr :=
  (λ r, r.1.1) <$> filter (λ r, r.2 = c) rows.

Definition ADDITIONAL_ELEMENTS : list pystr := ["G7"; "G8"; "P5"; "P6"; "M4"; "M5"; "M6"].

(** The additional elements that are missing or unresolved.
    [domain/rules/engine.py:326-329 _evaluate] *)
Definition additional_open (rows : list (pystr * pystr * element_class)) : list pystr :=
  (λ r, r.1.1) <$> filter (λ r, r.1.1 ∈ ADDITIONAL_ELEMENTS
                                ∧ (r.2 = Missing ∨ r.2 = Unresolved)) rows.

(** [domain/rules/engine.py:343-347 _evaluate] *)
Definition MGMT_NO_MEANS : branch :=
  {| b_id := "MGMT_NO_MEANS_IN_SCOPE_E0"; b_grade := "E0"; b_cap := false;
     b_when := Some [("named_means_or_concrete_state", PBool false)]; b_require_all := [] |}.

(** [domain/rules/engine.py:336-348 _evaluate] *)
Definition scoped_branches (dec127 : bool) (t : Track) (branches : list branch) : list branch :=
  if dec127 && bool_decide (t = Management) then
    filter (λ b, b_id b ≠ "MGMT_WILLINGNESS") branches ++ [MGMT_NO_MEANS]
  else branches.

Definition track_rubric (t : Track) : pystr := "rubric/" ++ track_str t ++ ".yaml".

(** The rubric file of a track: its policy and branches.
    [domain/rules/engine.py:331-336 _evaluate] *)
Definition read_rubric (pack : RulePackSnapshot) (t : Track) : result (pyval * list branch) :=
  rubric ← file_content pack (track_rubric t);
  let policy := get_or_none rubric "additional_element_policy" in
  branches ← of_option KeyError (dict_get "branches" rubric);
  branches ← py_iter branches;
  branches ← map_result branch_of branches;
  Ok (policy, branches).

(** What the ladder part of the evaluator computes. *)
Record ladder_result : Set := {
  l_names : list pystr;
  l_outcomes : list (option pystr * pystr);
  l_candidate : option pystr;
  l_grades : list (option pystr) }.

(** [domain/rules/engine.py:349-371 _evaluate] *)
Definition run_ladder (t : Track) (branches : list branch) (st : pystr → FactState)
    (cap : option pystr) : result ladder_result :=
  let names := ladder_names t branches in
  _ ← reject (12 <? py_len names)%Z DomainValidationError;
  outcomes ← ladder_outcomes branches (known_facts st names) (unknown_names st names);
  let grades := grade_set outcomes in
  Ok {| l_names := names; l_outcomes := outcomes; l_candidate := unique_grade grades;
        l_grades := apply_cap cap grades |}.

(** Status and gap list.  [blocking] says that additional elements are open
    and the pack has no policy for them.
    [domain/rules/engine.py:372-394 _evaluate] *)
Definition decide_status (grades : list (option pystr)) (blocking : bool)
    (additional_unresolved : bool) (effect : ExceptionEffect) : pystr * list pystr :=
  let '(status, gaps) :=
    if (1 <? py_len grades)%Z then ("blocked_evidence", [])
    else if bool_decide (is_Some (unique_grade grades))
    then ("decided", [])
    else ("blocked_rule_gap", ["GAP-007"]) in
  let '(status, gaps) :=
    if blocking then
      (if additional_unresolved then "blocked_evidence" else "blocked_rule_gap",
       gaps ++ ["GAP-003"])
    else (status, gaps) in
  let '(status, gaps) :=
    if opt_truthy (e_override_grade effect) then ("decided", []) else (status, gaps) in
  let status := if nonempty_list (e_unresolved_elements effect) then "blocked_evidence"
                else status in
  if nonempty_list (e_gap_ids effect) then ("blocked_rule_gap", gaps ++ e_gap_ids effect)
  else (status, gaps).

Definition reachable_grades (grades : list (option pystr)) : list pystr :=
  omap id grades.

Definition min_of (l : list pystr) : option pystr :=
  match l with [] => None | x :: r => Some (foldl str_min x r) end.
Definition max_of (l : list pystr) : option pystr :=
  match l with [] => None | x :: r => Some (foldl str_max x r) end.

(** [domain/rules/engine.py:398-405 _evaluate] *)
Definition has_range (status : pystr) (grades : list (option pystr)) (blocking : bool)
    (effect : ExceptionEffect) : bool :=
  (status =s? "blocked_evidence") && (1 <? py_len grades)%Z
  && negb (existsb (grade_eqb None) grades) && negb blocking
  && negb (nonempty_list (e_unresolved_elements effect))
  && negb (nonempty_list (e_gap_ids effect)).

(** [domain/rules/engine.py:420-430 _evaluate] *)
Definition sublabel_of (t : Track) (grade : option pystr) (st : pystr → FactState)
    (missing unresolved excluded : list pystr) : option pystr :=
  if bool_decide (t = Goal_) && bool_decide (grade = Some "E1")
     && bool_decide (str_set_sorted missing = ["G3"; "G4"; "G5"; "G6"])
     && forallb (λ e, forallb (λ n, is_state Absent (st n)) (default [] (dict_get e (MAPPINGS t))))
          missing
     && negb (nonempty_list unresolved)
     && bool_decide (str_set_sorted excluded = ["G7"; "G8"])
  then Some "IMPL" else None.

(** [domain/rules/engine.py:431-432 _evaluate] *)
Definition grade_gap (grade sublabel : option pystr) : list pystr :=
  match sublabel with
  | Some _ => []
  | None => if bool_decide (grade = Some "E1") || bool_decide (grade = Some "E2")
            then ["GAP-005"] else []
  end.

Definition set_semantic_hash (d : Decision) (h : pystr) : Decision :=
  {| d_decision_revision := d_decision_revision d; d_tag_revision := d_tag_revision d;
     d_decision_status := d_decision_status d; d_evidence_grade := d_evidence_grade d;
     d_label := d_label d; d_sublabel := d_sublabel d; d_review_status := d_review_status d;
     d_missing_elements := d_missing_elements d; d_rule_ids := d_rule_ids d;
     d_rule_pack_sha256 := d_rule_pack_sha256 d; d_semantic_hash := h;
     d_gap_ids := d_gap_ids d; d_unresolved_elements := d_unresolved_elements d;
     d_excluded_elements := d_excluded_elements d; d_ladder_candidate := d_ladder_candidate d;
     d_basis_refs := d_basis_refs d; d_input_tags_sha256 := d_input_tags_sha256 d;
     d_local_synthetic := d_local_synthetic d; d_grade_floor := d_grade_floor d;
     d_grade_ceiling := d_grade_ceiling d; d_grade_open_elements := d_grade_open_elements d |}.

(** [set(fact_names) & names] *)
Definition ladder_element (names : list pystr) (row : pystr * list pystr) : bool :=
  existsb (λ n, str_in n names) row.2.

(** [domain/rules/engine.py:410-419 _evaluate] *)
Definition ladder_basis (rule_ids : list pystr) : pyval :=
  PDict [("source_section", PStr "4.4"); ("clause", PNone);
         ("verification_status", PStr "unverified"); ("rule_ids", strs_tuple rule_ids)].

(** The verdict of the evaluator before it is laid out as a [Decision]. *)
Record verdict_of : Set := {
  v_status : pystr;
  v_gaps : list pystr;
  v_grade : option pystr;
  v_unresolved : list pystr;
  v_ranged : bool }.

(** [domain/rules/engine.py:372-405 _evaluate] *)
Definition judge (effect : ExceptionEffect) (rows : list (pystr * pystr * element_class))
    (no_policy : bool) (grades : list (option pystr)) : verdict_of :=
  let unresolved := of_class Unresolved rows in
  let additional := additional_open rows in
  let blocking := nonempty_list additional && no_policy in
  let '(status, gaps) :=
    decide_status grades blocking (existsb (λ e, str_in e unresolved) additional) effect in
  {| v_status := status;
     v_gaps := gaps;
     v_grade := if status =s? "decided" then
                  (if opt_truthy (e_override_grade effect) then e_override_grade effect
                   else unique_grade grades)
                else None;
     v_unresolved := unresolved ++ e_unresolved_elements effect;
     v_ranged := has_range status grades blocking effect |}.

(** [GRADE_LABEL_MAP[grade] if grade else None]
    [domain/rules/engine.py:438 _evaluate] *)
Definition label_of (grade : option pystr) : result (option pystr) :=
  match grade with
  | Some g => if nonempty g then l ← of_option KeyError (dict_get g GRADE_LABEL_MAP); Ok (Some l)
              else Ok None
  | None => Ok None
  end.

(** [domain/rules/engine.py:406-455 _evaluate] *)
Definition assemble (tags : ConfirmedTags) (context : RuleContext) (pack : RulePackSnapshot)
    (effect : ExceptionEffect) (st : pystr → FactState)
    (rows : list (pystr * pystr * element_class)) (ladder : ladder_result)
    (verdict : verdict_of) (label : option pystr) (last_basis tags_hash : pystr) : Decision :=
  let reachable := reachable_grades (l_grades ladder) in
  let ladder_elements := (λ row, row.1) <$>
        filter (λ row, ladder_element (l_names ladder) row = true) (MAPPINGS (t_track tags)) in
  let missing := of_class Missing rows in
  let excluded := of_class Excluded rows in
  let unresolved := v_unresolved verdict in
  let sublabel := sublabel_of (t_track tags) (v_grade verdict) st missing unresolved excluded in
  {| d_decision_revision := c_decision_revision context;
     d_tag_revision := t_tag_revision tags;
     d_decision_status := v_status verdict;
     d_evidence_grade := v_grade verdict;
     d_label := label;
     d_sublabel := sublabel;
     d_review_status := if (v_status verdict =s? "decided") && negb (nonempty_list unresolved)
                        then "auto_confirmed" else "needs_review";
     d_missing_elements := missing;
     d_rule_ids := str_set_sorted
       (filter (λ r, r ≠ []) (l_outcomes ladder).*2 ++ e_rule_ids effect);
     d_rule_pack_sha256 := sha256 pack;
     d_semantic_hash := [];
     d_gap_ids := str_set_sorted (v_gaps verdict ++ grade_gap (v_grade verdict) sublabel);
     d_unresolved_elements := unresolved;
     d_excluded_elements := excluded;
     d_ladder_candidate := l_candidate ladder;
     d_basis_refs := ((λ r, r.1.2) <$> rows) ++ [last_basis];
     d_input_tags_sha256 := tags_hash;
     d_local_synthetic := c_local_synthetic context;
     d_grade_floor := if v_ranged verdict then min_of reachable else None;
     d_grade_ceiling := if v_ranged verdict then max_of reachable else None;
     d_grade_open_elements :=
       if v_ranged verdict then filter (λ e, e ∈ ladder_elements) unresolved else [] |}.

Section evaluate.
Context `{Digest}.

(** [domain/rules/engine.py:456-471 _evaluate] *)
Definition seal (tags : ConfirmedTags) (context : RuleContext) (pack : RulePackSnapshot)
    (d : Decision) : result Decision :=
  let engine := if existsb (approved_fact (t_track tags)) (t_facts tags)
                then ENGINE_VERSION ++ "+" ++ QT1_ENGINE_VERSION else ENGINE_VERSION in
  h ← canonical_hash
        (PDict [("engine_version", PStr engine); ("tags", tags_asdict tags);
                ("context", context_asdict context); ("pack_sha256", PStr (sha256 pack));
                ("decision", PDict (decision_asdict d))]);
  Ok (set_semantic_hash d h).

(** [domain/rules/engine.py:297-471 _evaluate] *)
Definition evaluate_core (tags : ConfirmedTags) (context : RuleContext)
    (pack : RulePackSnapshot) (analysis_scope dec127 : bool) : result Decision :=
  effect ← apply_source_exceptions tags context pack dec127;
  definitions ← element_definitions pack;
  let st := eval_state analysis_scope effect (t_facts tags) in
  rows ← map_result (element_row st definitions) (MAPPINGS (t_track tags));
  '(policy, branches) ← read_rubric pack (t_track tags);
  _ ← require (is_none policy || eq_str policy ADDITIONAL_REPORT_ONLY) DomainValidationError;
  ladder ← run_ladder (t_track tags) (scoped_branches dec127 (t_track tags) branches) st
             (e_cap_grade effect);
  last_basis ← canonical_json (ladder_basis (e_rule_ids effect));
  let verdict := judge effect rows (is_none policy) (l_grades ladder) in
  label ← label_of (v_grade verdict);
  tags_hash ← canonical_hash (tags_asdict tags);
  seal tags context pack
    (assemble tags context pack effect st rows ladder verdict label last_basis tags_hash).

(** [domain/rules/engine.py:288-294 evaluate] *)
Definition evaluate (tags : ConfirmedTags) (context : RuleContext) (pack : RulePackSnapshot)
    : result Decision :=
  _ ← reject (existsb (λ f, bool_decide (f_state f = AbsentInScope)) (t_facts tags))
        DomainValidationError;
  evaluate_core tags context pack false false.
End evaluate.

(* ------------------------------------------------------------------ *)
(** ** The display-only grade range *)
(* ------------------------------------------------------------------ *)

(** The computed part of the returned mapping; its [assumptions] are
    constants and the list of tracks.
    [domain/rules/engine.py:527-540 display_grade_range] *)
Record DisplayRange : Set := {
  r_floor : pystr;
  r_ceiling : pystr;
  r_open_elements : list pystr;
  r_rule_gap : bool;
  r_rule_pack_sha256 : pystr;
  r_unknown_track : list pystr }.

(** One track: its open elements and its grade set.
    [domain/rules/engine.py:488-511 display_grade_range] *)
Definition display_track (pack : RulePackSnapshot) (st : pystr → FactState) (t : Track)
    : result (list pystr * list (option pystr)) :=
  '(_, branches) ← read_rubric pack t;
  let names := ladder_names t branches in
  _ ← reject (12 <? py_len names)%Z DomainValidationError;
  let unknown := unknown_names st names in
  let open := (λ row, row.1) <$> filter (λ row, ladder_element unknown row = true) (MAPPINGS t) in
  outcomes ← ladder_outcomes branches (known_facts st names) unknown;
  Ok (open, grade_set outcomes).

(** Every grade the three rubrics mention.
    [domain/rules/engine.py:516-518 display_grade_range] *)
Definition pack_grades (pack : RulePackSnapshot) : result (list pystr) :=
  rubrics ← map_result (read_rubric pack) TRACKS;
  Ok (flat_map (λ r : pyval * list branch, map b_grade r.2) rubrics).

(** [domain/rules/engine.py:474-540 display_grade_range] *)
Definition display_grade_range (pack : RulePackSnapshot)
    (inputs : option (ConfirmedTags * RuleContext)) : result DisplayRange :=
  let tracks := match inputs with Some (t, _) => [t_track t] | None => TRACKS end in
  effect ← match inputs with
           | Some (t, c) => e ← apply_source_exceptions t c pack false; Ok (Some e)
           | None => Ok None
           end;
  let st n := match inputs, effect with
              | Some (t, _), Some e => eval_state false e (t_facts t) n
              | _, _ => Stated Unknown
              end in
  rows ← map_result (display_track pack st) tracks;
  let gap := existsb (λ r : list pystr * list (option pystr), existsb (grade_eqb None) r.2) rows in
  let gap := gap || match effect with
                    | Some e => nonempty_list (e_gap_ids e) | None => false end in
  let reachable := flat_map (λ r, reachable_grades r.2) rows in
  extra ← (if gap then pack_grades pack else Ok []);
  let reachable := reachable ++ extra in
  let open := flat_map (λ r, r.1) rows in
  let '(reachable, open) :=
    match effect with
    | Some e =>
        let reachable := match e_cap_grade e with
                         | Some c => if nonempty c then (λ g, str_min g c) <$> reachable else reachable
                         | None => reachable end in
        let reachable := match e_override_grade e with
                         | Some g => if nonempty g then [g] else reachable
                         | None => reachable end in
        if nonempty_list (e_unresolved_elements e)
        then (reachable ++ ["E0"], open ++ e_unresolved_elements e)
        else (reachable, open)
    | None => (reachable, open)
    end in
  floor ← of_option (ValueError []) (min_of reachable);
  ceiling ← of_option (ValueError []) (max_of reachable);
  Ok {| r_floor := floor; r_ceiling := ceiling; r_open_elements := str_set_sorted open;
        r_rule_gap := gap; r_rule_pack_sha256 := sha256 pack;
        r_unknown_track := track_str <$> tracks |}.

Lemma check_uuid_Ok s u : check_uuid s = Ok u → uuid_shape s = true.
Proof. unfold check_uuid. by intros [[= ->] ?]%require_uuid_Ok. Qed.

Lemma check_sha256_Ok s u : check_sha256 s = Ok u → is_sha256 s = true.
Proof. unfold check_sha256. by intros [[= ->] ?]%require_sha256_Ok. Qed.

(* ------------------------------------------------------------------ *)
(** ** The ladder enumerates every completion of the evidence *)
(* ------------------------------------------------------------------ *)

Lemma elem_of_assignments n l : l ∈ assignments n ↔ length l = n.
Proof.
  revert l. induction n as [|n IH]; intros l; cbn [assignments].
  - rewrite elem_of_cons, elem_of_nil. destruct l; simpl; naive_solver.
  - rewrite elem_of_app, !list_elem_of_fmap. split.
    + intros [(k & -> & Hk%IH)|(k & -> & Hk%IH)]; simpl; lia.
    + destruct l as [|[] l]; simpl; [done|..]; intros [= Hl%IH]; [right|left]; eauto.
Qed.

Lemma holds_all_ext f g conds :
  (∀ n, dict_get n f = dict_get n g) → holds_all f conds = holds_all g conds.
Proof.
  intros He. induction conds as [|[n v] conds IH]; [done|]. cbn [holds_all].
  rewrite He. destruct (dict_get n g) as [x|]; [|done]. cbn. by rewrite IH.
Qed.

(** The selector sees its facts only through lookups. *)
Lemma select_ext branches f g :
  (∀ n, dict_get n f = dict_get n g) → select branches f = select branches g.
Proof.
  intros He. unfold select. rewrite !He.
  set (a := _ && _). clearbody a. generalize (@nil (pystr * pystr)).
  induction branches as [|b branches IH]; intros ms; [done|]. cbn [select_loop].
  rewrite (holds_all_ext _ (dict_set "exception_applies" a g)).
  - destruct (holds_all _ _) as [[]|]; cbn; [|by rewrite IH|done]. by rewrite IH.
  - intros n. destruct (decide (n = "exception_applies")) as [->|Hne].
    + by rewrite !dict_get_set_eq.
    + by rewrite !dict_get_set_ne.
Qed.

(** A total valuation of the primitive facts. *)
Definition valuation (v : pystr → bool) (names : list pystr) : list (pystr * bool) :=
  (λ n, (n, v n)) <$> names.

(** [v] agrees with every fact the evidence settles. *)
Definition consistent (st : pystr → FactState) (v : pystr → bool) : Prop :=
  ∀ n, (st n = Stated Present → v n = true) ∧ (st n = Stated Absent → v n = false).

Lemma is_state_true s x : is_state s x = true ↔ x = Stated s.
Proof. apply bool_decide_eq_true. Qed.

Lemma keys_zip {A} (l : list pystr) (vs : list A) :
  length vs = length l → dict_keys (zip l vs) = l.
Proof. intros Hl. unfold dict_keys. apply fst_zip. lia. Qed.

Lemma zip_map {A} (f : pystr → A) l : zip l (f <$> l) = (λ n, (n, f n)) <$> l.
Proof. induction l as [|x l IH]; [done|]. cbn. f_equal. exact IH. Qed.

Lemma str_set_sorted_NoDup l : NoDup (str_set_sorted l).
Proof.
  unfold str_set_sorted, str_sort. rewrite isort_perm. apply dedup_NoDup, str_eqb_eq.
Qed.

Lemma ladder_names_NoDup t bs : NoDup (ladder_names t bs).
Proof. apply str_set_sorted_NoDup. Qed.

Lemma unknown_names_NoDup st names : NoDup names → NoDup (unknown_names st names).
Proof. intros H. unfold unknown_names. by apply NoDup_filter. Qed.

Lemma valuation_lookup st v names n :
  consistent st v → NoDup names →
  dict_get n (dict_union (known_facts st names)
                (zip (unknown_names st names) (v <$> unknown_names st names)))
  = dict_get n (valuation v names).
Proof.
  intros Hv Hnd. rewrite dict_get_union.
  2:{ rewrite keys_zip by by rewrite length_fmap. by apply unknown_names_NoDup. }
  unfold valuation, known_facts. rewrite zip_map, !dict_get_map. unfold unknown_names.
  destruct (decide (n ∈ filter _ _)) as [Hu|Hu]; rewrite list_elem_of_filter in Hu.
  { by rewrite decide_True by tauto. }
  destruct (decide (n ∈ filter _ _)) as [Hk|Hk]; rewrite list_elem_of_filter in Hk.
  - rewrite decide_True by tauto. destruct Hk as [Hk _]. f_equal.
    destruct (Hv n) as [H1 H2]. apply orb_true_iff in Hk as [Hk|Hk]; rewrite ?Hk.
    + symmetry. by apply H1, is_state_true.
    + apply is_state_true in Hk. rewrite (H2 Hk). unfold is_state. by rewrite Hk.
  - rewrite decide_False; [done|]. intros Hin.
    destruct (is_state Present (st n) || is_state Absent (st n)); tauto.
Qed.

(** Every consistent valuation is one of the outcomes, and conversely. *)
Lemma ladder_outcomes_complete bs st names outcomes v :
  consistent st v → NoDup names →
  ladder_outcomes bs (known_facts st names) (unknown_names st names) = Ok outcomes →
  ∃ o, select bs (valuation v names) = Ok o ∧ o ∈ outcomes.
Proof.
  intros Hv Hnd Ho. unfold ladder_outcomes in Ho. apply map_result_Ok in Ho.
  assert (Hin : v <$> unknown_names st names ∈ assignments (length (unknown_names st names)))
    by by rewrite elem_of_assignments, length_fmap.
  apply list_elem_of_lookup in Hin as [i Hi].
  destruct (Forall2_lookup_l _ _ _ _ _ Ho Hi) as (o & Hlk & Hsel).
  exists o. split; [|by eapply list_elem_of_lookup_2].
  rewrite <- Hsel. apply select_ext. intros n. symmetry. by apply valuation_lookup.
Qed.

Definition completion (st : pystr → FactState) (d : list (pystr * bool)) (n : pystr) : bool :=
  if is_state Present (st n) then true
  else if is_state Absent (st n) then false
  else default false (dict_get n d).

Lemma completion_consistent st d : consistent st (completion st d).
Proof.
  intros n. unfold completion. split; intros Hn; unfold is_state; rewrite Hn; done.
Qed.

Lemma ladder_outcomes_sound bs st names outcomes o :
  NoDup names →
  ladder_outcomes bs (known_facts st names) (unknown_names st names) = Ok outcomes →
  o ∈ outcomes → ∃ v, consistent st v ∧ select bs (valuation v names) = Ok o.
Proof.
  intros Hnd Ho Hin. unfold ladder_outcomes in Ho. apply map_result_Ok in Ho.
  apply list_elem_of_lookup in Hin as [i Hi].
  destruct (Forall2_lookup_r _ _ _ _ _ Ho Hi) as (vs & Hlk & Hsel).
  apply list_elem_of_lookup_2, elem_of_assignments in Hlk as Hlen.
  set (us := unknown_names st names) in *.
  exists (completion st (zip us vs)). split; [apply completion_consistent|].
  rewrite <- Hsel. apply select_ext. intros n.
  rewrite <- (valuation_lookup st) by (done || apply completion_consistent).
  fold us. assert (Heq : completion st (zip us vs) <$> us = vs); [|by rewrite Heq].
  apply list_eq_same_length with (length vs); [done|by rewrite length_fmap|].
  intros j x y Hj Hx Hy. rewrite list_lookup_fmap in Hx.
  destruct (us !! j) as [n'|] eqn:En; [|done]. simpl in Hx. injection Hx as <-.
  assert (Hin : n' ∈ us) by by eapply list_elem_of_lookup_2.
  assert (Hget : dict_get n' (zip us vs) = Some y).
  { apply dict_get_NoDup.
    - rewrite keys_zip by done. by apply unknown_names_NoDup.
    - apply list_elem_of_lookup. exists j. by rewrite lookup_zip_with, En, Hy. }
  unfold us, unknown_names in Hin. apply list_elem_of_filter in Hin as [Hf _].
  apply orb_false_iff in Hf as [H1 H2]. unfold completion. by rewrite H1, H2, Hget.
Qed.

(* ------------------------------------------------------------------ *)
(** ** Grades of the ladder *)
(* ------------------------------------------------------------------ *)

Lemma grade_eqb_eq a b : grade_eqb a b = true ↔ a = b.
Proof. apply bool_decide_eq_true. Qed.

Lemma elem_of_grade_set g outcomes : g ∈ grade_set outcomes ↔ ∃ rule, (g, rule) ∈ outcomes.
Proof.
  unfold grade_set. rewrite elem_of_dedup by apply grade_eqb_eq. rewrite list_elem_of_fmap.
  split.
  - intros ([g' r] & -> & Hin). eauto.
  - intros [r Hin]. by exists (g, r).
Qed.

(** One grade under the product cap. *)
Definition capped (cap : option pystr) (g : option pystr) : option pystr :=
  match cap with
  | Some c =>
      if nonempty c then
        match g with Some g => if nonempty g then Some (str_min g c) else None | None => None end
      else g
  | None => g
  end.

Lemma elem_of_apply_cap cap gs x : x ∈ apply_cap cap gs ↔ ∃ g, g ∈ gs ∧ x = capped cap g.
Proof.
  unfold apply_cap, capped. destruct cap as [c|]; [|naive_solver].
  destruct (nonempty c); [|naive_solver].
  rewrite elem_of_dedup by apply grade_eqb_eq. rewrite list_elem_of_fmap. naive_solver.
Qed.

(** Each consistent completion of the evidence lands in the grade set. *)
Lemma run_ladder_complete t bs st cap lr v :
  run_ladder t bs st cap = Ok lr → consistent st v →
  ∃ g rule, select bs (valuation v (ladder_names t bs)) = Ok (g, rule)
    ∧ capped cap g ∈ l_grades lr.
Proof.
  unfold run_ladder. intros H Hv. open_run H. injection H as <-. cbn [l_grades].
  match goal with H : ladder_outcomes _ _ _ = Ok _ |- _ =>
    destruct (ladder_outcomes_complete _ _ _ _ _ Hv (ladder_names_NoDup t bs) H)
      as ([g rule] & Hsel & Hin) end.
  exists g, rule. split; [done|]. apply elem_of_apply_cap. exists g. split; [|done].
  apply elem_of_grade_set. eauto.
Qed.

(** Conversely every grade of the set is reached by a consistent completion. *)
Lemma run_ladder_sound t bs st cap lr x :
  run_ladder t bs st cap = Ok lr → x ∈ l_grades lr →
  ∃ v g rule, consistent st v
    ∧ select bs (valuation v (ladder_names t bs)) = Ok (g, rule) ∧ x = capped cap g.
Proof.
  unfold run_ladder. intros H Hx. open_run H. injection H as <-. cbn [l_grades] in Hx.
  apply elem_of_apply_cap in Hx as (g & [rule Hin]%elem_of_grade_set & ->).
  match goal with H : ladder_outcomes _ _ _ = Ok _ |- _ =>
    destruct (ladder_outcomes_sound _ _ _ _ _ (ladder_names_NoDup t bs) H Hin)
      as (v & Hv & Hsel) end.
  eauto 10.
Qed.

(** [st'] settles at least the facts [st] settles. *)
Definition refines (st' st : pystr → FactState) : Prop :=
  ∀ n, (st n = Stated Present → st' n = Stated Present)
     ∧ (st n = Stated Absent → st' n = Stated Absent).

Lemma consistent_refines st st' v : refines st' st → consistent st' v → consistent st v.
Proof.
  intros Hr Hv n. destruct (Hr n) as [Hp Ha], (Hv n) as [Hp' Ha'].
  split; intros Hn; [apply Hp', Hp, Hn | apply Ha', Ha, Hn].
Qed.

Lemma unique_grade_Some gs g : unique_grade gs = Some g → gs = [Some g].
Proof. destruct gs as [|? [|]]; naive_solver. Qed.

(* ------------------------------------------------------------------ *)
(** ** Verdicts *)
(* ------------------------------------------------------------------ *)

Lemma decide_status_decided grades blocking au effect gaps :
  decide_status grades blocking au effect = ("decided", gaps) →
  e_unresolved_elements effect = [] ∧ e_gap_ids effect = []
  ∧ (opt_truthy (e_override_grade effect) = true
     ∨ blocking = false ∧ (py_len grades <= 1)%Z ∧ is_Some (unique_grade grades)).
Proof.
  unfold decide_status.
  destruct (1 <? py_len grades)%Z eqn:El, (bool_decide (is_Some (unique_grade grades))) eqn:Eu,
    blocking, au, (opt_truthy (e_override_grade effect)),
    (e_unresolved_elements effect), (e_gap_ids effect); cbn; intros [=]; split_and!; try done;
    try (by left); right; split_and!; try done; try (by apply Z.ltb_ge in El);
    by apply bool_decide_eq_true in Eu.
Qed.

Lemma decide_status_cases grades blocking au effect :
  (decide_status grades blocking au effect).1
    ∈ ["decided"; "blocked_evidence"; "blocked_rule_gap"].
Proof.
  apply str_in_iff. unfold decide_status. by destruct (1 <? py_len grades)%Z,
    (bool_decide (is_Some (unique_grade grades))), blocking, au, (opt_truthy _), (e_unresolved_elements effect), (e_gap_ids effect).
Qed.

Lemma judge_decided effect rows np grades :
  v_status (judge effect rows np grades) = "decided" →
  e_unresolved_elements effect = [] ∧ e_gap_ids effect = []
  ∧ (opt_truthy (e_override_grade effect) = true
       ∧ v_grade (judge effect rows np grades) = e_override_grade effect
     ∨ opt_truthy (e_override_grade effect) = false
       ∧ ∃ g, grades = [Some g] ∧ v_grade (judge effect rows np grades) = Some g).
Proof.
  unfold judge. destruct (decide_status _ _ _ _) as [status gaps] eqn:E. cbn.
  intros ->. rewrite str_eqb_refl. apply decide_status_decided in E as (Hu & Hg & Hcase).
  split_and!; [done|done|]. destruct (opt_truthy (e_override_grade effect)) eqn:Eo; [by left|].
  destruct Hcase as [?|(_ & Hlen & [g Hg'])]; [done|].
  right. split; [done|]. exists g. rewrite Hg'. split; [by apply unique_grade_Some|done].
Qed.

Lemma judge_undecided effect rows np grades :
  v_status (judge effect rows np grades) ≠ "decided" → v_grade (judge effect rows np grades) = None.
Proof.
  unfold judge. destruct (decide_status _ _ _ _) as [status gaps]. cbn.
  intros Hs. by apply str_eqb_neq in Hs as ->.
Qed.

Lemma judge_status effect rows np grades :
  v_status (judge effect rows np grades) ∈ ["decided"; "blocked_evidence"; "blocked_rule_gap"].
Proof.
  unfold judge. pose proof (decide_status_cases grades (nonempty_list (additional_open rows) && np)
    (existsb (λ e, str_in e (of_class Unresolved rows)) (additional_open rows)) effect) as H.
  destruct (decide_status _ _ _ _). exact H.
Qed.

(** The successful run of the evaluator, step by step. *)
Lemma evaluate_core_inv `{Digest} tags context pack s d dec :
  evaluate_core tags context pack s d = Ok dec →
  ∃ effect definitions rows policy branches ladder label last_basis tags_hash h,
    let st := eval_state s effect (t_facts tags) in
    let verdict := judge effect rows (is_none policy) (l_grades ladder) in
    apply_source_exceptions tags context pack d = Ok effect
    ∧ element_definitions pack = Ok definitions
    ∧ map_result (element_row st definitions) (MAPPINGS (t_track tags)) = Ok rows
    ∧ read_rubric pack (t_track tags) = Ok (policy, branches)
    ∧ run_ladder (t_track tags) (scoped_branches d (t_track tags) branches) st
        (e_cap_grade effect) = Ok ladder
    ∧ label_of (v_grade verdict) = Ok label
    ∧ dec = set_semantic_hash
        (assemble tags context pack effect st rows ladder verdict label last_basis tags_hash) h.
Proof.
  unfold evaluate_core. intros H1.
  apply bind_Ok_inv in H1 as (effect & He & H1). apply bind_Ok_inv in H1 as (defs & Hd & H1).
  apply bind_Ok_inv in H1 as (rows & Hr & H1).
  apply bind_Ok_inv in H1 as ([policy branches] & Hb & H1).
  apply bind_Ok_inv in H1 as ([] & _ & H1). apply bind_Ok_inv in H1 as (ladder & Hl & H1).
  apply bind_Ok_inv in H1 as (lb & _ & H1). apply bind_Ok_inv in H1 as (label & Hlab & H1).
  apply bind_Ok_inv in H1 as (th & _ & H1). unfold seal in H1.
  apply bind_Ok_inv in H1 as (h & _ & [= <-]).
  exists effect, defs, rows, policy, branches, ladder, label, lb, th, h. cbn. split_and!; done.
Qed.
