(* ===== verification/RulesSpec.v ===== *)
(** * What the rules engine guarantees.

    The shipped ladders of [config/rubric/*.yaml] as data with their closed
    form, a small pack to run the engine on, and the engine's theorems: a
    decided grade does not depend on unresolved evidence, a range covers
    every completion, a grade exists only in a decided decision, and the
    safe-harbor and superlative paths. *)
From S2P Require Import Prelude PyVal JsonCodec Values Digest RulePack Rules.

(* ------------------------------------------------------------------ *)
(** ** The shipped ladders *)
(* ------------------------------------------------------------------ *)

Definition require_branch (i g : pystr) (names : list pystr) : branch :=
  {| b_id := i; b_grade := g; b_cap := false; b_when := None; b_require_all := names |}.

(** [src/config/rubric/goal.yaml:8-44 branches] *)
Definition GOAL_BRANCHES : list branch :=
  [{| b_id := "GOAL_NO_YEAR_EXCEPTION"; b_grade := "E1"; b_cap := true;
      b_when := Some [("target_year", PBool false); ("target_metric", PBool true);
                      ("transition_plan", PBool true)];
      b_require_all := [] |};
   {| b_id := "GOAL_NO_YEAR"; b_grade := "E0"; b_cap := false;
      b_when := Some [("target_year", PBool false); ("exception_applies", PBool false)];
      b_require_all := [] |};
   require_branch "GOAL_E3" "E3"
     ["target_year"; "target_metric"; "baseline_year"; "baseline_value"; "scope";
      "org_boundary"; "current_progress"; "transition_plan"];
   require_branch "GOAL_E2" "E2"
     ["target_year"; "target_metric"; "baseline_year"; "baseline_value"; "scope";
      "org_boundary"];
   require_branch "GOAL_E1" "E1" ["target_year"; "target_metric"]].

(** [src/config/rubric/performance.yaml:8-33 branches] *)
Definition PERFORMANCE_BRANCHES : list branch :=
  [{| b_id := "PERF_NO_VALUE"; b_grade := "E0"; b_cap := false;
      b_when := Some [("quantitative_or_qualified_ordinal", PBool false)];
      b_require_all := [] |};
   require_branch "PERF_E3" "E3"
     ["quantitative_or_qualified_ordinal"; "unit_or_qualified_ordinal";
      "comparison_baseline"; "calculation_boundary"; "method"; "assurance_covered"];
   require_branch "PERF_E2" "E2"
     ["quantitative_or_qualified_ordinal"; "unit_or_qualified_ordinal";
      "comparison_baseline"; "calculation_boundary"];
   require_branch "PERF_E1" "E1"
     ["quantitative_or_qualified_ordinal"; "unit_or_qualified_ordinal"]].

(** [src/config/rubric/management.yaml:8-27 branches] *)
Definition MANAGEMENT_BRANCHES : list branch :=
  [require_branch "MGMT_E3" "E3"
     ["named_means_or_concrete_state"; "org_boundary"; "external_verification"];
   require_branch "MGMT_E2" "E2" ["named_means_or_concrete_state"; "org_boundary"];
   require_branch "MGMT_E1" "E1" ["named_means_or_concrete_state"];
   {| b_id := "MGMT_WILLINGNESS"; b_grade := "E0"; b_cap := false;
      b_when := Some [("willingness_only", PBool true)]; b_require_all := [] |}].

Definition shipped_branches (t : Track) : list branch :=
  match t with
  | Goal_ => GOAL_BRANCHES
  | Performance => PERFORMANCE_BRANCHES
  | Management => MANAGEMENT_BRANCHES
  end.

(** The closed form of the three ladders; [None] is a rule gap. *)
Definition shipped_grade (t : Track) (v : pystr → bool) : option pystr :=
  match t with
  | Goal_ =>
      if negb (v "target_year") then
        if v "target_metric" && v "transition_plan" then Some "E1" else Some "E0"
      else if negb (v "target_metric") then None
      else if v "baseline_year" && v "baseline_value" && v "scope" && v "org_boundary" then
        if v "current_progress" && v "transition_plan" then Some "E3" else Some "E2"
      else Some "E1"
  | Performance =>
      if negb (v "quantitative_or_qualified_ordinal") then Some "E0"
      else if negb (v "unit_or_qualified_ordinal") then None
      else if v "comparison_baseline" && v "calculation_boundary" then
        if v "method" && v "assurance_covered" then Some "E3" else Some "E2"
      else Some "E1"
  | Management =>
      if v "named_means_or_concrete_state" then
        if v "org_boundary" then if v "external_verification" then Some "E3" else Some "E2"
        else Some "E1"
      else if v "willingness_only" then Some "E0" else None
  end.

(** On the shipped rubric the selector computes the closed-form ladder for
    every valuation of the primitive facts of every track; in particular the
    grade is determined, a goal without target year is never above E1, and
    the only gaps are the three the closed form names. *)
Theorem shipped_ladder_closed_form t v :
  ∃ rule, select (shipped_branches t) (valuation v (ladder_names t (shipped_branches t)))
          = Ok (shipped_grade t v, rule).
Proof.
  destruct t; cbn [shipped_branches shipped_grade].
  - replace (ladder_names Goal_ GOAL_BRANCHES) with
      ["baseline_value"; "baseline_year"; "current_progress"; "org_boundary"; "scope";
       "target_metric"; "target_year"; "transition_plan"] by (vm_compute; reflexivity).
    cbn [valuation fmap list_fmap].
    destruct (v "baseline_value"), (v "baseline_year"), (v "current_progress"),
      (v "org_boundary"), (v "scope"), (v "target_metric"), (v "target_year"),
      (v "transition_plan"); eexists; vm_compute; reflexivity.
  - replace (ladder_names Performance PERFORMANCE_BRANCHES) with
      ["assurance_covered"; "calculation_boundary"; "comparison_baseline"; "method";
       "quantitative_or_qualified_ordinal"; "unit_or_qualified_ordinal"]
      by (vm_compute; reflexivity).
    cbn [valuation fmap list_fmap].
    destruct (v "assurance_covered"), (v "calculation_boundary"), (v "comparison_baseline"),
      (v "method"), (v "quantitative_or_qualified_ordinal"), (v "unit_or_qualified_ordinal");
      eexists; vm_compute; reflexivity.
  - replace (ladder_names Management MANAGEMENT_BRANCHES) with
      ["external_verification"; "named_means_or_concrete_state"; "org_boundary";
       "willingness_only"] by (vm_compute; reflexivity).
    cbn [valuation fmap list_fmap].
    destruct (v "external_verification"), (v "named_means_or_concrete_state"),
      (v "org_boundary"), (v "willingness_only"); eexists; vm_compute; reflexivity.
Qed.

(* ------------------------------------------------------------------ *)
(** ** Lemmas *)
(* ------------------------------------------------------------------ *)

Lemma capped_Some cap g x : capped cap g = Some x → ∃ g', g = Some g'.
Proof.
  unfold capped. destruct cap as [c|]; [destruct (nonempty c)|]; destruct g; eauto; done.
Qed.

Lemma str_min_le a b : str_leb (str_min a b) a = true ∧ str_leb (str_min a b) b = true.
Proof.
  unfold str_min. destruct (str_leb a b) eqn:E; split; try done; try apply str_leb_refl.
  destruct (str_leb_total a b); congruence.
Qed.

Lemma str_max_ge a b : str_leb a (str_max a b) = true ∧ str_leb b (str_max a b) = true.
Proof.
  unfold str_max. destruct (str_leb a b) eqn:E; split; try done; try apply str_leb_refl.
  destruct (str_leb_total a b); congruence.
Qed.

Lemma foldl_min_spec l x :
  foldl str_min x l ∈ x :: l ∧ ∀ y, y ∈ x :: l → str_leb (foldl str_min x l) y = true.
Proof.
  revert x. induction l as [|z l IH]; intros x; cbn [foldl].
  - split; [left|]. intros y ->%list_elem_of_singleton. apply str_leb_refl.
  - destruct (IH (str_min x z)) as [Hin Hle]. destruct (str_min_le x z) as [H1 H2]. split.
    + apply elem_of_cons in Hin as [->|Hin]; [|by do 2 right].
      unfold str_min. destruct (str_leb x z); [left|right; left].
    + intros y Hy. apply elem_of_cons in Hy as [->|[->|Hy]%elem_of_cons].
      * eapply str_leb_trans; [apply Hle; left|done].
      * eapply str_leb_trans; [apply Hle; left|done].
      * apply Hle. by right.
Qed.

Lemma foldl_max_spec l x :
  foldl str_max x l ∈ x :: l ∧ ∀ y, y ∈ x :: l → str_leb y (foldl str_max x l) = true.
Proof.
  revert x. induction l as [|z l IH]; intros x; cbn [foldl].
  - split; [left|]. intros y ->%list_elem_of_singleton. apply str_leb_refl.
  - destruct (IH (str_max x z)) as [Hin Hle]. destruct (str_max_ge x z) as [H1 H2]. split.
    + apply elem_of_cons in Hin as [->|Hin]; [|by do 2 right].
      unfold str_max. destruct (str_leb x z); [right; left|left].
    + intros y Hy. apply elem_of_cons in Hy as [->|[->|Hy]%elem_of_cons].
      * eapply str_leb_trans; [done|apply Hle; left].
      * eapply str_leb_trans; [done|apply Hle; left].
      * apply Hle. by right.
Qed.

Lemma min_of_spec l m :
  min_of l = Some m → m ∈ l ∧ ∀ y, y ∈ l → str_leb m y = true.
Proof. destruct l as [|x l]; [done|]. intros [= <-]. apply foldl_min_spec. Qed.

Lemma max_of_spec l m :
  max_of l = Some m → m ∈ l ∧ ∀ y, y ∈ l → str_leb y m = true.
Proof. destruct l as [|x l]; [done|]. intros [= <-]. apply foldl_max_spec. Qed.

Lemma elem_of_reachable g gs : g ∈ reachable_grades gs ↔ Some g ∈ gs.
Proof.
  unfold reachable_grades. rewrite list_elem_of_omap. split.
  - intros ([x|] & Hin & [= ->]). done.
  - intros Hin. by exists (Some g).
Qed.

Lemma evaluate_core_of `{Digest} tags context pack dec :
  evaluate tags context pack = Ok dec → evaluate_core tags context pack false false = Ok dec.
Proof. unfold evaluate. by intros ([] & _ & Hc)%bind_Ok_inv. Qed.

Lemma label_of_spec grade label :
  label_of grade = Ok label →
  label = match grade with
          | Some g => if nonempty g then dict_get g GRADE_LABEL_MAP else None
          | None => None end.
Proof.
  unfold label_of. destruct grade as [g|]; [|by intros [= <-]].
  destruct (nonempty g); [|by intros [= <-]].
  by intros (l & ->%of_option_Ok & [= <-])%bind_Ok_inv.
Qed.

(** The early return on a safe-harbor category. *)
Lemma exceptions_safe_harbor tags context pack s effect :
  opt_truthy (t_safe_harbor_category tags) = true →
  apply_source_exceptions tags context pack s = Ok effect →
  "GAP-001" ∈ e_gap_ids effect ∧ e_override_grade effect = None.
Proof.
  intros Hs. unfold apply_source_exceptions. rewrite Hs.
  intros (? & _ & (? & _ & (? & _ & He)%bind_Ok_inv)%bind_Ok_inv)%bind_Ok_inv.
  apply bind_Ok_inv in He as (gaps & Hg & [= <-]). cbn. split; [|done].
  match type of Hg with (if ?b then _ else _) = _ => destruct b end.
  - apply bind_Ok_inv in Hg as (? & _ & Hg). apply bind_Ok_inv in Hg as (? & _ & [= <-]). left.
  - injection Hg as <-. left.
Qed.

Lemma judge_gap effect rows np grades g :
  g ∈ e_gap_ids effect →
  v_status (judge effect rows np grades) = "blocked_rule_gap"
  ∧ g ∈ v_gaps (judge effect rows np grades).
Proof.
  intros Hg. unfold judge.
  destruct (decide_status _ _ _ _) as [status gaps] eqn:E. cbn.
  unfold decide_status in E.
  repeat match type of E with context [let '(_, _) := ?x in _] => destruct x end.
  destruct (e_gap_ids effect) as [|g0 gs]; [by apply elem_of_nil in Hg|].
  cbn [nonempty_list] in E. injection E as <- <-. split; [done|].
  apply elem_of_app. by right.
Qed.

(* ------------------------------------------------------------------ *)
(** ** Theorems *)
(* ------------------------------------------------------------------ *)
Section theorems.
Context `{Digest}.

Lemma core_grade_stable tags context pack scoped dec127 dec :
  evaluate_core tags context pack scoped dec127 = Ok dec → d_decision_status dec = "decided" →
  ∃ effect policy branches g,
    apply_source_exceptions tags context pack dec127 = Ok effect
    ∧ read_rubric pack (t_track tags) = Ok (policy, branches)
    ∧ d_evidence_grade dec = Some g
    ∧ let ladder := scoped_branches dec127 (t_track tags) branches in
      (e_override_grade effect = Some g
       ∨ ∀ v, consistent (eval_state scoped effect (t_facts tags)) v →
           ∃ g0 rule,
             select ladder (valuation v (ladder_names (t_track tags) ladder)) = Ok (Some g0, rule)
             ∧ capped (e_cap_grade effect) (Some g0) = Some g).
Proof.
  intros He Hs. apply evaluate_core_inv in He as
    (effect & defs & rows & policy & branches & ladder & label & lb & th & h & He).
  cbn in He. destruct He as (Hx & _ & _ & Hb & Hl & _ & ->).
  cbn in Hs. apply judge_decided in Hs as (_ & _ & [[Ho Hg]|(_ & g & Hgs & Hg)]).
  - destruct (e_override_grade effect) as [g|] eqn:Eo; [|done].
    exists effect, policy, branches, g. cbn. rewrite Hg. split_and!; try done. by left.
  - exists effect, policy, branches, g. cbn. rewrite Hg. split_and!; try done. right.
    intros v Hv. destruct (run_ladder_complete _ _ _ _ _ _ Hl Hv) as (g0 & rule & Hsel & Hin).
    rewrite Hgs in Hin. apply list_elem_of_singleton in Hin.
    destruct (capped_Some _ _ _ Hin) as [g' ->]. eauto.
Qed.

(** C28: a decided grade never depends on unresolved evidence: it is the
    superlative override, or the grade (after the product cap) the pinned
    ladder selects under every truth assignment to the primitive facts that
    agrees with the facts settled as present or absent. *)
Theorem decided_grade_stable tags context pack dec :
  evaluate tags context pack = Ok dec → d_decision_status dec = "decided" →
  ∃ effect policy branches g,
    apply_source_exceptions tags context pack false = Ok effect
    ∧ read_rubric pack (t_track tags) = Ok (policy, branches)
    ∧ d_evidence_grade dec = Some g
    ∧ (e_override_grade effect = Some g
       ∨ ∀ v, consistent (eval_state false effect (t_facts tags)) v →
           ∃ g0 rule,
             select branches (valuation v (ladder_names (t_track tags) branches))
               = Ok (Some g0, rule)
             ∧ capped (e_cap_grade effect) (Some g0) = Some g).
Proof. intros He%evaluate_core_of Hs. exact (core_grade_stable _ _ _ _ _ _ He Hs). Qed.

(** C29: the published range of a blocked decision is exact: every completion
    of the evidence selects a grade between floor and ceiling, and both ends
    are selected by some completion; a range is published only for
    [blocked_evidence] and never together with a grade. *)
Theorem grade_range_exact tags context pack dec lo :
  evaluate tags context pack = Ok dec → d_grade_floor dec = Some lo →
  ∃ hi effect policy branches,
    d_grade_ceiling dec = Some hi
    ∧ d_decision_status dec = "blocked_evidence" ∧ d_evidence_grade dec = None
    ∧ apply_source_exceptions tags context pack false = Ok effect
    ∧ read_rubric pack (t_track tags) = Ok (policy, branches)
    ∧ let reaches v g := ∃ g0 rule,
        select branches (valuation v (ladder_names (t_track tags) branches)) = Ok (Some g0, rule)
        ∧ capped (e_cap_grade effect) (Some g0) = Some g in
      let st := eval_state false effect (t_facts tags) in
      (∀ v, consistent st v →
         ∃ g, reaches v g ∧ str_leb lo g = true ∧ str_leb g hi = true)
      ∧ (∃ v, consistent st v ∧ reaches v lo) ∧ (∃ v, consistent st v ∧ reaches v hi).
Proof.
  intros He%evaluate_core_of Hlo. apply evaluate_core_inv in He as
    (effect & defs & rows & policy & branches & ladder & label & lb & th & h & He).
  cbn in He. destruct He as (Hx & _ & _ & Hb & Hl & _ & ->).
  cbn in Hlo. set (vd := judge effect rows (is_none policy) (l_grades ladder)) in *.
  destruct (v_ranged vd) eqn:Er; [|done].
  assert (Hr : v_status vd = "blocked_evidence" ∧ None ∉ l_grades ladder).
  { subst vd. unfold judge in *. destruct (decide_status _ _ _ _) as [stt gps]. cbn in *.
    unfold has_range in Er. repeat apply andb_true_iff in Er as [Er ?]. str_prop. split; [done|].
    intros Hin. match goal with H : negb (existsb (grade_eqb None) _) = true |- _ =>
      apply negb_true_iff in H; rewrite (proj2 (existsb_eqb_iff _ grade_eqb_eq _ _) Hin) in H end.
    done. }
  destruct Hr as [Hst Hnone].
  assert (Hg : v_grade vd = None) by (apply judge_undecided; by fold vd; rewrite Hst).
  destruct (min_of_spec _ _ Hlo) as [Hlo_in Hlo_le].
  destruct (max_of (reachable_grades (l_grades ladder))) as [hi|] eqn:Hhi.
  2:{ destruct (reachable_grades (l_grades ladder)); done. }
  destruct (max_of_spec _ _ Hhi) as [Hhi_in Hhi_ge].
  exists hi, effect, policy, branches. cbn. rewrite Er. split_and!; try done.
  - intros v Hv. destruct (run_ladder_complete _ _ _ _ _ _ Hl Hv) as (g0 & rule & Hsel & Hin).
    destruct (capped (e_cap_grade effect) g0) as [g|] eqn:Ec; [|done].
    destruct (capped_Some _ _ _ Ec) as [g' ->].
    exists g. split; [eauto|]. apply elem_of_reachable in Hin. auto.
  - apply elem_of_reachable, (run_ladder_sound _ _ _ _ _ _ Hl) in Hlo_in
      as (v & g & rule & Hv & Hsel & Hc). destruct (capped_Some _ _ _ (eq_sym Hc)) as [g' ->].
    eauto 10.
  - apply elem_of_reachable, (run_ladder_sound _ _ _ _ _ _ Hl) in Hhi_in
      as (v & g & rule & Hv & Hsel & Hc). destruct (capped_Some _ _ _ (eq_sym Hc)) as [g' ->].
    eauto 10.
Qed.

(** Grade discipline: the status is one of three; a grade is present
    only in a decided decision, and then the label is the one
    [GRADE_LABEL_MAP] gives it; [auto_confirmed] needs a decided decision
    with no unresolved element. *)
Theorem decision_grade_discipline tags context pack dec :
  evaluate tags context pack = Ok dec →
  d_decision_status dec ∈ ["decided"; "blocked_evidence"; "blocked_rule_gap"]
  ∧ (is_Some (d_evidence_grade dec) ↔ d_decision_status dec = "decided")
  ∧ d_label dec = match d_evidence_grade dec with
                  | Some g => if nonempty g then dict_get g GRADE_LABEL_MAP else None
                  | None => None end
  ∧ (d_review_status dec = "auto_confirmed" ↔
       d_decision_status dec = "decided" ∧ d_unresolved_elements dec = []).
Proof.
  intros He%evaluate_core_of. apply evaluate_core_inv in He as
    (effect & defs & rows & policy & branches & ladder & label & lb & th & h & He).
  cbn in He. destruct He as (_ & _ & _ & _ & _ & Hlab & ->). cbn.
  set (vd := judge effect rows (is_none policy) (l_grades ladder)) in *. split_and!.
  - apply judge_status.
  - split.
    + intros [g Hg]. destruct (decide (v_status vd = "decided")) as [|Hn]; [done|].
      apply judge_undecided in Hn. fold vd in Hn. congruence.
    + intros Hs. apply judge_decided in Hs as (_ & _ & [[Ho Hg]|(_ & g & _ & Hg)]).
      * fold vd in Hg. rewrite Hg. by destruct (e_override_grade effect).
      * fold vd in Hg. rewrite Hg. by eexists.
  - by apply label_of_spec.
  - destruct (str_eqb_spec (v_status vd) "decided") as [->|Hn], (v_unresolved vd); cbn;
      split; try done; try (by intros [? ?]); intros ?; discriminate.
Qed.

(** A claim in a safe-harbor category is never graded: its decision is a
    rule gap that names GAP-001, whatever the evidence. *)
Theorem safe_harbor_never_graded tags context pack dec :
  opt_truthy (t_safe_harbor_category tags) = true →
  evaluate tags context pack = Ok dec →
  d_decision_status dec = "blocked_rule_gap" ∧ d_evidence_grade dec = None
  ∧ d_label dec = None ∧ "GAP-001" ∈ d_gap_ids dec.
Proof.
  intros Hs He%evaluate_core_of. apply evaluate_core_inv in He as
    (effect & defs & rows & policy & branches & ladder & label & lb & th & h & He).
  cbn in He. destruct He as (Hx & _ & _ & _ & _ & Hlab & ->). cbn.
  destruct (exceptions_safe_harbor _ _ _ _ _ Hs Hx) as [Hg _].
  destruct (judge_gap effect rows (is_none policy) (l_grades ladder) _ Hg) as [Hst Hin].
  assert (Hgr : v_grade (judge effect rows (is_none policy) (l_grades ladder)) = None).
  { apply judge_undecided. by rewrite Hst. }
  rewrite Hgr in Hlab |- *. injection Hlab as <-. split_and!; try done.
  apply elem_of_str_set_sorted, elem_of_app. by left.
Qed.

(** With one grade after the cap, the capped reachable grades are that grade. *)
Lemma capped_reachable cap gs g :
  apply_cap cap gs = [Some g] →
  existsb (grade_eqb None) gs = false
  ∧ ∀ x, x ∈ match cap with
             | Some c => if nonempty c then (λ g, str_min g c) <$> reachable_grades gs
                         else reachable_grades gs
             | None => reachable_grades gs end → x = g.
Proof.
  intros Hc.
  assert (Hall : ∀ x, x ∈ gs → capped cap x = Some g).
  { intros x Hx. assert (Hin : capped cap x ∈ apply_cap cap gs) by (apply elem_of_apply_cap; eauto).
    rewrite Hc in Hin. by apply list_elem_of_singleton in Hin. }
  split.
  - apply not_true_iff_false. intros Hn%(existsb_eqb_iff _ grade_eqb_eq)%Hall.
    by destruct (capped_Some _ _ _ Hn).
  - intros x Hx. unfold capped in Hall. destruct cap as [c|]; [destruct (nonempty c)|].
    + apply list_elem_of_fmap in Hx as (y & -> & Hy%elem_of_reachable%Hall).
      destruct (nonempty y); [by injection Hy|done].
    + apply elem_of_reachable, Hall in Hx. by injection Hx.
    + apply elem_of_reachable, Hall in Hx. by injection Hx.
Qed.

Lemma min_max_const l g lo hi :
  (∀ x, x ∈ l → x = g) → min_of l = Some lo → max_of l = Some hi → lo = g ∧ hi = g.
Proof. intros Hl [Hlo _]%min_of_spec [Hhi _]%max_of_spec. split; by apply Hl. Qed.

(** The display-only range agrees with the engine: for a decided claim
    its floor and its ceiling are the decided grade. *)
Theorem display_range_of_decided tags context pack dec r :
  evaluate tags context pack = Ok dec → d_decision_status dec = "decided" →
  display_grade_range pack (Some (tags, context)) = Ok r →
  d_evidence_grade dec = Some (r_floor r) ∧ r_ceiling r = r_floor r.
Proof.
  intros He%evaluate_core_of Hs Hr. apply evaluate_core_inv in He as
    (effect & defs & rows & policy & branches & ladder & label & lb & th & h & He).
  cbn in He. destruct He as (Hx & _ & _ & Hb & Hl & _ & ->). cbn in Hs.
  apply judge_decided in Hs as (Hu & Hg & Hcase). cbn [d_evidence_grade set_semantic_hash assemble].
  unfold display_grade_range in Hr. rewrite Hx in Hr. cbn [mbind result_bind] in Hr.
  apply bind_Ok_inv in Hr as (trows & Ht & Hr). cbn [map_result] in Ht.
  apply bind_Ok_inv in Ht as ([open gs] & Ht & [= <-]).
  assert (Hgs : apply_cap (e_cap_grade effect) gs = l_grades ladder).
  { unfold display_track in Ht. rewrite Hb in Ht. cbn [mbind result_bind] in Ht.
    apply bind_Ok_inv in Ht as ([] & _ & Ht). apply bind_Ok_inv in Ht as (outs & Ho & [= _ <-]).
    unfold run_ladder in Hl. apply bind_Ok_inv in Hl as ([] & _ & Hl).
    apply bind_Ok_inv in Hl as (outs' & Ho' & [= <-]). cbn. do 2 f_equal.
    change (λ n, eval_state false effect (t_facts tags) n)
      with (eval_state false effect (t_facts tags)) in Ho. congruence. }
  rewrite Hg in Hr. cbn [flat_map existsb snd fst nonempty_list orb] in Hr.
  rewrite !app_nil_r, !orb_false_r in Hr. rewrite Hu in Hr. cbn [nonempty_list] in Hr.
  destruct Hcase as [[Ho Hgr]|(Hn & g & Hgrades & Hgr)].
  - destruct (e_override_grade effect) as [g|] eqn:Eo; [|done]. cbn in Ho. rewrite Ho in Hr.
    apply bind_Ok_inv in Hr as (extra & _ & Hr). cbn in Hr. injection Hr as <-. by rewrite Hgr.
  - rewrite Hgrades in Hgs. destruct (capped_reachable _ _ _ Hgs) as [Hnone Hconst].
    rewrite Hnone in Hr. cbn [mbind result_bind] in Hr. rewrite app_nil_r in Hr.
    rewrite Hgr. assert (Hov : ∀ l : list pystr,
      match e_override_grade effect with
      | Some g => if nonempty g then [g] else l | None => l end = l).
    { intros l. destruct (e_override_grade effect) as [g'|]; [|done]. cbn in Hn. by rewrite Hn. }
    rewrite Hov in Hr. apply bind_Ok_inv in Hr as (lo & Hlo%of_option_Ok & Hr).
    apply bind_Ok_inv in Hr as (hi & Hhi%of_option_Ok & [= <-]). cbn.
    by destruct (min_max_const _ _ _ _ Hconst Hlo Hhi) as [-> ->].
Qed.
End theorems.

(** Evidence only narrows the ladder: when a second state of the facts
    settles everything the first one settles, every grade still reachable
    was reachable before; a ladder that had one grade keeps it. *)
Theorem ladder_refinement t bs st st' cap lr lr' :
  refines st' st →
  run_ladder t bs st cap = Ok lr → run_ladder t bs st' cap = Ok lr' →
  (∀ g, g ∈ l_grades lr' → g ∈ l_grades lr)
  ∧ (∀ g, l_grades lr = [g] → ∀ g', g' ∈ l_grades lr' → g' = g).
Proof.
  intros Hr Hl Hl'.
  assert (Hsub : ∀ g, g ∈ l_grades lr' → g ∈ l_grades lr).
  { intros g Hg. destruct (run_ladder_sound _ _ _ _ _ _ Hl' Hg) as (v & g0 & r & Hv & Hs & ->).
    destruct (run_ladder_complete _ _ _ _ _ v Hl) as (g1 & r1 & Hs1 & Hin).
    { by eapply consistent_refines. }
    rewrite Hs in Hs1. by injection Hs1 as -> ->. }
  split; [done|]. intros g Hg g' Hg'%Hsub. rewrite Hg in Hg'.
  by apply list_elem_of_singleton in Hg'.
Qed.

(* ------------------------------------------------------------------ *)
(** ** A pack to run the engine on, and the witnesses *)
(* ------------------------------------------------------------------ *)

Definition json_text (v : pyval) : pystr :=
  match canonical_json v with Ok t => t | Raise _ => [] end.

Definition sample_element (i : pystr) (trigger : pyval) : pyval :=
  PDict [("id", PStr i); ("trigger", trigger);
         ("source_scopes", strs_val ["local_claim"; "global_bound"]);
         ("basis", PDict [("source_section", PStr "4.5")])].

Definition branch_val (b : branch) : pyval :=
  PDict ([("id", PStr (b_id b)); ("grade", PStr (b_grade b)); ("cap", PBool (b_cap b))]
         ++ match b_when b with
            | Some w => [("when", PDict w)]
            | None => [("require_all", strs_val (b_require_all b))]
            end).

Definition engine_pack : RulePackSnapshot :=
  {| rule_pack_id := "rp"; tenant_id := "0f8fad5b-d9cb-469f-a165-70867728950e";
     version := "v2"; effective_date := "2026-09-25"; mode := "disclosure"; status := "active";
     ontology_version := "o1"; source_document_sha256 := "s"; sha256 := "h";
     files := []; unresolved_gap_ids := []; approved_by := Some "u"; approved_at := Some "t";
     content :=
       [("rubric/elements.yaml",
         json_text (PDict [("elements", PList
           [sample_element "M1" PNone; sample_element "M2" PNone; sample_element "M3" PNone;
            sample_element "M4" PNone; sample_element "M5" PNone;
            sample_element "M6" (PStr "has_compensation")])]));
        ("rubric/management.yaml",
         json_text (PDict [("branches", PList (branch_val <$> MANAGEMENT_BRANCHES));
                           ("additional_element_policy", PStr ADDITIONAL_REPORT_ONLY)]));
        ("rubric/exceptions.yaml",
         json_text (PDict [("superlative", PDict [("enabled", PBool true);
                                                  ("with_safe_harbor", PStr "GAP-006")])]))] |}.

Definition present_fact (name : pystr) : ConfirmedFact :=
  {| f_name := name; f_state := Stated Present;
     f_evidence_refs := [sample_ref];
     f_source_tenant_id := Some "0f8fad5b-d9cb-469f-a165-70867728950e";
     f_citation_verified := true; f_binding_accepted := true;
     f_search_coverage_verified := false; f_source_scope := "local_claim";
     f_normalized_value := None |}.

Definition absent_fact (name : pystr) : ConfirmedFact :=
  {| f_name := name; f_state := Stated Absent; f_evidence_refs := [];
     f_source_tenant_id := None; f_citation_verified := false; f_binding_accepted := false;
     f_search_coverage_verified := true; f_source_scope := "local_claim";
     f_normalized_value := None |}.

Definition engine_tags (facts : list ConfirmedFact) (category : option pystr) : ConfirmedTags :=
  let sha := "0123456789abcdef0123456789abcdef0123456789abcdef0123456789abcdef" in
  {| t_tenant_id := "0f8fad5b-d9cb-469f-a165-70867728950e";
     t_document_version_id := document_version_id sample_ref;
     t_claim_id := "0f8fad5b-d9cb-469f-a165-70867728950e"; t_track := Management;
     t_facts := facts; t_tag_revision := 1; t_packet_sha256 := sha; t_model_sha256 := sha;
     t_prompt_sha256 := sha; t_replicate_hashes := [sha; sha; sha]; t_ontology_version := "o1";
     t_safe_harbor_category := category; t_superlative_quote := None;
     t_product_variant := false |}.

Definition engine_context : RuleContext :=
  {| c_tenant_id := "0f8fad5b-d9cb-469f-a165-70867728950e";
     c_document_version_id := document_version_id sample_ref;
     c_claim_id := "0f8fad5b-d9cb-469f-a165-70867728950e";
     c_packet_sha256 := "0123456789abcdef0123456789abcdef0123456789abcdef0123456789abcdef";
     c_decision_revision := 1; c_mode := "disclosure"; c_local_synthetic := false;
     c_company_id := None; c_reporting_period := None; c_industry := None;
     c_regulatory_axis := "advisory_unverified" |}.

(** Named means without a boundary: E1 whatever the verification is. *)
Definition decided_facts : list ConfirmedFact :=
  [present_fact "named_means_or_concrete_state"; absent_fact "org_boundary"].

(** Named means with the boundary still open: between E1 and E3. *)
Definition open_facts : list ConfirmedFact := [present_fact "named_means_or_concrete_state"].

Definition run (facts : list ConfirmedFact) (category : option pystr) : result Decision :=
  evaluate (H := Checksum) (engine_tags facts category) engine_context engine_pack.

Definition run_or (facts : list ConfirmedFact) (category : option pystr) : Decision :=
  match run facts category with
  | Ok d => d
  | Raise _ => {| d_decision_revision := 0; d_tag_revision := 0; d_decision_status := [];
       d_evidence_grade := None; d_label := None; d_sublabel := None; d_review_status := [];
       d_missing_elements := []; d_rule_ids := []; d_rule_pack_sha256 := [];
       d_semantic_hash := []; d_gap_ids := []; d_unresolved_elements := [];
       d_excluded_elements := []; d_ladder_candidate := None; d_basis_refs := [];
       d_input_tags_sha256 := []; d_local_synthetic := false; d_grade_floor := None;
       d_grade_ceiling := None; d_grade_open_elements := [] |}
  end.

Example engine_sample :
  (λ d, (d_decision_status d, d_evidence_grade d, d_label d, d_missing_elements d,
         d_unresolved_elements d)) (run_or decided_facts None)
  = ("decided", Some "E1", Some "INCOMPLETE", ["M2"], ["M3"; "M4"; "M5"; "M6"])
  ∧ (λ d, (d_decision_status d, d_grade_floor d, d_grade_ceiling d)) (run_or open_facts None)
    = ("blocked_evidence", Some "E1", Some "E3").
Proof. vm_compute. split; reflexivity. Qed.

Lemma run_or_Ok facts category :
  is_ok (run facts category) = true → run facts category = Ok (run_or facts category).
Proof. unfold run_or. by destruct (run facts category). Qed.

Lemma run_decided : run decided_facts None = Ok (run_or decided_facts None).
Proof. apply run_or_Ok. vm_compute. reflexivity. Qed.

Lemma run_open : run open_facts None = Ok (run_or open_facts None).
Proof. apply run_or_Ok. vm_compute. reflexivity. Qed.

Lemma run_harbor :
  run decided_facts (Some "forward_looking") = Ok (run_or decided_facts (Some "forward_looking")).
Proof. apply run_or_Ok. vm_compute. reflexivity. Qed.

Lemma decided_grade_stable_witness :
  ∃ effect g, apply_source_exceptions (engine_tags decided_facts None) engine_context engine_pack
                false = Ok effect
    ∧ d_evidence_grade (run_or decided_facts None) = Some g.
Proof.
  destruct (decided_grade_stable (H := Checksum) _ _ _ _ run_decided)
    as (effect & policy & branches & g & He & _ & Hg & _); [vm_compute; reflexivity|].
  exists effect, g. exact (conj He Hg).
Defined.

Lemma grade_range_exact_witness :
  ∃ hi, d_grade_ceiling (run_or open_facts None) = Some hi.
Proof.
  destruct (grade_range_exact (H := Checksum) _ _ _ _ "E1" run_open)
    as (hi & _ & _ & _ & Hhi & _); [vm_compute; reflexivity|].
  exists hi. exact Hhi.
Defined.

Lemma decision_grade_discipline_witness :
  is_Some (d_evidence_grade (run_or decided_facts None))
  ↔ d_decision_status (run_or decided_facts None) = "decided".
Proof. apply (decision_grade_discipline (H := Checksum) _ _ _ _ run_decided). Defined.

Lemma safe_harbor_never_graded_witness :
  d_evidence_grade (run_or decided_facts (Some "forward_looking")) = None.
Proof.
  refine (proj1 (proj2 (safe_harbor_never_graded (H := Checksum) _ _ _ _ _ run_harbor))).
  reflexivity.
Defined.

Definition sample_state (l : list (pystr * ElementState)) (n : pystr) : FactState :=
  Stated (default Unknown (dict_get n l)).

Lemma ladder_refinement_witness :
  ∃ lr lr',
    run_ladder Management MANAGEMENT_BRANCHES
      (sample_state [("named_means_or_concrete_state", Present)]) None = Ok lr
    ∧ run_ladder Management MANAGEMENT_BRANCHES
      (sample_state [("named_means_or_concrete_state", Present); ("org_boundary", Absent)]) None
      = Ok lr'
    ∧ ∀ g, g ∈ l_grades lr' → g ∈ l_grades lr.
Proof.
  eexists _, _. split; [reflexivity|]. split; [reflexivity|].
  refine (proj1 (ladder_refinement Management MANAGEMENT_BRANCHES
    (sample_state [("named_means_or_concrete_state", Present)])
    (sample_state [("named_means_or_concrete_state", Present); ("org_boundary", Absent)])
    None _ _ _ eq_refl eq_refl)).
  intros n. unfold sample_state. cbn [dict_get].
  destruct (str_eqb n "named_means_or_concrete_state"); [done|].
  destruct (str_eqb n "org_boundary"); done.
Defined.

Lemma display_range_of_decided_witness :
  ∃ r, display_grade_range engine_pack (Some (engine_tags decided_facts None, engine_context)) = Ok r
    ∧ d_evidence_grade (run_or decided_facts None) = Some (r_floor r).
Proof.
  assert (Hd : is_ok (display_grade_range engine_pack
    (Some (engine_tags decided_facts None, engine_context))) = true) by (vm_compute; reflexivity).
  destruct (display_grade_range engine_pack (Some (engine_tags decided_facts None, engine_context)))
    as [r|e] eqn:E; [|discriminate Hd].
  exists r. split; [reflexivity|].
  refine (proj1 (display_range_of_decided (H := Checksum) _ _ _ _ r run_decided _ E)).
  vm_compute. reflexivity.
Defined.
