(* ===== verification/ScopeRules.v ===== *)
(** * Scoped rule profiles and the safe-harbor record.

    [domain/rules/analysis_scope.py] (DEC-85), [domain/rules/cf6_scope.py]
    (DEC-127) and [domain/rules/safe_harbor.py]: the opt-in evaluators that
    read a scoped absence as absence, guarded by a confirmed scope, the
    closing of exception operands after three replicas, and the checklist
    record that never grades. *)
From S2P Require Import Prelude PyVal JsonCodec Values Digest RulePack Rules RulesSpec.

(* ------------------------------------------------------------------ *)
(** ** Policies *)
(* ------------------------------------------------------------------ *)

(** [domain/rules/analysis_scope.py:9-16 POLICY] *)
Definition SC1_PROFILE : pystr := "analysis-scope-rules-sc1-v1".
Definition SC1_POLICY : pyval :=
  PDict [("profile", PStr SC1_PROFILE);
         ("absence", PStr "absent_in_scope_only_with_complete_same_run_search_receipt");
         ("conflict", PStr "never_confirm");
         ("required_positive_facts",
          PStr "pinned_agreement_threshold_independent_verified_bound_votes");
         ("unknown", PStr "remains_unknown_without_new_search_evidence")].
Definition SC1_DISPLAY : pystr := "분석 범위 기준 확정".

(** [domain/rules/cf6_scope.py:10-16 POLICY_V1] *)
Definition CF6_POLICY_V1 : pydict :=
  [("profile", PStr "cf6_dec127_scope_rules_v1");
   ("absence", PStr "unknown_after_three_completed_tagging_replicas_is_absent_in_selected_scope");
   ("coverage", PStr "system_non_observation_not_exhaustive_document_search");
   ("conflict", PStr "held"); ("rule_gap", PStr "held")].

(** [domain/rules/cf6_scope.py:17-23 POLICY] *)
Definition CF6_POLICY : pydict :=
  dict_union CF6_POLICY_V1
    [("profile", PStr "cf6_dec127_scope_rules_v2");
     ("management_floor", PStr "M1_absent_E0_original_4.3_4.4_no_fabricated_willingness");
     ("source_exceptions", PStr "scoped_absence_consumed_by_original_4.4_branches");
     ("auxiliary_facts",
      PStr "exception_operands_only_non_observed_after_three_completed_replicas");
     ("additional_elements", PStr "pinned_pack_report_only_conditional_triggers_not_invented")].

(** [domain/rules/analysis_scope.py:21-26 ScopeDecision] *)
Record ScopeDecision : Set := {
  s_decision : Decision;
  s_confirmation_basis : pystr;
  s_confirmation_display : pystr;
  s_confirmation_scope : pydict;
  s_confirmation_policy_sha256 : pyval }.

(** A scoped evaluator returns the plain decision when it is not decided. *)
Inductive ScopeOutcome : Set := Held (d : Decision) | Confirmed (s : ScopeDecision).

(** [asdict(result)] of [domain/rules/analysis_scope.py:21-26 ScopeDecision] *)
Definition scope_decision_asdict (s : ScopeDecision) : pydict :=
  decision_asdict (s_decision s)
  ++ [("confirmation_basis", PStr (s_confirmation_basis s));
      ("confirmation_display", PStr (s_confirmation_display s));
      ("confirmation_scope", PDict (s_confirmation_scope s));
      ("confirmation_policy_sha256", s_confirmation_policy_sha256 s)].

(** [domain/rules/analysis_scope.py:28-37 ScopeDecision.to_api_dict] *)
Definition scope_to_api_dict (s : ScopeDecision) : pydict :=
  dict_union (decision_to_api_dict (s_decision s))
    [("confirmation_basis", PStr (s_confirmation_basis s));
     ("confirmation_display", PStr (s_confirmation_display s));
     ("confirmation_scope", PDict (s_confirmation_scope s));
     ("confirmation_policy_sha256", s_confirmation_policy_sha256 s)].

Definition set_scope_hash (s : ScopeDecision) (h : pystr) : ScopeDecision :=
  {| s_decision := set_semantic_hash (s_decision s) h;
     s_confirmation_basis := s_confirmation_basis s;
     s_confirmation_display := s_confirmation_display s;
     s_confirmation_scope := s_confirmation_scope s;
     s_confirmation_policy_sha256 := s_confirmation_policy_sha256 s |}.

Definition has_state (s : FactState) (f : ConfirmedFact) : bool := bool_decide (f_state f = s).

Definition absent_in_scope_names (tags : ConfirmedTags) : list pystr :=
  f_name <$> filter (λ f, f_state f = AbsentInScope) (t_facts tags).

Definition is_decided (d : Decision) : bool := d_decision_status d =s? "decided".

Section scoped.
Context `{Digest}.

(** [domain/rules/analysis_scope.py:46-61 evaluate_scope] *)
Definition sc1_confirmable (tags : ConfirmedTags) (scope : pydict) (absent_facts : list pystr)
    (policy_hash : pystr) : bool :=
  let get := get_or_none scope in
  eq_str (get "tenant_id") (t_tenant_id tags)
  && eq_str (get "document_version_id") (t_document_version_id tags)
  && truthy (get "run_id") && truthy (get "selected_pages")
  && negb (truthy (get "uninspected_pages"))
  && py_eq (get "inspected_pages") (get "selected_pages")
  && eq_str (get "rule_policy_sha256") policy_hash
  && bool_decide (str_set_sorted absent_facts = str_set_sorted (absent_in_scope_names tags))
  && nonempty_list absent_facts
  && negb (existsb (has_state (Stated Conflict)) (t_facts tags)).

(** [domain/rules/analysis_scope.py:40-80 evaluate_scope] *)
Definition sc1_evaluate_scope (tags : ConfirmedTags) (context : RuleContext)
    (pack : RulePackSnapshot) (scope : pydict) (absent_facts : list pystr) (receipt : pystr)
    : result ScopeOutcome :=
  policy_hash ← canonical_hash SC1_POLICY;
  _ ← require (sc1_confirmable tags scope absent_facts policy_hash) DomainValidationError;
  decision ← evaluate_core tags context pack true false;
  if negb (is_decided decision) then Ok (Held decision)
  else
    policy_sha ← of_option KeyError (dict_get "confirmation_policy_sha256" scope);
    let r := {| s_decision := decision; s_confirmation_basis := "analysis_scope";
                s_confirmation_display := SC1_DISPLAY;
                s_confirmation_scope := dict_set "search_receipt_sha256" (PStr receipt) scope;
                s_confirmation_policy_sha256 := policy_sha |} in
    h ← canonical_hash
          (PDict [("policy", SC1_POLICY); ("scope", PDict scope);
                  ("receipt_sha256", PStr receipt);
                  ("decision", PDict (scope_decision_asdict r))]);
    Ok (Confirmed (set_scope_hash r h)).

(* ------------------------------------------------------------------ *)
(** ** DEC-127 *)
(* ------------------------------------------------------------------ *)

(** [domain/rules/cf6_scope.py:36-45 resolve_exception_facts] *)
Definition superlative_refs (tags : ConfirmedTags) (claim_source_refs : list SourceRef)
    : list SourceRef :=
  let q := default [] (t_superlative_quote tags) in
  filter (λ r, bool_decide (verification_state r = Verified)
               && (document_version_id r =s? t_document_version_id tags)
               && nonblank q && contains q (quote r) = true) claim_source_refs.

(** [ConfirmedFact("has_superlative", "present", refs, tenant, True, True)] *)
Definition superlative_fact (tags : ConfirmedTags) (refs : list SourceRef) : ConfirmedFact :=
  {| f_name := "has_superlative"; f_state := Stated Present; f_evidence_refs := refs;
     f_source_tenant_id := Some (t_tenant_id tags); f_citation_verified := true;
     f_binding_accepted := true; f_search_coverage_verified := false;
     f_source_scope := "local_claim"; f_normalized_value := None |}.

(** [ConfirmedFact(name, "absent_in_scope")] *)
Definition scoped_absent (name : pystr) : ConfirmedFact :=
  {| f_name := name; f_state := AbsentInScope; f_evidence_refs := []; f_source_tenant_id := None;
     f_citation_verified := false; f_binding_accepted := false;
     f_search_coverage_verified := false; f_source_scope := "local_claim";
     f_normalized_value := None |}.

(** [domain/rules/cf6_scope.py:33-49 resolve_exception_facts] *)
Definition exception_operands (tags : ConfirmedTags) (facts : list (pystr * ConfirmedFact))
    : list pystr :=
  str_set_sorted
    ((if opt_truthy (t_superlative_quote tags)
      then ["comparison_basis"; "external_verification"] else [])
     ++ (if t_product_variant tags then ["direct_product_material_ratio_or_target"] else [])
     ++ (if dict_get "categorical_ordinal" facts
         then ["categorical_ordinal"; "certification_provider"] else [])).

(** [domain/rules/cf6_scope.py:55-57 resolve_exception_facts] *)
Definition close_operand (facts : list (pystr * ConfirmedFact)) (name : pystr)
    : result (list (pystr * ConfirmedFact)) :=
  let open := match dict_get name facts with
              | Some f => has_state (Stated Unknown) f | None => true end in
  if open then f ← mk_ConfirmedFact (scoped_absent name); Ok (dict_set name f facts)
  else Ok facts.

(** [domain/rules/cf6_scope.py:26-58 resolve_exception_facts] *)
Definition resolve_exception_facts (tags : ConfirmedTags) (claim_source_refs : list SourceRef)
    : result ConfirmedTags :=
  let facts := dict_of ((λ f, (f_name f, f)) <$> t_facts tags) in
  let refs := if opt_truthy (t_superlative_quote tags)
              then superlative_refs tags claim_source_refs else [] in
  facts ← match dict_get "has_superlative" facts with
          | Some _ => Ok facts
          | None =>
              if nonempty_list refs then
                f ← mk_ConfirmedFact (superlative_fact tags refs);
                Ok (dict_set "has_superlative" f facts)
              else Ok facts
          end;
  facts ← fold_result close_operand facts (exception_operands tags facts);
  mk_ConfirmedTags (set_facts tags facts.*2).

(** [domain/rules/cf6_scope.py:65-76 gap_details] *)
Definition gap_description (tags : ConfirmedTags) (gap : pystr) : pystr :=
  if gap =s? "GAP-001" then "original §4.6 safe-harbor category has no E0–E3 mapping"
  else if gap =s? "GAP-003" then
    "pinned pack lacks additional_element_policy=report_without_grade_effect"
  else if gap =s? "GAP-006" then "superlative plus safe-harbor precedence has no grade mapping"
  else if gap =s? "GAP-007" then
    (if t_product_variant tags then
       if bool_decide (t_track tags = Management)
       then "product ratio/target present: generic management boundary interaction undefined"
       else "product variant outside management is undefined"
     else "no " ++ track_str (t_track tags) ++ " ladder branch matches resolved primitive facts")
  else "pinned rule gap".

(** [domain/rules/cf6_scope.py:61-87 gap_details] *)
Definition gap_details (tags : ConfirmedTags) (pack : RulePackSnapshot) (decision : Decision)
    : result (list pydict) :=
  if negb (d_decision_status decision =s? "blocked_rule_gap") then Ok []
  else
    map_result (λ gap,
      rubric ← file_content pack (track_rubric (t_track tags));
      branches ← of_option KeyError (dict_get "branches" rubric);
      Ok [("gap_id", PStr gap); ("branch", PStr (gap_description tags gap));
          ("track", PStr (track_str (t_track tags)));
          ("safe_harbor_category", opt_val (t_safe_harbor_category tags));
          ("facts", PDict (dict_of ((λ f, (f_name f, PStr (fact_state_str (f_state f))))
                                      <$> t_facts tags)));
          ("rubric_branches", branches)]) (d_gap_ids decision).

(** [next((p for p in (POLICY_V1, POLICY) if canonical_hash(p) == ..), None)]
    [domain/rules/cf6_scope.py:91-94 evaluate_scope] *)
Definition cf6_selected (scope : pydict) : result (option pydict) :=
  let wanted := get_or_none scope "rule_policy_sha256" in
  h1 ← canonical_hash (PDict CF6_POLICY_V1);
  if eq_str wanted h1 then Ok (Some CF6_POLICY_V1)
  else h2 ← canonical_hash (PDict CF6_POLICY);
       Ok (if eq_str wanted h2 then Some CF6_POLICY else None).

(** [domain/rules/cf6_scope.py:95-103 evaluate_scope] *)
Definition cf6_confirmable (tags : ConfirmedTags) (scope : pydict) (selected : option pydict)
    : bool :=
  let get := get_or_none scope in
  eq_str (get "tenant_id") (t_tenant_id tags)
  && eq_str (get "document_version_id") (t_document_version_id tags)
  && truthy (get "run_id") && truthy (get "selected_pages")
  && bool_decide (is_Some selected)
  && negb (existsb (has_state (Stated Conflict)) (t_facts tags)).

(** [domain/rules/cf6_scope.py:90-116 evaluate_scope] *)
Definition cf6_evaluate_scope (tags : ConfirmedTags) (context : RuleContext)
    (pack : RulePackSnapshot) (scope : pydict) (policy_sha256 receipt : pystr)
    : result ScopeOutcome :=
  selected ← cf6_selected scope;
  _ ← require (cf6_confirmable tags scope selected) DomainValidationError;
  let policy := default [] selected in
  decision ← evaluate_core tags context pack true (py_eq (PDict policy) (PDict CF6_POLICY));
  if negb (is_decided decision) then Ok (Held decision)
  else
    let r := {| s_decision := decision; s_confirmation_basis := "cf6_dec127_system_scope";
                s_confirmation_display := "확정";
                s_confirmation_scope := dict_set "tagging_receipt_sha256" (PStr receipt) scope;
                s_confirmation_policy_sha256 := PStr policy_sha256 |} in
    h ← canonical_hash (PDict [("policy", PDict policy);
                               ("decision", PDict (scope_decision_asdict r))]);
    Ok (Confirmed (set_scope_hash r h)).
End scoped.

(* ------------------------------------------------------------------ *)
(** ** The safe-harbor record *)
(* ------------------------------------------------------------------ *)

Definition CHECKLIST_POLICY_V1 : pystr := "project_checklist_completeness_v1".

(** [domain/rules/safe_harbor.py:21-28 SafeHarborChecklistItem] *)
Record SafeHarborChecklistItem : Set := {
  i_element_id : pystr;
  i_state : FactState;
  i_evidence_refs : list SourceRef;
  i_normalized_value : option pystr;
  i_credited_from : option pystr;
  i_reason_code : option pystr }.

(** [domain/rules/safe_harbor.py:30-43 SafeHarborChecklistItem.to_api_dict] *)
Definition item_to_api_dict (i : SafeHarborChecklistItem) : pyval :=
  PDict [("element_id", PStr (i_element_id i));
         ("state", PStr (fact_state_str (i_state i)));
         ("evidence_refs", PList (source_ref_val <$> i_evidence_refs i));
         ("normalized_value", opt_val (i_normalized_value i));
         ("credited_from", opt_val (i_credited_from i));
         ("reason_code", opt_val (i_reason_code i))].

(** [domain/rules/safe_harbor.py:46-55 SafeHarborRecord] *)
Record SafeHarborRecord : Set := {
  h_claim_id : pystr;
  h_applicable : bool;
  h_category : option pystr;
  h_checklist : list SafeHarborChecklistItem;
  h_reasonable_basis_documented : option bool;
  h_legal_effect : pystr;
  h_mapping_status : pystr;
  h_gap_ids : list pystr }.

(** [domain/rules/safe_harbor.py:57-67 SafeHarborRecord.to_api_dict] *)
Definition record_to_api_dict (r : SafeHarborRecord) : pyval :=
  PDict [("claim_id", PStr (h_claim_id r)); ("applicable", PBool (h_applicable r));
         ("category", opt_val (h_category r));
         ("checklist", PList (item_to_api_dict <$> h_checklist r));
         ("reasonable_basis_documented",
          match h_reasonable_basis_documented r with Some b => PBool b | None => PNone end);
         ("legal_effect", PStr (h_legal_effect r));
         ("mapping_status", PStr (h_mapping_status r));
         ("gap_ids", strs_val (h_gap_ids r))].

Definition key_or_type_error (e : exn) : bool :=
  bool_decide (e = KeyError) || bool_decide (e = TypeError).

(** [domain/rules/safe_harbor.py:83-91 record_safe_harbor] *)
Definition pinned_checklist (pack : RulePackSnapshot) (category : pystr)
    : result (pydict * list pystr) :=
  '(config, expected) ←
    catch key_or_type_error
      (config ← file_content pack "regulatory/safe_harbor.yaml";
       checklists ← of_option KeyError (dict_get "category_checklists" config);
       expected ← getitem category checklists;
       Ok (config, expected))
      (λ _, Raise DomainValidationError);
  match expected with
  | PList l =>
      names ← map_result (as_str DomainValidationError) l;
      _ ← require (forallb nonempty names) DomainValidationError;
      Ok (config, names)
  | _ => Raise DomainValidationError
  end.

(** [domain/rules/safe_harbor.py:93-102 record_safe_harbor] *)
Definition checklist_item (tags : ConfirmedTags) (name : pystr) : SafeHarborChecklistItem :=
  match find_fact name (t_facts tags) with
  | Some f => {| i_element_id := name; i_state := f_state f; i_evidence_refs := f_evidence_refs f;
                 i_normalized_value := f_normalized_value f; i_credited_from := None;
                 i_reason_code := None |}
  | None => {| i_element_id := name; i_state := Stated Unknown; i_evidence_refs := [];
               i_normalized_value := None; i_credited_from := None; i_reason_code := None |}
  end.

(** [domain/rules/safe_harbor.py:106-112 record_safe_harbor] *)
Definition documented_of (mapping : pyval) (checklist : list SafeHarborChecklistItem)
    : option bool :=
  if eq_str mapping CHECKLIST_POLICY_V1 then
    if existsb (λ i, is_state Absent (i_state i)) checklist then Some false
    else if nonempty_list checklist && forallb (λ i, is_state Present (i_state i)) checklist
    then Some true
    else None
  else None.

(** [domain/rules/safe_harbor.py:70-122 record_safe_harbor] *)
Definition record_safe_harbor (tags : ConfirmedTags) (context : RuleContext)
    (pack : RulePackSnapshot) : result SafeHarborRecord :=
  _ ← validate_inputs tags context pack;
  match t_safe_harbor_category tags with
  | None =>
      Ok {| h_claim_id := t_claim_id tags; h_applicable := false; h_category := None;
            h_checklist := []; h_reasonable_basis_documented := None;
            h_legal_effect := "not_determined"; h_mapping_status := "unresolved";
            h_gap_ids := [] |}
  | Some category =>
      '(config, expected) ← pinned_checklist pack category;
      let checklist := checklist_item tags <$> expected in
      let mapping := get_or_none config "reasonable_basis_boolean_mapping" in
      _ ← reject (negb (is_none (get_or_none config "grade_mapping"))
                  || negb (is_none mapping || eq_str mapping CHECKLIST_POLICY_V1))
            DomainValidationError;
      Ok {| h_claim_id := t_claim_id tags; h_applicable := true; h_category := Some category;
            h_checklist := checklist;
            h_reasonable_basis_documented := documented_of mapping checklist;
            h_legal_effect := "not_determined"; h_mapping_status := "unresolved";
            h_gap_ids := ["GAP-001"] |}
  end.

(* ------------------------------------------------------------------ *)
(** ** Lemmas on closing the exception operands *)
(* ------------------------------------------------------------------ *)
Section resolve.
Context (tags : ConfirmedTags) (claim_refs : list SourceRef).
Context (Hnames : NoDup (f_name <$> t_facts tags)).

(** What may occur among the resolved facts. *)
Definition resolved_fact (f : ConfirmedFact) : Prop :=
  f ∈ t_facts tags
  ∨ f = superlative_fact tags (superlative_refs tags claim_refs)
    ∧ superlative_refs tags claim_refs ≠ []
  ∨ f = scoped_absent (f_name f).

Definition facts_inv (d : list (pystr * ConfirmedFact)) : Prop :=
  NoDup (dict_keys d)
  ∧ (∀ k f, (k, f) ∈ d → f_name f = k ∧ resolved_fact f)
  ∧ (∀ f, f ∈ t_facts tags → f_state f ≠ Stated Unknown → (f_name f, f) ∈ d).

Lemma facts_inv_init : facts_inv (dict_of ((λ f, (f_name f, f)) <$> t_facts tags)).
Proof using Hnames.
  rewrite dict_of_NoDup by by rewrite <- list_fmap_compose.
  split_and!.
  - unfold dict_keys. by rewrite <- list_fmap_compose.
  - intros k f (f' & [= -> ->] & Hin)%list_elem_of_fmap. split; [done|by left].
  - intros f Hin _. apply list_elem_of_fmap. by exists f.
Qed.

Lemma facts_inv_set d n f :
  facts_inv d → f_name f = n → resolved_fact f →
  (∀ g, dict_get n d = Some g → f_state g = Stated Unknown) →
  facts_inv (dict_set n f d).
Proof using Type.
  intros (Hnd & Hd & Hkeep) Hn Hf Hopen. split_and!.
  - by apply dict_set_NoDup.
  - intros k g [[= -> ->]|Hin]%elem_of_dict_set_inv; [done|by apply Hd].
  - intros g Hg Hs. destruct (decide (f_name g = n)) as [Heq|Hne].
    + exfalso. apply Hs, Hopen, dict_get_NoDup; [done|]. rewrite <- Heq. by apply Hkeep.
    + apply elem_of_dict_set_keep; [done|]. by apply Hkeep.
Qed.

Definition settled (n : pystr) (d : list (pystr * ConfirmedFact)) : Prop :=
  ∃ f, dict_get n d = Some f ∧ f_state f ≠ Stated Unknown.

Lemma close_operand_step d n d' :
  facts_inv d → close_operand d n = Ok d' →
  facts_inv d' ∧ settled n d' ∧ ∀ m, settled m d → settled m d'.
Proof using Type.
  intros Hd. unfold close_operand.
  destruct (match dict_get n d with Some f => _ | None => true end) eqn:Ho.
  - destruct (mk_ConfirmedFact (scoped_absent n)) as [f|] eqn:Ef; [|done].
    assert (f = scoped_absent n) as ->.
    { unfold mk_ConfirmedFact in Ef. open_run Ef. by injection Ef as <-. }
    intros [= <-]. split_and!.
    + apply facts_inv_set; [done|done|by do 2 right|].
      intros g Hg. rewrite Hg in Ho. by apply bool_decide_eq_true in Ho.
    + exists (scoped_absent n). by rewrite dict_get_set_eq.
    + intros m (g & Hg & Hs). destruct (decide (m = n)) as [->|Hne].
      * exists (scoped_absent n). by rewrite dict_get_set_eq.
      * exists g. by rewrite dict_get_set_ne.
  - intros [= <-]. split_and!; [done| |done].
    destruct (dict_get n d) as [g|] eqn:Eg; [|done]. exists g. split; [done|].
    by apply bool_decide_eq_false in Ho.
Qed.
End resolve.

Lemma mk_ConfirmedTags_facts t t' :
  mk_ConfirmedTags t = Ok t' → t_facts t' = sort_facts (t_facts t).
Proof. unfold mk_ConfirmedTags. intros Ht. open_run Ht. by injection Ht as <-. Qed.

(** Closing the exception operands loses nothing and invents no
    evidence: every settled fact of the tags is retained as it is; each
    resulting fact is an input fact, the superlative header carried by its
    own verified quotes, or a scoped absence; and afterwards no operand of an
    applicable exception is unknown. *)
Theorem resolve_exception_facts_sound tags claim_refs tags' :
  NoDup (f_name <$> t_facts tags) →
  resolve_exception_facts tags claim_refs = Ok tags' →
  (∀ f, f ∈ t_facts tags → f_state f ≠ Stated Unknown → f ∈ t_facts tags')
  ∧ (∀ f, f ∈ t_facts tags' →
       f ∈ t_facts tags
       ∨ f = superlative_fact tags (superlative_refs tags claim_refs)
         ∧ superlative_refs tags claim_refs ≠ []
       ∨ f = scoped_absent (f_name f))
  ∧ (opt_truthy (t_superlative_quote tags) = true →
     ∀ n, n ∈ ["comparison_basis"; "external_verification"] →
       ∃ f, f ∈ t_facts tags' ∧ f_name f = n ∧ f_state f ≠ Stated Unknown).
Proof.
  intros Hnd H. unfold resolve_exception_facts in H.
  set (d0 := dict_of _) in H. pose proof (facts_inv_init tags claim_refs Hnd) as H0. fold d0 in H0.
  apply bind_Ok_inv in H as (d1 & Hd1 & H). apply bind_Ok_inv in H as (d2 & Hd2 & H).
  assert (H1 : facts_inv tags claim_refs d1).
  { destruct (dict_get "has_superlative" d0) eqn:E; [by injection Hd1 as <-|].
    destruct (opt_truthy (t_superlative_quote tags)) eqn:Eq; [|by injection Hd1 as <-].
    destruct (nonempty_list _) eqn:Er; [|by injection Hd1 as <-].
    apply bind_Ok_inv in Hd1 as (f & Hf & [= <-]). unfold mk_ConfirmedFact in Hf.
    open_run Hf. injection Hf as <-. apply facts_inv_set; [done|done| |].
    - right; left. split; [done|]. by intros Hr; rewrite Hr in Er.
    - intros g Hg. congruence. }
  assert (Hstep : ∀ c x c', x ∈ exception_operands tags d1 → facts_inv tags claim_refs c →
            close_operand c x = Ok c' →
            facts_inv tags claim_refs c' ∧ settled x c' ∧ ∀ y, settled y c → settled y c').
  { intros c x c' _ Hc Hx. by apply (close_operand_step tags claim_refs c x c'). }
  destruct (fold_result_all _ settled _ _ _ _ H1 Hstep Hd2) as [(Hk & Hall & Hkeep) Hset].
  apply mk_ConfirmedTags_facts in H. cbn [set_facts t_facts] in H.
  assert (Hin : ∀ f, f ∈ t_facts tags' ↔ ∃ k, (k, f) ∈ d2).
  { intros f. rewrite H. unfold sort_facts. rewrite elem_of_isort, list_elem_of_fmap. split.
    - intros ([k g] & -> & ?). eauto.
    - intros [k ?]. by exists (k, f). }
  split_and!.
  - intros f Hf Hs. apply Hin. eauto.
  - intros f [k Hf]%Hin. by apply (Hall k f).
  - intros Hq n Hn. destruct (Hset n) as (f & Hf & Hs).
    + unfold exception_operands. rewrite Hq. apply elem_of_str_set_sorted, elem_of_app. by left.
    + exists f. apply dict_get_Some_in in Hf. destruct (Hall _ _ Hf) as [Hname _].
      split_and!; [|done|done]. apply Hin. eauto.
Qed.

(** A scoped confirmation under either profile is for claims without a
    conflicting fact, binds the scope of the same tenant and document
    version, and its grade does not depend on evidence left unknown: with
    scoped absences read as absences, every completion of the facts selects
    it (or the superlative override gives it). *)
Theorem scope_confirmation_stable `{Digest} tags context pack scope absent receipt policy s :
  sc1_evaluate_scope tags context pack scope absent receipt = Ok (Confirmed s)
  ∨ cf6_evaluate_scope tags context pack scope policy receipt = Ok (Confirmed s) →
  (∀ f, f ∈ t_facts tags → f_state f ≠ Stated Conflict)
  ∧ dict_get "tenant_id" scope = Some (PStr (t_tenant_id tags))
  ∧ dict_get "document_version_id" scope = Some (PStr (t_document_version_id tags))
  ∧ ∃ dec127 effect rubric_policy branches g,
      apply_source_exceptions tags context pack dec127 = Ok effect
      ∧ read_rubric pack (t_track tags) = Ok (rubric_policy, branches)
      ∧ d_evidence_grade (s_decision s) = Some g
      ∧ let ladder := scoped_branches dec127 (t_track tags) branches in
        (e_override_grade effect = Some g
         ∨ ∀ v, consistent (eval_state true effect (t_facts tags)) v →
             ∃ g0 rule,
               select ladder (valuation v (ladder_names (t_track tags) ladder))
                 = Ok (Some g0, rule)
               ∧ capped (e_cap_grade effect) (Some g0) = Some g).
Proof.
  assert (Hguard : ∀ (b : bool), ¬ existsb (has_state (Stated Conflict)) (t_facts tags) = true →
            ∀ f, f ∈ t_facts tags → f_state f ≠ Stated Conflict).
  { intros _ Hn f Hf Hs. apply Hn, existsb_exists. exists f. split; [by apply list_elem_of_In|].
    by apply bool_decide_eq_true. }
  assert (Hget : ∀ k v, eq_str (get_or_none scope k) v = true → dict_get k scope = Some (PStr v)).
  { intros k v. unfold get_or_none. rewrite eq_str_iff. by destruct (dict_get k scope); cbn; [intros ->|]. }
  intros [Hs|Hs].
  - unfold sc1_evaluate_scope in Hs. apply bind_Ok_inv in Hs as (ph & _ & Hs).
    apply bind_Ok_inv in Hs as ([] & Hc%require_Ok & Hs).
    apply bind_Ok_inv in Hs as (dec & Hd & Hs).
    destruct (is_decided dec) eqn:Edec; cbn [negb] in Hs; [|done].
    apply bind_Ok_inv in Hs as (psha & _ & Hs). apply bind_Ok_inv in Hs as (h & _ & [= <-]).
    unfold sc1_confirmable in Hc. repeat apply andb_true_iff in Hc as [Hc ?].
    apply str_eqb_eq in Edec.
    split_and!; [by apply (Hguard true), not_true_iff_false, negb_true_iff|by apply Hget|by apply Hget|].
    exists false. cbn. exact (core_grade_stable _ _ _ _ _ _ Hd Edec).
  - unfold cf6_evaluate_scope in Hs. apply bind_Ok_inv in Hs as (sel & _ & Hs).
    apply bind_Ok_inv in Hs as ([] & Hc%require_Ok & Hs).
    apply bind_Ok_inv in Hs as (dec & Hd & Hs).
    destruct (is_decided dec) eqn:Edec; cbn [negb] in Hs; [|done].
    apply bind_Ok_inv in Hs as (h & _ & [= <-]).
    unfold cf6_confirmable in Hc. repeat apply andb_true_iff in Hc as [Hc ?].
    apply str_eqb_eq in Edec.
    split_and!; [by apply (Hguard true), not_true_iff_false, negb_true_iff|by apply Hget|by apply Hget|].
    eexists. cbn. exact (core_grade_stable _ _ _ _ _ _ Hd Edec).
Qed.

(** The safe-harbor record documents a basis only on complete evidence:
    [true] needs a non-empty pinned checklist with every item present in the
    tags, [false] needs an item the tags state absent, and the record never
    claims a legal effect or an approved mapping. *)
Theorem safe_harbor_record_documented tags context pack r :
  record_safe_harbor tags context pack = Ok r →
  h_legal_effect r = "not_determined" ∧ h_mapping_status r = "unresolved"
  ∧ (h_reasonable_basis_documented r = Some true →
       h_checklist r ≠ []
       ∧ ∀ i, i ∈ h_checklist r →
           ∃ f, f ∈ t_facts tags ∧ f_name f = i_element_id i ∧ f_state f = Stated Present
                ∧ i_evidence_refs i = f_evidence_refs f)
  ∧ (h_reasonable_basis_documented r = Some false →
       ∃ f, f ∈ t_facts tags ∧ f_state f = Stated Absent
            ∧ f_name f ∈ (i_element_id <$> h_checklist r)).
Proof.
  unfold record_safe_harbor. intros (u & _ & H)%bind_Ok_inv.
  destruct (t_safe_harbor_category tags) as [cat|]; [|by injection H as <-].
  apply bind_Ok_inv in H as ([config expected] & _ & H).
  apply bind_Ok_inv in H as (u' & _ & [= <-]). cbn. split_and!; [done|done|..].
  all: unfold documented_of; destruct (eq_str _ _); [|done];
    destruct (existsb _ _) eqn:Ea;
    [|destruct (nonempty_list _) eqn:En; cbn [andb]; [destruct (forallb _ _) eqn:Ef|]]; try done; intros _.
  - split; [by destruct expected|]. intros i (name & -> & Hn)%list_elem_of_fmap.
    rewrite forallb_forall in Ef.
    assert (Hp : is_state Present (i_state (checklist_item tags name)) = true).
    { apply Ef, list_elem_of_In, list_elem_of_fmap. eauto. }
    apply is_state_true in Hp. unfold checklist_item in *.
    destruct (find_fact name (t_facts tags)) as [f|] eqn:E; [|done]. cbn in *.
    apply find_some in E as [Hin Hname%str_eqb_eq]. exists f.
    split_and!; try done. by apply list_elem_of_In.
  - apply existsb_exists in Ea as (i & (name & -> & Hn)%list_elem_of_In%list_elem_of_fmap & Hp).
    apply is_state_true in Hp. unfold checklist_item in Hp.
    destruct (find_fact name (t_facts tags)) as [f|] eqn:E; [|done]. cbn in *.
    apply find_some in E as [Hin Hname%str_eqb_eq]. exists f.
    split_and!; [by apply list_elem_of_In|done|].
    rewrite Hname. apply list_elem_of_fmap. exists (checklist_item tags name).
    split; [|apply list_elem_of_fmap; eauto]. unfold checklist_item. by destruct (find_fact _ _).
Qed.

(* ------------------------------------------------------------------ *)
(** ** Witnesses *)
(* ------------------------------------------------------------------ *)

Definition superlative_tags : ConfirmedTags :=
  let t := engine_tags [present_fact "named_means_or_concrete_state"] None in
  {| t_tenant_id := t_tenant_id t; t_document_version_id := t_document_version_id t;
     t_claim_id := t_claim_id t; t_track := t_track t; t_facts := t_facts t;
     t_tag_revision := 1; t_packet_sha256 := t_packet_sha256 t;
     t_model_sha256 := t_model_sha256 t; t_prompt_sha256 := t_prompt_sha256 t;
     t_replicate_hashes := t_replicate_hashes t; t_ontology_version := "o1";
     t_safe_harbor_category := None; t_superlative_quote := Some "50%";
     t_product_variant := false |}.

Definition resolved_tags : ConfirmedTags :=
  match resolve_exception_facts superlative_tags [sample_ref] with
  | Ok t => t | Raise _ => superlative_tags end.

Lemma resolve_exception_facts_sound_witness :
  present_fact "named_means_or_concrete_state" ∈ t_facts resolved_tags.
Proof.
  refine (proj1 (resolve_exception_facts_sound superlative_tags [sample_ref] resolved_tags _ _) _ _ _).
  - apply NoDup_singleton.
  - vm_compute. reflexivity.
  - left.
  - discriminate.
Defined.

Definition scoped_tags : ConfirmedTags :=
  engine_tags [scoped_absent "named_means_or_concrete_state"] None.

Definition sample_scope : pydict :=
  [("tenant_id", PStr (t_tenant_id scoped_tags));
   ("document_version_id", PStr (t_document_version_id scoped_tags));
   ("run_id", PStr "r"); ("selected_pages", PList [PInt 1]);
   ("rule_policy_sha256",
    PStr (match canonical_hash (H := Checksum) (PDict CF6_POLICY) with Ok h => h | Raise _ => [] end))].

Definition cf6_sample : result ScopeOutcome :=
  cf6_evaluate_scope (H := Checksum) scoped_tags engine_context engine_pack sample_scope "p" "r".

Definition cf6_sample_decision (default_to : ScopeDecision) : ScopeDecision :=
  match cf6_sample with Ok (Confirmed s) => s | _ => default_to end.

Lemma cf6_sample_confirmed :
  match cf6_sample with
  | Ok (Confirmed s) => d_evidence_grade (s_decision s) = Some "E0"
  | _ => False
  end.
Proof. vm_compute. reflexivity. Qed.

Lemma scope_confirmation_stable_witness :
  ∃ s, cf6_sample = Ok (Confirmed s) ∧ is_Some (d_evidence_grade (s_decision s)).
Proof.
  pose proof cf6_sample_confirmed as Hc. destruct cf6_sample as [[d|s]|e] eqn:E; try contradiction.
  exists s. split; [reflexivity|].
  destruct (scope_confirmation_stable (H := Checksum) _ _ _ _ ([] : list pystr) "r" "p" s
    (or_intror E)) as (_ & _ & _ & _ & _ & _ & _ & g & _ & _ & Hg & _).
  exists g. exact Hg.
Defined.

Definition harbor_pack : RulePackSnapshot :=
  {| rule_pack_id := "rp"; tenant_id := tenant_id engine_pack; version := "v2";
     effective_date := "2026-09-25"; mode := "disclosure"; status := "active";
     ontology_version := "o1"; source_document_sha256 := "s"; sha256 := "h"; files := [];
     unresolved_gap_ids := []; approved_by := Some "u"; approved_at := Some "t";
     content := content engine_pack ++
       [("regulatory/safe_harbor.yaml",
         json_text (PDict [("category_checklists",
                            PDict [("forward_looking", strs_val ["named_means_or_concrete_state"])]);
                           ("reasonable_basis_boolean_mapping", PStr CHECKLIST_POLICY_V1)]))] |}.

Definition harbor_record : result SafeHarborRecord :=
  record_safe_harbor (engine_tags open_facts (Some "forward_looking")) engine_context harbor_pack.

Lemma harbor_record_true :
  match harbor_record with
  | Ok r => h_reasonable_basis_documented r = Some true | Raise _ => False end.
Proof. vm_compute. reflexivity. Qed.

Lemma safe_harbor_record_documented_witness :
  ∃ r, harbor_record = Ok r ∧ h_checklist r ≠ [].
Proof.
  pose proof harbor_record_true as Hr. destruct harbor_record as [r|e] eqn:E; [|contradiction].
  exists r. split; [reflexivity|].
  destruct (safe_harbor_record_documented (engine_tags open_facts (Some "forward_looking"))
    engine_context harbor_pack r E) as (_ & _ & Ht & _). apply (Ht Hr).
Defined.
