(* ===== verification/Rescore.v ===== *)
(** * Rescoring confirmed tags against a new rule pack.

    [application/rescores.py]: the pure step [create_rescore], which evaluates
    an immutable tag revision under another pack or names the reasons why the
    claim must be tagged again, and what it guarantees: no decision rests on a
    fact the revision does not state, and the same pack gives the same
    decision. *)
From S2P Require Import Prelude PyVal JsonCodec Values Digest RulePack Rules RulesSpec ScopeRules.

(** [domain/rules/engine.py:132-144 RuleContext] with another revision, the
    [replace] of the service. [application/rescores.py:315-318 RescoreService.create_rescore] *)
Definition with_revision (c : RuleContext) (r : Z) : RuleContext :=
  {| c_tenant_id := c_tenant_id c; c_document_version_id := c_document_version_id c;
     c_claim_id := c_claim_id c; c_packet_sha256 := c_packet_sha256 c;
     c_decision_revision := r; c_mode := c_mode c; c_local_synthetic := c_local_synthetic c;
     c_company_id := c_company_id c; c_reporting_period := c_reporting_period c;
     c_industry := c_industry c; c_regulatory_axis := c_regulatory_axis c |}.

(** The two results: a refusal with its reasons, or a new decision.
    [application/rescores.py:30-33 RetagRequired] *)
Inductive rescore_outcome : Set :=
  | RetagRequired (reasons : list pystr)
  | Rescored (d : Decision).

(** [application/rescores.py:76-77 create_rescore] *)
Definition element_list (pack : RulePackSnapshot) : result pyval :=
  file ← file_content pack "rubric/elements.yaml";
  of_option KeyError (dict_get "elements" file).

(** The definitions by id, and how many there are.
    [application/rescores.py:78-81 create_rescore] *)
Definition by_id (elements : pyval) : result (pydict * Z) :=
  els ← py_iter elements;
  pairs ← map_result (λ e, i ← getitem "id" e; i ← as_str TypeError i; Ok (i, e)) els;
  Ok (dict_of pairs, py_len els).

(** A definition without its output metadata.
    [application/rescores.py:87-88 create_rescore] *)
Definition meaning (v : pyval) : result pyval :=
  d ← as_dict AttributeError v;
  Ok (PDict (filter (λ kv, str_in kv.1 ["basis"; "source_scopes"] = false) d)).

(** [set(v)]: its members must be hashable. *)
Definition hashed (v : pyval) : result (list pyval) :=
  l ← py_iter v;
  _ ← each (λ x, match x with
                 | PList _ | PDict _ => Raise TypeError | _ => Ok tt end) l;
  Ok l.

(** The definitions of both packs have the same id; the code visits the ids in
    the order of a set, the model in the order of the new pack.
    [application/rescores.py:85-92 create_rescore] *)
Definition element_reasons (old : pydict) (row : pystr * pyval) : result (list pystr) :=
  let '(element_id, after) := row in
  match dict_get element_id old with
  | None => Ok []
  | Some before =>
      before_meaning ← meaning before;
      after_meaning ← meaning after;
      after_scopes ← getitem "source_scopes" after;
      after_scopes ← hashed after_scopes;
      before_scopes ← getitem "source_scopes" before;
      before_scopes ← hashed before_scopes;
      Ok ((if py_eq before_meaning after_meaning then []
           else ["ELEMENT_MEANING_CHANGED:" ++ element_id])
          ++ (if forallb (λ s, existsb (py_eq s) before_scopes) after_scopes then []
              else ["SOURCE_SCOPES_EXPANDED:" ++ element_id]))
  end.

Definition same_keys (a b : pydict) : bool :=
  forallb (λ k, str_in k (dict_keys b)) (dict_keys a)
  && forallb (λ k, str_in k (dict_keys a)) (dict_keys b).

(** [application/rescores.py:82-92 create_rescore] *)
Definition ontology_reasons (old new : pydict) : result (list pystr) :=
  changed ← map_result (element_reasons old) new;
  Ok ((if same_keys old new then [] else ["ELEMENT_SET_CHANGED"]) ++ concat changed).

Definition opt_list {A} (o : option A) : list A := match o with Some x => [x] | None => [] end.

Definition fact_named (tags : ConfirmedTags) (name : pystr) : bool :=
  bool_decide (is_Some (find_fact name (t_facts tags))).

(** What one element of the track requires, and its scope recheck.
    [application/rescores.py:98-112 create_rescore] *)
Definition element_needs (tags : ConfirmedTags) (new : pydict) (row : pystr * list pystr)
    : result (list pystr * list pystr) :=
  let '(element_id, names) := row in
  definition ← of_option KeyError (dict_get element_id new);
  d ← as_dict AttributeError definition;
  let trigger := get_or_none d "trigger" in
  trigger ← (if truthy trigger then t ← as_str TypeError trigger; Ok (Some t) else Ok None);
  if match trigger with
     | Some t => match find_fact t (t_facts tags) with
                 | Some f => is_state Absent (f_state f) | None => false end
     | None => false
     end
  then Ok (opt_list trigger, [])
  else
    stale ← any_result (λ name,
              match find_fact name (t_facts tags) with
              | Some f =>
                  if is_state Present (f_state f) then
                    scopes ← getitem "source_scopes" definition;
                    inside ← str_in_val (f_source_scope f) scopes;
                    Ok (negb inside)
                  else Ok false
              | None => Ok false
              end) names;
    Ok (opt_list trigger ++ names,
        if stale : bool then ["SOURCE_SCOPE_RECHECK:" ++ element_id] else []).

(** [application/rescores.py:115-117 create_rescore] *)
Definition branch_needs (v : pyval) : result (list pystr) :=
  d ← as_dict AttributeError v;
  w ← py_iter (default (PDict []) (dict_get "when" d));
  w ← map_result (as_str TypeError) w;
  r ← py_iter (default (PList []) (dict_get "require_all" d));
  r ← map_result (as_str TypeError) r;
  Ok (w ++ r).

(** The derived name stands for the two facts it is derived from.
    [application/rescores.py:118-120 create_rescore] *)
Definition expand_exception (required : list pystr) : list pystr :=
  if str_in "exception_applies" required then
    filter (λ n, n ≠ "exception_applies") required ++ ["target_metric"; "transition_plan"]
  else required.

(** [application/rescores.py:121-129 create_rescore] *)
Definition exception_needs (tags : ConfirmedTags) (rubric : pydict) : result (list pystr) :=
  product ← (if t_product_variant tags && bool_decide (t_track tags = Management) then
               p ← of_option KeyError (dict_get "product_variant" rubric);
               n ← getitem "e2_plus_requires" p;
               n ← as_str TypeError n; Ok [n]
             else Ok []);
  let superlative :=
    if opt_truthy (t_superlative_quote tags)
       || match find_fact "has_superlative" (t_facts tags) with
          | Some f => negb (is_state Absent (f_state f)) | None => false end
    then ["has_superlative"; "comparison_basis"; "external_verification"] else [] in
  let ordinal :=
    if bool_decide (t_track tags = Performance) && fact_named tags "categorical_ordinal"
    then ["certification_provider"] else [] in
  Ok (product ++ superlative ++ ordinal).

(** [application/rescores.py:130-132 create_rescore] *)
Definition checklists_of (pack : RulePackSnapshot) : result pyval :=
  file ← file_content pack "regulatory/safe_harbor.yaml";
  of_option KeyError (dict_get "category_checklists" file).

Section rescore.
Context `{Digest}.

(** [application/rescores.py:64-72 create_rescore] *)
Definition check_previous (tags : ConfirmedTags) (context : RuleContext)
    (previous : option Decision) : result unit :=
  match previous with
  | Some prev =>
      _ ← require ((c_decision_revision context =? d_decision_revision prev + 1)%Z
                   && (d_tag_revision prev =? t_tag_revision tags)%Z) DomainValidationError;
      h ← canonical_hash (tags_asdict tags);
      require (d_input_tags_sha256 prev =s? h) DomainValidationError
  | None => require (c_decision_revision context =? 1)%Z DomainValidationError
  end.

(** Every fact the new pack needs, with the reasons found on the way.
    [application/rescores.py:96-135 create_rescore] *)
Definition fact_reasons (tags : ConfirmedTags) (new_pack previous_pack : RulePackSnapshot)
    (new : pydict) : result (list pystr) :=
  needs ← map_result (element_needs tags new) (MAPPINGS (t_track tags));
  rubric ← file_content new_pack (track_rubric (t_track tags));
  branches ← of_option KeyError (dict_get "branches" rubric);
  branches ← py_iter branches;
  tested ← map_result branch_needs branches;
  extra ← exception_needs tags rubric;
  old_lists ← checklists_of previous_pack;
  new_lists ← checklists_of new_pack;
  let required := expand_exception (concat needs.*1 ++ concat tested) ++ extra in
  Ok (concat needs.*2
      ++ (if py_eq old_lists new_lists then [] else ["SAFE_HARBOR_INPUTS_CHANGED"])
      ++ ((λ n, "MISSING_FACT:" ++ n)
            <$> filter (λ n, fact_named tags n = false) required)).

(** [application/rescores.py:36-138 create_rescore] *)
Definition create_rescore (new_pack : RulePackSnapshot) (tags : option ConfirmedTags)
    (previous_pack : RulePackSnapshot) (context : RuleContext)
    (previous_decision : option Decision) : result rescore_outcome :=
  _ ← require ((RulePack.tenant_id new_pack =s? c_tenant_id context)
               && (RulePack.tenant_id previous_pack =s? c_tenant_id context)
               && (mode new_pack =s? mode previous_pack)
               && (mode new_pack =s? c_mode context)) DomainValidationError;
  match tags with
  | None => Ok (RetagRequired ["CONFIRMED_TAGS_REQUIRED"])
  | Some tags =>
      _ ← validate_inputs tags context previous_pack;
      _ ← check_previous tags context previous_decision;
      if negb (ontology_version new_pack =s? ontology_version previous_pack)
      then Ok (RetagRequired ["ONTOLOGY_CHANGED"])
      else
        old_list ← element_list previous_pack;
        new_list ← element_list new_pack;
        '(old, old_count) ← by_id old_list;
        '(new, new_count) ← by_id new_list;
        _ ← require ((py_len old =? old_count)%Z && (py_len new =? new_count)%Z)
              DomainValidationError;
        changed ← ontology_reasons old new;
        if nonempty_list changed then Ok (RetagRequired (str_set_sorted changed))
        else
          reasons ← fact_reasons tags new_pack previous_pack new;
          if nonempty_list reasons then Ok (RetagRequired (str_set_sorted reasons))
          else d ← evaluate tags context new_pack; Ok (Rescored d)
  end.
End rescore.

(* ------------------------------------------------------------------ *)
(** ** Lemmas *)
(* ------------------------------------------------------------------ *)

Lemma filter_missing tags required :
  filter (λ n, fact_named tags n = false) required = [] →
  ∀ n, n ∈ required → is_Some (find_fact n (t_facts tags)).
Proof.
  intros Hf n Hn. destruct (fact_named tags n) eqn:E.
  - unfold fact_named in E. by apply bool_decide_eq_true in E.
  - exfalso. assert (Hin : n ∈ filter (λ n, fact_named tags n = false) required)
      by by apply list_elem_of_filter. rewrite Hf in Hin. by apply elem_of_nil in Hin.
Qed.

Lemma map_result_as_str e l : map_result (as_str e) (PStr <$> l) = Ok l.
Proof. induction l as [|x l IH]; [done|]. cbn in IH |- *. by rewrite IH. Qed.

(** The parsed conditions of a branch are the ones [branch_needs] lists. *)
Lemma branch_needs_of v names b :
  branch_needs v = Ok names → branch_of v = Ok b →
  names = dict_keys (default [] (b_when b)) ++ b_require_all b.
Proof.
  unfold branch_needs, branch_of. intros Hn Hb.
  destruct v; try (apply bind_Ok_inv in Hn as (? & Hd & _); discriminate Hd).
  cbn [as_dict mbind result_bind] in Hn, Hb. open_run Hb. injection Hb as <-.
  apply bind_Ok_inv in Hn as (w & Hw & Hn). apply bind_Ok_inv in Hn as (w' & Hw' & Hn).
  apply bind_Ok_inv in Hn as (r & Hr & Hn). apply bind_Ok_inv in Hn as (r' & Hr' & [= <-]).
  cbn [b_when b_require_all].
  match goal with H : py_iter (default (PList []) _) = Ok _ |- _ => rewrite H in Hr end.
  injection Hr as <-.
  match goal with H : map_result _ _ = Ok _ |- _ => rewrite H in Hr' end. injection Hr' as <-.
  f_equal. destruct (dict_get "when" _) as [wv|]; cbn [default] in Hw.
  - match goal with H : mbind _ (as_dict TypeError wv) = Ok _ |- _ =>
      apply bind_Ok_inv in H as (wd & ->%as_dict_Ok & [= <-]) end.
    cbn in Hw. injection Hw as <-. cbn [default].
    rewrite map_result_as_str in Hw'. by injection Hw' as <-.
  - match goal with H : Ok None = Ok _ |- _ => injection H as <- end.
    cbn in Hw. injection Hw as <-. by injection Hw' as <-.
Qed.

Lemma expand_exception_spec required n :
  n ∈ required →
  (n ≠ "exception_applies" → n ∈ expand_exception required)
  ∧ (n = "exception_applies" →
       "target_metric" ∈ expand_exception required
       ∧ "transition_plan" ∈ expand_exception required).
Proof.
  intros Hn. unfold expand_exception. destruct (str_in _ required) eqn:E.
  - split; intros Hne.
    + apply elem_of_app. left. by apply list_elem_of_filter.
    + split; apply elem_of_app; right; set_solver.
  - split; [done|]. intros ->. apply str_in_false in E. contradiction.
Qed.

(** An element asks for its facts unless its trigger is settled absent. *)
Lemma element_needs_spec tags new e names needed reasons :
  element_needs tags new (e, names) = Ok (needed, reasons) →
  ∃ definition, dict_get e new = Some (PDict definition)
    ∧ ((∀ n, n ∈ names → n ∈ needed)
       ∨ ∃ t f, get_or_none definition "trigger" = PStr t
           ∧ find_fact t (t_facts tags) = Some f ∧ f_state f = Stated Absent).
Proof.
  unfold element_needs. intros (v & Hv%of_option_Ok & Hn)%bind_Ok_inv.
  apply bind_Ok_inv in Hn as (d & ->%as_dict_Ok & Hn).
  apply bind_Ok_inv in Hn as (trigger & Ht & Hn). exists d. split; [done|].
  match type of Hn with (if ?b then _ else _) = _ => destruct b eqn:Eb end.
  - right. destruct trigger as [t|]; [|done]. exists t.
    destruct (find_fact t (t_facts tags)) as [f|] eqn:Ef; [|done]. exists f.
    split_and!; [|done|by apply is_state_true].
    destruct (truthy _); [|discriminate Ht].
    by apply bind_Ok_inv in Ht as (t' & ->%as_str_Ok & [= <-]).
  - left. apply bind_Ok_inv in Hn as (stale & _ & [= <- _]).
    intros n Hn. apply elem_of_app. by right.
Qed.

(** The reasons of an unchanged ontology: the same ids, and the same meaning
    under each. *)
Lemma ontology_unchanged old new :
  ontology_reasons old new = Ok [] →
  (∀ i, i ∈ dict_keys old ↔ i ∈ dict_keys new)
  ∧ ∀ i a b, dict_get i old = Some a → dict_get i new = Some b →
      ∃ m m', meaning a = Ok m ∧ meaning b = Ok m' ∧ py_eq m m' = true.
Proof.
  unfold ontology_reasons. intros (changed & Hc & Heq)%bind_Ok_inv.
  injection Heq as [Hk Hch]%app_eq_nil. split.
  - destruct (same_keys old new) eqn:E; [|done].
    apply andb_true_iff in E as [E1 E2]. rewrite forallb_forall in E1, E2. intros i. split.
    + intros Hi%list_elem_of_In. by apply str_in_iff, E1.
    + intros Hi%list_elem_of_In. by apply str_in_iff, E2.
  - intros i a b Ha Hb. apply dict_get_Some_in in Hb. apply list_elem_of_lookup in Hb as [j Hj].
    apply map_result_Ok in Hc. destruct (Forall2_lookup_l _ _ _ _ _ Hc Hj) as (rs & Hrs & Hrow).
    assert (rs = []) as ->.
    { apply list_elem_of_lookup_2 in Hrs. apply list_elem_of_split in Hrs as (l1 & l2 & ->).
      rewrite concat_app in Hch. apply app_eq_nil in Hch as [_ Hch].
      by apply app_eq_nil in Hch as [? _]. }
    unfold element_reasons in Hrow. rewrite Ha in Hrow. open_run Hrow.
    injection Hrow as [Hm _]%app_eq_nil. do 2 eexists. split_and!; [done|done|].
    by destruct (py_eq _ _).
Qed.

(** No element of the shipped mappings lists the derived name. *)
Lemma mapped_names_plain t e names n :
  (e, names) ∈ MAPPINGS t → n ∈ names → n ≠ "exception_applies".
Proof.
  intros Hm Hn ->.
  assert (Hall : forallb (λ row, negb (str_in "exception_applies" row.2)) (MAPPINGS t) = true)
    by (destruct t; vm_compute; reflexivity).
  rewrite forallb_forall in Hall. apply list_elem_of_In, Hall in Hm. cbn [snd] in Hm.
  apply negb_true_iff, str_in_false in Hm. contradiction.
Qed.

Section theorems.
Context `{Digest}.

(** The successful run of the step. *)
Lemma create_rescore_inv new_pack tags previous_pack context previous d :
  create_rescore new_pack (Some tags) previous_pack context previous = Ok (Rescored d) →
  ∃ old_list old new_list new old_count new_count,
    validate_inputs tags context previous_pack = Ok tt
    ∧ check_previous tags context previous = Ok tt
    ∧ ontology_version new_pack = ontology_version previous_pack
    ∧ element_list previous_pack = Ok old_list ∧ by_id old_list = Ok (old, old_count)
    ∧ element_list new_pack = Ok new_list ∧ by_id new_list = Ok (new, new_count)
    ∧ ontology_reasons old new = Ok []
    ∧ fact_reasons tags new_pack previous_pack new = Ok []
    ∧ evaluate tags context new_pack = Ok d.
Proof.
  unfold create_rescore. intros ([] & _ & Hr)%bind_Ok_inv.
  apply bind_Ok_inv in Hr as ([] & Hv & Hr). apply bind_Ok_inv in Hr as ([] & Hp & Hr).
  destruct (str_eqb_spec (ontology_version new_pack) (ontology_version previous_pack)) as [Ho|];
    [|discriminate Hr].
  cbn [negb] in Hr. apply bind_Ok_inv in Hr as (ol & Hol & Hr).
  apply bind_Ok_inv in Hr as (nl & Hnl & Hr).
  apply bind_Ok_inv in Hr as ([old oc] & Hold & Hr).
  apply bind_Ok_inv in Hr as ([new nc] & Hnew & Hr).
  apply bind_Ok_inv in Hr as ([] & _ & Hr). apply bind_Ok_inv in Hr as (changed & Hc & Hr).
  destruct changed as [|? ?]; [|discriminate Hr]. cbn [nonempty_list] in Hr.
  apply bind_Ok_inv in Hr as (reasons & Hf & Hr).
  destruct reasons as [|? ?]; [|discriminate Hr]. cbn [nonempty_list] in Hr.
  apply bind_Ok_inv in Hr as (d' & He & [= <-]).
  do 6 eexists. split_and!; done.
Qed.

(** A name the track's elements or the new ladder test is stated by the tags. *)
Definition stated (tags : ConfirmedTags) (n : pystr) : Prop :=
  is_Some (find_fact n (t_facts tags)).

Lemma no_fact_reasons tags new_pack previous_pack new :
  fact_reasons tags new_pack previous_pack new = Ok [] →
  ∃ needs rubric branches tested,
    map_result (element_needs tags new) (MAPPINGS (t_track tags)) = Ok needs
    ∧ file_content new_pack (track_rubric (t_track tags)) = Ok rubric
    ∧ mbind py_iter (of_option KeyError (dict_get "branches" rubric)) = Ok branches
    ∧ map_result branch_needs branches = Ok tested
    ∧ ∀ n, n ∈ expand_exception (concat needs.*1 ++ concat tested) → stated tags n.
Proof.
  unfold fact_reasons. intros (needs & Hn & Hr)%bind_Ok_inv.
  apply bind_Ok_inv in Hr as (rubric & Hrub & Hr).
  apply bind_Ok_inv in Hr as (bv & Hbv & Hr). apply bind_Ok_inv in Hr as (branches & Hb & Hr).
  apply bind_Ok_inv in Hr as (tested & Ht & Hr). apply bind_Ok_inv in Hr as (extra & _ & Hr).
  apply bind_Ok_inv in Hr as (ol & _ & Hr). apply bind_Ok_inv in Hr as (nl & _ & Hr).
  injection Hr as [_ [_ Hmissing]%app_eq_nil]%app_eq_nil.
  exists needs, rubric, branches, tested. split_and!; try done.
  - by rewrite Hbv.
  - apply fmap_nil_inv in Hmissing. intros n Hin.
    apply (filter_missing _ _ Hmissing). apply elem_of_app. by left.
Qed.

(** The definitions both steps read are those of the trust boundary. *)
Lemma element_list_definitions pack els defs n :
  element_list pack = Ok els → by_id els = Ok (defs, n) → element_definitions pack = Ok defs.
Proof.
  unfold element_list, by_id, element_definitions.
  intros (file & -> & Hg)%bind_Ok_inv Hb. cbn. rewrite Hg. cbn.
  apply bind_Ok_inv in Hb as (l & Hl & Hb). rewrite Hl. cbn.
  apply bind_Ok_inv in Hb as (pairs & Hp & [= <- <-]). by rewrite Hp.
Qed.

Lemma elem_concat_of {A} (ls : list (list A)) l x : x ∈ l → l ∈ ls → x ∈ concat ls.
Proof.
  intros Hx Hl. induction Hl as [|l l' ls _ IH]; cbn; apply elem_of_app; [by left|]. right. auto.
Qed.

(** A required name that is no derived exception must be stated. *)
Lemma element_stated tags new needs tested e names :
  map_result (element_needs tags new) (MAPPINGS (t_track tags)) = Ok needs →
  (∀ n, n ∈ expand_exception (concat needs.*1 ++ concat tested) → stated tags n) →
  (e, names) ∈ MAPPINGS (t_track tags) →
  ∃ definition, dict_get e new = Some (PDict definition)
    ∧ ((∀ n, n ∈ names → stated tags n)
       ∨ ∃ t f, get_or_none definition "trigger" = PStr t
           ∧ find_fact t (t_facts tags) = Some f ∧ f_state f = Stated Absent).
Proof.
  intros Hn%map_result_Ok Hall Hin. pose proof Hin as Hmap.
  apply list_elem_of_lookup in Hin as [j Hj].
  destruct (Forall2_lookup_l _ _ _ _ _ Hn Hj) as ([needed reasons] & Hlk & Hrow).
  destruct (element_needs_spec _ _ _ _ _ _ Hrow) as (def & Hdef & Hcase).
  exists def. split; [done|]. destruct Hcase as [Hsub|Htr]; [left|by right].
  intros n Hnn. apply Hall, expand_exception_spec.
  - apply elem_of_app. left. apply (elem_concat_of _ needed); [by apply Hsub|].
    apply list_elem_of_fmap. exists (needed, reasons). split; [done|by eapply list_elem_of_lookup_2].
  - apply (mapped_names_plain (t_track tags) e names n Hmap Hnn).
Qed.

(** A condition of a parsed branch is among the tested names. *)
Lemma branch_tested pack t rubric bvs tested policy branches b n :
  file_content pack (track_rubric t) = Ok rubric →
  mbind py_iter (of_option KeyError (dict_get "branches" rubric)) = Ok bvs →
  map_result branch_needs bvs = Ok tested →
  read_rubric pack t = Ok (policy, branches) →
  b ∈ branches → n ∈ dict_keys (default [] (b_when b)) ++ b_require_all b →
  n ∈ concat tested.
Proof.
  intros Hrub Hbv Ht%map_result_Ok Hread Hb Hn. unfold read_rubric in Hread.
  rewrite Hrub in Hread. cbn [mbind result_bind] in Hread.
  apply bind_Ok_inv in Hbv as (v & Hv & Hi). rewrite Hv in Hread.
  cbn [mbind result_bind] in Hread. rewrite Hi in Hread. cbn [mbind result_bind] in Hread.
  apply bind_Ok_inv in Hread as (bs & Hbs & [= <- <-]). apply map_result_Ok in Hbs.
  apply list_elem_of_lookup in Hb as [j Hj].
  destruct (Forall2_lookup_r _ _ _ _ _ Hbs Hj) as (bv & Hjb & Hof).
  destruct (Forall2_lookup_l _ _ _ _ _ Ht Hjb) as (names & Hjn & Hneeds).
  rewrite (branch_needs_of _ _ _ Hneeds Hof) in Hjn.
  apply (elem_concat_of _ _ _ Hn). by eapply list_elem_of_lookup_2.
Qed.

(** An accepted rescore is the engine's decision on the unchanged tags,
    and it never fills in an observation: the tags satisfied the trust boundary
    of the pack they were made under, the ontology and the meaning of every
    element are the same, every fact of every element of the track is stated by
    the tags unless the element's trigger is settled absent, and so is every
    fact a branch of the new ladder tests, a derived exception through the two
    facts it is derived from. *)
Theorem rescore_reads_confirmed new_pack tags previous_pack context previous d :
  create_rescore new_pack (Some tags) previous_pack context previous = Ok (Rescored d) →
  evaluate tags context new_pack = Ok d
  ∧ validate_inputs tags context previous_pack = Ok tt
  ∧ ontology_version new_pack = ontology_version previous_pack
  ∧ ∃ old new policy branches,
      element_definitions previous_pack = Ok old ∧ element_definitions new_pack = Ok new
      ∧ read_rubric new_pack (t_track tags) = Ok (policy, branches)
      ∧ (∀ i, i ∈ dict_keys old ↔ i ∈ dict_keys new)
      ∧ (∀ i a b, dict_get i old = Some a → dict_get i new = Some b →
           ∃ m m', meaning a = Ok m ∧ meaning b = Ok m' ∧ py_eq m m' = true)
      ∧ (∀ e names, (e, names) ∈ MAPPINGS (t_track tags) →
           ∃ definition, dict_get e new = Some (PDict definition)
             ∧ ((∀ n, n ∈ names → stated tags n)
                ∨ ∃ t f, get_or_none definition "trigger" = PStr t
                    ∧ find_fact t (t_facts tags) = Some f ∧ f_state f = Stated Absent))
      ∧ ∀ b n, b ∈ branches → n ∈ dict_keys (default [] (b_when b)) ++ b_require_all b →
          (n ≠ "exception_applies" → stated tags n)
          ∧ (n = "exception_applies" →
               stated tags "target_metric" ∧ stated tags "transition_plan").
Proof.
  intros (ol & old & nl & new & oc & nc & Hv & _ & Ho & Hol & Hold & Hnl & Hnew & Hon & Hf & He)
    %create_rescore_inv.
  destruct (ontology_unchanged _ _ Hon) as [Hkeys Hmeaning].
  destruct (no_fact_reasons _ _ _ _ Hf) as (needs & rubric & bvs & tested & Hn & Hrub & Hbv & Ht & Hall).
  destruct (evaluate_core_inv _ _ _ _ _ _ (evaluate_core_of _ _ _ _ He))
    as (_ & _ & _ & policy & branches & _ & _ & _ & _ & _ & _ & _ & _ & Hread & _).
  split_and!; [done|done|done|]. exists old, new, policy, branches. split_and!.
  - exact (element_list_definitions _ _ _ _ Hol Hold).
  - exact (element_list_definitions _ _ _ _ Hnl Hnew).
  - done.
  - done.
  - done.
  - intros e names Hin. exact (element_stated _ _ _ _ _ _ Hn Hall Hin).
  - intros b n Hb Hin.
    pose proof (branch_tested _ _ _ _ _ _ _ _ _ Hrub Hbv Ht Hread Hb Hin) as Hn'.
    destruct (expand_exception_spec (concat needs.*1 ++ concat tested) n) as [H1 H2].
    { apply elem_of_app. by right. }
    split; [intros Hne; by apply Hall, H1|]. intros Heq.
    destruct (H2 Heq). split; by apply Hall.
Qed.

(** The decision under another revision: only the revision and the hash that
    covers it change. *)
Definition revised (d : Decision) (r : Z) : Decision :=
  {| d_decision_revision := r; d_tag_revision := d_tag_revision d;
     d_decision_status := d_decision_status d; d_evidence_grade := d_evidence_grade d;
     d_label := d_label d; d_sublabel := d_sublabel d; d_review_status := d_review_status d;
     d_missing_elements := d_missing_elements d; d_rule_ids := d_rule_ids d;
     d_rule_pack_sha256 := d_rule_pack_sha256 d; d_semantic_hash := d_semantic_hash d;
     d_gap_ids := d_gap_ids d; d_unresolved_elements := d_unresolved_elements d;
     d_excluded_elements := d_excluded_elements d; d_ladder_candidate := d_ladder_candidate d;
     d_basis_refs := d_basis_refs d; d_input_tags_sha256 := d_input_tags_sha256 d;
     d_local_synthetic := d_local_synthetic d; d_grade_floor := d_grade_floor d;
     d_grade_ceiling := d_grade_ceiling d; d_grade_open_elements := d_grade_open_elements d |}.

Lemma evaluate_revised tags context pack r d d' :
  evaluate tags context pack = Ok d → evaluate tags (with_revision context r) pack = Ok d' →
  d' = set_semantic_hash (revised d r) (d_semantic_hash d').
Proof.
  intros Hd%evaluate_core_of Hd'%evaluate_core_of. unfold evaluate_core in Hd, Hd'.
  change (apply_source_exceptions tags (with_revision context r) pack false)
    with (apply_source_exceptions tags context pack false) in Hd'.
  repeat match type of Hd with
  | mbind _ ?m = Ok _ =>
      apply bind_Ok_inv in Hd as (? & ?E & Hd);
      match goal with E : m = Ok ?x |- _ =>
        rewrite E in Hd'; cbn [mbind result_bind] in Hd';
        lazymatch type of x with
        | prod _ _ => destruct x | unit => destruct x | _ => idtac end end
  end.
  unfold seal in Hd, Hd'. apply bind_Ok_inv in Hd as (h & _ & [= <-]).
  by apply bind_Ok_inv in Hd' as (h' & _ & [= <-]).
Qed.

(** Rescoring against the pack that produced a decision reproduces it: when
    the step accepts, the new decision is the previous one under the next
    revision, with only the hash that covers the revision renewed, so a grade,
    label, range or gap never changes without a change of the pack. *)
Theorem rescore_same_pack pack tags context r previous d :
  evaluate tags context pack = Ok previous →
  create_rescore pack (Some tags) pack (with_revision context r) (Some previous)
    = Ok (Rescored d) →
  r = (d_decision_revision previous + 1)%Z
  ∧ d = set_semantic_hash (revised previous r) (d_semantic_hash d).
Proof.
  intros Hp (? & ? & ? & ? & ? & ? & _ & Hc & _ & _ & _ & _ & _ & _ & _ & He)%create_rescore_inv.
  split; [|exact (evaluate_revised _ _ _ _ _ _ Hp He)].
  unfold check_previous in Hc. apply bind_Ok_inv in Hc as ([] & Hr%require_Ok & _).
  apply andb_true_iff in Hr as [Hr _]. by apply Z.eqb_eq in Hr.
Qed.
End theorems.

(* ------------------------------------------------------------------ *)
(** ** A run *)
(* ------------------------------------------------------------------ *)

(** Every fact of the management track, the trigger of M6 settled absent. *)
Definition management_facts : list ConfirmedFact :=
  present_fact <$> filter (λ n, n ≠ "has_compensation")
    (str_set_sorted (concat MANAGEMENT_ELEMENTS.*2 ++ ["willingness_only"])).

Definition rescore_tags : ConfirmedTags :=
  engine_tags (management_facts ++ [absent_fact "has_compensation"]) None.

(** The harbor pack with a stricter ladder: no E1. *)
Definition strict_pack : RulePackSnapshot :=
  {| rule_pack_id := "rp2"; tenant_id := tenant_id engine_pack; version := "v3";
     effective_date := "2026-10-01"; mode := "disclosure"; status := "active";
     ontology_version := "o1"; source_document_sha256 := "s"; sha256 := "h2"; files := [];
     unresolved_gap_ids := []; approved_by := Some "u"; approved_at := Some "t";
     content :=
       ("rubric/management.yaml",
        json_text (PDict [("branches", PList (branch_val <$>
                             filter (λ b, b_grade b ≠ "E1") MANAGEMENT_BRANCHES));
                          ("additional_element_policy", PStr ADDITIONAL_REPORT_ONLY)]))
       :: content harbor_pack |}.

Abbreviation first_decision :=
  (evaluate (H := Checksum) rescore_tags engine_context harbor_pack).
Abbreviation rescore_with pack previous :=
  (create_rescore (H := Checksum) pack (Some rescore_tags) harbor_pack
     (with_revision engine_context 2) (Some previous)).

(** The first decision, the rescore into the same and into the stricter pack,
    and the refusal of tags that lack a fact. *)
Lemma rescore_runs :
  match first_decision with
  | Ok p =>
      match rescore_with harbor_pack p, rescore_with strict_pack p with
      | Ok (Rescored d), Ok (Rescored d') =>
          (d_evidence_grade d, d_evidence_grade d') = (Some "E3", Some "E3")
      | _, _ => False
      end
  | Raise _ => False
  end
  ∧ create_rescore (H := Checksum) harbor_pack (Some (engine_tags decided_facts None)) harbor_pack
      engine_context None
    = Ok (RetagRequired
        ["MISSING_FACT:compensation_link"; "MISSING_FACT:concrete_implementation_detail";
         "MISSING_FACT:external_verification"; "MISSING_FACT:has_compensation";
         "MISSING_FACT:responsible_organization"; "MISSING_FACT:willingness_only"]).
Proof. vm_compute. split; reflexivity. Qed.

Lemma rescore_reads_confirmed_witness :
  match first_decision with
  | Ok p => match rescore_with strict_pack p with
            | Ok (Rescored d) =>
                evaluate (H := Checksum) rescore_tags (with_revision engine_context 2) strict_pack
                = Ok d
            | _ => False end
  | Raise _ => False
  end.
Proof.
  destruct rescore_runs as [Hr _]. destruct first_decision as [p|e]; [|contradiction].
  destruct (rescore_with harbor_pack p) as [[|]|]; [contradiction| |contradiction].
  destruct (rescore_with strict_pack p) as [[|d']|] eqn:E; [contradiction| |contradiction].
  exact (proj1 (@rescore_reads_confirmed Checksum strict_pack rescore_tags harbor_pack
    (with_revision engine_context 2) (Some p) d' E)).
Defined.

Lemma rescore_same_pack_witness :
  match first_decision with
  | Ok p => match rescore_with harbor_pack p with
            | Ok (Rescored d) => d_evidence_grade d = d_evidence_grade p
            | _ => False end
  | Raise _ => False
  end.
Proof.
  destruct rescore_runs as [Hr _]. destruct first_decision as [p|e] eqn:Ep; [|contradiction].
  destruct (rescore_with harbor_pack p) as [[|d]|] eqn:E; [contradiction| |contradiction].
  rewrite (proj2 (@rescore_same_pack Checksum harbor_pack rescore_tags engine_context 2 p d Ep E)).
  reflexivity.
Defined.
