(* ===== verification/Citations.v ===== *)
(** * Citation verification and the guarded packet.

    [application/evidence/citations.py]: the exact check of one source
    reference against the canonical graph; [span_citations.py]: the same check
    over a graph with independently verified spans; the span readers of
    [retrieval.py]; and [packet_guard.py]: the packet a model may see and the
    capabilities that go with it.

    A graph is a [Snapshot]: the canonical graph, with the verified spans and
    their receipt when the trusted adapter attached them. NFC is an argument. *)
From S2P Require Import Prelude PyVal Values Digest RulePack Rules Geometry Graph Numeric Claims.

(* ------------------------------------------------------------------ *)
(** ** Comparison of quotes *)
(* ------------------------------------------------------------------ *)

(** [application/evidence/citations.py:17 _LIGATURES] *)
Definition LIGATURES : list (N * pystr) :=
  [(64256%N, "ff"); (64257%N, "fi"); (64258%N, "fl"); (64259%N, "ffi"); (64260%N, "ffl");
   (64262%N, "st")].

Definition ligature (c : N) : pystr :=
  match find (λ p, (p.1 =? c)%N) LIGATURES with Some p => p.2 | None => [c] end.

(** [s.split()]: the maximal runs without white space. *)
Fixpoint words_from (word : pystr) (s : pystr) : list pystr :=
  let close := match word with [] => [] | _ => [rev word] end in
  match s with
  | [] => close
  | c :: r => if is_space c then close ++ words_from [] r else words_from (c :: word) r
  end.

Definition with_state (r : SourceRef) (v : VerificationState) : SourceRef :=
  {| source_id := source_id r; document_version_id := document_version_id r;
     parse_manifest_id := parse_manifest_id r; page_num := page_num r;
     printed_page_label := printed_page_label r; ref_bbox := ref_bbox r;
     raw_text_sha256 := raw_text_sha256 r; quote := quote r; char_start := char_start r;
     char_end := char_end r; location_quality := location_quality r; verification_state := v |}.

Definition with_quote (r : SourceRef) (q : pystr) : SourceRef :=
  {| source_id := source_id r; document_version_id := document_version_id r;
     parse_manifest_id := parse_manifest_id r; page_num := page_num r;
     printed_page_label := printed_page_label r; ref_bbox := ref_bbox r;
     raw_text_sha256 := raw_text_sha256 r; quote := q; char_start := char_start r;
     char_end := char_end r; location_quality := location_quality r;
     verification_state := verification_state r |}.

Definition is_verified (r : SourceRef) : bool := bool_decide (verification_state r = Verified).

Section citations.
Context `{Digest} (nfc : pystr → pystr).

(** [application/evidence/citations.py:20-21 _normalized] *)
Definition normalized (text : pystr) : pystr :=
  str_join " " (words_from [] (nfc (concat (ligature <$> text)))).

(** [application/evidence/citations.py:45-54 verify_source_ref] *)
Definition names_snapshot (r : SourceRef) (g : CanonicalDocumentGraph) : bool :=
  str_distinct (kb_source_id <$> gr_blocks g)
  && (document_version_id r =s? gr_document_version_id g)
  && (parse_manifest_id r =s? gr_parse_manifest_id g)
  && bool_decide (location_quality r = Located) && bool_decide (is_Some (ref_bbox r)).

(** The candidate of a verified block.
    [application/evidence/citations.py:55-62 verify_source_ref] *)
Definition verified_candidate (g : CanonicalDocumentGraph) (id : pystr) : option CandidateBlock :=
  b ← block_by_id g id; if kb_quality b =s? "verified" then selected b else None.

(** Some batch of the snapshot is the source of the candidate.
    [application/evidence/citations.py:65-74 verify_source_ref] *)
Definition in_batch (g : CanonicalDocumentGraph) (c : CandidateBlock) : bool :=
  existsb (λ b, bool_decide (batch_identity b = graph_identity g)
                && (bt_parser_run_id b =s? ns_parser_run_id (cb_source c))
                && existsb (candidate_eqb c) (bt_blocks b)) (gr_candidates g).

(** [application/evidence/citations.py:75-80 verify_source_ref] *)
Definition places (r : SourceRef) (c : CandidateBlock) : bool :=
  (ns_document_version_id (cb_source c) =s? document_version_id r)
  && (ns_parse_manifest_id (cb_source c) =s? parse_manifest_id r)
  && (physical_page (cb_source c) =? page_num r)%Z
  && bool_decide (ns_label (cb_source c) = printed_page_label r)
  && bbox_eqb (cb_bbox c) (ref_bbox r).

(** [application/evidence/citations.py:81-89 verify_source_ref] *)
Definition compare_text (r : SourceRef) (raw : pystr) : result SourceRef :=
  let rejected := with_state r Rejected in
  digest ← text_sha256 raw;
  if negb (digest =s? raw_text_sha256 r)
     || negb ((0 <=? char_start r) && (char_start r <? char_end r) && (char_end r <=? py_len raw))%Z
  then Ok rejected
  else
    let raw_quote := slice raw (char_start r) (char_end r) in
    if negb (nonempty (normalized (quote r))) || negb (normalized (quote r) =s? normalized raw_quote)
    then Ok rejected
    else Ok (with_state (with_quote r raw_quote) Verified).

(** [application/evidence/citations.py:24-89 verify_source_ref] *)
Definition verify_source_ref (r : SourceRef) (g : CanonicalDocumentGraph) (tenant : pystr)
    : result SourceRef :=
  _ ← require_uuid (PStr tenant);
  _ ← require (tenant =s? gr_tenant_id g) DomainValidationError;
  match (if names_snapshot r g then verified_candidate g (source_id r) else None) with
  | None => Ok (with_state r Rejected)
  | Some c =>
      if in_batch g c && places r c then compare_text r (raw_text (cb_source c))
      else Ok (with_state r Rejected)
  end.

(* ------------------------------------------------------------------ *)
(** ** Verified spans *)
(* ------------------------------------------------------------------ *)

(** [application/evidence/span_citations.py:15-18 SpanVerifiedGraph] *)
Record Snapshot : Set := {
  sn_graph : CanonicalDocumentGraph;
  sn_spans : option (list SourceRef * pystr) }.

(** [application/evidence/span_citations.py:21-26 span_verified_graph] *)
Definition span_verified_graph (g : CanonicalDocumentGraph) (refs : list SourceRef)
    (receipt : pystr) : Snapshot :=
  {| sn_graph := g; sn_spans := Some (refs, receipt) |}.

Definition as_verified (b : CanonicalBlock) : CanonicalBlock :=
  {| kb_source_id := kb_source_id b; kb_kind := kb_kind b; kb_candidates := kb_candidates b;
     kb_families := kb_families b; kb_quality := "verified"; kb_winner := kb_winner b |}.

(** The view of the graph in which one block counts as verified.
    [application/evidence/span_citations.py:48-54 verify_source_ref] *)
Definition block_verified (g : CanonicalDocumentGraph) (id : pystr) : CanonicalDocumentGraph :=
  {| gr_tenant_id := gr_tenant_id g; gr_document_version_id := gr_document_version_id g;
     gr_parse_manifest_id := gr_parse_manifest_id g; gr_source_sha256 := gr_source_sha256 g;
     gr_blocks := (λ b, if kb_source_id b =s? id then as_verified b else b) <$> gr_blocks g;
     gr_edges := gr_edges g; gr_issues := gr_issues g; gr_candidates := gr_candidates g;
     gr_validation_profile := gr_validation_profile g |}.

(** [application/evidence/span_citations.py:39-44 verify_source_ref] *)
Definition span_covers (r span : SourceRef) : bool :=
  (source_id span =s? source_id r) && is_verified span && span_inside r span.

(** [application/evidence/span_citations.py:38-57 verify_source_ref] *)
Fixpoint try_spans (r : SourceRef) (g : CanonicalDocumentGraph) (tenant : pystr)
    (answer : SourceRef) (spans : list SourceRef) : result SourceRef :=
  match spans with
  | [] => Ok answer
  | span :: spans =>
      if span_covers r span then
        let view := block_verified g (source_id r) in
        checked ← verify_source_ref span view tenant;
        if is_verified checked then verify_source_ref r view tenant
        else try_spans r g tenant answer spans
      else try_spans r g tenant answer spans
  end.

(** [application/evidence/span_citations.py:29-57 verify_source_ref] *)
Definition verify_span_ref (r : SourceRef) (s : Snapshot) (tenant : pystr) : result SourceRef :=
  let g := sn_graph s in
  answer ← verify_source_ref r g tenant;
  match sn_spans s with
  | Some (spans, _) =>
      if is_verified answer then Ok answer
      else
        match find (λ b, kb_source_id b =s? source_id r) (gr_blocks g) with
        | Some b => if kb_quality b =s? "unverified" then try_spans r g tenant answer spans
                    else Ok answer
        | None => Ok answer
        end
  | None => Ok answer
  end.

(** One reference that is atomic prose of an unverified paragraph.
    [application/evidence/retrieval.py:33-41 attested_prose_ids] *)
Definition attested_prose (s : Snapshot) (r : SourceRef) : result bool :=
  match block_by_id (sn_graph s) (source_id r) with
  | Some b =>
      if (kb_kind b =s? "paragraph") && (kb_quality b =s? "unverified") then
        checked ← verify_span_ref r s (gr_tenant_id (sn_graph s)); Ok (is_verified checked)
      else Ok false
  | None => Ok false
  end.

(** [application/evidence/retrieval.py:29-41 attested_prose_ids] *)
Definition attested_prose_ids (s : Snapshot) (refs : list SourceRef) : result (list pystr) :=
  match sn_spans s with
  | None => Ok []
  | Some _ =>
      flags ← map_result (λ r, b ← attested_prose s r; Ok (source_id r, b)) refs;
      Ok (str_dedup (fst <$> List.filter snd flags))
  end.

(** [key=lambda s: (s.char_start, s.char_end)] *)
Definition span_order (a b : SourceRef) : bool :=
  lex_leb Z.eqb Z.leb Z.leb (char_start a, char_end a) (char_start b, char_end b).

(** [application/evidence/retrieval.py:58-70 independently_attested_span_refs] *)
Fixpoint admit_spans (s : Snapshot) (id tenant : pystr) (seen : list (Z * Z))
    (spans : list SourceRef) : result (list SourceRef) :=
  match spans with
  | [] => Ok []
  | span :: spans =>
      if negb (source_id span =s? id) || negb (is_verified span)
         || bool_decide ((char_start span, char_end span) ∈ seen)
      then admit_spans s id tenant seen spans
      else
        checked ← verify_span_ref span s tenant;
        if is_verified checked then
          rest ← admit_spans s id tenant ((char_start span, char_end span) :: seen) spans;
          Ok (checked :: rest)
        else admit_spans s id tenant seen spans
  end.

(** [application/evidence/retrieval.py:44-70 independently_attested_span_refs] *)
Definition independently_attested_span_refs (s : Snapshot) (id tenant : pystr)
    : result (list SourceRef) :=
  match sn_spans s with
  | None => Ok []
  | Some (spans, _) =>
      match find (λ b, kb_source_id b =s? id) (gr_blocks (sn_graph s)) with
      | Some b =>
          if (kb_kind b =s? "paragraph") && (kb_quality b =s? "unverified")
          then admit_spans s id tenant [] (isort span_order spans) else Ok []
      | None => Ok []
      end
  end.

Definition with_edges (g : CanonicalDocumentGraph) (edges : list CanonicalEdge)
    : CanonicalDocumentGraph :=
  {| gr_tenant_id := gr_tenant_id g; gr_document_version_id := gr_document_version_id g;
     gr_parse_manifest_id := gr_parse_manifest_id g; gr_source_sha256 := gr_source_sha256 g;
     gr_blocks := gr_blocks g; gr_edges := edges; gr_issues := gr_issues g;
     gr_candidates := gr_candidates g;
     gr_validation_profile := gr_validation_profile g |}.

(** [application/evidence/retrieval.py:73-89 evidence_issue_ids] *)
Definition evidence_issue_ids (s : Snapshot) (ids : list pystr) (refs : list SourceRef)
    : result (list pystr) :=
  atomic ← attested_prose_ids s refs;
  let g := sn_graph s in
  Ok (unresolved_source_issue_ids
        (with_edges g (List.filter (λ e, negb (ed_relation e =s? "table_parent")
                                         || negb (str_in (ed_source e) atomic)) (gr_edges g))) ids).

(* ------------------------------------------------------------------ *)
(** ** The guarded packet *)
(* ------------------------------------------------------------------ *)

(** [application/ports/models.py:11-17 ModelBinding] *)
Record ModelBinding : Set := { mb_binding_id : pystr; mb_role : pystr; mb_synthetic : bool }.

#[export] Instance model_binding_eq_dec : EqDecision ModelBinding.
Proof. solve_decision. Defined.

(** [application/evidence/packet_guard.py:22-35 PacketMetadata] *)
Record PacketMetadata : Set := {
  pm_tenant_id : pystr;
  pm_run_id : pystr;
  pm_claim_id : pystr;
  pm_source_ref : SourceRef;
  pm_model_binding : ModelBinding;
  pm_allowed_models : list ModelBinding;
  pm_system_prompt : pystr;
  pm_max_text_bytes : Z;
  pm_max_packet_bytes : Z;
  pm_allowed_tools : list pystr }.

(** [application/evidence/packet_guard.py:43-51 PacketMetadata.__post_init__] *)
Definition valid_binding (m : ModelBinding) : bool :=
  nonblank (mb_binding_id m) && str_in (mb_role m) ["extractor"; "tagger"; "vision"; "writer"].

(** [application/evidence/packet_guard.py:37-64 PacketMetadata.__post_init__] *)
Definition mk_PacketMetadata (m : PacketMetadata) : result PacketMetadata :=
  _ ← require_uuid (PStr (pm_tenant_id m));
  _ ← require_uuid (PStr (pm_run_id m));
  _ ← require_uuid (PStr (pm_claim_id m));
  _ ← require (forallb valid_binding (pm_allowed_models m ++ [pm_model_binding m]))
        DomainValidationError;
  _ ← require (bool_decide (pm_model_binding m ∈ pm_allowed_models m)) DomainValidationError;
  _ ← require (forallb (str_eqb "read_source") (pm_allowed_tools m)) DomainValidationError;
  _ ← require (nonblank (pm_system_prompt m)) DomainValidationError;
  _ ← require (0 <? pm_max_text_bytes m)%Z DomainValidationError;
  _ ← require (0 <? pm_max_packet_bytes m)%Z DomainValidationError;
  Ok m.

(** [replace(server_metadata, source_ref=source)] *)
Definition with_source_ref (m : PacketMetadata) (r : SourceRef) : PacketMetadata :=
  {| pm_tenant_id := pm_tenant_id m; pm_run_id := pm_run_id m; pm_claim_id := pm_claim_id m;
     pm_source_ref := r; pm_model_binding := pm_model_binding m;
     pm_allowed_models := pm_allowed_models m; pm_system_prompt := pm_system_prompt m;
     pm_max_text_bytes := pm_max_text_bytes m; pm_max_packet_bytes := pm_max_packet_bytes m;
     pm_allowed_tools := pm_allowed_tools m |}.

(** [application/evidence/packet_guard.py:67-71 GuardedPacket] *)
Record GuardedPacket : Set := {
  gp_user_json : pystr; gp_packet_sha256 : pystr; gp_metadata : PacketMetadata }.

(** [application/evidence/packet_guard.py:77-81 GuardedPacket.authorize_model] *)
Definition authorize_model (p : GuardedPacket) (binding : ModelBinding) : result ModelBinding :=
  _ ← require (bool_decide (binding = pm_model_binding (gp_metadata p))) DomainValidationError;
  Ok (pm_model_binding (gp_metadata p)).

(** [application/evidence/packet_guard.py:83-93 GuardedPacket.authorize_tool] *)
Definition authorize_tool (p : GuardedPacket) (name : pystr) (arguments : pydict)
    : result SourceRef :=
  let m := gp_metadata p in
  _ ← require ((name =s? "read_source") && str_in name (pm_allowed_tools m)
               && bool_decide (dict_keys arguments = ["source_id"])
               && eq_str (get_or_none arguments "source_id") (source_id (pm_source_ref m)))
        DomainValidationError;
  Ok (pm_source_ref m).

(** [application/evidence/packet_guard.py:95-97 GuardedPacket.authorize_url] *)
Definition authorize_url (p : GuardedPacket) (url : pystr) : result unit :=
  Raise DomainValidationError.

(** [asdict(binding)] and [asdict(metadata)]. *)
Definition binding_asdict (m : ModelBinding) : pyval :=
  PDict [("binding_id", PStr (mb_binding_id m)); ("role", PStr (mb_role m));
         ("synthetic", PBool (mb_synthetic m))].

Definition metadata_asdict (m : PacketMetadata) : pyval :=
  PDict [("tenant_id", PStr (pm_tenant_id m)); ("run_id", PStr (pm_run_id m));
         ("claim_id", PStr (pm_claim_id m)); ("source_ref", ref_asdict (pm_source_ref m));
         ("model_binding", binding_asdict (pm_model_binding m));
         ("allowed_models", PTuple (binding_asdict <$> pm_allowed_models m));
         ("system_prompt", PStr (pm_system_prompt m));
         ("max_text_bytes", PInt (pm_max_text_bytes m));
         ("max_packet_bytes", PInt (pm_max_packet_bytes m));
         ("allowed_tools", strs_tuple (pm_allowed_tools m))].

(** [application/evidence/packet_guard.py:129-138 guard_untrusted_packet] *)
Definition user_data (m : PacketMetadata) (g : CanonicalDocumentGraph) (tenant text : pystr)
    : pyval :=
  let source := pm_source_ref m in
  PDict [("schema_version", PStr "1"); ("tenant_id", PStr tenant); ("run_id", PStr (pm_run_id m));
         ("claim_id", PStr (pm_claim_id m));
         ("document_version_id", PStr (document_version_id source));
         ("parse_manifest_id", PStr (parse_manifest_id source));
         ("source_sha256", PStr (gr_source_sha256 g));
         ("untrusted_document_data",
          PDict [("text", PStr text); ("source_ref", ref_asdict source)])].

(** [except UnicodeError: raise DomainValidationError] *)
Definition utf8_size (text : pystr) : result Z :=
  bytes ← catch is_value_error (encode_utf8 text) (λ _, Raise DomainValidationError);
  Ok (py_len bytes).

(** [application/evidence/packet_guard.py:100-148 guard_untrusted_packet] *)
Definition guard_untrusted_packet (text : pystr) (m : PacketMetadata) (original : Snapshot)
    (tenant : pystr) : result GuardedPacket :=
  _ ← require (pm_tenant_id m =s? tenant) DomainValidationError;
  text_size ← utf8_size text;
  _ ← reject (pm_max_text_bytes m <? text_size)%Z DomainValidationError;
  source ← verify_span_ref (pm_source_ref m) original tenant;
  _ ← require (is_verified source && (text =s? quote source)) DomainValidationError;
  let m := with_source_ref m source in
  let user := user_data m (sn_graph original) tenant text in
  user_json ← canonical_json user;
  user_size ← utf8_size user_json;
  prompt_size ← utf8_size (pm_system_prompt m);
  _ ← reject (pm_max_packet_bytes m <? user_size + prompt_size)%Z DomainValidationError;
  digest ← canonical_hash (PDict [("user", user); ("server_metadata", metadata_asdict m)]);
  Ok {| gp_user_json := user_json; gp_packet_sha256 := digest; gp_metadata := m |}.
End citations.
