(* ===== verification/CitationsSpec.v ===== *)
(** * What citation verification promises.

    The verifier accepts what the pipeline cites and nothing else: a verified
    reference holds for the numeric check too, verifying twice changes
    nothing, a reference the graph itself makes of a verified block is
    accepted; a verified span never vouches for text around it; and a guarded
    packet carries exactly one verified quote with its server-side
    capabilities. *)
From S2P Require Import Prelude PyVal Values Digest RulePack Rules Geometry Graph GraphSpec Numeric NumericEvidence Claims ClaimsSpec Citations.

(* ------------------------------------------------------------------ *)
(** ** White space and quotes *)
(* ------------------------------------------------------------------ *)

Lemma words_from_blank s : nonblank s = false → words_from [] s = [].
Proof.
  unfold nonblank. induction s as [|c s IH]; [done|]. cbn. intros [Hc Hs]%orb_false_iff.
  apply negb_false_iff in Hc. rewrite Hc. by apply IH.
Qed.

Lemma ligature_blank c : nonblank [c] = false → nonblank (ligature c) = false.
Proof.
  unfold ligature. intros Hc. destruct (find _ LIGATURES) as [p|] eqn:E; [|done].
  apply find_some in E as [Hin Hp%N.eqb_eq]. subst c. exfalso. revert Hc. cbn in Hin.
  by repeat destruct Hin as [<-|Hin]; vm_compute.
Qed.

Lemma ligatures_blank s : nonblank s = false → nonblank (concat (ligature <$> s)) = false.
Proof.
  induction s as [|c s IH]; [done|]. intros Hs. change (c :: s) with ([c] ++ s) in Hs.
  rewrite nonblank_app in Hs. apply orb_false_iff in Hs as [Hc Hs]. rewrite fmap_cons. cbn [concat].
  rewrite nonblank_app, IH by done. by rewrite ligature_blank.
Qed.

(** The capabilities of a packet. *)
(** The capabilities of a packet. *)
Lemma authorize_model_iff p b b' :
  authorize_model p b = Ok b' ↔ b = pm_model_binding (gp_metadata p) ∧ b' = b.
Proof.
  unfold authorize_model. rewrite bind_Ok_inv. setoid_rewrite require_Ok.
  setoid_rewrite bool_decide_eq_true. split; [by intros (_ & -> & [= ->])|].
  intros [-> ->]. by exists tt.
Qed.

Lemma authorize_tool_iff p name arguments r :
  authorize_tool p name arguments = Ok r ↔
  name = "read_source" ∧ name ∈ pm_allowed_tools (gp_metadata p)
  ∧ dict_keys arguments = ["source_id"]
  ∧ dict_get "source_id" arguments = Some (PStr (source_id (pm_source_ref (gp_metadata p))))
  ∧ r = pm_source_ref (gp_metadata p).
Proof.
  assert (Hget : eq_str (get_or_none arguments "source_id") (source_id (pm_source_ref (gp_metadata p))) = true
    ↔ dict_get "source_id" arguments = Some (PStr (source_id (pm_source_ref (gp_metadata p))))).
  { unfold get_or_none. destruct (dict_get "source_id" arguments) as [v|]; cbn [default]; [|split; discriminate].
    destruct v; try (split; discriminate). cbn [id eq_str]. rewrite str_eqb_eq. split; congruence. }
  unfold authorize_tool. cbv zeta. split.
  - intros (? & Hr%require_Ok & [= <-])%bind_Ok_inv.
    rewrite !andb_true_iff, str_eqb_eq, str_in_iff, bool_decide_eq_true, Hget in Hr. tauto.
  - intros (H1 & H2 & H3 & H4 & ->). apply bind_Ok_inv. exists tt. split; [|done]. apply require_Ok.
    rewrite !andb_true_iff, str_eqb_eq, str_in_iff, bool_decide_eq_true, Hget. tauto.
Qed.

Section citations.
Context `{Digest} (nfc : pystr → pystr).
#[local] Notation normalized := (normalized nfc).
#[local] Notation verify_source_ref := (verify_source_ref nfc).
#[local] Notation verify_span_ref := (verify_span_ref nfc).

(** The documented behaviour of NFC the checks rely on: white space
    normalises to white space. *)
Definition keeps_blank : Prop := ∀ s, nonblank s = false → nonblank (nfc s) = false.

Lemma normalized_nonblank s : keeps_blank → nonempty (normalized s) = true → nonblank s = true.
Proof.
  intros Hnfc Hn. destruct (nonblank s) eqn:E; [done|]. unfold Citations.normalized in Hn.
  by rewrite words_from_blank in Hn by by apply Hnfc, ligatures_blank.
Qed.

(* ------------------------------------------------------------------ *)
(** ** One reference *)
(* ------------------------------------------------------------------ *)

(** The verifier's answer: rejected, or verified at the raw text. *)
Record accepted (r : SourceRef) (g : CanonicalDocumentGraph) (tenant : pystr) (r' : SourceRef)
    : Prop := {
  ac_tenant : tenant = gr_tenant_id g;
  ac_names : names_snapshot r g = true;
  ac_text : ∃ c, verified_candidate g (source_id r) = Some c ∧ in_batch g c = true
              ∧ places r c = true ∧ text_sha256 (raw_text (cb_source c)) = Ok (raw_text_sha256 r)
              ∧ (0 <= char_start r < char_end r)%Z
              ∧ (char_end r <= py_len (raw_text (cb_source c)))%Z
              ∧ quote r' = slice (raw_text (cb_source c)) (char_start r) (char_end r);
  ac_quote : normalized (quote r) = normalized (quote r') ∧ nonempty (normalized (quote r')) = true;
  ac_same : r' = with_state (with_quote r (quote r')) Verified }.

Lemma verify_cases r g tenant r' :
  verify_source_ref r g tenant = Ok r' → r' = with_state r Rejected ∨ accepted r g tenant r'.
Proof.
  unfold Citations.verify_source_ref. intros (? & _ & Hv)%bind_Ok_inv.
  apply bind_Ok_inv in Hv as (? & Ht%require_Ok%str_eqb_eq & Hv).
  destruct (names_snapshot r g) eqn:Hn; [|left; congruence].
  destruct (verified_candidate g (source_id r)) as [c|] eqn:Hc; [|left; congruence].
  destruct (in_batch g c && places r c) eqn:Hp; [|left; congruence].
  apply andb_true_iff in Hp as [Hb Hp]. unfold compare_text in Hv.
  apply bind_Ok_inv in Hv as (digest & Hd & Hv).
  destruct (_ || _) eqn:Eo in Hv; [left; congruence|]. apply orb_false_iff in Eo as [Hs Hr].
  destruct (_ || _) eqn:Eq in Hv; [left; congruence|]. apply orb_false_iff in Eq as [Hne Hq].
  right. rewrite negb_false_iff in *. rewrite !andb_true_iff in Hr. str_prop. subst digest.
  destruct Hr as [[H0 H1] H2]. apply Z.leb_le in H0, H2. apply Z.ltb_lt in H1.
  injection Hv as <-. rewrite Hq in Hne. split; [done|done| |split; [exact Hq|exact Hne]|done].
  exists c. split_and!; try done; lia.
Qed.

Lemma verify_accepted r g tenant r' :
  verify_source_ref r g tenant = Ok r' → is_verified r' = true → accepted r g tenant r'.
Proof. intros [->|Ha]%verify_cases Hs; [discriminate Hs|done]. Qed.

Lemma accepted_verifies r g tenant r' :
  uuid_shape tenant = true → accepted r g tenant r' → verify_source_ref r g tenant = Ok r'.
Proof.
  intros Hu [Ht Hn (c & Hc & Hb & Hp & Hd & H0 & H1 & Hq) [Hquote Hne] Hs].
  unfold Citations.verify_source_ref. rewrite require_uuid_str by done.
  cbn [mbind result_bind]. rewrite Ht, str_eqb_refl. cbn [require mbind result_bind].
  rewrite Hn, Hc, Hb, Hp. cbn [andb]. unfold compare_text. rewrite Hd. cbn [mbind result_bind].
  rewrite str_eqb_refl. cbn [negb orb].
  replace ((0 <=? char_start r) && (char_start r <? char_end r)
           && (char_end r <=? py_len (raw_text (cb_source c))))%Z with true by lia.
  cbn [negb orb]. rewrite <- Hq, Hquote, Hne, str_eqb_refl. cbn [negb orb]. by rewrite <- Hs.
Qed.

Lemma verify_uuid r g tenant r' :
  verify_source_ref r g tenant = Ok r' → uuid_shape tenant = true.
Proof.
  unfold Citations.verify_source_ref. intros (s & Hu & _)%bind_Ok_inv.
  by apply require_uuid_Ok in Hu as [[= <-] ?].
Qed.

(** C25: the verifier never vouches for text the snapshot does not hold. Its
    answer changes nothing but the state and the quote; a rejected answer
    keeps the quote; a verified one replaces it by the raw text at the cited
    offsets, which normalises to what was quoted, and passes the numeric
    check's own verification against the same snapshot. *)
Theorem citation_sound r g tenant r' :
  keeps_blank → verify_source_ref r g tenant = Ok r' →
  r' = with_state r Rejected
  ∨ r' = with_state (with_quote r (quote r')) Verified
    ∧ tenant = gr_tenant_id g
    ∧ normalized (quote r') = normalized (quote r)
    ∧ verified (Some r') g = Ok true
    ∧ pinned g r'.
Proof.
  intros Hnfc [->|Ha]%verify_cases; [by left|right].
  assert (Hv : verified (Some r') g = Ok true).
  { destruct Ha as [Ht Hn (c & Hc & Hb & Hp & Hd & H0 & H1 & Hq) [Hquote Hne] Hs].
    unfold names_snapshot in Hn. unfold places in Hp. unfold verified_candidate in Hc.
    rewrite !andb_true_iff in Hn, Hp. destruct Hn as [[[[Hn1 Hn2] Hn3] Hn4] Hn5].
    destruct Hp as [[[[Hp1 Hp2] Hp3] Hp4] Hp5].
    apply (normalized_nonblank _ Hnfc) in Hne. rewrite Hs in Hq, Hne |- *. set (q := quote r') in *.
    cbn [with_state with_quote quote] in Hq, Hne. unfold verified, ref_located, candidate_pinned.
    cbn [with_state with_quote quote source_id document_version_id parse_manifest_id page_num
         printed_page_label ref_bbox raw_text_sha256 char_start char_end location_quality verification_state].
    rewrite Hn1, Hn2, Hn3, Hn4, Hn5. cbn [bool_decide andb negb orb].
    rewrite bool_decide_true by done. cbn [andb negb orb]. rewrite Hc.
    unfold in_batch in Hb. rewrite Hb, Hp3, Hp4, Hp5. apply str_eqb_eq in Hp1, Hp2.
    rewrite Hp1, Hp2, Hn2, Hn3. cbn [andb negb]. rewrite Hd. cbn [mbind result_bind].
    rewrite str_eqb_refl, <- Hq, str_eqb_refl, Hne.
    by replace ((0 <=? char_start r) && (char_start r <? char_end r)
             && (char_end r <=? py_len (raw_text (cb_source c))))%Z with true by lia. }
  destruct Ha as [Ht _ _ [Hquote _] Hs]. split_and!; try done. by apply verified_pinned.
Qed.

(** Verification is idempotent: verifying its answer again, whatever the
    answer was, gives the same answer. *)
Theorem verification_idempotent r g tenant r' :
  verify_source_ref r g tenant = Ok r' → verify_source_ref r' g tenant = Ok r'.
Proof.
  intros Hv. pose proof (verify_uuid _ _ _ _ Hv) as Hu. destruct (verify_cases _ _ _ _ Hv) as [->|Ha].
  - transitivity (verify_source_ref r g tenant); [reflexivity|exact Hv].
  - apply accepted_verifies; [done|]. destruct Ha as [Ht Hn (c & Hc & Hb & Hp & Hd & H0 & H1 & Hq) [Hquote Hne] Hs].
    set (q := quote r') in *. rewrite Hs. split; [done|exact Hn| |split; [done|exact Hne]|done].
    exact (ex_intro _ c (conj Hc (conj Hb (conj Hp (conj Hd (conj H0 (conj H1 Hq))))))).
Qed.

(* ------------------------------------------------------------------ *)
(** ** Completeness *)
(* ------------------------------------------------------------------ *)

(** What a graph made of parser batches satisfies: distinct ids, and a chosen
    candidate delivered by a run of this very snapshot. *)
Record attested (g : CanonicalDocumentGraph) (b : CanonicalBlock) : Prop := {
  at_ids : NoDup (kb_source_id <$> gr_blocks g);
  at_block : b ∈ gr_blocks g;
  at_quality : kb_quality b = "verified";
  at_winner : ∀ w, kb_winner b = Some w → (0 <= w)%Z;
  at_candidate : ∀ c, c ∈ kb_candidates b →
    in_batch g c = true ∧ ns_document_version_id (cb_source c) = gr_document_version_id g
    ∧ ns_parse_manifest_id (cb_source c) = gr_parse_manifest_id g
    ∧ (0 <= ns_char_start (cb_source c))%Z
    ∧ (ns_char_end (cb_source c) <= py_len (raw_text (cb_source c)))%Z }.

Lemma float_self x y : PyFloat.ltb x y = true → PyFloat.eqb x x = true ∧ PyFloat.eqb y y = true.
Proof.
  unfold PyFloat.ltb, PyFloat.eqb. intros Hl. split.
  - destruct x as [[]|[]| |[] m e]; try done; unfold SFeqb, SFcompare;
      by rewrite Z.compare_refl, Pos.compare_cont_refl.
  - destruct y as [[]|[]| |[] m e]; try (by destruct x as [[]|[]| |[] ? ?]);
      unfold SFeqb, SFcompare; by rewrite Z.compare_refl, Pos.compare_cont_refl.
Qed.

Lemma canonical_bbox_self native g o :
  canonical_bbox_from_native native g = Ok o → bbox_eqb o o = true.
Proof.
  destruct o as [b|]; [|done]. intros (_ & Hx%float_self & Hy%float_self & _)%canonical_bbox_Ok.
  cbn. by rewrite (proj1 Hx), (proj2 Hx), (proj1 Hy), (proj2 Hy).
Qed.

Lemma normalized_slice q : keeps_blank → nonempty (normalized q) = true → q ≠ [].
Proof. intros Hnfc Hn ->. by apply (normalized_nonblank _ Hnfc) in Hn. Qed.

Lemma raw_span_bounds source nstart nend cs ce :
  (0 <= ns_char_start source)%Z ∧ (ns_char_end source <= py_len (raw_text source))%Z →
  raw_span nfc source nstart nend = Ok (cs, ce) →
  (0 <= cs)%Z ∧ (ce <= py_len (raw_text source))%Z.
Proof.
  intros Hs Hr. destruct nstart as [a|], nend as [e|]; try discriminate Hr.
  - apply raw_span_agrees in Hr as (? & ? & _). lia.
  - by injection Hr as <- <-.
Qed.

Lemma slice_nonempty (s : pystr) a e : slice s a e ≠ [] → (0 <= a)%Z → (a < e)%Z.
Proof.
  intros Hs Ha. destruct (decide (a < e)%Z) as [|Hn]; [done|]. exfalso. apply Hs. unfold slice.
  replace (Z.to_nat e - Z.to_nat a)%nat with 0%nat by lia. done.
Qed.

(** A reference the graph makes of a verified block verifies unchanged. *)
Lemma block_citation_verifies g b nstart nend r :
  keeps_blank → attested g b → uuid_shape (gr_tenant_id g) = true →
  block_source_ref nfc b nstart nend = Ok r →
  is_Some (ref_bbox r) → nonempty (normalized (quote r)) = true →
  verify_source_ref r g (gr_tenant_id g) = Ok (with_state r Verified).
Proof.
  intros Hnfc [Hids Hin Hqual Hwin Hcands] Hu Hr Hbox Hne.
  unfold block_source_ref in Hr. apply bind_Ok_inv in Hr as (w & Hw%of_option_Ok & Hr).
  apply bind_Ok_inv in Hr as (c & Hc%of_option_Ok & Hr).
  apply source_ref_fields in Hr as (Hid & Hv & Hm & Hp & Hl & Hh & Hspan & Hq & Hb & Hloc & _).
  assert (Hsel : selected b = Some c).
  { specialize (Hwin w Hw). unfold selected, winner_of in *. rewrite Hw. cbn.
    destruct (w <? 0)%Z eqn:E; [lia|]. by rewrite E in Hc. }
  assert (Hmem : c ∈ kb_candidates b).
  { unfold winner_of in Hc. destruct (_ <? 0)%Z in Hc; [done|]. by eapply list_elem_of_lookup_2. }
  destruct (Hcands c Hmem) as (Hbatch & Hdv & Hpm & Hoff).
  apply (raw_span_bounds _ _ _ _ _ Hoff) in Hspan as [H0 H1].
  assert (Hlt : (char_start r < char_end r)%Z).
  { apply (slice_nonempty (raw_text (cb_source c))); [|done]. rewrite <- Hq. by apply normalized_slice. }
  apply accepted_verifies; [done|]. split; [done| | |by split|by destruct r].
  - unfold names_snapshot. apply str_distinct_iff in Hids. rewrite Hids. cbn [andb].
    rewrite Hv, Hm, Hdv, Hpm, !str_eqb_refl. destruct (ref_bbox r) as [box|]; [|by destruct Hbox].
    cbn in Hloc. destruct (location_quality r); try discriminate Hloc. by rewrite !bool_decide_true by eauto.
  - exists c. split_and!; try done; try lia.
    + unfold verified_candidate. cbn in Hid. rewrite Hid.
      change (block_by_id g (kb_source_id b)) with (by_key kb_source_id (gr_blocks g) (kb_source_id b)).
      rewrite by_key_elem by done. cbn. by rewrite Hqual.
    + unfold places, cb_bbox. rewrite Hb, Hv, Hm, Hp, Hl, !str_eqb_refl, Z.eqb_refl.
      rewrite bool_decide_true by done. by rewrite (canonical_bbox_self _ _ _ Hb).
Qed.

(* ------------------------------------------------------------------ *)
(** ** Verified spans *)
(* ------------------------------------------------------------------ *)

Lemma try_spans_cases r g tenant answer spans r' :
  try_spans nfc r g tenant answer spans = Ok r' →
  r' = answer
  ∨ ∃ span span', span ∈ spans ∧ span_covers r span = true
      ∧ verify_source_ref span (block_verified g (source_id r)) tenant = Ok span'
      ∧ is_verified span' = true
      ∧ verify_source_ref r (block_verified g (source_id r)) tenant = Ok r'.
Proof.
  induction spans as [|span spans IH]; cbn [try_spans]; [intros [= ->]; by left|].
  destruct (span_covers r span) eqn:Hc.
  - intros (span' & Hspan & Hv)%bind_Ok_inv. destruct (is_verified span') eqn:Hs.
    + right. exists span, span'. split_and!; try done. left.
    + apply IH in Hv as [->|(x & y & ? & ?)]; [by left|]. right. exists x, y.
      split; [by right|done].
  - intros [->|(x & y & ? & ?)]%IH; [by left|]. right. exists x, y. split; [by right|done].
Qed.

(** The text of a nested span is part of the text of the outer one. *)
Lemma slice_nested (s : pystr) a b a' b' :
  (0 <= a)%Z → (a <= a')%Z → (a' <= b')%Z → (b' <= b)%Z → (b <= py_len s)%Z →
  slice s a b = slice s a a' ++ slice s a' b' ++ slice s b' b.
Proof.
  intros Ha Haa Hab Hbb Hb. unfold slice, py_len in *.
  rewrite <- (take_drop (Z.to_nat a' - Z.to_nat a) (take _ (drop (Z.to_nat a) s))) at 1.
  rewrite take_take, skipn_firstn_comm, drop_drop. f_equal; [f_equal; lia|].
  rewrite <- (take_drop (Z.to_nat b' - Z.to_nat a') (take _ _)) at 1.
  rewrite take_take, skipn_firstn_comm, drop_drop. f_equal; f_equal; [lia|f_equal; lia|lia|f_equal; lia].
Qed.

(** A verified span vouches for its own text only. A reference verified
    over a graph with attested spans is either verified by the graph alone, or
    its block is unverified and one stored, already verified span of the same
    block contains it, verifies itself against the same text, and its quote
    contains the reference's quote at the reference's offsets. No other part
    of an unverified paragraph is ever verified. *)
Theorem span_vouches_for_itself r s tenant r' :
  verify_span_ref r s tenant = Ok r' → is_verified r' = true →
  verify_source_ref r (sn_graph s) tenant = Ok r'
  ∨ ∃ spans receipt span span' pre post b,
      sn_spans s = Some (spans, receipt) ∧ span ∈ spans ∧ verification_state span = Verified
      ∧ b ∈ gr_blocks (sn_graph s) ∧ kb_source_id b = source_id r ∧ kb_quality b = "unverified"
      ∧ source_id span = source_id r
      ∧ (char_start span <= char_start r < char_end r)%Z ∧ (char_end r <= char_end span)%Z
      ∧ verify_source_ref span (block_verified (sn_graph s) (source_id r)) tenant = Ok span'
      ∧ quote span' = pre ++ quote r' ++ post
      ∧ py_len pre = (char_start r - char_start span)%Z.
Proof.
  unfold Citations.verify_span_ref. intros (answer & Ha & Hv)%bind_Ok_inv Hs.
  destruct (sn_spans s) as [[spans receipt]|] eqn:Es; [|left; congruence].
  destruct (is_verified answer) eqn:Ea; [left; congruence|].
  destruct (find _ (gr_blocks (sn_graph s))) as [b|] eqn:Eb; [|congruence].
  destruct (kb_quality b =s? "unverified") eqn:Eq; [|congruence].
  apply find_some in Eb as [Hin Hid%str_eqb_eq]. apply str_eqb_eq in Eq.
  apply try_spans_cases in Hv as [->|(span & span' & Hspan & Hc & Hv & Hsv & Hr)]; [congruence|].
  right. unfold span_covers, span_inside in Hc. rewrite !andb_true_iff in Hc.
  destruct Hc as [[Hsid Hst] [_ [[H1 H2] H3]]]. apply bool_decide_eq_true in Hst. str_prop.
  apply verify_accepted in Hr as [_ _ (c & Hc & _ & _ & _ & H4 & H5 & Hq) _ _]; [|done].
  apply verify_accepted in Hv as Hv'; [|done].
  destruct Hv' as [_ _ (c' & Hc' & _ & _ & _ & H4' & H5' & Hq') _ _].
  rewrite Hsid, Hc in Hc'. injection Hc' as <-.
  exists spans, receipt, span, span', (slice (raw_text (cb_source c)) (char_start span) (char_start r)),
    (slice (raw_text (cb_source c)) (char_end r) (char_end span)), b.
  split_and!; try done; try lia; [by apply list_elem_of_In| |].
  - rewrite Hq, Hq'. apply slice_nested; lia.
  - unfold slice, py_len in *. rewrite length_take, length_drop. lia.
Qed.

Lemma verify_fields r g tenant r' : verify_source_ref r g tenant = Ok r' →
  (char_start r', char_end r', source_id r') = (char_start r, char_end r, source_id r).
Proof. intros [->|[_ _ _ _ ->]]%verify_cases; done. Qed.

Lemma verify_span_fields r s tenant r' : verify_span_ref r s tenant = Ok r' →
  (char_start r', char_end r', source_id r') = (char_start r, char_end r, source_id r).
Proof.
  unfold Citations.verify_span_ref. intros (answer & Ha%verify_fields & Hv)%bind_Ok_inv.
  destruct (sn_spans s) as [[spans receipt]|]; [|congruence].
  destruct (is_verified answer); [congruence|]. destruct (find _ _) as [b|]; [|congruence].
  destruct (kb_quality b =s? "unverified"); [|congruence].
  apply try_spans_cases in Hv as [->|(? & ? & _ & _ & _ & _ & Hr%verify_fields)]; done.
Qed.

(** The spans a retrieval may admit: verified, of the one block, each from a
    stored span, none twice. *)
Lemma admitted_spans s id tenant seen spans refs :
  admit_spans nfc s id tenant seen spans = Ok refs →
  NoDup ((λ r, (char_start r, char_end r)) <$> refs)
  ∧ ∀ r, r ∈ refs → (char_start r, char_end r) ∉ seen ∧ is_verified r = true
      ∧ ∃ span, span ∈ spans ∧ source_id span = id ∧ verify_span_ref span s tenant = Ok r.
Proof.
  revert seen refs. induction spans as [|span spans IH]; intros seen refs; cbn [admit_spans].
  { intros [= <-]. split; [constructor|]. intros r Hr. by apply elem_of_nil in Hr. }
  assert (Hskip : ∀ refs, admit_spans nfc s id tenant seen spans = Ok refs →
    NoDup ((λ r, (char_start r, char_end r)) <$> refs)
    ∧ ∀ r, r ∈ refs → (char_start r, char_end r) ∉ seen ∧ is_verified r = true
        ∧ ∃ x, x ∈ span :: spans ∧ source_id x = id ∧ verify_span_ref x s tenant = Ok r).
  { intros refs' [Hd Hall]%IH. split; [done|]. intros r (? & ? & x & ? & ?)%Hall.
    split_and!; try done. exists x. split; [by right|done]. }
  destruct (_ || _) eqn:Eo; [apply Hskip|]. rewrite !orb_false_iff, !negb_false_iff in Eo.
  destruct Eo as [[Hid%str_eqb_eq _] Hseen%bool_decide_eq_false].
  intros (checked & Hv & Hr)%bind_Ok_inv. destruct (is_verified checked) eqn:Ec; [|by apply Hskip].
  apply bind_Ok_inv in Hr as (rest & Hrest & [= <-]). apply IH in Hrest as [Hd Hall].
  injection (verify_span_fields _ _ _ _ Hv) as Hcs Hce Hsid. split.
  - rewrite fmap_cons. constructor; [|done]. intros (r & E & Hr)%list_elem_of_fmap.
    apply Hall in Hr as (Hn & _). apply Hn. rewrite <- E, Hcs, Hce. left.
  - intros r [->|Hr]%elem_of_cons.
    + rewrite Hcs, Hce. split_and!; [done|done|]. exists span. split; [left|done].
    + apply Hall in Hr as (Hn & Hver & x & ? & ?). split_and!; [|done|exists x; split; [by right|done]].
      intros Hin. apply Hn. by right.
Qed.

(* ------------------------------------------------------------------ *)
(** ** Claims and packets *)
(* ------------------------------------------------------------------ *)

(** C24: every claim a discovery cites can be verified. When the blocks a claim
    cites are verified blocks delivered by runs of this snapshot, and its
    references have a place and a readable quote, the verifier accepts each of
    them unchanged: quote, offsets, page and hash are those the claim
    recorded. *)
Theorem discovered_claims_verify uuid5 isalnum digit g sc p extract d c r :
  keeps_blank → uuid_shape (gr_tenant_id g) = true →
  discover_atomic_claims nfc uuid5 isalnum digit g sc p extract = Ok d →
  c ∈ di_claims d → r ∈ cl_source_refs c →
  (∀ b, b ∈ gr_blocks g → kb_source_id b = source_id r → attested g b) →
  is_Some (ref_bbox r) → nonempty (normalized (quote r)) = true →
  verify_source_ref r g (gr_tenant_id g) = Ok (with_state r Verified).
Proof.
  intros Hnfc Hu Hd Hc Hr Hblocks Hbox Hne.
  destruct (claim_found_by _ _ _ _ _ _ _ _ _ _ Hd Hc) as (joined & b & f & Hj & Hb & _ & _ & _ & Ho).
  assert (Hmade : ∃ q na ne, q ∈ gr_blocks g ∧ block_source_ref nfc q na ne = Ok r).
  { destruct Ho as [(a & e & ref & more & Href & Hm & Hrefs & _) _ _ _]. rewrite Hrefs in Hr.
    apply elem_of_cons in Hr as [->|Hr]; [by exists b, (Some a), (Some e)|].
    destruct (fragment_refs_from _ _ _ _ _ _ Hm r Hr) as (q & na & ne & Hq & Href').
    exists q, na, ne. split; [by eapply continuations_blocks|done]. }
  destruct Hmade as (q & na & ne & Hq & Href).
  assert (Hid : source_id r = kb_source_id q)
    by (by apply block_source_ref_Ok in Href as (? & ? & _ & _ & _ & ? & _)).
  by apply (block_citation_verifies g q na ne r Hnfc (Hblocks q Hq (eq_sym Hid)) Hu Href Hbox Hne).
Qed.

(** A guarded packet carries one verified quote and nothing else of the
    document. The text is exactly the quote of the reference the verifier
    returned for the requested one; text and packet are within their byte
    limits; the packet's metadata is the server's with that reference; the
    hash covers the user data and the whole server policy. Its capabilities
    are the server's: no URL, no other model, and a tool call returns that
    one reference, when the server allowed the tool and the call names
    exactly its source. *)
Theorem guarded_packet_exact text m s tenant p :
  guard_untrusted_packet nfc text m s tenant = Ok p →
  let source := pm_source_ref (gp_metadata p) in
  gp_metadata p = with_source_ref m source ∧ tenant = pm_tenant_id m
  ∧ verify_span_ref (pm_source_ref m) s tenant = Ok source
  ∧ is_verified source = true ∧ quote source = text
  ∧ (∃ n u v, utf8_size text = Ok n ∧ (n <= pm_max_text_bytes m)%Z
       ∧ utf8_size (gp_user_json p) = Ok u ∧ utf8_size (pm_system_prompt m) = Ok v
       ∧ (u + v <= pm_max_packet_bytes m)%Z)
  ∧ canonical_json (user_data (gp_metadata p) (sn_graph s) tenant text) = Ok (gp_user_json p)
  ∧ canonical_hash (PDict [("user", user_data (gp_metadata p) (sn_graph s) tenant text);
                           ("server_metadata", metadata_asdict (gp_metadata p))])
    = Ok (gp_packet_sha256 p)
  ∧ (∀ url, authorize_url p url = Raise DomainValidationError)
  ∧ (∀ b b', authorize_model p b = Ok b' ↔ b = pm_model_binding m ∧ b' = b)
  ∧ (∀ name arguments r, authorize_tool p name arguments = Ok r ↔
       name = "read_source" ∧ name ∈ pm_allowed_tools m ∧ dict_keys arguments = ["source_id"]
       ∧ dict_get "source_id" arguments = Some (PStr (source_id source)) ∧ r = source).
Proof.
  unfold guard_untrusted_packet. intros (? & Ht%require_Ok%str_eqb_eq & Hp)%bind_Ok_inv.
  apply bind_Ok_inv in Hp as (n & Hn & Hp). apply bind_Ok_inv in Hp as (? & Hmax%reject_Ok & Hp).
  apply bind_Ok_inv in Hp as (source & Hs & Hp). apply bind_Ok_inv in Hp as (? & Hv%require_Ok & Hp).
  cbv zeta in Hp. apply bind_Ok_inv in Hp as (json & Hj & Hp).
  apply bind_Ok_inv in Hp as (u & Hu & Hp). apply bind_Ok_inv in Hp as (v & Hpr & Hp).
  apply bind_Ok_inv in Hp as (? & Hsize%reject_Ok & Hp).
  apply bind_Ok_inv in Hp as (digest & Hd & [= <-]).
  apply andb_true_iff in Hv as [Hv Hq%str_eqb_eq]. cbn [gp_metadata gp_user_json gp_packet_sha256].
  cbv zeta. change (pm_source_ref (with_source_ref m source)) with source.
  apply Z.ltb_ge in Hmax, Hsize.
  split_and!; [done|done|done|done|done|by exists n, u, v|done|done|done| |].
  - apply authorize_model_iff.
  - apply authorize_tool_iff.
Qed.
End citations.

(* ------------------------------------------------------------------ *)
(** ** One paragraph *)
(* ------------------------------------------------------------------ *)

Section sample.
#[local] Existing Instance Checksum.

Definition cited_candidate : CandidateBlock :=
  sample_block run_a "n1" "paragraph" "ﬁrst CO2 change -50 %" 10 10.

(** One paragraph of one run, of a given quality. *)
Definition cited_graph (quality : pystr) : CanonicalDocumentGraph :=
  {| gr_tenant_id := tenant_uuid; gr_document_version_id := version_id;
     gr_parse_manifest_id := manifest_id;
     gr_source_sha256 := "0123456789abcdef0123456789abcdef0123456789abcdef0123456789abcdef";
     gr_blocks := [{| kb_source_id := run_b; kb_kind := "paragraph"; kb_candidates := [cited_candidate];
                      kb_families := ["native"]; kb_quality := quality; kb_winner := Some 0%Z |}];
     gr_edges := []; gr_issues := [];
     gr_candidates := [sample_batch run_a "native" [cited_candidate] []];
     gr_validation_profile := "fast_preview" |}.

(** The span [a, b] of the paragraph with a quote. *)
Definition cited_ref (a b : Z) (q : pystr) (v : VerificationState) : SourceRef :=
  {| source_id := run_b; document_version_id := version_id; parse_manifest_id := manifest_id;
     page_num := 1; printed_page_label := None; ref_bbox := cb_bbox cited_candidate;
     raw_text_sha256 := match text_sha256 (raw_text (cb_source cited_candidate)) with
                        | Ok h => h | Raise _ => [] end;
     quote := q; char_start := a; char_end := b; location_quality := Located;
     verification_state := v |}.

Definition span_snapshot : Snapshot :=
  span_verified_graph (cited_graph "unverified") [cited_ref 0 15 "ﬁrst CO2 change" Verified]
    "0123456789abcdef0123456789abcdef0123456789abcdef0123456789abcdef".

Definition answer (m : result SourceRef) : option (pystr * VerificationState) :=
  match m with Ok r => Some (quote r, verification_state r) | Raise _ => None end.

Abbreviation check_first := (verify_source_ref nfc_sample (cited_ref 0 5 "first " Candidate)
                               (cited_graph "verified") tenant_uuid).
Abbreviation check_change := (verify_span_ref nfc_sample (cited_ref 5 15 "CO2 change" Candidate)
                                span_snapshot tenant_uuid).

(** The ligature is read as two letters and the white space collapses; a wrong
    quote is rejected; a span vouches for its inside and not beyond. *)
Lemma citation_runs :
  answer check_first = Some (("ﬁrst " : pystr), Verified)
  ∧ answer (verify_source_ref nfc_sample (cited_ref 0 5 "fast" Candidate) (cited_graph "verified") tenant_uuid)
    = Some (("fast" : pystr), Rejected)
  ∧ answer check_change = Some (("CO2 change" : pystr), Verified)
  ∧ answer (verify_span_ref nfc_sample (cited_ref 5 21 "CO2 change -50 %" Candidate) span_snapshot
              tenant_uuid) = Some (("CO2 change -50 %" : pystr), Rejected).
Proof. vm_compute. repeat split; reflexivity. Qed.

Lemma nfc_sample_blank : keeps_blank nfc_sample.
Proof.
  assert (Hid : ∀ s, nonblank s = false → nfc_sample s = s).
  { induction s as [|c s IH]; [done|]. intros Hb. change (c :: s) with ([c] ++ s) in Hb.
    rewrite nonblank_app in Hb. apply orb_false_iff in Hb as [Hc Hs].
    destruct (decide (c = 101%N)) as [->|Hne]; [by vm_compute in Hc|].
    cbn [nfc_sample]. repeat case_match; by rewrite ?IH. }
  intros s Hs. by rewrite Hid.
Qed.

Lemma citation_sound_witness : ∃ r', check_first = Ok r' ∧ pinned (cited_graph "verified") r'.
Proof.
  destruct citation_runs as [Hr _]. destruct check_first as [r'|e] eqn:E; [|discriminate Hr].
  exists r'. split; [exact eq_refl|]. injection Hr as _ Hv.
  destruct (@citation_sound Checksum nfc_sample (cited_ref 0 5 "first " Candidate) (cited_graph "verified")
              tenant_uuid r' nfc_sample_blank E) as [Hs|(_ & _ & _ & _ & Hp)]; [|exact Hp].
  rewrite Hs in Hv. discriminate Hv.
Defined.

Lemma verification_idempotent_witness :
  ∃ r', check_first = Ok r'
    ∧ verify_source_ref nfc_sample r' (cited_graph "verified") tenant_uuid = Ok r'.
Proof.
  destruct citation_runs as [Hr _]. destruct check_first as [r'|e] eqn:E; [|discriminate Hr].
  exists r'. split; [exact eq_refl|].
  exact (@verification_idempotent Checksum nfc_sample (cited_ref 0 5 "first " Candidate)
           (cited_graph "verified") tenant_uuid r' E).
Defined.

Lemma span_vouches_for_itself_witness :
  ∃ r' span' pre post, check_change = Ok r' ∧ quote span' = pre ++ quote r' ++ post
    ∧ py_len pre = 5%Z.
Proof.
  destruct citation_runs as (_ & _ & Hr & _). destruct check_change as [r'|e] eqn:E; [|discriminate Hr].
  injection Hr as _ Hv.
  assert (Hver : is_verified r' = true) by (unfold is_verified; rewrite Hv; reflexivity).
  destruct (@span_vouches_for_itself Checksum nfc_sample (cited_ref 5 15 "CO2 change" Candidate)
              span_snapshot tenant_uuid r' E Hver)
    as [Hplain|(spans & receipt & span & span' & pre & post & b & Hs & Hin & _ & _ & _ & _ & _ & _ & _ & _ & Hq & Hl)].
  - assert (Hrej : match verify_source_ref nfc_sample (cited_ref 5 15 "CO2 change" Candidate)
                           (cited_graph "unverified") tenant_uuid with
                   | Ok r => is_verified r | Raise _ => true end = false) by (vm_compute; reflexivity).
    change (sn_graph span_snapshot) with (cited_graph "unverified") in Hplain.
    rewrite Hplain, Hver in Hrej. discriminate Hrej.
  - exists r', span', pre, post. split; [exact eq_refl|]. split; [exact Hq|]. rewrite Hl.
    injection Hs as <- _. apply list_elem_of_singleton in Hin as ->. reflexivity.
Defined.

Definition cited_reply : pyval :=
  PDict [("spans", PList [PDict [("char_start", PInt 5); ("char_end", PInt 15); ("quote", PStr "CO2 change");
     ("kind", PStr "claim"); ("reason", PNone); ("topic_ids", PList [PStr "climate"])]])].

Abbreviation cited_discovery :=
  (discover_atomic_claims nfc_sample sample_uuid5 ascii_alnum ascii_digit (cited_graph "verified")
     sample_scope sample_profile (λ _, Replied cited_reply)).

Lemma cited_discovery_ok :
  match cited_discovery with
  | Ok d => match di_claims d with
            | [c] => match cl_source_refs c with
                     | [r] => bool_decide (is_Some (ref_bbox r)) && (quote r =s? "CO2 change")
                              && nonempty (normalized nfc_sample (quote r))
                     | _ => false end
            | _ => false end
  | Raise _ => false
  end = true.
Proof. vm_compute. reflexivity. Qed.

Lemma cited_attested b : b ∈ gr_blocks (cited_graph "verified") → attested (cited_graph "verified") b.
Proof.
  intros Hb. apply list_elem_of_singleton in Hb as ->. split.
  - apply NoDup_singleton.
  - left.
  - reflexivity.
  - intros w [= <-]. reflexivity.
  - intros c Hc. apply list_elem_of_singleton in Hc as ->.
    split_and!; try reflexivity; vm_compute; congruence.
Qed.

Lemma discovered_claims_verify_witness :
  ∃ r, quote r = "CO2 change"
    ∧ verify_source_ref nfc_sample r (cited_graph "verified") tenant_uuid = Ok (with_state r Verified).
Proof.
  pose proof cited_discovery_ok as Hf. destruct cited_discovery as [d|e] eqn:E; [|discriminate Hf].
  destruct (di_claims d) as [|c [|? ?]] eqn:Ec; [discriminate Hf| |discriminate Hf].
  destruct (cl_source_refs c) as [|r [|? ?]] eqn:Er; [discriminate Hf| |discriminate Hf].
  rewrite !andb_true_iff in Hf. destruct Hf as [[Hbox%bool_decide_eq_true Hq%str_eqb_eq] Hn].
  exists r. split; [exact Hq|].
  refine (@discovered_claims_verify Checksum nfc_sample sample_uuid5 ascii_alnum ascii_digit
            (cited_graph "verified") sample_scope sample_profile (λ _, Replied cited_reply) d c r
            nfc_sample_blank _ E _ _ _ Hbox Hn).
  - reflexivity.
  - rewrite Ec. left.
  - rewrite Er. left.
  - intros b Hb _. exact (cited_attested b Hb).
Defined.

Definition guarded_metadata : PacketMetadata :=
  {| pm_tenant_id := tenant_uuid; pm_run_id := run_a; pm_claim_id := run_b;
     pm_source_ref := cited_ref 5 15 "CO2 change" Candidate;
     pm_model_binding := {| mb_binding_id := "m"; mb_role := "tagger"; mb_synthetic := true |};
     pm_allowed_models := [{| mb_binding_id := "m"; mb_role := "tagger"; mb_synthetic := true |}];
     pm_system_prompt := "Tag."; pm_max_text_bytes := 100; pm_max_packet_bytes := 2000;
     pm_allowed_tools := ["read_source"] |}.

Abbreviation guarded := (guard_untrusted_packet nfc_sample "CO2 change" guarded_metadata span_snapshot tenant_uuid).

Lemma guarded_ok : is_ok guarded = true.
Proof. vm_compute. reflexivity. Qed.

Lemma guarded_packet_exact_witness :
  ∃ p, guarded = Ok p ∧ quote (pm_source_ref (gp_metadata p)) = "CO2 change"
    ∧ authorize_url p "https://example.org" = Raise DomainValidationError.
Proof.
  pose proof guarded_ok as Hf. destruct guarded as [p|e] eqn:E; [|discriminate Hf].
  destruct (@guarded_packet_exact Checksum nfc_sample "CO2 change" guarded_metadata span_snapshot tenant_uuid p E)
    as (_ & _ & _ & _ & Hq & _ & _ & _ & Hurl & _).
  exists p. split; [exact eq_refl|]. split; [exact Hq|exact (Hurl _)].
Defined.
End sample.
