(* ===== verification/AuditChain.v ===== *)
(** * The audit hash chain and its store.

    [domain/audit.py]: immutable events, the optimistic HEAD, the pure step
    [new_audit_event] and the verifier [verify_audit_chain];
    [adapters/local/audit_store.py]: the SQLite tables as lists of rows, the
    append transaction with its compare-and-swap on the HEAD, and the
    verified read.  A transaction that raises is rolled back, so an
    operation returns the new tables only on success. *)
From S2P Require Import Prelude PyVal JsonCodec Values PyDate Digest RulePack Rules.

(* ------------------------------------------------------------------ *)
(** ** Values *)
(* ------------------------------------------------------------------ *)

(** [domain/audit.py:22-25 _required_text] *)
Definition required_str (s : pystr) : result unit := require (nonempty s) DomainValidationError.

(** [domain/audit.py:28-31 _optional_hash] *)
Definition optional_hash (o : option pystr) : result unit :=
  match o with Some s => _ ← check_sha256 s; Ok tt | None => Ok tt end.

(** [domain/audit.py:34-43 _utc_timestamp] *)
Definition utc_timestamp (s : pystr) : result unit := require (utc_text s) DomainValidationError.

(** [domain/audit.py:46-51 AuditHead] *)
Record AuditHead : Set := {
  ah_tenant_id : pystr;
  ah_run_id : pystr;
  ah_sequence : Z;
  ah_event_hash : option pystr }.

#[export] Instance audit_head_eq_dec : EqDecision AuditHead.
Proof. solve_decision. Defined.

(** [domain/audit.py:53-60 AuditHead.__post_init__] *)
Definition mk_AuditHead (h : AuditHead) : result AuditHead :=
  _ ← check_uuid (ah_tenant_id h);
  _ ← check_uuid (ah_run_id h);
  _ ← reject (ah_sequence h <? 0)%Z DomainValidationError;
  _ ← optional_hash (ah_event_hash h);
  _ ← require (Bool.eqb (ah_sequence h =? 0)%Z (bool_decide (ah_event_hash h = None)))
        DomainValidationError;
  Ok h.

(** [domain/audit.py:62-64 AuditHead.empty] *)
Definition empty_head (tenant_id run_id : pystr) : result AuditHead :=
  mk_AuditHead {| ah_tenant_id := tenant_id; ah_run_id := run_id; ah_sequence := 0;
                  ah_event_hash := None |}.

(** [domain/audit.py:67-77 ChangeSet] *)
Record ChangeSet : Set := {
  cs_tenant_id : pystr;
  cs_run_id : pystr;
  cs_actor_sub : pystr;
  cs_action : pystr;
  cs_target_id : pystr;
  cs_before_hash : option pystr;
  cs_after_hash : pystr;
  cs_revision : Z;
  cs_reason : option pystr }.

Definition optional_str (o : option pystr) : result unit :=
  match o with Some s => required_str s | None => Ok tt end.

(** [domain/audit.py:79-90 ChangeSet.__post_init__] *)
Definition mk_ChangeSet (c : ChangeSet) : result ChangeSet :=
  _ ← check_uuid (cs_tenant_id c);
  _ ← check_uuid (cs_run_id c);
  _ ← check_uuid (cs_target_id c);
  _ ← required_str (cs_actor_sub c);
  _ ← required_str (cs_action c);
  _ ← optional_hash (cs_before_hash c);
  _ ← check_sha256 (cs_after_hash c);
  _ ← reject (cs_revision c <? 1)%Z DomainValidationError;
  _ ← optional_str (cs_reason c);
  Ok c.

(** [domain/audit.py:93-108 AuditEvent] *)
Record AuditEvent : Set := {
  ae_tenant_id : pystr;
  ae_run_id : pystr;
  ae_event_id : pystr;
  ae_sequence : Z;
  ae_actor_sub : pystr;
  ae_action : pystr;
  ae_target_id : pystr;
  ae_before_hash : option pystr;
  ae_after_hash : pystr;
  ae_revision : Z;
  ae_previous_event_hash : option pystr;
  ae_event_hash : pystr;
  ae_timestamp : pystr;
  ae_reason : option pystr }.

(** [domain/audit.py:110-127 AuditEvent.__post_init__] *)
Definition mk_AuditEvent (e : AuditEvent) : result AuditEvent :=
  _ ← check_uuid (ae_tenant_id e);
  _ ← check_uuid (ae_run_id e);
  _ ← check_uuid (ae_event_id e);
  _ ← reject (ae_sequence e <? 1)%Z DomainValidationError;
  _ ← required_str (ae_actor_sub e);
  _ ← required_str (ae_action e);
  _ ← check_uuid (ae_target_id e);
  _ ← optional_hash (ae_before_hash e);
  _ ← check_sha256 (ae_after_hash e);
  _ ← reject (ae_revision e <? 1)%Z DomainValidationError;
  _ ← optional_hash (ae_previous_event_hash e);
  _ ← check_sha256 (ae_event_hash e);
  _ ← utc_timestamp (ae_timestamp e);
  _ ← optional_str (ae_reason e);
  Ok e.

(** The hashed fields of an event.
    [domain/audit.py:130-148 _EVENT_HASH_FIELDS] *)
Definition event_payload (e : AuditEvent) : pyval :=
  PDict [("tenant_id", PStr (ae_tenant_id e)); ("run_id", PStr (ae_run_id e));
         ("event_id", PStr (ae_event_id e)); ("sequence", PInt (ae_sequence e));
         ("actor_sub", PStr (ae_actor_sub e)); ("action", PStr (ae_action e));
         ("target_id", PStr (ae_target_id e)); ("before_hash", opt_val (ae_before_hash e));
         ("after_hash", PStr (ae_after_hash e)); ("revision", PInt (ae_revision e));
         ("previous_event_hash", opt_val (ae_previous_event_hash e));
         ("timestamp", PStr (ae_timestamp e)); ("reason", opt_val (ae_reason e))].

Definition set_event_hash (e : AuditEvent) (h : pystr) : AuditEvent :=
  {| ae_tenant_id := ae_tenant_id e; ae_run_id := ae_run_id e; ae_event_id := ae_event_id e;
     ae_sequence := ae_sequence e; ae_actor_sub := ae_actor_sub e; ae_action := ae_action e;
     ae_target_id := ae_target_id e; ae_before_hash := ae_before_hash e;
     ae_after_hash := ae_after_hash e; ae_revision := ae_revision e;
     ae_previous_event_hash := ae_previous_event_hash e; ae_event_hash := h;
     ae_timestamp := ae_timestamp e; ae_reason := ae_reason e |}.

(* ------------------------------------------------------------------ *)
(** ** The chain *)
(* ------------------------------------------------------------------ *)
Section chain.
Context `{Digest}.

(** [domain/audit.py:147-148 _hash_event] *)
Definition hash_event (e : AuditEvent) : result pystr := canonical_hash (event_payload e).

(** [domain/audit.py:163-178 new_audit_event] *)
Definition candidate_event (c : ChangeSet) (h : AuditHead) (event_id timestamp : pystr)
    : AuditEvent :=
  {| ae_tenant_id := cs_tenant_id c; ae_run_id := cs_run_id c; ae_event_id := event_id;
     ae_sequence := ah_sequence h + 1; ae_actor_sub := cs_actor_sub c;
     ae_action := cs_action c; ae_target_id := cs_target_id c;
     ae_before_hash := cs_before_hash c; ae_after_hash := cs_after_hash c;
     ae_revision := cs_revision c; ae_previous_event_hash := ah_event_hash h;
     ae_event_hash := replicate 64 48%N; ae_timestamp := timestamp;
     ae_reason := cs_reason c |}.

(** [domain/audit.py:151-180 new_audit_event] *)
Definition new_audit_event (c : ChangeSet) (h : AuditHead) (event_id timestamp : pystr)
    : result (AuditEvent * AuditHead) :=
  _ ← require ((cs_tenant_id c =s? ah_tenant_id h) && (cs_run_id c =s? ah_run_id h))
        AuditConflict;
  candidate ← mk_AuditEvent (candidate_event c h event_id timestamp);
  digest ← hash_event candidate;
  event ← mk_AuditEvent (set_event_hash candidate digest);
  head ← mk_AuditHead {| ah_tenant_id := cs_tenant_id c; ah_run_id := cs_run_id c;
                         ah_sequence := ae_sequence event;
                         ah_event_hash := Some (ae_event_hash event) |};
  Ok (event, head).

(** One round of the verifier's loop: the new previous hash.
    [domain/audit.py:188-195 verify_audit_chain] *)
Definition verify_event (head : AuditHead) (sequence : Z) (previous : option pystr)
    (e : AuditEvent) : result (option pystr) :=
  _ ← require ((ae_tenant_id e =s? ah_tenant_id head) && (ae_run_id e =s? ah_run_id head))
        AuditIntegrityError;
  _ ← require ((ae_sequence e =? sequence)%Z
               && bool_decide (ae_previous_event_hash e = previous)) AuditIntegrityError;
  digest ← hash_event e;
  _ ← require (ae_event_hash e =s? digest) AuditIntegrityError;
  Ok (Some (ae_event_hash e)).

(** The loop of the verifier: the last event hash.
    [domain/audit.py:187-195 verify_audit_chain] *)
Fixpoint verify_events (head : AuditHead) (sequence : Z) (previous : option pystr)
    (events : list AuditEvent) : result (option pystr) :=
  match events with
  | [] => Ok previous
  | e :: r => previous ← verify_event head sequence previous e;
              verify_events head (sequence + 1) previous r
  end.

(** [domain/audit.py:183-197 verify_audit_chain] *)
Definition verify_audit_chain (events : list AuditEvent) (head : AuditHead) : result unit :=
  previous ← verify_events head 1 None events;
  require ((ah_sequence head =? py_len events)%Z
           && bool_decide (ah_event_hash head = previous)) AuditIntegrityError.

(* ------------------------------------------------------------------ *)
(** ** The store *)
(* ------------------------------------------------------------------ *)

(** A row of [audit_heads]. *)
Record head_row : Set := {
  hr_tenant_id : pystr; hr_run_id : pystr; hr_sequence : Z; hr_event_hash : pystr;
  hr_updated_at : pystr }.

(** The two tables. [adapters/local/audit_store.py:29-43 initialize_audit_schema] *)
Record audit_db : Set := {
  audit_heads : list head_row;
  audit_events : list AuditEvent }.

Definition head_key (tenant_id run_id : pystr) (r : head_row) : bool :=
  (hr_tenant_id r =s? tenant_id) && (hr_run_id r =s? run_id).

Definition event_key (tenant_id run_id : pystr) (e : AuditEvent) : bool :=
  (ae_tenant_id e =s? tenant_id) && (ae_run_id e =s? run_id).

(** [adapters/local/audit_store.py:52-62 read_audit_head] *)
Definition read_audit_head (db : audit_db) (tenant_id run_id : pystr) : result AuditHead :=
  match find (head_key tenant_id run_id) (audit_heads db) with
  | None => empty_head tenant_id run_id
  | Some r => mk_AuditHead {| ah_tenant_id := tenant_id; ah_run_id := run_id;
                              ah_sequence := hr_sequence r;
                              ah_event_hash := Some (hr_event_hash r) |}
  end.

(** [INSERT INTO audit_events]: the CHECKs, the primary key and the unique
    event id; an [IntegrityError] becomes [AuditConflict].
    [adapters/local/audit_store.py:80-98 append_audit_transaction] *)
Definition insert_event (db : audit_db) (e : AuditEvent) : result audit_db :=
  let stream := filter (λ x, event_key (ae_tenant_id e) (ae_run_id e) x = true)
                  (audit_events db) in
  _ ← require ((0 <? ae_sequence e)%Z && (0 <? ae_revision e)%Z) AuditConflict;
  _ ← reject (existsb (λ x, (ae_sequence x =? ae_sequence e)%Z
                            || (ae_event_id x =s? ae_event_id e)) stream) AuditConflict;
  Ok {| audit_heads := audit_heads db; audit_events := audit_events db ++ [e] |}.

(** [adapters/local/audit_store.py:99-125 append_audit_transaction] *)
Definition advance_head (db : audit_db) (expected : AuditHead) (e : AuditEvent)
    : result audit_db :=
  let row := {| hr_tenant_id := ae_tenant_id e; hr_run_id := ae_run_id e;
                hr_sequence := ae_sequence e; hr_event_hash := ae_event_hash e;
                hr_updated_at := ae_timestamp e |} in
  if (ah_sequence expected =? 0)%Z then
    _ ← reject (existsb (head_key (ae_tenant_id e) (ae_run_id e)) (audit_heads db)) AuditConflict;
    Ok {| audit_heads := audit_heads db ++ [row]; audit_events := audit_events db |}
  else
    let hit r := head_key (ae_tenant_id e) (ae_run_id e) r
                 && (hr_sequence r =? ah_sequence expected)%Z
                 && bool_decide (ah_event_hash expected = Some (hr_event_hash r)) in
    _ ← require (Nat.eqb (length (List.filter hit (audit_heads db))) 1) AuditConflict;
    Ok {| audit_heads := (λ r, if hit r then row else r) <$> audit_heads db;
          audit_events := audit_events db |}.

(** [adapters/local/audit_store.py:65-128 append_audit_transaction] *)
Definition append_audit (db : audit_db) (c : ChangeSet) (expected : AuditHead)
    (event_id timestamp : pystr) : result (audit_db * AuditEvent * AuditHead) :=
  current ← read_audit_head db (cs_tenant_id c) (cs_run_id c);
  _ ← require (bool_decide (current = expected)) AuditConflict;
  '(event, head) ← new_audit_event c expected event_id timestamp;
  db1 ← insert_event db event;
  db2 ← advance_head db1 expected event;
  Ok (db2, event, head).

(** [except DomainValidationError: raise AuditIntegrityError] *)
Definition domain_error (e : exn) : bool :=
  match e with DomainValidationError | AuditConflict | AuditIntegrityError => true | _ => false end.

(** [adapters/local/audit_store.py:174-179 LocalSQLiteAuditStore.get_head] *)
Definition get_head (db : audit_db) (tenant_id run_id : pystr) : result AuditHead :=
  catch domain_error (read_audit_head db tenant_id run_id) (λ _, Raise AuditIntegrityError).

(** [ORDER BY sequence] over the rows of one stream.
    [adapters/local/audit_store.py:184-190 LocalSQLiteAuditStore.events] *)
Definition stream_of (db : audit_db) (tenant_id run_id : pystr) : list AuditEvent :=
  isort (λ a b, (ae_sequence a <=? ae_sequence b)%Z)
    (filter (λ e, event_key tenant_id run_id e = true) (audit_events db)).

(** [adapters/local/audit_store.py:181-196 LocalSQLiteAuditStore.events] *)
Definition store_events (db : audit_db) (tenant_id run_id : pystr) : result (list AuditEvent) :=
  head ← read_audit_head db tenant_id run_id;
  catch domain_error
    (events ← map_result mk_AuditEvent (stream_of db tenant_id run_id);
     _ ← verify_audit_chain events head;
     Ok events)
    (λ _, Raise AuditIntegrityError).
End chain.

Definition empty_db : audit_db := {| audit_heads := []; audit_events := [] |}.

(* ------------------------------------------------------------------ *)
(** ** Lemmas on the verifier *)
(* ------------------------------------------------------------------ *)
Section chain_lemmas.
Context `{Digest}.

Lemma mk_AuditEvent_id e e' : mk_AuditEvent e = Ok e' → e' = e.
Proof. unfold mk_AuditEvent. intros He. open_run He. by injection He. Qed.

Lemma mk_AuditHead_id h h' : mk_AuditHead h = Ok h' → h' = h.
Proof. unfold mk_AuditHead. intros Hh. open_run Hh. by injection Hh. Qed.

Lemma mk_AuditHead_wf h h' :
  mk_AuditHead h = Ok h' →
  (0 <= ah_sequence h)%Z ∧ (ah_sequence h = 0%Z ↔ ah_event_hash h = None)
  ∧ uuid_shape (ah_tenant_id h) = true ∧ uuid_shape (ah_run_id h) = true
  ∧ ∀ x, ah_event_hash h = Some x → is_sha256 x = true.
Proof.
  unfold mk_AuditHead. intros Hh. open_run Hh.
  repeat match goal with
  | Hc : check_uuid _ = Ok _ |- _ => apply check_uuid_Ok in Hc
  | Hc : reject _ _ = Ok _ |- _ => apply reject_Ok, Z.ltb_ge in Hc
  | Hc : require _ _ = Ok _ |- _ => apply require_Ok, eqb_prop in Hc
  end.
  assert (Hz : ah_sequence h = 0%Z ↔ ah_event_hash h = None).
  { destruct (Z.eqb_spec (ah_sequence h) 0) as [Hz|Hz];
      destruct (bool_decide_reflect (ah_event_hash h = None)) as [Hn|Hn]; try done. }
  split_and!; try done; try tauto. intros y Hy.
  match goal with Hc : optional_hash _ = Ok _ |- _ =>
    unfold optional_hash in Hc; rewrite Hy in Hc; open_run Hc end.
  match goal with Hc : check_sha256 _ = Ok _ |- _ => by apply check_sha256_Ok in Hc end.
Qed.

Lemma verify_event_Ok h s p e x :
  verify_event h s p e = Ok x ↔
  ae_tenant_id e = ah_tenant_id h ∧ ae_run_id e = ah_run_id h ∧ ae_sequence e = s
  ∧ ae_previous_event_hash e = p ∧ hash_event e = Ok (ae_event_hash e)
  ∧ x = Some (ae_event_hash e).
Proof.
  unfold verify_event. split.
  - intros ([] & Hk & Hr)%bind_Ok_inv. apply bind_Ok_inv in Hr as ([] & Hs & Hr).
    apply bind_Ok_inv in Hr as (d & Hd & Hr). apply bind_Ok_inv in Hr as ([] & He & [= <-]).
    apply require_Ok in Hk, Hs, He. apply andb_true_iff in Hk as [Hk1 Hk2], Hs as [Hs1 Hs2].
    str_prop. apply bool_decide_eq_true in Hs2. subst d. tauto.
  - intros (-> & -> & -> & -> & Hh & ->).
    rewrite !str_eqb_refl, Z.eqb_refl, bool_decide_eq_true_2 by done. cbn.
    rewrite Hh. cbn. by rewrite str_eqb_refl.
Qed.

(** The verdict on a longer stream, from its prefix and its last event. *)
Lemma verify_events_snoc h s p es e :
  verify_events h s p (es ++ [e])
  = (q ← verify_events h s p es; verify_event h (s + py_len es) q e).
Proof.
  revert s p. induction es as [|e0 es IH]; intros s p; cbn [app verify_events].
  - unfold py_len. cbn [length mbind result_bind]. rewrite Z.add_0_r.
    by destruct (verify_event h s p e).
  - destruct (verify_event h s p e0) as [q|]; [|done]. cbn [mbind result_bind].
    rewrite IH. unfold py_len. cbn [length]. rewrite Nat2Z.inj_succ.
    by replace (s + 1 + Z.of_nat (length es))%Z with (s + Z.succ (Z.of_nat (length es)))%Z by lia.
Qed.

Lemma hash_event_set e h : hash_event (set_event_hash e h) = hash_event e.
Proof. done. Qed.

(** What the next event is. *)
Lemma new_audit_event_spec c h i ts e h' :
  new_audit_event c h i ts = Ok (e, h') →
  cs_tenant_id c = ah_tenant_id h ∧ cs_run_id c = ah_run_id h
  ∧ ae_tenant_id e = cs_tenant_id c ∧ ae_run_id e = cs_run_id c
  ∧ ae_sequence e = (ah_sequence h + 1)%Z ∧ ae_previous_event_hash e = ah_event_hash h
  ∧ hash_event e = Ok (ae_event_hash e) ∧ mk_AuditEvent e = Ok e
  ∧ h' = {| ah_tenant_id := cs_tenant_id c; ah_run_id := cs_run_id c;
            ah_sequence := ae_sequence e; ah_event_hash := Some (ae_event_hash e) |}
  ∧ mk_AuditHead h' = Ok h'.
Proof.
  unfold new_audit_event. intros Hn. apply bind_Ok_inv in Hn as ([] & Hk & Hn).
  apply require_Ok, andb_true_iff in Hk as [Hk1%str_eqb_eq Hk2%str_eqb_eq].
  apply bind_Ok_inv in Hn as (cand & Hc & Hn). pose proof (mk_AuditEvent_id _ _ Hc) as ->.
  apply bind_Ok_inv in Hn as (d & Hd & Hn). apply bind_Ok_inv in Hn as (ev & He & Hn).
  pose proof (mk_AuditEvent_id _ _ He) as ->.
  apply bind_Ok_inv in Hn as (hd & Hh & [= <- <-]). pose proof (mk_AuditHead_id _ _ Hh) as ->.
  split_and!; try done. 
Qed.
End chain_lemmas.

(* ------------------------------------------------------------------ *)
(** ** The store invariant *)
(* ------------------------------------------------------------------ *)
Section store.
Context `{Digest}.

(** The rows of one stream in insertion order. *)
Definition rows_of (db : audit_db) (t r : pystr) : list AuditEvent :=
  filter (λ e, event_key t r e = true) (audit_events db).

Definition stream_head (t r : pystr) : AuditHead :=
  {| ah_tenant_id := t; ah_run_id := r; ah_sequence := 0; ah_event_hash := None |}.

(** The rows of a stream are a verified chain that ends in its HEAD row. *)
Definition stream_ok (db : audit_db) (t r : pystr) : Prop :=
  Forall (λ e, mk_AuditEvent e = Ok e) (rows_of db t r)
  ∧ match find (head_key t r) (audit_heads db) with
    | None => rows_of db t r = []
    | Some row =>
        hr_sequence row = py_len (rows_of db t r) ∧ (0 < hr_sequence row)%Z
        ∧ verify_events (stream_head t r) 1 None (rows_of db t r) = Ok (Some (hr_event_hash row))
    end.

Definition row_key (r : head_row) : pystr * pystr := (hr_tenant_id r, hr_run_id r).

Definition db_ok (db : audit_db) : Prop :=
  NoDup (row_key <$> audit_heads db) ∧ ∀ t r, stream_ok db t r.

Lemma head_key_iff t r row : head_key t r row = true ↔ row_key row = (t, r).
Proof.
  unfold head_key, row_key. rewrite andb_true_iff, !str_eqb_eq. split; [by intros [-> ->]|by intros [= -> ->]].
Qed.

Lemma event_key_iff t r e : event_key t r e = true ↔ ae_tenant_id e = t ∧ ae_run_id e = r.
Proof. unfold event_key. by rewrite andb_true_iff, !str_eqb_eq. Qed.

(** The verifier reads only the stream's identity from the HEAD. *)
Lemma verify_events_head h h' s p es :
  ah_tenant_id h = ah_tenant_id h' → ah_run_id h = ah_run_id h' →
  verify_events h s p es = verify_events h' s p es.
Proof.
  intros Ht Hr. revert s p. induction es as [|e es IH]; intros s p; [done|].
  cbn [verify_events]. unfold verify_event. rewrite Ht, Hr.
  destruct (_ ← require _ _; _) as [q|]; [apply IH|done].
Qed.

Lemma rows_of_app db hs e t r :
  rows_of {| audit_heads := hs; audit_events := audit_events db ++ [e] |} t r
  = if event_key t r e then rows_of db t r ++ [e] else rows_of db t r.
Proof.
  unfold rows_of. cbn [audit_events]. rewrite filter_app.
  destruct (event_key t r e) eqn:E.
  - by rewrite filter_cons_True by exact E.
  - rewrite filter_cons_False by congruence. by rewrite app_nil_r.
Qed.

Lemma find_app {A} (p : A → bool) l k :
  find p (l ++ k) = match find p l with Some x => Some x | None => find p k end.
Proof. induction l as [|x l IH]; [done|]. cbn. by destruct (p x). Qed.

Lemma find_none_key t r rows :
  existsb (head_key t r) rows = false → find (head_key t r) rows = None.
Proof.
  induction rows as [|x rows IH]; [done|]. cbn. by destruct (head_key t r x).
Qed.

(** A read HEAD is the stored row, or the empty HEAD of an unknown stream. *)
Lemma read_audit_head_Ok db t r h :
  read_audit_head db t r = Ok h →
  match find (head_key t r) (audit_heads db) with
  | None => h = stream_head t r
  | Some row => h = {| ah_tenant_id := t; ah_run_id := r; ah_sequence := hr_sequence row;
                       ah_event_hash := Some (hr_event_hash row) |}
  end.
Proof.
  unfold read_audit_head. destruct (find _ _); [by intros ?%mk_AuditHead_id|].
  unfold empty_head. by intros ?%mk_AuditHead_id.
Qed.

(** The CAS update rewrites exactly the row of its stream. *)
Lemma find_update t r t' r' hit row (rows : list head_row) :
  NoDup (row_key <$> rows) → row_key row = (t, r) →
  (∀ x, hit x = true → head_key t r x = true) →
  find (head_key t' r') ((λ x, if hit x then row else x) <$> rows)
  = match find (head_key t' r') rows with
    | Some x => Some (if hit x then row else x)
    | None => None
    end.
Proof.
  intros Hnd Hrow Hhit. induction rows as [|x rows IH]; [done|].
  cbn in Hnd. apply NoDup_cons in Hnd as [Hx Hnd]. rewrite fmap_cons. cbn [find].
  assert (Hk : head_key t' r' (if hit x then row else x) = head_key t' r' x).
  { destruct (hit x) eqn:Eh; [|done]. apply Hhit, head_key_iff in Eh. unfold head_key.
    unfold row_key in Hrow, Eh. by injection Hrow as -> ->; injection Eh as -> ->. }
  rewrite Hk. destruct (head_key t' r' x); [done|]. by apply IH.
Qed.

Lemma update_keys t r hit row (rows : list head_row) :
  row_key row = (t, r) → (∀ x, hit x = true → head_key t r x = true) →
  row_key <$> ((λ x, if hit x then row else x) <$> rows) = row_key <$> rows.
Proof.
  intros Hrow Hhit. rewrite <- list_fmap_compose. apply list_fmap_ext. intros i x _. cbn.
  destruct (hit x) eqn:Eh; [|done]. apply Hhit, head_key_iff in Eh. congruence.
Qed.

(** What the append transaction does to the HEAD table. *)
Lemma advance_head_spec db h e db' :
  NoDup (row_key <$> audit_heads db) →
  advance_head db h e = Ok db' →
  (match find (head_key (ae_tenant_id e) (ae_run_id e)) (audit_heads db) with
   | None => ah_sequence h = 0%Z
   | Some row => ah_sequence h = hr_sequence row ∧ ah_event_hash h = Some (hr_event_hash row)
                 ∧ ah_sequence h ≠ 0%Z
   end) →
  audit_events db' = audit_events db
  ∧ NoDup (row_key <$> audit_heads db')
  ∧ ∀ t r, find (head_key t r) (audit_heads db')
           = if event_key t r e
             then Some {| hr_tenant_id := ae_tenant_id e; hr_run_id := ae_run_id e;
                          hr_sequence := ae_sequence e; hr_event_hash := ae_event_hash e;
                          hr_updated_at := ae_timestamp e |}
             else find (head_key t r) (audit_heads db).
Proof.
  intros Hnd Ha Hh. unfold advance_head in Ha.
  set (row := {| hr_tenant_id := ae_tenant_id e |}) in *.
  assert (Hkey : ∀ t r, head_key t r row = event_key t r e) by done.
  destruct (find (head_key (ae_tenant_id e) (ae_run_id e)) (audit_heads db)) as [old|] eqn:Ef.
  - destruct Hh as (Hs & Hev & Hz). rewrite (proj2 (Z.eqb_neq _ _) Hz) in Ha.
    apply bind_Ok_inv in Ha as ([] & _ & [= <-]). cbn [audit_heads audit_events].
    set (hit := λ x, head_key (ae_tenant_id e) (ae_run_id e) x
                     && (hr_sequence x =? ah_sequence h)%Z
                     && bool_decide (ah_event_hash h = Some (hr_event_hash x))).
    assert (Hhit : ∀ x, hit x = true → head_key (ae_tenant_id e) (ae_run_id e) x = true).
    { by intros x [[Hx _]%andb_true_iff _]%andb_true_iff. }
    split_and!; [done|by rewrite (update_keys (ae_tenant_id e) (ae_run_id e) hit)|].
    intros t r. rewrite (find_update (ae_tenant_id e) (ae_run_id e) t r hit) by done.
    destruct (event_key t r e) eqn:Ek.
    + apply event_key_iff in Ek as [<- <-]. rewrite Ef. apply find_some in Ef as [_ Ef].
      unfold hit. rewrite Ef, Hs, Z.eqb_refl, bool_decide_eq_true_2 by done. done.
    + destruct (find (head_key t r) (audit_heads db)) as [x|] eqn:Ex; [|done].
      destruct (hit x) eqn:Eh; [|done]. apply Hhit, head_key_iff in Eh.
      apply find_some in Ex as [_ Ex%head_key_iff]. rewrite Eh in Ex. injection Ex as <- <-.
      by rewrite (proj2 (event_key_iff _ _ e) (conj eq_refl eq_refl)) in Ek.
  - rewrite (proj2 (Z.eqb_eq _ _) Hh) in Ha. apply bind_Ok_inv in Ha as ([] & Hnk & [= <-]).
    cbn [audit_heads audit_events]. split_and!; [done| |].
    + rewrite fmap_app. apply NoDup_app. split_and!; [done| |apply NoDup_singleton].
      intros k (x & -> & Hx)%list_elem_of_fmap Hin%list_elem_of_singleton.
      apply reject_Ok in Hnk. rewrite (proj2 (existsb_exists _ _)) in Hnk; [done|].
      exists x. split; [by apply list_elem_of_In|]. by apply head_key_iff.
    + intros t r. rewrite find_app. cbn [find]. rewrite Hkey.
      destruct (event_key t r e) eqn:Ek.
      * apply event_key_iff in Ek as [<- <-]. by rewrite Ef.
      * by destruct (find (head_key t r) (audit_heads db)).
Qed.

Lemma insert_event_spec db e db' :
  insert_event db e = Ok db' →
  audit_heads db' = audit_heads db ∧ audit_events db' = audit_events db ++ [e].
Proof.
  unfold insert_event. intros Hi. apply bind_Ok_inv in Hi as ([] & _ & Hi).
  by apply bind_Ok_inv in Hi as ([] & _ & [= <-]).
Qed.

(** The CAS guard of [append_audit] in terms of the stored row. *)
Lemma append_audit_inv db c h i ts db' e h' :
  append_audit db c h i ts = Ok (db', e, h') →
  ∃ db1, read_audit_head db (cs_tenant_id c) (cs_run_id c) = Ok h
    ∧ new_audit_event c h i ts = Ok (e, h')
    ∧ insert_event db e = Ok db1 ∧ advance_head db1 h e = Ok db'.
Proof.
  unfold append_audit. intros Ha. apply bind_Ok_inv in Ha as (cur & Hc & Ha).
  apply bind_Ok_inv in Ha as ([] & Heq & Ha). apply require_Ok, bool_decide_eq_true in Heq as ->.
  apply bind_Ok_inv in Ha as ([ev hd] & Hn & Ha). apply bind_Ok_inv in Ha as (db1 & H1 & Ha).
  apply bind_Ok_inv in Ha as (db2 & H2 & [= <- <- <-]). eauto 10.
Qed.

(** One append: the invariant is kept, the stream grows by the event. *)
Lemma append_step db c h i ts db' e h' :
  db_ok db → append_audit db c h i ts = Ok (db', e, h') →
  db_ok db'
  ∧ (∀ t r, rows_of db' t r = if event_key t r e then rows_of db t r ++ [e] else rows_of db t r)
  ∧ ae_tenant_id e = cs_tenant_id c ∧ ae_run_id e = cs_run_id c
  ∧ read_audit_head db' (cs_tenant_id c) (cs_run_id c) = Ok h'.
Proof.
  intros [Hnd Hok] Ha. destruct (append_audit_inv _ _ _ _ _ _ _ _ Ha) as (db1 & Hr & Hn & Hi & Hd).
  destruct (new_audit_event_spec _ _ _ _ _ _ Hn)
    as (Ht & Hrun & Het & Her & Hseq & Hprev & Hhash & Hmk & -> & Hh').
  destruct (insert_event_spec _ _ _ Hi) as [Hh1 He1].
  apply read_audit_head_Ok in Hr. rewrite <- Het, <- Her in Hr.
  destruct (advance_head_spec db1 h e db') as (Hev & Hnd' & Hfind).
  { by rewrite Hh1. } { done. }
  { rewrite Hh1. destruct (Hok (ae_tenant_id e) (ae_run_id e)) as [_ Hs].
    destruct (find _ _); subst h; cbn; [|done]. split_and!; [done|done|lia]. }
  assert (Hrows : ∀ t r, rows_of db' t r
            = if event_key t r e then rows_of db t r ++ [e] else rows_of db t r).
  { intros t r. rewrite <- (rows_of_app db (audit_heads db')). unfold rows_of. cbn.
    by rewrite Hev, He1. }
  split_and!; try done.
  - split; [done|]. intros t r. unfold stream_ok. rewrite Hrows, Hfind, Hh1.
    destruct (event_key t r e) eqn:Ek; [|apply Hok].
    apply event_key_iff in Ek as [<- <-].
    destruct (Hok (ae_tenant_id e) (ae_run_id e)) as [Hall Hs]. split.
    + apply Forall_app. split; [done|]. by constructor.
    + cbn [hr_sequence hr_event_hash].
      assert (Hlen : py_len (rows_of db (ae_tenant_id e) (ae_run_id e) ++ [e])
                = (py_len (rows_of db (ae_tenant_id e) (ae_run_id e)) + 1)%Z).
      { unfold py_len. rewrite length_app. cbn. lia. }
      rewrite Hlen, verify_events_snoc.
      destruct (find _ (audit_heads db)) as [row|]; subst h; cbn in *.
      * destruct Hs as (Hs1 & Hs2 & Hv). rewrite Hv. cbn [mbind result_bind].
        split_and!; [lia|lia|]. apply verify_event_Ok. split_and!; try done. lia.
      * rewrite Hs in *. cbn [verify_events mbind result_bind]. unfold py_len in *. cbn in *.
        split_and!; [lia|lia|]. by apply verify_event_Ok.
  - unfold read_audit_head. rewrite Hfind, (proj2 (event_key_iff _ _ _)) by done. cbn.
    by rewrite <- Het, <- Her in *.
Qed.

(** Tables reachable from the empty store by successful appends. *)
Inductive reachable : audit_db → Prop :=
| reach_empty : reachable empty_db
| reach_append db c h i ts db' e h' :
    reachable db → append_audit db c h i ts = Ok (db', e, h') → reachable db'.

Lemma reachable_ok db : reachable db → db_ok db.
Proof.
  induction 1 as [|db c h i ts db' e h' Hr IH Ha].
  - split; [apply NoDup_nil_2|]. intros t r. split; [constructor|done].
  - by apply (append_step _ _ _ _ _ _ _ _ IH Ha).
Qed.

(** Insertion order is sequence order. *)
Lemma verified_sorted h s p es x :
  verify_events h s p es = Ok x →
  StronglySorted (λ a b, (ae_sequence a <=? ae_sequence b)%Z = true) es
  ∧ Forall (λ e, (s <= ae_sequence e)%Z) es.
Proof.
  revert s p. induction es as [|e es IH]; intros s p; [repeat constructor|].
  cbn [verify_events]. intros (q & Hq & Hv)%bind_Ok_inv.
  apply verify_event_Ok in Hq as (_ & _ & Hs & _). destruct (IH _ _ Hv) as [IH1 IH2].
  split; constructor; try done; try lia.
  - eapply Forall_impl; [exact IH2|]. intros e' He'. cbn in *. apply Z.leb_le. lia.
  - eapply Forall_impl; [exact IH2|]. intros e' He'. cbn in *. lia.
Qed.

Lemma map_result_id {A} (f : A → result A) l :
  Forall (λ x, f x = Ok x) l → map_result f l = Ok l.
Proof. induction 1 as [|x l Hx _ IH]; [done|]. cbn. by rewrite Hx, IH. Qed.

(** In every store reachable by appends the read of a stream succeeds and
    returns exactly the appended events of that stream in order: the stored
    chain always verifies against its HEAD. *)
Theorem store_events_reachable db t r :
  reachable db → uuid_shape t = true → uuid_shape r = true →
  store_events db t r = Ok (rows_of db t r).
Proof.
  intros Hr Ht Hrun. apply reachable_ok in Hr as [_ Hok]. destruct (Hok t r) as [Hall Hs].
  unfold store_events, read_audit_head, empty_head, stream_of. fold (rows_of db t r).
  assert (Hu : ∀ x, uuid_shape x = true → check_uuid x = Ok x) by exact require_uuid_str.
  destruct (find (head_key t r) (audit_heads db)) as [row|].
  - destruct Hs as (Hs1 & Hs2 & Hv).
    assert (Hlast : is_sha256 (hr_event_hash row) = true).
    { destruct (rows_of db t r) as [|e0 l0] eqn:El using rev_ind;
        [unfold py_len in Hs1; cbn in Hs1; lia|].
      rewrite verify_events_snoc in Hv. apply bind_Ok_inv in Hv as (q & _ & Hv).
      apply verify_event_Ok in Hv as (_ & _ & _ & _ & Hh & [= ->]).
      unfold hash_event, canonical_hash in Hh. apply bind_Ok_inv in Hh as (txt & _ & [= <-]).
      apply sha256_hex_shape. }
    unfold mk_AuditHead. cbn [ah_tenant_id ah_run_id ah_sequence ah_event_hash optional_hash].
    rewrite !Hu by done. unfold check_sha256. rewrite require_sha256_str by done.
    cbn [mbind result_bind]. rewrite (proj2 (Z.ltb_ge _ _)) by lia.
    rewrite (proj2 (Z.eqb_neq _ _)) by lia. rewrite bool_decide_eq_false_2 by done.
    cbn [reject require Bool.eqb mbind result_bind].
    rewrite isort_id by apply (verified_sorted _ _ _ _ _ Hv). rewrite map_result_id by done.
    cbn [mbind result_bind]. unfold verify_audit_chain. cbn [ah_tenant_id].
    rewrite (verify_events_head _ (stream_head t r)) by done. rewrite Hv. cbn.
    by rewrite Hs1, Z.eqb_refl, bool_decide_eq_true_2 by done.
  - rewrite Hs. unfold mk_AuditHead. cbn [ah_tenant_id ah_run_id ah_sequence ah_event_hash].
    by rewrite !Hu by done.
Qed.

(** An append keeps the store a set of verified chains: the appended
    stream grows by exactly the returned event, which carries the next
    sequence number and the previous hash; every other stream is untouched;
    and a second append against the HEAD just consumed is refused, so of two
    racing writers one loses. *)
Theorem append_audit_sound db c h i ts db' e h' :
  reachable db → append_audit db c h i ts = Ok (db', e, h') →
  reachable db'
  ∧ rows_of db' (cs_tenant_id c) (cs_run_id c) = rows_of db (cs_tenant_id c) (cs_run_id c) ++ [e]
  ∧ ae_sequence e = (ah_sequence h + 1)%Z ∧ ae_previous_event_hash e = ah_event_hash h
  ∧ (∀ t r, (t, r) ≠ (cs_tenant_id c, cs_run_id c) → rows_of db' t r = rows_of db t r)
  ∧ (∀ c2 i2 ts2, cs_tenant_id c2 = cs_tenant_id c → cs_run_id c2 = cs_run_id c →
       append_audit db' c2 h i2 ts2 = Raise AuditConflict).
Proof.
  intros Hreach Ha. pose proof (reachable_ok _ Hreach) as Hok.
  destruct (append_step _ _ _ _ _ _ _ _ Hok Ha) as (_ & Hrows & Het & Her & Hread).
  destruct (append_audit_inv _ _ _ _ _ _ _ _ Ha) as (_ & _ & Hn & _).
  destruct (new_audit_event_spec _ _ _ _ _ _ Hn) as (_ & _ & _ & _ & Hseq & Hprev & _ & _ & Hh' & _).
  split_and!; try done.
  - by eapply reach_append.
  - by rewrite Hrows, (proj2 (event_key_iff _ _ _)) by done.
  - intros t r Hne. rewrite Hrows. destruct (event_key t r e) eqn:Ek; [|done].
    apply event_key_iff in Ek as [<- <-]. congruence.
  - intros c2 i2 ts2 Ht2 Hr2. unfold append_audit. rewrite Ht2, Hr2, Hread.
    cbn [mbind result_bind]. rewrite bool_decide_eq_false_2; [done|].
    intros ->. rewrite Hh' in Hseq. cbn in Hseq. lia.
Qed.

(** *** Tamper evidence *)

Definition event_clean (e : AuditEvent) : Prop := json_clean (event_payload e) = true.

Lemma opt_val_inj a b : opt_val a = opt_val b → a = b.
Proof. by destruct a, b; intros [=]; subst. Qed.

Lemma canon_opt_val o : canon (opt_val o) = opt_val o.
Proof. by destruct o. Qed.

Lemma event_payload_inj e1 e2 :
  canon (event_payload e1) = canon (event_payload e2) → ae_event_hash e1 = ae_event_hash e2 →
  e1 = e2.
Proof.
  destruct e1 as [a1 a2 a3 a4 a5 a6 a7 a8 a9 a10 a11 a12 a13 a14],
    e2 as [b1 b2 b3 b4 b5 b6 b7 b8 b9 b10 b11 b12 b13 b14].
  assert (Hform : ∀ t r i s ac an tg bh ah rv ph eh ts re,
    canon (event_payload {| ae_tenant_id := t; ae_run_id := r; ae_event_id := i; ae_sequence := s;
      ae_actor_sub := ac; ae_action := an; ae_target_id := tg; ae_before_hash := bh;
      ae_after_hash := ah; ae_revision := rv; ae_previous_event_hash := ph; ae_event_hash := eh;
      ae_timestamp := ts; ae_reason := re |})
    = PDict [("action", PStr an); ("actor_sub", PStr ac); ("after_hash", PStr ah);
             ("before_hash", canon (opt_val bh)); ("event_id", PStr i);
             ("previous_event_hash", canon (opt_val ph)); ("reason", canon (opt_val re));
             ("revision", PInt rv); ("run_id", PStr r); ("sequence", PInt s);
             ("target_id", PStr tg); ("tenant_id", PStr t); ("timestamp", PStr ts)]) by done.
  rewrite !Hform, !canon_opt_val. cbn [ae_event_hash]. intros Heq ->.
  injection Heq as -> -> -> Hbh -> Hph Hre -> -> -> -> -> ->.
  apply opt_val_inj in Hbh, Hph, Hre. by subst.
Qed.

(** Two different texts with one digest. *)
Definition collision : Prop := ∃ t1 t2, t1 ≠ t2 ∧ sha256_hex t1 = sha256_hex t2.

(** Equal event hashes pin the event, or exhibit a collision. *)
Lemma hash_event_inj e1 e2 :
  event_clean e1 → event_clean e2 →
  hash_event e1 = Ok (ae_event_hash e1) → hash_event e2 = Ok (ae_event_hash e2) →
  ae_event_hash e1 = ae_event_hash e2 → e1 = e2 ∨ collision.
Proof.
  intros Hc1 Hc2 H1 H2 Heq. unfold hash_event, canonical_hash in H1, H2.
  apply bind_Ok_inv in H1 as (t1 & Ht1%canonical_json_Ok & [= H1]).
  apply bind_Ok_inv in H2 as (t2 & Ht2%canonical_json_Ok & [= H2]).
  destruct (decide (t1 = t2)) as [<-|Hne].
  - left. apply event_payload_inj; [|done]. by apply (json_dumps_inj _ _ t1).
  - right. exists t1, t2. split; [done|congruence].
Qed.

(** C27: tamper evidence: two event sequences that both verify against the
    same HEAD are the same sequence -- no event can be altered, dropped,
    reordered or inserted under a HEAD -- unless a SHA-256 collision is
    exhibited. *)
Theorem audit_chain_tamper_evident h es1 es2 :
  Forall event_clean es1 → Forall event_clean es2 →
  verify_audit_chain es1 h = Ok tt → verify_audit_chain es2 h = Ok tt →
  es1 = es2 ∨ collision.
Proof.
  intros Hc1 Hc2 H1 H2. unfold verify_audit_chain in H1, H2.
  apply bind_Ok_inv in H1 as (p1 & Hv1 & Hr1). apply bind_Ok_inv in H2 as (p2 & Hv2 & Hr2).
  apply require_Ok, andb_true_iff in Hr1 as [Hl1%Z.eqb_eq Hp1%bool_decide_eq_true].
  apply require_Ok, andb_true_iff in Hr2 as [Hl2%Z.eqb_eq Hp2%bool_decide_eq_true].
  assert (Hp : p1 = p2) by congruence. assert (Hl : length es1 = length es2).
  { unfold py_len in Hl1, Hl2. lia. }
  clear Hl1 Hl2 Hp1 Hp2. subst p2. revert es2 p1 Hc1 Hc2 Hv1 Hv2 Hl.
  induction es1 as [|e1 es1 IH] using rev_ind; intros es2 p Hc1 Hc2 Hv1 Hv2 Hl.
  { left. by destruct es2. }
  destruct es2 as [|e2 es2 _] using rev_ind; [rewrite length_app in Hl; cbn in Hl; lia|].
  rewrite !length_app in Hl. cbn in Hl. assert (Hl' : length es1 = length es2) by lia.
  apply Forall_app in Hc1 as [Hc1 He1], Hc2 as [Hc2 He2].
  rewrite verify_events_snoc in Hv1, Hv2.
  apply bind_Ok_inv in Hv1 as (q1 & Hv1 & He1'%verify_event_Ok).
  apply bind_Ok_inv in Hv2 as (q2 & Hv2 & He2'%verify_event_Ok).
  destruct He1' as (_ & _ & _ & Hq1 & Hh1 & Hx1), He2' as (_ & _ & _ & Hq2 & Hh2 & Hx2).
  destruct (hash_event_inj e1 e2) as [->|?]; [by inversion He1|by inversion He2|done|done|congruence| |by right].
  destruct (IH es2 q1 Hc1 Hc2 Hv1) as [->|?]; [congruence|done|by left|by right].
Qed.
End store.

(* ------------------------------------------------------------------ *)
(** ** Witnesses *)
(* ------------------------------------------------------------------ *)

Definition sample_change : ChangeSet :=
  {| cs_tenant_id := "0f8fad5b-d9cb-469f-a165-70867728950e";
     cs_run_id := "7c9e6679-7425-40de-944b-e07fc1f90ae7"; cs_actor_sub := "user";
     cs_action := "review"; cs_target_id := "0f8fad5b-d9cb-469f-a165-70867728950e";
     cs_before_hash := None;
     cs_after_hash := "0123456789abcdef0123456789abcdef0123456789abcdef0123456789abcdef";
     cs_revision := 1; cs_reason := None |}.

Definition sample_head : AuditHead :=
  stream_head (cs_tenant_id sample_change) (cs_run_id sample_change).

Definition sample_event_id : pystr := "7c9e6679-7425-40de-944b-e07fc1f90ae9".
Definition sample_time : pystr := "2026-09-25T00:00:00Z".

Definition one_append : result (audit_db * AuditEvent * AuditHead) :=
  append_audit (H := Checksum) empty_db sample_change sample_head sample_event_id sample_time.

Lemma one_append_ok : is_ok one_append = true.
Proof. vm_compute. reflexivity. Qed.

Lemma store_events_reachable_witness :
  store_events (H := Checksum) empty_db (cs_tenant_id sample_change) (cs_run_id sample_change)
  = Ok [].
Proof. apply (store_events_reachable (H := Checksum)); [constructor|reflexivity|reflexivity]. Defined.

Lemma append_audit_sound_witness :
  ∃ db e h, one_append = Ok (db, e, h)
    ∧ rows_of db (cs_tenant_id sample_change) (cs_run_id sample_change) = [e].
Proof.
  pose proof one_append_ok as Hok. destruct one_append as [[[db e] h]|x] eqn:E; [|discriminate].
  exists db, e, h. split; [reflexivity|].
  refine (proj1 (proj2 (append_audit_sound (H := Checksum) empty_db sample_change sample_head
    sample_event_id sample_time db e h _ E))).
  constructor.
Defined.

Lemma audit_chain_tamper_evident_witness :
  ∃ e h, verify_audit_chain (H := Checksum) [e] h = Ok tt
    ∧ ([e] = [e] ∨ collision (H := Checksum)).
Proof.
  pose proof one_append_ok as Hok. destruct one_append as [[[db e] h]|x] eqn:E; [|discriminate].
  assert (Hv : verify_audit_chain (H := Checksum) [e] h = Ok tt ∧ event_clean e).
  { vm_compute in E. injection E as _ <- <-. split; vm_compute; reflexivity. }
  destruct Hv as [Hv Hc]. exists e, h. split; [exact Hv|].
  apply (audit_chain_tamper_evident (H := Checksum) h [e] [e]); auto.
Defined.
