(* ===== verification/Reconcile.v ===== *)
(** * The reconciliation engine (contract 1.1).

    [domain/reconciliation/]: the validators of [common.py] (a validated
    packet or policy is the record of the fields the validator has checked;
    [require_exact_keys] makes it carry the whole object), exact decimals,
    the item ladders C1 to C4 and the engine's gate, projection and entry
    point. *)
From S2P Require Import Prelude PyVal JsonCodec Decimal Values PyDate Digest RulePack.

(* ------------------------------------------------------------------ *)
(** ** Constants *)
(* ------------------------------------------------------------------ *)

(** [domain/reconciliation/common.py:20-35 SCHEMA_VERSION] *)
Definition SCHEMA_VERSION : pystr := "1.1".
Definition C5_ITEM : pystr := "C5".
Definition ITEMS : list pystr := ["C1"; "C2"; "C3"; "C4"].
Definition KINDS : list pystr :=
  ["entity_set"; "facility_set"; "currency_amount"; "period"; "classification"; "unknown"].
Definition CLAIM_TRACKS : list pystr := ["goal"; "performance"; "management"; "unknown"].
Definition CONSOLIDATION : list pystr := ["consolidated"; "separate"; "unknown"].
Definition COMPARABILITY : list pystr := ["comparable"; "not_comparable"; "unknown"].
Definition SEARCH_STATES : list pystr := ["complete"; "incomplete"; "not_run"].
Definition DIFFERENCE_TYPES : list pystr :=
  ["operational_control_vs_control"; "overseas_subsidiary_excluded"; "equity_method_excluded";
   "acquisition_disposal_proration"].
Definition SET_KINDS : list pystr := ["entity_set"; "facility_set"].

(** [domain/reconciliation/common.py:44-62 IDENTITY_KEYS] *)
Definition IDENTITY_KEYS : list pystr :=
  ["tenant_id"; "company_id"; "claim_id"; "package_id"; "period_start"; "period_end";
   "sustainability_document_version"; "financial_document_version"; "dart_corp_code";
   "financial_fiscal_year"; "consolidation"; "financial_period_start"; "financial_period_end";
   "sr_published_at"; "financial_published_at"; "rcept_no"; "as_of_date"].

(** [domain/reconciliation/common.py:63-77 PACKET_KEYS] *)
Definition PACKET_KEYS : list pystr :=
  ["schema_version"; "synthetic"; "identity"; "item"; "sources"; "sustainability"; "financial";
   "comparability"; "explanation"; "c3_context"; "claim"; "search"; "c4_context"].

(** [domain/reconciliation/common.py:78-96 POLICY_KEYS] *)
Definition POLICY_KEYS : list pystr :=
  ["schema_version"; "version"; "approved"; "synthetic_only"; "current_stage"; "enabled_items";
   "c1_identity_rule"; "c3_threshold"; "c3_account_mapping_approved"; "approved_by";
   "approved_on"; "source_policy_sha256"; "allowed_capex_account_ids"; "coverage_policy_id";
   "allowed_difference_types"; "c2_timing_rule"; "c4_required_explanations"].

(** [domain/reconciliation/common.py:97-118 SOURCE_KEYS] *)
Definition SOURCE_KEYS : list pystr :=
  ["source_id"; "document_id"; "artifact_sha256"; "locator"; "quote"].
Definition FACT_KEYS : list pystr := ["raw"; "normalized"; "kind"; "unit"; "source_id"].
Definition SEARCH_KEYS : list pystr :=
  ["state"; "coverage_policy_id"; "required_document_ids"; "reviewed_source_ids";
   "failed_document_ids"; "receipt_id"].
Definition CLAIM_KEYS : list pystr :=
  ["track"; "quote"; "source_id"; "trigger_elements"; "fiscal_year"].
Definition C3_KEYS : list pystr :=
  ["currency"; "target_period_start"; "target_period_end"; "capex_period_start";
   "capex_period_end"; "capex_account_ids"; "commitment_source_id"; "funding_plan_source_id"].
Definition C4_KEYS : list pystr :=
  ["classification_name"; "definition_source_ids"; "calculation_source_ids"].

Definition C1_IDENTITY_RULE : pystr := "exact_verified_entity_set".
Definition C2_TIMING_RULE : pystr := "same_period_or_verified_explanation".
Definition C4_REQUIRED_EXPLANATIONS : list pystr := ["definition"; "calculation_basis"].

(* ------------------------------------------------------------------ *)
(** ** Patterns *)
(* ------------------------------------------------------------------ *)

(** A [re.match] pattern that ends in [$] also accepts one final newline. *)
Definition at_end (s : pystr) : bool := match s with [] => true | [c] => (c =? 10)%N | _ => false end.

(** [domain/reconciliation/common.py:37 _DATE_RE] *)
Definition DATE_RE (s : pystr) : bool :=
  match eat_date s with Some (_, r) => at_end r | None => false end.

(** [domain/reconciliation/common.py:38 _PERIOD_RE] *)
Definition PERIOD_RE (s : pystr) : option (pystr * pystr) :=
  '(a, r) ← eat_date s; r ← eat 47 r; '(b, r) ← eat_date r;
  if at_end r then Some (a, b) else None.

(** [[0-9]+(?:\.[0-9]+)?$] *)
Definition ratio_text (s : pystr) : bool :=
  let '(ds, r) := span_digits s in
  nonempty ds
  && (at_end r || match eat 46 r with
                  | Some r => let '(fs, r) := span_digits r in nonempty fs && at_end r
                  | None => false end).

(** [domain/reconciliation/common.py:39 _DECIMAL_RE] *)
Definition DECIMAL_RE (s : pystr) : bool := ratio_text (scan_minus s).2.
(** [domain/reconciliation/common.py:40 _RATIO_RE] *)
Definition RATIO_RE (s : pystr) : bool := ratio_text s.
(** [domain/reconciliation/common.py:41 _HEX64_RE] *)
Definition HEX64_RE (s : pystr) : bool :=
  forallb is_hex (take 64 s) && (64 <=? py_len s)%Z && at_end (drop 64 s).
(** [domain/reconciliation/common.py:42 _CORP_RE] *)
Definition CORP_RE (s : pystr) : bool :=
  all_digits (take 8 s) && (8 <=? py_len s)%Z && at_end (drop 8 s).

(* ------------------------------------------------------------------ *)
(** ** Guards *)
(* ------------------------------------------------------------------ *)

(** [fail(message)] [domain/reconciliation/common.py:156-157 fail] *)
Definition fail {A} : result A := Raise DomainValidationError.

(** [domain/reconciliation/common.py:160-163 require_mapping] *)
Definition require_mapping (v : pyval) : result pydict := as_dict DomainValidationError v.

(** [domain/reconciliation/common.py:166-174 require_exact_keys] *)
Definition require_exact_keys (m : pydict) (keys : list pystr) : result unit :=
  require (forallb (λ k, str_in k (dict_keys m)) keys && forallb (λ k, str_in k keys) (dict_keys m))
    DomainValidationError.

(** [domain/reconciliation/common.py:177-181 require_bool] *)
Definition require_bool (m : pydict) (k : pystr) : result bool :=
  v ← field m k; match v with PBool b => Ok b | _ => fail end.

(** [domain/reconciliation/common.py:184-190 require_int] *)
Definition require_int (m : pydict) (k : pystr) (low high : Z) : result Z :=
  v ← field m k;
  match v with
  | PInt z => if (low <=? z)%Z && (z <=? high)%Z then Ok z else fail
  | _ => fail
  end.

(** [domain/reconciliation/common.py:193-197 require_text] *)
Definition require_text (m : pydict) (k : pystr) : result pystr :=
  v ← field m k; match v with PStr s => if nonempty s then Ok s else fail | _ => fail end.

(** [domain/reconciliation/common.py:200-206 require_optional_text] *)
Definition require_optional_text (m : pydict) (k : pystr) : result (option pystr) :=
  v ← field m k;
  match v with
  | PNone => Ok None
  | PStr s => if nonempty s then Ok (Some s) else fail
  | _ => fail
  end.

(** [domain/reconciliation/common.py:209-213 require_enum] *)
Definition require_enum (m : pydict) (k : pystr) (allowed : list pystr) : result pystr :=
  v ← field m k; match v with PStr s => if str_in s allowed then Ok s else fail | _ => fail end.

Definition as_texts (l : list pyval) : result (list pystr) :=
  map_result (λ v, match v with PStr s => if nonempty s then Ok s else fail | _ => fail end) l.

(** [domain/reconciliation/common.py:216-225 require_unique_text_list] *)
Definition require_unique_text_list (m : pydict) (k : pystr) : result (list pystr) :=
  v ← field m k;
  match v with
  | PList l => ts ← as_texts l; if str_distinct ts then Ok ts else fail
  | _ => fail
  end.

(** [domain/reconciliation/common.py:228-234 parse_date] *)
Definition parse_date (v : pyval) : result Z :=
  match v with
  | PStr s => if DATE_RE s then of_option DomainValidationError (date_fromisoformat s) else fail
  | _ => fail
  end.

(** The checked text; the code keeps the text and drops the date.
    [domain/reconciliation/common.py:237-241 require_optional_date] *)
Definition require_optional_date (m : pydict) (k : pystr) : result (option (pystr * Z)) :=
  v ← field m k;
  match v with
  | PNone => Ok None
  | PStr s => d ← parse_date v; Ok (Some (s, d))
  | _ => fail
  end.

(** [domain/reconciliation/common.py:244-248 require_ordered_period] *)
Definition require_ordered_period (m : pydict) (start_key end_key : pystr)
    : result (option pystr * option pystr) :=
  a ← require_optional_date m start_key;
  b ← require_optional_date m end_key;
  match a, b with
  | Some (_, x), Some (_, y) => _ ← reject (y <? x)%Z DomainValidationError; Ok tt
  | _, _ => Ok tt
  end;;
  Ok (fst <$> a, fst <$> b).

(** [domain/reconciliation/common.py:251-254 parse_decimal] *)
Definition parse_decimal (s : pystr) : result decimal :=
  if DECIMAL_RE s then Ok (decimal_of s) else fail.

(** [domain/reconciliation/common.py:257-265 parse_period] *)
Definition parse_period (s : pystr) : result (Z * Z) :=
  '(a, b) ← of_option DomainValidationError (PERIOD_RE s);
  start ← parse_date (PStr a);
  end_ ← parse_date (PStr b);
  _ ← reject (end_ <? start)%Z DomainValidationError;
  Ok (start, end_).

(** [domain/reconciliation/common.py:268-280 parse_entity_set] *)
Definition parse_entity_set (s : pystr) : result (list pystr) :=
  decoded ← catch is_value_error (json_loads s) (λ _, fail);
  match decoded with
  | PList l => ts ← as_texts l; if str_distinct ts then Ok ts else fail
  | _ => fail
  end.

(* ------------------------------------------------------------------ *)
(** ** The policy *)
(* ------------------------------------------------------------------ *)

(** The checked fields of a policy object. *)
Record Policy : Set := {
  pol_version : pystr; pol_approved : bool; pol_synthetic_only : bool;
  pol_mapping_approved : bool; pol_stage : Z; pol_enabled : list pystr;
  pol_threshold : option pystr; pol_approved_by : option pystr;
  pol_capex_accounts : list pystr; pol_coverage_id : pystr;
  pol_difference_types : list pystr }.

(** [domain/reconciliation/common.py:288-320 validate_policy] *)
Definition validate_policy (policy : pydict) : result Policy :=
  _ ← require_exact_keys policy POLICY_KEYS;
  schema ← field policy "schema_version";
  _ ← require (eq_str schema SCHEMA_VERSION) DomainValidationError;
  version ← require_text policy "version";
  approved ← require_bool policy "approved";
  synthetic_only ← require_bool policy "synthetic_only";
  mapping_approved ← require_bool policy "c3_account_mapping_approved";
  stage ← field policy "current_stage";
  stage ← match stage with PInt z => Ok z | _ => fail end;
  enabled ← require_unique_text_list policy "enabled_items";
  _ ← require (forallb (λ e, str_in e ITEMS) enabled) DomainValidationError;
  c1 ← field policy "c1_identity_rule";
  _ ← require (eq_str c1 C1_IDENTITY_RULE) DomainValidationError;
  c2 ← field policy "c2_timing_rule";
  _ ← require (eq_str c2 C2_TIMING_RULE) DomainValidationError;
  c4 ← field policy "c4_required_explanations";
  _ ← require (py_eq c4 (PList (PStr <$> C4_REQUIRED_EXPLANATIONS))) DomainValidationError;
  threshold ← field policy "c3_threshold";
  threshold ← match threshold with
              | PNone => Ok None
              | PStr s => if RATIO_RE s then Ok (Some s) else fail
              | _ => fail
              end;
  approved_by ← require_optional_text policy "approved_by";
  _ ← require_optional_date policy "approved_on";
  source_hash ← field policy "source_policy_sha256";
  _ ← match source_hash with PStr s => require (HEX64_RE s) DomainValidationError | _ => fail end;
  accounts ← require_unique_text_list policy "allowed_capex_account_ids";
  coverage ← require_text policy "coverage_policy_id";
  differences ← require_unique_text_list policy "allowed_difference_types";
  _ ← require (forallb (λ e, str_in e DIFFERENCE_TYPES) differences) DomainValidationError;
  Ok {| pol_version := version; pol_approved := approved; pol_synthetic_only := synthetic_only;
        pol_mapping_approved := mapping_approved; pol_stage := stage; pol_enabled := enabled;
        pol_threshold := threshold; pol_approved_by := approved_by;
        pol_capex_accounts := accounts; pol_coverage_id := coverage;
        pol_difference_types := differences |}.

(* ------------------------------------------------------------------ *)
(** ** The packet *)
(* ------------------------------------------------------------------ *)

Record Identity : Set := {
  id_claim : pystr; id_consolidation : pystr; id_fiscal_year : Z;
  id_period : option pystr * option pystr; id_financial_period : option pystr * option pystr }.

(** [domain/reconciliation/common.py:328-349 _validate_identity] *)
Definition validate_identity (identity : pydict) : result Identity :=
  _ ← require_exact_keys identity IDENTITY_KEYS;
  _ ← map_result (require_text identity) ["tenant_id"; "company_id"];
  claim ← require_text identity "claim_id";
  _ ← map_result (require_text identity)
        ["package_id"; "sustainability_document_version"; "financial_document_version"];
  corp ← field identity "dart_corp_code";
  _ ← match corp with PStr s => require (CORP_RE s) DomainValidationError | _ => fail end;
  year ← require_int identity "financial_fiscal_year" 1900 2200;
  consolidation ← require_enum identity "consolidation" CONSOLIDATION;
  _ ← require_optional_text identity "rcept_no";
  period ← require_ordered_period identity "period_start" "period_end";
  financial ← require_ordered_period identity "financial_period_start" "financial_period_end";
  _ ← require_optional_date identity "sr_published_at";
  _ ← require_optional_date identity "financial_published_at";
  as_of ← field identity "as_of_date";
  _ ← parse_date as_of;
  Ok {| id_claim := claim; id_consolidation := consolidation; id_fiscal_year := year;
        id_period := period; id_financial_period := financial |}.

Record Fact : Set := {
  f_raw : option pystr; f_normalized : option pystr; f_kind : pystr;
  f_unit : option pystr; f_source : option pystr }.

(** The value of a fact reads as its kind demands.
    [domain/reconciliation/common.py:361-366 _validate_fact] *)
Definition check_normalized (kind value : pystr) : result unit :=
  if str_in kind SET_KINDS then _ ← parse_entity_set value; Ok tt
  else if kind =s? "period" then _ ← parse_period value; Ok tt
  else if kind =s? "currency_amount" then _ ← parse_decimal value; Ok tt
  else Ok tt.

(** [domain/reconciliation/common.py:352-366 _validate_fact] *)
Definition validate_fact (fact : pydict) : result Fact :=
  _ ← require_exact_keys fact FACT_KEYS;
  raw ← require_optional_text fact "raw";
  unit_ ← require_optional_text fact "unit";
  source ← require_optional_text fact "source_id";
  kind ← require_enum fact "kind" KINDS;
  normalized ← require_optional_text fact "normalized";
  _ ← match normalized with None => Ok tt | Some value => check_normalized kind value end;
  Ok {| f_raw := raw; f_normalized := normalized; f_kind := kind; f_unit := unit_;
        f_source := source |}.

(** One element of [sources]; its id is what the packet keeps of it.
    [domain/reconciliation/common.py:373-382 _validate_sources] *)
Definition validate_source (source : pyval) : result pystr :=
  source ← require_mapping source;
  _ ← require_exact_keys source SOURCE_KEYS;
  id ← require_text source "source_id";
  _ ← map_result (require_text source) ["document_id"; "locator"; "quote"];
  digest ← field source "artifact_sha256";
  _ ← match digest with PStr s => require (HEX64_RE s) DomainValidationError | _ => fail end;
  Ok id.

(** [domain/reconciliation/common.py:369-385 _validate_sources] *)
Definition validate_sources (sources : pyval) : result (list pystr) :=
  match sources with
  | PList l => ids ← map_result validate_source l; if str_distinct ids then Ok ids else fail
  | _ => fail
  end.

Record Search : Set := { s_state : pystr; s_reviewed : list pystr }.

Definition given {A} (o : option A) : bool := match o with Some _ => true | None => false end.

(** [domain/reconciliation/common.py:388-404 _validate_search] *)
Definition validate_search (search : pydict) : result Search :=
  _ ← require_exact_keys search SEARCH_KEYS;
  state ← require_enum search "state" SEARCH_STATES;
  coverage ← require_optional_text search "coverage_policy_id";
  receipt ← require_optional_text search "receipt_id";
  required ← require_unique_text_list search "required_document_ids";
  reviewed ← require_unique_text_list search "reviewed_source_ids";
  failed ← require_unique_text_list search "failed_document_ids";
  _ ← (if state =s? "complete"
       then require (negb (nonempty_list failed) && given coverage && given receipt
                     && nonempty_list required) DomainValidationError
       else Ok tt);
  Ok {| s_state := state; s_reviewed := reviewed |}.

Record C3Context : Set := {
  c3_currency : pystr; c3_accounts : list pystr; c3_commitment : option pystr;
  c3_funding_plan : option pystr; c3_target : option pystr * option pystr;
  c3_capex : option pystr * option pystr }.

(** [domain/reconciliation/common.py:407-414 _validate_c3_context] *)
Definition validate_c3_context (context : pydict) : result C3Context :=
  _ ← require_exact_keys context C3_KEYS;
  currency ← require_text context "currency";
  accounts ← require_unique_text_list context "capex_account_ids";
  commitment ← require_optional_text context "commitment_source_id";
  funding ← require_optional_text context "funding_plan_source_id";
  target ← require_ordered_period context "target_period_start" "target_period_end";
  capex ← require_ordered_period context "capex_period_start" "capex_period_end";
  Ok {| c3_currency := currency; c3_accounts := accounts; c3_commitment := commitment;
        c3_funding_plan := funding; c3_target := target; c3_capex := capex |}.

Record C4Context : Set := { c4_definition : list pystr; c4_calculation : list pystr }.

(** [domain/reconciliation/common.py:417-421 _validate_c4_context] *)
Definition validate_c4_context (context : pydict) : result C4Context :=
  _ ← require_exact_keys context C4_KEYS;
  _ ← require_text context "classification_name";
  definition ← require_unique_text_list context "definition_source_ids";
  calculation ← require_unique_text_list context "calculation_source_ids";
  Ok {| c4_definition := definition; c4_calculation := calculation |}.

Record Packet : Set := {
  pk_synthetic : bool; pk_identity : Identity; pk_item : pystr; pk_sources : list pystr;
  pk_sustainability : Fact; pk_financial : Fact; pk_comparability : pystr;
  pk_explanation : option pystr; pk_c3 : option C3Context; pk_track : pystr;
  pk_claim_source : pystr; pk_triggers : list pystr; pk_search : Search;
  pk_c4 : option C4Context }.

(** One of the two item contexts: required for its item, checked when present.
    [domain/reconciliation/common.py:457-466 validate_packet] *)
Definition validate_context {A} (packet : pydict) (key item_name item : pystr)
    (validator : pydict → result A) : result (option A) :=
  context ← field packet key;
  match context with
  | PNone => if item =s? item_name then fail else Ok None
  | _ => m ← require_mapping context; Some <$> validator m
  end.

Definition opt_list {A} (o : option A) : list A := match o with Some x => [x] | None => [] end.

(** Every source id a packet cites.
    [domain/reconciliation/common.py:472-486 validate_packet] *)
Definition referenced (p : Packet) : list pystr :=
  [pk_claim_source p] ++ opt_list (pk_explanation p) ++ opt_list (f_source (pk_sustainability p))
  ++ opt_list (f_source (pk_financial p)) ++ s_reviewed (pk_search p)
  ++ match pk_c3 p with
     | Some c => opt_list (c3_commitment c) ++ opt_list (c3_funding_plan c) | None => [] end
  ++ match pk_c4 p with Some c => c4_definition c ++ c4_calculation c | None => [] end.

(** [domain/reconciliation/common.py:424-489 validate_packet] *)
Definition validate_packet (packet : pydict) : result Packet :=
  _ ← require_exact_keys packet PACKET_KEYS;
  schema ← field packet "schema_version";
  _ ← require (eq_str schema SCHEMA_VERSION) DomainValidationError;
  synthetic ← require_bool packet "synthetic";
  item ← require_enum packet "item" ITEMS;
  comparability ← require_enum packet "comparability" COMPARABILITY;
  identity ← field packet "identity";
  identity ← require_mapping identity;
  identity ← validate_identity identity;
  sources ← field packet "sources";
  ids ← validate_sources sources;
  sustainability ← field packet "sustainability";
  sustainability ← require_mapping sustainability;
  sustainability ← validate_fact sustainability;
  financial ← field packet "financial";
  financial ← require_mapping financial;
  financial ← validate_fact financial;
  explanation ← field packet "explanation";
  explanation ← require_mapping explanation;
  _ ← require_exact_keys explanation ["source_id"; "search_complete"];
  explanation_source ← require_optional_text explanation "source_id";
  claimed ← require_bool explanation "search_complete";
  claim ← field packet "claim";
  claim ← require_mapping claim;
  _ ← require_exact_keys claim CLAIM_KEYS;
  track ← require_enum claim "track" CLAIM_TRACKS;
  _ ← require_text claim "quote";
  claim_source ← require_text claim "source_id";
  triggers ← require_unique_text_list claim "trigger_elements";
  _ ← require_int claim "fiscal_year" 1900 2200;
  search ← field packet "search";
  search ← require_mapping search;
  search ← validate_search search;
  c3 ← validate_context packet "c3_context" "C3" item validate_c3_context;
  c4 ← validate_context packet "c4_context" "C4" item validate_c4_context;
  _ ← require (Bool.eqb claimed (s_state search =s? "complete")) DomainValidationError;
  let p := {| pk_synthetic := synthetic; pk_identity := identity; pk_item := item;
              pk_sources := ids; pk_sustainability := sustainability; pk_financial := financial;
              pk_comparability := comparability; pk_explanation := explanation_source;
              pk_c3 := c3; pk_track := track; pk_claim_source := claim_source;
              pk_triggers := triggers; pk_search := search; pk_c4 := c4 |} in
  _ ← require (forallb (λ r, str_in r ids) (referenced p)) DomainValidationError;
  Ok p.

(* ------------------------------------------------------------------ *)
(** ** Outcomes and the shared item helpers *)
(* ------------------------------------------------------------------ *)

(** [domain/reconciliation/common.py:130-138 Outcome] *)
Record Outcome : Set := {
  execution_state : pystr; o_status : option pystr; reason_codes : list pystr;
  extra_source_ids : list pystr; explanation_source_id : option pystr }.

(** [domain/reconciliation/common.py:141-144 completed] *)
Definition completed (status : pystr) (reasons sources : list pystr) (explanation : option pystr)
    : Outcome :=
  {| execution_state := "completed"; o_status := Some status; reason_codes := reasons;
     extra_source_ids := sources; explanation_source_id := explanation |}.

(** [domain/reconciliation/common.py:147-148 blocked] *)
Definition blocked (reason : pystr) (sources : list pystr) : Outcome :=
  {| execution_state := "blocked"; o_status := None; reason_codes := [reason];
     extra_source_ids := sources; explanation_source_id := None |}.

(** [domain/reconciliation/common.py:512-514 Context.kind] *)
Definition kind (p : Packet) : pystr := f_kind (pk_sustainability p).

(** [domain/reconciliation/common.py:520-522 Context.search_complete] *)
Definition search_complete (p : Packet) : bool := s_state (pk_search p) =s? "complete".

(** [domain/reconciliation/common.py:524-527 Context.require_kind] *)
Definition require_kind (p : Packet) (allowed : list pystr) : option Outcome :=
  if str_in (kind p) allowed then None else Some (blocked "kind_mismatch" []).

(** [domain/reconciliation/common.py:529-532 Context.unresolved_values] *)
Definition unresolved_values (p : Packet) : option Outcome :=
  match f_normalized (pk_sustainability p), f_normalized (pk_financial p) with
  | Some _, Some _ => None
  | _, _ => Some (blocked "value_unresolved" [])
  end.

(** [domain/reconciliation/common.py:534-545 Context.resolve_difference] *)
Definition resolve_difference (p : Packet) (explained_reason : pystr) : Outcome :=
  match pk_explanation p with
  | Some source => completed "matched" [explained_reason] [source] (Some source)
  | None =>
      if search_complete p then completed "needs_explanation" ["explanation_not_found"] [] None
      else blocked "search_incomplete" []
  end.

(** The text of a side; the item ladders read it after [unresolved_values]. *)
Definition normalized (f : Fact) : result pystr := of_option TypeError (f_normalized f).

(** The two ends of a period when both are given. *)
Definition both (p : option pystr * option pystr) : option (pystr * pystr) :=
  match p with (Some a, Some b) => Some (a, b) | _ => None end.

Definition str_pair_eqb (a b : pystr * pystr) : bool := (a.1 =s? b.1) && (a.2 =s? b.2).

(* ------------------------------------------------------------------ *)
(** ** The item ladders *)
(* ------------------------------------------------------------------ *)

(** [guard ;; rest]: an early return of the guard's outcome. *)
Definition unless (o : option Outcome) (rest : result Outcome) : result Outcome :=
  match o with Some out => Ok out | None => rest end.

(** [domain/reconciliation/c1.py:20-52 evaluate] *)
Definition evaluate_c1 (p : Packet) : result Outcome :=
  unless (require_kind p SET_KINDS) (unless (unresolved_values p)
  match both (id_period (pk_identity p)), both (id_financial_period (pk_identity p)) with
  | Some reporting, Some financial_period =>
      if negb (str_pair_eqb reporting financial_period) then
        Ok (blocked "c1_period_mismatch" [])
      else if id_consolidation (pk_identity p) =s? "unknown" then
        Ok (blocked "c1_consolidation_unknown" [])
      else
        s ← normalized (pk_sustainability p); sustainability ← parse_entity_set s;
        f ← normalized (pk_financial p); financial ← parse_entity_set f;
        if negb (nonempty_list sustainability) || negb (nonempty_list financial) then
          Ok (blocked "entity_set_empty" [])
        else if set_eqb sustainability financial then
          Ok (completed "matched" ["same_verified_entity_set"] [] None)
        else Ok (resolve_difference p "difference_explained")
  | _, _ => Ok (blocked "c1_period_unresolved" [])
  end).

(** [domain/reconciliation/c2.py:14-19 _reporting_window] *)
Definition reporting_window (p : Packet) : result (option (Z * Z)) :=
  match both (id_period (pk_identity p)) with
  | Some (start, end_) => w ← parse_period (start ++ "/" ++ end_); Ok (Some w)
  | None => Ok None
  end.

(** [domain/reconciliation/c2.py:22-44 evaluate] *)
Definition evaluate_c2 (p : Packet) : result Outcome :=
  unless (require_kind p ["period"]) (unless (unresolved_values p) (
  s ← normalized (pk_sustainability p); sustainability ← parse_period s;
  f ← normalized (pk_financial p); financial ← parse_period f;
  window ← reporting_window p;
  let out_of_scope : bool :=
    match (window : option (Z * Z)) with
    | Some (window_start, window_end) =>
        (sustainability.2 <? window_start)%Z || (window_end <? sustainability.1)%Z
    | None => false
    end in
  if out_of_scope then Ok (completed "not_applicable" ["period_out_of_scope"] [] None)
  else if ((sustainability.1 =? financial.1) && (sustainability.2 =? financial.2))%Z then
    Ok (completed "matched" ["same_period"] [] None)
  else Ok (resolve_difference p "period_difference_explained"))).

(** [domain/reconciliation/c3.py:29-39 _within_threshold] *)
Definition within_threshold (commitment threshold capex : decimal) : bool :=
  let digits := (d_digits commitment + d_digits threshold + d_digits capex)%Z in
  d_leb commitment (d_mul (digits + 1) threshold capex).

(** [domain/reconciliation/c3.py:42-45 _with_sources] *)
Definition with_sources (extra : list pystr) (o : Outcome) : Outcome :=
  {| execution_state := execution_state o; o_status := o_status o;
     reason_codes := reason_codes o; extra_source_ids := extra ++ extra_source_ids o;
     explanation_source_id := explanation_source_id o |}.

(** [domain/reconciliation/c3.py:48-58 _account_mapping_resolved] *)
Definition account_mapping_resolved (policy : Policy) (c : C3Context) : bool :=
  pol_mapping_approved policy && nonempty_list (pol_capex_accounts policy)
  && nonempty_list (c3_accounts c)
  && forallb (λ a, str_in a (pol_capex_accounts policy)) (c3_accounts c).

(** The rungs of C3 below the trigger, without the cited sources.
    [domain/reconciliation/c3.py:75-114 evaluate] *)
Definition c3_rungs (p : Packet) (policy : Policy) (c : C3Context) : result Outcome :=
  unless (require_kind p ["currency_amount"]) (unless (unresolved_values p)
  (if negb (bool_decide (f_unit (pk_sustainability p) = Some (c3_currency c)))
      || negb (bool_decide (f_unit (pk_financial p) = Some (c3_currency c))) then
     Ok (blocked "c3_currency_mismatch" [])
   else if negb (account_mapping_resolved policy c) then Ok (blocked "c3_policy_unapproved" [])
   else
     match both (c3_target c), both (c3_capex c), both (id_financial_period (pk_identity p)) with
     | Some _, Some capex_period, Some financial_period =>
         if negb (str_pair_eqb capex_period financial_period) then
           Ok (blocked "c3_capex_period_mismatch" [])
         else
           s ← normalized (pk_sustainability p); commitment ← parse_decimal s;
           f ← normalized (pk_financial p); capex ← parse_decimal f;
           if d_le_zero commitment then Ok (blocked "c3_commitment_not_positive" [])
           else if d_le_zero capex then Ok (blocked "c3_capex_not_positive" [])
           else if given (c3_commitment c) then
             Ok (completed "matched" ["commitment_disclosed"] [] None)
           else
             match pol_threshold policy with
             | None => Ok (blocked "c3_policy_unapproved" [])
             | Some t =>
                 threshold ← parse_decimal t;
                 if (within_threshold commitment threshold capex : bool) then
                   Ok (completed "matched" ["capex_within_threshold"] [] None)
                 else Ok (resolve_difference p "difference_explained")
             end
     | _, _, _ => Ok (blocked "c3_period_unresolved" [])
     end)).

(** [domain/reconciliation/c3.py:61-114 evaluate] *)
Definition evaluate_c3 (p : Packet) (policy : Policy) : result Outcome :=
  if negb (pk_track p =s? "goal") || negb (str_in "currency_amount" (pk_triggers p)) then
    Ok (completed "not_applicable" ["c3_trigger_absent"] [] None)
  else
    c ← of_option TypeError (pk_c3 p);
    with_sources (opt_list (c3_commitment c) ++ opt_list (c3_funding_plan c))
      <$> c3_rungs p policy c.

(** The required explanations in the order of the policy, each with the reason it is missing.
    [domain/reconciliation/c4.py:14-21 _REASON_BY_EXPLANATION] *)
Definition c4_required (c : C4Context) : list (pystr * list pystr) :=
  [("definition_not_found", c4_definition c); ("calculation_basis_not_found", c4_calculation c)].

(** [domain/reconciliation/c4.py:24-53 evaluate] *)
Definition evaluate_c4 (p : Packet) : result Outcome :=
  unless (require_kind p ["classification"]) (unless (unresolved_values p) (
  c ← of_option TypeError (pk_c4 p);
  let cited := concat (c4_required c).*2 in
  let missing := (filter (λ r, nonempty_list r.2 = false) (c4_required c)).*1 in
  let ordered_cited := str_dedup cited in
  if negb (nonempty_list missing) then
    Ok (completed "matched" ["classification_basis_present"] ordered_cited None)
  else if negb (search_complete p) then Ok (blocked "search_incomplete" ordered_cited)
  else Ok (completed "needs_explanation" missing ordered_cited None))).

(* ------------------------------------------------------------------ *)
(** ** The engine *)
(* ------------------------------------------------------------------ *)

(** [domain/reconciliation/engine.py:78-87 _policy_gate] *)
Definition policy_gate (p : Packet) (policy : Policy) : option Outcome :=
  if negb (pol_approved policy) then Some (blocked "policy_unapproved" [])
  else if negb (pol_stage policy =? 1)%Z then Some (blocked "stage_not_supported" [])
  else if pol_synthetic_only policy && negb (pk_synthetic p) then
    Some (blocked "synthetic_policy_real_packet" [])
  else if negb (str_in (pk_item p) (pol_enabled policy)) then Some (blocked "item_not_enabled" [])
  else None.

(** [_ITEM_EVALUATORS[packet["item"]](..)]
    [domain/reconciliation/engine.py:41-46 _ITEM_EVALUATORS] *)
Definition item_evaluator (p : Packet) (policy : Policy) : result Outcome :=
  if pk_item p =s? "C1" then evaluate_c1 p
  else if pk_item p =s? "C2" then evaluate_c2 p
  else if pk_item p =s? "C3" then evaluate_c3 p policy
  else if pk_item p =s? "C4" then evaluate_c4 p
  else Raise KeyError.

(** [domain/reconciliation/engine.py:90-108 _decide] *)
Definition decide_item (p : Packet) (policy : Policy) : result Outcome :=
  unless (policy_gate p policy) (
    if pk_comparability p =s? "not_comparable" then
      Ok (completed "not_applicable" ["not_comparable"] [] None)
    else if pk_comparability p =s? "unknown" then Ok (blocked "comparability_unknown" [])
    else if negb (kind p =s? f_kind (pk_financial p)) then Ok (blocked "kind_mismatch" [])
    else if kind p =s? "unknown" then Ok (blocked "value_unresolved" [])
    else item_evaluator p policy).

(** [domain/reconciliation/engine.py:111-118 _source_ids] *)
Definition source_ids (p : Packet) (o : Outcome) : list pystr :=
  str_dedup (opt_list (f_source (pk_sustainability p)) ++ opt_list (f_source (pk_financial p))
             ++ extra_source_ids o).

Section with_digest.
Context `{Digest}.

Definition ENGINE_VERSION : pystr := "reconciliation-engine-1.2.0".

(** [domain/reconciliation/engine.py:121-138 _project] *)
Definition project (packet policy : pydict) (p : Packet) (o : Outcome) : result pydict :=
  packet_sha ← canonical_hash (PDict packet);
  policy_sha ← canonical_hash (PDict policy);
  Ok [("schema_version", PStr SCHEMA_VERSION);
      ("claim_id", PStr (id_claim (pk_identity p)));
      ("item", PStr (pk_item p));
      ("execution_state", PStr (execution_state o));
      ("status", opt_val (o_status o));
      ("review_required", PBool (negb (execution_state o =s? "completed")));
      ("reason_codes", PList (PStr <$> reason_codes o));
      ("source_ids", PList (PStr <$> source_ids p o));
      ("explanation_source_id", opt_val (explanation_source_id o));
      ("sustainability_value", opt_val (f_raw (pk_sustainability p)));
      ("financial_value", opt_val (f_raw (pk_financial p)));
      ("packet_sha256", PStr packet_sha);
      ("policy_sha256", PStr policy_sha);
      ("synthetic", PBool (pk_synthetic p));
      ("engine_version", PStr ENGINE_VERSION)].

(** [domain/reconciliation/engine.py:141-160 evaluate] *)
Definition reconcile (packet policy : pyval) : result pydict :=
  packet ← as_dict DomainValidationError packet;
  policy ← as_dict DomainValidationError policy;
  _ ← reject (match dict_get "item" packet with Some v => eq_str v C5_ITEM | None => false end)
        NotImplementedError;
  pol ← validate_policy policy;
  p ← validate_packet packet;
  o ← decide_item p pol;
  project packet policy p o.
End with_digest.
