(* ===== verification/ReconcileSpec.v ===== *)
(** * What the reconciliation engine promises.

    The guards refuse with [DomainValidationError] only; a validated packet
    and policy are always decided; a decision never states an absence that
    the search has not established; the threshold test is exact. *)
From S2P Require Import Prelude PyVal JsonCodec Decimal Values PyDate Digest RulePack Reconcile.
From Stdlib Require Import QArith Qpower.
Open Scope nat_scope.
Open Scope py_scope.

(* ------------------------------------------------------------------ *)
(** ** Guards refuse, they do not fail otherwise *)
(* ------------------------------------------------------------------ *)

Notation refuses := (raises (λ e, e = DomainValidationError)).

Definition keyed (m : pydict) (k : pystr) : Prop := is_Some (dict_get k m).

Lemma keyed_of (m : pydict) keys k u :
  require_exact_keys m keys = Ok u → str_in k keys = true → keyed m k.
Proof.
  unfold require_exact_keys. rewrite require_Ok, andb_true_iff. intros [Hall _] Hk.
  rewrite forallb_forall in Hall. apply str_in_iff, list_elem_of_In in Hk.
  apply Hall, str_in_iff in Hk. by apply dict_get_is_Some.
Qed.

Create HintDb guards.
#[export] Hint Extern 1 (keyed _ _) => (eapply keyed_of; [eassumption | reflexivity]) : guards.

Lemma refuses_field m k : keyed m k → refuses (field m k).
Proof. intros [v Hv]. unfold field. by rewrite Hv. Qed.
#[export] Hint Resolve refuses_field : guards.

(** Walk a sequence of guards. *)
Ltac walk :=
  repeat (cbn beta iota;
    match goal with
    | |- raises _ (mbind _ _) => apply raises_bind; [| let H := fresh "E" in intros ? H]
    | |- raises _ (fmap _ _) => apply raises_fmap
    | |- raises _ (Ok _) => exact I
    | |- raises _ fail => reflexivity
    | |- raises _ (Raise _) => reflexivity
    | |- raises _ (require _ _) => apply raises_require; reflexivity
    | |- raises _ (reject _ _) => apply raises_reject; reflexivity
    | |- raises _ (of_option DomainValidationError _) => apply raises_of_option; reflexivity
    | |- raises _ (map_result _ _) => apply raises_map_result; intros
    | |- raises _ (if ?b then _ else _) => destruct b
    | |- raises _ (match ?x with _ => _ end) => destruct x
    | |- raises _ (match ?x with _ => _ end _) => destruct x
    | H : ?k ∈ _ :: _ |- raises _ (require_text _ ?k) => apply elem_of_cons in H as [->|H]
    | H : ?k ∈ [] |- raises _ (require_text _ ?k) => by apply elem_of_nil in H
    | |- raises _ _ => solve [eauto with guards]
    end).

Lemma refuses_mapping v : refuses (require_mapping v).
Proof. by destruct v. Qed.
Lemma refuses_exact_keys m keys : refuses (require_exact_keys m keys).
Proof. by apply raises_require. Qed.
Lemma refuses_texts l : refuses (as_texts l).
Proof. unfold as_texts. walk. Qed.
#[export] Hint Resolve refuses_mapping refuses_exact_keys refuses_texts : guards.

Lemma refuses_date v : refuses (parse_date v).
Proof. unfold parse_date. walk. Qed.
#[export] Hint Resolve refuses_date : guards.

Section keyed.
Context (m : pydict) (k : pystr) (Hk : keyed m k).
Lemma refuses_bool : refuses (require_bool m k).
Proof using Hk. unfold require_bool. walk. Qed.
Lemma refuses_int low high : refuses (require_int m k low high).
Proof using Hk. unfold require_int. walk. Qed.
Lemma refuses_text : refuses (require_text m k).
Proof using Hk. unfold require_text. walk. Qed.
Lemma refuses_optional_text : refuses (require_optional_text m k).
Proof using Hk. unfold require_optional_text. walk. Qed.
Lemma refuses_enum allowed : refuses (require_enum m k allowed).
Proof using Hk. unfold require_enum. walk. Qed.
Lemma refuses_text_list : refuses (require_unique_text_list m k).
Proof using Hk. unfold require_unique_text_list. walk. Qed.
Lemma refuses_optional_date : refuses (require_optional_date m k).
Proof using Hk. unfold require_optional_date. walk. Qed.
End keyed.
#[export] Hint Resolve refuses_bool refuses_int refuses_text refuses_optional_text refuses_enum
  refuses_text_list refuses_optional_date : guards.

Lemma refuses_period m a b : keyed m a → keyed m b → refuses (require_ordered_period m a b).
Proof. intros Ha Hb. unfold require_ordered_period. walk. Qed.
Lemma refuses_decimal s : refuses (parse_decimal s).
Proof. unfold parse_decimal. walk. Qed.
Lemma refuses_parse_period s : refuses (parse_period s).
Proof. unfold parse_period. walk. Qed.
Lemma refuses_entity_set s : refuses (parse_entity_set s).
Proof.
  unfold parse_entity_set. walk.
  unfold json_loads. destruct (scan_value _ _) as [[v r]|]; [|done]. by destruct (skip_ws r).
Qed.
#[export] Hint Resolve refuses_period refuses_decimal refuses_parse_period refuses_entity_set
  : guards.

Lemma refuses_policy policy : refuses (validate_policy policy).
Proof. unfold validate_policy. walk. Qed.
Lemma refuses_fact fact : refuses (validate_fact fact).
Proof. unfold validate_fact, check_normalized. walk. Qed.

Lemma refuses_identity identity : refuses (validate_identity identity).
Proof.
  unfold validate_identity. walk.
Qed.
Lemma refuses_sources v : refuses (validate_sources v).
Proof. unfold validate_sources, validate_source. walk. Qed.
Lemma refuses_search search : refuses (validate_search search).
Proof. unfold validate_search. walk. Qed.
Lemma refuses_c3_context c : refuses (validate_c3_context c).
Proof. unfold validate_c3_context. walk. Qed.
Lemma refuses_c4_context c : refuses (validate_c4_context c).
Proof. unfold validate_c4_context. walk. Qed.
#[export] Hint Resolve refuses_policy refuses_fact refuses_identity refuses_sources refuses_search
  refuses_c3_context refuses_c4_context : guards.
Lemma refuses_packet packet : refuses (validate_packet packet).
Proof. unfold validate_packet, validate_context. walk. Qed.

(* ------------------------------------------------------------------ *)
(** ** What validation establishes *)
(* ------------------------------------------------------------------ *)

Definition fact_ok (f : Fact) : Prop :=
  f_kind f ∈ KINDS ∧ ∀ v, f_normalized f = Some v → check_normalized (f_kind f) v = Ok tt.

(** Both ends, when given, are calendar dates in order. *)
Definition period_ok (p : option pystr * option pystr) : Prop :=
  ∀ a b, both p = Some (a, b) →
  ∃ x y, parse_date (PStr a) = Ok x ∧ parse_date (PStr b) = Ok y ∧ (x <= y)%Z.

Record packet_ok (p : Packet) : Prop := {
  ok_item : pk_item p ∈ ITEMS;
  ok_period : period_ok (id_period (pk_identity p));
  ok_sustainability : fact_ok (pk_sustainability p);
  ok_financial : fact_ok (pk_financial p);
  ok_c3 : pk_item p = "C3" → is_Some (pk_c3 p);
  ok_c4 : pk_item p = "C4" → is_Some (pk_c4 p);
  ok_sources : NoDup (pk_sources p);
  ok_references : ∀ r, r ∈ referenced p → r ∈ pk_sources p }.

Definition policy_ok (policy : Policy) : Prop :=
  ∀ t, pol_threshold policy = Some t → RATIO_RE t = true.

Lemma require_enum_in m k allowed s : require_enum m k allowed = Ok s → s ∈ allowed.
Proof.
  unfold require_enum. intros H. open_run H. case_match; try done. case_match; [|done].
  injection H as <-. by apply str_in_iff.
Qed.

Lemma optional_date_ok m k s d : require_optional_date m k = Ok (Some (s, d)) →
  parse_date (PStr s) = Ok d.
Proof.
  unfold require_optional_date. intros H. open_run H. case_match; try done.
  apply bind_Ok_inv in H as (d' & Hd & [= <- <-]). done.
Qed.

Lemma ordered_period_ok m a b p : require_ordered_period m a b = Ok p → period_ok p.
Proof.
  unfold require_ordered_period. intros H. apply bind_Ok_inv in H as (x & Hx & H).
  apply bind_Ok_inv in H as (y & Hy & H). apply bind_Ok_inv in H as (u & Hord & [= <-]).
  intros s t Hst. destruct x as [[s' d]|], y as [[t' e]|]; try discriminate.
  injection Hst as <- <-. exists d, e.
  split; [by eapply optional_date_ok|]. split; [by eapply optional_date_ok|].
  apply bind_Ok_inv in Hord as (v & Hv & _). apply reject_Ok in Hv. str_prop. lia.
Qed.

Lemma validate_fact_ok m f : validate_fact m = Ok f → fact_ok f.
Proof.
  unfold validate_fact. intros H. open_run H. injection H as <-. split; cbn.
  - by eapply require_enum_in.
  - intros v ->. by destruct x5.
Qed.

Lemma validate_sources_ok v ids : validate_sources v = Ok ids → NoDup ids.
Proof.
  unfold validate_sources. destruct v; try done. intros H. open_run H. case_match; [|done].
  injection H as <-. by apply str_distinct_iff.
Qed.

Lemma validate_context_ok {A} packet key name item (f : pydict → result A) o :
  validate_context packet key name item f = Ok o → item = name → is_Some o.
Proof.
  unfold validate_context. intros H ->. apply bind_Ok_inv in H as (v & _ & H).
  rewrite str_eqb_refl in H. destruct v; [done|..];
    apply bind_Ok_inv in H as (m & _ & H); apply fmap_Ok_inv in H as (c & _ & <-); by exists c.
Qed.

Lemma validate_identity_ok m i : validate_identity m = Ok i → period_ok (id_period i).
Proof.
  unfold validate_identity. intros H. open_run H. injection H as <-. cbn.
  by eapply ordered_period_ok.
Qed.

Lemma validate_packet_ok packet p : validate_packet packet = Ok p → packet_ok p.
Proof.
  unfold validate_packet. intros H. open_run H. injection H as <-.
  match goal with H : require (forallb _ _) _ = _ |- _ => apply require_Ok in H as Hrefs end.
  split; cbn [pk_item pk_identity pk_sustainability pk_financial pk_c3 pk_c4 pk_sources];
    eauto using require_enum_in, validate_identity_ok, validate_fact_ok, validate_sources_ok,
      validate_context_ok.
  intros r Hr%list_elem_of_In. rewrite forallb_forall in Hrefs. by apply str_in_iff, Hrefs.
Qed.

Lemma validate_policy_ok policy pol : validate_policy policy = Ok pol → policy_ok pol.
Proof.
  unfold validate_policy. intros H. open_run H. injection H as <-. intros t. cbn. intros ->.
  match goal with H : match ?v with _ => _ end = Ok (Some t) |- _ =>
    destruct v as [| | | |s| | |]; try discriminate H;
    destruct (RATIO_RE s) eqn:E; [|discriminate H]; by injection H as <-
  end.
Qed.

(* ------------------------------------------------------------------ *)
(** ** A validated value reads again *)
(* ------------------------------------------------------------------ *)

Lemma parse_digits_app k s t v r :
  parse_digits k s = Some (v, r) → parse_digits k (s ++ t) = Some (v, r ++ t).
Proof.
  unfold parse_digits. destruct (_ && _) eqn:E; [|done]. intros [= <- <-].
  apply andb_true_iff in E as [Hlen%Nat.eqb_eq Hd].
  assert (k <= length s) by (rewrite length_take in Hlen; lia).
  rewrite take_app_le, drop_app_le by done. by rewrite Hlen, Nat.eqb_refl, Hd.
Qed.

Lemma parse_digits_split k s v r : parse_digits k s = Some (v, r) →
  ∃ d, s = d ++ r ∧ length d = k.
Proof.
  unfold parse_digits. destruct (_ && _) eqn:E; [|done]. intros [= _ <-].
  apply andb_true_iff in E as [Hlen%Nat.eqb_eq _]. exists (take k s). by rewrite take_drop.
Qed.

Lemma eat_app c s t r : eat c s = Some r → eat c (s ++ t) = Some (r ++ t).
Proof. destruct s as [|x s]; cbn; [done|]. destruct (x =? c)%N; [|done]. by intros [= <-]. Qed.

Lemma eat_date_split s d r : eat_date s = Some (d, r) → s = d ++ r ∧ length d = 10.
Proof.
  unfold eat_date. intros H.
  apply bind_Some in H as ([y r1] & H1 & H). apply bind_Some in H as (r2 & H2 & H).
  apply bind_Some in H as ([m r3] & H3 & H). apply bind_Some in H as (r4 & H4 & H).
  apply bind_Some in H as ([e r5] & H5 & H). injection H as <- <-.
  apply parse_digits_split in H1 as (d1 & -> & L1), H3 as (d3 & -> & L3), H5 as (d5 & -> & L5).
  apply eat_split in H2 as ->, H4 as ->.
  destruct d1 as [|? [|? [|? [|? [|]]]]], d3 as [|? [|? [|]]], d5 as [|? [|? [|]]]; done.
Qed.

Lemma eat_date_app s t d r : eat_date s = Some (d, r) → eat_date (s ++ t) = Some (d, r ++ t).
Proof.
  intros Hd. destruct (eat_date_split _ _ _ Hd) as [-> Hlen]. revert Hd. unfold eat_date.
  intros H.
  apply bind_Some in H as ([y r1] & H1 & H). apply bind_Some in H as (r2 & H2 & H).
  apply bind_Some in H as ([m r3] & H3 & H). apply bind_Some in H as (r4 & H4 & H).
  apply bind_Some in H as ([e r5] & H5 & H). injection H as Hd <-.
  rewrite (parse_digits_app _ _ t _ _ H1). cbn [mbind option_bind].
  rewrite (eat_app _ _ t _ H2). cbn [mbind option_bind].
  rewrite (parse_digits_app _ _ t _ _ H3). cbn [mbind option_bind].
  rewrite (eat_app _ _ t _ H4). cbn [mbind option_bind].
  rewrite (parse_digits_app _ _ t _ _ H5). cbn [mbind option_bind].
  rewrite <- app_assoc, take_app_le, take_ge by lia. done.
Qed.

(** A date that reads has exactly the ten characters of its pattern. *)
Lemma parse_date_eat s x : parse_date (PStr s) = Ok x → eat_date s = Some (s, []).
Proof.
  unfold parse_date, DATE_RE. destruct (eat_date s) as [[d r]|] eqn:E; [|done].
  destruct (at_end r) eqn:Hr; [|done]. intros H%of_option_Ok.
  destruct (eat_date_split _ _ _ E) as [-> Hd].
  destruct r as [|c [|]]; [by rewrite app_nil_r|exfalso|done].
  unfold date_fromisoformat in H. unfold py_len in H. rewrite length_app, Hd in H. done.
Qed.

Lemma parse_period_window a b x y :
  parse_date (PStr a) = Ok x → parse_date (PStr b) = Ok y → (x <= y)%Z →
  parse_period (a ++ "/" ++ b) = Ok (x, y).
Proof.
  intros Ha Hb Hle. unfold parse_period, PERIOD_RE.
  rewrite (eat_date_app a _ a [] (parse_date_eat _ _ Ha)). cbn [app mbind option_bind eat N.eqb Pos.eqb].
  rewrite (parse_date_eat _ _ Hb). cbn [mbind option_bind at_end of_option result_bind].
  rewrite Ha, Hb. cbn [mbind result_bind]. destruct (Z.ltb_spec y x); [lia|done].
Qed.

Lemma reporting_window_total p : period_ok (id_period (pk_identity p)) →
  ∃ w, reporting_window p = Ok w.
Proof.
  intros Hp. unfold reporting_window. destruct (both _) as [[a b]|] eqn:E; [|by eexists].
  destruct (Hp a b E) as (x & y & Ha & Hb & Hle).
  rewrite (parse_period_window a b x y) by done. by eexists.
Qed.

Lemma normalized_entity_set f v : fact_ok f → str_in (f_kind f) SET_KINDS = true →
  f_normalized f = Some v → ∃ l, parse_entity_set v = Ok l.
Proof.
  intros [_ H] Hk Hv. specialize (H v Hv). unfold check_normalized in H. rewrite Hk in H.
  apply bind_Ok_inv in H as (l & Hl & _). by exists l.
Qed.

Lemma normalized_period f v : fact_ok f → f_kind f = "period" →
  f_normalized f = Some v → ∃ w, parse_period v = Ok w.
Proof.
  intros [_ H] Hk Hv. specialize (H v Hv). unfold check_normalized in H. rewrite Hk in H.
  apply bind_Ok_inv in H as (l & Hl & _). by exists l.
Qed.

Lemma normalized_decimal f v : fact_ok f → f_kind f = "currency_amount" →
  f_normalized f = Some v → ∃ d, parse_decimal v = Ok d.
Proof.
  intros [_ H] Hk Hv. specialize (H v Hv). unfold check_normalized in H. rewrite Hk in H.
  apply bind_Ok_inv in H as (l & Hl & _). by exists l.
Qed.

Lemma threshold_decimal policy t : policy_ok policy → pol_threshold policy = Some t →
  ∃ d, parse_decimal t = Ok d.
Proof.
  intros Hp Ht. apply Hp in Ht. unfold parse_decimal, DECIMAL_RE.
  assert (scan_minus t = (false, t)) as ->.
  { unfold scan_minus. destruct (eat 45 t) as [r|] eqn:E; [|done].
    apply eat_split in E as ->. done. }
  cbn [snd]. unfold RATIO_RE in Ht. rewrite Ht. by eexists.
Qed.

(* ------------------------------------------------------------------ *)
(** ** Decisions *)
(* ------------------------------------------------------------------ *)

Definition STATUSES : list pystr := ["matched"; "needs_explanation"; "not_applicable"].

(** What every outcome on packet [p] respects. *)
Record verdict (p : Packet) (o : Outcome) : Prop := {
  v_state : match o_status o with
            | Some s => execution_state o = "completed" ∧ s ∈ STATUSES
            | None => execution_state o = "blocked"
            end;
  v_reasons : reason_codes o ≠ [];
  v_sources : ∀ s, s ∈ extra_source_ids o → s ∈ pk_sources p;
  v_explanation : ∀ s, explanation_source_id o = Some s →
    s ∈ extra_source_ids o ∧ pk_explanation p = Some s;
  v_absence : o_status o = Some "needs_explanation" → search_complete p = true }.

(** The computation ends in an outcome with [P]. *)
Definition decided (m : result Outcome) (P : Outcome → Prop) : Prop := ∃ o, m = Ok o ∧ P o.

Lemma decided_Ok P o : P o → decided (Ok o) P.
Proof. by exists o. Qed.
Lemma decided_unless P g rest :
  (∀ o, g = Some o → P o) → (g = None → decided rest P) → decided (unless g rest) P.
Proof. destruct g; cbn; intros H1 H2; [apply decided_Ok|]; auto. Qed.
Lemma decided_bind {A} P (m : result A) f a :
  m = Ok a → decided (f a) P → decided (x ← m; f x) P.
Proof. by intros ->. Qed.
Lemma decided_fmap (P Q : Outcome → Prop) m f :
  (∀ o, Q o → P (f o)) → decided m Q → decided (f <$> m) P.
Proof. intros H (o & -> & Ho). exists (f o). split; [done|auto]. Qed.

Lemma verdict_blocked p r srcs : (∀ s, s ∈ srcs → s ∈ pk_sources p) → verdict p (blocked r srcs).
Proof. intros. by split. Qed.

Lemma verdict_completed p st reasons srcs :
  st ∈ STATUSES → reasons ≠ [] → (∀ s, s ∈ srcs → s ∈ pk_sources p) →
  (st = "needs_explanation" → search_complete p = true) →
  verdict p (completed st reasons srcs None).
Proof. intros. split; try done; cbn. intros [= ->]. auto. Qed.

Lemma in_texts (x : pystr) l : str_in x l = true → x ∈ l.
Proof. apply str_in_iff. Qed.

Ltac plain := first
  [ apply verdict_blocked; by intros ? ?%elem_of_nil
  | apply verdict_completed; [by apply in_texts | done | by intros ? ?%elem_of_nil | done] ].

Lemma verdict_require_kind p ks o : require_kind p ks = Some o → verdict p o.
Proof. unfold require_kind. case_match; [done|]. intros [= <-]. plain. Qed.

Lemma verdict_unresolved p o : unresolved_values p = Some o → verdict p o.
Proof. unfold unresolved_values. repeat case_match; try done; intros [= <-]; plain. Qed.

Lemma unresolved_values_None p : unresolved_values p = None →
  ∃ s f, f_normalized (pk_sustainability p) = Some s ∧ f_normalized (pk_financial p) = Some f.
Proof. unfold unresolved_values. repeat case_match; try done. eauto. Qed.

Lemma require_kind_None p ks : require_kind p ks = None → str_in (kind p) ks = true.
Proof. unfold require_kind. by case_match. Qed.

Lemma cited_eq c : concat (c4_required c).*2 = c4_definition c ++ c4_calculation c.
Proof. unfold c4_required. simpl. by rewrite app_nil_r. Qed.

(** Finish a decision whose computations have all been evaluated. *)
Ltac branches :=
  repeat match goal with
  | |- decided (Ok _) _ => apply decided_Ok; first [plain | solve [eauto]]
  | |- decided (if ?b then _ else _) _ => destruct b
  | |- decided (match ?x with _ => _ end) _ => destruct x
  end.

Section decisions.
Context (p : Packet) (policy : Policy) (Hp : packet_ok p) (Hpol : policy_ok policy).

Lemma explanation_declared s : pk_explanation p = Some s → s ∈ pk_sources p.
Proof using Hp.
  intros H. apply (ok_references p Hp). unfold referenced. rewrite H.
  rewrite !elem_of_app. right. left. left.
Qed.

Lemma verdict_resolve r : verdict p (resolve_difference p r).
Proof using Hp.
  unfold resolve_difference. destruct (pk_explanation p) as [s|] eqn:E.
  - split; cbn; try done.
    + split; [done|]. by apply in_texts.
    + intros t ->%list_elem_of_singleton. by apply explanation_declared.
    + intros t [= <-]. split; [left|done].
  - destruct (search_complete p) eqn:Hs; [|plain].
    apply verdict_completed; [by apply in_texts|done|by intros ? ?%elem_of_nil|done].
Qed.

Hint Resolve verdict_require_kind verdict_unresolved verdict_resolve : core.

Lemma same_kind ks : str_in (kind p) ks = true → kind p = f_kind (pk_financial p) →
  str_in (f_kind (pk_financial p)) ks = true.
Proof using Type. by intros H <-. Qed.

Context (Hkind : kind p = f_kind (pk_financial p)).

Lemma decided_c1 : decided (evaluate_c1 p) (verdict p).
Proof using Hp Hkind.
  unfold evaluate_c1. apply decided_unless; [eauto|]. intros Hk%require_kind_None.
  apply decided_unless; [eauto|]. intros (s & f & Hs & Hf)%unresolved_values_None.
  destruct (both (id_period _)) as [a|]; [|apply decided_Ok; plain].
  destruct (both (id_financial_period _)) as [b|]; [|apply decided_Ok; plain].
  destruct (negb _); [apply decided_Ok; plain|].
  destruct (_ =s? _); [apply decided_Ok; plain|].
  destruct (normalized_entity_set _ s (ok_sustainability p Hp) Hk Hs) as [ls Hls].
  destruct (normalized_entity_set _ f (ok_financial p Hp) (same_kind _ Hk Hkind) Hf) as [lf Hlf].
  unfold normalized. rewrite Hs, Hf. cbn [of_option mbind result_bind]. rewrite Hls, Hlf.
  cbn [mbind result_bind]. branches.
Qed.

Lemma decided_c2 : decided (evaluate_c2 p) (verdict p).
Proof using Hp Hkind.
  unfold evaluate_c2. apply decided_unless; [eauto|]. intros Hk%require_kind_None.
  apply decided_unless; [eauto|]. intros (s & f & Hs & Hf)%unresolved_values_None.
  assert (Hk' : kind p = "period").
  { apply str_in_iff in Hk. by apply list_elem_of_singleton in Hk. }
  destruct (normalized_period _ s (ok_sustainability p Hp) Hk' Hs) as [ls Hls].
  destruct (normalized_period _ f (ok_financial p Hp)) as [lf Hlf]; [congruence|done|].
  destruct (reporting_window_total p (ok_period p Hp)) as [w Hw].
  unfold normalized. rewrite Hs, Hf. cbn [of_option mbind result_bind]. rewrite Hls, Hlf, Hw.
  cbn [mbind result_bind]. branches.
Qed.

Lemma decided_c3_rungs c : decided (c3_rungs p policy c) (verdict p).
Proof using Hp Hpol Hkind.
  unfold c3_rungs. apply decided_unless; [eauto|]. intros Hk%require_kind_None.
  apply decided_unless; [eauto|]. intros (s & f & Hs & Hf)%unresolved_values_None.
  assert (Hk' : kind p = "currency_amount").
  { apply str_in_iff in Hk. by apply list_elem_of_singleton in Hk. }
  destruct (normalized_decimal _ s (ok_sustainability p Hp) Hk' Hs) as [ls Hls].
  destruct (normalized_decimal _ f (ok_financial p Hp)) as [lf Hlf]; [congruence|done|].
  unfold normalized. rewrite Hs, Hf. cbn [of_option mbind result_bind]. rewrite Hls, Hlf.
  cbn [mbind result_bind].
  destruct (pol_threshold policy) as [t|] eqn:Ht; [|branches].
  destruct (threshold_decimal _ _ Hpol Ht) as [d Hd]. rewrite Hd. cbn [mbind result_bind]. branches.
Qed.

Lemma verdict_with_sources extra o :
  (∀ s, s ∈ extra → s ∈ pk_sources p) → verdict p o → verdict p (with_sources extra o).
Proof using Type.
  intros He [H1 H2 H3 H4 H5]. split; cbn; try done.
  - intros s [?|?]%elem_of_app; auto.
  - intros s Hs. destruct (H4 s Hs). split; [|done]. apply elem_of_app. auto.
Qed.

Lemma decided_c3 : is_Some (pk_c3 p) → decided (evaluate_c3 p policy) (verdict p).
Proof using Hp Hpol Hkind.
  intros [c Hc]. unfold evaluate_c3. destruct (_ || _); [apply decided_Ok; plain|].
  rewrite Hc. cbn [of_option mbind result_bind].
  eapply decided_fmap; [|apply decided_c3_rungs]. intros o Ho. apply verdict_with_sources; [|done].
  intros s Hs. apply (ok_references p Hp). unfold referenced. rewrite Hc, !elem_of_app.
  apply elem_of_app in Hs. tauto.
Qed.

Lemma decided_c4 : is_Some (pk_c4 p) → decided (evaluate_c4 p) (verdict p).
Proof using Hp.
  intros [c Hc]. unfold evaluate_c4. apply decided_unless; [eauto|]. intros _.
  apply decided_unless; [eauto|]. intros _. rewrite Hc. cbn [of_option mbind result_bind].
  assert (Hcited : ∀ s, s ∈ str_dedup (concat (c4_required c).*2) → s ∈ pk_sources p).
  { intros s Hs. rewrite elem_of_str_dedup in Hs. apply (ok_references p Hp). unfold referenced.
    rewrite cited_eq, elem_of_app in Hs. rewrite Hc, !elem_of_app. tauto. }
  destruct (negb (nonempty_list _)) eqn:Hm.
  { apply decided_Ok, verdict_completed; try done. by apply in_texts. }
  destruct (negb (search_complete p)) eqn:Hs; [by apply decided_Ok, verdict_blocked|].
  apply decided_Ok, verdict_completed; [by apply in_texts| |done|].
  - intros E. by rewrite E in Hm.
  - intros _. by destruct (search_complete p).
Qed.
End decisions.

Lemma decided_item p policy : packet_ok p → policy_ok policy →
  decided (decide_item p policy) (verdict p).
Proof.
  intros Hp Hpol. unfold decide_item. apply decided_unless.
  { unfold policy_gate. intros o. repeat case_match; try done; intros [= <-]; plain. }
  intros _. destruct (_ =s? _); [apply decided_Ok; plain|].
  destruct (_ =s? _); [apply decided_Ok; plain|].
  destruct (str_eqb_spec (kind p) (f_kind (pk_financial p))) as [Hkind|]; cbn [negb];
    [|apply decided_Ok; plain].
  destruct (_ =s? _); [apply decided_Ok; plain|].
  pose proof (ok_item p Hp) as Hi. pose proof (ok_c3 p Hp) as H3. pose proof (ok_c4 p Hp) as H4.
  unfold item_evaluator. unfold ITEMS in Hi. rewrite !elem_of_cons, elem_of_nil in Hi.
  destruct Hi as [Hi|[Hi|[Hi|[Hi|[]]]]]; rewrite Hi; cbn [str_eqb N.eqb Pos.eqb andb].
  - by apply decided_c1.
  - by apply decided_c2.
  - apply decided_c3; auto.
  - apply decided_c4; auto.
Qed.

(** When an outcome is [matched] without an explanation of a difference. *)
Inductive agrees (p : Packet) (policy : Policy) : Prop :=
| agrees_c1 period s f ls lf :
    pk_item p = "C1" → both (id_period (pk_identity p)) = Some period →
    both (id_financial_period (pk_identity p)) = Some period →
    id_consolidation (pk_identity p) ≠ "unknown" →
    f_normalized (pk_sustainability p) = Some s → f_normalized (pk_financial p) = Some f →
    parse_entity_set s = Ok ls → parse_entity_set f = Ok lf → ls ≠ [] →
    (∀ x, x ∈ ls ↔ x ∈ lf) → agrees p policy
| agrees_c2 s f window :
    pk_item p = "C2" →
    f_normalized (pk_sustainability p) = Some s → f_normalized (pk_financial p) = Some f →
    parse_period s = Ok window → parse_period f = Ok window → agrees p policy
| agrees_c3_disclosed c source :
    pk_item p = "C3" → pk_c3 p = Some c → c3_commitment c = Some source →
    account_mapping_resolved policy c = true → agrees p policy
| agrees_c3_threshold c s f t commitment capex threshold :
    pk_item p = "C3" → pk_c3 p = Some c → account_mapping_resolved policy c = true →
    f_normalized (pk_sustainability p) = Some s → f_normalized (pk_financial p) = Some f →
    pol_threshold policy = Some t → parse_decimal s = Ok commitment → parse_decimal f = Ok capex →
    parse_decimal t = Ok threshold → within_threshold commitment threshold capex = true →
    agrees p policy
| agrees_c4 c :
    pk_item p = "C4" → pk_c4 p = Some c → c4_definition c ≠ [] → c4_calculation c ≠ [] →
    agrees p policy.

(** A verified difference that a declared source explains. *)
Definition explained (p : Packet) (o : Outcome) : Prop :=
  ∃ s, pk_explanation p = Some s ∧ explanation_source_id o = Some s.

Lemma resolve_matched p r : o_status (resolve_difference p r) = Some "matched" →
  explained p (resolve_difference p r).
Proof.
  unfold resolve_difference. destruct (pk_explanation p) as [s|] eqn:E; [by exists s|].
  by destruct (search_complete p).
Qed.

Lemma str_pair_eqb_iff a b : str_pair_eqb a b = true ↔ a = b.
Proof.
  destruct a, b. unfold str_pair_eqb. cbn. rewrite andb_true_iff, !str_eqb_eq.
  split; [by intros [-> ->]|by intros [= -> ->]].
Qed.

Lemma unless_Ok g rest o : unless g rest = Ok o → g = Some o ∨ (g = None ∧ rest = Ok o).
Proof. destruct g; cbn; [intros [= ->]; by left | by right]. Qed.

Lemma normalized_Ok f v : normalized f = Ok v ↔ f_normalized f = Some v.
Proof. unfold normalized. by rewrite of_option_Ok. Qed.

Lemma require_kind_unmatched p ks o : require_kind p ks = Some o → o_status o ≠ Some "matched".
Proof. unfold require_kind. case_match; [done|]. by intros [= <-]. Qed.

Lemma unresolved_unmatched p o : unresolved_values p = Some o → o_status o ≠ Some "matched".
Proof. unfold unresolved_values. repeat case_match; try done; by intros [= <-]. Qed.

(** Past the two guards every item ladder starts with. *)
Lemma past_guards p ks rest o : unless (require_kind p ks) (unless (unresolved_values p) rest) = Ok o →
  o_status o = Some "matched" → rest = Ok o.
Proof.
  intros [H|[_ H]]%unless_Ok Hm; [by destruct (require_kind_unmatched _ _ _ H)|].
  apply unless_Ok in H as [H|[_ H]]; [by destruct (unresolved_unmatched _ _ H)|done].
Qed.

Section matched.
Context (p : Packet) (policy : Policy).

Lemma matched_c1 o : pk_item p = "C1" → evaluate_c1 p = Ok o → o_status o = Some "matched" →
  agrees p policy ∨ explained p o.
Proof.
  intros Hi H Hm. apply past_guards in H; [|done].
  destruct (both (id_period _)) as [a|] eqn:Ea; [|by simplify_eq].
  destruct (both (id_financial_period _)) as [b|] eqn:Eb; [|by simplify_eq].
  destruct (str_pair_eqb a b) eqn:Eab; [|by simplify_eq/=]. apply str_pair_eqb_iff in Eab as <-.
  cbn [negb] in H. destruct (str_eqb_spec (id_consolidation (pk_identity p)) "unknown");
    [by simplify_eq|].
  open_run H. match goal with H : normalized _ = _, H' : normalized _ = _ |- _ =>
    apply normalized_Ok in H; apply normalized_Ok in H' end.
  destruct (negb (nonempty_list x0) || negb (nonempty_list x2)) eqn:En; [by simplify_eq|].
  destruct (set_eqb x0 x2) eqn:Es; simplify_eq; [left|right; by apply resolve_matched].
  eapply agrees_c1; try eassumption; [by intros ->|by apply set_eqb_iff].
Qed.

Lemma matched_c2 o : pk_item p = "C2" → evaluate_c2 p = Ok o → o_status o = Some "matched" →
  agrees p policy ∨ explained p o.
Proof.
  intros Hi H Hm. apply past_guards in H; [|done]. open_run H.
  match goal with H : normalized _ = _, H' : normalized _ = _ |- _ =>
    apply normalized_Ok in H; apply normalized_Ok in H' end.
  cbn zeta in H. match type of H with (if ?b then _ else _) = _ => destruct b end; [by simplify_eq|].
  destruct x0 as [a b], x2 as [a' b']; cbn [fst snd] in H.
  destruct ((a =? a') && (b =? b'))%Z eqn:E; simplify_eq; [left|right; by apply resolve_matched].
  apply andb_true_iff in E as [->%Z.eqb_eq ->%Z.eqb_eq]. by eapply agrees_c2.
Qed.

Lemma matched_c3 o : pk_item p = "C3" → evaluate_c3 p policy = Ok o →
  o_status o = Some "matched" → agrees p policy ∨ explained p o.
Proof.
  intros Hi H Hm. unfold evaluate_c3 in H. destruct (_ || _); [by simplify_eq|].
  apply bind_Ok_inv in H as (c & Hc%of_option_Ok & (o' & H & <-)%fmap_Ok_inv).
  cbn in Hm. apply past_guards in H; [|done].
  destruct (_ || _); [by simplify_eq|].
  destruct (account_mapping_resolved policy c) eqn:Ha; [|by simplify_eq/=]. cbn [negb] in H.
  destruct (both (c3_target c)); [|by simplify_eq]. destruct (both (c3_capex c)); [|by simplify_eq].
  destruct (both (id_financial_period _)); [|by simplify_eq].
  destruct (negb _); [by simplify_eq|]. open_run H.
  match goal with H : normalized _ = _, H' : normalized _ = _ |- _ =>
    apply normalized_Ok in H; apply normalized_Ok in H' end.
  destruct (d_le_zero _); [by simplify_eq|]. destruct (d_le_zero _); [by simplify_eq|].
  destruct (c3_commitment c) as [src|] eqn:Es; [left; by eapply agrees_c3_disclosed|].
  cbn [given] in H. destruct (pol_threshold policy) as [t|] eqn:Et; [|by simplify_eq].
  apply bind_Ok_inv in H as (d & Hd & H).
  destruct (within_threshold _ _ _) eqn:Ew; simplify_eq.
  - left. by eapply agrees_c3_threshold.
  - right. by apply resolve_matched.
Qed.

Lemma matched_c4 o : pk_item p = "C4" → evaluate_c4 p = Ok o → o_status o = Some "matched" →
  agrees p policy ∨ explained p o.
Proof.
  intros Hi H Hm. apply past_guards in H; [|done].
  apply bind_Ok_inv in H as (c & Hc%of_option_Ok & H). cbn zeta in H.
  destruct (negb (nonempty_list _)) eqn:En.
  - left. apply (agrees_c4 p policy c); try done; intros E; revert En; unfold c4_required; rewrite E;
      [by simpl|by destruct (c4_definition c)].
  - exfalso. destruct (negb (search_complete p)); simplify_eq.
Qed.
End matched.

(* ------------------------------------------------------------------ *)
(** ** The threshold test is exact *)
(* ------------------------------------------------------------------ *)

(** The C3 threshold test compares the commitment with the product of threshold and
    capital expenditure as exact rationals: the local precision always holds every digit of the
    product, so no operand or intermediate result is rounded, whatever the number of digits. *)
Theorem threshold_exact (commitment threshold capex : decimal) :
  within_threshold commitment threshold capex = true
  ↔ (d_value commitment <= d_value threshold * d_value capex)%Q.
Proof.
  unfold within_threshold. cbv zeta. rewrite d_leb_value, d_mul_exact; [done|].
  unfold d_digits, py_len. lia.
Qed.

(* ------------------------------------------------------------------ *)
(** ** The entry point *)
(* ------------------------------------------------------------------ *)

(** The request names the accounting-judgement item. *)
Definition asks_c5 (packet : pyval) : Prop :=
  ∃ d v, packet = PDict d ∧ dict_get "item" d = Some v ∧ eq_str v C5_ITEM = true.

(** [^[class]{k}$] on [re.match]. *)
Lemma anchored_pattern (f : N → bool) (k : nat) (s : pystr) :
  forallb f (take k s) && (Z.of_nat k <=? py_len s)%Z && at_end (drop k s) = true
  ↔ ∃ d, length d = k ∧ forallb f d = true ∧ (s = d ∨ s = d ++ [10%N]).
Proof.
  split.
  - intros [[Hf Hk%Z.leb_le]%andb_true_iff He]%andb_true_iff. unfold py_len in Hk.
    exists (take k s). rewrite length_take. split_and!; [lia|done|].
    rewrite <- (take_drop k s) at 1 3. destruct (drop k s) as [|c [|]]; [|right|done].
    + left. by rewrite app_nil_r.
    + apply N.eqb_eq in He. by subst.
  - intros (d & <- & Hf & Hs).
    assert (∃ r, s = d ++ r ∧ at_end r = true) as (r & -> & Hr).
    { destruct Hs as [->| ->]; [exists []|exists [10%N]; done]. by rewrite app_nil_r. }
    rewrite take_app_length, drop_app_length, Hf, Hr, andb_true_r. cbn [andb].
    apply Z.leb_le. unfold py_len. rewrite length_app. lia.
Qed.

Lemma raises_reject_if (P : exn → Prop) b e : (b = true → P e) → raises P (reject b e).
Proof. destruct b; cbn; auto. Qed.

Section with_digest.
Context `{Digest}.

Lemma refuses_hash v : refuses (canonical_hash v).
Proof. unfold canonical_hash. walk. apply canonical_json_raises. Qed.

Lemma refuses_project packet policy p o : refuses (project packet policy p o).
Proof. unfold project. walk; apply refuses_hash. Qed.

(** A request is refused only by [DomainValidationError], except that every C5 request is
    refused by [NotImplementedError]; no other exception leaves the engine. *)
Theorem reconcile_refusals (packet policy : pyval) :
  raises (λ e, e = DomainValidationError ∨ (e = NotImplementedError ∧ asks_c5 packet))
    (reconcile packet policy).
Proof.
  assert (Hmono : ∀ A (m : result A), refuses m →
    raises (λ e, e = DomainValidationError ∨ (e = NotImplementedError ∧ asks_c5 packet)) m).
  { intros A [a|e]; cbn; auto. }
  unfold reconcile. destruct packet as [| | | | | | |d]; try (left; done).
  destruct policy as [| | | | | | |q]; try (left; done). cbn [as_dict mbind result_bind].
  apply raises_bind.
  { destruct (dict_get "item" d) as [v|] eqn:E; [|done]. apply raises_reject_if.
    intros Hv. right. split; [done|]. by exists d, v. }
  intros _ _. apply raises_bind; [apply Hmono, refuses_policy|]. intros pol Hpol.
  apply raises_bind; [apply Hmono, refuses_packet|]. intros p Hp.
  destruct (decided_item p pol) as (o & -> & _);
    [by eapply validate_packet_ok|by eapply validate_policy_ok|].
  apply Hmono, refuses_project.
Qed.

(** C37: a packet and a policy that validate are always decided: the item ladders re-read the
    values without an error, the outcome is completed with one of the three statuses or blocked
    without one, carries a reason, cites only declared sources, and says an explanation is
    missing only after a complete search; the result is the projection of that outcome. *)
Theorem reconcile_decides (packet policy : pydict) (p : Packet) (pol : Policy) :
  validate_packet packet = Ok p → validate_policy policy = Ok pol →
  ∃ o, decide_item p pol = Ok o ∧ verdict p o
     ∧ reconcile (PDict packet) (PDict policy) = project packet policy p o.
Proof.
  intros Hp Hpol.
  destruct (decided_item p pol) as (o & Ho & Hv);
    [by eapply validate_packet_ok|by eapply validate_policy_ok|].
  exists o. split_and!; [done..|]. unfold reconcile. cbn [as_dict mbind result_bind].
  assert (match dict_get "item" packet with Some v => eq_str v C5_ITEM | None => false end = false)
    as ->.
  { unfold validate_packet in Hp. open_run Hp.
    match goal with H : require_enum packet "item" _ = _ |- _ =>
      unfold require_enum, field in H; destruct (dict_get "item" packet) as [v|]; [|done];
      destruct v; try done; cbn [of_option mbind result_bind] in H; destruct (str_in s ITEMS) eqn:E;
      [|done] end.
    apply str_in_iff in E. cbn [eq_str]. apply str_eqb_neq. intros ->. by apply str_in_iff in E. }
  cbn [reject mbind result_bind]. rewrite Hpol. cbn [mbind result_bind]. rewrite Hp.
  cbn [mbind result_bind]. by rewrite Ho.
Qed.
End with_digest.

(** C38: [matched] is never a default: the policy is approved, at stage 1, admits the packet and
    enables its item, the pair is comparable and of one known kind, and either a declared source
    explains the difference or the item's own evidence agrees (equal non-empty identifier sets
    over one known period, the same reporting window, a disclosed or sufficient investment, both
    required explanations present). *)
Theorem matched_needs_evidence (p : Packet) (policy : Policy) (o : Outcome) :
  decide_item p policy = Ok o → o_status o = Some "matched" →
  (pol_approved policy = true ∧ pol_stage policy = 1%Z
   ∧ (pol_synthetic_only policy = true → pk_synthetic p = true)
   ∧ pk_item p ∈ pol_enabled policy)
  ∧ pk_comparability p ≠ "not_comparable" ∧ pk_comparability p ≠ "unknown"
  ∧ kind p = f_kind (pk_financial p) ∧ kind p ≠ "unknown"
  ∧ (agrees p policy ∨ explained p o).
Proof.
  unfold decide_item. intros [H|[Hg H]]%unless_Ok Hm.
  { exfalso. revert H Hm. unfold policy_gate. repeat case_match; try done; by intros [= <-]. }
  split.
  { revert Hg. unfold policy_gate. destruct (pol_approved policy); [|done].
    destruct (Z.eqb_spec (pol_stage policy) 1); [|done].
    destruct (pol_synthetic_only policy), (pk_synthetic p); cbn; try done;
      destruct (str_in_spec (pk_item p) (pol_enabled policy)); done. }
  destruct (str_eqb_spec (pk_comparability p) "not_comparable"); [by simplify_eq|].
  destruct (str_eqb_spec (pk_comparability p) "unknown"); [by simplify_eq|].
  destruct (str_eqb_spec (kind p) (f_kind (pk_financial p))); [|by simplify_eq/=].
  cbn [negb] in H. destruct (str_eqb_spec (kind p) "unknown"); [by simplify_eq|].
  split_and!; [done..|]. revert H. unfold item_evaluator.
  destruct (str_eqb_spec (pk_item p) "C1"); [intros; by apply matched_c1|].
  destruct (str_eqb_spec (pk_item p) "C2"); [intros; by apply matched_c2|].
  destruct (str_eqb_spec (pk_item p) "C3"); [intros; by apply matched_c3|].
  destruct (str_eqb_spec (pk_item p) "C4"); [intros; by apply matched_c4|done].
Qed.

(** The identifier patterns end in [$], which also matches before one final newline, so the
    eight-digit corporation code and the 64-character hash checks accept exactly the documented
    texts and those texts followed by a newline. *)
Theorem pattern_admits_newline (s : pystr) :
  (CORP_RE s = true ↔ ∃ d, length d = 8 ∧ all_digits d = true ∧ (s = d ∨ s = d ++ [10%N]))
  ∧ (HEX64_RE s = true ↔ ∃ d, length d = 64 ∧ forallb is_hex d = true ∧ (s = d ∨ s = d ++ [10%N])).
Proof. split; apply anchored_pattern. Qed.

(* ------------------------------------------------------------------ *)
(** ** A request *)
(* ------------------------------------------------------------------ *)

Definition sample_sha : pystr := replicate 64 97%N.

Definition sample_source (id : pystr) : pyval :=
  PDict [("source_id", PStr id); ("document_id", PStr "d"); ("artifact_sha256", PStr sample_sha);
         ("locator", PStr "p.1"); ("quote", PStr "q")].

Definition sample_fact (raw source : pystr) : pyval :=
  PDict [("raw", PStr raw); ("normalized", PStr raw); ("kind", PStr "entity_set");
         ("unit", PNone); ("source_id", PStr source)].

(** The JSON text of an array of two names. *)
Definition sample_set (a b : pystr) : pystr :=
  [91%N; 34%N] ++ a ++ [34%N; 44%N; 34%N] ++ b ++ [34%N; 93%N].

Definition sample_packet : pydict :=
  [("schema_version", PStr SCHEMA_VERSION); ("synthetic", PBool true);
   ("identity", PDict [
      ("tenant_id", PStr "t"); ("company_id", PStr "c"); ("claim_id", PStr "k");
      ("package_id", PStr "p"); ("period_start", PStr "2024-01-01");
      ("period_end", PStr "2024-12-31"); ("sustainability_document_version", PStr "1");
      ("financial_document_version", PStr "1"); ("dart_corp_code", PStr "00126380");
      ("financial_fiscal_year", PInt 2024); ("consolidation", PStr "consolidated");
      ("financial_period_start", PStr "2024-01-01"); ("financial_period_end", PStr "2024-12-31");
      ("sr_published_at", PNone); ("financial_published_at", PNone); ("rcept_no", PNone);
      ("as_of_date", PStr "2025-06-30")]);
   ("item", PStr "C1"); ("sources", PList [sample_source "s1"; sample_source "s2"]);
   ("sustainability", sample_fact (sample_set "a" "b") "s1");
   ("financial", sample_fact (sample_set "b" "a") "s2");
   ("comparability", PStr "comparable");
   ("explanation", PDict [("source_id", PNone); ("search_complete", PBool false)]);
   ("c3_context", PNone);
   ("claim", PDict [("track", PStr "goal"); ("quote", PStr "q"); ("source_id", PStr "s1");
                    ("trigger_elements", PList []); ("fiscal_year", PInt 2024)]);
   ("search", PDict [("state", PStr "incomplete"); ("coverage_policy_id", PNone);
                     ("required_document_ids", PList []); ("reviewed_source_ids", PList []);
                     ("failed_document_ids", PList []); ("receipt_id", PNone)]);
   ("c4_context", PNone)].

Definition sample_policy : pydict :=
  [("schema_version", PStr SCHEMA_VERSION); ("version", PStr "1"); ("approved", PBool true);
   ("synthetic_only", PBool true); ("current_stage", PInt 1); ("enabled_items", PList [PStr "C1"]);
   ("c1_identity_rule", PStr C1_IDENTITY_RULE); ("c3_threshold", PNone);
   ("c3_account_mapping_approved", PBool false); ("approved_by", PNone); ("approved_on", PNone);
   ("source_policy_sha256", PStr sample_sha); ("allowed_capex_account_ids", PList []);
   ("coverage_policy_id", PStr "cp"); ("allowed_difference_types", PList []);
   ("c2_timing_rule", PStr C2_TIMING_RULE);
   ("c4_required_explanations", PList (PStr <$> C4_REQUIRED_EXPLANATIONS))].

(** The value of a computation known to succeed. *)
Definition get_ok {A} (m : result A) : is_ok m = true → A :=
  match m with Ok a => λ _, a | Raise _ => λ H, False_rect A (Bool.diff_false_true H) end.

Definition sample_p : Packet := get_ok (validate_packet sample_packet) eq_refl.
Definition sample_pol : Policy := get_ok (validate_policy sample_policy) eq_refl.

Lemma reconcile_decides_witness :
  ∃ o, decide_item sample_p sample_pol = Ok o ∧ verdict sample_p o
     ∧ reconcile (H := Checksum) (PDict sample_packet) (PDict sample_policy)
       = project (H := Checksum) sample_packet sample_policy sample_p o.
Proof. apply (reconcile_decides (H := Checksum)); vm_compute; reflexivity. Defined.

Lemma matched_needs_evidence_witness :
  agrees sample_p sample_pol ∨ explained sample_p (get_ok (decide_item sample_p sample_pol) eq_refl).
Proof.
  refine (proj2 (proj2 (proj2 (proj2 (proj2 (matched_needs_evidence sample_p sample_pol _ _ _))))));
    vm_compute; reflexivity.
Defined.
