(* ===== verification/Regulatory.v ===== *)
(** * Applicability of a topic and of a regulatory deferral.

    [domain/applicability.py] resolves an industry's topic against a verified
    mapping; [domain/regulatory.py] resolves a deferral against the approved
    timeline of a rule-pack snapshot.  Both fail closed to [undetermined].
    Dates are proleptic ordinals; a [frozenset] of ids is a list without
    repetition. *)
From S2P Require Import Prelude PyVal JsonCodec Values PyDate Digest RulePack.

(* ------------------------------------------------------------------ *)
(** ** Industry applicability *)
(* ------------------------------------------------------------------ *)

(** [domain/applicability.py:19-22 _non_empty] *)
Definition non_empty (value : pyval) : result pystr :=
  s ← as_str DomainValidationError value;
  _ ← require (nonblank s) DomainValidationError;
  Ok s.

(** [domain/applicability.py:25-35 IndustryIdentity] *)
Record IndustryIdentity : Set := { industry_system : pystr; industry_code : option pystr }.

Definition mk_IndustryIdentity (system code : pyval) : result IndustryIdentity :=
  system ← non_empty system;
  code ← match code with PNone => Ok None | _ => Some <$> non_empty code end;
  Ok {| industry_system := system; industry_code := code |}.

(** [domain/applicability.py:38-59 IndustryMappingEntry] *)
Record IndustryMappingEntry : Set := {
  e_system : pystr; e_code : pystr; e_topic : pystr;
  e_applicability : pystr; e_mandatory : option bool }.

(** [domain/applicability.py:48-59 IndustryMappingEntry.__post_init__] *)
Definition mk_IndustryMappingEntry (system code topic applicability mandatory : pyval)
    : result IndustryMappingEntry :=
  system ← non_empty system;
  code ← non_empty code;
  topic ← non_empty topic;
  mandatory ←
    (if eq_str applicability "applicable" then
       match mandatory with PBool b => Ok (Some b) | _ => Raise DomainValidationError end
     else if eq_str applicability "N_A" then
       match mandatory with PNone => Ok None | _ => Raise DomainValidationError end
     else Raise DomainValidationError);
  Ok {| e_system := system; e_code := code; e_topic := topic;
        e_applicability := if (mandatory : option bool) then "applicable" else "N_A";
        e_mandatory := mandatory |}.

(** [domain/applicability.py:62-68 IndustryMapping] *)
Record IndustryMapping : Set := {
  map_version : pystr; map_verified : bool; map_entries : list IndustryMappingEntry }.

Definition entry_keyed (s c t : pystr) (e : IndustryMappingEntry) : bool :=
  (e_system e =s? s) && (e_code e =s? c) && (e_topic e =s? t).

Definition same_entry_key (a b : IndustryMappingEntry) : bool :=
  entry_keyed (e_system a) (e_code a) (e_topic a) b.

(** [domain/applicability.py:70-79 IndustryMapping.__post_init__] *)
Definition mk_IndustryMapping (version verification_status : pyval)
    (entries : list IndustryMappingEntry) : result IndustryMapping :=
  version ← non_empty version;
  verified ← (if eq_str verification_status "verified" then Ok true
              else if eq_str verification_status "unverified" then Ok false
              else Raise DomainValidationError);
  _ ← require (all_distinct same_entry_key entries) DomainValidationError;
  Ok {| map_version := version; map_verified := verified; map_entries := entries |}.

(** [domain/applicability.py:82-88 IndustryApplicability] *)
Record IndustryApplicability : Set := {
  applicability : pystr; mandatory : option bool; mapping_version : option pystr }.

(** [domain/applicability.py:90-98 IndustryApplicability.__post_init__] *)
Definition mk_IndustryApplicability (a : pystr) (m : option bool) (v : option pystr)
    : result IndustryApplicability :=
  _ ← require (str_in a ["applicable"; "N_A"; "undetermined"]) DomainValidationError;
  _ ← reject ((a =s? "applicable") && bool_decide (m = None)) DomainValidationError;
  _ ← reject (negb (a =s? "applicable") && bool_decide (m ≠ None)) DomainValidationError;
  _ ← match v with None => Ok [] | Some v => non_empty (PStr v) end;
  Ok {| applicability := a; mandatory := m; mapping_version := v |}.

(** The characters that case-fold to the lower-case ASCII letter [t]: itself,
    its upper case, and the Kelvin sign for [k]. *)
Definition folds_to (t c : N) : bool :=
  ((c =? t) || (c =? t - 32) || (t =? 107) && (c =? 8490))%N.

(** [s.casefold() == target] for lower-case ASCII [target] without [f], [i],
    [s] or [t], the letters that occur in multi-letter foldings. *)
Fixpoint casefold_is (target s : pystr) : bool :=
  match target, s with
  | [], [] => true
  | t :: target, c :: s => folds_to t c && casefold_is target s
  | _, _ => false
  end.

(** [domain/applicability.py:101-127 resolve_industry_applicability] *)
Definition resolve_industry_applicability (industry : IndustryIdentity) (topic_id : pyval)
    (mapping : option IndustryMapping) : result IndustryApplicability :=
  topic ← non_empty topic_id;
  match mapping with
  | None => mk_IndustryApplicability "undetermined" None None
  | Some m =>
      match industry_code industry with
      | Some code =>
          if casefold_is "unknown" (industry_system industry) || negb (map_verified m) then
            mk_IndustryApplicability "undetermined" None (Some (map_version m))
          else
            match find (entry_keyed (industry_system industry) code topic) (map_entries m) with
            | Some e => mk_IndustryApplicability (e_applicability e) (e_mandatory e)
                          (Some (map_version m))
            | None => mk_IndustryApplicability "undetermined" None (Some (map_version m))
            end
      | None => mk_IndustryApplicability "undetermined" None (Some (map_version m))
      end
  end.

(* ------------------------------------------------------------------ *)
(** ** Deferral timeline *)
(* ------------------------------------------------------------------ *)

(** [domain/regulatory.py:25-34 _condition_ids] *)
Definition condition_ids (values : pyval) : result (list pystr) :=
  l ← match values with
      | PList l | PTuple l => Ok l
      | PDict d => Ok (PStr <$> dict_keys d)
      | _ => Raise DomainValidationError
      end;
  ids ← map_result (as_str DomainValidationError) l;
  _ ← require (forallb nonempty ids) DomainValidationError;
  Ok (str_dedup ids).

(** [domain/regulatory.py:59-66 CompanyContext] *)
Record CompanyContext : Set := {
  cc_tenant : pystr; cc_company : pystr; cc_as_of : Z; cc_conditions : list pystr }.

(** [domain/regulatory.py:68-73 CompanyContext.__post_init__] *)
Definition mk_CompanyContext (tenant company : pyval) (as_of : Z) (conditions : pyval)
    : result CompanyContext :=
  tenant ← require_uuid tenant;
  company ← require_uuid company;
  conditions ← condition_ids conditions;
  Ok {| cc_tenant := tenant; cc_company := company; cc_as_of := as_of;
        cc_conditions := conditions |}.

(** [domain/regulatory.py:76-84 _TimelineEntry] *)
Record TimelineEntry : Set := {
  entry_id : pystr; outcome : pystr; entry_conditions : list pystr;
  starts_on : Z; ends_before : option Z }.

Definition ENTRY_OUTCOMES : list pystr := ["required"; "advisory"].

(** [domain/regulatory.py:86-98 _TimelineEntry.__post_init__] *)
Definition mk_TimelineEntry (id out : pyval) (conditions : list pystr) (starts : Z)
    (ends : option Z) : result TimelineEntry :=
  id ← as_str DomainValidationError id;
  _ ← require (nonempty id) DomainValidationError;
  out ← as_str DomainValidationError out;
  _ ← require (str_in out ENTRY_OUTCOMES) DomainValidationError;
  _ ← match ends with
      | Some e => reject (e <=? starts)%Z DomainValidationError
      | None => Ok tt
      end;
  Ok {| entry_id := id; outcome := out; entry_conditions := conditions; starts_on := starts;
        ends_before := ends |}.

(** [domain/regulatory.py:100-105 _TimelineEntry.matches] *)
Definition matches (e : TimelineEntry) (context : CompanyContext) : bool :=
  forallb (λ c, str_in c (cc_conditions context)) (entry_conditions e)
  && (starts_on e <=? cc_as_of context)%Z
  && match ends_before e with Some z => (cc_as_of context <? z)%Z | None => true end.

(** [date.fromisoformat] on a text, refusing anything else. *)
Definition iso_date (v : pyval) : result Z :=
  s ← as_str DomainValidationError v; of_option DomainValidationError (date_fromisoformat s).

(** [domain/regulatory.py:108-136 _entry_from_dict] *)
Definition entry_from_dict (value : pyval) : result TimelineEntry :=
  d ← as_dict DomainValidationError value;
  let read (k : pystr) : result pyval := of_option DomainValidationError (dict_get k d) in
  id ← read "entry_id";
  out ← read "outcome";
  conditions ← read "condition_ids";
  starts ← read "starts_on";
  ends ← read "ends_before";
  start_date ← iso_date starts;
  end_date ← match ends with PNone => Ok None | _ => Some <$> iso_date ends end;
  items ← as_seq DomainValidationError conditions;
  ids ← condition_ids (PList items);
  mk_TimelineEntry id out ids start_date end_date.

Definition get_is (d : pydict) (k : pystr) (p : pyval → bool) : bool :=
  match dict_get k d with Some v => p v | None => false end.

(** [domain/regulatory.py:144-151 _approved_entries] *)
Definition timeline_approved (s : RulePackSnapshot) (timeline : pydict) : bool :=
  str_in (status s) ["validated"; "active"]
  && match approved_by s with Some a => nonblank a | None => false end
  && match approved_at s with Some t => utc_text t | None => false end
  && get_is timeline "verification_status" (λ v, eq_str v "approved")
  && get_is timeline "automatic_legal_applicability_enabled"
       (λ v, match v with PBool true => true | _ => false end).

Definition is_refusal (e : exn) : bool :=
  match e with DomainValidationError => true | _ => false end.
Definition is_key_error (e : exn) : bool := match e with KeyError => true | _ => false end.

(** The entries of an approved timeline.
    [domain/regulatory.py:153-162 _approved_entries] *)
Definition read_entries (timeline : pydict) : result (option (list TimelineEntry)) :=
  match dict_get "entries" timeline with
  | Some (PList raw) =>
      entries ← catch is_refusal (Some <$> map_result entry_from_dict raw) (λ _, Ok None);
      match (entries : option (list TimelineEntry)) with
      | Some entries => if str_distinct (entry_id <$> entries) then Ok (Some entries) else Ok None
      | None => Ok None
      end
  | _ => Ok None
  end.

(** [domain/regulatory.py:139-162 _approved_entries] *)
Definition approved_entries (s : RulePackSnapshot) : result (option (list TimelineEntry)) :=
  timeline ← catch is_key_error (Some <$> file_content s "regulatory/timeline.yaml") (λ _, Ok None);
  match (timeline : option pydict) with
  | Some timeline => if timeline_approved s timeline then read_entries timeline else Ok None
  | None => Ok None
  end.

(** [domain/regulatory.py:165-176 resolve_deferral] *)
Definition resolve_deferral (context : CompanyContext) (timeline : RulePackSnapshot)
    : result pystr :=
  if negb (cc_tenant context =s? tenant_id timeline) then Ok "undetermined"
  else
    entries ← approved_entries timeline;
    match (entries : option (list TimelineEntry)) with
    | None => Ok "undetermined"
    | Some entries =>
        match List.filter (λ e, matches e context) entries with
        | [e] => Ok (outcome e)
        | _ => Ok "undetermined"
        end
    end.

(* ------------------------------------------------------------------ *)
(** ** Theorems: industries *)
(* ------------------------------------------------------------------ *)

Definition entry_wf (e : IndustryMappingEntry) : Prop :=
  (e_applicability e = "applicable" ∧ is_Some (e_mandatory e))
  ∨ (e_applicability e = "N_A" ∧ e_mandatory e = None).

Lemma mk_entry_wf s c t a m e : mk_IndustryMappingEntry s c t a m = Ok e → entry_wf e.
Proof.
  unfold mk_IndustryMappingEntry. intros H. open_run H. injection H as <-.
  destruct x2; [left|right]; by repeat econstructor.
Qed.

(** A mapping whose entries and version came through the constructors. *)
Definition mapping_wf (m : IndustryMapping) : Prop :=
  nonblank (map_version m) = true ∧ Forall entry_wf (map_entries m)
  ∧ all_distinct same_entry_key (map_entries m) = true.

Lemma mk_mapping_wf v st es m :
  Forall entry_wf es → mk_IndustryMapping v st es = Ok m → mapping_wf m.
Proof.
  intros He. unfold mk_IndustryMapping, non_empty. intros H. ok_inv H. by subst.
Qed.

Lemma undetermined_total v : match v with Some v => nonblank v = true | None => True end →
  mk_IndustryApplicability "undetermined" None v
  = Ok {| applicability := "undetermined"; mandatory := None; mapping_version := v |}.
Proof.
  intros Hv. unfold mk_IndustryApplicability. destruct v as [v|]; [|done]. cbn in Hv |- *.
  by rewrite Hv.
Qed.

Lemma of_entry_total e v : entry_wf e → nonblank v = true →
  mk_IndustryApplicability (e_applicability e) (e_mandatory e) (Some v)
  = Ok {| applicability := e_applicability e; mandatory := e_mandatory e;
          mapping_version := Some v |}.
Proof.
  intros [[Ha [b Hb]]|[Ha Hb]] Hv; unfold mk_IndustryApplicability; rewrite Ha, Hb; cbn;
    by rewrite Hv.
Qed.

Lemma entry_keyed_iff s c t e :
  entry_keyed s c t e = true ↔ e_system e = s ∧ e_code e = c ∧ e_topic e = t.
Proof. unfold entry_keyed. rewrite !andb_true_iff, !str_eqb_eq. tauto. Qed.

(** The entries of a mapping are a function of their key. *)
Lemma find_unique s c t l e : all_distinct same_entry_key l = true → e ∈ l →
  entry_keyed s c t e = true → find (entry_keyed s c t) l = Some e.
Proof.
  induction l as [|x l IH]; [by intros _ ?%elem_of_nil|]. cbn [all_distinct find].
  intros [Hx Hl]%andb_true_iff Hin He. destruct (entry_keyed s c t x) eqn:Ex.
  - apply elem_of_cons in Hin as [->|Hin]; [done|]. exfalso.
    apply negb_true_iff in Hx. rewrite <- not_true_iff_false in Hx. apply Hx, existsb_exists.
    exists e. split; [by apply list_elem_of_In|].
    apply entry_keyed_iff in He as (<- & <- & <-), Ex as (E1 & E2 & E3).
    apply entry_keyed_iff. by rewrite E1, E2, E3.
  - apply elem_of_cons in Hin as [->|Hin]; [congruence|]. auto.
Qed.

(** A topic is decided exactly by the one entry of a verified mapping for the classified
    industry: the answer is that entry's, and in every other case (no mapping, no code, unknown
    system, unverified mapping, no entry) it is [undetermined] without a mandatory flag, never
    [N_A]; no error is raised past the blank-topic refusal. *)
Theorem industry_exact (industry : IndustryIdentity) (topic : pystr) (m : IndustryMapping) :
  mapping_wf m → nonblank topic = true →
  ∃ r, resolve_industry_applicability industry (PStr topic) (Some m) = Ok r
    ∧ mapping_version r = Some (map_version m)
    ∧ ((applicability r = "undetermined" ∧ mandatory r = None)
       ∨ (applicability r = "applicable" ∧ is_Some (mandatory r))
       ∨ (applicability r = "N_A" ∧ mandatory r = None))
    ∧ ∀ a b, a ≠ "undetermined" →
        ((applicability r = a ∧ mandatory r = b)
         ↔ ∃ e code, e ∈ map_entries m ∧ industry_code industry = Some code
             ∧ map_verified m = true ∧ casefold_is "unknown" (industry_system industry) = false
             ∧ e_system e = industry_system industry ∧ e_code e = code ∧ e_topic e = topic
             ∧ e_applicability e = a ∧ e_mandatory e = b).
Proof.
  intros (Hv & Hes & Hd) Ht. unfold resolve_industry_applicability, non_empty.
  cbn [as_str mbind result_bind]. rewrite Ht. cbn [require mbind result_bind].
  pose proof (undetermined_total (Some (map_version m)) Hv) as Hund.
  destruct (industry_code industry) as [code|] eqn:Hc; cycle 1.
  { rewrite Hund. eexists. split_and!; [done..|by left|]. intros a b Ha. cbn. split.
    - by intros [<- _].
    - intros (e & code & _ & ? & _). congruence. }
  destruct (casefold_is "unknown" (industry_system industry)) eqn:Hu; cbn [orb].
  { rewrite Hund. eexists. split_and!; [done..|by left|]. intros a b Ha. cbn. split.
    - by intros [<- _].
    - intros (e & ? & _ & _ & _ & ? & _). congruence. }
  destruct (map_verified m) eqn:Hver; cbn [negb]; cycle 1.
  { rewrite Hund. eexists. split_and!; [done..|by left|]. intros a b Ha. cbn. split.
    - by intros [<- _].
    - intros (e & ? & _ & _ & ? & _). congruence. }
  destruct (find _ _) as [e|] eqn:Hf.
  - destruct (find_some _ _ Hf) as [Hin Hk]. apply list_elem_of_In in Hin.
    apply entry_keyed_iff in Hk as (Hk1 & Hk2 & Hk3).
    rewrite Forall_forall in Hes. rewrite of_entry_total by auto.
    eexists. split_and!; [done..| |]; cbn; [right; apply (Hes e Hin)|].
    intros a b Ha. split.
    + intros [<- <-]. by exists e, code.
    + intros (e' & ? & Hin' & [= <-] & _ & _ & Hs' & Hc' & Ht' & <- & <-).
      rewrite (find_unique _ _ _ _ e') in Hf; [by injection Hf as ->|done|done|].
      by apply entry_keyed_iff.
  - rewrite Hund. eexists. split_and!; [done..|by left|]. intros a b Ha. cbn. split.
    + by intros [<- _].
    + intros (e & ? & Hin & [= <-] & _ & _ & Hs & Hc' & Ht' & _).
      apply find_none with (x := e) in Hf; [|by apply list_elem_of_In].
      apply not_true_iff_false in Hf. destruct Hf. by apply entry_keyed_iff.
Qed.

Definition core_entry : IndustryMappingEntry :=
  {| e_system := "GICS"; e_code := "10"; e_topic := "T1"; e_applicability := "applicable";
     e_mandatory := Some true |}.
Definition core_mapping : IndustryMapping :=
  {| map_version := "m1"; map_verified := true; map_entries := [core_entry] |}.

Lemma industry_exact_witness :
  ∃ r, resolve_industry_applicability {| industry_system := "GICS"; industry_code := Some "10" |}
         (PStr "T1") (Some core_mapping) = Ok r ∧ mapping_version r = Some "m1".
Proof.
  destruct (industry_exact {| industry_system := "GICS"; industry_code := Some "10" |} "T1"
              core_mapping) as (r & Hr & Hv & _).
  - split; [reflexivity|]. split; [|reflexivity]. constructor; [|constructor].
    left. split; [reflexivity|]. by exists true.
  - reflexivity.
  - by exists r.
Defined.

Example kelvin_is_unknown :
  applicability <$> resolve_industry_applicability
    {| industry_system := [117; 110; 8490; 110; 79; 119; 110]%N; industry_code := Some "10" |}
    (PStr "T1") (Some core_mapping) = Ok "undetermined".
Proof. reflexivity. Qed.

(* ------------------------------------------------------------------ *)
(** ** Theorems: deferrals *)
(* ------------------------------------------------------------------ *)

(** An entry covers a company on its half-open period. *)
Definition applies (e : TimelineEntry) (context : CompanyContext) : Prop :=
  (∀ c, c ∈ entry_conditions e → c ∈ cc_conditions context)
  ∧ (starts_on e <= cc_as_of context)%Z
  ∧ ∀ z, ends_before e = Some z → (cc_as_of context < z)%Z.

Lemma matches_iff e context : matches e context = true ↔ applies e context.
Proof.
  unfold matches, applies. rewrite !andb_true_iff, forallb_forall, Z.leb_le.
  setoid_rewrite <- list_elem_of_In. setoid_rewrite str_in_iff.
  destruct (ends_before e) as [z|]; [rewrite Z.ltb_lt|]; naive_solver.
Qed.

Lemma entry_outcome v e : entry_from_dict v = Ok e → outcome e ∈ ENTRY_OUTCOMES.
Proof.
  unfold entry_from_dict, mk_TimelineEntry. intros H. open_run H. injection H as <-. cbn.
  match goal with H : require (str_in _ _) _ = _ |- _ => apply require_Ok in H end.
  by apply str_in_iff.
Qed.

(** A filter of a list without repetition is a singleton when one element passes. *)
Lemma filter_singleton {A} (f : A → bool) (l : list A) (x : A) : NoDup l →
  List.filter f l = [x] ↔ x ∈ l ∧ f x = true ∧ ∀ y, y ∈ l → f y = true → y = x.
Proof.
  intros Hl. assert (Hin : ∀ y, y ∈ List.filter f l ↔ y ∈ l ∧ f y = true).
  { intros y. apply elem_of_lfilter. }
  split.
  - intros E. rewrite E in Hin. setoid_rewrite list_elem_of_singleton in Hin.
    split_and!; [by apply (Hin x)|by apply (Hin x)|]. intros y ??. by apply Hin.
  - intros (Hx & Hf & Hu). assert (Hnd : NoDup (List.filter f l)).
    { clear -Hl. induction Hl as [|y l Hy Hl IH]; cbn; [constructor|].
      destruct (f y); [|done]. constructor; [|done].
      by rewrite list_elem_of_In, filter_In, <- list_elem_of_In; intros []. }
    apply Permutation_singleton_r, NoDup_Permutation;
      [done|apply NoDup_singleton|].
    intros y. rewrite Hin, list_elem_of_singleton. naive_solver.
Qed.

Lemma NoDup_of_fmap {A B} (f : A → B) (l : list A) : NoDup (f <$> l) → NoDup l.
Proof. apply NoDup_fmap_1. Qed.

Section with_digest.
Context `{Digest}.

Definition TIMELINE : pystr := "regulatory/timeline.yaml".

Lemma approved_entries_Some s es :
  approved_entries s = Ok (Some es) ↔
  ∃ d raw, file_content s TIMELINE = Ok d ∧ timeline_approved s d = true
    ∧ dict_get "entries" d = Some (PList raw) ∧ map_result entry_from_dict raw = Ok es
    ∧ NoDup (entry_id <$> es).
Proof.
  unfold approved_entries. fold TIMELINE. split.
  - intros (tl & Htl & Hr)%bind_Ok_inv. destruct tl as [d|]; [|done].
    apply catch_Ok in Htl as [Htl|(? & _ & _ & ?)]; [|done].
    apply fmap_Ok_inv in Htl as (d' & Hd & [= ->]).
    destruct (timeline_approved s d) eqn:Ha; [|done]. unfold read_entries in Hr.
    destruct (dict_get "entries" d) as [[| | | | |raw| |]|] eqn:He; try done.
    apply bind_Ok_inv in Hr as (o & Ho & Hr). destruct o as [es'|]; [|done].
    apply catch_Ok in Ho as [Ho|(? & _ & _ & ?)]; [|done].
    apply fmap_Ok_inv in Ho as (es0 & Hes & [= ->]).
    destruct (str_distinct _) eqn:Hd'; [|done]. injection Hr as ->.
    exists d, raw. split_and!; try done. by apply str_distinct_iff.
  - intros (d & raw & Hd & Ha & He & Hm & Hn). rewrite Hd. cbn. rewrite Ha. unfold read_entries.
    rewrite He. cbn. rewrite Hm. cbn. by apply str_distinct_iff in Hn as ->.
Qed.

(** A deferral is resolved to an outcome exactly when the snapshot is the company's own,
    approved by a named person at a UTC instant, its timeline approved for automatic use with
    well-formed, distinctly named entries, and exactly one entry covers the company on that day
    (conditions included, start included, end excluded); the outcome is that entry's and is
    [required] or [advisory]. *)
Theorem deferral_exact (context : CompanyContext) (s : RulePackSnapshot) (o : pystr) :
  (resolve_deferral context s = Ok o ∧ o ≠ "undetermined")
  ↔ cc_tenant context = tenant_id s ∧ o ∈ ENTRY_OUTCOMES
    ∧ ∃ d raw entries e,
        file_content s TIMELINE = Ok d ∧ timeline_approved s d = true
        ∧ dict_get "entries" d = Some (PList raw)
        ∧ map_result entry_from_dict raw = Ok entries ∧ NoDup (entry_id <$> entries)
        ∧ e ∈ entries ∧ outcome e = o ∧ applies e context
        ∧ ∀ e', e' ∈ entries → applies e' context → e' = e.
Proof.
  unfold resolve_deferral. split.
  - destruct (str_eqb_spec (cc_tenant context) (tenant_id s)) as [Ht|]; cbn [negb];
      [|by intros [[= <-] ?]].
    intros [(es & Hes & Hr)%bind_Ok_inv Ho]. destruct es as [es|]; [|congruence].
    apply approved_entries_Some in Hes as (d & raw & Hd & Ha & He & Hm & Hn).
    destruct (List.filter _ es) as [|e [|]] eqn:Hf; [congruence| |congruence].
    injection Hr as <-. apply filter_singleton in Hf as (Hin & Hap & Hu); [|by eapply NoDup_of_fmap].
    rewrite matches_iff in Hap. setoid_rewrite matches_iff in Hu.
    split_and!; [done| |by exists d, raw, es, e].
    apply map_result_Ok in Hm. apply list_elem_of_lookup in Hin as [i Hi].
    destruct (Forall2_lookup_r _ _ _ _ _ Hm Hi) as (v & _ & Hv). by eapply entry_outcome.
  - intros (Ht & Ho & d & raw & es & e & Hd & Ha & He & Hm & Hn & Hin & <- & Hap & Hu).
    split; [|intros E; rewrite E in Ho; by apply str_in_iff in Ho].
    rewrite Ht, str_eqb_refl. cbn [negb].
    assert (approved_entries s = Ok (Some es)) as ->.
    { apply approved_entries_Some. by exists d, raw. }
    cbn [mbind result_bind]. rewrite (proj2 (filter_singleton _ es e (NoDup_of_fmap _ _ Hn))); [done|].
    split_and!; [done|by apply matches_iff|]. setoid_rewrite matches_iff. done.
Qed.
End with_digest.

(** A snapshot with one approved entry from 2026-01-01 until 2027-01-01. *)
Definition timeline_content : pyval :=
  PDict [("verification_status", PStr "approved");
         ("automatic_legal_applicability_enabled", PBool true);
         ("entries", PList [PDict [
            ("entry_id", PStr "e1"); ("outcome", PStr "required");
            ("condition_ids", PList [PStr "listed"]); ("starts_on", PStr "2026-01-01");
            ("ends_before", PStr "2027-01-01")]])].

Definition timeline_snapshot : RulePackSnapshot :=
  {| rule_pack_id := "p"; tenant_id := "t"; version := "1"; effective_date := "2026-01-01";
     mode := "m"; status := "active"; ontology_version := "1"; source_document_sha256 := "s";
     sha256 := "s"; files := [TIMELINE]; unresolved_gap_ids := []; approved_by := Some "kim";
     approved_at := Some "2025-12-01T00:00:00Z";
     content := [(TIMELINE, match json_dumps timeline_content with Ok t => t | Raise _ => [] end)] |}.

Definition listed_on (day : pystr) : CompanyContext :=
  {| cc_tenant := "t"; cc_company := "c";
     cc_as_of := match date_fromisoformat day with Some d => d | None => 0%Z end;
     cc_conditions := ["listed"; "large"] |}.

Example deferral_half_open :
  resolve_deferral (listed_on "2026-01-01") timeline_snapshot = Ok "required"
  ∧ resolve_deferral (listed_on "2026-12-31") timeline_snapshot = Ok "required"
  ∧ resolve_deferral (listed_on "2027-01-01") timeline_snapshot = Ok "undetermined".
Proof. vm_compute. repeat split. Qed.
