(* ===== verification/Jobs.v ===== *)
(** * Durable jobs: leases, fencing and the outbox.

    [application/ports/jobs.py] and [adapters/local/job_store.py].  The table
    [job_records] is keyed by (tenant, run, kind, record id); its kinds are
    the fields of [store], each a finite map.  A transaction that raises is
    rolled back: an operation returns the new store only on success.  Times
    are integer seconds.  The stage validators that [commit_job] calls on
    local checkpoints are the interface [Stages]; the publication hook of the
    tag stage is outside the model, so [commit_job] is the call without it. *)
From S2P Require Import Prelude PyVal JsonCodec Values PyDate Digest RulePack Rules AuditChain.

(* ------------------------------------------------------------------ *)
(** ** Messages and leases *)
(* ------------------------------------------------------------------ *)

(** [application/ports/jobs.py:24-32 JobMessage] *)
Record JobMessage : Set := {
  jm_tenant : pystr; jm_run : pystr; jm_version : pystr; jm_job : pystr;
  jm_stage : pystr; jm_shard : pystr; jm_input_hash : pystr }.

#[export] Instance message_eq_dec : EqDecision JobMessage.
Proof. solve_decision. Defined.

(** [[A-Za-z0-9_-]{1,128}] *)
Definition is_token_char (c : N) : bool :=
  (is_digit c || (65 <=? c) && (c <=? 90) || (97 <=? c) && (c <=? 122) || (c =? 95) || (c =? 45))%N.
Definition is_token (s : pystr) : bool :=
  forallb is_token_char s && (1 <=? py_len s)%Z && (py_len s <=? 128)%Z.

(** [application/ports/jobs.py:34-41 JobMessage.__post_init__] *)
Definition mk_JobMessage (m : JobMessage) : result JobMessage :=
  _ ← check_uuid (jm_tenant m);
  _ ← check_uuid (jm_run m);
  _ ← check_uuid (jm_version m);
  _ ← check_uuid (jm_job m);
  _ ← check_sha256 (jm_input_hash m);
  _ ← require (is_token (jm_stage m)) (ValueError "invalid stage");
  _ ← require (is_token (jm_shard m)) (ValueError "invalid shard");
  Ok m.

(** [application/ports/jobs.py:44-50 JobLease] *)
Record JobLease : Set := {
  jl_message : JobMessage; jl_owner : pystr; jl_token : Z; jl_attempt : Z; jl_until : Z }.

#[export] Instance lease_eq_dec : EqDecision JobLease.
Proof. solve_decision. Defined.

(** [application/ports/jobs.py:52-59 JobLease.__post_init__] *)
Definition mk_JobLease (l : JobLease) : result JobLease :=
  _ ← require (nonblank (jl_owner l)) (ValueError "owner must be non-empty");
  _ ← reject (jl_token l <? 1)%Z (ValueError "must be positive");
  _ ← reject (jl_attempt l <? 1)%Z (ValueError "must be positive");
  _ ← reject (jl_until l <? 1)%Z (ValueError "must be positive");
  Ok l.

(** [asdict(message)] *)
Definition message_val (m : JobMessage) : pyval :=
  PDict [("tenant_id", PStr (jm_tenant m)); ("run_id", PStr (jm_run m));
         ("document_version_id", PStr (jm_version m)); ("job_id", PStr (jm_job m));
         ("stage", PStr (jm_stage m)); ("shard", PStr (jm_shard m));
         ("input_hash", PStr (jm_input_hash m))].

(* ------------------------------------------------------------------ *)
(** ** Records *)
(* ------------------------------------------------------------------ *)

Inductive run_status : Set :=
| RunQueued | RunRunning | RunPartial | RunCompleted | RunFailed | RunCancelled.
#[export] Instance run_status_eq_dec : EqDecision run_status.
Proof. solve_decision. Defined.

Definition run_status_str (s : run_status) : pystr :=
  match s with
  | RunQueued => "queued" | RunRunning => "running" | RunPartial => "partial"
  | RunCompleted => "completed" | RunFailed => "failed" | RunCancelled => "cancelled"
  end.

(** The run record; the keys later stages add are [ru_extra].
    [adapters/local/job_store.py:171-180 create_run_transaction] *)
Record Run : Set := {
  ru_tenant : pystr; ru_run : pystr; ru_version : pystr; ru_status : run_status;
  ru_revision : Z; ru_epoch : Z; ru_cancelled : bool; ru_extra : pydict }.

Inductive job_status : Set :=
| Pending | Leased | Succeeded | Failed | Cancelled | Superseded.
#[export] Instance job_status_eq_dec : EqDecision job_status.
Proof. solve_decision. Defined.

Definition job_status_str (s : job_status) : pystr :=
  match s with
  | Pending => "pending" | Leased => "leased" | Succeeded => "succeeded" | Failed => "failed"
  | Cancelled => "cancelled" | Superseded => "superseded"
  end.

(** [adapters/local/job_store.py:839-844 commit_job] *)
Record ArtifactRef : Set := { ar_key : pystr; ar_sha256 : pystr; ar_size : Z }.

(** The job record; [jo_next_at] is an int or, after a jittered delay, a float.
    [adapters/local/job_store.py:264-276 _enqueue] *)
Record Job : Set := {
  jo_message : JobMessage; jo_status : job_status; jo_attempt : Z; jo_retry : Z; jo_token : Z;
  jo_owner : option pystr; jo_until : option Z; jo_heartbeat : option Z;
  jo_artifact : option ArtifactRef; jo_error : option pystr; jo_next_at : pyval }.

(** [adapters/local/job_store.py:300-308 _event] *)
Record Event : Set := {
  ev_id : pystr; ev_message : JobMessage; ev_status : pystr; ev_next_at : pyval;
  ev_attempts : Z }.

(** [adapters/local/job_store.py:1063-1070 _action] *)
Record Idempotent : Set := { id_request : pystr; id_response : Run; id_expires : Z }.

(** [adapters/local/job_store.py:1081-1096 _action] *)
Record Action : Set := {
  ac_event_id : pystr; ac_actor : pystr; ac_timestamp : pystr; ac_action : pystr;
  ac_reason : pystr; ac_revision : Z; ac_before_hash : pystr; ac_after_hash : pystr }.

Abbreviation run_key := (pystr * pystr)%type.
Abbreviation rec_key := (pystr * pystr * pystr)%type.

(** The database: [job_records] by kind, the runs that have a published
    claim, the document versions under a retention tombstone, the audit
    tables. [adapters/local/job_store.py:80-83 LocalSQLiteJobStore.__init__] *)
Record store : Type := {
  st_runs : gmap run_key Run;
  st_jobs : gmap rec_key Job;
  st_outbox : gmap rec_key Event;
  st_artifacts : gmap rec_key (list N);
  st_leases : gmap rec_key JobLease;
  st_usage : gmap rec_key pyval;
  st_idempotency : gmap rec_key Idempotent;
  st_actions : gmap rec_key Action;
  st_note_requests : gmap rec_key (pystr * Z * pystr);
  st_note_returns : gmap rec_key (pystr * Z * pystr);
  st_published : gset run_key;
  st_deleted : gset (pystr * pystr);
  st_audit : audit_db }.

Definition set_runs (f : gmap run_key Run → gmap run_key Run) (s : store) : store :=
  {| st_runs := f (st_runs s); st_jobs := st_jobs s; st_outbox := st_outbox s;
     st_artifacts := st_artifacts s; st_leases := st_leases s; st_usage := st_usage s;
     st_idempotency := st_idempotency s; st_actions := st_actions s;
     st_note_requests := st_note_requests s; st_note_returns := st_note_returns s;
     st_published := st_published s; st_deleted := st_deleted s; st_audit := st_audit s |}.
Definition set_jobs (f : gmap rec_key Job → gmap rec_key Job) (s : store) : store :=
  {| st_runs := st_runs s; st_jobs := f (st_jobs s); st_outbox := st_outbox s;
     st_artifacts := st_artifacts s; st_leases := st_leases s; st_usage := st_usage s;
     st_idempotency := st_idempotency s; st_actions := st_actions s;
     st_note_requests := st_note_requests s; st_note_returns := st_note_returns s;
     st_published := st_published s; st_deleted := st_deleted s; st_audit := st_audit s |}.
Definition set_outbox (f : gmap rec_key Event → gmap rec_key Event) (s : store) : store :=
  {| st_runs := st_runs s; st_jobs := st_jobs s; st_outbox := f (st_outbox s);
     st_artifacts := st_artifacts s; st_leases := st_leases s; st_usage := st_usage s;
     st_idempotency := st_idempotency s; st_actions := st_actions s;
     st_note_requests := st_note_requests s; st_note_returns := st_note_returns s;
     st_published := st_published s; st_deleted := st_deleted s; st_audit := st_audit s |}.
Definition set_artifacts (f : gmap rec_key (list N) → gmap rec_key (list N)) (s : store) : store :=
  {| st_runs := st_runs s; st_jobs := st_jobs s; st_outbox := st_outbox s;
     st_artifacts := f (st_artifacts s); st_leases := st_leases s; st_usage := st_usage s;
     st_idempotency := st_idempotency s; st_actions := st_actions s;
     st_note_requests := st_note_requests s; st_note_returns := st_note_returns s;
     st_published := st_published s; st_deleted := st_deleted s; st_audit := st_audit s |}.
Definition set_leases (f : gmap rec_key JobLease → gmap rec_key JobLease) (s : store) : store :=
  {| st_runs := st_runs s; st_jobs := st_jobs s; st_outbox := st_outbox s;
     st_artifacts := st_artifacts s; st_leases := f (st_leases s); st_usage := st_usage s;
     st_idempotency := st_idempotency s; st_actions := st_actions s;
     st_note_requests := st_note_requests s; st_note_returns := st_note_returns s;
     st_published := st_published s; st_deleted := st_deleted s; st_audit := st_audit s |}.
Definition set_usage (f : gmap rec_key pyval → gmap rec_key pyval) (s : store) : store :=
  {| st_runs := st_runs s; st_jobs := st_jobs s; st_outbox := st_outbox s;
     st_artifacts := st_artifacts s; st_leases := st_leases s; st_usage := f (st_usage s);
     st_idempotency := st_idempotency s; st_actions := st_actions s;
     st_note_requests := st_note_requests s; st_note_returns := st_note_returns s;
     st_published := st_published s; st_deleted := st_deleted s; st_audit := st_audit s |}.
Definition set_action (k : rec_key) (i : Idempotent) (r : rec_key) (a : Action) (db : audit_db)
    (s : store) : store :=
  {| st_runs := st_runs s; st_jobs := st_jobs s; st_outbox := st_outbox s;
     st_artifacts := st_artifacts s; st_leases := st_leases s; st_usage := st_usage s;
     st_idempotency := <[k := i]> (st_idempotency s); st_actions := <[r := a]> (st_actions s);
     st_note_requests := st_note_requests s; st_note_returns := st_note_returns s;
     st_published := st_published s; st_deleted := st_deleted s; st_audit := db |}.
Definition set_notes (f g : gmap rec_key (pystr * Z * pystr) → gmap rec_key (pystr * Z * pystr))
    (s : store) : store :=
  {| st_runs := st_runs s; st_jobs := st_jobs s; st_outbox := st_outbox s;
     st_artifacts := st_artifacts s; st_leases := st_leases s; st_usage := st_usage s;
     st_idempotency := st_idempotency s; st_actions := st_actions s;
     st_note_requests := f (st_note_requests s); st_note_returns := g (st_note_returns s);
     st_published := st_published s; st_deleted := st_deleted s; st_audit := st_audit s |}.

(** The rows of one kind of one run, in record-id order (the primary key). *)
Definition kind_rows {A} (t r : pystr) (m : gmap rec_key A) : list (pystr * A) :=
  isort (λ a b, str_leb a.1 b.1)
    ((λ kv : rec_key * A, (kv.1.2, kv.2)) <$>
     filter (λ kv : rec_key * A, kv.1.1 = (t, r)) (map_to_list m)).

(** [INSERT] of an immutable record: the primary key refuses a second one.
    [adapters/local/job_store.py:132-143 _put] *)
Definition insert_new {A} (k : rec_key) (v : A) (m : gmap rec_key A) : result (gmap rec_key A) :=
  match m !! k with None => Ok (<[k := v]> m) | Some _ => Raise IntegrityError end.

(* ------------------------------------------------------------------ *)
(** ** Numbers and instants *)
(* ------------------------------------------------------------------ *)

(** A finite number as mantissa and binary exponent. *)
Definition dyadic (v : pyval) : Z * Z :=
  match v with
  | PInt z => (z, 0%Z)
  | PFloat (S754_finite s m e) => (if s then Z.neg m else Z.pos m, e)
  | _ => (0%Z, 0%Z)
  end.

(** [a <= b] on finite numbers, exact across int and float. *)
Definition num_leb (a b : pyval) : bool :=
  let '(x, e) := dyadic a in let '(y, f) := dyadic b in
  let g := Z.min e f in (x * 2 ^ (e - g) <=? y * 2 ^ (f - g))%Z.

(** [now + delay] *)
Definition num_add (now : Z) (delay : pyval) : result pyval :=
  match delay with
  | PInt z => Ok (PInt (now + z))
  | PFloat f => n ← PyFloat.of_Z now; Ok (PFloat (SFadd PyFloat.prec PyFloat.emax n f))
  | _ => Raise TypeError
  end.

(** [2 ** k * jitter] *)
Definition backoff (k : Z) (jitter : pyval) : result pyval :=
  match jitter with
  | PInt z => Ok (PInt (2 ^ k * z))
  | PFloat f => p ← PyFloat.of_Z (2 ^ k); Ok (PFloat (SFmul PyFloat.prec PyFloat.emax p f))
  | _ => Raise TypeError
  end.

Definition float_zero : spec_float := S754_zero false.
Definition float_one : spec_float := S754_finite false 4503599627370496 (-52).

(** [isinstance(jitter, int | float) and not bool and 0 <= jitter <= 1] *)
Definition jitter_ok (v : pyval) : bool :=
  match v with
  | PInt z => (0 <=? z)%Z && (z <=? 1)%Z
  | PFloat f => SFleb float_zero f && SFleb f float_one
  | _ => false
  end.

Definition pad (w : nat) (z : Z) : pystr :=
  let d := Z_dec z in replicate (w - length d) 48%N ++ d.

(** The civil date of a day counted from 1970-01-01. *)
Definition civil (days : Z) : Z * Z * Z :=
  (let z := days + 719468 in
   let era := z / 146097 in
   let doe := z mod 146097 in
   let yoe := (doe - doe / 1460 + doe / 36524 - doe / 146096) / 365 in
   let doy := doe - (365 * yoe + yoe / 4 - yoe / 100) in
   let mp := (5 * doy + 2) / 153 in
   let m := if mp <? 10 then mp + 3 else mp - 9 in
   (yoe + era * 400 + (if m <=? 2 then 1 else 0), m, doy - (153 * mp + 2) / 5 + 1))%Z.

(** [datetime.fromtimestamp(now, UTC).isoformat()] with [Z] for the offset;
    a year past 9999 is refused. *)
Definition utc_iso (now : Z) : result pystr :=
  _ ← reject (253402300799 <? now)%Z (ValueError "year is out of range");
  let '(y, m, d) := civil (now / 86400) in
  let t := (now mod 86400)%Z in
  Ok (pad 4 y ++ "-" ++ pad 2 m ++ "-" ++ pad 2 d ++ "T" ++ pad 2 (t / 3600) ++ ":"
      ++ pad 2 (t / 60 mod 60) ++ ":" ++ pad 2 (t mod 60) ++ "Z").

(* ------------------------------------------------------------------ *)
(** ** Reads and writes *)
(* ------------------------------------------------------------------ *)

(** [adapters/local/job_store.py:108-113 LocalSQLiteJobStore._time] *)
Definition check_time (now duration : Z) : result unit :=
  _ ← reject (now <? 0)%Z (ValueError "now must be non-negative");
  reject (duration <? 1)%Z (ValueError "duration must be positive").

(** [adapters/local/job_store.py:103-106 LocalSQLiteJobStore._scope] *)
Definition check_scope (t r : pystr) : result unit := _ ← check_uuid t; _ ← check_uuid r; Ok tt.

(** [adapters/local/job_store.py:54-62 run_is_deleted] *)
Definition run_is_deleted (s : store) (t r : pystr) : bool :=
  match st_runs s !! (t, r) with
  | Some run => bool_decide ((t, ru_version run) ∈ st_deleted s)
  | None => false
  end.

(** [_get(.., "run", "META")]
    [adapters/local/job_store.py:124-130 LocalSQLiteJobStore._get] *)
Definition get_run_record (s : store) (t r : pystr) : result Run :=
  _ ← reject (run_is_deleted s t r) KeyError;
  of_option KeyError (st_runs s !! (t, r)).

Definition msg_run (m : JobMessage) : run_key := (jm_tenant m, jm_run m).
Definition msg_key (m : JobMessage) : rec_key := (jm_tenant m, jm_run m, jm_job m).

(** [adapters/local/job_store.py:225-229 LocalSQLiteJobStore._job] *)
Definition get_job (s : store) (m : JobMessage) : result Job :=
  job ← of_option KeyError (st_jobs s !! msg_key m);
  _ ← require (bool_decide (jo_message job = m)) KeyError;
  Ok job.

(** [adapters/local/job_store.py:235-239 LocalSQLiteJobStore.delivery_status] *)
Definition delivery_status (s : store) (m : JobMessage) : result pystr :=
  catch (λ e, bool_decide (e = KeyError)) (job ← get_job s m; Ok (job_status_str (jo_status job)))
    (λ _, Ok "not_found").

(** [adapters/local/job_store.py:241-242 LocalSQLiteJobStore._save_job] *)
Definition save_job (m : JobMessage) (j : Job) (s : store) : store :=
  set_jobs <[msg_key m := j]> s.

(** Without the claim-count refresh, which only a publication asks for.
    [adapters/local/job_store.py:208-212 LocalSQLiteJobStore._bump_run] *)
Definition bumped (run : Run) (status : option run_status) : Run :=
  {| ru_tenant := ru_tenant run; ru_run := ru_run run; ru_version := ru_version run;
     ru_status := from_option id (ru_status run) status; ru_revision := ru_revision run + 1;
     ru_epoch := ru_epoch run + 1; ru_cancelled := ru_cancelled run; ru_extra := ru_extra run |}.

Definition put_run (run : Run) (s : store) : store :=
  set_runs <[(ru_tenant run, ru_run run) := run]> s.

Definition bump_run (run : Run) (status : option run_status) (s : store) : store :=
  put_run (bumped run status) s.

(** [adapters/local/job_store.py:159-182 create_run_transaction] *)
Definition create_run (s : store) (t r version : pystr) : result store :=
  _ ← check_scope t r;
  _ ← check_uuid version;
  match st_runs s !! (t, r) with
  | Some _ => Raise IntegrityError
  | None =>
      Ok (put_run {| ru_tenant := t; ru_run := r; ru_version := version; ru_status := RunQueued;
                     ru_revision := 1; ru_epoch := 0; ru_cancelled := false; ru_extra := [] |} s)
  end.

(** [adapters/local/job_store.py:214-223 LocalSQLiteJobStore.active_run_count] *)
Definition active_run_count (s : store) (t : pystr) : Z :=
  py_len (filter (λ kv : run_key * Run,
            kv.1.1 = t ∧ ru_status kv.2 ∈ [RunQueued; RunRunning]
            ∧ run_is_deleted s t kv.1.2 = false) (map_to_list (st_runs s))).

(* ------------------------------------------------------------------ *)
(** ** Operations *)
(* ------------------------------------------------------------------ *)

(** [uuid5] is the name-based UUID of the standard library; [checkpoint] is
    what the stage validators of [commit_job] make of a payload: the keys
    they add to the run record, or their refusal. *)
Class Stages := {
  uuid5 : pystr → pystr;
  checkpoint : store → Run → JobMessage → list N → option JobMessage → Z → result pydict }.

Section operations.
Context `{Digest} `{Stages}.

(** [adapters/local/job_store.py:292-310 LocalSQLiteJobStore._event] *)
Definition add_event (m : JobMessage) (at_ : pyval) (cause : pystr) (s : store) : result store :=
  digest ← canonical_hash (PList [message_val m; PStr cause]);
  let event_id := uuid5 digest in
  outbox ← insert_new (jm_tenant m, jm_run m, event_id)
             {| ev_id := event_id; ev_message := m; ev_status := "pending"; ev_next_at := at_;
                ev_attempts := 0 |} (st_outbox s);
  Ok (set_outbox (λ _, outbox) s).

Definition new_job (m : JobMessage) (now : Z) : Job :=
  {| jo_message := m; jo_status := Pending; jo_attempt := 0; jo_retry := 0; jo_token := 0;
     jo_owner := None; jo_until := None; jo_heartbeat := None; jo_artifact := None;
     jo_error := None; jo_next_at := PInt now |}.

(** A job with the same id, or the same stage and shard. *)
Definition same_slot (m : JobMessage) (j : Job) : bool :=
  (jm_job (jo_message j) =s? jm_job m)
  || (jm_stage (jo_message j) =s? jm_stage m) && (jm_shard (jo_message j) =s? jm_shard m).

Definition jobs_of (s : store) (t r : pystr) : list Job := (kind_rows t r (st_jobs s)).*2.

(** [adapters/local/job_store.py:244-278 LocalSQLiteJobStore._enqueue] *)
Definition enqueue_in (m : JobMessage) (now : Z) (s : store) : result store :=
  run ← get_run_record s (jm_tenant m) (jm_run m);
  _ ← reject (ru_cancelled run || negb (ru_version run =s? jm_version m)) JobConflict;
  match find (same_slot m) (jobs_of s (jm_tenant m) (jm_run m)) with
  | Some j => _ ← require (bool_decide (jo_message j = m)) JobConflict; Ok s
  | None => add_event m (PInt now) "initial" (save_job m (new_job m now) s)
  end.

(** [adapters/local/job_store.py:280-283 LocalSQLiteJobStore.enqueue] *)
Definition enqueue (s : store) (m : JobMessage) (now : Z) : result store :=
  _ ← check_time now 1; enqueue_in m now s.

Definition leased_until (j : Job) : result Z := of_option TypeError (jo_until j).

(** [job["status"] == "leased" and job["lease_until"] <= now], and its opposite. *)
Definition lease_expired (j : Job) (now : Z) : result bool :=
  if bool_decide (jo_status j = Leased) then u ← leased_until j; Ok (u <=? now)%Z else Ok false.
Definition lease_live (j : Job) (now : Z) : result bool :=
  if bool_decide (jo_status j = Leased) then u ← leased_until j; Ok (now <? u)%Z else Ok false.

Definition superseded (j : Job) : Job :=
  {| jo_message := jo_message j; jo_status := Superseded; jo_attempt := jo_attempt j;
     jo_retry := jo_retry j; jo_token := jo_token j + 1; jo_owner := jo_owner j;
     jo_until := jo_until j; jo_heartbeat := jo_heartbeat j; jo_artifact := jo_artifact j;
     jo_error := jo_error j; jo_next_at := jo_next_at j |}.

Definition supersedes (t r : pystr) (k : rec_key) (j : Job) : Job :=
  if bool_decide (k.1 = (t, r)) && (jm_stage (jo_message j) =s? "tag")
     && bool_decide (jo_status j ∈ [Pending; Leased])
  then superseded j else j.

Definition supersedes_event (t r : pystr) (k : rec_key) (e : Event) : Event :=
  if bool_decide (k.1 = (t, r)) && (ev_status e =s? "pending")
     && (jm_stage (ev_message e) =s? "tag")
  then {| ev_id := ev_id e; ev_message := ev_message e; ev_status := "superseded";
          ev_next_at := ev_next_at e; ev_attempts := ev_attempts e |}
  else e.

Definition has_extra (run : Run) (k : pystr) : bool := str_in k (dict_keys (ru_extra run)).

(** [adapters/local/claim_store.py:407-434 guard_extract_continuation] *)
Definition guard_extract_continuation (run : Run) (now : Z) (supersede : bool) (s : store)
    : result store :=
  let t := ru_tenant run in let r := ru_run run in
  _ ← reject (has_extra run "tag_job"
              || match dict_get "tag_stage_status" (ru_extra run) with
                 | Some v => negb (is_none v) | None => false end
              || bool_decide (ru_status run ∈ [RunPartial; RunCompleted])
              || bool_decide ((t, r) ∈ st_published s)) (ValueError "TAG_PUBLICATION_CONFLICT");
  let tags := List.filter (λ j, jm_stage (jo_message j) =s? "tag") (jobs_of s t r) in
  live ← map_result (λ j, lease_live j now) tags;
  _ ← reject (existsb id live) (ValueError "TAG_LEASE_CONFLICT");
  if supersede
  then Ok (set_outbox (map_imap (λ k e, Some (supersedes_event t r k e)))
             (set_jobs (map_imap (λ k j, Some (supersedes t r k j))) s))
  else Ok s.

Definition claimed (j : Job) (owner : pystr) (now lease_seconds : Z) : Job :=
  {| jo_message := jo_message j; jo_status := Leased; jo_attempt := jo_attempt j + 1;
     jo_retry := jo_retry j + 1; jo_token := jo_token j + 1; jo_owner := Some owner;
     jo_until := Some (now + lease_seconds)%Z; jo_heartbeat := Some now;
     jo_artifact := jo_artifact j; jo_error := jo_error j; jo_next_at := jo_next_at j |}.

(** The record id of an attempt: [str(token) + ":" + job_id]. *)
Definition attempt_id (token : Z) (m : JobMessage) : pystr := Z_dec token ++ ":" ++ jm_job m.
Definition attempt_key (token : Z) (m : JobMessage) : rec_key :=
  (jm_tenant m, jm_run m, attempt_id token m).

Definition is_lookup (e : exn) : bool := bool_decide (e = KeyError).

(** [adapters/local/job_store.py:312-361 LocalSQLiteJobStore.claim_job] *)
Definition claim_job (s : store) (m : JobMessage) (owner : pystr) (now lease_seconds : Z)
    : result (store * option JobLease) :=
  _ ← check_time now lease_seconds;
  _ ← require (nonblank owner) (ValueError "owner must be non-empty");
  found ← catch is_lookup
            (job ← get_job s m; run ← get_run_record s (jm_tenant m) (jm_run m); Ok (Some (job, run)))
            (λ _, Ok None);
  match (found : option (Job * Run)) with
  | None => Ok (s, None)
  | Some (job, run) =>
      if ru_cancelled run || negb (num_leb (jo_next_at job) (PInt now)) then Ok (s, None)
      else
        expired ← lease_expired job now;
        if negb (bool_decide (jo_status job = Pending) || expired) then Ok (s, None)
        else
          ready ← (if (jm_stage m =s? "extract") && has_extra run "extract_job"
                   then catch is_value_error (Some <$> guard_extract_continuation run now true s)
                          (λ _, Ok None)
                   else Ok (Some s));
          match (ready : option store) with
          | None => Ok (s, None)
          | Some s =>
              let job := claimed job owner now lease_seconds in
              lease ← mk_JobLease {| jl_message := m; jl_owner := owner; jl_token := jo_token job;
                                     jl_attempt := jo_attempt job;
                                     jl_until := now + lease_seconds |};
              leases ← insert_new (attempt_key (jl_token lease) m) lease (st_leases s);
              Ok (bump_run run (Some RunRunning)
                    (set_leases (λ _, leases) (save_job m job s)), Some lease)
          end
  end.

(** The job and run of a lease that still owns its job; [wait] is the time
    the transaction waited for the writer.
    [adapters/local/job_store.py:363-380 LocalSQLiteJobStore._owned] *)
Definition owned (s : store) (l : JobLease) (now wait : Z) : result (option (Job * Run)) :=
  let m := jl_message l in
  found ← catch is_lookup
            (job ← get_job s m; run ← get_run_record s (jm_tenant m) (jm_run m); Ok (Some (job, run)))
            (λ _, Ok None);
  match (found : option (Job * Run)) with
  | None => Ok None
  | Some (job, run) =>
      if ru_cancelled run || negb (bool_decide (jo_status job = Leased))
         || negb (jo_token job =? jl_token l)%Z
         || negb (bool_decide (jo_owner job = Some (jl_owner l)))
         || negb (jo_attempt job =? jl_attempt l)%Z
      then Ok None
      else u ← leased_until job;
           if (u <=? now + wait)%Z then Ok None else Ok (Some (job, run))
  end.

(** [adapters/local/job_store.py:382-385 LocalSQLiteJobStore.can_call] *)
Definition can_call (s : store) (l : JobLease) (now wait : Z) : result bool :=
  _ ← check_time now 1;
  o ← owned s l now wait;
  Ok (match (o : option (Job * Run)) with Some _ => true | None => false end).

Definition renewed (j : Job) (heartbeat until : Z) : Job :=
  {| jo_message := jo_message j; jo_status := jo_status j; jo_attempt := jo_attempt j;
     jo_retry := jo_retry j; jo_token := jo_token j; jo_owner := jo_owner j;
     jo_until := Some until; jo_heartbeat := Some heartbeat; jo_artifact := jo_artifact j;
     jo_error := jo_error j; jo_next_at := jo_next_at j |}.

(** [elapsed] is the time spent in the writer queue and on busy retries; an
    unchanged record is not written, which saving it again models.
    [adapters/local/job_store.py:387-447 LocalSQLiteJobStore.heartbeat] *)
Definition heartbeat (s : store) (l : JobLease) (now lease_seconds elapsed : Z)
    : result (store * JobLease) :=
  _ ← check_time now lease_seconds;
  let current := (now + elapsed)%Z in
  o ← owned s l current 0;
  '(job, _) ← of_option LeaseLost (o : option (Job * Run));
  beat ← of_option TypeError (jo_heartbeat job);
  until ← leased_until job;
  let job := renewed job (Z.max beat current) (Z.max until (current + lease_seconds)) in
  lease ← mk_JobLease {| jl_message := jl_message l; jl_owner := jl_owner l;
                         jl_token := jl_token l; jl_attempt := jl_attempt l;
                         jl_until := Z.max until (current + lease_seconds) |};
  Ok (save_job (jl_message l) job s, lease).

Definition artifact_id (l : JobLease) : pystr :=
  "job/" ++ jm_job (jl_message l) ++ "/attempt/" ++ Z_dec (jl_token l) ++ "/checkpoint".

Definition succeeded (j : Job) (ref : ArtifactRef) : Job :=
  {| jo_message := jo_message j; jo_status := Succeeded; jo_attempt := jo_attempt j;
     jo_retry := jo_retry j; jo_token := jo_token j; jo_owner := jo_owner j;
     jo_until := jo_until j; jo_heartbeat := jo_heartbeat j; jo_artifact := Some ref;
     jo_error := jo_error j; jo_next_at := jo_next_at j |}.

Definition with_extra (run : Run) (extra : pydict) : Run :=
  {| ru_tenant := ru_tenant run; ru_run := ru_run run; ru_version := ru_version run;
     ru_status := ru_status run; ru_revision := ru_revision run; ru_epoch := ru_epoch run;
     ru_cancelled := ru_cancelled run; ru_extra := dict_union (ru_extra run) extra |}.

(** The call without a publication hook: the stage validators (lines 649 to
    830) are [checkpoint], except the refusal of an unpublished tag stage.
    [adapters/local/job_store.py:624-648 LocalSQLiteJobStore.commit_job] *)
Definition commit_admitted (s : store) (l : JobLease) (next_job : option JobMessage)
    (now wait : Z) : result (option (Job * Run)) :=
  let m := jl_message l in
  _ ← check_time now 1;
  _ ← match next_job with
      | Some n => require ((jm_tenant n =s? jm_tenant m) && (jm_run n =s? jm_run m)
                           && (jm_version n =s? jm_version m)) (ValueError "next job")
      | None => Ok tt
      end;
  owned s l now wait.

(** [adapters/local/job_store.py:815-851 LocalSQLiteJobStore.commit_job] *)
Definition commit_job (s : store) (l : JobLease) (payload : list N) (now wait : Z)
    (next_job : option JobMessage) : result (store * bool) :=
  let m := jl_message l in
  o ← commit_admitted s l next_job now wait;
  match (o : option (Job * Run)) with
  | None => Ok (s, false)
  | Some (job, run) =>
      extra ← checkpoint s run m payload next_job now;
      _ ← reject ((jm_stage m =s? "tag") && has_extra run "extract_job")
            (ValueError "tag stage requires fenced versioned publication");
      artifacts ← insert_new (jm_tenant m, jm_run m, artifact_id l) payload (st_artifacts s);
      let ref := {| ar_key := artifact_id l; ar_sha256 := sha256_hex payload;
                    ar_size := py_len payload |} in
      let s := save_job m (succeeded job ref) (set_artifacts (λ _, artifacts) s) in
      s ← match next_job with Some n => enqueue_in n now s | None => Ok s end;
      Ok (bump_run (with_extra run extra) None s, true)
  end.

(** [adapters/local/job_store.py:884-896 LocalSQLiteJobStore.read_checkpoint] *)
Definition read_checkpoint (s : store) (m : JobMessage) : result (option (list N)) :=
  job ← get_job s m;
  match jo_artifact job with
  | None => Ok None
  | Some ref =>
      match st_artifacts s !! (jm_tenant m, jm_run m, ar_key ref) with
      | Some payload =>
          _ ← require ((sha256_hex payload =s? ar_sha256 ref)
                       && (py_len payload =? ar_size ref)%Z) JobConflict;
          Ok (Some payload)
      | None => Raise JobConflict
      end
  end.

(** [list(iterable)] *)
Definition iter_items (v : pyval) : result (list pyval) :=
  match v with
  | PList l | PTuple l => Ok l
  | PStr s => Ok ((λ c, PStr [c]) <$> s)
  | PDict d => Ok (PStr <$> dict_keys d)
  | _ => Raise TypeError
  end.

(** [set(..)] of JSON values refuses the unhashable ones. *)
Definition hashable (v : pyval) : bool :=
  match v with PList _ | PDict _ => false | _ => true end.

Definition note_ids (usage : pyval) : pyval :=
  match usage with
  | PDict d => match dict_get "note_request_ids" d with Some v => v | None => PList [] end
  | _ => PList []
  end.

Definition overlaps (ids : list pyval) (row : pyval) : result bool :=
  other ← iter_items (note_ids row);
  _ ← require (forallb hashable other) TypeError;
  Ok (existsb (λ i, existsb (py_eq i) other) ids).

Definition note_key (m : JobMessage) (request_id : pystr) : rec_key :=
  (jm_tenant m, jm_run m, jm_job m ++ ":" ++ request_id).

(** [adapters/local/job_store.py:912-934 LocalSQLiteJobStore.record_usage] *)
Definition check_note_usage (s : store) (m : JobMessage) (usage : pyval) : result unit :=
  if truthy (note_ids usage) then
    ids ← iter_items (note_ids usage);
    _ ← require (jm_stage m =s? "parse") JobConflict;
    _ ← require (forallb hashable ids) TypeError;
    _ ← require (all_distinct py_eq ids) JobConflict;
    _ ← each (λ i, id ← require_uuid i;
                   require (bool_decide (is_Some (st_note_requests s !! note_key m id))) JobConflict) ids;
    each (λ row : pystr * pyval, b ← overlaps ids row.2; reject b JobConflict)
      (kind_rows (jm_tenant m) (jm_run m) (st_usage s))
  else Ok tt.

Definition lease_with_until (l : JobLease) (u : Z) : JobLease :=
  {| jl_message := jl_message l; jl_owner := jl_owner l; jl_token := jl_token l;
     jl_attempt := jl_attempt l; jl_until := u |}.

(** What the table returns for a stored JSON object. *)
Definition stored_json (v : pyval) : result pyval := text ← json_dumps v; json_loads text.

(** [adapters/local/job_store.py:898-935 LocalSQLiteJobStore.record_usage] *)
Definition record_usage (s : store) (l : JobLease) (usage : pydict) : result store :=
  let m := jl_message l in
  let key := attempt_key (jl_token l) m in
  recorded ← of_option KeyError (st_leases s !! key);
  _ ← require (bool_decide (lease_with_until l (jl_until recorded) = recorded)) LeaseLost;
  match st_usage s !! key with
  | Some previous => _ ← require (py_eq previous (PDict usage)) JobConflict; Ok s
  | None =>
      _ ← check_note_usage s m (PDict usage);
      v ← stored_json (PDict usage);
      Ok (set_usage <[key := v]> s)
  end.

(** [adapters/local/job_store.py:948-957 LocalSQLiteJobStore.get_usage] *)
Definition get_usage (s : store) (m : JobMessage) (token : Z) : result pyval :=
  _ ← get_job s m; of_option KeyError (st_usage s !! attempt_key token m).

Definition TRANSIENT : list pystr :=
  ["MODEL_THROTTLED"; "PROVIDER_5XX"; "MODEL_TIMEOUT"; "NOTE_ACCOUNTING_PENDING"].

Definition failed (j : Job) (retry : bool) (code : pystr) (next_at : pyval) : Job :=
  {| jo_message := jo_message j; jo_status := if retry then Pending else Failed;
     jo_attempt := jo_attempt j; jo_retry := jo_retry j; jo_token := jo_token j;
     jo_owner := jo_owner j; jo_until := jo_until j; jo_heartbeat := jo_heartbeat j;
     jo_artifact := jo_artifact j; jo_error := Some code; jo_next_at := next_at |}.

(** [adapters/local/job_store.py:959-1012 LocalSQLiteJobStore.fail_job] *)
Definition fail_job (s : store) (l : JobLease) (code : pystr) (now wait : Z) (jitter : pyval)
    (retry_after : option Z) : result (store * Job) :=
  let m := jl_message l in
  _ ← check_time now 1;
  _ ← require (jitter_ok jitter) (ValueError "jitter must be in [0, 1]");
  _ ← require (nonempty code) (ValueError "error_code required");
  _ ← match retry_after with Some r => check_time r 1 | None => Ok tt end;
  o ← owned s l now wait;
  '(job, run) ← of_option LeaseLost (o : option (Job * Run));
  let retry := str_in code TRANSIENT && (jo_retry job <? 3)%Z in
  delay ← match retry_after with
          | Some r => Ok (PInt (Z.min 60 r))
          | None => backoff (jo_retry job) jitter
          end;
  next_at ← num_add now delay;
  let job := failed job retry code next_at in
  let s := save_job m job s in
  s ← (if retry then add_event m next_at ("retry:" ++ Z_dec (jl_token l)) s else Ok s);
  let status :=
    if retry then RunRunning
    else if existsb (λ j, bool_decide (jo_status j = Succeeded)) (jobs_of s (jm_tenant m) (jm_run m))
         then RunPartial else RunFailed in
  Ok (bump_run run (Some status) s, job).

(* ------------------------------------------------------------------ *)
(** ** Run actions *)
(* ------------------------------------------------------------------ *)

Definition opt_int (o : option Z) : pyval := match o with Some z => PInt z | None => PNone end.

Definition run_val (r : Run) : pyval :=
  PDict ([("tenant_id", PStr (ru_tenant r)); ("run_id", PStr (ru_run r));
          ("document_version_id", PStr (ru_version r));
          ("status", PStr (run_status_str (ru_status r))); ("revision", PInt (ru_revision r));
          ("mutation_epoch", PInt (ru_epoch r)); ("cancellation_requested", PBool (ru_cancelled r));
          ("execution_profile", PStr "local-synthetic-only")] ++ ru_extra r).

Definition artifact_val (a : ArtifactRef) : pyval :=
  PDict [("key", PStr (ar_key a)); ("sha256", PStr (ar_sha256 a)); ("byte_size", PInt (ar_size a));
         ("storage", PStr "local-synthetic-only")].

Definition job_val (j : Job) : pyval :=
  PDict [("message", message_val (jo_message j)); ("status", PStr (job_status_str (jo_status j)));
         ("attempt", PInt (jo_attempt j)); ("retry_attempt", PInt (jo_retry j));
         ("fencing_token", PInt (jo_token j)); ("lease_owner", opt_val (jo_owner j));
         ("lease_until", opt_int (jo_until j)); ("heartbeat_at", opt_int (jo_heartbeat j));
         ("artifact_ref", match jo_artifact j with Some a => artifact_val a | None => PNone end);
         ("error_code", opt_val (jo_error j)); ("next_attempt_at", jo_next_at j)].

Definition state_val (run : Run) (jobs : list Job) : pyval :=
  PDict [("run", run_val run); ("jobs", PList (job_val <$> jobs))].

Inductive action := Cancel | Retry.
Definition action_str (a : action) : pystr := match a with Cancel => "cancel" | Retry => "retry" end.

Definition with_status (j : Job) (st : job_status) : Job :=
  {| jo_message := jo_message j; jo_status := st; jo_attempt := jo_attempt j;
     jo_retry := jo_retry j; jo_token := jo_token j; jo_owner := jo_owner j;
     jo_until := jo_until j; jo_heartbeat := jo_heartbeat j; jo_artifact := jo_artifact j;
     jo_error := jo_error j; jo_next_at := jo_next_at j |}.

Definition retried (j : Job) (now : Z) : Job :=
  {| jo_message := jo_message j; jo_status := Pending; jo_attempt := jo_attempt j;
     jo_retry := 0; jo_token := jo_token j; jo_owner := jo_owner j;
     jo_until := jo_until j; jo_heartbeat := jo_heartbeat j; jo_artifact := jo_artifact j;
     jo_error := jo_error j; jo_next_at := PInt now |}.

Definition cancel_requested (run : Run) : Run :=
  {| ru_tenant := ru_tenant run; ru_run := ru_run run; ru_version := ru_version run;
     ru_status := ru_status run; ru_revision := ru_revision run; ru_epoch := ru_epoch run;
     ru_cancelled := true; ru_extra := ru_extra run |}.

(** One job of the cancel loop. [adapters/local/job_store.py:1046-1049 _action] *)
Definition cancel_one (s : store) (j : Job) : store :=
  if bool_decide (jo_status j ∈ [Pending; Leased; Failed])
  then save_job (jo_message j) (with_status j Cancelled) s else s.

(** One job of the retry loop. [adapters/local/job_store.py:1056-1061 _action] *)
Definition retry_one (now expected_revision : Z) (s : store) (j : Job) : result store :=
  if bool_decide (jo_status j = Failed) then
    m ← mk_JobMessage (jo_message j);
    add_event m (PInt now) ("manual:" ++ Z_dec expected_revision) (save_job m (retried j now) s)
  else Ok s.

(** The run and jobs after an action.
    [adapters/local/job_store.py:1042-1062 _action] *)
Definition perform (a : action) (t : pystr) (run : Run) (jobs : list Job) (expected now : Z)
    (s : store) : result (Run * store) :=
  match a with
  | Cancel =>
      _ ← reject (bool_decide (ru_status run = RunCompleted)) JobConflict;
      _ ← each (λ j, if bool_decide (jo_status j ∈ [Pending; Leased; Failed])
                     then _ ← mk_JobMessage (jo_message j); Ok tt else Ok tt) jobs;
      let run := bumped (cancel_requested run) (Some RunCancelled) in
      Ok (run, put_run run (foldl cancel_one s jobs))
  | Retry =>
      _ ← reject (negb (bool_decide (ru_status run ∈ [RunPartial; RunFailed])) || ru_cancelled run)
            JobConflict;
      _ ← reject (2 <=? active_run_count s t)%Z JobConflict;
      s ← fold_result (retry_one now expected) s jobs;
      let run := bumped run (Some RunRunning) in
      Ok (run, put_run run s)
  end.

(** [adapters/local/job_store.py:1032-1037 _action] *)
Definition replayed (s : store) (k : rec_key) (request_hash : pystr) (now : Z)
    : result (option Run) :=
  match st_idempotency s !! k with
  | Some previous =>
      if (now <? id_expires previous)%Z then
        _ ← require (id_request previous =s? request_hash) JobConflict;
        Ok (Some (id_response previous))
      else Ok None
  | None => Ok None
  end.

(** [adapters/local/job_store.py:1014-1116 LocalSQLiteJobStore._action] *)
Definition run_action (s : store) (t r : pystr) (a : action) (expected : Z)
    (key reason : pystr) (now : Z) (actor : pystr) : result (store * Run) :=
  _ ← check_scope t r;
  _ ← check_time now 1;
  _ ← reject (expected <? 1)%Z JobConflict;
  _ ← require ((16 <=? py_len key) && (py_len key <=? 128))%Z (ValueError "invalid idempotency key");
  _ ← require (nonblank reason) (ValueError "reason required");
  _ ← require (nonblank actor) (ValueError "server actor_sub required");
  timestamp ← utc_iso now;
  idem ← canonical_hash (PList [PStr (action_str a); PStr key]);
  request_hash ← canonical_hash (PList [PStr (action_str a); PInt expected; PStr reason]);
  run ← get_run_record s t r;
  previous ← replayed s (t, r, idem) request_hash now;
  match (previous : option Run) with
  | Some response => Ok (s, response)
  | None =>
      _ ← require (ru_revision run =? expected)%Z JobConflict;
      let jobs := jobs_of s t r in
      '(run', s') ← perform a t run jobs expected now s;
      before_hash ← canonical_hash (state_val run jobs);
      after_hash ← canonical_hash (state_val run' (jobs_of s' t r));
      name ← canonical_hash (PList [PStr t; PStr r; PInt (ru_revision run')]);
      let event_id := uuid5 name in
      let action_key := (t, r, Z_dec (ru_revision run')) in
      _ ← require (bool_decide (st_actions s' !! action_key = None)) IntegrityError;
      change ← mk_ChangeSet {| cs_tenant_id := t; cs_run_id := r; cs_actor_sub := actor;
                               cs_action := action_str a; cs_target_id := r;
                               cs_before_hash := Some before_hash; cs_after_hash := after_hash;
                               cs_revision := ru_revision run'; cs_reason := Some reason |};
      head ← read_audit_head (st_audit s') t r;
      '(audit, _, _) ← append_audit (st_audit s') change head event_id timestamp;
      Ok (set_action (t, r, idem)
            {| id_request := request_hash; id_response := run'; id_expires := now + 86400 |}
            action_key
            {| ac_event_id := event_id; ac_actor := actor; ac_timestamp := timestamp;
               ac_action := action_str a; ac_reason := reason; ac_revision := ru_revision run';
               ac_before_hash := before_hash; ac_after_hash := after_hash |} audit s', run')
  end.

(** [adapters/local/job_store.py:1118-1138 LocalSQLiteJobStore.cancel_run] *)
Definition cancel_run (s : store) (t r : pystr) := run_action s t r Cancel.
(** [adapters/local/job_store.py:1140-1160 LocalSQLiteJobStore.retry_run] *)
Definition retry_run (s : store) (t r : pystr) := run_action s t r Retry.

(* ------------------------------------------------------------------ *)
(** ** The outbox and the note requests *)
(* ------------------------------------------------------------------ *)

Definition event_leb (a b : Event) : bool :=
  negb (num_leb (ev_next_at b) (ev_next_at a))
  || num_leb (ev_next_at a) (ev_next_at b) && str_leb (ev_id a) (ev_id b).

(** [adapters/local/job_store.py:1168-1182 LocalSQLiteJobStore.pending_outbox] *)
Definition pending_outbox (s : store) (t r : pystr) (now : Z) : result (list Event) :=
  _ ← check_scope t r;
  _ ← check_time now 1;
  run ← get_run_record s t r;
  if ru_cancelled run then Ok []
  else Ok (isort event_leb
             (List.filter (λ e, (ev_status e =s? "pending") && num_leb (ev_next_at e) (PInt now))
                (kind_rows t r (st_outbox s)).*2)).

(** [adapters/local/job_store.py:1184-1206 LocalSQLiteJobStore.mark_outbox] *)
Definition mark_outbox (s : store) (t r event_id : pystr) (now : Z) (sent : bool)
    (expected_attempts : Z) : result (store * bool) :=
  _ ← check_scope t r;
  _ ← check_time now 1;
  e ← of_option KeyError (st_outbox s !! (t, r, event_id));
  if negb (ev_status e =s? "pending") || negb (ev_attempts e =? expected_attempts)%Z
  then Ok (s, false)
  else
    let e := {| ev_id := ev_id e; ev_message := ev_message e;
                ev_status := if sent then "sent" else "pending";
                ev_next_at := PInt (now + Z.min 60 (2 ^ Z.min (expected_attempts + 1) 6));
                ev_attempts := expected_attempts + 1 |} in
    Ok (set_outbox <[(t, r, event_id) := e]> s, true).

(** [adapters/local/job_store.py:527-542 register_parser_note_request] *)
Definition register_parser_note_request (s : store) (l : JobLease) (request_id : pystr)
    (now wait : Z) : result store :=
  let m := jl_message l in
  _ ← check_time now 1;
  _ ← check_uuid request_id;
  _ ← require (jm_stage m =s? "parse") LeaseLost;
  o ← owned s l now wait;
  _ ← of_option LeaseLost (o : option (Job * Run));
  reqs ← insert_new (note_key m request_id) (request_id, jl_token l, jl_owner l)
           (st_note_requests s);
  Ok (set_notes (λ _, reqs) id s).

(** [adapters/local/job_store.py:544-565 finish_parser_note_request] *)
Definition finish_parser_note_request (s : store) (l : JobLease) (request_id : pystr)
    : result store :=
  let key := note_key (jl_message l) request_id in
  registered ← of_option KeyError (st_note_requests s !! key);
  _ ← require (bool_decide (registered = (request_id, jl_token l, jl_owner l))) LeaseLost;
  match st_note_returns s !! key with
  | Some _ => Ok s
  | None => Ok (set_notes id <[key := registered]> s)
  end.

(* ------------------------------------------------------------------ *)
(** ** Transactions *)
(* ------------------------------------------------------------------ *)

(** The calls a worker, an API handler or the dispatcher makes. *)
Inductive op :=
| OCreate (t r version : pystr)
| OEnqueue (m : JobMessage) (now : Z)
| OClaim (m : JobMessage) (owner : pystr) (now lease_seconds : Z)
| OHeartbeat (l : JobLease) (now lease_seconds elapsed : Z)
| OCommit (l : JobLease) (payload : list N) (now wait : Z) (next_job : option JobMessage)
| OUsage (l : JobLease) (usage : pydict)
| OFail (l : JobLease) (code : pystr) (now wait : Z) (jitter : pyval) (retry_after : option Z)
| OAction (t r : pystr) (a : action) (expected : Z) (key reason : pystr) (now : Z) (actor : pystr)
| OMark (t r event_id : pystr) (now : Z) (sent : bool) (attempts : Z)
| ORegisterNote (l : JobLease) (request_id : pystr) (now wait : Z)
| OFinishNote (l : JobLease) (request_id : pystr).

(** The store after a transaction that commits. *)
Definition exec (o : op) (s : store) : result store :=
  match o with
  | OCreate t r v => create_run s t r v
  | OEnqueue m now => enqueue s m now
  | OClaim m owner now secs => fst <$> claim_job s m owner now secs
  | OHeartbeat l now secs elapsed => fst <$> heartbeat s l now secs elapsed
  | OCommit l payload now wait next => fst <$> commit_job s l payload now wait next
  | OUsage l usage => record_usage s l usage
  | OFail l code now wait jitter ra => fst <$> fail_job s l code now wait jitter ra
  | OAction t r a e k reason now actor => fst <$> run_action s t r a e k reason now actor
  | OMark t r e now sent n => fst <$> mark_outbox s t r e now sent n
  | ORegisterNote l i now wait => register_parser_note_request s l i now wait
  | OFinishNote l i => finish_parser_note_request s l i
  end.

(** A refused transaction is rolled back.
    [adapters/local/job_store.py:85-101 LocalSQLiteJobStore._transaction] *)
Definition after (s : store) (o : op) : store :=
  match exec o s with Ok s' => s' | Raise _ => s end.

End operations.
