(* ===== verification/JobsSpec.v ===== *)
(** * What the durable job store guarantees.

    A preorder on stores, [store_le], that every transaction climbs: fencing
    tokens only grow, finished jobs, artifacts, leases and usage never
    change, a cancellation is never taken back.  The temporal theorems
    (fencing, commit finality, cancellation, optimistic revisions) follow
    from it for every later sequence of calls. *)
From S2P Require Import Prelude PyVal JsonCodec Values PyDate Digest RulePack Rules AuditChain Jobs.

(* ------------------------------------------------------------------ *)
(** ** The order on records *)
(* ------------------------------------------------------------------ *)

Definition final (st : job_status) : bool :=
  match st with Succeeded | Cancelled | Superseded => true | _ => false end.

Record job_le (j j' : Job) : Prop := {
  le_message : jo_message j' = jo_message j;
  le_token : (jo_token j <= jo_token j')%Z;
  le_final : final (jo_status j) = true → j' = j;
  le_epoch : jo_token j' = jo_token j →
    jo_owner j' = jo_owner j ∧ jo_attempt j' = jo_attempt j
    ∧ (jo_status j' = Leased → jo_status j = Leased
       ∧ ∀ u, jo_until j = Some u → ∃ u', jo_until j' = Some u' ∧ (u <= u')%Z) }.

Record run_le (r r' : Run) : Prop := {
  le_tenant : ru_tenant r' = ru_tenant r;
  le_run : ru_run r' = ru_run r;
  le_version : ru_version r' = ru_version r;
  le_revision : (ru_revision r <= ru_revision r')%Z;
  le_cancelled : ru_cancelled r = true → ru_cancelled r' = true }.

#[export] Instance job_le_preorder : PreOrder job_le.
Proof.
  split.
  - intros j. split; [done|lia|done|]. intros _. split_and!; [done..|]. intros Hl.
    split; [done|]. intros u Hu. exists u. split; [done|lia].
  - intros a b c [m1 t1 f1 e1] [m2 t2 f2 e2]. split; [congruence|lia| |].
    + intros Hf. pose proof (f1 Hf) as ->. auto.
    + intros Ht. assert (jo_token b = jo_token a ∧ jo_token c = jo_token b) as [Hb Hc] by lia.
      destruct (e1 Hb) as (o1 & a1 & l1), (e2 Hc) as (o2 & a2 & l2).
      split_and!; [congruence..|]. intros Hl. destruct (l2 Hl) as [Hl2 u2].
      destruct (l1 Hl2) as [Hl1 u1]. split; [done|]. intros u Hu.
      destruct (u1 u Hu) as (u' & Hu' & ?), (u2 u' Hu') as (u'' & Hu'' & ?).
      exists u''. split; [done|lia].
Qed.

#[export] Instance run_le_preorder : PreOrder run_le.
Proof.
  split; [by split; intros|]. intros a b c [] []. split; try congruence; [lia|auto].
Qed.

(** Every record of [m] is below one of [m'] at its key. *)
Definition map_le {K A} `{Countable K} (R : A → A → Prop) (m m' : gmap K A) : Prop :=
  ∀ k x, m !! k = Some x → ∃ y, m' !! k = Some y ∧ R x y.

#[export] Instance map_le_preorder {K A} `{Countable K} (R : A → A → Prop) `{!PreOrder R} :
  PreOrder (map_le (K := K) R).
Proof.
  split.
  - intros m k x Hx. by exists x.
  - intros a b c Hab Hbc k x Hx. destruct (Hab k x Hx) as (y & Hy & ?).
    destruct (Hbc k y Hy) as (z & Hz & ?). exists z. split; [done|by etrans].
Qed.

Lemma map_le_insert {K A} `{Countable K} (R : A → A → Prop) `{!PreOrder R} (m : gmap K A) k y :
  (∀ x, m !! k = Some x → R x y) → map_le R m (<[k := y]> m).
Proof.
  intros HR i x Hx. destruct (decide (i = k)) as [->|Hne].
  - rewrite lookup_insert_eq. eauto.
  - rewrite lookup_insert_ne by done. by exists x.
Qed.

Record store_le (s s' : store) : Prop := {
  le_runs : map_le run_le (st_runs s) (st_runs s');
  le_jobs : map_le job_le (st_jobs s) (st_jobs s');
  le_artifacts : st_artifacts s ⊆ st_artifacts s';
  le_leases : st_leases s ⊆ st_leases s';
  le_usage : st_usage s ⊆ st_usage s';
  le_notes : st_note_requests s ⊆ st_note_requests s' }.

#[export] Instance store_le_preorder : PreOrder store_le.
Proof.
  split.
  - by split.
  - intros a b c [] []. split; by etrans.
Qed.

(* ------------------------------------------------------------------ *)
(** ** Well-formed stores *)
(* ------------------------------------------------------------------ *)

Record job_wf (k : rec_key) (j : Job) : Prop := {
  wf_key : k = msg_key (jo_message j);
  wf_leased : jo_status j = Leased → is_Some (jo_until j) ∧ is_Some (jo_heartbeat j);
  wf_attempt : (0 <= jo_attempt j <= jo_token j)%Z;
  wf_retry : (0 <= jo_retry j)%Z }.

(** An attempt's record id carries a token its job has reached. *)
Definition lease_wf (jobs : gmap rec_key Job) (k : rec_key) : Prop :=
  ∃ m n j, k = attempt_key n m ∧ jobs !! msg_key m = Some j ∧ (1 <= n <= jo_token j)%Z.

Record wf (s : store) : Prop := {
  wf_runs : ∀ k r, st_runs s !! k = Some r → k = (ru_tenant r, ru_run r);
  wf_jobs : ∀ k j, st_jobs s !! k = Some j → job_wf k j;
  wf_leases : ∀ k l, st_leases s !! k = Some l → lease_wf (st_jobs s) k }.

(** A transition keeps the store well formed and climbs the order. *)
Definition grows (s s' : store) : Prop := wf s → wf s' ∧ store_le s s'.

#[export] Instance grows_preorder : PreOrder grows.
Proof.
  split.
  - intros s Hs. split; [done|reflexivity].
  - intros a b c Hab Hbc Ha. destruct (Hab Ha) as [Hb ?], (Hbc Hb) as [Hc ?].
    split; [done|by etrans].
Qed.

Lemma lease_wf_mono jobs jobs' k : map_le job_le jobs jobs' → lease_wf jobs k → lease_wf jobs' k.
Proof.
  intros Hle (m & n & j & -> & Hj & Hn). destruct (Hle _ _ Hj) as (j' & Hj' & Hjj).
  pose proof (le_token _ _ Hjj).
  exists m, n, j'. split; [done|]. split; [done|lia].
Qed.

(** *** The elementary writes *)

(** Only the other tables change. *)
Lemma grows_side s s' :
  st_runs s' = st_runs s → st_jobs s' = st_jobs s → st_leases s' = st_leases s →
  st_artifacts s ⊆ st_artifacts s' → st_usage s ⊆ st_usage s' →
  st_note_requests s ⊆ st_note_requests s' → grows s s'.
Proof.
  intros Hr Hj Hl Ha Hu Hn [W1 W2 W3]. split.
  - split; rewrite ?Hr, ?Hj, ?Hl; done.
  - split; rewrite ?Hr, ?Hj, ?Hl; done.
Qed.

Lemma grows_put_run s r : (∀ r0, st_runs s !! (ru_tenant r, ru_run r) = Some r0 → run_le r0 r) →
  grows s (put_run r s).
Proof.
  intros Hr [W1 W2 W3]. split.
  - split; try done. intros k x. cbn. destruct (decide (k = (ru_tenant r, ru_run r))) as [->|Hne].
    + rewrite lookup_insert_eq. by intros [= <-].
    + rewrite lookup_insert_ne by done. apply W1.
  - split; cbn; try done. by apply map_le_insert; [apply _|].
Qed.

Lemma grows_save_job s m j :
  job_wf (msg_key m) j → (∀ j0, st_jobs s !! msg_key m = Some j0 → job_le j0 j) →
  grows s (save_job m j s).
Proof.
  intros Hw Hj [W1 W2 W3].
  assert (Hle : map_le job_le (st_jobs s) (<[msg_key m := j]> (st_jobs s))).
  { by apply map_le_insert; [apply _|]. }
  split.
  - split; [done| |].
    + intros k x. cbn. destruct (decide (k = msg_key m)) as [->|Hne].
      * rewrite lookup_insert_eq. by intros [= <-].
      * rewrite lookup_insert_ne by done. apply W2.
    + intros k l Hl. eapply lease_wf_mono; [exact Hle|]. by eapply W3.
  - by split.
Qed.

Lemma insert_new_Ok {A} (k : rec_key) (v : A) m m' :
  insert_new k v m = Ok m' ↔ m !! k = None ∧ m' = <[k := v]> m.
Proof. unfold insert_new. destruct (m !! k); naive_solver. Qed.

Lemma insert_new_subseteq {A} (k : rec_key) (v : A) m m' : insert_new k v m = Ok m' → m ⊆ m'.
Proof. intros [Hk ->]%insert_new_Ok. by apply insert_subseteq. Qed.

Lemma grows_lease s n m l leases j :
  insert_new (attempt_key n m) l (st_leases s) = Ok leases →
  st_jobs s !! msg_key m = Some j → (1 <= n <= jo_token j)%Z →
  grows s (set_leases (λ _, leases) s).
Proof.
  intros Hins Hj Hn [W1 W2 W3]. pose proof (insert_new_subseteq _ _ _ _ Hins) as Hsub.
  apply insert_new_Ok in Hins as [_ ->]. split; [|by split].
  split; [done..|]. intros k x. cbn. destruct (decide (k = attempt_key n m)) as [->|Hne].
  - intros _. by exists m, n, j.
  - rewrite lookup_insert_ne by done. apply W3.
Qed.

(* ------------------------------------------------------------------ *)
(** ** Every operation climbs *)
(* ------------------------------------------------------------------ *)

Lemma elem_of_rows {A} (t r : pystr) (m : gmap rec_key A) (i : pystr) (x : A) : (i, x) ∈ kind_rows t r m ↔ m !! (t, r, i) = Some x.
Proof.
  unfold kind_rows. rewrite elem_of_isort, list_elem_of_fmap. split.
  - intros ([[[t' r'] i'] x'] & [= -> ->] & H). apply list_elem_of_filter in H as [[= -> ->] H].
    by apply elem_of_map_to_list in H.
  - intros H. exists ((t, r, i), x). split; [done|]. apply list_elem_of_filter.
    split; [done|]. by apply elem_of_map_to_list.
Qed.

Lemma elem_of_jobs_of s t r j : j ∈ jobs_of s t r ↔ ∃ i, st_jobs s !! (t, r, i) = Some j.
Proof.
  unfold jobs_of. rewrite list_elem_of_fmap. split.
  - intros ([i x] & -> & H). exists i. by apply elem_of_rows.
  - intros [i H]. exists (i, j). split; [done|]. by apply elem_of_rows.
Qed.

Lemma get_job_Ok s m j : get_job s m = Ok j ↔ st_jobs s !! msg_key m = Some j ∧ jo_message j = m.
Proof.
  unfold get_job. rewrite bind_Ok_inv. setoid_rewrite of_option_Ok. split.
  - intros (j' & Hj & H). apply bind_Ok_inv in H as (u & Hm%require_Ok%bool_decide_eq_true & [= <-]).
    done.
  - intros [Hj Hm]. exists j. split; [done|]. by rewrite bool_decide_true.
Qed.

Lemma get_run_Ok s t r run : get_run_record s t r = Ok run ↔
  run_is_deleted s t r = false ∧ st_runs s !! (t, r) = Some run.
Proof.
  unfold get_run_record. rewrite bind_Ok_inv. setoid_rewrite of_option_Ok.
  setoid_rewrite reject_Ok. split; [by intros (u & ? & ?)|]. intros []. by exists ().
Qed.

Section climbs.
Context `{Digest} `{Stages}.

Lemma add_event_Ok m a c s s' : add_event m a c s = Ok s' → ∃ ob, s' = set_outbox (λ _, ob) s.
Proof.
  unfold add_event. intros Hs. apply bind_Ok_inv in Hs as (d & _ & (ob & _ & [= <-])%bind_Ok_inv).
  by exists ob.
Qed.

Lemma grows_outbox f s : grows s (set_outbox f s).
Proof. by apply grows_side. Qed.

Lemma new_job_wf m now : job_wf (msg_key m) (new_job m now).
Proof. by split; cbn. Qed.

Lemma no_slot s m : wf s → find (same_slot m) (jobs_of s (jm_tenant m) (jm_run m)) = None →
  st_jobs s !! msg_key m = None.
Proof.
  intros Hw Hf. destruct (st_jobs s !! msg_key m) as [j|] eqn:Hj; [|done]. exfalso.
  assert (Hin : j ∈ jobs_of s (jm_tenant m) (jm_run m)) by (apply elem_of_jobs_of; by eexists).
  apply list_elem_of_In in Hin. pose proof (find_none _ _ Hf _ Hin) as Hslot.
  pose proof (wf_key _ _ (wf_jobs _ Hw _ _ Hj)) as [= _ _ Hid].
  unfold same_slot in Hslot. by rewrite <- Hid, str_eqb_refl in Hslot.
Qed.

Lemma enqueue_in_Ok m now s s' : enqueue_in m now s = Ok s' →
  s' = s ∨ ∃ ob, find (same_slot m) (jobs_of s (jm_tenant m) (jm_run m)) = None
    ∧ s' = set_outbox (λ _, ob) (save_job m (new_job m now) s).
Proof.
  unfold enqueue_in. intros Hs. apply bind_Ok_inv in Hs as (run & _ & Hs).
  apply bind_Ok_inv in Hs as (u & _ & Hs). destruct (find _ _) as [j|] eqn:Hf.
  - apply bind_Ok_inv in Hs as (v & _ & [= <-]). by left.
  - right. apply add_event_Ok in Hs as [ob ->]. by exists ob.
Qed.

Lemma grows_enqueue m now s s' : enqueue_in m now s = Ok s' → grows s s'.
Proof.
  intros [->|(ob & Hf & ->)]%enqueue_in_Ok; [reflexivity|]. intros Hw.
  assert (Hg : grows s (set_outbox (λ _, ob) (save_job m (new_job m now) s))); [|by apply Hg].
  etrans; [|apply grows_outbox]. apply grows_save_job; [apply new_job_wf|].
  intros j Hj. by rewrite (no_slot s m Hw Hf) in Hj.
Qed.

Lemma enqueue_in_runs m now s s' : enqueue_in m now s = Ok s' →
  st_runs s' = st_runs s ∧ st_leases s' = st_leases s ∧ st_artifacts s' = st_artifacts s.
Proof. by intros [->|(ob & _ & ->)]%enqueue_in_Ok. Qed.

Lemma bumped_le r st : run_le r (bumped r st).
Proof. split; cbn; try done. lia. Qed.

Lemma grows_bump r st s : st_runs s !! (ru_tenant r, ru_run r) = Some r → grows s (bump_run r st s).
Proof. intros Hr. apply grows_put_run. cbn. rewrite Hr. intros r0 [= <-]. apply bumped_le. Qed.

(** *** Supersession of downstream tags *)

Lemma supersedes_le t r k j : job_le j (supersedes t r k j).
Proof.
  unfold supersedes. destruct (_ && _) eqn:E; [|reflexivity]. split; cbn; [done|lia| |lia].
  intros Hf. apply andb_true_iff in E as [_ E%bool_decide_eq_true].
  by destruct (jo_status j); try done; repeat (apply elem_of_cons in E as [E|E]; [done|]);
    apply elem_of_nil in E.
Qed.

Lemma supersedes_wf t r k j : job_wf k j → job_wf k (supersedes t r k j).
Proof. unfold supersedes. intros []. destruct (_ && _); [|done]. split; cbn; try done. lia. Qed.

Definition superseding (t r : pystr) (s : store) : store :=
  set_outbox (map_imap (λ k e, Some (supersedes_event t r k e)))
    (set_jobs (map_imap (λ k j, Some (supersedes t r k j))) s).

Lemma superseding_jobs t r s k :
  st_jobs (superseding t r s) !! k = supersedes t r k <$> st_jobs s !! k.
Proof. cbn. rewrite map_lookup_imap. by destruct (st_jobs s !! k). Qed.

Lemma grows_superseding t r s : grows s (superseding t r s).
Proof.
  intros [W1 W2 W3].
  assert (Hle : map_le job_le (st_jobs s) (st_jobs (superseding t r s))).
  { intros k j Hj. rewrite superseding_jobs, Hj. eexists. split; [done|]. apply supersedes_le. }
  split.
  - split; [done| |].
    + intros k j Hj. rewrite superseding_jobs in Hj.
      destruct (st_jobs s !! k) as [j0|] eqn:Hj0; [|done]. injection Hj as <-.
      by apply supersedes_wf, W2.
    + intros k l Hl. eapply lease_wf_mono; [exact Hle|]. by eapply W3.
  - by split.
Qed.

Lemma guard_Ok run now s s' : guard_extract_continuation run now true s = Ok s' →
  s' = superseding (ru_tenant run) (ru_run run) s.
Proof. unfold guard_extract_continuation. cbn zeta. intros Hs. open_run Hs. by injection Hs as <-. Qed.

(** *** Claims *)

Lemma claimed_le j owner now secs : final (jo_status j) = false →
  job_le j (claimed j owner now secs).
Proof. intros Hf. split; cbn; [done|lia|by rewrite Hf|lia]. Qed.

Lemma claimed_wf k j owner now secs : job_wf k j → job_wf k (claimed j owner now secs).
Proof. intros []. split; cbn; [done| |lia|lia]. intros _. split; by eexists. Qed.

Lemma lease_expired_status j now b : lease_expired j now = Ok b → b = true → jo_status j = Leased.
Proof. unfold lease_expired. case_bool_decide; [done|]. by intros [= <-]. Qed.

(** A claim that hands out a lease. *)
Record claim_grant (s : store) (m : JobMessage) (owner : pystr) (now secs : Z) (s' : store)
    (l : JobLease) (job : Job) (run : Run) (s1 : store) : Prop := {
  cg_job : st_jobs s !! msg_key m = Some job;
  cg_message : jo_message job = m;
  cg_run : get_run_record s (jm_tenant m) (jm_run m) = Ok run;
  cg_active : ru_cancelled run = false;
  cg_ready : jo_status job = Pending
    ∨ (jo_status job = Leased ∧ ∃ u, jo_until job = Some u ∧ (u <= now)%Z);
  cg_guard : s1 = s ∨ (jm_stage m = "extract" ∧ s1 = superseding (ru_tenant run) (ru_run run) s);
  cg_lease : l = {| jl_message := m; jl_owner := owner; jl_token := jo_token job + 1;
                    jl_attempt := jo_attempt job + 1; jl_until := now + secs |};
  cg_insert : insert_new (attempt_key (jl_token l) m) l (st_leases s1)
              = Ok (<[attempt_key (jl_token l) m := l]> (st_leases s1));
  cg_store : s' = bump_run run (Some RunRunning)
                    (set_leases (λ _, <[attempt_key (jl_token l) m := l]> (st_leases s1))
                       (save_job m (claimed job owner now secs) s1)) }.

Lemma mk_JobLease_Ok l l' : mk_JobLease l = Ok l' → l' = l ∧ (1 <= jl_token l)%Z.
Proof. unfold mk_JobLease. intros Hl. ok_inv Hl. subst. str_prop. split; [done|lia]. Qed.

Lemma lookup_found s m (o : option (Job * Run)) :
  catch is_lookup (job ← get_job s m; run ← get_run_record s (jm_tenant m) (jm_run m);
                   Ok (Some (job, run))) (λ _, Ok None) = Ok o →
  match o with
  | Some (job, run) => st_jobs s !! msg_key m = Some job ∧ jo_message job = m
      ∧ get_run_record s (jm_tenant m) (jm_run m) = Ok run
  | None => True
  end.
Proof.
  intros [Hf|(e & _ & _ & [= <-])]%catch_Ok; [|done].
  apply bind_Ok_inv in Hf as (job & [Hj Hm]%get_job_Ok & Hf).
  by apply bind_Ok_inv in Hf as (run & Hr & [= <-]).
Qed.

Lemma claim_job_Ok s m owner now secs s' o : claim_job s m owner now secs = Ok (s', o) →
  match o with
  | None => s' = s
  | Some l => ∃ job run s1, claim_grant s m owner now secs s' l job run s1
  end.
Proof.
  unfold claim_job. intros Hc. apply bind_Ok_inv in Hc as (u0 & _ & Hc).
  apply bind_Ok_inv in Hc as (u1 & _ & Hc). apply bind_Ok_inv in Hc as (f & Hf%lookup_found & Hc).
  destruct f as [[job run]|]; [|by injection Hc as <- <-]. destruct Hf as (Hj & Hm & Hr).
  destruct (ru_cancelled run || _) eqn:Ec; [by injection Hc as <- <-|].
  apply orb_false_iff in Ec as [Hcan _].
  apply bind_Ok_inv in Hc as (ex & Hex & Hc). destruct (negb _) eqn:Er; [by injection Hc as <- <-|].
  apply bind_Ok_inv in Hc as (rd & Hrd & Hc). destruct rd as [s1|]; [|by injection Hc as <- <-].
  apply bind_Ok_inv in Hc as (l & [-> _]%mk_JobLease_Ok & Hc).
  apply bind_Ok_inv in Hc as (ls & Hls & [= <- <-]).
  exists job, run, s1. pose proof (proj1 (insert_new_Ok _ _ _ _) Hls) as [_ ->].
  split; try done.
  - apply negb_false_iff, orb_true_iff in Er as [Hp%bool_decide_eq_true| ->]; [by left|right].
    unfold lease_expired in Hex. case_bool_decide; [|done]. split; [done|].
    apply bind_Ok_inv in Hex as (v & Hv%of_option_Ok & [= Hle%Z.leb_le]). by exists v.
  - destruct (jm_stage m =s? "extract") eqn:Es; cbn [andb] in Hrd; [|left; by injection Hrd as ->].
    destruct (has_extra run "extract_job"); [right|left; by injection Hrd as ->].
    apply str_eqb_eq in Es. split; [done|].
    apply catch_Ok in Hrd as [Hg|(e & _ & _ & ?)]; [|done].
    apply fmap_Ok_inv in Hg as (s2 & Hg%guard_Ok & [= ->]). done.
Qed.

Lemma run_key_wf s t r run : wf s → get_run_record s t r = Ok run →
  st_runs s !! (ru_tenant run, ru_run run) = Some run ∧ (ru_tenant run, ru_run run) = (t, r).
Proof. intros Hw [_ Hr]%get_run_Ok. pose proof (wf_runs _ Hw _ _ Hr) as <-. done. Qed.

Lemma guard_keeps s m owner now secs s' l job run s1 :
  claim_grant s m owner now secs s' l job run s1 →
  grows s s1 ∧ st_runs s1 = st_runs s ∧ st_leases s1 = st_leases s
  ∧ st_jobs s1 !! msg_key m = Some job.
Proof.
  intros G. pose proof (cg_job _ _ _ _ _ _ _ _ _ _ G) as Hj.
  destruct (cg_guard _ _ _ _ _ _ _ _ _ _ G) as [->|[He ->]].
  - split_and!; [reflexivity|done..].
  - split_and!; [apply grows_superseding|done|done|]. rewrite superseding_jobs, Hj. cbn.
    unfold supersedes. rewrite (cg_message _ _ _ _ _ _ _ _ _ _ G), He.
    replace (_ =s? "tag") with false by reflexivity. by rewrite andb_false_r.
Qed.

Lemma grant_final s m owner now secs s' l job run s1 :
  claim_grant s m owner now secs s' l job run s1 → final (jo_status job) = false.
Proof. intros G. by destruct (cg_ready _ _ _ _ _ _ _ _ _ _ G) as [->|[-> _]]. Qed.

Lemma grows_claim s m owner now secs s' o : claim_job s m owner now secs = Ok (s', o) → grows s s'.
Proof.
  intros Hc%claim_job_Ok. destruct o as [l|]; [|subst; reflexivity].
  destruct Hc as (job & run & s1 & G). intros Hw.
  destruct (guard_keeps _ _ _ _ _ _ _ _ _ _ G) as (Hg & Hruns & Hls & Hj1).
  pose proof (cg_message _ _ _ _ _ _ _ _ _ _ G) as Hm.
  destruct (Hg Hw) as [Hw1 _]. pose proof (wf_jobs _ Hw1 _ _ Hj1) as Hjw.
  destruct (run_key_wf _ _ _ _ Hw (cg_run _ _ _ _ _ _ _ _ _ _ G)) as [Hrun _].
  pose proof (cg_insert _ _ _ _ _ _ _ _ _ _ G) as Hins.
  rewrite (cg_store _ _ _ _ _ _ _ _ _ _ G). revert Hw. clear -Hg Hins Hj1 Hm Hjw Hrun Hruns G.
  set (s2 := save_job m (claimed job owner now secs) s1).
  change (grows s (bump_run run (Some RunRunning)
    (set_leases (λ _, <[attempt_key (jl_token l) m := l]> (st_leases s1)) s2))).
  etrans; [exact Hg|]. transitivity s2.
  { apply grows_save_job; [by apply claimed_wf|]. rewrite Hj1. intros ? [= <-].
    apply claimed_le. by eapply grant_final. }
  etrans.
  { apply (grows_lease s2 (jl_token l) m l (<[attempt_key (jl_token l) m := l]> (st_leases s1))
             (claimed job owner now secs)); [exact Hins| |].
    - cbn. by rewrite lookup_insert_eq.
    - rewrite (cg_lease _ _ _ _ _ _ _ _ _ _ G). cbn. destruct Hjw. lia. }
  apply grows_bump. cbn. by rewrite Hruns.
Qed.

(** *** Owners *)

Lemma owned_Ok s l now wait o : owned s l now wait = Ok o →
  match o with
  | None => True
  | Some (job, run) =>
      st_jobs s !! msg_key (jl_message l) = Some job ∧ jo_message job = jl_message l
      ∧ get_run_record s (jm_tenant (jl_message l)) (jm_run (jl_message l)) = Ok run
      ∧ ru_cancelled run = false ∧ jo_status job = Leased ∧ jo_token job = jl_token l
      ∧ jo_owner job = Some (jl_owner l) ∧ jo_attempt job = jl_attempt l
      ∧ ∃ u, jo_until job = Some u ∧ (now + wait < u)%Z
  end.
Proof.
  unfold owned. intros Ho. apply bind_Ok_inv in Ho as (f & Hf%lookup_found & Ho).
  destruct f as [[job run]|]; [|by injection Ho as <-]. destruct Hf as (Hj & Hm & Hr).
  destruct (_ || _) eqn:E; [by injection Ho as <-|].
  repeat (apply orb_false_iff in E as [E ?]).
  repeat match goal with H : negb _ = false |- _ => apply negb_false_iff in H end.
  repeat match goal with H : bool_decide _ = true |- _ => apply bool_decide_eq_true in H end.
  str_prop. apply bind_Ok_inv in Ho as (u & Hu%of_option_Ok & Ho).
  destruct (Z.leb_spec u (now + wait)); injection Ho as <-; [done|].
  split_and!; try done. exists u. split; [done|lia].
Qed.

Lemma grows_heartbeat s l now secs el s' l' : heartbeat s l now secs el = Ok (s', l') → grows s s'.
Proof.
  unfold heartbeat. intros Hh. apply bind_Ok_inv in Hh as (u0 & _ & Hh).
  apply bind_Ok_inv in Hh as (o & Ho%owned_Ok & Hh).
  apply bind_Ok_inv in Hh as ([job run] & ->%of_option_Ok & Hh).
  destruct Ho as (Hj & Hm & _ & _ & Hst & _ & _ & _ & u & Hu & _).
  apply bind_Ok_inv in Hh as (b & Hb%of_option_Ok & Hh).
  apply bind_Ok_inv in Hh as (u' & Hu'%of_option_Ok & Hh).
  apply bind_Ok_inv in Hh as (lease & _ & [= <- _]). intros Hw. revert Hw.
  intros Hw. pose proof (wf_jobs _ Hw _ _ Hj) as Hjw. revert Hw. apply grows_save_job.
  - destruct Hjw. by split.
  - rewrite Hj. intros ? [= <-]. split; cbn; [done|lia|by rewrite Hst|]. intros _.
    split_and!; [done..|]. intros _. split; [done|]. intros v Hv. rewrite Hu' in Hv.
    injection Hv as <-. eexists. split; [done|lia].
Qed.

(** What a successful commit does. *)
Record commit_grant (s : store) (l : JobLease) (payload : list N) (now wait : Z)
    (next : option JobMessage) (s' : store) (job : Job) (run : Run) (extra : pydict)
    (s1 s2 : store) : Prop := {
  co_owned : owned s l now wait = Ok (Some (job, run));
  co_fresh : st_artifacts s !! (jm_tenant (jl_message l), jm_run (jl_message l), artifact_id l) = None;
  co_saved : s1 = save_job (jl_message l)
                    (succeeded job {| ar_key := artifact_id l; ar_sha256 := sha256_hex payload;
                                      ar_size := py_len payload |})
                    (set_artifacts <[(jm_tenant (jl_message l), jm_run (jl_message l),
                                      artifact_id l) := payload]> s);
  co_next : match next with Some n => enqueue_in n now s1 | None => Ok s1 end = Ok s2;
  co_store : s' = bump_run (with_extra run extra) None s2 }.

Lemma commit_job_Ok s l payload now wait next s' b :
  commit_job s l payload now wait next = Ok (s', b) →
  if b then ∃ job run extra s1 s2, commit_grant s l payload now wait next s' job run extra s1 s2
  else s' = s.
Proof.
  unfold commit_job, commit_admitted. intros Hc. apply bind_Ok_inv in Hc as (o & Ho & Hc).
  apply bind_Ok_inv in Ho as (u0 & _ & Ho). apply bind_Ok_inv in Ho as (u1 & _ & Ho).
  destruct o as [[job run]|]; [|by injection Hc as <- <-].
  apply bind_Ok_inv in Hc as (extra & _ & Hc). apply bind_Ok_inv in Hc as (u2 & _ & Hc).
  apply bind_Ok_inv in Hc as (arts & [Hfresh ->]%insert_new_Ok & Hc).
  apply bind_Ok_inv in Hc as (s2 & Hn & [= <- <-]).
  exists job, run, extra. eexists. exists s2. by split.
Qed.

Lemma commit_parts s l payload now wait next s' job run extra s1 s2 :
  wf s → commit_grant s l payload now wait next s' job run extra s1 s2 →
  grows s s1 ∧ grows s1 s'.
Proof.
  intros Hw [Ho Hfr Hsv Hnx Hst].
  apply owned_Ok in Ho as (Hj & Hm & Hr & _ & Hs & _).
  destruct (run_key_wf _ _ _ _ Hw Hr) as [Hrun _]. pose proof (wf_jobs _ Hw _ _ Hj) as Hjw.
  split.
  { subst s1. set (a := set_artifacts _ s). assert (grows s a) as Ha.
    { apply grows_side; try done. by apply insert_subseteq. }
    etrans; [exact Ha|]. apply grows_save_job.
    - destruct Hjw. by split.
    - subst a. cbn. rewrite Hj. intros ? [= <-]. split; cbn; [done|lia|by rewrite Hs|]. done. }
  transitivity s2.
  { destruct next; [by eapply grows_enqueue|]. by injection Hnx as ->. }
  assert (Hr2 : st_runs s2 = st_runs s).
  { subst s1. destruct next; [by apply enqueue_in_runs in Hnx as (-> & _)|by injection Hnx as <-]. }
  subst s'. apply grows_put_run. cbn. rewrite Hr2, Hrun. intros r0 [= <-]. split; cbn; try done. lia.
Qed.

Lemma grows_commit s l payload now wait next s' b :
  commit_job s l payload now wait next = Ok (s', b) → grows s s'.
Proof.
  intros Hc%commit_job_Ok. destruct b; [|by subst].
  destruct Hc as (job & run & extra & s1 & s2 & G). intros Hw.
  destruct (commit_parts _ _ _ _ _ _ _ _ _ _ _ _ Hw G) as [H1 H2]. revert Hw.
  change (grows s s'). by etrans.
Qed.

Lemma grows_usage s l usage s' : record_usage s l usage = Ok s' → grows s s'.
Proof.
  unfold record_usage. cbn zeta. intros Hu. apply bind_Ok_inv in Hu as (r & _ & Hu).
  apply bind_Ok_inv in Hu as (u0 & _ & Hu). destruct (st_usage s !! _) as [p|] eqn:E.
  - by apply bind_Ok_inv in Hu as (u1 & _ & [= <-]).
  - apply bind_Ok_inv in Hu as (u1 & _ & Hu). apply bind_Ok_inv in Hu as (v & _ & [= <-]).
    apply grows_side; try done. by apply insert_subseteq.
Qed.

Lemma grows_fail s l code now wait jitter ra s' job' :
  fail_job s l code now wait jitter ra = Ok (s', job') → grows s s'.
Proof.
  unfold fail_job. cbn zeta. intros Hc. apply bind_Ok_inv in Hc as (u0 & _ & Hc).
  apply bind_Ok_inv in Hc as (u1 & _ & Hc). apply bind_Ok_inv in Hc as (u2 & _ & Hc).
  apply bind_Ok_inv in Hc as (u3 & _ & Hc). apply bind_Ok_inv in Hc as (o & Ho%owned_Ok & Hc).
  apply bind_Ok_inv in Hc as ([job run] & ->%of_option_Ok & Hc).
  destruct Ho as (Hj & Hm & Hr & _ & Hs & _).
  apply bind_Ok_inv in Hc as (delay & _ & Hc). apply bind_Ok_inv in Hc as (next & _ & Hc).
  apply bind_Ok_inv in Hc as (s2 & Hs2 & [= <- _]). intros Hw.
  destruct (run_key_wf _ _ _ _ Hw Hr) as [Hrun _]. pose proof (wf_jobs _ Hw _ _ Hj) as Hjw.
  set (retry := str_in code TRANSIENT && (jo_retry job <? 3)%Z) in *.
  set (s1 := save_job (jl_message l) (failed job retry code next) s) in *.
  assert (H2 : grows s1 s2 ∧ st_runs s2 = st_runs s).
  { destruct retry; [apply add_event_Ok in Hs2 as [ob ->]|injection Hs2 as <-];
      (split; [try apply grows_outbox; reflexivity|done]). }
  destruct H2 as [H2 Hruns]. revert Hw.
  match goal with |- wf s → wf ?a ∧ _ => change (grows s a) end. transitivity s1.
  - apply grows_save_job.
    + destruct Hjw. split; cbn; try done. by destruct retry.
    + rewrite Hj. intros ? [= <-]. split; cbn; [done|lia|by rewrite Hs|]. intros _.
      split_and!; [done..|]. by destruct retry.
  - etrans; [exact H2|]. apply grows_bump. by rewrite Hruns.
Qed.

(** *** Loops over the jobs of a run *)

Definition own_key (j : Job) : rec_key := msg_key (jo_message j).

Lemma kind_rows_NoDup {A} (t r : pystr) (m : gmap rec_key A) : NoDup (kind_rows t r m).*1.
Proof.
  unfold kind_rows. rewrite isort_perm.
  rewrite <- list_fmap_compose. unfold compose. cbn.
  assert (Hl : NoDup (filter (λ kv : rec_key * A, kv.1.1 = (t, r)) (map_to_list m)).*1).
  { pose proof (NoDup_fst_map_to_list m) as Hl. induction (map_to_list m) as [|kv l IH]; [done|].
    cbn in Hl. apply NoDup_cons in Hl as [Hn Hl]. rewrite filter_cons. destruct (decide _); [|auto].
    cbn. constructor; [|auto]. intros (kv' & E & Hin)%list_elem_of_fmap. apply Hn.
    apply list_elem_of_filter in Hin as [_ Hin]. rewrite E. by apply list_elem_of_fmap_2. }
  assert (Ha : ∀ kv, kv ∈ filter (λ kv : rec_key * A, kv.1.1 = (t, r)) (map_to_list m) →
    kv.1.1 = (t, r)) by (intros kv Hkv; by apply list_elem_of_filter in Hkv as []).
  induction (filter _ _) as [|kv l IH]; cbn in *; [constructor|].
  apply NoDup_cons in Hl as [Hn Hl]. constructor.
  - intros Hin. apply Hn. apply list_elem_of_fmap in Hin as (kv' & Heq & Hin).
    apply list_elem_of_fmap. exists kv'. split; [|done].
    pose proof (Ha kv ltac:(left)) as H1. pose proof (Ha kv' ltac:(by right)) as H2.
    destruct kv as [[a b] c], kv' as [[a' b'] c']. cbn in *. by subst.
  - apply IH; [done|]. intros kv' Hkv'. apply Ha. by right.
Qed.

Lemma jobs_of_wf s t r j : wf s → j ∈ jobs_of s t r →
  st_jobs s !! own_key j = Some j ∧ (own_key j).1 = (t, r).
Proof.
  intros Hw [i Hi]%elem_of_jobs_of. pose proof (wf_key _ _ (wf_jobs _ Hw _ _ Hi)) as Hk.
  unfold own_key. by rewrite <- Hk.
Qed.

Lemma jobs_of_NoDup s t r : wf s → NoDup (own_key <$> jobs_of s t r).
Proof.
  intros Hw. assert (Hrow : ∀ ij, ij ∈ kind_rows t r (st_jobs s) → own_key ij.2 = (t, r, ij.1)).
  { intros [i j] Hij. apply elem_of_rows in Hij. unfold own_key. cbn.
    by rewrite <- (wf_key _ _ (wf_jobs _ Hw _ _ Hij)). }
  unfold jobs_of. pose proof (kind_rows_NoDup t r (st_jobs s)) as Hn.
  rewrite <- list_fmap_compose. unfold compose.
  induction (kind_rows t r (st_jobs s)) as [|ij l IH]; cbn in *; [constructor|].
  apply NoDup_cons in Hn as [Hni Hn]. constructor.
  - intros Hin. apply Hni. apply list_elem_of_fmap in Hin as (ij' & Heq & Hin).
    apply list_elem_of_fmap. exists ij'. split; [|done].
    pose proof (Hrow ij ltac:(left)) as H1. pose proof (Hrow ij' ltac:(by right)) as H2.
    rewrite H1, H2 in Heq. by injection Heq.
  - apply IH; [intros ij' ?; apply Hrow; by right|done].
Qed.

(** A step that rewrites one job in place. *)
Record touches (Q : option Job → Prop) (s : store) (j : Job) (s1 : store) : Prop := {
  to_grows : grows s s1;
  to_runs : st_runs s1 = st_runs s;
  to_done : Q (st_jobs s1 !! own_key j);
  to_others : ∀ k, k ≠ own_key j → st_jobs s1 !! k = st_jobs s !! k }.

Lemma loop_touches Q (f : store → Job → result store) l s s' :
  wf s →
  (∀ s j s1, wf s → j ∈ l → f s j = Ok s1 → st_jobs s !! own_key j = Some j → touches Q s j s1) →
  NoDup (own_key <$> l) → (∀ j, j ∈ l → st_jobs s !! own_key j = Some j) →
  fold_result f s l = Ok s' →
  grows s s' ∧ st_runs s' = st_runs s ∧ (∀ j, j ∈ l → Q (st_jobs s' !! own_key j))
  ∧ ∀ k, k ∉ own_key <$> l → st_jobs s' !! k = st_jobs s !! k.
Proof.
  revert s. induction l as [|j l IH]; intros s Hw Hf Hn Hs; cbn [fold_result].
  { intros [= <-]. split_and!; [reflexivity|done| |done]. by intros ? ?%elem_of_nil. }
  intros (s1 & H1 & Hr)%bind_Ok_inv. cbn in Hn. apply NoDup_cons in Hn as [Hj Hn].
  destruct (Hf s j s1) as [Hg Hru Hd Ho]; [done|left|done|apply Hs; left|].
  destruct (IH s1) as (Hg' & Hru' & Hd' & Ho'); [by apply Hg| |done| |done|].
  - intros ? k ? ? Hk. apply Hf; [done|by right].
  - intros k Hk. rewrite Ho; [apply Hs; by right|]. intros E. apply Hj. rewrite <- E.
    by apply list_elem_of_fmap_2.
  - split_and!; [by etrans|congruence| |].
    + intros k [->|Hk]%elem_of_cons; [|by apply Hd']. by rewrite Ho'.
    + intros k [Hk1 Hk2]%not_elem_of_cons. rewrite Ho' by done. by apply Ho.
Qed.

Lemma fold_result_pure {A B} (f : B → A → B) l b :
  fold_result (λ b x, Ok (f b x)) b l = Ok (foldl f b l).
Proof. revert b. induction l as [|x l IH]; intros b; [done|]. cbn. apply IH. Qed.

Definition inactive (o : option Job) : Prop :=
  match o with Some j => final (jo_status j) = true | None => False end.

Lemma cancelled_le j : final (jo_status j) = false → job_le j (with_status j Cancelled).
Proof. intros Hf. split; cbn; [done|lia|by rewrite Hf|]. intros _. by split_and!. Qed.

Lemma cancel_one_touches s j s1 : wf s → Ok (cancel_one s j) = Ok s1 →
  st_jobs s !! own_key j = Some j → touches inactive s j s1.
Proof.
  intros Hw [= <-] Hj. unfold cancel_one. pose proof (wf_jobs _ Hw _ _ Hj) as Hjw.
  case_bool_decide as Hst.
  - split; [|done| |].
    + apply grows_save_job; [destruct Hjw; by split|]. unfold own_key in Hj. rewrite Hj.
      intros ? [= <-]. apply cancelled_le. by repeat (apply elem_of_cons in Hst as [->|Hst]; [done|]);
        apply elem_of_nil in Hst.
    + cbn. by rewrite lookup_insert_eq.
    + intros k Hk. cbn. by apply lookup_insert_ne.
  - split; [reflexivity|done| |done]. rewrite Hj. cbn. destruct (jo_status j); try done;
      exfalso; apply Hst; set_solver.
Qed.

Lemma mk_JobMessage_Ok m m' : mk_JobMessage m = Ok m' → m' = m.
Proof. unfold mk_JobMessage. intros Hm. open_run Hm. by injection Hm. Qed.

Lemma retry_one_touches now e s j s1 : wf s → retry_one now e s j = Ok s1 →
  st_jobs s !! own_key j = Some j → touches (λ _, True) s j s1.
Proof.
  intros Hw Hr Hj. unfold retry_one in Hr. pose proof (wf_jobs _ Hw _ _ Hj) as Hjw.
  case_bool_decide as Hst; [|injection Hr as <-; by split].
  apply bind_Ok_inv in Hr as (m & ->%mk_JobMessage_Ok & Hr). apply add_event_Ok in Hr as [ob ->].
  split; [|done|done|].
  - etrans; [|apply grows_outbox]. apply grows_save_job; [destruct Hjw; by split|].
    unfold own_key in Hj. rewrite Hj. intros ? [= <-].
    split; cbn; [done|lia|by rewrite Hst|]. intros _. by split_and!.
  - intros k Hk. cbn. by apply lookup_insert_ne.
Qed.

(** An action's effect on the run and its jobs. *)
Lemma perform_Ok a t r run expected now s run' s' :
  wf s → st_runs s !! (t, r) = Some run → perform a t run (jobs_of s t r) expected now s = Ok (run', s') →
  grows s s' ∧ st_runs s' = <[(t, r) := run']> (st_runs s)
  ∧ ru_tenant run' = t ∧ ru_run run' = r
  ∧ ru_revision run' = (ru_revision run + 1)%Z
  ∧ match a with
    | Cancel => ru_status run ≠ RunCompleted ∧ ru_cancelled run' = true
        ∧ ru_status run' = RunCancelled
        ∧ ∀ i j, st_jobs s' !! (t, r, i) = Some j → final (jo_status j) = true
    | Retry => ru_cancelled run = false ∧ ru_status run ∈ [RunPartial; RunFailed]
        ∧ (active_run_count s t < 2)%Z
    end.
Proof.
  intros Hw Hr Hp. pose proof (wf_runs _ Hw _ _ Hr) as [= -> ->].
  assert (Hall : ∀ j, j ∈ jobs_of s (ru_tenant run) (ru_run run) → st_jobs s !! own_key j = Some j).
  { intros j Hj. by apply (jobs_of_wf s (ru_tenant run) (ru_run run)). }
  assert (Hput : ∀ s1 run1, st_runs s1 = st_runs s → run_le run run1 → grows s1 (put_run run1 s1)).
  { intros s1 run1 Hs1 Hle. apply grows_put_run. rewrite Hs1.
    rewrite (le_tenant _ _ Hle), (le_run _ _ Hle), Hr. by intros ? [= <-]. }
  destruct a; unfold perform in Hp.
  - apply bind_Ok_inv in Hp as (u0 & Hst%reject_Ok%bool_decide_eq_false & Hp).
    apply bind_Ok_inv in Hp as (u1 & _ & [= <- <-]).
    assert (Hle : run_le run (bumped (cancel_requested run) (Some RunCancelled))).
    { split; cbn; try done. lia. }
    destruct (loop_touches inactive (λ s j, Ok (cancel_one s j)) (jobs_of s (ru_tenant run) (ru_run run)) s
                (foldl cancel_one s (jobs_of s (ru_tenant run) (ru_run run)))) as (Hg & Hru & Hd & Ho);
      [done|intros; by apply cancel_one_touches|by apply jobs_of_NoDup|done|apply fold_result_pure|].
    split_and!; [etrans; [exact Hg|by apply Hput]| |done..|].
    { cbn. by rewrite Hru. }
    cbn. intros i j Hj. destruct (st_jobs s !! (ru_tenant run, ru_run run, i)) as [j0|] eqn:Hj0.
    + assert (Hin : j0 ∈ jobs_of s (ru_tenant run) (ru_run run)) by (apply elem_of_jobs_of; by exists i).
      specialize (Hd j0 Hin). pose proof (wf_key _ _ (wf_jobs _ Hw _ _ Hj0)) as Hk.
      unfold own_key in Hd. rewrite <- Hk, Hj in Hd. done.
    + rewrite Ho, Hj0 in Hj; [done|]. intros Hin. apply list_elem_of_fmap in Hin as (j1 & Hk & Hin).
      apply Hall in Hin. rewrite <- Hk in Hin. congruence.
  - apply bind_Ok_inv in Hp as (u0 & Hst%reject_Ok & Hp).
    apply orb_false_iff in Hst as [Hst%negb_false_iff%bool_decide_eq_true Hcan].
    apply bind_Ok_inv in Hp as (u1 & Hac%reject_Ok & Hp). str_prop.
    apply bind_Ok_inv in Hp as (s1 & Hf & [= <- <-]).
    destruct (loop_touches (λ _, True) (retry_one now expected) (jobs_of s (ru_tenant run) (ru_run run)) s s1)
      as (Hg & Hru & _ & _); [done|intros; by eapply retry_one_touches|by apply jobs_of_NoDup|done..|].
    split_and!; [etrans; [exact Hg|apply Hput; [done|apply bumped_le]]| |done..].
    cbn. by rewrite Hru.
Qed.

Lemma grows_set_action k i r a db s : grows s (set_action k i r a db s).
Proof. by apply grows_side. Qed.

(** What an action that is not a replay does. *)
Record action_grant (s : store) (t r : pystr) (a : action) (expected : Z) (key : pystr) (now : Z)
    (s' : store) (run run' : Run) (s1 : store) : Prop := {
  an_run : get_run_record s t r = Ok run;
  an_expected : ru_revision run = expected;
  an_perform : perform a t run (jobs_of s t r) expected now s = Ok (run', s1);
  an_fresh : st_actions s1 !! (t, r, Z_dec (ru_revision run')) = None;
  an_store : ∃ k i c db, s' = set_action k i (t, r, Z_dec (ru_revision run')) c db s1
    ∧ ac_revision c = ru_revision run' }.

Lemma run_action_Ok s t r a e key reason now actor s' run' :
  run_action s t r a e key reason now actor = Ok (s', run') →
  (s' = s ∧ ∃ k i, st_idempotency s !! k = Some i ∧ id_response i = run')
  ∨ ∃ run s1, action_grant s t r a e key now s' run run' s1.
Proof.
  unfold run_action. intros Ha. do 9 apply bind_Ok_inv in Ha as (? & _ & Ha).
  apply bind_Ok_inv in Ha as (run & Hr & Ha). apply bind_Ok_inv in Ha as (prev & Hp & Ha).
  destruct prev as [resp|].
  - left. injection Ha as <- <-. split; [done|]. unfold replayed in Hp.
    destruct (st_idempotency s !! _) as [i|] eqn:Ei; [|done]. destruct (_ <? _)%Z; [|done].
    apply bind_Ok_inv in Hp as (u & _ & [= <-]). by eexists _, i.
  - right. apply bind_Ok_inv in Ha as (u & He%require_Ok & Ha). str_prop.
    apply bind_Ok_inv in Ha as ([run1 s1] & Hf & Ha).
    do 3 apply bind_Ok_inv in Ha as (? & _ & Ha).
    apply bind_Ok_inv in Ha as (u1 & Hfr%require_Ok%bool_decide_eq_true & Ha).
    do 2 apply bind_Ok_inv in Ha as (? & _ & Ha).
    apply bind_Ok_inv in Ha as ([[db ev] hd] & _ & [= <- <-]).
    exists run, s1. split; try done. eexists _, _, _, _. by split.
Qed.

Lemma grows_action s t r a e key reason now actor s' run' :
  run_action s t r a e key reason now actor = Ok (s', run') → grows s s'.
Proof.
  intros [[-> _]|(run & s1 & [Hr _ Hp _ (k & i & c & db & -> & _)])]%run_action_Ok; [reflexivity|].
  intros Hw. apply get_run_Ok in Hr as [_ Hr].
  destruct (perform_Ok _ _ _ _ _ _ _ _ _ Hw Hr Hp) as (Hg & _). revert Hw.
  match goal with |- wf s → wf ?x ∧ _ => change (grows s x) end.
  etrans; [exact Hg|apply grows_set_action].
Qed.

Lemma grows_create s t r v s' : create_run s t r v = Ok s' → grows s s'.
Proof.
  unfold create_run. intros Hc. do 2 apply bind_Ok_inv in Hc as (? & _ & Hc).
  destruct (st_runs s !! (t, r)) eqn:E; [done|]. injection Hc as <-.
  apply grows_put_run. cbn. by rewrite E.
Qed.

Lemma grows_mark s t r i now b n s' x : mark_outbox s t r i now b n = Ok (s', x) → grows s s'.
Proof.
  unfold mark_outbox. intros Hm. do 3 apply bind_Ok_inv in Hm as (? & _ & Hm).
  destruct (_ || _); injection Hm as <- _; [reflexivity|apply grows_outbox].
Qed.

Lemma grows_register s l i now wait s' :
  register_parser_note_request s l i now wait = Ok s' → grows s s'.
Proof.
  unfold register_parser_note_request. intros Hm. do 5 apply bind_Ok_inv in Hm as (? & _ & Hm).
  apply bind_Ok_inv in Hm as (reqs & Hreq%insert_new_subseteq & [= <-]). by apply grows_side.
Qed.

Lemma grows_finish s l i s' : finish_parser_note_request s l i = Ok s' → grows s s'.
Proof.
  unfold finish_parser_note_request. intros Hm. do 2 apply bind_Ok_inv in Hm as (? & _ & Hm).
  destruct (st_note_returns s !! _); injection Hm as <-; [reflexivity|by apply grows_side].
Qed.

(** Every transaction that commits keeps the store well formed and climbs. *)
Lemma exec_grows o s s' : exec o s = Ok s' → grows s s'.
Proof.
  destruct o; cbn [exec]; intros Hx;
    try (apply fmap_Ok_inv in Hx as ([s1 x] & Hx & <-); cbn).
  - by eapply grows_create.
  - unfold enqueue in Hx. apply bind_Ok_inv in Hx as (? & _ & Hx). by eapply grows_enqueue.
  - by eapply grows_claim.
  - by eapply grows_heartbeat.
  - by eapply grows_commit.
  - by eapply grows_usage.
  - by eapply grows_fail.
  - by eapply grows_action.
  - by eapply grows_mark.
  - by eapply grows_register.
  - by eapply grows_finish.
Qed.

Lemma after_grows o s : grows s (after s o).
Proof. unfold after. destruct (exec o s) eqn:E; [by eapply exec_grows|reflexivity]. Qed.

(* ------------------------------------------------------------------ *)
(** ** Histories *)
(* ------------------------------------------------------------------ *)

(** Publication and retention happen outside the store's own calls. *)
Definition environment (published : gset run_key) (deleted : gset (pystr * pystr)) (s : store)
    : store :=
  {| st_runs := st_runs s; st_jobs := st_jobs s; st_outbox := st_outbox s;
     st_artifacts := st_artifacts s; st_leases := st_leases s; st_usage := st_usage s;
     st_idempotency := st_idempotency s; st_actions := st_actions s;
     st_note_requests := st_note_requests s; st_note_returns := st_note_returns s;
     st_published := published; st_deleted := deleted; st_audit := st_audit s |}.

Inductive step (s : store) : store → Prop :=
| step_op o : step s (after s o)
| step_environment p d : step s (environment p d s).

Definition empty_store : store :=
  {| st_runs := ∅; st_jobs := ∅; st_outbox := ∅; st_artifacts := ∅; st_leases := ∅;
     st_usage := ∅; st_idempotency := ∅; st_actions := ∅; st_note_requests := ∅;
     st_note_returns := ∅; st_published := ∅; st_deleted := ∅; st_audit := empty_db |}.

(** The stores a fresh database can come to. *)
Definition reachable (s : store) : Prop := rtc step empty_store s.

Lemma step_grows s s' : step s s' → grows s s'.
Proof. intros [o|p d]; [apply after_grows|by apply grows_side]. Qed.

Lemma steps_grow s s' : rtc step s s' → grows s s'.
Proof. induction 1 as [|a b c Hab _ IH]; [reflexivity|]. etrans; [by apply step_grows|done]. Qed.

Lemma empty_wf : wf empty_store.
Proof. split; cbn; intros k x; by rewrite lookup_empty. Qed.

Lemma reachable_wf s : reachable s → wf s.
Proof. intros Hs. by apply (steps_grow _ _ Hs), empty_wf. Qed.

Lemma history_le s s' : reachable s → rtc step s s' → store_le s s'.
Proof. intros Hs Hss. by apply (steps_grow _ _ Hss), reachable_wf. Qed.

Lemma reachable_after s o s' : reachable s → exec o s = Ok s' → reachable s'.
Proof.
  intros Hs Ho. eapply rtc_r; [exact Hs|]. replace s' with (after s o); [constructor|].
  unfold after. by rewrite Ho.
Qed.

(* ------------------------------------------------------------------ *)
(** ** Leases *)
(* ------------------------------------------------------------------ *)

(** No call under the lease has an effect. *)
Record powerless (s : store) (l : JobLease) : Prop := {
  no_call : ∀ now wait, can_call s l now wait ≠ Ok true;
  no_heartbeat : ∀ now secs elapsed x, heartbeat s l now secs elapsed ≠ Ok x;
  no_commit : ∀ payload now wait next s', commit_job s l payload now wait next ≠ Ok (s', true);
  no_failure : ∀ code now wait jitter ra x, fail_job s l code now wait jitter ra ≠ Ok x;
  no_note : ∀ i now wait x, register_parser_note_request s l i now wait ≠ Ok x }.

Lemma not_owner_powerless s l :
  (∀ now wait x, owned s l now wait ≠ Ok (Some x)) → powerless s l.
Proof.
  intros Hno. split.
  - intros now wait Hc. unfold can_call in Hc. apply bind_Ok_inv in Hc as (? & _ & Hc).
    apply bind_Ok_inv in Hc as ([y|] & Ho & Hc); [by apply Hno in Ho|done].
  - intros now secs el x Hh. unfold heartbeat in Hh. apply bind_Ok_inv in Hh as (? & _ & Hh).
    apply bind_Ok_inv in Hh as (o & Ho & Hh). apply bind_Ok_inv in Hh as (y & ->%of_option_Ok & _).
    by apply Hno in Ho.
  - intros p now wait next s' (job & run & ex & s1 & s2 & [Ho _ _ _ _])%commit_job_Ok.
    by apply Hno in Ho.
  - intros code now wait ji ra x Hc. unfold fail_job in Hc. do 4 apply bind_Ok_inv in Hc as (? & _ & Hc).
    apply bind_Ok_inv in Hc as (o & Ho & Hc). apply bind_Ok_inv in Hc as (y & ->%of_option_Ok & _).
    by apply Hno in Ho.
  - intros j now wait x Hc. unfold register_parser_note_request in Hc.
    do 3 apply bind_Ok_inv in Hc as (? & _ & Hc).
    apply bind_Ok_inv in Hc as (o & Ho & Hc). apply bind_Ok_inv in Hc as (y & ->%of_option_Ok & _).
    by apply Hno in Ho.
Qed.

Lemma granted_job s m owner now secs s' l job run s1 :
  claim_grant s m owner now secs s' l job run s1 →
  st_jobs s' !! msg_key m = Some (claimed job owner now secs) ∧ jl_token l = (jo_token job + 1)%Z
  ∧ jl_message l = m.
Proof.
  intros G. rewrite (cg_store _ _ _ _ _ _ _ _ _ _ G), (cg_lease _ _ _ _ _ _ _ _ _ _ G). cbn.
  by rewrite lookup_insert_eq.
Qed.

(** C21: fencing.  Once a claim has handed out a lease, every lease of the same job with a smaller
    token is powerless, at that moment and after any later sequence of calls by any party:
    it may not call the provider, renew, commit, fail or register anything. *)
Theorem stale_lease_powerless s m owner now secs s1 new s2 old :
  reachable s → claim_job s m owner now secs = Ok (s1, Some new) → rtc step s1 s2 →
  jl_message old = m → (jl_token old < jl_token new)%Z → powerless s2 old.
Proof.
  intros Hs Hc Hss Hm Ht. assert (Hs1 : reachable s1).
  { eapply (reachable_after s (OClaim m owner now secs)); [done|]. cbn. by rewrite Hc. }
  apply claim_job_Ok in Hc as (job & run & g & G). destruct (granted_job _ _ _ _ _ _ _ _ _ _ G) as (Hj & Htok & _).
  destruct (le_jobs _ _ (history_le _ _ Hs1 Hss) _ _ Hj) as (j2 & Hj2 & Hle).
  apply not_owner_powerless. intros n w [j r] Ho%owned_Ok.
  destruct Ho as (Hj' & _ & _ & _ & _ & Htok' & _). rewrite Hm, Hj2 in Hj'. injection Hj' as <-.
  pose proof (le_token _ _ Hle) as Hl. cbn in Hl. lia.
Qed.

(** Mutual exclusion.  Two leases that own the same job in one state are the same attempt of
    the same owner, and while a lease owns a job no claim at that or an earlier time is granted. *)
Theorem live_lease_exclusive s l1 l2 n1 w1 n2 w2 o1 o2 :
  owned s l1 n1 w1 = Ok (Some o1) → owned s l2 n2 w2 = Ok (Some o2) →
  jl_message l1 = jl_message l2 →
  (jl_owner l1 = jl_owner l2 ∧ jl_token l1 = jl_token l2 ∧ jl_attempt l1 = jl_attempt l2)
  ∧ ∀ owner now secs s' x, (now <= n1 + w1)%Z →
      claim_job s (jl_message l1) owner now secs = Ok (s', x) → x = None ∧ s' = s.
Proof.
  destruct o1 as [j1 r1], o2 as [j2 r2]. intros H1%owned_Ok H2%owned_Ok Hm.
  destruct H1 as (Hj1 & _ & _ & _ & Hst & Ht1 & Ho1 & Ha1 & u & Hu & Hlt).
  destruct H2 as (Hj2 & _ & _ & _ & _ & Ht2 & Ho2 & Ha2 & _).
  rewrite <- Hm, Hj1 in Hj2. injection Hj2 as <-. split; [split_and!; congruence|].
  intros owner now secs s' [l|] Hn Hc%claim_job_Ok; [exfalso|done].
  destruct Hc as (job & run & g & G). pose proof (cg_job _ _ _ _ _ _ _ _ _ _ G) as Hj.
  rewrite Hj1 in Hj. injection Hj as <-.
  destruct (cg_ready _ _ _ _ _ _ _ _ _ _ G) as [?|(_ & v & Hv & Hle)]; [congruence|].
  rewrite Hu in Hv. injection Hv as <-. lia.
Qed.

(* ------------------------------------------------------------------ *)
(** ** Commits *)
(* ------------------------------------------------------------------ *)

(** C22: a commit is final.  After [commit_job] has answered true, through any later sequence of
    calls, the job stays succeeded and its checkpoint reads back as the committed payload, no
    second commit of the job succeeds and no further lease of it is handed out. *)
Theorem commit_final s l payload now wait next s1 s2 :
  reachable s → commit_job s l payload now wait next = Ok (s1, true) → rtc step s1 s2 →
  read_checkpoint s2 (jl_message l) = Ok (Some payload)
  ∧ delivery_status s2 (jl_message l) = Ok "succeeded"
  ∧ (∀ l', jl_message l' = jl_message l → powerless s2 l')
  ∧ ∀ owner now secs s' x, claim_job s2 (jl_message l) owner now secs = Ok (s', x) → x = None.
Proof.
  intros Hs Hc Hss. assert (Hs1 : reachable s1).
  { eapply (reachable_after s (OCommit l payload now wait next)); [done|]. cbn. by rewrite Hc. }
  apply commit_job_Ok in Hc as (job & run & ex & sv & sn & G).
  destruct (commit_parts _ _ _ _ _ _ _ _ _ _ _ _ (reachable_wf _ Hs) G) as [Hg1 Hg2].
  destruct (Hg1 (reachable_wf _ Hs)) as [Hwv _]. destruct (Hg2 Hwv) as [_ Hle1].
  assert (Hle : store_le sv s2) by (etrans; [exact Hle1|by apply history_le]).
  destruct G as [Ho _ Hsv _ _]. apply owned_Ok in Ho as (_ & Hm & _).
  set (ref := {| ar_key := artifact_id l; ar_sha256 := sha256_hex payload;
                 ar_size := py_len payload |}) in Hsv.
  assert (Hj : st_jobs s2 !! msg_key (jl_message l) = Some (succeeded job ref)).
  { destruct (le_jobs _ _ Hle (msg_key (jl_message l)) (succeeded job ref)) as (j & Hj & Hjl).
    - subst sv. cbn. by rewrite lookup_insert_eq.
    - by rewrite <- (le_final _ _ Hjl eq_refl). }
  assert (Ha : st_artifacts s2 !! (jm_tenant (jl_message l), jm_run (jl_message l), artifact_id l)
               = Some payload).
  { eapply lookup_weaken; [|exact (le_artifacts _ _ Hle)]. subst sv. cbn. by rewrite lookup_insert_eq. }
  assert (Hg : get_job s2 (jl_message l) = Ok (succeeded job ref)) by (by apply get_job_Ok).
  split_and!.
  - unfold read_checkpoint. rewrite Hg. cbn [mbind result_bind jo_artifact succeeded ref ar_key].
    rewrite Ha. cbn [ar_sha256 ar_size ref]. by rewrite str_eqb_refl, Z.eqb_refl.
  - unfold delivery_status. by rewrite Hg.
  - intros l' Hl'. apply not_owner_powerless. intros n w [j r] Ho%owned_Ok.
    destruct Ho as (Hj' & _ & _ & _ & Hst & _). rewrite Hl', Hj in Hj'. by injection Hj' as <-.
  - intros owner n secs s' [x|] Hc%claim_job_Ok; [exfalso|done].
    destruct Hc as (j & r & g & G). pose proof (cg_job _ _ _ _ _ _ _ _ _ _ G) as Hj'.
    rewrite Hj in Hj'. injection Hj' as <-. by apply grant_final in G.
Qed.

(* ------------------------------------------------------------------ *)
(** ** Run actions *)
(* ------------------------------------------------------------------ *)

(** Cancellation is never taken back.  Once a run is marked cancelled, after any later sequence
    of calls it still is, every lease of its jobs is powerless, no claim hands out a lease, no job
    can be enqueued, no outbox event is delivered and no retry is accepted. *)
Theorem cancellation_final s t r run s2 :
  reachable s → st_runs s !! (t, r) = Some run → ru_cancelled run = true → rtc step s s2 →
  (∃ run2, st_runs s2 !! (t, r) = Some run2 ∧ ru_cancelled run2 = true)
  ∧ (∀ l, msg_run (jl_message l) = (t, r) → powerless s2 l)
  ∧ (∀ m owner now secs s' x, msg_run m = (t, r) →
       claim_job s2 m owner now secs = Ok (s', x) → x = None)
  ∧ (∀ m now, msg_run m = (t, r) → is_ok (enqueue s2 m now) = false)
  ∧ (∀ now es, pending_outbox s2 t r now = Ok es → es = [])
  ∧ ∀ e key reason now actor s' run', run_action s2 t r Retry e key reason now actor = Ok (s', run') →
      s' = s2.
Proof.
  intros Hs Hr Hcan Hss. destruct (le_runs _ _ (history_le _ _ Hs Hss) _ _ Hr) as (r2 & Hr2 & Hle).
  pose proof (le_cancelled _ _ Hle Hcan) as Hc2. split; [by exists r2|].
  assert (Hget : ∀ t' r' x, (t', r') = (t, r) → get_run_record s2 t' r' = Ok x → ru_cancelled x = true).
  { intros t' r' x [= -> ->] [_ Hx]%get_run_Ok. rewrite Hr2 in Hx. by injection Hx as <-. }
  split_and!.
  - intros l Hl. apply not_owner_powerless. intros n w [j x] Ho%owned_Ok.
    destruct Ho as (_ & _ & Hx & Hnc & _). apply Hget in Hx; [congruence|done].
  - intros m owner now secs s' [l|] Hm Hc%claim_job_Ok; [exfalso|done].
    destruct Hc as (j & x & g & G). pose proof (cg_run _ _ _ _ _ _ _ _ _ _ G) as Hx.
    apply Hget in Hx; [|done]. pose proof (cg_active _ _ _ _ _ _ _ _ _ _ G). congruence.
  - intros m now Hm. unfold enqueue, enqueue_in. destruct (check_time now 1); [|done].
    cbn [mbind result_bind]. destruct (get_run_record _ _ _) as [x|] eqn:Hx; [|done].
    apply Hget in Hx; [|done]. cbn [mbind result_bind]. by rewrite Hx.
  - intros now es Hp. unfold pending_outbox in Hp. do 2 apply bind_Ok_inv in Hp as (? & _ & Hp).
    apply bind_Ok_inv in Hp as (rx & Hx & Hp). apply Hget in Hx; [|done]. rewrite Hx in Hp.
    by injection Hp as <-.
  - intros e key reason now actor s' run' Ha.
    destruct (run_action_Ok _ _ _ _ _ _ _ _ _ _ _ Ha) as [[-> _]|(x & s3 & [Hx _ Hp _ _])]; [done|].
    pose proof (Hget _ _ _ eq_refl Hx) as Hxc. apply get_run_Ok in Hx as [_ Hx].
    assert (Hw2 : wf s2) by (apply (steps_grow _ _ Hss), reachable_wf, Hs).
    destruct (perform_Ok _ _ _ _ _ _ _ _ _ Hw2 Hx Hp) as (_ & _ & _ & _ & _ & Hnc & _). congruence.
Qed.

(** Optimistic concurrency.  An accepted action is either the replay of an earlier response,
    which changes nothing, or was made against the current revision: the revision then advances by
    one, a cancellation leaves no job pending, leased or failed, a retry needs an uncancelled
    partial or failed run of a tenant with fewer than two active runs; and no later action, after
    any sequence of calls, succeeds against the consumed revision except as a replay. *)
Theorem action_optimistic s t r a e key reason now actor s1 run1 :
  reachable s → run_action s t r a e key reason now actor = Ok (s1, run1) →
  (s1 = s ∧ ∃ k i, st_idempotency s !! k = Some i ∧ id_response i = run1)
  ∨ (∃ run, st_runs s !! (t, r) = Some run ∧ ru_revision run = e
      ∧ st_runs s1 !! (t, r) = Some run1 ∧ ru_revision run1 = (e + 1)%Z
      ∧ (a = Cancel → ru_status run ≠ RunCompleted ∧ ru_cancelled run1 = true
         ∧ ∀ i j, st_jobs s1 !! (t, r, i) = Some j → final (jo_status j) = true)
      ∧ (a = Retry → ru_cancelled run = false ∧ ru_status run ∈ [RunPartial; RunFailed]
         ∧ (active_run_count s t < 2)%Z))
    ∧ ∀ s2 b key' reason' now' actor' s3 run3, rtc step s1 s2 →
        run_action s2 t r b e key' reason' now' actor' = Ok (s3, run3) → s3 = s2.
Proof.
  intros Hs Ha. assert (Hs1 : reachable s1).
  { eapply (reachable_after s (OAction t r a e key reason now actor)); [done|]. cbn [exec]. by rewrite Ha. }
  apply run_action_Ok in Ha as [[-> ?]|(run & s' & [Hr He Hp Hfr (k & i & c & db & -> & _)])];
    [by left|right].
  apply get_run_Ok in Hr as [_ Hr].
  destruct (perform_Ok _ _ _ _ _ _ _ _ _ (reachable_wf _ Hs) Hr Hp)
    as (_ & Hruns & Ht & Hrn & Hrev & Hact).
  assert (Hrun1 : st_runs (set_action k i (t, r, Z_dec (ru_revision run1)) c db s') !! (t, r) = Some run1).
  { cbn. by rewrite Hruns, lookup_insert_eq. }
  split.
  - exists run. split_and!; [done|done|done|lia| |].
    + intros ->. cbn. tauto.
    + by intros ->.
  - intros s2 b key' reason' now' actor' s3 run3 Hss Hb.
    apply run_action_Ok in Hb as [[-> _]|(x & s4 & [Hx Hxe _ _ _])]; [done|exfalso].
    destruct (le_runs _ _ (history_le _ _ Hs1 Hss) _ _ Hrun1) as (r2 & Hr2 & Hle).
    apply get_run_Ok in Hx as [_ Hx]. rewrite Hr2 in Hx. injection Hx as <-.
    pose proof (le_revision _ _ Hle). lia.
Qed.

(* ------------------------------------------------------------------ *)
(** ** Claims always answer *)
(* ------------------------------------------------------------------ *)

Lemma attempt_key_inj n m n' m' : (0 <= n)%Z → (0 <= n')%Z →
  attempt_key n m = attempt_key n' m' → n = n' ∧ msg_key m = msg_key m'.
Proof.
  intros Hn Hn' [= Ht Hr Hi]. unfold attempt_id in Hi.
  apply (Z_dec_before 58) in Hi as [-> Hj]; [|done..]. split; [done|]. unfold msg_key. congruence.
Qed.

Lemma lease_fresh s m j : wf s → st_jobs s !! msg_key m = Some j →
  st_leases s !! attempt_key (jo_token j + 1) m = None.
Proof.
  intros Hw Hj. destruct (st_leases s !! _) as [l|] eqn:E; [exfalso|done].
  destruct (wf_leases _ Hw _ _ E) as (m' & n & j' & Hk & Hj' & Hn).
  pose proof (wf_attempt _ _ (wf_jobs _ Hw _ _ Hj)) as Ha.
  apply attempt_key_inj in Hk as [<- Hk]; [|lia..]. rewrite <- Hk, Hj in Hj'.
  injection Hj' as <-. lia.
Qed.

Lemma lookup_total s m : ∃ o : option (Job * Run),
  catch is_lookup (job ← get_job s m; run ← get_run_record s (jm_tenant m) (jm_run m);
                   Ok (Some (job, run))) (λ _, Ok None) = Ok o
  ∧ ∀ job run, get_job s m = Ok job → get_run_record s (jm_tenant m) (jm_run m) = Ok run →
      o = Some (job, run).
Proof.
  unfold get_job. destruct (st_jobs s !! msg_key m) as [j|]; cbn [of_option mbind result_bind];
    [|by exists None].
  unfold require. case_bool_decide; cbn [mbind result_bind]; [|by exists None].
  unfold get_run_record, reject. destruct (run_is_deleted _ _ _); cbn [mbind result_bind catch];
    [by exists None|].
  destruct (st_runs s !! _) as [x|]; cbn [of_option mbind result_bind catch]; [|by exists None].
  exists (Some (j, x)). split; [done|]. by intros ? ? [= <-] [= <-].
Qed.

Lemma lease_expired_total s k j now : wf s → st_jobs s !! k = Some j → ∃ b, lease_expired j now = Ok b
  ∧ (b = true ↔ jo_status j = Leased ∧ ∃ u, jo_until j = Some u ∧ (u <= now)%Z).
Proof.
  intros Hw Hj. unfold lease_expired. case_bool_decide as Hst; [|exists false; split; [done|naive_solver]].
  destruct (wf_leased _ _ (wf_jobs _ Hw _ _ Hj) Hst) as [[u Hu] _]. unfold leased_until. rewrite Hu.
  cbn. eexists. split; [done|]. rewrite Z.leb_le. naive_solver.
Qed.

Lemma guard_raises run now b s e : wf s → guard_extract_continuation run now b s = Raise e →
  is_value_error e = true.
Proof.
  intros Hw. unfold guard_extract_continuation. cbn zeta.
  intros [[_ ->]%reject_Raise|(u & _ & He)]%bind_Raise_inv; [done|].
  apply bind_Raise_inv in He as [He|(live & _ & He)].
  - exfalso. assert (Hl : ∀ l, (∀ j, j ∈ l → ∃ k, st_jobs s !! k = Some j) →
      map_result (λ j, lease_live j now) l ≠ Raise e); [|eapply Hl; [|exact He]].
    + induction l as [|j l IH]; intros Hin; cbn [map_result]; [done|].
      destruct (Hin j ltac:(left)) as [k Hk].
      assert (∃ b, lease_live j now = Ok b) as [b' ->].
      { unfold lease_live. case_bool_decide as Hst; [|by eexists].
        destruct (wf_leased _ _ (wf_jobs _ Hw _ _ Hk) Hst) as [[v Hv] _]. unfold leased_until.
        rewrite Hv. by eexists. }
      cbn [mbind result_bind]. intros [E|(ys & _ & E)]%bind_Raise_inv; [|done].
      eapply IH; [|exact E]. intros j' Hj'. apply Hin. by right.
    + intros j [Hj _]%list_elem_of_In%filter_In. apply list_elem_of_In, elem_of_jobs_of in Hj as [i Hj].
      by exists (ru_tenant run, ru_run run, i).
  - apply bind_Raise_inv in He as [[_ ->]%reject_Raise|(v & _ & He)]; [done|]. by destruct b.
Qed.

(** The writing half of a claim succeeds. *)
Lemma claim_write s m owner now secs job run o :
  wf s → st_jobs s !! msg_key m = Some job → jo_message job = m → (0 <= now)%Z → (1 <= secs)%Z →
  nonblank owner = true → o = Some (job, run) →
  ∃ s' x,
    (ready ← (if (jm_stage m =s? "extract") && has_extra run "extract_job"
              then catch is_value_error (Some <$> guard_extract_continuation run now true s)
                     (λ _, Ok None)
              else Ok (Some s));
     match (ready : option store) with
     | None => Ok (s, None)
     | Some s =>
         let job := claimed job owner now secs in
         lease ← mk_JobLease {| jl_message := m; jl_owner := owner; jl_token := jo_token job;
                                jl_attempt := jo_attempt job; jl_until := now + secs |};
         leases ← insert_new (attempt_key (jl_token lease) m) lease (st_leases s);
         Ok (bump_run run (Some RunRunning)
               (set_leases (λ _, leases) (save_job m job s)), Some lease)
     end) = Ok (s', x)
    ∧ (x = None → ∀ job' run', o = Some (job', run') → ru_cancelled run' = false →
        num_leb (jo_next_at job') (PInt now) = true →
        (jo_status job' = Pending
         ∨ jo_status job' = Leased ∧ ∃ u, jo_until job' = Some u ∧ (u <= now)%Z) →
        jm_stage m = "extract").
Proof.
  intros Hw Hj Hm Hnow Hsecs Hown ->.
  pose proof (wf_attempt _ _ (wf_jobs _ Hw _ _ Hj)) as Ha.
  assert (Hgrant : ∀ g, st_leases g = st_leases s → ∃ s' x,
    (lease ← mk_JobLease {| jl_message := m; jl_owner := owner; jl_token := jo_token job + 1;
                            jl_attempt := jo_attempt job + 1; jl_until := now + secs |};
     leases ← insert_new (attempt_key (jl_token lease) m) lease (st_leases g);
     Ok (bump_run run (Some RunRunning)
           (set_leases (λ _, leases) (save_job m (claimed job owner now secs) g)), Some lease))
    = Ok (s', Some x)).
  { intros g Hg. unfold mk_JobLease. cbn [jl_owner jl_token jl_attempt jl_until]. rewrite Hown.
    destruct (Z.ltb_spec (jo_token job + 1) 1); [lia|].
    destruct (Z.ltb_spec (jo_attempt job + 1) 1); [lia|].
    destruct (Z.ltb_spec (now + secs) 1); [lia|]. cbn [require reject mbind result_bind jl_token].
    unfold insert_new. rewrite Hg, (lease_fresh s m job Hw Hj). cbn [mbind result_bind].
    by eexists _, _. }
  destruct ((jm_stage m =s? "extract") && has_extra run "extract_job") eqn:Ee.
  - destruct (guard_extract_continuation run now true s) as [g|e] eqn:Eg.
    + cbn [fmap result_fmap catch mbind result_bind].
      destruct (Hgrant g) as (s' & x & Hx); [by apply guard_Ok in Eg as ->|]. exists s', (Some x).
      by split.
    + cbn [fmap result_fmap catch]. rewrite (guard_raises _ _ _ _ _ Hw Eg). cbn [mbind result_bind].
      eexists _, _. split; [done|]. intros _ ? ? _ _ _ _. apply andb_true_iff in Ee as [Ee _].
      by apply str_eqb_eq.
  - cbn [mbind result_bind]. destruct (Hgrant s) as (s' & x & Hx); [done|]. exists s', (Some x). by split.
Qed.

Lemma grant_owns s m owner now secs s' l job run s1 :
  wf s → (0 <= now)%Z → (1 <= secs)%Z →
  claim_grant s m owner now secs s' l job run s1 → can_call s' l now 0 = Ok true.
Proof.
  intros Hw Hnow Hsecs G. destruct (granted_job _ _ _ _ _ _ _ _ _ _ G) as (Hj & Htok & Hm).
  pose proof (cg_run _ _ _ _ _ _ _ _ _ _ G) as Hrun. pose proof (cg_active _ _ _ _ _ _ _ _ _ _ G) as Hac.
  pose proof (cg_message _ _ _ _ _ _ _ _ _ _ G) as Hjm. pose proof (cg_lease _ _ _ _ _ _ _ _ _ _ G) as Hl.
  destruct (run_key_wf _ _ _ _ Hw Hrun) as [Hrk Hkey]. apply get_run_Ok in Hrun as [Hdel Hrun].
  assert (Hruns : st_runs s' !! (jm_tenant m, jm_run m) = Some (bumped run (Some RunRunning))).
  { rewrite (cg_store _ _ _ _ _ _ _ _ _ _ G). cbn. rewrite <- Hkey. by rewrite lookup_insert_eq. }
  assert (Hdel' : st_deleted s' = st_deleted s).
  { rewrite (cg_store _ _ _ _ _ _ _ _ _ _ G).
    by destruct (cg_guard _ _ _ _ _ _ _ _ _ _ G) as [->|[_ ->]]. }
  unfold can_call, check_time. destruct (Z.ltb_spec now 0); [lia|]. cbn [reject mbind result_bind].
  unfold owned. rewrite Hm. rewrite (proj2 (get_job_Ok s' m _) (conj Hj Hjm)). cbn [mbind result_bind].
  rewrite (proj2 (get_run_Ok s' _ _ (bumped run (Some RunRunning)))).
  2: { split; [|done]. unfold run_is_deleted in *. by rewrite Hruns, Hdel'; rewrite Hrun in Hdel. }
  cbn [mbind result_bind catch ru_cancelled bumped]. rewrite Hac. cbn [claimed jo_status jo_token jo_owner jo_attempt].
  rewrite Hl. cbn [jl_token jl_owner jl_attempt]. rewrite !bool_decide_true, !Z.eqb_refl by done.
  cbn. destruct (Z.leb_spec (now + secs) (now + 0)); [lia|done].
Qed.

(** In every reachable store a well-formed claim is answered, never refused by the primary key
    of the attempt records or by a missing lease time; and a job that is pending or whose lease
    has expired is granted as soon as its delay has passed, unless its run is cancelled, deleted
    or waiting for a downstream tag: the new lease carries the next token and owns the job at
    once, so the work of a crashed worker is always recovered. *)
Theorem claim_recovers s m owner now secs :
  reachable s → (0 <= now)%Z → (1 <= secs)%Z → nonblank owner = true →
  (∃ s' o, claim_job s m owner now secs = Ok (s', o))
  ∧ ∀ job run, get_job s m = Ok job → get_run_record s (jm_tenant m) (jm_run m) = Ok run →
      ru_cancelled run = false → num_leb (jo_next_at job) (PInt now) = true →
      (jo_status job = Pending
       ∨ jo_status job = Leased ∧ ∃ u, jo_until job = Some u ∧ (u <= now)%Z) →
      jm_stage m ≠ "extract" →
      ∃ s' l, claim_job s m owner now secs = Ok (s', Some l)
        ∧ jl_token l = (jo_token job + 1)%Z ∧ can_call s' l now 0 = Ok true.
Proof.
  intros Hs Hnow Hsecs Hown. pose proof (reachable_wf _ Hs) as Hw.
  assert (Htime : check_time now secs = Ok tt).
  { unfold check_time. destruct (Z.ltb_spec now 0); [lia|]. destruct (Z.ltb_spec secs 1); [lia|done]. }
  destruct (lookup_total s m) as (o & Hlook & Hsome).
  assert (Hans : ∃ s' x, claim_job s m owner now secs = Ok (s', x)
    ∧ (x = None → ∀ job run, o = Some (job, run) → ru_cancelled run = false →
        num_leb (jo_next_at job) (PInt now) = true →
        (jo_status job = Pending ∨ jo_status job = Leased ∧ ∃ u, jo_until job = Some u ∧ (u <= now)%Z) →
        jm_stage m = "extract")).
  { unfold claim_job. rewrite Htime, Hown. cbn [require mbind result_bind]. rewrite Hlook.
    cbn [mbind result_bind]. destruct o as [[job run]|]; [|by eexists _, _].
    apply lookup_found in Hlook as (Hj & Hm & Hr).
    destruct (ru_cancelled run || _) eqn:Eb.
    { eexists _, _. split; [done|]. intros _ ? ? [= <- <-] Hc Hn. rewrite Hc, Hn in Eb. done. }
    destruct (lease_expired_total s _ job now Hw Hj) as (b & Hb & Hbi). rewrite Hb.
    cbn [mbind result_bind].
    destruct (negb (bool_decide (jo_status job = Pending) || b)) eqn:En.
    { eexists _, _. split; [done|]. intros _ ? ? [= <- <-] _ _ Hst. exfalso.
      apply negb_true_iff, orb_false_iff in En as [Hp%bool_decide_eq_false ->]. naive_solver. }
    apply claim_write; try done; lia. }
  destruct Hans as (s' & x & Hc & Hx). split; [by exists s', x|].
  intros job run Hj Hr Hcan Hn Hst Hne. destruct x as [l|].
  2: { exfalso. apply Hne. eapply Hx; [done|by apply Hsome|done..]. }
  exists s', l. split; [done|]. apply claim_job_Ok in Hc as (j & r & g & G).
  destruct (granted_job _ _ _ _ _ _ _ _ _ _ G) as (Hj' & Htok & Hm).
  apply get_job_Ok in Hj as [Hj _]. pose proof (cg_job _ _ _ _ _ _ _ _ _ _ G) as Hj2.
  rewrite Hj in Hj2. injection Hj2 as <-. split; [done|]. by eapply grant_owns.
Qed.
End climbs.

(* ------------------------------------------------------------------ *)
(** ** A history *)
(* ------------------------------------------------------------------ *)

(** Stages without a validator, and a UUID cut from the name. *)
Definition PlainStages : Stages :=
  {| uuid5 := λ name, slice name 0 8 ++ "-" ++ slice name 8 12 ++ "-" ++ slice name 12 16 ++ "-"
                      ++ slice name 16 20 ++ "-" ++ slice name 20 32;
     checkpoint := λ _ _ _ _ _ _, Ok [] |}.

Definition tenant_a : pystr := "7c9e6679-7425-40de-944b-e07fc1f90ae9".
Definition run_a : pystr := "11111111-1111-4111-8111-111111111111".
Definition job_a : pystr := "22222222-2222-4222-8222-222222222222".
Definition message_a : JobMessage :=
  {| jm_tenant := tenant_a; jm_run := run_a; jm_version := tenant_a; jm_job := job_a;
     jm_stage := "index"; jm_shard := "all"; jm_input_hash := replicate 64 97%N |}.

Definition run_ops (l : list op) (s : store) : store :=
  foldl (after (H := Checksum) (H0 := PlainStages)) s l.

Lemma run_ops_steps l s : rtc (step (H := Checksum) (H0 := PlainStages)) s (run_ops l s).
Proof.
  revert s. induction l as [|o l IH]; intros s; [apply rtc_refl|].
  eapply rtc_l; [apply step_op|]. apply IH.
Qed.

(** A worker claims at 100 for 10 seconds and dies; another claims at 120. *)
Definition before_claim : store :=
  run_ops [OCreate tenant_a run_a tenant_a; OEnqueue message_a 100] empty_store.
Definition first_lease : JobLease :=
  {| jl_message := message_a; jl_owner := "w1"; jl_token := 1; jl_attempt := 1; jl_until := 110 |}.
Definition second_lease : JobLease :=
  {| jl_message := message_a; jl_owner := "w2"; jl_token := 2; jl_attempt := 2; jl_until := 130 |}.
Definition first_claimed : store := run_ops [OClaim message_a "w1" 100 10] before_claim.
Definition second_claimed : store := run_ops [OClaim message_a "w2" 120 10] first_claimed.
Definition payload_a : list N := [123; 125]%N.
Definition committed : store := run_ops [OCommit second_lease payload_a 125 0 None] second_claimed.

Lemma reachable_ops l s : reachable (H := Checksum) (H0 := PlainStages) s →
  reachable (H := Checksum) (H0 := PlainStages) (run_ops l s).
Proof. unfold reachable. intros Hs. etrans; [exact Hs|apply run_ops_steps]. Qed.

Lemma first_claimed_reachable : reachable (H := Checksum) (H0 := PlainStages) first_claimed.
Proof. unfold first_claimed, before_claim. do 2 apply reachable_ops. apply rtc_refl. Qed.
Lemma second_claimed_reachable : reachable (H := Checksum) (H0 := PlainStages) second_claimed.
Proof. unfold second_claimed. apply reachable_ops, first_claimed_reachable. Qed.

Lemma claim_second :
  claim_job first_claimed message_a "w2" 120 10
  = Ok (second_claimed, Some second_lease).
Proof.
  assert (E : snd <$> claim_job first_claimed message_a "w2" 120 10
              = Ok (Some second_lease)) by (vm_compute; reflexivity).
  apply fmap_Ok_inv in E as ([s x] & E & Ex). cbn in Ex. subst x. rewrite E. do 2 f_equal.
  unfold second_claimed, run_ops, after. cbn [foldl exec]. by rewrite E.
Qed.

Lemma commit_second :
  commit_job (H := Checksum) (H0 := PlainStages) second_claimed second_lease payload_a 125 0 None
  = Ok (committed, true).
Proof.
  assert (E : snd <$> commit_job (H := Checksum) (H0 := PlainStages) second_claimed second_lease
                payload_a 125 0 None = Ok true) by (vm_compute; reflexivity).
  apply fmap_Ok_inv in E as ([s x] & E & Ex). cbn in Ex. subst x. rewrite E. do 2 f_equal.
  unfold committed, run_ops, after. cbn [foldl exec]. by rewrite E.
Qed.

Lemma stale_lease_powerless_witness :
  powerless (H := Checksum) (H0 := PlainStages) committed first_lease.
Proof.
  apply (stale_lease_powerless (H := Checksum) (H0 := PlainStages) first_claimed message_a "w2" 120 10
           second_claimed second_lease committed first_lease);
    [exact first_claimed_reachable|exact claim_second|apply run_ops_steps|reflexivity|].
  cbn. lia.
Defined.

(** The same attempt after a renewal. *)
Definition renewed_lease : JobLease := lease_with_until first_lease 999.

Lemma can_call_owned s l n w : can_call s l n w = Ok true → ∃ o, owned s l n w = Ok (Some o).
Proof.
  unfold can_call. intros Hc. apply bind_Ok_inv in Hc as (u & _ & Hc).
  apply bind_Ok_inv in Hc as ([o|] & Ho & Hc); [by exists o|done].
Qed.

Lemma first_owns : ∃ o, owned first_claimed first_lease 105 0 = Ok (Some o).
Proof. apply can_call_owned. vm_compute. reflexivity. Qed.
Lemma renewed_owns : ∃ o, owned first_claimed renewed_lease 105 0 = Ok (Some o).
Proof. apply can_call_owned. vm_compute. reflexivity. Qed.

Lemma live_lease_exclusive_witness :
  jl_owner first_lease = jl_owner renewed_lease ∧ jl_token first_lease = jl_token renewed_lease
  ∧ jl_attempt first_lease = jl_attempt renewed_lease.
Proof.
  destruct first_owns as [o1 E1]. destruct renewed_owns as [o2 E2].
  exact (proj1 (live_lease_exclusive first_claimed first_lease renewed_lease 105 0 105 0 o1 o2 E1 E2
                  eq_refl)).
Defined.

Lemma commit_final_witness :
  read_checkpoint (H := Checksum) committed message_a = Ok (Some payload_a).
Proof.
  exact (proj1 (commit_final (H := Checksum) (H0 := PlainStages) second_claimed second_lease payload_a
    125 0 None committed committed second_claimed_reachable commit_second (rtc_refl _ _))).
Defined.

Definition action_key_a : pystr := "abcdefghijklmnop".
Definition cancelled_ops : list op :=
  [OAction tenant_a run_a Cancel 2 action_key_a "stop" 200 "kim"].
Definition cancelled_store : store := run_ops cancelled_ops first_claimed.

Lemma cancel_accepted : ∃ run,
  run_action (H := Checksum) (H0 := PlainStages) first_claimed tenant_a run_a Cancel 2 action_key_a
    "stop" 200 "kim" = Ok (cancelled_store, run) ∧ ru_cancelled run = true.
Proof.
  assert (E : (λ x : store * Run, ru_cancelled x.2) <$>
    run_action (H := Checksum) (H0 := PlainStages) first_claimed tenant_a run_a Cancel 2 action_key_a
      "stop" 200 "kim" = Ok true) by (vm_compute; reflexivity).
  apply fmap_Ok_inv in E as ([s run] & E & Ex). exists run. split; [|exact Ex]. rewrite E.
  do 2 f_equal. unfold cancelled_store, cancelled_ops, run_ops, after. cbn [foldl exec]. by rewrite E.
Qed.

Lemma cancelled_store_run : ∃ run, st_runs cancelled_store !! (tenant_a, run_a) = Some run
  ∧ ru_cancelled run = true.
Proof.
  assert (E : ru_cancelled <$> st_runs cancelled_store !! (tenant_a, run_a) = Some true)
    by (vm_compute; reflexivity).
  destruct (st_runs cancelled_store !! (tenant_a, run_a)) as [run|]; [|done]. exists run.
  split; [done|]. by injection E.
Qed.

Lemma cancelled_reachable : reachable (H := Checksum) (H0 := PlainStages) cancelled_store.
Proof. unfold cancelled_store. apply reachable_ops, first_claimed_reachable. Qed.

Lemma cancellation_final_witness :
  powerless (H := Checksum) (H0 := PlainStages) cancelled_store first_lease.
Proof.
  destruct cancelled_store_run as (run & Hr & Hc).
  apply (cancellation_final (H := Checksum) (H0 := PlainStages) cancelled_store tenant_a run_a run
           cancelled_store cancelled_reachable Hr Hc (rtc_refl _ _)).
  reflexivity.
Defined.

Lemma action_optimistic_witness :
  cancelled_store = first_claimed
  ∨ ∃ run, st_runs first_claimed !! (tenant_a, run_a) = Some run ∧ ru_revision run = 2%Z.
Proof.
  destruct cancel_accepted as (run1 & Ha & _).
  destruct (action_optimistic (H := Checksum) (H0 := PlainStages) _ _ _ _ _ _ _ _ _ _ _
              first_claimed_reachable Ha) as [[E _]|[(run & Hr & He & _) _]].
  - left. exact E.
  - right. exists run. split; [exact Hr|exact He].
Defined.

Lemma claim_recovers_witness :
  ∃ s' o, claim_job first_claimed message_a "w2" 120 10 = Ok (s', o).
Proof.
  refine (proj1 (claim_recovers (H := Checksum) (H0 := PlainStages) first_claimed message_a "w2" 120 10
    first_claimed_reachable _ _ _)); [lia|lia|reflexivity].
Defined.

(** The crashed worker's job is granted again once its lease has expired, not before. *)
Example recovery_run :
  snd <$> claim_job first_claimed message_a "w2" 109 10 = Ok None
  ∧ snd <$> claim_job first_claimed message_a "w2" 110 10
    = Ok (Some {| jl_message := message_a; jl_owner := "w2"; jl_token := 2; jl_attempt := 2;
                  jl_until := 120 |})
  ∧ utc_iso 1790294400 = Ok "2026-09-25T00:00:00Z".
Proof. vm_compute. repeat split. Qed.
