(* ===== verification/Budget.v ===== *)
(** * The token budget and its usage ledger.

    [application/budget.py]: the immutable inputs and the price projection;
    [adapters/aws/usage.py]: the durable ledger of reservations.  The table
    [usage_attempts] is partitioned by its key prefix (tenant, run): a
    [ledger] holds a run's policy and its rows.  A refused transaction is
    rolled back. *)
From S2P Require Import Prelude PyVal JsonCodec Decimal Values PyDate Digest RulePack Rules Reconcile.

(* ------------------------------------------------------------------ *)
(** ** Budget inputs *)
(* ------------------------------------------------------------------ *)

Definition MAX_COUNT : Z := 9223372036854775807.

(** [application/budget.py:26-30 count] *)
Definition count (value minimum : Z) : result unit :=
  require ((minimum <=? value) && (value <=? MAX_COUNT))%Z
    (ValueError "outside the supported token/count range").

(** [application/budget.py:33-35 text_field] *)
Definition text_field (value : pystr) : result unit :=
  require (nonblank value && (py_len value <=? 512)%Z) (ValueError "must be non-empty text").

(** [application/budget.py:38-44 RoleLimit] *)
Record RoleLimit : Set := {
  rl_role : pystr; rl_calls : Z; rl_input : Z; rl_output : Z; rl_context : Z }.

#[export] Instance role_limit_eq_dec : EqDecision RoleLimit.
Proof. solve_decision. Defined.

(** [application/budget.py:46-49 RoleLimit.__post_init__] *)
Definition mk_RoleLimit (r : RoleLimit) : result RoleLimit :=
  _ ← text_field (rl_role r);
  _ ← count (rl_calls r) 1;
  _ ← count (rl_input r) 1;
  _ ← count (rl_output r) 1;
  _ ← count (rl_context r) 1;
  Ok r.

(** [application/budget.py:52-57 BudgetLimits] *)
Record BudgetLimits : Set := {
  bl_input : Z; bl_output : Z; bl_roles : list RoleLimit; bl_attempts : Z }.

#[export] Instance limits_eq_dec : EqDecision BudgetLimits.
Proof. solve_decision. Defined.

(** [application/budget.py:59-69 BudgetLimits.__post_init__] *)
Definition mk_BudgetLimits (b : BudgetLimits) : result BudgetLimits :=
  _ ← count (bl_input b) 1;
  _ ← count (bl_output b) 1;
  _ ← count (bl_attempts b) 0;
  _ ← require ((1 <=? bl_attempts b) && (bl_attempts b <=? 3))%Z
        (ValueError "max_attempts cannot exceed the three-attempt contract");
  _ ← require (nonempty_list (bl_roles b)) (ValueError "typed role limits required");
  _ ← require (str_distinct (rl_role <$> bl_roles b)) (ValueError "duplicate role limits");
  Ok b.

(** [application/budget.py:72-84 BudgetCall] *)
Record BudgetCall : Set := {
  bc_tenant : pystr; bc_run : pystr; bc_version : pystr; bc_request : pystr; bc_attempt : Z;
  bc_role : pystr; bc_model : pystr; bc_region : pystr; bc_binding : pystr; bc_signature : pystr;
  bc_replicate : option Z }.

#[export] Instance call_eq_dec : EqDecision BudgetCall.
Proof. solve_decision. Defined.

(** [application/budget.py:86-101 BudgetCall.__post_init__] *)
Definition mk_BudgetCall (c : BudgetCall) : result BudgetCall :=
  _ ← check_uuid (bc_tenant c);
  _ ← check_uuid (bc_run c);
  _ ← check_uuid (bc_version c);
  _ ← text_field (bc_request c);
  _ ← text_field (bc_role c);
  _ ← text_field (bc_model c);
  _ ← text_field (bc_region c);
  _ ← check_sha256 (bc_binding c);
  _ ← check_sha256 (bc_signature c);
  _ ← count (bc_attempt c) 1;
  _ ← match bc_replicate c with
      | Some r => _ ← count r 0;
                  require (existsb (Z.eqb r) [1; 2; 3]%Z) (ValueError "replicate_id must be 1, 2, 3")
      | None => reject (bc_role c =s? "tagger") (ValueError "tagging calls require a replicate_id")
      end;
  Ok c.

#[export] Instance decimal_eq_dec : EqDecision decimal.
Proof. solve_decision. Defined.

(** [application/budget.py:104-113 PricingSnapshot] *)
Record PricingSnapshot : Set := {
  pr_id : pystr; pr_model : pystr; pr_region : pystr; pr_captured_at : pystr;
  pr_input : decimal; pr_output : decimal; pr_cache_read : option decimal;
  pr_cache_write : option decimal }.

#[export] Instance pricing_eq_dec : EqDecision PricingSnapshot.
Proof. solve_decision. Defined.

(** [application/budget.py:146-155 TokenUsage] *)
Record TokenUsage : Set := {
  tu_input : option Z; tu_output : option Z; tu_cache_read : option Z; tu_cache_write : option Z;
  tu_latency : Z; tu_status : pystr; tu_provider_request : option pystr;
  tu_error : option pystr }.

#[export] Instance usage_eq_dec : EqDecision TokenUsage.
Proof. solve_decision. Defined.

Definition optional {A} (f : A → result unit) (o : option A) : result unit :=
  match o with Some x => f x | None => Ok tt end.

(** [application/budget.py:157-173 TokenUsage.__post_init__] *)
Definition mk_TokenUsage (u : TokenUsage) : result TokenUsage :=
  _ ← each (optional (λ z, count z 0)) [tu_input u; tu_output u; tu_cache_read u; tu_cache_write u];
  _ ← count (tu_latency u) 0;
  _ ← require (str_in (tu_status u) ["succeeded"; "failed"; "cancelled"])
        (ValueError "unsupported provider usage status");
  _ ← optional text_field (tu_provider_request u);
  _ ← optional text_field (tu_error u);
  _ ← reject ((tu_status u =s? "failed") && bool_decide (tu_error u = None))
        (ValueError "failed usage requires error_code");
  _ ← match tu_input u with
      | Some n => reject (n <? from_option id 0 (tu_cache_read u) + from_option id 0 (tu_cache_write u))%Z
                    (ValueError "cache buckets cannot exceed total input")
      | None => Ok tt
      end;
  Ok u.

(* ------------------------------------------------------------------ *)
(** ** Costs *)
(* ------------------------------------------------------------------ *)

Definition d_per_million (a : decimal) : decimal :=
  let '(c, e) := drop_zeros 6 (d_coef a) (d_exp a - 6) in
  {| d_neg := d_neg a; d_coef := c; d_exp := e |}.

(** [application/budget.py:192-196 usage_cost] *)
Definition add_bucket (amount : decimal) (bucket : Z * option decimal) : option decimal :=
  let '(tokens, rate) := bucket in
  if (tokens =? 0)%Z then Some amount
  else rate ← (rate : option decimal);
       Some (d_add 100 amount (d_per_million (d_mul 100 (d_of_Z tokens) rate))).

Fixpoint add_buckets (amount : decimal) (buckets : list (Z * option decimal)) : option decimal :=
  match buckets with
  | [] => Some amount
  | b :: r => amount ← add_bucket amount b; add_buckets amount r
  end.

(** The disjoint buckets of a usage: uncached input, output, cache reads and writes.
    [application/budget.py:182-188 usage_cost] *)
Definition cost_buckets (input output read write : Z) (p : PricingSnapshot)
    : list (Z * option decimal) :=
  [((input - read - write)%Z, Some (pr_input p)); (output, Some (pr_output p));
   (read, pr_cache_read p); (write, pr_cache_write p)].

(** The amount whose fixed-point text is the stored cost.
    [application/budget.py:176-197 usage_cost] *)
Definition usage_cost (u : TokenUsage) (pricing : option PricingSnapshot) : option decimal :=
  p ← pricing; input ← tu_input u; output ← tu_output u;
  read ← tu_cache_read u; write ← tu_cache_write u;
  add_buckets (d_of_Z 0) (cost_buckets input output read write p).

(* ------------------------------------------------------------------ *)
(** ** The ledger *)
(* ------------------------------------------------------------------ *)

Inductive attempt_state : Set := Reserved | Dispatched | Settled | Released.
#[export] Instance attempt_state_eq_dec : EqDecision attempt_state.
Proof. solve_decision. Defined.

(** [adapters/aws/usage.py:163-168 reserve_budget] *)
Record Candidate : Set := {
  ca_call : BudgetCall; ca_input : Z; ca_output : Z; ca_pricing : option PricingSnapshot }.
#[export] Instance candidate_eq_dec : EqDecision Candidate.
Proof. solve_decision. Defined.

(** [adapters/aws/usage.py:374-382 record_usage] *)
Record LedgerEntry : Set := { le_usage : TokenUsage; le_recorded : Z; le_cost : option decimal }.

(** [adapters/aws/usage.py:350-356 release_budget] *)
Record Release : Set := { re_reason : pystr; re_at : Z; re_cache_hit : bool }.

(** A row of [usage_attempts]. [adapters/aws/usage.py:51-55 LocalSQLiteUsageStore.__init__] *)
Record attempt_row : Set := {
  at_candidate : Candidate; at_created : Z; at_state : attempt_state;
  at_ledger : option LedgerEntry; at_release : option Release }.

(** A row of [usage_runs] with the attempts of its run. *)
Record ledger : Set := {
  lg_version : pystr; lg_limits : BudgetLimits; lg_rows : list attempt_row }.

Record usage_db : Type := {
  ud_runs : gmap (pystr * pystr) ledger; ud_prices : gmap pystr PricingSnapshot }.

Definition row_call (x : attempt_row) : BudgetCall := ca_call (at_candidate x).
Definition row_request (x : attempt_row) : pystr := bc_request (row_call x).
Definition row_attempt (x : attempt_row) : Z := bc_attempt (row_call x).
Definition row_usage (x : attempt_row) : option TokenUsage := le_usage <$> at_ledger x.

(** [ORDER BY request_id, attempt]. [adapters/aws/usage.py:129-143 _records] *)
Definition records (l : ledger) : list attempt_row :=
  isort (λ a b, negb (str_leb (row_request b) (row_request a))
                || (row_request a =s? row_request b) && (row_attempt a <=? row_attempt b)%Z)
    (lg_rows l).

(** [adapters/aws/usage.py:72-81 _run] *)
Definition find_run (db : usage_db) (t r : pystr) : result ledger :=
  _ ← check_uuid t; _ ← check_uuid r; of_option KeyError (ud_runs db !! (t, r)).

(** [adapters/aws/usage.py:89-110 create_budget_transaction] *)
Definition create_budget (db : usage_db) (t r version : pystr) (limits : BudgetLimits)
    : result usage_db :=
  _ ← check_uuid t; _ ← check_uuid r; _ ← check_uuid version;
  match ud_runs db !! (t, r) with
  | Some l => _ ← require ((lg_version l =s? version) && bool_decide (lg_limits l = limits))
                    BudgetConflict; Ok db
  | None => Ok {| ud_runs := <[(t, r) := {| lg_version := version; lg_limits := limits;
                                            lg_rows := [] |}]> (ud_runs db);
                  ud_prices := ud_prices db |}
  end.

Definition over (x : attempt_row) : bool :=
  let exceeds (actual : option Z) (reserved : Z) : bool :=
    match actual with Some a => (reserved <? a)%Z | None => false end in
  match row_usage x with
  | Some u => exceeds (tu_input u) (ca_input (at_candidate x))
              || exceeds (tu_output u) (ca_output (at_candidate x))
  | None => false
  end.

(** [adapters/aws/usage.py:293-305 _check_provider_overrun] *)
Definition check_provider_overrun (rows : list attempt_row) : result unit :=
  reject (existsb over rows) BudgetExceeded.

(** The call an existing attempt's identity allows the new one to be. *)
Definition same_identity (existing call : BudgetCall) : bool :=
  bool_decide ({| bc_tenant := bc_tenant existing; bc_run := bc_run existing;
                  bc_version := bc_version existing; bc_request := bc_request existing;
                  bc_attempt := bc_attempt call; bc_role := bc_role existing;
                  bc_model := bc_model existing; bc_region := bc_region existing;
                  bc_binding := bc_binding existing; bc_signature := bc_signature call;
                  bc_replicate := bc_replicate existing |} = call).

(** Whether the attempt is already reserved.
    [adapters/aws/usage.py:184-198 reserve_budget] *)
Fixpoint duplicate (c : Candidate) (rows : list attempt_row) : result bool :=
  match rows with
  | [] => Ok false
  | x :: r =>
      if row_request x =s? bc_request (ca_call c) then
        _ ← require (same_identity (row_call x) (ca_call c)) BudgetConflict;
        if (row_attempt x =? bc_attempt (ca_call c))%Z
        then _ ← require (bool_decide (at_candidate x = c)) BudgetConflict; Ok true
        else duplicate c r
      else duplicate c r
  end.

Definition active (x : attempt_row) : bool := negb (bool_decide (at_state x = Released)).

Definition SCHEMA_INVALID : pystr := "LLM_SCHEMA_INVALID".
Definition RETRYABLE : list pystr :=
  ["MODEL_THROTTLED"; "PROVIDER_5XX"; "MODEL_TIMEOUT"; "LLM_SCHEMA_INVALID"].

Definition has_error (x : attempt_row) (code : pystr) : bool :=
  match row_usage x with Some u => bool_decide (tu_error u = Some code) | None => false end.

(** [adapters/aws/usage.py:215-260 reserve_budget] *)
Definition check_retry (c : BudgetCall) (rows : list attempt_row) : result unit :=
  let mine := List.filter (λ x, row_request x =s? bc_request c) rows in
  match find (λ x, (row_attempt x =? bc_attempt c - 1)%Z) mine with
  | None => if nonempty_list mine then Raise KeyError else Ok tt
  | Some previous =>
      _ ← reject (negb (bc_signature (row_call previous) =s? bc_signature c)
                  && negb (has_error previous SCHEMA_INVALID)) BudgetConflict;
      if active previous then
        _ ← match row_usage previous with
            | Some u => require (bool_decide (at_state previous = Settled)
                                 && negb (tu_status u =s? "succeeded")
                                 && match tu_error u with
                                    | Some e => str_in e RETRYABLE | None => false end) BudgetConflict
            | None => Raise BudgetConflict
            end;
        reject (has_error previous SCHEMA_INVALID
                && (1 <? py_len (List.filter (λ x, has_error x SCHEMA_INVALID) mine))%Z) BudgetConflict
      else Ok tt
  end.

(** What a row holds against the budget: the actual count once known. *)
Definition charge (reserved : Candidate → Z) (actual : TokenUsage → option Z) (x : attempt_row) : Z :=
  match row_usage x with
  | Some u => from_option id (reserved (at_candidate x)) (actual u)
  | None => reserved (at_candidate x)
  end.

Definition sum_Z {A} (f : A → Z) (l : list A) : Z := foldr (λ x acc, f x + acc)%Z 0%Z l.

Definition used (reserved : Candidate → Z) (actual : TokenUsage → option Z)
    (rows : list attempt_row) : Z :=
  sum_Z (charge reserved actual) (List.filter active rows).

(** [adapters/aws/usage.py:261-273 reserve_budget] *)
Definition check_budget (limits : BudgetLimits) (c : Candidate) (rows : list attempt_row)
    : result unit :=
  let fits (total : Z) (limit requested : Z) : result unit :=
    reject ((limit <=? total) || (limit <? total + requested))%Z BudgetExceeded in
  _ ← fits (used ca_input tu_input rows) (bl_input limits) (ca_input c);
  fits (used ca_output tu_output rows) (bl_output limits) (ca_output c).

(** [adapters/aws/usage.py:173-182 reserve_budget] *)
Definition check_role (limits : BudgetLimits) (c : Candidate) : result RoleLimit :=
  role ← of_option BudgetExceeded
           (find (λ x, rl_role x =s? bc_role (ca_call c)) (bl_roles limits));
  _ ← reject ((rl_input role <? ca_input c) || (rl_output role <? ca_output c)
              || (rl_context role <? ca_input c + ca_output c))%Z BudgetExceeded;
  Ok role.

Definition max_attempt (l : list attempt_row) : Z := foldr (λ x acc, Z.max (row_attempt x) acc) 0%Z l.

(** The checks between the duplicate test and the insertion.
    [adapters/aws/usage.py:199-273 reserve_budget] *)
Definition admissible (limits : BudgetLimits) (role : RoleLimit) (c : Candidate)
    (rows : list attempt_row) : result unit :=
  let call := ca_call c in
  let mine := List.filter (λ x, row_request x =s? bc_request call) rows in
  _ ← check_provider_overrun rows;
  _ ← reject (bl_attempts limits <? bc_attempt call)%Z BudgetExceeded;
  _ ← require (bc_attempt call =? max_attempt mine + 1)%Z BudgetConflict;
  _ ← reject (rl_calls role <=? py_len (List.filter
         (λ x, active x && (bc_role (row_call x) =s? bc_role call)) rows))%Z BudgetExceeded;
  _ ← check_retry call rows;
  check_budget limits c rows.

(** [adapters/aws/usage.py:275-286 reserve_budget] *)
Definition put_price (prices : gmap pystr PricingSnapshot) (p : option PricingSnapshot)
    : result (gmap pystr PricingSnapshot) :=
  match p with
  | None => Ok prices
  | Some p =>
      match prices !! pr_id p with
      | Some old => _ ← require (bool_decide (old = p)) BudgetConflict; Ok prices
      | None => Ok (<[pr_id p := p]> prices)
      end
  end.

Definition new_row (c : Candidate) (now : Z) : attempt_row :=
  {| at_candidate := c; at_created := now; at_state := Reserved; at_ledger := None;
     at_release := None |}.

Definition with_rows (l : ledger) (rows : list attempt_row) : ledger :=
  {| lg_version := lg_version l; lg_limits := lg_limits l; lg_rows := rows |}.

Definition put_ledger (db : usage_db) (c : BudgetCall) (l : ledger) : usage_db :=
  {| ud_runs := <[(bc_tenant c, bc_run c) := l]> (ud_runs db); ud_prices := ud_prices db |}.

(** [adapters/aws/usage.py:145-291 reserve_budget] *)
Definition reserve_budget (db : usage_db) (c : Candidate) (now : Z) : result (usage_db * bool) :=
  let call := ca_call c in
  _ ← count (ca_input c) 0;
  _ ← count (ca_output c) 1;
  _ ← count now 0;
  _ ← match ca_pricing c with
      | Some p => require ((pr_model p =s? bc_model call) && (pr_region p =s? bc_region call))
                    (ValueError "pricing snapshot must match the bound model and region")
      | None => Ok tt
      end;
  l ← find_run db (bc_tenant call) (bc_run call);
  _ ← require (lg_version l =s? bc_version call) KeyError;
  role ← check_role (lg_limits l) c;
  dup ← duplicate c (records l);
  if (dup : bool) then Ok (db, false)
  else
    _ ← admissible (lg_limits l) role c (records l);
    prices ← put_price (ud_prices db) (ca_pricing c);
    Ok (put_ledger {| ud_runs := ud_runs db; ud_prices := prices |} call
          (with_rows l (lg_rows l ++ [new_row c now])), true).

Definition is_attempt (c : BudgetCall) (x : attempt_row) : bool :=
  (row_request x =s? bc_request c) && (row_attempt x =? bc_attempt c)%Z.

(** The run and the row of a call. [adapters/aws/usage.py:116-127 _attempt] *)
Definition find_attempt (db : usage_db) (c : BudgetCall) : result (ledger * attempt_row) :=
  l ← of_option KeyError (ud_runs db !! (bc_tenant c, bc_run c));
  x ← of_option KeyError (find (is_attempt c) (lg_rows l));
  _ ← require (bool_decide (row_call x = c)) BudgetConflict;
  Ok (l, x).

(** [UPDATE usage_attempts .. WHERE] the call's key. *)
Definition update_attempt (db : usage_db) (l : ledger) (c : BudgetCall)
    (f : attempt_row → attempt_row) : usage_db :=
  put_ledger db c (with_rows l ((λ x, if is_attempt c x then f x else x) <$> lg_rows l)).

Definition set_state (st : attempt_state) (le : option LedgerEntry) (re : option Release)
    (x : attempt_row) : attempt_row :=
  {| at_candidate := at_candidate x; at_created := at_created x; at_state := st;
     at_ledger := le; at_release := re |}.

(** [adapters/aws/usage.py:307-319 mark_dispatched] *)
Definition mark_dispatched (db : usage_db) (c : BudgetCall) : result (usage_db * bool) :=
  '(l, x) ← find_attempt db c;
  if negb (bool_decide (at_state x = Reserved)) then Ok (db, false)
  else
    _ ← check_provider_overrun (records l);
    Ok (update_attempt db l c (λ x, set_state Dispatched (at_ledger x) (at_release x) x), true).

(** [adapters/aws/usage.py:321-359 release_budget] *)
Definition release_budget (db : usage_db) (c : BudgetCall) (reason : pystr) (now : Z)
    (cache_hit : bool) : result usage_db :=
  _ ← text_field reason;
  _ ← count now 0;
  '(l, x) ← find_attempt db c;
  if bool_decide (at_state x = Released) then
    previous ← of_option TypeError (at_release x);
    _ ← reject (negb (re_reason previous =s? reason)
                || negb (Bool.eqb (re_cache_hit previous) cache_hit)) BudgetConflict;
    Ok db
  else
    _ ← require (bool_decide (at_state x = Reserved)) BudgetConflict;
    Ok (update_attempt db l c
          (λ x, set_state Released (at_ledger x)
                  (Some {| re_reason := reason; re_at := now; re_cache_hit := cache_hit |}) x)).

(** [adapters/aws/usage.py:361-388 record_usage] *)
Definition record_usage (db : usage_db) (c : BudgetCall) (u : TokenUsage) (now : Z)
    : result (usage_db * LedgerEntry) :=
  _ ← count now 0;
  '(l, x) ← find_attempt db c;
  match at_ledger x with
  | Some previous => _ ← require (bool_decide (le_usage previous = u)) BudgetConflict; Ok (db, previous)
  | None =>
      _ ← require (bool_decide (at_state x = Dispatched)) BudgetConflict;
      let entry := {| le_usage := u; le_recorded := now;
                      le_cost := usage_cost u (ca_pricing (at_candidate x)) |} in
      Ok (update_attempt db l c (λ x, set_state Settled (Some entry) (at_release x) x), entry)
  end.

(** [adapters/aws/usage.py:390-393 cost_data] *)
Definition cost_data (db : usage_db) (t r : pystr) : result (list attempt_row) :=
  l ← find_run db t r; Ok (records l).

(* ------------------------------------------------------------------ *)
(** ** The summary *)
(* ------------------------------------------------------------------ *)

Record CostSummary : Set := {
  su_input : Z; su_output : Z; su_attempts : Z; su_cache_hits : Z;
  su_amount : option decimal; su_pricing : option pystr; su_status : pystr }.

Definition or_zero (o : option Z) : Z := from_option id 0%Z o.

(** [application/budget.py:243-266 cost_summary] *)
Definition cost_summary (all_records : list attempt_row) : CostSummary :=
  let live := List.filter active all_records in
  let settled := omap (λ x, pair x <$> at_ledger x) live in
  let costs := omap (λ xe : attempt_row * LedgerEntry, le_cost xe.2) settled in
  let all_known := nonempty_list live && Nat.eqb (length costs) (length live) in
  let snapshots := dedup (λ a b, bool_decide (a = b))
    ((λ xe : attempt_row * LedgerEntry, pr_id <$> ca_pricing (at_candidate xe.1)) <$> settled) in
  let sum f := sum_Z (λ xe : attempt_row * LedgerEntry, or_zero (f (le_usage xe.2))) settled in
  {| su_input := sum tu_input; su_output := sum tu_output;
     su_attempts := py_len (List.filter (λ x, bool_decide (at_state x ∈ [Dispatched; Settled])) live);
     su_cache_hits :=
       (py_len (List.filter (λ xe : attempt_row * LedgerEntry,
                   0 <? or_zero (tu_cache_read (le_usage xe.2))) settled)
        + py_len (List.filter (λ x, match at_release x with Some r => re_cache_hit r | None => false end)
                    all_records))%Z;
     su_amount := if all_known then Some (foldl (d_add 100) (d_of_Z 0) costs) else None;
     su_pricing := match snapshots with [o] => o | _ => None end;
     su_status := if all_known then "known" else if nonempty_list costs then "partial"
                  else "unknown_cost" |}.
