(* ===== verification/BudgetSpec.v ===== *)
(** * What the usage ledger guarantees.

    A ledger invariant that every call keeps (distinct consecutive attempts,
    role and token limits while no provider overran), and an order on rows
    that every call climbs (a dispatch is never undone, recorded usage never
    changes).  The theorems hold for every history from an empty database. *)
From S2P Require Import Prelude PyVal JsonCodec Decimal Values PyDate Digest RulePack Rules Reconcile Budget.

(* ------------------------------------------------------------------ *)
(** ** Sums and filters *)
(* ------------------------------------------------------------------ *)

Lemma sum_Z_perm {A} (f : A → Z) l l' : l ≡ₚ l' → sum_Z f l = sum_Z f l'.
Proof. induction 1; unfold sum_Z in *; cbn; lia. Qed.

Lemma sum_Z_app {A} (f : A → Z) l l' : sum_Z f (l ++ l') = (sum_Z f l + sum_Z f l')%Z.
Proof. unfold sum_Z. induction l as [|x l IH]; cbn in *; [done|lia]. Qed.

Lemma sum_Z_map_le {A} (f : A → Z) (g : A → A) l :
  (∀ x, x ∈ l → (f (g x) <= f x)%Z) → (sum_Z f (g <$> l) <= sum_Z f l)%Z.
Proof.
  induction l as [|x l IH]; intros Hg; cbn; [lia|].
  pose proof (Hg x ltac:(left)). pose proof (IH (λ y Hy, Hg y (list_elem_of_further y x l Hy))).
  unfold sum_Z in *. lia.
Qed.

(** Membership in a filtered list counts as a sum of ones. *)
Lemma filter_count {A} (f : A → bool) (l : list A) :
  py_len (List.filter f l) = sum_Z (λ x, if f x then 1 else 0)%Z l.
Proof.
  unfold py_len. induction l as [|x l IH]; [done|]. cbn. unfold sum_Z in IH.
  destruct (f x); cbn; lia.
Qed.

(* ------------------------------------------------------------------ *)
(** ** Rows *)
(* ------------------------------------------------------------------ *)

(** What an active row holds. *)
Definition held (reserved : Candidate → Z) (actual : TokenUsage → option Z) (x : attempt_row) : Z :=
  if active x then charge reserved actual x else 0%Z.

Lemma used_held r a l : used r a l = sum_Z (held r a) l.
Proof.
  unfold used, held. induction l as [|x l IH]; [done|]. cbn. destruct (active x); cbn;
    unfold sum_Z in *; lia.
Qed.

Lemma records_perm l : records l ≡ₚ lg_rows l.
Proof. apply isort_perm. Qed.

Lemma used_records r a l : used r a (records l) = used r a (lg_rows l).
Proof. rewrite !used_held. apply sum_Z_perm, isort_perm. Qed.

Definition row_key (x : attempt_row) : pystr * Z := (row_request x, row_attempt x).

Definition state_le (a b : attempt_state) : Prop :=
  a = b ∨ a = Reserved ∨ (a = Dispatched ∧ b = Settled).

(** The later life of a row. *)
Record row_le (x y : attempt_row) : Prop := {
  rl_candidate : at_candidate y = at_candidate x;
  rl_state : state_le (at_state x) (at_state y);
  rl_ledger : ∀ e, at_ledger x = Some e → at_ledger y = Some e }.

#[export] Instance row_le_preorder : PreOrder row_le.
Proof.
  split.
  - intros x. split; [done|by left|done].
  - intros x y z [c1 s1 l1] [c2 s2 l2]. split; [congruence| |auto].
    unfold state_le in *. destruct (at_state x), (at_state y), (at_state z); naive_solver.
Qed.

Definition row_shape (x : attempt_row) : Prop :=
  match at_state x with
  | Reserved | Dispatched => at_ledger x = None
  | Settled => is_Some (at_ledger x)
  | Released => at_ledger x = None ∧ is_Some (at_release x)
  end.

Lemma over_mono x y : row_le x y → over x = true → over y = true.
Proof.
  intros [Hc _ Hl]. unfold over, row_usage. destruct (at_ledger x) as [e|] eqn:E; [|done].
  by rewrite (Hl e eq_refl), Hc.
Qed.

(** A request's rows agree on everything but the attempt and the signature. *)
Definition siblings (x y : attempt_row) : Prop :=
  row_request x = row_request y → same_identity (row_call x) (row_call y) = true.

Record ledger_ok (t r : pystr) (l : ledger) : Prop := {
  ok_keys : NoDup (row_key <$> lg_rows l);
  ok_shape : ∀ x, x ∈ lg_rows l → row_shape x;
  ok_scope : ∀ x, x ∈ lg_rows l → bc_tenant (row_call x) = t ∧ bc_run (row_call x) = r;
  ok_counts : ∀ x, x ∈ lg_rows l → (0 <= ca_input (at_candidate x))%Z
    ∧ (1 <= ca_output (at_candidate x))%Z;
  ok_attempts : ∀ x, x ∈ lg_rows l → (1 <= row_attempt x <= bl_attempts (lg_limits l))%Z;
  ok_siblings : ∀ x y, x ∈ lg_rows l → y ∈ lg_rows l → siblings x y;
  ok_calls : ∀ role, find (λ x, rl_role x =s? rl_role role) (bl_roles (lg_limits l)) = Some role →
    (py_len (List.filter (λ x, active x && (bc_role (row_call x) =s? rl_role role)) (lg_rows l))
     <= rl_calls role)%Z;
  ok_budget : existsb over (lg_rows l) = false →
    (used ca_input tu_input (lg_rows l) <= bl_input (lg_limits l))%Z
    ∧ (used ca_output tu_output (lg_rows l) <= bl_output (lg_limits l))%Z }.

(* ------------------------------------------------------------------ *)
(** ** Rewriting one row *)
(* ------------------------------------------------------------------ *)

Lemma is_attempt_iff c x : is_attempt c x = true ↔ row_key x = (bc_request c, bc_attempt c).
Proof.
  unfold is_attempt, row_key. rewrite andb_true_iff, str_eqb_eq, Z.eqb_eq.
  split; [by intros [-> ->]|by intros [= -> ->]].
Qed.

(** The row of a call in a ledger without duplicate keys. *)
Record located (t r : pystr) (l : ledger) (c : BudgetCall) (x : attempt_row) : Prop := {
  lo_in : x ∈ lg_rows l;
  lo_call : row_call x = c;
  lo_only : ∀ y, y ∈ lg_rows l → is_attempt c y = true → y = x }.

Definition rewrite_row (c : BudgetCall) (f : attempt_row → attempt_row) (x : attempt_row)
    : attempt_row := if is_attempt c x then f x else x.

Section rewrite.
Context (t r : pystr) (l : ledger) (c : BudgetCall) (x : attempt_row) (f : attempt_row → attempt_row).
Context (Hl : ledger_ok t r l) (Hx : located t r l c x).
Context (Hle : row_le x (f x)) (Hshape : row_shape (f x)).
Context (Hactive : active (f x) = true → active x = true).
Context (Hheld : over (f x) = false →
  (held ca_input tu_input (f x) <= held ca_input tu_input x)%Z
  ∧ (held ca_output tu_output (f x) <= held ca_output tu_output x)%Z).

Lemma rewritten y : y ∈ lg_rows l → rewrite_row c f y = y ∨ (y = x ∧ rewrite_row c f y = f x).
Proof using Hx.
  intros Hy. unfold rewrite_row. destruct (is_attempt c y) eqn:E; [right|by left].
  by rewrite (lo_only _ _ _ _ _ Hx y Hy E).
Qed.

Lemma rewritten_le y : y ∈ lg_rows l → row_le y (rewrite_row c f y).
Proof using Hx Hle. by intros [->|[-> ->]]%rewritten. Qed.

Lemma rewrite_ok : ledger_ok t r (with_rows l (rewrite_row c f <$> lg_rows l)).
Proof using Hl Hx Hle Hshape Hactive Hheld.
  assert (Hcand : ∀ y, y ∈ lg_rows l → at_candidate (rewrite_row c f y) = at_candidate y).
  { intros y Hy. by apply rl_candidate, rewritten_le. }
  assert (Hcall : ∀ y, y ∈ lg_rows l → row_call (rewrite_row c f y) = row_call y).
  { intros y Hy. unfold row_call. by rewrite Hcand. }
  assert (Hall : ∀ P : attempt_row → Prop, (∀ y, y ∈ lg_rows l → P (rewrite_row c f y)) →
    ∀ y, y ∈ rewrite_row c f <$> lg_rows l → P y).
  { intros P HP y (z & -> & Hz)%list_elem_of_fmap. auto. }
  destruct Hl. split; cbn [lg_rows lg_limits with_rows].
  - replace (row_key <$> (rewrite_row c f <$> lg_rows l)) with (row_key <$> lg_rows l); [done|].
    rewrite <- list_fmap_compose. apply list_fmap_ext. intros i y Hy%list_elem_of_lookup_2.
    unfold compose, row_key, row_request, row_attempt. by rewrite Hcall.
  - apply Hall. intros y Hy. destruct (rewritten y Hy) as [->|[_ ->]]; [auto|done].
  - apply Hall. intros y Hy. rewrite Hcall by done. auto.
  - apply Hall. intros y Hy. rewrite Hcand by done. auto.
  - apply Hall. intros y Hy. unfold row_attempt. rewrite Hcall by done. by apply ok_attempts0.
  - intros y z Hy Hz. revert y Hy. apply Hall. intros y Hy. revert z Hz. apply Hall. intros z Hz.
    unfold siblings, row_request. rewrite !Hcall by done. by apply ok_siblings0.
  - intros role Hr. etrans; [|exact (ok_calls0 role Hr)]. rewrite !filter_count. apply sum_Z_map_le. intros y Hy. rewrite Hcall by done.
    destruct (rewritten y Hy) as [->|[-> ->]]; [done|].
    destruct (active (f x)) eqn:Ea; [|destruct (active x && _); cbn; lia].
    by rewrite (Hactive eq_refl).
  - intros Hov. assert (Hno : ∀ y, y ∈ lg_rows l → over (rewrite_row c f y) = false).
    { intros y Hy. destruct (over (rewrite_row c f y)) eqn:E; [|done].
      rewrite <- not_true_iff_false in Hov. exfalso. apply Hov, existsb_exists.
      eexists. split; [|exact E]. by apply list_elem_of_In, list_elem_of_fmap_2. }
    destruct ok_budget0 as [Hi Ho].
    { apply not_true_iff_false. intros (y & Hy%list_elem_of_In & E)%existsb_exists.
      pose proof (over_mono _ _ (rewritten_le y Hy) E). rewrite Hno in *; done. }
    rewrite !used_held in *. split.
    + etrans; [|exact Hi]. apply sum_Z_map_le. intros y Hy. specialize (Hno y Hy).
      destruct (rewritten y Hy) as [->|[-> E]]; [done|]. rewrite E in *. by apply Hheld.
    + etrans; [|exact Ho]. apply sum_Z_map_le. intros y Hy. specialize (Hno y Hy).
      destruct (rewritten y Hy) as [->|[-> E]]; [done|]. rewrite E in *. by apply Hheld.
Qed.
End rewrite.

(* ------------------------------------------------------------------ *)
(** ** Adding a row *)
(* ------------------------------------------------------------------ *)

Lemma same_identity_iff a b : same_identity a b = true ↔
  bc_tenant a = bc_tenant b ∧ bc_run a = bc_run b ∧ bc_version a = bc_version b
  ∧ bc_request a = bc_request b ∧ bc_role a = bc_role b ∧ bc_model a = bc_model b
  ∧ bc_region a = bc_region b ∧ bc_binding a = bc_binding b ∧ bc_replicate a = bc_replicate b.
Proof. unfold same_identity. rewrite bool_decide_eq_true. destruct a, b. cbn. split.
  - intros [=]. by subst.
  - by intros (-> & -> & -> & -> & -> & -> & -> & -> & ->).
Qed.

Lemma duplicate_siblings c rows b : duplicate c rows = Ok b →
  (b = false → ∀ x, x ∈ rows → row_request x = bc_request (ca_call c) →
    same_identity (row_call x) (ca_call c) = true ∧ row_attempt x ≠ bc_attempt (ca_call c))
  ∧ (b = true → ∃ x, x ∈ rows ∧ at_candidate x = c).
Proof.
  induction rows as [|x rows IH]; cbn [duplicate].
  { intros [= <-]. split; [by intros _ x ?%elem_of_nil|done]. }
  destruct (str_eqb_spec (row_request x) (bc_request (ca_call c))) as [E|E].
  - intros (u & Hid%require_Ok & Hd)%bind_Ok_inv.
    destruct (Z.eqb_spec (row_attempt x) (bc_attempt (ca_call c))) as [Ea|Ea].
    + apply bind_Ok_inv in Hd as (v & Hc%require_Ok%bool_decide_eq_true & [= <-]).
      split; [done|]. intros _. exists x. split; [left|done].
    + destruct (IH Hd) as [H1 H2]. split.
      * intros Hb y [->|Hy]%elem_of_cons; [done|]. by apply H1.
      * intros Hb. destruct (H2 Hb) as (y & ? & ?). exists y. split; [by right|done].
  - intros Hd. destruct (IH Hd) as [H1 H2]. split.
    + intros Hb y [->|Hy]%elem_of_cons; [done|]. by apply H1.
    + intros Hb. destruct (H2 Hb) as (y & ? & ?). exists y. split; [by right|done].
Qed.

Lemma max_attempt_spec l : (0 <= max_attempt l)%Z ∧ ∀ x, x ∈ l → (row_attempt x <= max_attempt l)%Z.
Proof.
  unfold max_attempt. induction l as [|y l [IH0 IH]]; cbn; [split; [lia|by intros x ?%elem_of_nil]|].
  split; [lia|]. intros x [->|Hx]%elem_of_cons; [lia|]. specialize (IH x Hx). lia.
Qed.

(** What admission has checked. *)
Record admitted (l : ledger) (role : RoleLimit) (c : Candidate) : Prop := {
  ad_role : find (λ x, rl_role x =s? bc_role (ca_call c)) (bl_roles (lg_limits l)) = Some role;
  ad_siblings : ∀ x, x ∈ lg_rows l → row_request x = bc_request (ca_call c) →
    same_identity (row_call x) (ca_call c) = true ∧ (row_attempt x < bc_attempt (ca_call c))%Z;
  ad_no_overrun : existsb over (lg_rows l) = false;
  ad_attempt : (1 <= bc_attempt (ca_call c) <= bl_attempts (lg_limits l))%Z;
  ad_calls : (py_len (List.filter (λ x, active x && (bc_role (row_call x) =s? bc_role (ca_call c)))
                        (lg_rows l)) < rl_calls role)%Z;
  ad_input : (used ca_input tu_input (lg_rows l) + ca_input c <= bl_input (lg_limits l))%Z;
  ad_output : (used ca_output tu_output (lg_rows l) + ca_output c <= bl_output (lg_limits l))%Z }.

Lemma elem_of_records x l : x ∈ records l ↔ x ∈ lg_rows l.
Proof. apply elem_of_isort. Qed.

Lemma admissible_Ok l role c u : check_role (lg_limits l) c = Ok role →
  duplicate c (records l) = Ok false → admissible (lg_limits l) role c (records l) = Ok u →
  admitted l role c.
Proof.
  intros Hr Hd%duplicate_siblings Ha. destruct Hd as [Hd _]. specialize (Hd eq_refl).
  unfold check_role in Hr. apply bind_Ok_inv in Hr as (r0 & Hf%of_option_Ok & Hr).
  apply bind_Ok_inv in Hr as (u0 & _ & [= ->]).
  unfold admissible in Ha. apply bind_Ok_inv in Ha as (u1 & Hov%reject_Ok & Ha).
  apply bind_Ok_inv in Ha as (u2 & Hmax%reject_Ok & Ha).
  apply bind_Ok_inv in Ha as (u3 & Hseq%require_Ok & Ha).
  apply bind_Ok_inv in Ha as (u4 & Hcalls%reject_Ok & Ha).
  apply bind_Ok_inv in Ha as (u5 & _ & Hb). unfold check_budget in Hb.
  apply bind_Ok_inv in Hb as (u6 & Hin%reject_Ok & Hout%reject_Ok).
  apply orb_false_iff in Hin as [_ Hin], Hout as [_ Hout]. str_prop.
  rewrite used_records in Hin, Hout.
  set (mine := List.filter _ (records l)) in Hseq. destruct (max_attempt_spec mine) as [Hm0 Hm].
  split.
  - done.
  - intros x Hx Hreq. destruct (Hd x) as [Hid _]; [by apply elem_of_records|done|]. split; [done|].
    assert (Hin' : x ∈ mine); [|specialize (Hm x Hin'); lia].
    apply elem_of_lfilter. split; [by apply elem_of_records|]. by apply str_eqb_eq.
  - rewrite <- Hov. apply existsb_perm, Permutation_sym, isort_perm.
  - lia.
  - unfold py_len in *. by rewrite <- (filter_list_perm _ _ _ (records_perm l)).
  - lia.
  - lia.
Qed.

Lemma add_row_ok t r l role c now : ledger_ok t r l → admitted l role c →
  bc_tenant (ca_call c) = t → bc_run (ca_call c) = r → (0 <= ca_input c)%Z → (1 <= ca_output c)%Z →
  ledger_ok t r (with_rows l (lg_rows l ++ [new_row c now])).
Proof.
  intros Hl Ha Ht Hr Hi Ho.
  assert (Hall : ∀ P : attempt_row → Prop, (∀ y, y ∈ lg_rows l → P y) → P (new_row c now) →
    ∀ y, y ∈ lg_rows l ++ [new_row c now] → P y).
  { intros P H1 H2 y [Hy| ->%list_elem_of_singleton]%elem_of_app; auto. }
  destruct Hl, Ha. split; cbn [lg_rows lg_limits with_rows].
  - rewrite fmap_app. apply NoDup_app. split_and!; [done| |apply NoDup_singleton].
    intros k (y & -> & Hy)%list_elem_of_fmap [= Hk1 Hk2]%list_elem_of_singleton.
    destruct (ad_siblings0 y Hy Hk1) as [_ Hlt]. 
  change (row_attempt (new_row c now)) with (bc_attempt (ca_call c)) in Hk2. lia.
  - by apply Hall.
  - by apply Hall.
  - by apply Hall.
  - apply Hall; [done|]. exact ad_attempt0.
  - intros y z Hy Hz. revert y Hy. apply Hall.
    + intros y Hy. revert z Hz. apply Hall; [auto|]. intros Hreq. by apply ad_siblings0.
    + revert z Hz. apply Hall.
      * intros z Hz Hreq. destruct (ad_siblings0 z Hz) as [Hid _]; [done|].
        apply same_identity_iff in Hid. apply same_identity_iff. cbn. naive_solver.
      * intros _. by apply same_identity_iff.
  - intros role' Hr'. rewrite filter_count, sum_Z_app, <- filter_count. cbn [sum_Z foldr].
    pose proof (ok_calls0 role' Hr') as Hc. change (row_call (new_row c now)) with (ca_call c).
    change (active (new_row c now)) with true. cbn [andb].
    destruct (str_eqb_spec (bc_role (ca_call c)) (rl_role role')) as [E|E]; [|lia].
    rewrite <- E in Hr'. rewrite ad_role0 in Hr'. injection Hr' as <-. rewrite <- E. lia.
  - intros _. rewrite used_held in ad_input0, ad_output0. rewrite !used_held, !sum_Z_app.
    change (sum_Z (held ca_input tu_input) [new_row c now]) with (ca_input c + 0)%Z.
    change (sum_Z (held ca_output tu_output) [new_row c now]) with (ca_output c + 0)%Z. lia.
Qed.

(* ------------------------------------------------------------------ *)
(** ** Databases *)
(* ------------------------------------------------------------------ *)

Definition db_ok (db : usage_db) : Prop :=
  ∀ t r l, ud_runs db !! (t, r) = Some l → ledger_ok t r l.

(** Every row lives on; policies do not change. *)
Definition ledger_le (l l' : ledger) : Prop :=
  lg_version l' = lg_version l ∧ lg_limits l' = lg_limits l
  ∧ ∀ x, x ∈ lg_rows l → ∃ y, y ∈ lg_rows l' ∧ row_le x y.

Definition db_le (db db' : usage_db) : Prop :=
  ∀ k l, ud_runs db !! k = Some l → ∃ l', ud_runs db' !! k = Some l' ∧ ledger_le l l'.

#[export] Instance ledger_le_preorder : PreOrder ledger_le.
Proof.
  split.
  - intros l. split_and!; [done..|]. intros x Hx. exists x. by split.
  - intros a b c (v1 & m1 & r1) (v2 & m2 & r2). split_and!; [congruence..|].
    intros x Hx. destruct (r1 x Hx) as (y & Hy & ?), (r2 y Hy) as (z & Hz & ?).
    exists z. split; [done|by etrans].
Qed.

#[export] Instance db_le_preorder : PreOrder db_le.
Proof.
  split.
  - intros db k l Hl. by exists l.
  - intros a b c Hab Hbc k l Hl. destruct (Hab k l Hl) as (l' & Hl' & ?).
    destruct (Hbc k l' Hl') as (l'' & Hl'' & ?). exists l''. split; [done|by etrans].
Qed.

Definition advances (db db' : usage_db) : Prop := db_ok db → db_ok db' ∧ db_le db db'.

#[export] Instance advances_preorder : PreOrder advances.
Proof.
  split; [by intros db Hdb|]. intros a b c Hab Hbc Ha.
  destruct (Hab Ha) as [Hb ?], (Hbc Hb) as [Hc ?]. split; [done|by etrans].
Qed.

Definition call_key (c : BudgetCall) : pystr * pystr := (bc_tenant c, bc_run c).

Lemma advances_put db c l l' prices :
  ud_runs db !! call_key c = Some l → ledger_le l l' →
  (ledger_ok (bc_tenant c) (bc_run c) l → ledger_ok (bc_tenant c) (bc_run c) l') →
  advances db (put_ledger {| ud_runs := ud_runs db; ud_prices := prices |} c l').
Proof.
  intros Hl Hle Hok Hdb. split.
  - intros t r k Hk. cbn in Hk. destruct (decide ((t, r) = call_key c)) as [[= -> ->]|Hne].
    + rewrite lookup_insert_eq in Hk. injection Hk as <-. apply Hok. by apply Hdb.
    + rewrite lookup_insert_ne in Hk by done. by apply Hdb.
  - intros k m Hm. cbn. destruct (decide (k = call_key c)) as [->|Hne].
    + rewrite Hl in Hm. injection Hm as <-. unfold call_key. rewrite lookup_insert_eq. by exists l'.
    + rewrite lookup_insert_ne by done. by exists m.
Qed.

Lemma find_attempt_Ok db c l x : db_ok db → find_attempt db c = Ok (l, x) →
  ud_runs db !! call_key c = Some l ∧ located (bc_tenant c) (bc_run c) l c x
  ∧ ledger_ok (bc_tenant c) (bc_run c) l.
Proof.
  intros Hdb Hf. unfold find_attempt in Hf. apply bind_Ok_inv in Hf as (l0 & Hl%of_option_Ok & Hf).
  apply bind_Ok_inv in Hf as (x0 & Hx%of_option_Ok & Hf).
  apply bind_Ok_inv in Hf as (u & Hc%require_Ok%bool_decide_eq_true & [= -> ->]).
  pose proof (Hdb _ _ _ Hl) as Hok. split; [done|]. split; [|done].
  apply find_some in Hx as [Hx%list_elem_of_In Ha]. split; [done|done|].
  intros y Hy Hay. apply is_attempt_iff in Ha, Hay.
  eapply key_injective; [by apply (ok_keys _ _ _ Hok)|done|done|congruence].
Qed.

(** A found attempt can be found again later. *)
Lemma located_find db c l x : ud_runs db !! call_key c = Some l →
  located (bc_tenant c) (bc_run c) l c x → find_attempt db c = Ok (l, x).
Proof.
  intros Hl [Hin Hc Ho]. unfold find_attempt. unfold call_key in Hl. rewrite Hl. cbn [of_option mbind result_bind].
  assert (Ha : is_attempt c x = true).
  { apply is_attempt_iff. unfold row_key, row_request, row_attempt. by rewrite Hc. }
  destruct (find (is_attempt c) (lg_rows l)) as [y|] eqn:E.
  - apply find_some in E as [Hy%list_elem_of_In Hay]. rewrite (Ho y Hy Hay).
    cbn [of_option mbind result_bind]. by rewrite bool_decide_true.
  - apply list_elem_of_In in Hin. by rewrite (find_none _ _ E x Hin) in Ha.
Qed.

Lemma rewrite_le c f l x t r : located t r l c x → row_le x (f x) →
  ledger_le l (with_rows l (rewrite_row c f <$> lg_rows l)).
Proof.
  intros Hx Hle. split_and!; [done..|]. intros y Hy. exists (rewrite_row c f y).
  split; [by apply list_elem_of_fmap_2|].
  unfold rewrite_row. destruct (is_attempt c y) eqn:E; [|reflexivity].
  by rewrite (lo_only _ _ _ _ _ Hx y Hy E).
Qed.

(** An update of the row of a call. *)
Lemma advances_update db l c x f :
  ud_runs db !! call_key c = Some l → located (bc_tenant c) (bc_run c) l c x →
  row_le x (f x) → row_shape (f x) → (active (f x) = true → active x = true) →
  (ledger_ok (bc_tenant c) (bc_run c) l → over (f x) = false →
   (held ca_input tu_input (f x) <= held ca_input tu_input x)%Z
   ∧ (held ca_output tu_output (f x) <= held ca_output tu_output x)%Z) →
  advances db (update_attempt db l c f).
Proof.
  intros Hl Hx Hle Hsh Hac Hheld. unfold update_attempt. destruct db as [runs prices].
  apply (advances_put {| ud_runs := runs; ud_prices := prices |} c l); [done| |].
  - by eapply rewrite_le.
  - intros Hok. eapply rewrite_ok; eauto.
Qed.

(** *** The calls *)

Inductive ucall :=
| UCreate (t r version : pystr) (limits : BudgetLimits)
| UReserve (c : Candidate) (now : Z)
| UDispatch (c : BudgetCall)
| URelease (c : BudgetCall) (reason : pystr) (now : Z) (cache_hit : bool)
| URecord (c : BudgetCall) (u : TokenUsage) (now : Z).

Definition uexec (o : ucall) (db : usage_db) : result usage_db :=
  match o with
  | UCreate t r v limits => create_budget db t r v limits
  | UReserve c now => fst <$> reserve_budget db c now
  | UDispatch c => fst <$> mark_dispatched db c
  | URelease c reason now hit => release_budget db c reason now hit
  | URecord c u now => fst <$> record_usage db c u now
  end.

(** Limits come through their constructors. *)
Definition limits_wf (b : BudgetLimits) : Prop :=
  (0 <= bl_input b)%Z ∧ (0 <= bl_output b)%Z
  ∧ Forall (λ r, (0 <= rl_calls r)%Z) (bl_roles b).

Lemma mk_limits_wf b : mk_BudgetLimits b = Ok b → Forall (λ r, mk_RoleLimit r = Ok r) (bl_roles b) →
  limits_wf b.
Proof.
  intros Hb Hr. unfold mk_BudgetLimits in Hb. unfold count in Hb. ok_inv Hb. str_prop.
  split_and!; try lia. eapply Forall_impl; [exact Hr|]. intros r Hm.
  unfold mk_RoleLimit, count in Hm. ok_inv Hm. str_prop. lia.
Qed.

Definition ucall_wf (o : ucall) : Prop :=
  match o with UCreate _ _ _ limits => limits_wf limits | _ => True end.

Inductive ustep (db : usage_db) : usage_db → Prop :=
| ustep_call o db' : ucall_wf o → uexec o db = Ok db' → ustep db db'.

Definition empty_usage : usage_db := {| ud_runs := ∅; ud_prices := ∅ |}.
Definition usage_reachable (db : usage_db) : Prop := rtc ustep empty_usage db.

Lemma advances_create db t r v limits db' : limits_wf limits →
  create_budget db t r v limits = Ok db' → advances db db'.
Proof.
  intros (Hi & Ho & Hr) Hc. unfold create_budget in Hc. do 3 apply bind_Ok_inv in Hc as (? & _ & Hc).
  destruct (ud_runs db !! (t, r)) as [l|] eqn:E.
  { by apply bind_Ok_inv in Hc as (u & _ & [= <-]). }
  injection Hc as <-. intros Hdb. split.
  - intros t' r' l Hl. cbn in Hl. destruct (decide ((t', r') = (t, r))) as [[= -> ->]|Hne].
    + rewrite lookup_insert_eq in Hl. injection Hl as <-.
      split; cbn; try (intros; exfalso; by eapply elem_of_nil); [constructor| |done].
      intros role Hrole. rewrite Forall_forall in Hr. apply Hr.
      by apply list_elem_of_In, (find_some _ _ Hrole).
    + rewrite lookup_insert_ne in Hl by done. by apply Hdb.
  - intros k l Hl. cbn. rewrite lookup_insert_ne by congruence. by exists l.
Qed.

Lemma held_live x r a : active x = true → held r a x = charge r a x.
Proof. unfold held. by intros ->. Qed.
Lemma held_dead x r a : active x = false → held r a x = 0%Z.
Proof. unfold held. by intros ->. Qed.

Lemma held_nonneg l x t r : ledger_ok t r l → x ∈ lg_rows l → at_ledger x = None →
  (0 <= held ca_input tu_input x)%Z ∧ (0 <= held ca_output tu_output x)%Z.
Proof.
  intros Hok Hx Hl. pose proof (ok_counts _ _ _ Hok x Hx). unfold held, charge, row_usage.
  rewrite Hl. destruct (active x); cbn; lia.
Qed.

(** The admission that a successful reservation has passed. *)
Lemma reserve_Ok db c now db' b : reserve_budget db c now = Ok (db', b) →
  ∃ l role, ud_runs db !! call_key (ca_call c) = Some l
    ∧ check_role (lg_limits l) c = Ok role ∧ duplicate c (records l) = Ok (negb b)
    ∧ lg_version l = bc_version (ca_call c)
    ∧ (0 <= ca_input c)%Z ∧ (1 <= ca_output c)%Z
    ∧ if b then admitted l role c ∧ ∃ prices, db' = put_ledger
          {| ud_runs := ud_runs db; ud_prices := prices |} (ca_call c)
          (with_rows l (lg_rows l ++ [new_row c now]))
      else db' = db.
Proof.
  unfold reserve_budget. intros Hr. apply bind_Ok_inv in Hr as (u0 & H0%require_Ok & Hr).
  apply bind_Ok_inv in Hr as (u1 & H1%require_Ok & Hr). apply andb_true_iff in H0 as [H0 _], H1 as [H1 _].
  do 2 apply bind_Ok_inv in Hr as (? & _ & Hr). apply bind_Ok_inv in Hr as (l & Hl & Hr).
  unfold find_run in Hl. do 2 apply bind_Ok_inv in Hl as (? & _ & Hl). apply of_option_Ok in Hl.
  apply bind_Ok_inv in Hr as (u2 & Hv%require_Ok & Hr). apply bind_Ok_inv in Hr as (role & Hrole & Hr).
  apply bind_Ok_inv in Hr as (dup & Hdup & Hr). str_prop. exists l, role. destruct dup.
  - injection Hr as <- <-. by split_and!.
  - apply bind_Ok_inv in Hr as (u3 & Ha & Hr). apply bind_Ok_inv in Hr as (prices & _ & [= <- <-]).
    split_and!; try done; [by eapply admissible_Ok|by exists prices].
Qed.

Lemma advances_reserve db c now db' b : reserve_budget db c now = Ok (db', b) → advances db db'.
Proof.
  intros (l & role & Hl & _ & _ & _ & Hi & Ho & Hb)%reserve_Ok. destruct b; [|by subst].
  destruct Hb as [Ha [prices ->]]. eapply advances_put; [done| |].
  - split_and!; [done..|]. intros x Hx. exists x. split; [|reflexivity]. cbn. apply elem_of_app. by left.
  - intros Hok. by eapply add_row_ok.
Qed.

Lemma advances_dispatch db c db' b : mark_dispatched db c = Ok (db', b) → advances db db'.
Proof.
  intros Hm Hdb. unfold mark_dispatched in Hm. apply bind_Ok_inv in Hm as ([l x] & Hf & Hm).
  destruct (find_attempt_Ok _ _ _ _ Hdb Hf) as (Hl & Hx & Hok). revert Hdb.
  change (advances db db'). destruct (negb _) eqn:E; [by injection Hm as <- _|].
  apply negb_false_iff, bool_decide_eq_true in E. apply bind_Ok_inv in Hm as (u & _ & [= <- _]).
  pose proof (ok_shape _ _ _ Hok x (lo_in _ _ _ _ _ Hx)) as Hsh. unfold row_shape in Hsh.
  rewrite E in Hsh. eapply advances_update; [done..| | | |].
  - split; cbn; [done|by right; left|done].
  - by unfold row_shape.
  - by intros _; unfold active; rewrite E.
  - intros _ _. rewrite !(held_live x) by (unfold active; by rewrite E). rewrite !held_live by done.
    unfold charge, row_usage. cbn [set_state at_ledger at_candidate]. by rewrite Hsh.
Qed.

Lemma advances_release db c reason now hit db' : release_budget db c reason now hit = Ok db' →
  advances db db'.
Proof.
  intros Hm Hdb. unfold release_budget in Hm. apply bind_Ok_inv in Hm as (u0 & _ & Hm).
  apply bind_Ok_inv in Hm as (u1 & _ & Hm). apply bind_Ok_inv in Hm as ([l x] & Hf & Hm).
  destruct (find_attempt_Ok _ _ _ _ Hdb Hf) as (Hl & Hx & Hok). revert Hdb.
  change (advances db db'). case_bool_decide as Erel.
  { apply bind_Ok_inv in Hm as (p & _ & Hm). by apply bind_Ok_inv in Hm as (u & _ & [= <-]). }
  apply bind_Ok_inv in Hm as (u & E%require_Ok%bool_decide_eq_true & [= <-]).
  pose proof (ok_shape _ _ _ Hok x (lo_in _ _ _ _ _ Hx)) as Hsh. unfold row_shape in Hsh.
  rewrite E in Hsh. eapply advances_update; [done..| | | |].
  - split; cbn; [done|by right; left|done].
  - by unfold row_shape.
  - done.
  - intros Hok' _. destruct (held_nonneg _ x _ _ Hok' (lo_in _ _ _ _ _ Hx) Hsh).
    rewrite !(held_dead (set_state Released _ _ _)) by done. done.
Qed.

Lemma advances_record db c u now db' e : record_usage db c u now = Ok (db', e) → advances db db'.
Proof.
  intros Hm Hdb. unfold record_usage in Hm. apply bind_Ok_inv in Hm as (u0 & _ & Hm).
  apply bind_Ok_inv in Hm as ([l x] & Hf & Hm).
  destruct (find_attempt_Ok _ _ _ _ Hdb Hf) as (Hl & Hx & Hok). revert Hdb.
  change (advances db db'). destruct (at_ledger x) as [p|] eqn:El.
  { by apply bind_Ok_inv in Hm as (v & _ & [= <- _]). }
  apply bind_Ok_inv in Hm as (v & E%require_Ok%bool_decide_eq_true & [= <- _]).
  eapply advances_update; [done..| | | |].
  - split; cbn; [done|right; right; by rewrite E|by rewrite El].
  - unfold row_shape. cbn. by eexists.
  - by intros _; unfold active; rewrite E.
  - intros _ Hov. unfold over, row_usage in Hov. cbn in Hov. apply orb_false_iff in Hov as [H1 H2].
    rewrite !(held_live x) by (unfold active; by rewrite E). rewrite !held_live by done.
    unfold charge, row_usage. cbn [set_state at_ledger at_candidate]. rewrite El. cbn.
    destruct (tu_input u), (tu_output u); str_prop; cbn; lia.
Qed.

Lemma ustep_advances db db' : ustep db db' → advances db db'.
Proof.
  intros [o db1 Hw Ho]. destruct o; cbn [uexec] in Ho;
    try (apply fmap_Ok_inv in Ho as ([d x] & Ho & <-); cbn).
  - by eapply advances_create.
  - by eapply advances_reserve.
  - by eapply advances_dispatch.
  - by eapply advances_release.
  - by eapply advances_record.
Qed.

Lemma usteps_advance db db' : rtc ustep db db' → advances db db'.
Proof. induction 1 as [|a b c Hab _ IH]; [reflexivity|]. etrans; [by apply ustep_advances|done]. Qed.

Lemma usage_reachable_ok db : usage_reachable db → db_ok db.
Proof. intros Hdb. apply (usteps_advance _ _ Hdb). intros t r l. cbn. by rewrite lookup_empty. Qed.

Lemma usage_history_le db db' : usage_reachable db → rtc ustep db db' → db_le db db'.
Proof. intros Hdb Hs. by apply (usteps_advance _ _ Hs), usage_reachable_ok. Qed.

(* ------------------------------------------------------------------ *)
(** ** Properties *)
(* ------------------------------------------------------------------ *)

(** C39: the budget holds in every reachable database.  The attempts of a run have distinct keys,
    are numbered within the attempt limit, and never exceed a role's call limit; and as long as no
    provider reported more than was reserved, what the active attempts hold (the actual count once
    settled, the reservation before) stays within the run's input and output token limits. *)
Theorem budget_never_exceeded db t r l :
  usage_reachable db → ud_runs db !! (t, r) = Some l →
  NoDup (row_key <$> lg_rows l)
  ∧ (∀ x, x ∈ lg_rows l → (1 <= row_attempt x <= bl_attempts (lg_limits l))%Z)
  ∧ (∀ role, find (λ x, rl_role x =s? rl_role role) (bl_roles (lg_limits l)) = Some role →
      (py_len (List.filter (λ x, active x && (bc_role (row_call x) =s? rl_role role)) (lg_rows l))
       <= rl_calls role)%Z)
  ∧ (existsb over (lg_rows l) = false →
      (used ca_input tu_input (lg_rows l) <= bl_input (lg_limits l))%Z
      ∧ (used ca_output tu_output (lg_rows l) <= bl_output (lg_limits l))%Z).
Proof. intros Hdb Hl. destruct (usage_reachable_ok _ Hdb _ _ _ Hl). by split_and!. Qed.

(** A provider that overran its reservation ends the run's spending: once some recorded usage
    exceeds what was reserved, after any later calls no reservation of that run is granted and no
    reserved attempt of it is dispatched. *)
Theorem overrun_is_terminal db t r l x db' :
  usage_reachable db → ud_runs db !! (t, r) = Some l → x ∈ lg_rows l → over x = true →
  rtc ustep db db' →
  (∀ c now db'', call_key (ca_call c) = (t, r) → reserve_budget db' c now ≠ Ok (db'', true))
  ∧ ∀ c db'', call_key c = (t, r) → mark_dispatched db' c ≠ Ok (db'', true).
Proof.
  intros Hdb Hl Hx Hov Hs. destruct (usage_history_le _ _ Hdb Hs _ _ Hl) as (l' & Hl' & _ & _ & Hrows).
  destruct (Hrows x Hx) as (y & Hy & Hxy). pose proof (over_mono _ _ Hxy Hov) as Hov'.
  assert (Hex : existsb over (lg_rows l') = true).
  { apply existsb_exists. exists y. by split; [apply list_elem_of_In|]. }
  split.
  - intros c now db'' Hk (l2 & role & Hl2 & _ & _ & _ & _ & _ & [] & _)%reserve_Ok.
    rewrite Hk, Hl' in Hl2. injection Hl2 as <-. congruence.
  - intros c db'' Hk Hm. unfold mark_dispatched in Hm. apply bind_Ok_inv in Hm as ([l2 z] & Hf & Hm).
    unfold find_attempt in Hf. apply bind_Ok_inv in Hf as (l3 & Hl3%of_option_Ok & Hf).
    do 2 apply bind_Ok_inv in Hf as (? & _ & Hf). injection Hf as <- _.
    unfold call_key in Hk. rewrite Hk, Hl' in Hl3. injection Hl3 as <-.
    destruct (negb _); [done|]. apply bind_Ok_inv in Hm as (u & Hu%reject_Ok & _).
    rewrite (existsb_perm _ _ _ (records_perm l')) in Hu. congruence.
Qed.

(** A located row, later. *)
Lemma located_later db db' c l x : usage_reachable db → rtc ustep db db' →
  ud_runs db !! call_key c = Some l → x ∈ lg_rows l → row_call x = c →
  ∃ l' y, ud_runs db' !! call_key c = Some l' ∧ located (bc_tenant c) (bc_run c) l' c y
    ∧ row_le x y ∧ lg_limits l' = lg_limits l ∧ lg_version l' = lg_version l
    ∧ ledger_ok (bc_tenant c) (bc_run c) l'.
Proof.
  intros Hdb Hs Hl Hx Hc. destruct (usage_history_le _ _ Hdb Hs _ _ Hl) as (l' & Hl' & Hv & Hm & Hrows).
  destruct (Hrows x Hx) as (y & Hy & Hxy).
  assert (Hdb' : usage_reachable db') by (unfold usage_reachable in *; by etrans).
  pose proof (usage_reachable_ok _ Hdb' _ _ _ Hl') as Hok.
  exists l', y. split_and!; try done. assert (Hyc : row_call y = c).
  { unfold row_call. rewrite (rl_candidate _ _ Hxy). exact Hc. }
  split; [done|done|]. intros z Hz Ha. eapply key_injective; [apply (ok_keys _ _ _ Hok)|done|done|].
  apply is_attempt_iff in Ha. rewrite Ha. unfold row_key, row_request, row_attempt. by rewrite Hyc.
Qed.

Lemma find_attempt_later db db' c l x : usage_reachable db → rtc ustep db db' →
  ud_runs db !! call_key c = Some l → x ∈ lg_rows l → row_call x = c →
  ∃ l' y, find_attempt db' c = Ok (l', y) ∧ row_le x y ∧ row_shape y.
Proof.
  intros Hdb Hs Hl Hx Hc. destruct (located_later _ _ _ _ _ Hdb Hs Hl Hx Hc)
    as (l' & y & Hl' & Hy & Hle & _ & _ & Hok).
  exists l', y. split_and!; [by apply located_find|done|]. by eapply ok_shape, lo_in.
Qed.

Lemma reachable_ucall db o db' : usage_reachable db → ucall_wf o → uexec o db = Ok db' →
  usage_reachable db'.
Proof. intros Hdb Hw Ho. eapply rtc_r; [exact Hdb|]. by econstructor. Qed.

(** The row of a call after its dispatch or its settlement. *)
Lemma update_lookup db l c f x : ud_runs db !! call_key c = Some l →
  located (bc_tenant c) (bc_run c) l c x → at_candidate (f x) = at_candidate x →
  ∃ l', ud_runs (update_attempt db l c f) !! call_key c = Some l' ∧ f x ∈ lg_rows l'
    ∧ row_call (f x) = c.
Proof.
  intros Hl [Hin Hc _] Hcand. eexists. unfold update_attempt, put_ledger, call_key. cbn.
  rewrite lookup_insert_eq. split; [done|]. cbn. split.
  - apply list_elem_of_fmap. exists x. split; [|done].
    replace (is_attempt c x) with true; [done|]. symmetry. apply is_attempt_iff.
    unfold row_key, row_request, row_attempt. by rewrite Hc.
  - unfold row_call. by rewrite Hcand.
Qed.

(** A dispatch happens at most once and is never refunded.  After [mark_dispatched] has
    answered true for an attempt, through any later calls it never does again for that attempt, a
    release of the attempt is refused, and the same attempt is never reserved anew. *)
Theorem dispatch_once db c db1 db2 :
  usage_reachable db → mark_dispatched db c = Ok (db1, true) → rtc ustep db1 db2 →
  (∀ db3, mark_dispatched db2 c ≠ Ok (db3, true))
  ∧ (∀ reason now hit db3, release_budget db2 c reason now hit ≠ Ok db3)
  ∧ ∀ k now db3, bc_request (ca_call k) = bc_request c → bc_attempt (ca_call k) = bc_attempt c →
      call_key (ca_call k) = call_key c → reserve_budget db2 k now ≠ Ok (db3, true).
Proof.
  intros Hdb Hm Hs. assert (Hdb1 : usage_reachable db1).
  { apply (reachable_ucall db (UDispatch c)); [done|done|]. cbn [uexec]. by rewrite Hm. }
  unfold mark_dispatched in Hm. apply bind_Ok_inv in Hm as ([l x] & Hf & Hm).
  destruct (find_attempt_Ok _ _ _ _ (usage_reachable_ok _ Hdb) Hf) as (Hl & Hx & _).
  destruct (negb _); [done|]. apply bind_Ok_inv in Hm as (u & _ & [= <-]).
  set (f := λ x, set_state Dispatched (at_ledger x) (at_release x) x) in *.
  destruct (update_lookup db l c f x Hl Hx eq_refl) as (l1 & Hl1 & Hin & Hcall).
  destruct (located_later _ _ _ _ _ Hdb1 Hs Hl1 Hin Hcall) as (l2 & y & Hl2 & Hy & Hle & _ & _ & Hok2).
  pose proof (located_find _ _ _ _ Hl2 Hy) as Hfind.
  assert (Hst : at_state y = Dispatched ∨ at_state y = Settled).
  { destruct Hle as [_ [E|[E|[_ E]]] _]; cbn in E; [by left|done|by right]. }
  split_and!.
  - intros db3 Hd. unfold mark_dispatched in Hd. rewrite Hfind in Hd. cbn [mbind result_bind] in Hd.
    by destruct Hst as [E|E]; rewrite E in Hd.
  - intros reason now hit db3 Hd. unfold release_budget in Hd.
    do 2 apply bind_Ok_inv in Hd as (? & _ & Hd). rewrite Hfind in Hd. cbn [mbind result_bind] in Hd.
    by destruct Hst as [E|E]; rewrite E in Hd.
  - intros k now db3 Hreq Hatt Hk (l3 & role & Hl3 & _ & _ & _ & _ & _ & Had & _)%reserve_Ok.
    rewrite Hk, Hl2 in Hl3. injection Hl3 as <-.
    destruct (ad_siblings _ _ _ Had y (lo_in _ _ _ _ _ Hy)) as [_ Hlt].
    + unfold row_request. by rewrite (lo_call _ _ _ _ _ Hy), Hreq.
    + unfold row_attempt in Hlt. rewrite (lo_call _ _ _ _ _ Hy) in Hlt. lia.
Qed.

(** Recorded usage is final.  After a usage has been recorded for an attempt, any later
    recording either repeats the same usage and returns the first ledger entry without changing
    the database, or is refused. *)
Theorem usage_recorded_once db c u now db1 e db2 u' now' db3 e' :
  usage_reachable db → record_usage db c u now = Ok (db1, e) → rtc ustep db1 db2 →
  record_usage db2 c u' now' = Ok (db3, e') → u' = u ∧ e' = e ∧ db3 = db2.
Proof.
  intros Hdb Hr Hs Hr'. assert (Hdb1 : usage_reachable db1).
  { apply (reachable_ucall db (URecord c u now)); [done|done|]. cbn [uexec]. by rewrite Hr. }
  unfold record_usage in Hr. apply bind_Ok_inv in Hr as (u0 & _ & Hr).
  apply bind_Ok_inv in Hr as ([l x] & Hf & Hr).
  destruct (find_attempt_Ok _ _ _ _ (usage_reachable_ok _ Hdb) Hf) as (Hl & Hx & _).
  assert (Hrow : ∃ l1 z, ud_runs db1 !! call_key c = Some l1 ∧ z ∈ lg_rows l1 ∧ row_call z = c
    ∧ at_ledger z = Some e ∧ le_usage e = u).
  { destruct (at_ledger x) as [p|] eqn:El.
    - apply bind_Ok_inv in Hr as (v & Hp%require_Ok%bool_decide_eq_true & [= <- <-]).
      exists l, x. by destruct Hx.
    - apply bind_Ok_inv in Hr as (v & _ & [= <- <-]).
      match goal with |- context [update_attempt db l c ?f] =>
        destruct (update_lookup db l c f x Hl Hx eq_refl) as (l1 & Hl1 & Hin & Hcall) end.
      eexists l1, _. split_and!; [exact Hl1|exact Hin|exact Hcall|done|done]. }
  destruct Hrow as (l1 & z & Hl1 & Hz & Hzc & He & Hu).
  destruct (find_attempt_later _ _ _ _ _ Hdb1 Hs Hl1 Hz Hzc) as (l2 & y & Hfind & Hle & _).
  unfold record_usage in Hr'. apply bind_Ok_inv in Hr' as (u1 & _ & Hr'). rewrite Hfind in Hr'.
  cbn [mbind result_bind] in Hr'. rewrite (rl_ledger _ _ Hle e He) in Hr'.
  apply bind_Ok_inv in Hr' as (v & Hv%require_Ok%bool_decide_eq_true & [= <- <-]).
  split_and!; congruence.
Qed.

Lemma duplicate_true c rows :
  (∀ x, x ∈ rows → row_request x = bc_request (ca_call c) →
    same_identity (row_call x) (ca_call c) = true
    ∧ (row_attempt x = bc_attempt (ca_call c) → at_candidate x = c)) →
  (∃ x, x ∈ rows ∧ at_candidate x = c) → duplicate c rows = Ok true.
Proof.
  induction rows as [|x rows IH]; intros Hall (y & Hy & Hc); [by apply elem_of_nil in Hy|].
  cbn [duplicate]. assert (Hrest : y ∈ rows → duplicate c rows = Ok true).
  { intros Hin. apply IH; [|by exists y]. intros z Hz. apply Hall. by right. }
  destruct (str_eqb_spec (row_request x) (bc_request (ca_call c))) as [E|E].
  - destruct (Hall x ltac:(left) E) as [Hid Hcand]. rewrite Hid. cbn [require mbind result_bind].
    destruct (Z.eqb_spec (row_attempt x) (bc_attempt (ca_call c))) as [Ea|Ea].
    + by rewrite bool_decide_true by auto.
    + apply elem_of_cons in Hy as [<-|Hy]; [|auto]. exfalso. apply Ea.
      unfold row_attempt, row_call. by rewrite Hc.
  - apply elem_of_cons in Hy as [<-|Hy]; [|auto]. exfalso. apply E.
    unfold row_request, row_call. by rewrite Hc.
Qed.

(** A redelivered reservation never spends again.  Once a candidate has been reserved, after
    any later calls the same candidate is answered false, without an error and without a change:
    the caller must not invoke the provider a second time. *)
Theorem reserve_redelivery db c now db1 db2 now' :
  usage_reachable db → reserve_budget db c now = Ok (db1, true) → rtc ustep db1 db2 →
  (0 <= now' <= MAX_COUNT)%Z → reserve_budget db2 c now' = Ok (db2, false).
Proof.
  intros Hdb Hr Hs Hnow. assert (Hdb1 : usage_reachable db1).
  { apply (reachable_ucall db (UReserve c now)); [done|done|]. cbn [uexec]. by rewrite Hr. }
  pose proof Hr as (l & role & Hl & Hrole & _ & Hver & _ & _ & _ & prices & Hdb1')%reserve_Ok.
  assert (Hrow : ∃ l1, ud_runs db1 !! call_key (ca_call c) = Some l1
    ∧ new_row c now ∈ lg_rows l1 ∧ lg_limits l1 = lg_limits l ∧ lg_version l1 = lg_version l).
  { rewrite Hdb1'. unfold put_ledger, call_key. cbn. eexists. rewrite lookup_insert_eq.
    split_and!; try done. cbn. apply elem_of_app. right. left. }
  destruct Hrow as (l1 & Hl1 & Hin & Hlim & Hv).
  destruct (located_later _ _ (ca_call c) _ _ Hdb1 Hs Hl1 Hin eq_refl)
    as (l2 & y & Hl2 & Hy & Hle & Hlim2 & Hv2 & Hok2).
  unfold reserve_budget in Hr |- *.
  apply bind_Ok_inv in Hr as (u0 & H0 & Hr). apply bind_Ok_inv in Hr as (u1 & H1 & Hr).
  apply bind_Ok_inv in Hr as (u2 & H2 & Hr). apply bind_Ok_inv in Hr as (u3 & H3 & Hr).
  apply bind_Ok_inv in Hr as (l0 & H4 & _). rewrite H0. cbn [mbind result_bind]. rewrite H1.
  cbn [mbind result_bind]. replace (count now' 0) with (Ok (A := ()) ()).
  2: { unfold count. by destruct (Z.leb_spec 0 now'), (Z.leb_spec now' MAX_COUNT); try lia. }
  cbn [mbind result_bind]. rewrite H3. cbn [mbind result_bind].
  assert (find_run db2 (bc_tenant (ca_call c)) (bc_run (ca_call c)) = Ok l2) as ->.
  { unfold find_run in H4 |- *. apply bind_Ok_inv in H4 as (a & -> & H4).
    apply bind_Ok_inv in H4 as (b & -> & _). cbn [mbind result_bind].
    by apply of_option_Ok. }
  cbn [mbind result_bind]. rewrite Hv2, Hv, Hver, str_eqb_refl. cbn [require mbind result_bind].
  rewrite Hlim2, Hlim, Hrole. cbn [mbind result_bind].
  assert (Hyc : at_candidate y = c) by by rewrite (rl_candidate _ _ Hle).
  rewrite duplicate_true; [done| |].
  - intros x Hx Hreq. apply elem_of_records in Hx. split.
    + pose proof (ok_siblings _ _ _ Hok2 x y Hx (lo_in _ _ _ _ _ Hy)) as Hsib.
      unfold siblings in Hsib. rewrite (lo_call _ _ _ _ _ Hy) in Hsib. apply Hsib.
      unfold row_request at 2. by rewrite (lo_call _ _ _ _ _ Hy).
    + intros Hatt. rewrite (lo_only _ _ _ _ _ Hy x Hx); [done|]. apply is_attempt_iff.
      unfold row_key. by rewrite Hreq, Hatt.
  - exists y. split; [by apply elem_of_records, (lo_in _ _ _ _ _ Hy)|done].
Qed.

(* ------------------------------------------------------------------ *)
(** ** A history *)
(* ------------------------------------------------------------------ *)

Definition tenant_b : pystr := "7c9e6679-7425-40de-944b-e07fc1f90ae9".
Definition run_b : pystr := "11111111-1111-4111-8111-111111111111".
Definition limits_b : BudgetLimits :=
  {| bl_input := 100; bl_output := 60; bl_attempts := 2;
     bl_roles := [{| rl_role := "judge"; rl_calls := 3; rl_input := 80; rl_output := 40;
                     rl_context := 120 |}] |}.
Definition call_b (request : pystr) (attempt : Z) : BudgetCall :=
  {| bc_tenant := tenant_b; bc_run := run_b; bc_version := tenant_b; bc_request := request;
     bc_attempt := attempt; bc_role := "judge"; bc_model := "m"; bc_region := "r";
     bc_binding := replicate 64 97%N; bc_signature := replicate 64 98%N; bc_replicate := None |}.
Definition candidate_b (request : pystr) (attempt input output : Z) : Candidate :=
  {| ca_call := call_b request attempt; ca_input := input; ca_output := output;
     ca_pricing := None |}.
Definition usage_b (input output : Z) : TokenUsage :=
  {| tu_input := Some input; tu_output := Some output; tu_cache_read := None;
     tu_cache_write := None; tu_latency := 5; tu_status := "succeeded";
     tu_provider_request := None; tu_error := None |}.

(** The database after a sequence of calls, refused ones leaving it alone. *)
Definition uafter (db : usage_db) (o : ucall) : usage_db :=
  match uexec o db with Ok db' => db' | Raise _ => db end.
Definition run_calls (l : list ucall) (db : usage_db) : usage_db := foldl uafter db l.

Lemma run_calls_steps l db : Forall ucall_wf l → rtc ustep db (run_calls l db).
Proof.
  intros Hl. revert db. induction Hl as [|o l Ho _ IH]; intros db; [apply rtc_refl|].
  cbn [run_calls foldl]. unfold uafter at 2. destruct (uexec o db) as [db'|] eqn:E.
  - eapply rtc_l; [by econstructor|]. apply IH.
  - apply IH.
Qed.

Definition created_b : usage_db := run_calls [UCreate tenant_b run_b tenant_b limits_b] empty_usage.
Definition reserved_b : usage_db := run_calls [UReserve (candidate_b "q" 1 70 30) 5] created_b.
Definition dispatched_b : usage_db := run_calls [UDispatch (call_b "q" 1)] reserved_b.
Definition recorded_b : usage_db := run_calls [URecord (call_b "q" 1) (usage_b 90 10) 6] dispatched_b.

Lemma reachable_calls l db : Forall ucall_wf l → usage_reachable db →
  usage_reachable (run_calls l db).
Proof. unfold usage_reachable. intros Hl Hdb. etrans; [exact Hdb|by apply run_calls_steps]. Qed.

Lemma created_reachable : usage_reachable created_b.
Proof.
  apply reachable_calls; [|apply rtc_refl]. constructor; [|constructor]. cbn. split; [done|].
  split; [done|]. by repeat constructor.
Qed.
Lemma reserved_reachable : usage_reachable reserved_b.
Proof. apply reachable_calls; [by repeat constructor|exact created_reachable]. Qed.
Lemma dispatched_reachable : usage_reachable dispatched_b.
Proof. apply reachable_calls; [by repeat constructor|exact reserved_reachable]. Qed.
Lemma recorded_reachable : usage_reachable recorded_b.
Proof. apply reachable_calls; [by repeat constructor|exact dispatched_reachable]. Qed.

(** The first result of a call and the database it leaves agree. *)
Lemma fst_after {B} (m : result (usage_db * B)) b db' :
  snd <$> m = Ok b → fst <$> m = Ok db' → m = Ok (db', b).
Proof. destruct m as [[d x]|]; cbn; [|done]. by intros [= ->] [= ->]. Qed.

Lemma reserve_b : reserve_budget created_b (candidate_b "q" 1 70 30) 5 = Ok (reserved_b, true).
Proof.
  apply fst_after; [vm_compute; reflexivity|]. unfold reserved_b, run_calls, uafter. cbn [foldl uexec].
  assert (is_ok (reserve_budget created_b (candidate_b "q" 1 70 30) 5) = true) as E
    by (vm_compute; reflexivity).
  by destruct (reserve_budget created_b (candidate_b "q" 1 70 30) 5) as [[d x]|].
Qed.

Lemma dispatch_b : mark_dispatched reserved_b (call_b "q" 1) = Ok (dispatched_b, true).
Proof.
  apply fst_after; [vm_compute; reflexivity|]. unfold dispatched_b, run_calls, uafter. cbn [foldl uexec].
  assert (is_ok (mark_dispatched reserved_b (call_b "q" 1)) = true) as E by (vm_compute; reflexivity).
  by destruct (mark_dispatched reserved_b (call_b "q" 1)) as [[d x]|].
Qed.

Definition entry_b : LedgerEntry :=
  {| le_usage := usage_b 90 10; le_recorded := 6; le_cost := None |}.

Lemma record_b : record_usage dispatched_b (call_b "q" 1) (usage_b 90 10) 6 = Ok (recorded_b, entry_b).
Proof.
  apply fst_after; [vm_compute; reflexivity|]. unfold recorded_b, run_calls, uafter. cbn [foldl uexec].
  assert (is_ok (record_usage dispatched_b (call_b "q" 1) (usage_b 90 10) 6) = true) as E
    by (vm_compute; reflexivity).
  by destruct (record_usage dispatched_b (call_b "q" 1) (usage_b 90 10) 6) as [[d x]|].
Qed.

Lemma recorded_run : ∃ l x, ud_runs recorded_b !! (tenant_b, run_b) = Some l ∧ x ∈ lg_rows l
  ∧ over x = true.
Proof.
  assert (E : (λ l, existsb over (lg_rows l)) <$> ud_runs recorded_b !! (tenant_b, run_b) = Some true)
    by (vm_compute; reflexivity).
  destruct (ud_runs recorded_b !! (tenant_b, run_b)) as [l|]; [|done]. injection E as E.
  apply existsb_exists in E as (x & Hx & Ho). exists l, x. split; [done|].
  split; [by apply list_elem_of_In|done].
Qed.

Lemma budget_never_exceeded_witness :
  ∃ l, ud_runs recorded_b !! (tenant_b, run_b) = Some l ∧ NoDup (row_key <$> lg_rows l).
Proof.
  destruct recorded_run as (l & x & Hl & _). exists l. split; [exact Hl|].
  exact (proj1 (budget_never_exceeded recorded_b tenant_b run_b l recorded_reachable Hl)).
Defined.

Lemma overrun_is_terminal_witness :
  reserve_budget recorded_b (candidate_b "q2" 1 1 1) 7 ≠ Ok (recorded_b, true).
Proof.
  destruct recorded_run as (l & x & Hl & Hx & Ho).
  exact (proj1 (overrun_is_terminal recorded_b tenant_b run_b l x recorded_b recorded_reachable Hl Hx
                  Ho (rtc_refl _ _)) (candidate_b "q2" 1 1 1) 7%Z recorded_b eq_refl).
Defined.

Lemma dispatched_to_recorded : rtc ustep dispatched_b recorded_b.
Proof. unfold recorded_b. apply run_calls_steps. by repeat constructor. Qed.

Lemma dispatch_once_witness :
  mark_dispatched recorded_b (call_b "q" 1) ≠ Ok (recorded_b, true).
Proof.
  exact (proj1 (dispatch_once reserved_b (call_b "q" 1) dispatched_b recorded_b reserved_reachable
                  dispatch_b dispatched_to_recorded) recorded_b).
Defined.

Lemma record_again :
  record_usage recorded_b (call_b "q" 1) (usage_b 90 10) 9 = Ok (recorded_b, entry_b).
Proof. vm_compute. reflexivity. Qed.

Lemma usage_recorded_once_witness :
  usage_b 90 10 = usage_b 90 10 ∧ entry_b = entry_b ∧ recorded_b = recorded_b.
Proof.
  exact (usage_recorded_once dispatched_b (call_b "q" 1) (usage_b 90 10) 6 recorded_b entry_b recorded_b
           (usage_b 90 10) 9 recorded_b entry_b dispatched_reachable record_b (rtc_refl _ _)
           record_again).
Defined.

Lemma reserved_to_recorded : rtc ustep reserved_b recorded_b.
Proof.
  etrans; [|exact dispatched_to_recorded]. unfold dispatched_b. apply run_calls_steps.
  by repeat constructor.
Qed.

Lemma reserve_redelivery_witness :
  reserve_budget recorded_b (candidate_b "q" 1 70 30) 8 = Ok (recorded_b, false).
Proof.
  apply (reserve_redelivery created_b (candidate_b "q" 1 70 30) 5 reserved_b recorded_b 8
           created_reachable reserve_b reserved_to_recorded).
  unfold MAX_COUNT. lia.
Defined.
