(* ===== verification/ResponseCache.v ===== *)
(** * The immutable response cache.

    [adapters/cache/aws.py]: the tenant-scoped namespace and request
    identities, the storage key, the conditional-write client with its
    in-memory implementation, and the cache over it (raw, guarded and decision
    artifacts, source revocation).  The cache is stated against the interface
    [CacheClient]; an operation that raises leaves the cache as it was. *)
From S2P Require Import Prelude PyVal JsonCodec Values Digest RulePack Rules.

(* ------------------------------------------------------------------ *)
(** ** Identities *)
(* ------------------------------------------------------------------ *)

(** [adapters/cache/aws.py:32-40 CacheNamespace] *)
Record CacheNamespace : Set := {
  ns_tenant : pystr; ns_consent : pystr; ns_version : pystr; ns_role : pystr }.

#[export] Instance namespace_eq_dec : EqDecision CacheNamespace.
Proof. solve_decision. Defined.
#[export] Instance namespace_countable : Countable CacheNamespace.
Proof.
  refine (inj_countable' (λ n, (ns_tenant n, ns_consent n, ns_version n, ns_role n))
            (λ '(t, c, v, r), {| ns_tenant := t; ns_consent := c; ns_version := v; ns_role := r |}) _).
  by intros [].
Defined.

(** [adapters/cache/aws.py:41-47 CacheNamespace.__post_init__] *)
Definition mk_CacheNamespace (n : CacheNamespace) : result CacheNamespace :=
  _ ← check_uuid (ns_tenant n);
  _ ← check_uuid (ns_version n);
  _ ← require (nonempty (ns_consent n)) DomainValidationError;
  _ ← require (nonempty (ns_role n)) DomainValidationError;
  Ok n.

(** [adapters/cache/aws.py:56-64 CacheRequest] *)
Record CacheRequest : Set := {
  rq_namespace : CacheNamespace; rq_id : pystr; rq_signature : pystr; rq_replicate : Z;
  rq_epoch : Z }.

#[export] Instance cache_request_eq_dec : EqDecision CacheRequest.
Proof. solve_decision. Defined.

(** [adapters/cache/aws.py:66-74 CacheRequest.__post_init__] *)
Definition mk_CacheRequest (r : CacheRequest) : result CacheRequest :=
  _ ← check_uuid (rq_id r);
  _ ← check_sha256 (rq_signature r);
  _ ← require (existsb (Z.eqb (rq_replicate r)) [1; 2; 3]%Z) DomainValidationError;
  _ ← reject (rq_epoch r <? 1)%Z DomainValidationError;
  Ok r.

(** What an artifact is stored under besides the request: the recovery
    request for raw responses, the decision hash for decisions. *)
Inductive artifact_kind : Set := RawArtifact | GuardedArtifact | DecisionArtifact (hash : pystr).

#[export] Instance artifact_kind_eq_dec : EqDecision artifact_kind.
Proof. solve_decision. Defined.

Definition kind_str (k : artifact_kind) : pystr :=
  match k with
  | RawArtifact => "RAW" | GuardedArtifact => "GUARDED" | DecisionArtifact _ => "DECISION"
  end.

(** [adapters/cache/aws.py:113-116 StoredCacheObject] *)
Record StoredCacheObject : Set := { so_payload : list N; so_sha256 : pystr }.

Section keys.
Context `{Digest}.

(** [adapters/cache/aws.py:49-53 CacheNamespace.partition_key] *)
Definition partition_key (n : CacheNamespace) : result pystr :=
  h ← canonical_hash (PList (PStr <$> [ns_tenant n; ns_consent n; ns_version n; ns_role n]));
  Ok ("CACHE#" ++ h).

(** [adapters/cache/aws.py:77-110 cache_request] *)
Definition cache_request (namespace : CacheNamespace) (request_id : pystr)
    (temperature model_id model_profile prompt_sha256 schema_sha256 packet_sha256 tools
     max_tokens : pyval) (replicate_id extraction_epoch : Z) : result CacheRequest :=
  signature ← request_signature temperature model_id model_profile prompt_sha256 schema_sha256
                packet_sha256 tools max_tokens (PInt replicate_id) (PInt extraction_epoch);
  mk_CacheRequest
    {| rq_namespace := namespace; rq_id := request_id; rq_signature := signature;
       rq_replicate := replicate_id; rq_epoch := extraction_epoch |}.

(** [adapters/cache/aws.py:171-182 _storage_key] *)
Definition storage_key (k : artifact_kind) (r : CacheRequest) : result pystr :=
  let suffix := match k with
                | DecisionArtifact h => if nonempty h then "#" ++ h else []
                | _ => []
                end in
  let recovery := match k with RawArtifact => "#REQ#" ++ rq_id r | _ => [] end in
  partition ← partition_key (rq_namespace r);
  Ok (partition ++ "#" ++ kind_str k ++ "#" ++ rq_signature r ++ "#REPLICA#"
      ++ Z_dec (rq_replicate r) ++ "#EPOCH#" ++ Z_dec (rq_epoch r) ++ recovery ++ suffix).

(** [adapters/cache/aws.py:184-188 _stored] *)
Definition stored (payload : list N) : StoredCacheObject :=
  {| so_payload := payload; so_sha256 := sha256_hex payload |}.

(** [adapters/cache/aws.py:190-194 _verified] *)
Definition verified (value : StoredCacheObject) : result (list N) :=
  _ ← require (sha256_hex (so_payload value) =s? so_sha256 value) CacheCorruptionError;
  Ok (so_payload value).
End keys.

(* ------------------------------------------------------------------ *)
(** ** The client *)
(* ------------------------------------------------------------------ *)

(** The conditional-write boundary: the objects a client holds and what each
    call does to them. [adapters/cache/aws.py:119-126 ImmutableCacheClient] *)
Class CacheClient (C : Type) := {
  new_client : C;
  put_if_absent : C → pystr → StoredCacheObject → C * bool;
  client_get : C → pystr → option StoredCacheObject;
  client_delete : C → pystr → C;
  objects : C → gmap pystr StoredCacheObject;
  objects_new : objects new_client = ∅;
  objects_put_result : ∀ c k v, (put_if_absent c k v).2 = bool_decide (objects c !! k = None);
  objects_put : ∀ c k v, objects (put_if_absent c k v).1
    = match objects c !! k with Some _ => objects c | None => <[k := v]> (objects c) end;
  objects_get : ∀ c k, client_get c k = objects c !! k;
  objects_delete : ∀ c k, objects (client_delete c k) = base.delete k (objects c) }.
(** [adapters/cache/aws.py:137-141 InMemoryImmutableCacheClient.put_if_absent] *)
Definition memory_put (c : gmap pystr StoredCacheObject) (k : pystr) (v : StoredCacheObject)
    : gmap pystr StoredCacheObject * bool :=
  match c !! k with Some _ => (c, false) | None => (<[k := v]> c, true) end.

(** A dictionary of objects.
    [adapters/cache/aws.py:129-147 InMemoryImmutableCacheClient] *)
#[export] Program Instance InMemoryImmutableCacheClient : CacheClient (gmap pystr StoredCacheObject) := {
  new_client := ∅;
  put_if_absent := memory_put;
  client_get := λ c k, c !! k;
  client_delete := λ c k, base.delete k c;
  objects := λ c, c }.
Next Obligation. done. Qed.
Next Obligation. intros c k v. unfold memory_put. by destruct (c !! k). Qed.
Next Obligation. intros c k v. unfold memory_put. by destruct (c !! k). Qed.
Next Obligation. done. Qed.
Next Obligation. done. Qed.

(** Fault injection: the payload of an object, not its digest, is replaced.
    [adapters/cache/aws.py:149-152 corrupt_for_test] *)
Definition corrupt_for_test (c : gmap pystr StoredCacheObject) (k : pystr) (payload : list N)
    : result (gmap pystr StoredCacheObject) :=
  existing ← of_option KeyError (c !! k);
  Ok (<[k := {| so_payload := payload; so_sha256 := so_sha256 existing |}]> c).

(* ------------------------------------------------------------------ *)
(** ** The cache *)
(* ------------------------------------------------------------------ *)

(** [adapters/cache/aws.py:163-166 ImmutableResponseCache.__init__] *)
Record cache (C : Type) : Type := Cache {
  ch_client : C;
  ch_manifest : gmap CacheNamespace (gset pystr);
  ch_revoked : gset CacheNamespace }.
Arguments Cache {C} ch_client ch_manifest ch_revoked.
Arguments ch_client {C}.
Arguments ch_manifest {C}.
Arguments ch_revoked {C}.

Section cache.
Context `{Digest} {C : Type} `{CacheClient C}.

Definition new_cache : cache C := Cache new_client ∅ ∅.

(** [self._manifest.setdefault(namespace, set()).add(key)] *)
Definition note_key (n : CacheNamespace) (k : pystr) (m : gmap CacheNamespace (gset pystr))
    : gmap CacheNamespace (gset pystr) := <[n := {[k]} ∪ default ∅ (m !! n)]> m.

(** [adapters/cache/aws.py:200-215 _put] *)
Definition put (s : cache C) (k : artifact_kind) (r : CacheRequest) (payload : list N)
    : result (cache C) :=
  let n := rq_namespace r in
  _ ← reject (bool_decide (n ∈ ch_revoked s)) CacheRevokedError;
  key ← storage_key k r;
  let candidate := stored payload in
  let '(client, created) := put_if_absent (ch_client s) key candidate in
  let noted := Cache client (note_key n key (ch_manifest s)) (ch_revoked s) in
  if created then Ok noted
  else
    existing ← of_option CacheCollisionError (client_get client key);
    _ ← verified existing;
    _ ← require (so_sha256 existing =s? so_sha256 candidate) CacheCollisionError;
    Ok noted.

(** [adapters/cache/aws.py:217-223 _get] *)
Definition get (s : cache C) (k : artifact_kind) (r : CacheRequest) : result (option (list N)) :=
  if bool_decide (rq_namespace r ∈ ch_revoked s) then Ok None
  else
    key ← storage_key k r;
    match client_get (ch_client s) key with
    | None => Ok None
    | Some v => p ← verified v; Ok (Some p)
    end.

(** [adapters/cache/aws.py:225-226 put_raw] *)
Definition put_raw (s : cache C) (r : CacheRequest) (payload : list N) : result (cache C) :=
  put s RawArtifact r payload.

(** [adapters/cache/aws.py:228-232 get_raw] *)
Definition get_raw (s : cache C) (r : CacheRequest) (recovery_request_id : pystr)
    : result (option (list N)) :=
  _ ← check_uuid recovery_request_id;
  _ ← require (recovery_request_id =s? rq_id r) DomainValidationError;
  get s RawArtifact r.

(** [adapters/cache/aws.py:234-235 put_guarded] *)
Definition put_guarded (s : cache C) (r : CacheRequest) (payload : list N) : result (cache C) :=
  put s GuardedArtifact r payload.

(** [adapters/cache/aws.py:237-238 get_guarded] *)
Definition get_guarded (s : cache C) (r : CacheRequest) : result (option (list N)) :=
  get s GuardedArtifact r.

(** [adapters/cache/aws.py:240-244 put_decision] *)
Definition put_decision (s : cache C) (r : CacheRequest) (hash : pystr) (payload : list N)
    : result (cache C) :=
  _ ← check_sha256 hash; put s (DecisionArtifact hash) r payload.

(** [adapters/cache/aws.py:246-248 get_decision] *)
Definition get_decision (s : cache C) (r : CacheRequest) (hash : pystr)
    : result (option (list N)) :=
  _ ← check_sha256 hash; get s (DecisionArtifact hash) r.

(** [adapters/cache/aws.py:250-254 revoke_document] *)
Definition revoke_document (s : cache C) (n : CacheNamespace) : cache C :=
  Cache (foldr (λ k c, client_delete c k) (ch_client s)
           (base.elements (default ∅ (ch_manifest s !! n) : gset pystr)))
    (base.delete n (ch_manifest s)) ({[n]} ∪ ch_revoked s).

(** The calls a client of the cache makes. *)
Inductive cache_call : Type :=
| PutRaw (r : CacheRequest) (payload : list N)
| GetRaw (r : CacheRequest) (recovery_request_id : pystr)
| PutGuarded (r : CacheRequest) (payload : list N)
| GetGuarded (r : CacheRequest)
| PutDecision (r : CacheRequest) (hash : pystr) (payload : list N)
| GetDecision (r : CacheRequest) (hash : pystr)
| Revoke (n : CacheNamespace).

(** A call's next state and what its caller observes. *)
Definition stored_in (s : cache C) (m : result (cache C)) : cache C * result (option (list N)) :=
  match m with Ok s' => (s', Ok None) | Raise e => (s, Raise e) end.

Definition call_cache (s : cache C) (c : cache_call) : cache C * result (option (list N)) :=
  match c with
  | PutRaw r p => stored_in s (put_raw s r p)
  | GetRaw r i => (s, get_raw s r i)
  | PutGuarded r p => stored_in s (put_guarded s r p)
  | GetGuarded r => (s, get_guarded s r)
  | PutDecision r h p => stored_in s (put_decision s r h p)
  | GetDecision r h => (s, get_decision s r h)
  | Revoke n => (revoke_document s n, Ok None)
  end.
End cache.
