(* ===== verification/ResponseCacheSpec.v ===== *)
(** * The response cache implements a write-once store.

    The specification keeps a payload per artifact and a set of revoked
    namespaces, with no keys, digests of stored bytes or manifest.  Every run
    of the cache over any client that meets [CacheClient] gives its callers
    what the specification gives them, as long as the namespaces in use have
    distinct partition hashes. *)
From S2P Require Import Prelude PyVal JsonCodec Values Digest RulePack Rules ResponseCache.

(* ------------------------------------------------------------------ *)
(** ** The specification *)
(* ------------------------------------------------------------------ *)

(** What identifies a stored response.  A raw response belongs to one
    request; guarded and decision artifacts are shared by its retries. *)
Record artifact : Set := {
  ar_namespace : CacheNamespace; ar_signature : pystr; ar_replicate : Z; ar_epoch : Z;
  ar_kind : artifact_kind; ar_recovery : option pystr }.

#[export] Instance artifact_eq_dec : EqDecision artifact.
Proof. solve_decision. Defined.
#[export] Instance artifact_kind_countable : Countable artifact_kind.
Proof.
  refine (inj_countable' (λ k, match k with
            | RawArtifact => inl () | GuardedArtifact => inr (inl ()) | DecisionArtifact h => inr (inr h)
            end) (λ x, match x with
            | inl _ => RawArtifact | inr (inl _) => GuardedArtifact | inr (inr h) => DecisionArtifact h
            end) _).
  by intros [].
Defined.
#[export] Instance artifact_countable : Countable artifact.
Proof.
  refine (inj_countable' (λ a, (ar_namespace a, ar_signature a, ar_replicate a, ar_epoch a, ar_kind a,
                                ar_recovery a))
    (λ '(n, s, r, e, k, i), {| ar_namespace := n; ar_signature := s; ar_replicate := r; ar_epoch := e;
                               ar_kind := k; ar_recovery := i |}) _).
  by intros [].
Defined.

Definition artifact_of (k : artifact_kind) (r : CacheRequest) : artifact :=
  {| ar_namespace := rq_namespace r; ar_signature := rq_signature r;
     ar_replicate := rq_replicate r; ar_epoch := rq_epoch r; ar_kind := k;
     ar_recovery := match k with RawArtifact => Some (rq_id r) | _ => None end |}.

Record write_once : Type := {
  wo_items : gmap artifact (list N);
  wo_revoked : gset CacheNamespace }.

Definition empty_store : write_once := {| wo_items := ∅; wo_revoked := ∅ |}.

Section spec.
Context `{Digest}.

Definition wo_put (w : write_once) (a : artifact) (p : list N) : result write_once :=
  _ ← reject (bool_decide (ar_namespace a ∈ wo_revoked w)) CacheRevokedError;
  match wo_items w !! a with
  | None => Ok {| wo_items := <[a := p]> (wo_items w); wo_revoked := wo_revoked w |}
  | Some q => _ ← require (sha256_hex q =s? sha256_hex p) CacheCollisionError; Ok w
  end.

Definition wo_get (w : write_once) (a : artifact) : option (list N) :=
  if bool_decide (ar_namespace a ∈ wo_revoked w) then None else wo_items w !! a.

Definition wo_revoke (w : write_once) (n : CacheNamespace) : write_once :=
  {| wo_items := filter (λ ap, ar_namespace ap.1 ≠ n) (wo_items w);
     wo_revoked := {[n]} ∪ wo_revoked w |}.

Definition recorded (w : write_once) (m : result write_once)
    : write_once * result (option (list N)) :=
  match m with Ok w' => (w', Ok None) | Raise e => (w, Raise e) end.

Definition call_store (w : write_once) (c : cache_call) : write_once * result (option (list N)) :=
  match c with
  | PutRaw r p => recorded w (wo_put w (artifact_of RawArtifact r) p)
  | GetRaw r i => (w, if i =s? rq_id r then Ok (wo_get w (artifact_of RawArtifact r))
                      else Raise DomainValidationError)
  | PutGuarded r p => recorded w (wo_put w (artifact_of GuardedArtifact r) p)
  | GetGuarded r => (w, Ok (wo_get w (artifact_of GuardedArtifact r)))
  | PutDecision r h p =>
      recorded w (if is_sha256 h then wo_put w (artifact_of (DecisionArtifact h) r) p
                  else Raise DomainValidationError)
  | GetDecision r h =>
      (w, if is_sha256 h then Ok (wo_get w (artifact_of (DecisionArtifact h) r))
          else Raise DomainValidationError)
  | Revoke n => (wo_revoke w n, Ok None)
  end.
End spec.

(** What the callers of a run observe. *)
Fixpoint observe {S} (step : S → cache_call → S * result (option (list N))) (s : S)
    (calls : list cache_call) : list (result (option (list N))) :=
  match calls with
  | [] => []
  | c :: r => let '(s', o) := step s c in o :: observe step s' r
  end.

(* ------------------------------------------------------------------ *)
(** ** Storage keys *)
(* ------------------------------------------------------------------ *)

Section keys.
Context `{Digest}.

(** The storage key depends on the artifact only. *)
Definition akey (a : artifact) : result pystr :=
  storage_key (ar_kind a)
    {| rq_namespace := ar_namespace a; rq_id := default [] (ar_recovery a);
       rq_signature := ar_signature a; rq_replicate := ar_replicate a; rq_epoch := ar_epoch a |}.

Lemma storage_key_artifact k r : storage_key k r = akey (artifact_of k r).
Proof. by destruct k, r. Qed.

Lemma partition_key_total n : ∃ h, partition_key n = Ok ("CACHE#" ++ h) ∧ is_sha256 h = true.
Proof.
  unfold partition_key, canonical_hash. destruct n as [t c v r]. eexists. split; [reflexivity|].
  apply sha256_hex_shape.
Qed.

Lemma akey_total a : ∃ key, akey a = Ok key.
Proof.
  unfold akey, storage_key. destruct (partition_key_total (ar_namespace a)) as (h & Hh & _).
  cbn [rq_namespace]. rewrite Hh. by eexists.
Qed.

Definition good_kind (k : artifact_kind) : Prop :=
  match k with DecisionArtifact h => is_sha256 h = true | _ => True end.

Definition good_artifact (a : artifact) : Prop :=
  is_sha256 (ar_signature a) = true ∧ (0 <= ar_replicate a)%Z ∧ (0 <= ar_epoch a)%Z
  ∧ good_kind (ar_kind a) ∧ (is_Some (ar_recovery a) ↔ ar_kind a = RawArtifact).

Lemma artifact_of_good k r : mk_CacheRequest r = Ok r → good_kind k → good_artifact (artifact_of k r).
Proof.
  unfold mk_CacheRequest. intros Hr Hk.
  apply bind_Ok_inv in Hr as (? & _ & Hr). apply bind_Ok_inv in Hr as (? & Hs%check_sha256_Ok & Hr).
  apply bind_Ok_inv in Hr as (? & (z & Hz & Hrep%Z.eqb_eq)%require_Ok%existsb_exists & Hr).
  apply bind_Ok_inv in Hr as (? & He%reject_Ok%Z.ltb_ge & _).
  unfold good_artifact. cbn. split_and!; [done| |lia|done|].
  - destruct Hz as [<-|[<-|[<-|[]]]]; lia.
  - split; [|by intros ->]. destruct k; intros Hi; try done; by destruct Hi.
Qed.

Lemma Ok_inj {A} (x y : A) : Ok x = Ok y → x = y.
Proof. congruence. Qed.

Lemma is_sha256_length s : is_sha256 s = true → length s = 64%nat.
Proof. unfold is_sha256, py_len. intros [Hl%Z.eqb_eq _]%andb_true_iff. lia. Qed.

Lemma no_recovery (i : option pystr) k : (is_Some i ↔ k = RawArtifact) → k ≠ RawArtifact → i = None.
Proof. destruct i; [|done]. intros Hi Hk. by destruct Hk; apply Hi. Qed.

Lemma key_body s s' r r' (x x' : pystr) :
  is_sha256 s = true → is_sha256 s' = true → (0 <= r)%Z → (0 <= r')%Z →
  s ++ "#REPLICA#" ++ Z_dec r ++ "#EPOCH#" ++ x = s' ++ "#REPLICA#" ++ Z_dec r' ++ "#EPOCH#" ++ x' →
  s = s' ∧ r = r' ∧ x = x'.
Proof.
  intros Hs Hs' Hr Hr' E. apply app_inj_1 in E as [-> E]; [|by rewrite !is_sha256_length].
  apply app_inj_1 in E as [_ E]; [|done].
  apply (Z_dec_before 35) in E as [-> E]; [|done..].
  by apply (app_inv_head "EPOCH#") in E as ->.
Qed.

(** Two well-formed artifacts of namespaces with distinct partitions never
    share a storage key. *)
Lemma akey_inj a a' key :
  good_artifact a → good_artifact a' →
  (partition_key (ar_namespace a) = partition_key (ar_namespace a') → ar_namespace a = ar_namespace a') →
  akey a = Ok key → akey a' = Ok key → a = a'.
Proof.
  intros (Hs & Hr & He & Hk & Hi) (Hs' & Hr' & He' & Hk' & Hi') Hsep Ha Ha'.
  unfold akey, storage_key in Ha, Ha'. cbn [rq_namespace rq_id rq_signature rq_replicate rq_epoch] in *.
  destruct (partition_key_total (ar_namespace a)) as (h & Hh & Hlen),
    (partition_key_total (ar_namespace a')) as (h' & Hh' & Hlen').
  rewrite Hh in Ha, Hsep. rewrite Hh' in Ha', Hsep.
  rewrite <- Ha' in Ha. clear Ha'. cbn [mbind result_bind] in Ha. apply Ok_inj in Ha.
  rewrite <- !app_assoc in Ha.
  apply app_inj_1 in Ha as [_ Ha]; [|done].
  apply app_inj_1 in Ha as [-> Ha]; [|by rewrite !is_sha256_length].
  specialize (Hsep eq_refl). apply app_inj_1 in Ha as [_ Ha]; [|done].
  destruct a as [n s r e k i], a' as [n' s' r' e' k' i'].
  cbn [ar_namespace ar_signature ar_replicate ar_epoch ar_kind ar_recovery] in *. subst n'.
  assert (Hn : ∀ h, is_sha256 h = true → ∃ c t, h = c :: t).
  { intros x Hx%is_sha256_length. destruct x; [done|]. by do 2 eexists. }
  destruct k as [| |d], k' as [| |d']; try discriminate Ha; cbn [kind_str good_kind] in *;
    apply app_inj_1 in Ha as [_ Ha]; try done; apply app_inj_1 in Ha as [_ Ha]; try done;
    apply key_body in Ha as (-> & -> & Ha); try done.
  - destruct i as [i|]; [|by destruct (proj2 Hi eq_refl)].
    destruct i' as [i'|]; [|by destruct (proj2 Hi' eq_refl)].
    rewrite !app_nil_r in Ha. apply (Z_dec_before 35) in Ha as [-> Ha]; [|done..].
    apply (app_inv_head "REQ#") in Ha. cbn in Ha. by rewrite Ha.
  - rewrite !app_nil_r in Ha. apply Z_dec_inj in Ha as ->; [|done..].
    by rewrite (no_recovery i _ Hi), (no_recovery i' _ Hi').
  - destruct (Hn d Hk) as (c & t & ->), (Hn d' Hk') as (c' & t' & ->). cbn [nonempty app] in Ha.
    apply (Z_dec_before 35) in Ha as [-> Ha]; [|done..]. rewrite Ha.
    by rewrite (no_recovery i _ Hi), (no_recovery i' _ Hi').
Qed.
End keys.

(* ------------------------------------------------------------------ *)
(** ** Refinement *)
(* ------------------------------------------------------------------ *)

(** Namespaces a deployment can tell apart. *)
Definition separated `{Digest} (dom : list CacheNamespace) : Prop :=
  ∀ n n', n ∈ dom → n' ∈ dom → partition_key n = partition_key n' → n = n'.

Definition call_wf (dom : list CacheNamespace) (c : cache_call) : Prop :=
  match c with
  | PutRaw r _ | GetRaw r _ | PutGuarded r _ | GetGuarded r | PutDecision r _ _ | GetDecision r _ =>
      mk_CacheRequest r = Ok r ∧ rq_namespace r ∈ dom
  | Revoke _ => True
  end.

#[local] Set Default Proof Using "All".

Section refinement.
Context `{Digest} {C : Type} `{CacheClient C}.
Context (dom : list CacheNamespace) (Hdom : separated dom).

Definition in_use (a : artifact) : Prop := good_artifact a ∧ ar_namespace a ∈ dom.

(** The client holds exactly the specified items under their keys, and the
    manifest knows every one of them. *)
Record implements (s : cache C) (w : write_once) : Prop := {
  im_revoked : ch_revoked s = wo_revoked w;
  im_items : ∀ a key, in_use a → akey a = Ok key →
    objects (ch_client s) !! key = stored <$> wo_items w !! a;
  im_noted : ∀ a p, wo_items w !! a = Some p →
    ∃ key, akey a = Ok key ∧ key ∈ default ∅ (ch_manifest s !! ar_namespace a);
  im_manifest : ∀ n key, key ∈ default ∅ (ch_manifest s !! n) →
    ∃ a, in_use a ∧ ar_namespace a = n ∧ akey a = Ok key }.

Lemma in_use_inj a a' key : in_use a → in_use a' → akey a = Ok key → akey a' = Ok key → a = a'.
Proof. intros [Ha Hn] [Ha' Hn']. apply akey_inj; [done..|]. by apply Hdom. Qed.

Lemma in_use_call k r : mk_CacheRequest r = Ok r → rq_namespace r ∈ dom → good_kind k →
  in_use (artifact_of k r).
Proof. intros Hr Hn Hk. split; [by apply artifact_of_good|done]. Qed.

Lemma elem_of_note n k m n' k' : k' ∈ default ∅ (note_key n k m !! n') ↔
  n' = n ∧ k' = k ∨ k' ∈ default ∅ (m !! n').
Proof.
  unfold note_key. destruct (decide (n' = n)) as [->|Hn].
  - rewrite lookup_insert_eq. cbn. set_solver.
  - rewrite lookup_insert_ne by done. naive_solver.
Qed.

Lemma objects_delete_keys (c : C) l key :
  objects (foldr (λ k c, client_delete c k) c l) !! key
  = if bool_decide (key ∈ l) then None else objects c !! key.
Proof.
  induction l as [|k l IH]; [done|]. cbn [foldr]. rewrite objects_delete.
  destruct (decide (k = key)) as [->|Hk].
  - rewrite lookup_delete_eq. by rewrite bool_decide_eq_true_2 by constructor.
  - rewrite lookup_delete_ne, IH by done. assert (Hm : key ∈ k :: l ↔ key ∈ l) by set_solver.
    by rewrite (bool_decide_ext _ _ Hm).
Qed.

Lemma implements_new : implements new_cache empty_store.
Proof.
  split; cbn; [done|..].
  - intros a key _ _. by rewrite objects_new, !lookup_empty.
  - intros a p. by rewrite lookup_empty.
  - intros n key. rewrite lookup_empty. cbn. set_solver.
Qed.

Lemma verified_stored p : verified (stored p) = Ok p.
Proof. unfold verified. cbn. by rewrite str_eqb_refl. Qed.

Definition same_outcome (m : result (cache C)) (m' : result write_once) : Prop :=
  match m, m' with
  | Ok s, Ok w => implements s w
  | Raise e, Raise e' => e = e'
  | _, _ => False
  end.

Lemma implements_put s w k r p : implements s w → in_use (artifact_of k r) →
  same_outcome (put s k r p) (wo_put w (artifact_of k r) p).
Proof.
  intros [Hrev Hit Hno Hma] Ha. unfold put, wo_put. rewrite storage_key_artifact.
  destruct (akey_total (artifact_of k r)) as [key Hkey]. rewrite Hrev, Hkey. cbn zeta.
  change (ar_namespace (artifact_of k r)) with (rq_namespace r).
  case_bool_decide; [done|]. cbn [reject mbind result_bind].
  pose proof (Hit _ _ Ha Hkey) as Hobj.
  destruct (put_if_absent (ch_client s) key (stored p)) as [c b] eqn:Hput.
  pose proof (objects_put_result (ch_client s) key (stored p)) as Hb.
  pose proof (objects_put (ch_client s) key (stored p)) as Hc.
  rewrite Hput in Hb, Hc. cbn [fst snd] in Hb, Hc. rewrite Hobj in Hb, Hc.
  assert (Hnote : implements (Cache c (note_key (rq_namespace r) key (ch_manifest s)) (ch_revoked s))
                    {| wo_items := <[artifact_of k r := default p (wo_items w !! artifact_of k r)]> (wo_items w);
                       wo_revoked := wo_revoked w |}).
  { split; cbn [ch_client ch_manifest ch_revoked wo_items wo_revoked]; [done|..].
    - intros a key' Ha' Hkey'. rewrite Hc. destruct (decide (a = artifact_of k r)) as [->|Hne].
      + assert (key' = key) as -> by congruence. rewrite lookup_insert_eq.
        destruct (wo_items w !! artifact_of k r); cbn; [done|by rewrite lookup_insert_eq].
      + rewrite lookup_insert_ne by done. rewrite <- (Hit a key') by done.
        assert (key' ≠ key) by (intros ->; apply Hne; by apply (in_use_inj _ _ key)).
        destruct (wo_items w !! artifact_of k r); cbn; [done|by rewrite lookup_insert_ne].
    - intros a q. rewrite lookup_insert_Some. intros [[<- _]|[_ Hq]].
      + exists key. split; [done|]. apply elem_of_note. by left.
      + destruct (Hno a q Hq) as (key' & Hk' & Hm). exists key'. split; [done|].
        apply elem_of_note. by right.
    - intros n key' [[-> ->]|Hm]%elem_of_note; [by exists (artifact_of k r)|by apply Hma]. }
  rewrite Hrev in Hnote.
  destruct (wo_items w !! artifact_of k r) as [q|] eqn:Hq; cbn in Hb, Hc, Hnote; subst b.
  - rewrite objects_get, Hc, Hobj. cbn [fmap option_fmap option_map of_option mbind result_bind].
    rewrite verified_stored. cbn [mbind result_bind stored so_sha256].
    destruct (sha256_hex q =s? sha256_hex p); [|done]. cbn [require mbind result_bind same_outcome].
    rewrite insert_id in Hnote by done. destruct w. exact Hnote.
  - done.
Qed.

Lemma implements_get s w k r : implements s w → in_use (artifact_of k r) →
  get s k r = Ok (wo_get w (artifact_of k r)).
Proof.
  intros [Hrev Hit Hno Hma] Ha. unfold get, wo_get. rewrite storage_key_artifact, Hrev.
  change (ar_namespace (artifact_of k r)) with (rq_namespace r). case_bool_decide; [done|].
  destruct (akey_total (artifact_of k r)) as [key Hkey]. rewrite Hkey. cbn [mbind result_bind].
  rewrite objects_get, (Hit _ _ Ha Hkey). destruct (wo_items w !! artifact_of k r) as [q|]; [|done].
  cbn [fmap option_fmap option_map]. by rewrite verified_stored.
Qed.

Lemma implements_revoke s w n : implements s w → implements (revoke_document s n) (wo_revoke w n).
Proof.
  intros [Hrev Hit Hno Hma]. unfold revoke_document, wo_revoke. split; cbn [ch_client ch_manifest ch_revoked wo_items wo_revoked].
  - by rewrite Hrev.
  - intros a key Ha Hkey. rewrite objects_delete_keys.
    case_bool_decide as Hin; rewrite elem_of_elements in Hin.
    + destruct (Hma n key Hin) as (a' & Ha' & <- & Hkey').
      rewrite (in_use_inj a a' key) by done. rewrite map_lookup_filter_None_2; [done|]. naive_solver.
    + rewrite (Hit a key) by done. f_equal. destruct (wo_items w !! a) as [p|] eqn:Hp.
      * symmetry. apply map_lookup_filter_Some_2; [done|]. cbn. intros <-.
        destruct (Hno a p Hp) as (key' & Hk' & Hm). congruence.
      * symmetry. apply map_lookup_filter_None_2. by left.
  - intros a p [Hp Hne]%map_lookup_filter_Some. cbn in Hne. rewrite lookup_delete_ne by done. eauto.
  - intros n' key Hm. destruct (decide (n = n')) as [<-|Hne].
    + rewrite lookup_delete_eq in Hm. cbn in Hm. set_solver.
    + rewrite lookup_delete_ne in Hm by done. eauto.
Qed.
Lemma check_uuid_raises i e : check_uuid i = Raise e → e = DomainValidationError.
Proof.
  unfold check_uuid, require_uuid. cbn [as_str mbind result_bind].
  destruct (uuid_hex i) as [h|]; cbn [of_option mbind result_bind]; [|by intros [= <-]].
  destruct (uuid_str h =s? lower i); cbn; congruence.
Qed.

(** One call: the same answer, and states still related. *)
Lemma implements_call s w c : implements s w → call_wf dom c →
  (call_cache s c).2 = (call_store w c).2 ∧ implements (call_cache s c).1 (call_store w c).1.
Proof.
  intros Him Hc.
  assert (Hput : ∀ k r p, mk_CacheRequest r = Ok r → rq_namespace r ∈ dom → good_kind k →
    (stored_in s (put s k r p)).2 = (recorded w (wo_put w (artifact_of k r) p)).2
    ∧ implements (stored_in s (put s k r p)).1 (recorded w (wo_put w (artifact_of k r) p)).1).
  { intros k r p Hr Hn Hk. pose proof (implements_put s w k r p Him (in_use_call k r Hr Hn Hk)) as Hs.
    destruct (put s k r p), (wo_put w (artifact_of k r) p); cbn in *; try done. by subst. }
  assert (Hcheck : ∀ h, check_sha256 h = if is_sha256 h then Ok h else Raise DomainValidationError).
  { intros h. unfold check_sha256, require_sha256. cbn. by destruct (is_sha256 h). }
  destruct c as [r p|r i|r p|r|r h p|r h|n]; cbn [call_cache call_store fst snd call_wf] in *;
    try destruct Hc as [Hr Hn].
  - by apply Hput.
  - split; [|done]. unfold get_raw. destruct (str_eqb_spec i (rq_id r)) as [->|Hi].
    + pose proof Hr as (? & Hid & _)%bind_Ok_inv. rewrite Hid. cbn [mbind result_bind require].
      rewrite (implements_get s w RawArtifact r) by by try apply in_use_call. done.
    + destruct (check_uuid i) as [u|e] eqn:Hu; cbn [mbind result_bind require]; [done|].
      by rewrite (check_uuid_raises i e Hu).
  - by apply Hput.
  - split; [|done]. by apply implements_get, in_use_call.
  - unfold put_decision. rewrite Hcheck. destruct (is_sha256 h) eqn:Hh; [|done]. by apply Hput.
  - split; [|done]. unfold get_decision. rewrite Hcheck. destruct (is_sha256 h) eqn:Hh; [|done].
    by apply implements_get, in_use_call.
  - split; [done|]. by apply implements_revoke.
Qed.

Lemma implements_run calls s w : implements s w → Forall (call_wf dom) calls →
  observe call_cache s calls = observe call_store w calls.
Proof.
  intros Him Hc. revert s w Him. induction Hc as [|c calls Hc _ IH]; intros s w Him; [done|].
  cbn [observe]. destruct (implements_call s w c Him Hc) as [Ho Hs].
  destruct (call_cache s c), (call_store w c). cbn in *. subst. f_equal. by apply IH.
Qed.
End refinement.

(** C20: the cache implements a write-once store.  Over any client that meets the conditional-write
    contract, whatever sequence of well-formed calls is made, every caller observes exactly what a
    map from artifacts to payloads would answer: a first write is kept, a repeated write succeeds
    only with a payload of the same digest and changes nothing, raw responses are read back only by
    the request that wrote them, and a revoked namespace loses its artifacts, and only its own, for
    good.  The storage keys, the digests of stored bytes and the manifest are invisible. *)
Theorem cache_refines_write_once `{Digest} {C : Type} `{CacheClient C} dom calls :
  separated dom → Forall (call_wf dom) calls →
  observe call_cache (new_cache (C := C)) calls = observe call_store empty_store calls.
Proof. intros Hdom Hc. by apply (implements_run dom Hdom), Hc; apply implements_new. Qed.

(* ------------------------------------------------------------------ *)
(** ** A run *)
(* ------------------------------------------------------------------ *)

Definition namespace_a : CacheNamespace :=
  {| ns_tenant := "11111111-1111-4111-8111-111111111111"; ns_consent := "standard";
     ns_version := "22222222-2222-4222-8222-222222222222"; ns_role := "tagger" |}.
Definition namespace_b : CacheNamespace :=
  {| ns_tenant := "11111111-1111-4111-8111-111111111111"; ns_consent := "standard";
     ns_version := "33333333-3333-4333-8333-333333333333"; ns_role := "tagger" |}.

Definition request_a : CacheRequest :=
  {| rq_namespace := namespace_a; rq_id := "44444444-4444-4444-8444-444444444444";
     rq_signature := checksum_digest "signature"; rq_replicate := 1; rq_epoch := 12 |}.
Definition request_b : CacheRequest :=
  {| rq_namespace := namespace_b; rq_id := "44444444-4444-4444-8444-444444444444";
     rq_signature := checksum_digest "signature"; rq_replicate := 1; rq_epoch := 12 |}.

Definition cache_calls : list cache_call :=
  [PutRaw request_a "one"; PutRaw request_b "two"; PutRaw request_a "one"; PutRaw request_a "other";
   GetRaw request_a (rq_id request_a); Revoke namespace_a; GetRaw request_a (rq_id request_a);
   GetRaw request_b (rq_id request_b); PutRaw request_a "one"].

Lemma namespaces_separated : separated (H := Checksum) [namespace_a; namespace_b].
Proof.
  assert (Hne : partition_key (H := Checksum) namespace_a ≠ partition_key (H := Checksum) namespace_b)
    by (vm_compute; discriminate).
  intros n n' Hn Hn' E. rewrite !elem_of_cons, elem_of_nil in Hn, Hn'.
  destruct Hn as [->|[->|[]]], Hn' as [->|[->|[]]]; [done|by destruct Hne|by destruct Hne|done].
Qed.

Lemma cache_refines_write_once_witness :
  observe (call_cache (H := Checksum)) new_cache cache_calls
  = [Ok None; Ok None; Ok None; Raise CacheCollisionError; Ok (Some ("one" : list N)); Ok None;
     Ok None; Ok (Some ("two" : list N)); Raise CacheRevokedError].
Proof.
  rewrite (cache_refines_write_once (H := Checksum) [namespace_a; namespace_b] cache_calls).
  - vm_compute. reflexivity.
  - exact namespaces_separated.
  - repeat constructor; try (vm_compute; reflexivity); set_solver.
Defined.
