(* ===== verification/Consensus.v ===== *)
(** * Three-replicate consensus.

    [application/tagging/consensus.py]: how three source-guarded tag runs over
    one frozen packet become candidate elements, an agreement table and, only
    when nothing is in doubt, the confirmed tags the rules engine reads.  The
    run record is that of [application/tagging/service.py], the packet that of
    [application/evidence/retrieval.py] (assembled in [Retrieval.v]).  A guarded response is an [LlmTags]
    value.  Ids and fact names of a rule pack are strings in every pack the
    loader accepts. *)
From S2P Require Import Prelude PyVal JsonCodec Decimal Values Digest RulePack Rules Reconcile Budget ResponseCache.

(* ------------------------------------------------------------------ *)
(** ** Packets and runs *)
(* ------------------------------------------------------------------ *)

(** [application/evidence/retrieval.py:131-136 EvidencePacket] *)
Record EvidencePacket : Set := { ep_payload_json : pystr; ep_sha256 : pystr }.

(** [application/tagging/service.py:152-174 TagRun] *)
Record TagRun : Set := {
  tr_request : CacheRequest;
  tr_tenant_id : pystr;
  tr_run_id : pystr;
  tr_claim_id : pystr;
  tr_packet_sha256 : pystr;
  tr_graph_sha256 : pystr;
  tr_rule_sha256 : pystr;
  tr_model_sha256 : pystr;
  tr_prompt_sha256 : pystr;
  tr_raw_response_json : option pystr;
  tr_usage : option TokenUsage;
  tr_guarded : option LlmTags;
  tr_status : pystr;
  tr_errors : list pystr;
  tr_source_scopes : list (pystr * pystr);
  tr_binding_hashes : list (pystr * pystr);
  tr_synthetic : bool;
  tr_product_variant : bool;
  tr_recovered : bool;
  tr_provider_response_json : option pystr;
  tr_diagnostic_detail : option pystr }.

(** [application/tagging/service.py:176-178 TagRun.replicate_id] *)
Definition tr_replicate (r : TagRun) : Z := rq_replicate (tr_request r).

(** [asdict] of the values a run holds. *)
Definition request_asdict (r : CacheRequest) : pyval :=
  let n := rq_namespace r in
  PDict [("namespace", PDict [("tenant_id", PStr (ns_tenant n));
                              ("consent_profile", PStr (ns_consent n));
                              ("document_version_id", PStr (ns_version n));
                              ("role", PStr (ns_role n))]);
         ("request_id", PStr (rq_id r)); ("request_signature", PStr (rq_signature r));
         ("replicate_id", PInt (rq_replicate r)); ("extraction_epoch", PInt (rq_epoch r))].

Definition opt_int (o : option Z) : pyval := match o with Some z => PInt z | None => PNone end.

Definition usage_asdict (u : TokenUsage) : pyval :=
  PDict [("input_tokens", opt_int (tu_input u)); ("output_tokens", opt_int (tu_output u));
         ("cache_read_tokens", opt_int (tu_cache_read u));
         ("cache_write_tokens", opt_int (tu_cache_write u));
         ("latency_ms", PInt (tu_latency u)); ("status", PStr (tu_status u));
         ("provider_request_id", opt_val (tu_provider_request u));
         ("error_code", opt_val (tu_error u))].

Definition pairs_val (l : list (pystr * pystr)) : pyval :=
  PTuple ((λ '(a, b), PTuple [PStr a; PStr b]) <$> l).

Definition or_none {A} (f : A → pyval) (o : option A) : pyval :=
  match o with Some x => f x | None => PNone end.

(** What a run's hash covers: all of it but [recovered], and the diagnostic
    detail only when there is one.
    [application/tagging/service.py:180-186 TagRun.semantic_hash] *)
Definition run_asdict (r : TagRun) : pydict :=
  [("request", request_asdict (tr_request r)); ("tenant_id", PStr (tr_tenant_id r));
   ("run_id", PStr (tr_run_id r)); ("claim_id", PStr (tr_claim_id r));
   ("packet_sha256", PStr (tr_packet_sha256 r)); ("graph_sha256", PStr (tr_graph_sha256 r));
   ("rule_sha256", PStr (tr_rule_sha256 r)); ("model_sha256", PStr (tr_model_sha256 r));
   ("prompt_sha256", PStr (tr_prompt_sha256 r));
   ("raw_response_json", opt_val (tr_raw_response_json r));
   ("usage", or_none usage_asdict (tr_usage r)); ("guarded", or_none llm_tags_val (tr_guarded r));
   ("status", PStr (tr_status r)); ("errors", strs_tuple (tr_errors r));
   ("source_scopes", pairs_val (tr_source_scopes r));
   ("binding_hashes", pairs_val (tr_binding_hashes r));
   ("synthetic", PBool (tr_synthetic r)); ("product_variant", PBool (tr_product_variant r));
   ("provider_response_json", opt_val (tr_provider_response_json r))]
  ++ match tr_diagnostic_detail r with Some d => [("diagnostic_detail", PStr d)] | None => [] end.

Section packets.
Context `{Digest}.

(** [application/evidence/retrieval.py:138-140 EvidencePacket.__post_init__] *)
Definition mk_EvidencePacket (p : EvidencePacket) : result EvidencePacket :=
  v ← json_loads (ep_payload_json p);
  h ← canonical_hash v;
  _ ← require (h =s? ep_sha256 p) DomainValidationError;
  Ok p.

(** [application/evidence/retrieval.py:142-143 EvidencePacket.to_dict] *)
Definition to_dict (p : EvidencePacket) : result pydict :=
  v ← json_loads (ep_payload_json p);
  d ← as_dict TypeError v;
  Ok (dict_set "packet_sha256" (PStr (ep_sha256 p)) d).

(** [application/tagging/service.py:180-186 TagRun.semantic_hash] *)
Definition semantic_hash (r : TagRun) : result pystr := canonical_hash (PDict (run_asdict r)).
End packets.

(* ------------------------------------------------------------------ *)
(** ** Profiles *)
(* ------------------------------------------------------------------ *)

Definition STRICT : pystr := "strict-v1".
Definition PARTIAL_FACTS_V2 : pystr := "partial-facts-v2".
Definition UNANIMITY_V2 : pystr := "grade-relevant-unanimity-v2".
Definition UNANIMITY_V3 : pystr := "grade-relevant-unanimity-v3".

(** The keys of [PARTIAL_FACTS_PROFILES].
    [application/tagging/consensus.py:42-48 PARTIAL_FACTS_PROFILES] *)
Definition PARTIAL_FACTS_PROFILES : list pystr :=
  ["partial-facts-v1"; PARTIAL_FACTS_V2; "grade-relevant-unanimity-v1"; UNANIMITY_V2; UNANIMITY_V3].

(** The decision to publish and the candidate grade.
    [application/tagging/consensus.py:51-59 reviewable_decision] *)
Definition reviewable_decision (decision : option Decision) (profile review_status : pystr)
    : option Decision * option pystr :=
  match decision with
  | Some d =>
      if (d_decision_status d =s? "decided")
         && (str_in profile PARTIAL_FACTS_PROFILES || negb (review_status =s? "auto_confirmed"))
      then (None, d_evidence_grade d) else (decision, None)
  | None => (decision, None)
  end.

(** [x.get(k)] of a mapping; any other value has no [get]. *)
Definition get_of (v : pyval) (k : pystr) : result pyval :=
  d ← as_dict AttributeError v; Ok (get_or_none d k).

(** [v or {}] *)
Definition or_empty (v : pyval) : pyval := if truthy v then v else PDict [].

Definition hashable (v : pyval) : result unit :=
  match v with PList _ | PDict _ => Raise TypeError | _ => Ok tt end.

(** [application/tagging/consensus.py:71-75 reviewable_checkpoint] *)
Definition was_reviewed (status origin : pyval) : bool :=
  eq_str status "human_confirmed" && eq_str origin "human"
  || eq_str status "ai_delegated_confirmed" && eq_str origin "ai_delegated".

(** The item is changed in place and returned.
    [application/tagging/consensus.py:62-86 reviewable_checkpoint] *)
Definition reviewable_checkpoint (item : pydict) (pinned_profile : option pystr)
    : result pydict :=
  let decision := get_or_none item "decision" in
  decided ← (if truthy decision then s ← get_of decision "decision_status"; Ok (eq_str s "decided")
             else Ok false);
  if negb (eq_str (get_or_none item "status") "completed") && negb decided then Ok item
  else
    let inputs := or_empty (get_or_none item "review_inputs") in
    assembly ← get_of inputs "fact_assembly";
    assembly ← as_dict AttributeError (or_empty assembly);
    let profile := default (PStr STRICT) (dict_get "profile" assembly) in
    consensus ← get_of inputs "consensus";
    status ← get_of (or_empty consensus) "review_status";
    origin ← get_of inputs "review_origin";
    _ ← hashable status;
    _ ← hashable origin;
    if was_reviewed status origin then Ok item
    else
      _ ← hashable profile;
      if existsb (eq_str profile) PARTIAL_FACTS_PROFILES
         || match pinned_profile with Some p => str_in p PARTIAL_FACTS_PROFILES | None => false end
         || negb (eq_str status "auto_confirmed")
      then
        let item := dict_set "reason" (PStr "PARTIAL_FACTS_REVIEW_REQUIRED")
                      (dict_set "status" (PStr "needs_review") item) in
        if decided then
          grade ← get_of decision "evidence_grade";
          Ok (dict_set "decision" PNone (dict_set "candidate_grade" grade item))
        else Ok item
      else Ok item.

(* ------------------------------------------------------------------ *)
(** ** Votes *)
(* ------------------------------------------------------------------ *)

(** [application/tagging/consensus.py:89-96 ConsensusResult] *)
Record ConsensusResult : Set := {
  cr_candidates : list LlmElement;
  cr_agreement : list (pystr * Z);
  cr_review_status : pystr;
  cr_confirmed : option ConfirmedTags;
  cr_reasons : list pystr;
  cr_hashes : list pystr }.

(** [dict(pairs).get(k)] *)
Definition assoc (pairs : list (pystr * pystr)) (k : pystr) : option pystr :=
  dict_get k (dict_of pairs).

(** [tuple(dict.fromkeys(ref for e in elements for ref in e.evidence_refs))] *)
Definition merged_refs (es : list LlmElement) : list SourceRef :=
  dedup ref_eqb (es ≫= evidence_refs).

(** The guard of an element rebuilt by [replace].
    [domain/values.py:187-200 LlmElement.__post_init__] *)
Definition rebuild_element (e : LlmElement) : result LlmElement :=
  _ ← require (nonempty (element_id e)) DomainValidationError;
  _ ← reject (bool_decide (state e = Present) && (py_len (evidence_refs e) =? 0)%Z)
        DomainValidationError;
  Ok e.

Definition guarded_runs (ordered : list TagRun) : list (TagRun * LlmTags) :=
  omap (λ r, pair r <$> tr_guarded r) ordered.

(** The source scope an element is credited with.
    [application/tagging/consensus.py:232-245 form_consensus] *)
Definition element_scope (ordered : list TagRun) (id : pystr) : pystr :=
  let scopes := (λ rg : TagRun * LlmTags, assoc (tr_source_scopes rg.1) id) <$> guarded_runs ordered in
  default "local_claim"
    (find (λ s, existsb (λ o, bool_decide (o = Some s)) scopes)
       [QT1_SOURCE_SCOPE; "global_bound"; "same_table"; "local_claim"]).

(** [(track, safe_harbor_category, superlative_quote)] *)
Definition header : Set := Track * option pystr * option pystr.

(** The distinct headers of the guarded runs.
    [application/tagging/consensus.py:196-200 form_consensus] *)
Definition headers_of (ordered : list TagRun) : list header :=
  dedup (λ a b : header, bool_decide (a = b))
    ((λ rg : TagRun * LlmTags, (track rg.2, safe_harbor_category rg.2, superlative_quote rg.2))
       <$> guarded_runs ordered).

(** The truthy provider request ids. [application/tagging/consensus.py:189-191 form_consensus] *)
Definition provider_ids (ordered : list TagRun) : list pystr :=
  List.filter nonempty (omap (λ r, tr_usage r ≫= tu_provider_request) ordered).

(** [o == v] of an optional string and a packet value. *)
Definition opt_eq (o : option pystr) (v : pyval) : bool :=
  match o, v with None, PNone => true | Some s, PStr t => s =s? t | _, _ => false end.

Definition header_matches (t : Track) (category : pyval) (h : header) : bool :=
  bool_decide (h.1.1 = t) && opt_eq h.1.2 category.

Definition names_of (t : Track) (id : pystr) : option (list pystr) := dict_get id (MAPPINGS t).

(** The facts of a credited element.
    [application/tagging/consensus.py:253-266 form_consensus] *)
Definition present_facts (tenant scope : pystr) (refs : list SourceRef) (value : option pystr)
    (names : list pystr) : result (list ConfirmedFact) :=
  map_result (λ name, mk_ConfirmedFact
    {| f_name := name; f_state := Stated Present; f_evidence_refs := refs;
       f_source_tenant_id := Some tenant; f_citation_verified := true; f_binding_accepted := true;
       f_search_coverage_verified := false; f_source_scope := scope;
       f_normalized_value := value |}) names.

(** [ConfirmedFact(name, state)] *)
Definition plain_fact (st : ElementState) (name : pystr) : result ConfirmedFact :=
  mk_ConfirmedFact
    {| f_name := name; f_state := Stated st; f_evidence_refs := []; f_source_tenant_id := None;
       f_citation_verified := false; f_binding_accepted := false;
       f_search_coverage_verified := false; f_source_scope := "local_claim";
       f_normalized_value := None |}.

(* ------------------------------------------------------------------ *)
(** ** The strict profile *)
(* ------------------------------------------------------------------ *)

Definition vote_key : Set := ElementState * option pystr * option pystr.

Definition key_eqb (a b : vote_key) : bool := bool_decide (a = b).

Definition run_key (r : TagRun) (id : pystr) (e : LlmElement) : vote_key :=
  (state e, normalized_value e, assoc (tr_binding_hashes r) id).

(** [application/tagging/consensus.py:209-219 form_consensus] *)
Definition votes_of (ordered : list TagRun) (id : pystr) : list (vote_key * LlmElement) :=
  guarded_runs ordered ≫= λ rg : TagRun * LlmTags,
    (λ e, (run_key rg.1 id e, e)) <$> List.filter (λ e, element_id e =s? id) (elements rg.2).

Definition key_count (keys : list vote_key) (k : vote_key) : Z :=
  py_len (List.filter (key_eqb k) keys).

(** [Counter(keys).most_common(1)]: the first key of the highest count.
    [application/tagging/consensus.py:220-222 form_consensus] *)
Definition most_common (keys : list vote_key) : option (vote_key * Z) :=
  match dedup key_eqb keys with
  | [] => None
  | k :: ks =>
      let best := foldl (λ b k, if (key_count keys b <? key_count keys k)%Z then k else b) k ks in
      Some (best, key_count keys best)
  end.

(** What the loop over the requested elements accumulates. *)
Record tally : Set := {
  ta_candidates : list LlmElement; ta_agreement : list (pystr * Z);
  ta_facts : list ConfirmedFact; ta_reasons : list pystr }.

Definition add_reason (t : tally) (reason : pystr) : tally :=
  {| ta_candidates := ta_candidates t; ta_agreement := ta_agreement t; ta_facts := ta_facts t;
     ta_reasons := ta_reasons t ++ [reason] |}.

Definition add_facts (t : tally) (facts : list ConfirmedFact) : tally :=
  {| ta_candidates := ta_candidates t; ta_agreement := ta_agreement t;
     ta_facts := ta_facts t ++ facts; ta_reasons := ta_reasons t |}.

(** The facts of a candidate on the agreed track.
    [application/tagging/consensus.py:248-269 form_consensus] *)
Definition credit (ordered : list TagRun) (tenant id : pystr) (candidate : LlmElement)
    (agreed : option Track) (t : tally) : result tally :=
  match agreed with
  | None => Ok t
  | Some track =>
      match names_of track id with
      | None => Ok (add_reason t ("ELEMENT_TRACK_MISMATCH:" ++ id))
      | Some names =>
          facts ← (if bool_decide (state candidate = Present)
                   then present_facts tenant (element_scope ordered id) (evidence_refs candidate)
                          (normalized_value candidate) names
                   else map_result (plain_fact (state candidate)) names);
          Ok (add_facts t facts)
      end
  end.

(** One requested element. [application/tagging/consensus.py:208-269 form_consensus] *)
Definition strict_element (ordered : list TagRun) (tenant : pystr) (agreed : option Track)
    (t : tally) (id : pystr) : result tally :=
  let votes := votes_of ordered id in
  let common := most_common votes.*1 in
  let count := match common with Some (_, n) => n | None => 0%Z end in
  let t := {| ta_candidates := ta_candidates t; ta_agreement := ta_agreement t ++ [(id, count)];
              ta_facts := ta_facts t; ta_reasons := ta_reasons t |} in
  match common with
  | Some (key, _) =>
      if (count <? 2)%Z then Ok (add_reason t ("NO_MAJORITY:" ++ id))
      else
        let winners := (List.filter (λ v : vote_key * LlmElement, key_eqb v.1 key) votes).*2 in
        first ← of_option IndexError (head winners);
        candidate ← rebuild_element
          {| element_id := element_id first; state := state first;
             evidence_refs := merged_refs winners; normalized_value := normalized_value first;
             credited_from := credited_from first; reason_code := reason_code first |};
        let t := {| ta_candidates := ta_candidates t ++ [candidate];
                    ta_agreement := ta_agreement t; ta_facts := ta_facts t;
                    ta_reasons := ta_reasons t |} in
        let t := if negb (count =? 3)%Z || bool_decide (state candidate ∈ [Unknown; Conflict])
                 then add_reason t ("REVIEW:" ++ id) else t in
        credit ordered tenant id candidate agreed t
  | None => Ok (add_reason t ("NO_MAJORITY:" ++ id))
  end.

Section consensus.
Context `{Digest}.

(** The guarded tags, the packet and the request a confirmed revision records.
    [application/tagging/consensus.py:463-479 _partial_facts] *)
Definition consensus_tags (ordered : list TagRun) (data : pydict) (p : EvidencePacket)
    (pack : RulePackSnapshot) (tenant : pystr) (revision : Z) (h : header)
    (facts : list ConfirmedFact) (hashes : list pystr) : result ConfirmedTags :=
  first ← of_option IndexError (head ordered);
  version ← field data "document_version_id";
  claim ← field data "claim_id";
  version ← as_str DomainValidationError version;
  claim ← as_str DomainValidationError claim;
  mk_ConfirmedTags
    {| t_tenant_id := tenant; t_document_version_id := version; t_claim_id := claim;
       t_track := h.1.1; t_facts := facts; t_tag_revision := revision;
       t_packet_sha256 := ep_sha256 p; t_model_sha256 := tr_model_sha256 first;
       t_prompt_sha256 := tr_prompt_sha256 first; t_replicate_hashes := hashes;
       t_ontology_version := ontology_version pack; t_safe_harbor_category := h.1.2;
       t_superlative_quote := h.2; t_product_variant := tr_product_variant first |}.

(** The doubts that concern the runs as a whole, after the gaps of the pack.
    [application/tagging/consensus.py:188-206 form_consensus] *)
Definition run_reasons (ordered : list TagRun) (selected : Track) (category : pyval)
    (gaps : list pystr) : list pystr :=
  let headers := headers_of ordered in
  gaps
  ++ (if str_distinct (provider_ids ordered) then [] else ["PROVIDER_RESPONSE_REPLAY"])
  ++ (if existsb (λ r, negb (tr_status r =s? "succeeded") || nonempty_list (tr_errors r)
                       || bool_decide (tr_guarded r = None)) ordered
      then ["REPLICA_UNRESOLVED"] else [])
  ++ (if Nat.eqb (length headers) 1 then [] else ["TRACK_CATEGORY_SUPERLATIVE_DISAGREEMENT"])
  ++ (if existsb (λ h, negb (header_matches selected category h)) headers
      then ["PACKET_TRACK_MISMATCH"] else []).

(** [application/tagging/consensus.py:188-298 form_consensus] *)
Definition strict_consensus (ordered : list TagRun) (data : pydict) (p : EvidencePacket)
    (pack : RulePackSnapshot) (tenant : pystr) (revision : Z) (gaps : list pystr)
    (selected : Track) (requested : list pystr) : result ConsensusResult :=
  let agreed := match headers_of ordered with [h] => Some h | _ => None end in
  t ← fold_result (strict_element ordered tenant ((λ h : header, h.1.1) <$> agreed))
        {| ta_candidates := []; ta_agreement := []; ta_facts := [];
           ta_reasons := run_reasons ordered selected (get_or_none data "safe_harbor_category") gaps |}
        requested;
  hashes ← map_result semantic_hash ordered;
  confirmed ← match agreed with
              | Some h =>
                  if nonempty_list (ta_reasons t) then Ok None
                  else tags ← consensus_tags ordered data p pack tenant revision h (ta_facts t) hashes;
                       Ok (Some tags)
              | None => Ok None
              end;
  Ok {| cr_candidates := ta_candidates t; cr_agreement := ta_agreement t;
        cr_review_status := if (confirmed : option ConfirmedTags) then "auto_confirmed"
                            else "needs_review";
        cr_confirmed := confirmed; cr_reasons := str_set_sorted (ta_reasons t);
        cr_hashes := hashes |}.

(* ------------------------------------------------------------------ *)
(** ** The partial-fact profiles *)
(* ------------------------------------------------------------------ *)

(** [application/tagging/consensus.py:175-187 form_consensus] *)
Record policy : Set := {
  citation_unavailable : bool; preserve_conflict : bool; preserve_surviving_conflict : bool }.

Definition policy_of (profile : pystr) : policy :=
  {| citation_unavailable := profile =s? PARTIAL_FACTS_V2;
     preserve_conflict := (profile =s? UNANIMITY_V2) || (profile =s? UNANIMITY_V3);
     preserve_surviving_conflict := profile =s? UNANIMITY_V3 |}.

(** An error that makes the whole assembly unsafe.
    [application/tagging/consensus.py:321-338 _partial_facts] *)
Definition fatal_error (pol : policy) (r : TagRun) (error : pystr) : bool :=
  negb (error =s? "DETERMINISTIC_CHECK_REQUIRED:P6")
  && negb (starts_with "UNRESOLVED:" error)
  && negb (bool_decide (tr_guarded r = None)
           && (str_in error ["MODEL_UNAVAILABLE"; "BUDGET_EXHAUSTED"; "TAGGING_INPUT_COUNT_INVALID"]
               || citation_unavailable pol && (tr_status r =s? "citation_unresolved")
                  && starts_with "TAGGING_EVIDENCE_ID_" error)).

(** [application/tagging/consensus.py:342-347 _partial_facts] *)
Definition unsafe (pol : policy) (ordered : list TagRun) (selected : Track) (category : pyval) : bool :=
  match headers_of ordered with
  | [h] => negb (header_matches selected category h)
  | _ => true
  end
  || negb (str_distinct (provider_ids ordered))
  || existsb (λ r, existsb (fatal_error pol r) (tr_errors r)) ordered.

Definition partial_key : Set := ElementState * option pystr * option pystr * option pystr.

(** A run's vote on an element.
    [application/tagging/consensus.py:352-357 _partial_facts] *)
Definition vote_of (r : TagRun) (id : pystr) : option LlmElement :=
  tr_guarded r ≫= λ g, find (λ e, element_id e =s? id) (elements g).

(** What must be equal across the runs.
    [application/tagging/consensus.py:358-368 _partial_facts] *)
Definition partial_key_of (id : pystr) (r : TagRun) : option partial_key :=
  (λ e, (state e, normalized_value e, assoc (tr_binding_hashes r) id, assoc (tr_source_scopes r) id))
    <$> vote_of r id.

(** [application/tagging/consensus.py:369-371 _partial_facts] *)
Definition partial_agreement (keys : list (option partial_key)) : Z :=
  foldr (λ k n, if bool_decide (k = None) then n
                else Z.max (py_len (List.filter (λ k', bool_decide (k' = k)) keys)) n) 0%Z keys.

Definition votes_verified (votes : list (option LlmElement)) : bool :=
  forallb (λ v : option LlmElement, match v with
            | Some e => forallb (λ r, bool_decide (verification_state r = Verified)) (evidence_refs e)
            | None => false end) votes.

(** The state an element is assembled in.
    [application/tagging/consensus.py:372-390 _partial_facts] *)
Definition assembled_state (pol : policy) (votes : list (option LlmElement))
    (keys : list (option partial_key)) : ElementState :=
  let valid := dedup (λ a b : partial_key, bool_decide (a = b)) (omap id keys) in
  let says (s : ElementState) (v : option LlmElement) : bool := bool_decide (state <$> v = Some s) in
  let first := default None (head votes) in
  if (1 <? py_len valid)%Z then Conflict
  else if preserve_surviving_conflict pol && existsb (says Conflict) votes then Conflict
  else if existsb (λ k, bool_decide (k = None)) keys then Unknown
  else if says Present first
          && forallb (λ k : partial_key, negb (bool_decide (k.1.2 = None))) (omap id keys)
          && votes_verified votes then Present
  else if says Unknown first then Unknown
  else if preserve_conflict pol && says Conflict first then Conflict
  else Unknown.

(** [application/tagging/consensus.py:391-407 _partial_facts] *)
Definition assembled_element (id : pystr) (st : ElementState) (refs : list SourceRef)
    (base : option LlmElement) : result LlmElement :=
  let credited := bool_decide (st = Present) in
  match base with
  | Some b =>
      rebuild_element
        {| element_id := element_id b; state := st; evidence_refs := refs;
           normalized_value := if credited then normalized_value b else None;
           credited_from := if credited then credited_from b else None;
           reason_code := reason_code b |}
  | None =>
      rebuild_element
        {| element_id := id; state := Unknown; evidence_refs := []; normalized_value := None;
           credited_from := None; reason_code := Some "UNSEARCHED" |}
  end.

(** One allowed element. [application/tagging/consensus.py:351-438 _partial_facts] *)
Definition partial_element (pol : policy) (ordered : list TagRun) (tenant : pystr) (track : Track)
    (t : tally) (id : pystr) : result tally :=
  let votes := (λ r, vote_of r id) <$> ordered in
  let keys := partial_key_of id <$> ordered in
  let st := assembled_state pol votes keys in
  let cast := omap (λ v : option LlmElement, v) votes in
  let refs := if bool_decide (st = Present) then merged_refs cast else [] in
  element ← assembled_element id st refs (head cast);
  names ← of_option KeyError (names_of track id);
  facts ← (if bool_decide (st = Present)
           then present_facts tenant (element_scope ordered id) refs
                  (head cast ≫= normalized_value) names
           else map_result (plain_fact st) names);
  Ok {| ta_candidates := ta_candidates t ++ [element];
        ta_agreement := ta_agreement t ++ [(id, partial_agreement keys)];
        ta_facts := ta_facts t ++ facts;
        ta_reasons := ta_reasons t ++ (if bool_decide (st = Present) then [] else ["REVIEW:" ++ id]) |}.

(** [e["id"]] when it is an element of the track. *)
Definition catalog_id (t : Track) (e : pyval) : result (option pystr) :=
  i ← getitem "id" e; _ ← hashable i; Ok (find (eq_str i) (MAPPINGS t).*1).

(** The conditional fact of a catalog entry of the track.
    [application/tagging/consensus.py:443-445 _partial_facts] *)
Definition trigger_of (t : Track) (e : pyval) : result (list pystr) :=
  i ← catalog_id t e;
  match i with
  | Some _ => trigger ← get_of e "trigger";
              if truthy trigger then s ← as_str TypeError trigger; Ok [s] else Ok []
  | None => Ok []
  end.

(** The facts a branch of the ladder tests.
    [application/tagging/consensus.py:446-448 _partial_facts] *)
Definition tested_names (branch : pyval) : result (list pystr) :=
  d ← as_dict AttributeError branch;
  conditions ← py_iter (default (PDict []) (dict_get "when" d));
  names ← py_iter (default (PTuple []) (dict_get "require_all" d));
  map_result (as_str TypeError) (conditions ++ names).

(** [application/tagging/consensus.py:442-451 _partial_facts] *)
Definition required_names (t : Track) (pack : RulePackSnapshot) : result (list pystr) :=
  file ← file_content pack "rubric/elements.yaml";
  definitions ← of_option KeyError (dict_get "elements" file);
  definitions ← py_iter definitions;
  triggers ← map_result (trigger_of t) definitions;
  rubric ← file_content pack ("rubric/" ++ track_str t ++ ".yaml");
  branches ← of_option KeyError (dict_get "branches" rubric);
  branches ← py_iter branches;
  tested ← map_result tested_names branches;
  Ok (List.filter (λ n, negb (n =s? "exception_applies")) (concat triggers ++ concat tested)
      ++ match t with Goal_ => ["target_metric"; "transition_plan"] | _ => [] end).

(** [application/tagging/consensus.py:301-482 _partial_facts] *)
Definition partial_facts (pol : policy) (ordered : list TagRun) (data : pydict) (p : EvidencePacket)
    (pack : RulePackSnapshot) (tenant : pystr) (revision : Z) (gaps : list pystr)
    (selected : Track) (allowed : list pystr) : result ConsensusResult :=
  hashes ← map_result semantic_hash ordered;
  let review elements agreement tags reasons :=
    {| cr_candidates := elements; cr_agreement := agreement; cr_review_status := "needs_review";
       cr_confirmed := tags; cr_reasons := reasons; cr_hashes := hashes |} in
  if unsafe pol ordered selected (get_or_none data "safe_harbor_category")
  then Ok (review [] [] None ["PARTIAL_FACTS_UNSAFE"])
  else
    h ← of_option IndexError (head (headers_of ordered));
    t ← fold_result (partial_element pol ordered tenant (h : header).1.1)
          {| ta_candidates := []; ta_agreement := []; ta_facts := []; ta_reasons := gaps |} allowed;
    required ← required_names h.1.1 pack;
    let observed := f_name <$> ta_facts t in
    missing ← map_result (plain_fact Unknown)
                (List.filter (λ n, negb (str_in n observed)) (str_set_sorted required));
    if forallb (λ e, bool_decide (state e = Present)) (ta_candidates t)
    then Ok (review (ta_candidates t) (ta_agreement t) None ["PARTIAL_FACTS_REVIEW_REQUIRED"])
    else
      tags ← consensus_tags ordered data p pack tenant revision h (ta_facts t ++ missing) hashes;
      Ok (review (ta_candidates t) (ta_agreement t) (Some tags) (str_set_sorted (ta_reasons t))).

(* ------------------------------------------------------------------ *)
(** ** The entry point *)
(* ------------------------------------------------------------------ *)

(** [v in MAPPINGS] and the track it names. *)
Definition in_mappings (v : pyval) : result (option Track) :=
  _ ← hashable v; Ok (find (λ t, eq_str v (track_str t)) TRACKS).

(** The ids of the catalog that belong to the track, in catalog order.
    [application/tagging/consensus.py:124-128 form_consensus] *)
Definition catalog_ids (pack : RulePackSnapshot) (t : Track) : result (list pystr) :=
  file ← file_content pack "rubric/elements.yaml";
  els ← of_option KeyError (dict_get "elements" file);
  els ← py_iter els;
  ids ← map_result (catalog_id t) els;
  Ok (omap (λ o : option pystr, o) (ids : list (option pystr))).

(** [v == strings] *)
Definition eq_strs (v : pyval) (l : list pystr) : bool :=
  match v with
  | PList vs => Nat.eqb (length vs) (length l) && forallb (λ '(v, s), eq_str v s) (zip vs l)
  | _ => false
  end.

(** The track and the requested elements of a complete frozen packet.
    [application/tagging/consensus.py:119-131 form_consensus] *)
Definition check_packet (data : pydict) (pack : RulePackSnapshot) : result (Track * list pystr) :=
  _ ← require (str_in "retrieval_packet_sha256" (dict_keys data)) DomainValidationError;
  selected ← in_mappings (get_or_none data "track");
  selected ← of_option DomainValidationError selected;
  requested ← field data "allowed_elements";
  ids ← catalog_ids pack selected;
  _ ← require (eq_strs requested ids) DomainValidationError;
  _ ← require (set_eqb ids (MAPPINGS selected).*1) DomainValidationError;
  Ok (selected, ids).

(** [application/tagging/consensus.py:137-159 form_consensus] *)
Definition check_run (data : pydict) (p : EvidencePacket) (pack : RulePackSnapshot)
    (tenant : pystr) (r : TagRun) : result unit :=
  claim ← field data "claim_id";
  run ← field data "run_id";
  graph ← field data "graph_sha256";
  _ ← require ((tr_tenant_id r =s? tenant) && eq_str claim (tr_claim_id r)
               && eq_str run (tr_run_id r) && (tr_packet_sha256 r =s? ep_sha256 p)
               && eq_str graph (tr_graph_sha256 r) && (tr_rule_sha256 r =s? sha256 pack))
        DomainValidationError;
  match tr_guarded r with
  | Some g => require ((replicate_id g =? tr_replicate r)%Z
                       && (packet_sha256 g =s? tr_packet_sha256 r)
                       && (claim_id g =s? tr_claim_id r)) DomainValidationError
  | None => Ok tt
  end.

(** [application/tagging/consensus.py:165-174 form_consensus] *)
Definition same_settings (ordered : list TagRun) : bool :=
  Nat.eqb 1 (length (dedup (λ a b : pystr * pystr * Z * bool, bool_decide (a = b))
    ((λ r, (tr_model_sha256 r, tr_prompt_sha256 r, rq_epoch (tr_request r), tr_product_variant r))
       <$> ordered))).

(** [tuple(sorted(runs, key=lambda r: r.replicate_id))] *)
Definition sort_runs : list TagRun → list TagRun :=
  isort (λ a b, (tr_replicate a <=? tr_replicate b)%Z).

(** One run for each of the three replicates.
    [application/tagging/consensus.py:132-133 form_consensus] *)
Definition one_per_replicate (runs : list TagRun) : bool :=
  Nat.eqb (length runs) 3
  && forallb (λ z, existsb (Z.eqb z) (tr_replicate <$> runs)) [1; 2; 3]%Z
  && forallb (λ z, existsb (Z.eqb z) [1; 2; 3]%Z) (tr_replicate <$> runs).

(** [application/tagging/consensus.py:99-187 form_consensus] *)
Definition form_consensus (runs : list TagRun) (p : EvidencePacket) (pack : RulePackSnapshot)
    (tenant : pystr) (revision : Z) (gaps : list pystr) (profile : pystr) : result ConsensusResult :=
  data ← to_dict p;
  _ ← require ((profile =s? STRICT) || str_in profile PARTIAL_FACTS_PROFILES) DomainValidationError;
  '(selected, requested) ← check_packet data pack;
  _ ← require (one_per_replicate runs) DomainValidationError;
  let ordered := sort_runs runs in
  packet_tenant ← field data "tenant_id";
  _ ← require (eq_str packet_tenant tenant && (RulePack.tenant_id pack =s? tenant))
        DomainValidationError;
  _ ← each (check_run data p pack tenant) ordered;
  _ ← require (str_distinct ((λ r, rq_id (tr_request r)) <$> ordered)
               && str_distinct ((λ r, rq_signature (tr_request r)) <$> ordered)) DomainValidationError;
  _ ← require (same_settings ordered) DomainValidationError;
  if str_in profile PARTIAL_FACTS_PROFILES
  then partial_facts (policy_of profile) ordered data p pack tenant revision gaps selected requested
  else strict_consensus ordered data p pack tenant revision gaps selected requested.
End consensus.
