(* ===== verification/ConsensusSpec.v ===== *)
(** * What a consensus promises.

    A grade is published only on unanimous guarded votes; the partial-fact
    profiles never confirm and never attest absence; the result does not
    depend on the order the replicas finish in; and the tags handed to the
    rules engine are values its constructor accepts, bound to the packet. *)
From S2P Require Import Prelude PyVal JsonCodec Decimal Values Digest RulePack Rules RulesSpec Reconcile Budget ResponseCache Consensus.

(* ------------------------------------------------------------------ *)
(** ** Lists *)
(* ------------------------------------------------------------------ *)

Lemma dedup_from_subset {A} (eqb : A → A → bool) seen l x : x ∈ dedup_from eqb seen l → x ∈ l.
Proof.
  revert seen. induction l as [|y l IH]; intros seen; cbn; [done|].
  destruct (existsb _ seen).
  - intros Hx. right. by apply (IH seen).
  - intros [->|Hx]%elem_of_cons; [left|right; by apply (IH (y :: seen))].
Qed.

Lemma elem_of_merged_refs es x : x ∈ merged_refs es → ∃ e, e ∈ es ∧ x ∈ evidence_refs e.
Proof.
  intros (e & Hx & He)%dedup_from_subset%list_elem_of_bind. by exists e.
Qed.

Lemma elem_of_bool_dedup {A} `{EqDecision A} (l : list A) x :
  x ∈ dedup (λ a b, bool_decide (a = b)) l ↔ x ∈ l.
Proof. apply elem_of_dedup. intros. apply bool_decide_eq_true. Qed.

Lemma elem_of_concat {A} (ls : list (list A)) x : x ∈ concat ls ↔ ∃ l, x ∈ l ∧ l ∈ ls.
Proof.
  rewrite list_elem_of_In, in_concat. setoid_rewrite <- list_elem_of_In. naive_solver.
Qed.

Lemma isort_StronglySorted_runs l :
  StronglySorted (λ a b, (tr_replicate a <=? tr_replicate b)%Z = true) (sort_runs l).
Proof. apply isort_sorted; intros; lia. Qed.

(* ------------------------------------------------------------------ *)
(** ** One run per replicate *)
(* ------------------------------------------------------------------ *)

Lemma elem_of_sort_runs l x : x ∈ sort_runs l ↔ x ∈ l.
Proof. apply elem_of_isort. Qed.

Lemma existsb_Zeqb z l : existsb (Z.eqb z) l = true ↔ z ∈ l.
Proof. apply existsb_eqb_iff. intros. apply Z.eqb_eq. Qed.

Lemma sort_runs_spec l : one_per_replicate l = true →
  ∃ a b c, sort_runs l = [a; b; c] ∧ tr_replicate a = 1%Z ∧ tr_replicate b = 2%Z
           ∧ tr_replicate c = 3%Z.
Proof.
  unfold one_per_replicate. intros [[Hl%Nat.eqb_eq Hall]%andb_true_iff Hin]%andb_true_iff.
  pose proof (isort_perm (λ a b, (tr_replicate a <=? tr_replicate b)%Z) l) as Hp.
  change (isort _ l) with (sort_runs l) in Hp.
  pose proof (Permutation_length Hp) as Hlen. rewrite Hl in Hlen.
  pose proof (isort_StronglySorted_runs l) as Hs.
  assert (Hz : ∀ z, z ∈ [1; 2; 3]%Z → z ∈ tr_replicate <$> sort_runs l).
  { intros z Hz. rewrite Hp. rewrite forallb_forall in Hall.
    by apply existsb_Zeqb, Hall, list_elem_of_In. }
  destruct (sort_runs l) as [|a [|b [|c [|]]]]; try discriminate Hlen.
  exists a, b, c. split; [done|].
  inversion Hs as [|?? Hs1 Ha]; subst. inversion Hs1 as [|?? Hs2 Hb]; subst.
  apply Forall_cons in Ha as [Hab Ha]. apply Forall_cons in Ha as [Hac _].
  apply Forall_cons in Hb as [Hbc _].
  pose proof (Hz 1%Z ltac:(set_solver)) as H1. pose proof (Hz 2%Z ltac:(set_solver)) as H2.
  pose proof (Hz 3%Z ltac:(set_solver)) as H3. rewrite !fmap_cons, !elem_of_cons in H1, H2, H3.
  cbn in H1, H2, H3. rewrite elem_of_nil in H1, H2, H3. str_prop. lia.
Qed.

Lemma one_per_replicate_perm l k : l ≡ₚ k → one_per_replicate l = one_per_replicate k.
Proof.
  intros Hp. unfold one_per_replicate. rewrite (Permutation_length Hp). f_equal; [f_equal|].
  - apply eq_true_iff_eq. rewrite !forallb_forall.
    setoid_rewrite existsb_Zeqb. by setoid_rewrite Hp.
  - apply eq_true_iff_eq. rewrite !forallb_forall.
    setoid_rewrite <- list_elem_of_In. by setoid_rewrite Hp.
Qed.

Lemma sort_runs_perm l k : one_per_replicate l = true → l ≡ₚ k → sort_runs l = sort_runs k.
Proof.
  intros Ho Hp. pose proof Ho as Ho'. rewrite (one_per_replicate_perm l k Hp) in Ho'.
  destruct (sort_runs_spec l Ho) as (a & b & c & Hl & Ha & Hb & Hc).
  destruct (sort_runs_spec k Ho') as (a' & b' & c' & Hk & Ha' & Hb' & Hc').
  assert (Hin : ∀ x, x ∈ [a; b; c] → x ∈ [a'; b'; c']).
  { intros x. rewrite <- Hl, <- Hk, !elem_of_sort_runs. by rewrite Hp. }
  rewrite Hl, Hk.
  assert (Hx : ∀ x y, x ∈ [a; b; c] → y ∈ [a'; b'; c'] → tr_replicate x = tr_replicate y → x = y).
  { intros x y Hx Hy E. apply Hin in Hx. rewrite !elem_of_cons, elem_of_nil in Hx, Hy.
    destruct Hx as [->|[->|[->|[]]]], Hy as [->|[->|[->|[]]]]; try done; exfalso; lia. }
  rewrite (Hx a a'), (Hx b b'), (Hx c c'); [done|try congruence; set_solver..].
Qed.

(** The order in which the replicas finish is irrelevant: any permutation of the runs gives
    the same result, the same confirmed tags with the same fact order, and the same refusal. *)
Theorem consensus_order_irrelevant `{Digest} runs runs' p pack tenant revision gaps profile :
  runs ≡ₚ runs' →
  form_consensus runs p pack tenant revision gaps profile
  = form_consensus runs' p pack tenant revision gaps profile.
Proof.
  intros Hp. unfold form_consensus. rewrite (one_per_replicate_perm runs runs' Hp).
  destruct (to_dict p) as [data|]; [|done]. cbn [mbind result_bind].
  destruct (require (_ || _) _); [|done]. cbn [mbind result_bind].
  destruct (check_packet data pack) as [[selected requested]|]; [|done]. cbn [mbind result_bind].
  destruct (one_per_replicate runs') eqn:Ho; [|done]. cbn [require mbind result_bind].
  by rewrite (sort_runs_perm runs runs') by (rewrite ?(one_per_replicate_perm runs runs' Hp); done).
Qed.

(* ------------------------------------------------------------------ *)
(** ** Three equal votes *)
(* ------------------------------------------------------------------ *)

(** The votes one guarded run casts on an element. *)
Definition cast (id : pystr) (rg : TagRun * LlmTags) : list (vote_key * LlmElement) :=
  (λ e, (run_key rg.1 id e, e)) <$> List.filter (λ e, element_id e =s? id) (elements rg.2).

Lemma votes_of_cast ordered id : votes_of ordered id = guarded_runs ordered ≫= cast id.
Proof. done. Qed.

Lemma elem_of_cast id rg k e : (k, e) ∈ cast id rg ↔
  k = run_key rg.1 id e ∧ e ∈ elements rg.2 ∧ element_id e = id.
Proof.
  unfold cast. rewrite list_elem_of_fmap. setoid_rewrite elem_of_lfilter. setoid_rewrite str_eqb_eq.
  naive_solver.
Qed.

Lemma elem_of_guarded_runs ordered x g : (x, g) ∈ guarded_runs ordered ↔
  x ∈ ordered ∧ tr_guarded x = Some g.
Proof.
  unfold guarded_runs. rewrite list_elem_of_omap. split.
  - intros (y & Hy & E). destruct (tr_guarded y) eqn:Hg; [|done]. by injection E as <- <-.
  - intros [Hx Hg]. exists x. by rewrite Hg.
Qed.

Lemma NoDup_filter_le {A} (f : A → pystr) l id : NoDup (f <$> l) →
  (length (List.filter (λ e, f e =s? id) l) <= 1)%nat.
Proof.
  induction l as [|x l IH]; [cbn; lia|]. rewrite fmap_cons. cbn [List.filter]. intros [Hx Hl]%NoDup_cons.
  destruct (str_eqb_spec (f x) id) as [<-|]; [|by apply IH]. cbn.
  destruct (List.filter _ l) as [|y r] eqn:E; [cbn; lia|]. exfalso.
  assert (Hy : y ∈ List.filter (λ e, f e =s? f x) l) by (rewrite E; left).
  apply elem_of_lfilter in Hy as [Hy Hf%str_eqb_eq]. apply Hx. rewrite <- Hf.
  by apply list_elem_of_fmap_2.
Qed.

Definition ids_distinct (ordered : list TagRun) : Prop :=
  ∀ x g, x ∈ ordered → tr_guarded x = Some g → NoDup (element_id <$> elements g).

Lemma key_count_app a b k : key_count (a ++ b) k = (key_count a k + key_count b k)%Z.
Proof. unfold key_count, py_len. rewrite List.filter_app, length_app. lia. Qed.

Lemma key_count_cast id rg k : NoDup (element_id <$> elements rg.2) →
  (0 <= key_count (cast id rg).*1 k <= 1)%Z
  ∧ (key_count (cast id rg).*1 k = 1%Z →
     ∃ e, e ∈ elements rg.2 ∧ element_id e = id ∧ run_key rg.1 id e = k).
Proof.
  intros Hnd. pose proof (NoDup_filter_le element_id _ id Hnd) as Hlen.
  assert (Hc : length (cast id rg).*1 = length (List.filter (λ e, element_id e =s? id) (elements rg.2)))
    by (unfold cast; by rewrite !length_fmap).
  unfold key_count, py_len.
  pose proof (List.filter_length_le (key_eqb k) (cast id rg).*1) as Hf. split; [lia|].
  intros H1. destruct (List.filter (key_eqb k) (cast id rg).*1) as [|k' r] eqn:E; [cbn in H1; lia|].
  assert (Hk : k' ∈ List.filter (key_eqb k) (cast id rg).*1) by (rewrite E; left).
  apply elem_of_lfilter in Hk as [Hk Heq%bool_decide_eq_true]. subst k'.
  apply list_elem_of_fmap in Hk as ([k' e] & Hke & Hin). cbn in Hke. subst k'.
  apply elem_of_cast in Hin as (-> & He & Hid). by exists e.
Qed.

(** Three votes for a key among three runs of one vote each: every run cast one. *)
Lemma three_votes ordered id k : length ordered = 3%nat → ids_distinct ordered →
  key_count (votes_of ordered id).*1 k = 3%Z →
  ∀ x, x ∈ ordered → ∃ g e, tr_guarded x = Some g ∧ e ∈ elements g ∧ element_id e = id
                            ∧ run_key x id e = k.
Proof.
  intros Hl Hd Hk.
  assert (Hbound : ∀ l, (∀ x, x ∈ l → x ∈ ordered) →
    (0 <= key_count (votes_of l id).*1 k <= py_len l)%Z
    ∧ (key_count (votes_of l id).*1 k = py_len l → ∀ x, x ∈ l → ∃ g e, tr_guarded x = Some g
         ∧ e ∈ elements g ∧ element_id e = id ∧ run_key x id e = k)).
  { induction l as [|y l IH]; intros Hsub.
    { split; [change (0 <= 0 <= 0)%Z; lia|]. intros _ x []%elem_of_nil. }
    destruct IH as [IHb IHe]; [intros x Hx; apply Hsub; by right|].
    assert (Hy : y ∈ ordered) by (apply Hsub; left).
    unfold py_len in *. rewrite votes_of_cast in *. unfold guarded_runs in *. cbn [omap list_omap length].
    destruct (tr_guarded y) as [g|] eqn:Hg; cbn [fmap option_fmap option_map].
    - rewrite bind_cons, fmap_app, key_count_app.
      destruct (key_count_cast id (y, g) k (Hd y g Hy Hg)) as [Hb He].
      split; [lia|]. intros E x [->|Hx]%elem_of_cons.
      + destruct He as (e & He); [lia|]. exists g, e. by rewrite Hg.
      + apply IHe; [lia|done].
    - split; [lia|]. intros E. lia. }
  destruct (Hbound ordered) as [_ He]; [done|]. apply He. unfold py_len. lia.
Qed.

(* ------------------------------------------------------------------ *)
(** ** The loop of the strict profile *)
(* ------------------------------------------------------------------ *)

Lemma mk_ConfirmedFact_id f f' : mk_ConfirmedFact f = Ok f' → f' = f.
Proof. unfold mk_ConfirmedFact. intros H. open_run H. by injection H. Qed.

Lemma rebuild_element_id e e' : rebuild_element e = Ok e' → e' = e.
Proof. unfold rebuild_element. intros H. open_run H. by injection H. Qed.

(** What the facts of one name list look like. *)
Definition fact_as (st : ElementState) (refs : list SourceRef) (value : option pystr) (tenant name : pystr)
    (f : ConfirmedFact) : Prop :=
  f_name f = name ∧ f_state f = Stated st ∧ f_search_coverage_verified f = false
  ∧ mk_ConfirmedFact f = Ok f
  ∧ (st = Present → f_evidence_refs f = refs ∧ f_normalized_value f = value
                    ∧ f_source_tenant_id f = Some tenant).

Lemma present_facts_spec tenant scope refs value names fs :
  present_facts tenant scope refs value names = Ok fs →
  Forall2 (fact_as Present refs value tenant) names fs.
Proof.
  intros H%map_result_Ok. eapply Forall2_impl; [exact H|]. intros name f Hf.
  pose proof (mk_ConfirmedFact_id _ _ Hf) as ->. split_and!; done.
Qed.

Lemma plain_facts_spec tenant st refs value names fs : st ≠ Present →
  map_result (plain_fact st) names = Ok fs → Forall2 (fact_as st refs value tenant) names fs.
Proof.
  intros Hst H%map_result_Ok. eapply Forall2_impl; [exact H|]. intros name f Hf.
  pose proof (mk_ConfirmedFact_id _ _ Hf) as ->. split_and!; done.
Qed.

(** Absence needs search coverage, which no vote supplies. *)
Lemma fact_as_not_absent refs value tenant name f : ¬ fact_as Absent refs value tenant name f.
Proof.
  intros (_ & Hs & Hc & Hm & _). unfold mk_ConfirmedFact in Hm. rewrite Hs, Hc in Hm.
  destruct (nonempty (f_name f)); cbn in Hm; [|done]. done.
Qed.

(** An element no doubt was raised on, with its facts. *)
Definition settled (ordered : list TagRun) (tenant : pystr) (trk : Track) (id : pystr)
    (facts : list ConfirmedFact) : Prop :=
  ∃ (key : vote_key) refs names,
    key_count (votes_of ordered id).*1 key = 3%Z ∧ names_of trk id = Some names
    ∧ key.1.1 ≠ Unknown ∧ key.1.1 ≠ Conflict
    ∧ (∀ ref, ref ∈ refs → ∃ e, (key, e) ∈ votes_of ordered id ∧ ref ∈ evidence_refs e)
    ∧ Forall2 (fact_as key.1.1 refs key.1.2 tenant) names facts.

Lemma credit_reasons ordered tenant id c agreed t t' :
  credit ordered tenant id c agreed t = Ok t' → ∃ l, ta_reasons t' = ta_reasons t ++ l.
Proof.
  unfold credit. destruct agreed as [trk|]; [|intros [= <-]; exists []; by rewrite app_nil_r].
  destruct (names_of trk id); [|intros [= <-]; by eexists].
  intros (fs & _ & [= <-])%bind_Ok_inv. exists []. by rewrite app_nil_r.
Qed.

Lemma app_cons_not_nil' {A} (l : list A) x r : l ++ [x] ++ r ≠ [].
Proof. by destruct l. Qed.

Lemma strict_element_settled ordered tenant trk t id t' :
  strict_element ordered tenant (Some trk) t id = Ok t' → ta_reasons t' = [] →
  ta_reasons t = [] ∧ ∃ facts, ta_facts t' = ta_facts t ++ facts ∧ settled ordered tenant trk id facts.
Proof.
  unfold strict_element. cbn zeta. intros H Hnil.
  assert (Hbad : ∀ u reason, Ok (add_reason u reason) = Ok t' → False).
  { intros u reason [= <-]. by apply app_nil in Hnil as [_ ?]. }
  destruct (most_common _) as [[key n]|] eqn:Hm; [|by apply Hbad in H].
  destruct (n <? 2)%Z; [by apply Hbad in H|].
  apply bind_Ok_inv in H as (first & Hfirst%of_option_Ok & H).
  apply bind_Ok_inv in H as (c & ->%rebuild_element_id & H).
  set (winners := List.filter _ _) in *.
  assert (Hwin : ∀ e, e ∈ winners.*2 → (key, e) ∈ votes_of ordered id).
  { intros e ([k e'] & -> & [Hin Hk%bool_decide_eq_true]%elem_of_lfilter)%list_elem_of_fmap.
    cbn in *. by subst k. }
  assert (Hstate : state first = key.1.1 ∧ normalized_value first = key.1.2).
  { apply head_Some_elem_of, Hwin in Hfirst. rewrite votes_of_cast in Hfirst.
    by apply list_elem_of_bind in Hfirst as (rg & (-> & _)%elem_of_cast & _). }
  destruct Hstate as [Hst Hnv]. cbn [state] in H. rewrite Hst in H.
  destruct (negb (n =? 3)%Z || _) eqn:Hrev.
  { apply credit_reasons in H as [l Hl]. rewrite Hnil in Hl. cbn in Hl.
    rewrite <- app_assoc in Hl. by apply symmetry, app_cons_not_nil' in Hl. }
  apply orb_false_iff in Hrev as [Hn%negb_false_iff%Z.eqb_eq Hund%bool_decide_eq_false].
  assert (Hcount : key_count (votes_of ordered id).*1 key = 3%Z).
  { unfold most_common in Hm. destruct (dedup _ _); [done|]. by injection Hm as <- <-. }
  unfold credit in H. destruct (names_of trk id) as [names|] eqn:Hnames; [|by apply Hbad in H].
  apply bind_Ok_inv in H as (fs & Hfs & [= <-]). cbn in Hnil |- *. split; [done|].
  exists fs. split; [done|]. exists key, (merged_refs winners.*2), names.
  split_and!; [done|done|set_solver|set_solver| |].
  - intros ref (e & He & Hr)%elem_of_merged_refs. exists e. split; [by apply Hwin|done].
  - cbn [state evidence_refs normalized_value] in Hfs. rewrite Hnv in Hfs.
    case_bool_decide as Hp.
    + rewrite Hp. by eapply present_facts_spec.
    + by apply plain_facts_spec.
Qed.

Lemma strict_loop_settled ordered tenant trk ids t t' :
  fold_result (strict_element ordered tenant (Some trk)) t ids = Ok t' → ta_reasons t' = [] →
  ta_reasons t = [] ∧ ∃ groups, ta_facts t' = ta_facts t ++ concat groups
                                ∧ Forall2 (settled ordered tenant trk) ids groups.
Proof.
  revert t. induction ids as [|id ids IH]; intros t; cbn [fold_result].
  - intros [= <-] Hnil. split; [done|]. exists []. by rewrite app_nil_r.
  - intros (t1 & H1 & H)%bind_Ok_inv Hnil. destruct (IH t1 H Hnil) as (Hnil1 & gs & Hfs & Hgs).
    destruct (strict_element_settled _ _ _ _ _ _ H1 Hnil1) as (Hnil0 & fs & Hf & Hs).
    split; [done|]. exists (fs :: gs). split; [|by constructor].
    rewrite Hfs, Hf. cbn. by rewrite app_assoc.
Qed.

(* ------------------------------------------------------------------ *)
(** ** Confirmed means unanimous *)
(* ------------------------------------------------------------------ *)

(** Every run voted the same clean way on every element of the track, and the
    facts say what the votes say, on evidence the votes cite. *)
Definition unanimous (runs : list TagRun) (tags : ConfirmedTags) : Prop :=
  (∀ x, x ∈ runs → tr_status x = "succeeded" ∧ tr_errors x = []
     ∧ ∃ g, tr_guarded x = Some g ∧ track g = t_track tags
            ∧ safe_harbor_category g = t_safe_harbor_category tags
            ∧ superlative_quote g = t_superlative_quote tags)
  ∧ (∀ f, f ∈ t_facts tags → ∃ id names, (id, names) ∈ MAPPINGS (t_track tags) ∧ f_name f ∈ names)
  ∧ ∀ id names name, (id, names) ∈ MAPPINGS (t_track tags) → name ∈ names →
     ∃ (key : vote_key) f, f ∈ t_facts tags ∧ f_name f = name ∧ f_state f = Stated key.1.1
       ∧ (key.1.1 = Present ∨ key.1.1 = NotApplicable)
       ∧ (∀ x, x ∈ runs → ∃ g e, tr_guarded x = Some g ∧ e ∈ elements g ∧ element_id e = id
                                 ∧ run_key x id e = key)
       ∧ (key.1.1 = Present → f_normalized_value f = key.1.2
          ∧ ∀ ref, ref ∈ f_evidence_refs f → ∃ x g e, x ∈ runs ∧ tr_guarded x = Some g
              ∧ e ∈ elements g ∧ element_id e = id ∧ ref ∈ evidence_refs e).

Lemma names_of_iff t id names : (id, names) ∈ MAPPINGS t ↔ names_of t id = Some names.
Proof.
  split; [|apply dict_get_Some_in]. intros Hin. apply dict_get_NoDup; [|done].
  apply str_distinct_iff. by destruct t.
Qed.

Lemma catalog_complete data pack t ids : check_packet data pack = Ok (t, ids) →
  ∀ id, id ∈ (MAPPINGS t).*1 → id ∈ ids.
Proof.
  unfold check_packet. intros H. open_run H. injection H as -> ->.
  match goal with H : require (set_eqb _ _) _ = Ok _ |- _ => rename H into Hs end.
  apply require_Ok in Hs. unfold set_eqb in Hs. apply andb_true_iff in Hs as [_ Hs].
  intros id Hid. rewrite forallb_forall in Hs. apply str_in_iff, Hs. by apply list_elem_of_In.
Qed.

Section consensus.
Context `{Digest}.

Lemma form_consensus_Ok runs p pack tenant revision gaps profile r :
  form_consensus runs p pack tenant revision gaps profile = Ok r →
  ∃ data selected ids, check_packet data pack = Ok (selected, ids)
    ∧ one_per_replicate runs = true
    ∧ if str_in profile PARTIAL_FACTS_PROFILES
      then partial_facts (policy_of profile) (sort_runs runs) data p pack tenant revision gaps selected ids = Ok r
      else profile = STRICT
           ∧ strict_consensus (sort_runs runs) data p pack tenant revision gaps selected ids = Ok r.
Proof.
  unfold form_consensus. intros (data & _ & Hr)%bind_Ok_inv.
  apply bind_Ok_inv in Hr as (? & Hprof%require_Ok & Hr).
  apply bind_Ok_inv in Hr as ([selected ids] & Hpk & Hr).
  apply bind_Ok_inv in Hr as (? & Hone%require_Ok & Hr). do 4 apply bind_Ok_inv in Hr as (? & _ & Hr).
  exists data, selected, ids. split; [done|]. split; [done|].
  apply bind_Ok_inv in Hr as (? & _ & Hr).
  destruct (str_in profile PARTIAL_FACTS_PROFILES); [done|].
  rewrite orb_false_r in Hprof. by apply str_eqb_eq in Hprof.
Qed.

Lemma consensus_tags_Ok ordered data p pack tenant revision h facts hashes tags :
  consensus_tags ordered data p pack tenant revision h facts hashes = Ok tags →
  t_track tags = h.1.1 ∧ t_safe_harbor_category tags = h.1.2 ∧ t_superlative_quote tags = h.2
  ∧ t_facts tags = sort_facts facts ∧ t_tenant_id tags = tenant ∧ t_packet_sha256 tags = ep_sha256 p
  ∧ t_replicate_hashes tags = hashes ∧ t_ontology_version tags = ontology_version pack
  ∧ ∃ raw, mk_ConfirmedTags raw = Ok tags.
Proof.
  unfold consensus_tags. intros Ht. do 5 apply bind_Ok_inv in Ht as (? & _ & Ht).
  pose proof Ht as Hraw. unfold mk_ConfirmedTags in Ht. open_run Ht. injection Ht as <-.
  split_and!; try done. by eexists.
Qed.

Lemma strict_no_doubt ordered data p pack tenant revision gaps selected ids r tags :
  strict_consensus ordered data p pack tenant revision gaps selected ids = Ok r →
  cr_confirmed r = Some tags →
  ∃ h t, headers_of ordered = [h] ∧ ta_reasons t = [] ∧ cr_reasons r = []
    ∧ fold_result (strict_element ordered tenant (Some h.1.1))
        {| ta_candidates := []; ta_agreement := []; ta_facts := [];
           ta_reasons := run_reasons ordered selected (get_or_none data "safe_harbor_category") gaps |}
        ids = Ok t
    ∧ ∃ hashes, consensus_tags ordered data p pack tenant revision h (ta_facts t) hashes = Ok tags.
Proof.
  unfold strict_consensus. cbn zeta. intros (t & Ht & Hr)%bind_Ok_inv Htags.
  apply bind_Ok_inv in Hr as (hashes & _ & Hr). apply bind_Ok_inv in Hr as (c & Hc & [= <-]).
  cbn in Htags. subst c. destruct (headers_of ordered) as [|h []]; try discriminate Hc.
  exists h, t. destruct (ta_reasons t) as [|] eqn:Hn; [|discriminate Hc].
  cbn [nonempty_list] in Hc. apply bind_Ok_inv in Hc as (tags' & Hc & [= ->]).
  split_and!; try done. by exists hashes.
Qed.

(** No doubt about the runs: clean, guarded, and of the packet's track. *)
Lemma run_reasons_nil ordered selected category gaps h :
  headers_of ordered = [h] → run_reasons ordered selected category gaps = [] →
  gaps = [] ∧ h.1.1 = selected ∧ ∀ x, x ∈ ordered → tr_status x = "succeeded" ∧ tr_errors x = []
    ∧ ∃ g, tr_guarded x = Some g ∧ (track g, safe_harbor_category g, superlative_quote g) = h.
Proof.
  unfold run_reasons. intros Hh Hnil. rewrite Hh in Hnil.
  repeat (apply app_nil in Hnil as [? Hnil]). split; [done|].
  destruct (existsb (λ h0, negb _) [h]) eqn:Hm; [done|]. split.
  { cbn in Hm. rewrite orb_false_r in Hm. apply negb_false_iff, andb_true_iff in Hm as [Hm _].
    by apply bool_decide_eq_true in Hm. }
  intros x Hx. destruct (existsb (λ r, negb _ || _ || _) ordered) eqn:Hr; [done|].
  assert (Hb : negb (tr_status x =s? "succeeded") || nonempty_list (tr_errors x)
               || bool_decide (tr_guarded x = None) = false).
  { destruct (_ || _ || _) eqn:E; [|done]. rewrite <- Hr. symmetry. apply existsb_exists.
    exists x. split; [by apply list_elem_of_In|done]. }
  apply orb_false_iff in Hb as [[Hs He]%orb_false_iff Hg].
  apply negb_false_iff, str_eqb_eq in Hs. apply bool_decide_eq_false in Hg.
  split; [done|]. split; [by destruct (tr_errors x)|].
  destruct (tr_guarded x) as [g|] eqn:Hgx; [|done]. exists g. split; [done|].
  assert (Hin : (track g, safe_harbor_category g, superlative_quote g) ∈ headers_of ordered).
  { apply elem_of_bool_dedup, list_elem_of_fmap. exists (x, g). split; [done|].
    by apply elem_of_guarded_runs. }
  rewrite Hh in Hin. by apply list_elem_of_singleton in Hin.
Qed.
Lemma partial_review pol ordered data p pack tenant revision gaps selected ids r :
  partial_facts pol ordered data p pack tenant revision gaps selected ids = Ok r →
  cr_review_status r = "needs_review".
Proof.
  unfold partial_facts. intros (hashes & _ & Hr)%bind_Ok_inv. cbn zeta in Hr.
  destruct (unsafe _ _ _ _); [by injection Hr as <-|]. do 4 apply bind_Ok_inv in Hr as (? & _ & Hr).
  destruct (forallb _ _); [by injection Hr as <-|].
  apply bind_Ok_inv in Hr as (? & _ & [= <-]). done.
Qed.

Lemma sort_facts_elem l f : f ∈ sort_facts l ↔ f ∈ l.
Proof. apply elem_of_isort. Qed.

Lemma settled_names ordered tenant trk id names fs : names_of trk id = Some names →
  settled ordered tenant trk id fs → f_name <$> fs = names.
Proof.
  intros Hn (key & refs & names' & _ & Hn' & _ & _ & _ & Hf). rewrite Hn in Hn'.
  injection Hn' as <-. clear Hn. induction Hf as [|name f names fs (Hname & _) _ IH]; [done|].
  by rewrite fmap_cons, Hname, IH.
Qed.

Lemma settled_fact ordered tenant trk id names name fs : length ordered = 3%nat →
  ids_distinct ordered → names_of trk id = Some names → name ∈ names →
  settled ordered tenant trk id fs →
  ∃ (key : vote_key) f, f ∈ fs ∧ f_name f = name ∧ f_state f = Stated key.1.1
    ∧ (key.1.1 = Present ∨ key.1.1 = NotApplicable)
    ∧ (∀ x, x ∈ ordered → ∃ g e, tr_guarded x = Some g ∧ e ∈ elements g ∧ element_id e = id
                              ∧ run_key x id e = key)
    ∧ (key.1.1 = Present → f_normalized_value f = key.1.2
       ∧ ∀ ref, ref ∈ f_evidence_refs f → ∃ x g e, x ∈ ordered ∧ tr_guarded x = Some g
           ∧ e ∈ elements g ∧ element_id e = id ∧ ref ∈ evidence_refs e).
Proof.
  intros Hl Hd Hn Hname (key & refs & names' & Hc & Hn' & Hu & Hcf & Hrefs & Hf).
  rewrite Hn in Hn'. injection Hn' as <-.
  apply list_elem_of_lookup in Hname as [i Hi].
  destruct (Forall2_lookup_l _ _ _ _ _ Hf Hi) as (f & Hfi & Hfact).
  exists key, f. pose proof Hfact as (Hfn & Hfs & _ & _ & Hfp).
  split_and!; [by eapply list_elem_of_lookup_2|done|done| |by apply three_votes|].
  - destruct (key.1.1); try done; [by left| |by right]. by apply fact_as_not_absent in Hfact.
  - intros Hp. destruct (Hfp Hp) as (-> & -> & _). split; [done|]. intros ref Hr.
    destruct (Hrefs ref Hr) as (e & He & Hre). rewrite votes_of_cast in He.
    apply list_elem_of_bind in He as ([x g] & He & Hxg).
    apply elem_of_cast in He as (_ & He & Hid). apply elem_of_guarded_runs in Hxg as [Hx Hg].
    by exists x, g, e.
Qed.

Lemma auto_confirmed_unanimous runs p pack tenant revision gaps profile r :
  form_consensus runs p pack tenant revision gaps profile = Ok r → ids_distinct runs →
  cr_review_status r = "auto_confirmed" →
  profile = STRICT ∧ gaps = [] ∧ cr_reasons r = []
  ∧ ∃ tags, cr_confirmed r = Some tags ∧ unanimous runs tags.
Proof.
  intros (data & selected & ids & Hpk & Hone & Hr)%form_consensus_Ok Hd Hst.
  destruct (str_in profile PARTIAL_FACTS_PROFILES).
  { apply partial_review in Hr. congruence. }
  destruct Hr as [Hprof Hr]. assert (Hc : ∃ tags, cr_confirmed r = Some tags).
  { unfold strict_consensus in Hr. cbn zeta in Hr. do 3 apply bind_Ok_inv in Hr as (? & _ & Hr).
    injection Hr as <-. cbn in Hst |- *. destruct x1 as [tags|]; [by exists tags|done]. }
  destruct Hc as [tags Htags].
  destruct (strict_no_doubt _ _ _ _ _ _ _ _ _ _ _ Hr Htags) as (h & t & Hh & Hn & Hre & Hloop & hashes & Ht).
  destruct (strict_loop_settled _ _ _ _ _ _ Hloop Hn) as (Hnil & groups & Hfs & Hgs).
  destruct (run_reasons_nil _ _ _ _ h Hh Hnil) as (Hgaps & Hsel & Hclean).
  apply consensus_tags_Ok in Ht as (Htr & Hcat & Hsup & Hfacts & _).
  split; [done|]. split; [done|]. split; [done|]. exists tags. split; [done|].
  assert (Hmem : ∀ f, f ∈ t_facts tags ↔ f ∈ concat groups).
  { intros f. by rewrite Hfacts, sort_facts_elem, Hfs. }
  assert (Hl : length (sort_runs runs) = 3%nat).
  { destruct (sort_runs_spec runs Hone) as (a & b & c & -> & _). done. }
  assert (Hd' : ids_distinct (sort_runs runs)).
  { intros x g Hx. apply Hd. by apply elem_of_sort_runs. }
  split_and!.
  - intros x Hx. apply elem_of_sort_runs, Hclean in Hx as (? & ? & g & Hg & <-).
    split; [done|]. split; [done|]. exists g. cbn in *. split_and!; congruence.
  - intros f (fs & Hf & [i Hi]%list_elem_of_lookup)%Hmem%elem_of_concat. rewrite Htr.
    destruct (Forall2_lookup_r _ _ _ _ _ Hgs Hi) as (id & _ & Hset).
    pose proof Hset as (_ & _ & names & _ & Hnames & _). exists id, names.
    split; [by apply names_of_iff|]. rewrite <- (settled_names _ _ _ _ _ _ Hnames Hset).
    by apply list_elem_of_fmap_2.
  - intros id names name Hid Hname. rewrite Htr in Hid. apply names_of_iff in Hid as Hid'.
    assert (Hin : id ∈ ids).
    { apply (catalog_complete _ _ _ _ Hpk). rewrite <- Hsel. by apply (list_elem_of_fmap_2 fst) in Hid. }
    apply list_elem_of_lookup in Hin as [i Hi].
    destruct (Forall2_lookup_l _ _ _ _ _ Hgs Hi) as (fs & Hfi & Hset).
    destruct (settled_fact _ _ _ _ _ _ _ Hl Hd' Hid' Hname Hset)
      as (key & f & Hf & Hfn & Hfst & Hk & Hall & Hp).
    exists key, f. split_and!; [|done..| |].
    + apply Hmem, elem_of_concat. exists fs. split; [done|by eapply list_elem_of_lookup_2].
    + intros x Hx. apply Hall. by apply elem_of_sort_runs.
    + intros Hpres. destruct (Hp Hpres) as [Hv Href]. split; [done|]. intros ref Hrf.
      destruct (Href ref Hrf) as (x & g & e & Hx & ?). exists x, g, e. by rewrite <- elem_of_sort_runs.
Qed.
End consensus.

(* ------------------------------------------------------------------ *)
(** ** The partial-fact profiles *)
(* ------------------------------------------------------------------ *)

Lemma assembled_state_cases pol votes keys :
  assembled_state pol votes keys ∈ [Present; Unknown; Conflict].
Proof. unfold assembled_state. repeat case_match; set_solver. Qed.

Lemma two_distinct {A} `{EqDecision A} (l : list A) a b : a ∈ l → b ∈ l → a ≠ b →
  (1 < py_len (dedup (λ x y, bool_decide (x = y)) l))%Z.
Proof.
  intros Ha Hb Hab. apply elem_of_bool_dedup in Ha, Hb. unfold py_len.
  destruct (dedup _ l) as [|x [|y r]]; cbn.
  - by apply elem_of_nil in Ha.
  - apply list_elem_of_singleton in Ha, Hb. congruence.
  - lia.
Qed.

Lemma elem_of_keys (ordered : list TagRun) id x k : x ∈ ordered → partial_key_of id x = Some k →
  k ∈ omap Datatypes.id (partial_key_of id <$> ordered).
Proof.
  intros Hx Hk. apply list_elem_of_omap. exists (Some k). split; [|done].
  rewrite <- Hk. by apply list_elem_of_fmap_2.
Qed.

(** Guarded votes that differ are shown as a conflict. *)
Lemma assembled_conflict pol ordered id votes x y kx ky :
  x ∈ ordered → y ∈ ordered → partial_key_of id x = Some kx → partial_key_of id y = Some ky →
  kx ≠ ky → assembled_state pol votes (partial_key_of id <$> ordered) = Conflict.
Proof.
  intros Hx Hy Hkx Hky Hne. unfold assembled_state.
  pose proof (two_distinct _ kx ky (elem_of_keys _ _ _ _ Hx Hkx) (elem_of_keys _ _ _ _ Hy Hky) Hne) as Hd.
  by apply Z.ltb_lt in Hd as ->.
Qed.

Definition says_present (id : pystr) (k : partial_key) (x : TagRun) : Prop :=
  ∃ e, vote_of x id = Some e ∧ partial_key_of id x = Some k ∧ state e = Present
       ∧ ∀ ref, ref ∈ evidence_refs e → verification_state ref = Verified.

(** A credited element: every run voted it present, the same way, verified. *)
Lemma assembled_present pol ordered id :
  assembled_state pol ((λ r, vote_of r id) <$> ordered) (partial_key_of id <$> ordered) = Present →
  ∃ k : partial_key, is_Some k.1.2 ∧ ∀ x, x ∈ ordered → says_present id k x.
Proof.
  unfold assembled_state. cbn zeta.
  destruct (1 <? _)%Z eqn:Hone; [done|]. apply Z.ltb_ge in Hone.
  destruct (preserve_surviving_conflict pol && _); [done|].
  destruct (existsb _ (partial_key_of id <$> ordered)) eqn:Hnone; [done|].
  destruct (_ && _ && votes_verified _) eqn:Hp; [intros _|by repeat case_match].
  apply andb_true_iff in Hp as [[Hfirst Hbind]%andb_true_iff Hver].
  assert (Hall : ∀ x, x ∈ ordered → ∃ e, vote_of x id = Some e
    ∧ partial_key_of id x = Some (state e, normalized_value e, assoc (tr_binding_hashes x) id,
                                  assoc (tr_source_scopes x) id)
    ∧ ∀ ref, ref ∈ evidence_refs e → verification_state ref = Verified).
  { intros x Hx. unfold votes_verified in Hver. rewrite forallb_forall in Hver.
    specialize (Hver (vote_of x id)). rewrite <- list_elem_of_In in Hver.
    specialize (Hver (list_elem_of_fmap_2 (λ r, vote_of r id) _ _ Hx)).
    unfold partial_key_of. destruct (vote_of x id) as [e|]; [|done].
    exists e. split; [done|]. split; [done|]. intros ref Hr. rewrite forallb_forall in Hver.
    eapply bool_decide_eq_true_1, Hver, list_elem_of_In. done. }
  destruct ordered as [|x0 l]; [by cbn in Hfirst|]. cbn [fmap list_fmap head default from_option] in Hfirst.
  destruct (Hall x0 ltac:(left)) as (e0 & He0 & Hk0 & _). rewrite He0 in Hfirst.
  apply bool_decide_eq_true in Hfirst. injection Hfirst as Hst0.
  pose proof (elem_of_keys (x0 :: l) id x0 _ ltac:(left) Hk0) as Hin0.
  exists (state e0, normalized_value e0, assoc (tr_binding_hashes x0) id, assoc (tr_source_scopes x0) id).
  split.
  - rewrite forallb_forall in Hbind. apply list_elem_of_In, Hbind, negb_true_iff in Hin0.
    apply bool_decide_eq_false in Hin0. cbn in Hin0 |- *. by apply not_eq_None_Some.
  - intros x Hx. destruct (Hall x Hx) as (e & He & Hk & Hv).
    match type of Hk0 with _ = Some ?k0 => match type of Hk with _ = Some ?k1 =>
      destruct (decide (k1 = k0)) as [E|Hne] end end.
    + exists e. rewrite Hk, E. split_and!; [done|done| |done]. congruence.
    + pose proof (two_distinct _ _ _ (elem_of_keys _ _ _ _ Hx Hk) Hin0 Hne) as Hd.
      unfold py_len in *. lia.
Qed.

Lemma head_value ordered id (k : partial_key) : ordered ≠ [] →
  (∀ x, x ∈ ordered → says_present id k x) →
  head (omap (λ v : option LlmElement, v) ((λ r, vote_of r id) <$> ordered)) ≫= normalized_value = k.1.1.2.
Proof.
  destruct ordered as [|x l]; [done|]. intros _ Hall.
  destruct (Hall x ltac:(left)) as (e & He & Hk & _). rewrite fmap_cons. cbn [omap list_omap].
  rewrite He. unfold partial_key_of in Hk. rewrite He in Hk. by injection Hk as <-.
Qed.

(** The facts of an assembled element. *)
Definition assembled (pol : policy) (ordered : list TagRun) (tenant : pystr) (trk : Track) (id : pystr)
    (facts : list ConfirmedFact) : Prop :=
  ∃ refs names, names_of trk id = Some names
    ∧ Forall2 (fact_as (assembled_state pol ((λ r, vote_of r id) <$> ordered) (partial_key_of id <$> ordered))
                 refs (head (omap (λ v : option LlmElement, v) ((λ r, vote_of r id) <$> ordered)) ≫= normalized_value)
                 tenant) names facts.

Lemma partial_loop_assembled pol ordered tenant trk ids t t' :
  fold_result (partial_element pol ordered tenant trk) t ids = Ok t' →
  ∃ groups, ta_facts t' = ta_facts t ++ concat groups ∧ Forall2 (assembled pol ordered tenant trk) ids groups.
Proof.
  revert t. induction ids as [|id ids IH]; intros t; cbn [fold_result].
  - intros [= <-]. exists []. by rewrite app_nil_r.
  - intros (t1 & H1 & H)%bind_Ok_inv. destruct (IH t1 H) as (gs & Hfs & Hgs).
    unfold partial_element in H1. cbn zeta in H1. apply bind_Ok_inv in H1 as (e & _ & H1).
    apply bind_Ok_inv in H1 as (names & Hn%of_option_Ok & H1).
    apply bind_Ok_inv in H1 as (fs & Hf & [= <-]). exists (fs :: gs). split.
    { rewrite Hfs. cbn. by rewrite app_assoc. }
    constructor; [|done]. exists (merged_refs (omap (λ v : option LlmElement, v) ((λ r, vote_of r id) <$> ordered))), names.
    split; [done|]. case_bool_decide as Hp.
    + rewrite Hp. by eapply present_facts_spec.
    + by apply plain_facts_spec.
Qed.

Lemma assembled_names pol ordered tenant trk id names fs : names_of trk id = Some names →
  assembled pol ordered tenant trk id fs → f_name <$> fs = names.
Proof.
  intros Hn (refs & names' & Hn' & Hf). rewrite Hn in Hn'. injection Hn' as <-. clear Hn.
  induction Hf as [|name f names fs (Hname & _) _ IH]; [done|]. by rewrite fmap_cons, Hname, IH.
Qed.

Lemma assembled_fact pol ordered tenant trk id fs f : assembled pol ordered tenant trk id fs → f ∈ fs →
  (∃ names, (id, names) ∈ MAPPINGS trk ∧ f_name f ∈ names)
  ∧ f_state f = Stated (assembled_state pol ((λ r, vote_of r id) <$> ordered) (partial_key_of id <$> ordered))
  ∧ (f_state f = Stated Present →
     f_normalized_value f = head (omap (λ v : option LlmElement, v) ((λ r, vote_of r id) <$> ordered)) ≫= normalized_value).
Proof.
  intros (refs & names & Hn & Hf) [i Hi]%list_elem_of_lookup.
  destruct (Forall2_lookup_r _ _ _ _ _ Hf Hi) as (name & Hname & (Hfn & Hfs & _ & _ & Hp)).
  split; [|split; [done|]].
  - exists names. split; [by apply names_of_iff|]. rewrite Hfn. by eapply list_elem_of_lookup_2.
  - intros E. rewrite Hfs in E. injection E as E. by destruct (Hp E) as (_ & ? & _).
Qed.

Lemma mk_ConfirmedTags_names t t' : mk_ConfirmedTags t = Ok t' → NoDup (f_name <$> t_facts t').
Proof.
  unfold mk_ConfirmedTags. intros Ht. do 8 apply bind_Ok_inv in Ht as (? & _ & Ht).
  apply bind_Ok_inv in Ht as (? & Hd%require_Ok%str_distinct_iff & Ht). open_run Ht. injection Ht as <-.
  cbn. unfold sort_facts. by rewrite isort_perm.
Qed.

Lemma names_unique (fs : list ConfirmedFact) f g : NoDup (f_name <$> fs) → f ∈ fs → g ∈ fs →
  f_name f = f_name g → f = g.
Proof.
  intros Hnd [i Hi]%list_elem_of_lookup [j Hj]%list_elem_of_lookup E.
  assert (i = j) as ->; [|congruence].
  apply (NoDup_lookup _ i j (f_name f) Hnd); rewrite list_lookup_fmap; [by rewrite Hi|by rewrite Hj; cbn; rewrite E].
Qed.

Section results.
Context `{Digest}.

(** The groups behind the tags of a partial assembly. *)
Lemma partial_tags pol ordered data p pack tenant revision gaps selected ids r tags :
  partial_facts pol ordered data p pack tenant revision gaps selected ids = Ok r →
  cr_confirmed r = Some tags →
  t_track tags = selected ∧ NoDup (f_name <$> t_facts tags)
  ∧ ∃ groups, Forall2 (assembled pol ordered tenant selected) ids groups
    ∧ (∀ f, f ∈ concat groups → f ∈ t_facts tags)
    ∧ ∀ f, f ∈ t_facts tags → f ∈ concat groups ∨ f_state f = Stated Unknown.
Proof.
  unfold partial_facts. intros (hashes & _ & Hr)%bind_Ok_inv Htags. cbn zeta in Hr.
  destruct (unsafe _ _ _ _) eqn:Hu; [injection Hr as <-; done|].
  apply bind_Ok_inv in Hr as (h & Hh%of_option_Ok & Hr).
  apply bind_Ok_inv in Hr as (t & Ht & Hr). apply bind_Ok_inv in Hr as (required & _ & Hr).
  apply bind_Ok_inv in Hr as (missing & Hmiss & Hr).
  destruct (forallb _ _); [injection Hr as <-; done|].
  apply bind_Ok_inv in Hr as (tags' & Hc & [= <-]). cbn in Htags. injection Htags as ->.
  destruct (consensus_tags_Ok _ _ _ _ _ _ _ _ _ _ Hc) as (Htr & _ & _ & Hfacts & _ & _ & _ & _ & raw & Hraw).
  apply partial_loop_assembled in Ht as (groups & Hfs & Hgs). cbn in Hfs.
  assert (Hsel : h.1.1 = selected).
  { unfold unsafe in Hu. apply orb_false_iff in Hu as [[Hu _]%orb_false_iff _].
    destruct (headers_of ordered) as [|h' []]; try done. injection Hh as ->.
    apply negb_false_iff, andb_true_iff in Hu as [Hu _]. by apply bool_decide_eq_true in Hu. }
  rewrite Hsel in *. split; [done|]. split; [by eapply mk_ConfirmedTags_names|].
  exists groups. split; [done|]. rewrite Hfacts. split.
  - intros f Hf. apply sort_facts_elem. rewrite Hfs. set_solver.
  - intros f Hf. rewrite sort_facts_elem, Hfs in Hf. apply elem_of_app in Hf as [Hf|Hf]; [by left|right].
    assert (Hm : Forall2 (fact_as Unknown [] None tenant) (List.filter (λ n, negb (str_in n (f_name <$> ta_facts t)))
      (str_set_sorted required)) missing) by by apply plain_facts_spec.
    apply list_elem_of_lookup in Hf as [i Hi].
    by destruct (Forall2_lookup_r _ _ _ _ _ Hm Hi) as (name & _ & (_ & ? & _)).
Qed.
(** C1: a published grade rests on three unanimous runs.  When the reviewable decision of a
    consensus is still a decided one, the profile was the strict one, no doubt was recorded, and the
    consensus confirmed tags such that all three runs succeeded without errors on the tags' track,
    category and superlative; every element of the track got one equal vote (state, value, binding)
    from each run, present or not applicable; each fact carries that state and value, citing only
    sources those votes cite; and there are no other facts. *)
Theorem published_grade_unanimous runs p pack tenant revision gaps profile r d d' g :
  form_consensus runs p pack tenant revision gaps profile = Ok r → ids_distinct runs →
  reviewable_decision (Some d) profile (cr_review_status r) = (Some d', g) →
  d_decision_status d' = "decided" →
  d' = d ∧ profile = STRICT ∧ gaps = [] ∧ cr_reasons r = []
  ∧ ∃ tags, cr_confirmed r = Some tags ∧ unanimous runs tags.
Proof.
  intros Hr Hd Hrev Hdec. unfold reviewable_decision in Hrev.
  destruct (_ && _) eqn:E; [done|]. injection Hrev as <- _. split; [done|].
  rewrite Hdec, str_eqb_refl in E. apply orb_false_iff in E as [_ Hs%negb_false_iff%str_eqb_eq].
  by eapply auto_confirmed_unanimous.
Qed.

(** C2: a partial-fact profile never confirms and never attests absence.  Its consensus always needs
    review; its facts are present, unknown or in conflict; a present fact has the verified, bound,
    equally valued present vote of every run behind it; and two guarded runs that vote differently on
    an element leave all facts of the element in conflict. *)
Theorem partial_facts_reviewable runs p pack tenant revision gaps profile r :
  form_consensus runs p pack tenant revision gaps profile = Ok r →
  str_in profile PARTIAL_FACTS_PROFILES = true →
  cr_review_status r = "needs_review"
  ∧ ∀ tags f, cr_confirmed r = Some tags → f ∈ t_facts tags →
      (f_state f = Stated Present ∨ f_state f = Stated Unknown ∨ f_state f = Stated Conflict)
      ∧ (f_state f = Stated Present → ∃ id names (k : partial_key), (id, names) ∈ MAPPINGS (t_track tags)
           ∧ f_name f ∈ names ∧ is_Some k.1.2 ∧ f_normalized_value f = k.1.1.2
           ∧ ∀ x, x ∈ runs → says_present id k x)
      ∧ ∀ id names x y kx ky, (id, names) ∈ MAPPINGS (t_track tags) → f_name f ∈ names →
          x ∈ runs → y ∈ runs → partial_key_of id x = Some kx → partial_key_of id y = Some ky →
          kx ≠ ky → f_state f = Stated Conflict.
Proof.
  intros (data & selected & ids & Hpk & Hone & Hr)%form_consensus_Ok Hp. rewrite Hp in Hr.
  split; [by eapply partial_review|]. intros tags f Htags Hf.
  destruct (partial_tags _ _ _ _ _ _ _ _ _ _ _ _ Hr Htags) as (Htr & Hnd & groups & Hgs & Hin & Hfrom).
  rewrite Htr. split_and!.
  - destruct (Hfrom f Hf) as [(fs & Hfs & [i Hi]%list_elem_of_lookup)%elem_of_concat|Hu]; [|by right; left].
    destruct (Forall2_lookup_r _ _ _ _ _ Hgs Hi) as (id & _ & Ha).
    destruct (assembled_fact _ _ _ _ _ _ _ Ha Hfs) as (_ & -> & _).
    pose proof (assembled_state_cases (policy_of profile) ((λ r, vote_of r id) <$> sort_runs runs)
      (partial_key_of id <$> sort_runs runs)) as Hc. rewrite !elem_of_cons, elem_of_nil in Hc.
    destruct Hc as [->|[->|[->|[]]]]; auto.
  - intros Hpres. destruct (Hfrom f Hf) as [(fs & Hfs & [i Hi]%list_elem_of_lookup)%elem_of_concat|Hu];
      [|by rewrite Hu in Hpres].
    destruct (Forall2_lookup_r _ _ _ _ _ Hgs Hi) as (id & _ & Ha).
    destruct (assembled_fact _ _ _ _ _ _ _ Ha Hfs) as ((names & Hm & Hn) & Hst & Hv).
    rewrite Hpres in Hst. injection Hst as Hst. symmetry in Hst.
    destruct (assembled_present _ _ _ Hst) as (k & Hb & Hall).
    exists id, names, k. split_and!; [done..| |].
    + rewrite (Hv Hpres). apply head_value.
      * destruct (sort_runs_spec runs Hone) as (a & b & c & -> & _). done.
      * done.
    + intros x Hx. apply Hall. by apply elem_of_sort_runs.
  - intros id names x y kx ky Hm Hn Hx Hy Hkx Hky Hne.
    assert (Hid : id ∈ ids).
    { apply (catalog_complete _ _ _ _ Hpk). by apply (list_elem_of_fmap_2 fst) in Hm. }
    apply list_elem_of_lookup in Hid as [i Hi].
    destruct (Forall2_lookup_l _ _ _ _ _ Hgs Hi) as (fs & Hfi & Ha).
    pose proof Hm as Hm'. apply names_of_iff in Hm'.
    rewrite <- (assembled_names _ _ _ _ _ _ _ Hm' Ha) in Hn.
    apply list_elem_of_fmap in Hn as (f' & Hname & Hf').
    assert (Hf'' : f' ∈ t_facts tags).
    { apply Hin, elem_of_concat. exists fs. split; [done|by eapply list_elem_of_lookup_2]. }
    rewrite (names_unique _ f f' Hnd Hf Hf'' Hname).
    destruct (assembled_fact _ _ _ _ _ _ _ Ha Hf') as (_ & -> & _). f_equal.
    apply (assembled_conflict _ _ _ _ x y kx ky); by rewrite ?elem_of_sort_runs.
Qed.
(** The constructor fixes the values it returns. *)
Lemma mk_ConfirmedTags_idem t t' : mk_ConfirmedTags t = Ok t' → mk_ConfirmedTags t' = Ok t'.
Proof.
  intros Ht. pose proof (mk_ConfirmedTags_names _ _ Ht) as Hnd.
  unfold mk_ConfirmedTags in *. do 8 (apply bind_Ok_inv in Ht as (? & ? & Ht)).
  apply bind_Ok_inv in Ht as (? & _ & Ht). do 2 (apply bind_Ok_inv in Ht as (? & ? & Ht)).
  injection Ht as <-. cbn [set_facts t_tenant_id t_document_version_id t_claim_id t_packet_sha256
    t_model_sha256 t_prompt_sha256 t_safe_harbor_category t_tag_revision t_facts t_replicate_hashes] in *.
  repeat match goal with H : _ = Ok _ |- _ => rewrite H; clear H; cbn [mbind result_bind] end.
  apply str_distinct_iff in Hnd. rewrite Hnd. cbn [require mbind result_bind].
  repeat match goal with H : _ = Ok _ |- _ => rewrite H; clear H; cbn [mbind result_bind] end.
  unfold set_facts. cbn. do 2 f_equal. unfold sort_facts. apply isort_id, isort_sorted.
  - intros. apply str_leb_total.
  - intros a b c. apply str_leb_trans.
Qed.

(** What the rules engine may rely on in a fact. *)
Definition typed (tenant : pystr) (f : ConfirmedFact) : Prop :=
  mk_ConfirmedFact f = Ok f
  ∧ (f_state f = Stated Present → f_source_tenant_id f = Some tenant ∧ f_evidence_refs f ≠ []).

Lemma fact_as_typed st refs value tenant name f : fact_as st refs value tenant name f → typed tenant f.
Proof.
  intros (_ & Hs & _ & Hm & Hp). split; [done|]. rewrite Hs. intros [= ->].
  destruct (Hp eq_refl) as (_ & _ & Ht). split; [done|]. intros Hnil.
  unfold mk_ConfirmedFact in Hm. rewrite Hs, Hnil in Hm. by destruct (nonempty (f_name f)).
Qed.

Lemma facts_as_typed st refs value tenant names fs : Forall2 (fact_as st refs value tenant) names fs →
  Forall (typed tenant) fs.
Proof. induction 1; constructor; [by eapply fact_as_typed|done]. Qed.

Lemma credited_typed tenant st scope refs value names fs :
  (if bool_decide (st = Present) then present_facts tenant scope refs value names
   else map_result (plain_fact st) names) = Ok fs → Forall (typed tenant) fs.
Proof.
  case_bool_decide; intros Hf; eapply facts_as_typed.
  - by eapply present_facts_spec.
  - by apply (plain_facts_spec _ _ [] None).
Qed.

Lemma strict_element_typed ordered tenant agreed t id t' : Forall (typed tenant) (ta_facts t) →
  strict_element ordered tenant agreed t id = Ok t' → Forall (typed tenant) (ta_facts t').
Proof.
  unfold strict_element. cbn zeta. intros Ht Hr.
  destruct (most_common _) as [[key n]|]; [|by injection Hr as <-].
  destruct (n <? 2)%Z; [by injection Hr as <-|].
  do 2 apply bind_Ok_inv in Hr as (? & _ & Hr). unfold credit in Hr.
  destruct agreed as [trk|]; [|injection Hr as <-; by destruct (negb (n =? 3)%Z || _)].
  destruct (names_of trk id); [|injection Hr as <-; by destruct (negb (n =? 3)%Z || _)].
  apply bind_Ok_inv in Hr as (fs & Hf%credited_typed & [= <-]). cbn.
  apply Forall_app. split; [|done]. by destruct (negb (n =? 3)%Z || _).
Qed.

Lemma partial_element_typed pol ordered tenant trk t id t' : Forall (typed tenant) (ta_facts t) →
  partial_element pol ordered tenant trk t id = Ok t' → Forall (typed tenant) (ta_facts t').
Proof.
  unfold partial_element. cbn zeta. intros Ht Hr. do 2 apply bind_Ok_inv in Hr as (? & _ & Hr).
  apply bind_Ok_inv in Hr as (fs & Hf%credited_typed & [= <-]). cbn. by apply Forall_app.
Qed.

Lemma confirmed_via runs p pack tenant revision gaps profile r tags :
  form_consensus runs p pack tenant revision gaps profile = Ok r → cr_confirmed r = Some tags →
  ∃ data h facts hashes, map_result semantic_hash (sort_runs runs) = Ok hashes
    ∧ Forall (typed tenant) facts
    ∧ consensus_tags (sort_runs runs) data p pack tenant revision h facts hashes = Ok tags.
Proof.
  intros (data & selected & ids & _ & _ & Hr)%form_consensus_Ok Htags. exists data.
  destruct (str_in profile PARTIAL_FACTS_PROFILES).
  - unfold partial_facts in Hr. apply bind_Ok_inv in Hr as (hashes & Hh & Hr). cbn zeta in Hr.
    destruct (unsafe _ _ _ _); [by injection Hr as <-|].
    apply bind_Ok_inv in Hr as (h & _ & Hr). apply bind_Ok_inv in Hr as (t & Ht & Hr).
    apply bind_Ok_inv in Hr as (required & _ & Hr). apply bind_Ok_inv in Hr as (missing & Hmiss & Hr).
    destruct (forallb _ _); [by injection Hr as <-|]. apply bind_Ok_inv in Hr as (tags' & Hc & [= <-]).
    cbn in Htags. injection Htags as ->. eexists h, _, hashes. split_and!; [done| |exact Hc].
    apply Forall_app. split.
    + eapply (fold_result_ind (λ t, Forall (typed tenant) (ta_facts t))); [|intros; by eapply partial_element_typed|exact Ht]; apply Forall_nil_2.
    + by apply (credited_typed tenant Unknown [] [] None (List.filter (λ n, negb (str_in n (f_name <$> ta_facts t))) (str_set_sorted required))).
  - destruct Hr as [_ Hr]. unfold strict_consensus in Hr. cbn zeta in Hr.
    apply bind_Ok_inv in Hr as (t & Ht & Hr). apply bind_Ok_inv in Hr as (hashes & Hh & Hr).
    apply bind_Ok_inv in Hr as (c & Hc & [= <-]). cbn in Htags. subst c.
    destruct (headers_of _) as [|h []]; try done. destruct (nonempty_list (ta_reasons t)); [done|].
    apply bind_Ok_inv in Hc as (tags' & Hc & [= ->]). exists h, (ta_facts t), hashes.
    split_and!; [done| |done].
    eapply (fold_result_ind (λ t, Forall (typed tenant) (ta_facts t))); [|intros; by eapply strict_element_typed|exact Ht]; apply Forall_nil_2.
Qed.

(** The tags of a consensus, under any profile, are values of the engine's input type.  Its
    constructor accepts them as they are, every fact passes the fact constructor, a present fact
    cites evidence under the caller's tenant, and the tags are bound to the tenant, the frozen
    packet, the pack's ontology and the hashes of the three runs in replicate order. *)
Theorem consensus_tags_typed runs p pack tenant revision gaps profile r tags :
  form_consensus runs p pack tenant revision gaps profile = Ok r → cr_confirmed r = Some tags →
  mk_ConfirmedTags tags = Ok tags ∧ Forall (typed tenant) (t_facts tags)
  ∧ t_tenant_id tags = tenant ∧ t_packet_sha256 tags = ep_sha256 p
  ∧ t_ontology_version tags = ontology_version pack
  ∧ map_result semantic_hash (sort_runs runs) = Ok (t_replicate_hashes tags).
Proof.
  intros Hr Htags. destruct (confirmed_via _ _ _ _ _ _ _ _ _ Hr Htags) as (data & h & facts & hashes & Hh & Hf & Hc).
  destruct (consensus_tags_Ok _ _ _ _ _ _ _ _ _ _ Hc) as (_ & _ & _ & Hfacts & Ht & Hp & Hha & Ho & raw & Hraw).
  split_and!; [by eapply mk_ConfirmedTags_idem| |done..|by rewrite Hha].
  rewrite Hfacts. unfold sort_facts. by rewrite isort_perm.
Qed.
End results.

(* ------------------------------------------------------------------ *)
(** ** Three runs over a packet *)
(* ------------------------------------------------------------------ *)

Definition tenant_c : pystr := "0f8fad5b-d9cb-469f-a165-70867728950e".
Definition sha_c : pystr := "0123456789abcdef0123456789abcdef0123456789abcdef0123456789abcdef".

Definition payload_c : pystr :=
  json_text (PDict [("tenant_id", PStr tenant_c); ("claim_id", PStr tenant_c); ("run_id", PStr "run");
    ("document_version_id", PStr (document_version_id sample_ref)); ("graph_sha256", PStr sha_c);
    ("retrieval_packet_sha256", PStr sha_c); ("track", PStr "management");
    ("allowed_elements", strs_val ["M1"; "M2"; "M3"; "M4"; "M5"; "M6"])]).

Definition packet_c : EvidencePacket := {| ep_payload_json := payload_c; ep_sha256 := sha_c |}.

Definition vote_c (st : pystr → ElementState) (i : pystr) : LlmElement :=
  {| element_id := i; state := st i; evidence_refs := [sample_ref]; normalized_value := None;
     credited_from := None; reason_code := None |}.

Definition guarded_c (st : pystr → ElementState) (n : Z) : LlmTags :=
  {| claim_id := tenant_c; packet_sha256 := sha_c; replicate_id := n; track := Management;
     safe_harbor_category := None;
     elements := vote_c st <$> ["M1"; "M2"; "M3"; "M4"; "M5"; "M6"];
     superlative_quote := None; warnings := [] |}.

Definition run_c (st : pystr → ElementState) (n : Z) : TagRun :=
  {| tr_request := {| rq_namespace := {| ns_tenant := tenant_c; ns_consent := "standard";
                                         ns_version := document_version_id sample_ref; ns_role := "tagger" |};
                      rq_id := Z_dec n; rq_signature := Z_dec n; rq_replicate := n; rq_epoch := 1 |};
     tr_tenant_id := tenant_c; tr_run_id := "run"; tr_claim_id := tenant_c; tr_packet_sha256 := sha_c;
     tr_graph_sha256 := sha_c; tr_rule_sha256 := "h"; tr_model_sha256 := sha_c;
     tr_prompt_sha256 := sha_c; tr_raw_response_json := None; tr_usage := None;
     tr_guarded := Some (guarded_c st n); tr_status := "succeeded"; tr_errors := [];
     tr_source_scopes := []; tr_binding_hashes := (λ i, (i, sha_c)) <$> ["M1"; "M2"; "M3"; "M4"; "M5"; "M6"];
     tr_synthetic := false; tr_product_variant := false; tr_recovered := false;
     tr_provider_response_json := None; tr_diagnostic_detail := None |}.

Definition all_present (i : pystr) : ElementState := Present.
Definition m2_unknown (i : pystr) : ElementState := if i =s? "M2" then Unknown else Present.

Definition agreeing_runs : list TagRun := [run_c all_present 3; run_c all_present 1; run_c all_present 2].
Definition split_runs : list TagRun := [run_c all_present 3; run_c all_present 1; run_c m2_unknown 2].

Definition consensus_c (runs : list TagRun) (profile : pystr) : result ConsensusResult :=
  form_consensus (H := Checksum) runs packet_c engine_pack tenant_c 1 [] profile.

Example agreeing_confirmed : (λ r, cr_review_status r) <$> consensus_c agreeing_runs STRICT = Ok ("auto_confirmed" : pystr).
Proof. vm_compute. reflexivity. Qed.
Example split_reviewed : (λ r, (cr_reasons r, cr_agreement r)) <$> consensus_c split_runs STRICT
  = Ok (["REVIEW:M2"], [("M1" : pystr, 3); ("M2" : pystr, 2); ("M3" : pystr, 3); ("M4" : pystr, 3); ("M5" : pystr, 3); ("M6" : pystr, 3)]%Z).
Proof. vm_compute. reflexivity. Qed.

Definition has_tags (r : ConsensusResult) : bool :=
  match cr_confirmed r with Some _ => true | None => false end.

Definition result_c (runs : list TagRun) (profile : pystr) : ConsensusResult :=
  match consensus_c runs profile with
  | Ok r => r
  | Raise _ => {| cr_candidates := []; cr_agreement := []; cr_review_status := []; cr_confirmed := None;
                  cr_reasons := []; cr_hashes := [] |}
  end.

Definition tags_c (runs : list TagRun) (profile : pystr) : ConfirmedTags :=
  default (engine_tags [] None) (cr_confirmed (result_c runs profile)).

(** The engine's decision on the confirmed tags. *)
Definition decision_c : Decision := Eval vm_compute in
  match evaluate (H := Checksum) (tags_c agreeing_runs STRICT) engine_context engine_pack with
  | Ok d => d | Raise _ => run_or [] None end.

Lemma decision_c_decided :
  d_decision_status decision_c = "decided" ∧ d_evidence_grade decision_c = Some ("E3" : pystr).
Proof. done. Qed.

Lemma result_Ok runs profile : is_ok (consensus_c runs profile) = true →
  form_consensus (H := Checksum) runs packet_c engine_pack tenant_c 1 [] profile
  = Ok (result_c runs profile).
Proof. unfold result_c, consensus_c. by destruct (form_consensus _ _ _ _ _ _ _). Qed.

Lemma agreeing_ok : is_ok (consensus_c agreeing_runs STRICT) = true.
Proof. vm_compute. reflexivity. Qed.

Lemma split_ok : is_ok (consensus_c split_runs UNANIMITY_V3) = true.
Proof. vm_compute. reflexivity. Qed.

Lemma split_has_tags : has_tags (result_c split_runs UNANIMITY_V3) = true.
Proof. vm_compute. reflexivity. Qed.

Lemma tags_Some runs profile : has_tags (result_c runs profile) = true →
  cr_confirmed (result_c runs profile) = Some (tags_c runs profile).
Proof. unfold has_tags, tags_c. by destruct (cr_confirmed _). Qed.

Lemma agreeing_distinct : ids_distinct agreeing_runs.
Proof.
  intros x g Hx Hg. apply str_distinct_iff. unfold agreeing_runs in Hx.
  rewrite !elem_of_cons, elem_of_nil in Hx.
  destruct Hx as [->|[->|[->|[]]]]; injection Hg as <-; vm_compute; reflexivity.
Qed.

Lemma rotate {A} (a b c : A) : [a; b; c] ≡ₚ [c; a; b].
Proof. by rewrite (Permutation_cons_append [a; b] c). Qed.

Lemma consensus_order_irrelevant_witness :
  consensus_c [run_c all_present 1; run_c m2_unknown 2; run_c all_present 3] STRICT
  = consensus_c split_runs STRICT.
Proof.
  exact (consensus_order_irrelevant (H := Checksum)
    [run_c all_present 1; run_c m2_unknown 2; run_c all_present 3] split_runs packet_c engine_pack
    tenant_c 1 [] STRICT (rotate (run_c all_present 1) (run_c m2_unknown 2) (run_c all_present 3))).
Defined.

Lemma keep_decision d st : st = "auto_confirmed" → reviewable_decision (Some d) STRICT st = (Some d, None).
Proof.
  intros ->. unfold reviewable_decision.
  change (str_in STRICT PARTIAL_FACTS_PROFILES || negb (str_eqb "auto_confirmed" "auto_confirmed")) with false.
  by rewrite andb_false_r.
Qed.

Lemma agreeing_status : cr_review_status (result_c agreeing_runs STRICT) = "auto_confirmed".
Proof. vm_compute. reflexivity. Qed.

Lemma published_grade_unanimous_witness :
  ∃ tags, cr_confirmed (result_c agreeing_runs STRICT) = Some tags ∧ unanimous agreeing_runs tags.
Proof.
  exact (proj2 (proj2 (proj2 (proj2 (published_grade_unanimous (H := Checksum) agreeing_runs packet_c
    engine_pack tenant_c 1 [] STRICT (result_c agreeing_runs STRICT) decision_c decision_c None
    (result_Ok agreeing_runs STRICT agreeing_ok) agreeing_distinct
    (keep_decision decision_c _ agreeing_status) (proj1 decision_c_decided)))))).
Defined.

Lemma partial_facts_reviewable_witness :
  cr_review_status (result_c split_runs UNANIMITY_V3) = "needs_review".
Proof.
  exact (proj1 (partial_facts_reviewable (H := Checksum) split_runs packet_c engine_pack tenant_c 1 []
    UNANIMITY_V3 (result_c split_runs UNANIMITY_V3)
    (result_Ok split_runs UNANIMITY_V3 split_ok) eq_refl)).
Defined.

Lemma consensus_tags_typed_witness :
  mk_ConfirmedTags (tags_c split_runs UNANIMITY_V3) = Ok (tags_c split_runs UNANIMITY_V3).
Proof.
  exact (proj1 (consensus_tags_typed (H := Checksum) split_runs packet_c engine_pack tenant_c 1 []
    UNANIMITY_V3 (result_c split_runs UNANIMITY_V3) (tags_c split_runs UNANIMITY_V3)
    (result_Ok split_runs UNANIMITY_V3 split_ok)
    (tags_Some split_runs UNANIMITY_V3 split_has_tags))).
Defined.
