(* ===== verification/SpendGuard.v ===== *)
(** * The shared spending guard.

    [adapters/local/spend_guard.py]: the ledger of reservations that parser
    and model calls of all processes share, with its event, day, run and group
    caps.  A table is a map or, for [charges], the list of its rows; an amount
    is stored as the text of its [Decimal], which reads back as the same sign,
    digits and exponent, so the column holds the decimal itself.  Every
    operation is one immediate transaction: a refused one changes nothing. *)
From S2P Require Import Prelude PyVal JsonCodec Decimal Values PyDate Digest RulePack Rules Reconcile Budget.

(* ------------------------------------------------------------------ *)
(** ** Amounts *)
(* ------------------------------------------------------------------ *)

(** [adapters/local/spend_guard.py:16-20 amount] *)
Definition amount (value : number) : result decimal :=
  match value with
  | Finite d => _ ← reject (d_signed d <? 0)%Z (ValueError "INVALID_SPEND_AMOUNT"); Ok d
  | NotFinite => Raise (ValueError "INVALID_SPEND_AMOUNT")
  end.

Definition d_ltb (a b : decimal) : bool := negb (d_leb b a).
Definition d_zero : decimal := d_of_Z 0.
Definition d_one : decimal := d_of_Z 1.

(** Addition in the default context of 28 digits. *)
Definition plus (a b : decimal) : decimal := d_add 28 a b.

(* ------------------------------------------------------------------ *)
(** ** Tables *)
(* ------------------------------------------------------------------ *)

(** [adapters/local/spend_guard.py:31-35 SpendGuard.__init__] *)
Record spend_run : Set := {
  sr_event : pystr; sr_day : pystr; sr_cap : decimal; sr_group : option pystr;
  sr_group_cap : option decimal }.
#[export] Instance spend_run_eq_dec : EqDecision spend_run.
Proof. solve_decision. Defined.

Inductive charge_state : Set := CReserved | CSettled | CUncertain.
#[export] Instance charge_state_eq_dec : EqDecision charge_state.
Proof. solve_decision. Defined.

(** [adapters/local/spend_guard.py:36-39 SpendGuard.__init__] *)
Record charge : Set := {
  cg_id : pystr; cg_run : pystr; cg_provider : pystr; cg_bound : decimal; cg_exposure : decimal;
  cg_state : charge_state }.

(** [events] maps an id to its daily and total cap. *)
Record spend_db : Type := {
  sd_events : gmap pystr (decimal * decimal);
  sd_runs : gmap pystr spend_run;
  sd_charges : list charge }.

(** [adapters/local/spend_guard.py:23-45 SpendGuard.__init__] *)
Definition open_guard (db : spend_db) (event : pystr) (daily_limit event_limit : number)
    : result spend_db :=
  daily ← amount daily_limit;
  cap ← amount event_limit;
  match sd_events db !! event with
  | Some old => _ ← require (bool_decide (old = (daily, cap))) BudgetConflict; Ok db
  | None => Ok {| sd_events := <[event := (daily, cap)]> (sd_events db); sd_runs := sd_runs db;
                  sd_charges := sd_charges db |}
  end.

Definition opt_amount (o : option number) : result (option decimal) :=
  match o with Some v => d ← amount v; Ok (Some d) | None => Ok None end.

(** Another cap for the same group of the event.
    [adapters/local/spend_guard.py:70-77 configure_run] *)
Definition group_changed (db : spend_db) (event : pystr) (pin : spend_run) : bool :=
  match sr_group pin with
  | Some g =>
      existsb (λ kr : pystr * spend_run,
        (sr_event kr.2 =s? event) && bool_decide (sr_group kr.2 = Some g)
        && match sr_group_cap kr.2, sr_group_cap pin with
           | Some a, Some b => negb (bool_decide (a = b)) | _, _ => false end)
        (map_to_list (sd_runs db))
  | None => false
  end.

(** [adapters/local/spend_guard.py:53-78 configure_run] *)
Definition configure_run (db : spend_db) (event run_id day : pystr) (run_limit : number)
    (group_id : option pystr) (group_limit : option number) : result spend_db :=
  cap ← amount run_limit;
  group_cap ← opt_amount group_limit;
  let pin := {| sr_event := event; sr_day := day; sr_cap := cap; sr_group := group_id;
                sr_group_cap := group_cap |} in
  _ ← require (nonempty day && nonempty run_id && d_ltb d_zero cap && d_leb cap d_one)
        (ValueError "INVALID_SPEND_RUN");
  _ ← require (Bool.eqb (bool_decide (group_id = None)) (bool_decide (group_limit = None)))
        (ValueError "INVALID_SPEND_GROUP");
  _ ← require (match sd_runs db !! run_id with Some old => bool_decide (old = pin) | None => true end)
        BudgetConflict;
  _ ← reject (group_changed db event pin) BudgetConflict;
  Ok {| sd_events := sd_events db;
        sd_runs := match sd_runs db !! run_id with
                   | Some _ => sd_runs db | None => <[run_id := pin]> (sd_runs db) end;
        sd_charges := sd_charges db |}.

(** [charges JOIN runs] of an event.
    [adapters/local/spend_guard.py:100-104 reserve] *)
Definition event_rows (db : spend_db) (event : pystr) : list (charge * spend_run) :=
  omap (λ c, r ← sd_runs db !! cg_run c; if sr_event r =s? event then Some (c, r) else None)
    (sd_charges db).

(** [adapters/local/spend_guard.py:106-110 reserve.total] *)
Definition total (rows : list (charge * spend_run)) (chosen : charge * spend_run → bool) : decimal :=
  foldl plus d_zero ((λ cr : charge * spend_run, cg_exposure cr.1) <$> List.filter chosen rows).

Definition find_charge (db : spend_db) (id : pystr) : option charge :=
  find (λ c, cg_id c =s? id) (sd_charges db).

Definition any_row (_ : charge * spend_run) : bool := true.
Definition of_day (d : pystr) (cr : charge * spend_run) : bool := sr_day cr.2 =s? d.
Definition of_run (r : pystr) (cr : charge * spend_run) : bool := cg_run cr.1 =s? r.
Definition of_group (g : pystr) (cr : charge * spend_run) : bool := bool_decide (sr_group cr.2 = Some g).

(** [adapters/local/spend_guard.py:112-118 reserve] *)
Definition exhausted (rows : list (charge * spend_run)) (run_id : pystr) (run : spend_run)
    (daily cap bound : decimal) : result bool :=
  let exceeds chosen limit := d_ltb limit (plus (total rows chosen) bound) in
  if exceeds any_row cap || exceeds (of_day (sr_day run)) daily
     || exceeds (of_run run_id) (sr_cap run) then Ok true
  else match sr_group run with
       | Some g => limit ← of_option TypeError (sr_group_cap run); Ok (exceeds (of_group g) limit)
       | None => Ok false
       end.

(** [adapters/local/spend_guard.py:80-122 reserve] *)
Definition reserve (db : spend_db) (event run_id provider request_id : pystr) (bound : number)
    : result spend_db :=
  bound ← amount bound;
  _ ← reject (d_leb bound d_zero) (ValueError "INVALID_SPEND_BOUND");
  match find_charge db request_id with
  | Some old =>
      _ ← require ((cg_run old =s? run_id) && (cg_provider old =s? provider)
                   && bool_decide (cg_bound old = bound)) BudgetConflict;
      Raise (ValueError "SPEND_DUPLICATE_OR_UNCERTAIN_DISPATCH")
  | None =>
      run ← of_option (ValueError "SPEND_RUN_NOT_CONFIGURED") (sd_runs db !! run_id);
      _ ← require (sr_event run =s? event) (ValueError "SPEND_RUN_NOT_CONFIGURED");
      '(daily, cap) ← of_option TypeError (sd_events db !! event);
      over ← exhausted (event_rows db event) run_id run daily cap bound;
      _ ← reject over BudgetExceeded;
      Ok {| sd_events := sd_events db; sd_runs := sd_runs db;
            sd_charges := sd_charges db
              ++ [{| cg_id := request_id; cg_run := run_id; cg_provider := provider;
                     cg_bound := bound; cg_exposure := bound; cg_state := CReserved |}] |}
  end.

Definition settled (exposure : decimal) (st : charge_state) (c : charge) : charge :=
  {| cg_id := cg_id c; cg_run := cg_run c; cg_provider := cg_provider c; cg_bound := cg_bound c;
     cg_exposure := exposure; cg_state := st |}.

(** [adapters/local/spend_guard.py:124-139 settle] *)
Definition settle (db : spend_db) (request_id : pystr) (charged : option number) : result spend_db :=
  row ← of_option BudgetConflict (find_charge db request_id);
  exposure ← match charged with None => Ok (cg_bound row) | Some v => amount v end;
  let st := match charged with None => CUncertain | Some _ => CSettled end in
  _ ← reject (d_ltb (cg_bound row) exposure) BudgetConflict;
  _ ← reject (negb (bool_decide (cg_state row = CReserved))
              && negb (bool_decide (cg_exposure row = exposure) && bool_decide (cg_state row = st)))
        BudgetConflict;
  Ok {| sd_events := sd_events db; sd_runs := sd_runs db;
        sd_charges := (λ c, if cg_id c =s? request_id then settled exposure st c else c)
                        <$> sd_charges db |}.

Record spend_summary : Set := {
  ss_event : pystr; ss_exposure : decimal; ss_settled : decimal; ss_uncertain : Z;
  ss_reserved : Z; ss_calls : Z }.

(** [adapters/local/spend_guard.py:141-154 summary] *)
Definition summary (db : spend_db) (event : pystr) : spend_summary :=
  let rows := event_rows db event in
  let in_state (st : charge_state) (cr : charge * spend_run) : bool := bool_decide (cg_state cr.1 = st) in
  {| ss_event := event; ss_exposure := total rows any_row;
     ss_settled := total rows (in_state CSettled);
     ss_uncertain := py_len (List.filter (in_state CUncertain) rows);
     ss_reserved := py_len (List.filter (in_state CReserved) rows);
     ss_calls := py_len rows |}.
