(* ===== verification/SpendGuardSpec.v ===== *)
(** * The spending caps hold.

    The caps of an event, of each of its days, runs and groups bound what the
    charges expose, in every state reachable by the guard's operations of any
    number of processes and events.  Amounts are counted in units of 10^-12;
    below 10^12 the default decimal context adds them exactly. *)
From S2P Require Import Prelude PyVal JsonCodec Decimal Values PyDate Digest RulePack Rules Reconcile ReconcileSpec Budget BudgetSpec SpendGuard.
Local Open Scope Z_scope.

(* ------------------------------------------------------------------ *)
(** ** Exact amounts *)
(* ------------------------------------------------------------------ *)

Definition units (d : decimal) : Z := d_signed d * 10 ^ (d_exp d + 12).

(** At most twelve decimals, no sign, at most 10^12. *)
Definition ordinary (d : decimal) : Prop := -12 <= d_exp d ∧ 0 <= units d <= 10 ^ 24.

Lemma units_scaled d e : -12 <= e <= d_exp d →
  units d = d_signed d * 10 ^ (d_exp d - e) * 10 ^ (e + 12).
Proof.
  intros He. unfold units. rewrite <- Z.mul_assoc, <- Z.pow_add_r by lia. do 2 f_equal. lia.
Qed.

Lemma d_leb_units a b : -12 <= d_exp a → -12 <= d_exp b → d_leb a b = (units a <=? units b).
Proof.
  intros Ha Hb. unfold d_leb. cbv zeta. set (e := Z.min (d_exp a) (d_exp b)).
  rewrite (units_scaled a e), (units_scaled b e) by lia.
  assert (0 < 10 ^ (e + 12)) by (apply Z.pow_pos_nonneg; lia).
  apply eq_true_iff_eq. rewrite !Z.leb_le. by apply Z.mul_le_mono_pos_r.
Qed.

Lemma short_digits n : (n < 10 ^ 28)%N → py_len (N_dec n) <= 28.
Proof.
  intros Hn. unfold py_len, N_dec.
  pose proof (dec_digits_length (S (N.to_nat (N.size n))) n [] 28 Hn ltac:(lia)) as Hl.
  cbn [length] in Hl. lia.
Qed.

Lemma plus_units a b : -12 <= d_exp a → -12 <= d_exp b → 0 <= units a → 0 <= units b →
  units a + units b < 10 ^ 28 → units (plus a b) = units a + units b ∧ -12 <= d_exp (plus a b).
Proof.
  intros Ha Hb Pa Pb Hsum. unfold plus, d_add. cbv zeta. set (e := Z.min (d_exp a) (d_exp b)).
  rewrite (units_scaled a e), (units_scaled b e) in * by lia.
  set (z := d_signed a * 10 ^ (d_exp a - e) + d_signed b * 10 ^ (d_exp b - e)).
  rewrite <- Z.mul_add_distr_r in *. fold z in Hsum |- *.
  assert (Hp : 1 <= 10 ^ (e + 12)) by (apply (Z.pow_le_mono_r 10 0); lia).
  assert (Hz : 0 <= z) by nia. assert (Hz' : z < 10 ^ 28) by nia.
  unfold d_round. cbv zeta. pose proof (short_digits (Z.abs_N z) ltac:(lia)).
  destruct (Z.leb_spec (py_len (N_dec (Z.abs_N z)) - 28) 0); [|lia].
  destruct (Z.ltb_spec z 0); [lia|]. unfold units, d_signed. cbn. split; [|lia].
  f_equal. lia.
Qed.

Lemma sum_Z_nonneg {A} (f : A → Z) l : (∀ x, x ∈ l → 0 <= f x) → 0 <= sum_Z f l.
Proof.
  induction l as [|x l IH]; intros Hf; cbn [sum_Z foldr]; [done|].
  pose proof (Hf x ltac:(left)). pose proof (IH (λ y Hy, Hf y (list_elem_of_further y x l Hy))).
  unfold sum_Z in *. lia.
Qed.

Lemma foldl_units l acc : -12 <= d_exp acc → 0 <= units acc → Forall ordinary l →
  units acc + sum_Z units l < 10 ^ 28 →
  units (foldl plus acc l) = units acc + sum_Z units l ∧ -12 <= d_exp (foldl plus acc l).
Proof.
  intros Ha Pa Hl. revert acc Ha Pa.
  induction Hl as [|d l [Hd [Pd _]] Hl IH]; intros acc Ha Pa Hs; cbn [foldl sum_Z foldr] in *.
  - lia.
  - assert (0 <= sum_Z units l).
    { apply sum_Z_nonneg. intros x Hx. rewrite Forall_forall in Hl. apply (Hl x Hx). }
    fold (sum_Z units l) in *.
    destruct (plus_units acc d) as [Hu He]; [lia..|].
    destruct (IH (plus acc d)) as [IH1 IH2]; [lia|lia|lia|]. rewrite IH1, Hu. split; lia.
Qed.

(* ------------------------------------------------------------------ *)
(** ** Scopes and their caps *)
(* ------------------------------------------------------------------ *)

Inductive scope : Set := Whole | Day (d : pystr) | Run (r : pystr) | Group (g : pystr).

Definition in_scope (sc : scope) : charge * spend_run → bool :=
  match sc with Whole => any_row | Day d => of_day d | Run r => of_run r | Group g => of_group g end.

(** [limit] is the cap the tables give to a scope of the event. *)
Definition cap_of (db : spend_db) (event : pystr) (sc : scope) (limit : decimal) : Prop :=
  match sc with
  | Whole => ∃ daily, sd_events db !! event = Some (daily, limit)
  | Day _ => ∃ cap, sd_events db !! event = Some (limit, cap)
  | Run r => ∃ run, sd_runs db !! r = Some run ∧ sr_event run = event ∧ sr_cap run = limit
  | Group g => ∃ r run, sd_runs db !! r = Some run ∧ sr_event run = event
                        ∧ sr_group run = Some g ∧ sr_group_cap run = Some limit
  end.

Definition exposure_of (cr : charge * spend_run) : Z := units (cg_exposure cr.1).

(** What the charges of a scope expose, exactly. *)
Definition exposed (db : spend_db) (event : pystr) (sc : scope) : Z :=
  sum_Z exposure_of (List.filter (in_scope sc) (event_rows db event)).

Record charge_ok (db : spend_db) (c : charge) : Prop := {
  co_run : ∃ run, sd_runs db !! cg_run c = Some run ∧ is_Some (sd_events db !! sr_event run);
  co_bound : ordinary (cg_bound c);
  co_exposure : ordinary (cg_exposure c);
  co_le : units (cg_exposure c) <= units (cg_bound c);
  co_reserved : cg_state c = CReserved → cg_exposure c = cg_bound c }.

Record spend_ok (db : spend_db) : Prop := {
  so_ids : NoDup (cg_id <$> sd_charges db);
  so_charges : ∀ c, c ∈ sd_charges db → charge_ok db c;
  so_caps : ∀ event sc limit, cap_of db event sc limit →
    ordinary limit ∧ exposed db event sc <= units limit;
  so_groups : ∀ r r' run run', sd_runs db !! r = Some run → sd_runs db !! r' = Some run' →
    sr_event run = sr_event run' → sr_group run = sr_group run' → sr_group_cap run = sr_group_cap run';
  so_group_cap : ∀ r run, sd_runs db !! r = Some run → is_Some (sr_group run) ↔ is_Some (sr_group_cap run) }.

Lemma elem_of_event_rows db event c run : (c, run) ∈ event_rows db event ↔
  c ∈ sd_charges db ∧ sd_runs db !! cg_run c = Some run ∧ sr_event run = event.
Proof.
  unfold event_rows. rewrite list_elem_of_omap. split.
  - intros (c' & Hc & E). destruct (sd_runs db !! cg_run c') as [r|] eqn:Hr; [|done]. cbn in E.
    destruct (str_eqb_spec (sr_event r) event) as [He|]; [|done]. by injection E as <- <-.
  - intros (Hc & Hr & He). exists c. split; [done|]. rewrite Hr. cbn. by rewrite He, str_eqb_refl.
Qed.

(** The guard's own sum is exact while it stays below 10^16. *)
Lemma total_units db event sc : spend_ok db → exposed db event sc < 10 ^ 28 →
  units (total (event_rows db event) (in_scope sc)) = exposed db event sc
  ∧ -12 <= d_exp (total (event_rows db event) (in_scope sc)).
Proof.
  intros Hok Hsum. unfold total.
  assert (E : sum_Z units ((λ cr : charge * spend_run, cg_exposure cr.1)
                <$> List.filter (in_scope sc) (event_rows db event)) = exposed db event sc).
  { unfold exposed, sum_Z, exposure_of. induction (List.filter _ _) as [|x l IH]; cbn in *; [done|].
    by rewrite IH. }
  rewrite <- E in Hsum |- *.
  pose proof (foldl_units ((λ cr : charge * spend_run, cg_exposure cr.1)
    <$> List.filter (in_scope sc) (event_rows db event)) d_zero ltac:(done) ltac:(done)) as Hf.
  change (units d_zero) with 0 in Hf. apply Hf; [|done].
  apply Forall_fmap, Forall_forall. intros [c run] Hc. apply list_elem_of_In, filter_In in Hc as [Hc _].
  apply list_elem_of_In, elem_of_event_rows in Hc as [Hc _].
  exact (co_exposure _ _ (so_charges _ Hok c Hc)).
Qed.

(** A scope no charge of the event falls in. *)
Lemma exposed_none db event sc :
  (∀ cr, cr ∈ event_rows db event → in_scope sc cr = false) → exposed db event sc = 0.
Proof.
  intros Hn. unfold exposed. replace (List.filter _ _) with (@nil (charge * spend_run)); [done|].
  symmetry. induction (event_rows db event) as [|x l IH]; [done|]. cbn [List.filter].
  rewrite (Hn x) by left. apply IH. intros cr Hcr. apply Hn. by right.
Qed.

Lemma event_rows_ext db db' event : sd_charges db' = sd_charges db →
  (∀ c, c ∈ sd_charges db → sd_runs db' !! cg_run c = sd_runs db !! cg_run c) →
  event_rows db' event = event_rows db event.
Proof.
  intros Hc Hr. unfold event_rows. rewrite Hc. clear Hc. induction (sd_charges db) as [|c l IH]; [done|].
  cbn [omap list_omap]. rewrite (Hr c) by left. rewrite IH; [done|]. intros x Hx. apply Hr. by right.
Qed.

(* ------------------------------------------------------------------ *)
(** ** Operations *)
(* ------------------------------------------------------------------ *)

Inductive spend_op : Set :=
| OpOpen (event : pystr) (daily_limit event_limit : number)
| OpConfigure (event run_id day : pystr) (run_limit : number) (group_id : option pystr)
    (group_limit : option number)
| OpReserve (event run_id provider request_id : pystr) (bound : number)
| OpSettle (request_id : pystr) (charged : option number).

Definition spend_exec (db : spend_db) (op : spend_op) : result spend_db :=
  match op with
  | OpOpen e d c => open_guard db e d c
  | OpConfigure e r d l g gl => configure_run db e r d l g gl
  | OpReserve e r p i b => reserve db e r p i b
  | OpSettle i c => settle db i c
  end.

Definition ordinary_number (n : number) : Prop :=
  match n with Finite d => ordinary d | NotFinite => True end.

Definition opt_ordinary (o : option number) : Prop :=
  match o with Some n => ordinary_number n | None => True end.

Definition ordinary_op (op : spend_op) : Prop :=
  match op with
  | OpOpen _ d c => ordinary_number d ∧ ordinary_number c
  | OpConfigure _ _ _ l _ gl => ordinary_number l ∧ opt_ordinary gl
  | OpReserve _ _ _ _ b => ordinary_number b
  | OpSettle _ c => opt_ordinary c
  end.

Definition spend_step (db db' : spend_db) : Prop :=
  ∃ op, ordinary_op op ∧ spend_exec db op = Ok db'.

Definition empty_spend : spend_db := {| sd_events := ∅; sd_runs := ∅; sd_charges := [] |}.
Definition spend_reachable (db : spend_db) : Prop := rtc spend_step empty_spend db.

Lemma amount_Ok n d : amount n = Ok d → n = Finite d.
Proof. destruct n; cbn; [|done]. by intros (? & _ & [= <-])%bind_Ok_inv. Qed.

Lemma amount_ordinary n d : ordinary_number n → amount n = Ok d → ordinary d.
Proof. by intros Hn ->%amount_Ok. Qed.

Lemma open_ok db e d c db' : spend_ok db → ordinary_number d → ordinary_number c →
  open_guard db e d c = Ok db' → spend_ok db'.
Proof.
  intros Hok Hd Hc H. unfold open_guard in H.
  apply bind_Ok_inv in H as (daily & Hdaily & H). apply bind_Ok_inv in H as (cap & Hcap & H).
  apply amount_ordinary in Hdaily, Hcap; [|done..].
  destruct (sd_events db !! e) as [old|] eqn:He.
  { apply bind_Ok_inv in H as (? & _ & [= <-]). done. }
  injection H as <-. destruct Hok as [Hid Hch Hcaps Hgr Hgc].
  assert (Hrows : ∀ ev, event_rows {| sd_events := <[e:=(daily, cap)]> (sd_events db);
     sd_runs := sd_runs db; sd_charges := sd_charges db |} ev = event_rows db ev).
  { intros ev. by apply event_rows_ext. }
  assert (Hempty : event_rows db e = []).
  { destruct (event_rows db e) as [|[c' run] l] eqn:El; [done|].
    assert (Hin : (c', run) ∈ event_rows db e) by (rewrite El; left).
    apply elem_of_event_rows in Hin as (Hin & Hrun & <-).
    destruct (co_run _ _ (Hch c' Hin)) as (run' & Hrun' & [x Hx]). congruence. }
  split; [exact Hid| | |exact Hgr|exact Hgc].
  - intros c' Hc'. destruct (Hch c' Hc') as [(run & Hr & Hs) ? ? ? ?]. split; try done.
    exists run. split; [done|]. cbn. destruct (decide (e = sr_event run)) as [->|Hne].
    + by rewrite lookup_insert_eq.
    + by rewrite lookup_insert_ne.
  - intros ev sc limit Hcapof. unfold exposed. rewrite Hrows.
    destruct (decide (ev = e)) as [->|Hne].
    + rewrite Hempty. cbn [List.filter sum_Z foldr].
      assert (Hl : ordinary limit).
      { destruct sc; cbn in Hcapof; rewrite ?lookup_insert_eq in Hcapof.
        - by destruct Hcapof as [? [= <- <-]].
        - by destruct Hcapof as [? [= <- <-]].
        - exact (proj1 (Hcaps e (Run r) limit Hcapof)).
        - exact (proj1 (Hcaps e (Group g) limit Hcapof)). }
      split; [done|]. exact (proj1 (proj2 Hl)).
    + apply (Hcaps ev sc limit). destruct sc; cbn in Hcapof |- *; try done;
        by rewrite lookup_insert_ne in Hcapof.
Qed.

Lemma group_unchanged db event pin r run : group_changed db event pin = false →
  sd_runs db !! r = Some run → sr_event run = event → sr_group run = sr_group pin →
  is_Some (sr_group_cap run) → is_Some (sr_group_cap pin) → is_Some (sr_group pin) →
  sr_group_cap run = sr_group_cap pin.
Proof.
  intros Hg Hr He Hgr [a Ha] [b Hb] [g Hgp]. unfold group_changed in Hg. rewrite Hgp in Hg.
  destruct (decide (a = b)) as [->|Hne]; [by rewrite Ha, Hb|]. exfalso.
  apply not_true_iff_false in Hg. apply Hg, existsb_exists. exists (r, run).
  split; [by apply list_elem_of_In, elem_of_map_to_list|]. cbn [snd].
  rewrite He, str_eqb_refl, Ha, Hb. apply andb_true_iff. split.
  - apply andb_true_iff. split; [done|]. apply bool_decide_eq_true. congruence.
  - by apply negb_true_iff, bool_decide_eq_false.
Qed.

Lemma configure_ok db e r d l g gl db' : spend_ok db → ordinary_number l → opt_ordinary gl →
  configure_run db e r d l g gl = Ok db' → spend_ok db'.
Proof.
  intros Hok Hl Hgl H. unfold configure_run in H.
  apply bind_Ok_inv in H as (cap & Hcap%amount_ordinary & H); [|done].
  apply bind_Ok_inv in H as (gcap & Hgcap & H). cbv zeta in H.
  apply bind_Ok_inv in H as (? & _ & H). apply bind_Ok_inv in H as (? & Hgg%require_Ok & H).
  apply bind_Ok_inv in H as (? & Hold & H). apply bind_Ok_inv in H as (? & Hch%reject_Ok & [= <-]).
  destruct (sd_runs db !! r) as [old|] eqn:Hr; [by destruct db|]. clear Hold.
  set (pin := {| sr_event := e; sr_day := d; sr_cap := cap; sr_group := g; sr_group_cap := gcap |}) in *.
  assert (Hgo : ∀ x, gcap = Some x → ordinary x).
  { intros lim ->. destruct gl as [n|]; cbn in Hgcap; [|done].
    apply bind_Ok_inv in Hgcap as (lim' & Hx & [= ->]). by eapply amount_ordinary. }
  assert (Hboth : is_Some g ↔ is_Some gcap).
  { assert (Hgc : is_Some gcap ↔ is_Some gl).
    { destruct gl; cbn in Hgcap; [|by injection Hgcap as <-].
      apply bind_Ok_inv in Hgcap as (lim & _ & [= <-]). by split; eauto. }
    rewrite Hgc. destruct g, gl; cbn in Hgg; try done; naive_solver. }
  destruct Hok as [Hid Hcs Hcaps Hgr Hgc]. set (db' := {| sd_events := _ |}).
  assert (Hne : ∀ c, c ∈ sd_charges db → cg_run c ≠ r).
  { intros c Hc E. destruct (co_run _ _ (Hcs c Hc)) as (run & Hrun & _). congruence. }
  assert (Hrows : ∀ ev, event_rows db' ev = event_rows db ev).
  { intros ev. apply event_rows_ext; [done|]. intros c Hc. cbn. rewrite lookup_insert_ne; [done|].
    intros E. by apply (Hne c Hc). }
  assert (Hnew : ∀ k run, sd_runs db' !! k = Some run → k = r ∧ run = pin ∨ sd_runs db !! k = Some run).
  { intros k run. cbn. rewrite lookup_insert_Some. naive_solver. }
  assert (Hpin : ∀ k run, sd_runs db !! k = Some run → e = sr_event run → g = sr_group run →
    gcap = sr_group_cap run).
  { intros k run Hk He Hgrp. destruct g as [g0|].
    - symmetry. apply (group_unchanged db e pin k run); try done.
      + by apply (Hgc k run Hk); rewrite <- Hgrp.
      + by apply Hboth.
    - destruct gcap; [by destruct (proj2 Hboth (mk_is_Some _ _ eq_refl))|].
      destruct (sr_group_cap run) eqn:Ec; [|done].
      destruct (proj2 (Hgc k run Hk) (mk_is_Some _ _ Ec)) as [? E]. congruence. }
  split; [exact Hid|..].
  - intros c Hc. destruct (Hcs c Hc) as [(run & Hrun & Hs) ? ? ? ?]. split; try done.
    exists run. cbn. rewrite lookup_insert_ne; [done|]. intros E. by apply (Hne c Hc).
  - intros ev sc limit Hcapof. unfold exposed. rewrite Hrows. fold (exposed db ev sc).
    assert (Hzero : (∀ cr, cr ∈ event_rows db ev → in_scope sc cr = false) → ordinary limit →
      ordinary limit ∧ exposed db ev sc <= units limit).
    { intros Hz Ho. rewrite exposed_none by done. split; [done|]. exact (proj1 (proj2 Ho)). }
    destruct sc as [|dy|rn|gp]; cbn in Hcapof.
    + by apply Hcaps.
    + by apply Hcaps.
    + destruct Hcapof as (run & [[-> ->]|Hk]%Hnew & He & <-); [|apply Hcaps; by exists run].
      apply Hzero; [|done]. intros [c run'] (Hc & _)%elem_of_event_rows. cbn. unfold of_run.
      apply str_eqb_neq. by apply Hne.
    + destruct Hcapof as (k & run & [[-> ->]|Hk]%Hnew & He & Hgp & Hlim); [|apply Hcaps; by exists k, run].
      cbn in He, Hgp, Hlim. subst e g.
      destruct (decide (Exists (λ kr, sr_event kr.2 = ev ∧ sr_group kr.2 = Some gp) (map_to_list (sd_runs db))))
        as [([k' run'] & Hk'%elem_of_map_to_list & He' & Hg')%Exists_exists|Hnone].
      * apply Hcaps. exists k', run'. split_and!; try done. rewrite <- (Hpin k' run'); done.
      * apply Hzero; [|by apply Hgo]. intros [c run'] (Hc & Hrun' & Hev)%elem_of_event_rows. cbn.
        apply bool_decide_eq_false. intros Hg'. apply Hnone, Exists_exists.
        exists (cg_run c, run'). by rewrite elem_of_map_to_list.
  - intros k k' run run' Hk Hk' He Hg.
    apply Hnew in Hk as [[-> ->]|Hk], Hk' as [[-> ->]|Hk']; [done| | |by apply (Hgr k k')].
    + by apply (Hpin k' run').
    + symmetry. by apply (Hpin k run).
  - intros k run [[-> ->]|Hk]%Hnew; [done|by apply (Hgc k)].
Qed.

(** The guard's test, in units. *)
Lemma fits db event sc limit bound : spend_ok db → cap_of db event sc limit → ordinary bound →
  d_ltb limit (plus (total (event_rows db event) (in_scope sc)) bound) = false →
  exposed db event sc + units bound <= units limit.
Proof.
  intros Hok Hcap [Hb Hub] Hlt. destruct (so_caps _ Hok _ _ _ Hcap) as [[Hl Hul] He].
  destruct (total_units db event sc Hok) as [Ht Hte]; [lia|].
  assert (Hpos : 0 <= exposed db event sc).
  { unfold exposed. apply sum_Z_nonneg. intros [c run] Hc.
    apply list_elem_of_In, filter_In in Hc as [Hc%list_elem_of_In _].
    apply elem_of_event_rows in Hc as [Hc _].
    exact (proj1 (proj2 (co_exposure _ _ (so_charges _ Hok c Hc)))). }
  destruct (plus_units (total (event_rows db event) (in_scope sc)) bound) as [Hp Hpe]; [lia..|].
  unfold d_ltb in Hlt. apply negb_false_iff in Hlt. rewrite d_leb_units in Hlt by done.
  apply Z.leb_le in Hlt. lia.
Qed.

Lemma reserve_ok db e r p i b db' : spend_ok db → ordinary_number b →
  reserve db e r p i b = Ok db' → spend_ok db'.
Proof.
  intros Hok Hb H. unfold reserve in H.
  apply bind_Ok_inv in H as (bound & Hbound%amount_ordinary & H); [|done].
  apply bind_Ok_inv in H as (? & _ & H).
  destruct (find_charge db i) eqn:Hfresh; [by apply bind_Ok_inv in H as (? & _ & [=])|].
  apply bind_Ok_inv in H as (run & Hrun%of_option_Ok & H).
  apply bind_Ok_inv in H as (? & Hev%require_Ok%str_eqb_eq & H).
  apply bind_Ok_inv in H as ([daily cap] & Hcap%of_option_Ok & H).
  apply bind_Ok_inv in H as (over & Hover & H). apply bind_Ok_inv in H as (? & ->%reject_Ok & [= <-]).
  set (c := {| cg_id := i; cg_run := r; cg_provider := p; cg_bound := bound; cg_exposure := bound;
               cg_state := CReserved |}). set (db' := {| sd_events := _ |}).
  assert (Hfit : ∀ sc limit, in_scope sc (c, run) = true → cap_of db e sc limit →
    exposed db e sc + units bound <= units limit).
  { intros sc limit Hin Hc. apply fits; try done. unfold exhausted in Hover. cbv zeta in Hover.
    destruct (_ || _ || _) eqn:Ho in Hover; [done|].
    apply orb_false_iff in Ho as [[Hw Hd]%orb_false_iff Hr].
    destruct sc as [|dy|rn|gp]; cbn in Hin, Hc |- *.
    - destruct Hc as [? Hc]. rewrite Hcap in Hc. by injection Hc as <- <-.
    - destruct Hc as [? Hc]. rewrite Hcap in Hc. injection Hc as <- <-.
      unfold of_day in Hin. cbn in Hin. apply str_eqb_eq in Hin as <-. done.
    - unfold of_run in Hin. cbn in Hin. apply str_eqb_eq in Hin as <-.
      destruct Hc as (run' & Hrun' & _ & <-). rewrite Hrun in Hrun'. by injection Hrun' as <-.
    - unfold of_group in Hin. apply bool_decide_eq_true in Hin. cbn in Hin. rewrite Hin in Hover.
      destruct Hc as (k & run' & Hk & He' & Hg' & Hlim).
      rewrite (so_groups _ Hok r k run run'), Hlim in Hover by congruence.
      cbn in Hover. by injection Hover. }
  assert (Hexp : ∀ ev sc, exposed db' ev sc = exposed db ev sc
    + if bool_decide (ev = e) && in_scope sc (c, run) then units bound else 0).
  { intros ev sc. unfold exposed, event_rows. cbn [sd_charges db' sd_runs]. rewrite omap_app.
    cbn [omap list_omap cg_run c]. rewrite Hrun. cbn [mbind option_bind]. rewrite Hev.
    destruct (str_eqb_spec e ev) as [<-|Hne].
    - rewrite bool_decide_eq_true_2 by done. rewrite List.filter_app, sum_Z_app. cbn [List.filter andb].
      destruct (in_scope sc _); cbn [sum_Z foldr]; [unfold exposure_of; cbn; lia|lia].
    - rewrite bool_decide_eq_false_2 by congruence. cbn [andb]. rewrite app_nil_r. lia. }
  destruct Hok as [Hid Hcs Hcaps Hgr Hgc]. split; [| | |exact Hgr|exact Hgc].
  - cbn. rewrite fmap_app. apply NoDup_app. split; [done|]. split; [|apply NoDup_singleton].
    intros k (c' & -> & Hc')%list_elem_of_fmap Hx%list_elem_of_singleton. cbn in Hx.
    pose proof (find_none _ _ Hfresh c' ltac:(by apply list_elem_of_In)) as Hne.
    by apply str_eqb_neq in Hne.
  - intros k Hx. cbn in Hx. rewrite elem_of_app, list_elem_of_singleton in Hx. destruct Hx as [Hx| ->].
    + destruct (Hcs k Hx) as [? ? ? ? ?]. by split.
    + split; try done. exists run. split; [done|]. rewrite Hev. by eexists.
  - intros ev sc limit Hc. change (cap_of db ev sc limit) in Hc.
    destruct (Hcaps ev sc limit Hc) as [Ho Hle]. split; [done|]. rewrite Hexp.
    case_bool_decide as Hee; cbn [andb]; [|lia]. subst ev.
    destruct (in_scope sc (c, run)) eqn:Hin; [|lia]. by apply Hfit.
Qed.

(** Rewriting charges in place keeps the joined rows in place. *)
Lemma event_rows_map db f event : (∀ c, cg_run (f c) = cg_run c) →
  event_rows {| sd_events := sd_events db; sd_runs := sd_runs db; sd_charges := f <$> sd_charges db |} event
  = (λ cr : charge * spend_run, (f cr.1, cr.2)) <$> event_rows db event.
Proof.
  intros Hrun. unfold event_rows. cbn [sd_charges sd_runs].
  induction (sd_charges db) as [|c l IH]; [done|]. rewrite fmap_cons. cbn [omap list_omap].
  rewrite Hrun, IH. destruct (sd_runs db !! cg_run c) as [r|]; cbn [mbind option_bind]; [|done].
  by destruct (sr_event r =s? event).
Qed.

Lemma filter_fmap_invariant {A} (f : A → bool) (g : A → A) l : (∀ x, f (g x) = f x) →
  List.filter f (g <$> l) = g <$> List.filter f l.
Proof.
  intros Hf. induction l as [|x l IH]; [done|]. rewrite fmap_cons. cbn [List.filter].
  rewrite Hf, IH. by destruct (f x).
Qed.

Lemma settle_ok db i ch db' : spend_ok db → opt_ordinary ch → settle db i ch = Ok db' → spend_ok db'.
Proof.
  intros Hok Hch H. unfold settle in H.
  apply bind_Ok_inv in H as (row & Hrow%of_option_Ok & H).
  apply bind_Ok_inv in H as (exposure & Hexp & H). cbv zeta in H.
  apply bind_Ok_inv in H as (? & Hlt%reject_Ok & H). apply bind_Ok_inv in H as (? & Hst%reject_Ok & [= <-]).
  destruct Hok as [Hid Hcs Hcaps Hgr Hgc].
  apply find_some in Hrow as [Hrow%list_elem_of_In Hi%str_eqb_eq].
  set (st := match ch with None => CUncertain | Some _ => CSettled end) in *.
  set (f := λ c, if cg_id c =s? i then settled exposure st c else c). set (db' := {| sd_events := _ |}).
  destruct (Hcs row Hrow) as [Hr0 Hb0 He0 _ Hres0].
  assert (Hord : ordinary exposure).
  { destruct ch; cbn in Hexp, Hch; [by eapply amount_ordinary|]. by injection Hexp as <-. }
  assert (Hle : ∀ c, c ∈ sd_charges db → ordinary (cg_exposure (f c))
    ∧ units (cg_exposure (f c)) <= units (cg_exposure c)).
  { intros c Hc. unfold f. destruct (str_eqb_spec (cg_id c) i) as [Hci|_].
    - assert (c = row) as ->.
      { apply list_elem_of_lookup in Hc as [n Hn], Hrow as [m Hm].
        assert (n = m) as ->; [|congruence].
        apply (NoDup_lookup _ n m i Hid); rewrite list_lookup_fmap; [rewrite Hn|rewrite Hm]; cbn; congruence. }
      cbn. split; [done|]. unfold d_ltb in Hlt. apply negb_false_iff in Hlt.
      rewrite d_leb_units in Hlt by apply Hord || apply Hb0. apply Z.leb_le in Hlt.
      case_bool_decide as Hs; [by rewrite (Hres0 Hs)|]. cbn [negb andb] in Hst.
      apply negb_false_iff, andb_true_iff in Hst as [->%bool_decide_eq_true _]. lia.
    - split; [|lia]. exact (co_exposure _ _ (Hcs c Hc)). }
  assert (Hrun : ∀ c, cg_run (f c) = cg_run c) by (intros c; unfold f; by destruct (_ =s? _)).
  split; [| | |exact Hgr|exact Hgc].
  - cbn. rewrite <- list_fmap_compose. erewrite list_fmap_ext; [exact Hid|].
    intros n c _. unfold f. cbn. by destruct (_ =s? _).
  - intros c' (c & -> & Hc)%list_elem_of_fmap. destruct (Hcs c Hc) as [Hr Hb He Hl Hres].
    split; [by rewrite Hrun| |by apply Hle| |].
    + unfold f. by destruct (_ =s? _).
    + destruct (Hle c Hc) as [_ Hu]. replace (cg_bound (f c)) with (cg_bound c); [lia|].
      unfold f. by destruct (_ =s? _).
    + unfold f. destruct (_ =s? _); [|done]. cbn. unfold st. by destruct ch.
  - intros ev sc limit Hc. destruct (Hcaps ev sc limit Hc) as [Ho Hlim]. split; [done|].
    etrans; [|exact Hlim]. unfold exposed, db'. rewrite (event_rows_map db f ev Hrun).
    rewrite filter_fmap_invariant.
    + apply sum_Z_map_le. intros [c run] [Hin _]%list_elem_of_In%filter_In.
      apply list_elem_of_In, elem_of_event_rows in Hin as [Hin _]. unfold exposure_of. cbn.
      by apply Hle.
    + intros [c run]. destruct sc; cbn; try done. unfold of_run. cbn. by rewrite Hrun.
Qed.

Lemma spend_step_ok db db' : spend_step db db' → spend_ok db → spend_ok db'.
Proof.
  intros (op & Ho & Hop) Hok. destruct op; cbn [ordinary_op spend_exec] in Ho, Hop.
  - destruct Ho as [Hd Hc]. exact (open_ok _ _ _ _ _ Hok Hd Hc Hop).
  - destruct Ho as [Hl Hgl]. exact (configure_ok _ _ _ _ _ _ _ _ Hok Hl Hgl Hop).
  - exact (reserve_ok _ _ _ _ _ _ _ Hok Ho Hop).
  - exact (settle_ok _ _ _ _ Hok Ho Hop).
Qed.

Lemma empty_ok : spend_ok empty_spend.
Proof.
  split; cbn; [constructor|..].
  - intros c Hc. by apply elem_of_nil in Hc.
  - intros ev sc limit Hc. exfalso. destruct sc; cbn in Hc.
    + destruct Hc as [? Hc]. by rewrite lookup_empty in Hc.
    + destruct Hc as [? Hc]. by rewrite lookup_empty in Hc.
    + destruct Hc as (? & Hc & _). by rewrite lookup_empty in Hc.
    + destruct Hc as (? & ? & Hc & _). by rewrite lookup_empty in Hc.
  - intros r r' run run' Hr. by rewrite lookup_empty in Hr.
  - intros r run Hr. by rewrite lookup_empty in Hr.
Qed.

Lemma spend_reachable_ok db : spend_reachable db → spend_ok db.
Proof.
  unfold spend_reachable. generalize empty_ok. generalize empty_spend. intros db0 Hok Hr.
  induction Hr as [|x y z Hs _ IH]; [done|]. apply IH. by eapply spend_step_ok.
Qed.

(** C7: no cap is ever exceeded.  In every state that any processes' calls with ordinary amounts
    reach, the exposure of every event, and of every day, run and group of it, as the guard itself
    sums it, is at most the cap the tables give that scope; the sum is the exact one; and no charge
    exposes more than it was reserved for. *)
Theorem spend_caps_hold db event sc limit :
  spend_reachable db → cap_of db event sc limit →
  d_leb (total (event_rows db event) (in_scope sc)) limit = true
  ∧ units (total (event_rows db event) (in_scope sc)) = exposed db event sc
  ∧ ∀ c, c ∈ sd_charges db → d_leb (cg_exposure c) (cg_bound c) = true.
Proof.
  intros Hok%spend_reachable_ok Hcap. destruct (so_caps _ Hok _ _ _ Hcap) as [[Hl Hul] He].
  destruct (total_units db event sc Hok) as [Ht Hte]; [lia|].
  split; [|split; [done|]].
  - rewrite d_leb_units by done. apply Z.leb_le. lia.
  - intros c Hc. destruct (so_charges _ Hok c Hc) as [_ [Hb _] [Hx _] Hxb _].
    rewrite d_leb_units by done. by apply Z.leb_le.
Qed.

(* ------------------------------------------------------------------ *)
(** ** A run *)
(* ------------------------------------------------------------------ *)

Lemma spend_run_reachable ops db db' : Forall ordinary_op ops → spend_reachable db →
  fold_result spend_exec db ops = Ok db' → spend_reachable db'.
Proof.
  intros Ho. revert db. induction Ho as [|op ops Hop _ IH]; intros db Hr H; cbn [fold_result] in H.
  - by injection H as <-.
  - apply bind_Ok_inv in H as (db1 & H1 & H). apply (IH db1); [|done].
    eapply rtc_r; [exact Hr|]. by exists op.
Qed.

Definition usd (cents : N) : number := Finite {| d_neg := false; d_coef := cents; d_exp := -2 |}.

(** Two runs of a group of 60 cents; the second reservation of the group that
    would exceed it is refused until the first one is settled lower. *)
Definition spend_ops : list spend_op :=
  [OpOpen "finals" (usd 700) (usd 700);
   OpConfigure "finals" "r1" "2026-10-01" (usd 100) (Some "g") (Some (usd 60));
   OpConfigure "finals" "r2" "2026-10-01" (usd 100) (Some "g") (Some (usd 60));
   OpReserve "finals" "r1" "upstage" "q1" (usd 50)].

Definition spend_after : spend_db :=
  match fold_result spend_exec empty_spend spend_ops with Ok db => db | Raise _ => empty_spend end.

Example group_refused : reserve spend_after "finals" "r2" "upstage" "q2" (usd 11) = Raise BudgetExceeded.
Proof. vm_compute. reflexivity. Qed.

Example group_freed :
  is_ok (db ← settle spend_after "q1" (Some (usd 49)); reserve db "finals" "r2" "upstage" "q2" (usd 11)) = true.
Proof. vm_compute. reflexivity. Qed.

Lemma spend_after_reachable : spend_reachable spend_after.
Proof.
  apply (spend_run_reachable spend_ops empty_spend).
  - repeat constructor; vm_compute; done.
  - apply rtc_refl.
  - vm_compute. reflexivity.
Qed.

Definition group_cap : decimal := {| d_neg := false; d_coef := 60; d_exp := -2 |}.

Lemma spend_after_cap : cap_of spend_after "finals" (Group "g") group_cap.
Proof. exists "r1". eexists. split; [vm_compute; reflexivity|]. done. Qed.

Lemma spend_caps_hold_witness :
  d_leb (total (event_rows spend_after "finals") (of_group "g")) group_cap = true.
Proof.
  exact (proj1 (spend_caps_hold spend_after "finals" (Group "g") group_cap spend_after_reachable
                  spend_after_cap)).
Defined.
