(* ===== verification/Authorization.v ===== *)
(** * Sessions, memberships and authorization.

    [application/authorization.py] with its two ports as classes, the local
    in-memory stores of [adapters/local/auth_store.py] as their instances, and
    [rotate_session] and [logout] of [apps/api/src/proofops_api/session.py].
    A finite timestamp is its exact value, a rational; the fresh session ids
    and the HMAC are parameters; the lock makes each store operation atomic. *)
From S2P Require Import Prelude PyVal JsonCodec Decimal Values PyDate Digest RulePack Geometry.
From stdpp Require Import gmap.
From Stdlib Require Import QArith.
Open Scope nat_scope.
Open Scope py_scope.

(* ------------------------------------------------------------------ *)
(** ** Roles and records *)
(* ------------------------------------------------------------------ *)

(** A capability has the name of the role that stands for it.
    [application/authorization.py:32-33 Role] *)
Inductive Role : Set := Viewer | Editor | Reviewer | Admin.

#[export] Instance role_eq_dec : EqDecision Role.
Proof. solve_decision. Defined.

Definition role_of_str (s : pystr) : option Role :=
  if s =s? "viewer" then Some Viewer else if s =s? "editor" then Some Editor
  else if s =s? "reviewer" then Some Reviewer else if s =s? "admin" then Some Admin else None.

(** [application/authorization.py:38-43 _ROLE_CAPABILITIES] *)
Definition ROLE_CAPABILITIES (r : Role) : list Role :=
  match r with
  | Viewer => [Viewer]
  | Editor => [Viewer; Editor]
  | Reviewer => [Viewer; Reviewer]
  | Admin => [Viewer; Editor; Reviewer; Admin]
  end.

(** A Python value given as a timestamp: a finite number, or anything else (a
    boolean, a NaN, an infinity, another type). *)
Inductive timestamp : Set := Finite (q : Q) | NotFinite.

Definition finite (t : timestamp) (what : pystr) : result Q :=
  match t with Finite q => Ok q | NotFinite => Raise (ValueError what) end.

(** [application/authorization.py:67-77 SessionRecord] *)
Record SessionRecord : Set := {
  se_session_id : pystr; se_user_sub : pystr; se_active_tenant_id : option pystr;
  se_csrf_hash : pystr; se_expires_at : Q; se_idle_deadline : Q; se_revoked : bool }.

(** [revoked] is [None] for a value that is not a bool.
    [application/authorization.py:79-91 SessionRecord.__post_init__] *)
Definition mk_SessionRecord (id user : pystr) (tenant : option pystr) (csrf : pystr)
    (expires_at idle_deadline : timestamp) (revoked : option bool) : result SessionRecord :=
  expires ← finite expires_at "expires_at must be a finite timestamp";
  idle ← finite idle_deadline "idle_deadline must be a finite timestamp";
  revoked ← of_option (ValueError "revoked must be a bool") revoked;
  Ok {| se_session_id := id; se_user_sub := user; se_active_tenant_id := tenant;
        se_csrf_hash := csrf; se_expires_at := expires; se_idle_deadline := idle;
        se_revoked := revoked |}.

(** [application/authorization.py:94-101 MembershipRecord] *)
Record MembershipRecord : Set := {
  me_tenant_id : pystr; me_user_sub : pystr; me_role : Role; me_active : bool }.

(** [application/authorization.py:103-107 MembershipRecord.__post_init__] *)
Definition mk_MembershipRecord (tenant user role status : pystr) : result MembershipRecord :=
  r ← of_option (ValueError "unknown role") (role_of_str role);
  _ ← require (str_in status ["active"; "revoked"]) (ValueError "unknown membership status");
  Ok {| me_tenant_id := tenant; me_user_sub := user; me_role := r; me_active := status =s? "active" |}.

(** [application/authorization.py:110-118 AuthContext] *)
Record AuthContext : Set := {
  ac_user_sub : pystr; ac_tenant_id : pystr; ac_role : Role; ac_capabilities : list Role;
  ac_session_id : pystr }.

(** [application/authorization.py:120-121 has_capability] *)
Definition has_capability (a : AuthContext) (c : Role) : bool :=
  existsb (λ d, bool_decide (c = d)) (ac_capabilities a).

(* ------------------------------------------------------------------ *)
(** ** The ports *)
(* ------------------------------------------------------------------ *)

(** A session store in state [S]; an operation that raises leaves the state.
    [application/authorization.py:124-133 SessionPort] *)
Class SessionPort (S : Type) := {
  session_get : S → pystr → result (option SessionRecord);
  csrf_token_for : S → pystr → result (option pystr);
  set_active_tenant : S → pystr → pystr → Q → result (SessionRecord * S);
  revoke : S → pystr → result S }.

(** [application/authorization.py:136-145 MembershipPort] *)
Class MembershipPort (M : Type) := {
  membership_get : M → pystr → pystr → option MembershipRecord;
  tenant_exists : M → pystr → bool }.

(* ------------------------------------------------------------------ *)
(** ** Authorization *)
(* ------------------------------------------------------------------ *)

Section authorization.
Context {S M : Type} `{SessionPort S} `{MembershipPort M}.

(** [now < expires_at] and [now < idle_deadline] *)
Definition in_time (s : SessionRecord) (now : Q) : bool :=
  negb (Qle_bool (se_expires_at s) now || Qle_bool (se_idle_deadline s) now).

(** [application/authorization.py:148-156 _check_live_session] *)
Definition check_live_session (sessions : S) (id : pystr) (now : timestamp) : result (SessionRecord * Q) :=
  now ← finite now "now must be a finite timestamp";
  found ← session_get sessions id;
  match found with
  | None => Raise SessionExpiredError
  | Some s =>
      if se_revoked s then Raise SessionExpiredError
      else if in_time s now then Ok (s, now) else Raise SessionExpiredError
  end.

(** [application/authorization.py:159-161 get_live_session] *)
Definition get_live_session (sessions : S) (id : pystr) (now : timestamp) : result SessionRecord :=
  r ← check_live_session sessions id now; Ok r.1.

(** [application/authorization.py:164-176 _live_membership] *)
Definition live_membership (members : M) (tenant user : pystr) : result MembershipRecord :=
  match membership_get members tenant user with
  | Some r => if me_active r then Ok r else Raise TenantNotFoundError
  | None => Raise TenantNotFoundError
  end.

(** [application/authorization.py:238-244 authorize] *)
Definition context_of (user tenant : pystr) (r : MembershipRecord) (session : pystr) : AuthContext :=
  {| ac_user_sub := user; ac_tenant_id := tenant; ac_role := me_role r;
     ac_capabilities := ROLE_CAPABILITIES (me_role r); ac_session_id := session |}.

(** [application/authorization.py:179-244 authorize] *)
Definition authorize (sessions : S) (members : M) (id : pystr) (now : timestamp)
    (required : Role) (requested : option pystr) : result AuthContext :=
  r ← check_live_session sessions id now;
  let session := r.1 in
  tenant ← of_option CapabilityDeniedError (se_active_tenant_id session);
  _ ← (match requested with
       | Some t =>
           if t =s? tenant then Ok tt
           else _ ← live_membership members t (se_user_sub session); Raise TenantNotFoundError
       | None => Ok tt
       end);
  m ← live_membership members tenant (se_user_sub session);
  _ ← require (existsb (λ c, bool_decide (required = c)) (ROLE_CAPABILITIES (me_role m)))
        CapabilityDeniedError;
  Ok (context_of (se_user_sub session) tenant m (se_session_id session)).

(** [application/authorization.py:247-278 select_tenant] *)
Definition select_tenant (sessions : S) (members : M) (id tenant : pystr) (now : timestamp)
    : result (AuthContext * S) :=
  r ← check_live_session sessions id now;
  m ← live_membership members tenant (se_user_sub r.1);
  u ← set_active_tenant sessions id tenant r.2;
  Ok (context_of (se_user_sub u.1) tenant m (se_session_id u.1), u.2).

(** [src/apps/api/src/proofops_api/session.py:30-38 rotate_session] *)
Definition rotate_session (sessions : S) (id tenant : pystr) (now : Q) : result (SessionRecord * S) :=
  set_active_tenant sessions id tenant now.

(** [src/apps/api/src/proofops_api/session.py:41-44 logout] *)
Definition logout (sessions : S) (id : pystr) (now : timestamp) : result S :=
  _ ← get_live_session sessions id now; revoke sessions id.
End authorization.

(* ------------------------------------------------------------------ *)
(** ** The in-memory stores *)
(* ------------------------------------------------------------------ *)

Section in_memory.
Context `{Digest}.

Definition hex_value (c : N) : N := (if c <? 58 then c - 48 else c - 87)%N.

(** The bytes a hexadecimal digest stands for. *)
Fixpoint unhex (s : pystr) : list N :=
  match s with
  | a :: b :: r => (hex_value a * 16 + hex_value b)%N :: unhex r
  | _ => []
  end.

(** [hmac.new(key, message, hashlib.sha256).hexdigest()], block size 64. *)
Definition hmac_sha256 (key message : list N) : pystr :=
  let key := if (64 <? length key)%nat then unhex (sha256_hex key) else key in
  let block := key ++ replicate (64 - length key) 0%N in
  let pad (c : N) := N.lxor c <$> block in
  sha256_hex (pad 92%N ++ unhex (sha256_hex (pad 54%N ++ message))).

(** [adapters/local/auth_store.py:39-41 hash_token] *)
Definition hash_token (token : pystr) : result pystr :=
  bytes ← encode_utf8 token; Ok (sha256_hex bytes).

(** [adapters/local/auth_store.py:44-53 _StoredSession] *)
Record StoredSession : Set := {
  st_user_sub : pystr; st_active_tenant_id : option pystr; st_csrf_hash : pystr;
  st_expires_at : Q; st_idle_deadline : Q; st_is_revoked : bool }.

(** [adapters/local/auth_store.py:55-64 from_record] *)
Definition from_record (r : SessionRecord) (csrf_hash : pystr) : StoredSession :=
  {| st_user_sub := se_user_sub r; st_active_tenant_id := se_active_tenant_id r;
     st_csrf_hash := csrf_hash; st_expires_at := se_expires_at r;
     st_idle_deadline := se_idle_deadline r; st_is_revoked := se_revoked r |}.

(** [adapters/local/auth_store.py:66-75 project] *)
Definition project (s : StoredSession) (id : pystr) : SessionRecord :=
  {| se_session_id := id; se_user_sub := st_user_sub s; se_active_tenant_id := st_active_tenant_id s;
     se_csrf_hash := st_csrf_hash s; se_expires_at := st_expires_at s;
     se_idle_deadline := st_idle_deadline s; se_revoked := st_is_revoked s |}.

(** The sessions by hashed id, and the ids [secrets.token_urlsafe] has yet to
    give, a stream.
    [adapters/local/auth_store.py:87-90 InMemorySessionStore.__init__] *)
Record SessionStore : Type := {
  ss_sessions : gmap pystr StoredSession; ss_csrf_secret : list N; ss_tokens : nat → pystr }.

(** [adapters/local/auth_store.py:34-36 new_session_id] *)
Definition new_session_id (db : SessionStore) : pystr := ss_tokens db 0.

(** [adapters/local/auth_store.py:95-100 _csrf_token] *)
Definition csrf_token (db : SessionStore) (id : pystr) : result pystr :=
  bytes ← encode_utf8 id; Ok (hmac_sha256 (ss_csrf_secret db) bytes).

Definition with_sessions (db : SessionStore) (m : gmap pystr StoredSession) : SessionStore :=
  {| ss_sessions := m; ss_csrf_secret := ss_csrf_secret db; ss_tokens := ss_tokens db |}.

(** [adapters/local/auth_store.py:102-106 _stored] *)
Definition stored (db : SessionStore) (r : SessionRecord) : result StoredSession :=
  token ← csrf_token db (se_session_id r);
  h ← hash_token token;
  Ok (from_record r h).

(** [adapters/local/auth_store.py:108-110 put] *)
Definition put_session (db : SessionStore) (r : SessionRecord) : result SessionStore :=
  s ← stored db r;
  k ← hash_token (se_session_id r);
  Ok (with_sessions db (<[k := s]> (ss_sessions db))).

(** [secrets.compare_digest] of a digest with a string: text must be ASCII. *)
Definition compare_digest (digest given : pystr) : result bool :=
  _ ← require (forallb (λ c, c <? 128)%N given) TypeError; Ok (digest =s? given).

(** [adapters/local/auth_store.py:112-117 put_with_token] *)
Definition put_with_token (db : SessionStore) (r : SessionRecord) (token : pystr) : result SessionStore :=
  h ← hash_token token;
  same ← compare_digest h (se_csrf_hash r);
  _ ← require same (ValueError "CSRF hash/token mismatch");
  put_session db r.

(** [adapters/local/auth_store.py:119-123 csrf_token_for] *)
Definition memory_csrf_token_for (db : SessionStore) (id : pystr) : result (option pystr) :=
  k ← hash_token id;
  match ss_sessions db !! k with
  | None => Ok None
  | Some _ => t ← csrf_token db id; Ok (Some t)
  end.

(** [adapters/local/auth_store.py:125-128 get] *)
Definition memory_get (db : SessionStore) (id : pystr) : result (option SessionRecord) :=
  k ← hash_token id; Ok ((λ s, project s id) <$> (ss_sessions db !! k)).

(** [replace(existing, revoked=True)] *)
Definition as_revoked (s : StoredSession) : StoredSession :=
  {| st_user_sub := st_user_sub s; st_active_tenant_id := st_active_tenant_id s;
     st_csrf_hash := st_csrf_hash s; st_expires_at := st_expires_at s;
     st_idle_deadline := st_idle_deadline s; st_is_revoked := true |}.

(** [adapters/local/auth_store.py:130-135 revoke] *)
Definition memory_revoke (db : SessionStore) (id : pystr) : result SessionStore :=
  k ← hash_token id;
  Ok (match ss_sessions db !! k with
      | Some s => with_sessions db (<[k := as_revoked s]> (ss_sessions db))
      | None => db
      end).

(** The session the rotation writes.
    [adapters/local/auth_store.py:150-158 set_active_tenant] *)
Definition rotated (s : StoredSession) (id tenant csrf : pystr) : SessionRecord :=
  {| se_session_id := id; se_user_sub := st_user_sub s; se_active_tenant_id := Some tenant;
     se_csrf_hash := csrf; se_expires_at := st_expires_at s; se_idle_deadline := st_idle_deadline s;
     se_revoked := false |}.

(** [adapters/local/auth_store.py:137-167 set_active_tenant] *)
Definition memory_set_active_tenant (db : SessionStore) (id tenant : pystr) (now : Q)
    : result (SessionRecord * SessionStore) :=
  old ← hash_token id;
  existing ← of_option SessionExpiredError (ss_sessions db !! old);
  _ ← require (negb (st_is_revoked existing) && in_time (project existing id) now) SessionExpiredError;
  let new := new_session_id db in
  token ← csrf_token db new;
  h ← hash_token token;
  let r := rotated existing new tenant h in
  k ← hash_token new;
  let m := <[old := as_revoked existing]> (<[k := from_record r h]> (ss_sessions db)) in
  Ok (r, {| ss_sessions := m; ss_csrf_secret := ss_csrf_secret db;
            ss_tokens := λ n, ss_tokens db (S n) |}).

#[export] Instance memory_sessions : SessionPort SessionStore := {
  session_get := memory_get; csrf_token_for := memory_csrf_token_for;
  set_active_tenant := memory_set_active_tenant; revoke := memory_revoke }.
End in_memory.

(** Memberships by tenant and user, and the tenants ever seen.
    [adapters/local/auth_store.py:173-176 InMemoryMembershipStore.__init__] *)
Record MembershipStore : Set := {
  ms_memberships : gmap (pystr * pystr) MembershipRecord; ms_tenants : gset pystr }.

(** [adapters/local/auth_store.py:178-181 put] *)
Definition put_membership (db : MembershipStore) (r : MembershipRecord) : MembershipStore :=
  {| ms_memberships := <[(me_tenant_id r, me_user_sub r) := r]> (ms_memberships db);
     ms_tenants := {[me_tenant_id r]} ∪ ms_tenants db |}.

(** [adapters/local/auth_store.py:183-185 get] *)
Definition memory_membership_get (db : MembershipStore) (tenant user : pystr) : option MembershipRecord :=
  ms_memberships db !! (tenant, user).

(** [adapters/local/auth_store.py:187-189 tenant_exists] *)
Definition memory_tenant_exists (db : MembershipStore) (tenant : pystr) : bool :=
  bool_decide (tenant ∈ ms_tenants db).

#[export] Instance memory_memberships : MembershipPort MembershipStore := {
  membership_get := memory_membership_get; tenant_exists := memory_tenant_exists }.
