(* ===== verification/AuthorizationSpec.v ===== *)
(** * What authorization promises.

    An exact account of [authorize] over any pair of ports; the hiding of
    tenants from non-members, as equality of the responses of two worlds that
    differ in everything but the caller's own active memberships; and, for the
    in-memory store, that a revoked or rotated session stays dead and that
    rotation neither extends nor multiplies sessions. *)
From S2P Require Import Prelude PyVal JsonCodec Decimal Values PyDate Digest RulePack Geometry Authorization.
From stdpp Require Import gmap.
From Stdlib Require Import QArith.
Open Scope nat_scope.
Open Scope py_scope.

Lemma existsb_in (c : Role) l : existsb (λ d, bool_decide (c = d)) l = true ↔ c ∈ l.
Proof.
  rewrite existsb_exists. split.
  - by intros (d & Hd%list_elem_of_In & ->%bool_decide_eq_true).
  - intros Hc. exists c. split; [by apply list_elem_of_In|by apply bool_decide_eq_true].
Qed.

(** Viewing is everyone's; editing and reviewing are siblings under admin. *)
Lemma capability_order r c : c ∈ ROLE_CAPABILITIES r ↔ c = Viewer ∨ c = r ∨ r = Admin.
Proof.
  rewrite <- existsb_in. destruct r, c; vm_compute; intuition congruence.
Qed.

Section ports.
Context {S M : Type} `{SessionPort S} `{MembershipPort M}.

(** A session that may act now. *)
Record live (sessions : S) (id : pystr) (now : Q) (s : SessionRecord) : Prop := {
  lv_found : session_get sessions id = Ok (Some s);
  lv_unrevoked : se_revoked s = false;
  lv_expires : ¬ (se_expires_at s <= now)%Q;
  lv_idle : ¬ (se_idle_deadline s <= now)%Q }.

Definition member (members : M) (tenant user : pystr) (r : MembershipRecord) : Prop :=
  membership_get members tenant user = Some r ∧ me_active r = true.

Lemma in_time_iff s now : in_time s now = true ↔ ¬ (se_expires_at s <= now)%Q ∧ ¬ (se_idle_deadline s <= now)%Q.
Proof.
  unfold in_time. rewrite negb_true_iff, orb_false_iff, <- !not_true_iff_false, !Qle_bool_iff. done.
Qed.

Lemma check_live_session_Ok sessions id now s q :
  check_live_session sessions id now = Ok (s, q) ↔ now = Finite q ∧ live sessions id q s.
Proof.
  unfold check_live_session. split.
  - intros (q' & Hq & Hs)%bind_Ok_inv. destruct now as [q0|]; [|done]. injection Hq as ->.
    apply bind_Ok_inv in Hs as (o & Ho & Hs). destruct o as [s'|]; [|done].
    destruct (se_revoked s') eqn:Hr; [done|]. destruct (in_time s' q') eqn:Ht; [|done].
    injection Hs as -> ->. apply in_time_iff in Ht as [? ?]. by split.
  - intros [-> [Hf Hr He Hi]]. cbn. rewrite Hf. cbn. rewrite Hr, (proj2 (in_time_iff s q)); done.
Qed.

Lemma live_membership_Ok members t u r : live_membership members t u = Ok r ↔ member members t u r.
Proof.
  unfold live_membership, member. destruct (membership_get members t u) as [r'|];
    [|split; [discriminate|by intros [[=] _]]].
  destruct (me_active r') eqn:E.
  - split; [by intros [= ->]|by intros [[= ->] _]].
  - split; [discriminate|]. intros [[= ->] Ha]. congruence.
Qed.

(** C33: what [authorize] grants, exactly. It returns a context if and only if
    the session is stored, unrevoked and before both deadlines, has an active
    tenant, the requested tenant is none or that one, the session's user is
    an active member there and the member's role is allowed the capability;
    the context is then that user's, in that tenant, with that role. *)
Theorem authorize_exact sessions members id now required requested ctx :
  authorize sessions members id now required requested = Ok ctx ↔
  ∃ q s tenant r, now = Finite q ∧ live sessions id q s ∧ se_active_tenant_id s = Some tenant
    ∧ (requested = None ∨ requested = Some tenant)
    ∧ member members tenant (se_user_sub s) r
    ∧ (required = Viewer ∨ required = me_role r ∨ me_role r = Admin)
    ∧ ctx = context_of (se_user_sub s) tenant r (se_session_id s).
Proof.
  unfold authorize. split.
  - intros ([s q] & [-> Hl]%check_live_session_Ok & Hrun)%bind_Ok_inv. cbn [fst] in Hrun.
    apply bind_Ok_inv in Hrun as (tenant & Ht%of_option_Ok & Hrun).
    apply bind_Ok_inv in Hrun as ([] & Hreq & Hrun).
    apply bind_Ok_inv in Hrun as (r & Hr%live_membership_Ok & Hrun).
    apply bind_Ok_inv in Hrun as (_ & Hcap%require_Ok%existsb_in%capability_order & [= <-]).
    exists q, s, tenant, r. split_and!; try done. destruct requested as [t|]; [|by left]. right.
    destruct (str_eqb_spec t tenant) as [->|]; [done|].
    by apply bind_Ok_inv in Hreq as (? & _ & [=]).
  - intros (q & s & tenant & r & -> & Hl & Ht & Hreq & Hm & Hcap & ->).
    rewrite (proj2 (check_live_session_Ok sessions id (Finite q) s q) (conj eq_refl Hl)). cbn [mbind result_bind fst].
    rewrite Ht. cbn [of_option mbind result_bind].
    assert (Hr : match requested with
                 | Some t => if t =s? tenant then Ok tt
                             else _ ← live_membership members t (se_user_sub s); Raise TenantNotFoundError
                 | None => Ok tt end = Ok tt) by (destruct Hreq as [-> | ->]; [done|by rewrite str_eqb_refl]).
    rewrite Hr. cbn [mbind result_bind]. rewrite (proj2 (live_membership_Ok _ _ _ _) Hm). cbn [mbind result_bind].
    by rewrite (proj2 (existsb_in _ _) (proj2 (capability_order _ _) Hcap)).
Qed.

(** What a caller can ask. *)
Inductive call : Set :=
| CallAuthorize (id : pystr) (now : timestamp) (required : Role) (requested : option pystr)
| CallSelect (id tenant : pystr) (now : timestamp)
| CallLogout (id : pystr) (now : timestamp).

Definition call_session (c : call) : pystr :=
  match c with CallAuthorize id _ _ _ | CallSelect id _ _ | CallLogout id _ => id end.

(** The answer: a context, nothing, or the error; and the session store after. *)
Definition serve (members : M) (sessions : S) (c : call) : result (option AuthContext) * S :=
  match c with
  | CallAuthorize id now required requested =>
      (a ← authorize sessions members id now required requested; Ok (Some a), sessions)
  | CallSelect id tenant now =>
      match select_tenant sessions members id tenant now with
      | Ok (a, sessions') => (Ok (Some a), sessions')
      | Raise e => (Raise e, sessions)
      end
  | CallLogout id now =>
      match logout sessions id now with
      | Ok sessions' => (Ok None, sessions')
      | Raise e => (Raise e, sessions)
      end
  end.

Fixpoint serve_all (members : M) (sessions : S) (calls : list call)
    : list (result (option AuthContext)) * S :=
  match calls with
  | [] => ([], sessions)
  | c :: calls =>
      let '(a, sessions') := serve members sessions c in
      let '(rest, last) := serve_all members sessions' calls in (a :: rest, last)
  end.

(** Every call of the sequence presents an id that is no session of another
    user, in the state it meets. *)
Fixpoint calls_by (user : pystr) (members : M) (sessions : S) (calls : list call) : Prop :=
  match calls with
  | [] => True
  | c :: calls =>
      (∀ s, session_get sessions (call_session c) = Ok (Some s) → se_user_sub s = user)
      ∧ calls_by user members (serve members sessions c).2 calls
  end.

(** The two worlds differ at most in what is not an active membership of the
    user: other users, revoked records, the existence of tenants. *)
Definition same_to (user : pystr) (m1 m2 : M) : Prop :=
  ∀ t r, member m1 t user r ↔ member m2 t user r.

Lemma live_membership_same user m1 m2 t : same_to user m1 m2 →
  live_membership m1 t user = live_membership m2 t user.
Proof.
  intros Hs. destruct (live_membership m1 t user) as [r|e] eqn:E1.
  - symmetry. apply live_membership_Ok, Hs. by apply live_membership_Ok.
  - destruct (live_membership m2 t user) as [r|e'] eqn:E2.
    + apply live_membership_Ok, Hs, live_membership_Ok in E2. congruence.
    + unfold live_membership in *. repeat case_match; congruence.
Qed.

Lemma serve_same user m1 m2 sessions c : same_to user m1 m2 →
  (∀ s, session_get sessions (call_session c) = Ok (Some s) → se_user_sub s = user) →
  serve m1 sessions c = serve m2 sessions c.
Proof.
  intros Hs Hu. destruct c as [id now required requested|id tenant now|id now]; [| |done]; cbn in Hu |- *.
  - unfold authorize. destruct (check_live_session sessions id now) as [[s q]|e] eqn:E; [|done].
    apply check_live_session_Ok in E as [_ [Hf _ _ _]]. cbn [mbind result_bind fst]. rewrite (Hu s Hf).
    destruct (se_active_tenant_id s) as [tenant|]; [|done]. cbn [of_option mbind result_bind].
    rewrite (live_membership_same user m1 m2 tenant Hs). destruct requested as [t|]; [|done].
    by rewrite (live_membership_same user m1 m2 t Hs).
  - unfold select_tenant. destruct (check_live_session sessions id now) as [[s q]|e] eqn:E; [|done].
    apply check_live_session_Ok in E as [_ [Hf _ _ _]]. cbn [mbind result_bind fst]. rewrite (Hu s Hf).
    by rewrite (live_membership_same user m1 m2 tenant Hs).
Qed.

(** Existence is never leaked. However a user drives the API with sessions
    of theirs, every answer, error and state after is the same in two worlds
    with the same active memberships of that user: whether a tenant they do
    not belong to exists, who else belongs to it, or whether a membership of
    theirs was revoked or never was, cannot be observed. *)
Theorem tenant_existence_hidden user m1 m2 sessions calls :
  same_to user m1 m2 → calls_by user m1 sessions calls →
  serve_all m1 sessions calls = serve_all m2 sessions calls.
Proof.
  intros Hs. revert sessions. induction calls as [|c calls IH]; intros sessions; [done|].
  intros [Hu Hrest]. cbn [serve_all]. rewrite <- (serve_same user m1 m2 sessions c Hs Hu).
  destruct (serve m1 sessions c) as [a sessions']. cbn [snd] in Hrest. by rewrite (IH _ Hrest).
Qed.
End ports.

(* ------------------------------------------------------------------ *)
(** ** The in-memory store over time *)
(* ------------------------------------------------------------------ *)

Section memory.
Context `{Digest}.

(** The operations of the store that write. *)
Inductive store_op : Set :=
| OpPut (r : SessionRecord)
| OpPutWithToken (r : SessionRecord) (token : pystr)
| OpRevoke (id : pystr)
| OpRotate (id tenant : pystr) (now : Q).

Definition run_op (db : SessionStore) (op : store_op) : result SessionStore :=
  match op with
  | OpPut r => put_session db r
  | OpPutWithToken r token => put_with_token db r token
  | OpRevoke id => memory_revoke db id
  | OpRotate id tenant now => u ← memory_set_active_tenant db id tenant now; Ok u.2
  end.

(** An operation that raises changes nothing. *)
Definition after_op (db : SessionStore) (op : store_op) : SessionStore :=
  match run_op db op with Ok db' => db' | Raise _ => db end.

Definition after_ops (db : SessionStore) (ops : list store_op) : SessionStore := foldl after_op db ops.

Definition login (op : store_op) : bool :=
  match op with OpPut _ | OpPutWithToken _ _ => true | _ => false end.

(** The keys an operation creates. *)
Definition creates (db : SessionStore) (op : store_op) (k : pystr) : Prop :=
  match op with
  | OpPut r | OpPutWithToken r _ => hash_token (se_session_id r) = Ok k
  | OpRevoke _ => False
  | OpRotate _ _ _ => hash_token (new_session_id db) = Ok k
  end.

(** No operation of the sequence creates a session under the key. *)
Fixpoint never_creates (k : pystr) (db : SessionStore) (ops : list store_op) : Prop :=
  match ops with
  | [] => True
  | op :: ops => ¬ creates db op k ∧ never_creates k (after_op db op) ops
  end.

(** What an operation does to a key it does not create: nothing, or it is
    revoked. *)
Lemma run_op_key db op db' k : run_op db op = Ok db' → ¬ creates db op k →
  ss_sessions db' !! k = ss_sessions db !! k
  ∨ ∃ s, ss_sessions db !! k = Some s ∧ ss_sessions db' !! k = Some (as_revoked s).
Proof.
  assert (Hput : ∀ r db', put_session db r = Ok db' → hash_token (se_session_id r) ≠ Ok k →
                   ss_sessions db' !! k = ss_sessions db !! k).
  { intros r db0 (s & _ & (k' & Hk & [= <-])%bind_Ok_inv)%bind_Ok_inv Hne. cbn.
    apply lookup_insert_ne. intros ->. by apply Hne. }
  destruct op as [r|r token|id|id tenant now]; cbn [run_op creates].
  - intros Hr Hc. left. by eapply Hput.
  - intros Hr Hc. left. unfold put_with_token in Hr. open_run Hr. by eapply Hput.
  - intros (k' & Hk & [= <-])%bind_Ok_inv _. destruct (ss_sessions db !! k') as [s|] eqn:E; [|by left]. cbn.
    destruct (decide (k' = k)) as [->|Hne]; [right; exists s; by rewrite lookup_insert_eq|].
    left. by apply lookup_insert_ne.
  - intros (u & Hu & [= <-])%bind_Ok_inv Hc. unfold memory_set_active_tenant in Hu.
    apply bind_Ok_inv in Hu as (old & Hold & Hu). apply bind_Ok_inv in Hu as (s & Hs%of_option_Ok & Hu).
    apply bind_Ok_inv in Hu as (_ & _ & Hu). apply bind_Ok_inv in Hu as (tok & _ & Hu).
    apply bind_Ok_inv in Hu as (h & _ & Hu). apply bind_Ok_inv in Hu as (k' & Hk & [= <-]). cbn.
    destruct (decide (old = k)) as [->|Hne]; [right; exists s; by rewrite lookup_insert_eq|].
    left. rewrite lookup_insert_ne by done. apply lookup_insert_ne. intros ->. by apply Hc.
Qed.

(** Nothing lives under the key. *)
Definition dead (db : SessionStore) (k : pystr) : Prop :=
  ∀ s, ss_sessions db !! k = Some s → st_is_revoked s = true.

Lemma after_op_dead db op k : dead db k → ¬ creates db op k → dead (after_op db op) k.
Proof.
  intros Hd Hc. unfold after_op. destruct (run_op db op) as [db'|] eqn:E; [|done].
  destruct (run_op_key _ _ _ _ E Hc) as [Hk|(s & Hs & Hk)]; intros s'; rewrite Hk; [apply Hd|].
  by intros [= <-].
Qed.

Lemma after_ops_dead db ops k : dead db k → never_creates k db ops → dead (after_ops db ops) k.
Proof.
  revert db. induction ops as [|op ops IH]; intros db Hd; [done|]. intros [Hc Hrest].
  apply IH; [by apply after_op_dead|done].
Qed.

(** An operation that ends the session of an id. *)
Definition ends (id : pystr) (op : store_op) : Prop :=
  op = OpRevoke id ∨ ∃ tenant now, op = OpRotate id tenant now.

Lemma ends_dead db id k op db' : hash_token id = Ok k → ends id op → run_op db op = Ok db' → dead db' k.
Proof.
  intros Hk [->|(tenant & now & ->)]; cbn [run_op].
  - unfold memory_revoke. rewrite Hk. cbn. intros [= <-] s.
    destruct (ss_sessions db !! k) eqn:E; cbn; [|congruence]. rewrite lookup_insert_eq. by intros [= <-].
  - unfold memory_set_active_tenant. rewrite Hk. cbn [mbind result_bind].
    intros (u & Hu & [= <-])%bind_Ok_inv. apply bind_Ok_inv in Hu as (s & _ & Hu).
    apply bind_Ok_inv in Hu as (_ & _ & Hu). apply bind_Ok_inv in Hu as (tok & _ & Hu).
    apply bind_Ok_inv in Hu as (h & _ & Hu). apply bind_Ok_inv in Hu as (k' & _ & [= <-]). cbn.
    intros s'. cbn. rewrite lookup_insert_eq. by intros [= <-].
Qed.

Lemma dead_check db id k q : hash_token id = Ok k → dead db k →
  check_live_session db id (Finite q) = Raise SessionExpiredError.
Proof.
  intros Hk Hd. unfold check_live_session. cbn. unfold memory_get. rewrite Hk. cbn.
  destruct (ss_sessions db !! k) as [s|] eqn:E; [|done]. cbn. by rewrite (Hd s E).
Qed.

(** A logged-out or rotated session id is powerless for good. Once it is
    revoked, or exchanged for a new one by selecting a tenant, no later
    sequence of logins, rotations and revocations of other ids lets it
    authorize, select a tenant or log out, at any time, whatever the
    memberships: every attempt is a [SessionExpiredError]. *)
Theorem ended_session_powerless db id k op db' ops (members : MembershipStore) q required requested tenant :
  hash_token id = Ok k → ends id op → run_op db op = Ok db' → never_creates k db' ops →
  let last := after_ops db' ops in
  authorize last members id (Finite q) required requested = Raise SessionExpiredError
  ∧ select_tenant last members id tenant (Finite q) = Raise SessionExpiredError
  ∧ logout last id (Finite q) = Raise SessionExpiredError.
Proof.
  intros Hk He Hop Hnever last.
  assert (Hd : dead last k) by (eapply after_ops_dead; [by eapply ends_dead|done]).
  pose proof (dead_check last id k q Hk Hd) as Hc.
  unfold authorize, select_tenant, logout, get_live_session. by rewrite Hc.
Qed.

(** The sessions that are not revoked. *)
Definition unrevoked (db : SessionStore) : gmap pystr StoredSession :=
  filter (λ kv, st_is_revoked kv.2 = false) (ss_sessions db).

(** The user and deadlines of a stored session. *)
Definition lease_of (s : StoredSession) : pystr * Q * Q :=
  (st_user_sub s, st_expires_at s, st_idle_deadline s).

Definition leases_from (db db' : SessionStore) : Prop :=
  ∀ k s, ss_sessions db' !! k = Some s →
         ∃ k0 s0, ss_sessions db !! k0 = Some s0 ∧ lease_of s0 = lease_of s.

Lemma revoke_at_size (m : gmap pystr StoredSession) k s :
  (size (filter (λ kv, st_is_revoked kv.2 = false) (<[k := as_revoked s]> m))
   = size (delete k (filter (λ kv, st_is_revoked kv.2 = false) m)))%nat.
Proof. rewrite map_filter_insert_False; [|done]. by rewrite map_filter_delete. Qed.

Lemma size_delete_le {A} (m : gmap pystr A) k : (size (delete k m) <= size m)%nat.
Proof. rewrite map_size_delete. destruct (m !! k); unfold id; lia. Qed.

Lemma run_op_conserves db op db' : login op = false → run_op db op = Ok db' →
  (size (unrevoked db') <= size (unrevoked db))%nat ∧ leases_from db db'.
Proof.
  destruct op as [| |id|id tenant now]; cbn [login run_op]; try done; intros _.
  - intros (k & _ & [= <-])%bind_Ok_inv. destruct (ss_sessions db !! k) as [s|] eqn:E.
    + split; [unfold unrevoked; cbn; rewrite revoke_at_size; apply size_delete_le|].
      intros k' s'. cbn. intros [[<- <-]|[_ Hk]]%lookup_insert_Some; eauto.
    + split; [done|]. intros k' s' Hk. eauto.
  - intros (u & Hu & [= <-])%bind_Ok_inv. unfold memory_set_active_tenant in Hu.
    apply bind_Ok_inv in Hu as (old & _ & Hu). apply bind_Ok_inv in Hu as (s & Hs%of_option_Ok & Hu).
    apply bind_Ok_inv in Hu as (_ & [Hr%negb_true_iff _]%require_Ok%andb_true_iff & Hu).
    apply bind_Ok_inv in Hu as (tok & _ & Hu).
    apply bind_Ok_inv in Hu as (h & _ & Hu). apply bind_Ok_inv in Hu as (k & _ & [= <-]). cbn. split.
    + unfold unrevoked. cbn. rewrite revoke_at_size, map_filter_insert_True by done.
      destruct (decide (k = old)) as [->|Hne].
      * rewrite delete_insert_eq. apply size_delete_le.
      * rewrite delete_insert_ne by done. rewrite map_size_insert, map_size_delete.
        assert (Hold : filter (λ kv : pystr * StoredSession, st_is_revoked kv.2 = false)
                         (ss_sessions db) !! old = Some s) by by apply map_lookup_filter_Some.
        pose proof (map_size_ne_0_lookup_2 _ _ (mk_is_Some _ _ Hold)). rewrite Hold.
        case_match; unfold Datatypes.id; lia.
    + intros k' s'. cbn. intros [[<- <-]|[_ [[<- <-]|[_ Hk]]%lookup_insert_Some]]%lookup_insert_Some; eauto.
Qed.

(** Sessions come from logins only. Over any sequence of rotations and
    revocations the number of unrevoked sessions never grows, and every stored
    session has the user and the two deadlines of one that was there at the
    start: selecting tenants neither prolongs nor multiplies a login. *)
Theorem sessions_only_from_logins db ops :
  forallb (λ op, negb (login op)) ops = true →
  (size (unrevoked (after_ops db ops)) <= size (unrevoked db))%nat ∧ leases_from db (after_ops db ops).
Proof.
  revert db. induction ops as [|op ops IH]; intros db; cbn [forallb after_ops foldl].
  { intros _. split; [done|]. intros k s Hk. eauto. }
  intros [Hop%negb_true_iff Hops]%andb_true_iff. destruct (IH (after_op db op) Hops) as [Hsize Hfrom].
  assert (Hone : (size (unrevoked (after_op db op)) <= size (unrevoked db))%nat
                 ∧ leases_from db (after_op db op)).
  { unfold after_op. destruct (run_op db op) as [db'|] eqn:E; [by eapply run_op_conserves|].
    split; [done|]. intros k s Hk. eauto. }
  destruct Hone as [Hsize1 Hfrom1]. split; [unfold after_ops in Hsize; lia|].
  intros k s (k1 & s1 & Hk1 & <-)%Hfrom. by eapply Hfrom1.
Qed.
End memory.

(* ------------------------------------------------------------------ *)
(** ** Two worlds and a rotation *)
(* ------------------------------------------------------------------ *)

Section sample.
#[local] Existing Instance Checksum.

Definition login_of (id user : pystr) : SessionRecord :=
  {| se_session_id := id; se_user_sub := user; se_active_tenant_id := Some ("a" : pystr);
     se_csrf_hash := []; se_expires_at := 100; se_idle_deadline := 50; se_revoked := false |}.

Definition no_sessions : SessionStore :=
  {| ss_sessions := ∅; ss_csrf_secret := [1; 2]%N; ss_tokens := λ n, "t" ++ N_dec (N.of_nat n) |}.

(** One login of user "u", with id "s". *)
Definition one_session : SessionStore := after_op no_sessions (OpPut (login_of "s" "u")).

Definition membership (tenant user : pystr) (active : bool) : MembershipRecord :=
  {| me_tenant_id := tenant; me_user_sub := user; me_role := Editor; me_active := active |}.

Definition small_world : MembershipStore :=
  put_membership {| ms_memberships := ∅; ms_tenants := ∅ |} (membership "a" "u" true).

(** The same, with a tenant "b" of another user that "u" was expelled from. *)
Definition large_world : MembershipStore :=
  put_membership (put_membership small_world (membership "b" "v" true)) (membership "b" "u" false).

Definition probing : list call :=
  [CallSelect "s" "b" (Finite 1); CallAuthorize "s" (Finite 1) Viewer (Some ("b" : pystr));
   CallAuthorize "s" (Finite 1) Editor None; CallSelect "s" "a" (Finite 2);
   CallAuthorize "s" (Finite 2) Viewer None; CallLogout "t0" (Finite 3)].

Lemma same_worlds : same_to ("u" : pystr) large_world small_world.
Proof.
  intros t r. unfold member. cbn [membership_get memory_memberships]. unfold memory_membership_get, large_world.
  cbn [put_membership ms_memberships membership me_tenant_id me_user_sub].
  destruct (decide (t = "b")) as [->|Hne].
  - rewrite lookup_insert_eq. unfold small_world. cbn [put_membership ms_memberships membership me_tenant_id me_user_sub].
    rewrite lookup_insert_ne by discriminate. rewrite lookup_empty. split; [intros [[= <-] Ha]; discriminate Ha|by intros [[=] _]].
  - by rewrite !lookup_insert_ne by (intros [=]; subst; done).
Qed.

Lemma probing_by_u : calls_by ("u" : pystr) large_world one_session probing.
Proof.
  assert (Hall : forallb (λ c, match session_get one_session (call_session c) with
                               | Ok (Some s) => se_user_sub s =s? "u" | _ => true end) probing = true)
    by (vm_compute; reflexivity).
  cbn [calls_by probing]. repeat split; intros s Hs; vm_compute in Hs; try discriminate Hs; injection Hs as <-; reflexivity.
Qed.

Lemma tenant_existence_hidden_witness :
  tenant_exists large_world "b" = true ∧ tenant_exists small_world "b" = false
  ∧ serve_all large_world one_session probing = serve_all small_world one_session probing.
Proof.
  split; [vm_compute; reflexivity|]. split; [vm_compute; reflexivity|].
  exact (tenant_existence_hidden ("u" : pystr) large_world small_world one_session probing same_worlds probing_by_u).
Defined.

Definition later_ops : list store_op :=
  [OpPut (login_of "x" "v"); OpRotate "t0" "a" 2; OpRevoke "x"].

Abbreviation rotation := (run_op one_session (OpRotate "s" "a" 1)).

(** The later operations create other keys, and the new id "t0" became "t1". *)
Definition rotation_facts (db : SessionStore) (k : pystr) : bool :=
  bool_decide (¬ hash_token "x" = Ok k)
  && bool_decide (¬ hash_token (new_session_id (after_op db (OpPut (login_of "x" "v")))) = Ok k)
  && match authorize (after_ops db later_ops) small_world "t1" (Finite 3) Editor None with
     | Ok a => ac_tenant_id a =s? "a" | Raise _ => false end.

Lemma rotation_ok :
  match rotation, hash_token "s" with Ok db, Ok k => rotation_facts db k | _, _ => false end = true.
Proof. vm_compute. reflexivity. Qed.

Lemma ended_session_powerless_witness :
  ∃ db, rotation = Ok db
    ∧ authorize (after_ops db later_ops) small_world "s" (Finite 3) Viewer None = Raise SessionExpiredError
    ∧ ∃ ctx, authorize (after_ops db later_ops) small_world "t1" (Finite 3) Editor None = Ok ctx.
Proof.
  pose proof rotation_ok as Hf. destruct rotation as [db|e] eqn:E; [|discriminate Hf].
  destruct (hash_token "s") as [k|e] eqn:Hk; [|discriminate Hf].
  unfold rotation_facts in Hf. apply andb_true_iff in Hf as [[Hx Hn]%andb_true_iff Hlive].
  apply bool_decide_eq_true in Hx, Hn. exists db. split; [exact eq_refl|]. split.
  - refine (proj1 (ended_session_powerless one_session "s" k (OpRotate "s" "a" 1) db later_ops small_world
                     3 Viewer None "a" Hk (or_intror (ex_intro _ "a" (ex_intro _ 1%Q eq_refl))) E _)).
    split; [exact Hx|]. split; [exact Hn|]. split; [intros []|exact I].
  - destruct (authorize (after_ops db later_ops) small_world "t1" (Finite 3) Editor None) as [ctx|e];
      [by exists ctx|discriminate Hlive].
Defined.

Lemma sessions_only_from_logins_witness :
  (size (unrevoked (after_ops one_session [OpRotate "s" "a" 1; OpRotate "t0" "b" 2])) <= 1)%nat
  ∧ leases_from one_session (after_ops one_session [OpRotate "s" "a" 1; OpRotate "t0" "b" 2]).
Proof.
  exact (sessions_only_from_logins one_session [OpRotate "s" "a" 1; OpRotate "t0" "b" 2] eq_refl).
Defined.
End sample.
