(* ===== verification/Retention.v ===== *)
(** * Retention gates and verified deletion.

    [application/retention.py]: the policy gate, the deletion of a document's
    tree with its verification, the replay of tombstones after a restore, over
    the port a store implements (a class); and the local store of
    [apps/worker/src/proofops_worker/deletion.py] as its instance. The data and
    the ledger are two databases, so a restore replaces the resources and
    keeps the tombstones and attempts.

    A transaction is the operation itself: what raises leaves the store as it
    was. A row holds the manifest or result its JSON text stands for. Fresh
    deletion ids are a stream, and the database error a DELETE may meet is an
    argument of the store: the targets it refuses. *)
From S2P Require Import Prelude PyVal JsonCodec Decimal Values PyDate Digest.
Open Scope py_scope.

Section retention.

(** [application/retention.py:10-12 RESOURCE_KINDS] *)
Definition RESOURCE_KINDS : list pystr :=
  ["original"; "derived"; "search"; "cache"; "review"; "memory"; "export"; "backup"].

(** [application/retention.py:16-18 valid_time] *)
Definition valid_time (now : pyval) : result Z :=
  n ← require_strict_int now; _ ← reject (n <? 0)%Z (ValueError "now must be non-negative"); Ok n.

(** [application/retention.py:21-28 RetentionPolicy] *)
Record RetentionPolicy : Set := {
  po_tenant_id : pystr; po_document_id : pystr; po_policy_id : pystr; po_approved : bool;
  po_legal_hold : bool; po_retain_until : option Z }.

(** [application/retention.py:30-38 RetentionPolicy.__post_init__] *)
Definition mk_RetentionPolicy (p : RetentionPolicy) : result RetentionPolicy :=
  _ ← require_uuid (PStr (po_tenant_id p));
  _ ← require_uuid (PStr (po_document_id p));
  _ ← require (nonempty (strip (po_policy_id p))) (ValueError "policy_id required");
  _ ← match po_retain_until p with Some n => _ ← valid_time (PInt n); Ok tt | None => Ok tt end;
  Ok p.

(** [application/retention.py:40-45 blocks] *)
Definition blocks (p : RetentionPolicy) (now : Z) : bool :=
  negb (po_approved p) || po_legal_hold p
  || match po_retain_until p with Some t => (now <? t)%Z | None => false end.

(** [application/retention.py:48-53 DeletionTarget] *)
Record DeletionTarget : Set := {
  dt_version : pystr; dt_kind : pystr; dt_resource_id : pystr; dt_sha256 : pystr }.

#[export] Instance deletion_target_eq_dec : EqDecision DeletionTarget.
Proof. solve_decision. Defined.

(** [application/retention.py:55-61 DeletionTarget.__post_init__] *)
Definition mk_DeletionTarget (t : DeletionTarget) : result DeletionTarget :=
  _ ← require (str_in (dt_kind t) RESOURCE_KINDS) (ValueError "untracked resource kind");
  _ ← require (nonempty (dt_version t) && nonempty (dt_resource_id t))
        (ValueError "resource identity required");
  _ ← require ((py_len (dt_sha256 t) =? 64)%Z && forallb is_hex (dt_sha256 t))
        (ValueError "resource hash required");
  Ok t.

(** [application/retention.py:64-71 DeletionManifest] *)
Record DeletionManifest : Set := {
  dm_tenant_id : pystr; dm_document_id : pystr; dm_deletion_id : pystr; dm_requested_by : pystr;
  dm_requested_at : Z; dm_targets : list DeletionTarget }.

#[export] Instance deletion_manifest_eq_dec : EqDecision DeletionManifest.
Proof. solve_decision. Defined.

(** [application/retention.py:73-80 DeletionManifest.__post_init__] *)
Definition mk_DeletionManifest (tenant document deletion by_whom : pystr) (now : pyval)
    (targets : list DeletionTarget) : result DeletionManifest :=
  tenant ← require_uuid (PStr tenant);
  document ← require_uuid (PStr document);
  deletion ← require_uuid (PStr deletion);
  n ← valid_time now;
  _ ← require (nonempty by_whom) (ValueError "requested_by required");
  _ ← require (all_distinct (λ a b, bool_decide (a = b)) targets)
        (ValueError "unique immutable targets required");
  Ok {| dm_tenant_id := tenant; dm_document_id := document; dm_deletion_id := deletion;
        dm_requested_by := by_whom; dm_requested_at := n; dm_targets := targets |}.

(** [application/retention.py:13 DeletionStatus] *)
Inductive DeletionStatus : Set := Running | BlockedRetention | Completed | Failed.

#[export] Instance deletion_status_eq_dec : EqDecision DeletionStatus.
Proof. solve_decision. Defined.

(** [application/retention.py:83-90 DeletionResult] *)
Record DeletionResult : Set := {
  dr_status : DeletionStatus; dr_completed_at : option Z; dr_deleted : list DeletionTarget;
  dr_remaining : list DeletionTarget; dr_policy_id : pystr; dr_error_codes : list pystr }.

(** A fenced scope of one document in a store of state [S]: opening it checks
    the manifest; every operation may raise.
    [application/retention.py:93-105 DeletionPort] *)
Class DeletionPort (S : Type) := {
  scope : S → DeletionManifest → result unit;
  inventory : S → DeletionManifest → result (list DeletionTarget);
  delete_target : S → DeletionManifest → DeletionTarget → result S;
  record_result : S → DeletionManifest → DeletionResult → result S;
  tombstones : S → result (list DeletionManifest) }.

Section operations.
Context {S : Type} `{DeletionPort S}.

(** A deletion that meets an [OSError] or [RuntimeError] is an error code.
    [application/retention.py:120-127 delete_document_tree] *)
Definition try_delete (m : DeletionManifest) (acc : S * list pystr) (t : DeletionTarget)
    : result (S * list pystr) :=
  match delete_target acc.1 m t with
  | Ok s => Ok (s, acc.2)
  | Raise OSError | Raise RuntimeError => Ok (acc.1, acc.2 ++ ["DELETE_FAILED"])
  | Raise e => Raise e
  end.

(** [application/retention.py:130-138 delete_document_tree] *)
Definition status_of (blocked : bool) (errors : list pystr) (remaining : list DeletionTarget)
    : DeletionStatus :=
  if blocked then BlockedRetention
  else if nonempty_list errors then Failed
  else if nonempty_list remaining then Running else Completed.

(** [application/retention.py:108-148 delete_document_tree] *)
Definition delete_document_tree (m : DeletionManifest) (p : RetentionPolicy) (s : S) (now : pyval)
    : result (DeletionResult * S) :=
  now ← valid_time now;
  _ ← require ((dm_tenant_id m =s? po_tenant_id p) && (dm_document_id m =s? po_document_id p))
        (ValueError "retention policy scope mismatch");
  _ ← scope s m;
  targets ← inventory s m;
  let blocked := blocks p now in
  r ← (if blocked then Ok (s, []) else fold_result (try_delete m) (s, []) targets);
  remaining ← inventory r.1 m;
  let deleted := List.filter (λ t, negb (existsb (λ u, bool_decide (t = u)) remaining)) targets in
  let status := status_of blocked r.2 remaining in
  let out := {| dr_status := status;
                dr_completed_at := match status with Completed => Some now | _ => None end;
                dr_deleted := deleted; dr_remaining := remaining; dr_policy_id := po_policy_id p;
                dr_error_codes := str_set_sorted r.2 |} in
  s' ← record_result r.1 m out;
  Ok (out, s').

(** The policy of a manifest, or one that approves nothing.
    [application/retention.py:158-159 reapply_tombstones] *)
Definition policy_for (policies : pystr * pystr → option RetentionPolicy) (m : DeletionManifest)
    : result RetentionPolicy :=
  match policies (dm_tenant_id m, dm_document_id m) with
  | Some p => Ok p
  | None => mk_RetentionPolicy {| po_tenant_id := dm_tenant_id m; po_document_id := dm_document_id m;
               po_policy_id := "unapproved"; po_approved := false; po_legal_hold := false;
               po_retain_until := None |}
  end.

(** Each tombstone's deletion is a transaction of its own: one that raises
    leaves what the earlier ones did. *)
Fixpoint replay (policies : pystr * pystr → option RetentionPolicy) (now : pyval)
    (ms : list DeletionManifest) (s : S) : result (list DeletionResult) * S :=
  match ms with
  | [] => (Ok [], s)
  | m :: ms =>
      match (p ← policy_for policies m; delete_document_tree m p s now) with
      | Raise e => (Raise e, s)
      | Ok (out, s') =>
          let '(rest, last) := replay policies now ms s' in (rest ← rest; Ok (out :: rest), last)
      end
  end.

(** [application/retention.py:151-165 reapply_tombstones] *)
Definition reapply_tombstones (s : S) (policies : pystr * pystr → option RetentionPolicy) (now : pyval)
    : result (list DeletionResult) * S :=
  match valid_time now, tombstones s with
  | Ok _, Ok ms => replay policies now ms s
  | Raise e, _ | _, Raise e => (Raise e, s)
  end.
End operations.

(* ------------------------------------------------------------------ *)
(** ** The local store *)
(* ------------------------------------------------------------------ *)

Context `{Digest}.

(** A row of [resources]; the first five columns are its primary key.
    [src/apps/worker/src/proofops_worker/deletion.py:55-58 resources] *)
Record Resource : Set := {
  rs_tenant_id : pystr; rs_document_id : pystr; rs_version : pystr; rs_kind : pystr;
  rs_resource_id : pystr; rs_payload : list N; rs_expires_at : Z }.

Definition resource_key (r : Resource) : pystr * pystr * pystr * pystr * pystr :=
  (rs_tenant_id r, rs_document_id r, rs_version r, rs_kind r, rs_resource_id r).

(** The two databases, the deletion ids to come, and the rows a DELETE refuses.
    [src/apps/worker/src/proofops_worker/deletion.py:39-76 LocalSyntheticDeletionStore] *)
Record DeletionStore : Type := {
  ds_resources : list Resource;
  ds_tombstones : list (pystr * pystr * DeletionManifest);
  ds_attempts : list (pystr * pystr * DeletionResult);
  ds_ids : nat → pystr; ds_faulty : Resource → bool }.

Definition with_resources (db : DeletionStore) (rows : list Resource) : DeletionStore :=
  {| ds_resources := rows; ds_tombstones := ds_tombstones db; ds_attempts := ds_attempts db;
     ds_ids := ds_ids db; ds_faulty := ds_faulty db |}.

Definition tombstone_of (db : DeletionStore) (tenant document : pystr) : option DeletionManifest :=
  snd <$> find (λ t, (t.1.1 =s? tenant) && (t.1.2 =s? document)) (ds_tombstones db).

(** [src/apps/worker/src/proofops_worker/deletion.py:94-101 _is_deleted] *)
Definition is_deleted (db : DeletionStore) (tenant document : pystr) : bool :=
  bool_decide (is_Some (tombstone_of db tenant document)).

Definition of_document (tenant document : pystr) (r : Resource) : bool :=
  (rs_tenant_id r =s? tenant) && (rs_document_id r =s? document).

(** [src/apps/worker/src/proofops_worker/deletion.py:186-187 inventory] *)
Definition target_of (r : Resource) : DeletionTarget :=
  {| dt_version := rs_version r; dt_kind := rs_kind r; dt_resource_id := rs_resource_id r;
     dt_sha256 := sha256_hex (rs_payload r) |}.

(** The primary key's order within a document; a text column compares as its
    UTF-8 bytes, that is by code points. *)
Definition resource_leb (a b : Resource) : bool :=
  if negb (rs_version a =s? rs_version b) then str_leb (rs_version a) (rs_version b)
  else if negb (rs_kind a =s? rs_kind b) then str_leb (rs_kind a) (rs_kind b)
  else str_leb (rs_resource_id a) (rs_resource_id b).

(** [src/apps/worker/src/proofops_worker/deletion.py:185-193 inventory] *)
Definition local_inventory (db : DeletionStore) (tenant document : pystr)
    : result (list DeletionTarget) :=
  map_result (λ r, mk_DeletionTarget (target_of r))
    (isort resource_leb (List.filter (of_document tenant document) (ds_resources db))).

Definition int64 (z : Z) : bool := ((-9223372036854775808 <=? z) && (z <=? 9223372036854775807))%Z.

(** [src/apps/worker/src/proofops_worker/deletion.py:103-114 put] *)
Definition put (db : DeletionStore) (tenant document version kind resource_id : pystr)
    (payload : list N) (expires_at : pyval) : result DeletionStore :=
  _ ← require_uuid (PStr tenant);
  _ ← require_uuid (PStr document);
  expires ← valid_time expires_at;
  let row := {| rs_tenant_id := tenant; rs_document_id := document; rs_version := version;
                rs_kind := kind; rs_resource_id := resource_id; rs_payload := payload;
                rs_expires_at := expires |} in
  _ ← mk_DeletionTarget (target_of row);
  _ ← reject (is_deleted db tenant document) (ValueError "document tombstone blocks writes");
  _ ← require (int64 expires) OverflowError;
  _ ← reject (existsb (λ r, bool_decide (resource_key r = resource_key row)) (ds_resources db))
        IntegrityError;
  Ok (with_resources db (ds_resources db ++ [row])).

(** [src/apps/worker/src/proofops_worker/deletion.py:116-127 read] *)
Definition read (db : DeletionStore) (tenant document version kind resource_id : pystr)
    : result (list N) :=
  _ ← reject (is_deleted db tenant document) KeyError;
  row ← of_option KeyError
          (find (λ r, bool_decide (resource_key r = (tenant, document, version, kind, resource_id)))
             (ds_resources db));
  Ok (rs_payload row).

(** [src/apps/worker/src/proofops_worker/deletion.py:129-147 request] *)
Definition request (db : DeletionStore) (tenant document requested_by : pystr) (now : pyval)
    : result (DeletionManifest * DeletionStore) :=
  match tombstone_of db tenant document with
  | Some m => Ok (m, db)
  | None =>
      targets ← local_inventory db tenant document;
      m ← mk_DeletionManifest tenant document (ds_ids db 0) requested_by now targets;
      _ ← require (nonempty_list (dm_targets m)) KeyError;
      Ok (m, {| ds_resources := ds_resources db;
                ds_tombstones := ds_tombstones db ++ [(tenant, document, m)];
                ds_attempts := ds_attempts db; ds_ids := λ n, ds_ids db (S n);
                ds_faulty := ds_faulty db |})
  end.

(** [src/apps/worker/src/proofops_worker/deletion.py:149-158 scope] *)
Definition local_scope (db : DeletionStore) (m : DeletionManifest) : result unit :=
  require (bool_decide (tombstone_of db (dm_tenant_id m) (dm_document_id m) = Some m))
    (ValueError "unknown or altered deletion manifest").

Definition names_target (m : DeletionManifest) (t : DeletionTarget) (r : Resource) : bool :=
  bool_decide (resource_key r = (dm_tenant_id m, dm_document_id m, dt_version t, dt_kind t, dt_resource_id t)).

(** [src/apps/worker/src/proofops_worker/deletion.py:195-209 delete] *)
Definition local_delete (db : DeletionStore) (m : DeletionManifest) (t : DeletionTarget)
    : result DeletionStore :=
  _ ← reject (existsb (λ r, names_target m t r && ds_faulty db r) (ds_resources db)) RuntimeError;
  Ok (with_resources db (List.filter (λ r, negb (names_target m t r)) (ds_resources db))).

(** [src/apps/worker/src/proofops_worker/deletion.py:211-215 record] *)
Definition local_record (db : DeletionStore) (m : DeletionManifest) (out : DeletionResult)
    : result DeletionStore :=
  Ok {| ds_resources := ds_resources db; ds_tombstones := ds_tombstones db;
        ds_attempts := ds_attempts db ++ [(dm_tenant_id m, dm_document_id m, out)];
        ds_ids := ds_ids db; ds_faulty := ds_faulty db |}.

Definition tombstone_leb (a b : pystr * pystr * DeletionManifest) : bool :=
  if negb (a.1.1 =s? b.1.1) then str_leb a.1.1 b.1.1 else str_leb a.1.2 b.1.2.

(** [src/apps/worker/src/proofops_worker/deletion.py:160-167 tombstones] *)
Definition local_tombstones (db : DeletionStore) : list DeletionManifest :=
  snd <$> isort tombstone_leb (ds_tombstones db).

(** [src/apps/worker/src/proofops_worker/deletion.py:169-178 attempts] *)
Definition attempts (db : DeletionStore) (tenant document : pystr) : list DeletionResult :=
  snd <$> List.filter (λ a, (a.1.1 =s? tenant) && (a.1.2 =s? document)) (ds_attempts db).

#[export] Instance local_deletion : DeletionPort DeletionStore := {
  scope := local_scope;
  inventory := λ db m, local_inventory db (dm_tenant_id m) (dm_document_id m);
  delete_target := local_delete; record_result := local_record;
  tombstones := λ db, Ok (local_tombstones db) }.
End retention.
