(* ===== verification/RetentionSpec.v ===== *)
(** * What retention promises.

    Over the local store: what one deletion does to the resources, exactly,
    with faults and policies; that a tombstone is final, through restores of
    the data too; and that replaying the tombstones after any restore purges
    every deleted document again. *)
From S2P Require Import Prelude PyVal JsonCodec Decimal Values PyDate Digest Retention.
Open Scope py_scope.

Section spec.
Context `{Digest}.

(** The key of a document and the rows that are its. *)
Definition dm_key (m : DeletionManifest) : pystr * pystr := (dm_tenant_id m, dm_document_id m).
Definition rs_key (r : Resource) : pystr * pystr := (rs_tenant_id r, rs_document_id r).

Lemma of_document_iff t d r : of_document t d r = true ↔ rs_key r = (t, d).
Proof.
  unfold of_document, rs_key. rewrite andb_true_iff, !str_eqb_eq. split; [by intros [-> ->]|by intros [= -> ->]].
Qed.

(** The rows a store may hold, its ledger, and a manifest that was issued. *)
Record sound (db : DeletionStore) : Prop := {
  so_keys : NoDup (resource_key <$> ds_resources db);
  so_rows : ∀ r, r ∈ ds_resources db → mk_DeletionTarget (target_of r) = Ok (target_of r);
  so_stones : NoDup ((fst : pystr * pystr * DeletionManifest → _) <$> ds_tombstones db);
  so_issued : ∀ k m, (k, m) ∈ ds_tombstones db → dm_key m = k }.

Definition rows_of (db : DeletionStore) (k : pystr * pystr) : list Resource :=
  isort resource_leb (List.filter (of_document k.1 k.2) (ds_resources db)).

Lemma elem_of_rows_of db k r : r ∈ rows_of db k ↔ r ∈ ds_resources db ∧ rs_key r = k.
Proof. unfold rows_of. rewrite elem_of_isort, elem_of_lfilter, of_document_iff. by destruct k. Qed.

Lemma rows_of_NoDup db k : NoDup (resource_key <$> ds_resources db) → NoDup (resource_key <$> rows_of db k).
Proof.
  intros Hd. unfold rows_of. rewrite (fmap_Permutation resource_key _ _ (isort_perm _ _)).
  by apply lfilter_keys_NoDup.
Qed.

Lemma inventory_rows db m : sound db → inventory db m = Ok (target_of <$> rows_of db (dm_key m)).
Proof.
  intros Hs. cbn. unfold local_inventory. rewrite <- map_result_all_ok. apply map_result_ext.
  intros r [Hr _]%(elem_of_rows_of db (dm_key m)). by apply (so_rows _ Hs).
Qed.

(** Deleting the target of a row that is there. *)
Lemma names_target_iff m r r' : rs_key r = dm_key m →
  names_target m (target_of r) r' = true ↔ resource_key r' = resource_key r.
Proof.
  unfold names_target, resource_key, rs_key, dm_key. intros [= <- <-]. by rewrite bool_decide_eq_true.
Qed.

Lemma delete_row db m r : sound db → r ∈ ds_resources db → rs_key r = dm_key m →
  delete_target db m (target_of r)
  = if ds_faulty db r then Raise RuntimeError
    else Ok (with_resources db (List.filter (λ r', negb (bool_decide (resource_key r' = resource_key r)))
                                  (ds_resources db))).
Proof.
  intros Hs Hr Hk. cbn. unfold local_delete.
  assert (Hn : ∀ r', names_target m (target_of r) r' = bool_decide (resource_key r' = resource_key r)).
  { intros r'. apply eq_true_iff_eq. rewrite bool_decide_eq_true. by apply names_target_iff. }
  assert (He : existsb (λ r', names_target m (target_of r) r' && ds_faulty db r') (ds_resources db)
               = ds_faulty db r).
  { apply eq_true_iff_eq. rewrite existsb_exists. split.
    - intros (r' & Hr' & [Hn' Hf]%andb_true_iff). rewrite Hn in Hn'. apply bool_decide_eq_true in Hn'.
      apply list_elem_of_In in Hr'. by rewrite <- (key_injective resource_key _ _ _ (so_keys _ Hs) Hr' Hr Hn').
    - intros Hf. exists r. split; [by apply list_elem_of_In|]. rewrite Hn, Hf, bool_decide_eq_true_2; done. }
  rewrite He. destruct (ds_faulty db r); [done|]. cbn. do 2 f_equal. apply filter_ext. intros r'. by rewrite Hn.
Qed.

Lemma sound_filter db f : sound db → sound (with_resources db (List.filter f (ds_resources db))).
Proof.
  intros [Hk Hr Hs Hi]. split; cbn; [by apply lfilter_keys_NoDup| |done|done].
  intros r [Hin _]%elem_of_lfilter. by apply Hr.
Qed.

Lemma lfilter_lfilter {A} (f g : A → bool) l :
  List.filter f (List.filter g l) = List.filter (λ x, g x && f x) l.
Proof. induction l as [|x l IH]; [done|]. cbn. destruct (g x); cbn; by rewrite IH. Qed.

Lemma lfilter_all {A} (f : A → bool) l : (∀ x, x ∈ l → f x = true) → List.filter f l = l.
Proof.
  induction l as [|x l IH]; intros Hf; [done|]. cbn. rewrite (Hf x) by left. f_equal. apply IH.
  intros y Hy. apply Hf. by right.
Qed.

(** The rows left of [rows] once each row of [l] that can be deleted is. *)
Definition left_of (db : DeletionStore) (l rows : list Resource) : list Resource :=
  List.filter (λ r', negb (existsb (λ r, bool_decide (resource_key r' = resource_key r)
                                         && negb (ds_faulty db r)) l)) rows.

Lemma delete_rows m l db errs : sound db → NoDup (resource_key <$> l) →
  (∀ r, r ∈ l → r ∈ ds_resources db ∧ rs_key r = dm_key m) →
  fold_result (try_delete m) (db, errs) (target_of <$> l)
  = Ok (with_resources db (left_of db l (ds_resources db)),
        errs ++ replicate (length (List.filter (ds_faulty db) l)) ("DELETE_FAILED" : pystr)).
Proof.
  revert db errs. induction l as [|r l IH]; intros db errs Hs Hd Hl.
  { cbn. unfold left_of. cbn. rewrite app_nil_r. do 2 f_equal. rewrite (lfilter_all (λ _, true)) by done. by destruct db. }
  rewrite fmap_cons in Hd. apply NoDup_cons in Hd as [Hnew Hd]. destruct (Hl r ltac:(left)) as [Hr Hk].
  rewrite fmap_cons. cbn [fold_result].
  assert (E : try_delete m (db, errs) (target_of r)
              = if ds_faulty db r then Ok (db, errs ++ ["DELETE_FAILED" : pystr])
                else Ok (with_resources db (List.filter
                           (λ r', negb (bool_decide (resource_key r' = resource_key r))) (ds_resources db)), errs)).
  { unfold try_delete. cbn [fst snd]. rewrite (delete_row db m r Hs Hr Hk). by destruct (ds_faulty db r). }
  rewrite E. clear E. destruct (ds_faulty db r) eqn:Ef; cbn [mbind result_bind].
  - rewrite IH; [|done|done|intros x Hx; apply Hl; by right]. unfold left_of. cbn. rewrite Ef. cbn.
    rewrite <- app_assoc. do 3 f_equal. apply filter_ext. intros r'. by rewrite andb_false_r.
  - rewrite IH.
    + cbn. rewrite Ef. do 2 f_equal. unfold with_resources, left_of. cbn. f_equal. rewrite Ef, lfilter_lfilter.
      apply filter_ext. intros r'. by rewrite andb_true_r, negb_orb.
    + by apply sound_filter.
    + done.
    + intros x Hx. destruct (Hl x ltac:(by right)) as [Hin Hkx]. split; [|done]. cbn.
      apply elem_of_lfilter. split; [done|]. apply negb_true_iff, bool_decide_eq_false. intros E.
      apply Hnew. rewrite <- E. by apply list_elem_of_fmap_2.
Qed.

(** Every row of the document but the faulty ones goes. *)
Lemma left_of_document db k : sound db →
  left_of db (rows_of db k) (ds_resources db)
  = List.filter (λ r, negb (bool_decide (rs_key r = k)) || ds_faulty db r) (ds_resources db).
Proof.
  intros Hs. unfold left_of. apply filter_ext_in. intros r Hr%list_elem_of_In. apply eq_true_iff_eq.
  rewrite negb_true_iff, orb_true_iff, negb_true_iff, bool_decide_eq_false, <- not_true_iff_false, existsb_exists.
  split.
  - intros Hno. destruct (decide (rs_key r = k)) as [Hk|]; [|by left]. right.
    destruct (ds_faulty db r) eqn:Ef; [done|]. exfalso. apply Hno. exists r. split.
    + apply list_elem_of_In, elem_of_rows_of. done.
    + by rewrite Ef, bool_decide_eq_true_2.
  - intros Hor (r' & Hin & [Hkk%bool_decide_eq_true Hf%negb_true_iff]%andb_true_iff).
    apply list_elem_of_In, elem_of_rows_of in Hin as [Hin Hk'].
    pose proof (key_injective resource_key _ _ _ (so_keys _ Hs) Hr Hin Hkk) as ->.
    destruct Hor; congruence.
Qed.

Definition left_rows (db : DeletionStore) (k : pystr * pystr) (blocked : bool) : list Resource :=
  if blocked then ds_resources db
  else List.filter (λ r, negb (bool_decide (rs_key r = k)) || ds_faulty db r) (ds_resources db).

(** The faulty rows of a document. *)
Definition stuck (db : DeletionStore) (k : pystr * pystr) : list Resource :=
  List.filter (ds_faulty db) (rows_of db k).

(** One deletion, step by step. *)
Lemma delete_run m p db now n : sound db → valid_time now = Ok n → dm_key m = (po_tenant_id p, po_document_id p) →
  tombstone_of db (dm_tenant_id m) (dm_document_id m) = Some m →
  let b := blocks p n in
  let db1 := with_resources db (left_rows db (dm_key m) b) in
  let errors := if b then [] else replicate (length (stuck db (dm_key m))) ("DELETE_FAILED" : pystr) in
  let remaining := target_of <$> rows_of db1 (dm_key m) in
  let status := status_of b errors remaining in
  let out := {| dr_status := status; dr_completed_at := match status with Completed => Some n | _ => None end;
                dr_deleted := List.filter (λ t, negb (existsb (λ u, bool_decide (t = u)) remaining))
                                (target_of <$> rows_of db (dm_key m));
                dr_remaining := remaining; dr_policy_id := po_policy_id p;
                dr_error_codes := str_set_sorted errors |} in
  delete_document_tree m p db now
  = Ok (out, {| ds_resources := left_rows db (dm_key m) b; ds_tombstones := ds_tombstones db;
                ds_attempts := ds_attempts db ++ [(dm_key m, out)]; ds_ids := ds_ids db;
                ds_faulty := ds_faulty db |}).
Proof.
  intros Hs Hn Hk Ht b. unfold delete_document_tree. rewrite Hn. cbn [mbind result_bind].
  injection Hk as Hk1 Hk2. rewrite <- Hk1, <- Hk2, !str_eqb_refl. cbn [andb require mbind result_bind].
  cbn [scope local_deletion]. unfold local_scope. rewrite Ht, bool_decide_eq_true_2 by done.
  cbn [require mbind result_bind]. rewrite (inventory_rows db m Hs). cbn [mbind result_bind]. fold b.
  assert (E : (if b then Ok (db, []) else fold_result (try_delete m) (db, []) (target_of <$> rows_of db (dm_key m)))
              = Ok (with_resources db (left_rows db (dm_key m) b),
                    if b then [] else replicate (length (stuck db (dm_key m))) ("DELETE_FAILED" : pystr))).
  { destruct b; [by destruct db|]. rewrite (delete_rows m _ db [] Hs).
    - by rewrite (left_of_document db (dm_key m) Hs).
    - apply rows_of_NoDup, Hs.
    - intros r Hr. by apply elem_of_rows_of. }
  rewrite E. clear E. cbn [mbind result_bind fst snd]. rewrite inventory_rows; [done|].
  unfold left_rows. destruct b; [by destruct db|]. by apply sound_filter.
Qed.

Lemma delete_inv m p db now out db' : delete_document_tree m p db now = Ok (out, db') →
  ∃ n, valid_time now = Ok n ∧ dm_key m = (po_tenant_id p, po_document_id p)
       ∧ tombstone_of db (dm_tenant_id m) (dm_document_id m) = Some m.
Proof.
  unfold delete_document_tree. intros (n & Hn & Hr)%bind_Ok_inv.
  apply bind_Ok_inv in Hr as (_ & [H1%str_eqb_eq H2%str_eqb_eq]%require_Ok%andb_true_iff & Hr).
  apply bind_Ok_inv in Hr as ([] & Ht & _). change (local_scope db m = Ok tt) in Ht. unfold local_scope in Ht.
  apply require_Ok, bool_decide_eq_true in Ht.
  exists n. unfold dm_key. split; [done|]. rewrite H1, H2 in *. done.
Qed.

Lemma rows_of_left db k b r : sound db →
  r ∈ rows_of (with_resources db (left_rows db k b)) k ↔
  r ∈ ds_resources db ∧ rs_key r = k ∧ (b = true ∨ ds_faulty db r = true).
Proof.
  intros Hs. rewrite elem_of_rows_of. cbn. unfold left_rows. destruct b; [tauto|].
  rewrite elem_of_lfilter, orb_true_iff, negb_true_iff, bool_decide_eq_false. intuition congruence.
Qed.

Lemma target_of_inj db k r r' : sound db → r ∈ rows_of db k → r' ∈ rows_of db k →
  target_of r = target_of r' → r = r'.
Proof.
  intros Hs [Hr Hk]%elem_of_rows_of [Hr' Hk']%elem_of_rows_of [= E1 E2 E3 _].
  eapply (key_injective resource_key); [apply Hs|done|done|]. unfold resource_key, rs_key in *. congruence.
Qed.

Lemma nonempty_replicate {A} n (x : A) : nonempty_list (replicate n x) = (0 <? n)%nat.
Proof. by destruct n. Qed.

Lemma elem_of_existsb (t : DeletionTarget) l : existsb (λ u, bool_decide (t = u)) l = true ↔ t ∈ l.
Proof.
  rewrite existsb_exists. setoid_rewrite <- list_elem_of_In. setoid_rewrite bool_decide_eq_true.
  split; [by intros (u & Hu & ->)|eauto].
Qed.

Lemma nil_iff {A} (l : list A) : l = [] ↔ ∀ x, x ∉ l.
Proof.
  split; [intros ->; apply not_elem_of_nil|]. destruct l as [|x l]; [done|]. intros Hx. exfalso. apply (Hx x). left.
Qed.

(** A refused row is one that is left. *)
Lemma stuck_left db k : sound db →
  stuck db k = [] ↔ rows_of (with_resources db (left_rows db k false)) k = [].
Proof.
  intros Hs. rewrite !nil_iff. unfold stuck. apply forall_proper. intros r.
  rewrite (rows_of_left db k false r Hs), elem_of_lfilter, elem_of_rows_of. intuition congruence.
Qed.

Lemma status_of_spec b db k : sound db →
  let remaining := rows_of (with_resources db (left_rows db k b)) k in
  let errors := if b then [] else replicate (length (stuck db k)) ("DELETE_FAILED" : pystr) in
  status_of b errors (target_of <$> remaining)
  = if b then BlockedRetention else if decide (remaining = []) then Completed else Failed.
Proof.
  intros Hs remaining errors. unfold status_of. destruct b; [done|].
  destruct (decide (remaining = [])) as [Hr|Hr].
  - unfold errors. rewrite (proj2 (stuck_left db k Hs) Hr), Hr. done.
  - assert (Hst : stuck db k ≠ []) by (intros E; apply Hr; by apply stuck_left).
    unfold errors. by destruct (stuck db k).
Qed.

Lemma elem_of_targets db k l r : sound db → r ∈ rows_of db k → l ⊆ rows_of db k →
  target_of r ∈ target_of <$> l ↔ r ∈ l.
Proof.
  intros Hs Hr Hl. rewrite list_elem_of_fmap. split; [|eauto].
  intros (r' & E & Hr'). by rewrite (target_of_inj db k r r' Hs Hr (Hl _ Hr') E).
Qed.

(** C34: what a deletion does, exactly. On a sound store it writes only the
    outcome and the document's own rows: under a policy that blocks nothing is
    deleted, otherwise every row goes but the ones the database refuses. The
    outcome names just what is gone and what remains; it is [completed], with
    its time, exactly when the policy allows the deletion and nothing of the
    document is left, and [failed] exactly when a row was refused: no outcome
    claims a deletion that did not happen, and none is left [running]. *)
Theorem deletion_exact m p db now out db' :
  sound db → delete_document_tree m p db now = Ok (out, db') →
  ∃ n, valid_time now = Ok n
    ∧ ds_resources db' = left_rows db (dm_key m) (blocks p n)
    ∧ ds_tombstones db' = ds_tombstones db
    ∧ ds_attempts db' = ds_attempts db ++ [(dm_key m, out)]
    ∧ (∀ r, r ∈ ds_resources db → rs_key r = dm_key m →
         (target_of r ∈ dr_deleted out ↔ r ∉ ds_resources db')
         ∧ (target_of r ∈ dr_remaining out ↔ r ∈ ds_resources db'))
    ∧ (dr_status out = BlockedRetention ↔ blocks p n = true)
    ∧ (dr_status out = Completed ↔ blocks p n = false ∧ rows_of db' (dm_key m) = [])
    ∧ (dr_status out = Failed ↔ blocks p n = false ∧ rows_of db' (dm_key m) ≠ [])
    ∧ dr_completed_at out = (if decide (dr_status out = Completed) then Some n else None).
Proof.
  intros Hs Hrun. pose proof (delete_inv _ _ _ _ _ _ Hrun) as (n & Hn & Hk & Ht).
  pose proof (delete_run m p db now n Hs Hn Hk Ht) as E. cbv zeta in E. rewrite Hrun in E.
  rewrite (status_of_spec (blocks p n) db (dm_key m) Hs) in E. injection E as -> ->.
  set (remaining := rows_of (with_resources db (left_rows db (dm_key m) (blocks p n))) (dm_key m)) in *.
  change (rows_of {| ds_resources := left_rows db (dm_key m) (blocks p n); ds_tombstones := _;
                     ds_attempts := _; ds_ids := _; ds_faulty := _ |} (dm_key m)) with remaining.
  exists n. cbn [ds_resources ds_tombstones ds_attempts dr_deleted dr_remaining dr_status dr_completed_at].
  split_and!; try done.
  - intros r Hr Hkr. assert (Hrow : r ∈ rows_of db (dm_key m)) by by apply elem_of_rows_of.
    assert (Hsub : remaining ⊆ rows_of db (dm_key m)).
    { intros x Hx. apply rows_of_left in Hx as (? & ? & _); [|done]. by apply elem_of_rows_of. }
    assert (Hrem : r ∈ remaining ↔ r ∈ left_rows db (dm_key m) (blocks p n)).
    { unfold remaining. rewrite elem_of_rows_of. cbn. tauto. }
    pose proof (elem_of_targets db (dm_key m) remaining r Hs Hrow Hsub) as Ht'. split; [|tauto].
    rewrite elem_of_lfilter, negb_true_iff, <- not_true_iff_false, elem_of_existsb, Ht', Hrem.
    split; [tauto|]. intros Hno. split; [|done]. by apply list_elem_of_fmap_2.
  - destruct (blocks p n); [tauto|]. destruct (decide _); split; congruence.
  - destruct (blocks p n); [split; [congruence|intros [[=] _]]|].
    destruct (decide (remaining = [])); split; try congruence; tauto.
  - destruct (blocks p n); [split; [congruence|intros [[=] _]]|].
    destruct (decide (remaining = [])); split; try congruence; tauto.
  - destruct (blocks p n); [by rewrite decide_False|].
    destruct (decide (remaining = [])); [by rewrite decide_True|by rewrite decide_False].
Qed.

(* ------------------------------------------------------------------ *)
(** ** The ledger *)
(* ------------------------------------------------------------------ *)

(** What can happen to the store; a restore brings back any data, never the
    ledger. *)
Inductive store_op : Type :=
| OpPut (tenant document version kind resource_id : pystr) (payload : list N) (expires_at : pyval)
| OpRequest (tenant document requested_by : pystr) (now : pyval)
| OpDelete (m : DeletionManifest) (p : RetentionPolicy) (now : pyval)
| OpReplay (policies : pystr * pystr → option RetentionPolicy) (now : pyval)
| OpRestore (rows : list Resource).

Definition kept {A} (db : DeletionStore) (r : result A) (next : A → DeletionStore) : DeletionStore :=
  match r with Ok a => next a | Raise _ => db end.

Definition after_op (db : DeletionStore) (op : store_op) : DeletionStore :=
  match op with
  | OpPut t d v k i payload expires => kept db (put db t d v k i payload expires) id
  | OpRequest t d who now => kept db (request db t d who now) snd
  | OpDelete m p now => kept db (delete_document_tree m p db now) snd
  | OpReplay policies now => (reapply_tombstones db policies now).2
  | OpRestore rows => with_resources db rows
  end.

Definition after_ops : DeletionStore → list store_op → DeletionStore := foldl after_op.

(** The ledger only grows. *)
Definition ledger_le (db db' : DeletionStore) : Prop :=
  ds_tombstones db `prefix_of` ds_tombstones db' ∧ ds_attempts db `prefix_of` ds_attempts db'.

#[export] Instance ledger_le_preorder : PreOrder ledger_le.
Proof. split; [intros db; by split|]. intros a b c [? ?] [? ?]. split; by etrans. Qed.

Lemma try_delete_ledger m ts acc acc' : fold_result (try_delete m) acc ts = Ok acc' →
  ds_tombstones acc'.1 = ds_tombstones acc.1 ∧ ds_attempts acc'.1 = ds_attempts acc.1.
Proof.
  revert acc. induction ts as [|t ts IH]; intros acc; [by intros [= <-]|]. cbn [fold_result].
  intros (acc1 & Ht & [-> ->]%IH)%bind_Ok_inv. revert Ht. unfold try_delete. cbn [delete_target local_deletion].
  unfold local_delete. destruct (existsb _ (ds_resources acc.1)); cbn; by intros [= <-].
Qed.

Lemma delete_ledger m p db now out db' : delete_document_tree m p db now = Ok (out, db') → ledger_le db db'.
Proof.
  unfold delete_document_tree. intros (n & _ & Hr)%bind_Ok_inv. apply bind_Ok_inv in Hr as (_ & _ & Hr).
  apply bind_Ok_inv in Hr as (_ & _ & Hr). apply bind_Ok_inv in Hr as (targets & _ & Hr).
  cbv zeta in Hr. apply bind_Ok_inv in Hr as ([db1 errs] & Hf & Hr).
  apply bind_Ok_inv in Hr as (remaining & _ & Hr). apply bind_Ok_inv in Hr as (db2 & Hrec & [= <- <-]).
  injection Hrec as <-. assert (H1 : ds_tombstones db1 = ds_tombstones db ∧ ds_attempts db1 = ds_attempts db).
  { destruct (blocks p n); [by injection Hf as <- <-|]. by apply try_delete_ledger in Hf. }
  destruct H1 as [E1 E2]. split; cbn; rewrite ?E1, ?E2; [done|by eexists].
Qed.

Lemma replay_ledger policies now ms db : ledger_le db (replay policies now ms db).2.
Proof.
  revert db. induction ms as [|m ms IH]; intros db; [done|]. cbn [replay].
  destruct (p ← policy_for policies m; delete_document_tree m p db now) as [[out db1]|e] eqn:E; [|done].
  apply bind_Ok_inv in E as (p & _ & E%delete_ledger). specialize (IH db1).
  destruct (replay policies now ms db1) as [rest last]. cbn in *. by etrans.
Qed.

Lemma after_op_ledger db op : ledger_le db (after_op db op).
Proof.
  destruct op as [t d v k i payload expires|t d who now|m p now|policies now|rows]; cbn [after_op].
  - destruct (put db t d v k i payload expires) as [db'|] eqn:E; [|done]. cbn. unfold put in E.
    apply bind_Ok_inv in E as (_ & _ & E). apply bind_Ok_inv in E as (_ & _ & E).
    apply bind_Ok_inv in E as (e & _ & E). cbv zeta in E. open_run E. injection E as <-. done.
  - destruct (request db t d who now) as [[m db']|] eqn:E; [|done]. cbn. unfold request in E.
    destruct (tombstone_of db t d); [by injection E as <- <-|]. open_run E. injection E as <- <-.
    split; [by eexists|done].
  - destruct (delete_document_tree m p db now) as [[out db']|] eqn:E; [|done]. by eapply delete_ledger.
  - unfold reapply_tombstones. destruct (valid_time now), (tombstones db); cbn; try done. apply replay_ledger.
  - done.
Qed.

Lemma after_ops_ledger db ops : ledger_le db (after_ops db ops).
Proof.
  revert db. induction ops as [|op ops IH]; intros db; [done|]. cbn. etrans; [apply after_op_ledger|apply IH].
Qed.

Lemma tombstone_prefix db db' t d m : ledger_le db db' → tombstone_of db t d = Some m →
  tombstone_of db' t d = Some m.
Proof.
  intros [[l E] _]. unfold tombstone_of. rewrite E. clear E.
  induction (ds_tombstones db) as [|x ts IH]; [done|]. cbn. by destruct (_ && _).
Qed.

(** A tombstone is final. Once the deletion of a document is requested,
    whatever follows (writes, requests, deletions, replays, and restores of
    any old data) its tombstone is the same manifest, its resources can be
    neither read nor written, asking again returns that manifest and writes
    nothing, and the record of attempts is only appended to. *)
Theorem tombstone_final db t d m ops :
  tombstone_of db t d = Some m →
  let db' := after_ops db ops in
  tombstone_of db' t d = Some m
  ∧ (∀ v k i, read db' t d v k i = Raise KeyError)
  ∧ (∀ v k i payload expires, ∃ e, put db' t d v k i payload expires = Raise e)
  ∧ (∀ who now, request db' t d who now = Ok (m, db'))
  ∧ ds_attempts db `prefix_of` ds_attempts db'.
Proof.
  intros Ht db'. pose proof (after_ops_ledger db ops) as Hl. fold db' in Hl.
  pose proof (tombstone_prefix _ _ _ _ _ Hl Ht) as Ht'.
  assert (Hdel : is_deleted db' t d = true) by (unfold is_deleted; rewrite Ht'; by apply bool_decide_eq_true).
  split; [done|]. split; [|split; [|split; [|apply Hl]]].
  - intros v k i. unfold read. by rewrite Hdel.
  - intros v k i payload expires. destruct (put db' t d v k i payload expires) as [x|e] eqn:E; [|by exists e].
    unfold put in E. apply bind_Ok_inv in E as (_ & _ & E). apply bind_Ok_inv in E as (_ & _ & E).
    apply bind_Ok_inv in E as (e & _ & E). cbv zeta in E. apply bind_Ok_inv in E as (_ & _ & E).
    rewrite Hdel in E. discriminate E.
  - intros who now. unfold request. by rewrite Ht'.
Qed.

(* ------------------------------------------------------------------ *)
(** ** The replay *)
(* ------------------------------------------------------------------ *)

Lemma lfilter_ext {A} (f g : A → bool) l : (∀ x, x ∈ l → f x = g x) → List.filter f l = List.filter g l.
Proof. intros Hfg. apply filter_ext_in. intros x Hx%list_elem_of_In. by apply Hfg. Qed.

Definition has_key (ms : list DeletionManifest) (r : Resource) : bool :=
  existsb (λ m, bool_decide (rs_key r = dm_key m)) ms.

(** Replaying manifests whose policies allow it, over rows that can go. *)
Lemma replay_run policies now n ms db : sound db → valid_time now = Ok n →
  (∀ m, m ∈ ms → tombstone_of db (dm_tenant_id m) (dm_document_id m) = Some m
     ∧ ∃ p, policies (dm_key m) = Some p ∧ dm_key m = (po_tenant_id p, po_document_id p) ∧ blocks p n = false) →
  (∀ r, r ∈ ds_resources db → has_key ms r = true → ds_faulty db r = false) →
  ∃ outs db', replay policies now ms db = (Ok outs, db')
    ∧ Forall2 (λ m out, dr_status out = Completed) ms outs
    ∧ ds_resources db' = List.filter (λ r, negb (has_key ms r)) (ds_resources db).
Proof.
  intros Hs Hn. revert db Hs. induction ms as [|m ms IH]; intros db Hs Hms Hf.
  { exists [], db. split; [done|]. split; [constructor|]. symmetry. by apply lfilter_all. }
  destruct (Hms m ltac:(left)) as (Ht & p & Hp & Hk & Hb). cbn [replay]. unfold policy_for. fold (dm_key m).
  rewrite Hp. cbn [mbind result_bind]. pose proof (delete_run m p db now n Hs Hn Hk Ht) as E. cbv zeta in E.
  rewrite E, (status_of_spec (blocks p n) db (dm_key m) Hs), Hb. clear E.
  assert (Hleft : left_rows db (dm_key m) false
                  = List.filter (λ r, negb (bool_decide (rs_key r = dm_key m))) (ds_resources db)).
  { apply lfilter_ext. intros r Hr. destruct (bool_decide_reflect (rs_key r = dm_key m)) as [Hrk|]; [|done].
    cbn. apply Hf; [done|]. cbn. by rewrite bool_decide_eq_true_2. }
  set (db1 := {| ds_resources := left_rows db (dm_key m) false; ds_tombstones := _; ds_attempts := _;
                 ds_ids := _; ds_faulty := _ |}).
  destruct (IH db1) as (outs & db' & Hr & Ho & Hres).
  - pose proof (sound_filter db (λ r, negb (bool_decide (rs_key r = dm_key m))) Hs) as [H1 H2 H3 H4].
    unfold db1. split; cbn [ds_resources ds_tombstones]; rewrite ?Hleft; assumption.
  - intros m' Hm'. apply Hms. by right.
  - unfold db1. cbn [ds_resources ds_faulty]. rewrite Hleft. intros r [Hr _]%elem_of_lfilter Hh. apply Hf; [done|].
    unfold has_key in *. cbn. by rewrite Hh, orb_true_r.
  - rewrite Hr. cbn [mbind result_bind]. eexists _, db'. split; [done|]. split.
    + constructor; [|done]. cbn [dr_status]. rewrite decide_True; [done|].
      apply nil_iff. intros r (Hin & Hrk & [?|Hr'])%rows_of_left; [done| |done].
      rewrite Hf in Hr'; [done|done|]. cbn. by rewrite bool_decide_eq_true_2.
    + rewrite Hres. unfold db1. cbn [ds_resources]. rewrite Hleft, lfilter_lfilter. apply lfilter_ext. intros r _.
      unfold has_key. cbn. by rewrite negb_orb.
Qed.

Lemma elem_of_tombstones db m : m ∈ local_tombstones db ↔ ∃ k, (k, m) ∈ ds_tombstones db.
Proof.
  unfold local_tombstones. rewrite list_elem_of_fmap. split.
  - intros ([k m'] & -> & Hk). rewrite elem_of_isort in Hk. eauto.
  - intros [k Hk]. exists (k, m). by rewrite elem_of_isort.
Qed.

Lemma tombstone_of_issued db m : sound db → m ∈ local_tombstones db →
  tombstone_of db (dm_tenant_id m) (dm_document_id m) = Some m.
Proof.
  intros Hs [k Hk]%elem_of_tombstones. pose proof (so_issued _ Hs _ _ Hk) as Ek. unfold tombstone_of.
  destruct (find _ (ds_tombstones db)) as [[k' m']|] eqn:E.
  - apply find_some in E as [Hin [H1%str_eqb_eq H2%str_eqb_eq]%andb_true_iff]. apply list_elem_of_In in Hin.
    cbn in *. f_equal. assert (Ekk : k' = k) by (destruct k'; cbn in *; unfold dm_key in Ek; congruence). subst k'.
    pose proof (key_injective fst _ _ _ (so_stones _ Hs) Hin Hk eq_refl) as Eq. congruence.
  - eapply find_none in E; [|by apply list_elem_of_In]. cbn in E. rewrite <- Ek in E. cbn in E.
    by rewrite !str_eqb_refl in E.
Qed.

Lemma has_key_deleted db r : sound db →
  has_key (local_tombstones db) r = is_deleted db (rs_tenant_id r) (rs_document_id r).
Proof.
  intros Hs. unfold has_key, is_deleted. apply eq_true_iff_eq. rewrite existsb_exists, bool_decide_eq_true. split.
  - intros (m & Hm%list_elem_of_In & [= E1 E2]%bool_decide_eq_true). rewrite E1, E2.
    by rewrite (tombstone_of_issued db m Hs Hm).
  - intros [m Hm]. unfold tombstone_of in Hm. apply fmap_Some in Hm as ([k m'] & Hf & ->).
    apply find_some in Hf as [Hin [H1%str_eqb_eq H2%str_eqb_eq]%andb_true_iff]. cbn in *.
    apply list_elem_of_In in Hin. exists m'. split; [apply list_elem_of_In, elem_of_tombstones; eauto|].
    apply bool_decide_eq_true. rewrite (so_issued _ Hs _ _ Hin). unfold rs_key. destruct k; cbn in *. congruence.
Qed.

(** Replaying the tombstones purges what a restore brought back. On a sound
    store, when every tombstone's policy allows its deletion and the database
    refuses no row of a deleted document, the replay returns: every outcome is
    [completed], every row of every deleted document is gone and every other
    row is kept, in order. *)
Theorem replay_purges db policies now n :
  sound db → valid_time now = Ok n →
  (∀ m, m ∈ local_tombstones db →
     ∃ p, policies (dm_key m) = Some p ∧ dm_key m = (po_tenant_id p, po_document_id p) ∧ blocks p n = false) →
  (∀ r, r ∈ ds_resources db → is_deleted db (rs_tenant_id r) (rs_document_id r) = true →
        ds_faulty db r = false) →
  ∃ outs db', reapply_tombstones db policies now = (Ok outs, db')
    ∧ Forall2 (λ m out, dr_status out = Completed) (local_tombstones db) outs
    ∧ ds_resources db' = List.filter (λ r, negb (is_deleted db (rs_tenant_id r) (rs_document_id r)))
                           (ds_resources db).
Proof.
  intros Hs Hn Hp Hf. unfold reapply_tombstones. rewrite Hn. cbn [tombstones local_deletion].
  destruct (replay_run policies now n (local_tombstones db) db Hs Hn) as (outs & db' & Hr & Ho & Hres).
  - intros m Hm. split; [by apply tombstone_of_issued|by apply Hp].
  - intros r Hr Hk. rewrite has_key_deleted in Hk by done. by apply Hf.
  - exists outs, db'. split; [done|]. split; [done|]. rewrite Hres. apply lfilter_ext. intros r _.
    by rewrite has_key_deleted.
Qed.

(* ------------------------------------------------------------------ *)
(** ** Soundness is kept *)
(* ------------------------------------------------------------------ *)

Lemma mk_target_id t t' : mk_DeletionTarget t = Ok t' → t' = t.
Proof. unfold mk_DeletionTarget. intros Hr. open_run Hr. by injection Hr. Qed.

Lemma put_sound db t d v k i payload expires db' : sound db → put db t d v k i payload expires = Ok db' → sound db'.
Proof.
  intros [H1 H2 H3 H4] E. unfold put in E. apply bind_Ok_inv in E as (_ & _ & E). apply bind_Ok_inv in E as (_ & _ & E).
  apply bind_Ok_inv in E as (e & _ & E). cbv zeta in E. apply bind_Ok_inv in E as (x & Hx & E).
  pose proof (mk_target_id _ _ Hx) as ->. apply bind_Ok_inv in E as (_ & _ & E).
  apply bind_Ok_inv in E as (_ & _ & E). apply bind_Ok_inv in E as (_ & Hk%reject_Ok & [= <-]). split; cbn; try done.
  - rewrite fmap_app. apply NoDup_app. split; [done|]. split; [|apply NoDup_singleton].
    intros key (r & -> & Hr)%list_elem_of_fmap He%list_elem_of_singleton.
    rewrite <- not_true_iff_false, existsb_exists in Hk. apply Hk. exists r.
    split; [by apply list_elem_of_In|by apply bool_decide_eq_true].
  - intros r [Hr| ->%list_elem_of_singleton]%elem_of_app; [by apply H2|done].
Qed.

Lemma request_sound db t d who now m db' : sound db → request db t d who now = Ok (m, db') → sound db'.
Proof.
  intros [H1 H2 H3 H4] E. unfold request in E. destruct (tombstone_of db t d) as [m'|] eqn:Ht; [by injection E as <- <-|].
  apply bind_Ok_inv in E as (targets & _ & E). apply bind_Ok_inv in E as (m' & Hm & E).
  apply bind_Ok_inv in E as (_ & _ & [= <- <-]). assert (Hkey : dm_key m' = (t, d)).
  { unfold mk_DeletionManifest in Hm. apply bind_Ok_inv in Hm as (t' & Ht' & Hm).
    apply bind_Ok_inv in Hm as (d' & Hd' & Hm). open_run Hm. injection Hm as <-. unfold dm_key. cbn.
    assert (Hu : ∀ s s', require_uuid (PStr s) = Ok s' → s' = s).
    { intros s s' Hs. unfold require_uuid in Hs. open_run Hs. injection Hs as <-. cbn in *. congruence. }
    by rewrite (Hu _ _ Ht'), (Hu _ _ Hd'). }
  split; cbn; try done.
  - rewrite fmap_app. apply NoDup_app. split; [done|]. split; [|apply NoDup_singleton].
    intros key ([k m0] & -> & Hk)%list_elem_of_fmap He%list_elem_of_singleton. cbn in He. subst k.
    unfold tombstone_of in Ht. apply fmap_None in Ht. eapply find_none in Ht; [|by apply list_elem_of_In].
    cbn in Ht. by rewrite !str_eqb_refl in Ht.
  - intros k m0 [Hk|[= -> ->]%list_elem_of_singleton]%elem_of_app; [by apply H4|done].
Qed.

Lemma delete_sound m p db now out db' : sound db → delete_document_tree m p db now = Ok (out, db') → sound db'.
Proof.
  intros Hs Hrun. pose proof (delete_inv _ _ _ _ _ _ Hrun) as (n & Hn & Hk & Ht).
  pose proof (delete_run m p db now n Hs Hn Hk Ht) as E. cbv zeta in E. rewrite Hrun in E. injection E as _ ->.
  assert (Hf : sound (with_resources db (left_rows db (dm_key m) (blocks p n)))).
  { unfold left_rows. destruct (blocks p n); [by destruct db|by apply sound_filter]. }
  destruct Hf. split; assumption.
Qed.

Lemma replay_sound policies now ms db : sound db → sound (replay policies now ms db).2.
Proof.
  revert db. induction ms as [|m ms IH]; intros db Hs; [done|]. cbn [replay].
  destruct (p ← policy_for policies m; delete_document_tree m p db now) as [[out db1]|e] eqn:E; [|done].
  apply bind_Ok_inv in E as (p & _ & E%delete_sound); [|done]. specialize (IH db1 E).
  by destruct (replay policies now ms db1) as [rest last].
Qed.

(** Backups hold what stores held: rows with distinct keys and valid targets. *)
Definition backup (op : store_op) : Prop :=
  match op with
  | OpRestore rows => NoDup (resource_key <$> rows)
      ∧ ∀ r, r ∈ rows → mk_DeletionTarget (target_of r) = Ok (target_of r)
  | _ => True
  end.

(** The store stays sound: from an empty store, over any sequence of
    writes, requests, deletions, replays and restores of backups, the resources
    have distinct keys and valid identities, no two tombstones are of one
    document, and each is of the document it is filed under. *)
Lemma after_ops_sound ids faulty ops : Forall backup ops →
  sound (after_ops {| ds_resources := []; ds_tombstones := []; ds_attempts := []; ds_ids := ids;
                      ds_faulty := faulty |} ops).
Proof.
  set (db := {| ds_resources := []; ds_tombstones := []; ds_attempts := []; ds_ids := ids; ds_faulty := faulty |}).
  assert (Hs : sound db).
  { split; cbn; [constructor|by intros r ?%elem_of_nil|constructor|by intros k m ?%elem_of_nil]. }
  revert Hs. generalize db. clear db. intros db. revert db.
  induction ops as [|op ops IH]; intros db Hs Hops; [done|]. apply Forall_cons in Hops as [Hop Hops].
  cbn. apply IH; [|done]. destruct op as [t d v k i payload expires|t d who now|m p now|policies now|rows]; cbn [after_op].
  - destruct (put db t d v k i payload expires) eqn:E; [|done]. by eapply put_sound.
  - destruct (request db t d who now) as [[m db']|] eqn:E; [|done]. by eapply request_sound.
  - destruct (delete_document_tree m p db now) as [[out db']|] eqn:E; [|done]. by eapply delete_sound.
  - unfold reapply_tombstones. destruct (valid_time now), (tombstones db); try done. by apply replay_sound.
  - destruct Hs as [H1 H2 H3 H4], Hop as [? ?]. by split.
Qed.
End spec.

(* ------------------------------------------------------------------ *)
(** ** A deletion, a restore and a replay *)
(* ------------------------------------------------------------------ *)

Section sample.
#[local] Existing Instance Checksum.

Definition T : pystr := "11111111-1111-4111-8111-111111111111".
Definition D : pystr := "33333333-3333-4333-8333-333333333333".
Definition OTHER : pystr := "22222222-2222-4222-8222-222222222222".

Definition empty_store : DeletionStore :=
  {| ds_resources := []; ds_tombstones := []; ds_attempts := [];
     ds_ids := λ _, "44444444-4444-4444-8444-444444444444"; ds_faulty := λ _, false |}.

Definition policy : RetentionPolicy :=
  {| po_tenant_id := T; po_document_id := D; po_policy_id := "p"; po_approved := true;
     po_legal_hold := false; po_retain_until := Some 15%Z |}.

Definition writes : list store_op :=
  [OpPut T D "v1" "original" "item" [1; 2]%N (PInt 1); OpPut T D "v1" "derived" "item" [3]%N (PInt 1);
   OpPut T OTHER "v1" "original" "item" [4]%N (PInt 1)].

(** After the writes, the request of the deletion. *)
Definition requested : DeletionStore := after_ops empty_store (writes ++ [OpRequest T D "who" (PInt 10)]).


Lemma requested_sound : sound requested.
Proof. apply after_ops_sound. repeat constructor. Qed.

Definition sample_manifest : option DeletionManifest := tombstone_of requested T D.

(** The rows a restore brings back. *)
Definition old_rows : list Resource := ds_resources (after_ops empty_store writes).
Definition restored : DeletionStore := after_op requested (OpRestore old_rows).

Lemma restored_sound : sound restored.
Proof.
  assert (Hs : sound (after_ops empty_store writes)) by (apply after_ops_sound; repeat constructor).
  destruct requested_sound as [_ _ H3 H4], Hs as [H1 H2 _ _]. by split.
Qed.

Lemma deletion_exact_witness :
  ∃ m out db', sample_manifest = Some m ∧ delete_document_tree m policy requested (PInt 20) = Ok (out, db')
    ∧ ds_resources db' = left_rows requested (dm_key m) (blocks policy 20).
Proof.
  destruct sample_manifest as [m|] eqn:Em; [|vm_compute in Em; discriminate Em].
  assert (Hm : dm_key m = (T, D)) by (vm_compute in Em; injection Em as <-; reflexivity).
  pose proof (delete_run m policy requested (PInt 20) 20 requested_sound eq_refl Hm) as Hrun.
  injection Hm as H1 H2. rewrite H1, H2 in Hrun. specialize (Hrun Em). cbv zeta in Hrun.
  eexists m, _, _. split; [exact eq_refl|]. split; [exact Hrun|].
  destruct (deletion_exact m policy requested (PInt 20) _ _ requested_sound Hrun) as (n & Hn & Hres & _).
  injection Hn as <-. exact Hres.
Defined.

Lemma tombstone_final_witness :
  ∃ m, sample_manifest = Some m ∧ ∀ v k i, read (after_ops requested [OpRestore old_rows]) T D v k i = Raise KeyError.
Proof.
  destruct sample_manifest as [m|] eqn:Em; [|vm_compute in Em; discriminate Em].
  exists m. split; [exact eq_refl|].
  exact (proj1 (proj2 (tombstone_final requested T D m [OpRestore old_rows] Em))).
Defined.

Definition allow (k : pystr * pystr) : option RetentionPolicy :=
  if bool_decide (k = (T, D)) then Some policy else None.

Lemma replay_purges_witness :
  length (ds_resources restored) = 3%nat
  ∧ ∃ outs db', reapply_tombstones restored allow (PInt 20) = (Ok outs, db')
    ∧ ds_resources db' = List.filter (λ r, negb (is_deleted restored (rs_tenant_id r) (rs_document_id r)))
                           (ds_resources restored).
Proof.
  split; [vm_compute; reflexivity|].
  destruct (replay_purges restored allow (PInt 20) 20 restored_sound eq_refl) as (outs & db' & Hr & _ & Hres).
  - intros m Hm. assert (E : forallb (λ m, bool_decide (dm_key m = (T, D))) (local_tombstones restored) = true)
      by (vm_compute; reflexivity).
    rewrite forallb_forall in E. apply list_elem_of_In, E, bool_decide_eq_true in Hm. exists policy.
    rewrite Hm. split; [reflexivity|]. split; reflexivity.
  - reflexivity.
  - exists outs, db'. split; [exact Hr|exact Hres].
Defined.
End sample.
