(* ===== verification/RunGates.v ===== *)
(** * The gates around a run.

    [application/mode_gate.py]: the pinned rules a run of a mode may use;
    [application/tagging/tracks.py]: one classification for every claim, at
    the model's boundary; [application/coverage.py]: the projection of the
    progress counters, with its badge. Each has the theorem that says what
    passes, exactly. *)
From S2P Require Import Prelude PyVal JsonCodec Decimal Values PyDate Digest RulePack Geometry Graph Claims.
Open Scope py_scope.

(* ------------------------------------------------------------------ *)
(** ** The mode gate *)
(* ------------------------------------------------------------------ *)

(** [application/rulepacks.py:50 MODES] *)
Definition MODES : list pystr := ["disclosure"; "advertising"].
(** [application/rulepacks.py:52 DEMO_STATUSES] *)
Definition DEMO_STATUSES : list pystr := ["draft"; "validated"].

Definition field_is (d : pydict) (name value : pystr) : bool :=
  match dict_get name d with Some v => eq_str v value | None => false end.

(** [application/mode_gate.py:22-25 _advertising_marker] *)
Definition marked (d : pydict) : bool :=
  field_is d "standard" "ISO 14021" || field_is d "standard_id" "ISO 14021"
  || field_is d "mode" "advertising"
  || field_is d "gate" "separate_approved_advertising_rulepack_required".

(** [application/mode_gate.py:18-28 _advertising_marker] *)
Fixpoint advertising_marker (node : pyval) : bool :=
  match node with
  | PDict d => marked d || existsb (λ kv, advertising_marker kv.2) d
  | PList l => existsb advertising_marker l
  | _ => false
  end.

Definition dedicated (path : pystr) : bool :=
  starts_with "advertising/" path || (path =s? "standards/iso_14021.yaml").

Definition named (v : option pystr) : bool := match v with Some s => nonblank s | None => false end.

Definition field_named (d : pydict) (name : pystr) : bool :=
  match dict_get name d with Some (PStr s) => nonblank s | _ => false end.

(** [application/mode_gate.py:68-76 select_mode_rulepack] *)
Definition advertising_ready (d : pydict) : bool :=
  negb (match dict_get "enabled" d with Some (PBool false) => true | _ => false end)
  && truthy (default PNone (dict_get "clauses" d)) && field_is d "verification_status" "verified"
  && field_named d "verified_by" && field_named d "verified_at"
  && negb (field_is d "license_status" "review_required").

(** [application/mode_gate.py:61-78 select_mode_rulepack] *)
Definition check_file (mode : pystr) (s : RulePackSnapshot) (path : pystr) : result unit :=
  payload ← file_content s path;
  _ ← reject ((mode =s? "advertising") && negb (dedicated path)
              || (mode =s? "disclosure") && (dedicated path || advertising_marker (PDict payload)))
        DomainValidationError;
  reject ((mode =s? "advertising") && negb (advertising_ready payload)) DomainValidationError.

(** [application/mode_gate.py:49-53 select_mode_rulepack] *)
Definition may_run (mode : pystr) (synthetic : bool) (s : RulePackSnapshot) : bool :=
  (status s =s? "active") && named (approved_by s) && named (approved_at s)
  || (mode =s? "disclosure") && synthetic && str_in (status s) DEMO_STATUSES.

(** [application/mode_gate.py:31-79 select_mode_rulepack] *)
Definition select_mode_rulepack (mode : pystr) (rulepack : option RulePackSnapshot) (tenant : pystr)
    (synthetic : bool) : result RulePackSnapshot :=
  _ ← require (str_in mode MODES) DomainValidationError;
  s ← of_option LookupError rulepack;
  _ ← require (tenant_id s =s? tenant) LookupError;
  _ ← require (RulePack.mode s =s? mode) DomainValidationError;
  _ ← require (may_run mode synthetic s) DomainValidationError;
  _ ← require (nonempty_list (files s)) DomainValidationError;
  _ ← each (check_file mode s) (files s);
  Ok s.

(* ------------------------------------------------------------------ *)
(** ** One track for every claim *)
(* ------------------------------------------------------------------ *)

(** [application/tagging/tracks.py:16-22 TrackCandidate] *)
Record TrackCandidate : Set := { tc_claim : Claim; tc_track : Track; tc_category : option pystr }.

Definition claim_source (c : Claim) : pystr * pystr * pystr * pystr :=
  (cl_tenant_id c, cl_document_version_id c, cl_parse_manifest_id c, cl_source_sha256 c).

(** [application/tagging/tracks.py:36-60 validate_track_candidates] *)
Fixpoint check_claims (identity : option (pystr * pystr * pystr * pystr)) (seen : list pystr)
    (l : list Claim) : result unit :=
  match l with
  | [] => Ok tt
  | c :: l =>
      _ ← require (match identity with Some i => bool_decide (claim_source c = i) | None => true end)
            DomainValidationError;
      _ ← reject (str_in (cl_claim_id c) seen) DomainValidationError;
      _ ← require (nonempty_list (cl_source_refs c)
                   && forallb (λ r, (document_version_id r =s? cl_document_version_id c)
                                    && (parse_manifest_id r =s? cl_parse_manifest_id c)) (cl_source_refs c))
            DomainValidationError;
      check_claims (Some (default (claim_source c) identity)) (cl_claim_id c :: seen) l
  end.

Definition candidate_fields : list pystr := ["claim_id"; "track"; "safe_harbor_category"].

(** [application/tagging/tracks.py:77-80 validate_track_candidates] *)
Definition category_of (v : pyval) : result (option pystr) :=
  match v with
  | PNone => Ok None
  | v => s ← as_str DomainValidationError v;
         _ ← require (str_in s SAFE_HARBOR_CATEGORIES) DomainValidationError; Ok (Some s)
  end.

(** [application/tagging/tracks.py:63-81 validate_track_candidates] *)
Definition candidate (claims : list Claim) (seen : list pystr) (item : pyval) : result TrackCandidate :=
  d ← as_dict DomainValidationError item;
  _ ← require (set_of_keys d candidate_fields) DomainValidationError;
  let get k := default PNone (dict_get k d) in
  id ← as_str DomainValidationError (get "claim_id");
  c ← of_option DomainValidationError (by_key cl_claim_id claims id);
  _ ← reject (str_in id seen) DomainValidationError;
  t ← enum_of DomainValidationError TRACKS track_str (get "track");
  category ← category_of (get "safe_harbor_category");
  Ok {| tc_claim := c; tc_track := t; tc_category := category |}.

Definition tc_id (t : TrackCandidate) : pystr := cl_claim_id (tc_claim t).

Fixpoint candidates (claims : list Claim) (seen : list TrackCandidate) (l : list pyval)
    : result (list TrackCandidate) :=
  match l with
  | [] => Ok seen
  | item :: l => t ← candidate claims (tc_id <$> seen) item; candidates claims (seen ++ [t]) l
  end.

(** [application/tagging/tracks.py:25-85 validate_track_candidates] *)
Definition validate_track_candidates (claims : list Claim) (structured : pyval)
    : result (list TrackCandidate) :=
  items ← match structured with PList l | PTuple l => Ok l | _ => Raise DomainValidationError end;
  _ ← check_claims None [] claims;
  found ← candidates claims [] items;
  _ ← require (forallb (λ c, str_in (cl_claim_id c) (tc_id <$> found)) claims
               && forallb (λ t, str_in (tc_id t) (cl_claim_id <$> claims)) found) DomainValidationError;
  map_result (λ c, of_option KeyError (by_key tc_id found (cl_claim_id c))) claims.

(* ------------------------------------------------------------------ *)
(** ** Coverage *)
(* ------------------------------------------------------------------ *)

Record Counters : Set := {
  pages_total : Z; pages_processed : Z; pages_unreadable : Z; pages_unprocessed : Z;
  chunks_discovered : Z; chunks_processed : Z; claims_discovered : Z; claims_decided : Z;
  claims_needs_review : Z }.

(** [application/coverage.py:9 _STATUSES] *)
Definition STATUSES : list pystr := ["queued"; "running"; "partial"; "completed"; "failed"; "cancelled"].

(** [application/coverage.py:12-16 CoverageUpdate] *)
Record CoverageUpdate : Set := {
  cu_status : pystr; cu_counters : Counters; cu_full_scope : bool; cu_complete : bool;
  cu_complete_badge : bool }.

Definition counters_valid (c : Counters) : bool :=
  forallb (λ n, (0 <=? n)%Z)
    [pages_total c; pages_processed c; pages_unreadable c; pages_unprocessed c; chunks_discovered c;
     chunks_processed c; claims_discovered c; claims_decided c; claims_needs_review c].

(** [application/coverage.py:59-63 update_coverage] *)
Definition counters_complete (c : Counters) : bool :=
  (pages_unreadable c =? 0)%Z && (pages_unprocessed c =? 0)%Z && (chunks_processed c =? chunks_discovered c)%Z
  && (claims_decided c + claims_needs_review c =? claims_discovered c)%Z.

(** The counters are integers of the type; [stop_reason] is text or none.
    [application/coverage.py:19-71 update_coverage] *)
Definition update_coverage (run_status : pystr) (full_scope : bool) (c : Counters)
    (stop_reason : option pystr) : result CoverageUpdate :=
  _ ← require (str_in run_status STATUSES) (ValueError "invalid run status or scope");
  _ ← require (counters_valid c) (ValueError "coverage counters must be non-negative integers");
  _ ← require (pages_processed c + pages_unreadable c + pages_unprocessed c =? pages_total c)%Z
        (ValueError "page counters must partition pages_total");
  _ ← require (chunks_processed c <=? chunks_discovered c)%Z (ValueError "processed chunks exceed discovered chunks");
  _ ← require (claims_decided c + claims_needs_review c <=? claims_discovered c)%Z
        (ValueError "handled claims exceed discovered claims");
  _ ← require (match stop_reason with Some r => nonblank r | None => true end)
        (ValueError "stop_reason must be non-empty text or null");
  let done_ := counters_complete c in
  let status := if bool_decide (stop_reason = Some ("BUDGET_EXHAUSTED" : pystr))
                   || (run_status =s? "completed") && full_scope && negb done_
                then "partial" else run_status in
  let complete := (status =s? "completed") && full_scope && done_ in
  Ok {| cu_status := status; cu_counters := c; cu_full_scope := full_scope; cu_complete := complete;
        cu_complete_badge := (status =s? "completed") && complete |}.

(* ------------------------------------------------------------------ *)
(** ** What passes *)
(* ------------------------------------------------------------------ *)

(** A value inside a value, through dicts and lists. *)
Inductive inside : pyval → pyval → Prop :=
| inside_here v : inside v v
| inside_dict k v w d : (k, v) ∈ d → inside w v → inside w (PDict d)
| inside_list v w l : v ∈ l → inside w v → inside w (PList l).

Lemma advertising_marker_sound : ∀ v, advertising_marker v = true → ∃ d, inside (PDict d) v ∧ marked d = true.
Proof.
  fix IH 1. intros [| | | | |l|l|d]; cbn; try discriminate.
  - intros Hm. assert (Hl : ∀ l, existsb advertising_marker l = true →
      ∃ v, v ∈ l ∧ ∃ d, inside (PDict d) v ∧ marked d = true).
    { clear Hm l. fix IHl 1. intros [|v l]; cbn; [discriminate|]. destruct (advertising_marker v) eqn:E.
      - intros _. exists v. split; [left|]. exact (IH v E).
      - intros Hl. destruct (IHl l Hl) as (w & Hw & Hd). exists w. split; [by right|done]. }
    destruct (Hl l Hm) as (v & Hv & d & Hd & Hmk). exists d. split; [by eapply inside_list|done].
  - destruct (marked d) eqn:Em; [intros _; exists d; split; [constructor|done]|]. cbn. intros Hm.
    assert (Hl : ∀ d : pydict, existsb (λ kv, advertising_marker kv.2) d = true →
      ∃ k v, (k, v) ∈ d ∧ ∃ d', inside (PDict d') v ∧ marked d' = true).
    { clear Em Hm d. fix IHl 1. intros [|[k v] d]; cbn; [discriminate|]. destruct (advertising_marker v) eqn:E.
      - intros _. exists k, v. split; [left|]. exact (IH v E).
      - intros Hl. destruct (IHl d Hl) as (k' & w & Hw & Hd). exists k', w. split; [by right|done]. }
    destruct (Hl d Hm) as (k & v & Hv & d' & Hd & Hmk). exists d'. split; [by eapply inside_dict|done].
Qed.

Lemma advertising_marker_iff v : advertising_marker v = true ↔ ∃ d, inside (PDict d) v ∧ marked d = true.
Proof.
  split; [apply advertising_marker_sound|]. intros (d & Hin & Hm). remember (PDict d) as w eqn:Ew.
  induction Hin as [v|k v w d' Hv _ IH|v w l Hv _ IH]; cbn.
  - subst v. cbn. by rewrite Hm.
  - apply orb_true_iff. right. apply existsb_exists. exists (k, v). split; [by apply list_elem_of_In|by apply IH].
  - apply existsb_exists. exists v. split; [by apply list_elem_of_In|by apply IH].
Qed.

(** A file a run of the mode may read. *)
Definition admissible (mode : pystr) (s : RulePackSnapshot) (path : pystr) : Prop :=
  ∃ payload, file_content s path = Ok payload
    ∧ (mode = "advertising" → dedicated path = true ∧ advertising_ready payload = true)
    ∧ (mode = "disclosure" → dedicated path = false ∧ ∀ d, inside (PDict d) (PDict payload) → marked d = false).

Lemma check_file_Ok mode s path : mode ∈ MODES → check_file mode s path = Ok tt ↔ admissible mode s path.
Proof.
  intros Hmode. unfold check_file, admissible. split.
  - intros (payload & Hp & Hr)%bind_Ok_inv. apply bind_Ok_inv in Hr as ([] & Hmix%reject_Ok & Hready%reject_Ok).
    exists payload. split; [done|]. apply orb_false_iff in Hmix as [Ha Hd]. split; intros ->.
    + rewrite str_eqb_refl in *. cbn in *. apply negb_false_iff in Ha, Hready. done.
    + rewrite str_eqb_refl in Hd. cbn [andb] in Hd. apply orb_false_iff in Hd as [Hd Hmk]. split; [done|].
      intros d Hin. apply not_true_iff_false. intros E. rewrite <- not_true_iff_false in Hmk.
      apply Hmk, advertising_marker_iff. eauto.
  - intros (payload & Hp & Ha & Hd). rewrite Hp. cbn [mbind result_bind].
    assert (Hcase : mode = "disclosure" ∨ mode = "advertising").
    { unfold MODES in Hmode. apply elem_of_cons in Hmode as [?|Hm]; [by left|].
      right. by apply list_elem_of_singleton in Hm. }
    destruct Hcase as [->| ->].
    + destruct (Hd eq_refl) as [-> Hmk]. assert (Hn : advertising_marker (PDict payload) = false).
      { apply not_true_iff_false. intros (d & Hin & E)%advertising_marker_iff. by rewrite Hmk in E. }
      by rewrite Hn.
    + destruct (Ha eq_refl) as [-> ->]. done.
Qed.

(** The mode gate lets a pack through exactly when it is the tenant's own,
    of the run's mode, active with a named approver and time of approval (or a
    draft of a synthetic disclosure run), and not empty, with only files of
    its mode: for disclosure, nothing of advertising anywhere inside; for
    advertising, only dedicated files that are enabled, verified by name and
    licensed. What it returns is that very snapshot. *)
Theorem mode_gate_exact mode rulepack tenant synthetic s :
  select_mode_rulepack mode rulepack tenant synthetic = Ok s ↔
  rulepack = Some s ∧ mode ∈ MODES ∧ tenant_id s = tenant ∧ RulePack.mode s = mode
  ∧ may_run mode synthetic s = true ∧ files s ≠ [] ∧ ∀ path, path ∈ files s → admissible mode s path.
Proof.
  unfold select_mode_rulepack. split.
  - intros (u & Hm%require_Ok%str_in_iff & Hr)%bind_Ok_inv. apply bind_Ok_inv in Hr as (s' & Hs%of_option_Ok & Hr).
    apply bind_Ok_inv in Hr as (_ & Ht%require_Ok%str_eqb_eq & Hr).
    apply bind_Ok_inv in Hr as (_ & Hmode%require_Ok%str_eqb_eq & Hr).
    apply bind_Ok_inv in Hr as (_ & Hmay%require_Ok & Hr). apply bind_Ok_inv in Hr as (_ & Hne%require_Ok & Hr).
    apply bind_Ok_inv in Hr as (u' & Hall & [= <-]). split_and!; try done; [by destruct (files s')|].
    intros path Hp. apply check_file_Ok; [done|]. rewrite each_Ok in Hall. by apply Hall.
  - intros (-> & Hm & Ht & Hmode & Hmay & Hne & Hall). apply str_in_iff in Hm as Hm'. rewrite Hm'.
    cbn [require mbind result_bind of_option]. rewrite Ht, Hmode, !str_eqb_refl, Hmay. cbn [require mbind result_bind].
    assert (Hf : nonempty_list (files s) = true) by by destruct (files s). rewrite Hf. cbn [require mbind result_bind].
    assert (He : each (check_file mode s) (files s) = Ok tt).
    { apply each_Ok. intros path Hp. apply check_file_Ok; [done|]. by apply Hall. }
    by rewrite He.
Qed.

Lemma category_of_Ok v k : category_of v = Ok (Some k) → k ∈ SAFE_HARBOR_CATEGORIES.
Proof.
  destruct v; cbn [category_of]; try discriminate; intros (x & Hx & Hr)%bind_Ok_inv; try discriminate Hx.
  by apply bind_Ok_inv in Hr as (_ & Hin%require_Ok%str_in_iff & [= ->]).
Qed.

Lemma candidate_Ok claims seen item t : candidate claims seen item = Ok t →
  tc_claim t ∈ claims ∧ tc_id t ∉ seen ∧ tc_track t ∈ TRACKS
  ∧ (∀ k, tc_category t = Some k → k ∈ SAFE_HARBOR_CATEGORIES)
  ∧ ∃ d, item = PDict d ∧ set_of_keys d candidate_fields = true
         ∧ dict_get "claim_id" d = Some (PStr (tc_id t))
         ∧ dict_get "track" d = Some (PStr (track_str (tc_track t))).
Proof.
  unfold candidate. intros (d & Hd & Hr)%bind_Ok_inv. destruct item; try discriminate Hd. injection Hd as ->.
  apply bind_Ok_inv in Hr as (_ & Hk%require_Ok & Hr). cbv zeta in Hr.
  apply bind_Ok_inv in Hr as (id & Hid%as_str_Ok & Hr). apply bind_Ok_inv in Hr as (c & Hc%of_option_Ok & Hr).
  apply bind_Ok_inv in Hr as (_ & Hnew%reject_Ok & Hr). apply bind_Ok_inv in Hr as (tr & Htr & Hr).
  apply bind_Ok_inv in Hr as (cat & Hcat & [= <-]). apply by_key_Some in Hc as [Hin Hkey].
  unfold enum_of in Htr. apply of_option_Ok, find_some in Htr as [Htr Heq]. apply list_elem_of_In in Htr. unfold tc_id. cbn. str_prop.
  rewrite Hkey. split_and!; try done.
  - intros k ->. by eapply category_of_Ok.
  - exists d. destruct (dict_get "claim_id" d) as [v|]; [|done]. cbn in Hid. subst v.
    destruct (dict_get "track" d) as [v|]; [|done]. cbn in Heq. destruct v; try discriminate Heq.
    cbn in Heq. str_prop. by subst.
Qed.

Lemma candidates_Ok claims l seen found : candidates claims seen l = Ok found →
  NoDup (tc_id <$> seen) → (∀ t, t ∈ seen → tc_claim t ∈ claims) →
  NoDup (tc_id <$> found) ∧ (∀ t, t ∈ found → tc_claim t ∈ claims) ∧ length found = (length seen + length l)%nat
  ∧ ∀ t, t ∈ found → t ∈ seen ∨ ∃ item s, item ∈ l ∧ candidate claims s item = Ok t.
Proof.
  revert seen. induction l as [|item l IH]; intros seen; cbn [candidates].
  { intros [= <-] Hd Hc. split_and!; [done|done|cbn; lia|auto]. }
  intros (t & Ht & Hr)%bind_Ok_inv Hd Hc. destruct (candidate_Ok _ _ _ _ Ht) as (Hin & Hnew & _).
  destruct (IH _ Hr) as (H1 & H2 & H3 & H4).
  - rewrite fmap_app. apply NoDup_app. split; [done|]. split; [|apply NoDup_singleton].
    intros id Hid ->%list_elem_of_singleton. done.
  - intros t' [Ht'| ->%list_elem_of_singleton]%elem_of_app; [by apply Hc|done].
  - split_and!; [done|done|rewrite H3, length_app; cbn; lia|]. intros t' Ht'.
    destruct (H4 t' Ht') as [[Hs| ->%list_elem_of_singleton]%elem_of_app|(i & s & Hi & Hci)]; [by left| |].
    + right. exists item, (tc_id <$> seen). split; [left|done].
    + right. exists i, s. split; [by right|done].
Qed.

Lemma candidate_raises claims seen item :
  raises (λ e, e = DomainValidationError) (candidate claims seen item).
Proof.
  unfold candidate. apply raises_bind; [by destruct item|]. intros d _.
  apply raises_bind; [by apply raises_require|]. intros _ _. cbv zeta.
  apply raises_bind; [by destruct (default PNone _)|]. intros id _. apply raises_bind; [by apply raises_of_option|]. intros c _.
  apply raises_bind; [by apply raises_reject|]. intros _ _. apply raises_bind; [by apply raises_of_option|]. intros t _.
  apply raises_bind; [|done]. unfold category_of. destruct (default PNone _); try done.
  apply raises_bind; [done|]. intros x _. apply raises_bind; [by apply raises_require|done].
Qed.

Lemma candidates_raises claims l seen :
  raises (λ e, e = DomainValidationError) (candidates claims seen l).
Proof.
  revert seen. induction l as [|item l IH]; intros seen; [done|]. cbn [candidates].
  apply raises_bind; [apply candidate_raises|]. intros t _. apply IH.
Qed.

Lemma check_claims_raises identity seen l :
  raises (λ e, e = DomainValidationError) (check_claims identity seen l).
Proof.
  revert identity seen. induction l as [|c l IH]; intros identity seen; [done|]. cbn [check_claims].
  apply raises_bind; [by apply raises_require|]. intros _ _. apply raises_bind; [by apply raises_reject|]. intros _ _.
  apply raises_bind; [by apply raises_require|]. intros _ _. apply IH.
Qed.

Lemma check_claims_Ok identity seen l u : check_claims identity seen l = Ok u →
  NoDup (cl_claim_id <$> l) ∧ (∀ c, c ∈ l → cl_claim_id c ∉ seen)
  ∧ (∀ i c, identity = Some i → c ∈ l → claim_source c = i)
  ∧ ∀ c c', c ∈ l → c' ∈ l → claim_source c = claim_source c'.
Proof.
  revert identity seen. induction l as [|c l IH]; intros identity seen Hc.
  { split; [constructor|]. split; [by intros c ?%elem_of_nil|]. split; [by intros i c _ ?%elem_of_nil|by intros c c' ?%elem_of_nil]. }
  cbn [check_claims] in Hc. apply bind_Ok_inv in Hc as (_ & Hid%require_Ok & Hc).
  apply bind_Ok_inv in Hc as (_ & Hnew%reject_Ok & Hc). apply bind_Ok_inv in Hc as (_ & _ & Hc).
  destruct (IH _ _ Hc) as (Hd & Hn & Hs & _). str_prop.
  assert (Hi : ∀ i, identity = Some i → claim_source c = i).
  { intros i ->. by apply bool_decide_eq_true in Hid. }
  assert (Hall : ∀ c', c' ∈ c :: l → claim_source c' = default (claim_source c) identity).
  { intros c' [->|Hc']%elem_of_cons; [destruct identity as [i|]; [by apply Hi|done]|]. by apply (Hs _ _ eq_refl). }
  split_and!.
  - rewrite fmap_cons. constructor; [|done]. intros (c' & E & Hc')%list_elem_of_fmap.
    apply (Hn c' Hc'). rewrite <- E. left.
  - intros c' [->|Hc']%elem_of_cons; [done|]. intros Hin. apply (Hn c' Hc'). by right.
  - intros i c' -> Hc'. by apply Hall.
  - intros c1 c2 H1 H2. by rewrite (Hall c1 H1), (Hall c2 H2).
Qed.

(** The classification is total and one to one. Whatever the model sends,
    the boundary raises nothing but a [DomainValidationError], or returns the
    claims themselves in their order, all of one tenant and document, each
    once: there are as many candidates as claims, each has exactly the three
    fields, and each claim's track is the one its own candidate names, with a
    category of the list or none. *)
Theorem tracks_one_to_one claims structured :
  match validate_track_candidates claims structured with
  | Raise e => e = DomainValidationError
  | Ok out =>
      tc_claim <$> out = claims ∧ NoDup (cl_claim_id <$> claims)
      ∧ (∀ c c', c ∈ claims → c' ∈ claims → claim_source c = claim_source c')
      ∧ ∃ items, (structured = PList items ∨ structured = PTuple items) ∧ length items = length claims
          ∧ ∀ t, t ∈ out → (∀ k, tc_category t = Some k → k ∈ SAFE_HARBOR_CATEGORIES)
              ∧ ∃ d, PDict d ∈ items ∧ set_of_keys d candidate_fields = true
                  ∧ dict_get "claim_id" d = Some (PStr (tc_id t))
                  ∧ dict_get "track" d = Some (PStr (track_str (tc_track t)))
  end.
Proof.
  unfold validate_track_candidates.
  assert (Hseq : raises (λ e, e = DomainValidationError)
    (match structured with PList l | PTuple l => Ok l | _ => Raise DomainValidationError end)) by by destruct structured.
  destruct (match structured with PList l | PTuple l => Ok l | _ => _ end) as [items|e] eqn:Es; [|exact Hseq].
  cbn [mbind result_bind]. pose proof (check_claims_raises None [] claims) as Hcr.
  destruct (check_claims None [] claims) as [u|e] eqn:Ec; [|exact Hcr]. cbn [mbind result_bind].
  apply check_claims_Ok in Ec as (Hd & _ & _ & Hsame).
  pose proof (candidates_raises claims items []) as Hfr.
  destruct (candidates claims [] items) as [found|e] eqn:Ef; [|exact Hfr]. cbn [mbind result_bind].
  destruct (candidates_Ok _ _ _ _ Ef) as (Hfd & Hfc & Hlen & Hfrom); [constructor|by intros t ?%elem_of_nil|].
  destruct (_ && _) eqn:Hcov; [|done]. cbn [require mbind result_bind]. apply andb_true_iff in Hcov as [Hall Hback].
  rewrite forallb_forall in Hall, Hback.
  assert (Hget : ∀ c, c ∈ claims → ∃ t, by_key tc_id found (cl_claim_id c) = Some t ∧ t ∈ found ∧ tc_claim t = c).
  { intros c Hc. pose proof Hc as Hc'. apply list_elem_of_In, Hall, str_in_iff, list_elem_of_fmap in Hc as (t & Hk & Ht).
    exists t. rewrite Hk. split; [by apply by_key_elem|]. split; [done|].
    eapply (key_injective cl_claim_id); [exact Hd|by apply Hfc|done|by rewrite Hk]. }
  destruct (map_result _ claims) as [out|e] eqn:Eo.
  - apply map_result_Ok in Eo.
    assert (Hout : tc_claim <$> out = claims ∧ ∀ t, t ∈ out → t ∈ found).
    { clear -Eo Hget. induction Eo as [|c t cs ts Ht Hts IH]; [split; [done|by intros t ?%elem_of_nil]|].
      destruct IH as [E Hin]; [intros c' Hc'; apply Hget; by right|].
      destruct (Hget c ltac:(left)) as (t' & Ht' & Hf & Hc). apply of_option_Ok in Ht. assert (t' = t) as -> by congruence.
      split; [by rewrite fmap_cons, E, Hc|]. intros x [->|Hx]%elem_of_cons; [done|by apply Hin]. }
    destruct Hout as [Hclaims Hin]. do 3 (split; [done|]). exists items. split; [|split].
    + destruct structured; try discriminate Es; injection Es as ->; auto.
    + rewrite <- (length_fmap cl_claim_id claims). cbn in Hlen. rewrite <- Hlen, <- (length_fmap tc_id found).
      apply Permutation_length, NoDup_Permutation; [done|done|]. intros id. split.
      * intros (t & -> & Ht)%list_elem_of_fmap. by apply list_elem_of_In, Hback, str_in_iff in Ht.
      * intros (c & -> & Hc)%list_elem_of_fmap. by apply list_elem_of_In, Hall, str_in_iff in Hc.
    + intros t Ht. destruct (Hfrom t (Hin t Ht)) as [Hn|(item & seen & Hitem & Hcand)]; [by apply elem_of_nil in Hn|].
      destruct (candidate_Ok _ _ _ _ Hcand) as (_ & _ & _ & Hcat & d & -> & Hk & Hid & Htr).
      split; [done|]. exists d. done.
  - apply (raises_elim (λ e, e = DomainValidationError)) in Eo; [done|]. apply raises_map_result. intros c Hc.
    destruct (Hget c Hc) as (t & -> & _). done.
Qed.

(** The badge is honest. For counters that add up (and it refuses any
    other), the projection keeps them, and says complete, with the badge,
    exactly when the run is completed over its full scope, was not stopped by
    its budget, and every page was read, every chunk processed and every
    claim decided or sent to review; a completed full run with anything left,
    or any run out of budget, is shown partial, and no other status changes. *)
Theorem coverage_exact run_status full_scope c stop u :
  update_coverage run_status full_scope c stop = Ok u →
  cu_counters u = c ∧ cu_full_scope u = full_scope ∧ cu_complete_badge u = cu_complete u
  ∧ (cu_complete u = true ↔
       run_status = "completed" ∧ full_scope = true ∧ stop ≠ Some ("BUDGET_EXHAUSTED" : pystr)
       ∧ pages_processed c = pages_total c ∧ chunks_processed c = chunks_discovered c
       ∧ (claims_decided c + claims_needs_review c = claims_discovered c)%Z)
  ∧ (cu_status u = run_status
     ∨ cu_status u = "partial" ∧ (stop = Some ("BUDGET_EXHAUSTED" : pystr)
         ∨ run_status = "completed" ∧ full_scope = true ∧ counters_complete c = false))
  ∧ (cu_status u = "completed" → full_scope = true → cu_complete u = true).
Proof.
  unfold update_coverage. intros (u1 & _ & Hr)%bind_Ok_inv. apply bind_Ok_inv in Hr as (u2 & Hv%require_Ok & Hr).
  apply bind_Ok_inv in Hr as (u3 & Hp%require_Ok%Z.eqb_eq & Hr). apply bind_Ok_inv in Hr as (u4 & _ & Hr).
  apply bind_Ok_inv in Hr as (u5 & _ & Hr). apply bind_Ok_inv in Hr as (u6 & _ & Hr). cbv zeta in Hr. injection Hr as <-.
  cbn [cu_counters cu_full_scope cu_complete cu_complete_badge cu_status].
  assert (Hc : counters_complete c = true ↔ pages_processed c = pages_total c
            ∧ chunks_processed c = chunks_discovered c
            ∧ (claims_decided c + claims_needs_review c = claims_discovered c)%Z).
  { unfold counters_valid in Hv. cbn [forallb] in Hv. rewrite !andb_true_iff, !Z.leb_le in Hv.
    unfold counters_complete. rewrite !andb_true_iff, !Z.eqb_eq. lia. }
  destruct (bool_decide_reflect (stop = Some ("BUDGET_EXHAUSTED" : pystr))) as [Hs|Hs]; cbn [orb].
  { change (("partial" : pystr) =s? "completed") with false. cbn [andb]. split_and!; try done; try tauto.
    split; [done|]. by intros (_ & _ & Hn & _). }
  destruct (str_eqb_spec run_status "completed") as [->|Hrun]; cbn [andb].
  - destruct full_scope; cbn [andb].
    + destruct (counters_complete c) eqn:Ecc; cbn [negb andb].
      * split_and!; try done; [|by left]. split; [intros _; tauto|done].
      * change (("partial" : pystr) =s? "completed") with false. cbn [andb]. split_and!; try done.
        -- split; [done|]. intros (_ & _ & _ & Hall). by apply Hc in Hall.
        -- right. split; [done|]. by right.
    + rewrite str_eqb_refl. cbn [andb]. split_and!; try done; [|by left]. split; [done|]. by intros (_ & ? & _).
  - rewrite (proj2 (str_eqb_neq run_status "completed") Hrun). cbn [andb].
    split_and!; try done; [|by left]. split; [done|]. by intros (? & _).
Qed.


(** Two pages of three read, out of budget while running over the full scope. *)
Definition sample_counters (processed : Z) : Counters :=
  {| pages_total := 3; pages_processed := processed; pages_unreadable := 0; pages_unprocessed := 3 - processed;
     chunks_discovered := 4; chunks_processed := 4; claims_discovered := 2; claims_decided := 1;
     claims_needs_review := 1 |}.

Lemma coverage_exact_witness :
  ∃ u v, update_coverage "completed" true (sample_counters 3) None = Ok u ∧ cu_complete u = true
    ∧ update_coverage "completed" true (sample_counters 2) None = Ok v
    ∧ cu_status v = "partial" ∧ (cu_status v = "completed" → true = true → cu_complete v = true).
Proof.
  eexists _, _. split; [reflexivity|]. split; [reflexivity|]. split; [reflexivity|]. split; [reflexivity|].
  exact (proj2 (proj2 (proj2 (proj2 (proj2
    (coverage_exact "completed" true (sample_counters 2) None _ eq_refl)))))).
Defined.
