(* ===== verification/RulePacks.v ===== *)
(** * Rule-pack validation, activation and delegated review.

    [application/rulepacks.py]: the validation of a raw pack mapping against
    its files and the gap registry, the immutable registry of packs, runs and
    active pointers, the activation of a validated pack, the demo grant and
    the AI-delegated review with its provenance text.

    A validation error is a constructor that carries what its message names.
    A pack mapping is parsed YAML or JSON, so its keys are strings.  The
    fields of a record have their annotated types. *)
From Stdlib Require Import QArith.
From S2P Require Import Prelude PyVal JsonCodec Values PyDate PyUuid Digest RulePack ScopeRules.
Open Scope nat_scope.
Open Scope py_scope.

(* ------------------------------------------------------------------ *)
(** ** Scalars *)
(* ------------------------------------------------------------------ *)

(** [application/rulepacks.py:50 MODES] *)
Definition MODES : list pystr := ["disclosure"; "advertising"].

(** [application/rulepacks.py:51 STATUSES] *)
Definition STATUSES : list pystr := ["draft"; "validated"; "active"; "retired"].

(** [application/rulepacks.py:52 DEMO_STATUSES] *)
Definition DEMO_STATUSES : list pystr := ["draft"; "validated"].

(** [application/rulepacks.py:54-60 DEMO_LIMITS] *)
Definition DEMO_LIMITS : list pystr :=
  ["explicit-ladder demo only"; "per-claim gates retained"; "unverified basis stays unverified";
   "no legal-effect or immunity claim"; "local synthetic use only; never customer activation"].

(** [application/rulepacks.py:62 REVIEW_ORIGIN_AI_DELEGATED] *)
Definition REVIEW_ORIGIN_AI_DELEGATED : pystr := "ai_project_interpretation".

(** [application/rulepacks.py:63 _APPROVER_PREFIX] *)
Definition APPROVER_PREFIX : pystr := "ai-delegated-review:".

(** [application/rulepacks.py:66-80 _is_tz_aware_iso] *)
Definition is_tz_aware_iso (v : pyval) : bool :=
  match v with
  | PStr s => nonblank s && match instant_offset s with Some (Some _) => true | _ => false end
  | _ => false
  end.

(** [application/rulepacks.py:261-268 _is_uuid] *)
Definition is_uuid (v : pyval) : bool := match v with PStr s => uuid_text s | _ => false end.

(** [application/rulepacks.py:271-274 _is_sha256] *)
Definition sha256_value (v : pyval) : bool := match v with PStr s => is_sha256 s | _ => false end.

(** [application/rulepacks.py:277-283 _parse_date] *)
Definition parse_date (v : pyval) : option Z :=
  match v with PStr s => date_fromisoformat s | _ => None end.

(** [s.split("/")] *)
Fixpoint split_slash (s : pystr) : list pystr :=
  match s with
  | [] => [[]]
  | c :: r =>
      if (c =? 47)%N then [] :: split_slash r
      else match split_slash r with seg :: segs => (c :: seg) :: segs | [] => [[c]] end
  end.

(** [application/rulepacks.py:286-289 _is_safe_path] *)
Definition is_safe_path (path : pystr) : bool :=
  nonempty path && negb (starts_with "/" path) && negb (contains "\" path)
  && negb (contains ":" path)
  && forallb (λ seg, negb (str_in seg [""; "."; ".."])) (split_slash path).

Definition is_text (v : pyval) : bool := match v with PStr s => nonempty s | _ => false end.

Definition in_strs (v : pyval) (l : list pystr) : bool := existsb (eq_str v) l.

(** A value as a list of strings: [isinstance(v, list)] and every item a [str]. *)
Definition str_list (v : pyval) : option (list pystr) :=
  match v with
  | PList l => mapM (λ x, match x with PStr s => Some s | _ => None end) l
  | _ => None
  end.

(* ------------------------------------------------------------------ *)
(** ** The content hash of a raw pack *)
(* ------------------------------------------------------------------ *)

(** The number a value denotes.  A non-finite float has no place of its own:
    no encoding has one, so the hash fails wherever it is sorted. *)
Definition number_of (v : pyval) : option Q :=
  match v with
  | PFloat (S754_finite s m e) =>
      Some (if (0 <=? e)%Z then inject_Z (cond_Zopp s (Zpos m * 2 ^ e))
            else Qmake (cond_Zopp s (Zpos m)) (Z.to_pos (2 ^ (- e))))
  | PFloat _ => Some (inject_Z 0)
  | _ => inject_Z <$> as_int v
  end.

(** [a < b] *)
Fixpoint py_lt (a b : pyval) : result bool :=
  let seq_lt := fix go (l k : list pyval) : result bool :=
    match l, k with
    | [], _ => Ok (nonempty_list k)
    | _ :: _, [] => Ok false
    | x :: l, y :: k => if py_eq x y then go l k else py_lt x y
    end in
  match a, b with
  | PStr s, PStr t => Ok (negb (str_leb t s))
  | PList l, PList k => seq_lt l k
  | PTuple l, PTuple k => seq_lt l k
  | _, _ =>
      match number_of a, number_of b with
      | Some x, Some y => Ok (negb (Qle_bool y x))
      | _, _ => Raise TypeError
      end
  end.

(** [sorted(..)] by insertion: the stable order, when the items compare. *)
Fixpoint insert_value (x : pyval) (l : list pyval) : result (list pyval) :=
  match l with
  | [] => Ok [x]
  | y :: r => if_result (py_lt y x) (s ← insert_value x r; Ok (y :: s)) (Ok (x :: l))
  end.

Fixpoint sort_values (l : list pyval) : result (list pyval) :=
  match l with [] => Ok [] | x :: r => s ← sort_values r; insert_value x s end.

(** What iterating a value yields. *)
Definition items_of (v : pyval) : result (list pyval) :=
  match v with
  | PList l | PTuple l => Ok l
  | PStr s => Ok ((λ c, PStr [c]) <$> s)
  | PDict d => Ok (PStr <$> d.*1)
  | _ => Raise TypeError
  end.

(** [sorted(pack.get(k, []))] *)
Definition sorted_field (pack : pydict) (k : pystr) : result pyval :=
  l ← items_of (default (PList []) (dict_get k pack)); PList <$> sort_values l.

(** [domain/rulepacks.py:55-57 pack_content_hash] *)
Definition raw_manifest (pack : pydict) : result pyval :=
  files ← sorted_field pack "files";
  gaps ← sorted_field pack "unresolved_gap_ids";
  Ok (PDict (((λ k, (k, get_or_none pack k)) <$> MANIFEST_HASH_FIELDS)
             ++ [("files", files); ("unresolved_gap_ids", gaps)])).

(* ------------------------------------------------------------------ *)
(** ** Validation *)
(* ------------------------------------------------------------------ *)

(** The messages of [validate_rulepack] with what they name. *)
Inductive pack_error : Set :=
| MissingField (key : pystr)
| PackIdNotUuid | TenantIdNotUuid | VersionEmpty | BadEffectiveDate | BadMode | BadStatus
| OntologyEmpty | BadSourceHash
| BadFiles | UnsafePath (path : pystr) | DuplicatePath (path : pystr)
| BeyondManifest (paths : list pystr) | MissingFile (path : pystr) | FileNotMapping (path : pystr)
| FileUnversioned (path : pystr) | FileBadDate (path : pystr)
| FileVersionMismatch (path : pystr) (declared expected : pyval)
| FileSourceMismatch (path : pystr)
| HashUncomputable | BadDeclaredHash | HashMismatch
| BadGapIds | UnknownGap (gap : pystr)
| UnprovenFile (path : pystr) | UnprovenBasis (path : pystr) (clause : pyval)
| GradeMappingSet | UnsupportedMapping | ChecklistUnreviewed | ChecklistGapClosed
| ChecklistLegalEffect | AutomaticApplicability.

(** [application/rulepacks.py:313-317 ValidationResult] *)
Record ValidationResult : Set := {
  vr_ok : bool; vr_errors : list pack_error; vr_computed_sha256 : pystr }.

(** [if b: errors.append(e)] *)
Definition note (b : bool) (e : pack_error) : list pack_error := if b then [e] else [].

(** A missing key or an unreadable value. *)
Definition absent {A} (o : option A) : bool := match o with Some _ => false | None => true end.

(** [k in d and bad(d[k])] *)
Definition present_and (d : pydict) (k : pystr) (bad : pyval → bool) : bool :=
  match dict_get k d with Some v => bad v | None => false end.

(** [application/rulepacks.py:246-258 _REQUIRED_PACK_KEYS] *)
Definition REQUIRED_PACK_KEYS : list pystr :=
  ["rule_pack_id"; "tenant_id"; "version"; "effective_date"; "mode"; "status";
   "ontology_version"; "source_document_sha256"; "files"; "sha256"; "unresolved_gap_ids"].

(** [application/rulepacks.py:329-351 validate_rulepack] *)
Definition field_errors (pack : pydict) : list pack_error :=
  concat ((λ k, note (absent (dict_get k pack)) (MissingField k)) <$> REQUIRED_PACK_KEYS)
  ++ note (present_and pack "rule_pack_id" (λ v, negb (is_uuid v))) PackIdNotUuid
  ++ note (present_and pack "tenant_id" (λ v, negb (is_uuid v))) TenantIdNotUuid
  ++ note (present_and pack "version" (λ v, negb (is_text v))) VersionEmpty
  ++ note (present_and pack "effective_date" (λ v, absent (parse_date v))) BadEffectiveDate
  ++ note (present_and pack "mode" (λ v, negb (in_strs v MODES))) BadMode
  ++ note (present_and pack "status" (λ v, negb (in_strs v STATUSES))) BadStatus
  ++ note (present_and pack "ontology_version" (λ v, negb (is_text v))) OntologyEmpty
  ++ note (present_and pack "source_document_sha256" (λ v, negb (sha256_value v))) BadSourceHash.

(** The path checks, in list order; [seen] are the earlier paths.
    [application/rulepacks.py:360-365 validate_rulepack] *)
Fixpoint path_errors (seen : list pystr) (paths : list pystr) : list pack_error :=
  match paths with
  | [] => []
  | p :: r =>
      note (negb (is_safe_path p)) (UnsafePath p) ++ note (str_in p seen) (DuplicatePath p)
      ++ path_errors (p :: seen) r
  end.

(** [k in a and k in b and a.get(k) != b.get(k)] *)
Definition field_differs (a b : pydict) (k : pystr) : bool :=
  match dict_get k a, dict_get k b with Some x, Some y => negb (py_eq x y) | _, _ => false end.

(** [application/rulepacks.py:370-395 validate_rulepack] *)
Definition file_errors (pack files_content : pydict) (path : pystr) : list pack_error :=
  match get_or_none files_content path with
  | PNone => [MissingFile path]
  | PDict doc =>
      (if negb (truthy (get_or_none doc "version") && truthy (get_or_none doc "effective_date"))
       then [FileUnversioned path]
       else note (absent (parse_date (get_or_none doc "effective_date"))) (FileBadDate path))
      ++ note (field_differs doc pack "version")
           (FileVersionMismatch path (get_or_none doc "version") (get_or_none pack "version"))
      ++ note (field_differs doc pack "source_document_sha256") (FileSourceMismatch path)
  | _ => [FileNotMapping path]
  end.

(** [application/rulepacks.py:352-395 validate_rulepack] *)
Definition files_errors (pack files_content : pydict) : list pack_error :=
  match get_or_none pack "files" with
  | PNone => []
  | v =>
      match str_list v with
      | None | Some [] => [BadFiles]
      | Some listed =>
          let extra := str_sort (List.filter (λ p, negb (str_in p listed)) files_content.*1) in
          path_errors [] listed
          ++ note (nonempty_list extra) (BeyondManifest extra)
          ++ concat (file_errors pack files_content <$> listed)
      end
  end.

(** [application/rulepacks.py:412-419 validate_rulepack] *)
Definition gap_errors (pack : pydict) (gap_ids : list pystr) : list pack_error :=
  match get_or_none pack "unresolved_gap_ids" with
  | PNone => []
  | v =>
      match str_list v with
      | None => [BadGapIds]
      | Some gaps => concat ((λ g, note (negb (str_in g gap_ids)) (UnknownGap g)) <$> gaps)
      end
  end.

(** [application/rulepacks.py:300-310 _iter_bases] *)
Fixpoint iter_bases (node : pyval) : list pydict :=
  let of_items := fix go (l : list pyval) : list pydict :=
    match l with [] => [] | x :: r => iter_bases x ++ go r end in
  match node with
  | PDict d =>
      (fix go (d : pydict) : list pydict :=
         match d with
         | [] => []
         | (k, v) :: r =>
             match v with
             | PDict basis => if k =s? "basis" then [basis] else iter_bases v
             | _ => iter_bases v
             end ++ go r
         end) d
  | PList l | PTuple l => of_items l
  | _ => []
  end.

(** [d.get("verified_by") and d.get("verified_at")] *)
Definition has_evidence (d : pydict) : bool :=
  truthy (get_or_none d "verified_by") && truthy (get_or_none d "verified_at").

Definition claims_verified (d : pydict) : bool :=
  eq_str (get_or_none d "verification_status") "verified".

(** [application/rulepacks.py:434-445 validate_rulepack] *)
Definition basis_errors (path : pystr) (basis : pydict) : list pack_error :=
  let clause := get_or_none basis "clause" in
  note (negb (is_none clause) && claims_verified basis && negb (has_evidence basis))
    (UnprovenBasis path clause).

(** [application/rulepacks.py:421-445 validate_rulepack] *)
Definition verification_errors (files_content : pydict) : list pack_error :=
  concat ((λ '(path, doc),
    match doc with
    | PDict d =>
        note (claims_verified d && negb (has_evidence d)) (UnprovenFile path)
        ++ concat (basis_errors path <$> iter_bases doc)
    | _ => []
    end) <$> files_content).

(** [application/rulepacks.py:456-471 validate_rulepack] *)
Definition policy_reviewed (pack : pydict) (review : pyval) : bool :=
  match review with
  | PDict r =>
      eq_str (get_or_none r "policy_identifier") CHECKLIST_POLICY_V1
      && eq_str (get_or_none r "review_origin") REVIEW_ORIGIN_AI_DELEGATED
      && eq_str (get_or_none r "source_section") "4.6"
      && eq_str (get_or_none r "gap_id") "GAP-001"
      && sha256_value (get_or_none r "before_sha256")
      && is_tz_aware_iso (get_or_none r "reviewed_at")
      && forallb (λ k, match get_or_none r k with PStr s => nonblank s | _ => false end)
           ["reviewer"; "source_authority"; "note"; "before_version"]
      && negb (py_eq (get_or_none r "before_version") (get_or_none pack "version"))
      && match get_or_none r "boundary_vectors" with PList l => nonempty_list l | _ => false end
  | _ => false
  end.

(** [application/rulepacks.py:447-476 validate_rulepack] *)
Definition safe_harbor_errors (pack files_content : pydict) : list pack_error :=
  match get_or_none files_content "regulatory/safe_harbor.yaml" with
  | PDict sh =>
      let mapping := get_or_none sh "reasonable_basis_boolean_mapping" in
      note (negb (is_none (get_or_none sh "grade_mapping"))) GradeMappingSet
      ++ if is_none mapping then []
         else if eq_str mapping CHECKLIST_POLICY_V1 then
           note (negb (policy_reviewed pack (get_or_none sh "checklist_policy_review")))
             ChecklistUnreviewed
           ++ note (negb match get_or_none pack "unresolved_gap_ids" with
                         | PList l => existsb (λ g, eq_str g "GAP-001") l
                         | _ => false
                         end) ChecklistGapClosed
           ++ note (negb (eq_str (get_or_none sh "legal_effect") "not_determined"))
                ChecklistLegalEffect
         else [UnsupportedMapping]
  | _ => []
  end.

(** [application/rulepacks.py:478-481 validate_rulepack] *)
Definition timeline_errors (files_content : pydict) : list pack_error :=
  match get_or_none files_content "regulatory/timeline.yaml" with
  | PDict t => note (truthy (get_or_none t "automatic_legal_applicability_enabled"))
                 AutomaticApplicability
  | _ => []
  end.

Section validation.
Context `{Digest}.

(** [application/rulepacks.py:292-297 compute_pack_sha256] *)
Definition compute_pack_sha256 (pack files_content : pydict) : result pystr :=
  manifest ← raw_manifest pack;
  envelope ← envelope_of manifest files_content;
  canonical_hash envelope.

(** [application/rulepacks.py:397-410 validate_rulepack] *)
Definition hash_errors (pack files_content : pydict) : list pack_error * pystr :=
  match compute_pack_sha256 pack files_content with
  | Raise _ => ([HashUncomputable], "uncomputable")
  | Ok computed =>
      let declared := get_or_none pack "sha256" in
      (if negb (sha256_value declared) then [BadDeclaredHash]
       else note (negb (eq_str declared computed)) HashMismatch, computed)
  end.

(** [application/rulepacks.py:320-483 validate_rulepack] *)
Definition validate_rulepack (pack files_content : pydict) (gap_ids : list pystr)
    : ValidationResult :=
  let '(hashed, computed) := hash_errors pack files_content in
  let errors :=
    field_errors pack ++ files_errors pack files_content ++ hashed ++ gap_errors pack gap_ids
    ++ verification_errors files_content ++ safe_harbor_errors pack files_content
    ++ timeline_errors files_content in
  {| vr_ok := negb (nonempty_list errors); vr_errors := errors; vr_computed_sha256 := computed |}.
End validation.

(* ------------------------------------------------------------------ *)
(** ** Records and the registry *)
(* ------------------------------------------------------------------ *)

(** [application/rulepacks.py:486-504 RulePackRecord] *)
Record RulePackRecord : Set := {
  rp_rule_pack_id : pystr; rp_tenant_id : pystr; rp_version : pystr; rp_effective_date : pystr;
  rp_mode : pystr; rp_status : pystr; rp_ontology_version : pystr;
  rp_source_document_sha256 : pystr; rp_files : list pystr; rp_sha256 : pystr;
  rp_unresolved_gap_ids : list pystr; rp_approved_by : option pystr;
  rp_approved_at : option pystr }.

#[export] Instance rule_pack_record_eq_dec : EqDecision RulePackRecord.
Proof. solve_decision. Defined.

Definition opt_str (o : option pystr) : pyval := match o with Some s => PStr s | None => PNone end.

(** [application/rulepacks.py:524-539 RulePackRecord.to_dict] *)
Definition to_dict (p : RulePackRecord) : pydict :=
  [("rule_pack_id", PStr (rp_rule_pack_id p)); ("tenant_id", PStr (rp_tenant_id p));
   ("version", PStr (rp_version p)); ("effective_date", PStr (rp_effective_date p));
   ("mode", PStr (rp_mode p)); ("status", PStr (rp_status p));
   ("ontology_version", PStr (rp_ontology_version p));
   ("source_document_sha256", PStr (rp_source_document_sha256 p));
   ("files", PList (PStr <$> rp_files p)); ("sha256", PStr (rp_sha256 p));
   ("unresolved_gap_ids", PList (PStr <$> rp_unresolved_gap_ids p));
   ("approved_by", opt_str (rp_approved_by p)); ("approved_at", opt_str (rp_approved_at p))].

(** A text field of a record's mapping.  [str(..)] of a string is the string;
    the mappings this is used on are those [to_dict] wrote, so a value of
    another type, which [str] would convert, is a [TypeError] here. *)
Definition text_field (data : pydict) (k : pystr) : result pystr :=
  v ← of_option KeyError (dict_get k data); as_str TypeError v.

Definition optional_text (data : pydict) (k : pystr) : result (option pystr) :=
  match get_or_none data k with
  | PNone => Ok None
  | v => s ← as_str TypeError v; Ok (Some s)
  end.

Definition text_items (v : pyval) : result (list pystr) :=
  l ← items_of v; map_result (as_str TypeError) l.

(** [application/rulepacks.py:506-522 RulePackRecord.from_dict] *)
Definition from_dict (data : pydict) : result RulePackRecord :=
  rule_pack_id ← text_field data "rule_pack_id";
  tenant_id ← text_field data "tenant_id";
  version ← text_field data "version";
  effective_date ← text_field data "effective_date";
  mode ← text_field data "mode";
  status ← text_field data "status";
  ontology_version ← text_field data "ontology_version";
  source_document_sha256 ← text_field data "source_document_sha256";
  file_list ← of_option KeyError (dict_get "files" data);
  files ← text_items file_list;
  sha256 ← text_field data "sha256";
  gaps ← text_items (default (PList []) (dict_get "unresolved_gap_ids" data));
  approved_by ← optional_text data "approved_by";
  approved_at ← optional_text data "approved_at";
  Ok {| rp_rule_pack_id := rule_pack_id; rp_tenant_id := tenant_id; rp_version := version;
        rp_effective_date := effective_date; rp_mode := mode; rp_status := status;
        rp_ontology_version := ontology_version;
        rp_source_document_sha256 := source_document_sha256; rp_files := files;
        rp_sha256 := sha256; rp_unresolved_gap_ids := gaps; rp_approved_by := approved_by;
        rp_approved_at := approved_at |}.

(** [replace(pack, status=..)] *)
Definition with_status (s : pystr) (p : RulePackRecord) : RulePackRecord :=
  {| rp_rule_pack_id := rp_rule_pack_id p; rp_tenant_id := rp_tenant_id p;
     rp_version := rp_version p; rp_effective_date := rp_effective_date p; rp_mode := rp_mode p;
     rp_status := s; rp_ontology_version := rp_ontology_version p;
     rp_source_document_sha256 := rp_source_document_sha256 p; rp_files := rp_files p;
     rp_sha256 := rp_sha256 p; rp_unresolved_gap_ids := rp_unresolved_gap_ids p;
     rp_approved_by := rp_approved_by p; rp_approved_at := rp_approved_at p |}.

(** [replace(pack, approved_by=.., approved_at=..)] *)
Definition with_approval (by_whom at_time : pystr) (p : RulePackRecord) : RulePackRecord :=
  {| rp_rule_pack_id := rp_rule_pack_id p; rp_tenant_id := rp_tenant_id p;
     rp_version := rp_version p; rp_effective_date := rp_effective_date p; rp_mode := rp_mode p;
     rp_status := rp_status p; rp_ontology_version := rp_ontology_version p;
     rp_source_document_sha256 := rp_source_document_sha256 p; rp_files := rp_files p;
     rp_sha256 := rp_sha256 p; rp_unresolved_gap_ids := rp_unresolved_gap_ids p;
     rp_approved_by := Some by_whom; rp_approved_at := Some at_time |}.

(** [application/rulepacks.py:542-550 RunSnapshot] *)
Record RunSnapshot : Set := {
  rs_run_id : pystr; rs_tenant_id : pystr; rs_rule_pack_id : pystr;
  rs_rule_pack_sha256 : pystr; rs_status : pystr }.

(** [application/rulepacks.py:553-560 ActivationRecord] *)
Record ActivationRecord : Set := {
  ar_before_pack_id : option pystr; ar_after_pack_id : pystr; ar_tenant_id : pystr;
  ar_mode : pystr; ar_actor : pystr; ar_reason : pystr }.

(** [application/rulepacks.py:563-578 DemoGrant] *)
Record DemoGrant : Set := {
  dg_rule_pack_id : pystr; dg_tenant_id : pystr; dg_sha256 : pystr; dg_actor : pystr;
  dg_purpose : pystr; dg_limits : list pystr; dg_local_only : bool; dg_approved_by : pyval }.

(** [application/rulepacks.py:581-600 RulePackRegistry] *)
Record RulePackRegistry : Set := {
  rg_packs : list RulePackRecord; rg_runs : list RunSnapshot;
  rg_active : list (pystr * pystr * pystr) }.

(** [application/rulepacks.py:598-600 RulePackRegistry.empty] *)
Definition empty_registry : RulePackRegistry := {| rg_packs := []; rg_runs := []; rg_active := [] |}.

(** [(tenant_id, rule_pack_id)] names the pack. *)
Definition names_pack (tenant_id rule_pack_id : pystr) (p : RulePackRecord) : bool :=
  (rp_rule_pack_id p =s? rule_pack_id) && (rp_tenant_id p =s? tenant_id).

(** [application/rulepacks.py:602-614 RulePackRegistry.with_pack] *)
Definition with_pack (r : RulePackRegistry) (pack : RulePackRecord) : result RulePackRegistry :=
  match find (names_pack (rp_tenant_id pack) (rp_rule_pack_id pack)) (rg_packs r) with
  | Some existing =>
      if decide (existing = pack) then Ok r else Raise (ValueError "conflicting rule pack id")
  | None => Ok {| rg_packs := rg_packs r ++ [pack]; rg_runs := rg_runs r;
                  rg_active := rg_active r |}
  end.

(** [application/rulepacks.py:616-617 RulePackRegistry.with_run] *)
Definition with_run (r : RulePackRegistry) (run : RunSnapshot) : RulePackRegistry :=
  {| rg_packs := rg_packs r; rg_runs := rg_runs r ++ [run]; rg_active := rg_active r |}.

(** [application/rulepacks.py:619-624 RulePackRegistry.get_pack] *)
Definition get_pack (r : RulePackRegistry) (tenant_id rule_pack_id : pystr)
    : result RulePackRecord :=
  of_option LookupError (find (names_pack tenant_id rule_pack_id) (rg_packs r)).

(** [application/rulepacks.py:626-627 RulePackRegistry.packs_for_tenant] *)
Definition packs_for_tenant (r : RulePackRegistry) (tenant_id : pystr) : list RulePackRecord :=
  List.filter (λ p, rp_tenant_id p =s? tenant_id) (rg_packs r).

(** [application/rulepacks.py:629-630 RulePackRegistry.runs_for_tenant] *)
Definition runs_for_tenant (r : RulePackRegistry) (tenant_id : pystr) : list RunSnapshot :=
  List.filter (λ s, rs_tenant_id s =s? tenant_id) (rg_runs r).

(** [tenant == tenant_id and pack_mode == mode] *)
Definition points (tenant_id mode : pystr) (a : pystr * pystr * pystr) : bool :=
  (a.1.1 =s? tenant_id) && (a.1.2 =s? mode).

(** [application/rulepacks.py:632-636 RulePackRegistry.active_pack_id] *)
Definition active_pack_id (r : RulePackRegistry) (tenant_id mode : pystr) : option pystr :=
  snd <$> find (points tenant_id mode) (rg_active r).

(** [application/rulepacks.py:638-642 RulePackRegistry._with_active] *)
Definition with_active (r : RulePackRegistry) (tenant_id mode pack_id : pystr)
    : RulePackRegistry :=
  {| rg_packs := rg_packs r; rg_runs := rg_runs r;
     rg_active := List.filter (λ a, negb (points tenant_id mode a)) (rg_active r)
                  ++ [(tenant_id, mode, pack_id)] |}.

(** The metadata [snapshot_from_validated] reads of a record's mapping; the
    content is what that function computes.
    [domain/rulepacks.py:145-164 snapshot_from_validated] *)
Definition snapshot_fields (p : RulePackRecord) : RulePackSnapshot :=
  {| rule_pack_id := rp_rule_pack_id p; tenant_id := rp_tenant_id p; version := rp_version p;
     effective_date := rp_effective_date p; mode := rp_mode p; status := rp_status p;
     ontology_version := rp_ontology_version p;
     source_document_sha256 := rp_source_document_sha256 p; sha256 := rp_sha256 p;
     files := rp_files p; unresolved_gap_ids := rp_unresolved_gap_ids p;
     approved_by := rp_approved_by p; approved_at := rp_approved_at p; content := [] |}.

Section activation.
Context `{Digest}.

(** [application/rulepacks.py:645-673 grant_demo_use] *)
Definition grant_demo_use (pack files_content : pydict) (gap_ids : list pystr)
    (actor purpose : pystr) : result DemoGrant :=
  _ ← require (nonempty actor && nonempty purpose) (ValueError "actor and purpose");
  _ ← require (in_strs (get_or_none pack "status") DEMO_STATUSES) (ValueError "demo status");
  _ ← require (vr_ok (validate_rulepack pack files_content gap_ids)) (ValueError "validation");
  rule_pack_id ← text_field pack "rule_pack_id";
  tenant_id ← text_field pack "tenant_id";
  sha256 ← text_field pack "sha256";
  Ok {| dg_rule_pack_id := rule_pack_id; dg_tenant_id := tenant_id; dg_sha256 := sha256;
        dg_actor := actor; dg_purpose := purpose; dg_limits := DEMO_LIMITS;
        dg_local_only := true; dg_approved_by := get_or_none pack "approved_by" |}.

(** [bool(value)] of an optional string. *)
Definition given (o : option pystr) : bool := match o with Some s => nonempty s | None => false end.

(** The packs after an activation: the former default is retired.
    [application/rulepacks.py:719-731 activate_rulepack] *)
Definition turned (tenant_id mode rule_pack_id : pystr) (current : option pystr)
    (existing : RulePackRecord) : RulePackRecord :=
  if (rp_tenant_id existing =s? tenant_id) && (rp_mode existing =s? mode)
     && match current with Some c => rp_rule_pack_id existing =s? c | None => false end
     && (rp_status existing =s? "active")
  then with_status "retired" existing
  else if names_pack tenant_id rule_pack_id existing then with_status "active" existing
  else existing.

(** [application/rulepacks.py:676-743 activate_rulepack] *)
Definition activate_rulepack (r : RulePackRegistry) (rule_pack_id tenant_id actor reason : pystr)
    (files_content : pydict) (gap_ids : list pystr)
    : result (RulePackRegistry * ActivationRecord) :=
  _ ← require (nonempty actor && nonempty reason) (ValueError "actor and reason");
  pack ← get_pack r tenant_id rule_pack_id;
  _ ← reject (rp_status pack =s? "retired") (ValueError "retired");
  let current := active_pack_id r tenant_id (rp_mode pack) in
  let is_current := match current with Some c => c =s? rule_pack_id | None => false end in
  _ ← require ((rp_status pack =s? "validated") || (rp_status pack =s? "active") && is_current)
        (ValueError "not validated");
  _ ← require (given (rp_approved_by pack) && given (rp_approved_at pack))
        (ValueError "approval");
  _ ← require (vr_ok (validate_rulepack (to_dict pack) files_content gap_ids))
        (ValueError "validation");
  let record := {| ar_before_pack_id := current; ar_after_pack_id := rule_pack_id;
                   ar_tenant_id := tenant_id; ar_mode := rp_mode pack; ar_actor := actor;
                   ar_reason := reason |} in
  if is_current then Ok (r, record)
  else
    Ok (with_active
          {| rg_packs := turned tenant_id (rp_mode pack) rule_pack_id current <$> rg_packs r;
             rg_runs := rg_runs r; rg_active := rg_active r |}
          tenant_id (rp_mode pack) rule_pack_id, record).

(* ------------------------------------------------------------------ *)
(** ** Delegated review *)
(* ------------------------------------------------------------------ *)

(** [application/rulepacks.py:83-99 ReviewProvenance] *)
Record ReviewProvenance : Set := {
  pv_review_origin : pystr; pv_reviewer : pystr; pv_reviewed_at : pystr;
  pv_source_authority : pystr; pv_pack_sha256 : pystr; pv_note : pystr }.

Definition REVIEW_PREFIX : pystr := "review_provenance:".

Definition provenance_dict (p : ReviewProvenance) : pydict :=
  [("review_origin", PStr (pv_review_origin p)); ("reviewer", PStr (pv_reviewer p));
   ("reviewed_at", PStr (pv_reviewed_at p)); ("source_authority", PStr (pv_source_authority p));
   ("pack_sha256", PStr (pv_pack_sha256 p)); ("note", PStr (pv_note p))].

(** [application/rulepacks.py:101-115 ReviewProvenance.to_reason] *)
Definition to_reason (p : ReviewProvenance) : result pystr :=
  text ← json_dumps (PDict (provenance_dict p)); Ok (REVIEW_PREFIX ++ text).

(** [isinstance(data[key], str) and data[key].strip()] *)
Definition nonblank_text (data : pydict) (k : pystr) : option pystr :=
  match get_or_none data k with PStr s => if nonblank s then Some s else None | _ => None end.

(** [application/rulepacks.py:138-145 ReviewProvenance.from_reason] *)
Definition PROVENANCE_KEYS : list pystr :=
  ["review_origin"; "reviewer"; "reviewed_at"; "source_authority"; "pack_sha256"; "note"].

(** [application/rulepacks.py:117-156 ReviewProvenance.from_reason] *)
Definition from_reason (reason : pystr) : option ReviewProvenance :=
  if starts_with REVIEW_PREFIX reason then
    match json_loads (drop (length REVIEW_PREFIX) reason) with
    | Ok (PDict data) =>
        if set_eqb data.*1 PROVENANCE_KEYS then
          origin ← nonblank_text data "review_origin";
          reviewer ← nonblank_text data "reviewer";
          reviewed_at ← nonblank_text data "reviewed_at";
          source_authority ← nonblank_text data "source_authority";
          pack_sha256 ← nonblank_text data "pack_sha256";
          note ← nonblank_text data "note";
          if (origin =s? REVIEW_ORIGIN_AI_DELEGATED) && is_sha256 pack_sha256
             && is_tz_aware_iso (PStr reviewed_at)
          then Some {| pv_review_origin := origin; pv_reviewer := reviewer;
                       pv_reviewed_at := reviewed_at; pv_source_authority := source_authority;
                       pv_pack_sha256 := pack_sha256; pv_note := note |}
          else None
        else None
    | _ => None
    end
  else None.

(** [p if p is not pack else reviewed]: the pack found is the first that
    matches. *)
Fixpoint replace_first {A} (f : A → bool) (g : A → A) (l : list A) : list A :=
  match l with
  | [] => []
  | x :: r => if f x then g x :: r else x :: replace_first f g r
  end.

(** [application/rulepacks.py:159-243 record_ai_delegated_review] *)
Definition record_ai_delegated_review (r : RulePackRegistry) (rule_pack_id tenant_id reviewer
    reviewed_at source_authority note : pystr) (files_content : pydict) (gap_ids : list pystr)
    : result (RulePackRegistry * ActivationRecord * ReviewProvenance) :=
  _ ← require (nonblank reviewer) (ValueError "reviewer");
  _ ← require (nonblank source_authority) (ValueError "source_authority");
  _ ← require (nonblank note) (ValueError "note");
  _ ← require (is_tz_aware_iso (PStr reviewed_at)) (ValueError "reviewed_at");
  pack ← get_pack r tenant_id rule_pack_id;
  _ ← require (rp_status pack =s? "validated") (ValueError "status");
  _ ← reject (given (rp_approved_by pack)) (ValueError "human approval");
  let provenance :=
    {| pv_review_origin := REVIEW_ORIGIN_AI_DELEGATED; pv_reviewer := reviewer;
       pv_reviewed_at := reviewed_at; pv_source_authority := source_authority;
       pv_pack_sha256 := rp_sha256 pack; pv_note := note |} in
  let with_review :=
    {| rg_packs := replace_first (names_pack tenant_id rule_pack_id)
                     (with_approval (APPROVER_PREFIX ++ reviewer) reviewed_at) (rg_packs r);
       rg_runs := rg_runs r; rg_active := rg_active r |} in
  reason ← to_reason provenance;
  '(updated, record) ← activate_rulepack with_review rule_pack_id tenant_id reviewer reason
                         files_content gap_ids;
  Ok (updated, record, provenance).
End activation.
