(* ===== verification/RulePacksSpec.v ===== *)
(** * Rule-pack administration: what its checks establish.

    Validation as a declarative contract and what it makes possible (the
    validated pack freezes), the exact effect of an activation, the invariant
    of the registry, and the provenance text of a delegated review. *)
From S2P Require Import Prelude PyVal JsonCodec Values PyDate PyUuid Digest RulePack ScopeRules RulePacks.
Open Scope py_scope.

(* ------------------------------------------------------------------ *)
(** ** Lists of messages *)
(* ------------------------------------------------------------------ *)

Lemma note_nil b e : note b e = [] ↔ b = false.
Proof. by destruct b. Qed.

Lemma concat_nil {A B} (f : A → list B) l : concat (f <$> l) = [] ↔ ∀ x, x ∈ l → f x = [].
Proof.
  induction l as [|x l IH]; cbn; [split; [by intros _ y ?%elem_of_nil|done]|].
  rewrite app_nil, IH. setoid_rewrite elem_of_cons. split.
  - intros [Hx Hl] y [->|Hy]; auto.
  - intros H. split; auto.
Qed.

Lemma present_and_false d k bad :
  present_and d k bad = false ↔ ∀ v, dict_get k d = Some v → bad v = false.
Proof. unfold present_and. destruct (dict_get k d); naive_solver. Qed.

Lemma in_strs_str s l : in_strs (PStr s) l = true ↔ s ∈ l.
Proof.
  unfold in_strs. rewrite existsb_exists. cbn. setoid_rewrite str_eqb_eq.
  setoid_rewrite <- list_elem_of_In. naive_solver.
Qed.

Lemma str_list_strs l : str_list (PList (PStr <$> l)) = Some l.
Proof. cbn. induction l as [|x l IH]; [done|]. cbn. by rewrite IH. Qed.

(* ------------------------------------------------------------------ *)
(** ** The hash of a record *)
(* ------------------------------------------------------------------ *)

Lemma insert_value_strs x l :
  insert_value (PStr x) (PStr <$> l) = Ok (PStr <$> insert_sorted str_leb x l).
Proof.
  induction l as [|y l IH]; [done|]. cbn. destruct (str_leb x y); cbn; [done|].
  change (list_fmap _ _ PStr l) with (PStr <$> l). by rewrite IH.
Qed.

Lemma sort_values_strs l : sort_values (PStr <$> l) = Ok (PStr <$> str_sort l).
Proof.
  induction l as [|x l IH]; [done|]. cbn.
  change (list_fmap _ _ PStr l) with (PStr <$> l). rewrite IH. cbn. apply insert_value_strs.
Qed.

(** The metadata the hash of a record binds. *)
Definition record_manifest (p : RulePackRecord) : Manifest :=
  {| m_version := rp_version p; m_ontology_version := rp_ontology_version p;
     m_source_document_sha256 := rp_source_document_sha256 p; m_mode := rp_mode p;
     m_effective_date := rp_effective_date p; m_files := rp_files p;
     m_unresolved_gap_ids := rp_unresolved_gap_ids p |}.

Lemma raw_manifest_to_dict p : raw_manifest (to_dict p) = Ok (manifest_val (record_manifest p)).
Proof.
  unfold raw_manifest, sorted_field. cbn -[sort_values fmap].
  rewrite !sort_values_strs. reflexivity.
Qed.

Lemma compute_to_dict `{Digest} p fc :
  compute_pack_sha256 (to_dict p) fc = pack_content_hash (record_manifest p) fc.
Proof. unfold compute_pack_sha256. by rewrite raw_manifest_to_dict. Qed.

(** A record reads back from the mapping it writes. *)
Lemma text_items_strs l : text_items (PList (PStr <$> l)) = Ok l.
Proof.
  unfold text_items. cbn. induction l as [|x l IH]; [done|]. cbn.
  change (list_fmap _ _ PStr l) with (PStr <$> l). by rewrite IH.
Qed.

Lemma from_to_dict p : from_dict (to_dict p) = Ok p.
Proof.
  unfold from_dict. cbn -[text_items fmap]. rewrite !text_items_strs. cbn.
  unfold optional_text. cbn.
  destruct p as [??????????? ba aa]; cbn. by destruct ba, aa.
Qed.

(* ------------------------------------------------------------------ *)
(** ** The declarative contract of a validated pack *)
(* ------------------------------------------------------------------ *)

(** The [basis] mappings that are checked: those that are the value of a
    [basis] key outside another [basis] mapping. *)
Inductive basis_of : pyval → pydict → Prop :=
| basis_here d b : ("basis", PDict b) ∈ d → basis_of (PDict d) b
| basis_in_member d k v b :
    (k, v) ∈ d → (k = "basis" → ∀ c, v ≠ PDict c) → basis_of v b → basis_of (PDict d) b
| basis_in_list l v b : v ∈ l → basis_of v b → basis_of (PList l) b
| basis_in_tuple l v b : v ∈ l → basis_of v b → basis_of (PTuple l) b.

Lemma elem_of_iter_items l b :
  b ∈ (fix go (l : list pyval) := match l with [] => [] | x :: r => iter_bases x ++ go r end) l
  ↔ ∃ v, v ∈ l ∧ b ∈ iter_bases v.
Proof.
  induction l as [|x l IH]; [split; [by intros ?%elem_of_nil|by intros (? & ?%elem_of_nil & _)]|].
  rewrite elem_of_app, IH. setoid_rewrite elem_of_cons. naive_solver.
Qed.

Definition member_bases (kv : pystr * pyval) : list pydict :=
  match kv.2 with
  | PDict basis => if kv.1 =s? "basis" then [basis] else iter_bases kv.2
  | _ => iter_bases kv.2
  end.

Lemma iter_bases_dict d : iter_bases (PDict d) = concat (member_bases <$> d).
Proof. induction d as [|[k v] d IH]; [done|]. cbn in *. by rewrite IH. Qed.

Lemma iter_bases_seq l : (∀ b, b ∈ iter_bases (PList l) ↔ ∃ v, v ∈ l ∧ b ∈ iter_bases v)
  ∧ iter_bases (PTuple l) = iter_bases (PList l).
Proof. split; [intros b; apply elem_of_iter_items|done]. Qed.

Lemma elem_of_iter_bases v b : b ∈ iter_bases v ↔ basis_of v b.
Proof.
  revert b. induction v as [| | | | |l IH|l IH|d IH] using pyval_nested_ind; intros bs;
    try (by split; [intros ?%elem_of_nil|inversion 1]).
  - rewrite (proj1 (iter_bases_seq l)). rewrite Forall_forall in IH. split.
    + intros (v & Hv & Hb). eapply basis_in_list; [done|]. by apply IH.
    + inversion 1 as [| |? v ? Hv Hb|]; subst. exists v. split; [done|]. by apply IH.
  - rewrite (proj2 (iter_bases_seq l)), (proj1 (iter_bases_seq l)). rewrite Forall_forall in IH. split.
    + intros (v & Hv & Hb). eapply basis_in_tuple; [done|]. by apply IH.
    + inversion 1 as [| | |? v ? Hv Hb]; subst. exists v. split; [done|]. by apply IH.
  - rewrite iter_bases_dict, list_elem_of_In, in_concat. rewrite Forall_forall in IH. split.
    + intros (ms & Hin & Hb). apply list_elem_of_In, list_elem_of_fmap in Hin as ([k v] & -> & Hkv).
      apply list_elem_of_In in Hb. unfold member_bases in Hb. cbn [fst snd] in Hb.
      assert (Hm : (k = "basis" → ∀ c, v ≠ PDict c) → bs ∈ iter_bases v → basis_of (PDict d) bs).
      { intros Hk Hv. eapply basis_in_member; [done|done|]. by apply (IH (k, v)). }
      destruct v; try (apply Hm; [done|exact Hb]).
      destruct (str_eqb_spec k "basis") as [->|Hk]; [|by apply Hm].
      apply list_elem_of_singleton in Hb as ->. by constructor.
    + intros Hb. assert (∃ kv, kv ∈ d ∧ bs ∈ member_bases kv) as (kv & Hkv & Hm).
      { inversion Hb as [? ? Hin|? k v ? Hin Hk Hv| |]; subst.
        - exists ("basis", PDict bs). split; [done|]. by left.
        - exists (k, v). split; [done|]. apply (IH (k, v)) in Hv; [|done]. unfold member_bases. cbn.
          destruct v; try done. destruct (str_eqb_spec k "basis") as [->|]; [|done].
          by destruct (Hk eq_refl d0). }
      exists (member_bases kv). split; [|by apply list_elem_of_In].
      apply list_elem_of_In, list_elem_of_fmap. eauto.
Qed.

(** A file of the pack: it declares the pack's version, a date, and no other
    source document. *)
Definition file_fits (p : RulePackRecord) (doc : pydict) : Prop :=
  dict_get "version" doc = Some (PStr (rp_version p))
  ∧ (∃ s, dict_get "effective_date" doc = Some (PStr s) ∧ is_Some (date_fromisoformat s))
  ∧ ∀ v, dict_get "source_document_sha256" doc = Some v → v = PStr (rp_source_document_sha256 p).

(** The checklist policy of a safe-harbor file. *)
Definition mapping_fits (p : RulePackRecord) (sh : pydict) : Prop :=
  get_or_none sh "grade_mapping" = PNone
  ∧ (get_or_none sh "reasonable_basis_boolean_mapping" = PNone
     ∨ get_or_none sh "reasonable_basis_boolean_mapping" = PStr CHECKLIST_POLICY_V1
       ∧ policy_reviewed (to_dict p) (get_or_none sh "checklist_policy_review") = true
       ∧ "GAP-001" ∈ rp_unresolved_gap_ids p
       ∧ get_or_none sh "legal_effect" = PStr "not_determined").

(** A verification claim carries its evidence. *)
Definition evidenced (d : pydict) : Prop := claims_verified d = true → has_evidence d = true.

(** What the code promises of a pack it calls valid. *)
Record admitted `{Digest} (p : RulePackRecord) (fc : pydict) (gaps : list pystr) : Prop := {
  ad_ids : uuid_text (rp_rule_pack_id p) = true ∧ uuid_text (rp_tenant_id p) = true;
  ad_versions : rp_version p ≠ [] ∧ rp_ontology_version p ≠ [];
  ad_date : is_Some (date_fromisoformat (rp_effective_date p));
  ad_mode : rp_mode p ∈ MODES;
  ad_status : rp_status p ∈ STATUSES;
  ad_source : is_sha256 (rp_source_document_sha256 p) = true;
  ad_files : rp_files p ≠ [] ∧ rp_files p ≡ₚ fc.*1;
  ad_paths : ∀ path, path ∈ rp_files p → is_safe_path path = true;
  ad_docs : ∀ path, path ∈ rp_files p → ∃ doc, dict_get path fc = Some (PDict doc) ∧ file_fits p doc;
  ad_hash : pack_content_hash (record_manifest p) fc = Ok (rp_sha256 p);
  ad_gaps : ∀ g, g ∈ rp_unresolved_gap_ids p → g ∈ gaps;
  ad_evidence : ∀ path d, (path, PDict d) ∈ fc →
    evidenced d ∧ ∀ b, basis_of (PDict d) b → get_or_none b "clause" ≠ PNone → evidenced b;
  ad_mapping : ∀ sh, dict_get "regulatory/safe_harbor.yaml" fc = Some (PDict sh) → mapping_fits p sh;
  ad_timeline : ∀ t, dict_get "regulatory/timeline.yaml" fc = Some (PDict t) →
    truthy (get_or_none t "automatic_legal_applicability_enabled") = false }.

Lemma is_none_iff v : is_none v = true ↔ v = PNone.
Proof. by destruct v. Qed.

Lemma field_errors_nil p :
  field_errors (to_dict p) = [] ↔
  (uuid_text (rp_rule_pack_id p) = true ∧ uuid_text (rp_tenant_id p) = true)
  ∧ (rp_version p ≠ [] ∧ rp_ontology_version p ≠ [])
  ∧ is_Some (date_fromisoformat (rp_effective_date p))
  ∧ rp_mode p ∈ MODES ∧ rp_status p ∈ STATUSES
  ∧ is_sha256 (rp_source_document_sha256 p) = true.
Proof.
  unfold field_errors. rewrite !app_nil, !note_nil.
  assert (Hk : concat ((λ k, note (absent (dict_get k (to_dict p))) (MissingField k))
                         <$> REQUIRED_PACK_KEYS) = []) by reflexivity.
  rewrite Hk. unfold present_and.
  cbn -[in_strs uuid_text date_fromisoformat is_sha256 MODES STATUSES].
  rewrite !negb_false_iff, !in_strs_str.
  assert (Hn : ∀ s : pystr, nonempty s = true ↔ s ≠ []) by by intros [].
  assert (Ha : ∀ o : option Z, absent o = false ↔ is_Some o)
    by (intros []; split; [by eexists|done|done|by intros []]).
  rewrite !Hn, Ha. tauto.
Qed.

Lemma path_errors_nil seen l :
  path_errors seen l = [] ↔
  (∀ p, p ∈ l → is_safe_path p = true) ∧ NoDup l ∧ ∀ p, p ∈ l → p ∉ seen.
Proof.
  revert seen. induction l as [|p l IH]; intros seen; cbn [path_errors].
  { split; [|done]. intros _. split_and!; [by intros p ?%elem_of_nil|constructor|by intros p ?%elem_of_nil]. }
  rewrite !app_nil, !note_nil, IH, negb_false_iff, str_in_false, NoDup_cons.
  setoid_rewrite elem_of_cons. naive_solver.
Qed.

Lemma py_eq_str_iff v s : py_eq v (PStr s) = true ↔ v = PStr s.
Proof. destruct v; cbn; try (split; congruence). rewrite str_eqb_eq. naive_solver. Qed.

Lemma field_differs_false doc p k s :
  dict_get k (to_dict p) = Some (PStr s) →
  field_differs doc (to_dict p) k = false ↔ ∀ v, dict_get k doc = Some v → v = PStr s.
Proof.
  intros Hk. unfold field_differs. rewrite Hk. destruct (dict_get k doc) as [v|]; [|done].
  rewrite negb_false_iff, py_eq_str_iff. naive_solver.
Qed.

Lemma parse_date_Some v n : parse_date v = Some n ↔ ∃ s, v = PStr s ∧ date_fromisoformat s = Some n.
Proof. destruct v; cbn; naive_solver. Qed.

Lemma get_or_none_Some d k v : v ≠ PNone → get_or_none d k = v ↔ dict_get k d = Some v.
Proof. intros Hv. unfold get_or_none. destruct (dict_get k d); cbn; naive_solver. Qed.

Lemma file_errors_nil p fc path :
  rp_version p ≠ [] →
  file_errors (to_dict p) fc path = [] ↔
  ∃ doc, dict_get path fc = Some (PDict doc) ∧ file_fits p doc.
Proof.
  intros Hv. unfold file_errors. destruct (get_or_none fc path) as [| | | | | | |doc] eqn:E;
    try (split; [done|intros (doc & Hd & _); apply (get_or_none_Some fc path) in Hd; congruence]).
  apply get_or_none_Some in E; [|done].
  rewrite !app_nil, !note_nil, (field_differs_false doc p "version" (rp_version p)),
    (field_differs_false doc p "source_document_sha256" (rp_source_document_sha256 p)) by done.
  set (ver := get_or_none doc "version"). set (eff := get_or_none doc "effective_date").
  split.
  - intros (Hdate & Hver & Hsrc). exists doc. split; [done|].
    destruct (truthy ver && truthy eff) eqn:Et; cbn [negb] in Hdate; [|done].
    apply andb_true_iff in Et as [Ht1 _]. apply note_nil in Hdate.
    destruct (parse_date eff) as [n|] eqn:En; [|done]. apply parse_date_Some in En as (s & Es & Hs).
    split_and!; [|exists s; split; [by apply get_or_none_Some|by exists n]|done].
    unfold ver, get_or_none in Ht1. destruct (dict_get "version" doc) as [v|] eqn:Ev; [|done].
    f_equal. by apply Hver.
  - intros (doc' & Hd & Hver & (s & Heff & n & Hn) & Hsrc). rewrite E in Hd. injection Hd as <-.
    assert (ver = PStr (rp_version p)) as -> by by apply get_or_none_Some.
    assert (eff = PStr s) as -> by by apply get_or_none_Some.
    assert (truthy (PStr s) = true) as Hs by (destruct s; [by vm_compute in Hn|done]).
    assert (truthy (PStr (rp_version p)) = true) as -> by (cbn; by destruct (rp_version p)).
    rewrite Hs. cbn [andb negb parse_date]. rewrite Hn. split_and!; [done| |done].
    rewrite Hver. by intros v [= <-].
Qed.

Lemma NoDup_same_perm (l k : list pystr) :
  NoDup l → NoDup k → (∀ x, x ∈ l ↔ x ∈ k) → l ≡ₚ k.
Proof. intros Hl Hk H. by apply NoDup_Permutation. Qed.

Lemma files_errors_nil p fc :
  rp_version p ≠ [] → NoDup fc.*1 →
  files_errors (to_dict p) fc = [] ↔
  (rp_files p ≠ [] ∧ rp_files p ≡ₚ fc.*1)
  ∧ (∀ path, path ∈ rp_files p → is_safe_path path = true)
  ∧ ∀ path, path ∈ rp_files p → ∃ doc, dict_get path fc = Some (PDict doc) ∧ file_fits p doc.
Proof.
  intros Hv Hnd. unfold files_errors. cbn [get_or_none].
  change (get_or_none (to_dict p) "files") with (PList (PStr <$> rp_files p)).
  cbv beta iota. rewrite str_list_strs.
  destruct (rp_files p) as [|p0 fs] eqn:Ef; [split; [done|by intros [[? _] _]]|].
  assert (Hne : rp_files p ≠ []) by by rewrite Ef.
  rewrite <- Ef. clear Ef p0 fs. set (fs := rp_files p) in *.
  rewrite !app_nil, path_errors_nil, note_nil, concat_nil.
  assert (Hex : nonempty_list (str_sort (List.filter (λ q, negb (str_in q fs)) fc.*1)) = false
                ↔ ∀ x, x ∈ fc.*1 → x ∈ fs).
  { destruct (str_sort _) as [|x l] eqn:Es; split; try done.
    - intros _ x Hx. destruct (str_in x fs) eqn:Ei; [by apply str_in_iff|].
      assert (Hin : x ∈ str_sort (List.filter (λ q, negb (str_in q fs)) fc.*1)).
      { apply elem_of_isort, elem_of_lfilter. by rewrite Ei. }
      rewrite Es in Hin. by apply elem_of_nil in Hin.
    - intros Hall. assert (Hin : x ∈ str_sort (List.filter (λ q, negb (str_in q fs)) fc.*1))
        by (rewrite Es; left).
      apply elem_of_isort, elem_of_lfilter in Hin as [Hin Hn].
      apply Hall, str_in_iff in Hin. by rewrite Hin in Hn. }
  rewrite Hex. setoid_rewrite file_errors_nil; [|done]. split.
  - intros ((Hsafe & Hndf & _) & Hext & Hdocs). split_and!; [done| |done|done].
    apply NoDup_same_perm; [done|done|]. intros x. split; [|apply Hext].
    intros (doc & Hd & _)%Hdocs. apply dict_get_is_Some. by eexists.
  - intros ((_ & Hperm) & Hsafe & Hdocs). split_and!; [done|by rewrite Hperm| |by setoid_rewrite Hperm|done].
    by intros ? _ ?%elem_of_nil.
Qed.

Section contract.
Context `{Digest}.

Lemma hash_errors_nil p fc :
  fst (hash_errors (to_dict p) fc) = []
  ↔ pack_content_hash (record_manifest p) fc = Ok (rp_sha256 p).
Proof.
  unfold hash_errors. rewrite compute_to_dict.
  change (get_or_none (to_dict p) "sha256") with (PStr (rp_sha256 p)).
  destruct (pack_content_hash (record_manifest p) fc) as [h|] eqn:E; [|done].
  cbn [fst sha256_value eq_str]. destruct (is_sha256 (rp_sha256 p)) eqn:Es; cbn [negb].
  - rewrite note_nil, negb_false_iff, str_eqb_eq. naive_solver.
  - split; [done|]. intros [= ->]. unfold pack_content_hash in E.
    apply bind_Ok_inv in E as (env & _ & E). unfold canonical_hash in E.
    apply bind_Ok_inv in E as (t & _ & [= E]). pose proof (sha256_hex_shape t). congruence.
Qed.

Lemma gap_errors_nil p gaps :
  gap_errors (to_dict p) gaps = [] ↔ ∀ g, g ∈ rp_unresolved_gap_ids p → g ∈ gaps.
Proof.
  unfold gap_errors.
  change (get_or_none (to_dict p) "unresolved_gap_ids") with (PList (PStr <$> rp_unresolved_gap_ids p)).
  cbv beta iota. rewrite str_list_strs, concat_nil.
  setoid_rewrite note_nil. setoid_rewrite negb_false_iff. by setoid_rewrite str_in_iff.
Qed.

Lemma evidenced_iff d : claims_verified d && negb (has_evidence d) = false ↔ evidenced d.
Proof. unfold evidenced. destruct (claims_verified d), (has_evidence d); cbn; naive_solver. Qed.

Lemma basis_errors_nil path b :
  basis_errors path b = [] ↔ (get_or_none b "clause" ≠ PNone → evidenced b).
Proof.
  unfold basis_errors. rewrite note_nil, <- evidenced_iff, <- is_none_iff.
  destruct (is_none _), (claims_verified b), (has_evidence b); cbn; naive_solver.
Qed.

Lemma verification_errors_nil fc :
  verification_errors fc = [] ↔
  ∀ path d, (path, PDict d) ∈ fc →
    evidenced d ∧ ∀ b, basis_of (PDict d) b → get_or_none b "clause" ≠ PNone → evidenced b.
Proof.
  unfold verification_errors. rewrite concat_nil. split.
  - intros Hall path d Hin. specialize (Hall _ Hin). cbv beta iota in Hall.
    apply app_nil in Hall as [Hd Hb]. apply note_nil, evidenced_iff in Hd. split; [done|].
    rewrite concat_nil in Hb. intros b Hb'%elem_of_iter_bases. by apply (basis_errors_nil path), Hb.
  - intros Hall [path v] Hin. destruct v as [| | | | | | |d]; try done.
    destruct (Hall path d Hin) as [Hd Hb]. apply app_nil. split.
    + by apply note_nil, evidenced_iff.
    + apply concat_nil. intros b Hb'%elem_of_iter_bases. apply basis_errors_nil. auto.
Qed.

Lemma dict_value_cases fc k (P : pydict → list pack_error) :
  match get_or_none fc k with PDict d => P d | _ => [] end = []
  ↔ ∀ d, dict_get k fc = Some (PDict d) → P d = [].
Proof.
  unfold get_or_none. destruct (dict_get k fc) as [[]|]; cbn; naive_solver.
Qed.

Lemma safe_harbor_errors_nil p fc :
  safe_harbor_errors (to_dict p) fc = [] ↔
  ∀ sh, dict_get "regulatory/safe_harbor.yaml" fc = Some (PDict sh) → mapping_fits p sh.
Proof.
  unfold safe_harbor_errors. rewrite dict_value_cases. apply forall_proper. intros sh.
  apply forall_proper. intros _. unfold mapping_fits.
  set (m := get_or_none sh "reasonable_basis_boolean_mapping").
  rewrite app_nil, note_nil, negb_false_iff, is_none_iff. apply and_iff_compat_l.
  change (get_or_none (to_dict p) "unresolved_gap_ids") with (PList (PStr <$> rp_unresolved_gap_ids p)).
  assert (Hg : existsb (λ g, eq_str g "GAP-001") (PStr <$> rp_unresolved_gap_ids p) = true
               ↔ "GAP-001" ∈ rp_unresolved_gap_ids p).
  { rewrite existsb_exists. setoid_rewrite eq_str_iff. setoid_rewrite <- list_elem_of_In.
    setoid_rewrite list_elem_of_fmap. naive_solver. }
  destruct (is_none m) eqn:En.
  { apply is_none_iff in En. rewrite En. naive_solver. }
  destruct (eq_str m CHECKLIST_POLICY_V1) eqn:Em.
  - apply eq_str_iff in Em. rewrite Em, !app_nil, !note_nil, !negb_false_iff, Hg, eq_str_iff.
    naive_solver.
  - split; [done|]. intros [E|[E _]].
    + by rewrite E in En.
    + apply eq_str_iff in E. congruence.
Qed.

Lemma timeline_errors_nil fc :
  timeline_errors fc = [] ↔
  ∀ t, dict_get "regulatory/timeline.yaml" fc = Some (PDict t) →
    truthy (get_or_none t "automatic_legal_applicability_enabled") = false.
Proof. unfold timeline_errors. rewrite dict_value_cases. by setoid_rewrite note_nil. Qed.

Lemma validate_ok pack fc gaps :
  vr_ok (validate_rulepack pack fc gaps) = true ↔
  field_errors pack = [] ∧ files_errors pack fc = [] ∧ fst (hash_errors pack fc) = []
  ∧ gap_errors pack gaps = [] ∧ verification_errors fc = []
  ∧ safe_harbor_errors pack fc = [] ∧ timeline_errors fc = [].
Proof.
  unfold validate_rulepack. destruct (hash_errors pack fc) as [he c]. cbn [vr_ok fst].
  rewrite <- !app_nil. by destruct (_ ++ _).
Qed.

(** Validation accepts exactly the packs that meet the contract. *)
Lemma validate_admits p fc gaps :
  NoDup fc.*1 → vr_ok (validate_rulepack (to_dict p) fc gaps) = true ↔ admitted p fc gaps.
Proof.
  intros Hnd. rewrite validate_ok, field_errors_nil, hash_errors_nil, gap_errors_nil,
    verification_errors_nil, safe_harbor_errors_nil, timeline_errors_nil.
  split.
  - intros ((? & Hv & ? & ? & ? & ?) & Hf & ?). apply files_errors_nil in Hf; [|by destruct Hv|done].
    destruct_and!. by constructor.
  - intros [? Hv ? ? ? ? Hf Hp Hd ? ? ? ? ?]. split_and!; try done; try tauto.
    apply files_errors_nil; tauto.
Qed.
End contract.

Section freezing.
Context `{Digest}.

Lemma admitted_freezes p fc gaps :
  admitted p fc gaps → NoDup fc.*1 → clean_files fc →
  ∃ s, snapshot_from_validated (snapshot_fields p) fc = Ok s ∧ sha256 s = rp_sha256 p
    ∧ (∀ path d, dict_get path fc = Some (PDict d) →
         file_content s path = Ok (canon_member <$> sorted_items d))
    ∧ (∀ path, path ∉ fc.*1 → file_content s path = Raise KeyError).
Proof.
  intros Ha Hnd Hc. apply (snapshot_reads_back (snapshot_fields p) fc); [done|done| |].
  - change (files (snapshot_fields p)) with (rp_files p). destruct (ad_files _ _ _ Ha) as [_ Hp].
    apply StronglySorted_perm_eq; try apply str_sort_sorted. unfold str_sort. by rewrite !isort_perm.
  - exact (ad_hash _ _ _ Ha).
Qed.

(** A pack that validation accepts can be frozen: the snapshot a run pins
    is built, records the pack's hash, and every file of the pack -- and no
    other -- reads back from it as it was validated, up to key order. *)
Theorem validated_pack_freezes p fc gaps :
  vr_ok (validate_rulepack (to_dict p) fc gaps) = true → NoDup fc.*1 → clean_files fc →
  ∃ s, snapshot_from_validated (snapshot_fields p) fc = Ok s ∧ sha256 s = rp_sha256 p
    ∧ (∀ path, path ∈ rp_files p → ∃ d, dict_get path fc = Some (PDict d)
         ∧ file_content s path = Ok (canon_member <$> sorted_items d))
    ∧ (∀ path, path ∉ rp_files p → file_content s path = Raise KeyError).
Proof.
  intros Hok Hnd Hc. apply validate_admits in Hok as Ha; [|done].
  destruct (admitted_freezes _ _ _ Ha Hnd Hc) as (s & Hs & Hsha & Hread & Hmiss).
  exists s. split_and!; [done|done| |].
  - intros path (d & Hd & _)%(ad_docs _ _ _ Ha). eauto.
  - intros path Hp. apply Hmiss. by rewrite <- (proj2 (ad_files _ _ _ Ha)).
Qed.

(** Validation accepts a record exactly when it meets the declared
    contract: canonical metadata, a file set equal to the provided content
    with safe distinct paths, files of the pack's own version and source, the
    recorded hash equal to the content hash, known gaps, evidence for every
    verification claim, and the gates on grade mapping and automatic legal
    applicability. *)
Theorem validation_exact p fc gaps :
  NoDup fc.*1 → vr_ok (validate_rulepack (to_dict p) fc gaps) = true ↔ admitted p fc gaps.
Proof. apply validate_admits. Qed.
End freezing.

(* ------------------------------------------------------------------ *)
(** ** The registry invariant *)
(* ------------------------------------------------------------------ *)

Definition identity (p : RulePackRecord) : pystr * pystr := (rp_tenant_id p, rp_rule_pack_id p).

Definition approved (p : RulePackRecord) : Prop :=
  given (rp_approved_by p) = true ∧ given (rp_approved_at p) = true.

(** One pack per identity, one pointer per tenant and mode, and the active
    packs are the approved packs the pointers name. *)
Record registry_ok (r : RulePackRegistry) : Prop := {
  ro_ids : NoDup (identity <$> rg_packs r);
  ro_pointers : NoDup (fst <$> rg_active r);
  ro_active : ∀ p, p ∈ rg_packs r →
    rp_status p = "active" ↔ (rp_tenant_id p, rp_mode p, rp_rule_pack_id p) ∈ rg_active r;
  ro_pointed : ∀ t m id, (t, m, id) ∈ rg_active r →
    ∃ p, p ∈ rg_packs r ∧ rp_tenant_id p = t ∧ rp_mode p = m ∧ rp_rule_pack_id p = id;
  ro_approved : ∀ p, p ∈ rg_packs r → rp_status p = "active" → approved p }.

Lemma names_pack_iff t id p : names_pack t id p = true ↔ identity p = (t, id).
Proof. unfold names_pack, identity. rewrite andb_true_iff, !str_eqb_eq. naive_solver. Qed.

Lemma points_iff t m a : points t m a = true ↔ a.1 = (t, m).
Proof. destruct a as [[??]?]. unfold points. cbn. rewrite andb_true_iff, !str_eqb_eq. naive_solver. Qed.

Lemma get_pack_Ok r t id p :
  get_pack r t id = Ok p → p ∈ rg_packs r ∧ identity p = (t, id).
Proof.
  unfold get_pack. rewrite of_option_Ok. intros [Hin Hn]%find_some.
  split; [by apply list_elem_of_In|by apply names_pack_iff].
Qed.

Lemma identity_unique r p q :
  NoDup (identity <$> rg_packs r) → p ∈ rg_packs r → q ∈ rg_packs r → identity p = identity q → p = q.
Proof.
  intros Hnd Hp Hq E. apply list_elem_of_lookup in Hp as [i Hi], Hq as [j Hj].
  assert (i = j) as ->; [|congruence]. eapply NoDup_lookup; [exact Hnd| |].
  - rewrite list_lookup_fmap, Hi. reflexivity.
  - rewrite list_lookup_fmap, Hj. cbn. by rewrite E.
Qed.

Lemma pointer_unique (l : list (pystr * pystr * pystr)) a b :
  NoDup l.*1 → a ∈ l → b ∈ l → a.1 = b.1 → a = b.
Proof.
  intros Hnd Ha Hb E. apply list_elem_of_lookup in Ha as [i Hi], Hb as [j Hj].
  assert (i = j) as ->; [|congruence]. eapply NoDup_lookup; [exact Hnd| |].
  - rewrite list_lookup_fmap, Hi. reflexivity.
  - rewrite list_lookup_fmap, Hj. cbn. by rewrite E.
Qed.

Lemma active_pack_id_Some r t m id :
  NoDup (fst <$> rg_active r) → active_pack_id r t m = Some id ↔ (t, m, id) ∈ rg_active r.
Proof.
  intros Hnd. unfold active_pack_id. split.
  - intros ([[t' m'] id'] & [Hin Hp]%find_some & ->)%fmap_Some.
    apply points_iff in Hp. cbn in Hp. injection Hp as -> ->. by apply list_elem_of_In.
  - intros Hin. destruct (find (points t m) (rg_active r)) as [a|] eqn:E.
    + apply find_some in E as [Ha%list_elem_of_In Hp%points_iff].
      by rewrite (pointer_unique _ a (t, m, id) Hnd Ha Hin Hp).
    + apply list_elem_of_In in Hin. pose proof (find_none _ _ E _ Hin) as Hf.
      assert (points t m (t, m, id) = true) by by apply points_iff. congruence.
Qed.

Lemma elem_of_with_active r t m id a :
  a ∈ rg_active (with_active r t m id) ↔ (a ∈ rg_active r ∧ a.1 ≠ (t, m)) ∨ a = (t, m, id).
Proof.
  cbn. rewrite elem_of_app, elem_of_lfilter, list_elem_of_singleton, negb_true_iff.
  rewrite <- (points_iff t m a). destruct (points t m a); naive_solver.
Qed.

Lemma with_active_NoDup r t m id :
  NoDup (fst <$> rg_active r) → NoDup (fst <$> rg_active (with_active r t m id)).
Proof.
  intros Hnd. cbn. rewrite fmap_app. apply NoDup_app. split_and!.
  - induction (rg_active r) as [|a l IH]; [constructor|]. cbn in *.
    apply NoDup_cons in Hnd as [Ha Hnd]. destruct (points t m a); cbn; [by apply IH|].
    apply NoDup_cons. split; [|by apply IH]. intros (b & Hb & [Hin _]%elem_of_lfilter)%list_elem_of_fmap.
    apply Ha. rewrite Hb. by apply list_elem_of_fmap_2.
  - intros x (b & -> & [_ Hb]%elem_of_lfilter)%list_elem_of_fmap.
    intros ?%list_elem_of_singleton. apply negb_true_iff in Hb.
    assert (points t m b = true) by by apply points_iff. congruence.
  - apply NoDup_singleton.
Qed.

(** What [turned] does to each pack of an invariant registry. *)
Lemma turned_same t m id c q :
  identity (turned t m id c q) = identity q ∧ rp_mode (turned t m id c q) = rp_mode q.
Proof. unfold turned. by repeat case_match. Qed.

Lemma given_pair p : given (rp_approved_by p) && given (rp_approved_at p) = true ↔ approved p.
Proof. apply andb_true_iff. Qed.

(** A change of fields that the invariant does not read, or that only adds
    approvals, keeps it. *)
Lemma registry_ok_map r f :
  (∀ p, identity (f p) = identity p ∧ rp_mode (f p) = rp_mode p ∧ rp_status (f p) = rp_status p
        ∧ (approved p → approved (f p))) →
  registry_ok r →
  registry_ok {| rg_packs := f <$> rg_packs r; rg_runs := rg_runs r; rg_active := rg_active r |}.
Proof.
  intros Hf [Hids Hptr Hact Hpt Happ].
  assert (Hid : ∀ p, rp_tenant_id (f p) = rp_tenant_id p ∧ rp_rule_pack_id (f p) = rp_rule_pack_id p).
  { intros p. destruct (Hf p) as (E & _). unfold identity in E. by injection E. }
  constructor; cbn [rg_packs rg_active]; try done.
  - rewrite <- list_fmap_compose. erewrite list_fmap_ext; [exact Hids|].
    intros i p _. apply (Hf p).
  - intros q (p & -> & Hp)%list_elem_of_fmap. destruct (Hf p) as (_ & Hm & Hs & _), (Hid p) as [Ht Hi].
    rewrite Hm, Hs, Ht, Hi. by apply Hact.
  - intros t m id (p & Hp & <- & <- & <-)%Hpt. exists (f p).
    destruct (Hf p) as (_ & -> & _), (Hid p) as [-> ->]. split; [by apply list_elem_of_fmap_2|done].
  - intros q (p & -> & Hp)%list_elem_of_fmap. destruct (Hf p) as (_ & _ & Hs & Ha).
    rewrite Hs. eauto.
Qed.

Section turning.
Context (r : RulePackRegistry) (Hr : registry_ok r).
Context (p : RulePackRecord) (t id : pystr) (Hp : p ∈ rg_packs r) (Hid : identity p = (t, id)).
Context (Hne : active_pack_id r t (rp_mode p) ≠ Some id).

Abbreviation current := (active_pack_id r t (rp_mode p)).

(** The cases of [turned] on the packs of the registry. *)
Lemma turned_cases q : q ∈ rg_packs r →
  (q = p ∧ turned t (rp_mode p) id current q = with_status "active" p)
  ∨ (identity q ≠ (t, id) ∧ (rp_tenant_id q, rp_mode q) = (t, rp_mode p)
     ∧ current = Some (rp_rule_pack_id q) ∧ rp_status q = "active"
     ∧ turned t (rp_mode p) id current q = with_status "retired" q)
  ∨ (identity q ≠ (t, id)
     ∧ ((rp_tenant_id q, rp_mode q) = (t, rp_mode p) → rp_status q ≠ "active")
     ∧ turned t (rp_mode p) id current q = q).
Proof using Hp Hid Hne Hr.
  intros Hq. unfold turned. destruct (_ && _) eqn:E.
  - right. left. rewrite !andb_true_iff in E. destruct E as [[[Et Em] Ec] Es].
    destruct current as [c|] eqn:Ecur; [|done]. apply str_eqb_eq in Et, Em, Ec, Es.
    split_and!; [|congruence|congruence|done|done]. intros E. injection E as _ E. congruence.
  - destruct (names_pack t id q) eqn:En.
    + left. apply names_pack_iff in En. assert (q = p) as ->; [|done].
      apply (identity_unique r); [apply Hr|done|done|congruence].
    + right. right. apply not_true_iff_false in En. rewrite names_pack_iff in En.
      split_and!; [done| |done]. intros [= Et Em] Es. apply not_true_iff_false in E. apply E.
      apply (ro_active _ Hr q Hq) in Es as Hptr. rewrite Et, Em in Hptr.
      apply active_pack_id_Some in Hptr; [|apply Hr]. by rewrite Hptr, Et, Em, Es, !str_eqb_refl.
Qed.

Abbreviation turned_registry :=
  (with_active {| rg_packs := turned t (rp_mode p) id current <$> rg_packs r;
                  rg_runs := rg_runs r; rg_active := rg_active r |} t (rp_mode p) id).

Lemma turned_ok : approved p → registry_ok turned_registry.
Proof using Hp Hid Hne Hr.
  intros Happ. assert (Hpid : rp_tenant_id p = t ∧ rp_rule_pack_id p = id) by (by injection Hid).
  constructor.
  - cbn [rg_packs with_active]. rewrite <- list_fmap_compose.
    erewrite list_fmap_ext; [apply Hr|]. intros i q _. apply (turned_same t (rp_mode p) id current q).
  - apply with_active_NoDup. apply Hr.
  - intros q' (q & -> & Hq)%list_elem_of_fmap. rewrite elem_of_with_active. cbn [rg_active fst].
    destruct (turned_cases q Hq) as [(-> & ->)|[(Hqi & Htm & Hc & Hs & ->)|(Hqi & Hna & ->)]].
    + destruct Hpid as [Ht Hi]. split; [|done]. intros _. right. cbn. by rewrite Ht, Hi.
    + split; [done|]. intros [[_ Hn]|Hn]; [by destruct Hn|]. cbn in Hn.
      injection Hn as E1 E2 E3. destruct Hqi. unfold identity. by rewrite E1, E3.
    + rewrite (ro_active _ Hr q Hq). split.
      * intros Hin. left. split; [done|]. intros E. apply (Hna E). by apply (ro_active _ Hr q Hq).
      * intros [[Hin _]|Hn]; [done|]. injection Hn as E1 E2 E3. destruct Hqi. unfold identity.
        by rewrite E1, E3.
  - intros t' m' id'. rewrite elem_of_with_active. cbn [rg_active rg_packs with_active].
    intros [[Hin _]|[= -> -> ->]].
    + destruct (ro_pointed _ Hr _ _ _ Hin) as (q & Hq & <- & <- & <-).
      exists (turned t (rp_mode p) id current q). split; [by apply list_elem_of_fmap_2|].
      destruct (turned_same t (rp_mode p) id current q) as [E ->]. unfold identity in E.
      by injection E as -> ->.
    + exists (turned t (rp_mode p) id current p). split; [by apply list_elem_of_fmap_2|].
      destruct (turned_same t (rp_mode p) id current p) as [E ->]. unfold identity in E.
      injection E as -> ->. by destruct Hpid.
  - intros q' (q & -> & Hq)%list_elem_of_fmap.
    destruct (turned_cases q Hq) as [(-> & ->)|[(_ & _ & _ & _ & ->)|(_ & _ & ->)]]; [done|done|].
    by apply (ro_approved _ Hr).
Qed.
End turning.

(* ------------------------------------------------------------------ *)
(** ** Activation *)
(* ------------------------------------------------------------------ *)

Lemma with_status_id s p : rp_status p = s → with_status s p = p.
Proof. intros <-. by destruct p. Qed.

(** The registry with a review recorded, as a map over its packs. *)
Lemma replace_first_unique {A} (f : A → bool) g l :
  (∀ i j x y, l !! i = Some x → l !! j = Some y → f x = true → f y = true → i = j) →
  replace_first f g l = (λ x, if f x then g x else x) <$> l.
Proof.
  induction l as [|x l IH]; intros Hu; [done|]. cbn. destruct (f x) eqn:E.
  - f_equal. transitivity (id <$> l); [by rewrite list_fmap_id|].
    apply list_fmap_ext. intros j y Hj. cbn. destruct (f y) eqn:Ey; [|done].
    by specialize (Hu 0%nat (S j) x y eq_refl Hj E Ey).
  - f_equal. apply IH. intros i j y z Hi Hj Hy Hz.
    specialize (Hu (S i) (S j) y z Hi Hj Hy Hz). lia.
Qed.

Lemma names_pack_unique r t id :
  NoDup (identity <$> rg_packs r) →
  ∀ i j x y, rg_packs r !! i = Some x → rg_packs r !! j = Some y →
  names_pack t id x = true → names_pack t id y = true → i = j.
Proof.
  intros Hnd i j x y Hi Hj Hx%names_pack_iff Hy%names_pack_iff.
  apply (NoDup_lookup _ i j (t, id) Hnd); rewrite list_lookup_fmap;
    [rewrite Hi, <- Hx|rewrite Hj, <- Hy]; reflexivity.
Qed.

Section activation.
Context `{Digest}.

(** What a successful activation checked and what it returns. *)
Lemma activate_inv r id t actor reason fc gaps r' rec :
  activate_rulepack r id t actor reason fc gaps = Ok (r', rec) →
  ∃ p, p ∈ rg_packs r ∧ identity p = (t, id)
    ∧ (rp_status p = "validated" ∨ rp_status p = "active" ∧ active_pack_id r t (rp_mode p) = Some id)
    ∧ approved p ∧ vr_ok (validate_rulepack (to_dict p) fc gaps) = true
    ∧ actor ≠ [] ∧ reason ≠ []
    ∧ rec = {| ar_before_pack_id := active_pack_id r t (rp_mode p); ar_after_pack_id := id;
               ar_tenant_id := t; ar_mode := rp_mode p; ar_actor := actor; ar_reason := reason |}
    ∧ ((active_pack_id r t (rp_mode p) = Some id ∧ r' = r)
       ∨ (active_pack_id r t (rp_mode p) ≠ Some id
          ∧ r' = with_active
               {| rg_packs := turned t (rp_mode p) id (active_pack_id r t (rp_mode p)) <$> rg_packs r;
                  rg_runs := rg_runs r; rg_active := rg_active r |} t (rp_mode p) id)).
Proof.
  unfold activate_rulepack. intros Hrun.
  apply bind_Ok_inv in Hrun as (u1 & Hin & Hrun). apply require_Ok, andb_true_iff in Hin as [Ha Hre].
  apply bind_Ok_inv in Hrun as (p & Hget & Hrun). apply get_pack_Ok in Hget as [Hp Hid].
  apply bind_Ok_inv in Hrun as (u2 & _ & Hrun).
  apply bind_Ok_inv in Hrun as (u3 & Hst & Hrun). apply require_Ok in Hst.
  apply bind_Ok_inv in Hrun as (u4 & Happ & Hrun). apply require_Ok, given_pair in Happ.
  apply bind_Ok_inv in Hrun as (u5 & Hv & Hrun). apply require_Ok in Hv.
  assert (Hcur : match active_pack_id r t (rp_mode p) with Some c => c =s? id | None => false end = true
                 ↔ active_pack_id r t (rp_mode p) = Some id).
  { destruct (active_pack_id r t (rp_mode p)); [rewrite str_eqb_eq; naive_solver|done]. }
  exists p. split_and!; try done.
  - apply orb_true_iff in Hst as [Hs|Hs]; [left; by apply str_eqb_eq|right].
    apply andb_true_iff in Hs as [Hs Hc]. by rewrite <- Hcur, <- str_eqb_eq.
  - by intros ->.
  - by intros ->.
  - destruct (match active_pack_id r t (rp_mode p) with Some c => c =s? id | None => false end);
      by injection Hrun as <- <-.
  - destruct (match active_pack_id r t (rp_mode p) with Some c => c =s? id | None => false end) eqn:E;
      injection Hrun as <- <-.
    + left. by rewrite <- Hcur.
    + right. split; [|done]. by rewrite <- Hcur.
Qed.

Lemma activate_ok r id t actor reason fc gaps r' rec :
  registry_ok r → activate_rulepack r id t actor reason fc gaps = Ok (r', rec) → registry_ok r'.
Proof.
  intros Hr (p & Hp & Hid & _ & Happ & _ & _ & _ & _ & [[_ ->]|[Hne ->]])%activate_inv; [done|].
  by apply (turned_ok r Hr p t id).
Qed.

Definition reviewed (r : RulePackRegistry) (t id by_whom at_time : pystr) : RulePackRegistry :=
  {| rg_packs := (λ q, if names_pack t id q then with_approval by_whom at_time q else q) <$> rg_packs r;
     rg_runs := rg_runs r; rg_active := rg_active r |}.

Lemma reviewed_ok r t id by_whom at_time :
  nonempty by_whom = true → nonempty at_time = true → registry_ok r →
  registry_ok (reviewed r t id by_whom at_time).
Proof.
  intros Hb Ha. apply registry_ok_map. intros p. destruct (names_pack t id p); [|done].
  split_and!; try done.
Qed.

Lemma review_inv r id t reviewer at_time source note fc gaps r' rec pv :
  registry_ok r →
  record_ai_delegated_review r id t reviewer at_time source note fc gaps = Ok (r', rec, pv) →
  nonblank reviewer = true ∧ nonblank source = true ∧ nonblank note = true
  ∧ is_tz_aware_iso (PStr at_time) = true
  ∧ ∃ p, p ∈ rg_packs r ∧ identity p = (t, id) ∧ rp_status p = "validated"
    ∧ given (rp_approved_by p) = false
    ∧ pv = {| pv_review_origin := REVIEW_ORIGIN_AI_DELEGATED; pv_reviewer := reviewer;
              pv_reviewed_at := at_time; pv_source_authority := source;
              pv_pack_sha256 := rp_sha256 p; pv_note := note |}
    ∧ ∃ reason, to_reason pv = Ok reason
      ∧ activate_rulepack (reviewed r t id (APPROVER_PREFIX ++ reviewer) at_time) id t reviewer reason
          fc gaps = Ok (r', rec).
Proof.
  intros Hr. unfold record_ai_delegated_review. intros Hrun.
  apply bind_Ok_inv in Hrun as (u1 & H1%require_Ok & Hrun).
  apply bind_Ok_inv in Hrun as (u2 & H2%require_Ok & Hrun).
  apply bind_Ok_inv in Hrun as (u3 & H3%require_Ok & Hrun).
  apply bind_Ok_inv in Hrun as (u4 & H4%require_Ok & Hrun).
  apply bind_Ok_inv in Hrun as (p & Hget & Hrun). apply get_pack_Ok in Hget as [Hp Hid].
  apply bind_Ok_inv in Hrun as (u5 & H5%require_Ok%str_eqb_eq & Hrun).
  apply bind_Ok_inv in Hrun as (u6 & H6%reject_Ok & Hrun).
  rewrite replace_first_unique in Hrun; [|by apply names_pack_unique, Hr].
  apply bind_Ok_inv in Hrun as (reason & Hre & Hrun).
  apply bind_Ok_inv in Hrun as ([up rc] & Hact & Hrun). injection Hrun as <- <- <-.
  split_and!; try done. exists p. split_and!; try done. eauto.
Qed.
End activation.

Lemma nonblank_nonempty s : nonblank s = true → nonempty s = true.
Proof. by destruct s. Qed.

Lemma tz_aware_nonempty s : is_tz_aware_iso (PStr s) = true → nonempty s = true.
Proof. cbn. intros [Hn _]%andb_true_iff. by apply nonblank_nonempty. Qed.

Section histories.
Context `{Digest}.

(** The operations of the registry.  A pack enters it before its activation:
    not with the status [active]. *)
Inductive registry_step : RulePackRegistry → RulePackRegistry → Prop :=
| step_pack r p r' : rp_status p ≠ "active" → with_pack r p = Ok r' → registry_step r r'
| step_run r run : registry_step r (with_run r run)
| step_activate r id t actor reason fc gaps r' rec :
    activate_rulepack r id t actor reason fc gaps = Ok (r', rec) → registry_step r r'
| step_review r id t reviewer at_time source note fc gaps r' rec pv :
    record_ai_delegated_review r id t reviewer at_time source note fc gaps = Ok (r', rec, pv) →
    registry_step r r'.

Definition reachable_registry : RulePackRegistry → Prop := rtc registry_step empty_registry.

Lemma with_pack_ok r p r' :
  rp_status p ≠ "active" → registry_ok r → with_pack r p = Ok r' → registry_ok r'.
Proof.
  intros Hs Hr. unfold with_pack. destruct (find _ _) as [q|] eqn:E.
  { destruct (decide (q = p)); [|done]. by intros [= <-]. }
  intros [= <-]. assert (Hnew : ∀ q, q ∈ rg_packs r → identity q ≠ identity p).
  { intros q Hq%list_elem_of_In Heq. pose proof (find_none _ _ E _ Hq) as Hn.
    assert (Ht : names_pack (rp_tenant_id p) (rp_rule_pack_id p) q = true) by by apply names_pack_iff.
    congruence. }
  destruct Hr as [Hids Hptr Hact Hpt Happ].
  constructor; cbn [rg_packs rg_active]; [| done| | |].
  - rewrite fmap_app. apply NoDup_app. split_and!; [done| |apply NoDup_singleton].
    intros x (q & -> & Hq)%list_elem_of_fmap ?%list_elem_of_singleton. by apply (Hnew q).
  - intros q [Hq|E'%list_elem_of_singleton]%elem_of_app; [by apply Hact|subst q].
    split; [done|]. intros (q & Hq & E1 & _ & E2)%Hpt. destruct (Hnew q Hq). unfold identity. congruence.
  - intros t m id (q & Hq & ?)%Hpt. exists q. split; [|done]. apply elem_of_app. by left.
  - intros q [Hq|E'%list_elem_of_singleton]%elem_of_app; [by apply Happ|by subst q].
Qed.

Lemma registry_step_ok r r' : registry_ok r → registry_step r r' → registry_ok r'.
Proof.
  intros Hr. destruct 1 as [r p r' Hs Hw|r run|r id t actor reason fc gaps r' rec Hact
    |r id t reviewer at_time source note fc gaps r' rec pv Hrev].
  - by eapply with_pack_ok.
  - by destruct Hr.
  - by eapply activate_ok.
  - apply review_inv in Hrev as (Hrv & _ & _ & Hat & p & _ & _ & _ & _ & _ & reason & _ & Hact); [|done].
    eapply activate_ok; [|exact Hact]. apply reviewed_ok; [|by apply tz_aware_nonempty|done]. done.
Qed.

Lemma empty_registry_ok : registry_ok empty_registry.
Proof.
  constructor; cbn; [apply NoDup_nil_2|apply NoDup_nil_2|..]; by intros * ?%elem_of_nil.
Qed.

Lemma reachable_registry_ok r : reachable_registry r → registry_ok r.
Proof.
  intros Hr. unfold reachable_registry in Hr. pose proof empty_registry_ok as H0.
  induction Hr as [r|r1 r2 r3 Hs _ IH]; [done|]. apply IH. by eapply registry_step_ok.
Qed.

(** In every reachable registry a tenant's default pack for a mode is
    unique and trustworthy: a pack is active exactly when it is the one the
    pointer of its tenant and mode names, it carries an approval, and no two
    packs share an identity; a pointer always names a pack of its tenant and
    mode. *)
Theorem active_default_unique r :
  reachable_registry r →
  NoDup (identity <$> rg_packs r)
  ∧ (∀ p, p ∈ rg_packs r →
       (rp_status p = "active"
        ↔ active_pack_id r (rp_tenant_id p) (rp_mode p) = Some (rp_rule_pack_id p))
       ∧ (rp_status p = "active" → approved p))
  ∧ (∀ t m id, active_pack_id r t m = Some id →
       ∃ p, get_pack r t id = Ok p ∧ rp_mode p = m ∧ rp_status p = "active").
Proof.
  intros Hr%reachable_registry_ok. split_and!; [apply Hr| |].
  - intros p Hp. rewrite active_pack_id_Some by apply Hr. split; [by apply Hr|by apply Hr].
  - intros t m id Hid. apply active_pack_id_Some in Hid as Hin; [|apply Hr].
    destruct (ro_pointed _ Hr _ _ _ Hin) as (p & Hp & <- & <- & <-).
    exists p. split_and!; [|done|by apply (ro_active _ Hr p Hp)].
    unfold get_pack. apply of_option_Ok.
    destruct (find _ _) as [q|] eqn:E.
    + apply find_some in E as [Hq%list_elem_of_In Hn%names_pack_iff]. f_equal.
      apply (identity_unique r); [apply Hr|done|done|]. by rewrite Hn.
    + apply list_elem_of_In in Hp. pose proof (find_none _ _ E _ Hp) as Hn.
      assert (Ht : names_pack (rp_tenant_id p) (rp_rule_pack_id p) p = true) by by apply names_pack_iff.
      congruence.
Qed.
End histories.

(* ------------------------------------------------------------------ *)
(** ** Effects and histories *)
(* ------------------------------------------------------------------ *)

(** The pack after an activation of [(t, id)] whose former default was [before]. *)
Definition after_activation (t id : pystr) (before : option pystr) (q : RulePackRecord)
    : RulePackRecord :=
  if decide (identity q = (t, id)) then with_status "active" q
  else if decide (rp_tenant_id q = t ∧ Some (rp_rule_pack_id q) = before)
  then with_status "retired" q else q.

(** Two records of the same content: all but the status and the approval. *)
Definition content_of (p : RulePackRecord) : RulePackRecord :=
  with_status [] (with_approval [] [] p).

(** How the status of a pack may move. *)
Definition status_moves (a b : pystr) : Prop :=
  a = b ∨ (a = "validated" ∧ (b = "active" ∨ b = "retired")) ∨ (a = "active" ∧ b = "retired").

Definition grows (p q : RulePackRecord) : Prop :=
  content_of q = content_of p ∧ status_moves (rp_status p) (rp_status q)
  ∧ (given (rp_approved_by p) = true → rp_approved_by q = rp_approved_by p).

#[export] Instance grows_preorder : PreOrder grows.
Proof.
  split.
  - intros p. split_and!; [done|by left|done].
  - intros p q s (E1 & S1 & A1) (E2 & S2 & A2). split_and!; [congruence| |].
    + unfold status_moves in *. destruct S1 as [->|[[Ea Eb]|[Ea Eb]]]; [exact S2|right; left|right; right].
      * split; [done|]. destruct S2 as [<-|[[E _]|[_ ->]]]; [done| |by right].
        destruct Eb as [Eb|Eb]; by rewrite Eb in E.
      * split; [done|]. destruct S2 as [<-|[[E _]|[E _]]]; [done| |]; by rewrite Eb in E.
    + intros Hp. rewrite <- (A1 Hp). apply A2. by rewrite (A1 Hp).
Qed.

Lemma active_with_active r t m id t' m' :
  NoDup (fst <$> rg_active r) →
  active_pack_id (with_active r t m id) t' m'
  = if decide ((t', m') = (t, m)) then Some id else active_pack_id r t' m'.
Proof.
  intros Hnd. pose proof (with_active_NoDup r t m id Hnd) as Hnd'.
  apply option_eq. intros i. rewrite active_pack_id_Some, elem_of_with_active by done.
  case_decide as E.
  - injection E as -> ->. cbn. split; [intros [[_ Hn]|[= ->]]; [by destruct Hn|done]|].
    intros [= ->]. by right.
  - rewrite active_pack_id_Some by done. cbn. split; [intros [[Hin _]|[= -> -> ->]]; done|].
    intros Hin. by left.
Qed.

Section effects.
Context `{Digest}.

(** An activation of a reachable registry succeeds only for an approved
    pack that meets the validation contract, and its effect is exact: the pack
    becomes active, the former default of its tenant and mode is retired,
    every other pack, every run and every other pointer are unchanged, and the
    record names the change. *)
Theorem activation_exact r id t actor reason fc gaps r' rec :
  reachable_registry r → NoDup fc.*1 →
  activate_rulepack r id t actor reason fc gaps = Ok (r', rec) →
  ∃ p, p ∈ rg_packs r ∧ identity p = (t, id) ∧ approved p ∧ admitted p fc gaps
    ∧ (rp_status p = "validated" ∨ rp_status p = "active")
    ∧ rg_runs r' = rg_runs r
    ∧ rg_packs r' = after_activation t id (active_pack_id r t (rp_mode p)) <$> rg_packs r
    ∧ (∀ t' m', active_pack_id r' t' m'
         = if decide ((t', m') = (t, rp_mode p)) then Some id else active_pack_id r t' m')
    ∧ rec = {| ar_before_pack_id := active_pack_id r t (rp_mode p); ar_after_pack_id := id;
               ar_tenant_id := t; ar_mode := rp_mode p; ar_actor := actor; ar_reason := reason |}.
Proof.
  intros Hr%reachable_registry_ok Hnd
    (p & Hp & Hid & Hst & Happ & Hv & _ & _ & Hrec & Hcase)%activate_inv.
  exists p. split_and!; [done|done|done|by apply validate_admits|tauto| | | |done].
  - by destruct Hcase as [[_ ->]|[_ ->]].
  - destruct Hcase as [[Hc ->]|[Hne ->]].
    + rewrite Hc. transitivity (Datatypes.id <$> rg_packs r); [by rewrite list_fmap_id|].
      apply Forall_fmap_ext, Forall_forall. intros q Hq. cbn. unfold after_activation.
      case_decide as Hq1; [|case_decide as Hq2; [destruct Hq2 as [Ht [= Hi]]|done]].
      * assert (q = p) as -> by (apply (identity_unique r); [apply Hr|done|done|congruence]).
        symmetry. apply with_status_id.
        apply (ro_active _ Hr p Hp). injection Hid as -> ->. by apply active_pack_id_Some, Hc; apply Hr.
      * destruct Hq1. unfold identity. congruence.
    + cbn [rg_packs with_active]. apply Forall_fmap_ext, Forall_forall. intros q Hq. unfold after_activation.
      destruct (turned_cases r Hr p t id Hp Hid Hne q Hq)
        as [(-> & ->)|[(Hqi & Htm & Hc & Hs & ->)|(Hqi & Hna & ->)]].
      * by rewrite decide_True.
      * injection Htm as Et Em. rewrite decide_False, decide_True by done. done.
      * rewrite decide_False by done. rewrite decide_False; [done|]. intros [Et Ec].
        symmetry in Ec. apply active_pack_id_Some in Ec as Hin; [|apply Hr].
        destruct (ro_pointed _ Hr _ _ _ Hin) as (q' & Hq' & Et' & Em' & Ei').
        assert (q' = q) as -> by (apply (identity_unique r); [apply Hr|done|done|unfold identity; congruence]).
        apply Hna; [congruence|]. apply (ro_active _ Hr q Hq). congruence.
  - intros t' m'. destruct Hcase as [[Hc ->]|[_ ->]].
    + case_decide as E; [by injection E as -> ->|done].
    + rewrite active_with_active by (cbn; apply Hr). done.
Qed.

Lemma turned_grows r p t id q :
  registry_ok r → p ∈ rg_packs r → identity p = (t, id) →
  rp_status p = "validated" →
  active_pack_id r t (rp_mode p) ≠ Some id → q ∈ rg_packs r →
  grows q (turned t (rp_mode p) id (active_pack_id r t (rp_mode p)) q).
Proof.
  intros Hr Hp Hid Hs Hne Hq. unfold grows, status_moves.
  destruct (turned_cases r Hr p t id Hp Hid Hne q Hq)
    as [(-> & ->)|[(_ & _ & _ & E & ->)|(_ & _ & ->)]]; cbn; rewrite ?E, ?Hs; naive_solver.
Qed.

(** Every pack of [r] is in [r'] with the same content, and the runs of [r]
    are the first runs of [r']. *)
Definition registry_grows (r r' : RulePackRegistry) : Prop :=
  (∀ p, p ∈ rg_packs r → ∃ q, q ∈ rg_packs r' ∧ grows p q) ∧ rg_runs r `prefix_of` rg_runs r'.

Lemma registry_grows_refl r : registry_grows r r.
Proof. split; [intros p Hp; by exists p|done]. Qed.

Lemma registry_grows_trans r1 r2 r3 :
  registry_grows r1 r2 → registry_grows r2 r3 → registry_grows r1 r3.
Proof.
  intros [P1 R1] [P2 R2]. split; [|by etransitivity].
  intros p (q & Hq & G1)%P1. destruct (P2 q Hq) as (s & Hs & G2). exists s. split; [done|].
  by etransitivity.
Qed.

Lemma activate_grows r id t actor reason fc gaps r' rec :
  registry_ok r → activate_rulepack r id t actor reason fc gaps = Ok (r', rec) →
  registry_grows r r'.
Proof.
  intros Hr (p & Hp & Hid & Hst & _ & _ & _ & _ & _ & [[_ ->]|[Hne ->]])%activate_inv.
  { apply registry_grows_refl. }
  split; [|done]. intros q Hq. eexists. split; [cbn; by apply list_elem_of_fmap_2|].
  destruct Hst as [Hst|[_ Hc]]; [|done]. by apply (turned_grows r).
Qed.

Lemma registry_step_grows r r' : registry_ok r → registry_step r r' → registry_grows r r'.
Proof.
  intros Hr. destruct 1 as [r p r' Hs Hw|r run|r id t actor reason fc gaps r' rec Hact
    |r id t reviewer at_time source note fc gaps r' rec pv Hrev].
  - unfold with_pack in Hw. destruct (find _ _) as [q|].
    + destruct (decide (q = p)); [|done]. injection Hw as <-. apply registry_grows_refl.
    + injection Hw as <-. split; [|done]. intros q Hq. exists q. split; [|done].
      cbn. apply elem_of_app. by left.
  - split; [intros q Hq; by exists q|]. cbn. by eexists.
  - by eapply activate_grows.
  - apply review_inv in Hrev as (Hrv & _ & _ & Hat & p & Hp & Hid & _ & Hna & _ & reason & _ & Hact); [|done].
    eapply registry_grows_trans; [|eapply activate_grows; [|exact Hact]].
    + split; [|done]. intros q Hq. eexists. split; [cbn; by apply list_elem_of_fmap_2|].
      cbv beta. destruct (names_pack t id q) eqn:E; [|done]. apply names_pack_iff in E.
      assert (q = p) as -> by (apply (identity_unique r); [apply Hr|done|done|congruence]).
      split_and!; [by destruct p|by left|]. by rewrite Hna.
    + apply reviewed_ok; [done|by apply tz_aware_nonempty|done].
Qed.

(** No operation of the registry ever rewrites history: a pack keeps its
    identity, version, files, hash and gaps for good, its status only moves
    from validated to active to retired, a given approval is never replaced,
    and the runs recorded with their frozen snapshots stay as they are. *)
Theorem registry_history_kept r r' :
  reachable_registry r → rtc registry_step r r' →
  (∀ p, p ∈ rg_packs r → ∃ q, q ∈ rg_packs r' ∧ content_of q = content_of p
     ∧ status_moves (rp_status p) (rp_status q)
     ∧ (rp_status p = "retired" → rp_status q = "retired")
     ∧ (given (rp_approved_by p) = true → rp_approved_by q = rp_approved_by p))
  ∧ rg_runs r `prefix_of` rg_runs r'.
Proof.
  intros Hr%reachable_registry_ok Hs. assert (registry_grows r r') as [Hp Hruns].
  { induction Hs as [r|r1 r2 r3 H12 _ IH]; [apply registry_grows_refl|].
    eapply registry_grows_trans; [by apply registry_step_grows|]. apply IH. by eapply registry_step_ok. }
  split; [|done]. intros p (q & Hq & Hc & Hst & Ha)%Hp. exists q. split_and!; try done.
  intros E. unfold status_moves in Hst. rewrite E in Hst. naive_solver.
Qed.
End effects.

(* ------------------------------------------------------------------ *)
(** ** The provenance of a delegated review *)
(* ------------------------------------------------------------------ *)

Lemma starts_with_app p s : starts_with p (p ++ s) = true.
Proof. induction p as [|c p IH]; [done|]. cbn. by rewrite N.eqb_refl. Qed.

Definition provenance_ok (p : ReviewProvenance) : Prop :=
  pv_review_origin p = REVIEW_ORIGIN_AI_DELEGATED ∧ nonblank (pv_reviewer p) = true
  ∧ is_tz_aware_iso (PStr (pv_reviewed_at p)) = true ∧ nonblank (pv_source_authority p) = true
  ∧ is_sha256 (pv_pack_sha256 p) = true ∧ nonblank (pv_note p) = true.

Definition provenance_scalar (p : ReviewProvenance) : bool :=
  forallb scalar_str [pv_review_origin p; pv_reviewer p; pv_reviewed_at p; pv_source_authority p;
                      pv_pack_sha256 p; pv_note p].

Lemma canon_provenance p :
  canon (PDict (provenance_dict p)) =
  PDict [("note", PStr (pv_note p)); ("pack_sha256", PStr (pv_pack_sha256 p));
         ("review_origin", PStr (pv_review_origin p)); ("reviewed_at", PStr (pv_reviewed_at p));
         ("reviewer", PStr (pv_reviewer p)); ("source_authority", PStr (pv_source_authority p))].
Proof. reflexivity. Qed.

Lemma to_reason_total p : ∃ text, to_reason p = Ok (REVIEW_PREFIX ++ text)
  ∧ json_dumps (PDict (provenance_dict p)) = Ok text.
Proof.
  assert (∃ text, json_dumps (PDict (provenance_dict p)) = Ok text) as [text Ht]
    by (eexists; reflexivity).
  exists text. split; [|done]. unfold to_reason. by rewrite Ht.
Qed.

(** Reading a provenance text back. *)
Lemma nonblank_text_in p :
  let d := [("note", PStr (pv_note p)); ("pack_sha256", PStr (pv_pack_sha256 p));
            ("review_origin", PStr (pv_review_origin p)); ("reviewed_at", PStr (pv_reviewed_at p));
            ("reviewer", PStr (pv_reviewer p)); ("source_authority", PStr (pv_source_authority p))] in
  let text_of s := if nonblank s then Some s else None in
  nonblank_text d "review_origin" = text_of (pv_review_origin p)
  ∧ nonblank_text d "reviewer" = text_of (pv_reviewer p)
  ∧ nonblank_text d "reviewed_at" = text_of (pv_reviewed_at p)
  ∧ nonblank_text d "source_authority" = text_of (pv_source_authority p)
  ∧ nonblank_text d "pack_sha256" = text_of (pv_pack_sha256 p)
  ∧ nonblank_text d "note" = text_of (pv_note p)
  ∧ set_eqb d.*1 PROVENANCE_KEYS = true.
Proof. repeat split. Qed.

Lemma is_sha256_nonblank s : is_sha256 s = true → nonblank s = true.
Proof.
  unfold is_sha256. intros [Hl Hh]%andb_true_iff. destruct s as [|c s]; [done|].
  cbn in *. apply andb_true_iff in Hh as [Hc _]. apply orb_true_iff. left.
  apply negb_true_iff. unfold is_hex, is_digit in Hc. unfold is_space.
  rewrite !orb_true_iff, !andb_true_iff, !N.leb_le in Hc.
  rewrite !orb_false_iff, !andb_false_iff, !N.leb_gt, !N.eqb_neq. lia.
Qed.

(** Reading a provenance text back. *)
Lemma from_to_reason p reason :
  provenance_ok p → provenance_scalar p = true → to_reason p = Ok reason →
  from_reason reason = Some p.
Proof.
  intros (Ho & Hr & Ha & Hs & Hh & Hn) Hsc Hre.
  destruct (to_reason_total p) as (text & Ht & Hd).
  assert (reason = REVIEW_PREFIX ++ text) as -> by congruence.
  assert (Hclean : json_clean (PDict (provenance_dict p)) = true).
  { apply json_clean_dict. split; [apply str_distinct_iff; reflexivity|].
    unfold provenance_scalar in Hsc. cbn [forallb] in Hsc. rewrite !andb_true_iff in Hsc.
    destruct_and!. repeat constructor; done. }
  unfold from_reason. rewrite starts_with_app, drop_app_length.
  rewrite (json_roundtrip _ _ Hclean Hd), canon_provenance.
  destruct (nonblank_text_in p) as (E1 & E2 & E3 & E4 & E5 & E6 & ->).
  rewrite E1, E2, E3, E4, E5, E6. clear E1 E2 E3 E4 E5 E6.
  rewrite Hr, Hs, Hn, Ho, (is_sha256_nonblank _ Hh).
  assert (nonblank (pv_reviewed_at p) = true) as ->.
  { cbn in Ha. by apply andb_true_iff in Ha as [? _]. }
  change (nonblank REVIEW_ORIGIN_AI_DELEGATED) with true. cbn [mbind option_bind].
  rewrite str_eqb_refl, Hh, Ha. cbn [andb]. destruct p; cbn in *; by subst.
Qed.

Section review.
Context `{Digest}.

(** C10: a delegated review that succeeds is recoverable and attributable: it
    was given for a validated pack without a human approval, the reason stored
    with the activation parses back to exactly the recorded provenance, which
    names the reviewer and the hash of the very content validated, and the
    pack is now active with an approver that is marked as delegated. *)
Theorem review_recoverable r id t reviewer at_time source note fc gaps r' rec pv :
  reachable_registry r → NoDup fc.*1 → forallb scalar_str [reviewer; at_time; source; note] = true →
  record_ai_delegated_review r id t reviewer at_time source note fc gaps = Ok (r', rec, pv) →
  from_reason (ar_reason rec) = Some pv
  ∧ ∃ p q, p ∈ rg_packs r ∧ identity p = (t, id) ∧ rp_status p = "validated"
    ∧ given (rp_approved_by p) = false ∧ q ∈ rg_packs r' ∧ content_of q = content_of p
    ∧ rp_status q = "active" ∧ rp_approved_by q = Some (APPROVER_PREFIX ++ pv_reviewer pv)
    ∧ rp_approved_at q = Some (pv_reviewed_at pv)
    ∧ pack_content_hash (record_manifest p) fc = Ok (pv_pack_sha256 pv)
    ∧ (pv_reviewer pv, pv_reviewed_at pv, pv_source_authority pv, pv_note pv)
      = (reviewer, at_time, source, note).
Proof.
  intros Hr%reachable_registry_ok Hnd Hsc Hrun.
  apply review_inv in Hrun as (Hrv & Hsrc & Hnote & Hat & p & Hp & Hid & Hst & Hna & Hpv & reason & Hre
    & Hact); [|done].
  assert (Hrw : registry_ok (reviewed r t id (APPROVER_PREFIX ++ reviewer) at_time)).
  { apply reviewed_ok; [done|by apply tz_aware_nonempty|done]. }
  apply activate_inv in Hact as (p1 & Hp1 & Hid1 & _ & _ & Hv & _ & _ & Hrec & Hcase).
  apply list_elem_of_fmap in Hp1 as (p0 & Ep1 & Hp0).
  assert (Hpk : names_pack t id p = true) by by apply names_pack_iff.
  assert (p0 = p) as ->.
  { apply (identity_unique r); [apply Hr|done|done|]. rewrite Hid, <- Hid1, Ep1.
    by destruct (names_pack t id p0). }
  rewrite Hpk in Ep1. apply validate_admits in Hv as Hadm; [|done].
  assert (Hhash : pack_content_hash (record_manifest p) fc = Ok (rp_sha256 p)).
  { pose proof (ad_hash _ _ _ Hadm) as Hh. by rewrite Ep1 in Hh. }
  assert (Hsha : is_sha256 (rp_sha256 p) = true).
  { unfold pack_content_hash in Hhash. apply bind_Ok_inv in Hhash as (env & _ & Hh).
    unfold canonical_hash in Hh. apply bind_Ok_inv in Hh as (x & _ & [= <-]). apply sha256_hex_shape. }
  split.
  - rewrite Hrec. cbn [ar_reason]. apply from_to_reason; [| |done]; rewrite Hpv.
    + split_and!; done.
    + unfold provenance_scalar. cbn [forallb pv_review_origin pv_reviewer pv_reviewed_at
        pv_source_authority pv_pack_sha256 pv_note] in *. rewrite !andb_true_iff in Hsc.
      destruct_and!. rewrite (is_sha256_scalar _ Hsha). rewrite !andb_true_iff. split_and!; done.
  - exists p, (with_status "active" p1). rewrite Hpv. cbn [pv_reviewer pv_reviewed_at pv_source_authority
      pv_note pv_pack_sha256]. split_and!; try done; [| | |].
    + assert (Hp1 : p1 ∈ rg_packs (reviewed r t id (APPROVER_PREFIX ++ reviewer) at_time)).
      { rewrite Ep1. cbn. apply list_elem_of_fmap. exists p. by rewrite Hpk. }
      destruct Hcase as [[Hc _]|[Hne ->]].
      * exfalso. apply active_pack_id_Some in Hc; [|apply Hrw].
        assert (Ht : (rp_tenant_id p1, rp_mode p1, rp_rule_pack_id p1) = (t, rp_mode p1, id))
          by (injection Hid1 as -> ->; done).
        rewrite <- Ht in Hc. apply (ro_active _ Hrw p1 Hp1) in Hc. rewrite Ep1 in Hc. cbn in Hc.
        by rewrite Hst in Hc.
      * destruct (turned_cases _ Hrw p1 t id Hp1 Hid1 Hne p1 Hp1) as [(_ & <-)|[(Hn & _)|(Hn & _)]];
          [|done|done]. cbn [rg_packs with_active]. by apply list_elem_of_fmap_2.
    + by rewrite Ep1; destruct p.
    + by rewrite Ep1.
    + by rewrite Ep1.
Qed.
End review.

(* ------------------------------------------------------------------ *)
(** ** Concrete runs *)
(* ------------------------------------------------------------------ *)

(** Two packs of one tenant for the same files. *)
Definition demo_files : pydict :=
  [("rubric/goal.yaml",
    PDict [("version", PStr "v1"); ("effective_date", PStr "2026-01-01");
           ("basis", PDict [("clause", PStr "4.5"); ("verification_status", PStr "unverified")])])].

Definition demo_tenant : pystr := "0f8fad5b-d9cb-469f-a165-70867728950e".
Definition demo_pack_id : pystr := "7d444840-9dc0-11d1-b245-5ffdce74fad2".
Definition demo_next_id : pystr := "9e107d9d-372b-4b81-8c5f-2f2a6f7d3b11".

Definition demo_record (id sha : pystr) (by_whom : option pystr) : RulePackRecord :=
  {| rp_rule_pack_id := id; rp_tenant_id := demo_tenant; rp_version := "v1";
     rp_effective_date := "2026-01-01"; rp_mode := "disclosure"; rp_status := "validated";
     rp_ontology_version := "o1";
     rp_source_document_sha256 := "ba7816bf8f01cfea414140de5dae2223b00361a396177a9cb410ff61f20015ad";
     rp_files := ["rubric/goal.yaml"]; rp_sha256 := sha; rp_unresolved_gap_ids := ["GAP-001"];
     rp_approved_by := by_whom; rp_approved_at := by_whom |}.

Definition demo_sha : pystr :=
  Eval vm_compute in
    match pack_content_hash (H := Checksum) (record_manifest (demo_record demo_pack_id [] None)) demo_files with
    | Ok h => h | Raise _ => [] end.

Definition demo_pack : RulePackRecord := demo_record demo_pack_id demo_sha (Some "lee").
Definition demo_next : RulePackRecord := demo_record demo_next_id demo_sha None.

Definition demo_registry : RulePackRegistry :=
  {| rg_packs := [demo_pack; demo_next]; rg_runs := []; rg_active := [] |}.

Abbreviation demo_activation :=
  (activate_rulepack (H := Checksum) demo_registry demo_pack_id demo_tenant "lee" "go" demo_files ["GAP-001"]).

Abbreviation demo_review :=
  (record_ai_delegated_review (H := Checksum) demo_registry demo_next_id demo_tenant "agent"
     "2026-02-01T09:00:00+09:00" "guideline 4.6" "reviewed" demo_files ["GAP-001"]).

Lemma demo_files_distinct : NoDup demo_files.*1.
Proof. apply NoDup_singleton. Defined.

Lemma demo_reachable : reachable_registry (H := Checksum) demo_registry.
Proof.
  eapply rtc_l; [apply (step_pack (H := Checksum) _ demo_pack); [done|reflexivity]|].
  eapply rtc_l; [apply (step_pack (H := Checksum) _ demo_next); [done|reflexivity]|].
  apply rtc_refl.
Defined.

Lemma demo_activation_ok : is_ok demo_activation = true.
Proof. vm_compute. reflexivity. Qed.

Lemma demo_review_ok : is_ok demo_review = true.
Proof. vm_compute. reflexivity. Qed.

Lemma demo_pack_validated :
  vr_ok (validate_rulepack (H := Checksum) (to_dict demo_pack) demo_files ["GAP-001"]) = true.
Proof. vm_compute. reflexivity. Qed.

Lemma validated_pack_freezes_witness :
  ∃ s, snapshot_from_validated (H := Checksum) (snapshot_fields demo_pack) demo_files = Ok s
    ∧ sha256 s = demo_sha.
Proof.
  destruct (@validated_pack_freezes Checksum demo_pack demo_files ["GAP-001"] demo_pack_validated
    demo_files_distinct) as (s & Hs & Hsha & _).
  - repeat constructor.
  - exists s. split; [exact Hs|exact Hsha].
Defined.

Lemma validation_exact_witness : admitted (H := Checksum) demo_pack demo_files ["GAP-001"].
Proof. apply (@validation_exact Checksum demo_pack demo_files ["GAP-001"] demo_files_distinct), demo_pack_validated. Defined.

Lemma active_default_unique_witness : NoDup (identity <$> rg_packs demo_registry).
Proof. exact (proj1 (@active_default_unique Checksum demo_registry demo_reachable)). Defined.

Lemma activation_exact_witness :
  ∃ r' rec, demo_activation = Ok (r', rec)
    ∧ active_pack_id r' demo_tenant "disclosure" = Some demo_pack_id.
Proof.
  pose proof demo_activation_ok as Hok. destruct demo_activation as [[r' rec]|] eqn:E; [|discriminate Hok].
  exists r', rec. split; [exact eq_refl|].
  destruct (@activation_exact Checksum _ _ _ _ _ _ _ _ _ demo_reachable demo_files_distinct E)
    as (p & Hp & Hid & _ & _ & _ & _ & _ & Hact & _).
  rewrite Hact. apply elem_of_cons in Hp as [->|Hp]; [reflexivity|].
  apply list_elem_of_singleton in Hp as ->. discriminate Hid.
Defined.

Lemma registry_history_kept_witness :
  ∃ r', (∃ rec, demo_activation = Ok (r', rec))
    ∧ ∃ q, q ∈ rg_packs r' ∧ content_of q = content_of demo_next.
Proof.
  pose proof demo_activation_ok as Hok. destruct demo_activation as [[r' rec]|] eqn:E; [|discriminate Hok].
  exists r'. split; [exists rec; exact eq_refl|].
  destruct (@registry_history_kept Checksum demo_registry r' demo_reachable) as [Hp _].
  - apply rtc_once. exact (@step_activate Checksum _ _ _ _ _ _ _ _ _ E).
  - destruct (Hp demo_next) as (q & Hq & Hc & _); [right; left|]. exists q. split; [exact Hq|exact Hc].
Defined.

Lemma review_recoverable_witness :
  ∃ r' rec pv, demo_review = Ok (r', rec, pv) ∧ from_reason (ar_reason rec) = Some pv.
Proof.
  pose proof demo_review_ok as Hok. destruct demo_review as [[[r' rec] pv]|] eqn:E; [|discriminate Hok].
  exists r', rec, pv. split; [exact eq_refl|].
  assert (Hs : forallb scalar_str ["agent"; "2026-02-01T09:00:00+09:00"; "guideline 4.6"; "reviewed"] = true)
    by (vm_compute; reflexivity).
  destruct (@review_recoverable Checksum _ _ _ _ _ _ _ _ _ _ _ _ demo_reachable demo_files_distinct
    Hs E) as [Hr _].
  exact Hr.
Defined.

(** Only a mapping directly under [basis] is examined: the same unsupported
    claim inside a list of bases passes validation. *)
Definition listed_basis_files : pydict :=
  [("rubric/goal.yaml",
    PDict [("version", PStr "v1"); ("effective_date", PStr "2026-01-01");
           ("basis", PList [PDict [("clause", PStr "4.5"); ("verification_status", PStr "verified")]])])].

Definition listed_basis_pack : RulePackRecord :=
  Eval vm_compute in
    demo_record demo_pack_id
      match pack_content_hash (H := Checksum) (record_manifest demo_pack) listed_basis_files with
      | Ok h => h | Raise _ => [] end (Some "lee").

Example listed_basis_unchecked :
  vr_ok (validate_rulepack (H := Checksum) (to_dict listed_basis_pack) listed_basis_files ["GAP-001"])
  = true.
Proof. vm_compute. reflexivity. Qed.
