(* ===== verification/Rows.v ===== *)
(** * Keyed rows.

    A SQL table with a primary key, in the durable stores: the rows in order,
    their lookup, update and insertion, and the lemmas on these. *)
From S2P Require Import Prelude.
Open Scope nat_scope.
Open Scope py_scope.

Section rows.
Context {K V : Type} `{EqDecision K}.

(** [SELECT .. WHERE <primary key> = k] *)
Fixpoint row_get (k : K) (l : list (K * V)) : option V :=
  match l with [] => None | (j, v) :: r => if decide (k = j) then Some v else row_get k r end.

(** [UPDATE], or [INSERT .. ON CONFLICT DO UPDATE]: a row keeps its place. *)
Fixpoint row_set (k : K) (v : V) (l : list (K * V)) : list (K * V) :=
  match l with
  | [] => [(k, v)]
  | (j, w) :: r => if decide (k = j) then (j, v) :: r else (j, w) :: row_set k v r
  end.

(** [INSERT]: [IntegrityError] when the primary key is taken. *)
Definition row_insert (k : K) (v : V) (l : list (K * V)) : result (list (K * V)) :=
  match row_get k l with None => Ok (l ++ [(k, v)]) | Some _ => Raise IntegrityError end.
End rows.

Section row_lemmas.
Context {K V : Type} `{EqDecision K}.
Implicit Types (l : list (K * V)) (k j : K) (v w : V).

Lemma row_get_set l k j v :
  row_get j (row_set k v l) = if decide (j = k) then Some v else row_get j l.
Proof.
  induction l as [|[i w] l IH]; cbn; [by case_decide|].
  destruct (decide (k = i)) as [->|Hki]; cbn.
  - by repeat case_decide.
  - rewrite IH. repeat case_decide; congruence.
Qed.

Lemma row_set_keys l k v : is_Some (row_get k l) → (row_set k v l).*1 = l.*1.
Proof.
  induction l as [|[i w] l IH]; cbn; [by intros [? [=]]|].
  destruct (decide (k = i)); cbn; [done|]. intros Hk. by rewrite IH.
Qed.

Lemma row_get_app l l' k :
  row_get k (l ++ l') = match row_get k l with Some v => Some v | None => row_get k l' end.
Proof. induction l as [|[i w] l IH]; cbn; [done|]. by case_decide. Qed.

Lemma row_get_None l k : row_get k l = None ↔ k ∉ l.*1.
Proof.
  induction l as [|[i w] l IH]; cbn; [split; [by intros _ ?%elem_of_nil|done]|].
  rewrite not_elem_of_cons, <- IH. case_decide; naive_solver.
Qed.

Lemma row_get_elem l k v : row_get k l = Some v → (k, v) ∈ l.
Proof.
  induction l as [|[i w] l IH]; cbn; [done|]. case_decide as E; [|right; auto].
  intros [= ->]. subst. left.
Qed.

Lemma elem_row_get l k v : NoDup l.*1 → (k, v) ∈ l → row_get k l = Some v.
Proof.
  induction l as [|[i w] l IH]; cbn; [by intros _ ?%elem_of_nil|].
  rewrite NoDup_cons. intros [Hi Hnd] [E|Hin]%elem_of_cons.
  - injection E as -> ->. by rewrite decide_True.
  - case_decide as E; [|by apply IH]. subst. destruct Hi. by apply (list_elem_of_fmap_2 fst _ (i, v)).
Qed.

Lemma row_insert_Ok l l' k v :
  row_insert k v l = Ok l' → row_get k l = None ∧ l' = l ++ [(k, v)].
Proof. unfold row_insert. destruct (row_get k l); [done|]. by intros [= <-]. Qed.

Lemma row_insert_get l l' k v j :
  row_insert k v l = Ok l' → row_get j l' = if decide (j = k) then Some v else row_get j l.
Proof.
  intros [Hn ->]%row_insert_Ok. rewrite row_get_app. cbn. case_decide as E; [by subst; rewrite Hn|].
  by destruct (row_get j l).
Qed.

Lemma row_set_app_fresh l k v : row_get k l = None → row_set k v l = l ++ [(k, v)].
Proof.
  induction l as [|[i w] l IH]; cbn; [done|]. case_decide; [done|]. intros Hk. by rewrite IH.
Qed.

Lemma row_set_NoDup l k v : NoDup l.*1 → NoDup (row_set k v l).*1.
Proof.
  intros Hnd. destruct (row_get k l) as [w|] eqn:E; [rewrite row_set_keys; [done|by eexists]|].
  rewrite row_set_app_fresh by done. rewrite fmap_app. apply NoDup_app.
  split_and!; [done| |apply NoDup_singleton]. intros x Hx Hk%list_elem_of_singleton.
  apply row_get_None in E. cbn in Hk. by subst.
Qed.

Lemma row_get_snoc l k v j :
  row_get k l = None → row_get j (l ++ [(k, v)]) = if decide (j = k) then Some v else row_get j l.
Proof.
  intros Hn. rewrite row_get_app. cbn. case_decide as E; [by subst; rewrite Hn|].
  by destruct (row_get j l).
Qed.
End row_lemmas.
