(* ===== verification/RulePackStore.v ===== *)
(** * The durable rule-pack store.

    [adapters/local/rulepack_store.py]: the SQLite tables as rows (immutable
    revisions, CAS heads, the active pointer of each tenant and mode, frozen
    run snapshots, idempotency records, activation events) and every
    transaction over them.  A JSON column holds its text.

    A transaction is the operation itself: what raises leaves the tables as
    they were.  Heads, pointers and snapshots are read in row order, which the
    queries that load a registry do not fix.  An instant is its exact value in
    seconds; the text an activation event gives it and the catalog pages of
    [list] are not modelled.  Fresh event ids are an argument. *)
From Stdlib Require Import QArith.
From S2P Require Import Prelude PyVal JsonCodec Values PyDate PyUuid Digest RulePack Geometry ScopeRules RulePacks Rows.
Open Scope nat_scope.
Open Scope py_scope.

(* ------------------------------------------------------------------ *)
(** ** Tables *)
(* ------------------------------------------------------------------ *)

(** [tenant_id, rule_pack_id] and the like. *)
Abbreviation row_key := (pystr * pystr)%type.

(** [adapters/local/rulepack_store.py:74-81 RulePackSqliteStore.__init__] *)
Record revision_row : Set := { rv_record_json : pystr; rv_files_json : pystr }.

(** [adapters/local/rulepack_store.py:100-109 RulePackSqliteStore.__init__] *)
Record idempotency_row : Set := {
  id_request_hash : pystr; id_response_json : pystr; id_response_revision : Z; id_expires_at : Q }.

(** [adapters/local/rulepack_store.py:110-120 RulePackSqliteStore.__init__] *)
Record event_row : Set := {
  ev_tenant_id : pystr; ev_activation_id : pystr; ev_rule_pack_id : pystr; ev_actor_sub : pystr;
  ev_reason : pystr; ev_before_pack_id : option pystr; ev_after_pack_id : pystr;
  ev_activated_at : Q }.

(** [adapters/local/rulepack_store.py:70-120 RulePackSqliteStore.__init__] *)
Record rulepack_db : Set := {
  rd_revisions : list (row_key * Z * revision_row);
  rd_heads : list (row_key * Z);
  rd_pointers : list (row_key * pystr);
  rd_snapshots : list (row_key * pystr);
  rd_idempotency : list (row_key * pystr * idempotency_row);
  rd_events : list (row_key * event_row) }.

Definition empty_db : rulepack_db :=
  {| rd_revisions := []; rd_heads := []; rd_pointers := []; rd_snapshots := [];
     rd_idempotency := []; rd_events := [] |}.

(** [adapters/local/rulepack_store.py:32 _ROUTE] *)
Definition ROUTE : pystr := "POST /v1/rule-packs/{rule_pack_id}/activate".

(** [adapters/local/rulepack_store.py:452 RulePackSqliteStore.record_ai_delegated_review] *)
Definition REVIEW_ROUTE : pystr := ROUTE ++ "#ai-delegated-review".

(** [adapters/local/rulepack_store.py:49-52 StoredActivation] *)
Record StoredActivation : Set := { sa_body : pyval; sa_revision : Z }.

(** [adapters/local/rulepack_store.py:647-656 _project_rule_pack] *)
Definition project_rule_pack (p : RulePackRecord) : pyval :=
  PDict [("rule_pack_id", PStr (rp_rule_pack_id p)); ("version", PStr (rp_version p));
         ("sha256", PStr (rp_sha256 p)); ("status", PStr (rp_status p)); ("mode", PStr (rp_mode p));
         ("effective_date", PStr (rp_effective_date p));
         ("unresolved_gap_ids", PList (PStr <$> rp_unresolved_gap_ids p))].

(* ------------------------------------------------------------------ *)
(** ** Reading *)
(* ------------------------------------------------------------------ *)

(** The head revision of a pack joined with its row. *)
Definition head_row (db : rulepack_db) (key : row_key) : option (Z * revision_row) :=
  revision ← row_get key (rd_heads db);
  row ← row_get (key, revision) (rd_revisions db);
  Some (revision, row).

(** [RulePackRecord.from_dict(json.loads(record_json))] *)
Definition decode_record (text : pystr) : result RulePackRecord :=
  v ← json_loads text; d ← as_dict TypeError v; from_dict d.

(** [adapters/local/rulepack_store.py:193-201 RulePackSqliteStore.add_run_snapshot_transaction] *)
Definition snapshot_val (s : RunSnapshot) : pyval :=
  PDict [("run_id", PStr (rs_run_id s)); ("tenant_id", PStr (rs_tenant_id s));
         ("rule_pack_id", PStr (rs_rule_pack_id s));
         ("rule_pack_sha256", PStr (rs_rule_pack_sha256 s)); ("status", PStr (rs_status s))].

(** [RunSnapshot( **json.loads(text))] *)
Definition decode_snapshot (text : pystr) : result RunSnapshot :=
  v ← json_loads text;
  d ← as_dict TypeError v;
  _ ← require (set_eqb d.*1 ["run_id"; "tenant_id"; "rule_pack_id"; "rule_pack_sha256"; "status"])
        TypeError;
  run_id ← text_field d "run_id";
  tenant_id ← text_field d "tenant_id";
  rule_pack_id ← text_field d "rule_pack_id";
  rule_pack_sha256 ← text_field d "rule_pack_sha256";
  status ← text_field d "status";
  Ok {| rs_run_id := run_id; rs_tenant_id := tenant_id; rs_rule_pack_id := rule_pack_id;
        rs_rule_pack_sha256 := rule_pack_sha256; rs_status := status |}.

(** The head rows of a tenant: id, revision, record and files.
    [adapters/local/rulepack_store.py:621-627 RulePackSqliteStore._load_registry] *)
Definition tenant_heads (db : rulepack_db) (tenant_id : pystr) : list (pystr * Z * revision_row) :=
  omap (λ '(key, revision),
    if key.1 =s? tenant_id then
      row ← row_get (key, revision) (rd_revisions db); Some (key.2, revision, row)
    else None) (rd_heads db).

(** [adapters/local/rulepack_store.py:631-637 RulePackSqliteStore._load_registry] *)
Definition tenant_pointers (db : rulepack_db) (tenant_id : pystr) : list (pystr * pystr * pystr) :=
  omap (λ '(key, pack_id), if key.1 =s? tenant_id then Some (tenant_id, key.2, pack_id) else None)
    (rd_pointers db).

(** What [_load_registry] returns: the registry, the files and the revisions
    by pack id. *)
Record loaded : Set := {
  ld_registry : RulePackRegistry; ld_files : list (pystr * pyval); ld_revisions : list (pystr * Z) }.

(** [adapters/local/rulepack_store.py:616-645 RulePackSqliteStore._load_registry] *)
Definition load_registry (db : rulepack_db) (tenant_id : pystr) : result loaded :=
  let rows := tenant_heads db tenant_id in
  packs ← map_result (λ '(_, _, row), decode_record (rv_record_json row)) rows;
  files ← map_result (λ '(id, _, row), v ← json_loads (rv_files_json row); Ok (id, v)) rows;
  runs ← map_result (λ '(_, text), decode_snapshot text)
           (List.filter (λ row, row.1.1 =s? tenant_id) (rd_snapshots db));
  Ok {| ld_registry := {| rg_packs := packs; rg_runs := runs; rg_active := tenant_pointers db tenant_id |};
        ld_files := dict_of files;
        ld_revisions := dict_of ((λ '(id, revision, _), (id, revision)) <$> rows) |}.

(** [adapters/local/rulepack_store.py:226-232 RulePackSqliteStore.active_pack_id] *)
Definition pointer_of (db : rulepack_db) (tenant_id mode : pystr) : option pystr :=
  row_get (tenant_id, mode) (rd_pointers db).

(** [adapters/local/rulepack_store.py:216-224 RulePackSqliteStore.get_run_snapshot] *)
Definition get_run_snapshot (db : rulepack_db) (tenant_id run_id : pystr) : result RunSnapshot :=
  text ← of_option LookupError (row_get (tenant_id, run_id) (rd_snapshots db));
  decode_snapshot text.

(** [adapters/local/rulepack_store.py:234-256 RulePackSqliteStore.get_pack_with_files] *)
Definition get_pack_with_files (db : rulepack_db) (tenant_id rule_pack_id : pystr)
    : result (RulePackRecord * pyval) :=
  '(_, row) ← of_option RulePackNotFound (head_row db (tenant_id, rule_pack_id));
  record ← decode_record (rv_record_json row);
  files ← json_loads (rv_files_json row);
  Ok (record, files).

(** [f"GAP-{i:03d}" for i in range(1, 11)] *)
Definition STORE_GAPS : list pystr :=
  ["GAP-001"; "GAP-002"; "GAP-003"; "GAP-004"; "GAP-005"; "GAP-006"; "GAP-007"; "GAP-008";
   "GAP-009"; "GAP-010"].

(* ------------------------------------------------------------------ *)
(** ** Writing *)
(* ------------------------------------------------------------------ *)

(** [adapters/local/rulepack_store.py:160-183 RulePackSqliteStore.add_pack] *)
Definition add_pack (db : rulepack_db) (pack : RulePackRecord) (files_content : pydict)
    : result (rulepack_db * Z) :=
  record_json ← canonical_json (PDict (to_dict pack));
  files_json ← canonical_json (PDict files_content);
  let key := (rp_tenant_id pack, rp_rule_pack_id pack) in
  match head_row db key with
  | Some (revision, row) =>
      if (rv_record_json row =s? record_json) && (rv_files_json row =s? files_json)
      then Ok (db, revision) else Raise (ValueError "immutable identity")
  | None =>
      revisions ← row_insert (key, 1%Z)
        {| rv_record_json := record_json; rv_files_json := files_json |} (rd_revisions db);
      heads ← row_insert key 1%Z (rd_heads db);
      Ok ({| rd_revisions := revisions; rd_heads := heads; rd_pointers := rd_pointers db;
             rd_snapshots := rd_snapshots db; rd_idempotency := rd_idempotency db;
             rd_events := rd_events db |}, 1%Z)
  end.

(** [adapters/local/rulepack_store.py:189-214 RulePackSqliteStore.add_run_snapshot_transaction] *)
Definition add_run_snapshot (db : rulepack_db) (s : RunSnapshot) : result rulepack_db :=
  payload ← canonical_json (snapshot_val s);
  let key := (rs_tenant_id s, rs_run_id s) in
  match row_get key (rd_snapshots db) with
  | Some text => _ ← require (text =s? payload) (ValueError "immutable run snapshot"); Ok db
  | None =>
      Ok {| rd_revisions := rd_revisions db; rd_heads := rd_heads db;
            rd_pointers := rd_pointers db; rd_snapshots := rd_snapshots db ++ [(key, payload)];
            rd_idempotency := rd_idempotency db; rd_events := rd_events db |}
  end.

(** One pack of the updated registry: a changed record becomes a new revision.
    [adapters/local/rulepack_store.py:556-580 RulePackSqliteStore._commit_activation] *)
Definition commit_pack (tenant_id rule_pack_id : pystr) (l : loaded)
    (acc : rulepack_db * Z) (pack : RulePackRecord) : result (rulepack_db * Z) :=
  let '(db, response) := acc in
  let id := rp_rule_pack_id pack in
  before ← of_option KeyError
             (dict_get id (dict_of ((λ p, (rp_rule_pack_id p, p)) <$> rg_packs (ld_registry l))));
  if decide (before = pack) then Ok acc
  else
    current ← of_option KeyError (dict_get id (ld_revisions l));
    let revision := (current + 1)%Z in
    record_json ← canonical_json (PDict (to_dict pack));
    files ← of_option KeyError (dict_get id (ld_files l));
    files_json ← canonical_json files;
    revisions ← row_insert ((tenant_id, id), revision)
      {| rv_record_json := record_json; rv_files_json := files_json |} (rd_revisions db);
    _ ← require (bool_decide (row_get (tenant_id, id) (rd_heads db) = Some current))
          (StaleRulePackRevision current);
    Ok ({| rd_revisions := revisions; rd_heads := row_set (tenant_id, id) revision (rd_heads db);
           rd_pointers := rd_pointers db; rd_snapshots := rd_snapshots db;
           rd_idempotency := rd_idempotency db; rd_events := rd_events db |},
        if id =s? rule_pack_id then revision else response).

(** [adapters/local/rulepack_store.py:532-614 RulePackSqliteStore._commit_activation] *)
Definition commit_activation (db : rulepack_db) (tenant_id rule_pack_id : pystr) (l : loaded)
    (updated : RulePackRegistry) (record : ActivationRecord) (current_revision : Z)
    (route key_hash request_hash event_id : pystr) (now : Q)
    : result (rulepack_db * StoredActivation) :=
  '(db, response) ← fold_result (commit_pack tenant_id rule_pack_id l) (db, current_revision)
                      (rg_packs updated);
  activated ← get_pack updated tenant_id rule_pack_id;
  let body := project_rule_pack activated in
  events ← row_insert (tenant_id, event_id)
    {| ev_tenant_id := tenant_id; ev_activation_id := event_id; ev_rule_pack_id := rule_pack_id;
       ev_actor_sub := ar_actor record; ev_reason := ar_reason record;
       ev_before_pack_id := ar_before_pack_id record; ev_after_pack_id := ar_after_pack_id record;
       ev_activated_at := now |} (rd_events db);
  body_json ← canonical_json body;
  idempotency ← row_insert ((tenant_id, route), key_hash)
    {| id_request_hash := request_hash; id_response_json := body_json;
       id_response_revision := response; id_expires_at := (now + 86400)%Q |} (rd_idempotency db);
  Ok ({| rd_revisions := rd_revisions db; rd_heads := rd_heads db;
         rd_pointers := row_set (tenant_id, rp_mode activated) rule_pack_id (rd_pointers db);
         rd_snapshots := rd_snapshots db; rd_idempotency := idempotency; rd_events := events |},
      {| sa_body := body; sa_revision := response |}).

(** [except LookupError] *)
Definition is_lookup_error (e : exn) : bool :=
  match e with LookupError | KeyError | IndexError | RulePackNotFound => true | _ => false end.

(** The idempotency record of a key: a replay, a conflict, or no live record;
    an expired one is deleted.
    [adapters/local/rulepack_store.py:368-388 RulePackSqliteStore.activate] *)
Definition replayed (db : rulepack_db) (tenant_id route key_hash request_hash : pystr) (now : Q)
    : result (option StoredActivation * rulepack_db) :=
  let key := ((tenant_id, route), key_hash) in
  match row_get key (rd_idempotency db) with
  | None => Ok (None, db)
  | Some row =>
      if negb (Qle_bool (id_expires_at row) now) then
        _ ← require (id_request_hash row =s? request_hash) IdempotencyConflict;
        body ← json_loads (id_response_json row);
        Ok (Some {| sa_body := body; sa_revision := id_response_revision row |}, db)
      else
        Ok (None, {| rd_revisions := rd_revisions db; rd_heads := rd_heads db;
                     rd_pointers := rd_pointers db; rd_snapshots := rd_snapshots db;
                     rd_idempotency := List.filter (λ r, negb (bool_decide (r.1 = key)))
                                         (rd_idempotency db);
                     rd_events := rd_events db |})
  end.

(** The head a caller expects.
    [adapters/local/rulepack_store.py:390-398 RulePackSqliteStore.activate] *)
Definition check_head (db : rulepack_db) (tenant_id rule_pack_id : pystr) (expected : Z)
    : result unit :=
  current ← of_option RulePackNotFound (row_get (tenant_id, rule_pack_id) (rd_heads db));
  require (current =? expected)%Z (StaleRulePackRevision current).

(** The files of the target, evaluated where a [LookupError] is caught. *)
Definition target_files (l : loaded) (rule_pack_id : pystr) : result pydict :=
  files ← of_option KeyError (dict_get rule_pack_id (ld_files l)); as_dict AttributeError files.

Section activation.
Context `{Digest}.

Definition text_hash (text : pystr) : result pystr :=
  bytes ← encode_utf8 text; Ok (sha256_hex bytes).

(** The body both activation paths share; [step] is the application function
    that computes the new registry.
    [adapters/local/rulepack_store.py:367-427 RulePackSqliteStore.activate] *)
Definition activation_transaction (db : rulepack_db) (tenant_id rule_pack_id : pystr)
    (expected : Z) (route key_hash request_hash event_id : pystr) (now : Q)
    (step : RulePackRegistry → pydict → result (RulePackRegistry * ActivationRecord))
    : result (rulepack_db * StoredActivation) :=
  '(replay, db) ← replayed db tenant_id route key_hash request_hash now;
  match replay with
  | Some stored => Ok (db, stored)
  | None =>
      _ ← check_head db tenant_id rule_pack_id expected;
      l ← load_registry db tenant_id;
      '(updated, record) ←
        catch is_lookup_error
          (files ← target_files l rule_pack_id; step (ld_registry l) files)
          (λ _, Raise RulePackNotFound);
      commit_activation db tenant_id rule_pack_id l updated record expected route key_hash
        request_hash event_id now
  end.

(** [adapters/local/rulepack_store.py:350-427 RulePackSqliteStore.activate] *)
Definition activate (db : rulepack_db) (tenant_id rule_pack_id : pystr) (expected_revision : Z)
    (idempotency_key actor reason : pystr) (gap_ids : list pystr) (now : Q) (event_id : pystr)
    : result (rulepack_db * StoredActivation) :=
  request_hash ← canonical_hash (PDict [("rule_pack_id", PStr rule_pack_id); ("reason", PStr reason)]);
  key_hash ← text_hash idempotency_key;
  activation_transaction db tenant_id rule_pack_id expected_revision ROUTE key_hash request_hash
    event_id now
    (λ registry files, activate_rulepack registry rule_pack_id tenant_id actor reason files gap_ids).

(** [adapters/local/rulepack_store.py:429-530 RulePackSqliteStore.record_ai_delegated_review] *)
Definition record_review (db : rulepack_db) (tenant_id rule_pack_id : pystr)
    (expected_revision : Z) (idempotency_key reviewer reviewed_at source_authority note : pystr)
    (gap_ids : list pystr) (now : Q) (event_id : pystr) : result (rulepack_db * StoredActivation) :=
  request_hash ← canonical_hash
    (PDict [("rule_pack_id", PStr rule_pack_id); ("reviewer", PStr reviewer);
            ("reviewed_at", PStr reviewed_at); ("source_authority", PStr source_authority);
            ("note", PStr note)]);
  key_hash ← text_hash idempotency_key;
  activation_transaction db tenant_id rule_pack_id expected_revision REVIEW_ROUTE key_hash
    request_hash event_id now
    (λ registry files,
       '(updated, record, _) ← record_ai_delegated_review registry rule_pack_id tenant_id reviewer
                                 reviewed_at source_authority note files gap_ids;
       Ok (updated, record)).

(** Validation of a stored record and its frozen snapshot.
    [adapters/local/rulepack_store.py:298-304 RulePackSqliteStore.active_snapshot_transaction] *)
Definition freeze_row (row : revision_row) : result RulePackSnapshot :=
  v ← json_loads (rv_record_json row);
  files ← json_loads (rv_files_json row);
  record ← as_dict TypeError v;
  files ← as_dict AttributeError files;
  _ ← require (vr_ok (validate_rulepack record files STORE_GAPS)) (ValueError "validation failed");
  p ← from_dict record;
  snapshot_from_validated (snapshot_fields p) files.

(** [adapters/local/rulepack_store.py:281-304 RulePackSqliteStore.active_snapshot_transaction] *)
Definition active_snapshot_transaction (db : rulepack_db) (tenant_id mode rule_pack_id : pystr)
    : result RulePackSnapshot :=
  pointed ← of_option RulePackNotFound (pointer_of db tenant_id mode);
  _ ← require (pointed =s? rule_pack_id) RulePackNotFound;
  '(_, row) ← of_option RulePackNotFound (head_row db (tenant_id, rule_pack_id));
  freeze_row row.

(** [adapters/local/rulepack_store.py:258-279 RulePackSqliteStore.extraction_snapshot_transaction] *)
Definition extraction_snapshot_transaction (db : rulepack_db) (tenant_id mode rule_pack_id : pystr)
    : result RulePackSnapshot :=
  _ ← require (mode =s? "disclosure") (ValueError "disclosure only");
  '(_, row) ← of_option RulePackNotFound (head_row db (tenant_id, rule_pack_id));
  v ← json_loads (rv_record_json row);
  _ ← json_loads (rv_files_json row);
  record_mode ← getitem "mode" v;
  _ ← require (eq_str record_mode mode) (ValueError "unavailable");
  record_status ← getitem "status" v;
  _ ← require (in_strs record_status ["draft"; "validated"; "active"]) (ValueError "unavailable");
  freeze_row row.
End activation.

(** [adapters/local/rulepack_store.py:306-318 RulePackSqliteStore.list_active_packs] *)
Definition list_active_packs (db : rulepack_db) (tenant_id : pystr) : result (list RulePackRecord) :=
  let rows := omap (λ '(_, mode, id), '(_, row) ← head_row db (tenant_id, id); Some (mode, id, row))
                (tenant_pointers db tenant_id) in
  map_result (λ '(_, _, row), decode_record (rv_record_json row))
    (isort (λ a b, lex_leb str_eqb str_leb str_leb a.1 b.1) rows).
