(* ===== verification/RulePackStoreSpec.v ===== *)
(** * What the durable rule-pack store guarantees.

    The store implements the registry: an activation that commits is the
    application's activation of the loaded registry, and loading again gives
    the registry it computed (a simulation, tenant by tenant).  The registry
    invariant, the append-only tables and the replay of an idempotency key
    follow for every sequence of transactions. *)
From Stdlib Require Import QArith.
From S2P Require Import Prelude PyVal JsonCodec Values PyDate PyUuid Digest RulePack Geometry ScopeRules RulePacks RulePacksSpec Rows RulePackStore.
Open Scope nat_scope.
Open Scope py_scope.

(* ------------------------------------------------------------------ *)
(** ** Stored packs *)
(* ------------------------------------------------------------------ *)

(** The texts of a row encode the record [p] and the files [fc]. *)
Record stored (row : revision_row) (p : RulePackRecord) (fc : pydict) : Prop := {
  st_record : canonical_json (PDict (to_dict p)) = Ok (rv_record_json row);
  st_files : canonical_json (PDict fc) = Ok (rv_files_json row);
  st_clean : json_clean (PDict (to_dict p)) = true;
  st_clean_files : json_clean (PDict fc) = true }.

(** The files as a load returns them. *)
Definition loaded_files (fc : pydict) : pydict := canon_member <$> sorted_items fc.

Lemma canon_opt_str o : canon (opt_str o) = opt_str o.
Proof. by destruct o. Qed.

Lemma canon_to_dict p :
  canon (PDict (to_dict p)) =
  PDict [("approved_at", opt_str (rp_approved_at p)); ("approved_by", opt_str (rp_approved_by p));
         ("effective_date", PStr (rp_effective_date p)); ("files", PList (PStr <$> rp_files p));
         ("mode", PStr (rp_mode p)); ("ontology_version", PStr (rp_ontology_version p));
         ("rule_pack_id", PStr (rp_rule_pack_id p)); ("sha256", PStr (rp_sha256 p));
         ("source_document_sha256", PStr (rp_source_document_sha256 p));
         ("status", PStr (rp_status p)); ("tenant_id", PStr (rp_tenant_id p));
         ("unresolved_gap_ids", PList (PStr <$> rp_unresolved_gap_ids p));
         ("version", PStr (rp_version p))].
Proof.
  rewrite <- (canon_opt_str (rp_approved_at p)), <- (canon_opt_str (rp_approved_by p)),
    <- (map_canon_strs (rp_files p)), <- (map_canon_strs (rp_unresolved_gap_ids p)).
  destruct p as [??????????? ba aa]. by destruct ba, aa.
Qed.

Lemma decode_stored row p fc : stored row p fc → decode_record (rv_record_json row) = Ok p.
Proof.
  intros [Hr _ Hc _]. apply canonical_json_Ok in Hr. unfold decode_record.
  rewrite (json_roundtrip _ _ Hc Hr), canon_to_dict. cbn [mbind result_bind as_dict].
  unfold from_dict. cbn -[text_items fmap]. rewrite !text_items_strs. cbn. unfold optional_text. cbn.
  destruct p as [??????????? ba aa]; cbn. by destruct ba, aa.
Qed.

Lemma load_stored_files row p fc :
  stored row p fc → json_loads (rv_files_json row) = Ok (PDict (loaded_files fc)).
Proof.
  intros [_ Hf _ Hc]. apply canonical_json_Ok in Hf.
  by rewrite (json_roundtrip _ _ Hc Hf), canon_dict.
Qed.

Lemma stored_fun row p fc q fc' : stored row p fc → stored row q fc' → p = q ∧ loaded_files fc = loaded_files fc'.
Proof.
  intros H1 H2. pose proof (decode_stored _ _ _ H1). pose proof (decode_stored _ _ _ H2).
  pose proof (load_stored_files _ _ _ H1). pose proof (load_stored_files _ _ _ H2). split; congruence.
Qed.

Lemma loaded_files_idem fc : loaded_files (loaded_files fc) = loaded_files fc.
Proof.
  assert (E : PDict (loaded_files (loaded_files fc)) = PDict (loaded_files fc)); [|by injection E].
  unfold loaded_files, sorted_items. rewrite <- !canon_dict. apply canon_idem.
Qed.

(** The loaded files are in canonical form: they are stored as the same text. *)
Lemma stored_loaded row p fc : stored row p fc → stored row p (loaded_files fc).
Proof.
  intros [Hr Hf Hc Hcf]. split; [done| |done|].
  - apply canonical_json_Ok in Hf. apply canonical_json_Ok.
    unfold loaded_files, sorted_items. rewrite <- canon_dict. by apply json_dumps_canon.
  - unfold loaded_files, sorted_items. rewrite <- canon_dict. by apply json_clean_canon.
Qed.

Definition key_of (p : RulePackRecord) : row_key := identity p.

(** The head of [key] stores [p] and [fc]. *)
Definition pack_at (db : rulepack_db) (key : row_key) (p : RulePackRecord) (fc : pydict) : Prop :=
  ∃ revision row, head_row db key = Some (revision, row) ∧ stored row p fc ∧ identity p = key.

(** Heads name rows that store their pack, and no later revision exists. *)
Record rows_ok (db : rulepack_db) : Prop := {
  so_heads : NoDup (rd_heads db).*1;
  so_rows : ∀ key revision, row_get key (rd_heads db) = Some revision →
    ∃ row p fc, row_get (key, revision) (rd_revisions db) = Some row ∧ stored row p fc ∧ identity p = key;
  so_next : ∀ key revision n, row_get key (rd_heads db) = Some revision → (revision < n)%Z →
    row_get (key, n) (rd_revisions db) = None;
  so_known : ∀ key n row, row_get (key, n) (rd_revisions db) = Some row →
    is_Some (row_get key (rd_heads db)) }.

(* ------------------------------------------------------------------ *)
(** ** Loading *)
(* ------------------------------------------------------------------ *)

(** The pack ids of a tenant, in row order. *)
Definition tenant_ids (db : rulepack_db) (t : pystr) : list pystr :=
  snd <$> List.filter (λ key, key.1 =s? t) (rd_heads db).*1.

Lemma elem_of_tenant_ids db t id : id ∈ tenant_ids db t ↔ is_Some (row_get (t, id) (rd_heads db)).
Proof.
  unfold tenant_ids. rewrite list_elem_of_fmap. setoid_rewrite elem_of_lfilter.
  setoid_rewrite str_eqb_eq. split.
  - intros ([t' id'] & -> & Hin & Ht). cbn in *. subst.
    destruct (row_get (t, id') (rd_heads db)) eqn:E; [by eexists|]. by apply row_get_None in E.
  - intros [v Hv]. exists (t, id). split_and!; [done| |done].
    apply row_get_elem in Hv. by apply (list_elem_of_fmap_2 fst _ ((t, id), v)).
Qed.

Lemma tenant_ids_NoDup db t : NoDup (rd_heads db).*1 → NoDup (tenant_ids db t).
Proof.
  unfold tenant_ids. generalize (rd_heads db).*1. intros l Hnd.
  induction l as [|[t' id] l IH]; [constructor|]. cbn. apply NoDup_cons in Hnd as [Hin Hnd].
  destruct (str_eqb_spec t' t) as [->|]; cbn; [|by apply IH]. apply NoDup_cons. split; [|by apply IH].
  intros ([t'' id'] & -> & [Hx Ht]%elem_of_lfilter)%list_elem_of_fmap. apply str_eqb_eq in Ht.
  cbn in *. by subst.
Qed.

(** The rows of a tenant, by its ids. *)
Lemma tenant_heads_ids db t :
  rows_ok db →
  Forall2 (λ id x, ∃ revision row, x = (id, revision, row)
             ∧ head_row db (t, id) = Some (revision, row))
    (tenant_ids db t) (tenant_heads db t).
Proof.
  intros Hok. unfold tenant_ids, tenant_heads.
  assert (Hg : ∀ l, (∀ key v, (key, v) ∈ l → row_get key (rd_heads db) = Some v) →
    Forall2 (λ id x, ∃ revision row, x = (id, revision, row)
               ∧ head_row db (t, id) = Some (revision, row))
      (snd <$> List.filter (λ key, key.1 =s? t) l.*1)
      (omap (λ '(key, revision),
         if key.1 =s? t then
           row ← row_get (key, revision) (rd_revisions db); Some (key.2, revision, row)
         else None) l)).
  { intros l Hl. induction l as [|[[t' id] v] l IH]; [constructor|]. cbn.
    assert (Hrest : ∀ key w, (key, w) ∈ l → row_get key (rd_heads db) = Some w)
      by (intros; apply Hl; by right).
    specialize (IH Hrest).
    destruct (str_eqb_spec t' t) as [->|]; [|done]. cbn.
    pose proof (Hl (t, id) v ltac:(left)) as Hv.
    destruct (so_rows _ Hok _ _ Hv) as (row & p & fc & Hrow & _). rewrite Hrow. cbn.
    constructor; [|done]. exists v, row. split; [done|]. unfold head_row. rewrite Hv. cbn. by rewrite Hrow. }
  apply Hg. intros key v Hin. by apply elem_row_get; [apply Hok|].
Qed.

Lemma dict_of_fst {A} (l : list (pystr * A)) : NoDup l.*1 → dict_of l = l.
Proof. apply dict_of_NoDup. Qed.

(** What a load of a tenant returns: its packs, files and revisions. *)
Record load_view (db : rulepack_db) (t : pystr) (l : loaded) : Prop := {
  lv_packs : Forall2 (λ id p, ∃ fc, pack_at db (t, id) p fc) (tenant_ids db t) (rg_packs (ld_registry l));
  lv_files : ∀ id p fc, pack_at db (t, id) p fc → dict_get id (ld_files l) = Some (PDict (loaded_files fc));
  lv_revisions : ∀ id, dict_get id (ld_revisions l) = row_get (t, id) (rd_heads db);
  lv_active : rg_active (ld_registry l) = tenant_pointers db t;
  lv_runs : map_result (λ '(_, text), decode_snapshot text)
              (List.filter (λ row, row.1.1 =s? t) (rd_snapshots db)) = Ok (rg_runs (ld_registry l)) }.

Lemma pack_at_row db key p fc revision row :
  pack_at db key p fc → head_row db key = Some (revision, row) → stored row p fc ∧ identity p = key.
Proof. intros (rv & rw & Hh & Hs & Hid) E. rewrite E in Hh. by injection Hh as <- <-. Qed.

Lemma head_row_at db key revision row :
  rows_ok db → head_row db key = Some (revision, row) → ∃ p fc, stored row p fc ∧ identity p = key.
Proof.
  intros Hok Hh. unfold head_row in Hh. destruct (row_get key (rd_heads db)) as [v|] eqn:Hv; [|done].
  cbn in Hh. destruct (so_rows _ Hok _ _ Hv) as (rw & p & fc & Hr & Hs & Hid).
  rewrite Hr in Hh. cbn in Hh. injection Hh as <- <-. eauto.
Qed.

Lemma load_view_of db t l : rows_ok db → load_registry db t = Ok l → load_view db t l.
Proof.
  intros Hok Hl. unfold load_registry in Hl.
  apply bind_Ok_inv in Hl as (packs & Hpacks & Hl). apply bind_Ok_inv in Hl as (files & Hfiles & Hl).
  apply bind_Ok_inv in Hl as (runs & Hruns & [= <-]).
  pose proof (tenant_heads_ids db t Hok) as Hrows.
  assert (Hnd : NoDup (tenant_ids db t)) by (apply tenant_ids_NoDup, Hok).
  assert (Hfk : files.*1 = tenant_ids db t).
  { apply map_result_Ok in Hfiles. revert files Hfiles. clear -Hrows.
    induction Hrows as [|id x ids rows (rv & row & -> & _) _ IH]; intros files Hf.
    - by inversion Hf.
    - inversion Hf as [|? y ? fs Hy Hfs]; subst. apply bind_Ok_inv in Hy as (v & _ & [= <-]).
      cbn. by rewrite (IH fs). }
  assert (Hrk : ((λ '(id, revision, _), (id, revision)) <$> tenant_heads db t).*1 = tenant_ids db t).
  { clear -Hrows. induction Hrows as [|id x ids rows (rv & row & -> & _) _ IH]; [done|]. cbn. by rewrite IH. }
  constructor; cbn [ld_registry ld_files ld_revisions rg_packs rg_runs rg_active]; [| | |done|done].
  - apply map_result_Ok in Hpacks. revert packs Hpacks. clear -Hrows Hok.
    induction Hrows as [|id x ids rows (rv & row & -> & Hh) _ IH]; intros packs Hp; inversion Hp; subst;
      constructor; [|by apply IH].
    destruct (head_row_at _ _ _ _ Hok Hh) as (p & fc & Hs & Hid). exists fc. exists rv, row.
    rewrite (decode_stored _ _ _ Hs) in *. simplify_eq. done.
  - intros id p fc Hat. rewrite dict_of_NoDup by by rewrite Hfk.
    assert (Hin : id ∈ tenant_ids db t).
    { apply elem_of_tenant_ids. destruct Hat as (rv & row & Hh & _). unfold head_row in Hh.
      destruct (row_get (t, id) (rd_heads db)); [by eexists|done]. }
    apply dict_get_NoDup; [by unfold dict_keys; rewrite Hfk|].
    apply map_result_Ok in Hfiles. clear -Hrows Hfiles Hin Hat. revert files Hfiles.
    induction Hrows as [|id' x ids rows (rv & row & -> & Hh) _ IH]; intros files Hf; [by apply elem_of_nil in Hin|].
    inversion Hf as [|? y ? fs Hy Hfs]; subst. apply bind_Ok_inv in Hy as (v & Hv & [= <-]).
    apply elem_of_cons in Hin as [->|Hin]; [|right; by apply IH].
    destruct (pack_at_row _ _ _ _ _ _ Hat Hh) as [Hs _]. rewrite (load_stored_files _ _ _ Hs) in Hv.
    injection Hv as <-. left.
  - intros id. rewrite dict_of_NoDup by by rewrite Hrk.
    clear -Hrows Hrk Hnd. destruct (dict_get id _) as [rv|] eqn:E.
    + apply dict_get_Some_in in E. apply list_elem_of_fmap in E as ([[id' rv'] row] & [= -> ->] & Hin).
      apply list_elem_of_lookup in Hin as [i Hi].
      destruct (Forall2_lookup_r _ _ _ _ _ Hrows Hi) as (id'' & _ & rv'' & row'' & E & Hh).
      injection E as -> -> ->. unfold head_row in Hh. destruct (row_get (t, id'') (rd_heads db)) as [w|]; [|done].
      cbn in Hh. destruct (row_get (_, w) _); [|done]. by injection Hh as ->.
    + apply dict_get_None in E. unfold dict_keys in E. rewrite Hrk in E. symmetry.
      destruct (row_get (t, id) (rd_heads db)) eqn:E'; [|done]. destruct E.
      apply elem_of_tenant_ids. by eexists.
Qed.

(* ------------------------------------------------------------------ *)
(** ** Committing a registry *)
(* ------------------------------------------------------------------ *)

(** The tables change only by new revisions of one tenant's packs. *)
Record revises (t : pystr) (db db' : rulepack_db) : Prop := {
  rv_keys : (rd_heads db').*1 = (rd_heads db).*1;
  rv_other : ∀ key, key.1 ≠ t → row_get key (rd_heads db') = row_get key (rd_heads db);
  rv_kept : ∀ k row, row_get k (rd_revisions db) = Some row → row_get k (rd_revisions db') = Some row;
  rv_grow : ∀ key v, row_get key (rd_heads db) = Some v →
    ∃ v', row_get key (rd_heads db') = Some v' ∧ (v <= v')%Z;
  rv_pointers : rd_pointers db' = rd_pointers db;
  rv_snapshots : rd_snapshots db' = rd_snapshots db;
  rv_idempotency : rd_idempotency db' = rd_idempotency db;
  rv_events : rd_events db' = rd_events db }.

#[export] Instance revises_preorder t : PreOrder (revises t).
Proof.
  split.
  - intros db. split; try done. intros key v Hv. exists v. split; [done|lia].
  - intros a b c [k1 o1 m1 g1 p1 s1 i1 e1] [k2 o2 m2 g2 p2 s2 i2 e2].
    split; [congruence| |auto| |congruence..].
    + intros key Hk. rewrite o2, o1; done.
    + intros key v (v' & Hv' & ?)%g1. destruct (g2 key v' Hv') as (w & Hw & ?). exists w. split; [done|lia].
Qed.

(** What holds of a row in [db] holds of it after new revisions elsewhere. *)
Lemma pack_at_kept db db' key p fc :
  row_get key (rd_heads db') = row_get key (rd_heads db) →
  (∀ k row, row_get k (rd_revisions db) = Some row → row_get k (rd_revisions db') = Some row) →
  pack_at db key p fc → pack_at db' key p fc.
Proof.
  intros Hh Hr (rv & row & E & Hs & Hid). exists rv, row. split; [|done]. unfold head_row in *.
  rewrite Hh. destruct (row_get key (rd_heads db)) as [v|]; [|done]. cbn in *.
  destruct (row_get (key, v) (rd_revisions db)) as [w|] eqn:Ew; [|done]. cbn in E.
  injection E as -> ->. by rewrite (Hr _ _ Ew).
Qed.

Definition record_clean (p : RulePackRecord) : bool := json_clean (PDict (to_dict p)).

Lemma commit_pack_inv t target l db resp p q fc rv db' resp' :
  rows_ok db →
  dict_get (rp_rule_pack_id q) (dict_of ((λ p, (rp_rule_pack_id p, p)) <$> rg_packs (ld_registry l)))
    = Some p →
  dict_get (rp_rule_pack_id q) (ld_revisions l) = Some rv →
  dict_get (rp_rule_pack_id q) (ld_files l) = Some (PDict (loaded_files fc)) →
  identity q = (t, rp_rule_pack_id q) → record_clean q = true →
  pack_at db (t, rp_rule_pack_id q) p fc →
  commit_pack t target l (db, resp) q = Ok (db', resp') →
  rows_ok db' ∧ revises t db db' ∧ (∃ fc', pack_at db' (t, rp_rule_pack_id q) q fc' ∧ loaded_files fc' = loaded_files fc)
  ∧ (∀ id, id ≠ rp_rule_pack_id q → row_get (t, id) (rd_heads db') = row_get (t, id) (rd_heads db))
  ∧ (row_get (t, target) (rd_heads db) = Some resp → row_get (t, target) (rd_heads db') = Some resp').
Proof.
  intros Hok Hbefore Hrev Hfiles Hid Hclean Hat Hrun. set (id := rp_rule_pack_id q) in *.
  unfold commit_pack in Hrun. fold id in Hrun. rewrite Hbefore in Hrun. cbn [of_option mbind result_bind] in Hrun.
  destruct (decide (p = q)) as [->|Hne].
  { injection Hrun as <- <-. split_and!; [done|done| |done|done]. by exists fc. }
  rewrite Hrev, Hfiles in Hrun. cbn [of_option mbind result_bind] in Hrun.
  apply bind_Ok_inv in Hrun as (rj & Hrj & Hrun). apply bind_Ok_inv in Hrun as (fj & Hfj & Hrun).
  apply bind_Ok_inv in Hrun as (revs & Hins & Hrun). apply bind_Ok_inv in Hrun as (u & Hhead & [= <- <-]).
  apply require_Ok, bool_decide_eq_true in Hhead.
  set (row := {| rv_record_json := rj; rv_files_json := fj |}) in *.
  assert (Hget : ∀ k, row_get k revs = if decide (k = ((t, id), (rv + 1)%Z)) then Some row
                                       else row_get k (rd_revisions db)).
  { intros k. exact (row_insert_get _ _ _ _ k Hins). }
  destruct (row_insert_Ok _ _ _ _ Hins) as [Hfresh _].
  assert (Hkept : ∀ k r, row_get k (rd_revisions db) = Some r → row_get k revs = Some r).
  { intros k r Hk. rewrite Hget. case_decide; [congruence|done]. }
  assert (Hst : stored row q (loaded_files fc)).
  { destruct Hat as (? & ? & _ & Hs & _). split; [done|done|done|].
    by apply (st_clean_files _ _ _ (stored_loaded _ _ _ Hs)). }
  split_and!.
  - constructor; cbn [rd_heads rd_revisions].
    + rewrite row_set_keys; [apply Hok|by eexists].
    + intros key v. rewrite row_get_set. case_decide as E.
      * intros [= <-]. subst key. exists row, q, (loaded_files fc). split_and!; [|done|done].
        rewrite Hget. by rewrite decide_True.
      * intros Hv. destruct (so_rows _ Hok _ _ Hv) as (r & p' & fc' & Hr & ?). exists r, p', fc'.
        split; [by apply Hkept|done].
    + intros key v n. rewrite row_get_set. rewrite Hget. case_decide as E.
      * intros [= <-] Hn. subst key. rewrite decide_False by (intros [= ->]; lia).
        apply (so_next _ Hok _ rv); [done|lia].
      * intros Hv Hn. rewrite decide_False by (intros [= -> _]; done). by apply (so_next _ Hok _ v).
    + intros key n r. rewrite Hget, row_get_set. case_decide as E.
      * intros _. injection E as -> _. rewrite decide_True by done. by eexists.
      * intros Hr. case_decide; [by eexists|]. by apply (so_known _ Hok _ n r).
  - constructor; cbn [rd_heads rd_revisions]; try done.
    + apply row_set_keys. by eexists.
    + intros key Hk. rewrite row_get_set. rewrite decide_False; [done|]. by intros ->.
    + intros key v Hv. rewrite row_get_set. case_decide as E.
      * eexists. split; [done|]. subst. assert (v = rv) by congruence. lia.
      * exists v. split; [done|lia].
  - exists (loaded_files fc). split.
    + exists (rv + 1)%Z, row. split_and!; [|done|done].
      unfold head_row. cbn [rd_heads rd_revisions]. rewrite row_get_set, decide_True by done. cbn.
      rewrite Hget, decide_True by done. done.
    + apply loaded_files_idem.
  - intros id' Hne'. cbn [rd_heads]. rewrite row_get_set, decide_False; [done|]. by intros [= ->].
  - cbn [rd_heads]. rewrite row_get_set. intros Ht. destruct (str_eqb_spec id target) as [->|Hnt].
    + by rewrite decide_True.
    + rewrite decide_False by (intros [= ->]; done). done.
Qed.

Lemma Forall2_impl_l {A B} (P Q : A → B → Prop) l k :
  Forall2 P l k → (∀ x y, x ∈ l → P x y → Q x y) → Forall2 Q l k.
Proof.
  induction 1 as [|x y l k Hxy _ IH]; intros H; constructor; [apply H; [left|done]|].
  apply IH. intros a b Ha. apply H. by right.
Qed.

Lemma Forall2_compose {A B C} (P : A → B → Prop) (Q : B → C → Prop) (R : A → C → Prop) l k m :
  (∀ x y z, P x y → Q y z → R x z) → Forall2 P l k → Forall2 Q k m → Forall2 R l m.
Proof.
  intros H Hp. revert m. induction Hp; inversion 1; subst; constructor; eauto.
Qed.

(** The loop over the updated packs: each ends up stored at its head. *)
Lemma commit_packs_inv t target l ids ps qs db resp db' resp' :
  rows_ok db → NoDup ids →
  Forall2 (λ id p, ∃ fc, pack_at db (t, id) p fc
             ∧ dict_get id (ld_files l) = Some (PDict (loaded_files fc))) ids ps →
  (∀ id p, (id, p) ∈ zip ids ps →
     dict_get id (dict_of ((λ p, (rp_rule_pack_id p, p)) <$> rg_packs (ld_registry l))) = Some p) →
  (∀ id, id ∈ ids → dict_get id (ld_revisions l) = row_get (t, id) (rd_heads db)) →
  Forall2 (λ id q, identity q = (t, id) ∧ record_clean q = true) ids qs →
  fold_result (commit_pack t target l) (db, resp) qs = Ok (db', resp') →
  rows_ok db' ∧ revises t db db'
  ∧ Forall2 (λ id q, ∃ fc, pack_at db' (t, id) q fc ∧ dict_get id (ld_files l) = Some (PDict (loaded_files fc)))
      ids qs
  ∧ (∀ id, id ∉ ids → row_get (t, id) (rd_heads db') = row_get (t, id) (rd_heads db))
  ∧ (row_get (t, target) (rd_heads db) = Some resp → row_get (t, target) (rd_heads db') = Some resp').
Proof.
  intros Hok Hnd Hps. revert qs db resp Hok Hnd Hps.
  revert ps. induction ids as [|id ids IH]; intros ps qs db resp Hok Hnd Hps Hbefore Hrevs Hqs Hrun.
  { inversion Hqs; subst. cbn in Hrun. injection Hrun as <- <-. split_and!; [done|done|constructor|done|done]. }
  inversion Hps as [|? p ? ps' (fc & Hat & Hfiles) Hps']; subst.
  inversion Hqs as [|? q ? qs' [Hidq Hcl] Hqs']; subst.
  apply NoDup_cons in Hnd as [Hnin Hnd].
  cbn [fold_result] in Hrun. apply bind_Ok_inv in Hrun as ([db1 resp1] & H1 & Hrun).
  assert (Hqid : rp_rule_pack_id q = id) by (unfold identity in Hidq; by injection Hidq).
  destruct (row_get (t, id) (rd_heads db)) as [rv|] eqn:Hrv.
  2:{ exfalso. destruct Hat as (? & ? & Hh & _). unfold head_row in Hh. by rewrite Hrv in Hh. }
  assert (Hstep : rows_ok db1 ∧ revises t db db1
    ∧ (∃ fc', pack_at db1 (t, id) q fc' ∧ loaded_files fc' = loaded_files fc)
    ∧ (∀ id', id' ≠ id → row_get (t, id') (rd_heads db1) = row_get (t, id') (rd_heads db))
    ∧ (row_get (t, target) (rd_heads db) = Some resp → row_get (t, target) (rd_heads db1) = Some resp1)).
  { rewrite <- Hqid. eapply (commit_pack_inv t target l db resp p q fc rv); rewrite ?Hqid; try done.
    - apply Hbefore. by left.
    - rewrite Hrevs by left. done. }
  destruct Hstep as (Hok1 & Hr1 & (fc' & Hat1 & Hfc') & Hoth1 & Hresp1).
  assert (Hne : ∀ id', id' ∈ ids → id' ≠ id) by (by intros id' Hin ->).
  destruct (IH ps' qs' db1 resp1) as (Hok' & Hr' & Hall & Hoth' & Hresp'); try done.
  - apply (Forall2_impl_l _ _ _ _ Hps'). intros id' p' Hin (fc1 & Hp1 & Hf1). exists fc1. split; [|done].
    apply (pack_at_kept db); [by apply Hoth1, Hne|apply Hr1|done].
  - intros id' p' Hin. apply Hbefore. by right.
  - intros id' Hin. rewrite Hrevs by by right. symmetry. by apply Hoth1, Hne.
  - split_and!; [done|by etransitivity| | |by auto].
    + constructor; [|done]. exists fc'. split; [|by rewrite Hfc'].
      apply (pack_at_kept db1); [|apply Hr'|done]. by apply Hoth'.
    + intros id' [Hi Hin]%not_elem_of_cons. rewrite Hoth' by done. by apply Hoth1.
Qed.

(* ------------------------------------------------------------------ *)
(** ** Loading what was committed *)
(* ------------------------------------------------------------------ *)

Lemma pack_at_fun db key p fc q fc' : pack_at db key p fc → pack_at db key q fc' → p = q.
Proof.
  intros (rv & row & E & Hs & _) H2. destruct (pack_at_row _ _ _ _ _ _ H2 E) as [Hs' _].
  by destruct (stored_fun _ _ _ _ _ Hs Hs').
Qed.

Lemma load_total db t runs :
  rows_ok db →
  map_result (λ '(_, text), decode_snapshot text)
    (List.filter (λ row, row.1.1 =s? t) (rd_snapshots db)) = Ok runs →
  ∃ l, load_registry db t = Ok l ∧ rg_runs (ld_registry l) = runs.
Proof.
  intros Hok Hruns. pose proof (tenant_heads_ids db t Hok) as Hrows. unfold load_registry.
  assert (∃ packs, map_result (λ '(_, _, row), decode_record (rv_record_json row)) (tenant_heads db t) = Ok packs)
    as [packs ->].
  { clear Hruns. induction Hrows as [|id x ids rows (rv & row & -> & Hh) _ [packs IH]]; [by eexists|].
    destruct (head_row_at _ _ _ _ Hok Hh) as (p & fc & Hs & _). cbn [map_result].
    rewrite (decode_stored _ _ _ Hs), IH. by eexists. }
  assert (∃ files, map_result (λ '(id, _, row), v ← json_loads (rv_files_json row); Ok (id, v))
                     (tenant_heads db t) = Ok files) as [files ->].
  { clear Hruns. induction Hrows as [|id x ids rows (rv & row & -> & Hh) _ [files IH]]; [by eexists|].
    destruct (head_row_at _ _ _ _ Hok Hh) as (p & fc & Hs & _). cbn [map_result].
    rewrite (load_stored_files _ _ _ Hs). cbn [mbind result_bind]. cbn [mbind result_bind] in IH.
    rewrite IH. by eexists. }
  cbn [mbind result_bind]. rewrite Hruns. eexists. split; [done|done].
Qed.

Lemma head_row_kept t db db' key :
  rows_ok db → revises t db db' → key.1 ≠ t → head_row db' key = head_row db key.
Proof.
  intros Hok [_ Hoth Hkept _ _ _ _ _] Hk. unfold head_row. rewrite (Hoth _ Hk).
  destruct (row_get key (rd_heads db)) as [v|] eqn:Hv; [|done]. cbn.
  destruct (so_rows _ Hok _ _ Hv) as (row & p & fc & Hr & _). by rewrite Hr, (Hkept _ _ Hr).
Qed.

(** A tenant is loaded from its own rows. *)
Lemma load_same db db' t :
  rows_ok db → rows_ok db' → tenant_ids db' t = tenant_ids db t →
  (∀ id, head_row db' (t, id) = head_row db (t, id)) →
  tenant_pointers db' t = tenant_pointers db t →
  List.filter (λ row, row.1.1 =s? t) (rd_snapshots db')
  = List.filter (λ row, row.1.1 =s? t) (rd_snapshots db) →
  load_registry db' t = load_registry db t.
Proof.
  intros Hok Hok' Hids Hrow Hptr Hsnap. unfold load_registry. rewrite Hptr, Hsnap.
  assert (tenant_heads db' t = tenant_heads db t) as ->; [|done].
  pose proof (tenant_heads_ids db t Hok) as H1. pose proof (tenant_heads_ids db' t Hok') as H2.
  rewrite Hids in H2. revert H2. generalize (tenant_heads db' t). clear -H1 Hrow.
  induction H1 as [|id x ids rows (rv & row & -> & Hh) _ IH]; intros rows' H2; inversion H2; subst; [done|].
  match goal with H : ∃ _ _, _ |- _ => destruct H as (rv' & row' & -> & Hh') end.
  rewrite Hrow, Hh in Hh'. injection Hh' as <- <-. f_equal. by apply IH.
Qed.

(** The loaded packs are determined by what the heads store. *)
Lemma load_packs db t l ps :
  rows_ok db → load_registry db t = Ok l →
  Forall2 (λ id p, ∃ fc, pack_at db (t, id) p fc) (tenant_ids db t) ps →
  rg_packs (ld_registry l) = ps.
Proof.
  intros Hok Hl Hps. pose proof (lv_packs _ _ _ (load_view_of _ _ _ Hok Hl)) as Hl'.
  revert Hps. generalize ps. clear -Hl'.
  induction Hl' as [|id p ids ps (fc & Hat) _ IH]; intros qs Hq; inversion Hq; subst; [done|].
  match goal with H : ∃ _, _ |- _ => destruct H as (fc' & Hat') end.
  rewrite (pack_at_fun _ _ _ _ _ _ Hat Hat'). f_equal. by apply IH.
Qed.

(* ------------------------------------------------------------------ *)
(** ** Pointers *)
(* ------------------------------------------------------------------ *)

Definition pointers_in (t : pystr) (l : list (row_key * pystr)) : list (pystr * pystr * pystr) :=
  omap (λ '(key, id), if key.1 =s? t then Some (t, key.2, id) else None) l.

Lemma pointers_in_fresh t m l : (t, m) ∉ l.*1 →
  List.filter (λ a, negb (points t m a)) (pointers_in t l) = pointers_in t l.
Proof.
  induction l as [|[[t' m'] v] l IH]; [done|]. cbn. intros [Hk Hl]%not_elem_of_cons.
  destruct (str_eqb_spec t' t) as [->|]; cbn; [|by apply IH].
  destruct (points t m (t, m', v)) eqn:E; [|cbn; f_equal; by apply IH].
  apply points_iff in E. cbn in E. congruence.
Qed.

Lemma pointers_set t m id l : NoDup l.*1 →
  pointers_in t (row_set (t, m) id l)
  ≡ₚ List.filter (λ a, negb (points t m a)) (pointers_in t l) ++ [(t, m, id)].
Proof.
  induction l as [|[[t' m'] v] l IH]; intros Hnd.
  { cbn. by rewrite str_eqb_refl. }
  cbn in Hnd. apply NoDup_cons in Hnd as [Hin Hnd]. cbn [row_set].
  destruct (decide ((t, m) = (t', m'))) as [E|Hne].
  - injection E as <- <-. cbn. rewrite str_eqb_refl. cbn.
    assert (Hp : points t m (t, m, v) = true) by by apply points_iff. rewrite Hp. cbn.
    change (omap _ l) with (pointers_in t l). rewrite pointers_in_fresh by done.
    apply Permutation_cons_append.
  - cbn. destruct (str_eqb_spec t' t) as [->|]; cbn; [|by apply IH].
    destruct (points t m (t, m', v)) eqn:E; cbn; [|by rewrite <- IH].
    apply points_iff in E. cbn in E. congruence.
Qed.

Lemma pointers_set_other t t' m id l : t ≠ t' →
  pointers_in t' (row_set (t, m) id l) = pointers_in t' l.
Proof.
  intros Hne. unfold pointers_in. induction l as [|[[a b] v] l IH]; cbn.
  - by destruct (str_eqb_spec t t').
  - case_decide as E; [injection E as <- <-|]; cbn.
    + by destruct (str_eqb_spec t t').
    + by rewrite IH.
Qed.

(* ------------------------------------------------------------------ *)
(** ** Cleanness of updated records *)
(* ------------------------------------------------------------------ *)

Lemma record_clean_iff p :
  record_clean p = true ↔
  forallb scalar_str [rp_rule_pack_id p; rp_tenant_id p; rp_version p; rp_effective_date p; rp_mode p;
    rp_status p; rp_ontology_version p; rp_source_document_sha256 p; rp_sha256 p] = true
  ∧ json_clean (PList (PStr <$> rp_files p)) = true
  ∧ json_clean (PList (PStr <$> rp_unresolved_gap_ids p)) = true
  ∧ json_clean (opt_str (rp_approved_by p)) = true ∧ json_clean (opt_str (rp_approved_at p)) = true.
Proof.
  unfold record_clean, to_dict. rewrite json_clean_dict. rewrite !Forall_cons.
  cbn [fst snd]. cbn [forallb]. rewrite !andb_true_iff. split.
  - intros (_ & H). destruct_and!. by split_and!.
  - intros H. destruct_and!. split; [apply str_distinct_iff; reflexivity|]. split_and!; done.
Qed.

Lemma record_clean_status s p :
  scalar_str s = true → record_clean p = true → record_clean (with_status s p) = true.
Proof.
  intros Hs. rewrite !record_clean_iff. cbn [forallb rp_rule_pack_id rp_tenant_id rp_version
    rp_effective_date rp_mode rp_status rp_ontology_version rp_source_document_sha256 rp_sha256
    with_status rp_files rp_unresolved_gap_ids rp_approved_by rp_approved_at].
  rewrite !andb_true_iff. intros H. destruct_and!. by split_and!.
Qed.

Lemma record_clean_approval a b p :
  scalar_str a = true → scalar_str b = true → record_clean p = true →
  record_clean (with_approval a b p) = true.
Proof.
  intros Ha Hb. rewrite !record_clean_iff. cbn [forallb rp_rule_pack_id rp_tenant_id rp_version
    rp_effective_date rp_mode rp_status rp_ontology_version rp_source_document_sha256 rp_sha256
    with_approval rp_files rp_unresolved_gap_ids rp_approved_by rp_approved_at].
  rewrite !andb_true_iff. intros H. destruct_and!. by split_and!.
Qed.

Lemma record_clean_turned t m id c p :
  record_clean p = true → record_clean (turned t m id c p) = true.
Proof. intros Hp. unfold turned. repeat case_match; try done; by apply record_clean_status. Qed.

(* ------------------------------------------------------------------ *)
(** ** The committed registry *)
(* ------------------------------------------------------------------ *)

(** Registries that differ in the order of their pointers. *)
Record registry_equiv (r r' : RulePackRegistry) : Prop := {
  re_packs : rg_packs r' = rg_packs r;
  re_runs : rg_runs r' = rg_runs r;
  re_active : rg_active r' ≡ₚ rg_active r }.

#[export] Instance registry_equiv_equivalence : Equivalence registry_equiv.
Proof.
  split.
  - by intros r.
  - intros r r' [Hp Hr Ha]. by split.
  - intros a b c [p1 r1 a1] [p2 r2 a2]. split; [congruence|congruence|by rewrite a2].
Qed.

#[export] Instance registry_ok_proper : Proper (registry_equiv ==> iff) registry_ok.
Proof.
  assert (Hg : ∀ r r', registry_equiv r r' → registry_ok r → registry_ok r').
  { intros r r' [Ep _ Ea] [Hi Hp Ha Hpt Hap]. constructor; rewrite ?Ep; try done.
    - by rewrite Ea.
    - intros p Hin. rewrite Ea. by apply Ha.
    - intros t m id Hin. rewrite Ea in Hin. by apply Hpt. }
  intros r r' He. split; [by apply Hg|]. apply Hg. by symmetry.
Qed.

Record store_ok (db : rulepack_db) : Prop := {
  sk_rows : rows_ok db;
  sk_pointers : NoDup (rd_pointers db).*1;
  sk_load : ∀ t, ∃ l, load_registry db t = Ok l ∧ registry_ok (ld_registry l) }.

(** How the pointers of a registry move when [(t, m)] is set to [id]. *)
Definition repointed (r : RulePackRegistry) (t m id : pystr) : list (pystr * pystr * pystr) :=
  List.filter (λ a, negb (points t m a)) (rg_active r) ++ [(t, m, id)].

Lemma loaded_identity db t l p :
  load_view db t l → p ∈ rg_packs (ld_registry l) →
  ∃ id fc, id ∈ tenant_ids db t ∧ pack_at db (t, id) p fc ∧ identity p = (t, id).
Proof.
  intros Hv Hp. apply list_elem_of_lookup in Hp as [i Hi].
  destruct (Forall2_lookup_r _ _ _ _ _ (lv_packs _ _ _ Hv) Hi) as (id & Hid & fc & Hat).
  exists id, fc. split_and!; [by eapply list_elem_of_lookup_2|done|]. by destruct Hat as (? & ? & _ & _ & ?).
Qed.

Lemma before_lookup db t l id p :
  load_view db t l → NoDup (tenant_ids db t) → (id, p) ∈ zip (tenant_ids db t) (rg_packs (ld_registry l)) →
  dict_get id (dict_of ((λ p, (rp_rule_pack_id p, p)) <$> rg_packs (ld_registry l))) = Some p.
Proof.
  intros Hv Hnd Hin.
  assert (Hz : ((λ p, (rp_rule_pack_id p, p)) <$> rg_packs (ld_registry l))
               = zip (tenant_ids db t) (rg_packs (ld_registry l))).
  { pose proof (lv_packs _ _ _ Hv) as Hp. clear -Hp. induction Hp as [|i p ids ps (fc & ? & ? & _ & _ & Hid) _ IH]; [done|].
    cbn. rewrite IH. unfold identity in Hid. by injection Hid as _ ->. }
  assert (Hk : (zip (tenant_ids db t) (rg_packs (ld_registry l))).*1 = tenant_ids db t).
  { apply fst_zip. by rewrite (Forall2_length _ _ _ (lv_packs _ _ _ Hv)). }
  rewrite Hz. rewrite dict_of_NoDup by by rewrite Hk. apply dict_get_NoDup; [|done].
  unfold dict_keys. by rewrite Hk.
Qed.

Record committed (db db' : rulepack_db) (t id : pystr) (upd : RulePackRegistry) (record : ActivationRecord)
    (route kh rh event_id : pystr) (now : Q) (resp : StoredActivation) : Prop := {
  cm_rows : rows_ok db';
  cm_load : ∃ l', load_registry db' t = Ok l' ∧ registry_equiv upd (ld_registry l');
  cm_files : ∀ i p fc, pack_at db (t, i) p fc →
    ∃ q fc', pack_at db' (t, i) q fc' ∧ loaded_files fc' = loaded_files fc;
  cm_other : ∀ t', t' ≠ t → load_registry db' t' = load_registry db t';
  cm_pointers : ∃ a, get_pack upd t id = Ok a ∧ sa_body resp = project_rule_pack a
    ∧ rd_pointers db' = row_set (t, rp_mode a) id (rd_pointers db);
  cm_revision : row_get (t, id) (rd_heads db') = Some (sa_revision resp);
  cm_keys : (rd_heads db').*1 = (rd_heads db).*1;
  cm_grow : ∀ key v, row_get key (rd_heads db) = Some v →
    ∃ v', row_get key (rd_heads db') = Some v' ∧ (v <= v')%Z;
  cm_kept : ∀ k row, row_get k (rd_revisions db) = Some row → row_get k (rd_revisions db') = Some row;
  cm_snapshots : rd_snapshots db' = rd_snapshots db;
  cm_events : ∃ e, rd_events db' = rd_events db ++ [((t, event_id), e)] ∧ ev_reason e = ar_reason record
    ∧ ev_actor_sub e = ar_actor record ∧ ev_before_pack_id e = ar_before_pack_id record
    ∧ ev_after_pack_id e = ar_after_pack_id record;
  cm_idempotency : ∃ text, canonical_json (sa_body resp) = Ok text
    ∧ rd_idempotency db' = rd_idempotency db
      ++ [((t, route, kh), {| id_request_hash := rh; id_response_json := text;
            id_response_revision := sa_revision resp; id_expires_at := (now + 86400)%Q |})] }.

Lemma commit_activation_inv db t id l upd record current route kh rh event_id now db' resp :
  store_ok db → load_registry db t = Ok l →
  Forall2 (λ p q, identity q = identity p ∧ (record_clean p = true → record_clean q = true))
    (rg_packs (ld_registry l)) (rg_packs upd) →
  rg_runs upd = rg_runs (ld_registry l) →
  (∀ a, get_pack upd t id = Ok a → rg_active upd ≡ₚ repointed (ld_registry l) t (rp_mode a) id) →
  row_get (t, id) (rd_heads db) = Some current →
  commit_activation db t id l upd record current route kh rh event_id now = Ok (db', resp) →
  committed db db' t id upd record route kh rh event_id now resp.
Proof.
  intros [Hok Hptr _] Hl Hupd Hruns Hact Hcur Hrun. unfold commit_activation in Hrun.
  apply bind_Ok_inv in Hrun as ([db1 response] & Hfold & Hrun).
  apply bind_Ok_inv in Hrun as (a & Ha & Hrun). apply bind_Ok_inv in Hrun as (evs & Hev & Hrun).
  apply bind_Ok_inv in Hrun as (text & Htext & Hrun). apply bind_Ok_inv in Hrun as (idem & Hidem & [= <- <-]).
  pose proof (load_view_of _ _ _ Hok Hl) as Hv.
  assert (Hnd : NoDup (tenant_ids db t)) by (apply tenant_ids_NoDup, Hok).
  destruct (commit_packs_inv t id l (tenant_ids db t) (rg_packs (ld_registry l)) (rg_packs upd) db current db1
    response Hok Hnd) as (Hok1 & Hrev & Hall & _ & Hresp); try done.
  { apply (Forall2_impl_l _ _ _ _ (lv_packs _ _ _ Hv)). intros i p _ (fc & Hat). exists fc.
    split; [done|]. by apply (lv_files _ _ _ Hv i p). }
  { intros i p. by apply before_lookup. }
  { intros i _. apply (lv_revisions _ _ _ Hv). }
  { eapply Forall2_compose; [|exact (lv_packs _ _ _ Hv)|exact Hupd].
    intros i p q (fc & rv & row & _ & Hs & Hid) [Hidq Hcl]. rewrite Hidq. split; [done|]. apply Hcl, Hs. }
  assert (Hids : tenant_ids db1 t = tenant_ids db t) by (unfold tenant_ids; by rewrite (rv_keys _ _ _ Hrev)).
  set (db2 := {| rd_revisions := _; rd_heads := _ |}).
  assert (Hok2 : rows_ok db2) by (by destruct Hok1).
  destruct (load_total db2 t (rg_runs (ld_registry l)) Hok2) as (l' & Hl' & Hruns').
  { cbn. rewrite (rv_snapshots _ _ _ Hrev). exact (lv_runs _ _ _ Hv). }
  constructor; [done| | | | | | | | | | |].
  - exists l'. split; [done|]. split.
    + apply (load_packs db2 t l'); [done|done|]. change (tenant_ids db2 t) with (tenant_ids db1 t).
      rewrite Hids. eapply Forall2_impl; [exact Hall|]. intros i q (fc & Hat & _). by exists fc.
    + by rewrite Hruns'.
    + rewrite (lv_active _ _ _ (load_view_of _ _ _ Hok2 Hl')), (Hact a Ha). unfold repointed.
      rewrite (lv_active _ _ _ Hv). cbn. rewrite (rv_pointers _ _ _ Hrev). by apply pointers_set.
  - intros i p fc Hat. pose proof (lv_files _ _ _ Hv _ _ _ Hat) as Hfi.
    assert (Hin : i ∈ tenant_ids db t).
    { apply elem_of_tenant_ids. destruct Hat as (? & ? & Hh & _). unfold head_row in Hh.
      destruct (row_get (t, i) (rd_heads db)); [by eexists|done]. }
    apply list_elem_of_lookup in Hin as [n Hn].
    destruct (Forall2_lookup_l _ _ _ _ _ Hall Hn) as (q & _ & fc' & Hat' & Hfi'). exists q, fc'.
    split; [done|]. congruence.
  - intros t' Ht'. apply load_same; [done|done| | | |].
    + change (tenant_ids db2 t') with (tenant_ids db1 t'). unfold tenant_ids.
      by rewrite (rv_keys _ _ _ Hrev).
    + intros i. change (head_row db2 (t', i)) with (head_row db1 (t', i)). by apply (head_row_kept t).
    + cbn. rewrite (rv_pointers _ _ _ Hrev). apply pointers_set_other. done.
    + cbn. by rewrite (rv_snapshots _ _ _ Hrev).
  - exists a. cbn. by rewrite (rv_pointers _ _ _ Hrev).
  - cbn. by apply Hresp.
  - apply (rv_keys _ _ _ Hrev).
  - apply (rv_grow _ _ _ Hrev).
  - apply (rv_kept _ _ _ Hrev).
  - apply (rv_snapshots _ _ _ Hrev).
  - apply row_insert_Ok in Hev as [_ ->]. eexists. cbn. rewrite (rv_events _ _ _ Hrev).
    split; [done|by split_and!].
  - exists text. split; [done|]. apply row_insert_Ok in Hidem as [_ ->]. cbn. by rewrite (rv_idempotency _ _ _ Hrev).
Qed.

(* ------------------------------------------------------------------ *)
(** ** The application steps as updates *)
(* ------------------------------------------------------------------ *)

(** A record under its identity, as clean as before. *)
Definition kept (p q : RulePackRecord) : Prop :=
  identity q = identity p ∧ (record_clean p = true → record_clean q = true).

Lemma kept_trans p q s : kept p q → kept q s → kept p s.
Proof. intros [E1 C1] [E2 C2]. split; [congruence|auto]. Qed.

(** What the store needs of the registry a step computes. *)
Record updates (r r' : RulePackRegistry) (t id : pystr) : Prop := {
  up_ok : registry_ok r';
  up_packs : Forall2 kept (rg_packs r) (rg_packs r');
  up_runs : rg_runs r' = rg_runs r;
  up_active : ∀ a, get_pack r' t id = Ok a → rg_active r' ≡ₚ repointed r t (rp_mode a) id }.

Lemma repointed_same l t m id : NoDup l.*1 → (t, m, id) ∈ l →
  l ≡ₚ List.filter (λ a, negb (points t m a)) l ++ [(t, m, id)].
Proof.
  intros Hnd Hin. assert (Hu : ∀ a, a ∈ l → points t m a = true → a = (t, m, id)).
  { intros a Ha Hp%points_iff. by apply (pointer_unique l). }
  induction l as [|a l IH]; [by apply elem_of_nil in Hin|]. cbn in *.
  apply NoDup_cons in Hnd as [Ha Hnd].
  assert (Hu' : ∀ b, b ∈ l → points t m b = true → b = (t, m, id)) by (intros; apply Hu; [by right|done]).
  destruct (points t m a) eqn:E; cbn.
  - assert (a = (t, m, id)) as -> by (apply Hu; [left|done]).
    assert (List.filter (λ a, negb (points t m a)) l = l) as ->.
    { clear -Ha. induction l as [|b l IH]; [done|]. cbn in *. apply not_elem_of_cons in Ha as [Hb Hl].
      destruct (points t m b) eqn:E; [|cbn; f_equal; by apply IH]. apply points_iff in E. congruence. }
    apply Permutation_cons_append.
  - apply elem_of_cons in Hin as [<-|Hin].
    { assert (Ht : points t m (t, m, id) = true) by by apply points_iff. congruence. }
    f_equiv. by apply IH.
Qed.

Section steps.
Context `{Digest}.

Lemma activate_updates r id t actor reason fc gaps r' rec :
  registry_ok r → activate_rulepack r id t actor reason fc gaps = Ok (r', rec) → updates r r' t id.
Proof.
  intros Hr Hrun. pose proof (activate_ok _ _ _ _ _ _ _ _ _ Hr Hrun) as Hr'.
  apply activate_inv in Hrun as (p & Hp & Hid & _ & _ & _ & _ & _ & _ & Hcase).
  destruct Hcase as [[Hc ->]|[Hne ->]]; constructor; try done.
  - apply Forall_Forall2_diag, Forall_forall. done.
  - intros a [Ha Hida]%get_pack_Ok.
    assert (a = p) as -> by (apply (identity_unique r); [apply Hr|done|done|congruence]).
    apply repointed_same; [apply Hr|]. by apply active_pack_id_Some, Hc; apply Hr.
  - cbn [rg_packs with_active]. apply Forall2_fmap_r, Forall_Forall2_diag, Forall_forall. intros q _.
    split; [apply turned_same|]. apply record_clean_turned.
  - intros a [(q & -> & Hq)%list_elem_of_fmap Hida]%get_pack_Ok.
    destruct (turned_same t (rp_mode p) id (active_pack_id r t (rp_mode p)) q) as [Hi ->].
    rewrite Hi in Hida.
    assert (q = p) as -> by (apply (identity_unique r); [apply Hr|done|done|congruence]). done.
Qed.

Lemma review_updates r id t reviewer at_time source note fc gaps r' rec pv :
  registry_ok r → scalar_str reviewer = true → scalar_str at_time = true →
  record_ai_delegated_review r id t reviewer at_time source note fc gaps = Ok (r', rec, pv) →
  updates r r' t id.
Proof.
  intros Hr Hs1 Hs2 Hrun.
  apply review_inv in Hrun as (Hrv & _ & _ & Hat & p & Hp & Hid & _ & _ & _ & reason & _ & Hact); [|done].
  assert (Hrw : registry_ok (reviewed r t id (APPROVER_PREFIX ++ reviewer) at_time)).
  { apply reviewed_ok; [done|by apply tz_aware_nonempty|done]. }
  destruct (activate_updates _ _ _ _ _ _ _ _ _ Hrw Hact) as [Hok Hps Hruns Hact'].
  assert (Hps' : Forall2 kept (rg_packs r)
                   (rg_packs (reviewed r t id (APPROVER_PREFIX ++ reviewer) at_time))).
  { cbn [rg_packs reviewed]. apply Forall2_fmap_r, Forall_Forall2_diag, Forall_forall. intros q _.
    unfold compose. destruct (names_pack t id q); [|by split]. split; [done|]. intros Hc.
    apply record_clean_approval; [|done|done]. unfold scalar_str in *. by rewrite forallb_app, Hs1. }
  constructor; [done| |done|done].
  apply (Forall2_compose kept kept kept) with (2 := Hps') (3 := Hps). exact kept_trans.
Qed.

(* ------------------------------------------------------------------ *)
(** ** Transactions *)
(* ------------------------------------------------------------------ *)

(** The tables a load reads. *)
Definition same_packs (db db' : rulepack_db) : Prop :=
  rd_revisions db' = rd_revisions db ∧ rd_heads db' = rd_heads db
  ∧ rd_pointers db' = rd_pointers db ∧ rd_snapshots db' = rd_snapshots db.

Lemma same_packs_load db db' t : same_packs db db' → load_registry db' t = load_registry db t.
Proof.
  destruct db, db'. unfold same_packs. cbn. intros (-> & -> & -> & ->). done.
Qed.

Lemma same_packs_ok db db' : same_packs db db' → store_ok db → store_ok db'.
Proof.
  intros Hs [Hok Hp Hl]. split.
  - destruct db, db'. unfold same_packs in Hs. cbn in Hs. destruct Hs as (-> & -> & _). by destruct Hok.
  - destruct Hs as (_ & _ & -> & _). done.
  - intros t. rewrite (same_packs_load _ _ t Hs). apply Hl.
Qed.

(** The live idempotency record of a request. *)
Definition live_record (db : rulepack_db) (t route kh : pystr) (now : Q) (row : idempotency_row) : Prop :=
  row_get (t, route, kh) (rd_idempotency db) = Some row ∧ ¬ (id_expires_at row <= now)%Q.

Lemma replayed_cases db t route kh rh now o db' :
  replayed db t route kh rh now = Ok (o, db') →
  (∃ row stored, o = Some stored ∧ db' = db ∧ live_record db t route kh now row ∧ id_request_hash row = rh
     ∧ json_loads (id_response_json row) = Ok (sa_body stored) ∧ id_response_revision row = sa_revision stored)
  ∨ (o = None ∧ same_packs db db' ∧ rd_events db' = rd_events db
     ∧ (∀ row, ¬ live_record db t route kh now row)
     ∧ row_get (t, route, kh) (rd_idempotency db') = None).
Proof.
  unfold replayed, live_record. destruct (row_get _ (rd_idempotency db)) as [row|] eqn:E.
  2:{ intros [= <- <-]. right. split_and!; [done|done|done| |done]. by intros row [? _]. }
  destruct (Qle_bool (id_expires_at row) now) eqn:Eq; cbn [negb].
  - intros [= <- <-]. right. split_and!; [done|done|done| |].
    + intros row' [[= <-] Hn]. apply Hn. by apply Qle_bool_iff.
    + cbn. clear. induction (rd_idempotency db) as [|[k v] l IH]; [done|]. cbn.
      case_bool_decide as Ek; cbn; [exact IH|]. rewrite decide_False by congruence. exact IH.
  - intros Hrun. apply bind_Ok_inv in Hrun as (u & Hr%require_Ok%str_eqb_eq & Hrun).
    apply bind_Ok_inv in Hrun as (body & Hb & [= <- <-]). left. exists row. eexists. split; [done|].
    split_and!; try done. intros Hle%Qle_bool_iff. congruence.
Qed.

Lemma catch_lookup_Ok {A} (m : result A) a :
  catch is_lookup_error m (λ _, Raise RulePackNotFound) = Ok a ↔ m = Ok a.
Proof. rewrite catch_Ok. split; [by intros [?|(? & _ & _ & ?)]|by left]. Qed.

(** A transaction that returns is a replay, or commits the step it ran. *)
Lemma transaction_inv db t id expected route kh rh event_id now step db' resp :
  store_ok db →
  (∀ r files upd rec, registry_ok r → step r files = Ok (upd, rec) → updates r upd t id) →
  activation_transaction db t id expected route kh rh event_id now step = Ok (db', resp) →
  (db' = db ∧ ∃ row, live_record db t route kh now row ∧ id_request_hash row = rh
     ∧ json_loads (id_response_json row) = Ok (sa_body resp) ∧ id_response_revision row = sa_revision resp)
  ∨ (∃ db0 l files upd rec, same_packs db db0 ∧ rd_events db0 = rd_events db
     ∧ (∀ row, ¬ live_record db t route kh now row)
     ∧ row_get (t, route, kh) (rd_idempotency db0) = None
     ∧ row_get (t, id) (rd_heads db) = Some expected
     ∧ load_registry db t = Ok l ∧ registry_ok (ld_registry l) ∧ target_files l id = Ok files
     ∧ step (ld_registry l) files = Ok (upd, rec) ∧ updates (ld_registry l) upd t id
     ∧ committed db0 db' t id upd rec route kh rh event_id now resp).
Proof.
  intros Hdb Hstep Hrun. unfold activation_transaction in Hrun.
  apply bind_Ok_inv in Hrun as ([o db0] & Hrep & Hrun).
  apply replayed_cases in Hrep as [(row & st & -> & -> & Hlive & Hrh & Hb & Hrv)|(-> & Hsame & Hevs & Hno & Hfree)].
  { injection Hrun as <- <-. left. split; [done|]. by exists row. }
  right. pose proof (same_packs_ok _ _ Hsame Hdb) as Hdb0.
  apply bind_Ok_inv in Hrun as (u & Hhead & Hrun). unfold check_head in Hhead.
  apply bind_Ok_inv in Hhead as (cur & Hcur%of_option_Ok & Heq%require_Ok%Z.eqb_eq). subst cur.
  apply bind_Ok_inv in Hrun as (l & Hl & Hrun).
  apply bind_Ok_inv in Hrun as ([upd rec] & Hst & Hrun). apply (proj1 (catch_lookup_Ok _ _)) in Hst.
  apply bind_Ok_inv in Hst as (files & Hfiles & Hst).
  destruct (sk_load _ Hdb0 t) as (l2 & Hl2 & Hreg). rewrite Hl in Hl2. injection Hl2 as <-.
  pose proof (Hstep _ _ _ _ Hreg Hst) as Hup.
  exists db0, l, files, upd, rec. split_and!; try done.
  - destruct Hsame as (_ & <- & _). done.
  - by rewrite <- (same_packs_load _ _ t Hsame).
  - eapply (commit_activation_inv _ _ _ l); [done|done|apply Hup|apply Hup|apply Hup|exact Hcur|exact Hrun].
Qed.
End steps.

(* ------------------------------------------------------------------ *)
(** ** The other writers *)
(* ------------------------------------------------------------------ *)

Lemma snapshot_roundtrip s payload :
  json_clean (snapshot_val s) = true → canonical_json (snapshot_val s) = Ok payload →
  decode_snapshot payload = Ok s.
Proof.
  intros Hc Hp. apply canonical_json_Ok in Hp. unfold decode_snapshot.
  rewrite (json_roundtrip _ _ Hc Hp).
  change (canon (snapshot_val s)) with
    (PDict [("rule_pack_id", PStr (rs_rule_pack_id s)); ("rule_pack_sha256", PStr (rs_rule_pack_sha256 s));
            ("run_id", PStr (rs_run_id s)); ("status", PStr (rs_status s));
            ("tenant_id", PStr (rs_tenant_id s))]).
  cbn. by destruct s.
Qed.

Lemma map_result_app {A B} (f : A → result B) l k :
  map_result f (l ++ k) = (xs ← map_result f l; ys ← map_result f k; Ok (xs ++ ys)).
Proof.
  induction l as [|x l IH]; cbn; [by destruct (map_result f k)|].
  destruct (f x) as [y|]; [|done]. cbn. rewrite IH. destruct (map_result f l) as [xs|]; [|done].
  cbn. by destruct (map_result f k).
Qed.

Lemma registry_ok_runs r runs :
  registry_ok r → registry_ok {| rg_packs := rg_packs r; rg_runs := runs; rg_active := rg_active r |}.
Proof. by intros []. Qed.

Lemma add_run_snapshot_ok db s db' :
  store_ok db → json_clean (snapshot_val s) = true → add_run_snapshot db s = Ok db' → store_ok db'.
Proof.
  intros Hdb Hc Hrun. unfold add_run_snapshot in Hrun.
  apply bind_Ok_inv in Hrun as (payload & Hp & Hrun).
  destruct (row_get _ (rd_snapshots db)) as [text|] eqn:E.
  { apply bind_Ok_inv in Hrun as (u & _ & [= <-]). done. }
  injection Hrun as <-. destruct Hdb as [Hok Hptr Hload]. split; [by destruct Hok|done|].
  intros t. destruct (Hload t) as (l & Hl & Hreg). pose proof (load_view_of _ _ _ Hok Hl) as Hv.
  set (db' := {| rd_revisions := _; rd_heads := _ |}). assert (Hok' : rows_ok db') by (by destruct Hok).
  assert (∃ runs, map_result (λ '(_, text), decode_snapshot text)
            (List.filter (λ row, row.1.1 =s? t) (rd_snapshots db')) = Ok runs) as [runs Hruns].
  { cbn. rewrite List.filter_app, map_result_app, (lv_runs _ _ _ Hv). cbn.
    destruct (rs_tenant_id s =s? t); [|by eexists]. cbn. rewrite (snapshot_roundtrip _ _ Hc Hp). by eexists. }
  destruct (load_total db' t runs Hok' Hruns) as (l' & Hl' & Hr'). exists l'. split; [done|].
  assert (Hp' : rg_packs (ld_registry l') = rg_packs (ld_registry l))
    by (apply (load_packs db' t l'); [done|done|exact (lv_packs _ _ _ Hv)]).
  assert (Ha' : rg_active (ld_registry l') = rg_active (ld_registry l)).
  { rewrite (lv_active _ _ _ (load_view_of _ _ _ Hok' Hl')). by rewrite (lv_active _ _ _ Hv). }
  pose proof (registry_ok_runs _ (rg_runs (ld_registry l')) Hreg) as Hreg'.
  by rewrite <- Hp', <- Ha' in Hreg'; destruct (ld_registry l').
Qed.

Lemma head_row_None db key : rows_ok db → head_row db key = None ↔ row_get key (rd_heads db) = None.
Proof.
  intros Hok. unfold head_row. destruct (row_get key (rd_heads db)) as [v|] eqn:E; [|done]. cbn.
  destruct (so_rows _ Hok _ _ E) as (row & p & fc & -> & _). done.
Qed.

Lemma add_pack_inv db p fc db' n :
  rows_ok db → record_clean p = true → json_clean (PDict fc) = true → add_pack db p fc = Ok (db', n) →
  db' = db
  ∨ (row_get (identity p) (rd_heads db) = None
     ∧ ∃ row, stored row p fc
       ∧ db' = {| rd_revisions := rd_revisions db ++ [(identity p, 1%Z, row)];
                  rd_heads := rd_heads db ++ [(identity p, 1%Z)]; rd_pointers := rd_pointers db;
                  rd_snapshots := rd_snapshots db; rd_idempotency := rd_idempotency db;
                  rd_events := rd_events db |}).
Proof.
  intros Hok Hp Hf Hrun. unfold add_pack in Hrun. fold (identity p) in Hrun.
  apply bind_Ok_inv in Hrun as (rj & Hrj & Hrun). apply bind_Ok_inv in Hrun as (fj & Hfj & Hrun).
  destruct (head_row db (identity p)) as [[rv row]|] eqn:E.
  { destruct (_ && _); [|done]. injection Hrun as <- _. by left. }
  right. apply head_row_None in E; [|done].
  apply bind_Ok_inv in Hrun as (revs & Hr & Hrun). apply bind_Ok_inv in Hrun as (hs & Hh & [= <- _]).
  apply row_insert_Ok in Hr as [_ ->], Hh as [_ ->]. split; [done|]. eexists. split; [|done]. by split.
Qed.

Lemma add_pack_ok db p fc db' n :
  store_ok db → rp_status p ≠ "active" → record_clean p = true → json_clean (PDict fc) = true →
  add_pack db p fc = Ok (db', n) → store_ok db'.
Proof.
  intros Hdb Hna Hp Hf Hrun. pose proof (sk_rows _ Hdb) as Hok.
  apply add_pack_inv in Hrun as [->|(Hnew & row & Hst & ->)]; try done.
  destruct Hdb as [_ Hptr Hload]. set (db' := {| rd_revisions := _; rd_heads := _ |}).
  assert (Hnone : ∀ m, row_get (identity p, m) (rd_revisions db) = None).
  { intros m. destruct (row_get _ (rd_revisions db)) eqn:E; [|done].
    destruct (so_known _ Hok _ _ _ E). congruence. }
  assert (Hheads : ∀ key, row_get key (rd_heads db')
                   = if decide (key = identity p) then Some 1%Z else row_get key (rd_heads db))
    by (intros; by apply row_get_snoc).
  assert (Hrevs : ∀ k, row_get k (rd_revisions db')
                   = if decide (k = (identity p, 1%Z)) then Some row else row_get k (rd_revisions db))
    by (intros; by apply row_get_snoc).
  assert (Hok' : rows_ok db').
  { constructor.
    - cbn. rewrite fmap_app. apply NoDup_app. split_and!; [apply Hok| |apply NoDup_singleton].
      intros k Hk Hk'%list_elem_of_singleton. cbn in Hk'. subst. by apply row_get_None in Hnew.
    - intros key v. rewrite Hheads. case_decide as E.
      + intros [= <-]. subst. exists row, p, fc. split_and!; [|done|done]. by rewrite Hrevs, decide_True.
      + intros Hv. destruct (so_rows _ Hok _ _ Hv) as (r & q & fc' & Hr & ?). exists r, q, fc'.
        split; [|done]. rewrite Hrevs, decide_False by (by intros [= ->]). done.
    - intros key v m. rewrite Hheads, Hrevs. case_decide as E.
      + intros [= <-] Hm. subst. rewrite decide_False by (intros [= ->]; lia). done.
      + intros Hv Hm. rewrite decide_False by (by intros [= ->]). by apply (so_next _ Hok _ v).
    - intros key m r. rewrite Hheads, Hrevs. case_decide as E.
      + intros _. injection E as -> _. rewrite decide_True by done. by eexists.
      + intros Hr. case_decide; [by eexists|]. by apply (so_known _ Hok _ m r). }
  split; [done|done|]. intros t. destruct (Hload t) as (l & Hl & Hreg).
  pose proof (load_view_of _ _ _ Hok Hl) as Hv.
  destruct (load_total db' t (rg_runs (ld_registry l)) Hok' (lv_runs _ _ _ Hv)) as (l' & Hl' & Hr').
  exists l'. split; [done|].
  assert (Hkeep : ∀ id q fc', pack_at db (t, id) q fc' → pack_at db' (t, id) q fc').
  { intros id q fc' Hat. apply (pack_at_kept db); [| |done].
    - rewrite Hheads. rewrite decide_False; [done|]. intros E. destruct Hat as (? & ? & Hh & _).
      unfold head_row in Hh. by rewrite E, Hnew in Hh.
    - intros k r Hk. rewrite Hrevs. rewrite decide_False; [done|]. intros ->. by rewrite Hnone in Hk. }
  assert (Ha' : rg_active (ld_registry l') = rg_active (ld_registry l)).
  { rewrite (lv_active _ _ _ (load_view_of _ _ _ Hok' Hl')). by rewrite (lv_active _ _ _ Hv). }
  assert (Hids : tenant_ids db' t = tenant_ids db t ++ (if rp_tenant_id p =s? t then [rp_rule_pack_id p] else [])).
  { unfold tenant_ids. cbn. rewrite fmap_app, List.filter_app, fmap_app. f_equal. cbn. by destruct (_ =s? t). }
  assert (Hp' : rg_packs (ld_registry l')
                = rg_packs (ld_registry l) ++ (if rp_tenant_id p =s? t then [p] else [])).
  { apply (load_packs db' t l'); [done|done|]. rewrite Hids. apply Forall2_app.
    - eapply Forall2_impl; [exact (lv_packs _ _ _ Hv)|]. intros id q (fc' & Hat). exists fc'. by apply Hkeep.
    - destruct (str_eqb_spec (rp_tenant_id p) t) as [<-|]; [|constructor].
      constructor; [|constructor]. exists fc. exists 1%Z, row. split_and!; [|done|done].
      fold (identity p). unfold head_row. rewrite Hheads, decide_True by done. cbn.
      by rewrite Hrevs, decide_True. }
  destruct (str_eqb_spec (rp_tenant_id p) t) as [<-|].
  - eapply (with_pack_ok (ld_registry l) p); [done|done|]. unfold with_pack.
    destruct (find _ _) as [q|] eqn:E.
    + exfalso. apply find_some in E as [Hq%list_elem_of_In Hn%names_pack_iff].
      destruct (loaded_identity _ _ _ _ Hv Hq) as (id & fc' & Hid & _ & Hqi).
      apply elem_of_tenant_ids in Hid as [v Hidv]. unfold identity in Hnew. rewrite Hqi in Hn.
      injection Hn as ->. by rewrite Hnew in Hidv.
    + destruct (ld_registry l') eqn:El. cbn in *. by rewrite Hp', Ha', Hr'.
  - rewrite app_nil_r in Hp'.
    pose proof (registry_ok_runs _ (rg_runs (ld_registry l')) Hreg) as Hreg'.
    by rewrite <- Hp', <- Ha' in Hreg'; destruct (ld_registry l').
Qed.

(* ------------------------------------------------------------------ *)
(** ** Reachable stores *)
(* ------------------------------------------------------------------ *)

(** The tables a committed transaction leaves: rows are only added. *)
Record store_le (db db' : rulepack_db) : Prop := {
  le_revisions : ∀ k row, row_get k (rd_revisions db) = Some row → row_get k (rd_revisions db') = Some row;
  le_heads : ∀ key v, row_get key (rd_heads db) = Some v →
    ∃ v', row_get key (rd_heads db') = Some v' ∧ (v <= v')%Z;
  le_snapshots : rd_snapshots db `prefix_of` rd_snapshots db';
  le_events : rd_events db `prefix_of` rd_events db' }.

#[export] Instance store_le_preorder : PreOrder store_le.
Proof.
  split.
  - intros db. split; try done. intros key v Hv. exists v. split; [done|lia].
  - intros a b c [r1 h1 s1 e1] [r2 h2 s2 e2]. split; [auto| |by etransitivity|by etransitivity].
    intros key v (v' & Hv' & ?)%h1. destruct (h2 key v' Hv') as (w & Hw & ?). exists w. split; [done|lia].
Qed.

Section reachable.
Context `{Digest}.

(** The transactions of the store.  Texts hold no surrogates and files no
    floats, so that what is encoded is what is read back; a pack enters the
    store before its activation. *)
Inductive store_step : rulepack_db → rulepack_db → Prop :=
| store_pack db p fc db' n :
    rp_status p ≠ "active" → record_clean p = true → json_clean (PDict fc) = true →
    add_pack db p fc = Ok (db', n) → store_step db db'
| store_run db s db' :
    json_clean (snapshot_val s) = true → add_run_snapshot db s = Ok db' → store_step db db'
| store_activate db t id expected key actor reason gaps now event_id db' resp :
    activate db t id expected key actor reason gaps now event_id = Ok (db', resp) → store_step db db'
| store_review db t id expected key reviewer at_time source note gaps now event_id db' resp :
    scalar_str reviewer = true → scalar_str at_time = true →
    record_review db t id expected key reviewer at_time source note gaps now event_id = Ok (db', resp) →
    store_step db db'.

Definition reachable_store : rulepack_db → Prop := rtc store_step empty_db.

Lemma committed_ok db db0 db' t id l upd rec route kh rh event_id now resp :
  store_ok db → same_packs db db0 → rd_events db0 = rd_events db → load_registry db t = Ok l →
  updates (ld_registry l) upd t id →
  committed db0 db' t id upd rec route kh rh event_id now resp → store_ok db' ∧ store_le db db'.
Proof.
  intros Hdb Hsame Hevs Hl Hup Hc. pose proof (same_packs_ok _ _ Hsame Hdb) as Hdb0.
  destruct Hc as [Hrows (l' & Hl' & Heq) _ Hoth (a & _ & _ & Hptr) _ _ Hgrow Hkept Hsn (e & Hev & _) _].
  destruct Hsame as (Er & Eh & Ep & Es) eqn:E. split.
  - split; [done| |].
    + rewrite Hptr. apply row_set_NoDup, Hdb0.
    + intros t'. destruct (decide (t' = t)) as [->|Hne].
      * exists l'. split; [done|]. rewrite <- Heq. apply Hup.
      * rewrite (Hoth t' Hne). apply (sk_load _ Hdb0).
  - split.
    + intros k row Hk. apply Hkept. by rewrite Er.
    + intros key v Hv. apply Hgrow. by rewrite Eh.
    + by rewrite Hsn, Es.
    + rewrite Hev, Hevs. by eexists.
Qed.

Lemma activate_inv_store db t id expected key actor reason gaps now event_id db' resp :
  store_ok db →
  activate db t id expected key actor reason gaps now event_id = Ok (db', resp) →
  ∃ rh kh, canonical_hash (PDict [("rule_pack_id", PStr id); ("reason", PStr reason)]) = Ok rh
    ∧ text_hash key = Ok kh
    ∧ ((db' = db ∧ ∃ row, live_record db t ROUTE kh now row ∧ id_request_hash row = rh
         ∧ json_loads (id_response_json row) = Ok (sa_body resp)
         ∧ id_response_revision row = sa_revision resp)
       ∨ (∃ db0 l files upd rec, same_packs db db0 ∧ rd_events db0 = rd_events db
         ∧ (∀ row, ¬ live_record db t ROUTE kh now row)
         ∧ row_get (t, ROUTE, kh) (rd_idempotency db0) = None
         ∧ row_get (t, id) (rd_heads db) = Some expected
         ∧ load_registry db t = Ok l ∧ registry_ok (ld_registry l) ∧ target_files l id = Ok files
         ∧ activate_rulepack (ld_registry l) id t actor reason files gaps = Ok (upd, rec)
         ∧ updates (ld_registry l) upd t id
         ∧ committed db0 db' t id upd rec ROUTE kh rh event_id now resp)).
Proof.
  intros Hdb Hrun. unfold activate in Hrun. apply bind_Ok_inv in Hrun as (rh & Hrh & Hrun).
  apply bind_Ok_inv in Hrun as (kh & Hkh & Hrun). exists rh, kh. split_and!; [done|done|].
  eapply transaction_inv in Hrun; [exact Hrun|done|].
  intros r files upd rec Hr Hs. by eapply activate_updates.
Qed.

Lemma review_inv_store db t id expected key reviewer at_time source note gaps now event_id db' resp :
  store_ok db → scalar_str reviewer = true → scalar_str at_time = true →
  record_review db t id expected key reviewer at_time source note gaps now event_id = Ok (db', resp) →
  db' = db
  ∨ ∃ db0 l files upd rec pv kh rh, same_packs db db0 ∧ rd_events db0 = rd_events db
    ∧ load_registry db t = Ok l ∧ registry_ok (ld_registry l) ∧ target_files l id = Ok files
    ∧ record_ai_delegated_review (ld_registry l) id t reviewer at_time source note files gaps
      = Ok (upd, rec, pv)
    ∧ updates (ld_registry l) upd t id
    ∧ committed db0 db' t id upd rec REVIEW_ROUTE kh rh event_id now resp.
Proof.
  intros Hdb Hs1 Hs2 Hrun. unfold record_review in Hrun. apply bind_Ok_inv in Hrun as (rh & _ & Hrun).
  apply bind_Ok_inv in Hrun as (kh & _ & Hrun).
  eapply transaction_inv in Hrun; [|done|].
  - destruct Hrun as [[-> _]|(db0 & l & files & upd & rec & ? & ? & _ & _ & _ & ? & ? & ? & Hst & ? & ?)];
      [by left|right]. apply bind_Ok_inv in Hst as ([[u r] pv] & Hst & [= <- <-]).
    exists db0, l, files, u, r, pv, kh, rh. split_and!; done.
  - intros r files upd rec Hr Hs. apply bind_Ok_inv in Hs as ([[u r'] pv] & Hs & [= <- <-]).
    by eapply (review_updates _ _ _ reviewer at_time).
Qed.

Lemma store_step_ok db db' : store_ok db → store_step db db' → store_ok db' ∧ store_le db db'.
Proof.
  intros Hdb. destruct 1 as [db p fc db' n Hna Hp Hf Hrun|db s db' Hs Hrun
    |db t id expected key actor reason gaps now event_id db' resp Hrun
    |db t id expected key reviewer at_time source note gaps now event_id db' resp Hs1 Hs2 Hrun].
  - split; [by eapply add_pack_ok|]. apply add_pack_inv in Hrun as [->|(Hnew & row & _ & ->)]; try done.
    2:{ apply Hdb. }
    split; cbn; [| |done|done].
    + intros k r Hk. rewrite row_get_app. by rewrite Hk.
    + intros key v Hv. exists v. rewrite row_get_app, Hv. split; [done|lia].
  - split; [by eapply add_run_snapshot_ok|]. unfold add_run_snapshot in Hrun.
    apply bind_Ok_inv in Hrun as (payload & _ & Hrun). destruct (row_get _ (rd_snapshots db)).
    + apply bind_Ok_inv in Hrun as (u & _ & [= <-]). done.
    + injection Hrun as <-. split; cbn; try done; [|by eexists].
      intros key v Hv. exists v. split; [done|lia].
  - apply activate_inv_store in Hrun as (rh & kh & _ & _ & [[-> _]|Hc]); [by split| |done].
    destruct Hc as (db0 & l & files & upd & rec & Hsame & Hevs & _ & _ & _ & Hl & _ & _ & _ & Hup & Hc).
    by eapply committed_ok.
  - apply review_inv_store in Hrun as [->|Hc]; [by split| |done|done|done].
    destruct Hc as (db0 & l & files & upd & rec & pv & kh & rh & Hsame & Hevs & Hl & _ & _ & _ & Hup & Hc).
    by eapply committed_ok.
Qed.

Lemma empty_db_ok : store_ok empty_db.
Proof.
  split; [constructor|apply NoDup_nil_2|]; cbn; [apply NoDup_nil_2|done|done|done|].
  intros t. eexists. split; [reflexivity|]. apply empty_registry_ok.
Qed.

Lemma reachable_store_ok db : reachable_store db → store_ok db.
Proof.
  intros Hr. unfold reachable_store in Hr. pose proof empty_db_ok as H0.
  induction Hr as [db|a b c Hs _ IH]; [done|]. apply IH. by eapply store_step_ok.
Qed.

(** C8: the store implements the registry.  An activation that returns from a
    reachable store is either the replay of a live idempotency record, which
    changes nothing, or a fresh commit: the caller's revision was the head's,
    the application activated the registry loaded from the tables, and loading
    the tables again gives the registry it computed (up to the order of its
    pointers), while every other tenant loads as before; the response is the
    activated pack and its new head revision. *)
Theorem store_refines_registry db t id expected key actor reason gaps now event_id db' resp :
  reachable_store db →
  activate db t id expected key actor reason gaps now event_id = Ok (db', resp) →
  (db' = db ∧ ∃ kh row, text_hash key = Ok kh ∧ live_record db t ROUTE kh now row
     ∧ json_loads (id_response_json row) = Ok (sa_body resp))
  ∨ ∃ l files upd rec l' p,
      row_get (t, id) (rd_heads db) = Some expected
      ∧ load_registry db t = Ok l ∧ target_files l id = Ok files
      ∧ activate_rulepack (ld_registry l) id t actor reason files gaps = Ok (upd, rec)
      ∧ load_registry db' t = Ok l' ∧ registry_equiv upd (ld_registry l')
      ∧ (∀ t', t' ≠ t → load_registry db' t' = load_registry db t')
      ∧ get_pack upd t id = Ok p ∧ sa_body resp = project_rule_pack p
      ∧ row_get (t, id) (rd_heads db') = Some (sa_revision resp).
Proof.
  intros Hr%reachable_store_ok Hrun.
  apply activate_inv_store in Hrun as (rh & kh & _ & Hkh & [[-> (row & Hlive & _ & Hb & _)]|Hc]); [left|right|done].
  - split; [done|]. by exists kh, row.
  - destruct Hc as (db0 & l & files & upd & rec & Hsame & _ & _ & _ & Hhead & Hl & _ & Hfiles & Hact & _ & Hc).
    destruct Hc as [_ (l' & Hl' & Heq) _ Hoth (p & Hp & Hbody & _) Hrev _ _ _ _ _ _].
    exists l, files, upd, rec, l', p. split_and!; try done.
    intros t' Ht'. rewrite (Hoth t' Ht'). by apply same_packs_load.
Qed.


(** The store is append-only: over any sequence of transactions a stored
    revision, a run snapshot and an activation event stay as they were
    written, and the head of a pack never moves back. *)
Theorem store_append_only db db' :
  reachable_store db → rtc store_step db db' → store_le db db'.
Proof.
  intros Hr%reachable_store_ok Hs. induction Hs as [db|a b c Hab _ IH]; [done|].
  destruct (store_step_ok _ _ Hr Hab) as [Hb Hle]. etransitivity; [exact Hle|by apply IH].
Qed.
End reachable.

(* ------------------------------------------------------------------ *)
(** ** Replays *)
(* ------------------------------------------------------------------ *)

Lemma project_clean p : record_clean p = true → json_clean (project_rule_pack p) = true.
Proof.
  rewrite record_clean_iff. cbn [forallb]. rewrite !andb_true_iff. intros Hc. destruct_and!.
  apply json_clean_dict. split; [apply str_distinct_iff; reflexivity|]. repeat constructor; done.
Qed.

(** A pack of the loaded registry is clean, and so is its update. *)
Lemma updated_clean db t id l upd p :
  load_view db t l → updates (ld_registry l) upd t id → p ∈ rg_packs upd → record_clean p = true.
Proof.
  intros Hv Hup Hp. apply list_elem_of_lookup in Hp as [i Hi].
  destruct (Forall2_lookup_r _ _ _ _ _ (up_packs _ _ _ _ Hup) Hi) as (p0 & Hp0 & _ & Hc). apply Hc.
  apply list_elem_of_lookup_2 in Hp0.
  destruct (loaded_identity _ _ _ _ Hv Hp0) as (? & ? & _ & (? & ? & _ & Hs & _) & _). apply Hs.
Qed.

Section replays.
Context `{Digest}.

(** An activation is idempotent under its key.  After a fresh activation,
    and until its record expires a day later, the same request returns the
    stored response -- whatever revision the caller now expects -- and a
    different request under the key is a conflict; neither changes the store. *)
Theorem activation_idempotent db t id expected key actor reason gaps now event_id db' resp :
  reachable_store db →
  activate db t id expected key actor reason gaps now event_id = Ok (db', resp) →
  (∀ kh row, text_hash key = Ok kh → ¬ live_record db t ROUTE kh now row) →
  ∀ now' expected' actor' gaps' event_id', ¬ (now + 86400 <= now')%Q →
    activate db' t id expected' key actor' reason gaps' now' event_id'
      = Ok (db', {| sa_body := canon (sa_body resp); sa_revision := sa_revision resp |})
    ∧ ∀ id' reason' rh rh',
        canonical_hash (PDict [("rule_pack_id", PStr id); ("reason", PStr reason)]) = Ok rh →
        canonical_hash (PDict [("rule_pack_id", PStr id'); ("reason", PStr reason')]) = Ok rh' →
        rh ≠ rh' →
        activate db' t id' expected' key actor' reason' gaps' now' event_id' = Raise IdempotencyConflict.
Proof.
  intros Hr%reachable_store_ok Hrun Hfresh now' expected' actor' gaps' event_id' Hlive.
  apply activate_inv_store in Hrun as (rh & kh & Hrh & Hkh & [(_ & row & Hl & _)|Hc]);
    [by destruct (Hfresh kh row Hkh)| |done].
  destruct Hc as (db0 & l & files & upd & rec & Hsame & Hevs & Hno & Hfree & Hhead & Hl & Hreg & Hfiles
    & Hact & Hup & Hc).
  pose proof (load_view_of _ _ _ (sk_rows _ Hr) Hl) as Hv.
  destruct Hc as [_ _ _ _ (p & Hp & Hbody & _) _ _ _ _ _ _ (text & Htext & Hidem)].
  assert (Hclean : json_clean (sa_body resp) = true).
  { rewrite Hbody. apply project_clean. apply get_pack_Ok in Hp as [Hp _]. by apply (updated_clean db t id l upd). }
  apply canonical_json_Ok in Htext.
  set (row := {| id_request_hash := rh; id_response_json := text; id_response_revision := sa_revision resp;
                 id_expires_at := (now + 86400)%Q |}) in *.
  assert (Hget : row_get (t, ROUTE, kh) (rd_idempotency db') = Some row).
  { rewrite Hidem, row_get_snoc, decide_True; done. }
  assert (Hq : Qle_bool (now + 86400) now' = false).
  { destruct (Qle_bool (now + 86400) now') eqn:E; [|done]. by apply Qle_bool_iff in E. }
  split.
  - unfold activate. rewrite Hrh, Hkh. cbn [mbind result_bind]. unfold activation_transaction, replayed.
    rewrite Hget. cbn [id_expires_at row]. rewrite Hq. cbn [negb id_request_hash row].
    rewrite str_eqb_refl. cbn [require mbind result_bind id_response_json row].
    by rewrite (json_roundtrip _ _ Hclean Htext).
  - intros id' reason' rh1 rh2 Hrh1 Hrh2 Hne. assert (rh1 = rh) as -> by congruence.
    unfold activate. rewrite Hrh2, Hkh. cbn [mbind result_bind]. unfold activation_transaction, replayed.
    rewrite Hget. cbn [id_expires_at row]. rewrite Hq. cbn [negb id_request_hash row].
    by apply str_eqb_neq in Hne as ->.
Qed.

(** A caller's expectation is checked: without a live record of the
    request, an activation of an unknown pack is "not found" and one that
    expects another revision than the head's is stale -- and names the head. *)
Theorem stale_activation_refused db t id expected key actor reason gaps now event_id rh kh :
  canonical_hash (PDict [("rule_pack_id", PStr id); ("reason", PStr reason)]) = Ok rh →
  text_hash key = Ok kh → (∀ row, ¬ live_record db t ROUTE kh now row) →
  activate db t id expected key actor reason gaps now event_id
  = match row_get (t, id) (rd_heads db) with
    | None => Raise RulePackNotFound
    | Some current =>
        if (current =? expected)%Z
        then activate db t id current key actor reason gaps now event_id
        else Raise (StaleRulePackRevision current)
    end.
Proof.
  intros Hrh Hkh Hno. unfold activate. rewrite Hrh, Hkh. cbn [mbind result_bind].
  destruct (row_get (t, id) (rd_heads db)) as [cur|] eqn:Hcur.
  1: destruct (Z.eqb_spec cur expected) as [->|Hne]; [done|].
  all: unfold activation_transaction, replayed;
    destruct (row_get _ (rd_idempotency db)) as [row|] eqn:E;
    [destruct (Qle_bool (id_expires_at row) now) eqn:Eq;
      [|exfalso; apply (Hno row); split; [done|]; intros Hle%Qle_bool_iff; congruence]|];
    cbn [negb mbind result_bind]; unfold check_head; cbn [rd_heads]; rewrite Hcur; cbn [of_option mbind result_bind];
    try done; apply Z.eqb_neq in Hne; rewrite Hne; done.
Qed.
End replays.

(* ------------------------------------------------------------------ *)
(** ** Pinning the active pack *)
(* ------------------------------------------------------------------ *)

Lemma dict_get_perm {A} (l l' : list (pystr * A)) k :
  NoDup l.*1 → l ≡ₚ l' → dict_get k l = dict_get k l'.
Proof.
  intros Hnd Hp. assert (Hnd' : NoDup l'.*1) by (by rewrite <- Hp).
  apply option_eq. intros v. split; intros Hv%dict_get_Some_in.
  - apply dict_get_NoDup; [done|by rewrite <- Hp].
  - apply dict_get_NoDup; [done|by rewrite Hp].
Qed.

(** The mapping a stored record decodes to has the entries [to_dict] wrote. *)
Lemma canon_record_lookup p :
  ∃ d, canon (PDict (to_dict p)) = PDict d ∧ from_dict d = Ok p
    ∧ ∀ k, dict_get k d = dict_get k (to_dict p).
Proof.
  rewrite canon_to_dict. eexists. split; [done|]. split.
  - unfold from_dict. cbn -[text_items fmap]. rewrite !text_items_strs. cbn. unfold optional_text. cbn.
    destruct p as [??????????? ba aa]; cbn. by destruct ba, aa.
  - intros k. symmetry. apply dict_get_perm.
    + apply str_distinct_iff. reflexivity.
    + unfold to_dict. solve_Permutation.
Qed.

Section pinning.
Context `{Digest}.

(** Validation reads a pack mapping only through its entries. *)
Lemma validate_ext d d' fc gaps :
  (∀ k, dict_get k d = dict_get k d') → validate_rulepack d fc gaps = validate_rulepack d' fc gaps.
Proof.
  intros E. assert (G : ∀ k, get_or_none d k = get_or_none d' k) by (intros; unfold get_or_none; by rewrite E).
  assert (Hf : field_errors d = field_errors d').
  { unfold field_errors, present_and. rewrite !E. f_equal. f_equal. apply list_fmap_ext. intros _ k _. by rewrite E. }
  assert (Hfs : files_errors d fc = files_errors d' fc).
  { unfold files_errors. rewrite G. destruct (get_or_none d' "files"); try done.
    destruct (str_list _) as [[|x xs]|]; [done| |done]. do 2 f_equal. f_equal. apply list_fmap_ext. intros _ path _.
    unfold file_errors, field_differs. by rewrite !E, !G. }
  assert (Hh : hash_errors d fc = hash_errors d' fc).
  { unfold hash_errors, compute_pack_sha256, raw_manifest, sorted_field. rewrite !E, G.
    assert (((λ k, (k, get_or_none d k)) <$> MANIFEST_HASH_FIELDS)
            = ((λ k, (k, get_or_none d' k)) <$> MANIFEST_HASH_FIELDS)) as ->; [|done].
    apply list_fmap_ext. intros _ k _. by rewrite G. }
  assert (Hg : gap_errors d gaps = gap_errors d' gaps) by (unfold gap_errors; by rewrite G).
  assert (Hs : safe_harbor_errors d fc = safe_harbor_errors d' fc).
  { unfold safe_harbor_errors, policy_reviewed. destruct (get_or_none fc _); try done. by rewrite !G. }
  unfold validate_rulepack. by rewrite Hf, Hfs, Hh, Hg, Hs.
Qed.

(** A row whose record meets the contract freezes. *)
Lemma freeze_row_ok row p fc :
  stored row p fc → admitted p (loaded_files fc) STORE_GAPS →
  ∃ s, freeze_row row = Ok s
    ∧ snapshot_from_validated (snapshot_fields p) (loaded_files fc) = Ok s ∧ sha256 s = rp_sha256 p.
Proof.
  intros Hs Ha. pose proof (st_clean_files _ _ _ (stored_loaded _ _ _ Hs)) as Hc.
  apply json_clean_dict in Hc as [Hnd Hc].
  destruct (admitted_freezes _ _ _ Ha Hnd Hc) as (s & Hfz & Hsha & _).
  exists s. split_and!; [|done|done]. unfold freeze_row.
  destruct (canon_record_lookup p) as (d & Hd & Hfrom & Hget).
  assert (json_loads (rv_record_json row) = Ok (PDict d)) as ->.
  { rewrite <- Hd. apply json_roundtrip; [apply Hs|]. apply canonical_json_Ok, Hs. }
  rewrite (load_stored_files _ _ _ Hs). cbn [mbind result_bind as_dict].
  rewrite (validate_ext d (to_dict p)) by done.
  rewrite (proj2 (validate_admits p (loaded_files fc) STORE_GAPS Hnd) Ha).
  cbn [require mbind result_bind]. by rewrite Hfrom.
Qed.

Lemma admitted_active p fc gaps :
  admitted p fc gaps → (∀ g, g ∈ gaps → g ∈ STORE_GAPS) → admitted (with_status "active" p) fc STORE_GAPS.
Proof.
  intros [] Hg. constructor; try done; [|auto]. cbn. right. right. left.
Qed.

(** An activated pack can be pinned at once: after a fresh activation
    against gaps the store knows, the run-creation transaction finds the
    pack as the default of its tenant and mode, revalidates the stored text and
    returns a snapshot with the pack's own hash and the status active. *)
Theorem activated_pack_pins db t id expected key actor reason gaps now event_id db' resp :
  reachable_store db → (∀ g, g ∈ gaps → g ∈ STORE_GAPS) →
  activate db t id expected key actor reason gaps now event_id = Ok (db', resp) →
  (∀ kh row, text_hash key = Ok kh → ¬ live_record db t ROUTE kh now row) →
  ∃ p s, active_snapshot_transaction db' t (rp_mode p) id = Ok s
    ∧ pointer_of db' t (rp_mode p) = Some id ∧ identity p = (t, id)
    ∧ (∃ files, get_pack_with_files db' t id = Ok (p, files))
    ∧ sha256 s = rp_sha256 p ∧ status s = "active" ∧ sa_body resp = project_rule_pack p.
Proof.
  intros Hr%reachable_store_ok Hgaps Hrun Hfresh.
  apply activate_inv_store in Hrun as (rh & kh & Hrh & Hkh & [(_ & row & Hl & _)|Hc]);
    [by destruct (Hfresh kh row Hkh)| |done].
  destruct Hc as (db0 & l & files & upd & rec & Hsame & Hevs & Hno & Hfree & Hhead & Hl & Hreg & Hfiles
    & Hact & Hup & Hc).
  pose proof (same_packs_ok _ _ Hsame Hr) as Hdb0. rewrite <- (same_packs_load _ _ t Hsame) in Hl.
  pose proof (load_view_of _ _ _ (sk_rows _ Hdb0) Hl) as Hv.
  destruct Hc as [Hrows (l' & Hl' & Heq) Hcf _ (p & Hp & Hbody & Hptr) _ _ _ _ _ _ _].
  apply get_pack_Ok in Hp as [Hpin Hpid].
  pose proof (load_view_of _ _ _ Hrows Hl') as Hv'.
  assert (Hpin' : p ∈ rg_packs (ld_registry l')) by (by rewrite (re_packs _ _ Heq)).
  destruct (loaded_identity _ _ _ _ Hv' Hpin') as (id1 & fc' & _ & Hat' & Hid1).
  rewrite Hpid in Hid1. injection Hid1 as <-.
  (* the pack and the files the activation validated *)
  apply activate_inv in Hact as (p0 & Hp0 & Hid0 & _ & _ & Hval & _ & _ & _ & Hcase).
  destruct (loaded_identity _ _ _ _ Hv Hp0) as (id2 & fc & _ & Hat & Hid2).
  rewrite Hid0 in Hid2. injection Hid2 as <-.
  unfold target_files in Hfiles. rewrite (lv_files _ _ _ Hv _ _ _ Hat) in Hfiles. injection Hfiles as <-.
  destruct (Hcf _ _ _ Hat) as (q & fc1 & Hat1 & Hfc1).
  assert (Hlf : loaded_files fc' = loaded_files fc).
  { destruct Hat' as (rv & row & Hh & Hs & _). destruct (pack_at_row _ _ _ _ _ _ Hat1 Hh) as [Hs1 _].
    rewrite <- Hfc1. by destruct (stored_fun _ _ _ _ _ Hs Hs1). }
  assert (Hnd : NoDup (loaded_files fc).*1).
  { destruct Hat as (? & ? & _ & Hs & _). pose proof (st_clean_files _ _ _ (stored_loaded _ _ _ Hs)) as Hc.
    by apply json_clean_dict in Hc as [? _]. }
  apply validate_admits in Hval as Hadm; [|done].
  assert (Hpeq : p = with_status "active" p0).
  { destruct Hcase as [[Hc ->]|[Hne ->]].
    - assert (p = p0) as ->
        by (apply (identity_unique (ld_registry l)); [apply Hreg|done|done|congruence]).
      symmetry. apply with_status_id. apply (ro_active _ Hreg p0 Hp0).
      unfold identity in Hid0. injection Hid0 as -> ->. by apply active_pack_id_Some, Hc; apply Hreg.
    - apply list_elem_of_fmap in Hpin as (q0 & -> & Hq0).
      destruct (turned_same t (rp_mode p0) id (active_pack_id (ld_registry l) t (rp_mode p0)) q0) as [Ei _].
      assert (q0 = p0) as -> by (apply (identity_unique (ld_registry l)); [apply Hreg|done|done|congruence]).
      by destruct (turned_cases _ Hreg p0 t id Hp0 Hid0 Hne p0 Hp0) as [(_ & E)|[(Hn & _)|(Hn & _)]]. }
  destruct Hat' as (rv & row & Hh & Hs & _).
  destruct (freeze_row_ok row p fc' Hs) as (s & Hfz & Hsnap & Hsha).
  { rewrite Hlf, Hpeq. by apply (admitted_active _ _ gaps). }
  assert (Hpt : pointer_of db' t (rp_mode p) = Some id).
  { unfold pointer_of. rewrite Hptr, row_get_set. by rewrite decide_True. }
  exists p, s. split_and!; [|done|done| |done| |done].
  - unfold active_snapshot_transaction. rewrite Hpt. cbn [of_option mbind result_bind].
    rewrite str_eqb_refl. cbn [require mbind result_bind]. rewrite Hh. exact Hfz.
  - exists (PDict (loaded_files fc')). unfold get_pack_with_files. rewrite Hh. cbn [of_option mbind result_bind].
    by rewrite (decode_stored _ _ _ Hs), (load_stored_files _ _ _ Hs).
  - unfold snapshot_from_validated in Hsnap. apply bind_Ok_inv in Hsnap as (fl & _ & Hm).
    unfold mk_snapshot in Hm. open_run Hm. injection Hm as <-. cbn. by rewrite Hpeq.
Qed.
End pinning.

(* ------------------------------------------------------------------ *)
(** ** Concrete runs *)
(* ------------------------------------------------------------------ *)

Definition demo_added : result (rulepack_db * Z) := add_pack empty_db demo_pack demo_files.

Definition demo_db : rulepack_db :=
  Eval vm_compute in match demo_added with Ok (db, _) => db | Raise _ => empty_db end.

Abbreviation demo_activate :=
  (activate (H := Checksum) demo_db demo_tenant demo_pack_id 1 "key-1" "lee" "go" ["GAP-001"] 100 "ev-1").

Lemma demo_added_db : demo_added = Ok (demo_db, 1%Z).
Proof. vm_compute. reflexivity. Qed.

Lemma demo_db_reachable : reachable_store (H := Checksum) demo_db.
Proof.
  apply rtc_once. apply (store_pack (H := Checksum) _ demo_pack demo_files _ 1%Z); [done| | |exact demo_added_db];
    vm_compute; reflexivity.
Qed.

Lemma demo_activate_ok : is_ok demo_activate = true.
Proof. vm_compute. reflexivity. Qed.

Lemma demo_no_record t route kh now row : ¬ live_record demo_db t route kh now row.
Proof. intros [Hr _]. discriminate Hr. Qed.

Lemma demo_gaps_known g : g ∈ ["GAP-001"] → g ∈ STORE_GAPS.
Proof. intros ->%list_elem_of_singleton. left. Qed.

Lemma store_refines_registry_witness :
  ∃ db' resp, demo_activate = Ok (db', resp)
    ∧ ∃ l', load_registry db' demo_tenant = Ok l'.
Proof.
  pose proof demo_activate_ok as Hok. destruct demo_activate as [[db' resp]|] eqn:E; [|discriminate Hok].
  exists db', resp. split; [exact eq_refl|].
  destruct (@store_refines_registry Checksum _ _ _ _ _ _ _ _ _ _ _ _ demo_db_reachable E)
    as [[_ (kh & row & _ & Hl & _)]|(l & files & upd & rec & l' & p & _ & _ & _ & _ & Hl' & _)].
  - destruct (demo_no_record _ _ _ _ _ Hl).
  - exists l'. exact Hl'.
Defined.


Lemma store_append_only_witness :
  ∃ db' resp, demo_activate = Ok (db', resp) ∧ store_le demo_db db'.
Proof.
  pose proof demo_activate_ok as Hok. destruct demo_activate as [[db' resp]|] eqn:E; [|discriminate Hok].
  exists db', resp. split; [exact eq_refl|].
  apply (@store_append_only Checksum demo_db db' demo_db_reachable).
  apply rtc_once. exact (@store_activate Checksum _ _ _ _ _ _ _ _ _ _ _ _ E).
Defined.

Lemma activation_idempotent_witness :
  ∃ db' resp, demo_activate = Ok (db', resp)
    ∧ activate (H := Checksum) db' demo_tenant demo_pack_id 7 "key-1" "kim" "go" [] 101 "ev-2"
      = Ok (db', {| sa_body := canon (sa_body resp); sa_revision := sa_revision resp |}).
Proof.
  pose proof demo_activate_ok as Hok. destruct demo_activate as [[db' resp]|] eqn:E; [|discriminate Hok].
  exists db', resp. split; [exact eq_refl|].
  assert (Hq : ¬ (100 + 86400 <= 101)%Q) by (intros Hle; unfold Qle in Hle; cbn in Hle; lia).
  destruct (@activation_idempotent Checksum _ _ _ _ _ _ _ _ _ _ _ _ demo_db_reachable E
    (λ kh row _, demo_no_record _ _ _ _ _) 101%Q 7%Z "kim" [] "ev-2" Hq) as [Hrep _].
  exact Hrep.
Defined.

Lemma activated_pack_pins_witness :
  ∃ db' resp p s, demo_activate = Ok (db', resp)
    ∧ active_snapshot_transaction (H := Checksum) db' demo_tenant (rp_mode p) demo_pack_id = Ok s
    ∧ status s = "active".
Proof.
  pose proof demo_activate_ok as Hok. destruct demo_activate as [[db' resp]|] eqn:E; [|discriminate Hok].
  destruct (@activated_pack_pins Checksum _ _ _ _ _ _ _ _ _ _ _ _ demo_db_reachable demo_gaps_known E
    (λ kh row _, demo_no_record _ _ _ _ _)) as (p & s & Hs & _ & _ & _ & _ & Hst & _).
  exists db', resp, p, s. split; [exact eq_refl|]. split; [exact Hs|exact Hst].
Defined.

Definition demo_request_hash : pystr :=
  Eval vm_compute in
    match canonical_hash (H := Checksum) (PDict [("rule_pack_id", PStr demo_pack_id); ("reason", PStr "go")]) with
    | Ok h => h | Raise _ => [] end.

Definition demo_key_hash : pystr :=
  Eval vm_compute in match text_hash (H := Checksum) "key-1" with Ok h => h | Raise _ => [] end.

Lemma stale_activation_refused_witness :
  activate (H := Checksum) demo_db demo_tenant demo_pack_id 2 "key-1" "lee" "go" ["GAP-001"] 100 "ev-1"
  = Raise (StaleRulePackRevision 1).
Proof.
  rewrite (@stale_activation_refused Checksum demo_db demo_tenant demo_pack_id 2 "key-1" "lee" "go"
    ["GAP-001"] 100 "ev-1" demo_request_hash demo_key_hash).
  - vm_compute. reflexivity.
  - vm_compute. reflexivity.
  - vm_compute. reflexivity.
  - intros row. apply demo_no_record.
Defined.
