(* ===== verification/SourceRefs.v ===== *)
(** * The references of a claim and the text they cite.

    [application/ingest/source_continuations.py]: parser copies of one place
    collapse to one reference, and the quote of a claim is the text of its
    references, or the joined paragraph with its exact fragments.  NFC is an
    argument. *)
From S2P Require Import Prelude PyVal Values Digest RulePack Geometry Graph Numeric Claims Citations.
From Stdlib Require Import Sorting.Sorted.

Section source_refs.
Context (nfc : pystr → pystr).

(* ------------------------------------------------------------------ *)
(** ** One reference for each place *)
(* ------------------------------------------------------------------ *)

(** [' '.join(normalize('NFC', text).split())] *)
Definition squeezed (text : pystr) : pystr := str_join " " (words_from [] (nfc text)).

(** [application/ingest/source_continuations.py:60-66 canonical_source_refs] *)
Definition same_key (a b : SourceRef) : bool :=
  (document_version_id a =s? document_version_id b)
  && (parse_manifest_id a =s? parse_manifest_id b) && (page_num a =? page_num b)%Z
  && (squeezed (quote a) =s? squeezed (quote b)).

(** [application/ingest/source_continuations.py:68-74 canonical_source_refs] *)
Definition overlaps (left right : SourceRef) : bool :=
  match ref_bbox left, ref_bbox right with
  | Some a, Some b =>
      let lo := pick PyFloat.ltb in
      let hi := pick (λ u v, PyFloat.ltb v u) in
      PyFloat.ltb (hi (bx0 a) (bx0 b)) (lo (bx1 a) (bx1 b))
      && PyFloat.ltb (hi (by0 a) (by0 b)) (lo (by1 a) (by1 b))
  | _, _ => false
  end.

(** [application/ingest/source_continuations.py:77 canonical_source_refs] *)
Definition ref_area (r : SourceRef) : spec_float :=
  match ref_bbox r with
  | Some b => f_mul (f_sub (bx1 b) (bx0 b)) (f_sub (by1 b) (by0 b))
  | None => f_zero
  end.

(** The order of the keys: verified first, then larger, then by place.
    [application/ingest/source_continuations.py:76-85 canonical_source_refs] *)
Definition priority_leb (a b : SourceRef) : bool :=
  if Bool.eqb (is_verified a) (is_verified b) then
    if PyFloat.eqb (ref_area a) (ref_area b) then
      lex_leb str_eqb str_leb (lex_leb Z.eqb Z.leb (lex_leb Z.eqb Z.leb str_leb))
        (source_id a, (char_start a, (char_end a, quote a)))
        (source_id b, (char_start b, (char_end b, quote b)))
    else f_leb (ref_area b) (ref_area a)
  else is_verified a.

(** The group of the first representative a reference copies, or its own.
    [application/ingest/source_continuations.py:91-95 canonical_source_refs] *)
Fixpoint join_group (groups : list (nat * SourceRef)) (x : nat * SourceRef) : list (nat * SourceRef) :=
  match groups with
  | [] => [x]
  | g :: groups =>
      if same_key g.2 x.2 && overlaps g.2 x.2 then (Nat.min g.1 x.1, g.2) :: groups
      else g :: join_group groups x
  end.

Definition enumerate {A} (l : list A) : list (nat * A) := zip (seq 0 (length l)) l.

(** [application/ingest/source_continuations.py:89-95 canonical_source_refs] *)
Definition ref_groups (refs : list SourceRef) : list (nat * SourceRef) :=
  foldl join_group [] (isort (λ a b, priority_leb a.2 b.2) (enumerate refs)).

(** [application/ingest/source_continuations.py:53-96 canonical_source_refs] *)
Definition canonical_source_refs (refs : list SourceRef) : list SourceRef :=
  snd <$> isort (λ a b, a.1 <=? b.1)%nat (ref_groups refs).

(* ------------------------------------------------------------------ *)
(** ** The quote of a claim *)
(* ------------------------------------------------------------------ *)

Definition quotes (refs : list SourceRef) : pystr := str_join " " (quote <$> refs).

(** [replace(ref, char_start=..., char_end=..., quote=...)] *)
Definition at_span (r : SourceRef) (start end_ : Z) (q : pystr) : SourceRef :=
  {| source_id := source_id r; document_version_id := document_version_id r;
     parse_manifest_id := parse_manifest_id r; page_num := page_num r;
     printed_page_label := printed_page_label r; ref_bbox := ref_bbox r;
     raw_text_sha256 := raw_text_sha256 r; quote := q; char_start := start; char_end := end_;
     location_quality := location_quality r; verification_state := verification_state r |}.

Context `{Digest}.

(** The reference of a whole block moved to one span of its raw text. *)
Definition span_of_block (b : CanonicalBlock) (start end_ : Z) : result SourceRef :=
  r ← block_source_ref nfc b None None;
  raw ← block_raw_text b;
  Ok (at_span r start end_ (slice raw start end_)).

(** [application/ingest/source_continuations.py:131-144 claim_quote_matches_sources] *)
Fixpoint expected_fragments (parts : list CanonicalBlock) (cursor start end_ : Z)
    : result (list SourceRef) :=
  match parts with
  | [] => Ok []
  | p :: parts =>
      raw ← block_raw_text p;
      let a := Z.max 0 (start - cursor) in
      let b := Z.min (py_len raw) (end_ - cursor) in
      here ← (if (a <? b)%Z then r ← span_of_block p a b; Ok [r] else Ok []);
      rest ← expected_fragments parts (cursor + py_len raw + 1) start end_;
      Ok (here ++ rest)
  end.

Fixpoint refs_eqb (a b : list SourceRef) : bool :=
  match a, b with
  | [], [] => true
  | x :: a, y :: b => ref_eqb x y && refs_eqb a b
  | _, _ => false
  end.

(** The joined paragraph of [primary] and its exact fragments.
    [application/ingest/source_continuations.py:116-145 claim_quote_matches_sources] *)
Definition joined_span (g : CanonicalDocumentGraph) (primary : SourceRef) (fragments : list SourceRef)
    : result bool :=
  groups ← continuations g;
  match dict_get (source_id primary) groups with
  | None | Some [] => Ok false
  | Some parts =>
      block ← of_option StopIteration (find (λ b, kb_source_id b =s? source_id primary) (gr_blocks g));
      raw ← block_raw_text block;
      if negb ((0 <=? char_start primary) && (char_start primary <? char_end primary)
               && (char_end primary <=? py_len raw))%Z
      then Ok false
      else
        expected_primary ← span_of_block block (char_start primary) (char_end primary);
        if negb (ref_eqb (with_state primary Candidate) expected_primary) then Ok false
        else
          expected ← expected_fragments parts 0 (char_start primary) (char_end primary);
          Ok (refs_eqb ((λ r, with_state r Candidate) <$> fragments) expected)
  end.

(** [application/ingest/source_continuations.py:99-145 claim_quote_matches_sources] *)
Definition claim_quote_matches_sources (q : pystr) (refs : list SourceRef) (g : CanonicalDocumentGraph)
    : result bool :=
  let canonical := canonical_source_refs refs in
  if (length canonical <? length refs)%nat && (squeezed q =s? squeezed (quotes canonical)) then Ok true
  else if nonempty_list canonical && (q =s? quotes canonical) then Ok true
  else
    match canonical with
    | primary :: ((_ :: _) as fragments) =>
        if q =s? quote primary then joined_span g primary fragments else Ok false
    | _ => Ok false
    end.
End source_refs.

(* ------------------------------------------------------------------ *)
(** ** What the selection of references keeps *)
(* ------------------------------------------------------------------ *)

Section selection.
Context (nfc : pystr → pystr).
Notation copies k r := (same_key nfc k r && overlaps k r).

Lemma join_group_refs groups x :
  (join_group nfc groups x).*2
  = groups.*2 ++ (if existsb (λ g, copies g.2 x.2) groups then [] else [x.2]).
Proof.
  induction groups as [|g groups IH]; [done|]. cbn [join_group existsb].
  destruct (copies g.2 x.2); cbn [orb]; [by rewrite app_nil_r|]. rewrite !fmap_cons, IH. done.
Qed.

(** One representative for each reference seen, none copying a later one. *)
Definition represents (seen order : list SourceRef) : Prop :=
  (∀ k, k ∈ order → k ∈ seen)
  ∧ (∀ r, r ∈ seen → ∃ k, k ∈ order ∧ (k = r ∨ copies k r = true))
  ∧ ForallOrdPairs (λ a b, copies a b = false) order.

Lemma ordered_snoc {A} (R : A → A → Prop) l x :
  ForallOrdPairs R l → Forall (λ a, R a x) l → ForallOrdPairs R (l ++ [x]).
Proof.
  induction 1 as [|a l Ha Hl IH]; intros Hx; cbn; [repeat constructor|].
  apply Forall_cons in Hx as [Hax Hx]. constructor; [|by apply IH].
  apply Forall_app. split; [done|by apply Forall_singleton].
Qed.

Lemma groups_represent l : ∀ seen groups, represents seen groups.*2 →
  represents (seen ++ l.*2) (foldl (join_group nfc) groups l).*2.
Proof.
  induction l as [|x l IH]; intros seen groups Hr; cbn [foldl]; [by rewrite app_nil_r|].
  rewrite fmap_cons. replace (seen ++ x.2 :: l.*2) with ((seen ++ [x.2]) ++ l.*2) by by rewrite <- app_assoc.
  apply IH. destruct Hr as (H1 & H2 & H3). rewrite join_group_refs.
  destruct (existsb _ groups) eqn:E; (split; [|split]).
  - intros k. rewrite app_nil_r, elem_of_app. intros Hk. left. by apply H1.
  - intros r [Hr| ->%list_elem_of_singleton]%elem_of_app; rewrite app_nil_r; [by apply H2|].
    apply existsb_exists in E as (g & Hg & Hc). exists g.2. split; [|by right].
    by apply list_elem_of_fmap_2, list_elem_of_In.
  - by rewrite app_nil_r.
  - intros k [Hk| ->%list_elem_of_singleton]%elem_of_app; rewrite elem_of_app; [left; by apply H1|by right; left].
  - intros r [Hr| ->%list_elem_of_singleton]%elem_of_app.
    + destruct (H2 r Hr) as (k & Hk & Hor). exists k. split; [by apply elem_of_app; left|done].
    + exists x.2. split; [apply elem_of_app; right; by left|by left].
  - apply ordered_snoc; [done|]. apply Forall_forall. intros k (g & -> & Hg)%list_elem_of_fmap.
    rewrite <- not_true_iff_false. intros Hc. rewrite <- not_true_iff_false, existsb_exists in E.
    apply E. exists g. split; [by apply list_elem_of_In|done].
Qed.

Lemma enumerate_refs {A} (l : list A) : (enumerate l).*2 = l.
Proof.
  unfold enumerate. generalize 0%nat. induction l as [|x l IH]; intros n; [done|]. cbn. by rewrite IH.
Qed.

(** Collapsing parser copies invents nothing and loses no place.  The
    references kept are references of the input, unchanged; every input is
    kept or copies one that is, with the same artifact, page and text and an
    overlapping box; and, in the order of their priority, no reference kept
    copies another. *)
Theorem canonical_refs_exact refs :
  ∃ order, canonical_source_refs nfc refs ≡ₚ order ∧ represents refs order.
Proof.
  exists (ref_groups nfc refs).*2. split; [unfold canonical_source_refs; by rewrite isort_perm|].
  assert (Hperm : (isort (λ a b, priority_leb a.2 b.2) (enumerate refs)).*2 ≡ₚ refs)
    by (rewrite isort_perm; by rewrite enumerate_refs).
  destruct (groups_represent (isort (λ a b, priority_leb a.2 b.2) (enumerate refs)) [] [])
    as (H1 & H2 & H3).
  { split_and!; [by intros ? ?%elem_of_nil|by intros ? ?%elem_of_nil|constructor]. }
  cbn [app] in *. split; [|split; [|done]].
  - intros k Hk. rewrite <- Hperm. by apply H1.
  - intros r Hr. apply H2. by rewrite Hperm.
Qed.
End selection.
