(* ===== verification/Packets.v ===== *)
(** * Frozen packets and the track they are tagged for.

    [application/evidence/retrieval.py]: the packet is stored as canonical
    JSON with its digest; selecting a track freezes a second packet that names
    the first.  [application/tagging/tracks.py]: the classification of claims
    that may select one. *)
From S2P Require Import Prelude PyVal JsonCodec Values Digest RulePack Rules Geometry Graph Numeric Claims Reconcile Consensus.
Open Scope py_scope.

Section packets.
Context `{Digest}.

(** [application/evidence/retrieval.py:138-140 EvidencePacket.__post_init__] *)
Definition mk_EvidencePacket (p : EvidencePacket) : result EvidencePacket :=
  v ← json_loads (ep_payload_json p);
  digest ← canonical_hash v;
  _ ← require (digest =s? ep_sha256 p) DomainValidationError;
  Ok p.

(** [application/evidence/retrieval.py:146-153 freeze_packet] *)
Definition freeze_packet (packet : pydict) : result EvidencePacket :=
  payload ← canonical_json (PDict packet);
  v ← json_loads payload;
  digest ← canonical_hash v;
  mk_EvidencePacket {| ep_payload_json := payload; ep_sha256 := digest |}.

(** [application/evidence/retrieval.py:156-161 unattended_packet] *)
Definition unattended_packet (p : EvidencePacket) (profile : pystr) : result EvidencePacket :=
  data ← to_dict p;
  freeze_packet
    (dict_set "status" (PStr "candidate")
       (dict_set "pipeline_profile" (PStr profile)
          (dict_set "unattended_retrieval_sha256" (PStr (ep_sha256 p)) data))).

(* ------------------------------------------------------------------ *)
(** ** Tracks *)
(* ------------------------------------------------------------------ *)

(** [application/tagging/tracks.py:17-22 TrackCandidate] *)
Record TrackCandidate : Set := {
  tk_claim : Claim; tk_track : pystr; tk_safe_harbor_category : option pystr }.

(** [application/tagging/tracks.py:41-46 validate_track_candidates] *)
Definition claim_identity (c : Claim) : pystr * pystr * pystr * pystr :=
  (cl_tenant_id c, cl_document_version_id c, cl_parse_manifest_id c, cl_source_sha256 c).

(** [application/tagging/tracks.py:53-59 validate_track_candidates] *)
Definition cites_sources (c : Claim) : bool :=
  nonempty_list (cl_source_refs c)
  && forallb (λ r, (document_version_id r =s? cl_document_version_id c)
                   && (parse_manifest_id r =s? cl_parse_manifest_id c)) (cl_source_refs c).

(** [application/tagging/tracks.py:36-60 validate_track_candidates] *)
Fixpoint check_claims (identity : option (pystr * pystr * pystr * pystr)) (seen : list pystr)
    (claims : list Claim) : result unit :=
  match claims with
  | [] => Ok tt
  | c :: claims =>
      _ ← require (match identity with
                   | Some i => bool_decide (claim_identity c = i)
                   | None => true
                   end) DomainValidationError;
      _ ← reject (str_in (cl_claim_id c) seen) DomainValidationError;
      _ ← require (cites_sources c) DomainValidationError;
      check_claims (Some (default (claim_identity c) identity)) (cl_claim_id c :: seen) claims
  end.

Definition track_fields : list pystr := ["claim_id"; "track"; "safe_harbor_category"].

(** [application/tagging/tracks.py:63-81 validate_track_candidates] *)
Definition check_track_item (claims : list Claim) (by_id : list (pystr * TrackCandidate)) (item : pyval)
    : result (list (pystr * TrackCandidate)) :=
  d ← as_dict DomainValidationError item;
  _ ← require (set_eqb (dict_keys d) track_fields) DomainValidationError;
  claim_id ← as_str DomainValidationError (get_or_none d "claim_id");
  claim ← of_option DomainValidationError (find (λ c, cl_claim_id c =s? claim_id) claims);
  _ ← reject (bool_decide (is_Some (dict_get claim_id by_id))) DomainValidationError;
  track ← as_str DomainValidationError (get_or_none d "track");
  _ ← require (str_in track (track_str <$> TRACKS)) DomainValidationError;
  category ← match get_or_none d "safe_harbor_category" with
             | PNone => Ok None
             | PStr s => if str_in s SAFE_HARBOR_CATEGORIES then Ok (Some s)
                         else Raise DomainValidationError
             | _ => Raise DomainValidationError
             end;
  Ok (dict_set claim_id {| tk_claim := claim; tk_track := track; tk_safe_harbor_category := category |} by_id).

(** [application/tagging/tracks.py:25-85 validate_track_candidates] *)
Definition validate_track_candidates (claims : list Claim) (items : list pyval)
    : result (list TrackCandidate) :=
  _ ← check_claims None [] claims;
  by_id ← fold_result (check_track_item claims) [] items;
  _ ← require (set_eqb (dict_keys by_id) (cl_claim_id <$> claims)) DomainValidationError;
  map_result (λ c, of_option KeyError (dict_get (cl_claim_id c) by_id)) claims.

(* ------------------------------------------------------------------ *)
(** ** Selecting a track *)
(* ------------------------------------------------------------------ *)

(** [application/evidence/retrieval.py:180-189 freeze_track_packet] *)
Definition track_item (t : TrackCandidate) : pyval :=
  PDict [("claim_id", PStr (cl_claim_id (tk_claim t))); ("track", PStr (tk_track t));
         ("safe_harbor_category", opt_val (tk_safe_harbor_category t))].

(** [application/evidence/retrieval.py:190-201 freeze_track_packet] *)
Definition packet_identity (data : pydict) (c : Claim) (pack : RulePackSnapshot) : bool :=
  (tenant_id pack =s? cl_tenant_id c)
  && forallb (λ kv : pystr * pystr, eq_str (get_or_none data kv.1) kv.2)
       [("tenant_id" : pystr, cl_tenant_id c); ("claim_id" : pystr, cl_claim_id c);
        ("document_version_id" : pystr, cl_document_version_id c);
        ("parse_manifest_id" : pystr, cl_parse_manifest_id c);
        ("source_sha256" : pystr, cl_source_sha256 c); ("rule_sha256" : pystr, sha256 pack)].

(** The ids of the catalog.
    [application/evidence/retrieval.py:202 freeze_track_packet] *)
Definition catalog (pack : RulePackSnapshot) : result (list pyval) :=
  file ← file_content pack "rubric/elements.yaml";
  els ← of_option KeyError (dict_get "elements" file);
  els ← py_iter els;
  map_result (getitem "id") els.

(** [v == opt] *)
Definition eq_opt (v : pyval) (o : option pystr) : bool :=
  match o with Some s => eq_str v s | None => is_none v end.

(** [application/evidence/retrieval.py:223-226 freeze_track_packet] *)
Definition select_elements (selected : list pystr) (candidate : pyval) : result pyval :=
  d ← as_dict TypeError candidate;
  els ← of_option KeyError (dict_get "allowed_elements" d);
  els ← py_iter els;
  Ok (PDict (dict_set "allowed_elements"
               (PList (List.filter (λ e, existsb (eq_str e) selected) els)) d)).

(** The packet with the track chosen.
    [application/evidence/retrieval.py:217-226 freeze_track_packet] *)
Definition select_track (data : pydict) (t : TrackCandidate) (selected : list pystr) : result pydict :=
  sha ← of_option KeyError (dict_get "packet_sha256" data);
  let data := List.filter (λ kv : pystr * pyval, negb (kv.1 =s? "packet_sha256")) data in
  let data := dict_set "retrieval_packet_sha256" sha data in
  let data := dict_set "track" (PStr (tk_track t)) data in
  let data := dict_set "safe_harbor_category" (opt_val (tk_safe_harbor_category t)) data in
  let data := dict_set "allowed_elements" (PList (PStr <$> selected)) data in
  candidates ← of_option KeyError (dict_get "evidence_candidates" data);
  candidates ← py_iter candidates;
  candidates ← map_result (select_elements selected) candidates;
  Ok (dict_set "evidence_candidates" (PList candidates) data).

(** [application/evidence/retrieval.py:164-227 freeze_track_packet] *)
Definition freeze_track_packet (p : EvidencePacket) (t : TrackCandidate) (pack : RulePackSnapshot)
    : result EvidencePacket :=
  data ← to_dict p;
  let c := tk_claim t in
  _ ← require (eq_str (get_or_none data "status") "candidate") DomainValidationError;
  _ ← validate_track_candidates [c] [track_item t];
  _ ← require (packet_identity data c pack) DomainValidationError;
  track ← of_option KeyError (find (λ u, track_str u =s? tk_track t) TRACKS);
  all ← catalog pack;
  selected ← catalog_ids pack track;
  _ ← require (set_eqb selected (MAPPINGS track).*1 && str_distinct selected) DomainValidationError;
  match dict_get "retrieval_packet_sha256" data with
  | Some sha =>
      _ ← require_sha256 sha;
      allowed ← of_option KeyError (dict_get "allowed_elements" data);
      _ ← require (eq_str (get_or_none data "track") (tk_track t)
                   && eq_opt (get_or_none data "safe_harbor_category") (tk_safe_harbor_category t)
                   && eq_strs allowed selected) DomainValidationError;
      Ok p
  | None =>
      allowed ← of_option KeyError (dict_get "allowed_elements" data);
      _ ← require (py_eq allowed (PList all)) DomainValidationError;
      data ← select_track data t selected;
      freeze_packet data
  end.
End packets.
