(* ===== verification/PacketsSpec.v ===== *)
(** * What frozen packets promise.

    A frozen packet reads back as what was frozen; selecting a track names
    the retrieval packet it came from, changes nothing but the selection, is
    idempotent and final, and gives the consensus the catalog it demands. *)
From S2P Require Import Prelude PyVal JsonCodec Values Digest RulePack Rules RulesSpec Geometry Graph Numeric Claims Reconcile Consensus ConsensusSpec Packets.
Open Scope py_scope.

(* ------------------------------------------------------------------ *)
(** ** Freezing *)
(* ------------------------------------------------------------------ *)

Section packets.
Context `{Digest}.

Lemma freeze_packet_payload d p :
  freeze_packet d = Ok p → canonical_json (PDict d) = Ok (ep_payload_json p).
Proof.
  unfold freeze_packet, mk_EvidencePacket. intros (payload & Hp & Hr)%bind_Ok_inv.
  apply bind_Ok_inv in Hr as (v & _ & Hr). apply bind_Ok_inv in Hr as (h & _ & Hr).
  apply bind_Ok_inv in Hr as (v' & _ & Hr). apply bind_Ok_inv in Hr as (h' & _ & Hr).
  by apply bind_Ok_inv in Hr as (_ & _ & [= <-]).
Qed.

Lemma clean_hash v s : json_clean v = true → canonical_json v = Ok s →
  json_loads s = Ok (canon v) ∧ canonical_hash (canon v) = Ok (sha256_hex s).
Proof.
  intros Hc Hs%canonical_json_Ok. split; [by apply json_roundtrip|].
  unfold canonical_hash. assert (canonical_json (canon v) = Ok s) as ->; [|done].
  by apply canonical_json_Ok, json_dumps_canon.
Qed.

Lemma freeze_packet_iff d p : json_clean (PDict d) = true →
  freeze_packet d = Ok p ↔
  canonical_json (PDict d) = Ok (ep_payload_json p) ∧ ep_sha256 p = sha256_hex (ep_payload_json p).
Proof.
  intros Hc. unfold freeze_packet, mk_EvidencePacket.
  destruct (canonical_json (PDict d)) as [s|e] eqn:Hs; [|split; [discriminate|by intros [[=] _]]].
  destruct (clean_hash _ _ Hc Hs) as [Hl Hh]. cbn [mbind result_bind]. rewrite Hl. cbn [mbind result_bind].
  rewrite Hh. cbn [mbind result_bind ep_payload_json ep_sha256]. rewrite Hl. cbn [mbind result_bind].
  rewrite Hh. cbn [mbind result_bind]. rewrite str_eqb_refl. cbn [require mbind result_bind].
  destruct p as [payload sha]. cbn. split; [by intros [= <- <-]|]. by intros [[= <-] ->].
Qed.

Lemma frozen_to_dict d p : json_clean (PDict d) = true → freeze_packet d = Ok p →
  to_dict p = Ok (dict_set "packet_sha256" (PStr (ep_sha256 p)) (canon_dict_of d)).
Proof.
  intros Hc [Hs Hp]%freeze_packet_iff; [|done]. unfold to_dict.
  destruct (clean_hash _ _ Hc Hs) as [-> _]. by rewrite canon_dict.
Qed.

Lemma frozen_is_packet d p : json_clean (PDict d) = true → freeze_packet d = Ok p →
  mk_EvidencePacket p = Ok p.
Proof.
  intros Hc [Hs Hp]%freeze_packet_iff; [|done]. unfold mk_EvidencePacket.
  destruct (clean_hash _ _ Hc Hs) as [-> Hh]. cbn [mbind result_bind]. rewrite Hh. cbn [mbind result_bind].
  by rewrite Hp, str_eqb_refl.
Qed.

Lemma packet_sha p : mk_EvidencePacket p = Ok p → is_sha256 (ep_sha256 p) = true.
Proof.
  unfold mk_EvidencePacket. intros (v & _ & Hr)%bind_Ok_inv. apply bind_Ok_inv in Hr as (h & Hh & Hr).
  apply bind_Ok_inv in Hr as (_ & Hq%require_Ok%str_eqb_eq & _). subst h.
  unfold canonical_hash in Hh. apply bind_Ok_inv in Hh as (t & _ & [= <-]). apply sha256_hex_shape.
Qed.

(** What a frozen packet holds under a key. *)
Lemma frozen_get d p k : json_clean (PDict d) = true → freeze_packet d = Ok p →
  ∃ data, to_dict p = Ok data ∧ json_clean (PDict data) = true
          ∧ dict_get "packet_sha256" data = Some (PStr (ep_sha256 p))
          ∧ (k ≠ "packet_sha256" → dict_get k data = canon <$> dict_get k d).
Proof.
  intros Hc Hp. eexists. split; [by apply frozen_to_dict|]. split_and!.
  - apply dict_set_clean; [done| |by apply canon_dict_clean].
    apply is_sha256_scalar. eapply packet_sha, frozen_is_packet; done.
  - apply dict_get_set_eq.
  - intros Hk. rewrite dict_get_set_ne by done. apply dict_get_canon. by apply clean_NoDup.
Qed.

(** Freezing loses nothing but the order of the keys: the packet is accepted
    by its own constructor, and reading it back gives every field in canonical
    form together with the digest of the stored text. *)
Theorem frozen_reads_back d p : json_clean (PDict d) = true → freeze_packet d = Ok p →
  mk_EvidencePacket p = Ok p ∧ ep_sha256 p = sha256_hex (ep_payload_json p)
  ∧ ∃ data, to_dict p = Ok data ∧ dict_get "packet_sha256" data = Some (PStr (ep_sha256 p))
            ∧ ∀ k, k ≠ "packet_sha256" → dict_get k data = canon <$> dict_get k d.
Proof.
  intros Hc Hp. split; [by eapply frozen_is_packet|]. split; [by apply freeze_packet_iff in Hp as [_ ?]|].
  eexists. split; [by apply frozen_to_dict|]. split; [apply dict_get_set_eq|].
  intros k Hk. rewrite dict_get_set_ne by done. apply dict_get_canon. by apply clean_NoDup.
Qed.
End packets.

(* ------------------------------------------------------------------ *)
(** ** Selecting a track *)
(* ------------------------------------------------------------------ *)

Definition selection_keys : list pystr :=
  ["packet_sha256"; "retrieval_packet_sha256"; "track"; "safe_harbor_category"; "allowed_elements";
   "evidence_candidates"].

Definition category_ok (o : option pystr) : bool :=
  match o with Some s => str_in s SAFE_HARBOR_CATEGORIES | None => true end.

Lemma track_item_valid t l : validate_track_candidates [tk_claim t] [track_item t] = Ok l →
  category_ok (tk_safe_harbor_category t) = true.
Proof.
  unfold validate_track_candidates. intros (? & _ & Hr)%bind_Ok_inv.
  apply bind_Ok_inv in Hr as (by_id & Hf & _). cbn [fold_result] in Hf.
  apply bind_Ok_inv in Hf as (by_id' & Hf & _). unfold check_track_item, track_item in Hf.
  cbn [as_dict mbind result_bind] in Hf. apply bind_Ok_inv in Hf as (? & _ & Hf).
  apply bind_Ok_inv in Hf as (claim_id & _ & Hf). apply bind_Ok_inv in Hf as (claim & _ & Hf).
  apply bind_Ok_inv in Hf as (? & _ & Hf). apply bind_Ok_inv in Hf as (track & _ & Hf).
  apply bind_Ok_inv in Hf as (? & _ & Hf). apply bind_Ok_inv in Hf as (category & Hc & _).
  change (get_or_none _ "safe_harbor_category") with (opt_val (tk_safe_harbor_category t)) in Hc.
  unfold category_ok. destruct (tk_safe_harbor_category t) as [s|]; [|done]. cbn [opt_val] in Hc.
  by destruct (str_in s _).
Qed.

Lemma category_clean o : category_ok o = true → json_clean (opt_val o) = true.
Proof.
  destruct o as [s|]; [|done]. cbn [category_ok opt_val json_clean]. intros Hs%str_in_iff.
  assert (Hall : forallb scalar_str SAFE_HARBOR_CATEGORIES = true) by reflexivity.
  rewrite forallb_forall in Hall. by apply Hall, list_elem_of_In.
Qed.

Lemma mapping_ids_clean trk ids :
  set_eqb ids (MAPPINGS trk).*1 = true → forallb scalar_str ids = true.
Proof.
  rewrite set_eqb_iff, forallb_forall. intros Hs x Hx%list_elem_of_In%Hs.
  assert (Hall : forallb scalar_str (MAPPINGS trk).*1 = true) by by destruct trk.
  rewrite forallb_forall in Hall. by apply Hall, list_elem_of_In.
Qed.

Lemma strs_clean ids : forallb scalar_str ids = true → json_clean (PList (PStr <$> ids)) = true.
Proof. induction ids as [|i ids IH]; [done|]. cbn. intros [-> ?]%andb_true_iff. by apply IH. Qed.

Lemma py_iter_clean v l : json_clean v = true → py_iter v = Ok l → forallb json_clean l = true.
Proof.
  destruct v; intros Hc; try done; cbn [py_iter].
  - intros [= <-]. rewrite forallb_forall. intros x (c & <- & Hx)%in_map_iff.
    cbn [json_clean] in *. unfold scalar_str in *. rewrite forallb_forall in Hc. cbn.
    by rewrite Hc.
  - by intros [= <-].
  - by intros [= <-].
  - intros [= <-]. apply json_clean_dict in Hc as [_ Hd]. rewrite Forall_forall in Hd.
    rewrite forallb_forall. intros x (k & <- & Hx)%in_map_iff. cbn [json_clean].
    apply in_map_iff in Hx as ([k' w] & <- & Hx). by apply list_elem_of_In, Hd in Hx as [? _].
Qed.

Lemma select_elements_clean ids v w :
  json_clean v = true → select_elements ids v = Ok w → json_clean w = true.
Proof.
  unfold select_elements. intros Hc (d & Hd & Hr)%bind_Ok_inv.
  destruct v; try discriminate. injection Hd as ->.
  apply bind_Ok_inv in Hr as (els & He%of_option_Ok & Hr). apply bind_Ok_inv in Hr as (l & Hl & [= <-]).
  apply dict_set_clean; [done| |done]. cbn [json_clean].
  pose proof (py_iter_clean _ _ (clean_get _ _ _ Hc He) Hl) as Hcl. rewrite forallb_forall in *.
  intros x [Hx _]%filter_In. by apply Hcl.
Qed.

Section tracks.
Context `{Digest}.

(** What a selection writes, and what it leaves alone. *)
Lemma select_track_get data t ids sha data' :
  json_clean (PDict data) = true → category_ok (tk_safe_harbor_category t) = true →
  scalar_str (tk_track t) = true → forallb scalar_str ids = true →
  dict_get "packet_sha256" data = Some sha → select_track data t ids = Ok data' →
  json_clean (PDict data') = true
  ∧ dict_get "retrieval_packet_sha256" data' = Some sha
  ∧ dict_get "track" data' = Some (PStr (tk_track t))
  ∧ dict_get "safe_harbor_category" data' = Some (opt_val (tk_safe_harbor_category t))
  ∧ dict_get "allowed_elements" data' = Some (PList (PStr <$> ids))
  ∧ (∃ v cs cs', dict_get "evidence_candidates" data = Some v ∧ py_iter v = Ok cs
       ∧ map_result (select_elements ids) cs = Ok cs'
       ∧ dict_get "evidence_candidates" data' = Some (PList cs'))
  ∧ ∀ k, k ∉ selection_keys → dict_get k data' = dict_get k data.
Proof.
  intros Hc Hcat Htr Hids Hsha Hs. unfold select_track in Hs.
  apply bind_Ok_inv in Hs as (sha' & Hsha'%of_option_Ok & Hs). rewrite Hsha in Hsha'. injection Hsha' as <-.
  apply bind_Ok_inv in Hs as (v & Hv%of_option_Ok & Hs). apply bind_Ok_inv in Hs as (cs & Hcs & Hs).
  apply bind_Ok_inv in Hs as (cs' & Hcs' & [= <-]).
  rewrite !dict_get_set_ne, dict_get_del in Hv by done. cbn in Hv.
  pose proof (clean_get _ _ _ Hc Hsha) as Hshac. pose proof (clean_get _ _ _ Hc Hv) as Hvc.
  split_and!.
  - repeat (apply dict_set_clean; [done|..]).
    + cbn [json_clean]. apply map_result_Ok in Hcs'. pose proof (py_iter_clean _ _ Hvc Hcs) as Hcl.
      clear -Hcs' Hcl. induction Hcs' as [|x y l k Hxy _ IH]; [done|]. cbn in *.
      apply andb_true_iff in Hcl as [Hx Hl]. rewrite (select_elements_clean _ _ _ Hx Hxy). by apply IH.
    + by apply strs_clean.
    + by apply category_clean.
    + done.
    + done.
    + by apply dict_del_clean.
  - by rewrite !dict_get_set_ne, dict_get_set_eq by done.
  - by rewrite !dict_get_set_ne, dict_get_set_eq by done.
  - by rewrite !dict_get_set_ne, dict_get_set_eq by done.
  - by rewrite !dict_get_set_ne, dict_get_set_eq by done.
  - exists v, cs, cs'. by rewrite dict_get_set_eq.
  - intros k Hk. unfold selection_keys in Hk. rewrite !not_elem_of_cons in Hk.
    destruct Hk as (H1 & H2 & H3 & H4 & H5 & H6 & _). rewrite !dict_get_set_ne by done.
    rewrite dict_get_del. by apply str_eqb_neq in H1 as ->.
Qed.

(** The steps of a selection that went through. *)
Record selection (p : EvidencePacket) (t : TrackCandidate) (pack : RulePackSnapshot) (data : pydict)
    (trk : Track) (ids : list pystr) : Prop := {
  se_data : to_dict p = Ok data;
  se_status : eq_str (get_or_none data "status") "candidate" = true;
  se_valid : ∃ l, validate_track_candidates [tk_claim t] [track_item t] = Ok l;
  se_identity : packet_identity data (tk_claim t) pack = true;
  se_track : tk_track t = track_str trk;
  se_catalog : ∃ all, catalog pack = Ok all;
  se_ids : catalog_ids pack trk = Ok ids;
  se_complete : set_eqb ids (MAPPINGS trk).*1 = true;
  se_distinct : str_distinct ids = true }.

Lemma freeze_track_inv p t pack p' :
  freeze_track_packet p t pack = Ok p' →
  ∃ data trk ids, selection p t pack data trk ids
  ∧ match dict_get "retrieval_packet_sha256" data with
    | Some v => (∃ sha, v = PStr sha ∧ is_sha256 sha = true)
                ∧ eq_str (get_or_none data "track") (tk_track t) = true
                ∧ eq_opt (get_or_none data "safe_harbor_category") (tk_safe_harbor_category t) = true
                ∧ p' = p
    | None => ∃ data', select_track data t ids = Ok data' ∧ freeze_packet data' = Ok p'
    end
  ∧ (dict_get "retrieval_packet_sha256" data ≠ None →
     ∃ allowed, dict_get "allowed_elements" data = Some allowed ∧ eq_strs allowed ids = true).
Proof.
  unfold freeze_track_packet. intros (data & Hd & Hr)%bind_Ok_inv. cbv zeta in Hr.
  apply bind_Ok_inv in Hr as (? & Hs%require_Ok & Hr). apply bind_Ok_inv in Hr as (l & Hl & Hr).
  apply bind_Ok_inv in Hr as (? & Hi%require_Ok & Hr). apply bind_Ok_inv in Hr as (trk & Ht%of_option_Ok & Hr).
  apply bind_Ok_inv in Hr as (all & Ha & Hr). apply bind_Ok_inv in Hr as (ids & Hids & Hr).
  apply bind_Ok_inv in Hr as (? & Hc%require_Ok & Hr). apply andb_true_iff in Hc as [Hc Hdist].
  apply find_some in Ht as [_ Ht%str_eqb_eq].
  exists data, trk, ids. split; [by split; eauto|].
  destruct (dict_get "retrieval_packet_sha256" data) as [sha|] eqn:E.
  - apply bind_Ok_inv in Hr as (s & Hsha%require_sha256_Ok & Hr).
    apply bind_Ok_inv in Hr as (allowed & Hal%of_option_Ok & Hr).
    apply bind_Ok_inv in Hr as (? & Hq%require_Ok & [= <-]). rewrite !andb_true_iff in Hq.
    destruct Hq as [[H1 H2] H3]. split; [|by intros _; exists allowed]. split; [by exists s|done].
  - apply bind_Ok_inv in Hr as (allowed & _ & Hr). apply bind_Ok_inv in Hr as (? & _ & Hr).
    apply bind_Ok_inv in Hr as (data' & Hs' & Hf). split; [by exists data'|done].
Qed.

Lemma find_track trk : find (λ u, track_str u =s? track_str trk) TRACKS = Some trk.
Proof. by destruct trk. Qed.

Lemma eq_strs_refl ids : eq_strs (PList (PStr <$> ids)) ids = true.
Proof.
  cbn [eq_strs]. rewrite length_fmap, Nat.eqb_refl. cbn [andb].
  induction ids as [|i ids IH]; [done|]. cbn. by rewrite str_eqb_refl.
Qed.

(** A selected packet is what the consensus demands and may be selected again
    for the same track. *)
Lemma selected_stable p t pack data trk ids sha :
  selection p t pack data trk ids → dict_get "retrieval_packet_sha256" data = Some (PStr sha) →
  is_sha256 sha = true → eq_str (get_or_none data "track") (tk_track t) = true →
  eq_opt (get_or_none data "safe_harbor_category") (tk_safe_harbor_category t) = true →
  (∃ allowed, dict_get "allowed_elements" data = Some allowed ∧ eq_strs allowed ids = true) →
  freeze_track_packet p t pack = Ok p ∧ check_packet data pack = Ok (trk, ids).
Proof.
  intros [Hd Hst [l Hl] Hi Ht [all Ha] Hids Hc Hdist] Hr Hsha Htr Hcat (allowed & Hal & Heq). split.
  - unfold freeze_track_packet. rewrite Hd. cbn [mbind result_bind]. rewrite Hst. cbn [require mbind result_bind].
    rewrite Hl. cbn [mbind result_bind]. rewrite Hi. cbn [require mbind result_bind].
    rewrite Ht, find_track. cbn [of_option mbind result_bind]. rewrite Ha. cbn [mbind result_bind].
    rewrite Hids. cbn [mbind result_bind]. rewrite Hc, Hdist. cbn [andb require mbind result_bind].
    rewrite Hr. rewrite (proj2 (require_sha256_Ok (PStr sha) sha)) by done. cbn [mbind result_bind].
    rewrite Hal. cbn [of_option mbind result_bind]. rewrite <- Ht, Htr, Hcat, Heq. done.
  - unfold check_packet. rewrite (proj2 (str_in_iff _ _)) by (apply dict_get_is_Some; by eexists).
    cbn [require mbind result_bind]. unfold in_mappings.
    destruct (get_or_none data "track") as [| | | |s| | |] eqn:E; try discriminate.
    cbn [eq_str] in Htr. apply str_eqb_eq in Htr as ->. cbn [hashable mbind result_bind].
    assert (find (λ u, eq_str (PStr (tk_track t)) (track_str u)) TRACKS = Some trk) as ->
      by (rewrite Ht; by destruct trk).
    cbn [of_option mbind result_bind]. unfold field. rewrite Hal. cbn [of_option mbind result_bind].
    rewrite Hids. cbn [mbind result_bind]. rewrite Heq. cbn [require mbind result_bind]. by rewrite Hc.
Qed.

Lemma eq_str_canon v s : eq_str (canon v) s = eq_str v s.
Proof. by destruct v. Qed.

Lemma eq_str_Some v s : eq_str v s = true ↔ v = PStr s.
Proof. destruct v; cbn [eq_str]; try (split; discriminate). rewrite str_eqb_eq. split; congruence. Qed.

Lemma eq_opt_val o o' : eq_opt (opt_val o) o' = true ↔ o = o'.
Proof.
  destruct o as [s|], o' as [s'|]; cbn [opt_val eq_opt is_none]; try (split; [discriminate|by intros [=]]); try done.
  rewrite eq_str_Some. split; congruence.
Qed.

Lemma opt_val_canon o : canon (opt_val o) = opt_val o.
Proof. by destruct o. Qed.

Lemma strs_canon ids : canon (PList (PStr <$> ids)) = PList (PStr <$> ids).
Proof. cbn [canon]. f_equal. induction ids as [|i ids IH]; [done|]. cbn. by rewrite IH. Qed.

Lemma get_or_none_canon data data' k :
  dict_get k data' = canon <$> dict_get k data → get_or_none data' k = canon (get_or_none data k).
Proof. unfold get_or_none. intros ->. by destruct (dict_get k data). Qed.

(** The identity of a packet and its status survive the selection. *)
Lemma kept_identity data data' c pack :
  (∀ k, k ∉ selection_keys → dict_get k data' = canon <$> dict_get k data) →
  packet_identity data c pack = true → eq_str (get_or_none data "status") "candidate" = true →
  packet_identity data' c pack = true ∧ eq_str (get_or_none data' "status") "candidate" = true.
Proof.
  intros Hk Hi Hs.
  assert (Heq : ∀ k s, str_in k selection_keys = false → eq_str (get_or_none data' k) s = eq_str (get_or_none data k) s).
  { intros k s Hin%str_in_false. by rewrite (get_or_none_canon data), eq_str_canon by by apply Hk. }
  split; [|by rewrite Heq]. unfold packet_identity in *. cbn [forallb fst snd] in *. by rewrite !Heq.
Qed.

(** The fields a selection rewrites, read from the packet it froze. *)
Record selected_from (p : EvidencePacket) (data : pydict) (t : TrackCandidate) (ids : list pystr)
    (data' : pydict) : Prop := {
  sf_names : dict_get "retrieval_packet_sha256" data' = Some (PStr (ep_sha256 p));
  sf_track : dict_get "track" data' = Some (PStr (tk_track t));
  sf_category : dict_get "safe_harbor_category" data' = Some (opt_val (tk_safe_harbor_category t));
  sf_allowed : dict_get "allowed_elements" data' = Some (PList (PStr <$> ids));
  sf_candidates : ∃ v cs cs', dict_get "evidence_candidates" data = Some v ∧ py_iter v = Ok cs
    ∧ map_result (select_elements ids) cs = Ok cs'
    ∧ dict_get "evidence_candidates" data' = Some (canon (PList cs'));
  sf_rest : ∀ k, k ∉ selection_keys → dict_get k data' = canon <$> dict_get k data }.

Lemma first_selection p t pack data trk ids d p' :
  mk_EvidencePacket p = Ok p → json_clean (PDict data) = true → selection p t pack data trk ids →
  select_track data t ids = Ok d → freeze_packet d = Ok p' →
  ∃ data', to_dict p' = Ok data' ∧ selection p' t pack data' trk ids ∧ selected_from p data t ids data'.
Proof.
  intros Hp Hc Hse Hd Hf.
  assert (Hsha : dict_get "packet_sha256" data = Some (PStr (ep_sha256 p))).
  { pose proof (se_data _ _ _ _ _ _ Hse) as Ht. unfold to_dict in Ht.
    apply bind_Ok_inv in Ht as (v & _ & Ht). apply bind_Ok_inv in Ht as (d0 & _ & [= <-]).
    apply dict_get_set_eq. }
  destruct (se_valid _ _ _ _ _ _ Hse) as [l Hl]. apply track_item_valid in Hl as Hcat.
  destruct (select_track_get data t ids (PStr (ep_sha256 p)) d Hc Hcat) as (Hdc & H1 & H2 & H3 & H4 & Hcand & Hrest); try done.
  { rewrite (se_track _ _ _ _ _ _ Hse). by destruct trk. }
  { eapply mapping_ids_clean, se_complete, Hse. }
  assert (Hget : ∃ data', to_dict p' = Ok data' ∧ ∀ k, k ≠ "packet_sha256" → dict_get k data' = canon <$> dict_get k d).
  { eexists. split; [by apply frozen_to_dict|]. intros k Hk. rewrite dict_get_set_ne by done.
    apply dict_get_canon. by apply clean_NoDup. }
  destruct Hget as (data' & Hd' & Hk).
  assert (Hsf : selected_from p data t ids data').
  { split.
    - by rewrite Hk, H1 by done.
    - by rewrite Hk, H2 by done.
    - rewrite Hk, H3 by done. cbn. by rewrite opt_val_canon.
    - rewrite Hk, H4 by done. by rewrite <- strs_canon at 2.
    - destruct Hcand as (v & cs & cs' & Hv & Hcs & Hm & Hg). exists v, cs, cs'. split_and!; [done..|].
      by rewrite Hk, Hg by done.
    - intros k Hk'. assert (k ≠ "packet_sha256") by (intros ->; apply Hk'; repeat constructor).
      by rewrite Hk, Hrest by done. }
  exists data'. split; [done|]. split; [|done].
  destruct Hse as [_ Hst Hv Hi Ht Ha Hids Hcomp Hdist].
  destruct (kept_identity data data' (tk_claim t) pack (sf_rest _ _ _ _ _ Hsf) Hi Hst). by split.
Qed.

(** Selecting a track is recorded, idempotent and final.  From a stored
    packet with readable content, the selection leaves every field as it was
    but the selection itself: the new packet names the retrieval packet it
    came from, the track and its category, the requested elements are the
    track's part of the rule pack's catalog in catalog order, and each
    candidate keeps only those.  It is the packet the consensus demands;
    selecting the same track again returns it unchanged, and no other track or
    category can be selected on it. *)
Theorem track_selection_exact p t pack p' data :
  mk_EvidencePacket p = Ok p → to_dict p = Ok data → json_clean (PDict data) = true →
  freeze_track_packet p t pack = Ok p' →
  ∃ trk ids data',
    tk_track t = track_str trk ∧ catalog_ids pack trk = Ok ids ∧ to_dict p' = Ok data'
    ∧ (p' = p ∨ selected_from p data t ids data')
    ∧ check_packet data' pack = Ok (trk, ids)
    ∧ freeze_track_packet p' t pack = Ok p'
    ∧ ∀ t' p'', freeze_track_packet p' t' pack = Ok p'' →
        p'' = p' ∧ tk_track t' = tk_track t ∧ tk_safe_harbor_category t' = tk_safe_harbor_category t.
Proof.
  intros Hp Hd Hc Hf. apply freeze_track_inv in Hf as (data0 & trk & ids & Hse & Hcase & Hal).
  assert (data0 = data) as -> by (pose proof (se_data _ _ _ _ _ _ Hse); congruence).
  assert (Hend : ∃ data' sha, to_dict p' = Ok data' ∧ (p' = p ∨ selected_from p data t ids data')
      ∧ selection p' t pack data' trk ids ∧ dict_get "retrieval_packet_sha256" data' = Some (PStr sha)
      ∧ is_sha256 sha = true ∧ get_or_none data' "track" = PStr (tk_track t)
      ∧ eq_opt (get_or_none data' "safe_harbor_category") (tk_safe_harbor_category t) = true
      ∧ ∃ allowed, dict_get "allowed_elements" data' = Some allowed ∧ eq_strs allowed ids = true).
  { destruct (dict_get "retrieval_packet_sha256" data) as [v|] eqn:E.
    - destruct Hcase as ((sha & -> & Hsha) & H1 & H2 & ->). apply eq_str_Some in H1.
      exists data, sha. split_and!; [done|by left|done|done|done|done|done|by apply Hal].
    - destruct Hcase as (d & Hs & Hfr).
      destruct (first_selection p t pack data trk ids d p' Hp Hc Hse Hs Hfr) as (data' & Hd' & Hse' & Hsf).
      exists data', (ep_sha256 p). split_and!; [done|by right|done|apply Hsf|by apply packet_sha| | |].
      + unfold get_or_none. by rewrite (sf_track _ _ _ _ _ Hsf).
      + unfold get_or_none. rewrite (sf_category _ _ _ _ _ Hsf). by apply eq_opt_val.
      + eexists. split; [apply Hsf|]. apply eq_strs_refl. }
  destruct Hend as (data' & sha & Hd' & Hor & Hse' & Hr & Hsha & Htr & Hcat & Hall).
  destruct (selected_stable p' t pack data' trk ids sha) as [Hagain Hcheck]; try done.
  { rewrite Htr. apply str_eqb_refl. }
  exists trk, ids, data'. split_and!; [apply Hse|apply Hse'|done|done|done|done|].
  intros t' p'' (data1 & trk' & ids' & Hse1 & Hcase1 & _)%freeze_track_inv.
  assert (data1 = data') as -> by (pose proof (se_data _ _ _ _ _ _ Hse1); congruence).
  rewrite Hr in Hcase1. destruct Hcase1 as (_ & H1 & H2 & ->). split; [done|].
  rewrite Htr in H1. cbn [eq_str] in H1. apply str_eqb_eq in H1. split; [done|].
  revert Hcat H2. clear. unfold eq_opt. destruct (get_or_none data' "safe_harbor_category"), (tk_safe_harbor_category t), (tk_safe_harbor_category t');
    cbn [eq_str is_none]; try discriminate; try done. rewrite !str_eqb_eq. congruence.
Qed.
End tracks.

(* ------------------------------------------------------------------ *)
(** ** A selection *)
(* ------------------------------------------------------------------ *)

Section sample.
#[local] Existing Instance Checksum.

Definition tracked_claim : Claim :=
  {| cl_claim_id := tenant_c; cl_tenant_id := tenant_c;
     cl_document_version_id := document_version_id sample_ref;
     cl_parse_manifest_id := parse_manifest_id sample_ref; cl_source_sha256 := sha_c;
     cl_quote := quote sample_ref; cl_source_refs := [sample_ref]; cl_source_quality := "verified";
     cl_topic_ids := [];
     cl_receipt := {| rc_source_id := source_id sample_ref; rc_packet_sha256 := sha_c;
                      rc_response_sha256 := None; rc_raw_response_json := None;
                      rc_profile := {| pf_model_sha256 := sha_c; pf_prompt_sha256 := sha_c;
                                       pf_rule_sha256 := sha_c; pf_synthetic := false;
                                       pf_replicate_id := 1; pf_extraction_epoch := 1 |};
                      rc_status := "processed" |};
     cl_revision := 1 |}.

Definition tracked (track : pystr) (category : option pystr) : TrackCandidate :=
  {| tk_claim := tracked_claim; tk_track := track; tk_safe_harbor_category := category |}.

(** A packet with one candidate, which also allows an element of another track. *)
Definition tracked_fields : pydict :=
  [("status", PStr "candidate"); ("tenant_id", PStr tenant_c); ("claim_id", PStr tenant_c);
   ("document_version_id", PStr (document_version_id sample_ref));
   ("parse_manifest_id", PStr (parse_manifest_id sample_ref)); ("source_sha256", PStr sha_c);
   ("rule_sha256", PStr "h"); ("score", PFloat (PyFloat.of_decimal false 1 (-1)));
   ("allowed_elements", PList (PStr <$> ["M1"; "M2"; "M3"; "M4"; "M5"; "M6"]));
   ("evidence_candidates", PList [PDict [("source_id", PStr "s");
                                         ("allowed_elements", PList (PStr <$> ["M2"; "G1"]))]])].

Definition tracked_packet : EvidencePacket :=
  match freeze_packet tracked_fields with Ok p => p | Raise _ => packet_c end.

Definition tracked_data : pydict :=
  match to_dict tracked_packet with Ok d => d | Raise _ => [] end.

Lemma tracked_fields_clean : json_clean (PDict tracked_fields) = true.
Proof. vm_compute. reflexivity. Qed.

Lemma tracked_frozen : freeze_packet tracked_fields = Ok tracked_packet.
Proof. vm_compute. reflexivity. Qed.

Lemma frozen_reads_back_witness :
  freeze_packet tracked_fields = Ok tracked_packet ∧ mk_EvidencePacket tracked_packet = Ok tracked_packet.
Proof.
  split; [exact tracked_frozen|].
  exact (proj1 (@frozen_reads_back Checksum tracked_fields tracked_packet tracked_fields_clean tracked_frozen)).
Defined.

Abbreviation tracked_run := (freeze_track_packet tracked_packet (tracked "management" None) engine_pack).

Lemma tracked_ok : is_ok tracked_run = true.
Proof. vm_compute. reflexivity. Qed.

Lemma tracked_packet_ok : mk_EvidencePacket tracked_packet = Ok tracked_packet.
Proof. vm_compute. reflexivity. Qed.

Lemma tracked_to_dict : to_dict tracked_packet = Ok tracked_data.
Proof. vm_compute. reflexivity. Qed.

Lemma tracked_data_clean : json_clean (PDict tracked_data) = true.
Proof. vm_compute. reflexivity. Qed.

(** The candidate keeps only the elements of the track. *)
Example tracked_candidates :
  (p ← tracked_run; data ← to_dict p; field data "evidence_candidates")
  = Ok (PList [PDict [("allowed_elements", PList [PStr "M2"]); ("source_id", PStr "s")]]).
Proof. vm_compute. reflexivity. Qed.

Lemma track_selection_exact_witness :
  ∃ p', tracked_run = Ok p' ∧ freeze_track_packet p' (tracked "management" None) engine_pack = Ok p'
    ∧ ∀ t' p'', freeze_track_packet p' t' engine_pack = Ok p'' → tk_track t' = "management".
Proof.
  pose proof tracked_ok as Hok. destruct tracked_run as [p'|e] eqn:E; [|discriminate Hok].
  destruct (@track_selection_exact Checksum tracked_packet (tracked "management" None) engine_pack p'
              tracked_data tracked_packet_ok tracked_to_dict tracked_data_clean E)
    as (trk & ids & data' & _ & _ & _ & _ & _ & Hagain & Hfinal).
  exists p'. split; [exact eq_refl|]. split; [exact Hagain|].
  intros t' p'' H. exact (proj1 (proj2 (Hfinal t' p'' H))).
Defined.
End sample.
