(* ===== verification/Retrieval.v ===== *)
(** * Evidence retrieval.

    [application/evidence/retrieval.py]: the search scope and hits, and
    [retrieve_evidence], which routes candidates by the GRI index, the section
    and table lineage and two searches, fuses the rankings by reciprocal rank,
    and admits whole verified bundles of source references under a token
    budget into a frozen packet.

    The search port, the token counter and NFC are arguments.  A Python set
    is a list without repetitions; its order is never observed. *)
From S2P Require Import Prelude PyVal Values Digest RulePack Rules Geometry Graph Numeric Normalize Claims Citations SourceRefs Reconcile Consensus Packets.
Open Scope Z_scope.
Open Scope py_scope.

(* ------------------------------------------------------------------ *)
(** ** The search port *)
(* ------------------------------------------------------------------ *)

(** [application/evidence/retrieval.py:92-97 SearchScope] *)
Record SearchScope : Set := {
  ss_tenant_id : pystr; ss_document_version_id : pystr; ss_parse_manifest_id : pystr;
  ss_index_generation : pystr }.

#[export] Instance search_scope_eq_dec : EqDecision SearchScope.
Proof. solve_decision. Defined.

(** [application/evidence/retrieval.py:99-103 SearchScope.__post_init__] *)
Definition mk_SearchScope (s : SearchScope) : result SearchScope :=
  _ ← require_uuid (PStr (ss_tenant_id s));
  _ ← require_uuid (PStr (ss_document_version_id s));
  _ ← require_uuid (PStr (ss_parse_manifest_id s));
  _ ← require (nonblank (ss_index_generation s)) DomainValidationError;
  Ok s.

(** [application/evidence/retrieval.py:106-110 SearchHit] *)
Record SearchHit : Set := {
  hit_scope : SearchScope; hit_source_id : pystr; hit_raw_text_sha256 : pystr }.

(** [application/evidence/retrieval.py:112-114 SearchHit.__post_init__] *)
Definition mk_SearchHit (h : SearchHit) : result SearchHit :=
  _ ← require_uuid (PStr (hit_source_id h));
  _ ← require_sha256 (PStr (hit_raw_text_sha256 h));
  Ok h.

(** [application/evidence/retrieval.py:117-120 SearchResult] *)
Record SearchResult : Set := { sr_hits : list SearchHit; sr_status : pystr }.

(** [application/ingest/gri.py:25-35 IndexEntry] *)
Record IndexEntry : Set := {
  ie_tenant_id : pystr; ie_document_version_id : pystr; ie_parse_manifest_id : pystr;
  ie_indicator_code : pystr; ie_printed_page_refs : list pystr;
  ie_resolved_physical_pages : list Z; ie_link_text : pystr; ie_resolution_state : pystr;
  ie_source_ref : SourceRef }.

(** [application/ingest/gri.py:80-104 _validate_graph] *)
Definition validate_graph (g : CanonicalDocumentGraph) (tenant : pystr) : result unit :=
  _ ← require (gr_tenant_id g =s? tenant) (ValueError "NOT_FOUND");
  _ ← require (nonempty_list (gr_candidates g)
               && forallb (λ b, bool_decide (batch_identity b = graph_identity g)) (gr_candidates g))
        (ValueError "NOT_FOUND");
  require (forallb (λ b, nonempty_list (kb_candidates b)
                         && forallb (λ c, (ns_document_version_id (cb_source c) =s? gr_document_version_id g)
                                          && (ns_parse_manifest_id (cb_source c) =s? gr_parse_manifest_id g))
                              (kb_candidates b)) (gr_blocks g))
    (ValueError "invalid graph provenance").

(* ------------------------------------------------------------------ *)
(** ** Lineage *)
(* ------------------------------------------------------------------ *)

(** [parents.get(id, set())] and [sections.get(id, set())].
    [application/evidence/retrieval.py:308-315 retrieve_evidence] *)
Definition edge_targets (relation : pystr) (g : CanonicalDocumentGraph) (id : pystr) : list pystr :=
  str_dedup (ed_target <$> List.filter (λ e, is_edge relation e && (ed_source e =s? id)) (gr_edges g)).

(** [application/evidence/retrieval.py:317-327 retrieve_evidence.ancestors] *)
Fixpoint climb (fuel : nat) (g : CanonicalDocumentGraph) (source : pystr) (visited pending : list pystr)
    : result (list pystr) :=
  match fuel with
  | O => Ok visited
  | S fuel =>
      match pending with
      | [] => Ok visited
      | parent :: pending =>
          _ ← reject (parent =s? source) DomainValidationError;
          if str_in parent visited then climb fuel g source visited pending
          else climb fuel g source (visited ++ [parent])
                 (rev (edge_targets "table_parent" g parent) ++ pending)
      end
  end.

(** Every id is pushed once by each edge that leads to it.
    [application/evidence/retrieval.py:317-327 retrieve_evidence.ancestors] *)
Definition ancestors (g : CanonicalDocumentGraph) (source : pystr) : result (list pystr) :=
  climb (S (length (gr_edges g))) g source [] (rev (edge_targets "table_parent" g source)).

Definition kind_is (g : CanonicalDocumentGraph) (kinds : list pystr) (id : pystr) : bool :=
  match block_by_id g id with Some b => kind_in kinds b | None => false end.

Definition quality_is (g : CanonicalDocumentGraph) (quality id : pystr) : bool :=
  match block_by_id g id with Some b => kb_quality b =s? quality | None => false end.

Definition block_ids (g : CanonicalDocumentGraph) : list pystr := kb_source_id <$> gr_blocks g.

Definition lookup_block (g : CanonicalDocumentGraph) (id : pystr) : result CanonicalBlock :=
  of_option KeyError (block_by_id g id).

Definition meets (a b : list pystr) : bool := existsb (λ x, str_in x b) a.

Definition pos_int (o : option Z) : bool := match o with Some z => 0 <? z | None => false end.

(** The ancestors of every block, and what they give.
    [application/evidence/retrieval.py:329-335 retrieve_evidence] *)
Record Lineage : Set := {
  li_ancestors : list (pystr * list pystr);
  li_claim_ids : list pystr;
  li_claim_tables : list pystr;
  li_claim_sections : list pystr;
  li_span_prose : list pystr }.

Definition ancestors_of (li : Lineage) (id : pystr) : list pystr :=
  default [] (dict_get id (li_ancestors li)).

(** [application/evidence/retrieval.py:329 retrieve_evidence] *)
Definition tables_among (g : CanonicalDocumentGraph) : list pystr → list pystr :=
  List.filter (kind_is g ["table"]).

(** [application/evidence/retrieval.py:329 retrieve_evidence] *)
Definition table_roots (g : CanonicalDocumentGraph) (li : Lineage) (id : pystr) : list pystr :=
  tables_among g (ancestors_of li id).

(* ------------------------------------------------------------------ *)
(** ** Row scope *)
(* ------------------------------------------------------------------ *)

Section row_scope.
Context (g : CanonicalDocumentGraph) (li : Lineage) (target table_id : pystr).

(** [application/evidence/retrieval.py:344 retrieve_evidence] *)
Definition members : list pystr :=
  List.filter (λ id, str_in table_id (table_roots g li id)) (block_ids g).
(** [application/evidence/retrieval.py:345 retrieve_evidence] *)
Definition structural : list pystr := List.filter (kind_is g ["table_row"; "table_cell"]) members.
(** [application/evidence/retrieval.py:346 retrieve_evidence] *)
Definition rows : list pystr := List.filter (kind_is g ["table_row"]) structural.
(** [application/evidence/retrieval.py:347 retrieve_evidence] *)
Definition cells : list pystr := List.filter (λ id, negb (str_in id rows)) structural.

(** [application/evidence/retrieval.py:348-352 retrieve_evidence] *)
Definition position (id : pystr) : result (list (pystr * CandidateBlock)) :=
  b ← lookup_block g id;
  match kb_winner b with
  | Some w => if kb_quality b =s? "verified" then
                c ← of_option IndexError (winner_of b w); Ok [(id, c)]
              else Ok []
  | None => Ok []
  end.

Definition row_at (positioned : list (pystr * CandidateBlock)) (id : pystr) : option Z :=
  c ← dict_get id positioned; cb_row c.

(** [application/evidence/retrieval.py:361-374 retrieve_evidence] *)
Definition cell_placed (positioned : list (pystr * CandidateBlock)) (id : pystr) : bool :=
  bool_decide (table_roots g li id = [table_id])
  && match List.filter (λ a, str_in a rows) (ancestors_of li id) with
     | [row] => bool_decide (row_at positioned row = row_at positioned id)
     | _ => false
     end
  && match dict_get id positioned with
     | Some c => pos_int (cb_column c) && pos_int (cb_column_span c) && pos_int (cb_row_span c)
     | None => false
     end.

(** [application/evidence/retrieval.py:353-377 retrieve_evidence] *)
Definition row_scoped (positioned : list (pystr * CandidateBlock)) : bool :=
  str_in target rows && (12 <? py_len structural) && quality_is g "verified" table_id
  && set_eqb positioned.*1 structural
  && forallb (λ p : pystr * CandidateBlock, pos_int (cb_row p.2)) positioned
  && all_distinct (λ a b : option Z, bool_decide (a = b)) (row_at positioned <$> rows)
  && forallb (λ id, bool_decide (edge_targets "table_parent" g id = [table_id])) rows
  && forallb (cell_placed positioned) cells
  && forallb (λ row, existsb (λ cell, str_in row (ancestors_of li cell)) cells) rows.

(** [application/evidence/retrieval.py:378-379 retrieve_evidence] *)
Definition row_kept (positioned : list (pystr * CandidateBlock)) (id : pystr) : bool :=
  match row_at positioned id, row_at positioned target with
  | Some r, Some last => r <=? last
  | _, _ => false
  end.

(** [application/evidence/retrieval.py:388-392 retrieve_evidence] *)
Definition repeats_cell (kept : list pystr) (id : pystr) : result bool :=
  if kind_is g ["paragraph"; "heading"] id then
    b ← lookup_block g id;
    any_result (λ cell, c ← lookup_block g cell; x ← block_raw_text b; y ← block_raw_text c; Ok (x =s? y))
      (List.filter (λ a, str_in a cells && str_in a kept) (ancestors_of li id))
  else Ok false.

(** [application/evidence/retrieval.py:378-394 retrieve_evidence] *)
Definition later_rows (positioned : list (pystr * CandidateBlock)) : result (list pystr) :=
  let kept := List.filter (row_kept positioned) structural in
  let later := List.filter (λ id, negb (str_in id kept)) structural in
  notes ← map_result (λ id, out ← if_result (Ok (meets (ancestors_of li id) later)) (Ok true)
                                    (repeats_cell kept id);
                            Ok (if out : bool then [id] else []))
            (List.filter (λ id, negb (str_in id structural)) members);
  Ok (later ++ concat notes).

(** [application/evidence/retrieval.py:343-397 retrieve_evidence] *)
Definition table_scope : result (list pystr * list pystr) :=
  groups ← map_result position structural;
  let positioned := concat groups in
  if row_scoped positioned then excluded ← later_rows positioned; Ok (excluded, [table_id])
  else Ok ([], []).
End row_scope.

(** The ids a row-scoped packet leaves out, and those that are only context.
    [application/evidence/retrieval.py:340-397 retrieve_evidence] *)
Definition row_scope (g : CanonicalDocumentGraph) (li : Lineage) (claim_verified : bool)
    : result (list pystr * list pystr) :=
  match li_claim_ids li, li_claim_tables li with
  | [target], [table_id] => if claim_verified then table_scope g li target table_id else Ok ([], [])
  | _, _ => Ok ([], [])
  end.

(* ------------------------------------------------------------------ *)
(** ** Candidates *)
(* ------------------------------------------------------------------ *)

(** A candidate as the packet holds it.
    [application/evidence/retrieval.py:542-547 retrieve_evidence] *)
Record Evidence : Set := {
  ev_source_id : pystr; ev_source_scope : pystr; ev_allowed_elements : list pyval;
  ev_source_refs : list SourceRef }.

(** [application/evidence/retrieval.py:542-547 retrieve_evidence] *)
Definition evidence_val (c : Evidence) : pyval :=
  PDict [("source_id", PStr (ev_source_id c)); ("source_scope", PStr (ev_source_scope c));
         ("allowed_elements", PList (ev_allowed_elements c));
         ("source_refs", PList (ref_asdict <$> ev_source_refs c))].

(** [application/evidence/retrieval.py:573 retrieve_evidence] *)
Definition with_refs (c : Evidence) (refs : list SourceRef) : Evidence :=
  {| ev_source_id := ev_source_id c; ev_source_scope := ev_source_scope c;
     ev_allowed_elements := ev_allowed_elements c; ev_source_refs := refs |}.

(** What the loop over the candidates has gathered.
    [application/evidence/retrieval.py:470-472 retrieve_evidence] *)
Record Progress : Set := {
  pg_candidates : list Evidence; pg_used : Z; pg_blocked : bool;
  pg_unprocessed : list pystr; pg_omitted : list pystr; pg_deduplicated : list (pystr * list pystr) }.

Definition local_scope (scope : pystr) : bool := str_in scope ["local_claim"; "same_table"].

(** [coverage["unprocessed_source_ids"].append(source_id); blocked = blocked or ...]
    [application/evidence/retrieval.py:499-500 retrieve_evidence] *)
Definition unprocessed (id scope : pystr) (p : Progress) : Progress :=
  {| pg_candidates := pg_candidates p; pg_used := pg_used p;
     pg_blocked := pg_blocked p || local_scope scope; pg_unprocessed := pg_unprocessed p ++ [id];
     pg_omitted := pg_omitted p; pg_deduplicated := pg_deduplicated p |}.

(** [coverage["omitted_source_ids"].append(source_id); blocked = blocked or ...]
    [application/evidence/retrieval.py:589-590 retrieve_evidence] *)
Definition omitted (id scope : pystr) (p : Progress) : Progress :=
  {| pg_candidates := pg_candidates p; pg_used := pg_used p;
     pg_blocked := pg_blocked p || local_scope scope; pg_unprocessed := pg_unprocessed p;
     pg_omitted := pg_omitted p ++ [id]; pg_deduplicated := pg_deduplicated p |}.

(** [candidates.append(candidate); used_tokens += tokens]
    [application/evidence/retrieval.py:586-587 retrieve_evidence] *)
Definition accept_candidate (c : Evidence) (tokens : Z) (p : Progress) : Progress :=
  {| pg_candidates := pg_candidates p ++ [c]; pg_used := pg_used p + tokens;
     pg_blocked := pg_blocked p; pg_unprocessed := pg_unprocessed p; pg_omitted := pg_omitted p;
     pg_deduplicated := pg_deduplicated p |}.

(** [application/evidence/retrieval.py:584 retrieve_evidence] *)
Definition deduplicate (id : pystr) (dropped : list pystr) (p : Progress) : Progress :=
  {| pg_candidates := pg_candidates p; pg_used := pg_used p; pg_blocked := pg_blocked p;
     pg_unprocessed := pg_unprocessed p; pg_omitted := pg_omitted p;
     pg_deduplicated := dict_set id (str_set_sorted dropped) (pg_deduplicated p) |}.

(** [candidate | captions and footnotes of it], in the order of the edges: an
    edge also reaches what an earlier edge added.
    [application/evidence/retrieval.py:506-510 retrieve_evidence] *)
Definition with_notes (g : CanonicalDocumentGraph) (ids : list pystr) : list pystr :=
  foldl (λ ids e, if (is_edge "footnote_of" e || is_edge "caption_of" e) && str_in (ed_target e) ids
                     && negb (str_in (ed_source e) ids)
                  then ids ++ [ed_source e] else ids) ids (gr_edges g).

(** The references that were not admitted before, and the ids of the others.
    [application/evidence/retrieval.py:564-571 retrieve_evidence] *)
Fixpoint compact (admitted : list pystr) (refs : list SourceRef)
    : result (list SourceRef * list pystr) :=
  match refs with
  | [] => Ok ([], [])
  | r :: refs =>
      text ← canonical_json (ref_asdict r);
      if str_in text admitted then
        rest ← compact admitted refs; Ok (rest.1, source_id r :: rest.2)
      else
        rest ← compact (text :: admitted) refs; Ok (r :: rest.1, rest.2)
  end.

Section retrieval.
Context `{Digest} (nfc : pystr → pystr).
Context (token_counter : pystr → result pyval).

(** [application/evidence/retrieval.py:548-550 retrieve_evidence] *)
Definition count_tokens (c : Evidence) : result Z :=
  text ← canonical_json (evidence_val c);
  n ← token_counter text;
  match n with
  | PInt z => if 0 <=? z then Ok z else Raise DomainValidationError
  | _ => Raise DomainValidationError
  end.

Section candidates.
Context (original : Snapshot) (li : Lineage) (claim_refs : list SourceRef).
Context (definitions : list pyval) (tenant : pystr) (max_tokens : Z) (context_only : list pystr).
Notation g := (sn_graph original).

(** [application/evidence/retrieval.py:477-483 retrieve_evidence] *)
Definition scope_of (id : pystr) : pystr :=
  if str_in id (li_claim_ids li) then "local_claim"
  else if meets (table_roots g li id) (li_claim_tables li) then "same_table"
  else "global_bound".

(** [application/evidence/retrieval.py:484 retrieve_evidence] *)
Definition elements_for (scope : pystr) : result (list pyval) :=
  groups ← map_result (λ item, scopes ← getitem "source_scopes" item;
                               inside ← str_in_val scope scopes;
                               if inside : bool then i ← getitem "id" item; Ok [i] else Ok [])
             definitions;
  Ok (concat groups).

(** [application/evidence/retrieval.py:493 retrieve_evidence] *)
Definition own_refs (id : pystr) : list SourceRef :=
  List.filter (λ r, source_id r =s? id) claim_refs.

(** [application/evidence/retrieval.py:488-492 retrieve_evidence] *)
Definition external_spans (id : pystr) : result (list SourceRef) :=
  if str_in id (li_claim_ids li) then Ok []
  else independently_attested_span_refs nfc original id tenant.

(** The verified references of one member of a bundle; [None] where the loop
    breaks.
    [application/evidence/retrieval.py:519-539 retrieve_evidence] *)
Definition member_refs (source : pystr) (spans : list SourceRef) (id : pystr)
    : result (option (list SourceRef)) :=
  b ← lookup_block g id;
  let selected := if str_in id (li_claim_ids li) then own_refs id
                  else if id =s? source then spans else [] in
  if negb (bool_decide (is_Some (kb_winner b)))
     || negb (kb_quality b =s? "verified")
        && negb ((kb_quality b =s? "unverified") && nonempty_list selected && forallb is_verified selected)
  then Ok None
  else
    checked ← match selected with
              | [] => r ← block_source_ref nfc b None None; v ← verify_span_ref nfc r original tenant; Ok [v]
              | _ => Ok selected
              end;
    Ok (if forallb is_verified checked then Some checked else None).

(** [application/evidence/retrieval.py:517-539 retrieve_evidence] *)
Fixpoint bundle_refs (source : pystr) (spans : list SourceRef) (ids : list pystr)
    : result (option (list SourceRef)) :=
  match ids with
  | [] => Ok (Some [])
  | id :: ids =>
      here ← member_refs source spans id;
      match here with
      | None => Ok None
      | Some refs => rest ← bundle_refs source spans ids; Ok (option_map (app refs) rest)
      end
  end.

(** [application/evidence/retrieval.py:585 retrieve_evidence] *)
Definition fits (p : Progress) (tokens : Z) : bool :=
  (tokens <=? 1600) && (pg_used p + tokens <=? max_tokens) && (py_len (pg_candidates p) <? 12).

(** The texts of the references in the packet so far.
    [application/evidence/retrieval.py:563 retrieve_evidence] *)
Definition admitted_texts (p : Progress) : result (list pystr) :=
  map_result (λ r, canonical_json (ref_asdict r)) (pg_candidates p ≫= ev_source_refs).

(** The candidate with the references already in the packet left out, when
    the whole one does not fit or the packet is row scoped.
    [application/evidence/retrieval.py:551-584 retrieve_evidence] *)
Definition compacted (c : Evidence) (tokens : Z) (p : Progress) : result (Evidence * Z * Progress) :=
  if negb (nonempty_list context_only) && fits p tokens then Ok (c, tokens, p)
  else
    admitted ← admitted_texts p;
    match ev_source_refs c with
    | [] => Raise IndexError
    | own :: refs =>
        kd ← compact admitted refs;
        match kd.2 with
        | [] => Ok (c, tokens, p)
        | _ =>
            let c := with_refs c (own :: kd.1) in
            tokens ← count_tokens c;
            Ok (c, tokens, if fits p tokens then deduplicate (ev_source_id c) kd.2 p else p)
        end
    end.

(** [application/evidence/retrieval.py:541-591 retrieve_evidence] *)
Definition try_admit (c : Evidence) (p : Progress) : result Progress :=
  tokens ← count_tokens c;
  '(c, tokens, p) ← compacted c tokens p;
  Ok (if fits p tokens then accept_candidate c tokens p else omitted (ev_source_id c) (ev_source_scope c) p).

(** The bundle of one source: its ancestors, unless it is atomic prose, and
    the notes and captions of these.
    [application/evidence/retrieval.py:504-510 retrieve_evidence] *)
Definition bundle_of (id : pystr) (spans : list SourceRef) : list pystr :=
  let atomic := str_in id (li_span_prose li) || nonempty_list spans in
  with_notes g (id :: if atomic then [] else ancestors_of li id).

(** A cell without its table or its row.
    [application/evidence/retrieval.py:511-513 retrieve_evidence] *)
Definition stray_cell (id : pystr) (bundle : list pystr) : bool :=
  kind_is g ["table_cell"] id
  && negb (nonempty_list (table_roots g li id) && existsb (kind_is g ["table_row"]) bundle).

(** One source of the fused order.
    [application/evidence/retrieval.py:473-593 retrieve_evidence] *)
Definition consider (p : Progress) (id : pystr) : result Progress :=
  _ ← lookup_block g id;
  let scope := scope_of id in
  elements ← elements_for scope;
  spans ← external_spans id;
  let refs := match own_refs id with [] => spans | refs => refs end in
  issues ← (if nonempty_list (unassigned_note_ids g id) then Ok ["" : pystr]
            else evidence_issue_ids nfc original [id] refs);
  if nonempty_list issues then Ok (unprocessed id scope p)
  else
    let bundle := bundle_of id spans in
    if stray_cell id bundle then Ok (unprocessed id scope p)
    else
      refs ← bundle_refs id spans (id :: str_sort (List.filter (λ i, negb (i =s? id)) bundle));
      match refs with
      | None => Ok (unprocessed id scope p)
      | Some refs =>
          try_admit {| ev_source_id := id; ev_source_scope := scope; ev_allowed_elements := elements;
                       ev_source_refs := refs |} p
      end.
End candidates.

(* ------------------------------------------------------------------ *)
(** ** Routes *)
(* ------------------------------------------------------------------ *)

(** The verified pages of the index and the codes left open.
    [application/evidence/retrieval.py:405-422 retrieve_evidence] *)
Definition gri_step (original : Snapshot) (tenant : pystr) (codes : list pystr)
    (acc : list Z * list pystr) (e : IndexEntry) : result (list Z * list pystr) :=
  let g := sn_graph original in
  if negb (str_in (ie_indicator_code e) codes) then Ok acc
  else
    _ ← require ((ie_tenant_id e =s? tenant)
                 && (ie_document_version_id e =s? gr_document_version_id g)
                 && (ie_parse_manifest_id e =s? gr_parse_manifest_id g)) DomainValidationError;
    resolved ← (if ie_resolution_state e =s? "resolved" then
                  r ← verify_span_ref nfc (ie_source_ref e) original tenant;
                  Ok (is_verified r
                      && forallb (λ p, existsb (λ b, page_of_block b =? p) (gr_blocks g))
                           (ie_resolved_physical_pages e))
                else Ok false);
    Ok (if resolved : bool then (acc.1 ++ ie_resolved_physical_pages e, acc.2)
        else (acc.1, acc.2 ++ [ie_indicator_code e])).

(** [application/evidence/retrieval.py:453-463 retrieve_evidence] *)
Definition hit_step (g : CanonicalDocumentGraph) (scope : SearchScope) (acc : list pystr * Z)
    (h : SearchHit) : result (list pystr * Z) :=
  valid ← (if bool_decide (hit_scope h = scope) then
             match block_by_id g (hit_source_id h) with
             | Some b => raw ← block_raw_text b; digest ← text_sha256 raw;
                         Ok (digest =s? hit_raw_text_sha256 h)
             | None => Ok false
             end
           else Ok false);
  Ok (if valid : bool then
        (if str_in (hit_source_id h) acc.1 then acc.1 else acc.1 ++ [hit_source_id h], acc.2)
      else (acc.1, acc.2 + 1)).

(** One search: its status, its ranking when it ran, and the hits rejected.
    [application/evidence/retrieval.py:445-464 retrieve_evidence] *)
Definition run_route (g : CanonicalDocumentGraph) (scope : SearchScope) (answer : option SearchResult)
    : result (pystr * list (list pystr) * Z) :=
  match answer with
  | None => Ok ("failed", [], 0)
  | Some r =>
      acc ← fold_result (hit_step g scope) ([], 0) (take 20 (sr_hits r));
      Ok (sr_status r, [acc.1], acc.2)
  end.

(** [1 / (60 + rank)]
    [application/evidence/retrieval.py:468 retrieve_evidence] *)
Definition reciprocal (rank : Z) : result spec_float :=
  d ← PyFloat.of_Z (60 + rank); Ok (f_div f_one d).

(** [application/evidence/retrieval.py:465-468 retrieve_evidence] *)
Definition add_rank (scores : list (pystr * spec_float)) (rs : Z * pystr)
    : result (list (pystr * spec_float)) :=
  x ← reciprocal rs.1;
  Ok (dict_set rs.2 (f_add (default f_zero (dict_get rs.2 scores)) x) scores).

Definition ranked (ids : list pystr) : list (Z * pystr) :=
  zip (Z.of_nat <$> seq 1 (length ids)) ids.

(** [application/evidence/retrieval.py:465-468 retrieve_evidence] *)
Definition fuse_rankings (rankings : list (list pystr)) : result (list (pystr * spec_float)) :=
  fold_result add_rank [] (rankings ≫= λ r, ranked (str_dedup r)).

(** By falling score, then by id.
    [application/evidence/retrieval.py:469 retrieve_evidence] *)
Definition score_leb (a b : pystr * spec_float) : bool :=
  lex_leb PyFloat.eqb (λ x y, f_leb y x) str_leb (a.2, a.1) (b.2, b.1).

(** [application/evidence/retrieval.py:469 retrieve_evidence] *)
Definition candidate_order (claim_ids : list pystr) (scores : list (pystr * spec_float)) : list pystr :=
  str_dedup (claim_ids ++ (isort score_leb scores).*1).

(* ------------------------------------------------------------------ *)
(** ** The packet *)
(* ------------------------------------------------------------------ *)

(** The arguments of a retrieval that do not change along it. *)
Record RetrievalRequest : Set := {
  rr_claim : Claim; rr_original : Snapshot; rr_tenant : pystr; rr_run_id : pystr;
  rr_generation : pystr; rr_rulepack : RulePackSnapshot; rr_document_context : pydict;
  rr_query_vector : option (list spec_float); rr_gri_entries : list IndexEntry;
  rr_indicator_codes : list pystr; rr_max_tokens : Z; rr_synthetic : bool }.

Context (search : SearchScope → pystr → option (list spec_float) → option SearchResult).

(** [application/evidence/retrieval.py:255-284 retrieve_evidence] *)
Definition admit_request (q : RetrievalRequest) : result SearchScope :=
  let c := rr_claim q in
  let g := sn_graph (rr_original q) in
  _ ← require_uuid (PStr (rr_run_id q));
  _ ← require_uuid (PStr (cl_claim_id c));
  scope ← mk_SearchScope {| ss_tenant_id := rr_tenant q;
                            ss_document_version_id := cl_document_version_id c;
                            ss_parse_manifest_id := cl_parse_manifest_id c;
                            ss_index_generation := rr_generation q |};
  _ ← catch is_value_error (validate_graph g (rr_tenant q)) (λ _, Raise DomainValidationError);
  _ ← require ((cl_tenant_id c =s? rr_tenant q)
               && (cl_document_version_id c =s? gr_document_version_id g)
               && (cl_parse_manifest_id c =s? gr_parse_manifest_id g)
               && (cl_source_sha256 c =s? gr_source_sha256 g)
               && (tenant_id (rr_rulepack q) =s? rr_tenant q)) DomainValidationError;
  _ ← require ((1 <=? rr_max_tokens q) && (rr_max_tokens q <=? 12000)) DomainValidationError;
  _ ← require (forallb (λ k, str_in k ["company"; "period"; "industry"; "boundary"])
                 (dict_keys (rr_document_context q))
               && forallb (λ v, match v with PNone | PStr _ => true | _ => false end)
                    (rr_document_context q).*2) DomainValidationError;
  _ ← require (str_distinct (block_ids g)) DomainValidationError;
  Ok scope.

(** The verified references of the claim.
    [application/evidence/retrieval.py:285-298 retrieve_evidence] *)
Definition claim_references (q : RetrievalRequest) (scope : SearchScope) : result (list SourceRef) :=
  let c := rr_claim q in
  let g := sn_graph (rr_original q) in
  refs ← map_result (λ r, verify_span_ref nfc r (rr_original q) (rr_tenant q)) (cl_source_refs c);
  quoted ← claim_quote_matches_sources nfc (cl_quote c) refs g;
  _ ← require quoted DomainValidationError;
  _ ← require (forallb (λ r, str_in (source_id r) (block_ids g)
                             && (document_version_id r =s? ss_document_version_id scope)
                             && (parse_manifest_id r =s? ss_parse_manifest_id scope)) refs)
        DomainValidationError;
  Ok refs.

(** [application/evidence/retrieval.py:299-304 retrieve_evidence] *)
Definition claim_verified (c : Claim) (refs : list SourceRef) : bool :=
  forallb is_verified refs && (cl_source_quality c =s? "verified").

(** [application/evidence/retrieval.py:305 retrieve_evidence] *)
Definition element_items (pack : RulePackSnapshot) : result (list pyval) :=
  file ← file_content pack "rubric/elements.yaml";
  els ← of_option KeyError (dict_get "elements" file);
  py_iter els.

(** [application/evidence/retrieval.py:308-335 retrieve_evidence] *)
Definition lineage_of (original : Snapshot) (refs : list SourceRef) : result Lineage :=
  let g := sn_graph original in
  _ ← require (forallb (λ e, str_in (ed_source e) (block_ids g) && str_in (ed_target e) (block_ids g))
                 (gr_edges g)) DomainValidationError;
  up ← map_result (λ id, a ← ancestors g id; Ok (id, a)) (block_ids g);
  prose ← attested_prose_ids nfc original refs;
  let ids := str_dedup (source_id <$> refs) in
  let roots id := tables_among g (default [] (dict_get id up)) in
  Ok {| li_ancestors := up; li_claim_ids := ids;
        li_claim_tables := str_dedup (List.filter (λ id, negb (str_in id prose)) ids ≫= roots);
        li_claim_sections := str_dedup (ids ≫= edge_targets "section_parent" g);
        li_span_prose := prose |}.

(** [application/evidence/retrieval.py:398-402 retrieve_evidence] *)
Definition lineage_ranking (g : CanonicalDocumentGraph) (li : Lineage) : list pystr :=
  List.filter (λ id, meets (table_roots g li id) (li_claim_tables li)
                     || meets (edge_targets "section_parent" g id) (li_claim_sections li))
    (block_ids g).

(** [application/evidence/retrieval.py:423 retrieve_evidence] *)
Definition page_ranking (g : CanonicalDocumentGraph) (pages : list Z) : list pystr :=
  kb_source_id <$> List.filter (λ b, existsb (Z.eqb (page_of_block b)) pages) (gr_blocks g).

(** What the routes found. *)
Record Routes : Set := {
  ro_gri_pages : list Z; ro_gri_unresolved : list pystr; ro_rejected : Z;
  ro_lexical : pystr; ro_vector : pystr; ro_scores : list (pystr * spec_float) }.

(** [application/evidence/retrieval.py:403-468 retrieve_evidence] *)
Definition run_routes (q : RetrievalRequest) (scope : SearchScope) (li : Lineage) : result Routes :=
  let g := sn_graph (rr_original q) in
  gri ← fold_result (gri_step (rr_original q) (rr_tenant q) (rr_indicator_codes q)) ([], [])
          (rr_gri_entries q);
  lexical ← run_route g scope (search scope (cl_quote (rr_claim q)) None);
  vector ← match rr_query_vector q with
           | None => Ok ("not_run" : pystr, [], 0)
           | Some v => run_route g scope (search scope (cl_quote (rr_claim q)) (Some v))
           end;
  scores ← fuse_rankings ([page_ranking g gri.1; lineage_ranking g li] ++ lexical.1.2 ++ vector.1.2);
  Ok {| ro_gri_pages := gri.1; ro_gri_unresolved := gri.2; ro_rejected := lexical.2 + vector.2;
        ro_lexical := lexical.1.1; ro_vector := vector.1.1; ro_scores := scores |}.

Definition strs_list (l : list pystr) : pyval := PList (PStr <$> l).

(** [asdict(issue)] *)
Definition issue_val (i : QualityIssue) : pyval :=
  PDict [("issue_id", PStr (qi_issue_id i)); ("kind", PStr (qi_kind i)); ("page_num", PInt (qi_page_num i));
         ("source_ids", strs_tuple (qi_source_ids i)); ("state", PStr (qi_state i));
         ("reason", PStr (qi_reason i))].

Definition edge_val (e : CanonicalEdge) : pyval :=
  PDict [("source_id", PStr (ed_source e)); ("target_id", PStr (ed_target e));
         ("relation", PStr (ed_relation e))].

Definition batch_val (b : CandidateBatch) : pyval :=
  PDict [("tenant_id", PStr (bt_tenant_id b)); ("document_version_id", PStr (bt_document_version_id b));
         ("parse_manifest_id", PStr (bt_parse_manifest_id b)); ("source_sha256", PStr (bt_source_sha256 b));
         ("parser_run_id", PStr (bt_parser_run_id b)); ("parser_name", PStr (bt_parser_name b));
         ("parser_version", PStr (bt_parser_version b)); ("parser_family", PStr (bt_parser_family b));
         ("config_hash", PStr (bt_config_hash b)); ("blocks", PTuple (candidate_val <$> bt_blocks b));
         ("edges", PTuple ((λ e, PDict [("source_native_id", PStr (ce_source e));
                                        ("target_native_id", PStr (ce_target e));
                                        ("relation", PStr (ce_relation e))]) <$> bt_edges b));
         ("synthetic", PBool (bt_synthetic b))].

(** [asdict(original)]: a span verified graph has two fields more. *)
Definition snapshot_val (s : Snapshot) : pyval :=
  let g := sn_graph s in
  PDict ([("tenant_id", PStr (gr_tenant_id g)); ("document_version_id", PStr (gr_document_version_id g));
          ("parse_manifest_id", PStr (gr_parse_manifest_id g)); ("source_sha256", PStr (gr_source_sha256 g));
          ("blocks", PTuple (block_val <$> gr_blocks g)); ("edges", PTuple (edge_val <$> gr_edges g));
          ("issues", PTuple (issue_val <$> gr_issues g));
          ("candidates", PTuple (batch_val <$> gr_candidates g));
          ("validation_profile", PStr (gr_validation_profile g))]
         ++ match sn_spans s with
            | Some (refs, receipt) => [("verified_spans", PTuple (ref_asdict <$> refs));
                                       ("span_receipt_sha256", PStr receipt)]
            | None => []
            end).

Definition int_sort (l : list Z) : list Z := isort Z.leb (dedup Z.eqb l).

(** The blocks that are neither candidates nor omitted.
    [application/evidence/retrieval.py:594-598 retrieve_evidence] *)
Definition unprocessed_ids (g : CanonicalDocumentGraph) (p : Progress) : list pystr :=
  let seen := ev_source_id <$> pg_candidates p in
  str_set_sorted (pg_unprocessed p
                  ++ List.filter (λ id, negb (str_in id seen) && negb (str_in id (pg_omitted p))) (block_ids g)).

(** [application/evidence/retrieval.py:424-441 retrieve_evidence],
    [application/evidence/retrieval.py:594-600 retrieve_evidence] *)
Definition coverage_val (q : RetrievalRequest) (ro : Routes) (scoped : list pystr * list pystr)
    (p : Progress) : pyval :=
  let g := sn_graph (rr_original q) in
  PDict [("routes", strs_list ["gri"; "section_table"; "lexical"; "vector"]); ("rounds", PInt 1);
         ("gri_unresolved", strs_list (ro_gri_unresolved ro));
         ("gri_pages", PList (PInt <$> int_sort (ro_gri_pages ro)));
         ("rejected_hit_count", PInt (ro_rejected ro)); ("not_found_state", PStr "unknown");
         ("omitted_source_ids", strs_list (pg_omitted p));
         ("unprocessed_source_ids", strs_list (unprocessed_ids g p));
         ("deduplicated_source_refs",
          PDict ((λ d : pystr * list pystr, (d.1, strs_list d.2)) <$> pg_deduplicated p));
         ("row_context_excluded_source_ids", strs_list (str_set_sorted scoped.1));
         ("context_only_source_ids", strs_list (str_set_sorted scoped.2));
         ("source_quality",
          PDict ((λ b, (kb_source_id b, PStr (kb_quality b)))
                   <$> List.filter (λ b, negb (kb_quality b =s? "verified")) (gr_blocks g)));
         ("lexical_status", PStr (ro_lexical ro)); ("vector_status", PStr (ro_vector ro));
         ("token_budget", PInt (rr_max_tokens q)); ("quality_issues", PList (issue_val <$> gr_issues g));
         ("pages", PList (PInt <$> int_sort (page_num <$> (pg_candidates p ≫= ev_source_refs))));
         ("tokens", PInt (pg_used p))].

(** [application/evidence/retrieval.py:601-628 retrieve_evidence] *)
Definition packet_val (q : RetrievalRequest) (scope : SearchScope) (refs : list SourceRef)
    (allowed : list pyval) (coverage : pyval) (p : Progress) (graph_sha query_sha : pystr) : pydict :=
  let c := rr_claim q in
  let g := sn_graph (rr_original q) in
  [("schema_version", PStr "1"); ("tenant_id", PStr (ss_tenant_id scope));
   ("document_version_id", PStr (ss_document_version_id scope));
   ("parse_manifest_id", PStr (ss_parse_manifest_id scope));
   ("index_generation", PStr (ss_index_generation scope)); ("run_id", PStr (rr_run_id q));
   ("claim_id", PStr (cl_claim_id c)); ("atomic_quote", PStr (cl_quote c));
   ("claim_source_refs", PList (ref_asdict <$> refs)); ("document_context", PDict (rr_document_context q));
   ("allowed_elements", PTuple allowed); ("evidence_candidates", PList (evidence_val <$> pg_candidates p));
   ("candidate_bindings", PList ((λ e, PDict [("source_id", PStr (ev_source_id e));
                                              ("state", PStr "undetermined")]) <$> pg_candidates p));
   ("search_coverage", coverage);
   ("status", PStr (if pg_blocked p then "blocked_evidence" else "candidate"));
   ("source_sha256", PStr (gr_source_sha256 g)); ("graph_sha256", PStr graph_sha);
   ("rule_sha256", PStr (sha256 (rr_rulepack q))); ("extraction_provenance", receipt_val (cl_receipt c));
   ("claim_revision", PInt (cl_revision c)); ("query_vector_sha256", PStr query_sha);
   ("synthetic", PBool (rr_synthetic q || pf_synthetic (rc_profile (cl_receipt c))
                        || existsb bt_synthetic (gr_candidates g)));
   ("content_trust", PStr "untrusted_document_data")].

(** The sources the loop considers, in order.
    [application/evidence/retrieval.py:473-475 retrieve_evidence] *)
Definition considered (li : Lineage) (ro : Routes) (scoped : list pystr * list pystr) : list pystr :=
  List.filter (λ id, negb (str_in id (scoped.1 ++ scoped.2)))
    (candidate_order (li_claim_ids li) (ro_scores ro)).

(** What the retrieval holds before the loop. *)
Record Prepared : Set := {
  pr_scope : SearchScope; pr_refs : list SourceRef; pr_items : list pyval; pr_allowed : list pyval;
  pr_lineage : Lineage; pr_scoped : list pystr * list pystr; pr_routes : Routes }.

(** [application/evidence/retrieval.py:255-468 retrieve_evidence] *)
Definition prepare (q : RetrievalRequest) : result Prepared :=
  scope ← admit_request q;
  refs ← claim_references q scope;
  items ← element_items (rr_rulepack q);
  allowed ← map_result (getitem "id") items;
  li ← lineage_of (rr_original q) refs;
  scoped ← row_scope (sn_graph (rr_original q)) li (claim_verified (rr_claim q) refs);
  ro ← run_routes q scope li;
  Ok {| pr_scope := scope; pr_refs := refs; pr_items := items; pr_allowed := allowed;
        pr_lineage := li; pr_scoped := scoped; pr_routes := ro |}.

(** [blocked = not claim_verified] and empty lists.
    [application/evidence/retrieval.py:470-472 retrieve_evidence] *)
Definition start_progress (blocked : bool) : Progress :=
  {| pg_candidates := []; pg_used := 0; pg_blocked := blocked; pg_unprocessed := []; pg_omitted := [];
     pg_deduplicated := [] |}.

(** The loop over the fused order.
    [application/evidence/retrieval.py:470-593 retrieve_evidence] *)
Definition gather (q : RetrievalRequest) (pr : Prepared) : result Progress :=
  fold_result (consider (rr_original q) (pr_lineage pr) (pr_refs pr) (pr_items pr) (rr_tenant q)
                 (rr_max_tokens q) (pr_scoped pr).2)
    (start_progress (negb (claim_verified (rr_claim q) (pr_refs pr))))
    (considered (pr_lineage pr) (pr_routes pr) (pr_scoped pr)).

(** [application/evidence/retrieval.py:230-628 retrieve_evidence] *)
Definition retrieve_evidence (q : RetrievalRequest) : result EvidencePacket :=
  pr ← prepare q;
  p ← gather q pr;
  graph_sha ← canonical_hash (snapshot_val (rr_original q));
  query_sha ← canonical_hash (match rr_query_vector q with
                              | Some v => PTuple (PFloat <$> v)
                              | None => PNone
                              end);
  freeze_packet (packet_val q (pr_scope pr) (pr_refs pr) (pr_allowed pr)
                   (coverage_val q (pr_routes pr) (pr_scoped pr) p) p graph_sha query_sha).
End retrieval.
