(* ===== verification/RetrievalSpec.v ===== *)
(** * What evidence retrieval promises.

    The lineage walk is exact; the loop over the fused order admits only
    verified bundles, stays within its bounds, accounts for every block and
    reports a packet as usable only when nothing local was left out; a search
    can route a source but not add one of its own. *)
From S2P Require Import Prelude PyVal JsonCodec Values Digest RulePack Rules RulesSpec Geometry Graph GraphSpec Numeric NumericSpec Normalize NumericEvidence Claims ClaimsSpec Citations CitationsSpec SourceRefs Consensus Packets PacketsSpec Retrieval.
From Stdlib Require Import Btauto.
Open Scope Z_scope.

(* ------------------------------------------------------------------ *)
(** ** The lineage walk *)
(* ------------------------------------------------------------------ *)

(** One [table_parent] edge. *)
Definition above (g : CanonicalDocumentGraph) (a b : pystr) : Prop :=
  b ∈ edge_targets "table_parent" g a.

(** The edges whose source was not expanded. *)
Definition leaves (relation id : pystr) (e : CanonicalEdge) : bool :=
  is_edge relation e && (ed_source e =s? id).

Definition edges_left (relation : pystr) (l : list CanonicalEdge) (done : list pystr) : nat :=
  length (List.filter (λ e, is_edge relation e && negb (str_in (ed_source e) done)) l).

Lemma dedup_from_length (seen l : list pystr) : (length (dedup_from str_eqb seen l) <= length l)%nat.
Proof.
  revert seen. induction l as [|x l IH]; intros seen; cbn [dedup_from length]; [lia|].
  destruct (existsb _ _); cbn [length]; [specialize (IH seen)|specialize (IH (x :: seen))]; lia.
Qed.

Lemma edge_targets_length relation g id :
  (length (edge_targets relation g id) <= length (List.filter (leaves relation id) (gr_edges g)))%nat.
Proof.
  unfold edge_targets, str_dedup, dedup. etransitivity; [apply dedup_from_length|].
  by rewrite length_fmap.
Qed.

Lemma edges_left_step relation l id done :
  id ∉ done →
  (length (List.filter (leaves relation id) l) + edges_left relation l (done ++ [id])
   <= edges_left relation l done)%nat.
Proof.
  intros Hid. unfold edges_left, leaves. induction l as [|e l IH]; [done|].
  cbn [List.filter]. unfold str_in in *. rewrite existsb_app. cbn [existsb]. rewrite orb_false_r.
  destruct (is_edge relation e); cbn [andb]; [|exact IH].
  destruct (str_eqb_spec (ed_source e) id) as [->|Hne].
  - assert (existsb (str_eqb id) done = false) as -> by by apply str_in_false.
    cbn [orb negb length]. lia.
  - rewrite orb_false_r. destruct (existsb _ done); cbn [negb length]; lia.
Qed.

Lemma edges_left_le relation l done : (edges_left relation l done <= length l)%nat.
Proof. unfold edges_left. induction l as [|e l IH]; [done|]. cbn. case_match; cbn; lia. Qed.

Lemma closed_reaches g source (visited : list pystr) :
  (∀ y, above g source y → y ∈ visited) → (∀ x y, x ∈ visited → above g x y → y ∈ visited) →
  ∀ x, tc (above g) source x → x ∈ visited.
Proof. intros H1 H2 x. revert x. apply tc_ind_r; eauto. Qed.

(** What the walk pushes: the parents. *)
Lemma pushed_above g p y : y ∈ rev (edge_targets "table_parent" g p) ↔ above g p y.
Proof. unfold above. by rewrite !list_elem_of_In, <- in_rev. Qed.

Lemma climb_exact fuel g source visited pending :
  (length pending + edges_left "table_parent" (gr_edges g) (source :: visited) <= fuel)%nat →
  source ∉ visited → NoDup visited →
  (∀ x, x ∈ visited ++ pending → tc (above g) source x) →
  (∀ y, above g source y → y ∈ visited ++ pending) →
  (∀ x y, x ∈ visited → above g x y → y ∈ visited ++ pending) →
  match climb fuel g source visited pending with
  | Ok up => NoDup up ∧ source ∉ up ∧ ∀ x, x ∈ up ↔ tc (above g) source x
  | Raise e => e = DomainValidationError ∧ tc (above g) source source
  end.
Proof.
  assert (Hdone : ∀ visited, source ∉ visited → NoDup visited →
      (∀ x, x ∈ visited ++ [] → tc (above g) source x) →
      (∀ y, above g source y → y ∈ visited ++ []) →
      (∀ x y, x ∈ visited → above g x y → y ∈ visited ++ []) →
      NoDup visited ∧ source ∉ visited ∧ ∀ x, x ∈ visited ↔ tc (above g) source x).
  { intros v Hs Hnd Hr H1 H2. rewrite app_nil_r in *. split_and!; [done|done|]. intros x.
    split; [apply Hr|]. by apply closed_reaches. }
  revert visited pending. induction fuel as [|fuel IH]; intros visited pending Hf Hs Hnd Hr H1 H2.
  { destruct pending; [|cbn in Hf; lia]. by apply Hdone. }
  cbn [climb]. destruct pending as [|p pending]; [by apply Hdone|].
  assert (Hp : tc (above g) source p) by (apply Hr, elem_of_app; right; left).
  destruct (str_eqb_spec p source) as [->|Hne]; [done|]. cbn [reject mbind result_bind].
  cbn [length] in Hf. destruct (str_in p visited) eqn:Hv.
  - apply str_in_iff in Hv.
    assert (Hdrop : ∀ y, y ∈ visited ++ p :: pending → y ∈ visited ++ pending).
    { intros y. rewrite !elem_of_app, elem_of_cons. intros [?|[->|?]]; tauto. }
    apply IH; try done; [lia|..]; [|by intros; apply Hdrop, H1|by intros x y ??; eapply Hdrop, H2].
    intros x. rewrite elem_of_app. intros Hx. apply Hr. rewrite elem_of_app, elem_of_cons. tauto.
  - apply str_in_false in Hv.
    assert (Hps : p ∉ source :: visited) by by rewrite not_elem_of_cons.
    pose proof (edges_left_step "table_parent" (gr_edges g) p (source :: visited) Hps) as Hstep.
    pose proof (edge_targets_length "table_parent" g p) as Hlen. cbn [app] in Hstep.
    assert (Hq : ∀ y, y ∈ rev (edge_targets "table_parent" g p) ↔ above g p y) by apply pushed_above.
    assert (Hmove : ∀ y, y ∈ visited ++ p :: pending →
                         y ∈ (visited ++ [p]) ++ rev (edge_targets "table_parent" g p) ++ pending).
    { intros y. rewrite !elem_of_app, elem_of_cons, list_elem_of_singleton. tauto. }
    apply IH.
    + rewrite length_app, length_rev. lia.
    + rewrite elem_of_app, list_elem_of_singleton. intros [?|?]; congruence.
    + apply NoDup_app. split_and!; [done| |apply NoDup_singleton].
      intros x Hx ->%list_elem_of_singleton. done.
    + intros x. rewrite !elem_of_app, Hq, list_elem_of_singleton.
      intros [[?| ->]|[?|?]]; [|done|by eapply tc_r|]; apply Hr; rewrite elem_of_app, elem_of_cons; tauto.
    + intros y Hy. by apply Hmove, H1.
    + intros x y [Hx| ->%list_elem_of_singleton]%elem_of_app Hy; [by eapply Hmove, H2|].
      rewrite !elem_of_app, Hq. tauto.
Qed.

(** The lineage walk of the retrieval always ends and is exact.  It
    raises, and only a validation error, exactly when the source is among its
    own ancestors; otherwise it lists, once each, the blocks that
    [table_parent] edges reach from the source. *)
Theorem ancestors_exact g source :
  match ancestors g source with
  | Ok up => NoDup up ∧ ¬ tc (above g) source source ∧ ∀ x, x ∈ up ↔ tc (above g) source x
  | Raise e => e = DomainValidationError ∧ tc (above g) source source
  end.
Proof.
  pose proof (climb_exact (S (length (gr_edges g))) g source []
                (rev (edge_targets "table_parent" g source))) as H.
  assert (Hfuel : (length (rev (edge_targets "table_parent" g source)) + edges_left "table_parent" (gr_edges g) [source]
                   <= S (length (gr_edges g)))%nat).
  { rewrite length_rev. pose proof (edges_left_step "table_parent" (gr_edges g) source [] (not_elem_of_nil _)) as Hl.
    pose proof (edge_targets_length "table_parent" g source). pose proof (edges_left_le "table_parent" (gr_edges g) []).
    cbn [app] in Hl. lia. }
  specialize (H Hfuel (not_elem_of_nil _) NoDup_nil_2).
  unfold ancestors. destruct (climb _ _ _ _ _) as [up|e].
  - destruct H as (Hn & Hs & Hx).
    + intros x Hx. by apply tc_once, pushed_above.
    + intros y Hy. by apply pushed_above.
    + by intros x y ?%elem_of_nil.
    + split_and!; [done|by rewrite <- Hx|done].
  - apply H.
    + intros x Hx. by apply tc_once, pushed_above.
    + intros y Hy. by apply pushed_above.
    + by intros x y ?%elem_of_nil.
Qed.

(* ------------------------------------------------------------------ *)
(** ** Rankings *)
(* ------------------------------------------------------------------ *)

Section rankings.
Context `{Digest}.

(** A hit the code keeps: of the scope of the search, naming a block by the
    digest of its stored text. *)
Definition valid_hit (g : CanonicalDocumentGraph) (scope : SearchScope) (h : SearchHit) : Prop :=
  hit_scope h = scope ∧ ∃ b raw, block_by_id g (hit_source_id h) = Some b ∧ block_raw_text b = Ok raw
                                 ∧ text_sha256 raw = Ok (hit_raw_text_sha256 h).

Lemma hits_valid g scope l acc acc' :
  fold_result (hit_step g scope) acc l = Ok acc' →
  ∀ id, id ∈ acc'.1 → id ∈ acc.1 ∨ ∃ h, h ∈ l ∧ hit_source_id h = id ∧ valid_hit g scope h.
Proof.
  revert acc. induction l as [|h l IH]; intros acc; cbn [fold_result]; [intros [= <-]; by left|].
  intros (acc1 & H1 & Hl)%bind_Ok_inv id Hid. destruct (IH _ Hl id Hid) as [Hin|(h' & Hh' & ?)].
  2: { right. exists h'. split; [by right|done]. }
  unfold hit_step in H1. apply bind_Ok_inv in H1 as (valid & Hv & [= <-]).
  destruct valid; [|by left]. cbn [fst] in Hin.
  assert (Hin' : id ∈ acc.1 ∨ id = hit_source_id h).
  { destruct (str_in (hit_source_id h) acc.1); [by left|].
    apply elem_of_app in Hin as [?|?%list_elem_of_singleton]; [by left|by right]. }
  destruct Hin' as [?| ->]; [by left|right]. exists h. split; [left|]. split; [done|].
  case_bool_decide as Hs; [|done]. split; [done|].
  destruct (block_by_id g (hit_source_id h)) as [b|]; [|done].
  apply bind_Ok_inv in Hv as (raw & Hraw & Hv). apply bind_Ok_inv in Hv as (digest & Hd & [= Hq]).
  apply str_eqb_eq in Hq as ->. by exists b, raw.
Qed.

Lemma route_valid g scope answer status rankings rejected :
  run_route g scope answer = Ok (status, rankings, rejected) →
  ∀ ranking id, ranking ∈ rankings → id ∈ ranking →
    ∃ r h, answer = Some r ∧ h ∈ take 20 (sr_hits r) ∧ hit_source_id h = id ∧ valid_hit g scope h.
Proof.
  unfold run_route. destruct answer as [r|]; [|intros [= _ <- _]; by intros ? ? ?%elem_of_nil].
  intros (acc & Ha & [= _ <- _])%bind_Ok_inv ranking id ->%list_elem_of_singleton Hid.
  destruct (hits_valid _ _ _ _ _ Ha id Hid) as [?%elem_of_nil|(h & Hh & Hi & Hv)]; [done|].
  by exists r, h.
Qed.

Lemma ranked_ids l x : x ∈ (ranked l).*2 → x ∈ l.
Proof.
  unfold ranked. generalize 1%nat. induction l as [|y l IH]; intros n; [by intros ?%elem_of_nil|].
  cbn. intros [->|Hin]%elem_of_cons; [left|right]. by eapply IH.
Qed.

Lemma fuse_keys l scores scores' :
  fold_result add_rank scores l = Ok scores' →
  ∀ k, k ∈ dict_keys scores' → k ∈ dict_keys scores ∨ k ∈ l.*2.
Proof.
  revert scores. induction l as [|x l IH]; intros scores; cbn [fold_result]; [intros [= <-]; by left|].
  intros (s1 & H1 & Hl)%bind_Ok_inv k Hk. rewrite fmap_cons, elem_of_cons.
  destruct (IH _ Hl k Hk) as [Hin|?]; [|tauto]. unfold add_rank in H1.
  apply bind_Ok_inv in H1 as (f & _ & [= <-]). apply dict_keys_set in Hin as [->|?]; tauto.
Qed.
End rankings.

(* ------------------------------------------------------------------ *)
(** ** One step of the loop *)
(* ------------------------------------------------------------------ *)

Section spec.
Context `{Digest} (nfc : pystr → pystr) (token_counter : pystr → result pyval).
Notation count_tokens := (count_tokens token_counter).

(** A verified answer of the shared verifier. *)
Definition vouched (s : Snapshot) (tenant : pystr) (r : SourceRef) : Prop :=
  is_verified r = true ∧ ∃ r0, verify_span_ref nfc r0 s tenant = Ok r.

(** The whole bundle of one source: verified, its own reference first. *)
Definition sound_bundle (s : Snapshot) (tenant : pystr) (c : Evidence) : Prop :=
  Forall (vouched s tenant) (ev_source_refs c)
  ∧ ∃ own rest, ev_source_refs c = own :: rest ∧ source_id own = ev_source_id c.

Lemma lookup_block_Ok g id b : lookup_block g id = Ok b → kb_source_id b = id ∧ b ∈ gr_blocks g.
Proof.
  unfold lookup_block, block_by_id. intros Hf%of_option_Ok. apply find_some in Hf as [Hin Hid%str_eqb_eq].
  split; [done|]. by apply in_rev, list_elem_of_In in Hin.
Qed.

Lemma compact_sub admitted refs kd : compact admitted refs = Ok kd → ∀ r, r ∈ kd.1 → r ∈ refs.
Proof.
  revert admitted kd. induction refs as [|x refs IH]; intros admitted kd; cbn [compact].
  { intros [= <-]. by intros r ?%elem_of_nil. }
  intros (text & _ & Hk)%bind_Ok_inv. destruct (str_in text admitted).
  - apply bind_Ok_inv in Hk as (rest & Hr & [= <-]). intros r Hin. right. by eapply IH.
  - apply bind_Ok_inv in Hk as (rest & Hr & [= <-]). intros r [->|Hin]%elem_of_cons; [left|right; by eapply IH].
Qed.

Section step.
Context (original : Snapshot) (li : Lineage) (claim_refs : list SourceRef).
Context (definitions : list pyval) (tenant : pystr) (max_tokens : Z) (context_only : list pystr).
Context (claim_vouched : ∀ r, r ∈ claim_refs → ∃ r0, verify_span_ref nfc r0 original tenant = Ok r).
Notation g := (sn_graph original).

Lemma external_span_vouched id spans : external_spans nfc original li tenant id = Ok spans →
  ∀ r, r ∈ spans → vouched original tenant r ∧ source_id r = id.
Proof.
  unfold external_spans. destruct (str_in id _); [intros [= <-]; by intros r ?%elem_of_nil|].
  unfold independently_attested_span_refs. destruct (sn_spans original) as [[spans0 receipt]|]; [|intros [= <-]; by intros r ?%elem_of_nil].
  destruct (find _ _) as [b|]; [|intros [= <-]; by intros r ?%elem_of_nil].
  destruct (_ && _); [|intros [= <-]; by intros r ?%elem_of_nil].
  intros [_ Ha]%admitted_spans r Hr. destruct (Ha r Hr) as (_ & Hv & span & _ & Hid & Hs).
  split; [split; [done|by exists span]|]. apply verify_span_fields in Hs. congruence.
Qed.

Lemma member_refs_sound source spans id refs :
  (∀ r, r ∈ spans → vouched original tenant r ∧ source_id r = source) →
  member_refs nfc original li claim_refs tenant source spans id = Ok (Some refs) →
  Forall (vouched original tenant) refs ∧ ∃ own rest, refs = own :: rest ∧ source_id own = id.
Proof using Type claim_vouched.
  intros Hsp. unfold member_refs. intros (b & Hb & Hr)%bind_Ok_inv. cbv zeta in Hr.
  destruct (_ || _); [done|]. apply bind_Ok_inv in Hr as (checked & Hc & Hr).
  destruct (forallb is_verified checked) eqn:Hv; [|done]. injection Hr as <-.
  rewrite forallb_forall in Hv.
  assert (Hsel : ∀ r, r ∈ (if str_in id (li_claim_ids li) then own_refs claim_refs id
                           else if (id =s? source)%py then spans else []) →
                 (∃ r0, verify_span_ref nfc r0 original tenant = Ok r) ∧ source_id r = id).
  { intros r. destruct (str_in id _).
    - unfold own_refs. rewrite list_elem_of_In, filter_In. intros [Hin Hid%str_eqb_eq].
      split; [|done]. by apply claim_vouched, list_elem_of_In.
    - destruct (str_eqb_spec id source) as [->|]; [|by intros ?%elem_of_nil].
      intros Hin. by destruct (Hsp r Hin) as [[_ ?] ?]. }
  destruct (if str_in id (li_claim_ids li) then _ else _) as [|x l].
  - apply bind_Ok_inv in Hc as (r0 & Hr0 & Hc). apply bind_Ok_inv in Hc as (v & Hvr & [= <-]).
    split; [apply Forall_singleton; split; [apply Hv; by left|by exists r0]|].
    exists v, []. split; [done|]. apply block_source_ref_Ok in Hr0 as (_ & _ & _ & _ & _ & Hid & _).
    apply verify_span_fields in Hvr. apply lookup_block_Ok in Hb as [Hbi _]. congruence.
  - injection Hc as <-. split.
    + apply Forall_forall. intros r Hr. split; [by apply Hv, list_elem_of_In|by apply Hsel].
    + exists x, l. split; [done|]. by apply Hsel; left.
Qed.

Lemma bundle_refs_sound source spans ids refs :
  (∀ r, r ∈ spans → vouched original tenant r ∧ source_id r = source) →
  bundle_refs nfc original li claim_refs tenant source spans ids = Ok (Some refs) →
  Forall (vouched original tenant) refs
  ∧ match ids with
    | id :: _ => ∃ own rest, refs = own :: rest ∧ source_id own = id
    | [] => True
    end.
Proof using Type claim_vouched.
  intros Hsp. revert refs. induction ids as [|id ids IH]; intros refs; cbn [bundle_refs].
  { intros [= <-]. done. }
  intros ([here|] & Hh & Hr)%bind_Ok_inv; [|done]. apply bind_Ok_inv in Hr as ([rest|] & Hrest & Hr); [|done].
  injection Hr as <-. apply member_refs_sound in Hh as (Hf & own & tl & -> & Hid); [|done].
  apply IH in Hrest as [Hf' _]. split; [by apply Forall_app|]. by exists own, (tl ++ rest).
Qed.

Lemma compacted_sound c tokens p c' tokens' p' :
  count_tokens c = Ok tokens → sound_bundle original tenant c →
  compacted token_counter max_tokens context_only c tokens p = Ok (c', tokens', p') →
  count_tokens c' = Ok tokens' ∧ sound_bundle original tenant c'
  ∧ ev_source_id c' = ev_source_id c ∧ ev_source_scope c' = ev_source_scope c
  ∧ (p' = p ∨ fits max_tokens p tokens' = true ∧ ∃ dropped, p' = deduplicate (ev_source_id c) dropped p).
Proof.
  intros Ht Hs. unfold compacted. destruct (_ && _); [intros [= <- <- <-]; split_and!; by try left|].
  intros (admitted & _ & Hr)%bind_Ok_inv. destruct Hs as [Hf (own & rest & Hrefs & Hown)].
  rewrite Hrefs in Hr. apply bind_Ok_inv in Hr as (kd & Hk & Hr).
  destruct kd.2 as [|d ds] eqn:Hd.
  { injection Hr as <- <- <-. split_and!; [done| |done|done|by left]. split; [done|by exists own, rest]. }
  apply bind_Ok_inv in Hr as (n & Hn & [= <- <- <-]). cbn [with_refs ev_source_id ev_source_scope].
  split_and!; [done| |done|done|].
  - rewrite Hrefs in Hf. apply Forall_cons in Hf as [Ho Hf]. split.
    + cbn. apply Forall_cons. split; [done|]. rewrite Forall_forall in *. intros r Hr.
      eapply Hf, compact_sub; done.
    + by exists own, kd.1.
  - destruct (fits max_tokens p n); [right|by left]. split; [done|by exists (d :: ds)].
Qed.

(** What considering a source can do. *)
Inductive considered_as (id : pystr) (p : Progress) : Progress → Prop :=
| as_unprocessed : considered_as id p (unprocessed id (scope_of original li id) p)
| as_omitted : considered_as id p (omitted id (scope_of original li id) p)
| as_admitted c tokens p0 :
    ev_source_id c = id → ev_source_scope c = scope_of original li id →
    sound_bundle original tenant c → count_tokens c = Ok tokens → fits max_tokens p tokens = true →
    p0 = p ∨ (∃ dropped, p0 = deduplicate id dropped p) →
    considered_as id p (accept_candidate c tokens p0).

Lemma consider_cases p id p' :
  consider nfc token_counter original li claim_refs definitions tenant max_tokens context_only p id = Ok p' →
  considered_as id p p'.
Proof using Type claim_vouched.
  unfold consider. intros (b & Hb & Hr)%bind_Ok_inv. cbv zeta in Hr.
  apply bind_Ok_inv in Hr as (elements & _ & Hr). apply bind_Ok_inv in Hr as (spans & Hsp & Hr).
  apply bind_Ok_inv in Hr as (issues & _ & Hr). destruct (nonempty_list issues).
  { injection Hr as <-. constructor. }
  destruct (stray_cell _ _ _ _); [injection Hr as <-; constructor|].
  apply bind_Ok_inv in Hr as ([refs|] & Hrefs & Hr); [|injection Hr as <-; constructor].
  apply bundle_refs_sound in Hrefs as [Hf (own & rest & Hown & Hid)]; [|by apply external_span_vouched].
  unfold try_admit in Hr. apply bind_Ok_inv in Hr as (tokens & Ht & Hr).
  apply bind_Ok_inv in Hr as ([[c tokens'] p0] & Hc & Hr). apply compacted_sound in Hc; [|done|].
  2: { split; [done|]. by exists own, rest. }
  cbn [ev_source_id ev_source_scope] in Hc. destruct Hc as (Ht' & Hs & Hi & Hsc & Hp0).
  destruct (fits max_tokens p0 tokens') eqn:Hfit; injection Hr as <-.
  - eapply as_admitted; try done.
    + destruct Hp0 as [->|[_ [dropped ->]]]; done.
    + destruct Hp0 as [->|[_ [dropped ->]]]; [by left|right; by exists dropped].
  - destruct Hp0 as [->|[Hfp [dropped ->]]]; [rewrite Hi, Hsc; constructor|].
    exfalso. unfold fits in *. cbn [deduplicate pg_used pg_candidates] in Hfit. congruence.
Qed.

(* ------------------------------------------------------------------ *)
(** ** The loop *)
(* ------------------------------------------------------------------ *)

Definition progress_ids (p : Progress) : list pystr :=
  (ev_source_id <$> pg_candidates p) ++ pg_unprocessed p ++ pg_omitted p.

Definition total (ts : list Z) : Z := foldr Z.add 0 ts.

Lemma total_app a b : total (a ++ b) = total a + total b.
Proof. unfold total. induction a as [|t a IH]; cbn; [done|]. rewrite IH. lia. Qed.

(** The state of the loop after the sources [done]. *)
Record gathered (blocked0 : bool) (done : list pystr) (p : Progress) : Prop := {
  ga_ids : progress_ids p ≡ₚ done;
  ga_sound : Forall (sound_bundle original tenant) (pg_candidates p);
  ga_scopes : Forall (λ c, ev_source_scope c = scope_of original li (ev_source_id c)) (pg_candidates p);
  ga_tokens : ∃ ts, Forall2 (λ c t, count_tokens c = Ok t ∧ 0 <= t <= 1600) (pg_candidates p) ts
                    ∧ pg_used p = total ts;
  ga_budget : pg_used p <= max_tokens;
  ga_count : py_len (pg_candidates p) <= 12;
  ga_blocked : pg_blocked p = blocked0 || existsb (λ id, local_scope (scope_of original li id))
                                            (pg_unprocessed p ++ pg_omitted p) }.

Lemma count_tokens_nonneg c t : count_tokens c = Ok t → 0 <= t.
Proof.
  unfold Retrieval.count_tokens. intros (text & _ & Hr)%bind_Ok_inv. apply bind_Ok_inv in Hr as (n & _ & Hr).
  destruct n; try discriminate. destruct (Z.leb_spec 0 z); [|discriminate]. by injection Hr as <-.
Qed.

Lemma consider_gathered b done id p p' :
  gathered b done p → considered_as id p p' → gathered b (done ++ [id]) p'.
Proof.
  intros [Hids Hs Hsc (ts & Hts & Hused) Hb Hn Hbl] Hc. destruct Hc as [| |c tokens p0 <- Hscope Hc Ht Hfit Hp0].
  - split; try done; [|by exists ts|].
    + unfold progress_ids, unprocessed in *. cbn [pg_candidates pg_unprocessed pg_omitted].
      rewrite <- Hids. rewrite <- !app_assoc. do 2 apply Permutation_app_head. apply Permutation_app_comm.
    + cbn. rewrite Hbl, !existsb_app. cbn. btauto.
  - split; try done; [|by exists ts|].
    + unfold progress_ids, omitted in *. cbn [pg_candidates pg_unprocessed pg_omitted].
      by rewrite <- Hids, <- !app_assoc.
    + cbn. rewrite Hbl, !existsb_app. cbn. btauto.
  - assert (Hp : pg_candidates p0 = pg_candidates p ∧ pg_used p0 = pg_used p ∧ pg_blocked p0 = pg_blocked p
                 ∧ pg_unprocessed p0 = pg_unprocessed p ∧ pg_omitted p0 = pg_omitted p).
    { by destruct Hp0 as [->|[dropped ->]]. }
    destruct Hp as (H1 & H2 & H3 & H4 & H5). unfold fits in Hfit.
    apply andb_true_iff in Hfit as [[Hmax%Z.leb_le Hbudget%Z.leb_le]%andb_true_iff Hcount%Z.ltb_lt].
    split; unfold progress_ids, accept_candidate; cbn [pg_candidates pg_used pg_blocked pg_unprocessed pg_omitted];
      rewrite ?H1, ?H2, ?H3, ?H4, ?H5.
    + rewrite <- Hids. unfold progress_ids. rewrite fmap_app. cbn. rewrite <- !app_assoc. apply Permutation_app_head.
      change (ev_source_id c :: (pg_unprocessed p ++ pg_omitted p) ≡ₚ pg_unprocessed p ++ pg_omitted p ++ [ev_source_id c]).
      etransitivity; [apply Permutation_cons_append|]. by rewrite <- app_assoc.
    + apply Forall_app. split; [done|]. by apply Forall_singleton.
    + apply Forall_app. split; [done|]. by apply Forall_singleton.
    + exists (ts ++ [tokens]). rewrite total_app, Hused. split; [|cbn; lia]. apply Forall2_app; [done|].
      repeat constructor; [done| |done]. by eapply count_tokens_nonneg.
    + done.
    + unfold py_len in *. rewrite length_app. cbn. lia.
    + done.
Qed.

Lemma loop_gathered b done p l p' :
  gathered b done p →
  fold_result (consider nfc token_counter original li claim_refs definitions tenant max_tokens context_only) p l
  = Ok p' → gathered b (done ++ l) p'.
Proof using Type claim_vouched.
  revert done p. induction l as [|id l IH]; intros done p Hg; cbn [fold_result].
  { intros [= <-]. by rewrite app_nil_r. }
  intros (p1 & H1%consider_cases & Hl)%bind_Ok_inv.
  replace (done ++ id :: l) with ((done ++ [id]) ++ l) by by rewrite <- app_assoc.
  eapply IH; [|done]. by eapply consider_gathered.
Qed.

(** Every source the loop went through is a block of the snapshot. *)
Lemma loop_ids p l p' :
  fold_result (consider nfc token_counter original li claim_refs definitions tenant max_tokens context_only) p l
  = Ok p' → ∀ id, id ∈ l → id ∈ block_ids g.
Proof.
  revert p. induction l as [|x l IH]; intros p; cbn [fold_result]; [by intros _ id ?%elem_of_nil|].
  intros (p1 & H1 & Hl)%bind_Ok_inv id [->|Hin]%elem_of_cons; [|by eapply IH].
  unfold consider in H1. apply bind_Ok_inv in H1 as (b & [<- Hb]%lookup_block_Ok & _).
  by apply list_elem_of_fmap_2.
Qed.

Lemma start_gathered blocked : 0 <= max_tokens → gathered blocked [] (start_progress blocked).
Proof. intros Hm. split; cbn; try done; [by exists []|by rewrite orb_false_r]. Qed.
End step.

(* ------------------------------------------------------------------ *)
(** ** A retrieved packet *)
(* ------------------------------------------------------------------ *)

Context (search : SearchScope → pystr → option (list spec_float) → option SearchResult).

Definition packet_of (q : RetrievalRequest) (pr : Prepared) (p : Progress) (graph_sha query_sha : pystr)
    : pydict :=
  packet_val q (pr_scope pr) (pr_refs pr) (pr_allowed pr)
    (coverage_val q (pr_routes pr) (pr_scoped pr) p) p graph_sha query_sha.

(** A packet, the state the loop started from, what it gathered, and the
    fields the packet was frozen from. *)
Record retrieved (q : RetrievalRequest) (pkt : EvidencePacket) (pr : Prepared) (p : Progress)
    (d : pydict) : Prop := {
  re_prepared : prepare nfc search q = Ok pr;
  re_gathered : gather nfc token_counter q pr = Ok p;
  re_fields : ∃ gs qs, canonical_hash (snapshot_val (rr_original q)) = Ok gs ∧ d = packet_of q pr p gs qs;
  re_payload : canonical_json (PDict d) = Ok (ep_payload_json pkt) }.

Lemma retrieve_inv q pkt : retrieve_evidence nfc token_counter search q = Ok pkt →
  ∃ pr p d, retrieved q pkt pr p d.
Proof.
  unfold retrieve_evidence. intros (pr & Hpr & Hr)%bind_Ok_inv. apply bind_Ok_inv in Hr as (p & Hp & Hr).
  apply bind_Ok_inv in Hr as (gs & Hgs & Hr). apply bind_Ok_inv in Hr as (qs & Hqs & Hr).
  exists pr, p. eexists. split; [done|done|by exists gs, qs|]. by apply freeze_packet_payload.
Qed.

(** What [prepare] checked. *)
Lemma prepare_inv q pr : prepare nfc search q = Ok pr →
  1 <= rr_max_tokens q <= 12000
  ∧ NoDup (block_ids (sn_graph (rr_original q)))
  ∧ map_result (λ r, verify_span_ref nfc r (rr_original q) (rr_tenant q)) (cl_source_refs (rr_claim q))
    = Ok (pr_refs pr)
  ∧ lineage_of nfc (rr_original q) (pr_refs pr) = Ok (pr_lineage pr)
  ∧ row_scope (sn_graph (rr_original q)) (pr_lineage pr) (claim_verified (rr_claim q) (pr_refs pr))
    = Ok (pr_scoped pr)
  ∧ run_routes nfc search q (pr_scope pr) (pr_lineage pr) = Ok (pr_routes pr).
Proof.
  unfold prepare. intros (scope & Ha & Hr)%bind_Ok_inv. apply bind_Ok_inv in Hr as (refs & Hrefs & Hr).
  apply bind_Ok_inv in Hr as (items & _ & Hr). apply bind_Ok_inv in Hr as (allowed & _ & Hr).
  apply bind_Ok_inv in Hr as (li & Hli & Hr). apply bind_Ok_inv in Hr as (scoped & Hsc & Hr).
  apply bind_Ok_inv in Hr as (ro & Hro & [= <-]). cbn [pr_refs pr_lineage pr_scoped pr_scope pr_routes].
  assert (Hadm : 1 <= rr_max_tokens q <= 12000 ∧ NoDup (block_ids (sn_graph (rr_original q)))).
  { unfold admit_request in Ha. cbv zeta in Ha. do 2 apply bind_Ok_inv in Ha as (? & _ & Ha).
    apply bind_Ok_inv in Ha as (scope' & _ & Ha). do 2 apply bind_Ok_inv in Ha as (? & _ & Ha).
    apply bind_Ok_inv in Ha as (? & Hm%require_Ok & Ha). apply bind_Ok_inv in Ha as (? & _ & Ha).
    apply bind_Ok_inv in Ha as (? & Hd%require_Ok & _).
    apply andb_true_iff in Hm as [?%Z.leb_le ?%Z.leb_le]. split; [lia|by apply str_distinct_iff]. }
  destruct Hadm as [Hmax Hnd]. split_and!; try lia; try done.
  unfold claim_references in Hrefs. cbv zeta in Hrefs. apply bind_Ok_inv in Hrefs as (refs' & Hv & Hrefs).
  apply bind_Ok_inv in Hrefs as (quoted & _ & Hrefs). do 2 apply bind_Ok_inv in Hrefs as (? & _ & Hrefs).
  by injection Hrefs as <-.
Qed.

Lemma claim_refs_verified q pr : prepare nfc search q = Ok pr →
  ∀ r, r ∈ pr_refs pr → ∃ r0, verify_span_ref nfc r0 (rr_original q) (rr_tenant q) = Ok r.
Proof.
  intros (_ & _ & Hm%map_result_Ok & _)%prepare_inv r Hr.
  apply list_elem_of_lookup in Hr as [i Hi]. eapply Forall2_lookup_r in Hm as (r0 & _ & Hv); [|done].
  by exists r0.
Qed.

(** What the loop of a retrieval leaves. *)
Lemma retrieved_gathered q pkt pr p d : retrieved q pkt pr p d →
  gathered (rr_original q) (pr_lineage pr) (rr_tenant q) (rr_max_tokens q)
    (negb (claim_verified (rr_claim q) (pr_refs pr)))
    (considered (pr_lineage pr) (pr_routes pr) (pr_scoped pr)) p
  ∧ ∀ id, id ∈ considered (pr_lineage pr) (pr_routes pr) (pr_scoped pr) →
          id ∈ block_ids (sn_graph (rr_original q)).
Proof.
  intros [Hpr Hg _ _]. pose proof (prepare_inv q pr Hpr) as (Hm & _). unfold gather in Hg.
  split; [|by eapply loop_ids].
  eapply (loop_gathered _ _ _ _ _ _ _ (claim_refs_verified q pr Hpr) _ []); [|done].
  apply start_gathered. lia.
Qed.

Lemma considered_NoDup li ro scoped : NoDup (considered li ro scoped).
Proof.
  unfold considered, candidate_order. apply NoDup_ListNoDup, List.NoDup_filter, NoDup_ListNoDup.
  apply dedup_NoDup, str_eqb_eq.
Qed.

(** C18: every candidate of a retrieved packet is a block of the snapshot,
    taken once, whose references were each accepted by the shared verifier
    under the caller's tenant, the candidate's own first; there are at most
    twelve, none counts more than 1600 tokens, and together they stay within
    the requested budget, which is at most 12000. *)
Theorem retrieval_admits_verified q pkt : retrieve_evidence nfc token_counter search q = Ok pkt →
  ∃ pr p d, retrieved q pkt pr p d
    ∧ NoDup (ev_source_id <$> pg_candidates p)
    ∧ (∀ c, c ∈ pg_candidates p → ev_source_id c ∈ block_ids (sn_graph (rr_original q))
         ∧ sound_bundle (rr_original q) (rr_tenant q) c)
    ∧ py_len (pg_candidates p) <= 12
    ∧ ∃ ts, Forall2 (λ c t, count_tokens c = Ok t ∧ 0 <= t <= 1600) (pg_candidates p) ts
            ∧ pg_used p = total ts ∧ total ts <= rr_max_tokens q <= 12000.
Proof.
  intros (pr & p & d & Hre)%retrieve_inv. destruct (retrieved_gathered _ _ _ _ _ Hre) as [Hg Hids].
  destruct (prepare_inv _ _ (re_prepared _ _ _ _ _ Hre)) as (Hm & _).
  destruct Hg as [Hperm Hs _ (ts & Hts & Hused) Hb Hn _].
  exists pr, p, d. split; [done|]. split_and!.
  - assert (Hnd : NoDup (progress_ids p)) by (rewrite Hperm; apply considered_NoDup).
    unfold progress_ids in Hnd. by apply NoDup_app in Hnd as (? & _).
  - intros c Hc. split; [|by eapply Forall_forall in Hs].
    apply Hids. rewrite <- Hperm. unfold progress_ids. apply elem_of_app. left. by apply list_elem_of_fmap_2.
  - done.
  - exists ts. split_and!; [done|done|lia|lia].
Qed.

(** C17: nothing drops out of a retrieval.  Every block of the snapshot is in
    exactly one of the three lists the packet reports, candidates, omitted and
    unprocessed sources, and nothing else is; and the packet is usable exactly
    when the claim itself is verified and every considered source of the claim
    or of its tables became a candidate. *)
Theorem retrieval_accounts q pkt : retrieve_evidence nfc token_counter search q = Ok pkt →
  ∃ pr p d, retrieved q pkt pr p d
    ∧ (let g := sn_graph (rr_original q) in
       let candidates := ev_source_id <$> pg_candidates p in
       (∀ id, id ∈ block_ids g ↔ id ∈ candidates ∨ id ∈ pg_omitted p ∨ id ∈ unprocessed_ids g p)
       ∧ ∀ id, ¬ (id ∈ candidates ∧ id ∈ pg_omitted p) ∧ ¬ (id ∈ candidates ∧ id ∈ unprocessed_ids g p)
               ∧ ¬ (id ∈ pg_omitted p ∧ id ∈ unprocessed_ids g p))
    ∧ (dict_get "status" d = Some (PStr "candidate")
       ↔ claim_verified (rr_claim q) (pr_refs pr) = true
         ∧ ∀ id, id ∈ considered (pr_lineage pr) (pr_routes pr) (pr_scoped pr) →
             local_scope (scope_of (rr_original q) (pr_lineage pr) id) = true →
             id ∈ ev_source_id <$> pg_candidates p).
Proof.
  intros (pr & p & d & Hre)%retrieve_inv. destruct (retrieved_gathered _ _ _ _ _ Hre) as [Hg Hids].
  destruct Hg as [Hperm _ _ _ _ _ Hbl]. set (g := sn_graph (rr_original q)) in *.
  assert (Hnd : NoDup (progress_ids p)) by (rewrite Hperm; apply considered_NoDup).
  unfold progress_ids in Hnd. apply NoDup_app in Hnd as (_ & Hd1 & Hnd). apply NoDup_app in Hnd as (_ & Hd2 & _).
  assert (Hin : ∀ id, id ∈ ev_source_id <$> pg_candidates p ∨ id ∈ pg_unprocessed p ∨ id ∈ pg_omitted p
                      ↔ id ∈ considered (pr_lineage pr) (pr_routes pr) (pr_scoped pr)).
  { intros id. rewrite <- Hperm. unfold progress_ids. by rewrite !elem_of_app. }
  assert (Hun : ∀ id, id ∈ unprocessed_ids g p ↔
      id ∈ block_ids g ∧ id ∉ ev_source_id <$> pg_candidates p ∧ id ∉ pg_omitted p).
  { intros id. unfold unprocessed_ids. rewrite elem_of_str_set_sorted, elem_of_app.
    rewrite (list_elem_of_In (List.filter _ _) id), filter_In, andb_true_iff, !negb_true_iff, !str_in_false.
    rewrite <- list_elem_of_In. split; [|by intros (? & ? & ?); right].
    intros [Hu|(? & ? & ?)]; [|done]. split_and!.
    - apply Hids, Hin. by right; left.
    - intros Hc. apply (Hd1 id Hc), elem_of_app. by left.
    - by apply Hd2. }
  exists pr, p, d. split; [done|]. cbv zeta. fold g. split_and!.
  - intros id. rewrite Hun. split.
    + intros Hb. destruct (decide (id ∈ ev_source_id <$> pg_candidates p)) as [|Hc]; [by left|right].
      destruct (decide (id ∈ pg_omitted p)) as [|Ho]; [by left|by right].
    + intros [?|[?|(? & _)]]; [..|done]; apply Hids, Hin; tauto.
  - intros id. rewrite Hun. split_and!; [|tauto|tauto]. intros [Hc Ho].
    apply (Hd1 id Hc), elem_of_app. by right.
  - destruct (re_fields _ _ _ _ _ Hre) as (gs & qs & _ & ->).
    change (dict_get "status" (packet_of q pr p gs qs))
      with (Some (PStr (if pg_blocked p then "blocked_evidence" else "candidate"))).
    assert (Hst : Some (PStr (if pg_blocked p then "blocked_evidence" else "candidate"))
                  = Some (PStr "candidate") ↔ pg_blocked p = false) by by destruct (pg_blocked p).
    rewrite Hst, Hbl, orb_false_iff, negb_false_iff. clear Hst. apply and_iff_compat_l.
    rewrite <- not_true_iff_false, existsb_exists. split.
    + intros Hno id Hc%Hin Hl. destruct Hc as [|Hc]; [done|]. destruct Hno. exists id.
      split; [|done]. apply list_elem_of_In, elem_of_app. tauto.
    + intros Hall (id & Hx & Hl). apply list_elem_of_In, elem_of_app in Hx.
      assert (Hc : id ∈ ev_source_id <$> pg_candidates p) by (apply Hall; [apply Hin; tauto|done]).
      by apply (Hd1 id Hc), elem_of_app.
Qed.

(* ------------------------------------------------------------------ *)
(** ** Routes *)
(* ------------------------------------------------------------------ *)

(** The ways a source enters the fused order. *)
Inductive routed (q : RetrievalRequest) (pr : Prepared) (id : pystr) : Prop :=
| routed_claim : id ∈ li_claim_ids (pr_lineage pr) → routed q pr id
| routed_page : id ∈ page_ranking (sn_graph (rr_original q)) (ro_gri_pages (pr_routes pr)) → routed q pr id
| routed_lineage : id ∈ lineage_ranking (sn_graph (rr_original q)) (pr_lineage pr) → routed q pr id
| routed_hit vector r h :
    vector = None ∨ vector = rr_query_vector q →
    search (pr_scope pr) (cl_quote (rr_claim q)) vector = Some r → h ∈ take 20 (sr_hits r) →
    hit_source_id h = id → valid_hit (sn_graph (rr_original q)) (pr_scope pr) h → routed q pr id.

(** A page the index routes to. *)
Definition indexed_page (q : RetrievalRequest) (page : Z) : Prop :=
  ∃ e r, e ∈ rr_gri_entries q ∧ ie_indicator_code e ∈ rr_indicator_codes q
         ∧ ie_resolution_state e = "resolved" ∧ page ∈ ie_resolved_physical_pages e
         ∧ verify_span_ref nfc (ie_source_ref e) (rr_original q) (rr_tenant q) = Ok r ∧ is_verified r = true.

Lemma gri_pages_indexed q l acc acc' : (∀ e, e ∈ l → e ∈ rr_gri_entries q) →
  fold_result (gri_step nfc (rr_original q) (rr_tenant q) (rr_indicator_codes q)) acc l = Ok acc' →
  ∀ page, page ∈ acc'.1 → page ∈ acc.1 ∨ indexed_page q page.
Proof.
  revert acc. induction l as [|e l IH]; intros acc Hsub; cbn [fold_result]; [intros [= <-]; by left|].
  intros (acc1 & H1 & Hl)%bind_Ok_inv page Hp.
  destruct (IH acc1 (λ e' He', Hsub e' ltac:(by right)) Hl page Hp) as [Hin|?]; [|by right].
  unfold gri_step in H1. cbv zeta in H1. destruct (str_in (ie_indicator_code e) _) eqn:Hcode; cbn [negb] in H1.
  2: { injection H1 as <-. by left. }
  apply bind_Ok_inv in H1 as (? & _ & H1). apply bind_Ok_inv in H1 as (resolved & Hr & [= <-]).
  destruct resolved; [|by left]. cbn [fst] in Hin. apply elem_of_app in Hin as [?|Hin]; [by left|right].
  destruct (str_eqb_spec (ie_resolution_state e) "resolved") as [Hs|]; [|done].
  apply bind_Ok_inv in Hr as (r & Hr & [= Hv]). apply andb_true_iff in Hv as [Hv _].
  exists e, r. split_and!; try done; [by apply Hsub; left|by apply str_in_iff].
Qed.

(** C19: an index only routes.  A candidate of a retrieved packet is a source
    of the claim, lies on a page that a verified index entry resolves to,
    shares a table or a section with the claim, or was returned among the
    first twenty hits of a search whose scope is this request's and whose
    digest is that of the block's stored text; a hit of another scope, of an
    unknown block or with another text adds nothing. *)
Theorem search_only_routes q pkt : retrieve_evidence nfc token_counter search q = Ok pkt →
  ∃ pr p d, retrieved q pkt pr p d
    ∧ (∀ c, c ∈ pg_candidates p → routed q pr (ev_source_id c))
    ∧ ∀ page, page ∈ ro_gri_pages (pr_routes pr) → indexed_page q page.
Proof.
  intros (pr & p & d & Hre)%retrieve_inv. destruct (retrieved_gathered _ _ _ _ _ Hre) as [Hg _].
  destruct (prepare_inv _ _ (re_prepared _ _ _ _ _ Hre)) as (_ & _ & _ & _ & _ & Hro).
  unfold run_routes in Hro. cbv zeta in Hro. apply bind_Ok_inv in Hro as (gri & Hgri & Hro).
  apply bind_Ok_inv in Hro as ([[s1 rk1] n1] & Hlex & Hro). apply bind_Ok_inv in Hro as ([[s2 rk2] n2] & Hvec & Hro).
  apply bind_Ok_inv in Hro as (scores & Hsc & Hro). cbn [fst snd] in *. injection Hro as Hro.
  exists pr, p, d. split; [done|]. split.
  2: { intros page Hp. rewrite <- Hro in Hp. cbn [ro_gri_pages] in Hp.
       by destruct (gri_pages_indexed q _ _ _ ltac:(done) Hgri page Hp) as [?%elem_of_nil|]. }
  intros c Hc. assert (Hin : ev_source_id c ∈ candidate_order (li_claim_ids (pr_lineage pr)) scores).
  { assert (Hcons : ev_source_id c ∈ considered (pr_lineage pr) (pr_routes pr) (pr_scoped pr)).
    { rewrite <- (ga_ids _ _ _ _ _ _ _ Hg). unfold progress_ids. apply elem_of_app. left.
      by apply list_elem_of_fmap_2. }
    unfold considered in Hcons. apply list_elem_of_In, filter_In in Hcons as [Hcons _].
    rewrite <- Hro in Hcons. by apply list_elem_of_In. }
  unfold candidate_order in Hin. apply elem_of_str_dedup, elem_of_app in Hin as [?|Hin]; [by apply routed_claim|].
  assert (Hk : ev_source_id c ∈ dict_keys scores).
  { apply list_elem_of_fmap in Hin as ([k x] & -> & Hx). unfold dict_keys. apply list_elem_of_fmap.
    exists (k, x). split; [done|]. by rewrite isort_perm in Hx. }
  unfold fuse_rankings in Hsc. destruct (fuse_keys _ _ _ Hsc _ Hk) as [?%elem_of_nil|Hrk]; [done|].
  apply list_elem_of_fmap in Hrk as ([n k] & Heq & Hnk). cbn in Heq. subst k.
  apply list_elem_of_bind in Hnk as (ranking & Hnk & Hranking).
  assert (Hid : ev_source_id c ∈ ranking).
  { apply elem_of_str_dedup, ranked_ids. apply list_elem_of_fmap. by exists (n, ev_source_id c). }
  rewrite !elem_of_app in Hranking. destruct Hranking as [Hranking|[H1|H2]].
  - rewrite !elem_of_cons in Hranking. destruct Hranking as [->|[->|?%elem_of_nil]]; [| |done].
    + apply routed_page. by rewrite <- Hro.
    + by apply routed_lineage.
  - destruct (route_valid _ _ _ _ _ _ Hlex _ _ H1 Hid) as (r & h & Hs & Hh & Hi & Hv).
    eapply routed_hit; try done. by left.
  - destruct (rr_query_vector q) as [v|] eqn:Hq; [|injection Hvec as _ <- _; by apply elem_of_nil in H2].
    destruct (route_valid _ _ _ _ _ _ Hvec _ _ H2 Hid) as (r & h & Hs & Hh & Hi & Hv).
    eapply routed_hit; try done. rewrite Hq. by right.
Qed.
End spec.

(* ------------------------------------------------------------------ *)
(** ** A retrieval *)
(* ------------------------------------------------------------------ *)

Section sample.
#[local] Existing Instance Checksum.

(** A claim paragraph, a table with one row and one cell, and a note. *)
Definition evidence_blocks : list CanonicalBlock :=
  [cell_block 1 "paragraph" TEXT None None; cell_block 2 "table" "t" None None;
   cell_block 3 "table_row" "CO2" (Some 1) None; cell_block 4 "table_cell" CURRENT (Some 1) (Some 2);
   cell_block 5 "paragraph" "another paragraph" None None].

Definition evidence_edge (a b : N) : CanonicalEdge :=
  {| ed_source := sample_id a; ed_target := sample_id b; ed_relation := "table_parent" |}.

Definition evidence_graph : CanonicalDocumentGraph :=
  {| gr_tenant_id := tenant_uuid; gr_document_version_id := version_id;
     gr_parse_manifest_id := manifest_id; gr_source_sha256 := sample_sha;
     gr_blocks := evidence_blocks; gr_edges := [evidence_edge 3 2; evidence_edge 4 3];
     gr_issues := [];
     gr_candidates := [sample_batch run_a "native" (evidence_blocks ≫= kb_candidates) []];
     gr_validation_profile := "fast_preview" |}.

(** The lineage of the cell, and of a graph that is its own ancestor. *)
Example lineage_of_cell : ancestors evidence_graph (sample_id 4) = Ok [sample_id 3; sample_id 2].
Proof. vm_compute. reflexivity. Qed.

Example lineage_cycle :
  ancestors (with_edges evidence_graph [evidence_edge 3 2; evidence_edge 2 3]) (sample_id 3)
  = Raise DomainValidationError.
Proof. vm_compute. reflexivity. Qed.

Definition evidence_pack : RulePackSnapshot :=
  {| rule_pack_id := "rp"; tenant_id := tenant_uuid; version := "v2"; effective_date := "2026-09-25";
     mode := "disclosure"; status := "active"; ontology_version := "o1";
     source_document_sha256 := "s"; sha256 := sample_sha; files := []; unresolved_gap_ids := [];
     approved_by := Some "u"; approved_at := Some "t"; content := content engine_pack |}.

Definition evidence_claim : Claim :=
  {| cl_claim_id := run_b; cl_tenant_id := tenant_uuid; cl_document_version_id := version_id;
     cl_parse_manifest_id := manifest_id; cl_source_sha256 := sample_sha; cl_quote := TEXT;
     cl_source_refs := [span 1 TEXT 0 (py_len TEXT)]; cl_source_quality := "verified";
     cl_topic_ids := [];
     cl_receipt := {| rc_source_id := sample_id 1; rc_packet_sha256 := sample_sha;
                      rc_response_sha256 := None; rc_raw_response_json := None;
                      rc_profile := {| pf_model_sha256 := sample_sha; pf_prompt_sha256 := sample_sha;
                                       pf_rule_sha256 := sample_sha; pf_synthetic := false;
                                       pf_replicate_id := 1; pf_extraction_epoch := 1 |};
                      rc_status := "processed" |};
     cl_revision := 1 |}.

Definition evidence_request (budget : Z) : RetrievalRequest :=
  {| rr_claim := evidence_claim; rr_original := {| sn_graph := evidence_graph; sn_spans := None |};
     rr_tenant := tenant_uuid; rr_run_id := run_a; rr_generation := "g1"; rr_rulepack := evidence_pack;
     rr_document_context := [("company", PStr "c"); ("period", PNone)]; rr_query_vector := None;
     rr_gri_entries := []; rr_indicator_codes := []; rr_max_tokens := budget; rr_synthetic := false |}.

(** One hit on the cell, one with another text and one of another index. *)
Definition evidence_search (scope : SearchScope) (query : pystr) (v : option (list spec_float))
    : option SearchResult :=
  let hit n text s := {| hit_scope := s; hit_source_id := sample_id n;
                         hit_raw_text_sha256 := match text_sha256 text with Ok h => h | Raise _ => [] end |} in
  let other := {| ss_tenant_id := ss_tenant_id scope; ss_document_version_id := ss_document_version_id scope;
                  ss_parse_manifest_id := ss_parse_manifest_id scope; ss_index_generation := "g0" |} in
  Some {| sr_hits := [hit 4%N CURRENT scope; hit 5%N "forged" scope; hit 2%N "t" other];
          sr_status := "bounded" |}.

Definition quarter_tokens (text : pystr) : result pyval := Ok (PInt (py_len text / 4)).

Abbreviation evidence_run := (λ budget, retrieve_evidence nfc_sample quarter_tokens evidence_search
                                          (evidence_request budget)).

(** The status and the lists a packet reports. *)
Definition packet_view (m : result EvidencePacket) : result (pyval * pyval * pyval * pyval * pyval) :=
  p ← m;
  data ← to_dict p;
  coverage ← field data "search_coverage";
  candidates ← field data "evidence_candidates";
  candidates ← py_iter candidates;
  ids ← map_result (getitem "source_id") candidates;
  omitted ← getitem "omitted_source_ids" coverage;
  unprocessed ← getitem "unprocessed_source_ids" coverage;
  rejected ← getitem "rejected_hit_count" coverage;
  Ok (get_or_none data "status", PList ids, omitted, unprocessed, rejected).

Example evidence_packet_view :
  packet_view (evidence_run 12000)
  = Ok (PStr "candidate", PList (PStr <$> [sample_id 1; sample_id 4]), PList [],
        PList (PStr <$> [sample_id 2; sample_id 3; sample_id 5]), PInt 2).
Proof. vm_compute. reflexivity. Qed.

Lemma evidence_ok : is_ok (evidence_run 12000) = true.
Proof. vm_compute. reflexivity. Qed.

(** A budget too small for the claim: the packet reports it and is blocked. *)
Example small_budget_view :
  packet_view (evidence_run 10)
  = Ok (PStr "blocked_evidence", PList [], PList (PStr <$> [sample_id 1; sample_id 4]),
        PList (PStr <$> [sample_id 2; sample_id 3; sample_id 5]), PInt 2).
Proof. vm_compute. reflexivity. Qed.

Definition management_track : TrackCandidate :=
  {| tk_claim := evidence_claim; tk_track := "management"; tk_safe_harbor_category := None |}.

(** A retrieved packet, the track selected on it and the check of the
    consensus, end to end. *)
Example retrieved_packet_selects :
  (p ← evidence_run 12000; p ← freeze_track_packet p management_track evidence_pack;
   data ← to_dict p; s ← check_packet data evidence_pack; Ok s.2)
  = Ok ["M1"; "M2"; "M3"; "M4"; "M5"; "M6"].
Proof. vm_compute. reflexivity. Qed.

Abbreviation evidence_retrieved := (retrieved nfc_sample quarter_tokens evidence_search (evidence_request 12000)).

Lemma retrieval_admits_verified_witness :
  ∃ pkt pr p d, evidence_retrieved pkt pr p d ∧ py_len (pg_candidates p) <= 12.
Proof.
  pose proof evidence_ok as Hok. destruct (evidence_run 12000) as [pkt|e] eqn:E; [|discriminate Hok].
  destruct (@retrieval_admits_verified Checksum nfc_sample quarter_tokens evidence_search
              (evidence_request 12000) pkt E) as (pr & p & d & Hre & _ & _ & Hn & _).
  exists pkt, pr, p, d. split; [exact Hre|exact Hn].
Defined.

Lemma retrieval_accounts_witness :
  ∃ pkt pr p d, evidence_retrieved pkt pr p d
    ∧ ∀ id, id ∈ block_ids evidence_graph ↔
        id ∈ ev_source_id <$> pg_candidates p ∨ id ∈ pg_omitted p ∨ id ∈ unprocessed_ids evidence_graph p.
Proof.
  pose proof evidence_ok as Hok. destruct (evidence_run 12000) as [pkt|e] eqn:E; [|discriminate Hok].
  destruct (@retrieval_accounts Checksum nfc_sample quarter_tokens evidence_search
              (evidence_request 12000) pkt E) as (pr & p & d & Hre & [Hin _] & _).
  exists pkt, pr, p, d. split; [exact Hre|exact Hin].
Defined.

Lemma search_only_routes_witness :
  ∃ pkt pr p d, evidence_retrieved pkt pr p d
    ∧ ∀ c, c ∈ pg_candidates p → routed evidence_search (evidence_request 12000) pr (ev_source_id c).
Proof.
  pose proof evidence_ok as Hok. destruct (evidence_run 12000) as [pkt|e] eqn:E; [|discriminate Hok].
  destruct (@search_only_routes Checksum nfc_sample quarter_tokens evidence_search
              (evidence_request 12000) pkt E) as (pr & p & d & Hre & Hc & _).
  exists pkt, pr, p, d. split; [exact Hre|exact Hc].
Defined.
End sample.
