(* ===== verification/ReviewStore.v ===== *)
(** * The durable review store.

    [adapters/local/review_store.py] over the table [job_records] of
    [adapters/local/job_store.py]: the published reviews of a run, their
    resolutions and re-reviews, and the source condition record of a run.  A
    row is the text [_put] writes; the triggers that make a kind append only
    are part of the statements.  A transaction that raises leaves the tables
    as they were.

    Rows are read in table order where a query fixes none.  The callback
    [build], the check of a live publication ([_validate_live_publication])
    and fresh event ids and times are arguments.  The schema markers have
    version 1 or are absent; the catalog [page] is not modelled. *)
From S2P Require Import Prelude PyVal JsonCodec Values PyDate Digest RulePack Rules Rows AuditChain Authorization.
Open Scope Z_scope.
Open Scope py_scope.

(* ------------------------------------------------------------------ *)
(** ** The table *)
(* ------------------------------------------------------------------ *)

(** [tenant_id, run_id, kind, record_id]. *)
Abbreviation record_key := (pystr * pystr * pystr * pystr)%type.

Definition kind_of (k : record_key) : pystr := k.1.2.

(** The records, the retention tombstones of document versions, whether the
    source condition schema exists, the audit tables. *)
Record review_db : Set := {
  rv_records : list (record_key * pystr);
  rv_deleted : list (pystr * pystr);
  rv_source_schema : bool;
  rv_audit : audit_db }.

Definition with_records (rows : list (record_key * pystr)) (db : review_db) : review_db :=
  {| rv_records := rows; rv_deleted := rv_deleted db; rv_source_schema := rv_source_schema db;
     rv_audit := rv_audit db |}.

Definition with_audit (audit : audit_db) (db : review_db) : review_db :=
  {| rv_records := rv_records db; rv_deleted := rv_deleted db; rv_source_schema := rv_source_schema db;
     rv_audit := audit |}.

(** [adapters/local/review_store.py:61-81 LocalSQLiteReviewStore._source_schema] *)
Definition source_schema (db : review_db) : review_db :=
  {| rv_records := rv_records db; rv_deleted := rv_deleted db; rv_source_schema := true;
     rv_audit := rv_audit db |}.

(** The kinds whose rows a trigger protects.
    [adapters/local/review_store.py:34-37 LocalSQLiteReviewStore.__init__] *)
Definition review_kinds : list pystr :=
  ["review_revision"; "review_inputs"; "tag_revision"; "decision_revision"; "review_idempotency"].

(** [adapters/local/review_store.py:69-72 LocalSQLiteReviewStore._source_schema] *)
Definition source_kinds : list pystr :=
  ["source_condition_inputs"; "source_condition_revision"; "source_condition_idempotency";
   "numeric_check_receipt"; "source_view_receipt"].

(** [adapters/local/review_store.py:38-47 LocalSQLiteReviewStore.__init__],
    [adapters/local/review_store.py:73-81 LocalSQLiteReviewStore._source_schema] *)
Definition guarded (db : review_db) (kind : pystr) : bool :=
  str_in kind review_kinds || rv_source_schema db && str_in kind source_kinds.

(** [UPDATE], [DELETE] and [INSERT OR REPLACE] of one row. *)
Inductive statement : Set :=
| Update (k : record_key) (value : pystr)
| Delete (k : record_key)
| Replace (k : record_key) (value : pystr).

Definition is_row (db : review_db) (k : record_key) : bool :=
  bool_decide (is_Some (row_get k (rv_records db))).

(** A statement under the triggers.
    [adapters/local/review_store.py:38-47 LocalSQLiteReviewStore.__init__],
    [adapters/local/review_store.py:73-81 LocalSQLiteReviewStore._source_schema] *)
Definition execute (s : statement) (db : review_db) : result review_db :=
  let k := match s with Update k _ | Delete k | Replace k _ => k end in
  _ ← reject (guarded db (kind_of k) && is_row db k) IntegrityError;
  Ok (match s with
      | Update k value => if is_row db k then with_records (row_set k value (rv_records db)) db else db
      | Delete k => with_records (List.filter (λ r, negb (bool_decide (r.1 = k))) (rv_records db)) db
      | Replace k value => with_records (row_set k value (rv_records db)) db
      end).

(** [adapters/local/job_store.py:116-122 LocalSQLiteJobStore._raw] *)
Definition raw (db : review_db) (k : record_key) : option pystr := row_get k (rv_records db).

(** [adapters/local/job_store.py:133-143 LocalSQLiteJobStore._put] *)
Definition put_value (immutable : bool) (k : record_key) (value : pyval) (db : review_db)
    : result review_db :=
  text ← json_dumps value;
  if immutable then rows ← row_insert k text (rv_records db); Ok (with_records rows db)
  else execute (Replace k text) db.

Definition put (immutable : bool) (k : record_key) (value : pydict) : review_db → result review_db :=
  put_value immutable k (PDict value).

Definition dict_has (k : pystr) (d : pydict) : bool := bool_decide (is_Some (dict_get k d)).

(** [{k: v for k, v in d.items() if k != key}] *)
Definition dict_remove (key : pystr) (d : pydict) : pydict :=
  List.filter (λ kv : pystr * pyval, negb (kv.1 =s? key)) d.

Definition load_dict (text : pystr) : result pydict := v ← json_loads text; as_dict TypeError v.

(** [d[k]] on a record. *)
Definition item (d : pydict) (k : pystr) : result pyval := of_option KeyError (dict_get k d).
Definition str_item (d : pydict) (k : pystr) : result pystr := v ← item d k; as_str TypeError v.
Definition int_item (d : pydict) (k : pystr) : result Z :=
  v ← item d k; of_option TypeError (as_int v).
Definition dict_item (d : pydict) (k : pystr) : result pydict := v ← item d k; as_dict TypeError v.

(** [adapters/local/job_store.py:54-62 run_is_deleted] *)
Definition run_is_deleted (db : review_db) (tenant run_id : pystr) : result bool :=
  match raw db (tenant, run_id, "run", "META") with
  | None => Ok false
  | Some text =>
      run ← load_dict text;
      version ← str_item run "document_version_id";
      Ok (bool_decide ((tenant, version) ∈ rv_deleted db))
  end.

(** [adapters/local/job_store.py:124-130 LocalSQLiteJobStore._get] *)
Definition get (db : review_db) (k : record_key) : result pydict :=
  _ ← (if kind_of k =s? "run" then
         gone ← run_is_deleted db k.1.1.1 k.1.1.2; reject gone KeyError
       else Ok tt);
  text ← of_option KeyError (raw db k);
  load_dict text.

Definition is_key_error (e : exn) : bool := match e with KeyError => true | _ => false end.

(** [adapters/local/review_store.py:358-362 LocalSQLiteReviewStore._run] *)
Definition run_of (db : review_db) (tenant run_id : pystr) : result pydict :=
  catch is_key_error (get db (tenant, run_id, "run", "META"))
    (λ _, Raise (ReviewRejected "RESOURCE_NOT_FOUND" 404)).

(** [WHERE tenant_id=? AND kind=? AND record_id=?], over every run.
    [adapters/local/review_store.py:592-596 LocalSQLiteReviewStore.resolve] *)
Definition texts_of (db : review_db) (tenant kind id : pystr) : list pystr :=
  snd <$> List.filter (λ r : record_key * pystr,
                         (r.1.1.1.1 =s? tenant) && (r.1.1.2 =s? kind) && (r.1.2 =s? id))
            (rv_records db).

(** [WHERE tenant_id=? AND run_id=? AND kind=?]: ids and values.
    [adapters/local/review_store.py:741-743 LocalSQLiteReviewStore.history] *)
Definition rows_of_kind (db : review_db) (tenant run_id kind : pystr) : list (pystr * pystr) :=
  (λ r, (r.1.2, r.2)) <$> List.filter (λ r : record_key * pystr,
                                         (r.1.1.1.1 =s? tenant) && (r.1.1.1.2 =s? run_id)
                                         && (r.1.1.2 =s? kind)) (rv_records db).

(** [adapters/local/review_store.py:49-59 LocalSQLiteReviewStore._lookup] *)
Definition lookup_review (db : review_db) (tenant review_id : pystr) : result pydict :=
  match texts_of db tenant "review_head" review_id with
  | [text] =>
      review ← load_dict text;
      run_id ← str_item review "run_id";
      _ ← run_of db tenant run_id;
      Ok review
  | _ => Raise (ReviewRejected "RESOURCE_NOT_FOUND" 404)
  end.

(** [f"{z:010}"] [adapters/local/review_store.py:521 LocalSQLiteReviewStore.publish_transaction] *)
Definition pad10 (z : Z) : pystr :=
  let digits := N_dec (Z.abs_N z) in
  if z <? 0 then "-" ++ replicate (9 - length digits) 48%N ++ digits
  else replicate (10 - length digits) 48%N ++ digits.

(** [f"{id}:{z:010}"] [adapters/local/review_store.py:521 LocalSQLiteReviewStore.publish_transaction] *)
Definition revision_key (id : pystr) (z : Z) : pystr := id ++ ":" ++ pad10 z.

(* ------------------------------------------------------------------ *)
(** ** The run record *)
(* ------------------------------------------------------------------ *)

(** One joined pair of a claim head and its decision.
    [adapters/local/job_store.py:194-202 LocalSQLiteJobStore._bump_run] *)
Definition head_decided (db : review_db) (tenant run_id : pystr) (row : pystr * pystr) : result bool :=
  head ← load_dict row.2;
  revision ← match dict_get "decision_revision" head with
             | None | Some PNone => Ok 0
             | Some v => of_option TypeError (as_int v)
             end;
  match raw db (tenant, run_id, "decision_revision", revision_key row.1 revision) with
  | None => Ok false
  | Some text =>
      record ← load_dict text;
      Ok (match dict_get "decision" record with
          | Some (PDict d) => eq_str (get_or_none d "decision_status") "decided"
          | _ => false
          end)
  end.

(** [adapters/local/job_store.py:190-207 LocalSQLiteJobStore._bump_run] *)
Definition refresh_claim_counts (db : review_db) (run : pydict) : result pydict :=
  if negb (dict_has "coverage" run) then Ok run
  else
    coverage ← dict_item run "coverage";
    was_decided ← int_item coverage "claims_decided";
    review ← int_item coverage "claims_needs_review";
    let processed := was_decided + review in
    tenant ← str_item run "tenant_id";
    run_id ← str_item run "run_id";
    flags ← map_result (head_decided db tenant run_id) (rows_of_kind db tenant run_id "claim_head");
    let decided := py_len (List.filter id flags) in
    _ ← reject (processed <? decided) (ValueError "decided claims exceed processed coverage");
    Ok (dict_set "coverage"
          (PDict (dict_set "claims_needs_review" (PInt (processed - decided))
                    (dict_set "claims_decided" (PInt decided) coverage))) run).

(** [adapters/local/job_store.py:189-212 LocalSQLiteJobStore._bump_run] *)
Definition bump_run (refresh : bool) (run : pydict) (db : review_db) : result review_db :=
  run ← (if refresh then refresh_claim_counts db run else Ok run);
  revision ← int_item run "revision";
  epoch ← int_item run "mutation_epoch";
  let run := dict_set "mutation_epoch" (PInt (epoch + 1)) (dict_set "revision" (PInt (revision + 1)) run) in
  tenant ← str_item run "tenant_id";
  run_id ← str_item run "run_id";
  put false (tenant, run_id, "run", "META") run db.

Section store.
Context `{Digest}.

(** [append_audit_transaction] against the head just read.
    [adapters/local/review_store.py:562-578 LocalSQLiteReviewStore.publish_transaction] *)
Definition record_audit (change : ChangeSet) (event_id now : pystr) (db : review_db) : result review_db :=
  change ← mk_ChangeSet change;
  head ← read_audit_head (rv_audit db) (cs_tenant_id change) (cs_run_id change);
  '(audit, _, _) ← append_audit (rv_audit db) change head event_id now;
  Ok (with_audit audit db).

Definition hash_of (d : pydict) : result pystr := canonical_hash (PDict d).

(* ------------------------------------------------------------------ *)
(** ** Publication *)
(* ------------------------------------------------------------------ *)

(** What the store reads of the trusted review inputs: their identity, the
    snapshot, the consensus and the decision with its two forms.
    [application/reviews.py:97-112 ReviewInputs] *)
Record Publication : Set := {
  pb_tenant : pystr; pb_run_id : pystr; pb_document_version_id : pystr; pb_synthetic : bool;
  pb_snapshot : pydict; pb_tag_revision : Z; pb_confirmed_tags : pyval; pb_elements : list pyval;
  pb_decision : option (Z * pyval * pyval) }.

Context (validate_live : review_db → Publication → result unit).

(** [adapters/local/review_store.py:504-505 LocalSQLiteReviewStore.publish_transaction] *)
Definition carried (k : pystr) (d : pydict) : pydict :=
  match dict_get k d with Some v => [(k, v)] | None => [] end.

(** The report level part of a published tag.
    [adapters/local/review_store.py:506-511 LocalSQLiteReviewStore.publish_transaction] *)
Definition report_level_fields (snapshot : pydict) : result pydict :=
  if dict_has "report_level_link" snapshot then
    link ← dict_item snapshot "report_level_link";
    policy ← item link "policy";
    hash ← item link "policy_hash";
    review ← item snapshot "report_level_review";
    Ok [("report_level_link", PDict [("policy", policy); ("policy_hash", hash)]);
        ("report_level_review", review)]
  else Ok [].

(** [adapters/local/review_store.py:495-511 LocalSQLiteReviewStore.publish_transaction] *)
Definition published_tag (p : Publication) : result pydict :=
  more ← report_level_fields (pb_snapshot p);
  Ok ([("tag_revision", PInt (pb_tag_revision p)); ("confirmed_tags", pb_confirmed_tags p);
       ("elements", PList (pb_elements p)); ("origin", PStr "consensus");
       ("inputs", PDict (pb_snapshot p))]
      ++ carried "fact_assembly" (pb_snapshot p) ++ more).

(** [adapters/local/review_store.py:512 LocalSQLiteReviewStore.publish_transaction] *)
Definition decision_revision_of (p : Publication) : Z :=
  match pb_decision p with Some (revision, _, _) => revision | None => 0 end.

(** [adapters/local/review_store.py:525-543 LocalSQLiteReviewStore.publish_transaction] *)
Definition put_decision (p : Publication) (claim_id : pystr) (db : review_db) : result review_db :=
  match pb_decision p with
  | None => Ok db
  | Some (revision, decision, api) =>
      put true (pb_tenant p, pb_run_id p, "decision_revision", revision_key claim_id revision)
        ([("decision_revision", PInt revision); ("decision", decision); ("api", api)]
         ++ carried "fact_assembly" (pb_snapshot p)) db
  end.

(** The head of a claim: its current tag and decision.
    [adapters/local/review_store.py:550 LocalSQLiteReviewStore.publish_transaction] *)
Definition claim_head (tag decision : Z) : pydict :=
  [("tag_revision", PInt tag); ("decision_revision", PInt decision)].

(** The writes of a first publication.
    [adapters/local/review_store.py:513-578 LocalSQLiteReviewStore.publish_transaction] *)
Definition open_review (p : Publication) (review tag : pydict) (review_id claim_id event_id now : pystr)
    (db : review_db) : result review_db :=
  let at_kind kind id := (pb_tenant p, pb_run_id p, kind, id) in
  db ← put true (at_kind "review_inputs" review_id) (pb_snapshot p) db;
  db ← put true (at_kind "tag_revision" (revision_key claim_id (pb_tag_revision p))) tag db;
  db ← put_decision p claim_id db;
  db ← put false (at_kind "claim_head" claim_id) (claim_head (pb_tag_revision p) (decision_revision_of p)) db;
  db ← put false (at_kind "review_head" review_id) review db;
  db ← put true (at_kind "review_revision" (review_id ++ ":0000000001")) review db;
  after ← hash_of tag;
  record_audit {| cs_tenant_id := pb_tenant p; cs_run_id := pb_run_id p; cs_actor_sub := "system:tagger";
                  cs_action := "review_opened"; cs_target_id := review_id; cs_before_hash := None;
                  cs_after_hash := after; cs_revision := 1;
                  cs_reason := Some "Tagging queued for human review." |} event_id now db.

(** [adapters/local/review_store.py:475-579 LocalSQLiteReviewStore.publish_transaction] *)
Definition publish_transaction (p : Publication) (review : pydict) (event_id now : pystr) (db : review_db)
    : result (review_db * pydict) :=
  claim_id ← str_item review "claim_id";
  run ← run_of db (pb_tenant p) (pb_run_id p);
  version ← item run "document_version_id";
  _ ← require (eq_str version (pb_document_version_id p)) (ReviewRejected "REVIEW_INPUT_MISMATCH" 409);
  _ ← (if pb_synthetic p then Ok tt else validate_live db p);
  review_id ← str_item review "review_id";
  match raw db (pb_tenant p, pb_run_id p, "review_head", review_id) with
  | Some text =>
      stored ← get db (pb_tenant p, pb_run_id p, "review_inputs", review_id);
      a ← hash_of stored;
      b ← hash_of (pb_snapshot p);
      _ ← require (a =s? b) (ReviewRejected "REVIEW_PUBLICATION_CONFLICT" 409);
      review ← load_dict text;
      Ok (db, review)
  | None =>
      _ ← require (bool_decide (raw db (pb_tenant p, pb_run_id p, "claim_head", claim_id) = None))
            (ReviewRejected "REVIEW_ALREADY_PUBLISHED" 409);
      tag ← published_tag p;
      db ← open_review p review tag review_id claim_id event_id now db;
      Ok (db, review)
  end.

(** [adapters/local/review_store.py:368-375 LocalSQLiteReviewStore.publish] *)
Definition publish (p : Publication) (review : pydict) (event_id now : pystr) (db : review_db)
    : result (review_db * pydict) :=
  review_id ← str_item review "review_id";
  let previous := raw db (pb_tenant p, pb_run_id p, "review_head", review_id) in
  '(db, answer) ← publish_transaction p review event_id now db;
  match previous with
  | Some _ => Ok (db, answer)
  | None => run ← run_of db (pb_tenant p) (pb_run_id p);
            db ← bump_run false run db;
            Ok (db, answer)
  end.

(* ------------------------------------------------------------------ *)
(** ** Resolution *)
(* ------------------------------------------------------------------ *)

(** [a[j] == b[k]] *)
Definition same_item (a : pydict) (j : pystr) (b : pydict) (k : pystr) : result bool :=
  x ← item a j; y ← item b k; Ok (py_eq x y).

(** The compare and swap of a resolution: an open review is resolved, a
    resolved one only by an explicit re-review.
    [adapters/local/review_store.py:609-621 LocalSQLiteReviewStore.resolve] *)
Definition may_resolve (reopen : bool) (review body head : pydict) (expected : Z) : result bool :=
  and_result (v ← item review "revision"; Ok (py_eq v (PInt expected)))
    (and_result (s ← item review "status"; Ok (eq_str s (if reopen then "resolved" else "open")))
       (if reopen then same_item body "base_tag_revision" head "tag_revision"
        else and_result (same_item body "base_tag_revision" review "base_tag_revision")
                        (same_item head "tag_revision" body "base_tag_revision"))).

(** The answer recorded under an idempotency key, for the same request.
    [adapters/local/review_store.py:592-602 LocalSQLiteReviewStore.resolve] *)
Definition replay_of (db : review_db) (tenant kind replay_key request_hash : pystr)
    : result (option pyval) :=
  match texts_of db tenant kind replay_key with
  | [] => Ok None
  | text :: _ =>
      previous ← load_dict text;
      hash ← item previous "request_hash";
      _ ← require (eq_str hash request_hash) (ReviewRejected "IDEMPOTENCY_CONFLICT" 409);
      response ← item previous "response";
      Ok (Some response)
  end.

(** [adapters/local/review_store.py:585-591 LocalSQLiteReviewStore.resolve] *)
Definition resolve_identity (actor : AuthContext) (review_id : pystr) (body : pydict) (expected : Z)
    (key : pystr) (reopen : bool) : result (pystr * pystr) :=
  replay_key ← canonical_hash (PList [PStr (ac_user_sub actor); PStr "review_resolve"; PStr key]);
  request_hash ← canonical_hash (PList ([PStr review_id; PDict body; PInt expected]
                                        ++ if reopen then [PStr "reopen"] else []));
  Ok (replay_key, request_hash).

(** A reason is text or [None]: [ChangeSet] refuses anything else.
    [adapters/local/review_store.py:690 LocalSQLiteReviewStore.resolve] *)
Definition reason_of (body : pydict) : result (option pystr) :=
  v ← item body "reason";
  match v with
  | PNone => Ok None
  | PStr s => Ok (Some s)
  | _ => Raise DomainValidationError
  end.

(** What a resolution writes: the tag with its time, the decision, the
    resolved review and the answer.
    [adapters/local/review_store.py:627-633 LocalSQLiteReviewStore.resolve] *)
Record Resolution : Set := {
  rs_tag : pydict; rs_decision : pydict; rs_review : pydict; rs_response : pydict;
  rs_tag_revision : Z; rs_decision_revision : Z }.

(** [adapters/local/review_store.py:627-633 LocalSQLiteReviewStore.resolve] *)
Definition resolution (review tag decision : pydict) (expected : Z) (now : pystr) : result Resolution :=
  let tag := dict_set "created_at" (PStr now) tag in
  let resolved := dict_set "revision" (PInt (expected + 1)) (dict_set "status" (PStr "resolved") review) in
  api ← item decision "api";
  revision ← item tag "tag_revision";
  tag_revision ← int_item tag "tag_revision";
  decision_revision ← int_item decision "decision_revision";
  Ok {| rs_tag := tag; rs_decision := decision; rs_review := resolved;
        rs_response := [("review", PDict resolved); ("decision", api); ("new_tag_revision", revision)];
        rs_tag_revision := tag_revision; rs_decision_revision := decision_revision |}.

(** The writes of a resolution.
    [adapters/local/review_store.py:634-704 LocalSQLiteReviewStore.resolve] *)
Definition write_resolution (actor : AuthContext) (run_id claim_id review_id : pystr)
    (initial body : pydict) (expected : Z) (reopen : bool) (replay_key request_hash : pystr)
    (r : Resolution) (event_id now : pystr) (db : review_db) : result review_db :=
  let tenant := ac_tenant_id actor in
  let at_kind kind id := (tenant, run_id, kind, id) in
  db ← put true (at_kind "tag_revision" (revision_key claim_id (rs_tag_revision r))) (rs_tag r) db;
  db ← put true (at_kind "decision_revision" (revision_key claim_id (rs_decision_revision r)))
         (rs_decision r) db;
  db ← put true (at_kind "review_revision" (revision_key review_id (expected + 1)))
         [("review", PDict (rs_review r)); ("resolution", PDict (rs_response r));
          ("resolved_by", PStr (ac_user_sub actor)); ("resolved_at", PStr now)] db;
  db ← put false (at_kind "claim_head" claim_id)
         (claim_head (rs_tag_revision r) (rs_decision_revision r)) db;
  db ← put false (at_kind "review_head" review_id) (rs_review r) db;
  run ← run_of db tenant run_id;
  db ← bump_run true run db;
  before ← hash_of initial;
  after ← hash_of [("tag", PDict (rs_tag r)); ("decision", PDict (rs_decision r))];
  reason ← reason_of body;
  db ← record_audit {| cs_tenant_id := tenant; cs_run_id := run_id; cs_actor_sub := ac_user_sub actor;
                       cs_action := if reopen then "review_rereviewed" else "review_resolved";
                       cs_target_id := review_id; cs_before_hash := Some before; cs_after_hash := after;
                       cs_revision := expected + 1; cs_reason := reason |} event_id now db;
  put true (at_kind "review_idempotency" replay_key)
    [("request_hash", PStr request_hash); ("response", PDict (rs_response r))] db.

(** [adapters/local/review_store.py:581-705 LocalSQLiteReviewStore.resolve] *)
Definition resolve (build : pydict → pydict → Z → result (pydict * pydict)) (actor : AuthContext)
    (review_id : pystr) (body : pydict) (expected : Z) (key : pystr) (reopen : bool)
    (event_id now : pystr) (db : review_db) : result (review_db * pyval) :=
  let tenant := ac_tenant_id actor in
  review ← lookup_review db tenant review_id;
  run_id ← str_item review "run_id";
  claim_id ← str_item review "claim_id";
  '(replay_key, request_hash) ← resolve_identity actor review_id body expected key reopen;
  replay ← replay_of db tenant "review_idempotency" replay_key request_hash;
  match replay with
  | Some response => Ok (db, response)
  | None =>
      head ← get db (tenant, run_id, "claim_head", claim_id);
      valid ← may_resolve reopen review body head expected;
      _ ← require valid (ReviewRejected "STALE_REVIEW_REVISION" 412);
      head_tag ← int_item head "tag_revision";
      initial ← get db (tenant, run_id, "tag_revision", revision_key claim_id head_tag);
      head_decision ← int_item head "decision_revision";
      '(tag, decision) ← build review initial (head_decision + 1);
      r ← resolution review tag decision expected now;
      db ← write_resolution actor run_id claim_id review_id initial body expected reopen replay_key
             request_hash r event_id now db;
      Ok (db, PDict (rs_response r))
  end.

(** SQLite's [LIKE]: [%] any text, [_] one character, ASCII letters without case. *)
Definition fold_ascii (c : N) : N := if (65 <=? c)%N && (c <=? 90)%N then (c + 32)%N else c.

Fixpoint like (pattern text : pystr) : bool :=
  match pattern with
  | [] => negb (nonempty text)
  | c :: pattern =>
      if (c =? 37)%N then
        (fix any (t : pystr) : bool :=
           like pattern t || match t with [] => false | _ :: t => any t end) text
      else match text with
           | [] => false
           | x :: text => ((c =? 95)%N || (fold_ascii c =? fold_ascii x)%N) && like pattern text
           end
  end.

(** [adapters/local/review_store.py:738-746 LocalSQLiteReviewStore.history] *)
Definition revisions (db : review_db) (tenant run_id kind claim_id : pystr) : result (list pyval) :=
  map_result (λ r : pystr * pystr, json_loads r.2)
    (isort (λ a b, str_leb a.1 b.1)
       (List.filter (λ r, like (claim_id ++ ":%") r.1) (rows_of_kind db tenant run_id kind))).

(** [adapters/local/review_store.py:734-748 LocalSQLiteReviewStore.history] *)
Definition history (db : review_db) (tenant run_id claim_id : pystr) : result (list pyval * list pyval) :=
  _ ← run_of db tenant run_id;
  tags ← revisions db tenant run_id "tag_revision" claim_id;
  decisions ← revisions db tenant run_id "decision_revision" claim_id;
  Ok (tags, decisions).

(* ------------------------------------------------------------------ *)
(** ** Source conditions *)
(* ------------------------------------------------------------------ *)

(** [SELECT MAX(record_id)]
    [adapters/local/review_store.py:186-190 LocalSQLiteReviewStore._source_record] *)
Definition max_text (l : list pystr) : option pystr :=
  foldl (λ m x, Some (match m with Some y => if str_leb y x then x else y | None => x end)) None l.

(** The head, or one revision, of the source condition record of a run.
    [adapters/local/review_store.py:162-209 LocalSQLiteReviewStore._source_record] *)
Definition source_record (db : review_db) (tenant run_id : pystr) (revision : option Z) : result pydict :=
  let mismatch := ReviewRejected "SOURCE_REVIEW_INPUT_MISMATCH" 409 in
  run ← run_of db tenant run_id;
  _ ← require (rv_source_schema db) (ReviewRejected "SOURCE_REVIEW_NOT_PUBLISHED" 409);
  _ ← reject (match revision with Some r => r <? 1 | None => false end)
        (ReviewRejected "VALIDATION_ERROR" 422);
  let kk := match revision with
            | None => ("source_condition_head" : pystr, "HEAD" : pystr)
            | Some r => ("source_condition_revision" : pystr, pad10 r)
            end in
  text ← of_option (ReviewRejected "SOURCE_REVIEW_NOT_PUBLISHED" 409) (raw db (tenant, run_id, kk.1, kk.2));
  record ← catch (λ _, true) (v ← json_loads text; as_dict mismatch v) (λ _, Raise mismatch);
  number ← match get_or_none record "revision" with PInt z => Ok z | _ => Raise mismatch end;
  let latest := max_text (rows_of_kind db tenant run_id "source_condition_revision").*1 in
  _ ← reject ((number <? 1)
              || negb (bool_decide (Some (pad10 number)
                                    = match revision with None => latest | Some _ => Some kk.2 end))) mismatch;
  inputs ← get db (tenant, run_id, "source_condition_inputs", "INPUTS");
  let backing := raw db (tenant, run_id, "source_condition_revision", pad10 number) in
  _ ← require (eq_str (get_or_none record "schema") "source_condition_review_v1") mismatch;
  version ← item run "document_version_id";
  _ ← require (eq_str (get_or_none record "tenant_id") tenant
               && eq_str (get_or_none record "run_id") run_id
               && py_eq (get_or_none record "document_version_id") version) mismatch;
  digest ← hash_of inputs;
  _ ← require (eq_str (get_or_none record "source_snapshot_sha256") digest) mismatch;
  sealed ← hash_of (dict_remove "revision_sha256" record);
  _ ← require (eq_str (get_or_none record "revision_sha256") sealed) mismatch;
  _ ← require (bool_decide (backing = Some text)) mismatch;
  Ok record.

(** [record["revision_sha256"] = canonical_hash(record)]
    [adapters/local/review_store.py:124 LocalSQLiteReviewStore.publish_source_conditions] *)
Definition seal (record : pydict) : result pydict :=
  digest ← hash_of record; Ok (record ++ [("revision_sha256", PStr digest)]).

(** [adapters/local/review_store.py:89-92 LocalSQLiteReviewStore.publish_source_conditions] *)
Definition stale_epoch (expected_epoch : option Z) (run : pydict) : result bool :=
  match expected_epoch with
  | None => Ok false
  | Some e => v ← item run "mutation_epoch"; Ok (negb (py_eq v (PInt e)))
  end.

(** The first record: empty annotations.
    [adapters/local/review_store.py:103-123 LocalSQLiteReviewStore.publish_source_conditions] *)
Definition initial_record (tenant run_id : pystr) (version : pyval) (digest now : pystr) : pydict :=
  [("schema", PStr "source_condition_review_v1"); ("tenant_id", PStr tenant); ("run_id", PStr run_id);
   ("document_version_id", version); ("source_snapshot_sha256", PStr digest); ("revision", PInt 1);
   ("parent_sha256", PNone); ("actor_sub", PStr "system:source-condition-publisher");
   ("created_at", PStr now);
   ("state", PDict ((λ name, (name, PDict [])) <$>
      ["classifications" : pystr; "citations" : pystr; "ownership" : pystr; "conditions" : pystr;
       "claim_bindings" : pystr]))].

(** A new revision and the head.
    [adapters/local/review_store.py:128-137 LocalSQLiteReviewStore.publish_source_conditions],
    [adapters/local/review_store.py:319-328 LocalSQLiteReviewStore.resolve_source_conditions] *)
Definition put_revision (tenant run_id : pystr) (revision : Z) (record : pydict) (db : review_db)
    : result review_db :=
  db ← put true (tenant, run_id, "source_condition_revision", pad10 revision) record db;
  put false (tenant, run_id, "source_condition_head", "HEAD") record db.

(** [adapters/local/review_store.py:83-156 LocalSQLiteReviewStore.publish_source_conditions] *)
Definition publish_source_conditions (inputs : pydict) (expected_epoch : option Z)
    (event_id now : pystr) (db : review_db) : result (review_db * pydict) :=
  tenant ← str_item inputs "tenant_id";
  run_id ← str_item inputs "run_id";
  let db := source_schema db in
  run ← run_of db tenant run_id;
  stale ← stale_epoch expected_epoch run;
  _ ← reject stale (ReviewRejected "STALE_REVIEW_REVISION" 412);
  mine ← item inputs "document_version_id";
  version ← item run "document_version_id";
  _ ← require (py_eq mine version) (ReviewRejected "SOURCE_REVIEW_INPUT_MISMATCH" 409);
  digest ← hash_of inputs;
  match raw db (tenant, run_id, "source_condition_head", "HEAD") with
  | Some _ =>
      current ← source_record db tenant run_id None;
      v ← item current "source_snapshot_sha256";
      _ ← require (eq_str v digest) (ReviewRejected "SOURCE_REVIEW_INPUT_MISMATCH" 409);
      Ok (db, current)
  | None =>
      initial ← seal (initial_record tenant run_id version digest now);
      db ← put true (tenant, run_id, "source_condition_inputs", "INPUTS") inputs db;
      db ← put_revision tenant run_id 1 initial db;
      after ← str_item initial "revision_sha256";
      db ← record_audit {| cs_tenant_id := tenant; cs_run_id := run_id;
                           cs_actor_sub := "system:source-condition-publisher";
                           cs_action := "source_condition_published"; cs_target_id := run_id;
                           cs_before_hash := None; cs_after_hash := after; cs_revision := 1;
                           cs_reason := None |} event_id now db;
      db ← bump_run false run db;
      Ok (db, initial)
  end.

(** [adapters/local/review_store.py:158-160 LocalSQLiteReviewStore.source_conditions] *)
Definition source_conditions := source_record.

(** [adapters/local/review_store.py:212-229 LocalSQLiteReviewStore._source_request] *)
Definition source_request (actor : AuthContext) (body : pyval) (expected : Z) (key : pystr)
    : result pydict :=
  let invalid := ReviewRejected "VALIDATION_ERROR" 422 in
  _ ← require (has_capability actor Reviewer) (ReviewRejected "FORBIDDEN" 403);
  _ ← require ((1 <=? expected) && (16 <=? py_len key) && (py_len key <=? 128))
        (ReviewRejected "VALIDATION_ERROR" 400);
  body ← as_dict invalid body;
  _ ← require (match get_or_none body "base_source_revision" with PInt z => 1 <=? z | _ => false end) invalid;
  _ ← require (match get_or_none body "reason" with
               | PStr s => (5 <=? py_len (strip s)) && (py_len (strip s) <=? 1000)
               | _ => false
               end) invalid;
  Ok body.

(** [adapters/local/review_store.py:237-249 LocalSQLiteReviewStore._source_retry] *)
Definition source_retry (db : review_db) (actor : AuthContext) (run_id : pystr) (body : pydict)
    (expected : Z) (key : pystr) : result (pystr * pystr * option pyval) :=
  replay_key ← canonical_hash (PList [PStr (ac_user_sub actor); PStr "source_condition_resolve"; PStr key]);
  request_hash ← canonical_hash (PList [PStr run_id; PDict body; PInt expected]);
  replay ← replay_of db (ac_tenant_id actor) "source_condition_idempotency" replay_key request_hash;
  Ok (replay_key, request_hash, replay).

(** [adapters/local/review_store.py:231-235 LocalSQLiteReviewStore.source_condition_retry] *)
Definition source_condition_retry (db : review_db) (actor : AuthContext) (run_id : pystr) (body : pyval)
    (expected : Z) (key : pystr) : result (option pyval) :=
  body ← source_request actor body expected key;
  _ ← source_record db (ac_tenant_id actor) run_id (Some 1);
  '(_, _, replay) ← source_retry db actor run_id body expected key;
  Ok replay.

(** [adapters/local/review_store.py:279-284 LocalSQLiteReviewStore.resolve_source_conditions] *)
Definition same_shape (old state : pydict) : bool :=
  set_eqb (dict_keys state) (dict_keys old)
  && forallb (λ kv : pystr * pyval, match kv.2 with PDict _ => true | _ => false end) state.

(** The receipt of one annotation is stored once under its hash.
    [adapters/local/review_store.py:287-307 LocalSQLiteReviewStore.resolve_source_conditions] *)
Definition store_view (tenant run_id : pystr) (db : review_db) (annotation : pyval) : result review_db :=
  match annotation with
  | PDict a =>
      match get_or_none a "source_view_receipt" with
      | PNone => Ok db
      | receipt =>
          identifier ← canonical_hash receipt;
          match raw db (tenant, run_id, "source_view_receipt", identifier) with
          | None =>
              put_value true (tenant, run_id, "source_view_receipt", identifier) receipt db
          | Some text =>
              v ← json_loads text;
              again ← canonical_hash v;
              _ ← require (again =s? identifier) (ReviewRejected "SOURCE_REVIEW_INPUT_MISMATCH" 409);
              Ok db
          end
      end
  | _ => Ok db
  end.

(** [adapters/local/review_store.py:285-307 LocalSQLiteReviewStore.resolve_source_conditions] *)
Definition store_views (tenant run_id : pystr) (state : pydict) (db : review_db) : result review_db :=
  citations ← dict_item state "citations";
  db ← fold_result (store_view tenant run_id) db citations.*2;
  classifications ← dict_item state "classifications";
  fold_result (store_view tenant run_id) db classifications.*2.

(** The next record of the chain.
    [adapters/local/review_store.py:309-318 LocalSQLiteReviewStore.resolve_source_conditions] *)
Definition successor_record (current state : pydict) (expected : Z) (actor_sub now : pystr) (reason : pyval)
    : result pydict :=
  parent ← item current "revision_sha256";
  let next := dict_union current
    [("revision", PInt (expected + 1)); ("parent_sha256", parent); ("state", PDict state);
     ("actor_sub", PStr actor_sub); ("created_at", PStr now); ("reason", reason)] in
  seal (dict_remove "revision_sha256" next).

(** [adapters/local/review_store.py:251-356 LocalSQLiteReviewStore.resolve_source_conditions] *)
Definition resolve_source_conditions (build : pydict → result pyval) (actor : AuthContext)
    (run_id : pystr) (body : pyval) (expected : Z) (key : pystr) (expected_epoch : option Z)
    (event_id now : pystr) (db : review_db) : result (review_db * pyval) :=
  let tenant := ac_tenant_id actor in
  let invalid := ReviewRejected "VALIDATION_ERROR" 422 in
  body ← source_request actor body expected key;
  let db := source_schema db in
  run ← run_of db tenant run_id;
  '(replay_key, request_hash, replay) ← source_retry db actor run_id body expected key;
  match replay with
  | Some response => Ok (db, response)
  | None =>
      stale ← stale_epoch expected_epoch run;
      _ ← reject stale (ReviewRejected "STALE_REVIEW_REVISION" 412);
      current ← source_record db tenant run_id None;
      number ← item current "revision";
      _ ← require (py_eq number (PInt expected) && py_eq (get_or_none body "base_source_revision") (PInt expected))
            (ReviewRejected "STALE_REVIEW_REVISION" 412);
      snapshot ← item current "source_snapshot_sha256";
      _ ← require (py_eq (get_or_none body "source_snapshot_sha256") snapshot)
            (ReviewRejected "SOURCE_REVIEW_INPUT_MISMATCH" 409);
      old ← dict_item current "state";
      built ← build old;
      state ← as_dict invalid built;
      _ ← require (same_shape old state) invalid;
      db ← store_views tenant run_id state db;
      reason ← item body "reason";
      successor ← successor_record current state expected (ac_user_sub actor) now reason;
      db ← put_revision tenant run_id (expected + 1) successor db;
      before ← str_item current "revision_sha256";
      after ← str_item successor "revision_sha256";
      why ← reason_of body;
      db ← record_audit {| cs_tenant_id := tenant; cs_run_id := run_id; cs_actor_sub := ac_user_sub actor;
                           cs_action := "source_condition_reviewed"; cs_target_id := run_id;
                           cs_before_hash := Some before; cs_after_hash := after;
                           cs_revision := expected + 1; cs_reason := why |} event_id now db;
      db ← put true (tenant, run_id, "source_condition_idempotency", replay_key)
             [("request_hash", PStr request_hash); ("response", PDict successor)] db;
      db ← bump_run false run db;
      Ok (db, PDict successor)
  end.
End store.
