(* ===== verification/ReviewStoreSpec.v ===== *)
(** * What the review store guarantees.

    For every sequence of the store's operations, interleaved with what other
    writers do to the same tables: published rows never change, one
    resolution per revision, a request key answers once, and the heads are
    the last of a gap-free history. *)
From S2P Require Import Prelude PyVal JsonCodec Values PyDate Digest RulePack Rules Rows AuditChain Authorization ReviewStore.
Open Scope Z_scope.
Open Scope py_scope.

(* ------------------------------------------------------------------ *)
(** ** Record ids *)
(* ------------------------------------------------------------------ *)

Lemma digits_value_padded n s : digits_value (replicate n 48%N ++ s) = digits_value s.
Proof.
  induction n as [|n IH]; [done|]. unfold digits_value in *. cbn [replicate app foldl].
  by rewrite <- IH.
Qed.

Lemma all_digits_zeros n s : all_digits (replicate n 48%N ++ s) = all_digits s.
Proof. induction n as [|n IH]; [done|]. unfold all_digits in *. cbn [replicate app forallb]. by rewrite IH. Qed.

Lemma pad10_nonneg z : 0 <= z → pad10 z = replicate (10 - length (N_dec (Z.to_N z))) 48%N ++ N_dec (Z.to_N z).
Proof. intros Hz. unfold pad10. rewrite (proj2 (Z.ltb_ge _ _)) by done. by rewrite Zabs2N.abs_N_nonneg. Qed.

Lemma pad10_value z : 0 <= z → digits_value (pad10 z) = Z.to_N z.
Proof. intros Hz. rewrite pad10_nonneg, digits_value_padded by done. by destruct (N_dec_spec (Z.to_N z)). Qed.

Lemma pad10_digits z : 0 <= z → all_digits (pad10 z) = true.
Proof. intros Hz. rewrite pad10_nonneg, all_digits_zeros by done. by destruct (N_dec_spec (Z.to_N z)) as (_ & ? & _). Qed.

Lemma pad10_inj z z' : 0 <= z → 0 <= z' → pad10 z = pad10 z' → z = z'.
Proof. intros Hz Hz' E. apply (f_equal digits_value) in E. rewrite !pad10_value in E by done. lia. Qed.

Lemma all_digits_rev s : all_digits (rev s) = all_digits s.
Proof.
  unfold all_digits. apply eq_true_iff_eq. rewrite !forallb_forall. split; intros Hs x Hx; apply Hs.
  - by apply in_rev in Hx.
  - by apply in_rev.
Qed.

(** An id and a revision are read off the record id. *)
Lemma revision_key_inj id id' z z' :
  0 <= z → 0 <= z' → revision_key id z = revision_key id' z' → id = id' ∧ z = z'.
Proof.
  intros Hz Hz' E. unfold revision_key in E. apply (f_equal (@rev N)) in E.
  change ((":" : pystr) ++ pad10 z) with (58%N :: pad10 z) in E.
  change ((":" : pystr) ++ pad10 z') with (58%N :: pad10 z') in E.
  rewrite !rev_app_distr in E. cbn [rev] in E. rewrite <- !app_assoc in E. cbn [app] in E.
  apply digits_before in E as [E1 E2]; try done;
    [|rewrite all_digits_rev; by apply pad10_digits..].
  apply (f_equal (@rev N)) in E1, E2. rewrite !rev_involutive in E1, E2. split; [done|].
  by apply pad10_inj.
Qed.

(* ------------------------------------------------------------------ *)
(** ** What an operation writes *)
(* ------------------------------------------------------------------ *)

(** A write: whether it is an [INSERT], its key and its value. *)
Abbreviation write := (bool * record_key * pyval)%type.

(** The rows after a list of writes. *)
Fixpoint wrote (l : list write) (rows rows' : list (record_key * pystr)) : Prop :=
  match l with
  | [] => rows' = rows
  | (insert, k, v) :: l =>
      ∃ t, json_dumps v = Ok t ∧ (insert = true → row_get k rows = None) ∧ wrote l (row_set k t rows) rows'
  end.

Lemma wrote_app l l' a b c : wrote l a b → wrote l' b c → wrote (l ++ l') a c.
Proof.
  revert a. induction l as [|[[i k] v] l IH]; intros a; cbn; [by intros ->|].
  intros (t & Ht & Hi & Hl) Hl'. eauto 6.
Qed.

Section store_spec.
Context `{Digest}.

(** [db'] is [db] after the writes [l] and audit appends. *)
Record moved (l : list write) (db db' : review_db) : Prop := {
  mv_rows : wrote l (rv_records db) (rv_records db');
  mv_deleted : rv_deleted db' = rv_deleted db;
  mv_schema : rv_source_schema db = true → rv_source_schema db' = true;
  mv_audit : reachable (rv_audit db) → reachable (rv_audit db') }.

Lemma moved_nil db : moved [] db db.
Proof. by split. Qed.

Lemma moved_app l l' a b c : moved l a b → moved l' b c → moved (l ++ l') a c.
Proof.
  intros [? ? ? ?] [? ? ? ?]. split; [by eapply wrote_app|congruence|auto|auto].
Qed.

Lemma moved_cons w l a b c : moved [w] a b → moved l b c → moved (w :: l) a c.
Proof. apply (moved_app [w]). Qed.

Lemma put_value_moved b k v db db' : put_value b k v db = Ok db' → moved [(b, k, v)] db db'.
Proof.
  unfold put_value. intros (t & Ht & Hp)%bind_Ok_inv. destruct b.
  - apply bind_Ok_inv in Hp as (rows & [Hn ->]%row_insert_Ok & [= <-]). split; try done.
    cbn. exists t. split_and!; [done|done|]. by rewrite row_set_app_fresh.
  - unfold execute in Hp. apply bind_Ok_inv in Hp as ([] & _ & [= <-]). split; try done.
    cbn. by exists t.
Qed.

Lemma put_moved b k v db db' : put b k v db = Ok db' → moved [(b, k, PDict v)] db db'.
Proof. apply put_value_moved. Qed.

Lemma record_audit_moved c ev now db db' : record_audit c ev now db = Ok db' → moved [] db db'.
Proof.
  unfold record_audit. intros Hr. open_run Hr. destruct_and?.
  match goal with x : (audit_db * AuditEvent * AuditHead)%type |- _ => destruct x as [[a e] h] end.
  injection Hr as <-. split; try done. cbn. intros Hreach. eapply reach_append; [exact Hreach|eassumption].
Qed.

(** Bumping a run writes its record and nothing else. *)
Lemma bump_run_moved f run db db' :
  bump_run f run db = Ok db' →
  ∃ t r run', moved [(false, (t, r, "run" : pystr, "META" : pystr), PDict run')] db db'.
Proof. unfold bump_run. intros Hb. open_run Hb. eexists _, _, _. by apply put_moved. Qed.

(* ------------------------------------------------------------------ *)
(** ** Protected rows *)
(* ------------------------------------------------------------------ *)




(** The rows of a key no write names. *)
Lemma wrote_other l rows rows' k :
  Forall (λ w : write, w.1.2 ≠ k) l → wrote l rows rows' → row_get k rows' = row_get k rows.
Proof.
  intros Hl. revert rows. induction Hl as [|[[i j] v] l Hj Hl IH]; intros rows; cbn; [by intros ->|].
  intros (u & _ & _ & Hr). rewrite (IH _ Hr), row_get_set, decide_False; [done|]. by intros ->.
Qed.

(** The last write of a key is its row. *)
Lemma wrote_last i k v l rows rows' :
  Forall (λ w : write, w.1.2 ≠ k) l → wrote ((i, k, v) :: l) rows rows' →
  ∃ t, json_dumps v = Ok t ∧ row_get k rows' = Some t.
Proof.
  intros Hl (t & Ht & _ & Hr). exists t. split; [done|].
  by rewrite (wrote_other _ _ _ _ Hl Hr), row_get_set, decide_True.
Qed.

Lemma wrote_snoc l w rows rows' :
  wrote (l ++ [w]) rows rows' → ∃ mid, wrote l rows mid ∧ wrote [w] mid rows'.
Proof.
  revert rows. induction l as [|[[i k] v] l IH]; intros rows; cbn [app wrote].
  - intros Hw. exists rows. by split.
  - intros (t & Ht & Hi & Hr). apply IH in Hr as (mid & H1 & H2). exists mid. split; [|done]. by exists t.
Qed.

(* ------------------------------------------------------------------ *)
(** ** The writes of each operation *)
(* ------------------------------------------------------------------ *)

Context (validate_live : review_db → Publication → result unit).

Definition decision_write (p : Publication) (claim_id : pystr) : list write :=
  match pb_decision p with
  | None => []
  | Some (revision, decision, api) =>
      [(true, (pb_tenant p, pb_run_id p, "decision_revision" : pystr, revision_key claim_id revision),
        PDict ([("decision_revision" : pystr, PInt revision); ("decision" : pystr, decision); ("api" : pystr, api)]
               ++ carried "fact_assembly" (pb_snapshot p)))]
  end.

Definition publish_writes (p : Publication) (review tag : pydict) (review_id claim_id : pystr) : list write :=
  let at_kind kind id : record_key := (pb_tenant p, pb_run_id p, kind, id) in
  [(true, at_kind "review_inputs" review_id, PDict (pb_snapshot p));
   (true, at_kind "tag_revision" (revision_key claim_id (pb_tag_revision p)), PDict tag)]
  ++ decision_write p claim_id
  ++ [(false, at_kind "claim_head" claim_id, PDict (claim_head (pb_tag_revision p) (decision_revision_of p)));
      (false, at_kind "review_head" review_id, PDict review);
      (true, at_kind "review_revision" (revision_key review_id 1), PDict review)].

Lemma put_decision_moved p c db db' : put_decision p c db = Ok db' → moved (decision_write p c) db db'.
Proof.
  unfold put_decision, decision_write. destruct (pb_decision p) as [[[n d] a]|]; [apply put_moved|].
  intros [= <-]. apply moved_nil.
Qed.

Lemma open_review_moved p review tag rid c ev now db db' :
  open_review p review tag rid c ev now db = Ok db' → moved (publish_writes p review tag rid c) db db'.
Proof.
  unfold open_review. intros Ho. open_run Ho. unfold publish_writes.
  repeat match goal with
  | Hp : put _ _ _ _ = Ok _ |- _ => apply put_moved in Hp
  | Hp : put_decision _ _ _ = Ok _ |- _ => apply put_decision_moved in Hp
  | Hp : record_audit _ _ _ _ = Ok _ |- _ => apply record_audit_moved in Hp
  end.
  eapply moved_cons; [eassumption|]. eapply moved_cons; [eassumption|].
  eapply moved_app; [eassumption|]. eapply moved_cons; [eassumption|].
  eapply moved_cons; [eassumption|]. rewrite <- (app_nil_r [_]). eapply moved_app; eassumption.
Qed.

(** A publication answers from the review that is there, or opens it. *)
Lemma publish_inv p review ev now db db' answer :
  publish validate_live p review ev now db = Ok (db', answer) →
  ∃ rid c, str_item review "review_id" = Ok rid ∧ str_item review "claim_id" = Ok c
    ∧ ((db' = db ∧ is_Some (raw db (pb_tenant p, pb_run_id p, "review_head", rid)))
       ∨ (raw db (pb_tenant p, pb_run_id p, "review_head", rid) = None
          ∧ raw db (pb_tenant p, pb_run_id p, "claim_head", c) = None ∧ answer = review
          ∧ ∃ tag t r run, published_tag p = Ok tag
            ∧ moved (publish_writes p review tag rid c
                     ++ [(false, (t, r, "run" : pystr, "META" : pystr), PDict run)]) db db')).
Proof.
  unfold publish. intros (rid & Hid & Hp)%bind_Ok_inv.
  apply bind_Ok_inv in Hp as ([db1 a1] & Hp & Ha). unfold publish_transaction in Hp.
  apply bind_Ok_inv in Hp as (c & Hc & Hp). exists rid, c. split; [done|]. split; [done|].
  apply bind_Ok_inv in Hp as (run & _ & Hp). apply bind_Ok_inv in Hp as (v & _ & Hp).
  apply bind_Ok_inv in Hp as ([] & _ & Hp). apply bind_Ok_inv in Hp as ([] & _ & Hp).
  rewrite Hid in Hp. cbn [mbind result_bind] in Hp.
  destruct (raw db (pb_tenant p, pb_run_id p, "review_head" : pystr, rid)) as [text|] eqn:E.
  - left. open_run Hp. destruct_and?. simplify_eq. split; [congruence|by eexists].
  - right. apply bind_Ok_inv in Hp as ([] & Hn & Hp). apply require_Ok, bool_decide_eq_true in Hn.
    apply bind_Ok_inv in Hp as (tag & Ht & Hp). apply bind_Ok_inv in Hp as (db2 & Ho & [= -> ->]).
    apply bind_Ok_inv in Ha as (run2 & _ & Ha). apply bind_Ok_inv in Ha as (db3 & Hb & [= -> ->]).
    apply bump_run_moved in Hb as (t & r & run' & Hb). apply open_review_moved in Ho.
    split_and!; try done. exists tag, t, r, run'. split; [done|]. by eapply moved_app.
Qed.

Definition resolve_writes (actor : AuthContext) (run_id claim_id review_id : pystr) (expected : Z)
    (request_hash replay_key now : pystr) (r : Resolution) (bump : write) : list write :=
  let at_kind kind id : record_key := (ac_tenant_id actor, run_id, kind, id) in
  [(true, at_kind "tag_revision" (revision_key claim_id (rs_tag_revision r)), PDict (rs_tag r));
   (true, at_kind "decision_revision" (revision_key claim_id (rs_decision_revision r)), PDict (rs_decision r));
   (true, at_kind "review_revision" (revision_key review_id (expected + 1)),
    PDict [("review" : pystr, PDict (rs_review r)); ("resolution" : pystr, PDict (rs_response r));
           ("resolved_by" : pystr, PStr (ac_user_sub actor)); ("resolved_at" : pystr, PStr now)]);
   (false, at_kind "claim_head" claim_id, PDict (claim_head (rs_tag_revision r) (rs_decision_revision r)));
   (false, at_kind "review_head" review_id, PDict (rs_review r));
   bump;
   (true, at_kind "review_idempotency" replay_key,
    PDict [("request_hash" : pystr, PStr request_hash); ("response" : pystr, PDict (rs_response r))])].

Lemma write_resolution_moved actor run_id c rid initial body e reopen k h r ev now db db' :
  write_resolution actor run_id c rid initial body e reopen k h r ev now db = Ok db' →
  ∃ t u run, moved (resolve_writes actor run_id c rid e h k now r
                      (false, (t, u, "run" : pystr, "META" : pystr), PDict run)) db db'.
Proof.
  unfold write_resolution. intros Hw. open_run Hw.
  repeat match goal with
  | Hp : put _ _ _ _ = Ok _ |- _ => apply put_moved in Hp
  | Hp : bump_run _ _ _ = Ok _ |- _ => apply bump_run_moved in Hp as (? & ? & ? & Hp)
  | Hp : record_audit _ _ _ _ = Ok _ |- _ => apply record_audit_moved in Hp
  end.
  do 3 eexists. unfold resolve_writes.
  do 5 (eapply moved_cons; [eassumption|]). eapply moved_cons; [eassumption|].
  change [?w] with ([] ++ [w]). eapply moved_app; eassumption.
Qed.

(** A resolution answers from its idempotency row, or swaps the heads. *)
Lemma resolve_inv build actor rid body e key reopen ev now db db' answer :
  resolve build actor rid body e key reopen ev now db = Ok (db', answer) →
  ∃ review run_id c k h,
    lookup_review db (ac_tenant_id actor) rid = Ok review
    ∧ str_item review "run_id" = Ok run_id ∧ str_item review "claim_id" = Ok c
    ∧ resolve_identity actor rid body e key reopen = Ok (k, h)
    ∧ ((replay_of db (ac_tenant_id actor) "review_idempotency" k h = Ok (Some answer) ∧ db' = db)
       ∨ (replay_of db (ac_tenant_id actor) "review_idempotency" k h = Ok None
          ∧ ∃ head g initial d tag decision r t u run,
              get db (ac_tenant_id actor, run_id, "claim_head", c) = Ok head
              ∧ may_resolve reopen review body head e = Ok true
              ∧ int_item head "tag_revision" = Ok g
              ∧ get db (ac_tenant_id actor, run_id, "tag_revision", revision_key c g) = Ok initial
              ∧ int_item head "decision_revision" = Ok d
              ∧ build review initial (d + 1) = Ok (tag, decision)
              ∧ resolution review tag decision e now = Ok r ∧ answer = PDict (rs_response r)
              ∧ write_resolution actor run_id c rid initial body e reopen k h r ev now db = Ok db'
              ∧ moved (resolve_writes actor run_id c rid e h k now r
                         (false, (t, u, "run" : pystr, "META" : pystr), PDict run)) db db')).
Proof.
  unfold resolve. intros (review & Hl & Hr)%bind_Ok_inv. apply bind_Ok_inv in Hr as (run_id & Hrun & Hr).
  apply bind_Ok_inv in Hr as (c & Hc & Hr). apply bind_Ok_inv in Hr as ([k h] & Hi & Hr).
  apply bind_Ok_inv in Hr as (replay & Hp & Hr). exists review, run_id, c, k, h.
  split_and!; try done. destruct replay as [a|]; [left; by injection Hr as <- <-|]. right.
  split; [done|]. apply bind_Ok_inv in Hr as (head & Hh & Hr). apply bind_Ok_inv in Hr as (valid & Hv & Hr).
  apply bind_Ok_inv in Hr as ([] & ->%require_Ok & Hr). apply bind_Ok_inv in Hr as (g & Hg & Hr).
  apply bind_Ok_inv in Hr as (initial & Hini & Hr). apply bind_Ok_inv in Hr as (d & Hd & Hr).
  apply bind_Ok_inv in Hr as ([tag decision] & Hb & Hr). apply bind_Ok_inv in Hr as (r & Hres & Hr).
  apply bind_Ok_inv in Hr as (db2 & Hw & [= <- <-]). pose proof Hw as (t & u & run & Hm)%write_resolution_moved.
  exists head, g, initial, d, tag, decision, r, t, u, run. by split_and!.
Qed.

Definition view_write (tenant run_id : pystr) (w : write) : Prop :=
  w.1.1 = true ∧ ∃ id, w.1.2 = (tenant, run_id, "source_view_receipt" : pystr, id).

Lemma store_view_moved tenant run_id db annotation db' :
  store_view tenant run_id db annotation = Ok db' →
  ∃ l, Forall (view_write tenant run_id) l ∧ moved l db db'.
Proof.
  assert (Hnil : db' = db → ∃ l, Forall (view_write tenant run_id) l ∧ moved l db db')
    by (intros ->; exists []; split; [done|apply moved_nil]).
  unfold store_view. destruct annotation as [| | | | | | |a]; try (intros [= <-]; by apply Hnil).
  assert (Hput : ∀ v, v = get_or_none a "source_view_receipt" →
    (identifier ← canonical_hash v;
     match raw db (tenant, run_id, "source_view_receipt" : pystr, identifier) with
     | None => put_value true (tenant, run_id, "source_view_receipt" : pystr, identifier) v db
     | Some text =>
         v ← json_loads text; again ← canonical_hash v;
         _ ← require (again =s? identifier) (ReviewRejected "SOURCE_REVIEW_INPUT_MISMATCH" 409); Ok db
     end) = Ok db' → ∃ l, Forall (view_write tenant run_id) l ∧ moved l db db').
  { intros v _ (id & _ & Hp)%bind_Ok_inv. destruct (raw db _).
    - open_run Hp. apply Hnil. by injection Hp.
    - apply put_value_moved in Hp. eexists. split; [|exact Hp]. constructor; [|done]. split; [done|by eexists]. }
  destruct (get_or_none a "source_view_receipt"); try (intros [= <-]; by apply Hnil); by apply Hput.
Qed.

Lemma store_views_moved tenant run_id state db db' :
  store_views tenant run_id state db = Ok db' →
  ∃ l, Forall (view_write tenant run_id) l ∧ moved l db db'.
Proof.
  unfold store_views. intros Hs. apply bind_Ok_inv in Hs as (cs & _ & Hs).
  apply bind_Ok_inv in Hs as (db1 & H1 & Hs). apply bind_Ok_inv in Hs as (ks & _ & H2).
  assert (Hf : ∀ l a b, fold_result (store_view tenant run_id) a l = Ok b →
            ∃ ws, Forall (view_write tenant run_id) ws ∧ moved ws a b).
  { clear. induction l as [|x l IH]; intros a b; cbn [fold_result].
    - intros [= <-]. exists []. split; [done|apply moved_nil].
    - intros (m & Hx & Hr)%bind_Ok_inv. apply store_view_moved in Hx as (w1 & Hw1 & Hm1).
      apply IH in Hr as (w2 & Hw2 & Hm2). exists (w1 ++ w2). split; [by apply Forall_app|by eapply moved_app]. }
  apply Hf in H1 as (w1 & Hw1 & Hm1), H2 as (w2 & Hw2 & Hm2).
  exists (w1 ++ w2). split; [by apply Forall_app|by eapply moved_app].
Qed.

Definition record_writes (tenant run_id : pystr) (revision : Z) (record : pydict) : list write :=
  [(true, (tenant, run_id, "source_condition_revision" : pystr, pad10 revision), PDict record);
   (false, (tenant, run_id, "source_condition_head" : pystr, "HEAD" : pystr), PDict record)].

Lemma put_revision_moved tenant run_id n record db db' :
  put_revision tenant run_id n record db = Ok db' → moved (record_writes tenant run_id n record) db db'.
Proof.
  unfold put_revision. intros (db1 & H1 & H2)%bind_Ok_inv. apply put_moved in H1, H2.
  eapply moved_cons; eassumption.
Qed.

Lemma source_schema_moved db : moved [] db (source_schema db).
Proof. by split. Qed.

Lemma publish_source_inv inputs epoch ev now db db' answer :
  publish_source_conditions inputs epoch ev now db = Ok (db', answer) →
  ∃ tenant run_id, str_item inputs "tenant_id" = Ok tenant ∧ str_item inputs "run_id" = Ok run_id
    ∧ ((db' = source_schema db ∧ source_record db' tenant run_id None = Ok answer)
       ∨ (raw db (tenant, run_id, "source_condition_head", "HEAD") = None
          ∧ ∃ run version digest t u run',
            run_of db tenant run_id = Ok run ∧ item run "document_version_id" = Ok version
            ∧ hash_of inputs = Ok digest
            ∧ seal (initial_record tenant run_id version digest now) = Ok answer
            ∧ moved ([(true, (tenant, run_id, "source_condition_inputs" : pystr, "INPUTS" : pystr), PDict inputs)]
                     ++ record_writes tenant run_id 1 answer
                     ++ [(false, (t, u, "run" : pystr, "META" : pystr), PDict run')]) db db'
            ∧ rv_source_schema db' = true)).
Proof.
  unfold publish_source_conditions. intros (tenant & Ht & Hp)%bind_Ok_inv.
  apply bind_Ok_inv in Hp as (run_id & Hr & Hp). exists tenant, run_id. split; [done|]. split; [done|].
  apply bind_Ok_inv in Hp as (run & Hrun & Hp). apply bind_Ok_inv in Hp as (stale & _ & Hp).
  apply bind_Ok_inv in Hp as ([] & _ & Hp). apply bind_Ok_inv in Hp as (mine & _ & Hp).
  apply bind_Ok_inv in Hp as (version & Hv & Hp). apply bind_Ok_inv in Hp as ([] & _ & Hp).
  apply bind_Ok_inv in Hp as (digest & Hd & Hp).
  change (raw (source_schema db)) with (raw db) in Hp.
  destruct (raw db (tenant, run_id, "source_condition_head" : pystr, "HEAD" : pystr)) as [text|] eqn:E.
  - left. apply bind_Ok_inv in Hp as (current & Hc & Hp). open_run Hp. by injection Hp as <- <-.
  - right. split; [done|]. apply bind_Ok_inv in Hp as (initial & Hi & Hp).
    apply bind_Ok_inv in Hp as (db1 & H1 & Hp). apply bind_Ok_inv in Hp as (db2 & H2 & Hp).
    apply bind_Ok_inv in Hp as (after & _ & Hp). apply bind_Ok_inv in Hp as (db3 & H3 & Hp).
    apply bind_Ok_inv in Hp as (db4 & H4 & [= <- <-]).
    apply put_moved in H1. apply put_revision_moved in H2. apply record_audit_moved in H3.
    apply bump_run_moved in H4 as (t & u & run' & H4).
    exists run, version, digest, t, u, run'. split_and!; try done.
    + eapply (moved_app []); [apply source_schema_moved|]. eapply moved_cons; [eassumption|].
      eapply moved_app; [eassumption|]. eapply (moved_app []); eassumption.
    + apply (mv_schema _ _ _ H4), (mv_schema _ _ _ H3), (mv_schema _ _ _ H2), (mv_schema _ _ _ H1). done.
Qed.

Lemma resolve_source_inv build actor run_id body e key epoch ev now db db' answer :
  resolve_source_conditions build actor run_id body e key epoch ev now db = Ok (db', answer) →
  ∃ d k h replay, source_request actor body e key = Ok d
    ∧ source_retry db actor run_id d e key = Ok (k, h, replay)
    ∧ ((replay = Some answer ∧ db' = source_schema db)
       ∨ (replay = None ∧ ∃ current state reason next views t u run,
            source_record (source_schema db) (ac_tenant_id actor) run_id None = Ok current
            ∧ py_eq (get_or_none current "revision") (PInt e) = true
            ∧ Forall (view_write (ac_tenant_id actor) run_id) views
            ∧ item d "reason" = Ok reason
            ∧ (∃ old, dict_item current "state" = Ok old ∧ build old = Ok (PDict state)
                      ∧ same_shape old state = true)
            ∧ successor_record current state e (ac_user_sub actor) now reason = Ok next
            ∧ answer = PDict next
            ∧ moved (views ++ record_writes (ac_tenant_id actor) run_id (e + 1) next
                     ++ [(true, (ac_tenant_id actor, run_id, "source_condition_idempotency" : pystr, k),
                          PDict [("request_hash" : pystr, PStr h); ("response" : pystr, PDict next)]);
                         (false, (t, u, "run" : pystr, "META" : pystr), PDict run)]) db db'
            ∧ rv_source_schema db' = true)).
Proof.
  unfold resolve_source_conditions. intros (d & Hd & Hp)%bind_Ok_inv.
  apply bind_Ok_inv in Hp as (run & Hrun & Hp). apply bind_Ok_inv in Hp as ([[k h] replay] & Hr & Hp).
  exists d, k, h, replay. split; [done|]. split; [done|].
  destruct replay as [a|]; [left; by injection Hp as <- <-|]. right. split; [done|].
  apply bind_Ok_inv in Hp as (stale & _ & Hp). apply bind_Ok_inv in Hp as ([] & _ & Hp).
  apply bind_Ok_inv in Hp as (current & Hc & Hp). apply bind_Ok_inv in Hp as (number & Hn & Hp).
  apply bind_Ok_inv in Hp as ([] & [Heq _]%require_Ok%andb_true_iff & Hp). apply bind_Ok_inv in Hp as (snap & _ & Hp).
  apply bind_Ok_inv in Hp as ([] & _ & Hp). apply bind_Ok_inv in Hp as (old & Ho & Hp).
  apply bind_Ok_inv in Hp as (built & Hb & Hp). apply bind_Ok_inv in Hp as (state & Hst & Hp).
  apply bind_Ok_inv in Hp as ([] & Hsh%require_Ok & Hp). apply bind_Ok_inv in Hp as (db1 & H1 & Hp).
  apply bind_Ok_inv in Hp as (reason & Hre & Hp). apply bind_Ok_inv in Hp as (next & Hnx & Hp).
  apply bind_Ok_inv in Hp as (db2 & H2 & Hp). apply bind_Ok_inv in Hp as (before & _ & Hp).
  apply bind_Ok_inv in Hp as (after & _ & Hp). apply bind_Ok_inv in Hp as (why & _ & Hp).
  apply bind_Ok_inv in Hp as (db3 & H3 & Hp). apply bind_Ok_inv in Hp as (db4 & H4 & Hp).
  apply bind_Ok_inv in Hp as (db5 & H5 & [= <- <-]).
  apply store_views_moved in H1 as (views & Hviews & H1). apply put_revision_moved in H2.
  apply record_audit_moved in H3. apply put_moved in H4. apply bump_run_moved in H5 as (t & u & run' & H5).
  exists current, state, reason, next, views, t, u, run'. split_and!; try done.
  - unfold item in Hn. unfold get_or_none. destruct (dict_get _ current); [|done]. cbn in Hn. by injection Hn as ->.
  - exists old. split; [done|]. split; [|done]. destruct built; try done. cbn in Hst. by injection Hst as ->.
  - eapply (moved_app []); [apply source_schema_moved|]. eapply moved_app; [eassumption|].
    eapply moved_app; [eassumption|]. eapply (moved_app []); [eassumption|]. eapply moved_cons; eassumption.
  - apply (mv_schema _ _ _ H5), (mv_schema _ _ _ H4), (mv_schema _ _ _ H3), (mv_schema _ _ _ H2),
      (mv_schema _ _ _ H1). done.
Qed.

(* ------------------------------------------------------------------ *)
(** ** Sequences of operations *)
(* ------------------------------------------------------------------ *)

(** The operations of the store, one statement of another writer on the
    table, and a change of the retention tombstones. *)
Inductive operation : Type :=
| Publish (p : Publication) (review : pydict) (event_id now : pystr)
| Resolve (build : pydict → pydict → Z → result (pydict * pydict)) (actor : AuthContext)
    (review_id : pystr) (body : pydict) (expected : Z) (key : pystr) (reopen : bool) (event_id now : pystr)
| PublishSource (inputs : pydict) (epoch : option Z) (event_id now : pystr)
| ResolveSource (build : pydict → result pyval) (actor : AuthContext) (run_id : pystr) (body : pyval)
    (expected : Z) (key : pystr) (epoch : option Z) (event_id now : pystr)
| Foreign (s : statement)
| Tombstones (l : list (pystr * pystr)).

Definition run_op (o : operation) (db : review_db) : result review_db :=
  match o with
  | Publish p review ev now => fst <$> publish validate_live p review ev now db
  | Resolve build actor rid body e key reopen ev now =>
      fst <$> resolve build actor rid body e key reopen ev now db
  | PublishSource inputs epoch ev now => fst <$> publish_source_conditions inputs epoch ev now db
  | ResolveSource build actor run body e key epoch ev now =>
      fst <$> resolve_source_conditions build actor run body e key epoch ev now db
  | Foreign s => execute s db
  | Tombstones l => Ok {| rv_records := rv_records db; rv_deleted := l;
                          rv_source_schema := rv_source_schema db; rv_audit := rv_audit db |}
  end.

(** A transaction that raises leaves the tables. *)
Definition attempt (db : review_db) (o : operation) : review_db :=
  match run_op o db with Ok db' => db' | Raise _ => db end.
Definition later (ops : list operation) (db : review_db) : review_db := foldl attempt db ops.

(** Every guarded row of [db] is a row of [db']. *)
Definition keeps (db db' : review_db) : Prop :=
  (rv_source_schema db = true → rv_source_schema db' = true)
  ∧ ∀ k t, guarded db (kind_of k) = true → raw db k = Some t → raw db' k = Some t.

Lemma guarded_mono db db' kind :
  (rv_source_schema db = true → rv_source_schema db' = true) →
  guarded db kind = true → guarded db' kind = true.
Proof.
  intros Hs. unfold guarded. rewrite !orb_true_iff, !andb_true_iff. intros [?|[? ?]]; [by left|right; auto].
Qed.

#[local] Instance keeps_preorder : PreOrder keeps.
Proof.
  split; [by intros db; split|]. intros a b c [Hs1 H1] [Hs2 H2]. split; [auto|].
  intros k t Hg Hk. apply H2; [by apply (guarded_mono a)|auto].
Qed.



Lemma row_get_filter_ne k j (l : list (record_key * pystr)) :
  j ≠ k → row_get j (List.filter (λ r, negb (bool_decide (r.1 = k))) l) = row_get j l.
Proof.
  intros Hne. induction l as [|[i v] l IH]; [done|]. cbn [List.filter fst].
  destruct (bool_decide (i = k)) eqn:E; cbn.
  - apply bool_decide_eq_true in E. subst. by rewrite decide_False.
  - by rewrite IH.
Qed.

Definition statement_key (s : statement) : record_key :=
  match s with Update k _ | Delete k | Replace k _ => k end.

(** A statement touches the row of its key and nothing else. *)
Lemma execute_raw s db db' k :
  execute s db = Ok db' → k ≠ statement_key s → raw db' k = raw db k.
Proof.
  unfold execute. intros (? & _ & [= <-])%bind_Ok_inv Hk. unfold raw.
  destruct s as [j v|j|j v]; cbn in *; [case_match; [|done]| |]; cbn;
    rewrite ?row_get_set, ?row_get_filter_ne, ?decide_False by done; done.
Qed.






Lemma later_ind (P : review_db → Prop) ops db :
  P db → (∀ o a b, o ∈ ops → run_op o a = Ok b → P a → P b) → P (later ops db).
Proof.
  unfold later. revert db. induction ops as [|o ops IH]; intros db Hdb Hstep; [done|]. cbn [foldl].
  apply IH; [|intros o' a b Ho; apply Hstep; by right]. unfold attempt.
  destruct (run_op o db) as [db'|] eqn:E; [|done]. eapply Hstep; [left|done|done].
Qed.


(* ------------------------------------------------------------------ *)
(** ** Review heads *)
(* ------------------------------------------------------------------ *)

(** The kinds only this store writes. *)
Definition own_kinds : list pystr :=
  review_kinds ++ ["review_head"; "claim_head"; "source_condition_head"; "source_condition_inputs";
                   "source_condition_revision"; "source_condition_idempotency"].

Definition own (k : record_key) : bool := str_in (kind_of k) own_kinds.

(** A review as it is published: open, at revision 1, of the run it is
    published in. *)
Definition opens (p : Publication) (review : pydict) : Prop :=
  json_clean (PDict review) = true
  ∧ (∃ rid, dict_get "review_id" review = Some (PStr rid))
  ∧ (∃ c, dict_get "claim_id" review = Some (PStr c))
  ∧ dict_get "run_id" review = Some (PStr (pb_run_id p))
  ∧ dict_get "status" review = Some (PStr "open") ∧ dict_get "revision" review = Some (PInt 1)
  ∧ dict_get "base_tag_revision" review = Some (PInt (pb_tag_revision p)).

(** Publications open reviews and other writers leave the store's kinds alone. *)
Definition admissible (o : operation) : Prop :=
  match o with
  | Publish p review _ _ => opens p review
  | Foreign s => own (statement_key s) = false
  | _ => True
  end.

(** The stored review of a head, at revision [n]. *)
Definition head_at (db : review_db) (tenant run_id rid : pystr) (d : pydict) (n : Z) : Prop :=
  ∃ text, raw db (tenant, run_id, "review_head", rid) = Some text ∧ load_dict text = Ok d
    ∧ json_clean (PDict d) = true ∧ dict_get "run_id" d = Some (PStr run_id)
    ∧ (∃ c, dict_get "claim_id" d = Some (PStr c)) ∧ dict_get "revision" d = Some (PInt n) ∧ 1 <= n.

Definition heads_ok (db : review_db) : Prop :=
  ∀ tenant run_id rid, is_Some (raw db (tenant, run_id, "review_head", rid)) →
    ∃ d n, head_at db tenant run_id rid d n.

Lemma load_stored d t :
  json_clean (PDict d) = true → json_dumps (PDict d) = Ok t → load_dict t = Ok (canon_dict_of d).
Proof.
  intros Hc Ht. unfold load_dict. rewrite (json_roundtrip _ _ Hc Ht). by rewrite canon_dict.
Qed.

Lemma canon_get d k v :
  json_clean (PDict d) = true → dict_get k d = Some v → dict_get k (canon_dict_of d) = Some (canon v).
Proof. intros Hc Hk. rewrite dict_get_canon by by apply clean_NoDup. by rewrite Hk. Qed.

Lemma str_item_Ok d k s : str_item d k = Ok s ↔ dict_get k d = Some (PStr s).
Proof. unfold str_item, item. destruct (dict_get k d) as [[]|]; cbn; naive_solver. Qed.

(** A head whose review was just written. *)
Lemma head_written db tenant run_id rid review text n c :
  raw db (tenant, run_id, "review_head", rid) = Some text → json_dumps (PDict review) = Ok text →
  json_clean (PDict review) = true → dict_get "run_id" review = Some (PStr run_id) →
  dict_get "claim_id" review = Some (PStr c) → dict_get "revision" review = Some (PInt n) → 1 <= n →
  head_at db tenant run_id rid (canon_dict_of review) n.
Proof.
  intros Hraw Ht Hc Hr Hcl Hn Hle. exists text. split_and!; try done.
  - by apply load_stored.
  - by apply canon_dict_clean.
  - by rewrite (canon_get _ _ _ Hc Hr).
  - exists c. by rewrite (canon_get _ _ _ Hc Hcl).
  - by rewrite (canon_get _ _ _ Hc Hn).
Qed.

(** The one text a lookup finds is the text of the head. *)
Lemma texts_of_row db tenant run_id kind id text :
  raw db (tenant, run_id, kind, id) = Some text → text ∈ texts_of db tenant kind id.
Proof.
  intros Hr%row_get_elem. unfold texts_of. apply list_elem_of_fmap.
  exists (tenant, run_id, kind, id, text). split; [done|]. apply list_elem_of_In, filter_In.
  split; [by apply list_elem_of_In|]. cbn. by rewrite !str_eqb_refl.
Qed.

Lemma lookup_review_inv db tenant rid review :
  lookup_review db tenant rid = Ok review →
  ∃ text, texts_of db tenant "review_head" rid = [text] ∧ load_dict text = Ok review.
Proof.
  unfold lookup_review. destruct (texts_of db tenant "review_head" rid) as [|text [|? ?]]; try done.
  intros Hl. open_run Hl. injection Hl as <-. by eexists.
Qed.

Lemma lookup_head db tenant run_id rid review d n :
  lookup_review db tenant rid = Ok review → head_at db tenant run_id rid d n → review = d.
Proof.
  intros (text & Ht & Hl)%lookup_review_inv (text' & Hr & Hd & _).
  apply texts_of_row in Hr. rewrite Ht in Hr. apply list_elem_of_singleton in Hr as ->. congruence.
Qed.

(** The text a lookup finds is a row of some run. *)
Lemma texts_of_elem db tenant kind id text :
  NoDup (rv_records db).*1 → text ∈ texts_of db tenant kind id →
  ∃ run_id, raw db (tenant, run_id, kind, id) = Some text.
Proof.
  intros Hnd ([[[[t r] k] i] x] & -> & Hx)%list_elem_of_fmap.
  apply list_elem_of_In, filter_In in Hx as [Hx%list_elem_of_In Hf]. cbn in Hf.
  apply andb_true_iff in Hf as [[->%str_eqb_eq ->%str_eqb_eq]%andb_true_iff ->%str_eqb_eq].
  exists r. by apply elem_row_get.
Qed.

(** What the swap of a resolution says about the review. *)
Lemma may_resolve_revision reopen review body head e n :
  may_resolve reopen review body head e = Ok true → dict_get "revision" review = Some (PInt n) → n = e.
Proof.
  unfold may_resolve, and_result, if_result, item. intros Hm Hn. rewrite Hn in Hm.
  cbn [of_option mbind result_bind] in Hm. change (py_eq (PInt n) (PInt e)) with (n =? e) in Hm.
  destruct (n =? e) eqn:E; [by apply Z.eqb_eq|done].
Qed.

Lemma resolution_review review tag decision e now r :
  resolution review tag decision e now = Ok r →
  rs_review r = dict_set "revision" (PInt (e + 1)) (dict_set "status" (PStr "resolved") review).
Proof. unfold resolution. intros Hr. open_run Hr. by injection Hr as <-. Qed.

Lemma resolved_clean review e :
  json_clean (PDict review) = true →
  json_clean (PDict (dict_set "revision" (PInt (e + 1)) (dict_set "status" (PStr "resolved") review))) = true.
Proof. intros Hc. apply dict_set_clean; [done|done|]. by apply dict_set_clean. Qed.

Lemma resolved_get review e k :
  k ≠ "revision" → k ≠ "status" →
  dict_get k (dict_set "revision" (PInt (e + 1)) (dict_set "status" (PStr "resolved") review))
  = dict_get k review.
Proof. intros H1 H2. by rewrite !dict_get_set_ne by (done || by apply not_eq_sym). Qed.

Lemma head_at_same db db' tenant run_id rid d n :
  raw db' (tenant, run_id, "review_head", rid) = raw db (tenant, run_id, "review_head", rid) →
  head_at db tenant run_id rid d n → head_at db' tenant run_id rid d n.
Proof. intros E (text & Hr & Hx). exists text. by rewrite E. Qed.

(** The keys of the table are unique and every head holds its review. *)
Record store_ok (db : review_db) : Prop := {
  so_nodup : NoDup (rv_records db).*1;
  so_heads : heads_ok db }.

Lemma wrote_nodup l rows rows' : wrote l rows rows' → NoDup rows.*1 → NoDup rows'.*1.
Proof.
  revert rows. induction l as [|[[i k] v] l IH]; intros rows; cbn; [by intros ->|].
  intros (t & _ & _ & Hw) Hnd. apply (IH _ Hw). by apply row_set_NoDup.
Qed.

Lemma filter_rows_NoDup (f : record_key * pystr → bool) l : NoDup l.*1 → NoDup (List.filter f l).*1.
Proof.
  induction l as [|[k v] l IH]; [done|]. cbn. intros [Hk Hnd]%NoDup_cons.
  destruct (f (k, v)); [|by apply IH]. cbn. apply NoDup_cons. split; [|by apply IH].
  intros ([j w] & -> & Hin)%list_elem_of_fmap. apply Hk. apply list_elem_of_fmap. exists (j, w).
  split; [done|]. apply list_elem_of_In in Hin. apply filter_In in Hin as [Hin _]. by apply list_elem_of_In.
Qed.

Lemma execute_nodup s db db' : execute s db = Ok db' → NoDup (rv_records db).*1 → NoDup (rv_records db').*1.
Proof.
  unfold execute. intros (? & _ & [= <-])%bind_Ok_inv Hnd.
  destruct s; cbn; [case_match; cbn; [|done]| |]; by (apply row_set_NoDup || apply filter_rows_NoDup).
Qed.

(** The heads after some writes: rewritten, or as they were. *)
Lemma moved_heads l db db' :
  moved l db db' → store_ok db →
  (∀ tenant run_id rid, Forall (λ w : write, w.1.2 ≠ (tenant, run_id, "review_head" : pystr, rid)) l
     ∨ ∃ d n, head_at db' tenant run_id rid d n) → store_ok db'.
Proof.
  intros [Hw _ _ _] [Hnd Hh] Hl. split; [by eapply wrote_nodup|]. intros tenant run_id rid Hr.
  destruct (Hl tenant run_id rid) as [Hf|?]; [|done].
  assert (E : raw db' (tenant, run_id, "review_head" : pystr, rid) = raw db (tenant, run_id, "review_head" : pystr, rid))
    by exact (wrote_other _ _ _ _ Hf Hw).
  rewrite E in Hr. destruct (Hh _ _ _ Hr) as (d & n & Hd). exists d, n. by apply (head_at_same db).
Qed.

(** Record keys differ in their kinds. *)
Lemma kind_ne (k j : record_key) : (kind_of k =s? kind_of j) = false → k ≠ j.
Proof. intros Hk ->. by rewrite str_eqb_refl in Hk. Qed.

Ltac other_kind :=
  repeat first
    [ apply Forall_app; split
    | match goal with |- Forall _ [] => constructor end
    | constructor; [apply kind_ne; done|] ].

Lemma views_other t r views (k : record_key) :
  (kind_of k =s? "source_view_receipt") = false → Forall (view_write t r) views →
  Forall (λ w : write, w.1.2 ≠ k) views.
Proof.
  intros Hk Hv. eapply Forall_impl; [exact Hv|]. intros [[i j] v] (_ & id & Hj) E. cbn in Hj, E.
  rewrite Hj in E. by subst k.
Qed.

Lemma decision_write_other p c (k : record_key) :
  (kind_of k =s? "decision_revision") = false → Forall (λ w : write, w.1.2 ≠ k) (decision_write p c).
Proof.
  intros Hk. unfold decision_write. destruct (pb_decision p) as [[[n d] a]|]; constructor; [|done].
  cbn. intros <-. done.
Qed.

(** The head a first publication writes. *)
Lemma published_head db db' p review tag rid c rest :
  opens p review → dict_get "review_id" review = Some (PStr rid) →
  Forall (λ w : write, w.1.2 ≠ (pb_tenant p, pb_run_id p, "review_head" : pystr, rid)) rest →
  moved (publish_writes p review tag rid c ++ rest) db db' →
  head_at db' (pb_tenant p) (pb_run_id p) rid (canon_dict_of review) 1.
Proof.
  intros (Hc & _ & (c' & Hcl) & Hrun & _ & Hrev & _) Hid Hrest [Hw _ _ _].
  unfold publish_writes in Hw. rewrite <- !app_assoc in Hw. cbn [app] in Hw.
  assert (Hlast : ∃ t, json_dumps (PDict review) = Ok t
            ∧ raw db' (pb_tenant p, pb_run_id p, "review_head" : pystr, rid) = Some t).
  { destruct Hw as (? & _ & _ & ? & _ & _ & Hw). revert Hw.
    generalize (row_set (pb_tenant p, pb_run_id p, "tag_revision" : pystr, revision_key c (pb_tag_revision p)) x0
                  (row_set (pb_tenant p, pb_run_id p, "review_inputs" : pystr, rid) x (rv_records db))).
    intros rows Hw.
    assert (Hsplit : ∀ l l' a b, wrote (l ++ l') a b → ∃ m, wrote l a m ∧ wrote l' m b).
    { clear. induction l as [|[[i k] v] l IH]; intros l' a b; cbn; [by eauto|].
      intros (t & Ht & Hi & (m & H1 & H2)%IH). eauto 7. }
    apply Hsplit in Hw as (m & _ & ? & _ & _ & Hw).
    eapply wrote_last; [|exact Hw]. other_kind. exact Hrest. }
  destruct Hlast as (t & Ht & Hraw). by eapply head_written.
Qed.

Lemma sources_other l (tenant run_id rid : pystr) views n record t u (run : pydict) rest :
  l = views ++ record_writes tenant run_id n record ++ rest →
  (∃ t' r', Forall (view_write t' r') views) →
  Forall (λ w : write, w.1.2 ≠ (t, u, "review_head" : pystr, rid)) rest →
  Forall (λ w : write, w.1.2 ≠ (t, u, "review_head" : pystr, rid)) l.
Proof.
  intros -> (t' & r' & Hv) Hrest. apply Forall_app. split; [by eapply views_other|].
  unfold record_writes. other_kind. done.
Qed.

Lemma resolved_head db db' actor run_id c rid e h k now r bump d n :
  head_at db (ac_tenant_id actor) run_id rid d n → n = e →
  rs_review r = dict_set "revision" (PInt (e + 1)) (dict_set "status" (PStr "resolved") d) →
  kind_of bump.1.2 = "run" →
  moved (resolve_writes actor run_id c rid e h k now r bump) db db' →
  head_at db' (ac_tenant_id actor) run_id rid (canon_dict_of (rs_review r)) (e + 1).
Proof.
  intros (text & _ & _ & Hc & Hrun & (c' & Hcl) & _ & Hn) -> Hr Hb [Hw _ _ _].
  unfold resolve_writes in Hw. destruct Hw as (? & _ & _ & ? & _ & _ & ? & _ & _ & ? & _ & _ & Hw).
  eapply wrote_last in Hw as (t & Ht & Hraw).
  - eapply head_written; [exact Hraw|exact Ht| | | | |]; rewrite ?Hr.
    + by apply resolved_clean.
    + by rewrite resolved_get.
    + by rewrite resolved_get.
    + by rewrite dict_get_set_eq.
    + lia.
  - constructor; [intros E; by rewrite E in Hb|]. other_kind.
Qed.

Lemma head_at_fun db tenant run_id rid d n d' n' :
  head_at db tenant run_id rid d n → head_at db tenant run_id rid d' n' → d = d' ∧ n = n'.
Proof.
  intros (t & Hr & Hl & _ & _ & _ & Hn & _) (t' & Hr' & Hl' & _ & _ & _ & Hn' & _).
  rewrite Hr in Hr'. injection Hr' as <-. rewrite Hl in Hl'. injection Hl' as <-.
  rewrite Hn in Hn'. by injection Hn' as <-.
Qed.

(** Heads only move forward. *)
Definition advances (db db' : review_db) : Prop :=
  ∀ tenant run_id rid d n, head_at db tenant run_id rid d n →
    ∃ d' n', head_at db' tenant run_id rid d' n' ∧ n <= n'.

#[local] Instance advances_preorder : PreOrder advances.
Proof.
  split; [intros db t r id d n Hd; exists d, n; split; [done|lia]|].
  intros a b c Hab Hbc t r id d n (d1 & n1 & (d2 & n2 & ? & ?)%Hbc & ?)%Hab.
  exists d2, n2. split; [done|lia].
Qed.

(** The head of one review is rewritten by [l], all others are left alone. *)
Lemma moved_head l db db' tenant run_id rid d n :
  moved l db db' → store_ok db → head_at db' tenant run_id rid d n →
  (∀ t r id : pystr, (t, r, id) ≠ (tenant, run_id, rid) →
     Forall (λ w : write, w.1.2 ≠ (t, r, "review_head" : pystr, id)) l) →
  (∀ d0 n0, head_at db tenant run_id rid d0 n0 → n0 <= n) →
  store_ok db' ∧ advances db db'.
Proof.
  intros Hm Hok Hnew Hl Hle. split.
  - apply (moved_heads l db); [done|done|]. intros t r id.
    destruct (decide ((t, r, id) = (tenant, run_id, rid))) as [[= -> -> ->]|Hne]; [right; by eauto|left; auto].
  - intros t r id d0 n0 H0. destruct (decide ((t, r, id) = (tenant, run_id, rid))) as [[= -> -> ->]|Hne].
    + exists d, n. split; [done|by eapply Hle].
    + exists d0, n0. split; [|lia]. apply (head_at_same db); [|done].
      apply (wrote_other l); [auto|apply Hm].
Qed.

Lemma moved_quiet l db db' :
  moved l db db' → store_ok db →
  (∀ t r id : pystr, Forall (λ w : write, w.1.2 ≠ (t, r, "review_head" : pystr, id)) l) →
  store_ok db' ∧ advances db db'.
Proof.
  intros Hm Hok Hl. split.
  - apply (moved_heads l db); [done|done|]. intros t r id. by left.
  - intros t r id d n Hd. exists d, n. split; [|lia]. apply (head_at_same db); [|done].
    apply (wrote_other l); [auto|apply Hm].
Qed.

Lemma head_key_ne (t r id tenant run_id rid : pystr) :
  (t, r, id) ≠ (tenant, run_id, rid) →
  (tenant, run_id, "review_head" : pystr, rid) ≠ (t, r, "review_head" : pystr, id).
Proof. intros Hne [= -> -> ->]. done. Qed.

(** The review a lookup finds is the head of its own run. *)
Lemma lookup_is_head db tenant rid review run_id :
  store_ok db → lookup_review db tenant rid = Ok review → str_item review "run_id" = Ok run_id →
  ∃ n, head_at db tenant run_id rid review n.
Proof.
  intros [Hnd Hh] Hl Hr%str_item_Ok. pose proof Hl as (text & Ht & _)%lookup_review_inv.
  destruct (texts_of_elem db tenant "review_head" rid text Hnd) as (r & Hraw).
  { rewrite Ht. by left. }
  destruct (Hh tenant r rid) as (d & n & Hd); [by eexists|].
  pose proof (lookup_head _ _ _ _ _ _ _ Hl Hd) as ->.
  pose proof Hd as (_ & _ & _ & _ & Hr' & _). rewrite Hr in Hr'. injection Hr' as ->. by exists n.
Qed.

Lemma step_ok o db db' :
  admissible o → run_op o db = Ok db' → store_ok db → store_ok db' ∧ advances db db'.
Proof.
  intros Ha Hs Hok. destruct o as [p review ev now|build actor rid body e key reopen ev now
    |inputs epoch ev now|build actor run_id body e key epoch ev now|s|l]; cbn [run_op] in Hs.
  - apply fmap_Ok_inv in Hs as ([db1 a] & Hs & [= <-]). cbn [admissible] in Ha.
    apply publish_inv in Hs as (rid & c & Hid & Hc & [(-> & _)|(Hn & _ & _ & tag & t & r & run & _ & Hm)]); [by split|].
    apply str_item_Ok in Hid.
    eapply moved_head; [exact Hm|done| | |].
    + eapply published_head; [done|exact Hid| |exact Hm]. by other_kind.
    + intros t' r' id Hne. unfold publish_writes.
      repeat first [apply Forall_app; split | by apply decision_write_other
                   | constructor; [first [by apply kind_ne|by apply head_key_ne]|]| constructor 1].
    + intros d0 n0 (text & Ht & _). congruence.
  - apply fmap_Ok_inv in Hs as ([db1 a] & Hs & [= <-]).
    apply resolve_inv in Hs as (review & run_id & c & k & h & Hl & Hr & Hc & _ & [(_ & ->)|(_ & Hs)]); [by split|].
    destruct Hs as (head & g & initial & d & tag & dec & r & t & u & run & _ & Hmay & _ & _ & _ & _ & Hres & _ & _ & Hm).
    destruct (lookup_is_head _ _ _ _ _ Hok Hl Hr) as (n & Hd).
    assert (n = e) as Hn by (destruct Hd as (_ & _ & _ & _ & _ & _ & Hn & _); by eapply may_resolve_revision).
    eapply moved_head; [exact Hm|done| | |].
    + eapply resolved_head; [exact Hd|exact Hn|by eapply resolution_review| |exact Hm]. done.
    + intros t' r' id Hne. unfold resolve_writes.
      repeat first [constructor; [first [by apply kind_ne|by apply head_key_ne]|]| constructor 1].
    + intros d0 n0 H0. destruct (head_at_fun _ _ _ _ _ _ _ _ Hd H0) as [_ <-]. lia.
  - apply fmap_Ok_inv in Hs as ([db1 a] & Hs & [= <-]).
    apply publish_source_inv in Hs as (t & r & _ & _ & [(-> & _)|(_ & run & v & dg & t' & u & run' & _ & _ & _ & _ & Hm & _)]).
    + by apply (moved_quiet []); [apply source_schema_moved|done|].
    + apply (moved_quiet _ _ _ Hm Hok). intros t0 r0 id. unfold record_writes. other_kind.
  - apply fmap_Ok_inv in Hs as ([db1 a] & Hs & [= <-]).
    apply resolve_source_inv in Hs as (d & k & h & replay & _ & _ & [(_ & ->)|(_ & Hs)]).
    + by apply (moved_quiet []); [apply source_schema_moved|done|].
    + destruct Hs as (? & ? & ? & ? & views & t & u & run & _ & _ & Hv & _ & _ & _ & _ & Hm & _).
      apply (moved_quiet _ _ _ Hm Hok). intros t0 r0 id. apply Forall_app. split; [by eapply views_other|].
      unfold record_writes. other_kind.
  - cbn [admissible] in Ha. assert (Hsame : ∀ t r id, raw db' (t, r, "review_head" : pystr, id) = raw db (t, r, "review_head" : pystr, id)).
    { intros t r id. eapply execute_raw; [exact Hs|]. intros E. by rewrite <- E in Ha. }
    split.
    + split; [by eapply execute_nodup; [|apply Hok]|]. intros t r id. rewrite Hsame. intros Hr.
      destruct (so_heads _ Hok _ _ _ Hr) as (d & n & Hd). exists d, n. by apply (head_at_same db).
    + intros t r id d n Hd. exists d, n. split; [|lia]. by apply (head_at_same db).
  - injection Hs as <-. split; [by destruct Hok|]. intros t r id d n Hd. exists d, n. split; [done|lia].
Qed.

Lemma later_ok ops db :
  Forall admissible ops → store_ok db → store_ok (later ops db) ∧ advances db (later ops db).
Proof.
  intros Ha Hok. apply (later_ind (λ b, store_ok b ∧ advances db b)); [by split|].
  intros o a b Ho Hs [Hoka Hab]. rewrite Forall_forall in Ha.
  destruct (step_ok o a b (Ha o Ho) Hs Hoka) as [Hokb Hadv]. split; [done|by transitivity a].
Qed.

(** A database the store's operations produced, from one without its rows. *)
Definition reached_by (P : operation → Prop) (db : review_db) : Prop :=
  ∃ db0 ops, NoDup (rv_records db0).*1 ∧ (∀ k, own k = true → raw db0 k = None)
    ∧ reachable (rv_audit db0) ∧ Forall P ops ∧ db = later ops db0.

Lemma reached_ok db : reached_by admissible db → store_ok db.
Proof.
  intros (db0 & ops & Hnd & Hno & _ & Ha & ->). apply later_ok; [done|]. split; [done|].
  intros t r id Hr. rewrite Hno in Hr by done. by destruct Hr.
Qed.

(** A resolution that changed the tables was the swap of its revision. *)
Lemma swapped build actor rid body e key reopen ev now db db1 answer :
  store_ok db → resolve build actor rid body e key reopen ev now db = Ok (db1, answer) → db1 ≠ db →
  ∃ run_id d, head_at db1 (ac_tenant_id actor) run_id rid d (e + 1).
Proof.
  intros Hok (review & run_id & c & k & h & Hl & Hr & Hc & _ & [(_ & ?)|(_ & Hs)])%resolve_inv Hne; [done|].
  destruct Hs as (head & g & initial & d & tag & dec & r & t & u & run & _ & Hmay & _ & _ & _ & _ & Hres & _ & _ & Hm).
  destruct (lookup_is_head _ _ _ _ _ Hok Hl Hr) as (n & Hd).
  assert (n = e) as Hn by (destruct Hd as (_ & _ & _ & _ & _ & _ & Hn & _); by eapply may_resolve_revision).
  exists run_id. eexists. eapply resolved_head; [exact Hd|exact Hn|by eapply resolution_review| |exact Hm]. done.
Qed.

(** C3: a revision of a review is resolved at most once.  Whatever happens
    after a resolution at a revision, by any actor, with any correction and
    key, an ordinary resolution or a re-review that names the same revision
    never writes again: it is refused, or answered from the receipt. *)
Theorem review_resolved_once db build actor rid body e key reopen ev now db1 answer ops :
  reached_by admissible db → resolve build actor rid body e key reopen ev now db = Ok (db1, answer) → db1 ≠ db →
  Forall admissible ops →
  ∀ build' actor' body' key' reopen' ev' now' db2 answer',
    ac_tenant_id actor' = ac_tenant_id actor →
    resolve build' actor' rid body' e key' reopen' ev' now' (later ops db1) = Ok (db2, answer') →
    db2 = later ops db1.
Proof.
  intros Hok%reached_ok Hr Hne Ha build' actor' body' key' reopen' ev' now' db2 answer' Hten Hr'.
  destruct (swapped _ _ _ _ _ _ _ _ _ _ _ _ Hok Hr Hne) as (run_id & d & Hd).
  assert (Hok1 : store_ok db1).
  { apply (step_ok (Resolve build actor rid body e key reopen ev now) db); [done| |done].
    cbn [run_op]. by rewrite Hr. }
  destruct (later_ok ops db1 Ha Hok1) as [Hok2 Hadv].
  destruct (Hadv _ _ _ _ _ Hd) as (d' & n & Hd' & Hn).
  apply resolve_inv in Hr' as (review & run' & c & k & h & Hl & _ & _ & _ & [(_ & ->)|(_ & Hs)]); [done|].
  destruct Hs as (head & g & initial & dd & tag & dec & r & t & u & run & _ & Hmay & _).
  rewrite Hten in Hl. pose proof (lookup_head _ _ _ _ _ _ _ Hl Hd') as ->.
  destruct Hd' as (_ & _ & _ & _ & _ & _ & Hrev & _).
  pose proof (may_resolve_revision _ _ _ _ _ _ Hmay Hrev). lia.
Qed.

(* ------------------------------------------------------------------ *)
(** ** Idempotency *)
(* ------------------------------------------------------------------ *)

Definition in_class (tenant kind id : pystr) (k : record_key) : bool :=
  (k.1.1.1 =s? tenant) && (k.1.2 =s? kind) && (k.2 =s? id).

Lemma texts_of_class db tenant kind id :
  texts_of db tenant kind id
  = snd <$> List.filter (λ r : record_key * pystr, in_class tenant kind id r.1) (rv_records db).
Proof. done. Qed.

Lemma class_row_set tenant kind id k v (rows : list (record_key * pystr)) :
  in_class tenant kind id k = false →
  List.filter (λ r, in_class tenant kind id r.1) (row_set k v rows)
  = List.filter (λ r, in_class tenant kind id r.1) rows.
Proof.
  intros Hk. induction rows as [|[j w] rows IH]; cbn [row_set List.filter fst]; [by rewrite Hk|].
  case_decide as E; cbn [List.filter fst].
  - subst. by rewrite Hk.
  - by rewrite IH.
Qed.

Lemma class_wrote tenant kind id l rows rows' :
  Forall (λ w : write, in_class tenant kind id w.1.2 = false) l → wrote l rows rows' →
  List.filter (λ r, in_class tenant kind id r.1) rows'
  = List.filter (λ r, in_class tenant kind id r.1) rows.
Proof.
  intros Hl. revert rows. induction Hl as [|[[i k] v] l Hk Hl IH]; intros rows; cbn; [by intros ->|].
  intros (t & _ & _ & Hw). by rewrite (IH _ Hw), class_row_set.
Qed.

Lemma class_moved tenant kind id l db db' :
  Forall (λ w : write, in_class tenant kind id w.1.2 = false) l → moved l db db' →
  texts_of db' tenant kind id = texts_of db tenant kind id.
Proof. intros Hl [Hw _ _ _]. rewrite !texts_of_class. by rewrite (class_wrote _ _ _ _ _ _ Hl Hw). Qed.

Lemma class_kind tenant kind id k : (kind_of k =s? kind) = false → in_class tenant kind id k = false.
Proof. intros Hk. unfold in_class. fold (kind_of k). rewrite Hk. by rewrite andb_false_r. Qed.

Ltac no_class :=
  repeat first
    [ apply Forall_app; split
    | match goal with |- Forall _ [] => constructor end
    | constructor; [apply class_kind; done|] ].

Lemma replay_of_None db tenant kind k h : replay_of db tenant kind k h = Ok None ↔ texts_of db tenant kind k = [].
Proof.
  unfold replay_of. destruct (texts_of db tenant kind k) as [|text l]; [done|]. split; [|done].
  intros Hr. open_run Hr. done.
Qed.

Lemma canonical_hash_scalar v s : canonical_hash v = Ok s → scalar_str s = true.
Proof.
  unfold canonical_hash. intros (t & _ & [= <-])%bind_Ok_inv. apply is_sha256_scalar, sha256_hex_shape.
Qed.

(** The receipt a fresh resolution leaves is the only one of its key. *)
Lemma receipt_written actor run_id c rid e h k now r bump db db' :
  texts_of db (ac_tenant_id actor) "review_idempotency" k = [] → kind_of bump.1.2 = "run" →
  moved (resolve_writes actor run_id c rid e h k now r bump) db db' →
  ∃ t, json_dumps (PDict [("request_hash" : pystr, PStr h); ("response" : pystr, PDict (rs_response r))]) = Ok t
    ∧ texts_of db' (ac_tenant_id actor) "review_idempotency" k = [t].
Proof.
  intros Hno Hb [Hw _ _ _]. unfold resolve_writes in Hw.
  rewrite !texts_of_class in *.
  match type of Hw with wrote [?a; ?b; ?c; ?d; ?e; ?f; ?g] _ _ =>
    change [a; b; c; d; e; f; g] with ([a; b; c; d; e; f] ++ [g]) in Hw end.
  apply wrote_snoc in Hw as (mid & Hmid & (t & Ht & Hi & Hend)). cbn in Hend. exists t. split; [done|].
  rewrite Hend, row_set_app_fresh by auto. rewrite List.filter_app.
  erewrite class_wrote; [| |exact Hmid].
  2: { constructor; [by apply class_kind|]. do 4 (constructor; [by apply class_kind|]).
       constructor; [|done]. apply class_kind. by rewrite Hb. }
  rewrite fmap_app, Hno. cbn [app List.filter fst]. unfold in_class. cbn. by rewrite !str_eqb_refl.
Qed.

Lemma decision_write_class p c tenant id :
  Forall (λ w : write, in_class tenant "review_idempotency" id w.1.2 = false) (decision_write p c).
Proof.
  unfold decision_write. destruct (pb_decision p) as [[[n d] a]|]; constructor; [|done]. by apply class_kind.
Qed.

Lemma views_class t r views tenant id :
  Forall (view_write t r) views →
  Forall (λ w : write, in_class tenant "review_idempotency" id w.1.2 = false) views.
Proof.
  intros Hv. eapply Forall_impl; [exact Hv|]. intros [[i j] v] (_ & x & Hj). cbn in *. subst. by apply class_kind.
Qed.

(** No operation touches the receipt of a key that has one. *)
Lemma step_receipt o db db' tenant k t :
  admissible o → run_op o db = Ok db' → texts_of db tenant "review_idempotency" k = [t] →
  texts_of db' tenant "review_idempotency" k = [t].
Proof.
  intros Ha Hs Ht. destruct o as [p review ev now|build actor rid body e key reopen ev now
    |inputs epoch ev now|build actor run_id body e key epoch ev now|s|l]; cbn [run_op] in Hs.
  - apply fmap_Ok_inv in Hs as ([db1 a] & Hs & [= <-]).
    apply publish_inv in Hs as (rid & c & _ & _ & [(-> & _)|(_ & _ & _ & tag & t' & r & run & _ & Hm)]); [done|].
    erewrite class_moved; [exact Ht| |exact Hm]. unfold publish_writes.
    repeat first [apply Forall_app; split | apply decision_write_class | constructor; [by apply class_kind|] | constructor 1].
  - apply fmap_Ok_inv in Hs as ([db1 a] & Hs & [= <-]).
    apply resolve_inv in Hs as (review & run_id & c & k' & h & _ & _ & _ & _ & [(_ & ->)|(Hno & Hs)]); [done|].
    destruct Hs as (head & g & initial & d & tag & dec & r & t' & u & run & _ & _ & _ & _ & _ & _ & _ & _ & _ & Hm).
    erewrite class_moved; [exact Ht| |exact Hm]. unfold resolve_writes.
    do 6 (constructor; [by apply class_kind|]). constructor; [|done].
    apply not_true_is_false. unfold in_class. cbn. rewrite !andb_true_iff, !str_eqb_eq. intros [[<- _] <-].
    apply replay_of_None in Hno. congruence.
  - apply fmap_Ok_inv in Hs as ([db1 a] & Hs & [= <-]).
    apply publish_source_inv in Hs as (t0 & r & _ & _ & [(-> & _)|(_ & run & v & dg & t' & u & run' & _ & _ & _ & _ & Hm & _)]); [done|].
    erewrite class_moved; [exact Ht| |exact Hm]. unfold record_writes. no_class.
  - apply fmap_Ok_inv in Hs as ([db1 a] & Hs & [= <-]).
    apply resolve_source_inv in Hs as (d & k' & h & replay & _ & _ & [(_ & ->)|(_ & Hs)]); [done|].
    destruct Hs as (? & ? & ? & ? & views & t' & u & run & _ & _ & Hv & _ & _ & _ & _ & Hm & _).
    erewrite class_moved; [exact Ht| |exact Hm]. apply Forall_app.
    split; [by eapply views_class|]. unfold record_writes. no_class.
  - cbn [admissible] in Ha. rewrite texts_of_class in *. unfold execute in Hs.
    apply bind_Ok_inv in Hs as (? & _ & [= <-]).
    assert (Hk : in_class tenant "review_idempotency" k (statement_key s) = false).
    { apply class_kind. apply not_true_is_false. intros E%str_eqb_eq. unfold own in Ha. by rewrite E in Ha. }
    destruct s as [j v|j|j v]; cbn [statement_key] in Hk; cbn; [case_match; [|done]| |]; cbn;
      rewrite ?class_row_set by done; [done| |done].
    rewrite <- Ht. f_equal. clear -Hk. induction (rv_records db) as [|[i v] l IH]; [done|].
    cbn [List.filter fst]. destruct (bool_decide (i = j)) eqn:E; cbn [negb List.filter fst]; [|by rewrite IH].
    apply bool_decide_eq_true in E. subst. by rewrite Hk.
  - by injection Hs as <-.
Qed.

Lemma later_receipt ops db tenant k t :
  Forall admissible ops → texts_of db tenant "review_idempotency" k = [t] →
  texts_of (later ops db) tenant "review_idempotency" k = [t].
Proof.
  intros Ha Ht. apply later_ind; [done|]. intros o a b Ho Hs Hta. rewrite Forall_forall in Ha.
  eapply step_receipt; [by apply Ha|done|done].
Qed.

Lemma lookup_fields db tenant rid review :
  store_ok db → lookup_review db tenant rid = Ok review →
  ∃ run_id c, str_item review "run_id" = Ok run_id ∧ str_item review "claim_id" = Ok c.
Proof.
  intros [Hnd Hh] Hl. pose proof Hl as (text & Ht & _)%lookup_review_inv.
  destruct (texts_of_elem db tenant "review_head" rid text Hnd) as (r & Hraw); [rewrite Ht; by left|].
  destruct (Hh tenant r rid) as (d & n & Hd); [by eexists|].
  pose proof (lookup_head _ _ _ _ _ _ _ Hl Hd) as ->. destruct Hd as (_ & _ & _ & _ & Hr & (c & Hc) & _).
  exists r, c. by rewrite !str_item_Ok.
Qed.

(** C5: a request key answers once and for ever.  After a resolution that
    wrote, and whatever happens next, repeating the request returns the same
    answer and writes nothing, whatever the correction would build now; and
    any other request of that actor under the same key is a conflict. *)
Theorem review_request_replays db build actor rid body e key reopen ev now db1 answer ops :
  reached_by admissible db → resolve build actor rid body e key reopen ev now db = Ok (db1, answer) → db1 ≠ db →
  json_clean answer = true → Forall admissible ops →
  let db' := later ops db1 in
  ∀ build' ev' now' rid' review', lookup_review db' (ac_tenant_id actor) rid' = Ok review' →
    (rid' = rid → resolve build' actor rid body e key reopen ev' now' db' = Ok (db', canon answer))
    ∧ ∀ body' e' reopen' k' h',
        resolve_identity actor rid' body' e' key reopen' = Ok (k', h') →
        resolve_identity actor rid' body' e' key reopen' ≠ resolve_identity actor rid body e key reopen →
        resolve build' actor rid' body' e' key reopen' ev' now' db'
        = Raise (ReviewRejected "IDEMPOTENCY_CONFLICT" 409).
Proof.
  intros Hok%reached_ok Hr Hne Hca Ha db' build' ev' now' rid' review' Hl'.
  assert (Hok' : store_ok db').
  { apply later_ok; [done|]. apply (step_ok (Resolve build actor rid body e key reopen ev now) db); [done| |done].
    cbn [run_op]. by rewrite Hr. }
  apply resolve_inv in Hr as (review & run_id & c & k & h & _ & _ & _ & Hid & [(_ & ?)|(Hno & Hs)]); [done|].
  destruct Hs as (head & g & initial & d & tag & dec & r & t & u & run & _ & _ & _ & _ & _ & _ & _ & -> & _ & Hm).
  apply replay_of_None in Hno. edestruct receipt_written as (x & Hx & Hxs); [exact Hno| |exact Hm|]; [done|].
  apply (later_receipt ops) in Hxs; [|done]. fold db' in Hxs.
  destruct (lookup_fields _ _ _ _ Hok' Hl') as (run' & c' & Hrun' & Hc').
  assert (Hh : scalar_str h = true).
  { pose proof Hid as Hid2. unfold resolve_identity in Hid2. apply bind_Ok_inv in Hid2 as (? & _ & Hid2).
    apply bind_Ok_inv in Hid2 as (h2 & Hh2 & [= _ ->]). exact (canonical_hash_scalar _ _ Hh2). }
  assert (Hload : load_dict x = Ok (canon_dict_of [("request_hash" : pystr, PStr h); ("response" : pystr, PDict (rs_response r))])).
  { apply load_stored; [|done]. cbn in Hca |- *. by rewrite Hh, Hca. }
  split.
  - intros ->. unfold resolve. rewrite Hl'. cbn [mbind result_bind]. rewrite Hrun'. cbn [mbind result_bind].
    rewrite Hc'. cbn [mbind result_bind]. rewrite Hid. cbn [mbind result_bind]. unfold replay_of.
    rewrite Hxs, Hload. cbn [mbind result_bind]. change (item (canon_dict_of ?d) ?k) with (of_option KeyError (dict_get k (canon_dict_of d))).
    unfold canon_dict_of. cbn. by rewrite str_eqb_refl.
  - intros body' e' reopen' k' h' Hid' Hneq. rewrite Hid, Hid' in Hneq.
    assert (k' = k) as ->.
    { unfold resolve_identity in Hid, Hid'. open_run Hid. open_run Hid'. congruence. }
    unfold resolve. rewrite Hl'. cbn [mbind result_bind]. rewrite Hrun'. cbn [mbind result_bind].
    rewrite Hc'. cbn [mbind result_bind]. rewrite Hid'. cbn [mbind result_bind]. unfold replay_of.
    rewrite Hxs, Hload. cbn [mbind result_bind]. unfold canon_dict_of. cbn.
    destruct (str_eqb_spec h h') as [->|]; [done|]. done.
Qed.

(* ------------------------------------------------------------------ *)
(** ** Heads and their histories *)
(* ------------------------------------------------------------------ *)

(** A correction numbers what it builds: the tag after the one it corrects,
    the decision as it is told.  Published revisions start at 1. *)
Definition numbers (o : operation) : Prop :=
  match o with
  | Publish p _ _ _ => 1 <= pb_tag_revision p
      ∧ match pb_decision p with Some (n, _, _) => 1 <= n | None => True end
  | Resolve build _ _ body _ _ _ _ _ =>
      ∃ b, dict_get "base_tag_revision" body = Some (PInt b)
        ∧ ∀ review initial n tag decision, build review initial n = Ok (tag, decision) →
            dict_get "tag_revision" tag = Some (PInt (b + 1))
            ∧ dict_get "decision_revision" decision = Some (PInt n)
  | _ => True
  end.

Definition has_row (db : review_db) (k : record_key) : Prop := is_Some (raw db k).

Lemma wrote_rows l rows rows' k :
  wrote l rows rows' → is_Some (row_get k rows') ↔ Exists (λ w : write, w.1.2 = k) l ∨ is_Some (row_get k rows).
Proof.
  revert rows. induction l as [|[[i j] v] l IH]; intros rows; cbn [wrote].
  - intros ->. rewrite Exists_nil. tauto.
  - intros (t & _ & _ & Hw). rewrite (IH _ Hw), row_get_set, Exists_cons. cbn [fst snd].
    case_decide as E; [|by naive_solver]. subst. split; [by auto|]. intros _. right. by eexists.
Qed.

Lemma moved_has_row l db db' k :
  moved l db db' → has_row db' k ↔ Exists (λ w : write, w.1.2 = k) l ∨ has_row db k.
Proof. intros [Hw _ _ _]. by apply wrote_rows. Qed.

Lemma no_write_Exists l k : Forall (λ w : write, w.1.2 ≠ k) l → ¬ Exists (λ w : write, w.1.2 = k) l.
Proof. intros Hf He. apply Exists_exists in He as (w & Hw & E). rewrite Forall_forall in Hf. by apply (Hf w). Qed.

(** The rows of one history: those of revisions 1 to [n], or those from the
    first up to the head. *)
Record claim_at (db : review_db) (tenant run_id c : pystr) (g n : Z) : Prop := {
  ca_head : ∃ text d, raw db (tenant, run_id, "claim_head", c) = Some text ∧ load_dict text = Ok d
              ∧ dict_get "tag_revision" d = Some (PInt g) ∧ dict_get "decision_revision" d = Some (PInt n);
  ca_bounds : 1 <= g ∧ 0 <= n;
  ca_tag : has_row db (tenant, run_id, "tag_revision", revision_key c g);
  ca_decision : n ≠ 0 → has_row db (tenant, run_id, "decision_revision", revision_key c n);
  ca_last : ∀ m, (g < m → ¬ has_row db (tenant, run_id, "tag_revision", revision_key c m))
                 ∧ (n < m → ¬ has_row db (tenant, run_id, "decision_revision", revision_key c m)) }.

(** Every head of the store is the last of its history. *)
Record histories_ok (db : review_db) : Prop := {
  hi_review : ∀ tenant run_id rid d n, head_at db tenant run_id rid d n →
    (∀ m, 0 <= m → has_row db (tenant, run_id, "review_revision", revision_key rid m) ↔ 1 <= m <= n)
    ∧ ∃ c, dict_get "claim_id" d = Some (PStr c) ∧ has_row db (tenant, run_id, "claim_head", c);
  hi_no_review : ∀ tenant run_id rid, ¬ has_row db (tenant, run_id, "review_head", rid) →
    ∀ m, 0 <= m → ¬ has_row db (tenant, run_id, "review_revision", revision_key rid m);
  hi_claim : ∀ tenant run_id c, has_row db (tenant, run_id, "claim_head", c) →
    ∃ g n, claim_at db tenant run_id c g n;
  hi_no_claim : ∀ tenant run_id c, ¬ has_row db (tenant, run_id, "claim_head", c) →
    ∀ m, 0 <= m → ¬ has_row db (tenant, run_id, "tag_revision", revision_key c m)
                  ∧ ¬ has_row db (tenant, run_id, "decision_revision", revision_key c m) }.

(** The kinds the histories are made of. *)
Definition history_kinds : list pystr :=
  ["review_head"; "review_revision"; "claim_head"; "tag_revision"; "decision_revision"].

Definition same_history (db db' : review_db) : Prop :=
  ∀ k, str_in (kind_of k) history_kinds = true → raw db' k = raw db k.

Lemma same_histories db db' : same_history db db' → histories_ok db → histories_ok db'.
Proof.
  intros Hs [H1 H2 H3 H4].
  assert (Hrow : ∀ k, str_in (kind_of k) history_kinds = true → has_row db' k ↔ has_row db k)
    by (intros k Hk; unfold has_row; by rewrite Hs).
  split.
  - intros t r id d n Hd. apply (head_at_same db' db) in Hd; [|by rewrite Hs].
    destruct (H1 _ _ _ _ _ Hd) as [Hm (c & Hc & Hh)]. split.
    + intros m Hm0. rewrite Hrow by done. by apply Hm.
    + exists c. split; [done|]. by apply Hrow.
  - intros t r id Hno m Hm. rewrite Hrow in Hno |- * by done. by apply H2.
  - intros t r c Hc. rewrite Hrow in Hc by done. destruct (H3 _ _ _ Hc) as (g & n & [Hh Hb Ht Hd Hl]).
    exists g, n. split; [by rewrite Hs|done| | |]; try intros; rewrite ?Hrow by done; auto.
  - intros t r c Hno m Hm. rewrite Hrow in Hno by done. rewrite !Hrow by done. by apply H4.
Qed.

Lemma moved_same_history l db db' :
  moved l db db' → Forall (λ w : write, str_in (kind_of w.1.2) history_kinds = false) l → same_history db db'.
Proof.
  intros [Hw _ _ _] Hl k Hk. apply (wrote_other l); [|done]. eapply Forall_impl; [exact Hl|].
  intros w Hf E. cbn beta in *. rewrite E in Hf. congruence.
Qed.

Lemma claim_head_get g n t :
  json_dumps (PDict (claim_head g n)) = Ok t →
  ∃ d, load_dict t = Ok d ∧ dict_get "tag_revision" d = Some (PInt g)
    ∧ dict_get "decision_revision" d = Some (PInt n).
Proof.
  intros Ht. exists (canon_dict_of (claim_head g n)). split; [by apply load_stored|].
  by split; [exact (canon_get (claim_head g n) "tag_revision" (PInt g) eq_refl eq_refl)
            |exact (canon_get (claim_head g n) "decision_revision" (PInt n) eq_refl eq_refl)].
Qed.

Lemma revision_row_inj (t r kind id t' r' id' : pystr) m m' :
  0 <= m → 0 <= m' → (t, r, kind, revision_key id m) = (t', r', kind, revision_key id' m') →
  t = t' ∧ r = r' ∧ id = id' ∧ m = m'.
Proof. intros Hm Hm' [= -> -> E]. by apply revision_key_inj in E as [-> ->]. Qed.

Section histories.
Context (l : list write) (db db' : review_db) (T R rid c : pystr) (d : pydict) (e g n : Z) (decided : bool).
Context (Hok : histories_ok db) (Hm : moved l db db').
Context (Hl : ∀ k, str_in (kind_of k) history_kinds = true →
  Exists (λ w : write, w.1.2 = k) l ↔
    k = (T, R, "tag_revision" : pystr, revision_key c g)
    ∨ (decided = true ∧ k = (T, R, "decision_revision" : pystr, revision_key c n))
    ∨ k = (T, R, "review_revision" : pystr, revision_key rid e)
    ∨ k = (T, R, "claim_head" : pystr, c) ∨ k = (T, R, "review_head" : pystr, rid)).
Context (Hhead : head_at db' T R rid d e) (Hc : dict_get "claim_id" d = Some (PStr c)).
Context (Hrev : ∀ m, 0 <= m → has_row db (T, R, "review_revision", revision_key rid m) ↔ 1 <= m < e).
Context (Hnew : ∃ text h, raw db' (T, R, "claim_head", c) = Some text ∧ load_dict text = Ok h
  ∧ dict_get "tag_revision" h = Some (PInt g) ∧ dict_get "decision_revision" h = Some (PInt n)).
Context (Hg : 1 <= g) (Hn : if decided then 1 <= n else n = 0).
Context (Htags : ∀ m, g <= m → ¬ has_row db (T, R, "tag_revision", revision_key c m)).
Context (Hdecs : ∀ m, n <= m → ¬ has_row db (T, R, "decision_revision", revision_key c m)).

Local Lemma e_pos : 1 <= e.
Proof using Hhead. by destruct Hhead as (? & _ & _ & _ & _ & _ & _ & ?). Qed.

Local Lemma n_pos : 0 <= n.
Proof using Hn. clear -Hn. destruct decided; lia. Qed.

Local Lemma rows_grow k : has_row db k → has_row db' k.
Proof using Hm. intros Hk. apply (moved_has_row l db db' k Hm). by right. Qed.

(** The rows of a history that is not the one written. *)
Local Lemma tag_rows t r i m : 0 <= m →
  has_row db' (t, r, "tag_revision", revision_key i m) ↔
  (t, r, i, m) = (T, R, c, g) ∨ has_row db (t, r, "tag_revision", revision_key i m).
Proof using Hm Hl Hg.
  intros Hm0. rewrite (moved_has_row _ _ _ _ Hm), Hl by done. split.
  - intros [[E|[[_ E]|[E|[E|E]]]]|?]; try done; [|by right].
    left. apply revision_row_inj in E as (-> & -> & -> & ->); [done|done|lia].
  - intros [[= -> -> -> ->]|?]; [by left; left|by right].
Qed.

Local Lemma decision_rows t r i m : 0 <= m →
  has_row db' (t, r, "decision_revision", revision_key i m) ↔
  (decided = true ∧ (t, r, i, m) = (T, R, c, n)) ∨ has_row db (t, r, "decision_revision", revision_key i m).
Proof using Hm Hl Hn.
  intros Hm0. pose proof n_pos. rewrite (moved_has_row _ _ _ _ Hm), Hl by done. split.
  - intros [[E|[[? E]|[E|[E|E]]]]|?]; try done; [|by right].
    left. apply revision_row_inj in E as (-> & -> & -> & ->); done.
  - intros [[? [= -> -> -> ->]]|?]; [by left; right; left|by right].
Qed.

Local Lemma review_rows t r i m : 0 <= m →
  has_row db' (t, r, "review_revision", revision_key i m) ↔
  (t, r, i, m) = (T, R, rid, e) ∨ has_row db (t, r, "review_revision", revision_key i m).
Proof using Hm Hl Hhead.
  intros Hm0. pose proof e_pos. rewrite (moved_has_row _ _ _ _ Hm), Hl by done. split.
  - intros [[E|[[_ E]|[E|[E|E]]]]|?]; try done; [|by right].
    left. apply revision_row_inj in E as (-> & -> & -> & ->); [done|done|lia].
  - intros [[= -> -> -> ->]|?]; [by left; right; right; left|by right].
Qed.

Local Lemma claim_heads t r i : has_row db' (t, r, "claim_head", i) ↔
  (t, r, i) = (T, R, c) ∨ has_row db (t, r, "claim_head", i).
Proof using Hm Hl.
  rewrite (moved_has_row _ _ _ _ Hm), Hl by done. split.
  - intros [[E|[[_ E]|[E|[E|E]]]]|?]; try done; [|by right]. left. by injection E as -> -> ->.
  - intros [[= -> -> ->]|?]; [by left; right; right; right; left|by right].
Qed.

Local Lemma review_heads t r i : has_row db' (t, r, "review_head", i) ↔
  (t, r, i) = (T, R, rid) ∨ has_row db (t, r, "review_head", i).
Proof using Hm Hl.
  rewrite (moved_has_row _ _ _ _ Hm), Hl by done. split.
  - intros [[E|[[_ E]|[E|[E|E]]]]|?]; try done; [|by right]. left. by injection E as -> -> ->.
  - intros [[= -> -> ->]|?]; [by left; do 4 right|by right].
Qed.

Local Lemma same_head (kind t r i : pystr) : kind = "claim_head" ∨ kind = "review_head" →
  (t, r, kind, i) ≠ (T, R, "claim_head" : pystr, c) → (t, r, kind, i) ≠ (T, R, "review_head" : pystr, rid) →
  raw db' (t, r, kind, i) = raw db (t, r, kind, i).
Proof using Hm Hl.
  intros Hkind H1 H2. apply (wrote_other l); [|apply Hm]. apply Forall_forall. intros w Hw E.
  assert (Exists (λ w : write, w.1.2 = (t, r, kind, i)) l) as He by (apply Exists_exists; eauto).
  apply Hl in He; [|by destruct Hkind as [->| ->]].
  destruct He as [E'|[[_ E']|[E'|[E'|E']]]]; try done; destruct Hkind as [->| ->]; done.
Qed.

Local Lemma new_claim : claim_at db' T R c g n.
Proof using Hm Hl Hnew Hg Hn Htags Hdecs.
  split; [done|split; [done|apply n_pos]| | |].
  - apply tag_rows; [lia|by left].
  - intros Hn0. apply decision_rows; [apply n_pos|]. left. by destruct decided.
  - intros m. split; intros Hlt.
    + rewrite tag_rows by lia. intros [[= E]|Hr]; [lia|]. by apply (Htags m); [lia|].
    + rewrite decision_rows by (pose proof n_pos; lia). intros [[_ [= E]]|Hr]; [lia|].
      by apply (Hdecs m); [lia|].
Qed.

Local Lemma old_claim t r i g0 n0 : (t, r, i) ≠ (T, R, c) → claim_at db t r i g0 n0 → claim_at db' t r i g0 n0.
Proof using Hm Hl Hg Hn.
  intros Hne [(text & h & Hraw & Hload) [Hg0 Hn0] Ht Hd Hlast]. split.
  - exists text, h. split; [|done]. rewrite same_head; [done|by left| |done]. intros [= -> -> ->]. done.
  - done.
  - by apply rows_grow.
  - intros Hz. by apply rows_grow, Hd.
  - intros m. destruct (Hlast m) as [H1 H2]. split; intros Hlt.
    + rewrite tag_rows by lia. intros [[= -> -> -> _]|Hr]; [done|by apply H1].
    + rewrite decision_rows by lia. intros [[_ [= -> -> -> _]]|Hr]; [done|by apply H2].
Qed.

Lemma histories_step : histories_ok db'.
Proof using Hok Hm Hl Hhead Hc Hrev Hnew Hg Hn Htags Hdecs.
  destruct Hok as [H1 H2 H3 H4]. split.
  - intros t r i d0 n0 Hd0. destruct (decide ((t, r, i) = (T, R, rid))) as [[= -> -> ->]|Hne].
    + destruct (head_at_fun _ _ _ _ _ _ _ _ Hhead Hd0) as [<- <-]. split.
      * intros m Hm0. rewrite review_rows, Hrev by done. split.
        -- intros [[= ->]|?]; pose proof e_pos; lia.
        -- intros ?. destruct (decide (m = e)) as [->|]; [by left|right; lia].
      * exists c. split; [done|]. apply claim_heads. by left.
    + apply (head_at_same db' db) in Hd0.
      2: { rewrite same_head; [done|by right|done|]. intros [= -> -> ->]. done. }
      destruct (H1 _ _ _ _ _ Hd0) as [Hr (c0 & Hc0 & Hh)]. split.
      * intros m Hm0. rewrite review_rows by done. rewrite Hr by done. split; [|by right].
        by intros [[= -> -> -> _]|?].
      * exists c0. split; [done|by apply rows_grow].
  - intros t r i Hno m Hm0. rewrite review_heads in Hno. rewrite review_rows by done.
    intros [[= -> -> -> _]|Hr]; [by apply Hno; left|]. revert Hr. apply H2; [|done].
    intros ?. by apply Hno; right.
  - intros t r i Hh. destruct (decide ((t, r, i) = (T, R, c))) as [[= -> -> ->]|Hne].
    + exists g, n. apply new_claim.
    + apply claim_heads in Hh as [?|Hh]; [done|]. destruct (H3 _ _ _ Hh) as (g0 & n0 & Hcl).
      exists g0, n0. by apply old_claim.
  - intros t r i Hno m Hm0. rewrite claim_heads in Hno.
    destruct (H4 t r i) with (m := m) as [Ht Hd]; [by intros ?; apply Hno; right|done|].
    rewrite tag_rows, decision_rows by done. split.
    + intros [[= -> -> -> _]|?]; [by apply Hno; left|done].
    + intros [[_ [= -> -> -> _]]|?]; [by apply Hno; left|done].
Qed.
End histories.

Lemma wrote_split l1 l2 a b : wrote (l1 ++ l2) a b → ∃ m, wrote l1 a m ∧ wrote l2 m b.
Proof.
  revert a. induction l1 as [|[[i k] v] l1 IH]; intros a; cbn [app wrote]; [by eauto|].
  intros (t & Ht & Hi & (m & H1 & H2)%IH). exists m. split; [|done]. by exists t.
Qed.

Lemma may_resolve_base reopen review body head e b g :
  may_resolve reopen review body head e = Ok true →
  dict_get "base_tag_revision" body = Some (PInt b) → dict_get "tag_revision" head = Some (PInt g) → b = g.
Proof.
  intros Hm Hb Hg. unfold may_resolve, and_result, if_result, same_item, item in Hm.
  open_run Hm. destruct x; [|done]. open_run Hm. destruct x; [|done].
  rewrite Hb, Hg in Hm. destruct reopen; cbn [of_option mbind result_bind] in Hm.
  - change (py_eq (PInt b) (PInt g)) with (b =? g) in Hm. injection Hm as Hm. by apply Z.eqb_eq.
  - open_run Hm. destruct x; [|done]. change (py_eq (PInt g) (PInt b)) with (g =? b) in Hm.
    injection Hm as Hm. by apply Z.eqb_eq in Hm.
Qed.

Lemma resolution_numbers review tag decision e now r g n :
  resolution review tag decision e now = Ok r →
  dict_get "tag_revision" tag = Some (PInt g) → dict_get "decision_revision" decision = Some (PInt n) →
  rs_tag_revision r = g ∧ rs_decision_revision r = n.
Proof.
  unfold resolution, int_item, item. intros Hr Hg Hn. rewrite dict_get_set_ne, Hg, Hn in Hr by done.
  open_run Hr. cbn in *. by simplify_eq/=.
Qed.

Lemma get_Ok db k d : kind_of k ≠ "run" → get db k = Ok d → ∃ t, raw db k = Some t ∧ load_dict t = Ok d.
Proof.
  unfold get. intros Hk Hg. apply str_eqb_neq in Hk. rewrite Hk in Hg. cbn [mbind result_bind] in Hg.
  apply bind_Ok_inv in Hg as (t & Ht & Hl). exists t. split; [|done]. by destruct (raw db k); [injection Ht as ->|].
Qed.

Ltac exists_writes :=
  rewrite ?Exists_app, ?Exists_cons, ?Exists_nil; cbn [fst snd].

Lemma resolve_histories actor run_id c rid e h k now r t u run db db' review n0 g0 k0 body :
  moved (resolve_writes actor run_id c rid e h k now r
           (false, (t, u, "run" : pystr, "META" : pystr), PDict run)) db db' →
  histories_ok db → head_at db (ac_tenant_id actor) run_id rid review n0 → n0 = e →
  dict_get "claim_id" review = Some (PStr c) →
  rs_review r = dict_set "revision" (PInt (e + 1)) (dict_set "status" (PStr "resolved") review) →
  claim_at db (ac_tenant_id actor) run_id c g0 k0 →
  dict_get "base_tag_revision" body = Some (PInt g0) →
  rs_tag_revision r = g0 + 1 → rs_decision_revision r = k0 + 1 → histories_ok db'.
Proof.
  intros Hm Hok Hhead -> Hc Hr [_ [Hg0 Hk0] _ _ Hlast] _ Hg Hn.
  destruct (hi_review _ Hok _ _ _ _ _ Hhead) as [Hrows _].
  apply (histories_step _ db db' (ac_tenant_id actor) run_id rid c (canon_dict_of (rs_review r)) (e + 1)
           (g0 + 1) (k0 + 1) true Hok Hm); try done.
  - intros j Hj. unfold resolve_writes. exists_writes. rewrite Hg, Hn. split.
    + intros [<-|[<-|[<-|[<-|[<-|[<-|[<-|?]]]]]]]; first [done|auto 12].
    + intros [->|[[_ ->]|[->|[->| ->]]]]; first [done|auto 12].
  - eapply resolved_head; [exact Hhead|done|exact Hr| |exact Hm]. done.
  - destruct Hhead as (_ & _ & _ & Hcl & _). rewrite Hr.
    rewrite (canon_get _ _ (PStr c)); [done|by apply resolved_clean|by rewrite resolved_get].
  - intros m Hm0. rewrite Hrows by done. lia.
  - unfold resolve_writes in Hm. rewrite Hg, Hn in Hm.
    destruct Hm as [(? & _ & _ & ? & _ & _ & ? & _ & _ & Hw) _ _ _].
    eapply wrote_last in Hw as (tx & Hx & Hraw); [|by other_kind].
    apply claim_head_get in Hx as (hd & Hx & Hxg & Hxn). by exists tx, hd.
  - lia.
  - lia.
  - intros m Hm0. apply Hlast. lia.
  - intros m Hm0. apply Hlast. lia.
Qed.

Lemma publish_histories p review tag rid c t u run db db' :
  moved (publish_writes p review tag rid c ++ [(false, (t, u, "run" : pystr, "META" : pystr), PDict run)]) db db' →
  histories_ok db → opens p review → dict_get "review_id" review = Some (PStr rid) →
  dict_get "claim_id" review = Some (PStr c) → 1 <= pb_tag_revision p →
  (match pb_decision p with Some (n, _, _) => 1 <= n | None => True end) →
  raw db (pb_tenant p, pb_run_id p, "review_head", rid) = None →
  raw db (pb_tenant p, pb_run_id p, "claim_head", c) = None → histories_ok db'.
Proof.
  intros Hm Hok Hopen Hid Hc Hg Hn Hnr Hnc.
  assert (Hclaim : ∀ m, 0 <= m → ¬ has_row db (pb_tenant p, pb_run_id p, "tag_revision", revision_key c m)
            ∧ ¬ has_row db (pb_tenant p, pb_run_id p, "decision_revision", revision_key c m)).
  { apply (hi_no_claim _ Hok). unfold has_row. rewrite Hnc. by intros []. }
  assert (Hn' : if bool_decide (is_Some (pb_decision p)) then 1 <= decision_revision_of p
                else decision_revision_of p = 0).
  { unfold decision_revision_of. by destruct (pb_decision p) as [[[z d] a]|]. }
  assert (0 <= decision_revision_of p) as Hn0 by (case_bool_decide; lia).
  apply (histories_step _ db db' (pb_tenant p) (pb_run_id p) rid c (canon_dict_of review) 1
           (pb_tag_revision p) (decision_revision_of p) (bool_decide (is_Some (pb_decision p))) Hok Hm); try done.
  - intros j Hj. unfold publish_writes. exists_writes.
    assert (Hd : Exists (λ w : write, w.1.2 = j) (decision_write p c) ↔
      bool_decide (is_Some (pb_decision p)) = true
      ∧ j = (pb_tenant p, pb_run_id p, "decision_revision" : pystr, revision_key c (decision_revision_of p))).
    { unfold decision_write, decision_revision_of. destruct (pb_decision p) as [[[z d] a]|]; exists_writes.
      - split; [by intros [<-|[]]|intros [_ ->]; by left].
      - split; [done|by intros [? _]]. }
    rewrite Hd. split.
    + intros [[[<-|[<-|?]]|[?|[<-|[<-|[<-|?]]]]]|[<-|?]]; first [done|auto 9].
    + intros [->|[?|[->|[->| ->]]]]; first [done|auto 9].
  - eapply published_head; [done|exact Hid| |exact Hm]. by other_kind.
  - destruct Hopen as (Hclean & _). by rewrite (canon_get _ _ _ Hclean Hc).
  - intros m Hm0. split; [|lia]. intros Hr. exfalso. revert Hr. apply (hi_no_review _ Hok); [|done].
    unfold has_row. rewrite Hnr. by intros [].
  - unfold publish_writes in Hm. rewrite <- !app_assoc in Hm. cbn [app] in Hm.
    destruct Hm as [(? & _ & _ & ? & _ & _ & (m & _ & Hw)%wrote_split) _ _ _].
    eapply wrote_last in Hw as (tx & Hx & Hraw); [|by other_kind].
    apply claim_head_get in Hx as (hd & Hx & Hxg & Hxn). by exists tx, hd.
  - intros m Hm0. apply Hclaim. lia.
  - intros m Hm0. apply Hclaim. lia.
Qed.

Lemma step_histories o db db' :
  admissible o → numbers o → run_op o db = Ok db' → store_ok db → histories_ok db → histories_ok db'.
Proof.
  intros Ha Hnum Hs Hok Hh. destruct o as [p review ev now|build actor rid body e key reopen ev now
    |inputs epoch ev now|build actor run_id body e key epoch ev now|s|l]; cbn [run_op] in Hs.
  - apply fmap_Ok_inv in Hs as ([db1 a] & Hs & [= <-]). cbn [admissible numbers] in Ha, Hnum.
    apply publish_inv in Hs as (rid & c & Hid%str_item_Ok & Hc%str_item_Ok
      & [(-> & _)|(Hn & Hnc & _ & tag & t & r & run & _ & Hm)]); [done|].
    by eapply publish_histories; [exact Hm|done|done|done|done|apply Hnum|apply Hnum|done|done].
  - apply fmap_Ok_inv in Hs as ([db1 a] & Hs & [= <-]).
    apply resolve_inv in Hs as (review & run_id & c & k & h & Hl & Hr & Hc%str_item_Ok & _ & [(_ & ->)|(_ & Hs)]); [done|].
    destruct Hs as (head & g & initial & d & tag & dec & r & t & u & run & Hhead & Hmay & Hg & _ & Hd & Hb & Hres & _ & _ & Hm).
    destruct (lookup_is_head _ _ _ _ _ Hok Hl Hr) as (n & Hat).
    assert (n = e) as Hn by (destruct Hat as (_ & _ & _ & _ & _ & _ & Hn & _); by eapply may_resolve_revision).
    destruct (hi_review _ Hh _ _ _ _ _ Hat) as [_ (c' & Hc' & Hrow)]. rewrite Hc in Hc'. injection Hc' as <-.
    destruct (hi_claim _ Hh _ _ _ Hrow) as (g0 & k0 & Hcl).
    destruct Hnum as (b & Hbase & Hbuild). apply Hbuild in Hb as [Htag Hdec].
    pose proof (ca_head _ _ _ _ _ _ Hcl) as (tx & hd & Hraw & Hload & Hhg & Hhk).
    apply get_Ok in Hhead as (tx' & Hraw' & Hload'); [|done].
    rewrite Hraw in Hraw'. injection Hraw' as <-. rewrite Hload in Hload'. injection Hload' as <-.
    unfold int_item, item in Hd. rewrite Hhk in Hd. injection Hd as <-.
    pose proof (may_resolve_base _ _ _ _ _ _ _ Hmay Hbase Hhg) as ->.
    destruct (resolution_numbers _ _ _ _ _ _ _ _ Hres Htag Hdec) as [H1 H2].
    eapply resolve_histories; [exact Hm|done|exact Hat|done|done|by eapply resolution_review|exact Hcl|exact Hbase|done|done].
  - apply fmap_Ok_inv in Hs as ([db1 a] & Hs & [= <-]). eapply same_histories; [|done].
    apply publish_source_inv in Hs as (t & r & _ & _ & [(-> & _)|(_ & run & v & dg & t' & u & run' & _ & _ & _ & _ & Hm & _)]).
    + done.
    + eapply moved_same_history; [exact Hm|]. unfold record_writes. repeat constructor.
  - apply fmap_Ok_inv in Hs as ([db1 a] & Hs & [= <-]). eapply same_histories; [|done].
    apply resolve_source_inv in Hs as (d & k & h & replay & _ & _ & [(_ & ->)|(_ & Hs)]); [done|].
    destruct Hs as (? & ? & ? & ? & views & t & u & run & _ & _ & Hv & _ & _ & _ & _ & Hm & _).
    eapply moved_same_history; [exact Hm|]. apply Forall_app. split.
    + eapply Forall_impl; [exact Hv|]. intros [[i j] v] (_ & id & Hj). cbn in *. by subst.
    + unfold record_writes. repeat constructor.
  - cbn [admissible] in Ha. eapply same_histories; [|done]. intros k Hk. eapply execute_raw; [exact Hs|].
    intros ->. unfold own in Ha. apply str_in_false in Ha. apply Ha. apply str_in_iff in Hk.
    unfold history_kinds in Hk. revert Hk. generalize (kind_of (statement_key s)). intros kind Hk.
    repeat (apply elem_of_cons in Hk as [->|Hk]; [by apply str_in_iff|]). by apply elem_of_nil in Hk.
  - injection Hs as <-. by apply (same_histories db).
Qed.

Definition numbered (o : operation) : Prop := admissible o ∧ numbers o.

(** C4: every head of the store is the last of a complete history.  In every
    database the store's operations reach, the review a head holds at
    revision n has exactly the revisions 1 to n, its claim has a head, the
    tag and the decision that head names are there, and none is later, so
    that the next resolution finds the numbers it writes free. *)
Theorem review_heads_are_last db tenant run_id rid d n :
  reached_by numbered db → head_at db tenant run_id rid d n →
  (∀ m, 0 <= m → has_row db (tenant, run_id, "review_revision", revision_key rid m) ↔ 1 <= m <= n)
  ∧ ∃ c g k, dict_get "claim_id" d = Some (PStr c) ∧ claim_at db tenant run_id c g k.
Proof.
  intros (db0 & ops & Hnd & Hno & _ & Ha & ->) Hd.
  assert (Hfree : ∀ k, own k = true → ¬ has_row db0 k) by (intros k Hk; unfold has_row; rewrite Hno by done; by intros []).
  assert (Hall : store_ok (later ops db0) ∧ histories_ok (later ops db0)).
  { apply (later_ind (λ b, store_ok b ∧ histories_ok b)).
    - split; [split; [done|by intros t r id Hr%Hfree]|].
      split; try (intros; split; by apply Hfree).
      + intros t r id d0 n0 (x & Hx & _). destruct (Hfree (t, r, "review_head" : pystr, id)); [done|by exists x].
      + intros; by apply Hfree.
      + by intros t r c Hc%Hfree.
    - intros o a b Ho Hs [Hoka Hha]. rewrite Forall_forall in Ha. destruct (Ha o Ho) as [Hadm Hnum].
      split; [by eapply step_ok|by eapply step_histories]. }
  destruct Hall as [_ Hh]. destruct (hi_review _ Hh _ _ _ _ _ Hd) as [Hrows (c & Hc & Hrow)].
  split; [done|]. destruct (hi_claim _ Hh _ _ _ Hrow) as (g & k & Hcl). by exists c, g, k.
Qed.

(** The audit stream of every run reads and verifies. *)
Lemma step_audit o db db' : run_op o db = Ok db' → reachable (rv_audit db) → reachable (rv_audit db').
Proof.
  destruct o; cbn [run_op].
  - intros ([db1 a] & Hp & [= <-])%fmap_Ok_inv. apply publish_inv in Hp
      as (rid & c & _ & _ & [(-> & _)|(_ & _ & _ & tag & t & r & run & _ & Hm)]); [done|apply Hm].
  - intros ([db1 a] & Hp & [= <-])%fmap_Ok_inv. apply resolve_inv in Hp
      as (review & run_id & c & k & h & _ & _ & _ & _ & [(_ & ->)|(_ & Hs)]); [done|].
    repeat match goal with Hx : ∃ _, _ |- _ => destruct Hx as [? Hx] end. destruct_and?.
    match goal with Hm : moved _ _ _ |- _ => apply Hm end.
  - intros ([db1 a] & Hp & [= <-])%fmap_Ok_inv. apply publish_source_inv in Hp
      as (t & r & _ & _ & [(-> & _)|(_ & run & version & digest & t' & u & run' & _ & _ & _ & _ & Hm & _)]);
      [done|apply Hm].
  - intros ([db1 a] & Hp & [= <-])%fmap_Ok_inv. apply resolve_source_inv in Hp
      as (d & k & h & replay & _ & _ & [(_ & ->)|(_ & Hm)]); [done|].
    destruct Hm as (? & ? & ? & ? & views & t & u & run & _ & _ & Hv & _ & _ & _ & _ & Hm & _). apply Hm.
  - unfold execute. intros (? & _ & [= <-])%bind_Ok_inv. by destruct s; repeat case_match.
  - by intros [= <-].
Qed.

(** Whatever the operations did, the audit stream of a run is a verified
    chain. *)
Theorem review_audit_verifies db t r :
  reached_by admissible db → uuid_shape t = true → uuid_shape r = true →
  store_events (rv_audit db) t r = Ok (rows_of (rv_audit db) t r).
Proof.
  intros (db0 & ops & _ & _ & Hreach & _ & ->) Ht Hr. apply store_events_reachable; [|done|done].
  apply (later_ind (λ b, reachable (rv_audit b))); [done|]. intros o a b _ Hs. by apply step_audit with o.
Qed.

End store_spec.

(* ------------------------------------------------------------------ *)
(** ** A review, resolved and asked for again *)
(* ------------------------------------------------------------------ *)

Section sample.
#[local] Existing Instance Checksum.

Definition sample_tenant : pystr := "11111111-1111-4111-8111-111111111111".
Definition sample_run : pystr := "22222222-2222-4222-8222-222222222222".
Definition sample_review : pystr := "33333333-3333-4333-8333-333333333333".
Definition sample_claim : pystr := "44444444-4444-4444-8444-444444444444".
Definition sample_key : pystr := "0123456789abcdef".
Definition sample_now : pystr := "2026-09-25T00:00:00Z".
Definition event_number (n : pystr) : pystr := "7c9e6679-7425-40de-944b-e07fc1f90ae" ++ n.

Definition sample_run_record : pydict :=
  [("tenant_id" : pystr, PStr sample_tenant); ("run_id" : pystr, PStr sample_run);
   ("document_version_id" : pystr, PStr sample_claim); ("revision" : pystr, PInt 1);
   ("mutation_epoch" : pystr, PInt 0)].

Definition ready_db : review_db :=
  {| rv_records := [((sample_tenant, sample_run, "run" : pystr, "META" : pystr),
                     match json_dumps (PDict sample_run_record) with Ok t => t | Raise _ => [] end)];
     rv_deleted := []; rv_source_schema := false; rv_audit := empty_db |}.

Definition sample_publication : Publication :=
  {| pb_tenant := sample_tenant; pb_run_id := sample_run; pb_document_version_id := sample_claim;
     pb_synthetic := true; pb_snapshot := [("schema" : pystr, PStr "review_inputs_v1")];
     pb_tag_revision := 1; pb_confirmed_tags := PNone; pb_elements := []; pb_decision := None |}.

Definition open_sample : pydict :=
  [("review_id" : pystr, PStr sample_review); ("run_id" : pystr, PStr sample_run);
   ("claim_id" : pystr, PStr sample_claim); ("status" : pystr, PStr "open"); ("revision" : pystr, PInt 1);
   ("base_tag_revision" : pystr, PInt 1); ("reason_codes" : pystr, PList [])].

Definition sample_actor : AuthContext :=
  {| ac_user_sub := "reviewer-1"; ac_tenant_id := sample_tenant; ac_role := Reviewer;
     ac_capabilities := [Reviewer]; ac_session_id := "s" |}.

Definition sample_body : pydict :=
  [("base_tag_revision" : pystr, PInt 1); ("reason" : pystr, PStr "checked against the page")].

Definition sample_build (review initial : pydict) (n : Z) : result (pydict * pydict) :=
  Ok ([("tag_revision" : pystr, PInt 2)],
      [("decision_revision" : pystr, PInt n); ("api" : pystr, PDict [])]).

Definition no_live (db : review_db) (p : Publication) : result unit := Ok tt.

Definition sample_publish : operation := Publish sample_publication open_sample (event_number "1") sample_now.
Definition sample_resolve : operation :=
  Resolve sample_build sample_actor sample_review sample_body 1 sample_key false (event_number "2") sample_now.

Definition opened_db : review_db := later no_live [sample_publish] ready_db.
Definition resolved_db : review_db := later no_live [sample_publish; sample_resolve] ready_db.

Definition resolved_answer : pyval :=
  match resolve sample_build sample_actor sample_review sample_body 1 sample_key false (event_number "2")
          sample_now opened_db with
  | Ok (_, a) => a
  | Raise _ => PNone
  end.

Lemma sample_resolves :
  resolve sample_build sample_actor sample_review sample_body 1 sample_key false (event_number "2") sample_now
    opened_db = Ok (resolved_db, resolved_answer).
Proof. vm_compute. reflexivity. Qed.

(** The second resolution of revision 1 is stale, whatever its key. *)
Example stale_resolution :
  resolve sample_build sample_actor sample_review sample_body 1 "another-key-01234" false (event_number "3")
    sample_now resolved_db = Raise (ReviewRejected "STALE_REVIEW_REVISION" 412).
Proof. vm_compute. reflexivity. Qed.

(** A re-review needs the new head. *)
Example rereviewed :
  is_ok (resolve (λ _ _ n, Ok ([("tag_revision" : pystr, PInt 3)],
                               [("decision_revision" : pystr, PInt n); ("api" : pystr, PDict [])]))
           sample_actor sample_review (dict_set "base_tag_revision" (PInt 2) sample_body) 2
           "another-key-01234" true (event_number "3") sample_now resolved_db) = true.
Proof. vm_compute. reflexivity. Qed.

Example sample_history : ∃ t1 t2 d, history resolved_db sample_tenant sample_run sample_claim = Ok ([t1; t2], [d]).
Proof. vm_compute. do 3 eexists. reflexivity. Qed.

Lemma sample_publish_numbered : numbered sample_publish.
Proof.
  split; [|by split]. split; [by vm_compute|]. split; [by eexists|]. split; [by eexists|]. by split_and!.
Qed.

Lemma sample_resolve_numbered : numbered sample_resolve.
Proof. split; [done|]. exists 1. split; [done|]. by intros review initial n tag decision [= <- <-]. Qed.

Lemma ready_reached P ops : Forall P ops → reached_by no_live P (later no_live ops ready_db).
Proof.
  intros Ha. exists ready_db, ops. split_and!; try done.
  - apply NoDup_singleton.
  - intros k Hk. unfold raw. cbn [rv_records ready_db row_get]. case_decide as E; [|done]. by subst.
  - constructor.
Qed.

Lemma opened_reached : reached_by no_live admissible opened_db.
Proof. apply ready_reached. constructor; [apply sample_publish_numbered|done]. Qed.

Lemma sample_wrote : resolved_db ≠ opened_db.
Proof.
  intros E. apply (f_equal (λ db, length (rv_records db))) in E.
  change (length (rv_records resolved_db)) with 10%nat in E.
  change (length (rv_records opened_db)) with 6%nat in E. done.
Qed.


(** The request sent again after the publication. *)
Definition sent_again : result (review_db * pyval) :=
  resolve sample_build sample_actor sample_review sample_body 1 sample_key false (event_number "4") sample_now
    (later no_live [sample_publish; sample_resolve] resolved_db).

Lemma sent_again_answers : is_ok sent_again = true.
Proof. vm_compute. reflexivity. Qed.

Lemma review_resolved_once_witness :
  ∃ answer, sent_again = Ok (later no_live [sample_publish; sample_resolve] resolved_db, answer).
Proof.
  pose proof sent_again_answers as Hok. destruct sent_again as [[db2 answer]|] eqn:Hr; [|discriminate].
  unfold sent_again in Hr. exists answer.
  rewrite (review_resolved_once no_live opened_db sample_build sample_actor sample_review sample_body 1
           sample_key false (event_number "2") sample_now resolved_db resolved_answer [sample_publish; sample_resolve]
           opened_reached sample_resolves sample_wrote
           ltac:(constructor; [apply sample_publish_numbered|constructor; [exact I|constructor]])
           _ _ _ _ _ _ _ _ _ eq_refl Hr).
  reflexivity.
Defined.

Lemma sample_replay_looks_up : is_ok (lookup_review (later no_live [sample_resolve] resolved_db)
                                        (ac_tenant_id sample_actor) sample_review) = true.
Proof. vm_compute. reflexivity. Qed.

Lemma sample_answer_clean : json_clean resolved_answer = true.
Proof. vm_compute. reflexivity. Qed.

Lemma review_request_replays_witness :
  resolve sample_build sample_actor sample_review sample_body 1 sample_key false (event_number "5") sample_now
    (later no_live [sample_resolve] resolved_db)
  = Ok (later no_live [sample_resolve] resolved_db, canon resolved_answer).
Proof.
  pose proof sample_replay_looks_up as Hl.
  destruct (lookup_review (later no_live [sample_resolve] resolved_db) (ac_tenant_id sample_actor) sample_review)
    as [review|] eqn:E; [|discriminate].
  exact (proj1 (review_request_replays no_live opened_db sample_build sample_actor sample_review sample_body 1
           sample_key false (event_number "2") sample_now resolved_db resolved_answer [sample_resolve]
           opened_reached sample_resolves sample_wrote sample_answer_clean
           ltac:(constructor; [exact I|constructor]) sample_build (event_number "5") sample_now sample_review
           review E) eq_refl).
Defined.

Lemma sample_head_found : is_Some (raw resolved_db (sample_tenant, sample_run, "review_head" : pystr, sample_review)).
Proof. vm_compute. by eexists. Qed.

Lemma review_heads_are_last_witness :
  ∃ d n c g k, head_at resolved_db sample_tenant sample_run sample_review d n
    ∧ dict_get "claim_id" d = Some (PStr c) ∧ claim_at resolved_db sample_tenant sample_run c g k.
Proof.
  assert (Hr : reached_by no_live numbered resolved_db)
    by (apply ready_reached; constructor; [apply sample_publish_numbered|constructor; [apply sample_resolve_numbered|constructor]]).
  destruct (so_heads _ (reached_ok no_live resolved_db
    ltac:(apply ready_reached; constructor; [apply sample_publish_numbered|constructor; [exact I|constructor]]))
    _ _ _ sample_head_found) as (d & n & Hd).
  destruct (review_heads_are_last no_live resolved_db sample_tenant sample_run sample_review d n Hr Hd)
    as (_ & c & g & k & Hc & Hcl).
  exists d, n, c, g, k. split; [exact Hd|split; [exact Hc|exact Hcl]].
Defined.

Lemma review_audit_verifies_witness :
  store_events (rv_audit resolved_db) sample_tenant sample_run = Ok (rows_of (rv_audit resolved_db) sample_tenant sample_run).
Proof.
  apply (review_audit_verifies no_live); [|reflexivity|reflexivity].
  apply ready_reached. constructor; [apply sample_publish_numbered|constructor; [exact I|constructor]].
Defined.
End sample.
