(* ===== verification/Regex.v ===== *)
(** * Regular expressions.

    The part of Python's [re] the program's patterns use: a backtracking
    matcher in the order [re] tries, with greedy and lazy repetition,
    lookaround, anchors and named groups, and [search], [match], [finditer]
    and [sub] over it.  [\w] and [\d] come from the Unicode database and are
    arguments.  A pattern of the source is a [regex] built with the
    combinators below. *)
From S2P Require Import Prelude.
Open Scope nat_scope.
Open Scope py_scope.

(* ------------------------------------------------------------------ *)
(** ** Expressions *)
(* ------------------------------------------------------------------ *)

Inductive regex : Type :=
| Chr (f : N → bool)
| Eps
| Seq (r s : regex)
| Alt (r s : regex)
| Star (greedy : bool) (r : regex)
| Ahead (positive : bool) (r : regex)
| Behind (positive : bool) (f : N → bool)
| Word_edge
| Text_start
| Text_end
| Group (name : pystr) (r : regex).

(** The text before the position, last character first, the text after it,
    and the groups. *)
Record cursor : Set := {
  st_before : pystr; st_rest : pystr; st_groups : list (pystr * pystr) }.

Definition start (s : pystr) : cursor := {| st_before := []; st_rest := s; st_groups := [] |}.

Definition advance (st : cursor) (c : N) (rest : pystr) : cursor :=
  {| st_before := c :: st_before st; st_rest := rest; st_groups := st_groups st |}.

(** The text between two positions. *)
Definition consumed (st st' : cursor) : pystr :=
  take (length (st_rest st) - length (st_rest st')) (st_rest st).

Definition with_group (name : pystr) (text : pystr) (st : cursor) : cursor :=
  {| st_before := st_before st; st_rest := st_rest st; st_groups := (name, text) :: st_groups st |}.

Definition group (st : cursor) (name : pystr) : option pystr :=
  (fix go (l : list (pystr * pystr)) :=
     match l with [] => None | (k, v) :: l => if k =s? name then Some v else go l end) (st_groups st).

Section matcher.
Context (word : N → bool).

Definition at_word_edge (st : cursor) : bool :=
  let left := match st_before st with c :: _ => word c | [] => false end in
  let right := match st_rest st with c :: _ => word c | [] => false end in
  xorb left right.

(** [$]: the end, or before a final line feed. *)
Definition at_end (st : cursor) : bool :=
  match st_rest st with [] => true | [c] => (c =? 10)%N | _ => false end.

(** The first way, in the order of backtracking, to match [r] so that the
    rest of the pattern [k] matches too.  A repetition stops when it makes no
    progress, so the length of the rest bounds it. *)
Fixpoint run (r : regex) (st : cursor) (k : cursor → option cursor) {struct r} : option cursor :=
  match r with
  | Chr f => match st_rest st with
             | c :: rest => if f c then k (advance st c rest) else None
             | [] => None
             end
  | Eps => k st
  | Seq r s => run r st (λ st', run s st' k)
  | Alt r s => match run r st k with Some x => Some x | None => run s st k end
  | Star greedy r =>
      (fix go (n : nat) (st : cursor) {struct n} : option cursor :=
         match n with
         | O => k st
         | S n =>
             let again := run r st (λ st', if length (st_rest st') <? length (st_rest st) then go n st' else None) in
             if greedy then match again with Some x => Some x | None => k st end
             else match k st with Some x => Some x | None => again end
         end) (S (length (st_rest st))) st
  | Ahead positive r =>
      match run r st Some with
      | Some _ => if positive then k st else None
      | None => if positive then None else k st
      end
  | Behind positive f =>
      let found := match st_before st with c :: _ => f c | [] => false end in
      if Bool.eqb found positive then k st else None
  | Word_edge => if at_word_edge st then k st else None
  | Text_start => match st_before st with [] => k st | _ => None end
  | Text_end => if at_end st then k st else None
  | Group name r => run r st (λ st', k (with_group name (consumed st st') st'))
  end.

(** [pattern.match(s)] *)
Definition match_at (r : regex) (st : cursor) : option cursor := run r st Some.
Definition re_match (r : regex) (s : pystr) : option cursor := match_at r (start s).

(** [pattern.fullmatch(s)] *)
Definition fullmatch (r : regex) (s : pystr) : option cursor :=
  run r (start s) (λ st, match st_rest st with [] => Some st | _ => None end).

(** The leftmost match from a position on: where it starts and ends. *)
Fixpoint search_from (n : nat) (r : regex) (st : cursor) : option (cursor * cursor) :=
  match match_at r st with
  | Some st' => Some (st, st')
  | None =>
      match n, st_rest st with
      | S n, c :: rest => search_from n r (advance st c rest)
      | _, _ => None
      end
  end.

(** [pattern.search(s)] *)
Definition search (r : regex) (s : pystr) : option (cursor * cursor) :=
  search_from (length s) r (start s).
Definition found (r : regex) (s : pystr) : bool := bool_decide (is_Some (search r s)).

(** [pattern.finditer(s)] for a pattern that never matches the empty text: the
    matches, and the text between them and after the last. *)
Fixpoint find_from (n : nat) (r : regex) (st : cursor) : list (pystr * cursor * pystr) * pystr :=
  match n with
  | O => ([], st_rest st)
  | S n =>
      match search_from (length (st_rest st)) r {| st_before := st_before st; st_rest := st_rest st; st_groups := [] |} with
      | None => ([], st_rest st)
      | Some (from, to) =>
          let more := find_from n r to in
          ((consumed st from, to, consumed from to) :: more.1, more.2)
      end
  end.

Definition find_all (r : regex) (s : pystr) : list (pystr * cursor * pystr) * pystr :=
  find_from (S (length s)) r (start s).

(** The texts of the matches. *)
Definition matches (r : regex) (s : pystr) : list pystr := snd <$> (find_all r s).1.

(** [pattern.sub(by, s)] *)
Definition sub (r : regex) (by_ s : pystr) : pystr :=
  let all := find_all r s in
  concat ((λ m : pystr * cursor * pystr, m.1.1 ++ by_) <$> all.1) ++ all.2.

(** Where a match lies: [match.start()] and [match.end()]. *)
Definition at_position (st : cursor) : Z := py_len (st_before st).

Definition match_spans (r : regex) (s : pystr) : list (Z * Z) :=
  (λ m : pystr * cursor * pystr, (at_position m.1.2 - py_len m.2, at_position m.1.2)%Z)
    <$> (find_all r s).1.

(** [re.split(pattern, s)] for a pattern without groups: the text between the
    matches and after the last. *)
Definition split_at (r : regex) (s : pystr) : list pystr :=
  let all := find_all r s in ((λ m : pystr * cursor * pystr, m.1.1) <$> all.1) ++ [all.2].
End matcher.

(* ------------------------------------------------------------------ *)
(** ** Combinators *)
(* ------------------------------------------------------------------ *)

Definition char_is (c : N) : regex := Chr (N.eqb c).

(** The lower case [re] compares with under [IGNORECASE], where ASCII letters
    have equals outside ASCII. *)
Definition fold_case (c : N) : N :=
  if (65 <=? c)%N && (c <=? 90)%N then (c + 32)%N
  else if (c =? 304)%N || (c =? 305)%N then 105%N
  else if (c =? 383)%N then 115%N
  else if (c =? 8490)%N then 107%N
  else c.

Definition char_like (c : N) : regex := Chr (λ x, fold_case c =? fold_case x)%N.

Definition lit (s : pystr) : regex := foldr (λ c r, Seq (char_is c) r) Eps s.
Definition ilit (s : pystr) : regex := foldr (λ c r, Seq (char_like c) r) Eps s.

(** [[..]] of single characters. *)
Definition one_of (s : pystr) : regex := Chr (λ x, existsb (N.eqb x) s).
Definition hangul (c : N) : bool := ((44032 <=? c) && (c <=? 55203))%N.

Fixpoint alts (l : list regex) : regex :=
  match l with [] => Chr (λ _, false) | [r] => r | r :: l => Alt r (alts l) end.
Fixpoint seqs (l : list regex) : regex := match l with [] => Eps | r :: l => Seq r (seqs l) end.

Definition opt (r : regex) : regex := Alt r Eps.
Definition star : regex → regex := Star true.
Definition plus (r : regex) : regex := Seq r (star r).

(** [r{0,n}] and [r{m,n}] *)
Fixpoint upto (n : nat) (r : regex) : regex :=
  match n with O => Eps | S n => Alt (Seq r (upto n r)) Eps end.
Fixpoint between (m n : nat) (r : regex) : regex :=
  match m with O => upto n r | S m => Seq r (between m (n - 1) r) end.

Definition space : regex := Chr is_space.
Definition spaces : regex := star space.
Definition dot : regex := Chr (λ c, negb (c =? 10)%N).

(* ------------------------------------------------------------------ *)
(** ** What the matcher finds *)
(* ------------------------------------------------------------------ *)

Section meaning.
Context (word : N → bool).

(** The matches of an expression from a position, as a relation. *)
Fixpoint den (r : regex) (st st' : cursor) : Prop :=
  match r with
  | Chr f => ∃ c rest, st_rest st = c :: rest ∧ f c = true ∧ st' = advance st c rest
  | Eps => st' = st
  | Seq r s => ∃ mid, den r st mid ∧ den s mid st'
  | Alt r s => den r st st' ∨ den s st st'
  | Star _ r => rtc (λ a b, den r a b ∧ length (st_rest b) < length (st_rest a)) st st'
  | Ahead positive r => (if positive then ∃ x, den r st x else ¬ ∃ x, den r st x) ∧ st' = st
  | Behind positive f =>
      Bool.eqb (match st_before st with c :: _ => f c | [] => false end) positive = true ∧ st' = st
  | Word_edge => at_word_edge word st = true ∧ st' = st
  | Text_start => st_before st = [] ∧ st' = st
  | Text_end => at_end st = true ∧ st' = st
  | Group name r => ∃ x, den r st x ∧ st' = with_group name (consumed st x) x
  end.

(** What a run of [r] before [k] answers: a match of [r] that [k] accepts, or
    that there is none. *)
Definition run_answers (r : regex) (st : cursor) (k : cursor → option cursor) (o : option cursor) : Prop :=
  match o with
  | Some x => ∃ st', den r st st' ∧ k st' = Some x
  | None => ∀ st', den r st st' → k st' = None
  end.

Lemma star_answers greedy r :
  (∀ st k, run_answers r st k (run word r st k)) →
  ∀ n st k, length (st_rest st) < n →
  run_answers (Star greedy r) st k
    ((fix go (n : nat) (st : cursor) {struct n} : option cursor :=
        match n with
        | O => k st
        | S n =>
            let again := run word r st (λ st', if length (st_rest st') <? length (st_rest st) then go n st' else None) in
            if greedy then match again with Some x => Some x | None => k st end
            else match k st with Some x => Some x | None => again end
        end) n st).
Proof.
  intros Hr n. induction n as [|n IH]; intros st k Hn; [lia|].
  set (go := fix go (n : nat) (st : cursor) {struct n} : option cursor :=
        match n with
        | O => k st
        | S n =>
            let again := run word r st (λ st', if length (st_rest st') <? length (st_rest st) then go n st' else None) in
            if greedy then match again with Some x => Some x | None => k st end
            else match k st with Some x => Some x | None => again end
        end) in *.
  change (go (S n) st) with
    (let again := run word r st (λ st', if length (st_rest st') <? length (st_rest st) then go n st' else None) in
     if greedy then match again with Some x => Some x | None => k st end
     else match k st with Some x => Some x | None => again end).
  cbn zeta. set (next := λ st', if length (st_rest st') <? length (st_rest st) then go n st' else None).
  assert (Hgo : ∀ st', length (st_rest st') < n → run_answers (Star greedy r) st' k (go n st'))
    by (intros st' Hst'; exact (IH st' k Hst')).
  specialize (Hr st next).
  assert (Hsome : ∀ x, run word r st next = Some x → ∃ st', den (Star greedy r) st st' ∧ k st' = Some x).
  { intros x E. rewrite E in Hr. destruct Hr as (st' & Hd & Hk). unfold next in Hk.
    destruct (_ <? _) eqn:Hl; [|done]. apply Nat.ltb_lt in Hl.
    specialize (Hgo st' ltac:(lia)). rewrite Hk in Hgo. destruct Hgo as (z & Hz & Hkz).
    exists z. split; [|done]. eapply rtc_l; [|exact Hz]. done. }
  assert (Hnone : run word r st next = None → ∀ st', st' ≠ st → den (Star greedy r) st st' → k st' = None).
  { intros E st' Hne Hd. rewrite E in Hr. apply rtc_inv in Hd as [->|(y & [Hy Hl] & Hd)]; [done|].
    specialize (Hr y Hy). unfold next in Hr. rewrite (proj2 (Nat.ltb_lt _ _) Hl) in Hr.
    specialize (Hgo y ltac:(lia)). rewrite Hr in Hgo. by apply Hgo. }
  assert (Hself : ∀ x, k st = Some x → ∃ st', den (Star greedy r) st st' ∧ k st' = Some x)
    by (intros x Hx; exists st; split; [apply rtc_refl|done]).
  assert (Hboth : run word r st next = None → k st = None → ∀ st', den (Star greedy r) st st' → k st' = None).
  { intros E Hk st' Hd. apply rtc_inv in Hd as Hd'. destruct Hd' as [->|(y & [Hy Hl] & Hrest)]; [done|].
    rewrite E in Hr. specialize (Hr y Hy). unfold next in Hr. rewrite (proj2 (Nat.ltb_lt _ _) Hl) in Hr.
    specialize (Hgo y ltac:(lia)). rewrite Hr in Hgo. by apply Hgo. }
  destruct greedy, (run word r st next) eqn:E, (k st) eqn:Ek; cbn; eauto.
Qed.

(** The matcher finds a match exactly when there is one that the rest of the
    pattern accepts. *)
Lemma run_exact r : ∀ st k, run_answers r st k (run word r st k).
Proof.
  induction r as [f| |r IHr s IHs|r IHr s IHs|greedy r IHr|positive r IHr|positive f| | | |name r IHr];
    intros st k.
  - cbn. destruct (st_rest st) as [|c rest] eqn:E; [intros st' (? & ? & ? & _); congruence|].
    destruct (f c) eqn:Ef; [|intros st' (? & ? & ? & ? & _); congruence].
    destruct (k (advance st c rest)) eqn:Ek; cbn; [rewrite E; eauto 7|].
    intros st' (? & ? & ? & _ & ->). congruence.
  - cbn. destruct (k st) eqn:Ek; cbn; [eauto|]. by intros st' ->.
  - cbn. specialize (IHr st (λ st', run word s st' k)).
    destruct (run word r st _) as [x|]; cbn in *.
    + destruct IHr as (m & Hm & Hx). specialize (IHs m k). rewrite Hx in IHs.
      destruct IHs as (st' & Hs & Hk). eauto 6.
    + intros st' (m & Hm & Hs). specialize (IHr m Hm). specialize (IHs m k). rewrite IHr in IHs. by apply IHs.
  - cbn. specialize (IHr st k). specialize (IHs st k). destruct (run word r st k) as [x|]; cbn in *.
    + destruct IHr as (st' & ? & ?). eauto.
    + destruct (run word s st k) as [x|]; cbn in *.
      * destruct IHs as (st' & ? & ?). eauto.
      * intros st' [H|H]; eauto.
  - exact (star_answers greedy r IHr (S (length (st_rest st))) st k ltac:(lia)).
  - cbn. specialize (IHr st Some). destruct (run word r st Some) as [x|]; cbn in IHr.
    + destruct IHr as (y & Hy & [= ->]). destruct positive.
      * destruct (k st) eqn:Ek; cbn; [eauto 6|]. by intros st' [_ ->].
      * cbn. intros st' [H _]. exfalso. eauto.
    + assert (Hno : ¬ ∃ x, den r st x) by (intros (x & Hx); specialize (IHr x Hx); done).
      destruct positive; [by intros st' [? ->]|]. destruct (k st) eqn:Ek; cbn; [eauto 6|]. by intros st' [_ ->].
  - cbn. destruct (Bool.eqb _ positive) eqn:E; [|intros st' [? ->]; congruence].
    destruct (k st) eqn:Ek; cbn; [eauto 6|]. by intros st' [_ ->].
  - cbn. destruct (at_word_edge word st) eqn:E; [|intros st' [? ->]; congruence].
    destruct (k st) eqn:Ek; cbn; [eauto 6|]. by intros st' [_ ->].
  - cbn. destruct (st_before st) eqn:E; [|intros st' [? ->]; congruence].
    destruct (k st) eqn:Ek; cbn; [eauto 6|]. by intros st' [_ ->].
  - cbn. destruct (at_end st) eqn:E; [|intros st' [? ->]; congruence].
    destruct (k st) eqn:Ek; cbn; [eauto 6|]. by intros st' [_ ->].
  - cbn. specialize (IHr st (λ st', k (with_group name (consumed st st') st'))).
    destruct (run word r st _) as [x|]; cbn in *.
    + destruct IHr as (y & Hy & Hk). eauto 6.
    + intros st' (y & Hy & ->). by apply IHr.
Qed.

(** The positions of a text. *)
Definition position (s : pystr) (st : cursor) : Prop :=
  st_groups st = [] ∧ rev (st_before st) ++ st_rest st = s.

Lemma search_from_exact r n : ∀ st, st_groups st = [] → length (st_rest st) ≤ n →
  match search_from word n r st with
  | Some (a, b) => position (rev (st_before st) ++ st_rest st) a ∧ den r a b
  | None => ∀ pre post, st_rest st = pre ++ post → ∀ b,
      ¬ den r {| st_before := rev pre ++ st_before st; st_rest := post; st_groups := [] |} b
  end.
Proof.
  induction n as [|n IH]; intros st Hg Hn;
    (pose proof (run_exact r st Some) as Hm; cbn [search_from]; unfold match_at;
     destruct (run word r st Some) as [x|]; cbn in Hm;
       [destruct Hm as (y & Hy & [= ->]); done|]).
  - destruct (st_rest st) as [|? ?] eqn:E; cbn in Hn; [|lia]. intros [|? ?] post ?; [|done].
    cbn in *. subst post. intros b Hb. destruct st as [bef rest gs]; cbn in *; subst. by specialize (Hm b Hb).
  - destruct (st_rest st) as [|c rest] eqn:E.
    + intros [|? ?] post ?; [|done]. cbn in *. subst post. intros b Hb.
      destruct st as [bef rest gs]; cbn in *; subst. by specialize (Hm b Hb).
    + specialize (IH (advance st c rest) Hg ltac:(cbn in *; lia)). cbn [advance st_before st_rest rev] in IH.
      rewrite <- app_assoc in IH. cbn [app] in IH.
      destruct (search_from word n r (advance st c rest)) as [[a b]|]; [done|].
      intros [|d pre] post Heq b; cbn in Heq.
      * subst post. intros Hb. destruct st as [bef rest' gs]; cbn in *; subst. by specialize (Hm b Hb).
      * simplify_eq. specialize (IH pre post eq_refl b). cbn [rev]. by rewrite <- app_assoc.
Qed.

(** [search] is true exactly of the texts with a match somewhere. *)
Theorem found_exact r s :
  found word r s = true ↔
  ∃ pre post b, s = pre ++ post ∧ den r {| st_before := rev pre; st_rest := post; st_groups := [] |} b.
Proof.
  pose proof (search_from_exact r (length s) (start s) eq_refl ltac:(cbn; lia)) as H.
  unfold found, search. rewrite bool_decide_eq_true.
  destruct (search_from word (length s) r (start s)) as [[a b]|]; split.
  - intros _. destruct H as [[Hg Hp] Hd]. exists (rev (st_before a)), (st_rest a), b.
    split; [by rewrite Hp|]. rewrite rev_involutive. destruct a; cbn in *; by subst.
  - intros _. by eexists.
  - by intros [? ?].
  - intros (pre & post & b & Heq & Hd). exfalso. eapply (H pre post Heq b). cbn. by rewrite app_nil_r.
Qed.
End meaning.
