(* ===== verification/ReportLevel.v ===== *)
(** * Report-level credit.

    [application/evidence/report_level.py]: which report-wide statements may
    credit an element, and the prose that never establishes the scope of an
    activity.  NFC, case folding and the character classes of the Unicode
    database are arguments; [decimal] gives the value of a decimal digit. *)
From S2P Require Import Prelude PyVal Values Digest RulePack Rules Geometry Graph Numeric Citations SourceRefs Retrieval Regex.
Open Scope Z_scope.
Open Scope py_scope.

Definition GRI_ASSURED_PAGE_V1 : pystr := "GRI_ASSURED_PAGE_V1".
Definition REPORT_SCOPE_V1 : pystr := "REPORT_SCOPE_V1".
Definition ACTIVITY_SCOPE_V2 : pystr := "ACTIVITY_SCOPE_V2".
Definition REPORT_WIDE_SCOPE_NOT_ACTIVITY_SCOPE : pystr := "REPORT_WIDE_SCOPE_NOT_ACTIVITY_SCOPE".

(** [application/evidence/report_level.py:28 POLICIES] *)
Definition POLICIES : list (pystr * pystr) := [("M3", GRI_ASSURED_PAGE_V1); ("M2", REPORT_SCOPE_V1)].

(** [next(e for e in elements if e["id"] == id)], which reads no further. *)
Fixpoint element_named (els : list pyval) (id : pystr) : result (option pyval) :=
  match els with
  | [] => Ok None
  | e :: els => i ← getitem "id" e; if eq_str i id then Ok (Some e) else element_named els id
  end.

(** [application/evidence/report_level.py:33-41 report_level_policies] *)
Definition report_level_policies (pack : RulePackSnapshot) : result pydict :=
  els ← element_items pack;
  m2 ← element_named els "M2";
  m2 ← of_option StopIteration m2;
  m2 ← as_dict AttributeError m2;
  let policy := default (PStr REPORT_SCOPE_V1) (dict_get "binding_policy" m2) in
  _ ← require (eq_str policy REPORT_SCOPE_V1 || eq_str policy ACTIVITY_SCOPE_V2)
        (ValueError "M2_SCOPE_POLICY_UNSUPPORTED");
  Ok (dict_set "M2" policy (prod_map id PStr <$> POLICIES)).

(** [s.split(c)] *)
Fixpoint split_char (c : N) (s : pystr) : list pystr :=
  match s with
  | [] => [[]]
  | x :: s =>
      let rest := split_char c s in
      if (x =? c)%N then [] :: rest
      else match rest with w :: ws => (x :: w) :: ws | [] => [[x]] end
  end.

Section report_level.
Context (nfc casefold : pystr → pystr) (isalnum isdigit : N → bool) (decimal : N → option Z).

(** [\w], [\d] and [\D]. *)
Definition word (c : N) : bool := isalnum c || (c =? 95)%N.
Definition digit : regex := Chr (λ c, bool_decide (is_Some (decimal c))).
Definition non_digit : regex := Chr (λ c, negb (bool_decide (is_Some (decimal c)))).

(** [application/evidence/report_level.py:44-50 _REPORT_WIDE] *)
Definition REPORT_WIDE : regex :=
  alts [seqs [lit "보고"; spaces; Alt (lit "범위") (lit "경계")];
        seqs [lit "보고서"; upto 100 dot; alts [lit "작성"; lit "포함"; lit "보고"; lit "대상"]];
        seqs [Alt (seqs [lit "환경"; spaces; lit "및"; spaces; lit "사회"]) (lit "지속가능경영");
              spaces; lit "관련"; spaces; lit "정보"];
        seqs [lit "지속가능경영"; spaces; lit "활동과"; spaces; lit "성과를"; spaces; lit "대상"];
        seqs [ilit "reporting"; plus space; Alt (ilit "scope") (ilit "boundary")];
        seqs [Alt (ilit "this") (ilit "the"); plus space; ilit "report"; plus space;
              Alt (ilit "covers") (ilit "includes")]].

(** [application/evidence/report_level.py:107-108 _text] *)
Definition text_of (s : pystr) : pystr := squeezed nfc s.

Definition report_wide (s : pystr) : bool := found word REPORT_WIDE (text_of s).

(** The section ancestors of a block, itself first, up to a report-wide one.
    [application/evidence/report_level.py:72-83 scope_rejection_reason] *)
Fixpoint wide_section (fuel : nat) (g : CanonicalDocumentGraph) (pending seen : list pystr) : result bool :=
  match fuel, pending with
  | S fuel, child :: pending =>
      if str_in child seen then wide_section fuel g pending seen
      else
        let parents := ed_target <$> List.filter (λ e, is_edge "section_parent" e && (ed_source e =s? child))
                                       (gr_edges g) in
        wide ← any_result (λ id, match block_by_id g id with
                                 | Some b => raw ← block_raw_text b; Ok (report_wide raw)
                                 | None => Ok false
                                 end) parents;
        if wide : bool then Ok true
        else wide_section fuel g (rev parents ++ pending) (seen ++ [child])
  | _, _ => Ok false
  end.

(** [application/evidence/report_level.py:65-83 scope_rejection_reason] *)
Definition wide_ref (g : CanonicalDocumentGraph) (r : SourceRef) : result bool :=
  if report_wide (quote r) then Ok true
  else
    if_result (match block_by_id g (source_id r) with
               | Some b => raw ← block_raw_text b; Ok (report_wide raw)
               | None => Ok false
               end)
      (Ok true) (wide_section (S (length (gr_edges g))) g [source_id r] []).

(** [application/evidence/report_level.py:53-84 scope_rejection_reason] *)
Definition scope_rejection_reason (element_id : pystr) (refs : list SourceRef) (pack : RulePackSnapshot)
    (g : CanonicalDocumentGraph) (policy : option pystr) : result (option pystr) :=
  if negb (element_id =s? "M2") then Ok None
  else
    policies ← report_level_policies pack;
    if negb (eq_str (get_or_none policies "M2") ACTIVITY_SCOPE_V2) then Ok None
    else if match policy with Some p => str_in p [REPORT_SCOPE_V1; ACTIVITY_SCOPE_V2] | None => false end
    then Ok (Some REPORT_WIDE_SCOPE_NOT_ACTIVITY_SCOPE)
    else
      wide ← any_result (wide_ref g) refs;
      Ok (if wide : bool then Some REPORT_WIDE_SCOPE_NOT_ACTIVITY_SCOPE else None).

(* ------------------------------------------------------------------ *)
(** ** The literal chains *)
(* ------------------------------------------------------------------ *)

(** [application/evidence/report_level.py:87 _DISCLOSURE] *)
Definition DISCLOSURE : regex := seqs [between 1 3 digit; lit "-"; between 1 2 digit].

(** [application/evidence/report_level.py:88-91 _INDEX_ROW] *)
Definition INDEX_ROW : regex :=
  let dash := Chr (λ c, (c =? 45)%N || (c =? 8211)%N) in
  let range := Seq (plus digit) (opt (seqs [spaces; dash; spaces; plus digit])) in
  seqs [Text_start; Group "code" DISCLOSURE; plus space; Group "label" (Star false non_digit); spaces;
        Group "pages" (Seq range (star (seqs [spaces; lit ","; spaces; range]))); Text_end].

(** [application/evidence/report_level.py:92 _RANGE] *)
Definition RANGE : regex :=
  seqs [Group "start" DISCLOSURE; spaces; lit "~"; spaces; Group "end" DISCLOSURE].

(** [application/evidence/report_level.py:93 _STANDARD] *)
Definition STANDARD : regex :=
  alts [seqs [ilit "AA1000"; spaces; ilit "AS"]; seqs [ilit "ISAE"; spaces; ilit "3000"];
        seqs [ilit "ISSA"; spaces; ilit "5000"]].

(** [application/evidence/report_level.py:94 _INDEX_HEADING] *)
Definition INDEX_HEADING : regex :=
  Alt (seqs [ilit "GRI"; opt (Seq (plus space) (ilit "Content")); plus space; ilit "Index"])
      (seqs [ilit "GRI"; spaces; lit "인덱스"]).

(** [application/evidence/report_level.py:95-97 _ASSURANCE_HEADING] *)
Definition ASSURANCE_HEADING : regex :=
  alts [seqs [lit "제3자"; spaces; lit "검증"]; seqs [lit "검증"; spaces; lit "의견서"];
        seqs [ilit "Independent"; plus space; ilit "Assurance"];
        seqs [ilit "Assurance"; plus space; ilit "Statement"]].

(** [application/evidence/report_level.py:98 _SCOPE_HEADING] *)
Definition SCOPE_HEADING : regex :=
  Alt (seqs [lit "보고"; spaces; lit "범위"])
      (seqs [ilit "Reporting"; plus space; Alt (ilit "Scope") (ilit "Boundary")]).

(** [application/evidence/report_level.py:99 _ENTITY] *)
Definition ENTITY : regex :=
  alts [lit "주식회사"; lit "㈜"; lit "(주)"; seqs [lit "개별"; spaces; lit "기업"];
        seqs [lit "연결"; spaces; Alt (lit "기준") (lit "대상")]; lit "법인"; lit "사업장"].

(** [application/evidence/report_level.py:101-104 _OWN_SCOPE] *)
Definition OWN_SCOPE : regex :=
  alts [lit "사업장"; lit "공장"; seqs [lit "데이터"; spaces; lit "센터"]; lit "센터"; lit "사옥"; lit "본사";
        lit "지사"; lit "법인"; lit "자회사"; lit "계열사"; lit "국내"; lit "해외"; lit "글로벌"; lit "지역";
        lit "춘천"; lit "세종"; seqs [lit "전"; spaces; lit "사업장"]; lit "전사"].

(** [int(s)] for a text of decimal digits, between the spaces [int] strips;
    longer texts than the interpreter converts are refused. *)
Definition int_of (s : pystr) : result Z :=
  let s := strip s in
  digits ← of_option (ValueError "invalid literal for int()") (mapM decimal s);
  _ ← require (nonempty_list digits && (py_len digits <=? 4300)) (ValueError "invalid literal for int()");
  Ok (foldl (λ n d, 10 * n + d) 0 digits).

(** [left, right = value.split("-")]
    [application/evidence/report_level.py:111-113 _code] *)
Definition code_of (s : pystr) : result (Z * Z) :=
  match split_char 45 s with
  | [major; minor] => a ← int_of major; b ← int_of minor; Ok (a, b)
  | _ => Raise (ValueError "too many values to unpack")
  end.

(** The pages an expression names, as closed ranges.
    [application/evidence/report_level.py:116-124 _pages] *)
Definition page_bounds (part : pystr) : result (list (Z * Z)) :=
  let dash := seqs [spaces; Chr (λ c, (c =? 45)%N || (c =? 8211)%N); spaces] in
  bounds ← map_result int_of (split_at word dash (strip part));
  Ok (match bounds with
      | [a; b] => if a <=? b then [(a, b)] else []
      | [a] => [(a, a)]
      | _ => []
      end).

(** [application/evidence/report_level.py:116-124 _pages] *)
Definition pages_of (expression : pystr) : result (list (Z * Z)) :=
  parts ← map_result page_bounds (split_char 44 expression); Ok (concat parts).

Definition within (n : Z) (ranges : list (Z * Z)) : bool :=
  existsb (λ r, (r.1 <=? n) && (n <=? r.2)) ranges.

(** [match[name]] *)
Definition named (st : cursor) (name : pystr) : pystr := default [] (group st name).

(** [application/evidence/report_level.py:129-132 _covers] *)
Definition in_range (target : Z * Z) (m : cursor) : result bool :=
  a ← code_of (named m "start");
  b ← code_of (named m "end");
  Ok ((a.1 =? b.1) && (b.1 =? target.1) && (a.2 <=? target.2) && (target.2 <=? b.2)).

(** [application/evidence/report_level.py:127-134 _covers] *)
Definition covers (coverage code : pystr) : result bool :=
  target ← code_of code;
  if_result (any_result (in_range target) ((λ m : pystr * cursor * pystr, m.1.2) <$> (find_all word RANGE coverage).1))
    (Ok true)
    (Ok (str_in code (matches word DISCLOSURE (sub word RANGE " " coverage)))).

(** The texts of the blocks of a page, none where the map has no entry. *)
Context (page_texts : Z → list pystr).

(** [application/evidence/report_level.py:137-138 _on_page] *)
Definition on_page (r : SourceRef) (pattern : regex) : bool :=
  existsb (λ t, found word pattern (text_of t)) (page_texts (page_num r)).

(** The one printed label of the claim, of digits.
    [application/evidence/report_level.py:145-147 _gri_assured_page] *)
Definition one_label (claim_refs : list SourceRef) : option pystr :=
  match dedup (λ a b, bool_decide (a = b)) (printed_page_label <$> claim_refs) with
  | [Some l] => if nonempty l && forallb isdigit l then Some l else None
  | _ => None
  end.

(** [application/evidence/report_level.py:151-156 _gri_assured_page] *)
Definition index_page (index : SourceRef) : bool :=
  let blocks := (λ t, casefold (text_of t)) <$> page_texts (page_num index) in
  on_page index INDEX_HEADING
  || (str_in "index" blocks && (str_in "gri" blocks || str_in "gri standards" blocks)).

(** The chain from the page of the claim to an assured disclosure.
    [application/evidence/report_level.py:141-162 _gri_assured_page] *)
Definition gri_assured_page (refs claim_refs : list SourceRef) (credited_from : option pystr) : result bool :=
  match refs with
  | [index; coverage; standard] =>
      match one_label claim_refs, re_match word INDEX_ROW (text_of (quote index)) with
      | Some label, Some row =>
          page ← int_of label;
          pages ← pages_of (named row "pages");
          if negb (within page pages) || negb (index_page index) then Ok false
          else
            and_result (covers (text_of (quote coverage)) (named row "code"))
              (Ok (found word STANDARD (text_of (quote standard)) && (page_num standard =? page_num coverage)
                   && on_page coverage ASSURANCE_HEADING
                   && bool_decide (credited_from = Some (source_id coverage))))
      | _, _ => Ok false
      end
  | _ => Ok false
  end.

(** [application/evidence/report_level.py:165-174 _report_scope] *)
Definition report_scope (refs : list SourceRef) (claim_quote : pystr) (credited_from : option pystr) : bool :=
  match refs with
  | [scope] =>
      negb (found word OWN_SCOPE (text_of claim_quote)) && found word ENTITY (text_of (quote scope))
      && on_page scope SCOPE_HEADING && bool_decide (credited_from = Some (source_id scope))
  | _ => false
  end.

(** [POLICIES.get(element_id) != policy] *)
Definition policy_of (element_id : pystr) : option pystr := dict_get element_id POLICIES.

(** [application/evidence/report_level.py:177-196 check_report_level] *)
Definition check_report_level (element_id : pystr) (policy : option pystr) (refs claim_refs : list SourceRef)
    (claim_quote : pystr) (credited_from : option pystr) : result bool :=
  if (element_id =s? "M2") && bool_decide (policy = Some ACTIVITY_SCOPE_V2) then Ok false
  else if negb (bool_decide (policy_of element_id = policy)) || negb (nonempty_list refs)
          || negb (nonempty_list claim_refs) then Ok false
  else if negb (forallb is_verified (refs ++ claim_refs)) then Ok false
  else if bool_decide (policy = Some GRI_ASSURED_PAGE_V1) then gri_assured_page refs claim_refs credited_from
  else Ok (report_scope refs claim_quote credited_from).
End report_level.
