(* ===== verification/ReportLevelSpec.v ===== *)
(** * What a report-level credit promises.

    Report-wide prose never supports an activity scope, wherever it stands
    among the sections of the graph, and the walk over them always ends; a
    report-level credit carries its whole literal chain. *)
From S2P Require Import Prelude PyVal Values Digest RulePack Rules RulesSpec Geometry Graph GraphSpec Numeric NumericSpec NumericEvidence Claims ClaimsSpec Citations CitationsSpec SourceRefs Retrieval RetrievalSpec Regex ReportLevel.
Open Scope Z_scope.
Open Scope py_scope.

(* ------------------------------------------------------------------ *)
(** ** Report-wide prose *)
(* ------------------------------------------------------------------ *)

Section report_wide.
Context (nfc : pystr → pystr) (isalnum : N → bool) (g : CanonicalDocumentGraph).

(** One [section_parent] edge. *)
Definition under (a b : pystr) : Prop :=
  ∃ e, e ∈ gr_edges g ∧ is_edge "section_parent" e = true ∧ ed_source e = a ∧ ed_target e = b.

(** A block of report-wide prose. *)
Definition wide_block (id : pystr) : Prop :=
  ∃ b raw, block_by_id g id = Some b ∧ block_raw_text b = Ok raw ∧ report_wide nfc isalnum raw = true.

(** Every block has the text of its winner. *)
Definition readable : Prop := ∀ b, b ∈ gr_blocks g → is_ok (block_raw_text b) = true.

Lemma reads_wide id : readable →
  ∃ w, (match block_by_id g id with
        | Some b => raw ← block_raw_text b; Ok (report_wide nfc isalnum raw)
        | None => Ok false
        end) = Ok w ∧ (w = true ↔ wide_block id).
Proof.
  intros Hr. unfold wide_block. destruct (block_by_id g id) as [b|] eqn:Eb.
  - specialize (Hr b). destruct (block_raw_text b) as [raw|] eqn:Et.
    + exists (report_wide nfc isalnum raw). split; [done|]. split; [eauto|].
      intros (b' & raw' & [= <-] & Ht & Hw). congruence.
    + exfalso. apply block_by_id_elem in Eb as [Hin _]. by specialize (Hr Hin).
  - exists false. split; [done|]. split; [done|]. by intros (? & ? & ? & _).
Qed.

Lemma any_reads {A} (f : A → result bool) (P : A → Prop) l :
  (∀ x, x ∈ l → ∃ w, f x = Ok w ∧ (w = true ↔ P x)) →
  ∃ w, any_result f l = Ok w ∧ (w = true ↔ ∃ x, x ∈ l ∧ P x).
Proof.
  induction l as [|x l IH]; intros Hf.
  { exists false. split; [done|]. split; [done|]. by intros (? & ?%elem_of_nil & _). }
  destruct (Hf x ltac:(left)) as (w & Hw & Hx). cbn [any_result]. rewrite Hw.
  destruct IH as (w' & Hw' & Hl); [intros; apply Hf; by right|]. destruct w; cbn.
  - exists true. split; [done|]. split; [|done]. intros _. exists x. split; [left|by apply Hx].
  - exists w'. split; [done|]. rewrite Hl. split.
    + intros (y & Hy & Hp). exists y. split; [by right|done].
    + intros (y & [->|Hy]%elem_of_cons & Hp); [by apply Hx in Hp|by exists y].
Qed.

Lemma parents_under id y :
  y ∈ ed_target <$> List.filter (λ e, is_edge "section_parent" e && (ed_source e =s? id)) (gr_edges g) ↔ under id y.
Proof.
  unfold under. split.
  - intros (e & -> & [Hin He]%elem_of_lfilter)%list_elem_of_fmap. apply andb_true_iff in He as [He Hs]. str_prop.
    exists e. done.
  - intros (e & Hin & He & <- & <-). apply list_elem_of_fmap. exists e. split; [done|]. apply elem_of_lfilter.
    split; [done|]. by rewrite He, str_eqb_refl.
Qed.


(** The walk ends, and finds a report-wide section exactly when one is above
    what is pending. *)
Lemma wide_section_exact fuel : ∀ pending seen, readable →
  (length pending + edges_left "section_parent" (gr_edges g) seen <= fuel)%nat →
  (∀ x y, x ∈ seen → under x y → ¬ wide_block y ∧ y ∈ seen ++ pending) →
  ∃ w, wide_section nfc isalnum fuel g pending seen = Ok w
    ∧ (w = true → ∃ x z, x ∈ pending ∧ tc under x z ∧ wide_block z)
    ∧ (w = false → ∀ x z, x ∈ seen ++ pending → tc under x z → ¬ wide_block z).
Proof.
  induction fuel as [|fuel IH]; intros pending seen Hread Hfuel Hinv.
  { destruct pending; [|cbn in Hfuel; lia]. exists false. split_and!; [done|done|]. intros _ x z.
    rewrite app_nil_r in *. intros Hx Ht. revert Hx. induction Ht as [x y Hxy|x y z Hxy _ IHt]; intros Hx.
    - by apply (Hinv x y).
    - apply IHt. by apply (Hinv x y). }
  destruct pending as [|child pending].
  { exists false. split_and!; [done|done|]. intros _ x z.
    rewrite app_nil_r in *. intros Hx Ht. revert Hx. induction Ht as [x y Hxy|x y z Hxy _ IHt]; intros Hx.
    - by apply (Hinv x y).
    - apply IHt. by apply (Hinv x y). }
  cbn [wide_section length] in *. destruct (str_in child seen) eqn:Es.
  - apply str_in_iff in Es. destruct (IH pending seen Hread ltac:(lia)) as (w & Hw & Ht & Hf).
    + intros x y Hx Hxy. destruct (Hinv x y Hx Hxy) as [Hn Hin]. split; [done|].
      revert Hin. rewrite !elem_of_app, elem_of_cons. intros [?|[->|?]]; auto.
    + exists w. split_and!; [done| |].
      * intros E. destruct (Ht E) as (x & z & Hx & Hz). exists x, z. split; [by right|done].
      * intros E x z Hx. apply (Hf E). revert Hx. rewrite !elem_of_app, elem_of_cons. intros [?|[->|?]]; auto.
  - apply str_in_false in Es. set (parents := ed_target <$> _).
    destruct (any_reads (λ id, match block_by_id g id with
                               | Some b => raw ← block_raw_text b; Ok (report_wide nfc isalnum raw)
                               | None => Ok false
                               end) wide_block parents) as (w & Hw & Hp).
    { intros x _. by apply reads_wide. }
    rewrite Hw. cbn [mbind result_bind]. destruct w.
    + exists true. split_and!; [done| |done]. intros _. destruct (proj1 Hp eq_refl) as (z & Hz & Hwz).
      exists child, z. split_and!; [left| |done]. apply tc_once. by apply parents_under.
    + destruct (IH (rev parents ++ pending) (seen ++ [child]) Hread) as (w & Hrun & Ht & Hf).
      * pose proof (edges_left_step "section_parent" (gr_edges g) child seen Es) as Hl.
        rewrite length_app, length_rev. unfold parents. rewrite length_fmap. unfold leaves in Hl. lia.
      * intros x y Hx Hxy. apply elem_of_app in Hx as [Hx| ->%list_elem_of_singleton].
        -- destruct (Hinv x y Hx Hxy) as [Hn Hin]. split; [done|].
           revert Hin. rewrite !elem_of_app, elem_of_cons, list_elem_of_singleton. intros [?|[->|?]]; auto.
        -- apply parents_under in Hxy. split.
           ++ intros Hwy. enough (false = true) by done. apply Hp. by exists y.
           ++ rewrite !elem_of_app. right. left. apply list_elem_of_In, in_rev. rewrite rev_involutive. by apply list_elem_of_In.
      * exists w. split_and!; [done| |].
        -- intros E. destruct (Ht E) as (x & z & Hx & Hz & Hwz). apply elem_of_app in Hx as [Hx|Hx].
           ++ exists child, z. split_and!; [left| |done]. apply list_elem_of_In, in_rev, list_elem_of_In in Hx.
              apply parents_under in Hx. by eapply tc_l.
           ++ exists x, z. split; [by right|done].
        -- intros E x z Hx. apply (Hf E). revert Hx.
           rewrite !elem_of_app, elem_of_cons, list_elem_of_singleton. intros [?|[->|?]]; auto.
Qed.

(** What stands behind a reference that states a report-wide scope. *)
Definition wide_source (r : SourceRef) : Prop :=
  report_wide nfc isalnum (quote r) = true ∨ wide_block (source_id r)
  ∨ ∃ z, tc under (source_id r) z ∧ wide_block z.

Lemma wide_ref_exact r : readable →
  ∃ w, wide_ref nfc isalnum g r = Ok w ∧ (w = true ↔ wide_source r).
Proof.
  intros Hread. unfold wide_ref, wide_source. destruct (report_wide nfc isalnum (quote r)).
  { exists true. split; [done|]. tauto. }
  destruct (reads_wide (source_id r) Hread) as (w & Hw & Hb). rewrite Hw. destruct w; cbn [if_result].
  { exists true. split; [done|]. split; [|done]. intros _. right. left. by apply Hb. }
  destruct (wide_section_exact (S (length (gr_edges g))) [source_id r] [] Hread) as (w & Hrun & Ht & Hf).
  - pose proof (edges_left_le "section_parent" (gr_edges g) []). cbn. lia.
  - by intros x y ?%elem_of_nil.
  - exists w. split; [done|]. destruct w.
    + split; [|done]. intros _. destruct (Ht eq_refl) as (x & z & ->%list_elem_of_singleton & Hz). right. right. by exists z.
    + split; [done|]. intros [?|[Hb'|(z & Hz & Hwz)]]; [done|by apply Hb in Hb'|].
      exfalso. apply (Hf eq_refl (source_id r) z); [left|done|done].
Qed.
End report_wide.

(* ------------------------------------------------------------------ *)
(** ** Report-level credit *)
(* ------------------------------------------------------------------ *)

Section credit.
Context (nfc casefold : pystr → pystr) (isalnum isdigit : N → bool) (decimal : N → option Z).
Context (page_texts : Z → list pystr).
Notation text_of := (text_of nfc).
Notation word := (word isalnum).

(** C15: report-wide prose never supports an activity scope.  Under the
    activity-scope policy of the pack, [scope_rejection_reason] always
    answers, and refuses a list of references for M2 exactly when one of them
    quotes report-wide prose, cites a block of it, or stands anywhere below a
    section of it, through any chain of [section_parent] edges, cyclic
    ones included. *)
Theorem scope_rejection_exact refs pack g policies :
  report_level_policies pack = Ok policies → eq_str (get_or_none policies "M2") ACTIVITY_SCOPE_V2 = true →
  readable g →
  ∃ answer, scope_rejection_reason nfc isalnum "M2" refs pack g None = Ok answer
    ∧ (answer = Some REPORT_WIDE_SCOPE_NOT_ACTIVITY_SCOPE ∨ answer = None)
    ∧ (answer ≠ None ↔ ∃ r, r ∈ refs ∧ wide_source nfc isalnum g r).
Proof.
  intros Hp Hv2 Hread. unfold scope_rejection_reason. cbn [negb].
  change ("M2" =s? "M2") with true. cbn [negb]. rewrite Hp. cbn [mbind result_bind]. rewrite Hv2. cbn [negb].
  destruct (any_reads (wide_ref nfc isalnum g) (wide_source nfc isalnum g) refs) as (w & Hw & Hx).
  { intros r _. by apply wide_ref_exact. }
  rewrite Hw. cbn [mbind result_bind]. eexists. split; [done|]. rewrite <- Hx. by destruct w; split_and!; auto.
Qed.

(** The label of the claim is on the pages of the row of the index. *)
Definition row_names_page (claim_refs : list SourceRef) (index : SourceRef) (code : pystr) : Prop :=
  ∃ label row page pages,
    claim_refs ≠ [] ∧ (∀ r, r ∈ claim_refs → printed_page_label r = Some label)
    ∧ re_match word (INDEX_ROW decimal) (text_of (quote index)) = Some row ∧ named row "code" = code
    ∧ int_of decimal label = Ok page ∧ pages_of isalnum decimal (named row "pages") = Ok pages
    ∧ within page pages = true.

(** The three links from the page of a claim to an assurance statement. *)
Definition assured_chain (refs claim_refs : list SourceRef) (credited_from : option pystr) : Prop :=
  ∃ index coverage standard code,
    refs = [index; coverage; standard]
    ∧ row_names_page claim_refs index code
    ∧ index_page nfc casefold isalnum page_texts index = true
    ∧ covers isalnum decimal (text_of (quote coverage)) code = Ok true
    ∧ found word STANDARD (text_of (quote standard)) = true ∧ page_num standard = page_num coverage
    ∧ on_page nfc isalnum page_texts coverage ASSURANCE_HEADING = true
    ∧ credited_from = Some (source_id coverage).

(** The report's own statement of its scope, for a claim that states none. *)
Definition scope_statement (refs : list SourceRef) (claim_quote : pystr) (credited_from : option pystr) : Prop :=
  ∃ scope, refs = [scope] ∧ found word OWN_SCOPE (text_of claim_quote) = false
    ∧ found word ENTITY (text_of (quote scope)) = true
    ∧ on_page nfc isalnum page_texts scope SCOPE_HEADING = true ∧ credited_from = Some (source_id scope).

Lemma one_label_spec claim_refs l : one_label isdigit claim_refs = Some l →
  claim_refs ≠ [] ∧ ∀ r, r ∈ claim_refs → printed_page_label r = Some l.
Proof.
  unfold one_label. set (eqb := λ a b : option pystr, bool_decide (a = b)).
  assert (Heqb : ∀ a b, eqb a b = true ↔ a = b) by (intros a b; apply bool_decide_eq_true).
  assert (Hd : ∀ x, x ∈ dedup eqb (printed_page_label <$> claim_refs) ↔ x ∈ printed_page_label <$> claim_refs)
    by (intros x; exact (elem_of_dedup eqb Heqb x _)).
  destruct (dedup eqb _) as [|[l'|] [|]] eqn:E; try done. destruct (_ && _); [|done]. intros [= ->]. split.
  - intros ->. done.
  - intros r Hin. assert (Hr : printed_page_label r ∈ printed_page_label <$> claim_refs) by by apply list_elem_of_fmap_2.
    apply Hd in Hr. by apply list_elem_of_singleton in Hr.
Qed.

Lemma gri_assured_chain refs claim_refs credited_from :
  gri_assured_page nfc casefold isalnum isdigit decimal page_texts refs claim_refs credited_from = Ok true →
  assured_chain refs claim_refs credited_from.
Proof.
  unfold gri_assured_page. destruct refs as [|index [|coverage [|standard [|]]]]; try done.
  destruct (one_label isdigit claim_refs) as [label|] eqn:El; [|done].
  destruct (re_match _ _ _) as [row|] eqn:Er; [|done].
  intros (page & Hpage & Hg)%bind_Ok_inv. apply bind_Ok_inv in Hg as (pages & Hpages & Hg).
  destruct (negb (within page pages) || _) eqn:Ew; [done|].
  apply orb_false_iff in Ew as [Hw%negb_false_iff Hi%negb_false_iff].
  apply and_result_true in Hg as [Hc [= Hrest]].
  apply andb_true_iff in Hrest as [[[Hs Hpn%Z.eqb_eq]%andb_true_iff Ha]%andb_true_iff Hcr%bool_decide_eq_true].
  apply one_label_spec in El as [Hne Hl].
  exists index, coverage, standard, (named row "code"). split_and!; try done.
  exists label, row, page, pages. done.
Qed.

(** C16: a report-level credit carries its whole chain.  A credit is given
    only under the policy that the element has, never under the
    activity-scope policy, and only with verified references of the evidence
    and of the claim.  For M3 the three references are a row of the GRI index
    that names the one printed page of the claim, on an index page; a list
    of disclosures that covers the code of the row, on an assurance page; and
    an assurance standard on that page; for M2, and for an element without a
    policy when none is named, it is one statement of the report's scope that
    names an entity, and the claim names no scope of its own.  The credit
    names the source of the statement. *)
Theorem report_level_chain element_id policy refs claim_refs claim_quote credited_from :
  check_report_level nfc casefold isalnum isdigit decimal page_texts element_id policy refs claim_refs claim_quote
    credited_from = Ok true →
  policy = policy_of element_id ∧ policy ≠ Some ACTIVITY_SCOPE_V2
  ∧ (∀ r, r ∈ refs ++ claim_refs → is_verified r = true) ∧ claim_refs ≠ []
  ∧ match policy with
    | Some p => (element_id = "M3" ∧ p = GRI_ASSURED_PAGE_V1 ∧ assured_chain refs claim_refs credited_from)
                ∨ (element_id = "M2" ∧ p = REPORT_SCOPE_V1 ∧ scope_statement refs claim_quote credited_from)
    | None => scope_statement refs claim_quote credited_from
    end.
Proof.
  unfold check_report_level. destruct (_ && _) eqn:E0; [done|].
  destruct (negb (bool_decide _) || _ || _) eqn:E1; [done|].
  apply orb_false_iff in E1 as [[Hp%negb_false_iff _]%orb_false_iff Hc%negb_false_iff].
  apply bool_decide_eq_true in Hp. destruct (forallb is_verified _) eqn:Ev; [cbn [negb]|done].
  assert (Hcases : policy = None ∨ (element_id = "M3" ∧ policy = Some GRI_ASSURED_PAGE_V1)
                   ∨ (element_id = "M2" ∧ policy = Some REPORT_SCOPE_V1)).
  { rewrite <- Hp. unfold policy_of, POLICIES. cbn [dict_get].
    destruct (str_eqb_spec element_id "M3") as [->|_]; [by right; left|].
    destruct (str_eqb_spec element_id "M2") as [->|_]; [by right; right|by left]. }
  assert (Hstmt : report_scope nfc isalnum page_texts refs claim_quote credited_from = true →
                  scope_statement refs claim_quote credited_from).
  { unfold report_scope. destruct refs as [|scope [|]]; try done.
    intros [[[Ho%negb_true_iff He]%andb_true_iff Hs]%andb_true_iff Hcr%bool_decide_eq_true]%andb_true_iff.
    exists scope. done. }
  intros Hok. split_and!; [done| | | |].
  - destruct Hcases as [->|[[_ ->]|[_ ->]]]; [done|by intros [=]|by intros [=]].
  - intros r Hr. rewrite forallb_forall in Ev. by apply Ev, list_elem_of_In.
  - by intros ->.
  - destruct Hcases as [->|[[-> ->]|[-> ->]]].
    + rewrite bool_decide_eq_false_2 in Hok by done. injection Hok as Hok. by apply Hstmt.
    + rewrite bool_decide_eq_true_2 in Hok by done. left. split_and!; [done|done|by apply gri_assured_chain].
    + rewrite bool_decide_eq_false_2 in Hok by (by intros [=]). injection Hok as Hok. right. split_and!; [done|done|by apply Hstmt].
Qed.
End credit.

(* ------------------------------------------------------------------ *)
(** ** A report *)
(* ------------------------------------------------------------------ *)

Section sample.
#[local] Existing Instance Checksum.

Definition ascii_decimal (c : N) : option Z := if is_digit c then Some (Z.of_N c - 48) else None.

(** A verified reference on a page with a printed label. *)
Definition cited_at (n : N) (page : Z) (label : option pystr) (text : pystr) : SourceRef :=
  let r := span n text 0 (py_len text) in
  {| source_id := source_id r; document_version_id := document_version_id r; parse_manifest_id := parse_manifest_id r;
     page_num := page; printed_page_label := label; ref_bbox := ref_bbox r; raw_text_sha256 := raw_text_sha256 r;
     quote := text; char_start := 0; char_end := py_len text; location_quality := Located;
     verification_state := Verified |}.

Definition report_pages (page : Z) : list pystr :=
  if page =? 90 then ["GRI Content  Index"; "305-1 Direct emissions 12-14, 20"]
  else if page =? 95 then ["Independent Assurance"; "GRI 305-1 ~ 305-3, 401-1"]
  else if page =? 2 then ["Reporting Scope"] else [].

Definition index_ref : SourceRef := cited_at 1 90 None "305-1 Direct emissions 12-14, 20".
Definition coverage_ref : SourceRef := cited_at 2 95 None "GRI 305-1 ~ 305-3, 401-1".
Definition standard_ref : SourceRef := cited_at 3 95 None "isae 3000".
Definition scope_ref : SourceRef := cited_at 4 2 None "주식회사 ACME".
Definition credit (element : pystr) (policy : option pystr) (refs : list SourceRef) (label : pystr)
    (from : pystr) : result bool :=
  check_report_level nfc_sample lower ascii_alnum (λ c, is_digit c || (c =? 178)%N) ascii_decimal report_pages
    element policy refs [cited_at 5 13 (Some label) "CO2 fell"] "CO2 fell" (Some from).

Abbreviation chain := [index_ref; coverage_ref; standard_ref].

(** The chain of M3 on a page the row names and on another; the statement of
    M2 under its policy and under the activity-scope policy. *)
Example credits :
  credit "M3" (Some GRI_ASSURED_PAGE_V1) chain "13" (sample_id 2) = Ok true
  ∧ credit "M3" (Some GRI_ASSURED_PAGE_V1) chain "15" (sample_id 2) = Ok false
  ∧ credit "M2" (Some REPORT_SCOPE_V1) [scope_ref] "13" (sample_id 4) = Ok true
  ∧ credit "M2" (Some ACTIVITY_SCOPE_V2) [scope_ref] "13" (sample_id 4) = Ok false.
Proof. vm_compute. done. Qed.

(** With no policy named, the statement of the report's scope credits an
    element that has none, a numeric one too. *)
Example unnamed_policy_credits : credit "P1" None [scope_ref] "13" (sample_id 4) = Ok true.
Proof. vm_compute. reflexivity. Qed.

(** A printed label that is a digit and no decimal raises. *)
Example superscript_label_raises :
  credit "M3" (Some GRI_ASSURED_PAGE_V1) chain [178%N] (sample_id 2)
  = Raise (ValueError "invalid literal for int()").
Proof. vm_compute. reflexivity. Qed.

Lemma report_level_chain_witness :
  assured_chain nfc_sample lower ascii_alnum ascii_decimal report_pages chain [cited_at 5 13 (Some "13" : option pystr) "CO2 fell"]
    (Some (sample_id 2)).
Proof.
  destruct (report_level_chain nfc_sample lower ascii_alnum (λ c, is_digit c || (c =? 178)%N) ascii_decimal report_pages
    "M3" (Some GRI_ASSURED_PAGE_V1) chain [cited_at 5 13 (Some "13" : option pystr) "CO2 fell"] "CO2 fell"
    (Some (sample_id 2)) ltac:(vm_compute; reflexivity)) as (_ & _ & _ & _ & [(_ & _ & Hc)|(He & _)]);
    [exact Hc|discriminate He].
Defined.

(** A paragraph, a section of report-wide prose and a heading between them,
    with a cycle. *)
Definition section_blocks : list CanonicalBlock :=
  [cell_block 1 "paragraph" "all plants" None None; cell_block 2 "heading" "Our plants" None None;
   cell_block 3 "heading" "This report covers our plants" None None].

Definition section_edge (a b : N) : CanonicalEdge :=
  {| ed_source := sample_id a; ed_target := sample_id b; ed_relation := "section_parent" |}.

Definition section_graph : CanonicalDocumentGraph :=
  {| gr_tenant_id := tenant_uuid; gr_document_version_id := version_id;
     gr_parse_manifest_id := manifest_id; gr_source_sha256 := sample_sha; gr_blocks := section_blocks;
     gr_edges := [section_edge 1 2; section_edge 2 1; section_edge 2 3]; gr_issues := []; gr_candidates := [];
     gr_validation_profile := "fast_preview" |}.

Definition scope_pack : RulePackSnapshot :=
  {| rule_pack_id := "rp"; tenant_id := tenant_uuid; version := "v2"; effective_date := "2026-09-25";
     mode := "disclosure"; status := "active"; ontology_version := "o1";
     source_document_sha256 := "s"; sha256 := sample_sha; files := []; unresolved_gap_ids := [];
     approved_by := Some "u"; approved_at := Some "t";
     content := [("rubric/elements.yaml", json_text (PDict [("elements", PList
       [PDict [("id", PStr "M2"); ("binding_policy", PStr ACTIVITY_SCOPE_V2)]])]))] |}.

Lemma scope_rejection_exact_witness :
  ∃ answer, scope_rejection_reason nfc_sample ascii_alnum "M2" [span 1 "all plants" 0 10] scope_pack section_graph None
              = Ok answer
    ∧ (answer ≠ None ↔ ∃ r, r ∈ [span 1 "all plants" 0 10] ∧ wide_source nfc_sample ascii_alnum section_graph r).
Proof.
  destruct (scope_rejection_exact nfc_sample ascii_alnum [span 1 "all plants" 0 10] scope_pack section_graph
    [("M3", PStr GRI_ASSURED_PAGE_V1); ("M2", PStr ACTIVITY_SCOPE_V2)] ltac:(vm_compute; reflexivity) eq_refl)
    as (answer & Ha & _ & Hx).
  - intros b [->|[->|[->|[]%elem_of_nil]%elem_of_cons]%elem_of_cons]%elem_of_cons; vm_compute; reflexivity.
  - exists answer. split; [exact Ha|exact Hx].
Defined.

Example section_refused :
  scope_rejection_reason nfc_sample ascii_alnum "M2" [span 1 "all plants" 0 10] scope_pack section_graph None
  = Ok (Some REPORT_WIDE_SCOPE_NOT_ACTIVITY_SCOPE).
Proof. vm_compute. reflexivity. Qed.
End sample.
