(* ===== verification/LocalIdentity.v ===== *)
(** * Literal attribution inside one claim.

    [application/evidence/relation_attribution.py]: the paragraphs of a text
    and the vetoes of a role; [application/ingest/j7_split.py] and
    [k5_context.py]: the sentence around a span; and the rules of
    [application/tagging] that attribute or veto by the literal text alone:
    [k9_contract.py], [k2_recovery.py] and [q1_contract.py].  The policies are
    dictionaries pinned by equality, so a policy is one of the constants of
    its module or none of them. *)
From S2P Require Import Prelude PyVal Values PyDate Digest Geometry Graph Numeric Claims Citations SourceRefs Regex ReportLevel.
Open Scope Z_scope.
Open Scope py_scope.

(** Roles by name, each a source reference or null. *)
Abbreviation roles := (list (pystr * option SourceRef)).

Section local.
Context `{Digest} (nfc casefold : pystr → pystr) (isalnum : N → bool) (decimal : N → option Z).
Notation word := (word isalnum).
Notation digit := (digit decimal).

Definition not_space (c : N) : bool := negb (is_space c).
Definition digit_char (c : N) : bool := bool_decide (is_Some (decimal c)).

(* ------------------------------------------------------------------ *)
(** ** Paragraphs and roles *)
(* ------------------------------------------------------------------ *)

(** [POLICY["particles"]]
    [application/evidence/relation_attribution.py:20 LEGACY_POLICY] *)
Definition PARTICLES : list pystr :=
  ["은"; "는"; "이"; "가"; "의"; "을"; "를"; "에"; "에서"; "으로"; "로"; "와"; "과"].

(** [POLICY["non_product_material_names"]]
    [application/evidence/relation_attribution.py:21 LEGACY_POLICY] *)
Definition INITIATIVES : list pystr := ["RE100"; "SBTi"; "CDP"; "GRI"].

(** [application/evidence/relation_attribution.py:22 LEGACY_POLICY] *)
Definition CERTIFICATION : regex :=
  seqs [Word_edge; ilit "ISO"; spaces; between 4 5 digit;
        opt (Seq (one_of "-:") (plus digit)); Word_edge].

(** [application/evidence/relation_attribution.py:23 LEGACY_POLICY] *)
Definition PARAGRAPH_BREAK : regex :=
  let line := Seq (opt (char_is 13)) (char_is 10) in
  Alt (seqs [line; spaces; line]) (one_of "•●▪").

(** [[\w%]+] *)
Definition TOKEN : regex := plus (Chr (λ c, word c || (c =? 37)%N)).

(** The veto of one token that a bound of the span cuts.
    [application/evidence/relation_attribution.py:60-66 role_rejection] *)
Definition cut_token (text : pystr) (start end_ : Z) (token : Z * Z) : bool :=
  ((token.1 <? start) && (start <? token.2))
  || ((token.1 <? end_) && (end_ <? token.2)
      && (let suffix := slice text end_ token.2 in
          negb (str_in suffix PARTICLES) || negb (nonempty suffix && forallb hangul suffix))).

(** [s[:-len(suffix)]] for the particles that end a token.
    [application/evidence/relation_attribution.py:71-75 role_rejection] *)
Definition stripped_tokens (token : pystr) : list pystr :=
  casefold token
  :: ((λ p, casefold (take (length token - length p) token))
        <$> List.filter (λ p, starts_with (rev p) (rev token)) PARTICLES).

(** [application/evidence/relation_attribution.py:50-80 role_rejection] *)
Definition role_rejection (text : pystr) (start end_ : Z) (role : pystr) : option pystr :=
  if negb ((0 <=? start) && (start <? end_) && (end_ <=? py_len text)) then Some "RELATION_SPAN_INVALID"
  else if existsb (cut_token text start end_) (match_spans word TOKEN text) then Some "RELATION_TOKEN_FRAGMENT"
  else if str_in role ["product"; "material"] then
    let q := slice text start end_ in
    let words := matches word TOKEN q ≫= stripped_tokens in
    if existsb (λ n, str_in (casefold n) words) INITIATIVES || found word CERTIFICATION q
    then Some "RELATION_INITIATIVE_ROLE" else None
  else None.

(** The paragraphs from [start] on, given the breaks that follow.
    [application/evidence/relation_attribution.py:83-90 _paragraphs] *)
Fixpoint paragraphs_from (text : pystr) (start : Z) (breaks : list (Z * Z)) : list (Z * Z) :=
  let stop := match breaks with b :: _ => b.1 | [] => py_len text end in
  let here := if nonblank (slice text start stop) then [(start, stop)] else [] in
  match breaks with b :: breaks => here ++ paragraphs_from text b.2 breaks | [] => here end.

(** [application/evidence/relation_attribution.py:83-90 _paragraphs] *)
Definition paragraphs (text : pystr) : list (Z * Z) :=
  paragraphs_from text 0 (match_spans word PARAGRAPH_BREAK text).

Definition span_in (r : SourceRef) (bounds : Z * Z) : bool :=
  (bounds.1 <=? char_start r) && (char_start r <? char_end r) && (char_end r <=? bounds.2).

(** [application/evidence/relation_attribution.py:93-114 literal_scope_rejection] *)
Definition literal_scope_rejection (targets : list SourceRef) (r : SourceRef) (text : option pystr)
    : option pystr :=
  if negb (nonempty_list targets)
     || existsb (λ t, negb ((document_version_id t =s? document_version_id r)
                            && (parse_manifest_id t =s? parse_manifest_id r))) targets
  then Some "RELATION_IDENTITY_MISMATCH"
  else
    let same_page := List.filter (λ t, page_num t =? page_num r) targets in
    let same_block := List.filter (λ t, source_id t =s? source_id r) same_page in
    if negb (nonempty_list same_page) then Some "RELATION_OTHER_PAGE"
    else if negb (nonempty_list same_block) then Some "RELATION_OTHER_BLOCK"
    else
      match text with
      | None => Some "RELATION_SOURCE_UNRESOLVED"
      | Some text =>
          if existsb (λ t, existsb (λ p, span_in t p && span_in r p) (paragraphs text)) same_block then None
          else Some "RELATION_OTHER_PARAGRAPH"
      end.

(* ------------------------------------------------------------------ *)
(** ** The sentence around a span *)
(* ------------------------------------------------------------------ *)

(** The closing of an opening bracket or quotation.
    [application/ingest/j7_split.py:102 _top_level] *)
Definition closing_of (c : N) : option N :=
  snd <$> find (λ p, (p.1 =? c)%N)
            [(40, 41); (91, 93); (123, 125); (8216, 8217); (8220, 8221); (39, 39); (34, 34)]%N.

(** [application/ingest/j7_split.py:105-112 _top_level] *)
Fixpoint top_level_from (stack : list N) (index : Z) (text : pystr) : list Z :=
  match text with
  | [] => []
  | c :: text =>
      let stack :=
        match stack with
        | d :: below => if (c =? d)%N then below
                        else match closing_of c with Some e => e :: stack | None => stack end
        | [] => match closing_of c with Some e => [e] | None => [] end
        end in
      (if nonempty_list stack then [] else [index + 1]) ++ top_level_from stack (index + 1) text
  end.

(** The positions where a text may be cut.
    [application/ingest/j7_split.py:100-112 _top_level] *)
Definition top_level (text : pystr) : list Z := 0 :: top_level_from [] 0 text.

(** [application/ingest/k5_context.py:14-15 TERMINAL, BULLET] *)
Definition SENTENCE_EDGE : regex :=
  alts [Seq (one_of ".!?。！？") (Ahead true (Alt space Text_end));
        Seq (Behind false not_space) (one_of "•▪▶");
        seqs [char_is 10; spaces; char_is 10]].

(** [application/ingest/k5_context.py:43-48 _bounds] *)
Definition boundaries (text : pystr) : list Z :=
  let allowed := top_level text in
  let inside z := existsb (Z.eqb z) allowed in
  [0; py_len text]
  ++ ((λ m : pystr * cursor * pystr,
         let stop := at_position m.1.2 in
         if str_in m.2 ["•"; "▪"; "▶"] then stop - py_len m.2 else stop)
      <$> List.filter (λ m : pystr * cursor * pystr,
                         inside (at_position m.1.2 - py_len m.2) && inside (at_position m.1.2))
            (find_all word SENTENCE_EDGE text).1).

Definition space_at (text : pystr) (i : Z) : bool := holds_at is_space text i.

(** [while left < start and text[left].isspace()]
    [application/ingest/k5_context.py:51-52 _bounds] *)
Fixpoint skip_right (fuel : nat) (text : pystr) (left start : Z) : Z :=
  match fuel with
  | S fuel => if (left <? start) && space_at text left then skip_right fuel text (left + 1) start else left
  | O => left
  end.

(** [while right > end and text[right - 1].isspace()]
    [application/ingest/k5_context.py:53-54 _bounds] *)
Fixpoint skip_left (fuel : nat) (text : pystr) (right end_ : Z) : Z :=
  match fuel with
  | S fuel => if (end_ <? right) && space_at text (right - 1) then skip_left fuel text (right - 1) end_ else right
  | O => right
  end.

Definition max_list (l : list Z) : option Z :=
  match l with [] => None | x :: l => Some (foldl Z.max x l) end.
Definition min_list (l : list Z) : option Z :=
  match l with [] => None | x :: l => Some (foldl Z.min x l) end.

(** The sentence of a span: [max] and [min] of nothing raise.
    [application/ingest/k5_context.py:43-55 _bounds] *)
Definition sentence_bounds (text : pystr) (start end_ : Z) : result (Z * Z) :=
  left ← of_option (ValueError "max() iterable argument is empty")
           (max_list (List.filter (λ x, x <=? start) (boundaries text)));
  right ← of_option (ValueError "min() iterable argument is empty")
            (min_list (List.filter (λ x, end_ <=? x) (boundaries text)));
  Ok (skip_right (length text) text left start, skip_left (length text) text right end_).

(* ------------------------------------------------------------------ *)
(** ** The context of a claim *)
(* ------------------------------------------------------------------ *)

(** [application/evidence/binding.py:26-28 _DIMENSIONS] *)
Definition DIMENSIONS : list pystr :=
  ["entity"; "metric"; "reporting_period"; "facility"; "scope"; "product"; "material"; "boundary"].

(** [application/evidence/binding.py:54-61 _dimensions] *)
Definition dimensions_of (values : roles) : result roles :=
  _ ← require (forallb (λ k, str_in k DIMENSIONS) (dict_keys values)) DomainValidationError; Ok values.

(** [roles.get(name)] *)
Definition role (name : pystr) (l : roles) : option SourceRef := mjoin (dict_get name l).

(** [application/evidence/binding.py:64-75 ClaimContext] *)
Record ClaimContext : Set := { cc_claim : Claim; cc_dimensions : roles }.

(** [application/evidence/binding.py:77-80 ClaimContext.__post_init__] *)
Definition mk_ClaimContext (c : Claim) (d : roles) : result ClaimContext :=
  d ← dimensions_of d; Ok {| cc_claim := c; cc_dimensions := d |}.

(* ------------------------------------------------------------------ *)
(** ** Implementation and scope in one paragraph (K9) *)
(* ------------------------------------------------------------------ *)

(** The five versions of the policy, and any other dictionary.
    [application/tagging/k9_contract.py:36-85 BINDING_POLICY] *)
Inductive K9Policy : Set := K9_V1 | K9_V2 | K9_V3 | K9_V4 | K9_V5 | K9_other.

#[export] Instance k9_policy_eq_dec : EqDecision K9Policy.
Proof. solve_decision. Defined.

Definition k9_known (p : K9Policy) : bool := negb (bool_decide (p = K9_other)).

(** [BINDING_POLICY["elements"]]
    [application/tagging/k9_contract.py:38 BINDING_V1_POLICY] *)
Definition K9_ELEMENTS : list pystr := ["M4"; "G6"; "M5"; "G4"].

(** [(?:19|20)\d{2}] *)
Definition year : regex := Seq (Alt (lit "19") (lit "20")) (between 2 2 digit).

(** [application/tagging/k9_contract.py:86 _DATE] *)
Definition DATE : regex :=
  seqs [Behind false digit_char; year; lit "년";
        opt (seqs [spaces; Alt (Seq (lit "1") (one_of "012")) (one_of "123456789"); lit "월"]);
        Ahead false digit].

(** [application/tagging/k9_contract.py:183-197 _facility_citation] *)
Definition facility_citation (c : ClaimContext) (r : SourceRef) : bool :=
  existsb (span_inside r) (cl_source_refs (cc_claim c))
  && (match role "facility" (cc_dimensions c) with Some f => span_inside f r | None => false end
      || found word (alts [lit "사업장"; lit "공장"; lit "발전소"; lit "데이터센터"; lit "건물"; lit "법인"]) (quote r)).

Definition block_named (g : CanonicalDocumentGraph) (id : pystr) : result CanonicalBlock :=
  of_option StopIteration (find (λ b, kb_source_id b =s? id) (gr_blocks g)).

(** The event and its date in one sentence of the citation.
    [application/tagging/k9_contract.py:122-132 local_implementation_identity] *)
Definition dated_entity (c : ClaimContext) (full r : SourceRef) : result bool :=
  match role "entity" (cc_dimensions c) with
  | None => Ok false
  | Some entity =>
      if negb (span_inside entity r && (char_start full <=? char_start r) && (char_end r <=? char_end full)
               && (source_id full =s? source_id r)) then Ok false
      else
        bounds ← sentence_bounds (quote r) (char_start entity - char_start r) (char_end entity - char_start r);
        Ok (existsb (λ m, (bounds.1 <=? m.1) && (m.1 <? m.2) && (m.2 <=? bounds.2))
              (match_spans word DATE (quote r)))
  end.

(** [application/tagging/k9_contract.py:95-132 local_implementation_identity] *)
Definition local_implementation_identity (c : ClaimContext) (r : SourceRef) (g : CanonicalDocumentGraph)
    (policy : K9Policy) (element_id : pystr) : result bool :=
  _ ← require (k9_known policy) (ValueError "K9_BINDING_POLICY_MISMATCH");
  match cl_source_refs (cc_claim c) with
  | [full] =>
      if negb (cl_source_quality (cc_claim c) =s? "verified") then Ok false
      else
        block ← block_named g (source_id full);
        if negb (kb_kind block =s? "paragraph") || negb (span_inside r full) then Ok false
        else if (element_id =s? "G4")
                && (if bool_decide (policy = K9_V1) then negb (bool_decide (is_Some (role "facility" (cc_dimensions c))))
                    else negb (facility_citation c r)) then Ok false
        else if str_in element_id ["G6"; "M5"; "G4"] then Ok true
        else dated_entity c full r
  | _ => Ok false
  end.

(** [application/tagging/k9_contract.py:135-137 _SCOPE_DEFINITION] *)
Definition SCOPE_DEFINITION : regex :=
  let name := plus (Chr hangul) in
  seqs [Group "label" (seqs [name; spaces; name]); spaces; lit "("; spaces; ilit "Scope"; spaces;
        Group "scope" (one_of "123"); spaces; lit ")"].

(** The reference of one definition, when its label opens the claim and its
    paragraph is the claim's.
    [application/tagging/k9_contract.py:151-162 scope_definition_refs] *)
Definition definition_ref (c : Claim) (block : CanonicalBlock) (raw : pystr) (m : pystr * cursor * pystr)
    : result (list SourceRef) :=
  let after := alts [lit "은"; lit "는"; lit "의"; lit "을"; lit "를"; space] in
  let label := named m.1.2 "label" in
  if negb (bool_decide (is_Some (re_match word (Seq (lit label) after) (cl_quote c)))) then Ok []
  else
    whole ← block_source_ref nfc block None None;
    let r := at_span whole (at_position m.1.2 - py_len m.2) (at_position m.1.2) m.2 in
    Ok (match literal_scope_rejection (cl_source_refs c) r (Some raw) with None => [r] | Some _ => [] end).

(** [application/tagging/k9_contract.py:140-162 scope_definition_refs] *)
Definition scope_definition_refs (c : Claim) (g : CanonicalDocumentGraph) : result (list SourceRef) :=
  match cl_source_refs c with
  | [full] =>
      block ← block_named g (source_id full);
      if negb (kb_kind block =s? "paragraph") then Ok []
      else
        raw ← block_raw_text block;
        refs ← map_result (definition_ref c block raw) (find_all word SCOPE_DEFINITION raw).1;
        let refs := concat refs in
        Ok (if py_len refs =? 1 then refs else [])
  | _ => Ok []
  end.

(** [application/tagging/k9_contract.py:176-179 scope_definition_identity] *)
Definition same_span (a b : SourceRef) : bool :=
  (source_id a =s? source_id b) && (char_start a =? char_start b) && (char_end a =? char_end b)
  && (quote a =s? quote b).

(** [application/tagging/k9_contract.py:165-180 scope_definition_identity] *)
Definition scope_definition_identity (c : ClaimContext) (r : SourceRef) (g : CanonicalDocumentGraph)
    (policy : K9Policy) : result bool :=
  let facility := role "facility" (cc_dimensions c) in
  match cl_source_refs (cc_claim c) with
  | [full] =>
      if bool_decide (policy = K9_V1) && negb (bool_decide (is_Some facility)) then Ok false
      else if match facility with Some f => negb (span_inside f full) | None => false end then Ok false
      else refs ← scope_definition_refs (cc_claim c) g; Ok (existsb (λ d, same_span d r) refs)
  | _ => Ok false
  end.

(** [application/tagging/k9_contract.py:200-221 g4_complete] *)
Definition g4_complete (evidence : list SourceRef) (c : ClaimContext) (g : CanonicalDocumentGraph)
    (policy : K9Policy) : result bool :=
  let gated := bool_decide (policy = K9_V3) || bool_decide (policy = K9_V4) || bool_decide (policy = K9_V5) in
  definitions ← (if gated then scope_definition_refs (cc_claim c) g else Ok []);
  if gated && negb (nonempty_list definitions) then Ok true
  else if bool_decide (policy = K9_V1) && negb (bool_decide (is_Some (role "facility" (cc_dimensions c))))
  then Ok false
  else
    let scope := seqs [Word_edge; ilit "Scope"; spaces; one_of "123"; Word_edge] in
    let local_scope :=
      existsb (λ r, found word scope (quote r) && existsb (span_inside r) (cl_source_refs (cc_claim c))) evidence in
    and_result
      (if local_scope then Ok true
       else any_result (λ r, scope_definition_identity c r g policy) evidence)
      (Ok (existsb (facility_citation c) evidence)).

(* ------------------------------------------------------------------ *)
(** ** Values of an atomic claim (K2) *)
(* ------------------------------------------------------------------ *)

(** [application/tagging/k2_recovery.py:13 POLICY] *)
Definition INTRINSIC_ELEMENTS : list pystr := ["G1"; "G2"; "P1"; "M1"].

(** [application/tagging/k2_recovery.py:25-35 local_intrinsic] *)
Definition local_intrinsic (c : Claim) (r : SourceRef) (element_id : pystr) : bool :=
  str_in element_id INTRINSIC_ELEMENTS && (cl_source_quality c =s? "verified")
  && match cl_source_refs c with [full] => span_inside r full | _ => false end.

(** [application/tagging/k2_recovery.py:38 _NUMBER] *)
Definition NUMBER_TEXT : regex :=
  seqs [opt (one_of "+-");
        Alt (Seq (between 1 3 digit) (plus (Seq (lit ",") (between 3 3 digit)))) (plus digit);
        opt (Seq (lit ".") (plus digit))].

(** [application/tagging/k2_recovery.py:39-42 _UNITS] *)
Definition UNITS : regex :=
  let two := one_of "2₂" in
  let equivalent := opt (Alt (lit "eq") (lit "e")) in
  alts [Seq (lit "%") (opt (lit "p")); lit "MWh"; lit "kWh"; lit "GWh"; lit "MW"; lit "kW"; lit "GW";
        seqs [lit "tCO"; two; equivalent]; seqs [lit "kgCO"; two; equivalent];
        lit "GJ"; lit "TJ"; lit "MJ"; Seq (lit "m") (one_of "3³"); lit "㎥"; lit "톤"; lit "kg";
        lit "천tCO2eq"; lit "대"].

(** [application/tagging/k2_recovery.py:43 _VALUE] *)
Definition VALUE : regex :=
  seqs [Behind false (λ c, word c || (c =? 46)%N || (c =? 44)%N); NUMBER_TEXT; spaces; UNITS;
        Ahead false (Chr (λ c, ascii_alpha c || is_digit c))].

(** [application/tagging/k2_recovery.py:44 _YEAR] *)
Definition YEAR : regex :=
  seqs [Behind false is_digit; Alt (lit "19") (lit "20"); Chr is_digit; Chr is_digit; lit "년"; opt (lit "까지")].

(** [replace(element, normalized_value=...)] *)
Definition with_value (e : LlmElement) (v : pystr) : LlmElement :=
  {| element_id := element_id e; state := state e; evidence_refs := evidence_refs e;
     normalized_value := Some v; credited_from := credited_from e; reason_code := reason_code e |}.

(** [application/tagging/k2_recovery.py:47-68 recover_value] *)
Definition recover_value (e : LlmElement) (refs : list SourceRef) (c : Claim) (s : Snapshot) (tenant : pystr)
    : result (LlmElement * list SourceRef) :=
  match normalized_value e, refs with
  | None, [r] =>
      if negb (str_in (element_id e) ["G1"; "G2"; "P1"]) || negb (local_intrinsic c r (element_id e))
      then Ok (e, refs)
      else
        match (find_all word (if element_id e =s? "G1" then YEAR else VALUE) (quote r)).1 with
        | [m] =>
            let stop := at_position m.1.2 in
            checked ← verify_span_ref nfc
                        (with_state (at_span r (char_start r + stop - py_len m.2) (char_start r + stop) m.2) Candidate)
                        s tenant;
            if is_verified checked then Ok (with_value e (quote checked), [checked]) else Ok (e, refs)
        | _ => Ok (e, refs)
        end
  | _, _ => Ok (e, refs)
  end.

(* ------------------------------------------------------------------ *)
(** ** Literal vetoes (Q1) *)
(* ------------------------------------------------------------------ *)

(** The first policy, the two quality policies after it and any other
    dictionary.
    [application/tagging/q1_contract.py:136 QUALITY_POLICIES] *)
Inductive Q1Policy : Set := Q1_semantic | Q1_R12 | Q1_QA2 | Q1_other.

#[export] Instance q1_policy_eq_dec : EqDecision Q1Policy.
Proof. solve_decision. Defined.

Definition is_quality (p : option Q1Policy) : bool :=
  match p with Some Q1_R12 | Some Q1_QA2 => true | _ => false end.

(** [application/tagging/q1_contract.py:139-141 validate_policy] *)
Definition validate_policy (p : option Q1Policy) : result unit :=
  reject (bool_decide (p = Some Q1_other)) (ValueError "Q1_STRUCTURAL_POLICY_MISMATCH").

Definition any_chars : regex := star dot.

(** [application/tagging/q1_contract.py:55 GENERIC_PLAN] *)
Definition GENERIC_PLAN : regex :=
  seqs [alts [lit "관련"; lit "다양한"; lit "일련의"]; spaces; lit "활동"; any_chars; lit "추진"].

(** [application/tagging/q1_contract.py:56 NAMED_PLAN] *)
Definition NAMED_PLAN : regex :=
  alts [ilit "PPA"; ilit "CCS"; lit "수소"; seqs [lit "전력"; spaces; lit "구매"];
        seqs [lit "자가"; spaces; lit "발전"]; lit "태양광"; lit "로드맵"; seqs [lit "전환"; spaces; lit "계획"];
        seqs [lit "단계적"; spaces; lit "도입"]].

(** [application/tagging/q1_contract.py:57-60 GENERIC_RESULT] *)
Definition GENERIC_RESULT : regex :=
  alts [seqs [lit "제품"; spaces; lit "포트폴리오"; spaces; lit "확대"];
        seqs [Alt (lit "다양한") (seqs [lit "환경"; spaces; lit "가치를"; spaces; lit "반영한"]); any_chars;
              lit "활동"; any_chars; lit "추진"];
        seqs [lit "에너지"; spaces; lit "절감"; spaces; lit "기술과"; spaces; lit "친환경"; spaces; lit "설계"];
        seqs [Alt (lit "개선과제") (lit "이행"); any_chars; lit "실행"; any_chars; lit "촉진"]].

(** [application/tagging/q1_contract.py:61 SPECIFIC_RESULT] *)
Definition SPECIFIC_RESULT : regex :=
  alts [seqs [year; spaces; lit "년"];
        seqs [plus digit; spaces; alts [lit "회"; lit "건"; lit "개"; lit "톤"; lit "%"]];
        lit "문헌조사"; lit "현장실사"; seqs [lit "추진반"; any_chars; lit "구성"]].

(** [application/tagging/q1_contract.py:62 VAGUE_BOUNDARY] *)
Definition VAGUE_BOUNDARY : regex :=
  seqs [Text_start; Alt (lit "유관") (lit "관련"); spaces; lit "부서";
        alts [lit "의"; lit "에서"; lit "를"; lit "에"; space; Text_end]].

(** [application/tagging/q1_contract.py:63 OBSERVED_YEAR] *)
Definition OBSERVED_YEAR : regex :=
  seqs [year; lit "년"; alts [lit "에는"; lit "에"; lit "도에는"; lit "도에"]].

(** [application/tagging/q1_contract.py:64 FUTURE] *)
Definition FUTURE : regex :=
  alts [seqs [year; spaces; lit "년"; spaces; lit "까지"]; lit "향후"; lit "미래"; lit "전망"; lit "예측"; lit "시나리오"].

(** [application/tagging/q1_contract.py:65-68 FORECAST] *)
Definition FORECAST : regex :=
  let finance := alts [lit "매출"; lit "재무"; lit "비용"] in
  alts [seqs [lit "예상"; spaces; finance];
        seqs [Alt (lit "재무") (lit "경제적"); spaces; lit "영향"; any_chars; Alt (lit "예상") (lit "전망")];
        seqs [alts [lit "전망"; lit "예측"; lit "시나리오"]; any_chars; finance]].

(** [application/tagging/q1_contract.py:101-105 R12_OBSERVED_PERIOD] *)
Definition OBSERVED_PERIOD : regex :=
  let ascii := Chr is_digit in
  seqs [Group "year" (seqs [Alt (lit "19") (lit "20"); ascii; ascii]); spaces; lit "년";
        Alt (lit "도")
            (seqs [spaces; Group "month" (between 1 2 ascii); spaces; lit "월";
                   opt (seqs [spaces; Group "day" (between 1 2 ascii); spaces; lit "일"]);
                   opt (seqs [spaces; lit "기준"])])].

(** [application/tagging/q1_contract.py:122-126 QA2_FUTURE_IMPLEMENTATION] *)
Definition FUTURE_IMPLEMENTATION : regex :=
  Alt (seqs [alts [lit "할"; lit "받을"; lit "얻을"; lit "갖출"]; spaces; alts [lit "예정"; lit "방침"; lit "계획"]])
      (seqs [alts (lit <$> ["실시"; "시행"; "운영"; "수행"; "진행"; "취득"; "획득"; "인증"; "검증"; "심사"; "교육";
                            "훈련"; "수료"; "개최"; "도입"]);
             spaces; Alt (lit "예정") (lit "계획"); alts [lit "입니다"; lit "이다"; lit "임"; space; Text_end]]).

(** [' '.join(s.split())] *)
Definition unspaced (s : pystr) : pystr := str_join " " (words_from [] s).

(** [replace(element, state="unknown", normalized_value=None, credited_from=None, reason_code=...)]
    [application/tagging/q1_contract.py:166-172 guard] *)
Definition held (e : LlmElement) (reason : pystr) : LlmElement :=
  {| element_id := element_id e; state := Unknown; evidence_refs := evidence_refs e;
     normalized_value := None; credited_from := None; reason_code := Some reason |}.

(** [re.split(r"[。!?;\n]|(?<=\.)\s", claim_quote)]
    [application/tagging/q1_contract.py:192-200 _future_support] *)
Definition future_support (q claim_quote : pystr) : bool :=
  let cut := Alt (one_of (app "。!?;" [10%N])) (Seq (Behind true (λ c, (c =? 46)%N)) space) in
  let contexts := List.filter (contains q) (unspaced <$> split_at word cut claim_quote) in
  found word FUTURE_IMPLEMENTATION q
  || (nonempty_list contexts && forallb (found word FUTURE_IMPLEMENTATION) contexts).

Definition quotes_of (e : LlmElement) : list pystr := (λ r, unspaced (quote r)) <$> evidence_refs e.

(** [quotes and all(...)] *)
Definition every (p : pystr → bool) (l : list pystr) : bool := nonempty_list l && forallb p l.

(** [application/tagging/q1_contract.py:176-189 future_implementation_guard] *)
Definition future_implementation_guard (e : LlmElement) (claim_quote : pystr) : LlmElement :=
  if negb (bool_decide (state e = Present)) || negb (str_in (element_id e) ["M3"; "M4"]) then e
  else if every (λ q, future_support q claim_quote) (quotes_of e)
  then held e "QA2_FUTURE_IMPLEMENTATION_REQUIRES_REVIEW" else e.

(** [application/tagging/q1_contract.py:149-165 guard] *)
Definition veto_reason (e : LlmElement) : option pystr :=
  let id := element_id e in
  let quotes := quotes_of e in
  if (id =s? "G6") && every (λ q, found word GENERIC_PLAN q && negb (found word NAMED_PLAN q)) quotes
  then Some "Q1_G6_NAMED_PLAN_REQUIRED"
  else if (id =s? "M4") && every (λ q, found word GENERIC_RESULT q && negb (found word SPECIFIC_RESULT q)) quotes
  then Some "Q1_M4_CONCRETE_RESULT_REQUIRED"
  else if (id =s? "M2") && every (found word VAGUE_BOUNDARY) quotes then Some "Q1_M2_BOUNDARY_UNSPECIFIED"
  else None.

(** [application/tagging/q1_contract.py:144-173 guard] *)
Definition guard (e : LlmElement) (policy : option Q1Policy) (claim_quote : pystr) : result LlmElement :=
  _ ← validate_policy policy;
  let e := if bool_decide (policy = Some Q1_QA2) then future_implementation_guard e claim_quote else e in
  Ok (if negb (bool_decide (state e = Present)) then e
      else match veto_reason e with Some reason => held e reason | None => e end).

(** [application/tagging/q1_contract.py:203-205 forecast_quote] *)
Definition forecast_quote (q : pystr) : bool :=
  let text := unspaced q in found word FUTURE text && found word FORECAST text.

(** [date(year, month, day)] of the groups of the pattern, ASCII digits all.
    [application/tagging/q1_contract.py:238-242 observed_period] *)
Definition calendar_date (m : cursor) : bool :=
  let number name := match group m name with Some s => Z.of_N (digits_value s) | None => 1 end in
  let y := number "year" in
  (1 <=? number "month") && (number "month" <=? 12)
  && (1 <=? number "day") && (number "day" <=? days_in_month y (number "month")).

(** [application/tagging/q1_contract.py:226-243 observed_period] *)
Definition observed_period (value : pystr) (policy : option Q1Policy) : result bool :=
  _ ← validate_policy policy;
  Ok (bool_decide (is_Some (fullmatch word OBSERVED_YEAR (strip value)))
      || (is_quality policy
          && match fullmatch word OBSERVED_PERIOD (strip value) with
             | Some m => calendar_date m
             | None => false
             end)).
End local.
