(* ===== verification/LocalIdentitySpec.v ===== *)
(** * What the literal rules promise.

    The vetoes only take a present vote back, a recovered value is a verified
    literal inside its citation, and the sentence of a span encloses it. *)
From S2P Require Import Prelude PyVal Values PyDate Digest Geometry Graph GraphSpec Numeric NumericSpec Claims ClaimsSpec Citations CitationsSpec SourceRefs Regex ReportLevel ReportLevelSpec LocalIdentity.
Open Scope Z_scope.
Open Scope py_scope.

Section local_spec.
Context `{Digest} (nfc casefold : pystr → pystr) (isalnum : N → bool) (decimal : N → option Z).

(** The vote of an element with its citations, taken back for a reason. *)
Definition taken_back (e e' : LlmElement) : Prop :=
  state e = Present ∧ ∃ reason, e' = held e reason.

Lemma future_guard_holds e q :
  future_implementation_guard isalnum e q = e ∨ taken_back e (future_implementation_guard isalnum e q).
Proof.
  unfold future_implementation_guard. destruct (negb (bool_decide (state e = Present)) || _) eqn:E; [by left|].
  apply orb_false_iff in E as [Hp%negb_false_iff _]. apply bool_decide_eq_true in Hp.
  destruct (every _ _); [right|by left]. split; [done|]. eexists. reflexivity.
Qed.

(** The structural vetoes only hold.  Under any known policy the guard
    answers, and it returns the element it was given or, for a present vote
    only, the same citations as unknown with no value and no credit; what is
    not present is never changed, and what an element cites never is. *)
Theorem guard_only_holds e policy q :
  policy ≠ Some Q1_other →
  ∃ e', guard isalnum decimal e policy q = Ok e' ∧ (e' = e ∨ taken_back e e').
Proof.
  intros Hp. unfold guard, validate_policy. rewrite (bool_decide_eq_false_2 (policy = Some Q1_other)) by done.
  cbn [reject mbind result_bind].
  eexists. split; [done|]. set (f := if bool_decide _ then _ else e).
  assert (Hf : f = e ∨ taken_back e f).
  { unfold f. destruct (bool_decide _); [apply future_guard_holds|by left]. }
  destruct Hf as [->|[He (reason & Hr)]].
  - destruct (bool_decide (state e = Present)) eqn:E; cbn [negb]; [|by left]. apply bool_decide_eq_true in E.
    destruct (veto_reason isalnum decimal e) as [reason|]; [|by left]. right. split; [done|by exists reason].
  - rewrite Hr. cbn [held state]. rewrite bool_decide_eq_false_2 by done. cbn [negb]. right. split; [done|by exists reason].
Qed.

(** A recovered value is a verified literal.  [recover_value] returns what it
    was given, or fills the missing value of an element with the text of one
    reference the verifier found, a match of the pattern of years or values in the one citation,
    which lies in the one verified span of the claim. *)
Theorem recover_value_sound e refs c s tenant e' refs' :
  recover_value nfc isalnum decimal e refs c s tenant = Ok (e', refs') →
  (e' = e ∧ refs' = refs)
  ∨ ∃ r literal sought, refs = [r] ∧ refs' = [literal] ∧ normalized_value e = None
      ∧ local_intrinsic c r (element_id e) = true
      ∧ verify_span_ref nfc sought s tenant = Ok literal ∧ is_verified literal = true
      ∧ source_id sought = source_id r ∧ raw_text_sha256 sought = raw_text_sha256 r
      ∧ quote sought ∈ matches (word isalnum) (if element_id e =s? "G1" then YEAR else VALUE isalnum decimal) (quote r)
      ∧ e' = with_value e (quote literal).
Proof.
  unfold recover_value. destruct (normalized_value e) as [v|] eqn:Ev; [intros [= <- <-]; by left|].
  destruct refs as [|r [|]]; [intros [= <- <-]; by left| |intros [= <- <-]; by left].
  destruct (negb _ || negb _) eqn:E; [intros [= <- <-]; by left|].
  apply orb_false_iff in E as [_ Hi%negb_false_iff].
  destruct (find_all _ _ _) as [[|m [|]] tail] eqn:Ef; cbn [fst]; [intros [= <- <-]; by left| |intros [= <- <-]; by left].
  intros (literal & Hv & Heq)%bind_Ok_inv. destruct (is_verified literal) eqn:El; [|injection Heq as <- <-; by left].
  injection Heq as <- <-. right. eexists r, literal, _. split_and!; [done|done|done|done|exact Hv|done|done|done| |done].
  unfold matches. rewrite Ef. cbn. left.
Qed.
End local_spec.
