(* ===== verification/Binding.v ===== *)
(** * Binding a reference to a claim.

    [application/evidence/binding.py]: [accept_binding] decides whether a
    source reference is evidence for an element of a claim: the sources are
    verified, the roles agree, the coordinates and the scopes of the element
    allow it.  Everything uncertain is [undetermined].  With
    [local_relation_tags] and [relation_tags_for], the roles a claim gives its
    own spans and how a reference finds them.

    A computation that may report reasons carries them as a list; the list of
    the caller gets each reason once, under the quality policies only. *)
From S2P Require Import Prelude PyVal JsonCodec Values Digest RulePack Rules Geometry Graph Numeric Claims Citations SourceRefs Retrieval Regex ReportLevel LocalIdentity.
Open Scope Z_scope.
Open Scope py_scope.

(** [application/evidence/binding.py:25 BindingState] *)
Inductive BindingState : Set := accepted | undetermined | rejected.

#[export] Instance binding_state_eq_dec : EqDecision BindingState.
Proof. solve_decision. Defined.

(** The keyword options of [accept_binding].
    [application/evidence/binding.py:143-147 accept_binding] *)
Record BindingOptions : Set := {
  bo_local_value_identity : bool;
  bo_local_policy : option K9Policy;
  bo_structural_policy : option Q1Policy;
  bo_edge_whitespace : bool }.

Definition plain_options : BindingOptions :=
  {| bo_local_value_identity := false; bo_local_policy := None; bo_structural_policy := None;
     bo_edge_whitespace := false |}.

(** A value and the reasons reported on the way. *)
Abbreviation told A := (result (A * list pystr)).

(* ------------------------------------------------------------------ *)
(** ** The roles of a reference *)
(* ------------------------------------------------------------------ *)

(** [f"{source_id}:{start}:{end}"] *)
Definition span_key (id : pystr) (start end_ : Z) : pystr := id ++ ":" ++ Z_dec start ++ ":" ++ Z_dec end_.

(** [application/evidence/binding.py:85-94 local_relation_tags] *)
Definition local_roles (c : ClaimContext) (s : SourceRef) : roles :=
  (λ kv : pystr * option SourceRef,
     (kv.1, match kv.2 with Some r => if span_inside r s then Some r else None | None => None end))
  <$> cc_dimensions c.

(** [application/evidence/binding.py:83-95 local_relation_tags] *)
Definition local_relation_tags (c : ClaimContext) : list (pystr * roles) :=
  dict_of ((λ s, (span_key (source_id s) (char_start s) (char_end s), local_roles c s))
             <$> cl_source_refs (cc_claim c)).

(** [int(s)] of the digits [str] prints: the key is compared with the printed
    bounds, so no other text of a number is accepted, and longer texts than
    the interpreter converts are refused. *)
Definition printed_nat (s : pystr) : option Z :=
  let n := Z.of_N (digits_value s) in
  if all_digits s && (Z_dec n =s? s) && (py_len s <=? 4300) then Some n else None.

(** The bounds of a scoped key; [None] for a malformed one.
    [application/evidence/binding.py:113-119 relation_tags_for] *)
Definition scoped_key (key : pystr) : option (pystr * Z * Z) :=
  match split_char 58 key with
  | [id; first; last] =>
      start ← printed_nat first; stop ← printed_nat last;
      if (start <? 0) || (stop <=? start) then None else Some (id, start, stop)
  | _ => None
  end.

(** A role within the bounds of the key and the source of the reference.
    [application/evidence/binding.py:121-128 relation_tags_for] *)
Definition role_within (r : SourceRef) (start stop : Z) (kv : pystr * option SourceRef) : bool :=
  match kv.2 with
  | None => true
  | Some x => (source_id x =s? source_id r)
              && ((start <=? char_start x) && (char_start x <? char_end x) && (char_end x <=? stop))
  end.

(** The roles of the scoped keys that contain the reference; [None] when a
    key or a role of one is out of order.
    [application/evidence/binding.py:111-130 relation_tags_for] *)
Fixpoint matching_roles (r : SourceRef) (scoped : list (pystr * roles)) : option (list roles) :=
  match scoped with
  | [] => Some []
  | (key, l) :: scoped =>
      '(_, start, stop) ← scoped_key key;
      if (start <=? char_start r) && (char_start r <? char_end r) && (char_end r <=? stop) then
        if forallb (role_within r start stop) l
        then rest ← matching_roles r scoped; Some (l :: rest) else None
      else matching_roles r scoped
  end.

(** [application/evidence/binding.py:98-131 relation_tags_for] *)
Definition relation_tags_for (r : SourceRef) (relations : list (pystr * roles)) : option roles :=
  let scoped := List.filter (λ kv, starts_with (source_id r ++ ":") kv.1) relations in
  match scoped with
  | [] => Some (default [] (dict_get (source_id r) relations))
  | _ => match matching_roles r scoped with Some [l] => Some l | _ => None end
  end.

Section binding.
Context `{Digest} (nfc casefold : pystr → pystr) (isalnum : N → bool) (decimal : N → option Z).
Notation word := (word isalnum).
Notation digit := (digit decimal).

(* ------------------------------------------------------------------ *)
(** ** Axes named in a text *)
(* ------------------------------------------------------------------ *)

(** [application/evidence/binding.py:33-39 _AXIS_CUES] *)
Definition BOUNDARY_CUE : regex :=
  let before l := Ahead true (Alt (Seq spaces (alts l)) (Seq spaces Text_end)) in
  Alt (Seq (Behind false hangul)
         (Alt (Seq (lit "연결")
                 (before [lit "기준"; lit "범위"; lit "실체"; lit "재무"; lit "환경"; lit "배출"; lit "대상"]))
              (Seq (lit "별도")
                 (before [lit "기준"; lit "범위"; lit "재무"; lit "환경"; lit "배출"; lit "대상"]))))
      (seqs [Word_edge; alts [ilit "consolidated"; ilit "standalone"; ilit "separate"];
             Ahead true (Alt (Seq (plus space) (alts [ilit "basis"; ilit "boundary"; ilit "financial"; ilit "emissions"]))
                             Text_end)]).

(** [application/evidence/binding.py:40-43 _AXIS_CUES] *)
Definition SCOPE_CUE : regex :=
  let number := one_of "123" in
  let joint := alts [lit "&"; lit ","; lit "/"; lit "및"; ilit "and"; one_of "-–+·"] in
  seqs [Word_edge; ilit "scope"; opt (char_like 115); spaces; number;
        star (seqs [spaces; joint; spaces; opt (seqs [ilit "scope"; spaces]); number]);
        Ahead false digit].

Definition AXIS_CUES : list (pystr * regex) := [("boundary", BOUNDARY_CUE); ("scope", SCOPE_CUE)].

(** The cues of an axis in a text, a set.
    [application/evidence/binding.py:47-51 _axis_cues] *)
Definition axis_cues (text : pystr) (cue : regex) : list pystr :=
  (λ q, concat (words_from [] (casefold q))) <$> matches word cue (nfc text).

(** [application/evidence/binding.py:394-396 accept_binding] *)
Definition cues_sourced (text : pystr) (l : roles) (axis : pystr * regex) : bool :=
  let role_cues := axis_cues (match role axis.1 l with Some r => quote r | None => "" end) axis.2 in
  forallb (λ c, str_in c role_cues) (axis_cues text axis.2).

(* ------------------------------------------------------------------ *)
(** ** One source *)
(* ------------------------------------------------------------------ *)

Context (original : Snapshot) (tenant : pystr).
Notation g := (sn_graph original).

(** [application/evidence/binding.py:202-224 accept_binding.checked] *)
Definition checked (s : SourceRef) : told BindingState :=
  match (if (document_version_id s =s? gr_document_version_id g)
            && (parse_manifest_id s =s? gr_parse_manifest_id g) then block_by_id g (source_id s) else None) with
  | None => Ok (rejected, ["source_identity_rejected" : pystr])
  | Some block =>
      match kb_winner block with
      | None => Ok (undetermined, ["source_unresolved" : pystr])
      | Some _ =>
          answer ← verify_span_ref nfc s original tenant;
          Ok (if is_verified answer then (accepted, [])
              else if negb (kb_quality block =s? "verified") then (undetermined, ["source_unverified" : pystr])
              else (rejected, ["source_literal_rejected" : pystr]))
      end
  end.

(** The checks of sources in order, up to one that is rejected.
    [application/evidence/binding.py:231-235 accept_binding] *)
Fixpoint check_sources (unresolved : bool) (l : list SourceRef) : told (option bool) :=
  match l with
  | [] => Ok (Some unresolved, [])
  | s :: l =>
      c ← checked s;
      match c.1 with
      | rejected => Ok (None, c.2)
      | _ =>
          rest ← check_sources (unresolved || bool_decide (c.1 = undetermined)) l;
          Ok (rest.1, c.2 ++ rest.2)
      end
  end.

(** [blocks[source_id].candidates[blocks[source_id].winner]]
    [application/evidence/binding.py:285-287 accept_binding.selected] *)
Definition selected_candidate (s : SourceRef) : result CandidateBlock :=
  block ← of_option KeyError (block_by_id g (source_id s));
  w ← of_option TypeError (kb_winner block);
  of_option IndexError (winner_of block w).

(** [application/evidence/binding.py:294-303 accept_binding.whitespace_encloses] *)
Definition whitespace_encloses (outer inner : SourceRef) : bool :=
  let q := quote outer in
  (source_id outer =s? source_id inner) && (strip q =s? quote inner)
  && (char_start outer + (py_len q - py_len (lstrip q)) =? char_start inner)
  && (char_end outer - (py_len q - py_len (rstrip q)) =? char_end inner).

(** [application/evidence/binding.py:305-311 accept_binding.same_table] *)
Definition same_table (l r : SourceRef) : result bool :=
  a ← selected_candidate l;
  b ← selected_candidate r;
  Ok (match cb_table_native_id a with
      | None => false
      | Some t =>
          nonempty t && (ns_parser_run_id (cb_source a) =s? ns_parser_run_id (cb_source b))
          && (physical_page (cb_source a) =? physical_page (cb_source b))
          && bool_decide (cb_table_native_id b = Some t)
      end).

(** [type(value) is not int or value < low] for the coordinates of a cell. *)
Definition at_least (low : Z) (o : option Z) : option Z := z ← o; if z <? low then None else Some z.
Definition span_of (o : option Z) : option Z := at_least 1 (Some (default 1 o)).

(** The rows and columns of a cell: first and number of each. *)
Definition cell_place (c : CandidateBlock) : option ((Z * Z) * (Z * Z)) :=
  r ← at_least 0 (cb_row c); k ← at_least 0 (cb_column c);
  rs ← span_of (cb_row_span c); ks ← span_of (cb_column_span c);
  Some ((r, rs), (k, ks)).

(** [application/evidence/binding.py:333-336 accept_binding.attributed] *)
Definition covers_band (a b : Z * Z) : bool := (a.1 <=? b.1) && (b.1 + b.2 <=? a.1 + a.2).

(** [application/evidence/binding.py:313-352 accept_binding.attributed] *)
Definition attributed (anchor target : SourceRef) (atomic : bool) (dimension : pystr) : result BindingState :=
  if source_id anchor =s? source_id target
  then Ok (if negb atomic || span_inside anchor target then accepted else rejected)
  else
    same ← same_table anchor target;
    if negb same then Ok rejected
    else
      a ← selected_candidate anchor;
      b ← selected_candidate target;
      Ok (match cell_place a, cell_place b with
          | Some (ar, ac), Some (br, bc) =>
              let columns := covers_band ac bc in
              if (dimension =s? "reporting_period") && negb columns then rejected
              else if covers_band ar br then accepted
              else if columns && (ar.1 + ar.2 <=? br.1)
                      && existsb (λ e, (ed_source e =s? source_id target) && (ed_target e =s? source_id anchor)
                                       && is_edge "table_parent" e) (gr_edges g)
              then accepted else rejected
          | _, _ => undetermined
          end).

(* ------------------------------------------------------------------ *)
(** ** One binding *)
(* ------------------------------------------------------------------ *)

Context (c : ClaimContext) (ref : SourceRef) (options : BindingOptions) (element_id : pystr).
Notation claim := (cc_claim c).
Notation refs := (cl_source_refs (cc_claim c)).

Definition CORE_DIMENSIONS : list pystr := ["entity"; "metric"; "reporting_period"].

(** [name in roles and roles[name] is None] *)
Definition named_null (name : pystr) (l : roles) : bool :=
  match dict_get name l with Some None => true | _ => false end.

(** The states of one role against its targets.
    [application/evidence/binding.py:423-431 accept_binding] *)
Definition role_standing (name : pystr) (intrinsic in_claim : bool) (value : SourceRef)
    : told (option bool) :=
  let targets := if in_claim || intrinsic then refs else [ref] in
  states ← map_result (λ t, attributed value t in_claim name) targets;
  if forallb (λ s, bool_decide (s = rejected)) states
  then Ok (None, ["role_attribution_rejected:" ++ name])
  else Ok (Some (negb (existsb (λ s, bool_decide (s = accepted)) states)), []).

(** Whether the period of a role stays unresolved.
    [application/evidence/binding.py:432-442 accept_binding] *)
Definition period_standing (name : pystr) (direct intrinsic : bool) (value : SourceRef)
    : told bool :=
  if (name =s? "reporting_period") && negb (is_supported_period (Some (quote value))) then
    observed ← (if bool_decide (is_Some (bo_structural_policy options)) && direct && intrinsic
                then observed_period isalnum decimal (quote value) (bo_structural_policy options) else Ok false);
    Ok (if observed : bool then (false, []) else (true, ["period_syntax_unsupported" : pystr]))
  else Ok (false, []).

(** The roles of one dimension: [None] rejects, else whether it is unresolved.
    [application/evidence/binding.py:420-442 accept_binding] *)
Fixpoint roles_standing (name : pystr) (direct intrinsic unresolved : bool) (l : list (SourceRef * bool))
    : told (option bool) :=
  match l with
  | [] => Ok (Some unresolved, [])
  | (value, in_claim) :: l =>
      st ← role_standing name intrinsic in_claim value;
      match st.1 with
      | None => Ok (None, st.2)
      | Some u =>
          p ← period_standing name direct intrinsic value;
          rest ← roles_standing name direct intrinsic (unresolved || u || p.1) l;
          Ok (rest.1, st.2 ++ p.2 ++ rest.2)
      end
  end.

(** Whether a missing role of a dimension leaves the binding unresolved.
    [application/evidence/binding.py:404-411 accept_binding] *)
Definition role_missing (name : pystr) (evidence : roles) (direct intrinsic : bool) : bool :=
  let axis_unknown :=
    negb (str_in name CORE_DIMENSIONS)
    && (named_null name (cc_dimensions c) || named_null name evidence) in
  (negb (bool_decide (is_Some (role name (cc_dimensions c)))) || negb (bool_decide (is_Some (role name evidence))))
  && (negb direct || (axis_unknown && negb intrinsic)).

(** [normalize("NFC", quote).strip()] *)
Definition plain_quote (r : SourceRef) : pystr := strip (nfc (quote r)).

(** The roles of the claim and of the evidence under one name.
    [application/evidence/binding.py:403 accept_binding] *)
Definition sides (name : pystr) (evidence : roles) (direct : bool) : list (SourceRef * bool) :=
  (match role name (cc_dimensions c) with Some r => [(r, true)] | None => [] end)
  ++ (match role name evidence with Some r => [(r, direct)] | None => [] end).

(** One dimension: [None] rejects, else whether anything is unresolved.
    [application/evidence/binding.py:403-449 accept_binding] *)
Definition dimension_standing (evidence : roles) (direct intrinsic unresolved : bool) (name : pystr)
    : told (option bool) :=
  if role_missing name evidence direct intrinsic then Ok (Some true, ["dimension_unresolved:" ++ name])
  else
    let values := sides name evidence direct in
    states ← map_result (λ v : SourceRef * bool, checked v.1) values;
    let reasons := concat (snd <$> states) in
    if existsb (λ s : BindingState * list pystr, bool_decide (s.1 = rejected)) states then Ok (None, reasons)
    else if existsb (λ s : BindingState * list pystr, bool_decide (s.1 = undetermined)) states then Ok (Some true, reasons)
    else
      st ← roles_standing name direct intrinsic unresolved values;
      let reasons := reasons ++ st.2 in
      match st.1 with
      | None => Ok (None, reasons)
      | Some unresolved =>
          match role name (cc_dimensions c), role name evidence with
          | Some expected, Some actual =>
              if plain_quote expected =s? plain_quote actual then Ok (Some unresolved, reasons)
              else Ok (None, reasons ++ ["dimension_mismatch:" ++ name])
          | _, _ => Ok (Some unresolved, reasons)
          end
      end.

(** [application/evidence/binding.py:402-449 accept_binding] *)
Fixpoint dimensions_standing (evidence : roles) (direct intrinsic unresolved : bool) (names : list pystr)
    : told (option bool) :=
  match names with
  | [] => Ok (Some unresolved, [])
  | name :: names =>
      st ← dimension_standing evidence direct intrinsic unresolved name;
      match st.1 with
      | None => Ok (None, st.2)
      | Some unresolved =>
          rest ← dimensions_standing evidence direct intrinsic unresolved names;
          Ok (rest.1, st.2 ++ rest.2)
      end
  end.

(** [sorted(set(context.dimensions) | set(evidence) | {...})]
    [application/evidence/binding.py:397-402 accept_binding] *)
Definition dimension_names (evidence : roles) : list pystr :=
  str_set_sorted (dict_keys (cc_dimensions c) ++ dict_keys evidence ++ CORE_DIMENSIONS).

(** The state the scopes of the element give a reference outside the claim.
    [application/evidence/binding.py:454-470 accept_binding] *)
Definition scope_standing (scopes : pyval) : result BindingState :=
  tables ← map_result (λ s, b ← same_table s ref; Ok (s, b)) refs;
  let tables := fst <$> List.filter snd tables in
  in_table ← (if nonempty_list tables then str_in_val "same_table" scopes else Ok false);
  if in_table : bool then
    candidate ← selected_candidate ref;
    match at_least 0 (cb_row candidate), at_least 0 (cb_column candidate) with
    | Some _, Some column =>
        same ← any_result (λ s, x ← selected_candidate s; Ok (bool_decide (cb_column x = Some column))) tables;
        Ok (if same : bool then accepted else rejected)
    | _, _ => Ok undetermined
    end
  else
    global ← str_in_val "global_bound" scopes;
    if global : bool then Ok accepted
    else
      linked ← str_in_val "explicit_link" scopes;
      Ok (if linked && negb (element_id =s? "G3") then undetermined else rejected).

(** The claim's own dimensions on the route of a scope definition.
    [application/evidence/binding.py:259-280 accept_binding] *)
Fixpoint definition_standing (evidence : roles) (l : roles) : told BindingState :=
  match l with
  | [] => Ok (accepted, [])
  | (_, None) :: l => definition_standing evidence l
  | (name, Some value) :: l =>
      st ← checked value;
      if negb (bool_decide (st.1 = accepted)) then Ok st
      else if (name =s? "scope")
              && negb (set_eqb (axis_cues (quote value) SCOPE_CUE) (axis_cues (quote ref) SCOPE_CUE))
      then Ok (rejected, st.2)
      else if negb (name =s? "scope") && negb (existsb (span_inside value) refs) then Ok (rejected, st.2)
      else
        match role name evidence with
        | None => rest ← definition_standing evidence l; Ok (rest.1, st.2 ++ rest.2)
        | Some actual =>
            other ← checked actual;
            if negb (bool_decide (other.1 = accepted)) || negb (quote actual =s? quote value)
            then Ok (rejected, st.2 ++ other.2)
            else rest ← definition_standing evidence l; Ok (rest.1, st.2 ++ other.2 ++ rest.2)
        end
  end.

(** [application/evidence/binding.py:236-258 accept_binding] *)
Definition on_definition_route (unresolved : bool) : result bool :=
  match bo_local_policy options with
  | None => Ok false
  | Some policy =>
      _ ← require (k9_known policy) DomainValidationError;
      if negb unresolved && (element_id =s? "G4") then scope_definition_identity nfc isalnum c ref g policy
      else Ok false
  end.

(** [application/evidence/binding.py:355-358 accept_binding] *)
Definition is_local : bool :=
  existsb (λ s, span_inside ref s || (bo_edge_whitespace options && whitespace_encloses ref s)) refs.

(** [application/evidence/binding.py:360-382 accept_binding] *)
Definition is_intrinsic (direct : bool) : result bool :=
  by_policy ← (match bo_local_policy options with
               | Some policy =>
                   if direct && str_in element_id K9_ELEMENTS
                   then local_implementation_identity isalnum decimal c ref g policy element_id else Ok false
               | None => Ok false
               end);
  Ok (by_policy || (bo_local_value_identity options && direct && local_intrinsic claim ref element_id)).

(** The axes named around the reference without a sourced role.
    [application/evidence/binding.py:386-396 accept_binding] *)
Definition axes_unsourced (evidence : roles) : result bool :=
  block ← of_option KeyError (block_by_id g (source_id ref));
  whole ← block_source_ref nfc block None None;
  Ok (negb (forallb (cues_sourced (cl_quote claim) (cc_dimensions c)) AXIS_CUES
            && forallb (cues_sourced (quote whole) evidence) AXIS_CUES)).

(** [application/evidence/binding.py:354-470 accept_binding] *)
Definition typed_standing (definition : pyval) (evidence : roles) : told BindingState :=
  scopes ← getitem "source_scopes" definition;
  local_scope ← (if is_local then str_in_val "local_claim" scopes else Ok false);
  let direct : bool := local_scope in
  intrinsic ← is_intrinsic direct;
  unsourced ← (if direct then Ok false else axes_unsourced evidence);
  st ← dimensions_standing evidence direct intrinsic unsourced (dimension_names evidence);
  match st.1 with
  | None => Ok (rejected, st.2)
  | Some true => Ok (undetermined, st.2)
  | Some false => if direct then Ok (accepted, st.2) else s ← scope_standing scopes; Ok (s, st.2)
  end.

(** [application/evidence/binding.py:196-200 accept_binding] *)
Definition lineage_valid : bool :=
  str_distinct (kb_source_id <$> gr_blocks g)
  && forallb (λ e, bool_decide (is_Some (block_by_id g (ed_source e)))
                   && bool_decide (is_Some (block_by_id g (ed_target e)))) (gr_edges g).

(** The quote, the sources and the routes past them.
    [application/evidence/binding.py:226-283 accept_binding] *)
Definition sourced_standing (definition : pyval) (tags : option roles) (evidence : roles) : told BindingState :=
  quoted ← claim_quote_matches_sources nfc (cl_quote claim) refs g;
  if negb quoted then Ok (rejected, [])
  else
    st ← check_sources (negb (cl_source_quality claim =s? "verified")) (refs ++ [ref]);
    match st.1 with
    | None => Ok (rejected, st.2)
    | Some unresolved =>
        route ← on_definition_route unresolved;
        if route : bool then
          d ← definition_standing evidence (cc_dimensions c); Ok (d.1, st.2 ++ d.2)
        else if unresolved || negb (bool_decide (is_Some tags)) then
          Ok (undetermined, st.2 ++ [(if unresolved then "claim_source_unverified" else "relation_tags_unresolved") : pystr])
        else
          t ← typed_standing definition evidence; Ok (t.1, st.2 ++ t.2)
    end.

(** [application/evidence/binding.py:182-187 accept_binding] *)
Definition binding_identity (pack : RulePackSnapshot) : bool :=
  (cl_tenant_id claim =s? tenant) && (gr_tenant_id g =s? tenant) && (RulePack.tenant_id pack =s? tenant)
  && (cl_document_version_id claim =s? gr_document_version_id g)
  && (cl_parse_manifest_id claim =s? gr_parse_manifest_id g)
  && (cl_source_sha256 claim =s? gr_source_sha256 g).

(** [application/evidence/binding.py:158-200 accept_binding] *)
Definition binding_told (pack : RulePackSnapshot) (tags : option roles) : told BindingState :=
  _ ← require_uuid (PStr tenant);
  _ ← validate_policy (bo_structural_policy options);
  _ ← require_uuid (PStr (cl_claim_id claim));
  _ ← require (binding_identity pack) DomainValidationError;
  els ← element_items pack;
  definition ← element_named els element_id;
  definition ← of_option DomainValidationError definition;
  refusal ← scope_rejection_reason nfc isalnum element_id [ref] pack g None;
  match refusal with
  | Some _ => Ok (rejected, ["source_scope_rejected" : pystr])
  | None =>
      evidence ← (match tags with Some t => dimensions_of t | None => Ok [] end);
      _ ← require lineage_valid DomainValidationError;
      sourced_standing definition tags evidence
  end.

(** [diagnostics.append(reason)], once each and under the quality policies.
    [application/evidence/binding.py:171-179 accept_binding.diagnose] *)
Definition diagnosed (diagnostics : option (list pystr)) (reasons : list pystr) : option (list pystr) :=
  if is_quality (bo_structural_policy options)
  then (λ d, foldl (λ d r, if str_in r d then d else d ++ [r]) d reasons) <$> diagnostics
  else diagnostics.

(** The decision and what the caller's list holds after it.
    [application/evidence/binding.py:134-470 accept_binding] *)
Definition accept_binding (pack : RulePackSnapshot) (tags : option roles) (diagnostics : option (list pystr))
    : result (BindingState * option (list pystr)) :=
  st ← binding_told pack tags; Ok (st.1, diagnosed diagnostics st.2).
End binding.
