(* ===== verification/BindingSpec.v ===== *)
(** * What a binding promises.

    An accepted reference and the sources of its claim are verified in the
    snapshot; its roles are sourced, attributed and equal in text; the scopes
    of the element allow it.  The roles a claim gives a span come back for
    every reference inside it. *)
From S2P Require Import Prelude PyVal JsonCodec Decimal Values Digest RulePack Rules RulesSpec Geometry Graph GraphSpec Numeric NumericSpec Normalize NumericEvidence Claims ClaimsSpec Citations CitationsSpec SourceRefs Retrieval RetrievalSpec Regex ReportLevel LocalIdentity Binding.
Open Scope Z_scope.
Open Scope py_scope.

(* ------------------------------------------------------------------ *)
(** ** Accepted bindings *)
(* ------------------------------------------------------------------ *)

Section binding_spec.
Context `{Digest} (nfc casefold : pystr → pystr) (isalnum : N → bool) (decimal : N → option Z).
Context (original : Snapshot) (tenant : pystr) (c : ClaimContext) (ref : SourceRef).
Context (options : BindingOptions) (element_id : pystr).
Notation g := (sn_graph original).
Notation claim := (cc_claim c).
Notation refs := (cl_source_refs (cc_claim c)).

(** A source of the snapshot whose text the verifier found. *)
Definition sourced (s : SourceRef) : Prop :=
  document_version_id s = gr_document_version_id g ∧ parse_manifest_id s = gr_parse_manifest_id g
  ∧ (∃ b w, block_by_id g (source_id s) = Some b ∧ kb_winner b = Some w)
  ∧ ∃ r, verify_span_ref nfc s original tenant = Ok r ∧ is_verified r = true.

Lemma checked_accepted s rs : checked nfc original tenant s = Ok (accepted, rs) → sourced s ∧ rs = [].
Proof.
  unfold checked. destruct (_ && _) eqn:Eid; [|done]. apply andb_true_iff in Eid as [Hd Hm]. str_prop.
  destruct (block_by_id g (source_id s)) as [b|] eqn:Eb; [|done].
  destruct (kb_winner b) as [w|] eqn:Ew; [|done]. intros (r & Hr & Heq)%bind_Ok_inv.
  destruct (is_verified r) eqn:Ev; [|by destruct (negb _)]. injection Heq as <-.
  split; [|done]. split_and!; [done|done|by exists b, w|by exists r].
Qed.

Lemma check_sources_accepted l : ∀ u rs,
  check_sources nfc original tenant u l = Ok (Some false, rs) → u = false ∧ Forall sourced l ∧ rs = [].
Proof.
  induction l as [|s l IH]; intros u rs; cbn [check_sources]; [by intros [= -> <-]|].
  intros ([st r1] & Hc & Heq)%bind_Ok_inv. cbn [fst snd] in Heq. destruct st; [| |done].
  - apply bind_Ok_inv in Heq as ([o r2] & Hl & [= -> <-]). apply IH in Hl as (Hu & Hl & ->).
    apply checked_accepted in Hc as [Hs ->]. rewrite orb_false_r in Hu. split_and!; [done|by constructor|done].
  - apply bind_Ok_inv in Heq as ([o r2] & Hl & [= -> <-]). apply IH in Hl as (Hu & _).
    by rewrite orb_true_r in Hu.
Qed.

(** A role that counts: sourced, attributed to a target and, for a period,
    in a syntax that is read. *)
Record role_ok (name : pystr) (direct intrinsic in_claim : bool) (v : SourceRef) : Prop := {
  ro_sourced : sourced v;
  ro_target : ∃ t, t ∈ (if in_claim || intrinsic then refs else [ref])
                   ∧ attributed original v t in_claim name = Ok accepted;
  ro_period : name = "reporting_period" →
    is_supported_period (Some (quote v)) = true
    ∨ (direct = true ∧ intrinsic = true
       ∧ observed_period isalnum decimal (quote v) (bo_structural_policy options) = Ok true) }.

(** What one settled dimension means. *)
Record dimension_ok (evidence : roles) (direct intrinsic : bool) (name : pystr) : Prop := {
  di_cross : direct = false → is_Some (role name (cc_dimensions c)) ∧ is_Some (role name evidence);
  di_axis : direct = true → intrinsic = false → name ∉ CORE_DIMENSIONS →
    named_null name (cc_dimensions c) = false ∧ named_null name evidence = false;
  di_claim : ∀ v, role name (cc_dimensions c) = Some v → role_ok name direct intrinsic true v;
  di_evidence : ∀ v, role name evidence = Some v → role_ok name direct intrinsic direct v;
  di_agree : ∀ v w, role name (cc_dimensions c) = Some v → role name evidence = Some w →
    plain_quote nfc v = plain_quote nfc w }.

Lemma role_standing_settled name intrinsic in_claim v rs :
  role_standing original c ref name intrinsic in_claim v = Ok (Some false, rs) →
  (∃ t, t ∈ (if in_claim || intrinsic then refs else [ref])
        ∧ attributed original v t in_claim name = Ok accepted) ∧ rs = [].
Proof.
  unfold role_standing. intros (states & Hs & Heq)%bind_Ok_inv.
  destruct (forallb _ states); [done|]. injection Heq as Hn <-. split; [|done].
  apply negb_false_iff, existsb_exists in Hn as (s & Hin & Hacc). apply bool_decide_eq_true in Hacc as ->.
  apply map_result_Ok in Hs. apply list_elem_of_In, list_elem_of_lookup in Hin as (i & Hi).
  eapply Forall2_lookup_r in Hi as (t & Ht & Hat); [|exact Hs]. exists t. split; [by eapply list_elem_of_lookup_2|done].
Qed.

Lemma period_standing_settled name direct intrinsic v rs :
  period_standing isalnum decimal options name direct intrinsic v = Ok (false, rs) →
  (name = "reporting_period" →
    is_supported_period (Some (quote v)) = true
    ∨ (direct = true ∧ intrinsic = true
       ∧ observed_period isalnum decimal (quote v) (bo_structural_policy options) = Ok true)) ∧ rs = [].
Proof.
  unfold period_standing. destruct (name =s? "reporting_period") eqn:En; cbn [andb].
  2:{ intros [= <-]. split; [|done]. intros ->. by rewrite str_eqb_refl in En. }
  destruct (is_supported_period _); cbn [negb]; [intros [= <-]; auto|].
  intros (o & Ho & Heq)%bind_Ok_inv. destruct o; [|done]. injection Heq as <-. split; [|done]. intros _. right.
  destruct (_ && _) eqn:Eb in Ho; [|done]. apply andb_true_iff in Eb as [[_ Hd]%andb_true_iff Hi]. done.
Qed.

Lemma roles_standing_settled name direct intrinsic l : ∀ u rs,
  roles_standing isalnum decimal original c ref options name direct intrinsic u l = Ok (Some false, rs) →
  u = false ∧ rs = [] ∧
  Forall (λ v : SourceRef * bool, sourced v.1 → role_ok name direct intrinsic v.2 v.1) l.
Proof.
  induction l as [|[v i] l IH]; intros u rs; cbn [roles_standing]; [by intros [= -> <-]|].
  intros ([o r1] & Hr & Heq)%bind_Ok_inv. cbn [fst snd] in Heq. destruct o as [o|]; [|done].
  apply bind_Ok_inv in Heq as ([p r2] & Hp & Heq). cbn [fst snd] in Heq.
  apply bind_Ok_inv in Heq as ([o' r3] & Hl & [= -> <-]). apply IH in Hl as (Hu & -> & Hl).
  apply orb_false_iff in Hu as [[-> ->]%orb_false_iff ->].
  apply role_standing_settled in Hr as [Ht ->]. apply period_standing_settled in Hp as [Hp ->].
  split_and!; [done|done|]. constructor; [|done]. cbn. intros Hs. by split.
Qed.

Lemma role_missing_false name evidence direct intrinsic :
  role_missing c name evidence direct intrinsic = false →
  (direct = false → is_Some (role name (cc_dimensions c)) ∧ is_Some (role name evidence))
  ∧ (direct = true → intrinsic = false → name ∉ CORE_DIMENSIONS →
      named_null name (cc_dimensions c) = false ∧ named_null name evidence = false).
Proof.
  unfold role_missing. intros Hm. split.
  - intros ->. rewrite andb_true_r in Hm. apply orb_false_iff in Hm as [H1%negb_false_iff H2%negb_false_iff].
    by apply bool_decide_eq_true in H1, H2.
  - intros -> ->. cbn [negb orb andb] in Hm. rewrite andb_true_r in Hm. intros Hc.
    apply str_in_false in Hc. rewrite Hc in Hm. cbn [negb andb] in Hm. unfold role in Hm.
    destruct (named_null name (cc_dimensions c)) eqn:E1.
    { unfold named_null in E1. destruct (dict_get name (cc_dimensions c)) as [[?|]|]; done. }
    split; [done|]. destruct (named_null name evidence) eqn:E2; [|done].
    unfold named_null in E2. destruct (dict_get name evidence) as [[?|]|]; try done.
    cbn in Hm. by rewrite orb_true_r in Hm.
Qed.

Lemma states_accepted (states : list (BindingState * list pystr)) :
  existsb (λ s : BindingState * list pystr, bool_decide (s.1 = rejected)) states = false →
  existsb (λ s : BindingState * list pystr, bool_decide (s.1 = undetermined)) states = false →
  Forall (λ s : BindingState * list pystr, s.1 = accepted) states.
Proof.
  induction states as [|[s r] states IH]; [constructor|]. cbn [existsb].
  intros [H1 H2]%orb_false_iff [H3 H4]%orb_false_iff. constructor; [|auto]. cbn in *. by destruct s.
Qed.

Lemma all_checked (l : list (SourceRef * bool)) states :
  map_result (λ v : SourceRef * bool, checked nfc original tenant v.1) l = Ok states →
  Forall (λ s : BindingState * list pystr, s.1 = accepted) states →
  Forall (λ v : SourceRef * bool, sourced v.1) l ∧ concat (snd <$> states) = [].
Proof.
  intros Hm%map_result_Ok. induction Hm as [|v [st rs] l states Hc Hm IH]; [done|].
  intros [Hst Hall]%Forall_cons. cbn in Hst. subst st. apply checked_accepted in Hc as [Hs ->].
  destruct (IH Hall) as [IH1 IH2]. split; [by constructor|]. by rewrite fmap_cons.
Qed.

Lemma dimension_standing_settled evidence direct intrinsic u name rs :
  dimension_standing nfc isalnum decimal original tenant c ref options evidence direct intrinsic u name
    = Ok (Some false, rs) →
  u = false ∧ rs = [] ∧ dimension_ok evidence direct intrinsic name.
Proof.
  unfold dimension_standing. destruct (role_missing _ _ _ _ _) eqn:Em; [done|].
  apply role_missing_false in Em as [Hcross Haxis].
  intros (states & Hs & Heq)%bind_Ok_inv. cbv zeta in Heq.
  destruct (existsb _ states) eqn:E1 in Heq; [done|]. destruct (existsb _ states) eqn:E2 in Heq; [done|].
  destruct (all_checked _ _ Hs (states_accepted _ E1 E2)) as [Hall Hnil]. rewrite Hnil in Heq.
  apply bind_Ok_inv in Heq as ([o r] & Hr & Heq). cbn [fst snd app] in Heq. destruct o as [o|]; [|done].
  assert (Hok : o = false ∧ rs = r ∧ ∀ v w, role name (cc_dimensions c) = Some v → role name evidence = Some w →
            plain_quote nfc v = plain_quote nfc w).
  { destruct (role name (cc_dimensions c)), (role name evidence); try (injection Heq as -> ->; done).
    destruct (_ =s? _) eqn:Eq in Heq; [|done]. injection Heq as -> ->. str_prop. split_and!; [done|done|].
    by intros v w [= <-] [= <-]. }
  destruct Hok as (-> & -> & Hagree). apply roles_standing_settled in Hr as (-> & -> & Hroles).
  split_and!; [done|done|]. unfold sides in Hall, Hroles.
  apply Forall_app in Hall as [Ha1 Ha2]. apply Forall_app in Hroles as [Hr1 Hr2]. split; [done|done| | |done].
  - intros v Ev. rewrite Ev in Ha1, Hr1. apply Forall_cons in Ha1 as [Ha1 _]. apply Forall_cons in Hr1 as [Hr1 _]. by apply Hr1.
  - intros v Ev. rewrite Ev in Ha2, Hr2. apply Forall_cons in Ha2 as [Ha2 _]. apply Forall_cons in Hr2 as [Hr2 _]. by apply Hr2.
Qed.

Lemma dimensions_standing_settled evidence direct intrinsic names : ∀ u rs,
  dimensions_standing nfc isalnum decimal original tenant c ref options evidence direct intrinsic u names
    = Ok (Some false, rs) →
  u = false ∧ rs = [] ∧ Forall (dimension_ok evidence direct intrinsic) names.
Proof.
  induction names as [|name names IH]; intros u rs; cbn [dimensions_standing]; [by intros [= -> <-]|].
  intros ([o r1] & Hd & Heq)%bind_Ok_inv. cbn [fst snd] in Heq. destruct o as [o|]; [|done].
  apply bind_Ok_inv in Heq as ([o' r2] & Hn & [= -> <-]). apply IH in Hn as (-> & -> & Hn).
  apply dimension_standing_settled in Hd as (-> & -> & Hd). split_and!; [done|done|by constructor].
Qed.

(* ------------------------------------------------------------------ *)
(** ** The routes to an acceptance *)
(* ------------------------------------------------------------------ *)

(** A role of the claim on that route: the scope names what the reference
    names, any other role lies in a span of the claim, and what the evidence
    says under the same name is the same text. *)
Definition defined_role (evidence : roles) (name : pystr) (v : SourceRef) : Prop :=
  sourced v
  ∧ (name = "scope" → ∀ q, q ∈ axis_cues nfc casefold isalnum (quote v) (SCOPE_CUE decimal)
                               ↔ q ∈ axis_cues nfc casefold isalnum (quote ref) (SCOPE_CUE decimal))
  ∧ (name ≠ "scope" → ∃ s, s ∈ refs ∧ span_inside v s = true)
  ∧ ∀ w, role name evidence = Some w → sourced w ∧ quote w = quote v.

(** The route of a scope definition in the claim's own paragraph. *)
Record by_definition (evidence : roles) : Prop := {
  bd_element : element_id = "G4";
  bd_policy : ∃ p, bo_local_policy options = Some p ∧ k9_known p = true
                   ∧ scope_definition_identity nfc isalnum c ref g p = Ok true;
  bd_roles : ∀ name v, (name, Some v) ∈ cc_dimensions c →
    defined_role evidence name v }.

(** The route of the typed roles: the scopes of the element, whether the
    reference is the claim's own, and every dimension settled. *)
Record by_roles (evidence : roles) (scopes : pyval) (direct intrinsic : bool) : Prop := {
  br_direct : direct = true → is_local c ref options = true ∧ str_in_val "local_claim" scopes = Ok true;
  br_intrinsic : intrinsic = true → direct = true;
  br_cues : direct = false → axes_unsourced nfc casefold isalnum decimal original c ref evidence = Ok false;
  br_dimensions : ∀ name, name ∈ dict_keys (cc_dimensions c) ++ dict_keys evidence ++ CORE_DIMENSIONS →
    dimension_ok evidence direct intrinsic name;
  br_scope : direct = false → scope_standing original c ref element_id scopes = Ok accepted }.

Lemma definition_standing_accepted evidence l : ∀ rs,
  definition_standing nfc casefold isalnum decimal original tenant c ref evidence l = Ok (accepted, rs) →
  rs = [] ∧ ∀ name v, (name, Some v) ∈ l →
    defined_role evidence name v.
Proof.
  induction l as [|[name [v|]] l IH]; intros rs; cbn [definition_standing].
  - intros [= <-]. split; [done|]. by intros ? ? ?%elem_of_nil.
  - intros ([st r1] & Hc & Heq)%bind_Ok_inv. cbn [fst snd] in Heq.
    destruct (bool_decide (st = accepted)) eqn:Est; cbn [negb] in Heq;
      [apply bool_decide_eq_true in Est as ->|injection Heq as -> _; by rewrite bool_decide_eq_true_2 in Est].
    apply checked_accepted in Hc as [Hs ->].
    destruct (_ && negb (set_eqb _ _)) eqn:E1 in Heq; [done|].
    destruct (negb (name =s? "scope") && _) eqn:E2 in Heq; [done|].
    assert (Hhead : rs = [] ∧ (∀ w, role name evidence = Some w → sourced w ∧ quote w = quote v)
              ∧ ∀ n x, (n, Some x) ∈ l → defined_role evidence n x).
    { destruct (role name evidence) as [w|] eqn:Ew in Heq.
      - apply bind_Ok_inv in Heq as ([o r2] & Hw & Heq). cbn [fst snd] in Heq.
        destruct (negb _ || _) eqn:E3 in Heq; [done|]. apply orb_false_iff in E3 as [H3%negb_false_iff H4%negb_false_iff].
        apply bool_decide_eq_true in H3 as ->. str_prop. apply checked_accepted in Hw as [Hw ->].
        apply bind_Ok_inv in Heq as ([o r3] & Hl & [= -> <-]). apply IH in Hl as [-> Hl].
        split_and!; [done| |exact Hl]. rewrite Ew. by intros ? [= <-].
      - apply bind_Ok_inv in Heq as ([o r3] & Hl & [= -> <-]). apply IH in Hl as [-> Hl].
        split_and!; [done| |exact Hl]. by rewrite Ew. }
    destruct Hhead as (-> & Hev & Hl). split; [done|].
    intros n x [[= -> ->]|Hin]%elem_of_cons; [|by apply Hl]. split_and!; [done| | |done].
    + intros ->. rewrite str_eqb_refl in E1. cbn [andb] in E1. apply negb_false_iff in E1. intros q. revert q. by apply set_eqb_iff.
    + intros Hne%str_eqb_neq. rewrite Hne in E2. cbn [negb andb] in E2.
      apply negb_false_iff, existsb_exists in E2 as (s & Hin & Hs2). exists s. by rewrite list_elem_of_In.
  - intros Heq%IH. destruct Heq as [-> Hl]. split; [done|].
    intros n x [?|Hin]%elem_of_cons; [done|by apply Hl].
Qed.

Lemma typed_standing_accepted definition evidence rs :
  typed_standing nfc casefold isalnum decimal original tenant c ref options element_id definition evidence
    = Ok (accepted, rs) →
  rs = [] ∧ ∃ scopes direct intrinsic, getitem "source_scopes" definition = Ok scopes
    ∧ by_roles evidence scopes direct intrinsic.
Proof.
  unfold typed_standing. intros (scopes & Hsc & Heq)%bind_Ok_inv.
  apply bind_Ok_inv in Heq as (direct & Hdir & Heq). cbv zeta in Heq.
  apply bind_Ok_inv in Heq as (intrinsic & Hint & Heq). apply bind_Ok_inv in Heq as (u & Hu & Heq).
  apply bind_Ok_inv in Heq as ([o r] & Hd & Heq). cbn [fst snd] in Heq. destruct o as [[]|]; [done| |done].
  apply dimensions_standing_settled in Hd as (-> & -> & Hd).
  assert (Hrs : rs = [] ∧ (direct = false → scope_standing original c ref element_id scopes = Ok accepted)).
  { destruct direct; [by injection Heq as <-|]. apply bind_Ok_inv in Heq as (s & Hs & [= -> <-]). done. }
  destruct Hrs as [-> Hscope]. split; [done|]. exists scopes, direct, intrinsic. split; [done|]. split; [| | | |done].
  - intros ->. by destruct (is_local c ref options).
  - intros ->. destruct direct; [done|]. unfold is_intrinsic in Hint.
    apply bind_Ok_inv in Hint as (p & Hp & Hint). rewrite andb_false_r in Hint. cbn [andb] in Hint.
    by destruct (bo_local_policy options); injection Hp as <-.
  - by intros ->.
  - intros name Hin. rewrite Forall_forall in Hd. apply Hd. unfold dimension_names. by apply elem_of_str_set_sorted.
Qed.

(** What every acceptance rests on. *)
Record sound_sources (pack : RulePackSnapshot) : Prop := {
  ss_identity : binding_identity original tenant c pack = true;
  ss_scope : scope_rejection_reason nfc isalnum element_id [ref] pack g None = Ok None;
  ss_quality : cl_source_quality claim = "verified";
  ss_quote : claim_quote_matches_sources nfc (cl_quote claim) refs g = Ok true;
  ss_sources : ∀ s, s ∈ refs ++ [ref] → sourced s }.

Lemma binding_accepted_inv pack tags rs :
  binding_told nfc casefold isalnum decimal original tenant c ref options element_id pack tags = Ok (accepted, rs) →
  rs = [] ∧ sound_sources pack
  ∧ ∃ els definition, element_items pack = Ok els ∧ element_named els element_id = Ok (Some definition)
    ∧ (by_definition (default [] tags)
       ∨ ∃ t scopes direct intrinsic, tags = Some t ∧ getitem "source_scopes" definition = Ok scopes
          ∧ by_roles t scopes direct intrinsic).
Proof.
  unfold binding_told. intros Hb. apply bind_Ok_inv in Hb as (? & _ & Hb). apply bind_Ok_inv in Hb as (? & _ & Hb).
  apply bind_Ok_inv in Hb as (? & _ & Hb). apply bind_Ok_inv in Hb as (? & Hid%require_Ok & Hb).
  apply bind_Ok_inv in Hb as (els & Hels & Hb). apply bind_Ok_inv in Hb as (o & Hnamed & Hb).
  apply bind_Ok_inv in Hb as (definition & ->%of_option_Ok & Hb).
  apply bind_Ok_inv in Hb as (refusal & Href & Hb). destruct refusal as [|]; [done|].
  apply bind_Ok_inv in Hb as (evidence & Hev & Hb).
  assert (He : evidence = default [] tags).
  { destruct tags as [t|]; [|by injection Hev as <-].
    unfold dimensions_of in Hev. by apply bind_Ok_inv in Hev as (? & _ & [= <-]). }
  subst evidence. apply bind_Ok_inv in Hb as (? & _ & Hb).
  unfold sourced_standing in Hb. apply bind_Ok_inv in Hb as (quoted & Hq & Hb). destruct quoted; [cbn [negb] in Hb|done].
  apply bind_Ok_inv in Hb as ([o r1] & Hsrc & Hb). cbn [fst snd] in Hb. destruct o as [u|]; [|done].
  apply bind_Ok_inv in Hb as (route & Hroute & Hb).
  assert (Hu : u = false).
  { destruct u; [|done]. unfold on_definition_route in Hroute. destruct (bo_local_policy options).
    - apply bind_Ok_inv in Hroute as (? & _ & [= <-]). done.
    - injection Hroute as <-. done. }
  subst u. apply check_sources_accepted in Hsrc as (Hqual%negb_false_iff & Hall & ->). str_prop.
  assert (Hsound : sound_sources pack) by (split; [done|done|done|done|by apply Forall_forall]).
  destruct route.
  - apply bind_Ok_inv in Hb as ([d r2] & Hd & [= -> <-]). apply definition_standing_accepted in Hd as [-> Hd].
    split_and!; [done|done|]. exists els, definition. split_and!; [done|done|]. left.
    unfold on_definition_route in Hroute. destruct (bo_local_policy options) as [p|] eqn:Ep; [|done].
    apply bind_Ok_inv in Hroute as (? & Hp%require_Ok & Hroute). cbn [negb andb] in Hroute.
    destruct (element_id =s? "G4") eqn:Eg; [|done]. str_prop. split; [done|by exists p|done].
  - destruct tags as [t|]; cbn [orb is_Some] in Hb; [|by rewrite bool_decide_eq_false_2 in Hb by by intros [? ?]].
    rewrite bool_decide_eq_true_2 in Hb by by eexists. cbn [orb negb] in Hb.
    apply bind_Ok_inv in Hb as ([d r2] & Ht & [= -> <-]). apply typed_standing_accepted in Ht as [-> Ht].
    split_and!; [done|done|]. exists els, definition. split_and!; [done|done|]. right.
    destruct Ht as (scopes & direct & intrinsic & Hsc & Hbr). exists t, scopes, direct, intrinsic. done.
Qed.

(** Two cells of one table, by the parser run, the page and the table. *)
Definition table_mates (a b : SourceRef) : Prop :=
  ∃ x y t, selected_candidate original a = Ok x ∧ selected_candidate original b = Ok y
    ∧ cb_table_native_id x = Some t ∧ t ≠ [] ∧ cb_table_native_id y = Some t
    ∧ ns_parser_run_id (cb_source x) = ns_parser_run_id (cb_source y)
    ∧ physical_page (cb_source x) = physical_page (cb_source y).

Lemma same_table_mates a b : same_table original a b = Ok true → table_mates a b.
Proof.
  unfold same_table. intros (x & Hx & Hb)%bind_Ok_inv. apply bind_Ok_inv in Hb as (y & Hy & [= Hb]).
  destruct (cb_table_native_id x) as [t|] eqn:Et; [|done].
  apply andb_true_iff in Hb as [[[Hn Hr]%andb_true_iff Hp%Z.eqb_eq]%andb_true_iff Ht%bool_decide_eq_true]. str_prop.
  exists x, y, t. split_and!; try done. by destruct t.
Qed.


Lemma scope_standing_accepted scopes :
  scope_standing original c ref element_id scopes = Ok accepted →
  (str_in_val "same_table" scopes = Ok true
   ∧ ∃ s x y k, s ∈ refs ∧ table_mates s ref ∧ selected_candidate original s = Ok x
       ∧ selected_candidate original ref = Ok y ∧ cb_column x = Some k ∧ cb_column y = Some k)
  ∨ str_in_val "global_bound" scopes = Ok true.
Proof.
  unfold scope_standing. intros (tables & Ht & Heq)%bind_Ok_inv. cbv zeta in Heq.
  apply bind_Ok_inv in Heq as (it & Hit & Heq). destruct it.
  - left. destruct (nonempty_list _) in Hit; [|done]. split; [done|].
    apply bind_Ok_inv in Heq as (y & Hy & Heq). destruct (at_least 0 (cb_row y)); [|done].
    destruct (at_least 0 (cb_column y)) as [k|] eqn:Ek; [|done].
    apply bind_Ok_inv in Heq as (same & Hs & Heq). destruct same; [|done].
    apply any_result_true in Hs as (s & Hin & Hs).
    apply bind_Ok_inv in Hs as (x & Hx & [= Hc%bool_decide_eq_true]).
    apply list_elem_of_fmap in Hin as ([s' b] & -> & Hin). apply elem_of_lfilter in Hin as [Hin Hb]. cbn in Hb. subst b.
    apply map_result_Ok in Ht. apply list_elem_of_lookup in Hin as (i & Hi).
    eapply Forall2_lookup_r in Hi as (s'' & Hs'' & Hm); [|exact Ht].
    apply bind_Ok_inv in Hm as (b & Hm & [= -> ->]).
    exists s', x, y, k. split_and!; [by eapply list_elem_of_lookup_2|by apply same_table_mates|done|done|done|].
    unfold at_least in Ek. destruct (cb_column y) as [n|]; cbn in Ek; [|done]. by destruct (n <? 0) in Ek.
  - right. apply bind_Ok_inv in Heq as (gl & Hg & Heq). destruct gl; [done|].
    apply bind_Ok_inv in Heq as (l & _ & [= Heq]). by destruct (_ && _).
Qed.

(** C11: nothing is bound that was not verified.  When a reference is accepted
    for an element, the claim, the graph and the rule pack belong to the
    tenant and name the same document, parse and source; the claim's quality
    is verified and its quote is the text of its sources; every source of the
    claim and the reference resolve to a block with a winner and are found
    verbatim by the verifier; the reference is not report-wide prose for an
    activity scope; and no reason is reported. *)
Theorem binding_needs_sources pack tags diagnostics after :
  accept_binding nfc casefold isalnum decimal original tenant c ref options element_id pack tags diagnostics
    = Ok (accepted, after) →
  sound_sources pack ∧ after = diagnostics.
Proof.
  intros ([st rs] & Hb & [= -> <-])%bind_Ok_inv. apply binding_accepted_inv in Hb as (-> & Hs & _).
  split; [done|]. unfold diagnosed. cbn [foldl]. destruct (is_quality _); [by destruct diagnostics|done].
Qed.


(** C13: an acceptance stays within the scopes the pinned pack gives the
    element.  Either the policy of local attribution admits a definition of
    the scope that stands in the claim's own paragraph, or the element names
    one of three scopes and the reference is there: [local_claim] and the
    reference lies in a span of the claim, [same_table] and it is a cell of
    the table and of the column of a source of the claim, or
    [global_bound]. *)
Theorem binding_within_scopes pack tags diagnostics after :
  accept_binding nfc casefold isalnum decimal original tenant c ref options element_id pack tags diagnostics
    = Ok (accepted, after) →
  by_definition (default [] tags)
  ∨ ∃ els definition scopes, element_items pack = Ok els
      ∧ element_named els element_id = Ok (Some definition) ∧ getitem "source_scopes" definition = Ok scopes
      ∧ ((str_in_val "local_claim" scopes = Ok true ∧ is_local c ref options = true)
         ∨ (str_in_val "same_table" scopes = Ok true
            ∧ ∃ s x y k, s ∈ refs ∧ table_mates s ref ∧ selected_candidate original s = Ok x
                ∧ selected_candidate original ref = Ok y ∧ cb_column x = Some k ∧ cb_column y = Some k)
         ∨ str_in_val "global_bound" scopes = Ok true).
Proof.
  intros ([st rs] & Hb & [= -> <-])%bind_Ok_inv.
  apply binding_accepted_inv in Hb as (-> & _ & els & d & Hels & Hd & [Hdef|Hr]); [by left|right].
  destruct Hr as (t & scopes & direct & intrinsic & _ & Hsc & [Hdir _ _ _ Hscope]).
  exists els, d, scopes. split_and!; [done|done|done|]. destruct direct.
  - left. by destruct (Hdir eq_refl).
  - right. by apply scope_standing_accepted, Hscope.
Qed.
End binding_spec.

(* ------------------------------------------------------------------ *)
(** ** The roles a claim gives its own spans *)
(* ------------------------------------------------------------------ *)

Section local_tags.
Context (r : SourceRef) (c : ClaimContext).
Notation refs := (cl_source_refs (cc_claim c)).

(** A span as the parser stores it: within the offsets of a text, of a source
    whose identifier has no colon. *)
Definition keyed_span (s : SourceRef) : Prop :=
  0 ≤ char_start s ∧ char_start s < char_end s ∧ char_end s < 10 ^ 19 ∧ 58%N ∉ source_id s.

Definition key_of (s : SourceRef) : pystr := span_key (source_id s) (char_start s) (char_end s).

Lemma split_char_free ch a : ch ∉ a → split_char ch a = [a].
Proof.
  induction a as [|x a IH]; [done|]. intros [Hx Ha]%not_elem_of_cons. cbn [split_char].
  rewrite IH by done. destruct (N.eqb_spec x ch); [congruence|done].
Qed.

Lemma split_char_app ch a b : ch ∉ a → split_char ch (a ++ ch :: b) = a :: split_char ch b.
Proof.
  induction a as [|x a IH]; cbn [app split_char]; [by rewrite N.eqb_refl|].
  intros [Hx Ha]%not_elem_of_cons. rewrite IH by done. destruct (N.eqb_spec x ch); [congruence|done].
Qed.

Lemma digits_no_colon s : all_digits s = true → 58%N ∉ s.
Proof.
  intros Ha Hin%list_elem_of_In. unfold all_digits in Ha. rewrite forallb_forall in Ha. by apply Ha in Hin.
Qed.

Lemma Z_dec_of_nonneg z : 0 ≤ z → Z_dec z = N_dec (Z.to_N z).
Proof. by destruct z. Qed.

Lemma printed_nat_dec z : 0 ≤ z < 10 ^ 19 → printed_nat (Z_dec z) = Some z.
Proof.
  intros [Hz Hb]. unfold printed_nat. rewrite Z_dec_of_nonneg by done.
  destruct (N_dec_spec (Z.to_N z)) as (Hv & Ha & _). rewrite Hv, Ha, Z2N.id by done.
  rewrite Z_dec_of_nonneg, str_eqb_refl by done. cbn [andb].
  assert (Hl : (length (N_dec (Z.to_N z)) ≤ 19)%nat).
  { apply N_dec_length; [|lia]. change (10 ^ N.of_nat 19)%N with (Z.to_N (10 ^ 19)). lia. }
  unfold py_len. by destruct (Z.leb_spec (Z.of_nat (length (N_dec (Z.to_N z)))) 4300); [|lia].
Qed.

Lemma scoped_key_of s : keyed_span s → scoped_key (key_of s) = Some (source_id s, char_start s, char_end s).
Proof.
  intros (H0 & Hlt & Hb & Hid). unfold scoped_key, key_of, span_key.
  assert (Hdig : ∀ z, 0 ≤ z → 58%N ∉ Z_dec z).
  { intros z Hz. rewrite Z_dec_of_nonneg by done. apply digits_no_colon. by destruct (N_dec_spec (Z.to_N z)) as (_ & ? & _). }
  cbn [app]. rewrite split_char_app, split_char_app, split_char_free by (auto; apply Hdig; lia).
  rewrite !printed_nat_dec by lia. cbn.
  destruct (Z.ltb_spec (char_start s) 0); [lia|]. destruct (Z.leb_spec (char_end s) (char_start s)); [lia|done].
Qed.

Lemma key_of_inj s s' : keyed_span s → keyed_span s' → key_of s = key_of s' →
  source_id s = source_id s' ∧ char_start s = char_start s' ∧ char_end s = char_end s'.
Proof. intros Hs Hs' Hk. pose proof (scoped_key_of s Hs) as H1. rewrite Hk, (scoped_key_of s' Hs') in H1. by simplify_eq. Qed.

Lemma starts_with_prefix p s : starts_with p s = true → ∃ t, s = p ++ t.
Proof.
  revert s. induction p as [|x p IH]; intros s; [by exists s|]. destruct s as [|y s]; [done|]. cbn [starts_with].
  intros [->%N.eqb_eq (t & ->)%IH]%andb_true_iff. by exists t.
Qed.

(** The key of a span starts with the identifier of its own source only. *)
Lemma key_prefix id s : 58%N ∉ id → keyed_span s →
  starts_with (id ++ ":") (key_of s) = true ↔ source_id s = id.
Proof.
  intros Hid (_ & _ & _ & Hs). unfold key_of, span_key. split.
  - intros (t & Ht)%starts_with_prefix. rewrite <- app_assoc in Ht. cbn [app] in Ht.
    apply (f_equal (split_char 58)) in Ht. rewrite (split_char_app _ (source_id s)), (split_char_app _ id) in Ht by done. by injection Ht.
  - intros ->. rewrite app_assoc. generalize (id ++ ":") as p. intros p. clear.
    induction p as [|x p IH]; [done|]. cbn [app starts_with]. by rewrite N.eqb_refl.
Qed.

(** The roles of the claim depend on a span by its key only. *)
Lemma local_roles_key s s' : keyed_span s → keyed_span s' → key_of s = key_of s' → local_roles c s = local_roles c s'.
Proof.
  intros Hs Hs' (Hi & Ha & Hb)%key_of_inj; [|done..]. unfold local_roles, span_inside. by rewrite Hi, Ha, Hb.
Qed.

Lemma dict_set_present {A} k (v : A) d : (k, v) ∈ d → NoDup d.*1 → dict_set k v d = d.
Proof.
  induction d as [|[k' v'] d IH]; [by intros ?%elem_of_nil|]. cbn [dict_set]. rewrite fmap_cons. cbn [fst].
  intros [[= -> ->]|Hin]%elem_of_cons [Hn Hnd]%NoDup_cons; [by rewrite str_eqb_refl|].
  destruct (str_eqb_spec k k') as [->|_]; [|by rewrite IH].
  exfalso. apply Hn, list_elem_of_fmap. by exists (k', v).
Qed.

(** A dictionary of spans by key keeps one span for each key. *)
Lemma dict_of_keyed {A B} (key : A → pystr) (val : A → B) (l : list A) :
  (∀ x y, x ∈ l → y ∈ l → key x = key y → val x = val y) →
  ∃ L, dict_of ((λ x, (key x, val x)) <$> l) = (λ x, (key x, val x)) <$> L
    ∧ NoDup (key <$> L) ∧ (∀ x, x ∈ L → x ∈ l) ∧ ∀ x, x ∈ l → key x ∈ key <$> L.
Proof.
  induction l as [|x l IH] using rev_ind; intros Hv.
  { exists []. split_and!; [done|constructor|done|by intros ? ?%elem_of_nil]. }
  destruct IH as (L & Hd & Hnd & Hsub & Hall).
  { intros y z Hy Hz. apply Hv; apply elem_of_app; by left. }
  assert (Hfst : ((λ x, (key x, val x)) <$> L).*1 = key <$> L) by by rewrite <- list_fmap_compose.
  assert (Hsnoc : dict_of ((λ x, (key x, val x)) <$> l ++ [x]) = dict_set (key x) (val x) ((λ x, (key x, val x)) <$> L)).
  { unfold dict_of in *. rewrite fmap_app, foldl_app, Hd. done. }
  rewrite Hsnoc. destruct (decide (key x ∈ key <$> L)) as [Hin|Hnin].
  - exists L. split_and!; [|done|intros y Hy; apply elem_of_app; left; by apply Hsub|].
    + apply dict_set_present; [|by rewrite Hfst]. apply list_elem_of_fmap in Hin as (y & Hk & Hy).
      apply list_elem_of_fmap. exists y. split; [|done]. rewrite Hk. f_equal.
      apply Hv; [apply elem_of_app; right; by left|apply elem_of_app; left; by apply Hsub|done].
    + intros y [Hy| ->%list_elem_of_singleton]%elem_of_app; auto.
  - exists (L ++ [x]). split_and!.
    + rewrite dict_set_fresh by by rewrite Hfst. by rewrite fmap_app.
    + rewrite fmap_app. apply NoDup_app. split_and!; [done| |apply NoDup_singleton].
      by intros k Hk ->%list_elem_of_singleton.
    + intros y [Hy| ->%list_elem_of_singleton]%elem_of_app; apply elem_of_app; [left; by apply Hsub|right; by left].
    + intros y [Hy| ->%list_elem_of_singleton]%elem_of_app; rewrite fmap_app; apply elem_of_app;
        [left; by apply Hall|right; by left].
Qed.

Lemma local_role_within s : source_id s = source_id r →
  forallb (role_within r (char_start s) (char_end s)) (local_roles c s) = true.
Proof.
  intros Hid. apply forallb_forall. intros kv Hin. apply list_elem_of_In in Hin. unfold local_roles in Hin.
  apply list_elem_of_fmap in Hin as ([k o] & -> & _). unfold role_within. cbn [fst snd].
  destruct o as [v|]; [|done]. destruct (span_inside v s) eqn:E; [|done]. unfold span_inside in E.
  rewrite Hid in E. by destruct (_ =s? _).
Qed.

(** Over the spans of one source, the reference finds the spans around it. *)
Lemma matching_local L : Forall keyed_span L → (∀ s, s ∈ L → source_id s = source_id r) →
  matching_roles r ((λ s, (key_of s, local_roles c s)) <$> L)
  = Some (local_roles c <$> List.filter (span_inside r) L).
Proof.
  induction L as [|s L IH]; intros Hk Hid; [done|]. apply Forall_cons in Hk as [Hs Hk].
  rewrite fmap_cons. cbn [matching_roles List.filter]. rewrite scoped_key_of by done. cbn [mbind option_bind].
  rewrite IH by (done || (intros; apply Hid; by right)).
  assert (Hids : source_id s = source_id r) by (apply Hid; by left).
  replace (span_inside r s) with ((char_start s <=? char_start r) && (char_start r <? char_end r) && (char_end r <=? char_end s))
    by (unfold span_inside; by rewrite Hids, str_eqb_refl).
  destruct (_ && _ && _); [|done]. by rewrite local_role_within.
Qed.

Lemma tags_of_claim : Forall keyed_span refs → 58%N ∉ source_id r →
  ∃ L, NoDup (key_of <$> L) ∧ (∀ s, s ∈ L → s ∈ refs ∧ source_id s = source_id r)
    ∧ (∀ s, s ∈ refs → source_id s = source_id r → key_of s ∈ key_of <$> L)
    ∧ relation_tags_for r (local_relation_tags c)
      = match L with
        | [] => Some (default [] (dict_get (source_id r) (local_relation_tags c)))
        | _ => match List.filter (span_inside r) L with [s] => Some (local_roles c s) | _ => None end
        end.
Proof.
  intros Hk Hr. rewrite Forall_forall in Hk.
  destruct (dict_of_keyed key_of (local_roles c) refs) as (L & Hd & Hnd & Hsub & Hall).
  { intros x y Hx Hy. apply local_roles_key; by apply Hk. }
  exists (List.filter (λ s, source_id s =s? source_id r) L). split_and!.
  - clear -Hnd. induction L as [|s L IH]; [done|]. cbn [List.filter]. rewrite fmap_cons in Hnd.
    apply NoDup_cons in Hnd as [Hn Hnd]. case_match; [|auto]. rewrite fmap_cons. constructor; [|auto].
    intros (x & Hx & [Hin _]%elem_of_lfilter)%list_elem_of_fmap. apply Hn, list_elem_of_fmap. by exists x.
  - intros s [Hin Hid]%elem_of_lfilter. str_prop. auto.
  - intros s Hin Hid. apply Hall in Hin as Hin'. apply list_elem_of_fmap in Hin' as (x & Hx & HxL).
    apply list_elem_of_fmap. exists x. split; [done|]. apply elem_of_lfilter. split; [done|].
    apply key_of_inj in Hx as [Hx _]; [|by apply Hk|by apply Hk, Hsub]. rewrite <- Hx, Hid. apply str_eqb_refl.
  - assert (Hl : local_relation_tags c = (λ s, (key_of s, local_roles c s)) <$> L) by exact Hd.
    assert (Hf : List.filter (λ kv : pystr * roles, starts_with (source_id r ++ ":") kv.1) ((λ s, (key_of s, local_roles c s)) <$> L)
             = (λ s, (key_of s, local_roles c s)) <$> List.filter (λ s, source_id s =s? source_id r) L).
    { clear -Hk Hsub Hr. induction L as [|s L IH]; [done|]. rewrite fmap_cons. cbn [List.filter fst].
      rewrite IH by (intros; apply Hsub; by right).
      assert (Hks : keyed_span s) by (apply Hk, Hsub; by left). pose proof (key_prefix (source_id r) s Hr Hks) as Hp.
      destruct (starts_with _ _); destruct (str_eqb_spec (source_id s) (source_id r)); try done;
        [by destruct (n (proj1 Hp eq_refl))|by specialize (proj2 Hp e)]. }
    rewrite <- Hl in Hf. unfold relation_tags_for. cbv zeta. rewrite Hf. clear Hl Hf.
    set (M := List.filter _ L) in *.
    assert (HM : ∀ s, s ∈ M → keyed_span s ∧ source_id s = source_id r).
    { intros s [Hin Hid]%elem_of_lfilter. str_prop. split; [by apply Hk, Hsub|done]. }
    assert (Hm : matching_roles r ((λ s, (key_of s, local_roles c s)) <$> M)
                 = Some (local_roles c <$> List.filter (span_inside r) M))
      by (apply matching_local; [apply Forall_forall|]; intros; by apply HM).
    clearbody M. destruct M as [|s M']; [done|].
    transitivity (match matching_roles r ((λ s, (key_of s, local_roles c s)) <$> (s :: M')) with
                  | Some [l] => Some l | _ => None end); [done|]. rewrite Hm.
    by destruct (List.filter (span_inside r) (s :: M')) as [|x [|y l]].
Qed.

(** C14: a reference finds exactly the roles of the span of the claim it lies
    in.  With the keys [local_relation_tags] prints, [relation_tags_for]
    reads the span back and answers its roles when the spans around the
    reference have one place, and answers nothing when two of them differ or
    when the claim has spans of the source and none is around it. *)
Theorem local_roles_found :
  Forall keyed_span refs → 58%N ∉ source_id r →
  (∀ s, s ∈ refs → span_inside r s = true →
    (∀ s', s' ∈ refs → span_inside r s' = true → key_of s' = key_of s) →
    relation_tags_for r (local_relation_tags c) = Some (local_roles c s))
  ∧ (∀ s s', s ∈ refs → s' ∈ refs → span_inside r s = true → span_inside r s' = true → key_of s ≠ key_of s' →
      relation_tags_for r (local_relation_tags c) = None)
  ∧ ((∃ s, s ∈ refs ∧ source_id s = source_id r) → (∀ s, s ∈ refs → span_inside r s = false) →
      relation_tags_for r (local_relation_tags c) = None).
Proof.
  intros Hk Hr. destruct (tags_of_claim Hk Hr) as (L & Hnd & Hsub & Hall & Htags). rewrite Htags.
  rewrite Forall_forall in Hk.
  assert (Hid : ∀ s, span_inside r s = true → source_id s = source_id r).
  { intros s Hs. unfold span_inside in Hs. apply andb_true_iff in Hs as [Hs _]. by str_prop. }
  assert (Hmem : ∀ s, s ∈ refs → span_inside r s = true → ∃ x, x ∈ List.filter (span_inside r) L ∧ key_of x = key_of s).
  { intros s Hs Hin. apply Hid in Hin as He. specialize (Hall s Hs He).
    apply list_elem_of_fmap in Hall as (x & Hx & HxL). exists x. split; [|done]. apply elem_of_lfilter. split; [done|].
    destruct (Hsub x HxL) as [HxR _]. apply key_of_inj in Hx as (H1 & H2 & H3); [|by apply Hk..].
    unfold span_inside in *. by rewrite <- H1, <- H2, <- H3. }
  assert (Hnil : ∀ x, x ∈ List.filter (span_inside r) L → L ≠ []) by (intros x Hx ->; by apply elem_of_nil in Hx).
  split_and!.
  - intros s Hs Hin Huniq. destruct (Hmem s Hs Hin) as (x & Hx & Hxk). pose proof (Hnil x Hx) as Hne.
    assert (Hone : List.filter (span_inside r) L = [x]).
    { assert (Hsame : ∀ y, y ∈ List.filter (span_inside r) L → key_of y = key_of x).
      { intros y [Hy Hyin]%elem_of_lfilter. rewrite Hxk. apply Huniq; [by apply Hsub|done]. }
      assert (Hnf : NoDup (key_of <$> List.filter (span_inside r) L)) by by apply lfilter_keys_NoDup.
      clear -Hx Hsame Hnf. destruct (List.filter (span_inside r) L) as [|y [|z l]]; [by apply elem_of_nil in Hx| |].
      - by apply list_elem_of_singleton in Hx as ->.
      - exfalso. rewrite !fmap_cons in Hnf. apply NoDup_cons in Hnf as [Hn _]. apply Hn.
        rewrite (Hsame y), <- (Hsame z) by (left || (right; left)). left. }
    rewrite Hone. destruct L; [done|]. f_equal. apply elem_of_lfilter in Hx as [HxL _].
    apply local_roles_key; [by apply Hk, Hsub|by apply Hk|done].
  - intros s s' Hs Hs' Hin Hin' Hne. destruct (Hmem s Hs Hin) as (x & Hx & Hxk). destruct (Hmem s' Hs' Hin') as (y & Hy & Hyk).
    pose proof (Hnil x Hx) as HL. destruct L as [|l0 L]; [done|].
    destruct (List.filter _ _) as [|a [|b F]]; [done| |done].
    apply list_elem_of_singleton in Hx as ->, Hy as ->. congruence.
  - intros (s & Hs & He) Hout. specialize (Hall s Hs He). destruct L as [|l0 L]; [by apply elem_of_nil in Hall|].
    destruct (List.filter _ _) as [|a [|b F]] eqn:EF; [done| |done]. exfalso.
    assert (Ha : a ∈ List.filter (span_inside r) (l0 :: L)) by (rewrite EF; left).
    apply elem_of_lfilter in Ha as [Ha Hai]. rewrite Hout in Hai; [done|by apply Hsub].
Qed.
End local_tags.

(* ------------------------------------------------------------------ *)
(** ** One claim and the paragraphs around it *)
(* ------------------------------------------------------------------ *)

Section sample.
#[local] Existing Instance Checksum.

Definition claim_text : pystr := "ACME CO2 2023 cut by 50 t".
Definition other_text : pystr := "ACME CO2 2023 was 100 t".
Definition older_text : pystr := "ACME CO2 2022 was 150 t".
Definition scoped_text : pystr := "ACME CO2 2023 Scope 1 was 80 t".

Definition bound_blocks : list CanonicalBlock :=
  [cell_block 1 "paragraph" claim_text None None; cell_block 2 "paragraph" other_text None None;
   cell_block 3 "paragraph" older_text None None; cell_block 4 "paragraph" scoped_text None None].

Definition bound_graph : CanonicalDocumentGraph :=
  {| gr_tenant_id := tenant_uuid; gr_document_version_id := version_id;
     gr_parse_manifest_id := manifest_id; gr_source_sha256 := sample_sha;
     gr_blocks := bound_blocks; gr_edges := []; gr_issues := [];
     gr_candidates := [sample_batch run_a "native" (bound_blocks ≫= kb_candidates) []];
     gr_validation_profile := "fast_preview" |}.

Definition bound_snapshot : Snapshot := {| sn_graph := bound_graph; sn_spans := None |}.

Definition scoped_element (id : pystr) (scopes : list pystr) (more : pydict) : pyval :=
  PDict ([("id", PStr id); ("source_scopes", strs_val scopes)] ++ more).

Definition bound_pack : RulePackSnapshot :=
  {| rule_pack_id := "rp"; tenant_id := tenant_uuid; version := "v2"; effective_date := "2026-09-25";
     mode := "disclosure"; status := "active"; ontology_version := "o1";
     source_document_sha256 := "s"; sha256 := sample_sha; files := []; unresolved_gap_ids := [];
     approved_by := Some "u"; approved_at := Some "t";
     content := [("rubric/elements.yaml", json_text (PDict [("elements", PList
       [scoped_element "P1" ["local_claim"] []; scoped_element "P3" ["local_claim"; "global_bound"] [];
        scoped_element "M2" ["local_claim"; "global_bound"] [("binding_policy", PStr ACTIVITY_SCOPE_V2)]])]))] |}.

Definition bound_claim : Claim :=
  {| cl_claim_id := run_b; cl_tenant_id := tenant_uuid; cl_document_version_id := version_id;
     cl_parse_manifest_id := manifest_id; cl_source_sha256 := sample_sha; cl_quote := claim_text;
     cl_source_refs := [span 1 claim_text 0 (py_len claim_text)]; cl_source_quality := "verified";
     cl_topic_ids := []; cl_receipt := cl_receipt evidence_claim; cl_revision := 1 |}.

(** The first three words of a text as its entity, metric and period. *)
Definition three_roles (n : N) (text : pystr) : roles :=
  [("entity", Some (span n text 0 4)); ("metric", Some (span n text 5 8));
   ("reporting_period", Some (span n text 9 13))].

Definition bound_context : ClaimContext :=
  {| cc_claim := bound_claim; cc_dimensions := three_roles 1 claim_text |}.

(** The quality policy reports its reasons. *)
Definition telling : BindingOptions :=
  {| bo_local_value_identity := false; bo_local_policy := None; bo_structural_policy := Some Q1_R12;
     bo_edge_whitespace := false |}.

Definition bound (n : N) (text element : pystr) : result (BindingState * option (list pystr)) :=
  accept_binding nfc_sample lower ascii_alnum (λ d, if is_digit d then Some (Z.of_N d - 48) else None) bound_snapshot
    tenant_uuid bound_context (span n text 0 (py_len text)) telling element bound_pack
    (if (n =? 1)%N then relation_tags_for (span n text 0 4) (local_relation_tags bound_context)
     else Some (three_roles n text)) (Some []).

(** The claim's own span, another paragraph with the same roles, one with
    another year and one that names a scope no role sources; and an element
    whose scopes do not reach outside the claim. *)
Example bindings :
  bound 1 claim_text "P1" = Ok (accepted, Some [])
  ∧ bound 2 other_text "P3" = Ok (accepted, Some [])
  ∧ bound 3 older_text "P3" = Ok (rejected, Some ["dimension_mismatch:reporting_period" : pystr])
  ∧ bound 4 scoped_text "P3" = Ok (undetermined, Some [])
  ∧ bound 2 other_text "P1" = Ok (rejected, Some []).
Proof. vm_compute. done. Qed.

Lemma bound_other : bound 2 other_text "P3" = Ok (accepted, Some []).
Proof. vm_compute. reflexivity. Qed.

Abbreviation other_ref := (span 2 other_text 0 (py_len other_text)).
Abbreviation other_roles := (three_roles 2 other_text).

Lemma binding_needs_sources_witness :
  sourced nfc_sample bound_snapshot tenant_uuid other_ref
  ∧ sound_sources nfc_sample ascii_alnum bound_snapshot tenant_uuid bound_context other_ref "P3" bound_pack.
Proof.
  destruct (binding_needs_sources _ _ _ _ _ _ _ _ _ _ _ _ _ _ bound_other) as [Hs _].
  split; [|exact Hs]. apply (ss_sources _ _ _ _ _ _ _ _ Hs). right. left.
Defined.


Lemma binding_within_scopes_witness :
  by_definition nfc_sample lower ascii_alnum (λ d, if is_digit d then Some (Z.of_N d - 48) else None) bound_snapshot
    tenant_uuid bound_context other_ref telling "P3" other_roles
  ∨ ∃ els definition scopes, element_items bound_pack = Ok els
      ∧ element_named els "P3" = Ok (Some definition) ∧ getitem "source_scopes" definition = Ok scopes.
Proof.
  destruct (binding_within_scopes _ _ _ _ _ _ _ _ _ _ _ _ _ _ bound_other)
    as [Hd|(els & d & sc & He & Hd & Hs & _)]; [left; exact Hd|right].
  exists els, d, sc. split; [exact He|split; [exact Hd|exact Hs]].
Defined.

Lemma local_roles_found_witness :
  relation_tags_for (span 1 claim_text 0 4) (local_relation_tags bound_context)
  = Some (local_roles bound_context (span 1 claim_text 0 (py_len claim_text))).
Proof.
  apply (local_roles_found (span 1 claim_text 0 4) bound_context).
  - constructor; [|constructor]. unfold keyed_span.
    split; [vm_compute; discriminate|split; [vm_compute; reflexivity|split; [vm_compute; reflexivity|]]].
    apply (bool_decide_unpack _). vm_compute. exact I.
  - apply (bool_decide_unpack _). vm_compute. exact I.
  - left.
  - vm_compute. reflexivity.
  - intros s' Hs' _. apply list_elem_of_singleton in Hs' as ->. reflexivity.
Defined.
End sample.
